(* ===== verification/_CoqProject ===== *)
-Q . S2P
Prelude.v
CString.v
FileSys.v
ZipReader.v
ZipSort.v
ZipCrc.v
Unzip.v
ZipFormat.v
UnzipProofs.v
Unpacked.v
ZipSafe.v
Deflate.v
Inflate.v
HuffTable.v
InflateInput.v
InflateInv.v
InflateSteps.v
InflateProofs.v
Resources.v
ResourcesProofs.v
FindClasses.v
Codegen.v
CodegenProofs.v
Jni.v
ClassIndex.v
ClassPath.v
LinkLoad.v
Boot.v
BootProofs.v
BackTrace.v
Xatmi.v
Exceptions.v
TypedBuffer.v
Calls.v
AtmiCtxOps.v
Convert.v
Queues.v
Logging.v
Callback.v
Server.v
XaConfig.v
TermSig.v
Xa.v
Ubf.v
UbfEval.v
UbfIO.v
Frame.v
UbfNatives.v
QueueNatives.v
Natives.v
Owners.v
CallSpec.v
GiveBack.v
ServerProofs.v
Serving.v
XaProofs.v
UbfSpec.v
UbfIOProofs.v
Payload.v
Toy.v
ToyServer.v
XaSwitch.v
MetaCache.v
MetaCacheProofs.v
LinkMain.v
LinkMainProofs.v
LinkChain.v
ToyZip.v
NativeTable.v
NativeLoader.v
LinkClaims.v
BootClaims.v
LinkMainClaims.v
LibraryClaims.v
BindingClaims.v
ServerClaims.v
XaClaims.v
SignalClaims.v
InflateClaims.v
ZipClaims.v
