(* ===== verification/Prelude.v ===== *)
(** * Enduro/X Java: a verification development

    endurox-java lets Java programs be clients and servers of the Enduro/X transaction
    monitor.  Its C code has two halves, which this development models separately and
    joins where the first produces what the second reads.

    The linker and the binary it builds.  [exjld] (exjld/) unpacks jar files, scans the
    work directory, turns every class and resource file into a C array with a pool of
    worker threads, prints a C program [jmain.c] with two sorted tables and builds it.  The
    built program starts a Java virtual machine whose class loader asks native methods
    (libexjlds/) for classes and resources; they search the tables.

    The binding.  Every native method of [AtmiCtx], [TypedBuffer] and its subclasses
    (libsrc/c/) enters the XATMI context of the Java object, takes C buffers, strings and
    arrays out of Java objects, calls the Enduro/X library and brings the reply or an
    exception back.  In the other direction the library calls back: a server's main loop
    hands requests to Java, expressions have functions in Java, the transaction manager
    drives a Java data source through the XA switch, signals reach a Java handler.

    ** Files

    - [Prelude]: return codes, integer widths, list lemmas.
    - [CString]: C strings, [strcmp], bounded copies, decimal printing and its inverse.
    - [FileSys]: the file system calls of the unpacking, over a tree of directories, files
      and links; programs as trees of calls ([prog]), crews of programs as the step relation
      [crew_step], and a rely-guarantee logic ([holds]).
    - [ZipReader], [ZipCrc]: the reader of exjld/miniz.h with its index by name and its
      checksum, a read outside of a buffer being [OutOfBounds].  [ZipSort]: its heap sort.
      [Unzip]: [zip_extract] and [mkpath] of exjld/zip.c.
      [ZipFormat]: what an archive is, and that the reader finds what was put there.
      [UnzipProofs]: the unpacking of one archive among others.  [Unpacked]: the pool that
      unpacks all jars into one directory.  [ZipSafe]: arbitrary bytes instead of an archive.
    - [Deflate]: the format of RFC 1951 as a relation between streams and data ([deflated]),
      and its prefix codes.  [Inflate]: [tinfl_decompress] of miniz.h, the coroutine as
      steps between labels.  [HuffTable]: its tables decode the codes; [InflateInput]: its bit
      buffer and its copies of matches; [InflateInv], [InflateSteps], [InflateProofs]: an
      invariant that ties the coroutine to the rest of the stream, kept by every step, and the instance [tinfl] of the
      class [Inflator] the reader uses.
    - [Resources], [ResourcesProofs]: exjld/resources.c.  Elements are heap cells, hashes
      lists of pointers; a dereference after [free] is undefined.  The worker
      [exljd_res_add_th] is cut at its critical sections, the pool is the step relation
      [step] over all interleavings.  Proved by an invariant over reachable pools and a rank
      that every step lowers.
    - [FindClasses]: exjld/findclasses.c.  [process_entry] with its static counters, the
      [nftw] walk, [exjld_class_build_hash] as a relation over schedules.
    - [Codegen], [CodegenProofs]: exjld/codegen.c.  [jmain.c] byte for byte, the build
      command within its arrays, and a reader of the generated text.
    - [Jni]: the Java Native Interface, one thread: heap of Java objects, pending exception,
      acquired strings and arrays ([w_pins]), weak references, and a state of the library.
      A monad whose [Crash] is undefined behaviour or abort.  Every allocation may fail.
    - [LinkMain], [LinkMainProofs]: exjld/exjld.c, [main] with the scanner of options, the
      work directory, unpacking, the stages and the clean-up; what it does is a list of
      actions, what its surroundings answer the record [surroundings].
    - [ClassIndex]: getIndexBytes of libexjlds/exj.c with its [int] arithmetic.
    - [ClassPath]: libexjlds/cp.c.
    - [LinkLoad]: linker and loader composed; [spec_lookup] is what the whole promises.
    - [LinkChain]: the linker's parts one after the other, from jars to the running program;
      [nftw_meets] is what the scan may meet, [linkable] what the names of jars must be;
      [plays] says that the answers [LinkMain] gets of [zip_extract] are those of [Unzip].
    - [Boot], [BootProofs]: the rest of libexjlds/exj.c: options, virtual machine, class
      loader, main class; [static_java] has loadClass of StaticClassLoader.java.  Each step is
      shown only to add objects ([grows]).
    - [BackTrace]: libexjlds/except.c and the back trace of exceptions.c, over the class
      [ThrowableJava].
    - [NativeTable], [NativeLoader]: libsrc/c/loader.c, include/exjglue.h and the [native]
      declarations as tables, and the double-checked initialisation as the step relation
      [lib_moves] over threads.
    - [MetaCache], [MetaCacheProofs]: the static half of MetaCache.c, [JNI_OnLoad] and
      [JNI_OnUnload]: the tables, the variables and the references made and deleted.
    - [Xatmi]: the Enduro/X functions as a class [Xatmi], what the binding relies on as
      [XatmiLaws].
    - [Exceptions]: exceptions.c and the dynamic class cache of MetaCache.c.
    - [TypedBuffer]: TypedBuffer.c and [ndrxj_get_ctx] of AtmiCtx.c.
    - [Calls]: tpcallj.c and conversations.c.
    - [AtmiCtxOps]: AtmiCtx.c and AtmiCtx_Util.c.
    - [Convert]: util.c, ClientId.c, TPQCTL.c, TPTRANID.c: the conversion of
      structures by tables.  [Queues]: tpenqueue.c, tpdequeue.c, [tpnotify], [tpbroadcast],
      [tpsuspend], [tpresume].  [Logging]: logging.c.
    - [Callback]: a library function with callbacks as a tree of its own steps and the
      callbacks it makes ([script]), and Java code as a parameter ([JavaCode]).
    - [Server]: TpSvcInfo.c, AtmiCtx_unsol.c and the server side of AtmiCtx.c: [tpRunC], its
      main loop and callbacks.
    - [XaConfig], [Xa], [XaProofs]: xaconfig.c, xaj.c, xatmsrv.c, the identifiers of util.c
      with ExXid.java, and the reading of settings in AtmiCtx.java.  [XaSwitch]: xadrv/exjdbc.c
      and [ndrxj_jvm_create]; the library and the class loader in one state ([zoom]).
    - [TermSig]: TermSigHandler.c, installers and monitors as threads over shared globals,
      the step relation [sig_step] over all interleavings.
    - [Ubf]: TypedUbf_Badd.c, TypedUbf_Bchg.c, TypedUbf_Bget.c, TypedUbf_Del.c,
      TypedUbf_Proj.c, TypedUbf_Util.c, over the class [Ubf].  [UbfEval]: TypedUbf_Bbool.c,
      BExprTree.c, BFldLocInfo.c, TypedUbf_Baddfast.c and the expression methods of AtmiCtx.c.
      [UbfIO]: TypedUbf_Bprint.c.
    - [Payload]: TypedCarray.c, TypedString.c, TypedJson.c over the class
      [BufferMemory].
    - [Frame]: a program logic for the monad; [UbfNatives], [QueueNatives] and
      [Natives]: its use on every method of the lists [ubf_native], [queue_native],
      [log_native] and [native].  [ServerProofs], [UbfIOProofs]: the same for methods that
      call back, if the Java code they call is clean ([JavaClean]).
    - [Serving]: a server's run, request by request.
    - [Owners]: who frees a buffer; the class [XatmiBuffers] says which buffers the library's
      calls allocate, move and free.  [GiveBack]: the end of a buffer's life, [cleanup] of
      TypedBuffer.java and the replies of a server.
    - [CallSpec], [UbfSpec]: results of calls and of errors, branch by branch.
    - [Toy], [ToyServer]: a small library, a server and Java code that satisfy all
      of these classes.  [ToyZip]: two jars with compressed entries.
    - [ZipClaims], [InflateClaims], [LinkClaims], [BootClaims], [LinkMainClaims], [LibraryClaims], [BindingClaims],
      [ServerClaims], [XaClaims], [SignalClaims]: the main theorems, with instances.

    ** What is shown

    Unpacking ([ZipClaims], [InflateClaims]): for well-formed jars with short names and no
    file in common every schedule of the pool leaves the same tree, the entries of all jars
    and nothing else; the program linked from it starts the main class out of the bytes its
    jar holds; of an archive of arbitrary bytes the reader, the decompressor apart, reads only
    within its buffers, and opening it ends; an entry is reported extracted only if its size
    and checksum are those recorded; the checksum is CRC-32; the decompressor turns every
    stream in the deflate format, cut into pieces anywhere, into the data it was made from.

    Linker and loader: for every schedule of the pool, and for any tree of class and resource
    files, a look-up in the built program returns the bytes of the one file the name stands
    for ([LinkClaims]); the pool, for distinct names, is free of use after free, ends and
    completes, and in any case reports failures; names and generated symbols are unique; the binary search agrees with a scan
    within a logarithmic number of rounds; the generated text reads back to the tables;
    the build command is complete whenever it fits.  [main] of the linker does what the
    command line says, succeeds only if every stage did, and cleans up on every path
    ([LinkMainClaims]).  The built program starts: [main] of the main class is called, made
    from the bytes of its file, with the arguments and the class path given ([BootClaims]).

    Entry points ([LibraryClaims]): every [native] declaration has its C function with the
    right name and type; calls that race for the first initialisation never go through an
    unset pointer, and all end; the caches of classes and members are filled from declared
    members and leave no local reference; back traces have every frame and every cause.

    Binding: sessions of native calls keep nothing acquired and leave no context set; no
    buffer is owned by two objects, whatever calls and clean-ups a program makes with the
    objects it owns; [tpcall] hands over the reply, or raises the error with
    the right class, text and data; contents of buffers come back as stored.

    Callbacks: a server run returns and has handed every request to Java once and in order,
    if no service raises an exception;
    handlers resume the context they interrupt and methods that call back leave nothing
    behind; queue control structures, bytes of buffers and transaction identifiers survive
    the way to Java and back; the XA switch reports what Java did, recovery fills the
    caller's array if there is room for all, the settings of the open string arrive in Java, the switch is handed out
    only when it works; the runnable of a
    termination handler is called only while it is referenced.

    Where the code does not do what it means to, the development states what it does: a
    duplicate name frees an element in use or is overlooked, some methods leak on an early
    return, one releases the wrong array, two raise a wrong error, a class path line with
    leading blanks is misread; the dequeue time of a queue message is not passed on, a request
    with an unknown buffer type calls Java with an exception pending, [Bread] can write
    beyond the library's buffer, a nested evaluation takes over the callbacks of the outer
    one, identifiers are released through deleted references, an empty XA setting breaks
    the Java side, each termination handler starts another monitor; a machine without its
    class loader is left running, a second start reads a freed class path, a missing main class
    reads an unset variable; an absolute output path is put behind the current directory, a
    documented option of the linker is refused, its clean-up command does not quote; weak
    references are deleted as strong ones; names and links of an archive lead out of the
    directory, long names are cut and collide, an archive with a long comment is refused, jars
    with a file in common leave a mixture; the decompressor writes over the end of its buffer
    for a match with a reserved length symbol and takes bytes never written for a distance too
    far; exceptions of services are ignored where a comment says the process ends; recovery
    returns the number of identifiers stored where a comment says Java's; back traces are
    taken with the exception pending and do not end for causes in a circle.

    ** Bounds, fuel, assumptions

    [search_loop] takes fuel: [bsearch] uses one more than the table size, which is enough, and the
    logarithmic bound is proved.  Tables of at most 2^30 entries are assumed where [int] sums
    could overflow.  Paths fit PATH_MAX.  The hash macros, the file generator, the allocator,
    the XATMI and UBF libraries and the contents of buffers are class or record parameters;
    their laws state documented behaviour and hold of [list_exhash] and of [Toy].  A virtual
    machine that returns direct pointers ([vm_hands_copies] false) is outside the theorems on
    acquired strings, because the code releases copies only.  JNI functions called while an
    exception is pending behave as usual here, except that a call of a Java method is
    undefined.  Deleted local references are not tracked but where the code uses one
    ([release_deleted]).  Java code is arbitrary ([JavaCode]) and restricted by named laws.
    Schedules of [TermSig] need no fairness: its theorem is about all reachable states.
    [NativeLoader] takes accesses to be sequentially consistent and lets the dynamic linker
    change its answers from call to call.  [backtrace_recursive] takes fuel, one unit per
    exception of a chain, which is enough; a machine that runs Java methods with an
    exception pending is assumed there by name ([pending_ok]).  The macros
    NDRXJ_LOG_EXCEPTION and EXJLD_LOG_EXCEPTION make such a back trace at many places; there it
    only reaches the log and the machine is taken to put up with it.  The order in which the pool
    unpacks jars is a parameter of [LinkMain], a permutation of them ([order_runs_all]); its jobs share no state but the error flag and
    the directory they unpack into, which is [Unpacked].  The search for the end record takes
    [EOCD_ROUNDS] rounds, which the code's own limit on its distance from the end makes
    enough; a sift of the heap sort takes as many rounds as the heap has elements, and the
    root at least doubles; the extraction takes [inflate_fuel] rounds, enough by the law that
    each call of the decompressor consumes or produces something; a call of the decompressor
    takes [tinfl_fuel] steps, 32 for each bit and byte there is and 2048 for the header of a
    block, enough for every stream in the format.  A read of the decompressor from memory of its
    window that was never written counts as outside.  A jar does not change while it is open,
    writes reach the file when they are made, permissions are the answers of [refuses], links
    are followed [MAXSYMLINKS] times.  [nftw_meets]: the scan after the unpacking meets every
    file of the tree once, and besides them only include files its workers write meanwhile.
    Which field numbers and names
    libraries know, and the text of messages in logs, are not modelled.

    ** Not modelled

    Of the vendored zip library (exjld/zip.c, miniz.h) the writer, the functions on single
    entries, the compressor and the zlib-style interface, which the linker does not call,
    with the flags of [tinfl_decompress] that only it uses.  The reader is modelled over the class
    [Inflator], of which the library's decompressor is the instance [tinfl].  The base library of Enduro/X, the virtual machine, the dynamic linker and getopt's global
    variables; the usage text and log lines; the delivery of signals; local references, where
    nothing depends on them.  javaenv.c holds no code.  Of the Java sources only what the C
    code calls or declares: [loadClass], [cleanup], ExXid, the reading of settings, the
    [native] declarations and the members the caches name. *)
From stdpp Require Import sorting strings gmap list numbers.
(* stdpp's list lemmas win over the homonyms of the Standard Library. *)
Export stdpp.list_basics.list stdpp.list_relations.list stdpp.list_monad.list stdpp.list_misc.list.

(** Return codes shared by every C file ([ndrstandard.h]). *)
Definition EXSUCCEED : Z := 0.
Definition EXFAIL : Z := -1.
(** [limits.h], Linux. *)
Definition PATH_MAX : nat := 4096.

(** ** Machine integers *)
Definition INT_MIN : Z := -2147483648.
Definition INT_MAX : Z := 2147483647.
Definition int_ok (z : Z) : bool := bool_decide (INT_MIN ≤ z ≤ INT_MAX)%Z.

(** ** Hint database of the lemmas on C strings; the files with a program logic have their own *)
Create HintDb cstr.

(** ** Tactics *)

(** Case analysis on the scrutinee of the first [match] of the goal. *)
Ltac case_goal :=
  match goal with
  | |- context [match ?x with _ => _ end] =>
      lazymatch x with
      | context [match _ with _ => _ end] => fail
      | _ => destruct x eqn:?
      end
  end.

(** Same on a hypothesis. *)
Ltac case_hyp H :=
  match type of H with
  | context [match ?x with _ => _ end] =>
      lazymatch x with
      | context [match _ with _ => _ end] => fail
      | _ => destruct x eqn:?
      end
  end.

Ltac invc H := inversion H; clear H; simplify_eq.

(** ** Transition sequences *)
Section Sequences.
Context {A : Type} (R : A → A → Prop).

Lemma rtc_invariant (P : A → Prop) :
  (∀ x y, P x → R x y → P y) → ∀ x y, rtc R x y → P x → P y.
Proof. intros Hstep x y. induction 1; eauto. Qed.

(** A relation that decreases a natural measure reaches a state without
    successor, as soon as the existence of a successor is decidable. *)
Lemma rtc_terminates (m : A → nat) :
  (∀ x y, R x y → m y < m x) →
  (∀ x, (∃ y, R x y) ∨ (∀ y, ¬ R x y)) →
  ∀ x, ∃ y, rtc R x y ∧ ∀ z, ¬ R y z.
Proof.
  intros Hm Hdec x. remember (m x) as n eqn:Hn. revert x Hn.
  induction (lt_wf n) as [n _ IH]. intros x ->.
  destruct (Hdec x) as [[y Hy]|Hno].
  - destruct (IH (m y)) with y as (z & Hz & Hend); [by apply Hm|done|].
    exists z. split; [by econstructor|done].
  - exists x. split; [constructor|done].
Qed.
End Sequences.

(** ** Lists *)
Section Lists.
Context {A B : Type}.

Lemma NoDup_fmap_elem_eq (f : A → B) (l : list A) x y :
  NoDup (f <$> l) → x ∈ l → y ∈ l → f x = f y → x = y.
Proof.
  induction l as [|a l IH]; [set_solver|]. rewrite fmap_cons.
  intros [Hn Hd]%NoDup_cons Hx%elem_of_cons Hy%elem_of_cons E.
  destruct Hx as [->|Hx], Hy as [->|Hy]; auto; destruct Hn.
  - rewrite E. by apply list_elem_of_fmap_2.
  - rewrite <-E. by apply list_elem_of_fmap_2.
Qed.

Lemma NoDup_lookup_fmap_inj (f : A → B) (l : list A) i j x y :
  NoDup (f <$> l) → l !! i = Some x → l !! j = Some y → f x = f y → i = j.
Proof.
  intros Hd Hi Hj E. eapply NoDup_lookup; [exact Hd| |];
    rewrite list_lookup_fmap.
  - by rewrite Hi.
  - by rewrite Hj, E.
Qed.
End Lists.

(** Lowering one summand lowers the sum. *)
Lemma sum_list_with_insert_lt {A} (f : A → nat) (l : list A) i x y :
  l !! i = Some x → f y < f x → sum_list_with f (<[i := y]> l) < sum_list_with f l.
Proof.
  revert i. induction l as [|z l IH]; intros [|i]; simpl; try done.
  - intros [= ->]. lia.
  - intros Hi Hr. specialize (IH i Hi Hr). lia.
Qed.

(** Remove one occurrence; [None] when there is none. *)
Fixpoint remove1 {A} `{EqDecision A} (x : A) (l : list A) : option (list A) :=
  match l with
  | [] => None
  | y :: l' => if decide (x = y) then Some l' else (y ::.) <$> remove1 x l'
  end.

Lemma remove1_head {A} `{EqDecision A} (x : A) l : remove1 x (x :: l) = Some l.
Proof. simpl. by rewrite decide_True. Qed.

Lemma remove1_elem {A} `{EqDecision A} (x : A) l : x ∈ l → ∃ q, remove1 x l = Some q ∧ l ≡ₚ x :: q.
Proof.
  induction l as [|a l IH]; [by rewrite elem_of_nil|]. rewrite elem_of_cons. simpl.
  destruct (decide (x = a)) as [->|Hne]; [by eexists|].
  intros [?|Hl]; [done|]. destruct (IH Hl) as (q & -> & Hq). simpl. eexists. split; [done|].
  rewrite Hq. apply Permutation_swap.
Qed.

Lemma remove1_none {A} `{EqDecision A} (x : A) l : x ∉ l → remove1 x l = None.
Proof.
  induction l as [|a l IH]; [done|]. rewrite not_elem_of_cons. intros [Hne Hl]. simpl.
  rewrite decide_False by done. by rewrite IH.
Qed.

(** A list sorted by a relation that is transitive on its elements is sorted
    pairwise. *)
Section SortedLookup.
Context {A : Type} (R : A → A → Prop) (P : A → Prop).
Hypothesis R_trans : ∀ a b c, P a → P b → P c → R a b → R b c → R a c.

Lemma Sorted_Forall_head x l : Forall P (x :: l) → Sorted R (x :: l) → Forall (R x) l.
Proof.
  revert x. induction l as [|y l IH]; intros x HP Hs; [constructor|].
  apply Forall_cons in HP as [Hx HP]. inversion Hs as [|? ? Hs' Hr]; subst.
  inversion Hr; subst. constructor; [done|].
  pose proof (IH y HP Hs') as Hy. apply Forall_cons in HP as [Hy' HP].
  rewrite Forall_forall in Hy, HP |- *. intros z Hz. eapply (R_trans x y z); auto.
Qed.

Lemma Sorted_lookup_lt l :
  Forall P l → Sorted R l →
  ∀ i j a b, l !! i = Some a → l !! j = Some b → i < j → R a b.
Proof.
  induction l as [|x l IH]; intros HP Hs [|i] [|j] a b; simpl; try done; try lia.
  - intros [= <-] Hj _. eapply Forall_lookup_1; [by apply Sorted_Forall_head|done].
  - intros Hi Hj Hij. apply Forall_cons in HP as [_ HP]. inversion Hs; subst.
    eapply (IH HP); [done..|lia].
Qed.
End SortedLookup.
