(* ===== verification/CString.v ===== *)
(** * C strings

    NUL terminated byte strings of the C code are Rocq strings without the
    NUL byte.  Here: [strcmp], [strlen], [strncmp] prefixes, the bounded copies
    ([NDRX_STRCPY_SAFE], [snprintf] truncation), [%d] printing, and the order
    lemmas the sorted class index relies on. *)
From stdpp Require Import strings list numbers.
From Stdlib Require Import Ascii.
From S2P Require Import Prelude.

Definition byte (c : ascii) : Z := Z.of_N (N_of_ascii c).

Definition NUL : ascii := ascii_of_nat 0.

(** A C string holds no NUL byte. *)
Fixpoint nul_free (s : string) : bool :=
  match s with
  | EmptyString => true
  | String c s' => negb (byte c =? 0)%Z && nul_free s'
  end.

(** [strcmp]: difference of the first differing (unsigned) bytes, the
    terminating NUL counting as byte 0. *)
Fixpoint strcmp (a b : string) : Z :=
  match a, b with
  | EmptyString, EmptyString => 0
  | EmptyString, String d _ => - byte d
  | String c _, EmptyString => byte c
  | String c a', String d b' =>
      if (byte c =? byte d)%Z then strcmp a' b' else byte c - byte d
  end%Z.

Fixpoint take_str (n : nat) (s : string) : string :=
  match n, s with
  | S n', String c s' => String c (take_str n' s')
  | _, _ => EmptyString
  end.

Fixpoint drop_str (n : nat) (s : string) : string :=
  match n, s with
  | S n', String _ s' => drop_str n' s'
  | 0, _ => s
  | _, EmptyString => EmptyString
  end.

(** A copy into a [char] array of [sz] bytes: [NDRX_STRCPY_SAFE], [snprintf]. *)
Definition strcpy_safe (sz : nat) (s : string) : string := take_str (sz - 1) s.

(** [0==strncmp(s, pfx, strlen(pfx))] *)
Definition has_prefix (pfx s : string) : bool := String.prefix pfx s.

(** The character does not occur in the string. *)
Fixpoint no_char (c : ascii) (s : string) : bool :=
  match s with
  | EmptyString => true
  | String d s' => negb (Ascii.eqb d c) && no_char c s'
  end.

(** Decimal printing of the [%d] conversions. *)
Definition digit (d : Z) : ascii := ascii_of_nat (48 + Z.to_nat d).

Fixpoint dec_go (fuel : nat) (z : Z) (acc : string) : string :=
  match fuel with
  | 0 => acc
  | S f =>
      let acc' := String (digit (z `mod` 10)) acc in
      if (z <? 10)%Z then acc' else dec_go f (z `div` 10) acc'
  end.

Definition print_nonneg (z : Z) : string := dec_go (S (Z.to_nat (Z.log2 z))) z EmptyString.

Definition print_int (z : Z) : string :=
  if (z <? 0)%Z then String "-" (print_nonneg (- z)) else print_nonneg z.

Definition NL : string := String (ascii_of_nat 10) EmptyString.
Definition TAB : string := String (ascii_of_nat 9) EmptyString.
Definition DQ : string := String (ascii_of_nat 34) EmptyString.

(** ** Order lemmas *)

Lemma byte_nonneg c : (0 ≤ byte c)%Z.
Proof. unfold byte. lia. Qed.

Lemma byte_inj c d : byte c = byte d → c = d.
Proof.
  unfold byte. intros H%N2Z.inj. rewrite <-(ascii_N_embedding c), <-(ascii_N_embedding d).
  by f_equal.
Qed.

Lemma strcmp_refl a : strcmp a a = 0%Z.
Proof. induction a as [|c a IH]; simpl; [done|]. by rewrite Z.eqb_refl. Qed.

Lemma strcmp_opp a b : strcmp b a = (- strcmp a b)%Z.
Proof.
  revert b. induction a as [|c a IH]; intros [|d b]; simpl; try lia.
  rewrite (Z.eqb_sym (byte d)). destruct (Z.eqb_spec (byte c) (byte d)); [apply IH|lia].
Qed.

Lemma strcmp_eq a b : nul_free a → nul_free b → strcmp a b = 0%Z → a = b.
Proof.
  revert b. induction a as [|c a IH]; intros [|d b]; simpl; try done.
  - intros _ Hd. pose proof (byte_nonneg d).
    destruct (Z.eqb_spec (byte d) 0); simpl in *; [done|lia].
  - intros Hc _. pose proof (byte_nonneg c).
    destruct (Z.eqb_spec (byte c) 0); simpl in *; [done|lia].
  - intros [_ Ha]%andb_prop_elim [_ Hb]%andb_prop_elim.
    destruct (Z.eqb_spec (byte c) (byte d)) as [E|E]; [|lia].
    intros Hs. apply byte_inj in E as ->. f_equal. by apply IH.
Qed.

Lemma strcmp_eq_iff a b : nul_free a → nul_free b → strcmp a b = 0%Z ↔ a = b.
Proof. intros. split; [by apply strcmp_eq|intros ->; apply strcmp_refl]. Qed.

Lemma nul_free_cons_pos c s : nul_free (String c s) → (0 < byte c)%Z.
Proof.
  simpl. intros [H _]%andb_prop_elim. pose proof (byte_nonneg c).
  destruct (Z.eqb_spec (byte c) 0); simpl in H; [done|lia].
Qed.

Lemma nul_free_tail c s : nul_free (String c s) → nul_free s.
Proof. simpl. by intros [_ H]%andb_prop_elim. Qed.

Lemma strcmp_trans a b c :
  nul_free a → nul_free b → nul_free c →
  (strcmp a b < 0 → strcmp b c < 0 → strcmp a c < 0)%Z.
Proof.
  revert b c. induction a as [|x a IH]; intros [|y b] [|z c] Ha Hb Hc; simpl;
    try lia;
    repeat match goal with H : Is_true (nul_free (String _ _)) |- _ =>
      pose proof (nul_free_cons_pos _ _ H); apply nul_free_tail in H end; try lia.
  destruct (Z.eqb_spec (byte x) (byte y)), (Z.eqb_spec (byte y) (byte z)),
    (Z.eqb_spec (byte x) (byte z)); try lia; eauto.
Qed.

Lemma strcmp_trans_le a b c :
  nul_free a → nul_free b → nul_free c →
  (strcmp a b ≤ 0 → strcmp b c ≤ 0 → strcmp a c ≤ 0)%Z.
Proof.
  intros Ha Hb Hc Hab Hbc.
  destruct (decide (strcmp a b = 0%Z)) as [->%strcmp_eq|]; [done..|].
  destruct (decide (strcmp b c = 0%Z)) as [<-%strcmp_eq|]; [done..|].
  apply Z.lt_le_incl, (strcmp_trans a b c); auto; lia.
Qed.

#[export] Hint Resolve strcmp_refl nul_free_tail : cstr.

(** ** String slicing *)

Lemma take_str_all n s : String.length s ≤ n → take_str n s = s.
Proof.
  revert s. induction n as [|n IH]; intros [|c s]; simpl; try done; [lia|].
  intros H. f_equal. apply IH. lia.
Qed.

Lemma take_str_length n s : String.length (take_str n s) ≤ n.
Proof. revert s. induction n as [|n IH]; intros [|c s]; simpl; try lia. specialize (IH s). lia. Qed.

Lemma strcpy_safe_fits sz s : String.length s < sz → strcpy_safe sz s = s.
Proof. intros. apply take_str_all. lia. Qed.

Lemma strcpy_safe_nul_free sz s : nul_free s → nul_free (strcpy_safe sz s).
Proof.
  unfold strcpy_safe. generalize (sz - 1) as n. intros n. revert s.
  induction n as [|n IH]; intros [|c s]; simpl; try done.
  rewrite !andb_True. intros [? ?]. auto.
Qed.

#[export] Hint Resolve strcpy_safe_nul_free : cstr.

Lemma string_app_nil_l s : EmptyString +:+ s = s.
Proof. done. Qed.

Lemma string_app_assoc (a b c : string) : (a +:+ b) +:+ c = a +:+ (b +:+ c).
Proof. induction a; simpl; [done|]. unfold String.app in *. simpl. by f_equal. Qed.

(** ** Decimal printing reads back *)

Fixpoint dec_val (a : Z) (s : string) : Z :=
  match s with
  | EmptyString => a
  | String c s' => dec_val (10 * a + (byte c - 48)) s'
  end%Z.

Lemma byte_digit d : (0 ≤ d < 10)%Z → byte (digit d) = (48 + d)%Z.
Proof.
  intros Hd. assert (d ∈ seqZ 0 10) as Hin by (apply elem_of_seqZ; lia).
  revert Hin. cbn. intros Hin.
  repeat (apply elem_of_cons in Hin as [->|Hin]; [done|]). by apply elem_of_nil in Hin.
Qed.

Lemma dec_go_val fuel z acc :
  (0 ≤ z < 2 ^ Z.of_nat fuel)%Z → dec_val 0 (dec_go fuel z acc) = dec_val z acc.
Proof.
  revert z acc. induction fuel as [|f IH]; intros z acc Hz; simpl.
  - change (2 ^ Z.of_nat 0)%Z with 1%Z in Hz. by replace z with 0%Z by lia.
  - rewrite Nat2Z.inj_succ, Z.pow_succ_r in Hz by lia.
    pose proof (Z.div_mod z 10 ltac:(lia)). pose proof (Z.mod_pos_bound z 10 ltac:(lia)).
    destruct (Z.ltb_spec z 10).
    + rewrite Z.mod_small by lia. cbn [dec_val]. rewrite byte_digit by lia. f_equal. lia.
    + rewrite IH by (split; [apply Z.div_pos; lia|apply Z.div_lt_upper_bound; lia]).
      cbn [dec_val]. rewrite byte_digit by lia. f_equal. lia.
Qed.

Lemma print_nonneg_val z : (0 ≤ z)%Z → dec_val 0 (print_nonneg z) = z.
Proof.
  intros Hz. unfold print_nonneg. rewrite dec_go_val; [done|]. split; [done|].
  rewrite Nat2Z.inj_succ, Z2Nat.id by apply Z.log2_nonneg.
  destruct (decide (z = 0%Z)) as [->|]; [done|]. apply Z.log2_spec. lia.
Qed.

Lemma print_int_inj a b : (0 ≤ a)%Z → (0 ≤ b)%Z → print_int a = print_int b → a = b.
Proof.
  unfold print_int. intros Ha Hb.
  rewrite !(proj2 (Z.ltb_ge _ _)) by lia. intros E.
  by rewrite <-(print_nonneg_val a), <-(print_nonneg_val b), E.
Qed.

Lemma string_length_app a b : String.length (a +:+ b) = String.length a + String.length b.
Proof.
  unfold String.app. induction a as [|c a IH]; simpl; [done|]. by rewrite IH.
Qed.

Lemma no_char_app c a b : no_char c (a +:+ b) = no_char c a && no_char c b.
Proof.
  unfold String.app. induction a as [|d a IH]; simpl; [done|]. by rewrite IH, andb_assoc.
Qed.

Lemma nul_free_app a b : nul_free (a +:+ b) = nul_free a && nul_free b.
Proof. unfold String.app. induction a as [|c a IH]; simpl; [done|]. by rewrite IH, andb_assoc. Qed.

Lemma no_char_app_2 c a b : no_char c a → no_char c b → no_char c (a +:+ b).
Proof. rewrite no_char_app. by intros; apply andb_True. Qed.

(** Printed numbers hold digits and the sign only. *)
Lemma dec_go_no_char c fuel z acc :
  (byte c < 45)%Z → (0 ≤ z)%Z → no_char c acc → no_char c (dec_go fuel z acc).
Proof.
  intros Hc. revert z acc. induction fuel as [|f IH]; intros z acc Hz Ha; cbn [dec_go]; [done|].
  pose proof (Z.mod_pos_bound z 10 ltac:(lia)).
  assert (Hd : no_char c (String (digit (z `mod` 10)) acc)).
  { cbn [no_char]. apply andb_True. split; [|done].
    destruct (Ascii.eqb_spec (digit (z `mod` 10)) c) as [E|]; [|done].
    apply (f_equal byte) in E. rewrite byte_digit in E by lia. lia. }
  destruct (z <? 10)%Z; [done|]. apply IH; [|done]. apply Z.div_pos; lia.
Qed.

Lemma print_int_no_char c z : (byte c < 45)%Z → no_char c (print_int z).
Proof.
  intros Hc. unfold print_int, print_nonneg. destruct (Z.ltb_spec z 0).
  - cbn [no_char]. apply andb_True. split; [|apply dec_go_no_char; [done|lia|done]].
    destruct (Ascii.eqb_spec "-" c) as [<-|]; [|done]. by vm_compute in Hc.
  - apply dec_go_no_char; done.
Qed.

(** ** Reading a text from the front *)

(** The text after the prefix [p]. *)
Fixpoint expect (p s : string) : option string :=
  match p, s with
  | EmptyString, _ => Some s
  | String c p', String d s' => if Ascii.eqb c d then expect p' s' else None
  | String _ _, EmptyString => None
  end.

(** The text before and after the first [c]. *)
Fixpoint until (c : ascii) (s : string) : option (string * string) :=
  match s with
  | EmptyString => None
  | String d s' =>
      if Ascii.eqb d c then Some (EmptyString, s')
      else '(a, b) ← until c s'; Some (String d a, b)
  end.

Lemma expect_self p s : expect p (p +:+ s) = Some s.
Proof. unfold String.app. induction p as [|c p IH]; simpl; [done|]. by rewrite Ascii.eqb_refl. Qed.

Lemma expect_split a b s : expect (a +:+ b) s = r ← expect a s; expect b r.
Proof.
  unfold String.app. revert s. induction a as [|c a IH]; intros [|d s]; simpl; try done.
  by destruct (Ascii.eqb c d).
Qed.

Lemma until_app c a s : no_char c a → until c (a +:+ String c EmptyString +:+ s) = Some (a, s).
Proof.
  unfold String.app. induction a as [|d a IH]; simpl; [by rewrite Ascii.eqb_refl|].
  intros [Hd Ha]%andb_prop_elim. destruct (Ascii.eqb d c); [done|]. by rewrite IH.
Qed.

Lemma until_eq c a s t :
  no_char c a → t = a +:+ String c EmptyString +:+ s → until c t = Some (a, s).
Proof. intros Ha ->. by apply until_app. Qed.

Lemma string_app_nil_r (a : string) : a +:+ EmptyString = a.
Proof. unfold String.app. induction a as [|c a IH]; simpl; [done|]. by rewrite IH. Qed.
