(* ===== verification/FileSys.v ===== *)
(** * Files and directories

    The POSIX calls the unpacking of jars makes, over a tree of directories, files and
    symbolic links.  A program is the tree of the calls it makes ([prog]), so that several
    programs can run on one tree, interleaved call by call ([crew_step]).  [holds] is a
    rely-guarantee logic for such programs. *)
From stdpp Require Import strings gmap list numbers.
From Stdlib Require Import Ascii Wellfounded.
From S2P Require Import Prelude CString.

(** ** Paths *)

(** The pieces between slashes; empty ones count for nothing. *)
Fixpoint split_go (acc s : string) : list string :=
  match s with
  | EmptyString => match acc with EmptyString => [] | _ => [acc] end
  | String c s' =>
      if Ascii.eqb c "/" then match acc with EmptyString => split_go "" s' | _ => acc :: split_go "" s' end
      else split_go (acc +:+ String c EmptyString) s'
  end.
Definition split_path (s : string) : list string := split_go "" s.

Definition is_absolute (s : string) : bool := match s with String "/" _ => true | _ => false end.

(** [path[strlen(path)-1]=='/'] *)
Fixpoint ends_slash (s : string) : bool :=
  match s with
  | EmptyString => false
  | String c EmptyString => Ascii.eqb c "/"
  | String _ s' => ends_slash s'
  end.

Fixpoint join_path (l : list string) : string :=
  match l with
  | [] => ""
  | [c] => c
  | c :: l' => c +:+ "/" +:+ join_path l'
  end.

(** A piece that names an entry of its directory. *)
Definition plain (c : string) : bool :=
  no_char "/" c && nul_free c && negb (String.eqb c "") && negb (String.eqb c ".") && negb (String.eqb c "..").

(** ** The tree *)

Inductive node :=
  | Dir (mode : Z)
  | File (contents : list Z) (mode : Z)
  | Link (target : string).

(** Keyed by the pieces from the root. *)
Notation tree := (gmap (list string) node).

(** [MAXSYMLINKS] of Linux. *)
Definition MAXSYMLINKS : nat := 40.

(** Path resolution.  The last piece may be missing; it is followed if it is a link and
    [follow] says so. *)
Fixpoint walk (links : nat) (f : tree) (follow : bool) (cur l : list string) : option (list string) :=
  (fix go (cur l : list string) {struct l} : option (list string) :=
     match l with
     | [] => Some cur
     | c :: l' =>
         if String.eqb c "." then go cur l'
         else if String.eqb c ".." then go (removelast cur) l'
         else
           match f !! (cur ++ [c]) with
           | Some (Dir _) => go (cur ++ [c]) l'
           | Some (Link t) =>
               if bool_decide (l' = []) && negb follow then Some (cur ++ [c])
               else match links with
                    | 0 => None
                    | S n => walk n f follow (if is_absolute t then [] else cur) (split_path t ++ l')
                    end
           | _ => match l' with [] => Some (cur ++ [c]) | _ => None end
           end
     end) cur l.

Definition resolve (f : tree) (cwd : list string) (follow : bool) (path : string) : option (list string) :=
  if String.eqb path "" then None
  else walk MAXSYMLINKS f follow (if is_absolute path then [] else cwd) (split_path path).

(** ** Calls *)

(** An open file is its key; the stream's position goes with the write. *)
Inductive call :=
  | C_open_rb (path : string)
  | C_open_wb (path : string)
  | C_write (key : list string) (pos : Z) (data : list Z)
  | C_close (key : list string)
  | C_mkdir (path : string)
  | C_symlink (target path : string)
  | C_chmod (path : string) (mode : Z).

Inductive answer :=
  | A_ok
  | A_exist
  | A_error
  | A_bytes (l : list Z)
  | A_stream (key : list string).

(** Bytes put over a content from a position on. *)
Definition write_at (pos : Z) (data old : list Z) : list Z :=
  let p := Z.to_nat pos in
  take p old ++ replicate (p - length old) 0%Z ++ data ++ drop (p + length data) old.

(** Permission bits of a mode. *)
Definition perm (mode : Z) : Z := Z.land mode 4095.

(** The system: the process's directory, and the calls it refuses (permissions, a full
    disk, an error of the device). *)
Record system_env := SystemEnv { cwd : list string; refuses : call → bool }.

Section System.
Context (sys : system_env).

(** One call. *)
Definition exec (f : tree) (c : call) : tree * answer :=
  if refuses sys c then (f, A_error) else
  match c with
  | C_open_rb path =>
      match resolve f (cwd sys) true path with
      | Some k => match f !! k with Some (File b _) => (f, if ends_slash path then A_error else A_bytes b) | _ => (f, A_error) end
      | None => (f, A_error)
      end
  | C_open_wb path =>
      match (if ends_slash path then None else resolve f (cwd sys) true path) with
      | Some k =>
          match f !! k with
          | Some (File _ m) => (<[k := File [] m]> f, A_stream k)
          | None => (<[k := File [] 420]> f, A_stream k)
          | _ => (f, A_error)
          end
      | None => (f, A_error)
      end
  | C_write k pos data =>
      match f !! k with
      | Some (File b m) => (<[k := File (write_at pos data b) m]> f, A_ok)
      | _ => (f, A_error)
      end
  | C_close _ => (f, A_ok)
  | C_mkdir path =>
      match resolve f (cwd sys) false path with
      | Some k => match f !! k with Some _ => (f, A_exist) | None => (<[k := Dir 493]> f, A_ok) end
      | None => (f, A_error)
      end
  | C_symlink target path =>
      match (if String.eqb target "" || ends_slash path then None else resolve f (cwd sys) false path) with
      | Some k => match f !! k with Some _ => (f, A_exist) | None => (<[k := Link target]> f, A_ok) end
      | None => (f, A_error)
      end
  | C_chmod path mode =>
      match resolve f (cwd sys) true path with
      | Some k =>
          match f !! k with
          | Some (Dir _) => (<[k := Dir (perm mode)]> f, A_ok)
          | Some (File b _) => if ends_slash path then (f, A_error) else (<[k := File b (perm mode)]> f, A_ok)
          | _ => (f, A_error)
          end
      | None => (f, A_error)
      end
  end.
End System.

(** ** Programs *)

Inductive prog (A : Type) : Type :=
  | Ret (a : A)
  | Call (c : call) (k : answer → prog A).
#[global] Arguments Ret {A} a.
#[global] Arguments Call {A} c k.

#[export] Instance prog_ret : MRet prog := @Ret.
#[export] Instance prog_bind : MBind prog := λ A B h,
  fix go p := match p with Ret a => h a | Call c k => Call c (λ x, go (k x)) end.

Lemma prog_bind_ret {A B} (a : A) (h : A → prog B) : (Ret a ≫= h) = h a.
Proof. done. Qed.
Lemma prog_bind_call {A B} c k (h : A → prog B) : (Call c k ≫= h) = Call c (λ x, k x ≫= h).
Proof. done. Qed.

(** A program alone. *)
Fixpoint run {A} (sys : system_env) (p : prog A) (f : tree) : A * tree :=
  match p with
  | Ret a => (a, f)
  | Call c k => let '(f', x) := exec sys f c in run sys (k x) f'
  end.

(** Several programs on one tree. *)
Definition crew (A : Type) : Type := list (prog A) * tree.

Inductive crew_step {A} (sys : system_env) : crew A → crew A → Prop :=
  | crew_call ps f i c k f' x :
      ps !! i = Some (Call c k) → exec sys f c = (f', x) →
      crew_step sys (ps, f) (<[i := k x]> ps, f').

(** The run of a given schedule. *)
Fixpoint crew_run {A} (sys : system_env) (schedule : list nat) (w : crew A) : crew A :=
  match schedule with
  | [] => w
  | i :: schedule' =>
      match w.1 !! i with
      | Some (Call c k) => let '(f', x) := exec sys w.2 c in crew_run sys schedule' (<[i := k x]> w.1, f')
      | _ => crew_run sys schedule' w
      end
  end.

Lemma crew_run_reach {A} (sys : system_env) schedule (w : crew A) : rtc (crew_step sys) w (crew_run sys schedule w).
Proof.
  revert w. induction schedule as [|i l IH]; intros [ps f]; [done|]. cbn. destruct (ps !! i) as [[a|c k]|] eqn:E; [done| |done].
  destruct (exec sys f c) as [f' x] eqn:Ex. eapply rtc_l; [by econstructor|apply IH].
Qed.

Definition returned {A} (p : prog A) : bool := match p with Ret _ => true | Call _ _ => false end.

(** Every program has returned. *)
Definition crew_done {A} (w : crew A) : Prop := ∀ p, p ∈ w.1 → ∃ a, p = Ret a.

(** ** Rely and guarantee *)

(** What the other programs may do to the tree ([R]) and what this one does ([G]). *)
Section Logic.
Context (sys : system_env) (R G : tree → tree → Prop).

Fixpoint holds {A} (p : prog A) (Q : A → tree → Prop) (f : tree) : Prop :=
  match p with
  | Ret a => ∀ f', R f f' → Q a f'
  | Call c k => ∀ f', R f f' →
      G f' (exec sys f' c).1 ∧ holds (k (exec sys f' c).2) Q (exec sys f' c).1
  end.

Context {HR : PreOrder R}.

Lemma holds_rely {A} (p : prog A) Q f f' : holds p Q f → R f f' → holds p Q f'.
Proof. intros H Hr. destruct p; cbn in *; intros f1 H1; apply H; by etrans. Qed.

Lemma holds_bind {A B} (p : prog A) (h : A → prog B) Q f :
  holds p (λ a f', holds (h a) Q f') f → holds (p ≫= h) Q f.
Proof.
  revert f. induction p as [a|c k IH]; intros f H; [by apply (H f)|].
  cbn. intros f' Hr. destruct (H f' Hr) as [Hg Hk]. split; [done|by apply IH].
Qed.

Lemma holds_mono {A} (p : prog A) (Q Q' : A → tree → Prop) f :
  holds p Q f → (∀ a f', Q a f' → Q' a f') → holds p Q' f.
Proof.
  intros H HQ. revert f H. induction p as [a|c k IH]; intros f H; [cbn in *; auto|].
  cbn. intros f' Hr. destruct (H f' Hr). auto.
Qed.

Lemma holds_ret {A} (a : A) Q f : (∀ f', R f f' → Q a f') → holds (Ret a) Q f.
Proof. done. Qed.

(** One call: what it does on every tree the others may leave. *)
Lemma holds_call {A} c (k : answer → prog A) Q f :
  (∀ f', R f f' → ∃ f'' x, exec sys f' c = (f'', x) ∧ G f' f'' ∧ holds (k x) Q f'') →
  holds (Call c k) Q f.
Proof. intros H. cbn. intros f' Hr. by destruct (H f' Hr) as (f'' & x & -> & ? & ?). Qed.

(** Alone, a program that keeps its guarantee ends as it should. *)
Lemma holds_run {A} (p : prog A) Q f : holds p Q f → Q (run sys p f).1 (run sys p f).2.
Proof.
  revert f. induction p as [a|c k IH]; intros f H; [by apply H|]. cbn.
  destruct (H f ltac:(done)) as [_ Hk]. destruct (exec sys f c) as [f' x]. by apply IH.
Qed.
End Logic.

(** Programs whose guarantees imply the relies of the others keep what they promise in
    every interleaving. *)
Section Crew.
Context {A : Type} (sys : system_env) (R G : nat → tree → tree → Prop) (Q : nat → A → tree → Prop).
Context {HR : ∀ i, PreOrder (R i)}.
Hypothesis compatible : ∀ i j f f', i ≠ j → G i f f' → R j f f'.

Definition crew_holds (w : crew A) : Prop :=
  ∀ i p, w.1 !! i = Some p → holds sys (R i) (G i) p (Q i) w.2.

Lemma crew_holds_step w w' : crew_holds w → crew_step sys w w' → crew_holds w'.
Proof.
  intros H Hs. destruct Hs as [ps f i c k f' x Hi Hx]. intros j p Hj. cbn in Hj |- *.
  pose proof (H i _ Hi) as Hp. cbn in Hp. destruct (Hp f ltac:(done)) as [Hg Hk]. rewrite Hx in Hg, Hk.
  destruct (decide (i = j)) as [<-|Hne].
  - rewrite list_lookup_insert_eq in Hj by by eapply lookup_lt_Some. by injection Hj as <-.
  - rewrite list_lookup_insert_ne in Hj by done. apply (holds_rely sys (R j) (G j) p (Q j) f); [apply (H j p Hj)|by eapply compatible].
Qed.

Lemma crew_holds_reach w w' : rtc (crew_step sys) w w' → crew_holds w → crew_holds w'.
Proof. intros Hr. by apply (rtc_invariant (crew_step sys) crew_holds crew_holds_step). Qed.

(** What all guarantees imply holds of the whole run. *)
Lemma crew_whole (T : tree → tree → Prop) {HT : PreOrder T} w w' :
  (∀ i f f', G i f f' → T f f') → rtc (crew_step sys) w w' → crew_holds w → T w.2 w'.2.
Proof.
  intros HG. induction 1 as [|w w1 w' Hs _ IH]; intros H; [done|]. etrans; [|apply IH, (crew_holds_step w w1 H Hs)].
  destruct Hs as [ps f i c k f' x Hi Hx]. pose proof (H i _ Hi) as Hp. cbn in Hp.
  destruct (Hp f ltac:(done)) as [Hg _]. rewrite Hx in Hg. by eapply HG.
Qed.

(** At the end every postcondition holds. *)
Lemma crew_holds_done w i a : crew_holds w → w.1 !! i = Some (Ret a) → Q i a w.2.
Proof. intros H Hi. by apply (H i _ Hi). Qed.
End Crew.

(** ** Every schedule ends *)
Section Ends.
Context {A : Type} (sys : system_env).

(** One program one call further. *)
Inductive child : prog A → prog A → Prop := child_of c k x : child (k x) (Call c k).

Lemma child_wf : well_founded child.
Proof. intros p. induction p as [a|c k IH]; constructor; intros y Hy; inversion Hy; subst; auto. Qed.

Inductive one_child : list (prog A) → list (prog A) → Prop :=
  | one_child_at ps i p q : ps !! i = Some p → child q p → one_child (<[i := q]> ps) ps.

Lemma one_child_cons p ps : Acc child p → Acc one_child ps → Acc one_child (p :: ps).
Proof.
  intros Hp. revert ps. induction Hp as [p _ IHp]. intros ps Hps.
  induction Hps as [ps Hps IHps]. constructor. intros l Hl.
  inversion Hl as [ps' [|i] p' q Hi Hc E1 E2]; subst.
  - injection Hi as ->. cbn. apply IHp; [done|by constructor].
  - cbn. apply IHps. by econstructor.
Qed.

Lemma one_child_acc ps : Acc one_child ps.
Proof.
  induction ps as [|p ps IH]; [|apply one_child_cons; [apply child_wf|done]].
  constructor. intros l Hl. by inversion Hl.
Qed.

(** No schedule runs forever. *)
Lemma crew_ends (w : crew A) : Acc (flip (crew_step sys)) w.
Proof.
  destruct w as [ps f]. revert f. induction (one_child_acc ps) as [ps _ IH]. intros f.
  constructor. intros [ps' f'] Hs. inversion Hs as [? ? i c k ? x Hi Hx]; subst.
  apply IH. econstructor; [exact Hi|constructor].
Qed.

(** A crew that cannot go on has finished. *)
Lemma crew_progress (w : crew A) : crew_done w ∨ ∃ w', crew_step sys w w'.
Proof.
  destruct w as [ps f].
  destruct (decide (Forall returned ps)) as [H|H].
  - left. intros p Hp. rewrite Forall_forall in H. specialize (H p Hp). destruct p; [by eexists|done].
  - right. apply not_Forall_Exists in H; [|intros p; apply _]. apply Exists_exists in H as (p & Hp & Hc).
    apply list_elem_of_lookup in Hp as [i Hi]. destruct p as [a|c k]; [by destruct Hc|].
    destruct (exec sys f c) as [f' x] eqn:E. eexists. by econstructor.
Qed.

Lemma crew_finishes (w : crew A) : ∃ w', rtc (crew_step sys) w w' ∧ crew_done w'.
Proof.
  induction (crew_ends w) as [w _ IH]. destruct (crew_progress w) as [H|[w1 H1]]; [by exists w|].
  destruct (IH w1 H1) as (w' & Hr & Hd). exists w'. split; [by econstructor|done].
Qed.
End Ends.
