(* ===== verification/ZipReader.v ===== *)
(** * exjld/miniz.h: reading a zip archive

    The part of the vendored library the unpacking uses: the search for the end of the
    central directory, its records, and the extraction of an entry.  Buffers are lists of
    bytes; a read outside of one is [OutOfBounds].  The decompressor is the class
    [Inflator]; [InflatorLaws] says what its header promises, and [Inflate] is the one the
    library has.  Times of entries are left out. *)
From stdpp Require Import strings gmap list numbers.
From Stdlib Require Import Ascii.
From S2P Require Import Prelude CString FileSys.
Local Open Scope Z_scope.

(** ** Results *)

(** [MZ_FALSE] is the library's failure; [Endless]: a loop that has not ended. *)
Inductive read (A : Type) : Type :=
  | Got (a : A)
  | MZ_FALSE
  | OutOfBounds
  | Endless.
#[global] Arguments Got {A} a.
#[global] Arguments MZ_FALSE {A}.
#[global] Arguments OutOfBounds {A}.
#[global] Arguments Endless {A}.

#[export] Instance read_ret : MRet read := @Got.
#[export] Instance read_bind : MBind read := λ A B h r,
  match r with Got a => h a | MZ_FALSE => MZ_FALSE | OutOfBounds => OutOfBounds | Endless => Endless end.

Definition check (b : bool) : read unit := if b then Got tt else MZ_FALSE.

(** ** Bytes *)

(** Unsigned and signed 64 bit values. *)
Definition u64 (z : Z) : Z := z `mod` 2 ^ 64.
Definition i64 (z : Z) : Z := if z <? 2 ^ 63 then z else z - 2 ^ 64.

Definition rd8 (p : list Z) (ofs : Z) : read Z :=
  if ofs <? 0 then OutOfBounds else
  match p !! Z.to_nat ofs with Some b => Got b | None => OutOfBounds end.

Definition MZ_READ_LE16 (p : list Z) (ofs : Z) : read Z :=
  a ← rd8 p ofs; b ← rd8 p (ofs + 1); Got (Z.lor a (Z.shiftl b 8)).

Definition MZ_READ_LE32 (p : list Z) (ofs : Z) : read Z :=
  a ← rd8 p ofs; b ← rd8 p (ofs + 1); c ← rd8 p (ofs + 2); d ← rd8 p (ofs + 3);
  Got (Z.lor (Z.lor (Z.lor a (Z.shiftl b 8)) (Z.shiftl c 16)) (Z.shiftl d 24)).

(** The [n] bytes from [ofs] on, as far as there are any. *)
Definition sub (l : list Z) (ofs n : Z) : list Z := take (Z.to_nat n) (drop (Z.to_nat ofs) l).

Definition len (l : list Z) : Z := Z.of_nat (length l).

(** A C string in a buffer, and the bytes of one. *)
Fixpoint c_string (l : list Z) : string :=
  match l with
  | [] => ""
  | b :: l' => if b =? 0 then "" else String (ascii_of_N (Z.to_N b)) (c_string l')
  end.
Fixpoint string_bytes (s : string) : list Z :=
  match s with EmptyString => [] | String c s' => byte c :: string_bytes s' end.

(** ** Checksum *)

Definition s_crc32 : list Z :=
  [0;          0x1db71064; 0x3b6e20c8; 0x26d930ac; 0x76dc4190; 0x6b6b51f4;
   0x4db26158; 0x5005713c; 0xedb88320; 0xf00f9344; 0xd6d6a3e8; 0xcb61b38c;
   0x9b64c2b0; 0x86d3d2d4; 0xa00ae278; 0xbdbdf21c].

(** [~] on 32 bits. *)
Definition not32 (z : Z) : Z := Z.lxor z 0xFFFFFFFF.

(** Half a byte. *)
Definition crc_nibble (crc n : Z) : Z :=
  Z.lxor (Z.shiftr crc 4) (nth (Z.to_nat (Z.lxor (Z.land crc 15) n)) s_crc32 0).

Definition crc_byte (crc b : Z) : Z := crc_nibble (crc_nibble crc (Z.land b 15)) (Z.shiftr b 4).

Definition MZ_CRC32_INIT : Z := 0.

Definition mz_crc32 (crc : Z) (l : list Z) : Z := not32 (foldl crc_byte (not32 crc) l).

(** ** Constants *)

Definition MZ_ZIP_END_OF_CENTRAL_DIR_HEADER_SIG : Z := 0x06054b50.
Definition MZ_ZIP_CENTRAL_DIR_HEADER_SIG : Z := 0x02014b50.
Definition MZ_ZIP_LOCAL_DIR_HEADER_SIG : Z := 0x04034b50.
Definition MZ_ZIP_LOCAL_DIR_HEADER_SIZE : Z := 30.
Definition MZ_ZIP_CENTRAL_DIR_HEADER_SIZE : Z := 46.
Definition MZ_ZIP_END_OF_CENTRAL_DIR_HEADER_SIZE : Z := 22.
Definition MZ_ZIP_CDH_VERSION_MADE_BY_OFS : Z := 4.
Definition MZ_ZIP_CDH_VERSION_NEEDED_OFS : Z := 6.
Definition MZ_ZIP_CDH_BIT_FLAG_OFS : Z := 8.
Definition MZ_ZIP_CDH_METHOD_OFS : Z := 10.
Definition MZ_ZIP_CDH_CRC32_OFS : Z := 16.
Definition MZ_ZIP_CDH_COMPRESSED_SIZE_OFS : Z := 20.
Definition MZ_ZIP_CDH_DECOMPRESSED_SIZE_OFS : Z := 24.
Definition MZ_ZIP_CDH_FILENAME_LEN_OFS : Z := 28.
Definition MZ_ZIP_CDH_EXTRA_LEN_OFS : Z := 30.
Definition MZ_ZIP_CDH_COMMENT_LEN_OFS : Z := 32.
Definition MZ_ZIP_CDH_DISK_START_OFS : Z := 34.
Definition MZ_ZIP_CDH_INTERNAL_ATTR_OFS : Z := 36.
Definition MZ_ZIP_CDH_EXTERNAL_ATTR_OFS : Z := 38.
Definition MZ_ZIP_CDH_LOCAL_HEADER_OFS : Z := 42.
Definition MZ_ZIP_LDH_FILENAME_LEN_OFS : Z := 26.
Definition MZ_ZIP_LDH_EXTRA_LEN_OFS : Z := 28.
Definition MZ_ZIP_ECDH_NUM_THIS_DISK_OFS : Z := 4.
Definition MZ_ZIP_ECDH_NUM_DISK_CDIR_OFS : Z := 6.
Definition MZ_ZIP_ECDH_CDIR_NUM_ENTRIES_ON_DISK_OFS : Z := 8.
Definition MZ_ZIP_ECDH_CDIR_TOTAL_ENTRIES_OFS : Z := 10.
Definition MZ_ZIP_ECDH_CDIR_SIZE_OFS : Z := 12.
Definition MZ_ZIP_ECDH_CDIR_OFS_OFS : Z := 16.
Definition MZ_ZIP_MAX_ARCHIVE_FILENAME_SIZE : Z := 260.
Definition MZ_ZIP_MAX_ARCHIVE_FILE_COMMENT_SIZE : Z := 256.
Definition MZ_ZIP_MAX_IO_BUF_SIZE : Z := 64 * 1024.
Definition MZ_DEFLATED : Z := 8.
(** [sizeof(buf_u32)] *)
Definition SCAN_BUF : Z := 4096.
(** [sizeof(mz_zip_internal_state)], 64 bit *)
Definition INTERNAL_STATE_SIZE : Z := 128.
Definition TINFL_LZ_DICT_SIZE : Z := 32768.

(** ** The open archive *)

(** [mz_zip_internal_state]: the central directory, the offsets of its records, the numbers
    of the records in the order of their names, and the file.  The contents of the file are
    those at the time it was opened. *)
Record mz_zip_internal_state := InternalState {
  m_central_dir : list Z;
  m_central_dir_offsets : list Z;
  m_sorted_central_dir_offsets : list Z;
  m_pFile : list Z
}.

(** [mz_zip_mode] *)
Inductive mz_zip_mode := MZ_ZIP_MODE_INVALID | MZ_ZIP_MODE_READING.

Record mz_zip_archive := ZipArchive {
  m_archive_size : Z;
  m_central_directory_file_ofs : Z;
  m_total_files : Z;
  m_zip_mode : mz_zip_mode;
  m_pState : option mz_zip_internal_state
}.

(** [mz_zip_file_read_func] *)
Definition mz_zip_file_read_func (file : list Z) (file_ofs n : Z) : list Z :=
  if i64 file_ofs <? 0 then [] else sub file file_ofs n.

(** ** The index by name *)

Definition MZ_TOLOWER (c : Z) : Z := if (65 <=? c) && (c <=? 90) then c - 65 + 97 else c.

(** [while (pL < pE)], [n] bytes from there, and the result. *)
Fixpoint filename_less_loop (n : nat) (cdir : list Z) (pL pR l_len r_len : Z) : read bool :=
  match n with
  | O => Got (l_len <? r_len)
  | S n' =>
      l ← rd8 cdir pL; r ← rd8 cdir pR;
      if MZ_TOLOWER l =? MZ_TOLOWER r then filename_less_loop n' cdir (pL + 1) (pR + 1) l_len r_len
      else Got (MZ_TOLOWER l <? MZ_TOLOWER r)
  end.

Definition mz_zip_reader_filename_less (cdir offsets : list Z) (l_index r_index : Z) : read bool :=
  pL ← rd8 offsets l_index;
  pR ← rd8 offsets r_index;
  l_len ← MZ_READ_LE16 cdir (pL + MZ_ZIP_CDH_FILENAME_LEN_OFS);
  r_len ← MZ_READ_LE16 cdir (pR + MZ_ZIP_CDH_FILENAME_LEN_OFS);
  filename_less_loop (Z.to_nat (Z.min l_len r_len)) cdir
    (pL + MZ_ZIP_CENTRAL_DIR_HEADER_SIZE) (pR + MZ_ZIP_CENTRAL_DIR_HEADER_SIZE) l_len r_len.

(** [MZ_SWAP_UINT32] on two elements of an array. *)
Definition MZ_SWAP_UINT32 (pIndices : list Z) (i j : Z) : read (list Z) :=
  a ← rd8 pIndices i; b ← rd8 pIndices j;
  Got (<[Z.to_nat j := a]> (<[Z.to_nat i := b]> pIndices)).

Section Sort.
Context (filename_less : Z → Z → read bool).

(** [for (;;)]: the element at [root] goes down the heap of the first [end_] elements. *)
Fixpoint sift (fuel : nat) (pIndices : list Z) (root end_ : Z) : read (list Z) :=
  match fuel with
  | O => Endless
  | S fuel' =>
      let child := Z.shiftl root 1 + 1 in
      if end_ <=? child then Got pIndices else
      right ← (if child + 1 <? end_ then
                 a ← rd8 pIndices child; b ← rd8 pIndices (child + 1); filename_less a b
               else Got false);
      let child := child + (if right : bool then 1 else 0) in
      a ← rd8 pIndices root; b ← rd8 pIndices child;
      less ← filename_less a b;
      if negb less then Got pIndices else
      pIndices ← MZ_SWAP_UINT32 pIndices root child;
      sift fuel' pIndices child end_
  end.

(** [while (start >= 0)], [n] rounds *)
Fixpoint heap_up (n : nat) (pIndices : list Z) (size : Z) : read (list Z) :=
  match n with
  | O => Got pIndices
  | S start =>
      pIndices ← sift (S (Z.to_nat size)) pIndices (Z.of_nat start) size;
      heap_up start pIndices size
  end.

(** [while (end > 0)] *)
Fixpoint heap_down (end_ : nat) (pIndices : list Z) : read (list Z) :=
  match end_ with
  | O => Got pIndices
  | S end' =>
      pIndices ← MZ_SWAP_UINT32 pIndices (Z.of_nat end_) 0;
      pIndices ← sift (S end_) pIndices 0 (Z.of_nat end_);
      heap_down end' pIndices
  end.

Definition heap_sort (size : Z) (pIndices : list Z) : read (list Z) :=
  pIndices ← heap_up (Z.to_nat (Z.shiftr (size - 2) 1 + 1)) pIndices size;
  heap_down (Z.to_nat (size - 1)) pIndices.
End Sort.

Definition mz_zip_reader_sort_central_dir_offsets_by_filename (cdir offsets pIndices : list Z) (size : Z) : read (list Z) :=
  heap_sort (mz_zip_reader_filename_less cdir offsets) size pIndices.

(** The numbers of the records, as the loop over the records puts them there. *)
Definition record_numbers (n : Z) : list Z := Z.of_nat <$> seq 0 (Z.to_nat n).

Section Reader.
(** [malloc] and [realloc]: whether so many bytes are granted. *)
Context (alloc : Z → bool).

(** [for (i = n - 4; i >= 0; --i)]: the last signature in the buffer. *)
Fixpoint find_sig (pBuf : list Z) (k : nat) : read (option Z) :=
  match k with
  | O => Got None
  | S i =>
      x ← MZ_READ_LE32 pBuf (Z.of_nat i);
      if x =? MZ_ZIP_END_OF_CENTRAL_DIR_HEADER_SIG then Got (Some (Z.of_nat i)) else find_sig pBuf i
  end.

(** The loop over windows from the end; [cur_file_ofs] is signed, the sums with
    [m_archive_size] and [sizeof] are not. *)
Fixpoint find_eocd (fuel : nat) (file : list Z) (size cur_file_ofs : Z) : read Z :=
  match fuel with
  | O => Endless
  | S fuel' =>
      let n := Z.min SCAN_BUF (u64 (size - cur_file_ofs)) in
      let pBuf := mz_zip_file_read_func file (u64 cur_file_ofs) n in
      _ ← check (len pBuf =? n);
      r ← find_sig pBuf (Z.to_nat (n - 3));
      match r with
      | Some i => Got (cur_file_ofs + i)
      | None =>
          _ ← check (negb ((cur_file_ofs =? 0) ||
                ((0xFFFF + MZ_ZIP_END_OF_CENTRAL_DIR_HEADER_SIZE) <=? u64 (size - cur_file_ofs))));
          find_eocd fuel' file size (i64 (Z.max (u64 (cur_file_ofs - (SCAN_BUF - 3))) 0))
      end
  end.

(** Rounds of the loop: the distance from the end grows by 4093. *)
Definition EOCD_ROUNDS : nat := 18.

(** One record of the central directory at [p], [n] bytes from there on: its size. *)
Definition read_header (cdir : list Z) (size num_this_disk p n : Z) : read Z :=
  _ ← check (MZ_ZIP_CENTRAL_DIR_HEADER_SIZE <=? n);
  sig ← MZ_READ_LE32 cdir p;
  _ ← check (sig =? MZ_ZIP_CENTRAL_DIR_HEADER_SIG);
  comp_size ← MZ_READ_LE32 cdir (p + MZ_ZIP_CDH_COMPRESSED_SIZE_OFS);
  decomp_size ← MZ_READ_LE32 cdir (p + MZ_ZIP_CDH_DECOMPRESSED_SIZE_OFS);
  method32 ← MZ_READ_LE32 cdir (p + MZ_ZIP_CDH_METHOD_OFS);
  _ ← check (negb (((method32 =? 0) && negb (decomp_size =? comp_size)) ||
                   (negb (decomp_size =? 0) && (comp_size =? 0)) ||
                   (decomp_size =? 0xFFFFFFFF) || (comp_size =? 0xFFFFFFFF)));
  disk_index ← MZ_READ_LE16 cdir (p + MZ_ZIP_CDH_DISK_START_OFS);
  _ ← check (negb (negb (disk_index =? num_this_disk) && negb (disk_index =? 1)));
  lofs ← MZ_READ_LE32 cdir (p + MZ_ZIP_CDH_LOCAL_HEADER_OFS);
  _ ← check (negb (size <? lofs + MZ_ZIP_LOCAL_DIR_HEADER_SIZE + comp_size));
  a ← MZ_READ_LE16 cdir (p + MZ_ZIP_CDH_FILENAME_LEN_OFS);
  b ← MZ_READ_LE16 cdir (p + MZ_ZIP_CDH_EXTRA_LEN_OFS);
  c ← MZ_READ_LE16 cdir (p + MZ_ZIP_CDH_COMMENT_LEN_OFS);
  let total_header_size := MZ_ZIP_CENTRAL_DIR_HEADER_SIZE + a + b + c in
  _ ← check (negb (n <? total_header_size));
  Got total_header_size.

(** The offsets of [k] records. *)
Fixpoint read_headers (k : nat) (cdir : list Z) (size num_this_disk p n : Z) : read (list Z) :=
  match k with
  | O => Got []
  | S k' =>
      h ← read_header cdir size num_this_disk p n;
      l ← read_headers k' cdir size num_this_disk (p + h) (n - h);
      Got (p :: l)
  end.

Definition mz_zip_reader_read_central_dir (file : list Z) (size : Z) : read mz_zip_archive :=
  _ ← check (negb (size <? MZ_ZIP_END_OF_CENTRAL_DIR_HEADER_SIZE));
  cur_file_ofs ← find_eocd EOCD_ROUNDS file size (Z.max (size - SCAN_BUF) 0);
  let pBuf := mz_zip_file_read_func file (u64 cur_file_ofs) MZ_ZIP_END_OF_CENTRAL_DIR_HEADER_SIZE in
  _ ← check (len pBuf =? MZ_ZIP_END_OF_CENTRAL_DIR_HEADER_SIZE);
  sig ← MZ_READ_LE32 pBuf 0;
  _ ← check (sig =? MZ_ZIP_END_OF_CENTRAL_DIR_HEADER_SIG);
  total_files ← MZ_READ_LE16 pBuf MZ_ZIP_ECDH_CDIR_TOTAL_ENTRIES_OFS;
  on_disk ← MZ_READ_LE16 pBuf MZ_ZIP_ECDH_CDIR_NUM_ENTRIES_ON_DISK_OFS;
  _ ← check (total_files =? on_disk);
  num_this_disk ← MZ_READ_LE16 pBuf MZ_ZIP_ECDH_NUM_THIS_DISK_OFS;
  cdir_disk_index ← MZ_READ_LE16 pBuf MZ_ZIP_ECDH_NUM_DISK_CDIR_OFS;
  _ ← check (negb (negb (Z.lor num_this_disk cdir_disk_index =? 0) &&
                   (negb (num_this_disk =? 1) || negb (cdir_disk_index =? 1))));
  cdir_size ← MZ_READ_LE32 pBuf MZ_ZIP_ECDH_CDIR_SIZE_OFS;
  _ ← check (negb (cdir_size <? total_files * MZ_ZIP_CENTRAL_DIR_HEADER_SIZE));
  cdir_ofs ← MZ_READ_LE32 pBuf MZ_ZIP_ECDH_CDIR_OFS_OFS;
  _ ← check (negb (size <? cdir_ofs + cdir_size));
  '(cdir, offsets) ←
    (if total_files =? 0 then Got ([], []) else
     _ ← check (alloc cdir_size && alloc (4 * total_files) && alloc (4 * total_files));
     let cdir := mz_zip_file_read_func file cdir_ofs cdir_size in
     _ ← check (len cdir =? cdir_size);
     l ← read_headers (Z.to_nat total_files) cdir size num_this_disk 0 cdir_size;
     Got (cdir, l));
  sorted ← mz_zip_reader_sort_central_dir_offsets_by_filename cdir offsets (record_numbers total_files) total_files;
  Got (ZipArchive size cdir_ofs total_files MZ_ZIP_MODE_READING (Some (InternalState cdir offsets sorted file))).

(** [mz_zip_reader_init_file] on a file that could be opened, with
    [mz_zip_reader_init_internal]. *)
Definition mz_zip_reader_init_file (file : list Z) : read mz_zip_archive :=
  _ ← check (alloc INTERNAL_STATE_SIZE);
  mz_zip_reader_read_central_dir file (len file).

(** [mz_zip_reader_end]: its result and what is left. *)
Definition mz_zip_reader_end (z : mz_zip_archive) : bool * mz_zip_archive :=
  match m_pState z, m_zip_mode z with
  | Some _, MZ_ZIP_MODE_READING =>
      (true, ZipArchive (m_archive_size z) (m_central_directory_file_ofs z) (m_total_files z) MZ_ZIP_MODE_INVALID None)
  | _, _ => (false, z)
  end.

Definition mz_zip_reader_get_num_files (z : mz_zip_archive) : Z := m_total_files z.

(** The directory and the place of a record in it; NULL is [MZ_FALSE]. *)
Definition mz_zip_reader_get_cdh (z : mz_zip_archive) (file_index : Z) : read (list Z * Z) :=
  match m_pState z with
  | Some st =>
      _ ← check (file_index <? m_total_files z);
      _ ← check (match m_zip_mode z with MZ_ZIP_MODE_READING => true | _ => false end);
      match m_central_dir_offsets st !! Z.to_nat file_index with
      | Some p => Got (m_central_dir st, p)
      | None => OutOfBounds
      end
  | None => MZ_FALSE
  end.

Definition mz_zip_reader_is_file_a_directory (z : mz_zip_archive) (file_index : Z) : read bool :=
  match mz_zip_reader_get_cdh z file_index with
  | Got (cdir, p) =>
      filename_len ← MZ_READ_LE16 cdir (p + MZ_ZIP_CDH_FILENAME_LEN_OFS);
      slash ← (if filename_len =? 0 then Got false else
               c ← rd8 cdir (p + MZ_ZIP_CENTRAL_DIR_HEADER_SIZE + filename_len - 1); Got (c =? 47));
      if slash : bool then Got true else
      external_attr ← MZ_READ_LE32 cdir (p + MZ_ZIP_CDH_EXTERNAL_ATTR_OFS);
      Got (negb (Z.land external_attr 0x10 =? 0))
  | MZ_FALSE => Got false
  | OutOfBounds => OutOfBounds
  | Endless => Endless
  end.

(** [mz_zip_archive_file_stat] without the time. *)
Record mz_zip_archive_file_stat := FileStat {
  m_file_index : Z;
  m_central_dir_ofs : Z;
  m_version_made_by : Z;
  m_version_needed : Z;
  m_bit_flag : Z;
  m_method : Z;
  m_crc32 : Z;
  m_comp_size : Z;
  m_uncomp_size : Z;
  m_internal_attr : Z;
  m_external_attr : Z;
  m_local_header_ofs : Z;
  m_comment_size : Z;
  m_filename : list Z;
  m_comment : list Z
}.

(** [memcpy] out of a buffer. *)
Definition copy_out (p : list Z) (ofs n : Z) : read (list Z) :=
  let l := sub p ofs n in if len l =? n then Got l else OutOfBounds.

Definition mz_zip_reader_file_stat (z : mz_zip_archive) (file_index : Z) : read mz_zip_archive_file_stat :=
  '(cdir, p) ← mz_zip_reader_get_cdh z file_index;
  made_by ← MZ_READ_LE16 cdir (p + MZ_ZIP_CDH_VERSION_MADE_BY_OFS);
  needed ← MZ_READ_LE16 cdir (p + MZ_ZIP_CDH_VERSION_NEEDED_OFS);
  flag ← MZ_READ_LE16 cdir (p + MZ_ZIP_CDH_BIT_FLAG_OFS);
  method ← MZ_READ_LE16 cdir (p + MZ_ZIP_CDH_METHOD_OFS);
  crc ← MZ_READ_LE32 cdir (p + MZ_ZIP_CDH_CRC32_OFS);
  comp_size ← MZ_READ_LE32 cdir (p + MZ_ZIP_CDH_COMPRESSED_SIZE_OFS);
  uncomp_size ← MZ_READ_LE32 cdir (p + MZ_ZIP_CDH_DECOMPRESSED_SIZE_OFS);
  iattr ← MZ_READ_LE16 cdir (p + MZ_ZIP_CDH_INTERNAL_ATTR_OFS);
  xattr ← MZ_READ_LE32 cdir (p + MZ_ZIP_CDH_EXTERNAL_ATTR_OFS);
  lofs ← MZ_READ_LE32 cdir (p + MZ_ZIP_CDH_LOCAL_HEADER_OFS);
  namelen ← MZ_READ_LE16 cdir (p + MZ_ZIP_CDH_FILENAME_LEN_OFS);
  name ← copy_out cdir (p + MZ_ZIP_CENTRAL_DIR_HEADER_SIZE) (Z.min namelen (MZ_ZIP_MAX_ARCHIVE_FILENAME_SIZE - 1));
  commentlen ← MZ_READ_LE16 cdir (p + MZ_ZIP_CDH_COMMENT_LEN_OFS);
  extralen ← MZ_READ_LE16 cdir (p + MZ_ZIP_CDH_EXTRA_LEN_OFS);
  let n := Z.min commentlen (MZ_ZIP_MAX_ARCHIVE_FILE_COMMENT_SIZE - 1) in
  comment ← copy_out cdir (p + MZ_ZIP_CENTRAL_DIR_HEADER_SIZE + namelen + extralen) n;
  Got (FileStat file_index p made_by needed flag method crc comp_size uncomp_size iattr xattr lofs n name comment).

(** ** Extraction *)

(** The checks both extraction functions begin with (no flags); [None]: there is nothing to
    extract. *)
Definition entry_checks (z : mz_zip_archive) (file_index : Z) : read (option mz_zip_archive_file_stat) :=
  st ← mz_zip_reader_file_stat z file_index;
  if m_comp_size st =? 0 then Got None else
  isdir ← mz_zip_reader_is_file_a_directory z file_index;
  if isdir : bool then Got None else
  _ ← check (Z.land (m_bit_flag st) (Z.lor 1 32) =? 0);
  _ ← check ((m_method st =? 0) || (m_method st =? MZ_DEFLATED));
  Got (Some st).

(** The local header: where the data begin. *)
Definition data_ofs (file : list Z) (size : Z) (st : mz_zip_archive_file_stat) : read Z :=
  let pLocal_header := mz_zip_file_read_func file (m_local_header_ofs st) MZ_ZIP_LOCAL_DIR_HEADER_SIZE in
  _ ← check (len pLocal_header =? MZ_ZIP_LOCAL_DIR_HEADER_SIZE);
  sig ← MZ_READ_LE32 pLocal_header 0;
  _ ← check (sig =? MZ_ZIP_LOCAL_DIR_HEADER_SIG);
  a ← MZ_READ_LE16 pLocal_header MZ_ZIP_LDH_FILENAME_LEN_OFS;
  b ← MZ_READ_LE16 pLocal_header MZ_ZIP_LDH_EXTRA_LEN_OFS;
  let ofs := m_local_header_ofs st + (MZ_ZIP_LOCAL_DIR_HEADER_SIZE + a + b) in
  _ ← check (negb (size <? ofs + m_comp_size st));
  Got ofs.
End Reader.

(** *** The decompressor *)

(** [tinfl_status] *)
Inductive tinfl_status :=
  | TINFL_STATUS_BAD_PARAM
  | TINFL_STATUS_ADLER32_MISMATCH
  | TINFL_STATUS_FAILED
  | TINFL_STATUS_DONE
  | TINFL_STATUS_NEEDS_MORE_INPUT
  | TINFL_STATUS_HAS_MORE_OUTPUT.

Definition TINFL_FLAG_HAS_MORE_INPUT : Z := 2.
Definition TINFL_FLAG_USING_NON_WRAPPING_OUTPUT_BUF : Z := 4.

(** [tinfl_decompress r in buf pos room flags]: input, output buffer, place and room in it;
    back come the status, the state, the number of bytes used up and the bytes written.
    [OutOfBounds]: an access outside of its arrays or buffers, or to a byte of the output
    buffer never written. *)
Class Inflator := {
  tinfl_decompressor : Type;
  tinfl_init : tinfl_decompressor;
  tinfl_decompress : tinfl_decompressor → list Z → list Z → Z → Z → Z →
                     read (tinfl_status * tinfl_decompressor * nat * list Z)
}.

(** The output buffer holds the last 32768 bytes of the output so far, as a ring. *)
Definition window (buf done : list Z) : Prop :=
  ∀ j, 0 ≤ j < len done → len done ≤ j + TINFL_LZ_DICT_SIZE →
    buf !! Z.to_nat (j `mod` TINFL_LZ_DICT_SIZE) = done !! Z.to_nat j.

(** What the header promises of a good stream: [decoding r rest done todo] says that after
    [done] the state [r] makes [todo] out of the input [rest].  A call uses up some of its
    input and writes some of the output into the room it has; it ends, or asks for input
    when all it was given is used up and there is more, or for room when that is full. *)
Class InflatorLaws `{Inflator} := {
  decoding : tinfl_decompressor → list Z → list Z → list Z → Prop;
  decoding_step r chunk later done todo buf :
    decoding r (chunk ++ later) done todo → (chunk = [] → later = []) → window buf done →
    let pos := len done `mod` TINFL_LZ_DICT_SIZE in
    ∃ s r' used out todo',
    tinfl_decompress r chunk buf pos (TINFL_LZ_DICT_SIZE - pos)
      (if len later =? 0 then 0 else TINFL_FLAG_HAS_MORE_INPUT) = Got (s, r', used, out) ∧
    todo = out ++ todo' ∧ (used ≤ length chunk)%nat ∧ len out ≤ TINFL_LZ_DICT_SIZE - pos ∧
    match s with
    | TINFL_STATUS_DONE => todo' = []
    | TINFL_STATUS_NEEDS_MORE_INPUT => later ≠ [] ∧ used = length chunk ∧ decoding r' later (done ++ out) todo'
    | TINFL_STATUS_HAS_MORE_OUTPUT =>
        len out = TINFL_LZ_DICT_SIZE - pos ∧ decoding r' (drop used chunk ++ later) (done ++ out) todo'
    | _ => False
    end
}.

(** The stream is the data, compressed. *)
Definition inflates `{InflatorLaws} (stream data : list Z) : Prop := decoding tinfl_init stream [] data.

(** A program whose result may be a failure of the library. *)
Definition U (A : Type) : Type := prog (read A).

Definition lift {A} (r : read A) : U A := Ret r.

Definition u_bind {A B} (m : U A) (h : A → U B) : U B :=
  @mbind prog _ _ _ (λ r, match r with Got a => h a | MZ_FALSE => Ret MZ_FALSE | OutOfBounds => Ret OutOfBounds | Endless => Ret Endless end) m.

Notation "'let!' x := m 'in' k" := (u_bind m (λ x, k))
  (at level 200, x pattern, m at level 100, k at level 200, right associativity).

(** How a loop over the data left its variables: whether the status is
    TINFL_STATUS_DONE, [out_buf_ofs] and [file_crc32]. *)
Record outcome := Outcome { o_done : bool; out_buf_ofs : Z; file_crc32 : Z }.

Section Extract.
Context `{Inflator} (alloc : Z → bool).

(** Stored data, a buffer at a time. *)
Fixpoint stored_loop (fuel : nat) (file : list Z) (key : list string) (read_buf_size : Z)
    (cur_file_ofs comp_remaining : Z) (o : outcome) : U outcome :=
  match fuel with
  | O => lift Endless
  | S fuel' =>
      if comp_remaining =? 0 then lift (Got o) else
      let read_buf_avail := Z.min read_buf_size comp_remaining in
      let pRead_buf := mz_zip_file_read_func file cur_file_ofs read_buf_avail in
      if negb (len pRead_buf =? read_buf_avail) then lift (Got (Outcome false (out_buf_ofs o) (file_crc32 o))) else
      let crc := mz_crc32 (file_crc32 o) pRead_buf in
      Call (C_write key (out_buf_ofs o) pRead_buf) (λ x,
        match x with
        | A_ok => stored_loop fuel' file key read_buf_size (cur_file_ofs + read_buf_avail)
                    (comp_remaining - read_buf_avail) (Outcome true (out_buf_ofs o + read_buf_avail) crc)
        | _ => lift (Got (Outcome false (out_buf_ofs o) crc))
        end)
  end.

Definition goes_on (s : tinfl_status) : bool :=
  match s with TINFL_STATUS_NEEDS_MORE_INPUT | TINFL_STATUS_HAS_MORE_OUTPUT => true | _ => false end.
Definition is_finished (s : tinfl_status) : bool := match s with TINFL_STATUS_DONE => true | _ => false end.

(** Compressed data through the dictionary buffer; [avail] is what is left of the read
    buffer. *)
Fixpoint inflate_loop (fuel : nat) (file : list Z) (key : list string) (read_buf_size m_uncomp : Z)
    (r : tinfl_decompressor) (pWrite_buf avail : list Z) (cur_file_ofs comp_remaining : Z)
    (o : outcome) : U outcome :=
  match fuel with
  | O => lift Endless
  | S fuel' =>
      let pos := Z.land (out_buf_ofs o) (TINFL_LZ_DICT_SIZE - 1) in
      let n := if len avail =? 0 then Z.min read_buf_size comp_remaining else 0 in
      let avail := if len avail =? 0 then mz_zip_file_read_func file cur_file_ofs n else avail in
      if (0 <? n) && negb (len avail =? n) then lift (Got (Outcome false (out_buf_ofs o) (file_crc32 o))) else
      let comp_remaining := comp_remaining - n in
      let! called :=
        lift (tinfl_decompress r avail pWrite_buf pos (TINFL_LZ_DICT_SIZE - pos)
          (if comp_remaining =? 0 then 0 else TINFL_FLAG_HAS_MORE_INPUT)) in
      let '(status, r', used, out) := called in
      let next o' :=
        if goes_on status then
          inflate_loop fuel' file key read_buf_size m_uncomp r' (write_at pos out pWrite_buf) (drop used avail)
            (cur_file_ofs + n) comp_remaining o'
        else lift (Got (Outcome (is_finished status) (out_buf_ofs o') (file_crc32 o'))) in
      if len out =? 0 then next o else
      Call (C_write key (out_buf_ofs o) out) (λ x,
        match x with
        | A_ok =>
            let o' := Outcome true (out_buf_ofs o + len out) (mz_crc32 (file_crc32 o) out) in
            if m_uncomp <? out_buf_ofs o' then lift (Got (Outcome false (out_buf_ofs o') (file_crc32 o')))
            else next o'
        | _ => lift (Got (Outcome false (out_buf_ofs o) (file_crc32 o)))
        end)
  end.

(** Rounds: every one but the last two uses up input or writes. *)
Definition inflate_fuel (st : mz_zip_archive_file_stat) : nat :=
  Z.to_nat (m_comp_size st) + Z.to_nat (m_uncomp_size st) + 3.

(** [mz_zip_reader_extract_to_callback] with [mz_zip_file_write_callback] on the stream of
    [key]; the library's [MZ_TRUE] is [Got tt]. *)
Definition mz_zip_reader_extract_to_callback (z : mz_zip_archive) (file_index : Z) (key : list string) : U unit :=
  let! c := lift (entry_checks z file_index) in
  match c, m_pState z with
  | None, _ => lift (Got tt)
  | Some st, None => lift OutOfBounds
  | Some st, Some s =>
      let! cur_file_ofs := lift (data_ofs (m_pFile s) (m_archive_size z) st) in
      let read_buf_size := Z.min (m_comp_size st) MZ_ZIP_MAX_IO_BUF_SIZE in
      let! _ := lift (check (alloc read_buf_size)) in
      let! o :=
        (if m_method st =? 0 then
           stored_loop (S (Z.to_nat (m_comp_size st))) (m_pFile s) key read_buf_size cur_file_ofs (m_comp_size st)
             (Outcome true 0 MZ_CRC32_INIT)
         else if alloc TINFL_LZ_DICT_SIZE then
           inflate_loop (inflate_fuel st) (m_pFile s) key read_buf_size (m_uncomp_size st)
             tinfl_init [] [] cur_file_ofs (m_comp_size st) (Outcome true 0 MZ_CRC32_INIT)
         else lift (Got (Outcome false 0 MZ_CRC32_INIT))) in
      lift (check (o_done o && (out_buf_ofs o =? m_uncomp_size st) && (file_crc32 o =? m_crc32 st)))
  end.

(** [mz_zip_reader_extract_to_file]: a failure of the close counts too. *)
Definition mz_zip_reader_extract_to_file (z : mz_zip_archive) (file_index : Z) (path : string) : U unit :=
  let! _ := lift (mz_zip_reader_file_stat z file_index) in
  Call (C_open_wb path) (λ x,
    match x with
    | A_stream key =>
        @mbind prog _ _ _ (λ status,
          Call (C_close key) (λ x, match x with A_ok => lift status | _ => lift MZ_FALSE end))
          (mz_zip_reader_extract_to_callback z file_index key)
    | _ => lift MZ_FALSE
    end).

(** Into memory: the loop; the buffer keeps what was written before. *)
Fixpoint inflate_mem_loop (fuel : nat) (file : list Z) (read_buf_size m_uncomp : Z)
    (r : tinfl_decompressor) (pBuf avail : list Z) (cur_file_ofs comp_remaining out_ofs : Z)
    : read (bool * list Z * Z) :=
  match fuel with
  | O => Endless
  | S fuel' =>
      let n := if len avail =? 0 then Z.min read_buf_size comp_remaining else 0 in
      let avail := if len avail =? 0 then mz_zip_file_read_func file cur_file_ofs n else avail in
      if (0 <? n) && negb (len avail =? n) then Got (false, pBuf, out_ofs) else
      let comp_remaining := comp_remaining - n in
      '(status, r', used, out) ←
        tinfl_decompress r avail pBuf out_ofs (m_uncomp - out_ofs)
          (Z.lor TINFL_FLAG_USING_NON_WRAPPING_OUTPUT_BUF
             (if comp_remaining =? 0 then 0 else TINFL_FLAG_HAS_MORE_INPUT));
      let pBuf := write_at out_ofs out pBuf in
      match status with
      | TINFL_STATUS_NEEDS_MORE_INPUT =>
          inflate_mem_loop fuel' file read_buf_size m_uncomp r' pBuf (drop used avail)
            (cur_file_ofs + n) comp_remaining (out_ofs + len out)
      | _ => Got (is_finished status, pBuf, out_ofs + len out)
      end
  end.

(** [mz_zip_reader_extract_to_mem_no_alloc], without a buffer of the caller's for reading:
    the contents of [pBuf] afterwards. *)
Definition mz_zip_reader_extract_to_mem_no_alloc (z : mz_zip_archive) (file_index : Z)
    (pBuf : list Z) (buf_size : Z) : read (list Z) :=
  c ← entry_checks z file_index;
  match c, m_pState z with
  | None, _ => Got pBuf
  | Some st, None => OutOfBounds
  | Some st, Some s =>
      let needed_size := m_uncomp_size st in
      _ ← check (negb (buf_size <? needed_size));
      cur_file_ofs ← data_ofs (m_pFile s) (m_archive_size z) st;
      if m_method st =? 0 then
        let data := mz_zip_file_read_func (m_pFile s) cur_file_ofs needed_size in
        _ ← check (len data =? needed_size);
        _ ← check (mz_crc32 MZ_CRC32_INIT data =? m_crc32 st);
        Got (write_at 0 data pBuf)
      else
        let read_buf_size := Z.min (m_comp_size st) MZ_ZIP_MAX_IO_BUF_SIZE in
        _ ← check (alloc read_buf_size);
        '(done, pBuf, out_ofs) ←
          inflate_mem_loop (inflate_fuel st) (m_pFile s) read_buf_size (m_uncomp_size st)
            tinfl_init pBuf [] cur_file_ofs (m_comp_size st) 0;
        _ ← check (done && (out_ofs =? m_uncomp_size st) &&
                   (mz_crc32 MZ_CRC32_INIT (take (Z.to_nat (m_uncomp_size st)) pBuf) =? m_crc32 st));
        Got pBuf
  end.
End Extract.
