(* ===== verification/ZipSort.v ===== *)
(** * The index by name, proved

    The heap sort of the reader stays within its array, ends, and only moves the elements;
    comparing two names reads within the records they are in. *)
From stdpp Require Import strings gmap list numbers sorting.
From Stdlib Require Import ZifyBool.
From S2P Require Import Prelude CString FileSys ZipReader.
Local Open Scope Z_scope.

Lemma rd8_lookup l i x : l !! i = Some x → rd8 l (Z.of_nat i) = Got x.
Proof. intros H. unfold rd8. rewrite (proj2 (Z.ltb_ge _ 0)) by lia. by rewrite Nat2Z.id, H. Qed.

Lemma rd8_at l k : 0 ≤ k < len l → ∃ x, l !! Z.to_nat k = Some x ∧ rd8 l k = Got x.
Proof.
  intros Hk. destruct (lookup_lt_is_Some_2 l (Z.to_nat k)) as [x Hx]; [unfold len in Hk; lia|]. exists x. split; [done|].
  rewrite <-(Z2Nat.id k) by lia. by apply rd8_lookup.
Qed.

(** Two elements change places. *)
Lemma swap_permutation (l : list Z) i j a b :
  l !! i = Some a → l !! j = Some b → <[j := a]> (<[i := b]> l) ≡ₚ l.
Proof.
  intros Hi Hj. destruct (decide (i = j)) as [<-|Hne].
  { rewrite Hi in Hj. injection Hj as <-. by rewrite !(list_insert_id _ _ a) by (rewrite ?list_insert_id; done). }
  pose proof (lookup_lt_Some _ _ _ Hi). pose proof (lookup_lt_Some _ _ _ Hj).
  apply Permutation_inj. split; [by rewrite !length_insert|].
  exists (λ k, if decide (k = i) then j else if decide (k = j) then i else k). split.
  { intros x y. repeat case_decide; lia. }
  intros k. case_decide as Hki; [subst|case_decide as Hkj; [subst|]].
  - by rewrite list_lookup_insert_ne, list_lookup_insert_eq, Hj by done.
  - by rewrite list_lookup_insert_eq, Hi by (rewrite length_insert; done).
  - by rewrite !list_lookup_insert_ne.
Qed.

Section Sort.
Context (less : Z → Z → read bool) (n : Z).
Hypothesis Hless : ∀ a b, 0 ≤ a < n → 0 ≤ b < n → ∃ v, less a b = Got v.

(** The array: numbers of records, one for each. *)
Definition index_ok (l : list Z) : Prop := l ≡ₚ record_numbers n.

Lemma index_length l : 0 ≤ n → index_ok l → len l = n.
Proof. intros Hn Hl. unfold len, index_ok in *. rewrite Hl. unfold record_numbers. rewrite length_fmap, length_seq. lia. Qed.

Lemma index_at l k : 0 ≤ n → index_ok l → 0 ≤ k < n → ∃ x, l !! Z.to_nat k = Some x ∧ rd8 l k = Got x ∧ 0 ≤ x < n.
Proof.
  intros Hn Hl Hk. destruct (rd8_at l k) as (x & Hx & Hr); [rewrite index_length; done|]. exists x. split; [done|]. split; [done|].
  assert (x ∈ record_numbers n) as Hin. { unfold index_ok in Hl. rewrite <-Hl. by eapply list_elem_of_lookup_2. }
  apply list_elem_of_fmap in Hin as (m & -> & Hm%elem_of_seq). lia.
Qed.

Lemma swap_ok l i j :
  0 ≤ n → index_ok l → 0 ≤ i < n → 0 ≤ j < n → ∃ l', MZ_SWAP_UINT32 l i j = Got l' ∧ index_ok l'.
Proof.
  intros Hn Hl Hi Hj. destruct (index_at l i Hn Hl Hi) as (a & Ha & Ra & _). destruct (index_at l j Hn Hl Hj) as (b & Hb & Rb & _).
  unfold MZ_SWAP_UINT32. rewrite Ra, Rb. eexists. split; [done|]. unfold index_ok. by rewrite swap_permutation.
Qed.

Lemma sift_ok fuel l root end_ :
  index_ok l → 0 ≤ root < end_ → end_ ≤ n → end_ - root < Z.of_nat fuel →
  ∃ l', sift less fuel l root end_ = Got l' ∧ index_ok l'.
Proof.
  revert l root. induction fuel as [|fuel IH]; intros l root Hl Hr He Hf; [lia|]. cbn [sift].
  rewrite Z.shiftl_mul_pow2 by done. change (2 ^ 1) with 2. destruct (Z.leb_spec end_ (root * 2 + 1)) as [|Hc]; [by exists l|].
  destruct (index_at l (root * 2 + 1)) as (x & _ & Rx & Bx); [lia|done|lia|].
  assert (∃ right, (if root * 2 + 1 + 1 <? end_ then
      a ← rd8 l (root * 2 + 1); b ← rd8 l (root * 2 + 1 + 1); less a b else Got false) = Got right ∧
      (right = true → root * 2 + 1 + 1 < end_)) as (right & -> & Hright).
  { destruct (Z.ltb_spec (root * 2 + 1 + 1) end_) as [H2|]; [|by exists false]. rewrite Rx.
    destruct (index_at l (root * 2 + 1 + 1)) as (y & _ & Ry & By); [lia|done|lia|]. rewrite Ry.
    destruct (Hless x y) as [v Hv]; [done..|]. by exists v. }
  cbn [mbind read_bind]. set (child := root * 2 + 1 + (if right then 1 else 0)).
  assert (root < child < end_) as Hch by (unfold child; destruct right; [specialize (Hright eq_refl)|]; lia).
  destruct (index_at l root) as (a & _ & -> & Ba); [lia|done|lia|].
  destruct (index_at l child) as (b & _ & -> & Bb); [lia|done|lia|]. cbn [mbind read_bind].
  destruct (Hless a b) as [v ->]; [done..|]. cbn [mbind read_bind]. destruct v; [|by exists l]. cbn [negb].
  destruct (swap_ok l root child) as (l' & -> & Hl'); [lia|done|lia|lia|]. apply IH; [done|lia..].
Qed.

Lemma heap_up_ok k l size :
  index_ok l → Z.of_nat k ≤ size → size ≤ n → ∃ l', heap_up less k l size = Got l' ∧ index_ok l'.
Proof.
  revert l. induction k as [|k IH]; intros l Hl Hk Hs; cbn [heap_up]; [by exists l|].
  destruct (sift_ok (S (Z.to_nat size)) l (Z.of_nat k) size) as (l' & -> & Hl'); [done|lia..|]. apply IH; [done|lia..].
Qed.

Lemma heap_down_ok k l : index_ok l → Z.of_nat k < n ∨ k = O → ∃ l', heap_down less k l = Got l' ∧ index_ok l'.
Proof.
  revert l. induction k as [|k IH]; intros l Hl Hk; cbn [heap_down]; [by exists l|].
  destruct (swap_ok l (Z.of_nat (S k)) 0) as (l1 & -> & Hl1); [lia|done|lia|lia|]. cbn [mbind read_bind].
  destruct (sift_ok (S (S k)) l1 0 (Z.of_nat (S k))) as (l2 & -> & Hl2); [done|lia..|]. apply IH; [done|lia].
Qed.

Lemma heap_sort_ok : 0 ≤ n → ∃ l, heap_sort less n (record_numbers n) = Got l ∧ index_ok l.
Proof.
  intros Hn. unfold heap_sort. rewrite Z.shiftr_div_pow2 by done. change (2 ^ 1) with 2.
  destruct (heap_up_ok (Z.to_nat ((n - 2) / 2 + 1)) (record_numbers n) n) as (l & -> & Hl); [by unfold index_ok| |done|].
  { pose proof (Z.div_mod (n - 2) 2 ltac:(lia)). pose proof (Z.mod_pos_bound (n - 2) 2 ltac:(lia)). lia. }
  apply heap_down_ok; [done|lia].
Qed.
End Sort.

(** ** Names *)

Lemma less_loop_ok k cdir pL pR a b :
  0 ≤ pL → 0 ≤ pR → pL + Z.of_nat k ≤ len cdir → pR + Z.of_nat k ≤ len cdir →
  ∃ v, filename_less_loop k cdir pL pR a b = Got v.
Proof.
  revert pL pR. induction k as [|k IH]; intros pL pR HL HR HkL HkR; cbn [filename_less_loop]; [by eexists|].
  destruct (rd8_at cdir pL) as (x & _ & ->); [lia|]. destruct (rd8_at cdir pR) as (y & _ & ->); [lia|].
  cbn [mbind read_bind]. destruct (_ =? _); [|by eexists]. apply IH; lia.
Qed.

(** The name of a record lies within the directory. *)
Definition name_in (cdir : list Z) (p : Z) : Prop :=
  0 ≤ p ∧ ∃ a, MZ_READ_LE16 cdir (p + MZ_ZIP_CDH_FILENAME_LEN_OFS) = Got a ∧ 0 ≤ a ∧ p + MZ_ZIP_CENTRAL_DIR_HEADER_SIZE + a ≤ len cdir.

Lemma filename_less_ok cdir offsets a b :
  Forall (name_in cdir) offsets → 0 ≤ a < len offsets → 0 ≤ b < len offsets →
  ∃ v, mz_zip_reader_filename_less cdir offsets a b = Got v.
Proof.
  intros HF Ha Hb. unfold mz_zip_reader_filename_less.
  destruct (rd8_at offsets a Ha) as (p & Hp & ->). destruct (rd8_at offsets b Hb) as (q & Hq & ->).
  apply (Forall_lookup_1 _ _ _ _ HF) in Hp as (Hp & x & Ex & Hx & Hpx).
  apply (Forall_lookup_1 _ _ _ _ HF) in Hq as (Hq & y & Ey & Hy & Hqy).
  cbn [mbind read_bind]. rewrite Ex. cbn [mbind read_bind]. rewrite Ey. cbn [mbind read_bind].
  unfold MZ_ZIP_CENTRAL_DIR_HEADER_SIZE in *. apply less_loop_ok; lia.
Qed.

(** The index holds every record once. *)
Lemma sort_names_ok cdir offsets :
  Forall (name_in cdir) offsets →
  ∃ l, mz_zip_reader_sort_central_dir_offsets_by_filename cdir offsets (record_numbers (len offsets)) (len offsets) = Got l ∧
    l ≡ₚ record_numbers (len offsets).
Proof.
  intros HF. apply heap_sort_ok; [|unfold len; lia]. intros a b Ha Hb. by apply filename_less_ok.
Qed.
