(* ===== verification/ZipCrc.v ===== *)
(** * The checksum of miniz.h

    [mz_crc32] works on half bytes with a table of sixteen words.  It equals the bitwise
    definition of CRC-32, stays within 32 bits, and may be taken piece by piece. *)
From stdpp Require Import strings gmap list numbers.
From S2P Require Import Prelude CString FileSys ZipReader.
Local Open Scope Z_scope.

(** ** The definition *)

Definition CRC_POLYNOMIAL : Z := 0xEDB88320.

(** Division by the polynomial, one bit at a time, lowest bit first. *)
Definition crc_bit (c : Z) : Z := Z.lxor (Z.shiftr c 1) (if Z.odd c then CRC_POLYNOMIAL else 0).

Definition crc32_spec (l : list Z) : Z :=
  not32 (foldl (λ c b, Nat.iter 8 crc_bit (Z.lxor c b)) 0xFFFFFFFF l).

(** ** Linearity *)

Lemma crc_bit_lxor a b : crc_bit (Z.lxor a b) = Z.lxor (crc_bit a) (crc_bit b).
Proof.
  unfold crc_bit. rewrite Z.shiftr_lxor. rewrite <-!Z.bit0_odd, Z.lxor_spec.
  apply Z.bits_inj. intros i. destruct (Z.testbit a 0), (Z.testbit b 0); cbn [xorb];
    rewrite !Z.lxor_spec, ?Z.bits_0;
    by destruct (Z.testbit CRC_POLYNOMIAL i), (Z.testbit (Z.shiftr a 1) i), (Z.testbit (Z.shiftr b 1) i).
Qed.

Lemma crc_iter_lxor n a b :
  Nat.iter n crc_bit (Z.lxor a b) = Z.lxor (Nat.iter n crc_bit a) (Nat.iter n crc_bit b).
Proof. induction n as [|n IH]; [done|]. by rewrite !Nat.iter_succ, IH, crc_bit_lxor. Qed.

(** Bits that are still above the cut only move down. *)
Lemma crc_iter_high n a : Nat.iter n crc_bit (Z.shiftl a (Z.of_nat n)) = a.
Proof.
  revert a. induction n as [|n IH]; intros a; [apply Z.shiftl_0_r|].
  rewrite Nat2Z.inj_succ. replace (Z.shiftl a (Z.succ (Z.of_nat n))) with (Z.shiftl (Z.shiftl a 1) (Z.of_nat n))
    by (rewrite Z.shiftl_shiftl by lia; f_equal; lia).
  rewrite Nat.iter_succ, IH. unfold crc_bit. rewrite <-Z.bit0_odd, Z.shiftl_spec_low by lia.
  rewrite Z.lxor_0_r, Z.shiftr_shiftl_l by lia. apply Z.shiftl_0_r.
Qed.

Lemma split_low n x : 0 ≤ n → x = Z.lxor (Z.shiftl (Z.shiftr x n) n) (Z.land x (Z.ones n)).
Proof.
  intros Hn. apply Z.bits_inj. intros i. rewrite Z.lxor_spec, Z.land_spec.
  destruct (Z.lt_ge_cases i 0) as [Hi|Hi]; [by rewrite !Z.testbit_neg_r|].
  destruct (Z.lt_ge_cases i n) as [H|H].
  - rewrite Z.shiftl_spec_low, Z.ones_spec_low by lia. by rewrite andb_true_r.
  - rewrite Z.shiftl_spec, Z.shiftr_spec, Z.ones_spec_high by lia.
    rewrite andb_false_r, xorb_false_r. f_equal. lia.
Qed.

Lemma land_15_range x : 0 ≤ Z.land x 15 < 16.
Proof. change 15 with (Z.ones 4). rewrite Z.land_ones by lia. apply Z.mod_pos_bound. lia. Qed.

(** The table is what four bits do. *)
Lemma crc_table v : 0 ≤ v < 16 → Nat.iter 4 crc_bit v = nth (Z.to_nat v) s_crc32 0.
Proof.
  intros Hv. assert (v ∈ seqZ 0 16) as Hin by (apply elem_of_seqZ; lia). revert Hin.
  cbn. intros Hin. repeat (apply elem_of_cons in Hin as [->|Hin]; [vm_compute; reflexivity|]). by apply elem_of_nil in Hin.
Qed.

Lemma crc_four_bits x : Nat.iter 4 crc_bit x = Z.lxor (Z.shiftr x 4) (nth (Z.to_nat (Z.land x 15)) s_crc32 0).
Proof.
  rewrite (split_low 4 x) at 1 by lia. rewrite crc_iter_lxor. f_equal; [apply (crc_iter_high 4)|].
  apply crc_table, land_15_range.
Qed.

Lemma shiftr_small n x : 0 ≤ x < 2 ^ n → 0 ≤ n → Z.shiftr x n = 0.
Proof. intros Hx Hn. rewrite Z.shiftr_div_pow2 by done. by apply Z.div_small. Qed.

(** Half a byte is four bits. *)
Lemma crc_nibble_bits c n : 0 ≤ n < 16 → crc_nibble c n = Nat.iter 4 crc_bit (Z.lxor c n).
Proof.
  intros Hn. rewrite crc_four_bits. unfold crc_nibble.
  assert (Hland : Z.land n 15 = n).
  { change 15 with (Z.ones 4). rewrite Z.land_ones by lia. by apply Z.mod_small. }
  assert (Z.land (Z.lxor c n) 15 = Z.lxor (Z.land c 15) n) as ->.
  { rewrite <-Hland at 2. apply Z.bits_inj. intros i. rewrite ?Z.land_spec, ?Z.lxor_spec, ?Z.land_spec.
    by destruct (Z.testbit c i), (Z.testbit n i), (Z.testbit 15 i). }
  rewrite Z.shiftr_lxor, (shiftr_small 4 n), Z.lxor_0_r by lia. done.
Qed.

Lemma crc_byte_bits c b : 0 ≤ b < 256 → crc_byte c b = Nat.iter 8 crc_bit (Z.lxor c b).
Proof.
  intros Hb. unfold crc_byte.
  assert (Hh : 0 ≤ Z.shiftr b 4 < 16).
  { rewrite Z.shiftr_div_pow2 by lia. change (2 ^ 4) with 16.
    split; [apply Z.div_pos; lia|apply Z.div_lt_upper_bound; lia]. }
  rewrite !crc_nibble_bits by (apply land_15_range || done).
  change 8%nat with (4 + 4)%nat. rewrite Nat.iter_add.
  f_equal. rewrite (split_low 4 b) at 3 by lia. change (Z.ones 4) with 15.
  rewrite (Z.lxor_comm (Z.shiftl _ _)), <-Z.lxor_assoc, (crc_iter_lxor 4 (Z.lxor c (Z.land b 15))). f_equal.
  symmetry. apply (crc_iter_high 4).
Qed.

(** ** Range and pieces *)

Definition word32 (z : Z) : Prop := 0 ≤ z < 2 ^ 32.

Lemma word32_land z : 0 ≤ z → word32 z ↔ Z.shiftr z 32 = 0.
Proof.
  intros Hz. split; [by intros H; apply shiftr_small|]. unfold word32. intros H.
  rewrite Z.shiftr_div_pow2 in H by lia. split; [done|]. by apply Z.div_small_iff in H; [lia|].
Qed.

Lemma word32_lxor a b : word32 a → word32 b → word32 (Z.lxor a b).
Proof.
  intros Ha Hb. assert (0 ≤ Z.lxor a b) by (apply Z.lxor_nonneg; unfold word32 in *; lia).
  apply word32_land; [done|]. rewrite Z.shiftr_lxor, !shiftr_small; [done|..]; unfold word32 in *; lia.
Qed.

Lemma word32_not z : word32 z → word32 (not32 z).
Proof. intros Hz. by apply word32_lxor. Qed.

Lemma crc_table_word i : word32 (nth i s_crc32 0).
Proof.
  unfold s_crc32. do 16 (destruct i as [|i]; [by cbn|]). by destruct i.
Qed.

Lemma word32_nibble c n : word32 c → word32 (crc_nibble c n).
Proof.
  intros Hc. apply word32_lxor; [|apply crc_table_word].
  unfold word32 in *. rewrite Z.shiftr_div_pow2 by lia. change (2 ^ 4) with 16.
  split; [apply Z.div_pos; lia|]. apply Z.div_lt_upper_bound; lia.
Qed.

Lemma word32_fold c l : word32 c → word32 (foldl crc_byte c l).
Proof. revert c. induction l as [|b l IH]; intros c Hc; cbn; [done|]. by apply IH, word32_nibble, word32_nibble. Qed.

Lemma crc_word c l : word32 c → word32 (mz_crc32 c l).
Proof. intros Hc. by apply word32_not, word32_fold, word32_not. Qed.

Lemma not32_twice z : not32 (not32 z) = z.
Proof. unfold not32. by rewrite Z.lxor_assoc, Z.lxor_nilpotent, Z.lxor_0_r. Qed.

(** Piece by piece. *)
Lemma crc_app c a b : mz_crc32 c (a ++ b) = mz_crc32 (mz_crc32 c a) b.
Proof. unfold mz_crc32. by rewrite not32_twice, foldl_app. Qed.

Lemma crc_nil c : mz_crc32 c [] = c.
Proof. apply not32_twice. Qed.

(** The bitwise definition. *)
Lemma crc_spec l : Forall (λ b, 0 ≤ b < 256) l → mz_crc32 MZ_CRC32_INIT l = crc32_spec l.
Proof.
  intros Hl. unfold mz_crc32, crc32_spec. f_equal. change (not32 MZ_CRC32_INIT) with 0xFFFFFFFF.
  generalize 0xFFFFFFFF. induction Hl as [|b l Hb _ IH]; intros c; [done|]. cbn [foldl].
  by rewrite crc_byte_bits, IH.
Qed.
