(* ===== verification/Unzip.v ===== *)
(** * exjld/zip.c: unpacking an archive into a directory

    [zip_extract] with [mkpath], as programs of file system calls over the reader of
    [ZipReader]. *)
From stdpp Require Import strings gmap list numbers.
From Stdlib Require Import Ascii.
From S2P Require Import Prelude CString FileSys ZipReader.
Local Open Scope Z_scope.

(** zip.h *)
Definition MAX_PATH : Z := 32767.

(** The loop of [mkpath]: a directory for every slash but a leading one.  [false] is the
    return of -1. *)
Fixpoint mkpath_loop (npath : string) (len : Z) (p : string) : prog bool :=
  match p with
  | EmptyString => Ret true
  | String c p' =>
      if negb (len <? MAX_PATH) then Ret true else
      let next := mkpath_loop (npath +:+ String c EmptyString) (len + 1) p' in
      if Ascii.eqb c "/" && (0 <? len) then
        Call (C_mkdir npath) (λ x, match x with A_ok | A_exist => next | _ => Ret false end)
      else next
  end.

Definition mkpath (path : string) : prog bool := mkpath_loop "" 0 path.

(** A symbolic link written by a Unix or macOS program. *)
Definition is_symlink (st : mz_zip_archive_file_stat) : bool :=
  let host := Z.shiftr (m_version_made_by st) 8 in
  ((host =? 3) || (host =? 19)) && negb (Z.land (m_external_attr st) (Z.shiftl 0x20 24) =? 0).

(** [path] after [strncpy(&path[dirlen], info.m_filename, MAX_PATH - dirlen)]. *)
Definition entry_path (prefix : string) (st : mz_zip_archive_file_stat) : string :=
  prefix +:+ take_str (Z.to_nat (MAX_PATH - Z.of_nat (String.length prefix))) (c_string (m_filename st)).

Section Unzip.
Context `{Inflator} (alloc : Z → bool) (on_extract : option (string → Z)).

(** The branch of a symbolic link: the buffer of the target keeps its contents from entry
    to entry. *)
Definition extract_symlink (z : mz_zip_archive) (i : Z) (st : mz_zip_archive_file_stat) (path : string)
    (symlink_to : list Z) : U (list Z) :=
  let! _ := lift (check (negb (MAX_PATH <? m_uncomp_size st))) in
  let! buf := lift (mz_zip_reader_extract_to_mem_no_alloc alloc z i symlink_to MAX_PATH) in
  let buf := write_at (m_uncomp_size st) [0] buf in
  Call (C_symlink (c_string buf) path) (λ x, match x with A_ok => lift (Got buf) | _ => lift MZ_FALSE end).

(** The other branch: contents unless it is a directory, then the mode. *)
Definition extract_regular (z : mz_zip_archive) (i : Z) (st : mz_zip_archive_file_stat) (path : string) : U unit :=
  let! isdir := lift (mz_zip_reader_is_file_a_directory z i) in
  let! _ := (if isdir : bool then lift (Got tt) else mz_zip_reader_extract_to_file alloc z i path) in
  let xattr := Z.land (Z.shiftr (m_external_attr st) 16) 0xFFFF in
  if 0 <? xattr then
    Call (C_chmod path xattr) (λ x, match x with A_ok => lift (Got tt) | _ => lift MZ_FALSE end)
  else lift (Got tt).

(** The body of the loop; [MZ_FALSE] is [goto out]. *)
Definition extract_entry (z : mz_zip_archive) (i : Z) (prefix : string) (symlink_to : list Z) : U (list Z) :=
  let! st := lift (mz_zip_reader_file_stat z i) in
  let path := entry_path prefix st in
  let! _ := @mbind prog _ _ _ (λ ok, lift (check ok)) (mkpath path) in
  let! buf :=
    (if is_symlink st then extract_symlink z i st path symlink_to
     else let! _ := extract_regular z i st path in lift (Got symlink_to)) in
  match on_extract with
  | Some f => if f path <? 0 then lift MZ_FALSE else lift (Got buf)
  | None => lift (Got buf)
  end.

(** The entries from [i] on. *)
Fixpoint extract_loop (k : nat) (z : mz_zip_archive) (i : Z) (prefix : string) (symlink_to : list Z) : U unit :=
  match k with
  | O => lift (Got tt)
  | S k' =>
      let! buf := extract_entry z i prefix symlink_to in
      extract_loop k' z (i + 1) prefix buf
  end.

(** [zip_extract]: its return value.  The names are not NULL; [dir[-1]] is read if [dir] is
    empty. *)
Definition zip_extract (zipname dir : string) : prog (read Z) :=
  let dirlen := Z.of_nat (String.length dir) in
  if MAX_PATH <? dirlen + 1 then Ret (Got (-1)) else
  Call (C_open_rb zipname) (λ x,
    match (match x with A_bytes file => mz_zip_reader_init_file alloc file | _ => MZ_FALSE end) with
    | Got z =>
        if String.eqb dir "" then Ret OutOfBounds else
        let prefix := if ends_slash dir then dir else dir +:+ "/" in
        @mbind prog _ _ _ (λ r,
          match r with
          | Got _ => Ret (Got (if (mz_zip_reader_end z).1 then 0 else -1))
          | MZ_FALSE => Ret (Got (-1))
          | OutOfBounds => Ret OutOfBounds
          | Endless => Ret Endless
          end)
          (extract_loop (Z.to_nat (mz_zip_reader_get_num_files z)) z 0 prefix [])
    | MZ_FALSE => Ret (Got (-1))
    | OutOfBounds => Ret OutOfBounds
    | Endless => Ret Endless
    end).
End Unzip.
