(* ===== verification/ZipFormat.v ===== *)
(** * The zip format

    What an archive is ([archive]: local records, central directory, end record), and that
    the reader of [ZipReader] finds in it exactly what was put there. *)
From stdpp Require Import strings gmap list numbers.
From Stdlib Require Import Ascii ZifyBool.
From S2P Require Import Prelude CString FileSys ZipReader ZipSort ZipCrc Unzip.
Local Open Scope Z_scope.

(** ** Fields *)

Fixpoint le_bytes (n : nat) (v : Z) : list Z :=
  match n with O => [] | S n' => v `mod` 256 :: le_bytes n' (v `div` 256) end.

(** One entry: its place below the directory, its contents, and what an archive has of it.
    [z_local] are the fields of the local header the reader passes over, [z_trailer] what
    follows the data (a data descriptor). *)
Record zentry := ZEntry {
  z_path : list string;
  z_isdir : bool;
  z_data : list Z;
  z_method : Z;
  z_stream : list Z;
  z_made_by : Z;
  z_needed : Z;
  z_flags : Z;
  z_time : Z;
  z_date : Z;
  z_iattr : Z;
  z_xattr : Z;
  z_extra : list Z;
  z_comment : list Z;
  z_local : list Z;
  z_local_extra : list Z;
  z_trailer : list Z
}.

Definition z_name (e : zentry) : string := join_path (z_path e) +:+ (if z_isdir e then "/" else "").
Definition z_bytes (e : zentry) : list Z := string_bytes (z_name e).

Definition local_header (e : zentry) : list Z :=
  (le_bytes 4 MZ_ZIP_LOCAL_DIR_HEADER_SIG ++ z_local e) ++ le_bytes 2 (len (z_bytes e)) ++
  le_bytes 2 (len (z_local_extra e)).

Definition local_record (e : zentry) : list Z :=
  local_header e ++ z_bytes e ++ z_local_extra e ++ z_stream e ++ z_trailer e.

Definition central_header (ofs : Z) (e : zentry) : list Z :=
  le_bytes 4 MZ_ZIP_CENTRAL_DIR_HEADER_SIG ++ le_bytes 2 (z_made_by e) ++ le_bytes 2 (z_needed e) ++
  le_bytes 2 (z_flags e) ++ le_bytes 2 (z_method e) ++ le_bytes 2 (z_time e) ++ le_bytes 2 (z_date e) ++
  le_bytes 4 (mz_crc32 MZ_CRC32_INIT (z_data e)) ++ le_bytes 4 (len (z_stream e)) ++ le_bytes 4 (len (z_data e)) ++
  le_bytes 2 (len (z_bytes e)) ++ le_bytes 2 (len (z_extra e)) ++ le_bytes 2 (len (z_comment e)) ++
  le_bytes 2 0 ++ le_bytes 2 (z_iattr e) ++ le_bytes 4 (z_xattr e) ++ le_bytes 4 ofs.

Definition central_record (ofs : Z) (e : zentry) : list Z :=
  central_header ofs e ++ z_bytes e ++ z_extra e ++ z_comment e.

Definition locals (es : list zentry) : list Z := concat (local_record <$> es).

(** Where the records of a concatenation begin. *)
Fixpoint offsets (p : Z) (rs : list (list Z)) : list Z :=
  match rs with [] => [] | r :: rs' => p :: offsets (p + len r) rs' end.

Definition local_offsets (es : list zentry) : list Z := offsets 0 (local_record <$> es).

Definition central_records (es : list zentry) : list (list Z) := zip_with central_record (local_offsets es) es.
Definition centrals (es : list zentry) : list Z := concat (central_records es).

Definition end_header (n cdir_size cdir_ofs comment_len : Z) : list Z :=
  le_bytes 4 MZ_ZIP_END_OF_CENTRAL_DIR_HEADER_SIG ++ le_bytes 2 0 ++ le_bytes 2 0 ++ le_bytes 2 n ++ le_bytes 2 n ++
  le_bytes 4 cdir_size ++ le_bytes 4 cdir_ofs ++ le_bytes 2 comment_len.

Definition archive_end (es : list zentry) (comment : list Z) : list Z :=
  end_header (Z.of_nat (length es)) (len (centrals es)) (len (locals es)) (len comment) ++ comment.

Definition archive (es : list zentry) (comment : list Z) : list Z :=
  locals es ++ centrals es ++ archive_end es comment.

(** ** Well-formed entries and archives *)

Definition u16 (z : Z) : bool := (0 <=? z) && (z <? 65536).
Definition u32 (z : Z) : bool := (0 <=? z) && (z <? 2 ^ 32).

(** Fields in their ranges; a relative path without [.] and [..]; names within the reader's
    buffer; stored or deflated; neither encrypted nor a link; a directory has no contents and
    a file not the attribute of one. *)
Definition zentry_ok (e : zentry) : bool :=
  negb (bool_decide (z_path e = [])) && forallb plain (z_path e) &&
  (String.length (z_name e) <? 260)%nat &&
  u16 (z_made_by e) && u16 (z_needed e) && u16 (z_flags e) && u16 (z_time e) && u16 (z_date e) &&
  u16 (z_iattr e) && u32 (z_xattr e) &&
  u16 (len (z_extra e)) && u16 (len (z_comment e)) && u16 (len (z_local_extra e)) && (len (z_local e) =? 22) &&
  (Z.land (z_flags e) 33 =? 0) && ((z_method e =? 0) || (z_method e =? MZ_DEFLATED)) &&
  (len (z_data e) <? 0xFFFFFFFF) && (len (z_stream e) <? 0xFFFFFFFF) &&
  (negb (len (z_stream e) =? 0) || (len (z_data e) =? 0)) &&
  (if z_isdir e then (len (z_data e) =? 0) && (len (z_stream e) =? 0) else Z.land (z_xattr e) 0x10 =? 0) &&
  (negb (z_method e =? 0) || bool_decide (z_stream e = z_data e)) &&
  negb (((Z.shiftr (z_made_by e) 8 =? 3) || (Z.shiftr (z_made_by e) 8 =? 19)) &&
        negb (Z.land (z_xattr e) (Z.shiftl 0x20 24) =? 0)).

(** No more entries and bytes than the fields can say, and no second end signature in the
    end record. *)
Definition archive_ok (es : list zentry) (comment : list Z) : bool :=
  forallb zentry_ok es && (Z.of_nat (length es) <? 65536) && (len (archive es comment) <? 2 ^ 32) &&
  (len comment <? 4075) &&
  match find_sig (archive_end es comment) (length (archive_end es comment) - 3) with
  | Got (Some i) => i =? 0
  | _ => false
  end.

Lemma write_at_end a b : write_at (len a) b a = a ++ b.
Proof.
  unfold write_at, len. rewrite Nat2Z.id, firstn_all, Nat.sub_diag, drop_ge by lia. cbn. by rewrite app_nil_r.
Qed.

(** ** Arithmetic of fields *)

Lemma lor_shiftl_add a b n : 0 ≤ a < 2 ^ n → 0 ≤ n → Z.lor a (Z.shiftl b n) = a + b * 2 ^ n.
Proof.
  intros Ha Hn. rewrite <-Z.shiftl_mul_pow2 by done.
  pose proof (Z.add_lor_land a (Z.shiftl b n)) as E.
  assert (Z.land a (Z.shiftl b n) = 0) as Hz; [|lia].
  apply Z.bits_inj. intros i. rewrite Z.land_spec, Z.bits_0.
  destruct (Z.lt_ge_cases i n) as [Hi|Hi]; [rewrite Z.shiftl_spec_low by done; apply andb_false_r|].
  rewrite <-(Z.mod_small a (2 ^ n)) by done. rewrite Z.mod_pow2_bits_high by lia. done.
Qed.

Lemma byte_range v : 0 ≤ v `mod` 256 < 2 ^ 8.
Proof. apply Z.mod_pos_bound. lia. Qed.

Lemma le16_value v :
  0 ≤ v < 65536 → Z.lor (v `mod` 256) (Z.shiftl (v `div` 256 `mod` 256) 8) = v.
Proof.
  intros Hv. rewrite lor_shiftl_add by (apply byte_range || lia).
  rewrite (Z.mod_small (v `div` 256)) by (split; [apply Z.div_pos; lia|apply Z.div_lt_upper_bound; lia]).
  pose proof (Z.div_mod v 256 ltac:(lia)). change (2 ^ 8) with 256. lia.
Qed.

Lemma le32_value v :
  0 ≤ v < 2 ^ 32 →
  Z.lor (Z.lor (Z.lor (v `mod` 256) (Z.shiftl (v `div` 256 `mod` 256) 8))
    (Z.shiftl (v `div` 256 `div` 256 `mod` 256) 16)) (Z.shiftl (v `div` 256 `div` 256 `div` 256 `mod` 256) 24) = v.
Proof.
  intros Hv. pose proof (byte_range v) as B0. pose proof (byte_range (v `div` 256)) as B1.
  pose proof (byte_range (v `div` 256 `div` 256)) as B2.
  change (2 ^ 8) with 256 in *.
  rewrite (lor_shiftl_add (v `mod` 256)) by (change (2 ^ 8) with 256; lia). change (2 ^ 8) with 256.
  rewrite (lor_shiftl_add _ _ 16) by (change (2 ^ 16) with 65536; lia). change (2 ^ 16) with 65536.
  rewrite (lor_shiftl_add _ _ 24) by (change (2 ^ 24) with 16777216; lia). change (2 ^ 24) with 16777216.
  assert (0 ≤ v `div` 256 `div` 256 `div` 256 < 256) as Hd.
  { rewrite !Z.div_div by lia. split; [apply Z.div_pos; lia|apply Z.div_lt_upper_bound; lia]. }
  rewrite (Z.mod_small (v `div` 256 `div` 256 `div` 256)) by done.
  pose proof (Z.div_mod v 256 ltac:(lia)). pose proof (Z.div_mod (v `div` 256) 256 ltac:(lia)).
  pose proof (Z.div_mod (v `div` 256 `div` 256) 256 ltac:(lia)). lia.
Qed.

Lemma len_app a b : len (a ++ b) = len a + len b.
Proof. unfold len. rewrite length_app. lia. Qed.
Lemma len_nonneg a : 0 ≤ len a.
Proof. unfold len. lia. Qed.
Create HintDb zip.
#[export] Hint Resolve len_nonneg : zip.

(** Reads behind a prefix. *)
Lemma rd8_app a l k : 0 ≤ k → rd8 (a ++ l) (len a + k) = rd8 l k.
Proof.
  intros Hk. unfold rd8, len. rewrite (proj2 (Z.ltb_ge _ 0)) by lia. rewrite (proj2 (Z.ltb_ge k 0)) by lia. rewrite lookup_app_r by lia.
  replace (Z.to_nat (Z.of_nat (length a) + k) - length a)%nat with (Z.to_nat k) by lia. done.
Qed.

Lemma LE16_app a l k : 0 ≤ k → MZ_READ_LE16 (a ++ l) (len a + k) = MZ_READ_LE16 l k.
Proof. intros Hk. unfold MZ_READ_LE16. rewrite <-Z.add_assoc, !rd8_app by lia. done. Qed.

Lemma LE32_app a l k : 0 ≤ k → MZ_READ_LE32 (a ++ l) (len a + k) = MZ_READ_LE32 l k.
Proof. intros Hk. unfold MZ_READ_LE32. rewrite <-!Z.add_assoc, !rd8_app by lia. done. Qed.

Lemma sub_app a b c ofs n : ofs = len a → n = len b → sub (a ++ b ++ c) ofs n = b.
Proof.
  intros -> ->. unfold sub, len. rewrite !Nat2Z.id, drop_app_length, take_app_length. done.
Qed.

Lemma string_bytes_length s : length (string_bytes s) = String.length s.
Proof. induction s as [|c s IH]; cbn; [done|by rewrite IH]. Qed.

Lemma string_bytes_app a b : string_bytes (a +:+ b) = string_bytes a ++ string_bytes b.
Proof. unfold String.app. induction a as [|c a IH]; cbn; [done|by rewrite IH]. Qed.

Lemma byte_ascii c : ascii_of_N (Z.to_N (byte c)) = c.
Proof. unfold byte. rewrite N2Z.id. apply ascii_N_embedding. Qed.

Lemma c_string_bytes s : nul_free s → c_string (string_bytes s) = s.
Proof.
  induction s as [|c s IH]; cbn; [done|]. intros [Hc Hs]%andb_prop_elim.
  destruct (byte c =? 0); [done|]. by rewrite byte_ascii, IH.
Qed.

(** ** What the checks say *)

Record zfacts (e : zentry) : Prop := {
  zf_path : z_path e ≠ [];
  zf_plain : Forall (λ c, plain c) (z_path e);
  zf_name : len (z_bytes e) < 260;
  zf_made : 0 ≤ z_made_by e < 65536;
  zf_needed : 0 ≤ z_needed e < 65536;
  zf_flags : 0 ≤ z_flags e < 65536;
  zf_time : 0 ≤ z_time e < 65536;
  zf_date : 0 ≤ z_date e < 65536;
  zf_iattr : 0 ≤ z_iattr e < 65536;
  zf_xattr : 0 ≤ z_xattr e < 2 ^ 32;
  zf_extra : len (z_extra e) < 65536;
  zf_comment : len (z_comment e) < 65536;
  zf_lextra : len (z_local_extra e) < 65536;
  zf_local : len (z_local e) = 22;
  zf_bits : Z.land (z_flags e) 33 = 0;
  zf_method : z_method e = 0 ∨ z_method e = MZ_DEFLATED;
  zf_data : len (z_data e) < 0xFFFFFFFF;
  zf_stream : len (z_stream e) < 0xFFFFFFFF;
  zf_empty : len (z_stream e) = 0 → len (z_data e) = 0;
  zf_dir : z_isdir e = true → len (z_data e) = 0 ∧ len (z_stream e) = 0;
  zf_file : z_isdir e = false → Z.land (z_xattr e) 0x10 = 0;
  zf_stored : z_method e = 0 → z_stream e = z_data e;
  zf_nolink : ((Z.shiftr (z_made_by e) 8 =? 3) || (Z.shiftr (z_made_by e) 8 =? 19)) &&
        negb (Z.land (z_xattr e) (Z.shiftl 0x20 24) =? 0) = false
}.

Lemma zentry_facts e : zentry_ok e → zfacts e.
Proof.
  unfold zentry_ok, u16, u32. intros H%Is_true_true. rewrite !andb_true_iff in H. destruct_and!.
  constructor; try lia.
  - intros E. rewrite bool_decide_true in * by done. done.
  - apply Forall_forall. intros c Hc. apply Is_true_true.
    match goal with H : forallb _ _ = true |- _ => rewrite forallb_forall in H; apply H end.
    by apply list_elem_of_In.
  - unfold len, z_bytes. rewrite string_bytes_length.
    match goal with H : (_ <? 260)%nat = true |- _ => apply Nat.ltb_lt in H end. lia.
  - intros E. rewrite E in *.
    match goal with H : _ || bool_decide _ = true |- _ => by apply bool_decide_eq_true in H end.
Qed.

(** ** The central directory *)

Lemma LE16_at a l v k :
  0 ≤ k → MZ_READ_LE16 l k = Got v → MZ_READ_LE16 (a ++ l) (len a + k) = Got v.
Proof. intros. by rewrite LE16_app. Qed.
Lemma LE32_at a l v k :
  0 ≤ k → MZ_READ_LE32 l k = Got v → MZ_READ_LE32 (a ++ l) (len a + k) = Got v.
Proof. intros. by rewrite LE32_app. Qed.

(** A field of a header with known widths before it. *)
Ltac field :=
  lazymatch goal with
  | |- MZ_READ_LE16 ?l ?k = Got ?v =>
      transitivity (Got (Z.lor (v `mod` 256) (Z.shiftl (v `div` 256 `mod` 256) 8)));
      [reflexivity|rewrite le16_value by lia; reflexivity]
  | |- MZ_READ_LE32 ?l ?k = Got ?v =>
      transitivity (Got (Z.lor (Z.lor (Z.lor (v `mod` 256) (Z.shiftl (v `div` 256 `mod` 256) 8))
        (Z.shiftl (v `div` 256 `div` 256 `mod` 256) 16)) (Z.shiftl (v `div` 256 `div` 256 `div` 256 `mod` 256) 24)));
      [reflexivity|rewrite le32_value by lia; reflexivity]
  end.

Record header_reads (cd : list Z) (p ofs : Z) (e : zentry) : Prop := {
  hr_sig : MZ_READ_LE32 cd p = Got MZ_ZIP_CENTRAL_DIR_HEADER_SIG;
  hr_made : MZ_READ_LE16 cd (p + MZ_ZIP_CDH_VERSION_MADE_BY_OFS) = Got (z_made_by e);
  hr_needed : MZ_READ_LE16 cd (p + MZ_ZIP_CDH_VERSION_NEEDED_OFS) = Got (z_needed e);
  hr_flags : MZ_READ_LE16 cd (p + MZ_ZIP_CDH_BIT_FLAG_OFS) = Got (z_flags e);
  hr_method : MZ_READ_LE16 cd (p + MZ_ZIP_CDH_METHOD_OFS) = Got (z_method e);
  hr_method32 : MZ_READ_LE32 cd (p + MZ_ZIP_CDH_METHOD_OFS) = Got (z_method e + 65536 * z_time e);
  hr_crc : MZ_READ_LE32 cd (p + MZ_ZIP_CDH_CRC32_OFS) = Got (mz_crc32 MZ_CRC32_INIT (z_data e));
  hr_comp : MZ_READ_LE32 cd (p + MZ_ZIP_CDH_COMPRESSED_SIZE_OFS) = Got (len (z_stream e));
  hr_uncomp : MZ_READ_LE32 cd (p + MZ_ZIP_CDH_DECOMPRESSED_SIZE_OFS) = Got (len (z_data e));
  hr_namelen : MZ_READ_LE16 cd (p + MZ_ZIP_CDH_FILENAME_LEN_OFS) = Got (len (z_bytes e));
  hr_extralen : MZ_READ_LE16 cd (p + MZ_ZIP_CDH_EXTRA_LEN_OFS) = Got (len (z_extra e));
  hr_commentlen : MZ_READ_LE16 cd (p + MZ_ZIP_CDH_COMMENT_LEN_OFS) = Got (len (z_comment e));
  hr_disk : MZ_READ_LE16 cd (p + MZ_ZIP_CDH_DISK_START_OFS) = Got 0;
  hr_iattr : MZ_READ_LE16 cd (p + MZ_ZIP_CDH_INTERNAL_ATTR_OFS) = Got (z_iattr e);
  hr_xattr : MZ_READ_LE32 cd (p + MZ_ZIP_CDH_EXTERNAL_ATTR_OFS) = Got (z_xattr e);
  hr_ofs : MZ_READ_LE32 cd (p + MZ_ZIP_CDH_LOCAL_HEADER_OFS) = Got ofs
}.

Lemma le_two a b : 0 ≤ a < 65536 → 0 ≤ b < 65536 →
  Z.lor (Z.lor (Z.lor (a `mod` 256) (Z.shiftl (a `div` 256 `mod` 256) 8)) (Z.shiftl (b `mod` 256) 16))
    (Z.shiftl (b `div` 256 `mod` 256) 24) = a + 65536 * b.
Proof.
  intros Ha Hb. rewrite le16_value by done.
  rewrite (lor_shiftl_add a) by (change (2 ^ 16) with 65536; lia). change (2 ^ 16) with 65536.
  pose proof (byte_range b) as B. change (2 ^ 8) with 256 in B.
  rewrite lor_shiftl_add by (change (2 ^ 24) with 16777216; lia). change (2 ^ 24) with 16777216.
  rewrite (Z.mod_small (b `div` 256)) by (split; [apply Z.div_pos; lia|apply Z.div_lt_upper_bound; lia]).
  pose proof (Z.div_mod b 256 ltac:(lia)). lia.
Qed.

Lemma central_reads pre post ofs e :
  zfacts e → 0 ≤ ofs < 2 ^ 32 → header_reads (pre ++ central_record ofs e ++ post) (len pre) ofs e.
Proof.
  intros [] Ho. pose proof (crc_word MZ_CRC32_INIT (z_data e) ltac:(by cbn)) as Hcrc. unfold word32 in Hcrc.
  pose proof (len_nonneg (z_bytes e)). pose proof (len_nonneg (z_extra e)). pose proof (len_nonneg (z_comment e)).
  pose proof (len_nonneg (z_stream e)). pose proof (len_nonneg (z_data e)).
  assert (0 ≤ z_method e < 65536) by (unfold MZ_DEFLATED in *; lia).
  constructor.
  1: rewrite <-(Z.add_0_r (len pre)).
  all: (apply LE16_at || apply LE32_at); [done|].
  6: { transitivity (Got (Z.lor (Z.lor (Z.lor (z_method e `mod` 256) (Z.shiftl (z_method e `div` 256 `mod` 256) 8))
         (Z.shiftl (z_time e `mod` 256) 16)) (Z.shiftl (z_time e `div` 256 `mod` 256) 24)));
       [reflexivity|by rewrite le_two by lia]. }
  1: reflexivity.
  all: field.
Qed.

Lemma len_le_bytes n v : len (le_bytes n v) = Z.of_nat n.
Proof.
  revert v. unfold len. induction n as [|n IH]; intros v; [done|]. cbn [le_bytes length]. specialize (IH (v `div` 256)). lia.
Qed.

Lemma len_central_header ofs e : len (central_header ofs e) = 46.
Proof. unfold central_header. rewrite !len_app, !len_le_bytes. done. Qed.

Lemma len_central_record ofs e :
  len (central_record ofs e) = 46 + len (z_bytes e) + len (z_extra e) + len (z_comment e).
Proof. unfold central_record. rewrite !len_app, len_central_header. lia. Qed.

(** One record. *)
Lemma read_header_ok pre post ofs e size n :
  zfacts e → 0 ≤ ofs < 2 ^ 32 → ofs + 30 + len (z_stream e) ≤ size → len (central_record ofs e) ≤ n →
  read_header (pre ++ central_record ofs e ++ post) size 0 (len pre) n = Got (len (central_record ofs e)).
Proof.
  intros Hf Ho Hs Hn. destruct (central_reads pre post ofs e Hf Ho). destruct Hf.
  rewrite len_central_record in Hn |- *. pose proof (len_nonneg (z_bytes e)). pose proof (len_nonneg (z_extra e)).
  pose proof (len_nonneg (z_comment e)). pose proof (len_nonneg (z_stream e)). pose proof (len_nonneg (z_data e)).
  unfold read_header. unfold MZ_ZIP_CENTRAL_DIR_HEADER_SIZE, MZ_ZIP_LOCAL_DIR_HEADER_SIZE.
  rewrite (proj2 (Z.leb_le 46 n)) by lia. cbn [check mbind read_bind].
  rewrite hr_sig0. cbn [mbind read_bind]. rewrite Z.eqb_refl. cbn [check mbind read_bind].
  rewrite hr_comp0. cbn [mbind read_bind]. rewrite hr_uncomp0. cbn [mbind read_bind]. rewrite hr_method33.
  cbn [mbind read_bind].
  replace (negb _) with true.
  2: { symmetry. apply negb_true_iff. rewrite !orb_false_iff, !andb_false_iff.
       assert (z_method e + 65536 * z_time e = 0 → len (z_data e) = len (z_stream e)); [|unfold MZ_DEFLATED in *; lia].
       intros E. rewrite zf_stored0; [done|]. unfold MZ_DEFLATED in *. lia. }
  cbn [check mbind read_bind]. rewrite hr_disk0. cbn [mbind read_bind]. rewrite Z.eqb_refl. cbn [negb andb check mbind read_bind].
  rewrite hr_ofs0. cbn [mbind read_bind]. rewrite (proj2 (Z.ltb_ge _ _)) by lia. cbn [negb check mbind read_bind].
  rewrite hr_namelen0. cbn [mbind read_bind]. rewrite hr_extralen0. cbn [mbind read_bind]. rewrite hr_commentlen0.
  cbn [mbind read_bind]. rewrite (proj2 (Z.ltb_ge _ _)) by lia. cbn [negb check mbind read_bind]. done.
Qed.

(** All records. *)
Lemma read_headers_ok es ofss pre post size n :
  length ofss = length es → Forall zfacts es →
  Forall2 (λ ofs e, 0 ≤ ofs < 2 ^ 32 ∧ ofs + 30 + len (z_stream e) ≤ size) ofss es →
  len (concat (zip_with central_record ofss es)) ≤ n →
  read_headers (length es) (pre ++ concat (zip_with central_record ofss es) ++ post) size 0 (len pre) n =
  Got (offsets (len pre) (zip_with central_record ofss es)).
Proof.
  intros Hl Hf H2. revert pre n Hl Hf. induction H2 as [|ofs e ofss es [Ho Hs] _ IH]; intros pre n Hl Hf Hn; [done|].
  apply Forall_cons in Hf as [He Hf]. cbn [zip_with concat] in Hn |- *. rewrite len_app in Hn.
  pose proof (len_nonneg (concat (zip_with central_record ofss es))).
  cbn [length read_headers offsets]. rewrite <-app_assoc, read_header_ok by (done || lia). cbn [mbind read_bind].
  specialize (IH (pre ++ central_record ofs e) (n - len (central_record ofs e))).
  rewrite len_app, <-app_assoc in IH. rewrite IH; [done|by injection Hl|done|lia].
Qed.

(** The names lie within the directory. *)
Lemma names_in es ofss pre post :
  Forall zfacts es → Forall2 (λ ofs e, 0 ≤ ofs < 2 ^ 32) ofss es →
  Forall (name_in (pre ++ concat (zip_with central_record ofss es) ++ post))
    (offsets (len pre) (zip_with central_record ofss es)).
Proof.
  intros Hf H2. revert pre Hf. induction H2 as [|ofs e ofss es Ho _ IH]; intros pre Hf; [constructor|].
  apply Forall_cons in Hf as [He Hf]. cbn [zip_with concat offsets]. rewrite <-app_assoc. constructor.
  - pose proof (len_nonneg pre). pose proof (len_nonneg (z_bytes e)). pose proof (len_nonneg (z_extra e)).
    pose proof (len_nonneg (z_comment e)). pose proof (len_nonneg (concat (zip_with central_record ofss es) ++ post)).
    split; [done|]. exists (len (z_bytes e)). split; [by apply central_reads|]. split; [done|].
    rewrite !len_app, len_central_record in *. unfold MZ_ZIP_CENTRAL_DIR_HEADER_SIZE. lia.
  - specialize (IH (pre ++ central_record ofs e) Hf). by rewrite len_app, <-app_assoc in IH.
Qed.

(** Records of a concatenation, by number. *)
Lemma concat_split (rs : list (list Z)) i r :
  rs !! i = Some r → concat rs = concat (take i rs) ++ r ++ concat (drop (S i) rs).
Proof.
  intros H. rewrite <-(take_drop_middle rs i r H) at 1. by rewrite concat_app.
Qed.

Lemma offsets_lookup p rs i r :
  rs !! i = Some r → offsets p rs !! i = Some (p + len (concat (take i rs))).
Proof.
  revert p i. induction rs as [|x rs IH]; intros p [|i] H; try done; cbn in H |- *.
  - f_equal. unfold len. cbn. lia.
  - rewrite (IH _ _ H), len_app. f_equal. lia.
Qed.

Lemma offsets_length p rs : length (offsets p rs) = length rs.
Proof. revert p. induction rs as [|x rs IH]; intros p; cbn; [done|by rewrite IH]. Qed.

(** ** Opening *)

Lemma find_sig_app a l k i :
  find_sig l k = Got (Some i) → find_sig (a ++ l) (length a + k) = Got (Some (len a + i)).
Proof.
  induction k as [|k IH]; [done|]. rewrite Nat.add_succ_r. cbn [find_sig].
  replace (Z.of_nat (length a + k)) with (len a + Z.of_nat k) by (unfold len; lia).
  rewrite LE32_app by lia. destruct (MZ_READ_LE32 l (Z.of_nat k)) as [x| | |]; [|done..].
  cbn [mbind read_bind]. destruct (_ =? _); [|done]. by intros [= <-].
Qed.

Lemma u64_small z : 0 ≤ z < 2 ^ 63 → u64 z = z ∧ i64 (u64 z) = z ∧ i64 z = z.
Proof.
  intros Hz. assert (Hu : u64 z = z) by (unfold u64; apply Z.mod_small; lia). rewrite Hu.
  unfold i64. rewrite (proj2 (Z.ltb_lt _ _)) by lia. done.
Qed.

Lemma file_read_at a b c ofs n :
  ofs = len a → n = len b → ofs < 2 ^ 63 → mz_zip_file_read_func (a ++ b ++ c) ofs n = b.
Proof.
  intros -> -> Ho. unfold mz_zip_file_read_func.
  destruct (u64_small (len a)) as (_ & _ & ->); [split; [apply len_nonneg|done]|].
  rewrite (proj2 (Z.ltb_ge _ _)) by apply len_nonneg. by apply sub_app.
Qed.

(** The index the reader makes. *)
Definition sorted_records (es : list zentry) : list Z :=
  match mz_zip_reader_sort_central_dir_offsets_by_filename (centrals es) (offsets 0 (central_records es))
          (record_numbers (Z.of_nat (length es))) (Z.of_nat (length es)) with
  | Got l => l
  | _ => []
  end.

(** The handle of an opened archive. *)
Definition opened (es : list zentry) (comment : list Z) : mz_zip_archive :=
  ZipArchive (len (archive es comment)) (len (locals es)) (Z.of_nat (length es)) MZ_ZIP_MODE_READING
    (Some (InternalState (centrals es) (offsets 0 (central_records es)) (sorted_records es) (archive es comment))).

Record archive_facts (es : list zentry) (comment : list Z) : Prop := {
  af_entries : Forall zfacts es;
  af_count : Z.of_nat (length es) < 65536;
  af_size : len (archive es comment) < 2 ^ 32;
  af_comment : len comment < 4075;
  af_end : find_sig (archive_end es comment) (length (archive_end es comment) - 3) = Got (Some 0)
}.

Lemma archive_ok_facts es comment : archive_ok es comment → archive_facts es comment.
Proof.
  unfold archive_ok. intros H%Is_true_true. rewrite !andb_true_iff in H. destruct_and!. constructor; try lia.
  - apply Forall_forall. intros e He. apply zentry_facts, Is_true_true.
    match goal with H : forallb _ _ = true |- _ => rewrite forallb_forall in H; apply H end. by apply list_elem_of_In.
  - repeat case_match; try done. match goal with H : (_ =? 0) = true |- _ => apply Z.eqb_eq in H; by subst end.
Qed.

Lemma len_archive_end es comment : len (archive_end es comment) = 22 + len comment.
Proof. unfold archive_end, end_header. rewrite !len_app, !len_le_bytes. lia. Qed.

Lemma len_archive es comment :
  len (archive es comment) = len (locals es) + len (centrals es) + 22 + len comment.
Proof. unfold archive. rewrite !len_app, len_archive_end. lia. Qed.

(** The end record is found in the first window. *)
Lemma find_eocd_ok es comment fuel :
  archive_facts es comment →
  find_eocd (S fuel) (archive es comment) (len (archive es comment)) (Z.max (len (archive es comment) - SCAN_BUF) 0) =
  Got (len (locals es ++ centrals es)).
Proof.
  intros []. set (A := archive es comment) in *. set (cur := Z.max (len A - SCAN_BUF) 0).
  assert (HA : A = (locals es ++ centrals es) ++ archive_end es comment) by (unfold A, archive; by rewrite <-app_assoc).
  set (L := locals es ++ centrals es) in *.
  pose proof (len_archive_end es comment) as Hend. pose proof (len_nonneg comment).
  assert (HlA : len A = len L + len (archive_end es comment)) by by rewrite HA, len_app.
  pose proof (len_nonneg L). unfold SCAN_BUF in *.
  assert (Hcur : 0 ≤ cur ≤ len L) by (unfold cur; lia).
  cbn [find_eocd]. unfold SCAN_BUF.
  destruct (u64_small (len A - cur)) as (-> & _); [lia|]. destruct (u64_small cur) as (-> & _ & Hi); [lia|].
  rewrite Z.min_r by lia. unfold mz_zip_file_read_func. rewrite Hi, (proj2 (Z.ltb_ge cur 0)) by lia.
  assert (Hbuf : sub A cur (len A - cur) = drop (Z.to_nat cur) L ++ archive_end es comment).
  { clearbody cur A L. unfold sub. rewrite take_ge by (rewrite length_drop; unfold len; lia).
    rewrite HA. apply drop_app_le. unfold len in Hcur. lia. }
  assert (Hd : len (drop (Z.to_nat cur) L) = len L - cur) by (unfold len in *; rewrite length_drop; lia).
  rewrite Hbuf, len_app, Hd.
  rewrite (proj2 (Z.eqb_eq (len L - cur + len (archive_end es comment)) (len A - cur))) by lia. cbn [check mbind read_bind].
  replace (Z.to_nat (len A - cur - 3)) with (length (drop (Z.to_nat cur) L) + (length (archive_end es comment) - 3))%nat
    by (unfold len in *; lia).
  rewrite (find_sig_app _ _ _ 0 af_end0). cbn [mbind read_bind]. f_equal. lia.
Qed.

Lemma offsets_fit es comment :
  archive_facts es comment →
  Forall2 (λ ofs e, 0 ≤ ofs < 2 ^ 32 ∧ ofs + 30 + len (z_stream e) ≤ len (archive es comment)) (local_offsets es) es.
Proof.
  intros []. apply Forall2_same_length_lookup. split; [unfold local_offsets; by rewrite offsets_length, length_fmap|].
  intros i ofs e Ho He. assert (Hr : (local_record <$> es) !! i = Some (local_record e)) by by rewrite list_lookup_fmap, He.
  unfold local_offsets in Ho. rewrite (offsets_lookup 0 _ _ _ Hr) in Ho. injection Ho as <-.
  pose proof (len_archive es comment) as HA. pose proof (len_nonneg (centrals es)). pose proof (len_nonneg comment).
  assert (Hl : len (locals es) = len (concat (take i (local_record <$> es))) + len (local_record e) +
    len (concat (drop (S i) (local_record <$> es)))).
  { unfold locals. rewrite (concat_split _ _ _ Hr) at 1. rewrite !len_app. lia. }
  pose proof (len_nonneg (concat (drop (S i) (local_record <$> es)))).
  pose proof (len_nonneg (concat (take i (local_record <$> es)))).
  assert (30 + len (z_stream e) ≤ len (local_record e)).
  { unfold local_record, local_header. rewrite !len_app, !len_le_bytes. apply (Forall_lookup_1 _ _ _ _ af_entries0) in He as [].
    pose proof (len_nonneg (z_bytes e)). pose proof (len_nonneg (z_local_extra e)). pose proof (len_nonneg (z_trailer e)). lia. }
  pose proof (len_nonneg (z_stream e)). lia.
Qed.

(** The index holds every entry once. *)
Lemma sorted_records_ok es comment :
  archive_facts es comment →
  mz_zip_reader_sort_central_dir_offsets_by_filename (centrals es) (offsets 0 (central_records es))
    (record_numbers (Z.of_nat (length es))) (Z.of_nat (length es)) = Got (sorted_records es) ∧
  sorted_records es ≡ₚ record_numbers (Z.of_nat (length es)).
Proof.
  intros Hf. pose proof (offsets_fit es comment Hf) as Hfit. unfold sorted_records.
  destruct (sort_names_ok (centrals es) (offsets 0 (central_records es))) as (l & El & Hl).
  { destruct Hf. pose proof (names_in es (local_offsets es) [] [] af_entries0) as Hn.
    rewrite app_nil_l, app_nil_r in Hn. apply Hn. eapply Forall2_impl; [exact Hfit|]. by intros ? ? [? _]. }
  assert (len (offsets 0 (central_records es)) = Z.of_nat (length es)) as En.
  { unfold len, central_records. rewrite offsets_length, length_zip_with, <-(Forall2_length _ _ _ Hfit). lia. }
  rewrite En in El, Hl. by rewrite El.
Qed.

Record end_reads (l : list Z) (n cdir_size cdir_ofs : Z) : Prop := {
  er_sig : MZ_READ_LE32 l 0 = Got MZ_ZIP_END_OF_CENTRAL_DIR_HEADER_SIG;
  er_this : MZ_READ_LE16 l MZ_ZIP_ECDH_NUM_THIS_DISK_OFS = Got 0;
  er_cdir : MZ_READ_LE16 l MZ_ZIP_ECDH_NUM_DISK_CDIR_OFS = Got 0;
  er_total : MZ_READ_LE16 l MZ_ZIP_ECDH_CDIR_TOTAL_ENTRIES_OFS = Got n;
  er_ondisk : MZ_READ_LE16 l MZ_ZIP_ECDH_CDIR_NUM_ENTRIES_ON_DISK_OFS = Got n;
  er_size : MZ_READ_LE32 l MZ_ZIP_ECDH_CDIR_SIZE_OFS = Got cdir_size;
  er_ofs : MZ_READ_LE32 l MZ_ZIP_ECDH_CDIR_OFS_OFS = Got cdir_ofs
}.

Lemma end_header_reads n cs co cl :
  0 ≤ n < 65536 → 0 ≤ cs < 2 ^ 32 → 0 ≤ co < 2 ^ 32 → end_reads (end_header n cs co cl) n cs co.
Proof. intros. constructor; (reflexivity || field). Qed.

Lemma centrals_min es : Z.of_nat (length es) * 46 ≤ len (centrals es).
Proof.
  unfold centrals, central_records, local_offsets. generalize 0.
  induction es as [|e es IH]; intros p; [done|]. cbn [fmap list_fmap offsets zip_with concat length].
  rewrite len_app, len_central_record. pose proof (len_nonneg (z_bytes e)). pose proof (len_nonneg (z_extra e)).
  pose proof (len_nonneg (z_comment e)). specialize (IH (p + len (local_record e))). lia.
Qed.

(** The reader opens an archive. *)
Lemma init_file_ok alloc es comment :
  (∀ n, alloc n = true) → archive_facts es comment →
  mz_zip_reader_init_file alloc (archive es comment) = Got (opened es comment).
Proof.
  intros Hal Hf. pose proof (find_eocd_ok es comment 17 Hf) as Heo. destruct (sorted_records_ok es comment Hf) as [Hsort _]. pose proof (offsets_fit es comment Hf) as Hfit.
  destruct Hf. pose proof (len_archive es comment) as HA. pose proof (centrals_min es) as Hmin.
  pose proof (len_nonneg comment). pose proof (len_nonneg (locals es)). pose proof (len_nonneg (centrals es)).
  unfold mz_zip_reader_init_file. rewrite Hal. cbn [check mbind read_bind].
  unfold mz_zip_reader_read_central_dir, MZ_ZIP_END_OF_CENTRAL_DIR_HEADER_SIZE, MZ_ZIP_CENTRAL_DIR_HEADER_SIZE.
  rewrite (proj2 (Z.ltb_ge (len (archive es comment)) 22)) by lia. cbn [negb check mbind read_bind].
  change EOCD_ROUNDS with 18%nat. rewrite Heo. cbn [mbind read_bind].
  destruct (u64_small (len (locals es ++ centrals es))) as (-> & _); [rewrite len_app; lia|].
  assert (Hread : mz_zip_file_read_func (archive es comment) (len (locals es ++ centrals es)) 22 =
    end_header (Z.of_nat (length es)) (len (centrals es)) (len (locals es)) (len comment)).
  { replace (archive es comment) with ((locals es ++ centrals es) ++
      end_header (Z.of_nat (length es)) (len (centrals es)) (len (locals es)) (len comment) ++ comment)
      by (unfold archive, archive_end; by rewrite <-app_assoc).
    apply file_read_at; [done|reflexivity|rewrite len_app; lia]. }
  rewrite Hread. change (len (end_header _ _ _ _)) with 22. cbn [check mbind read_bind Z.eqb Pos.eqb].
  destruct (end_header_reads (Z.of_nat (length es)) (len (centrals es)) (len (locals es)) (len comment)); [lia..|].
  rewrite er_sig0. cbn [mbind read_bind]. rewrite Z.eqb_refl. cbn [check mbind read_bind].
  rewrite er_total0. cbn [mbind read_bind]. rewrite er_ondisk0. cbn [mbind read_bind]. rewrite Z.eqb_refl.
  cbn [check mbind read_bind]. rewrite er_this0. cbn [mbind read_bind]. rewrite er_cdir0.
  cbn [mbind read_bind Z.lor Z.eqb negb andb check]. rewrite er_size0. cbn [mbind read_bind].
  rewrite (proj2 (Z.ltb_ge (len (centrals es)) _)) by lia. cbn [negb check mbind read_bind].
  rewrite er_ofs0. cbn [mbind read_bind]. rewrite (proj2 (Z.ltb_ge _ (len (locals es) + _))) by lia.
  cbn [negb check mbind read_bind]. rewrite !Hal. cbn [andb check mbind read_bind].
  assert (Hcd : mz_zip_file_read_func (archive es comment) (len (locals es)) (len (centrals es)) = centrals es)
    by (apply file_read_at; [done..|lia]).
  rewrite Hcd, Z.eqb_refl. cbn [check mbind read_bind]. rewrite Nat2Z.id.
  pose proof (read_headers_ok es (local_offsets es) [] [] (len (archive es comment)) (len (centrals es))) as Hh.
  rewrite app_nil_l, app_nil_r in Hh. change (concat (zip_with central_record (local_offsets es) es)) with (centrals es) in Hh.
  change (len []) with 0 in Hh. rewrite Hh; [|by eapply Forall2_length|done|done|lia].
  cbn [mbind read_bind]. unfold opened. destruct (Z.eqb_spec (Z.of_nat (length es)) 0) as [E|_].
  - destruct es; [done|]. cbn [length] in E. lia.
  - cbn [mbind read_bind]. change (zip_with central_record (local_offsets es) es) with (central_records es). by rewrite Hsort.
Qed.

(** ** Entries *)

(** Where the local record of entry [i] begins. *)
Definition local_ofs (es : list zentry) (i : nat) : Z := len (concat (take i (local_record <$> es))).
Definition central_ofs (es : list zentry) (i : nat) : Z := len (concat (take i (central_records es))).

Lemma central_place es i e :
  es !! i = Some e → central_records es !! i = Some (central_record (local_ofs es i) e).
Proof.
  intros He. assert (Hr : (local_record <$> es) !! i = Some (local_record e)) by by rewrite list_lookup_fmap, He.
  unfold central_records, local_offsets. apply lookup_zip_with_Some. exists (local_ofs es i), e. split_and!; [done| |done].
  by rewrite (offsets_lookup 0 _ _ _ Hr).
Qed.

Definition stat_of (es : list zentry) (i : nat) (e : zentry) : mz_zip_archive_file_stat :=
  FileStat (Z.of_nat i) (central_ofs es i) (z_made_by e) (z_needed e) (z_flags e) (z_method e)
    (mz_crc32 MZ_CRC32_INIT (z_data e)) (len (z_stream e)) (len (z_data e)) (z_iattr e) (z_xattr e) (local_ofs es i)
    (Z.min (len (z_comment e)) 255) (z_bytes e) (take (Z.to_nat (Z.min (len (z_comment e)) 255)) (z_comment e)).

(** The last character of a path. *)
Lemma plain_last c : plain c → ∃ pre d, c = pre +:+ String d EmptyString ∧ d ≠ "/"%char.
Proof.
  unfold plain. rewrite !andb_True. intros ((((Hs & _) & Hne) & _) & _). revert Hs Hne.
  induction c as [|d c IH]; [done|]. intros [Hd Hs]%andb_prop_elim _. destruct c as [|d' c].
  - exists ""%string, d. split; [done|]. by destruct (Ascii.eqb_spec d "/").
  - destruct (IH Hs) as (pre & x & E & Hx); [done|]. exists (String d pre), x. by rewrite E.
Qed.

Lemma join_path_last l :
  l ≠ [] → Forall (λ c, plain c) l → ∃ pre d, join_path l = pre +:+ String d EmptyString ∧ d ≠ "/"%char.
Proof.
  intros Hne Hl. induction Hl as [|c l Hc Hl IH]; [done|]. destruct l as [|c' l]; [by apply plain_last|].
  destruct IH as (pre & d & E & Hd); [done|]. exists (c +:+ "/" +:+ pre), d. split; [|done].
  cbn [join_path]. cbn [join_path] in E. rewrite E, <-!string_app_assoc. done.
Qed.

Section Entry.
Context (es : list zentry) (comment : list Z) (i : nat) (e : zentry).
Hypothesis Hf : archive_facts es comment.
Hypothesis He : es !! i = Some e.

Lemma entry_facts : zfacts e.
Proof. destruct Hf. by eapply (Forall_lookup_1 zfacts es i). Qed.

(** The record in the central directory, and its fields. *)
Lemma cdh_ok : mz_zip_reader_get_cdh (opened es comment) (Z.of_nat i) = Got (centrals es, central_ofs es i).
Proof.
  unfold mz_zip_reader_get_cdh, opened. cbn [m_pState m_total_files m_zip_mode m_central_dir m_central_dir_offsets].
  pose proof (lookup_lt_Some _ _ _ He). rewrite (proj2 (Z.ltb_lt _ _)) by lia. cbn [check mbind read_bind].
  by rewrite Nat2Z.id, (offsets_lookup 0 _ _ _ (central_place es i e He)).
Qed.

Lemma central_at : ∃ post, centrals es =
  concat (take i (central_records es)) ++ central_record (local_ofs es i) e ++ post.
Proof. eexists. apply concat_split, (central_place es i e He). Qed.

Lemma entry_reads : header_reads (centrals es) (central_ofs es i) (local_ofs es i) e.
Proof.
  destruct central_at as [post ->]. apply central_reads; [apply entry_facts|].
  assert (Hr : (local_record <$> es) !! i = Some (local_record e)) by by rewrite list_lookup_fmap, He.
  destruct (Forall2_lookup_r _ _ _ _ _ (offsets_fit es comment Hf) He) as (ofs & Ho & Hb & _).
  unfold local_offsets in Ho. rewrite (offsets_lookup 0 _ _ _ Hr) in Ho. by injection Ho as <-.
Qed.

(** A part of the record behind its fixed fields. *)
Lemma copy_record a b c k n :
  z_bytes e ++ z_extra e ++ z_comment e = a ++ b ++ c → k = 46 + len a → n = len b →
  copy_out (centrals es) (central_ofs es i + k) n = Got b.
Proof.
  intros E -> ->. destruct central_at as [post ->]. unfold copy_out.
  replace (sub _ _ _) with b; [by rewrite Z.eqb_refl|]. unfold central_record. rewrite E.
  symmetry. rewrite <-!app_assoc, (app_assoc (concat _)), (app_assoc (_ ++ central_header _ _)).
  apply sub_app; [|done]. rewrite !len_app, len_central_header. unfold central_ofs. lia.
Qed.

Lemma stat_ok : mz_zip_reader_file_stat (opened es comment) (Z.of_nat i) = Got (stat_of es i e).
Proof.
  unfold mz_zip_reader_file_stat. rewrite cdh_ok. cbn [mbind read_bind]. destruct entry_reads, entry_facts.
  rewrite hr_made0; cbn [mbind read_bind]. rewrite hr_needed0; cbn [mbind read_bind]. rewrite hr_flags0; cbn [mbind read_bind].
  rewrite hr_method0; cbn [mbind read_bind]. rewrite hr_crc0; cbn [mbind read_bind]. rewrite hr_comp0; cbn [mbind read_bind].
  rewrite hr_uncomp0; cbn [mbind read_bind]. rewrite hr_iattr0; cbn [mbind read_bind]. rewrite hr_xattr0; cbn [mbind read_bind].
  rewrite hr_ofs0; cbn [mbind read_bind]. rewrite hr_namelen0; cbn [mbind read_bind].
  rewrite (copy_record [] (z_bytes e) (z_extra e ++ z_comment e)); [|done|done|unfold MZ_ZIP_MAX_ARCHIVE_FILENAME_SIZE; lia].
  cbn [mbind read_bind]. rewrite hr_commentlen0; cbn [mbind read_bind]. rewrite hr_extralen0; cbn [mbind read_bind].
  rewrite <-!Z.add_assoc.
  rewrite (copy_record (z_bytes e ++ z_extra e) (take (Z.to_nat (Z.min (len (z_comment e)) 255)) (z_comment e))
    (drop (Z.to_nat (Z.min (len (z_comment e)) 255)) (z_comment e))); [done|by rewrite <-app_assoc, take_drop| |].
  - rewrite len_app. unfold MZ_ZIP_CENTRAL_DIR_HEADER_SIZE. lia.
  - unfold MZ_ZIP_MAX_ARCHIVE_FILE_COMMENT_SIZE, len. rewrite length_take. lia.
Qed.

(** A byte of the name. *)
Lemma name_byte a b c : z_bytes e = a ++ b :: c → rd8 (centrals es) (central_ofs es i + 46 + len a) = Got b.
Proof.
  intros E. destruct central_at as [post ->]. unfold central_record. rewrite E, <-!app_assoc, app_assoc. cbn [app].
  assert (central_ofs es i + 46 = len (concat (take i (central_records es)) ++ central_header (local_ofs es i) e)) as ->
    by by rewrite len_app, len_central_header.
  rewrite rd8_app by apply len_nonneg. rewrite <-(Z.add_0_r (len a)), rd8_app by done. done.
Qed.

Lemma isdir_ok : mz_zip_reader_is_file_a_directory (opened es comment) (Z.of_nat i) = Got (z_isdir e).
Proof.
  unfold mz_zip_reader_is_file_a_directory. rewrite cdh_ok. destruct entry_reads, entry_facts.
  rewrite hr_namelen0. cbn [mbind read_bind].
  assert (∃ pre c, z_name e = pre +:+ String c EmptyString ∧ Ascii.eqb c "/" = z_isdir e) as (pre & c & En & Ec).
  { unfold z_name. destruct (z_isdir e); [by exists (join_path (z_path e)), "/"%char|]. rewrite string_app_nil_r.
    destruct (join_path_last (z_path e)) as (pre & c & -> & Hc); [done..|]. exists pre, c. split; [done|]. by apply Ascii.eqb_neq. }
  assert (Eb : z_bytes e = string_bytes pre ++ byte c :: []) by by unfold z_bytes; rewrite En, string_bytes_app.
  pose proof (name_byte _ _ _ Eb) as Hb. rewrite Eb, len_app. change (len [byte c]) with 1.
  pose proof (len_nonneg (string_bytes pre)).
  rewrite (proj2 (Z.eqb_neq _ 0)) by lia. unfold MZ_ZIP_CENTRAL_DIR_HEADER_SIZE.
  replace (central_ofs es i + 46 + (len (string_bytes pre) + 1) - 1)
    with (central_ofs es i + 46 + len (string_bytes pre)) by lia.
  rewrite Hb. cbn [mbind read_bind].
  assert (byte c =? 47 = z_isdir e) as ->.
  { rewrite <-Ec. destruct (Ascii.eqb_spec c "/") as [->|Hne]; [done|]. apply Z.eqb_neq. intros E. apply Hne, byte_inj.
    by rewrite E. }
  destruct (z_isdir e) eqn:Ed; [done|]. rewrite hr_xattr0. cbn [mbind read_bind]. by rewrite zf_file0.
Qed.
(** *** Data *)

Definition data_start : Z := local_ofs es i + 30 + len (z_bytes e) + len (z_local_extra e).

Lemma local_at : ∃ post, archive es comment =
  concat (take i (local_record <$> es)) ++ local_record e ++ post.
Proof.
  assert (Hr : (local_record <$> es) !! i = Some (local_record e)) by by rewrite list_lookup_fmap, He.
  exists (concat (drop (S i) (local_record <$> es)) ++ centrals es ++ archive_end es comment).
  unfold archive, locals. rewrite (concat_split _ _ _ Hr) at 1. by rewrite <-!app_assoc.
Qed.

Lemma len_local_header : len (local_header e) = 30.
Proof. unfold local_header. rewrite !len_app, !len_le_bytes, (zf_local _ entry_facts). done. Qed.

Lemma data_at : ∃ pre post, archive es comment = pre ++ z_stream e ++ post ∧ len pre = data_start.
Proof.
  destruct local_at as [post ->]. unfold local_record.
  exists (concat (take i (local_record <$> es)) ++ local_header e ++ z_bytes e ++ z_local_extra e), (z_trailer e ++ post).
  split; [by rewrite <-!app_assoc|]. rewrite !len_app, len_local_header. unfold data_start, local_ofs. lia.
Qed.

Lemma data_start_bound :
  0 ≤ data_start ∧ data_start + len (z_stream e) ≤ len (archive es comment) ∧ len (archive es comment) < 2 ^ 32.
Proof.
  destruct data_at as (pre & post & HA & E). apply (f_equal len) in HA. rewrite !len_app in HA.
  pose proof (len_nonneg pre). pose proof (len_nonneg post). pose proof (af_size _ _ Hf). lia.
Qed.

(** Reads of the data. *)
Lemma data_read a b c :
  z_stream e = a ++ b ++ c → mz_zip_file_read_func (archive es comment) (data_start + len a) (len b) = b.
Proof.
  intros E. pose proof data_start_bound as (_ & Hb & Hs). rewrite E, !len_app in Hb.
  pose proof (len_nonneg b). pose proof (len_nonneg c).
  destruct data_at as (pre & post & HA & Es). rewrite <-Es in *.
  assert (archive es comment = (pre ++ a) ++ b ++ (c ++ post)) as -> by by rewrite HA, E, <-!app_assoc.
  apply file_read_at; [by rewrite len_app|done|lia].
Qed.

Lemma data_ofs_ok :
  data_ofs (archive es comment) (len (archive es comment)) (stat_of es i e) = Got data_start.
Proof.
  pose proof data_start_bound as (_ & Hb & Hs). pose proof len_local_header as Hlen. destruct entry_facts. unfold data_ofs.
  pose proof (len_nonneg (z_bytes e)). pose proof (len_nonneg (z_local_extra e)). pose proof (len_nonneg (z_stream e)).
  assert (0 ≤ local_ofs es i) by apply len_nonneg. cbn [stat_of m_local_header_ofs m_comp_size].
  unfold MZ_ZIP_LOCAL_DIR_HEADER_SIZE, data_start in *.
  assert (mz_zip_file_read_func (archive es comment) (local_ofs es i) 30 = local_header e) as ->.
  { destruct local_at as [post ->]. unfold local_record. rewrite <-!app_assoc.
    apply file_read_at; [done|done|lia]. }
  rewrite Hlen. cbn [check mbind read_bind Z.eqb Pos.eqb].
  assert (MZ_READ_LE32 (local_header e) 0 = Got MZ_ZIP_LOCAL_DIR_HEADER_SIG) as -> by reflexivity.
  cbn [mbind read_bind]. rewrite Z.eqb_refl. cbn [check mbind read_bind].
  assert (H26 : len (le_bytes 4 MZ_ZIP_LOCAL_DIR_HEADER_SIG ++ z_local e) = 26) by by rewrite len_app, len_le_bytes, zf_local0.
  unfold MZ_ZIP_LDH_FILENAME_LEN_OFS, MZ_ZIP_LDH_EXTRA_LEN_OFS.
  assert (MZ_READ_LE16 (local_header e) 26 = Got (len (z_bytes e))) as ->.
  { change 26 with (26 + 0). rewrite <-H26. apply LE16_at; [done|field]. }
  cbn [mbind read_bind]. assert (MZ_READ_LE16 (local_header e) 28 = Got (len (z_local_extra e))) as ->.
  { change 28 with (26 + 2). rewrite <-H26. apply LE16_at; [done|field]. }
  cbn [mbind read_bind]. rewrite (proj2 (Z.ltb_ge _ _)) by lia. cbn [negb check mbind read_bind]. f_equal. lia.
Qed.

(** Nothing to extract, or the entry. *)
Lemma entry_checks_ok :
  entry_checks (opened es comment) (Z.of_nat i) =
  Got (if z_isdir e || (len (z_stream e) =? 0) then None else Some (stat_of es i e)).
Proof.
  destruct entry_facts. unfold entry_checks. rewrite stat_ok. cbn [mbind read_bind]. cbn [stat_of m_comp_size m_bit_flag m_method].
  rewrite isdir_ok. cbn [mbind read_bind].
  destruct (len (z_stream e) =? 0); [by rewrite orb_true_r|]. rewrite orb_false_r. destruct (z_isdir e); [done|].
  change (Z.lor 1 32) with 33. rewrite zf_bits0. cbn [Z.eqb check mbind read_bind].
  by destruct zf_method0 as [-> | ->].
Qed.
End Entry.
