(* ===== verification/UnzipProofs.v ===== *)
(** * Unpacking, proved

    One program unpacks its archive while others do the same with theirs: it relies on
    nobody touching its files or removing directories, and guarantees the same
    ([rely], [guar]). *)
From stdpp Require Import strings gmap list numbers.
From Stdlib Require Import Ascii.
From S2P Require Import Prelude CString FileSys ZipReader ZipCrc Unzip ZipFormat.
Local Open Scope Z_scope.

(** ** Paths *)

Lemma split_go_app acc c s :
  no_char "/" c → split_go acc (c +:+ s) = split_go (acc +:+ c) s.
Proof.
  revert acc. induction c as [|d c IH]; intros acc Hc; [by rewrite string_app_nil_r|].
  apply andb_prop_elim in Hc as [Hd Hc]. change (String d c +:+ s) with (String d (c +:+ s)). cbn [split_go].
  destruct (Ascii.eqb d "/"); [done|]. rewrite IH by done. by rewrite string_app_assoc.
Qed.

Lemma plain_facts c : plain c → no_char "/" c ∧ nul_free c ∧ c ≠ ""%string ∧ c ≠ "."%string ∧ c ≠ ".."%string.
Proof.
  unfold plain. rewrite !andb_True, !negb_True. intros ((((? & ?) & H1) & H2) & H3).
  split_and!; [done..| | |]; intros ->; by vm_compute in H1, H2, H3.
Qed.

Lemma split_path_join l tail :
  Forall (λ c, plain c) l → tail = ""%string ∨ tail = "/"%string → split_go "" (join_path l +:+ tail) = l.
Proof.
  intros Hl Ht. induction Hl as [|c l Hc Hl IH]; [by destruct Ht as [-> | ->]|].
  destruct (plain_facts c Hc) as (Hs & _ & Hne & _). destruct l as [|c' l].
  - cbn [join_path]. rewrite split_go_app by done. destruct c as [|d c]; [done|]. by destruct Ht as [-> | ->].
  - change (join_path (c :: c' :: l)) with (c +:+ "/" +:+ join_path (c' :: l)).
    rewrite string_app_assoc, split_go_app by done. destruct c as [|d c]; [done|].
    change (String d c :: split_go "" (join_path (c' :: l) +:+ tail) = String d c :: c' :: l). by rewrite IH.
Qed.

(** The path of an entry below the directory. *)
Definition below (l : list string) (tail : string) : string := "./" +:+ join_path l +:+ tail.

Lemma split_below l tail :
  Forall (λ c, plain c) l → tail = ""%string ∨ tail = "/"%string → split_path (below l tail) = "."%string :: l.
Proof.
  intros Hl Ht. change ("."%string :: split_go "" (join_path l +:+ tail) = "."%string :: l). by rewrite split_path_join.
Qed.

(** ** Resolution *)

Definition is_dir (o : option node) : Prop := match o with Some (Dir _) => True | _ => False end.

Lemma walk_cons n f follow cur c l :
  walk n f follow cur (c :: l) =
  if String.eqb c "." then walk n f follow cur l
  else if String.eqb c ".." then walk n f follow (removelast cur) l
  else
    match f !! (cur ++ [c]) with
    | Some (Dir _) => walk n f follow (cur ++ [c]) l
    | Some (Link t) =>
        if bool_decide (l = []) && negb follow then Some (cur ++ [c])
        else match n with
             | O => None
             | S n' => walk n' f follow (if is_absolute t then [] else cur) (split_path t ++ l)
             end
    | _ => match l with [] => Some (cur ++ [c]) | _ => None end
    end.
Proof. by destruct n. Qed.

Lemma walk_nil n f follow cur : walk n f follow cur [] = Some cur.
Proof. by destruct n. Qed.

(** Through directories to a last piece that is no link. *)
Lemma walk_plain n f follow cur l :
  Forall (λ c, plain c) l →
  (∀ l1 l2, l = l1 ++ l2 → l1 ≠ [] → l2 ≠ [] → is_dir (f !! (cur ++ l1))) →
  (∀ t, f !! (cur ++ l) ≠ Some (Link t)) →
  walk n f follow cur l = Some (cur ++ l).
Proof.
  intros Hl. revert cur. induction Hl as [|c l Hc Hl IH]; intros cur Hd Hlast; [by rewrite walk_nil, app_nil_r|].
  destruct (plain_facts c Hc) as (_ & _ & _ & H1 & H2).
  rewrite walk_cons, (proj2 (String.eqb_neq _ _) H1), (proj2 (String.eqb_neq _ _) H2).
  destruct l as [|c' l].
  - destruct (f !! (cur ++ [c])) as [[m|b m|t]|] eqn:E; rewrite ?walk_nil; try done; by destruct (Hlast t).
  - specialize (Hd [c] (c' :: l) eq_refl ltac:(done) ltac:(done)) as Hdc.
    destruct (f !! (cur ++ [c])) as [[m|b m|t]|]; try done.
    rewrite IH; [by rewrite <-app_assoc| |].
    + intros l1 l2 E H3 H4. rewrite <-app_assoc. apply (Hd (c :: l1) l2); [cbn; by rewrite E|done|done].
    + intros t. rewrite <-app_assoc. apply Hlast.
Qed.

Lemma resolve_below f wd follow l tail :
  Forall (λ c, plain c) l → tail = ""%string ∨ tail = "/"%string →
  (∀ l1 l2, l = l1 ++ l2 → l1 ≠ [] → l2 ≠ [] → is_dir (f !! (wd ++ l1))) →
  (∀ t, f !! (wd ++ l) ≠ Some (Link t)) →
  resolve f wd follow (below l tail) = Some (wd ++ l).
Proof.
  intros Hl Ht Hd Hlast. unfold resolve. rewrite split_below by done.
  change (walk MAXSYMLINKS f follow wd ("."%string :: l) = Some (wd ++ l)). rewrite walk_cons. by apply walk_plain.
Qed.

(** ** One program among others *)

(** The directories and files all archives have, and the files of this one. *)
Section Worker.
Context (sys : system_env) (dirs files own : list string → Prop).
Notation wd := (cwd sys).
Hypothesis grants : ∀ c, refuses sys c = false.
Hypothesis apart : ∀ r, dirs r → files r → False.
Hypothesis own_files : ∀ r, own r → files r.
Hypothesis dirs_below : ∀ r, dirs r → r ≠ [].
Hypothesis files_below : ∀ r, files r → r ≠ [].

(** Keys that are not below the directory. *)
Definition outside (k : list string) : Prop := ∀ r, r ≠ [] → k ≠ wd ++ r.

(** Below the directory there are only what archives put there. *)
Record shape (f : tree) : Prop := {
  sh_wd : is_dir (f !! wd);
  sh_node : ∀ r n, r ≠ [] → f !! (wd ++ r) = Some n →
    match n with Dir _ => dirs r | File _ _ => files r | Link _ => False end
}.

Record rely (f f' : tree) : Prop := {
  re_outside : ∀ k, outside k → f' !! k = f !! k;
  re_own : ∀ r, own r → f' !! (wd ++ r) = f !! (wd ++ r);
  re_dirs : ∀ r, is_dir (f !! (wd ++ r)) → is_dir (f' !! (wd ++ r));
  re_shape : shape f → shape f'
}.

Record guar (f f' : tree) : Prop := {
  gu_outside : ∀ k, outside k → f' !! k = f !! k;
  gu_others : ∀ r, files r → ¬ own r → f' !! (wd ++ r) = f !! (wd ++ r);
  gu_dirs : ∀ r, is_dir (f !! (wd ++ r)) → is_dir (f' !! (wd ++ r));
  gu_shape : shape f → shape f'
}.

#[export] Instance rely_preorder : PreOrder rely.
Proof.
  split; [done|]. intros f g h [O1 W1 D1 S1] [O2 W2 D2 S2]. constructor; auto.
  - intros k Hk. by rewrite O2, O1.
  - intros r Hr. by rewrite W2, W1.
Qed.

Lemma guar_refl f : guar f f.
Proof. done. Qed.

(** What the program knows: its own files and some directories. *)
Definition state (s : gmap (list string) node) (D : list (list string)) (f : tree) : Prop :=
  shape f ∧ (∀ r, own r → f !! (wd ++ r) = s !! r) ∧ (∀ d, d ∈ D → is_dir (f !! (wd ++ d))).

Lemma state_rely s D f f' : state s D f → rely f f' → state s D f'.
Proof.
  intros (Hs & Hw & Hd) []. split_and!; [auto|intros r Hr; by rewrite re_own0, Hw|auto].
Qed.

Lemma outside_ne k r : r ≠ [] → outside k → wd ++ r ≠ k.
Proof. intros Hr Hk E. by apply (Hk r). Qed.

Lemma wd_ne r : r ≠ [] → wd ++ r ≠ wd.
Proof. intros Hr E. rewrite <-(app_nil_r wd) in E at 2. by apply app_inv_head in E. Qed.

(** One of its files changes. *)
Lemma put_file s D f r b m :
  state s D f → own r →
  guar f (<[wd ++ r := File b m]> f) ∧ state (<[r := File b m]> s) D (<[wd ++ r := File b m]> f).
Proof.
  intros (Hs & Hw & Hd) Hr. pose proof (files_below r (own_files r Hr)) as Hne.
  assert (Hnd : ∀ r', is_dir (f !! (wd ++ r')) → r' ≠ r).
  { intros r' H ->. destruct (f !! (wd ++ r)) as [[m'|?|?]|] eqn:E; try done.
    apply (apart r); [by apply (sh_node f Hs r (Dir m') Hne E)|auto]. }
  assert (Hdirs : ∀ r', is_dir (f !! (wd ++ r')) → is_dir (<[wd ++ r := File b m]> f !! (wd ++ r'))).
  { intros r' H. rewrite lookup_insert_ne; [done|]. intros E%app_inv_head. by apply (Hnd r' H). }
  assert (Hshape : shape (<[wd ++ r := File b m]> f)).
  { split; [rewrite lookup_insert_ne by (by apply wd_ne); apply Hs|]. intros r' n Hr' E.
    apply lookup_insert_Some in E as [[E1 <-]|[_ E]]; [apply app_inv_head in E1; subst; auto|by apply (sh_node f Hs)]. }
  split; [constructor|split_and!]; auto.
  - intros k Hk. apply lookup_insert_ne. by apply outside_ne.
  - intros r' _ Ho. apply lookup_insert_ne. by intros ->%app_inv_head.
  - intros r' Hr'. destruct (decide (r' = r)) as [->|Hd']; [by rewrite !lookup_insert_eq|].
    rewrite !lookup_insert_ne by (congruence || by intros ?%app_inv_head). auto.
Qed.

(** A directory appears or changes its mode. *)
Lemma put_dir s D f d m :
  state s D f → dirs d → f !! (wd ++ d) = None ∨ is_dir (f !! (wd ++ d)) →
  guar f (<[wd ++ d := Dir m]> f) ∧ state s (d :: D) (<[wd ++ d := Dir m]> f).
Proof.
  intros (Hs & Hw & Hd) Hdir Hf. pose proof (dirs_below d Hdir) as Hne.
  assert (Hnf : ∀ r, files r → d ≠ r) by (intros r Hr ->; by apply (apart r)).
  assert (Hdirs : ∀ r', is_dir (f !! (wd ++ r')) → is_dir (<[wd ++ d := Dir m]> f !! (wd ++ r'))).
  { intros r' H. destruct (decide (r' = d)) as [->|]; [by rewrite lookup_insert_eq|].
    rewrite lookup_insert_ne; [done|]. by intros ?%app_inv_head. }
  assert (Hshape : shape (<[wd ++ d := Dir m]> f)).
  { split; [rewrite lookup_insert_ne by (by apply wd_ne); apply Hs|]. intros r' n Hr' E.
    apply lookup_insert_Some in E as [[E1 <-]|[_ E]]; [apply app_inv_head in E1; by subst|by apply (sh_node f Hs)]. }
  split; [constructor|split_and!]; auto.
  - intros k Hk. apply lookup_insert_ne. by apply outside_ne.
  - intros r Hr _. apply lookup_insert_ne. intros E%app_inv_head. by apply (Hnf r).
  - intros r Hr. rewrite <-Hw by done. apply lookup_insert_ne. intros E%app_inv_head. by apply (Hnf r); [apply own_files|].
  - intros d' [->|Hd']%elem_of_cons; [by rewrite lookup_insert_eq|auto].
Qed.

(** The way to [l] is known. *)
Definition parents (D : list (list string)) (l : list string) : Prop :=
  ∀ l1 l2, l = l1 ++ l2 → l1 ≠ [] → l2 ≠ [] → l1 ∈ D.

Lemma state_resolve s D f follow l tail :
  state s D f → Forall (λ c, plain c) l → l ≠ [] → tail = ""%string ∨ tail = "/"%string → parents D l →
  resolve f wd follow (below l tail) = Some (wd ++ l).
Proof.
  intros (Hs & _ & Hd) Hl Hne Ht Hp. apply resolve_below; [done..| |].
  - intros l1 l2 E H1 H2. apply Hd. by eapply Hp.
  - intros t E. by apply (sh_node f Hs) in E.
Qed.

Lemma exec_mkdir s D f l :
  state s D f → dirs l → Forall (λ c, plain c) l → parents D l →
  ∃ f' x, exec sys f (C_mkdir (below l "")) = (f', x) ∧ guar f f' ∧ state s (l :: D) f' ∧ (x = A_ok ∨ x = A_exist).
Proof.
  intros Hst Hdir Hl Hp. pose proof (dirs_below l Hdir) as Hne. unfold exec. rewrite grants.
  rewrite (state_resolve s D) by (done || by left). destruct (f !! (wd ++ l)) as [n|] eqn:E.
  - eexists _, _. split; [done|]. split; [apply guar_refl|]. split; [|by right].
    destruct Hst as (Hs & Hw & Hd). split_and!; [done..|]. intros d [->|Hd']%elem_of_cons; [|auto].
    rewrite E. pose proof (sh_node f Hs l n Hne E) as Hn. destruct n; [done| |done]. by apply (apart l).
  - eexists _, _. split; [done|]. destruct (put_dir s D f l 493 Hst Hdir (or_introl E)). auto.
Qed.

Lemma exec_mkdir_dot s D f : state s D f → exec sys f (C_mkdir ".") = (f, A_exist).
Proof.
  intros (Hs & _). unfold exec. rewrite grants. change (resolve f wd false ".") with (Some wd).
  pose proof (sh_wd f Hs) as Hwd. cbn beta iota. destruct (f !! wd) as [n|]; [reflexivity|by cbn in Hwd].
Qed.

Lemma below_no_slash l : l ≠ [] → Forall (λ c, plain c) l → ends_slash (below l "") = false.
Proof.
  intros Hne Hl. destruct (join_path_last l Hne Hl) as (pre & d & E & Hd). unfold below. rewrite string_app_nil_r, E.
  change ("./" +:+ (pre +:+ String d "")) with (String "." (String "/" (pre +:+ String d ""))).
  cbn [ends_slash]. destruct (pre +:+ String d "") as [|x s] eqn:Es; [by destruct pre|]. rewrite <-Es.
  clear -Hd. induction pre as [|y pre IH]; cbn; [by apply Ascii.eqb_neq|].
  change (String y pre +:+ String d "") with (String y (pre +:+ String d "")).
  destruct (pre ++ String d "")%string eqn:E; [by destruct pre|]. exact IH.
Qed.

Lemma exec_open s D f r :
  state s D f → own r → Forall (λ c, plain c) r → parents D r → s !! r = None →
  ∃ f', exec sys f (C_open_wb (below r "")) = (f', A_stream (wd ++ r)) ∧ guar f f' ∧
    state (<[r := File [] 420]> s) D f'.
Proof.
  intros Hst Hr Hl Hp Hnone. pose proof (files_below r (own_files r Hr)) as Hne. unfold exec. rewrite grants.
  rewrite below_no_slash by done. rewrite (state_resolve s D) by (done || by left).
  destruct Hst as (Hs & Hw & Hd) eqn:E. rewrite Hw, Hnone by done. eexists. split; [done|].
  by apply put_file.
Qed.

Lemma exec_write s D f r b m pos data :
  state s D f → own r → s !! r = Some (File b m) →
  ∃ f', exec sys f (C_write (wd ++ r) pos data) = (f', A_ok) ∧ guar f f' ∧
    state (<[r := File (write_at pos data b) m]> s) D f'.
Proof.
  intros Hst Hr Hb. unfold exec. rewrite grants. destruct (Hst) as (Hs & Hw & Hd). rewrite Hw, Hb by done.
  eexists. split; [done|]. by apply put_file.
Qed.

Lemma exec_chmod_file s D f r b m mode :
  state s D f → own r → Forall (λ c, plain c) r → parents D r → s !! r = Some (File b m) →
  ∃ f', exec sys f (C_chmod (below r "") mode) = (f', A_ok) ∧ guar f f' ∧
    state (<[r := File b (perm mode)]> s) D f'.
Proof.
  intros Hst Hr Hl Hp Hb. pose proof (files_below r (own_files r Hr)) as Hne. unfold exec. rewrite grants.
  rewrite (state_resolve s D) by (done || by left). rewrite below_no_slash by done.
  destruct (Hst) as (Hs & Hw & Hd). rewrite Hw, Hb by done. eexists. split; [done|]. by apply put_file.
Qed.

Lemma exec_chmod_dir s D f l mode :
  state s D f → dirs l → Forall (λ c, plain c) l → parents D l → l ∈ D →
  ∃ f', exec sys f (C_chmod (below l "/") mode) = (f', A_ok) ∧ guar f f' ∧ state s (l :: D) f'.
Proof.
  intros Hst Hdir Hl Hp Hin. pose proof (dirs_below l Hdir) as Hne. unfold exec. rewrite grants.
  rewrite (state_resolve s D) by (done || by right). destruct (Hst) as (Hs & Hw & Hd). pose proof (Hd l Hin) as Hl'.
  destruct (f !! (wd ++ l)) as [[m| |]|] eqn:E; try done. eexists. split; [done|].
  apply put_dir; [done..|]. right. by rewrite E.
Qed.
Notation hold := (holds sys rely guar).

(** A call whose outcome is known. *)
Lemma hold_call {A} c (k : answer → prog A) Q s D f :
  state s D f →
  (∀ f', state s D f' → ∃ f'' x, exec sys f' c = (f'', x) ∧ guar f' f'' ∧ hold (k x) Q f'') →
  hold (Call c k) Q f.
Proof. intros Hst H. apply holds_call. intros f' Hr. by apply H, (state_rely s D f). Qed.

Lemma hold_ret {A} (a : A) (Q : A → tree → Prop) s D f :
  state s D f → (∀ f', state s D f' → Q a f') → hold (Ret a) Q f.
Proof. intros Hst H f' Hr. by apply H, (state_rely s D f). Qed.

(** *** Directories *)

Fixpoint slashed (l : list string) : string :=
  match l with [] => "" | c :: l' => c +:+ "/" +:+ slashed l' end.

Lemma join_slashed l c : join_path (l ++ [c]) = slashed l +:+ c.
Proof.
  induction l as [|x l IH]; [done|]. destruct l as [|y l].
  { change (x +:+ "/" +:+ c = (x +:+ "/" +:+ "") +:+ c). by rewrite !string_app_assoc. }
  change (join_path ((x :: y :: l) ++ [c])) with (x +:+ "/" +:+ join_path ((y :: l) ++ [c])).
  rewrite IH. cbn [slashed]. by rewrite !string_app_assoc.
Qed.

Lemma slashed_app l c : slashed (l ++ [c]) = slashed l +:+ c +:+ "/".
Proof. induction l as [|x l IH]; [done|]. cbn [app slashed]. by rewrite IH, !string_app_assoc. Qed.

Lemma snoc_split {A} (l : list A) c a b : l ++ [c] = a ++ b → b ≠ [] → ∃ b', l = a ++ b'.
Proof.
  destruct b as [|x b _] using rev_ind; [done|]. rewrite app_assoc. intros [E _]%app_inj_tail _. by exists b.
Qed.

Lemma mkpath_skip np n c t :
  no_char "/" c → n + Z.of_nat (String.length c) ≤ MAX_PATH →
  mkpath_loop np n (c +:+ t) = mkpath_loop (np +:+ c) (n + Z.of_nat (String.length c)) t.
Proof.
  revert np n. induction c as [|d c IH]; intros np n Hc Hn.
  { rewrite string_app_nil_r. cbn [String.length]. by rewrite Z.add_0_r. }
  apply andb_prop_elim in Hc as [Hd Hc]. change (String d c +:+ t) with (String d (c +:+ t)).
  cbn [mkpath_loop String.length] in *. rewrite (proj2 (Z.ltb_lt n MAX_PATH)) by lia. cbn [negb].
  destruct (Ascii.eqb d "/"); [done|]. cbn [andb]. rewrite IH by (done || lia).
  rewrite string_app_assoc. f_equal. lia.
Qed.

Lemma mkpath_slash np n t :
  0 < n < MAX_PATH →
  mkpath_loop np n (String "/" t) =
  Call (C_mkdir np) (λ x, match x with A_ok | A_exist => mkpath_loop (np +:+ "/") (n + 1) t | _ => Ret false end).
Proof.
  intros Hn. cbn [mkpath_loop]. rewrite (proj2 (Z.ltb_lt n MAX_PATH)), (proj2 (Z.ltb_lt 0 n)) by lia. done.
Qed.

(** Every directory on the way to [l], and [l] if a slash follows. *)
Definition way (D : list (list string)) (l : list string) (tail : string) : Prop :=
  parents D l ∧ (tail = "/"%string → l ∈ D).

Definition needs (l : list string) (tail : string) : Prop :=
  (∀ l1 l2, l = l1 ++ l2 → l1 ≠ [] → l2 ≠ [] → dirs l1) ∧ (tail = "/"%string → dirs l).

(** One directory more. *)
Lemma hold_mkdir {A} l1 c (next : prog A) Q stop s D f :
  Forall (λ c, plain c) l1 → plain c → dirs (l1 ++ [c]) → (∀ a b, l1 = a ++ b → a ≠ [] → a ∈ D) → state s D f →
  (∀ f', state s ((l1 ++ [c]) :: D) f' → hold next Q f') →
  hold (Call (C_mkdir ("./" +:+ slashed l1 +:+ c)) (λ x, match x with A_ok | A_exist => next | _ => stop end)) Q f.
Proof.
  intros Hl Hc Hd HD Hst Hnext. apply (hold_call _ _ _ s D); [done|]. intros f' Hf'.
  rewrite <-join_slashed, <-(string_app_nil_r (join_path (l1 ++ [c]))). fold (below (l1 ++ [c]) "").
  destruct (exec_mkdir s D f' (l1 ++ [c])) as (f'' & x & -> & Hg & Hst'' & Hx); [done..| | |].
  { apply Forall_app. by split; [|constructor]. }
  { intros a b E Ha Hb. destruct (snoc_split l1 c a b E Hb) as (b' & E1). by apply (HD a b'). }
  exists f'', x. split_and!; [done..|]. destruct Hx as [-> | ->]; by apply Hnext.
Qed.

Lemma hold_mkpath_loop tail l1 c l2 n s D f :
  tail = ""%string ∨ tail = "/"%string →
  Forall (λ c, plain c) (l1 ++ c :: l2) → needs (l1 ++ c :: l2) tail →
  (∀ a b, l1 = a ++ b → a ≠ [] → a ∈ D) → 0 < n →
  n + Z.of_nat (String.length (join_path (c :: l2) +:+ tail)) < MAX_PATH → state s D f →
  hold (mkpath_loop ("./" +:+ slashed l1) n (join_path (c :: l2) +:+ tail))
    (λ ok f', ok = true ∧ ∃ D', state s D' f' ∧ way D' (l1 ++ c :: l2) tail ∧ ∀ d, d ∈ D → d ∈ D') f.
Proof.
  intros Ht. revert l1 c n D f. induction l2 as [|c' l2 IH]; intros l1 c n D f Hpl [Hn1 Hn2] HD Hpos Hlen Hst;
    pose proof Hpl as Hpl'; apply Forall_app in Hpl' as [Hp1 [Hc Hp2]%Forall_cons]; destruct (plain_facts c Hc) as (Hs & _).
  - cbn [join_path] in Hlen |- *. rewrite string_length_app in Hlen. rewrite mkpath_skip by (done || lia).
    rewrite string_app_assoc.
    assert (Hpar : parents D (l1 ++ [c])).
    { intros a b E Ha Hb. destruct (snoc_split l1 c a b E Hb) as (b' & E1). by apply (HD a b'). }
    destruct Ht as [-> | ->].
    + apply (hold_ret _ _ s D); [done|]. intros f' Hf'. split; [done|]. exists D. split_and!; [done|by split|done].
    + cbn [String.length] in Hlen. rewrite mkpath_slash by lia.
      apply (hold_mkdir l1 c _ _ _ s D); [done|done|by apply Hn2|done|done|]. intros f' Hf'.
      apply (hold_ret _ _ s ((l1 ++ [c]) :: D)); [done|]. intros f3 Hf3. split; [done|]. eexists. split; [exact Hf3|].
      split; [|by right]. split; [|by left]. intros a b E Ha Hb. right. by apply (Hpar a b).
  - change (join_path (c :: c' :: l2)) with (c +:+ "/" +:+ join_path (c' :: l2)) in Hlen |- *.
    rewrite !string_app_assoc in Hlen |- *. rewrite string_length_app in Hlen.
    rewrite mkpath_skip by (done || lia). change ("/" +:+ (join_path (c' :: l2) +:+ tail)) with
      (String "/" (join_path (c' :: l2) +:+ tail)) in Hlen |- *. cbn [String.length] in Hlen.
    rewrite mkpath_slash by lia. rewrite !string_app_assoc, <-slashed_app.
    apply (hold_mkdir l1 c _ _ _ s D); [done|done| |done|done|].
    { apply (Hn1 _ (c' :: l2)); [by rewrite <-app_assoc|by destruct l1|done]. }
    intros f' Hf'. assert (Eapp : (l1 ++ [c]) ++ c' :: l2 = l1 ++ c :: c' :: l2) by by rewrite <-app_assoc.
    eapply holds_mono; [apply (IH (l1 ++ [c]) c' _ ((l1 ++ [c]) :: D))|].
    + by rewrite Eapp.
    + by rewrite Eapp.
    + intros a b E Ha. apply elem_of_cons. destruct b as [|x b]; [left; by rewrite E, app_nil_r|right].
      destruct (snoc_split l1 c a (x :: b) E) as (b' & E'); [done|]. by apply (HD a b').
    + lia.
    + lia.
    + done.
    + intros ok f3 (-> & D' & Hst' & Hw & Hsub). split; [done|]. exists D'. rewrite Eapp in Hw. split_and!; [done..|].
      intros d Hd. apply Hsub. by right.
Qed.
(** *** Contents *)

Lemma hold_u {A B} (m : U A) (h : A → U B) Q f :
  hold m (λ x f', ∃ a, x = Got a ∧ hold (h a) Q f') f → hold (u_bind m h) Q f.
Proof.
  intros H. apply holds_bind; [apply _|]. eapply holds_mono; [exact H|]. by intros ? f' (a & -> & Ha).
Qed.

Lemma hold_lift {A B} (a : A) (h : A → U B) Q f : hold (h a) Q f → hold (u_bind (lift (Got a)) h) Q f.
Proof. done. Qed.

Context `{Inflator} {HI : InflatorLaws} (alloc : Z → bool).
Hypothesis memory : ∀ n, alloc n = true.

(** A file and the data of an entry in it. *)
Section Data.
Context (file stream : list Z) (start : Z).
Hypothesis reads : ∀ a b c, stream = a ++ b ++ c → mz_zip_file_read_func file (start + len a) (len b) = b.

Lemma hold_stored fuel r buf a rest m s D f :
  own r → 0 < buf → stream = a ++ rest → (length rest < fuel)%nat → s !! r = Some (File a m) → state s D f →
  hold (stored_loop fuel file (wd ++ r) buf (start + len a) (len rest) (Outcome true (len a) (mz_crc32 0 a)))
    (λ x f', x = Got (Outcome true (len stream) (mz_crc32 0 stream)) ∧ state (<[r := File stream m]> s) D f') f.
Proof.
  intros Hr Hbuf. revert a rest s f. induction fuel as [|fuel IH]; intros a rest s f Es Hfuel Hs Hst; [lia|].
  cbn [stored_loop out_buf_ofs file_crc32]. destruct (Z.eqb_spec (len rest) 0) as [E|E].
  - destruct rest; [|unfold len in E; cbn in E; lia]. rewrite app_nil_r in Es. subst a.
    apply (hold_ret _ _ s D); [done|]. intros f' Hf'. split; [done|]. by rewrite insert_id.
  - set (n := Z.min buf (len rest)). pose proof (len_nonneg rest).
    assert (Hn : 0 < n ≤ len rest) by (unfold n; lia).
    set (b := take (Z.to_nat n) rest). set (c := drop (Z.to_nat n) rest).
    assert (Ebc : rest = b ++ c) by (unfold b, c; by rewrite take_drop).
    assert (Hb : len b = n) by (unfold b, len in *; rewrite length_take; lia).
    assert (Hread : mz_zip_file_read_func file (start + len a) n = b).
    { rewrite <-Hb. apply (reads a b c). by rewrite Es, Ebc. }
    cbv zeta. rewrite !Hread, Hb, Z.eqb_refl. cbn [negb].
    apply (hold_call _ _ _ s D); [done|]. intros f' Hf'.
    destruct (exec_write s D f' r a m (len a) b Hf' Hr Hs) as (f'' & -> & Hg & Hst'').
    exists f'', A_ok. split_and!; [done..|]. rewrite write_at_end in Hst''.
    assert (Ec : len rest - n = len c) by (rewrite Ebc, len_app; lia). rewrite Ec, <-Z.add_assoc, <-Hb, <-len_app, <-crc_app.
    eapply holds_mono; [apply (IH (a ++ b) c)|].
    + by rewrite Es, Ebc, <-app_assoc.
    + apply (f_equal length) in Ebc. rewrite length_app in Ebc. unfold len in Hb. lia.
    + apply lookup_insert_eq.
    + done.
    + intros x f3 [-> H3]. split; [done|]. by rewrite insert_insert_eq in H3.
Qed.
(** The next piece of input: what is left of the buffer, or a new one. *)
Lemma next_chunk buf avail later used :
  0 < buf → stream = used ++ later →
  let n := if len avail =? 0 then Z.min buf (len later) else 0 in
  let chunk := if len avail =? 0 then mz_zip_file_read_func file (start + len used) n else avail in
  ∃ used' later', avail ++ later = chunk ++ later' ∧ stream = used' ++ later' ∧ (chunk = [] → later' = []) ∧
    start + len used + n = start + len used' ∧ len later - n = len later' ∧ ((0 <? n) && negb (len chunk =? n)) = false.
Proof.
  intros Hbuf Es. cbv zeta. destruct (Z.eqb_spec (len avail) 0) as [E|E].
  - destruct avail; [|unfold len in E; cbn in E; lia]. set (n := Z.min buf (len later)). pose proof (len_nonneg later).
    assert (Hn : 0 ≤ n ≤ len later) by (unfold n; lia).
    set (b := take (Z.to_nat n) later). set (c := drop (Z.to_nat n) later).
    assert (Ebc : later = b ++ c) by (unfold b, c; by rewrite take_drop).
    assert (Hb : len b = n) by (unfold b, len in *; rewrite length_take; lia).
    assert (Hc : len later = n + len c) by (rewrite Ebc, len_app; lia).
    assert (mz_zip_file_read_func file (start + len used) n = b) as ->.
    { rewrite <-Hb. apply (reads used b c). by rewrite Es, Ebc. }
    exists (used ++ b), c. rewrite len_app. split_and!.
    + done.
    + by rewrite Es, Ebc, <-app_assoc.
    + intros Eb. rewrite Eb in *. change (len []) with 0 in Hb. unfold n in Hb.
      destruct later as [|x later]; [by destruct c|]. unfold len in Hb. cbn [length] in Hb. lia.
    + lia.
    + lia.
    + rewrite (proj2 (Z.eqb_eq (len b) n) Hb). by rewrite andb_false_r.
  - exists used, later. split_and!; [done|done| |lia|lia|done].
    intros ->. by cbn in E.
Qed.

Lemma write_at_lookup pos data old j :
  0 ≤ pos → 0 ≤ j →
  write_at pos data old !! Z.to_nat j =
  if decide (j < pos) then (take (Z.to_nat pos) old ++ replicate (Z.to_nat pos - length old) 0) !! Z.to_nat j
  else if decide (j < pos + len data) then data !! Z.to_nat (j - pos) else old !! Z.to_nat j.
Proof.
  intros Hpos Hj. unfold write_at, len. rewrite app_assoc.
  assert (Hl : length (take (Z.to_nat pos) old ++ replicate (Z.to_nat pos - length old) 0) = Z.to_nat pos)
    by (rewrite length_app, length_take, length_replicate; lia).
  case_decide; [by rewrite lookup_app_l by lia|]. rewrite lookup_app_r, Hl by lia.
  case_decide; [rewrite lookup_app_l by lia; f_equal; lia|]. rewrite lookup_app_r, lookup_drop by lia. f_equal. lia.
Qed.

(** Writing behind the output so far keeps the ring. *)
Lemma window_write buf done out :
  window buf done → len out ≤ TINFL_LZ_DICT_SIZE - len done `mod` TINFL_LZ_DICT_SIZE →
  window (write_at (len done `mod` TINFL_LZ_DICT_SIZE) out buf) (done ++ out).
Proof.
  intros Hw Hlen j Hj Hold. rewrite len_app in Hj, Hold. unfold TINFL_LZ_DICT_SIZE in *.
  pose proof (Z.div_mod (len done) 32768 ltac:(lia)) as En. pose proof (Z.mod_pos_bound (len done) 32768 ltac:(lia)) as Hp.
  pose proof (Z.div_mod j 32768 ltac:(lia)) as Ej. pose proof (Z.mod_pos_bound j 32768 ltac:(lia)) as Hx.
  specialize (Hw j). unfold TINFL_LZ_DICT_SIZE in Hw. pose proof (len_nonneg out).
  set (p := len done `mod` 32768) in *. set (q := len done `div` 32768) in *.
  set (x := j `mod` 32768) in *. set (y := j `div` 32768) in *. clearbody p q x y.
  rewrite write_at_lookup by lia. destruct (Z.lt_ge_cases j (len done)) as [Hlt|Hge].
  - rewrite (lookup_app_l done out) by (unfold len in *; lia). specialize (Hw ltac:(lia) ltac:(lia)).
    assert (x < p ∨ p + len out ≤ x) as [Hc|Hc] by lia.
    + rewrite decide_True by done. rewrite lookup_app_l.
      * by rewrite lookup_take_lt by lia.
      * rewrite length_take. destruct (lookup_lt_is_Some_2 done (Z.to_nat j)) as [v Hv]; [unfold len in *; lia|].
        rewrite Hv in Hw. apply lookup_lt_Some in Hw. lia.
    + by rewrite !decide_False by lia.
  - rewrite (lookup_app_r done out) by (unfold len in *; lia).
    assert (x = p + (j - len done)) as -> by lia.
    rewrite decide_False, decide_True by lia. f_equal. unfold len in *. lia.
Qed.
Lemma land_mod z : 0 ≤ z → Z.land z (TINFL_LZ_DICT_SIZE - 1) = z `mod` TINFL_LZ_DICT_SIZE.
Proof. intros Hz. change (TINFL_LZ_DICT_SIZE - 1) with (Z.ones 15). by rewrite Z.land_ones. Qed.

Lemma hold_inflate data fuel r buf t win avail later used done todo m s D f :
  own r → 0 < buf → stream = used ++ later → decoding t (avail ++ later) done todo → window win done →
  data = done ++ todo → (length avail + length later + length todo < fuel)%nat →
  s !! r = Some (File done m) → state s D f →
  hold (inflate_loop fuel file (wd ++ r) buf (len data) t win avail (start + len used) (len later)
          (Outcome true (len done) (mz_crc32 0 done)))
    (λ x f', x = Got (Outcome true (len data) (mz_crc32 0 data)) ∧ state (<[r := File data m]> s) D f') f.
Proof.
  intros Hr Hbuf. revert t win avail later used done todo s f.
  induction fuel as [|fuel IH]; intros t win avail later used done todo s f Es Hdec Hwin Ed Hfuel Hs Hst; [lia|].
  destruct (next_chunk buf avail later used Hbuf Es) as (used' & later' & Echunk & Es' & Hnil & En & Em & Hok).
  cbn [inflate_loop out_buf_ofs file_crc32]. cbv zeta in En, Em, Hok, Hnil, Echunk. cbv zeta.
  set (n := if len avail =? 0 then Z.min buf (len later) else 0) in *.
  set (chunk := if len avail =? 0 then mz_zip_file_read_func file (start + len used) n else avail) in *.
  rewrite Hok, Em, En. rewrite Echunk in Hdec. pose proof (len_nonneg done). rewrite land_mod by done.
  destruct (decoding_step t chunk later' done todo win Hdec Hnil Hwin) as (st & t' & u & out & todo' & -> & -> & Hu & Hout & Hcase).
  apply hold_lift.
  pose proof (window_write win done out Hwin Hout) as Hwin'.
  assert (Hlens : (length chunk + length later' = length avail + length later)%nat)
    by (apply (f_equal length) in Echunk; rewrite !length_app in Echunk; lia).
  assert (Hafter : ∀ s' f', s' !! r = Some (File (done ++ out) m) → state s' D f' →
    hold (if goes_on st then
            inflate_loop fuel file (wd ++ r) buf (len data) t' (write_at (len done `mod` TINFL_LZ_DICT_SIZE) out win)
              (drop u chunk) (start + len used') (len later') (Outcome true (len (done ++ out)) (mz_crc32 0 (done ++ out)))
          else lift (Got (Outcome (is_finished st) (len (done ++ out)) (mz_crc32 0 (done ++ out)))))
      (λ x f', x = Got (Outcome true (len data) (mz_crc32 0 data)) ∧ state (<[r := File data m]> s') D f') f').
  { intros s' f' Hs' Hst'. assert (Ed' : data = (done ++ out) ++ todo') by by rewrite Ed, <-app_assoc.
    rewrite length_app in Hfuel. pose proof (length_drop chunk u).
    destruct st; try done; cbn [goes_on is_finished].
    - subst todo'. rewrite app_nil_r in Ed'. rewrite <-Ed' in *. apply (hold_ret _ _ s' D); [done|].
      intros f3 H3. split; [done|]. by rewrite insert_id.
    - destruct Hcase as (Hl & -> & Hdec'). apply (IH _ _ _ _ _ _ todo'); try done.
      + by rewrite drop_ge.
      + destruct chunk; [by destruct (Hl (Hnil eq_refl))|]. cbn [length] in *. lia.
    - destruct Hcase as (Ho & Hdec'). apply (IH _ _ _ _ _ _ todo'); try done.
      unfold TINFL_LZ_DICT_SIZE, len in *. pose proof (Z.mod_pos_bound (Z.of_nat (length done)) 32768 ltac:(lia)). lia. }
  destruct (Z.eqb_spec (len out) 0) as [E0|E0].
  - destruct out; [|unfold len in E0; cbn in E0; lia]. rewrite app_nil_r in Hafter. by apply Hafter.
  - apply (hold_call _ _ _ s D); [done|]. intros f' Hf'.
    destruct (exec_write s D f' r done m (len done) out Hf' Hr Hs) as (f'' & -> & Hg & Hst'').
    exists f'', A_ok. split_and!; [done..|]. rewrite write_at_end in Hst''.
    cbn [out_buf_ofs file_crc32]. rewrite <-len_app, <-crc_app.
    rewrite (proj2 (Z.ltb_ge (len data) _)) by (rewrite Ed, !len_app; pose proof (len_nonneg todo'); lia).
    eapply holds_mono; [apply Hafter; [apply lookup_insert_eq|done]|].
    intros x f3 [-> H3]. split; [done|]. by rewrite insert_insert_eq in H3.
Qed.
End Data.

(** *** Entries *)

Context (es : list zentry) (comment : list Z).
Hypothesis Hf : archive_facts es comment.
Hypothesis streams : ∀ e, e ∈ es → z_isdir e = false → z_method e = MZ_DEFLATED → inflates (z_stream e) (z_data e).

Definition z_tail (e : zentry) : string := if z_isdir e then "/" else "".

Hypothesis dirs_known : ∀ e, e ∈ es → needs (z_path e) (z_tail e).
Hypothesis files_own : ∀ e, e ∈ es → z_isdir e = false → own (z_path e).

(** The mode a file ends with, and what an entry leaves. *)
Definition attr_mode (e : zentry) : Z := Z.land (Z.shiftr (z_xattr e) 16) 0xFFFF.
Definition file_mode (e : zentry) : Z := if 0 <? attr_mode e then perm (attr_mode e) else 420.
Definition unpack (s : gmap (list string) node) (e : zentry) : gmap (list string) node :=
  if z_isdir e then s else <[z_path e := File (z_data e) (file_mode e)]> s.

Lemma tail_cases e : z_tail e = ""%string ∨ z_tail e = "/"%string.
Proof. unfold z_tail. destruct (z_isdir e); auto. Qed.

Lemma join_nul_free l : Forall (λ c, plain c) l → nul_free (join_path l).
Proof.
  induction 1 as [|c l Hc _ IH]; [done|]. destruct (plain_facts c Hc) as (_ & Hn & _). destruct l as [|c' l]; [done|].
  change (join_path (c :: c' :: l)) with (c +:+ "/" +:+ join_path (c' :: l)). rewrite !nul_free_app.
  by rewrite !andb_True.
Qed.

Section OneEntry.
Context (i : nat) (e : zentry).
Hypothesis He : es !! i = Some e.
Notation z := (opened es comment).

Lemma Hin : e ∈ es.
Proof. by eapply list_elem_of_lookup_2. Qed.

Lemma path_ok : entry_path "./" (stat_of es i e) = below (z_path e) (z_tail e).
Proof.
  destruct (entry_facts es comment i e Hf He). unfold entry_path. cbn [stat_of m_filename]. unfold z_bytes. rewrite c_string_bytes.
  - rewrite take_str_all; [done|]. unfold len, z_bytes in zf_name. rewrite string_bytes_length in zf_name.
    unfold MAX_PATH. cbn [String.length]. lia.
  - unfold z_name. rewrite nul_free_app, andb_True. split; [by apply join_nul_free|by destruct (z_isdir e)].
Qed.

(** The contents, into the stream of a file that was just made. *)
Lemma hold_callback m s D f :
  z_isdir e = false → s !! z_path e = Some (File [] m) → state s D f →
  hold (mz_zip_reader_extract_to_callback alloc z (Z.of_nat i) (wd ++ z_path e))
    (λ x f', x = Got tt ∧ state (<[z_path e := File (z_data e) m]> s) D f') f.
Proof.
  intros Hd Hs Hst. destruct (entry_facts es comment i e Hf He). pose proof (files_own e Hin Hd) as Hown. pose proof (len_nonneg (z_stream e)) as Hsn.
  pose proof (data_read es comment i e Hf He) as Hread. unfold mz_zip_reader_extract_to_callback.
  rewrite (entry_checks_ok es comment i e Hf He), Hd. cbn [orb]. apply hold_lift.
  destruct (Z.eqb_spec (len (z_stream e)) 0) as [E0|E0].
  { specialize (zf_empty E0). assert (z_data e = []) as -> by (destruct (z_data e); [done|unfold len in zf_empty; cbn in zf_empty; lia]).
    apply (hold_ret _ _ s D); [done|]. intros f' Hf'. split; [done|]. by rewrite insert_id. }
  cbn [opened m_pState m_pFile m_archive_size]. rewrite (data_ofs_ok es comment i e Hf He). apply hold_lift.
  rewrite memory. apply hold_lift. cbn [stat_of m_method m_comp_size m_uncomp_size m_crc32].
  assert (Hbuf : 0 < Z.min (len (z_stream e)) MZ_ZIP_MAX_IO_BUF_SIZE) by (unfold MZ_ZIP_MAX_IO_BUF_SIZE; lia).
  apply hold_u.
  assert (Hend : ∀ x f', x = Got (Outcome true (len (z_data e)) (mz_crc32 0 (z_data e))) ∧
      state (<[z_path e := File (z_data e) m]> s) D f' →
    ∃ o, x = Got o ∧ hold (lift (check (o_done o && (out_buf_ofs o =? len (z_data e)) &&
        (file_crc32 o =? mz_crc32 MZ_CRC32_INIT (z_data e)))))
      (λ x f', x = Got tt ∧ state (<[z_path e := File (z_data e) m]> s) D f') f').
  { intros x f' [-> H']. eexists. split; [done|]. cbn [o_done out_buf_ofs file_crc32]. rewrite !Z.eqb_refl.
    apply (hold_ret _ _ (<[z_path e := File (z_data e) m]> s) D); auto. }
  destruct (Z.eqb_spec (z_method e) 0) as [Em|Em].
  - eapply holds_mono; [|exact Hend]. rewrite <-(zf_stored Em).
    rewrite <-(Z.add_0_r (data_start es i e)).
    eapply (hold_stored _ (z_stream e) _ Hread _ _ _ [] (z_stream e)); try done. unfold len. lia.
  - rewrite memory. eapply holds_mono; [|exact Hend].
    destruct zf_method as [|Ed]; [done|]. pose proof (streams e Hin Hd Ed) as Hinf.
    rewrite <-(Z.add_0_r (data_start es i e)).
    eapply (hold_inflate _ (z_stream e) _ Hread _ _ _ _ _ _ [] (z_stream e) [] [] (z_data e)); try done.
    unfold inflate_fuel. cbn [stat_of m_comp_size m_uncomp_size length]. unfold len. lia.
Qed.

Lemma hold_to_file s D f :
  z_isdir e = false → s !! z_path e = None → parents D (z_path e) → state s D f →
  hold (mz_zip_reader_extract_to_file alloc z (Z.of_nat i) (below (z_path e) ""))
    (λ x f', x = Got tt ∧ state (<[z_path e := File (z_data e) 420]> s) D f') f.
Proof.
  intros Hd Hs Hp Hst. destruct (entry_facts es comment i e Hf He). pose proof (files_own e Hin Hd) as Hown. unfold mz_zip_reader_extract_to_file.
  rewrite (stat_ok es comment i e Hf He). apply hold_lift. apply (hold_call _ _ _ s D); [done|]. intros f' Hf'.
  destruct (exec_open s D f' (z_path e)) as (f'' & -> & Hg & Hst''); [done..|].
  exists f'', (A_stream (wd ++ z_path e)). split_and!; [done..|]. apply holds_bind; [apply _|].
  eapply holds_mono; [apply (hold_callback 420 (<[z_path e := File [] 420]> s) D); [done|apply lookup_insert_eq|done]|].
  intros x f3 [-> H3]. rewrite insert_insert_eq in H3. apply (hold_call _ _ _ _ _ _ H3). intros f4 H4.
  exists f4, A_ok. split_and!; [unfold exec; by rewrite grants|apply guar_refl|]. apply (hold_ret _ _ _ _ _ H4). auto.
Qed.

Lemma hold_regular s D f :
  (z_isdir e = false → s !! z_path e = None) → way D (z_path e) (z_tail e) → state s D f →
  hold (extract_regular alloc z (Z.of_nat i) (stat_of es i e) (below (z_path e) (z_tail e)))
    (λ x f', x = Got tt ∧ state (unpack s e) D f') f.
Proof.
  intros Hs [Hp Hself] Hst. destruct (entry_facts es comment i e Hf He). unfold extract_regular.
  rewrite (isdir_ok es comment i e Hf He). apply hold_lift. apply hold_u. cbn [stat_of m_external_attr]. fold (attr_mode e).
  unfold unpack, file_mode, z_tail in *. destruct (z_isdir e) eqn:Ed.
  - apply (hold_ret _ _ s D); [done|]. intros f' Hf'. eexists. split; [done|].
    destruct (0 <? attr_mode e); [|apply (hold_ret _ _ s D); auto].
    apply (hold_call _ _ _ s D); [done|]. intros f3 H3.
    destruct (dirs_known e Hin) as [_ Hdir]. unfold z_tail in Hdir. rewrite Ed in Hdir.
    destruct (exec_chmod_dir s D f3 (z_path e) (attr_mode e)) as (f4 & -> & Hg & H4); [auto..|].
    exists f4, A_ok. split_and!; [done..|]. apply (hold_ret _ _ _ _ _ H4). intros f5 (H5 & H6 & H7).
    split; [done|]. split_and!; [done..|]. intros d Hd. apply H7. by right.
  - pose proof (files_own e Hin Ed) as Hown. eapply holds_mono; [apply (hold_to_file s D); auto|].
    intros x f' [-> Hf']. eexists. split; [done|]. destruct (0 <? attr_mode e); [|apply (hold_ret _ _ _ _ _ Hf'); auto].
    apply (hold_call _ _ _ _ _ _ Hf'). intros f3 H3.
    destruct (exec_chmod_file _ _ f3 (z_path e) (z_data e) 420 (attr_mode e) H3) as (f4 & -> & Hg & H4);
      [done..|apply lookup_insert_eq|]. rewrite insert_insert_eq in H4.
    exists f4, A_ok. split_and!; [done..|]. apply (hold_ret _ _ _ _ _ H4). auto.
Qed.

Lemma no_symlink : is_symlink (stat_of es i e) = false.
Proof. exact (zf_nolink e (entry_facts es comment i e Hf He)). Qed.

Lemma hold_mkpath s D f :
  state s D f →
  hold (mkpath (below (z_path e) (z_tail e)))
    (λ ok f', ok = true ∧ ∃ D', state s D' f' ∧ way D' (z_path e) (z_tail e) ∧ ∀ d, d ∈ D → d ∈ D') f.
Proof.
  intros Hst. destruct (entry_facts es comment i e Hf He). unfold mkpath, below.
  change (mkpath_loop "" 0 ("./" +:+ (join_path (z_path e) +:+ z_tail e))) with
    (mkpath_loop "." 1 (String "/" (join_path (z_path e) +:+ z_tail e))).
  rewrite mkpath_slash by (unfold MAX_PATH; lia). apply (hold_call _ _ _ s D); [done|]. intros f' Hf'.
  exists f', A_exist. split_and!; [by apply (exec_mkdir_dot s D)|apply guar_refl|].
  destruct (z_path e) as [|c l] eqn:Ep; [done|].
  apply (hold_mkpath_loop (z_tail e) [] c l); try done.
  - apply tail_cases.
  - cbn [app]. rewrite <-Ep. by apply dirs_known, Hin.
  - intros a b E Ha. destruct a; done.
  - unfold z_bytes, len, z_name in zf_name. rewrite string_bytes_length, Ep in zf_name. fold (z_tail e) in zf_name.
    unfold MAX_PATH. lia.
Qed.

Lemma hold_entry buf s D f :
  (z_isdir e = false → s !! z_path e = None) → state s D f →
  hold (extract_entry alloc None z (Z.of_nat i) "./" buf)
    (λ x f', x = Got buf ∧ ∃ D', state (unpack s e) D' f' ∧ way D' (z_path e) (z_tail e) ∧ ∀ d, d ∈ D → d ∈ D') f.
Proof.
  intros Hs Hst. unfold extract_entry. rewrite (stat_ok es comment i e Hf He). apply hold_lift. rewrite path_ok.
  apply hold_u, holds_bind; [apply _|]. eapply holds_mono; [by apply (hold_mkpath s D)|].
  intros ok f' (-> & D' & Hst' & Hw & Hsub). apply (hold_ret _ _ s D'); [done|]. intros f3 H3. eexists. split; [done|].
  rewrite no_symlink. apply hold_u, hold_u. eapply holds_mono; [by apply (hold_regular s D')|].
  intros x f4 [-> H4]. eexists. split; [done|]. apply (hold_ret _ _ _ _ _ H4). intros f5 H5. eexists. split; [done|].
  apply (hold_ret _ _ _ _ _ H5). intros f6 H6. split; [done|]. by exists D'.
Qed.
End OneEntry.

(** *** The archive *)

Definition file_paths (l : list zentry) : list (list string) := z_path <$> filter (λ e, z_isdir e = false) l.

Lemma hold_loop k l buf s D f :
  drop k es = l → NoDup (file_paths l) → (∀ r, r ∈ file_paths l → s !! r = None) → state s D f →
  hold (extract_loop alloc None (length l) (opened es comment) (Z.of_nat k) "./" buf)
    (λ x f', x = Got tt ∧ ∃ D', state (foldl unpack s l) D' f' ∧ (∀ e, e ∈ l → way D' (z_path e) (z_tail e)) ∧
       ∀ d, d ∈ D → d ∈ D') f.
Proof.
  revert k buf s D f. induction l as [|e l IH]; intros k buf s D f Hl Hnd Hnone Hst; cbn [length extract_loop].
  { apply (hold_ret _ _ s D); [done|]. intros f' Hf'. split; [done|]. exists D. split_and!; [done| |done].
    intros e He. by apply elem_of_nil in He. }
  assert (He : es !! k = Some e) by by rewrite <-(Nat.add_0_r k), <-lookup_drop, Hl.
  assert (Hpaths : file_paths (e :: l) = if z_isdir e then file_paths l else z_path e :: file_paths l).
  { unfold file_paths. rewrite filter_cons. by destruct (z_isdir e). }
  apply hold_u. eapply holds_mono; [apply (hold_entry k e He buf s D); [|done]|].
  { intros Ed. apply Hnone. rewrite Hpaths, Ed. by left. }
  intros x f' (-> & D' & Hst' & Hw & Hsub). eexists. split; [done|].
  replace (Z.of_nat k + 1) with (Z.of_nat (S k)) by lia.
  eapply holds_mono; [apply (IH (S k) buf (unpack s e) D')|].
  - replace (S k) with (k + 1)%nat by lia. by rewrite <-drop_drop, Hl.
  - rewrite Hpaths in Hnd. destruct (z_isdir e); [done|by apply NoDup_cons in Hnd as [_ Hnd]].
  - intros r Hr. unfold unpack. rewrite Hpaths in Hnd, Hnone. destruct (z_isdir e); [by apply Hnone|].
    apply NoDup_cons in Hnd as [Hn _]. rewrite lookup_insert_ne by (intros E; apply Hn; by rewrite E). apply Hnone. by right.
  - done.
  - intros x f3 (-> & D'' & H3 & Hw3 & Hsub3). split; [done|]. exists D''. split_and!; [done| |auto].
    intros e' [->|He']%elem_of_cons; [|auto]. destruct Hw as [Hw1 Hw2]. split; [|auto].
    intros l1 l2 E H1 H2. apply Hsub3. by apply (Hw1 l1 l2).
Qed.

(** *** [zip_extract] *)

Lemma hold_zip_extract jar s f :
  (∀ f', rely f f' → exec sys f' (C_open_rb jar) = (f', A_bytes (archive es comment))) →
  NoDup (file_paths es) → (∀ r, r ∈ file_paths es → s !! r = None) → state s [] f →
  hold (zip_extract alloc None jar ".")
    (λ x f', x = Got 0 ∧ ∃ D, state (foldl unpack s es) D f' ∧ ∀ e, e ∈ es → way D (z_path e) (z_tail e)) f.
Proof.
  intros Hopen Hnd Hnone Hst. unfold zip_extract. cbn [String.length]. change (MAX_PATH <? _) with false. cbv iota.
  apply holds_call. intros f' Hr. exists f', (A_bytes (archive es comment)). split_and!; [by apply Hopen|apply guar_refl|].
  rewrite init_file_ok by done. change (String.eqb "." "") with false. cbv iota. change (ends_slash ".") with false. cbv iota.
  apply holds_bind; [apply _|]. cbn [mz_zip_reader_get_num_files opened m_total_files]. rewrite Nat2Z.id.
  eapply holds_mono; [apply (hold_loop 0 es [] s [] f'); [done..|]|].
  { by apply (state_rely s [] f). }
  intros x f3 (-> & D & H3 & Hw & _). apply (hold_ret _ _ _ _ _ H3). intros f4 H4. split; [done|]. by exists D.
Qed.
End Worker.
