(* ===== verification/Unpacked.v ===== *)
(** * Jars unpacked side by side

    The linker's pool unpacks all jars into one directory at the same time.  For jars that
    have no file in common every schedule ends with the same tree. *)
From stdpp Require Import strings gmap list numbers.
From Stdlib Require Import Ascii.
From S2P Require Import Prelude CString FileSys ZipReader ZipCrc Unzip ZipFormat UnzipProofs.
Local Open Scope Z_scope.

(** A jar on the command line. *)
Record jar := Jar { j_file : string; j_entries : list zentry; j_comment : list Z }.

Definition j_bytes (j : jar) : list Z := archive (j_entries j) (j_comment j).

(** The directories an entry needs. *)
Definition entry_dirs (e : zentry) : list (list string) :=
  (λ k, take k (z_path e)) <$> seq 1 (length (z_path e) - (if z_isdir e then 0 else 1)).

Definition all_files (js : list jar) : list (list string) := concat ((λ j, file_paths (j_entries j)) <$> js).
Definition all_dirs (js : list jar) : list (list string) := concat ((λ j, concat (entry_dirs <$> j_entries j)) <$> js).

(** Good archives with distinct files, none of them a directory too. *)
Definition jars_ok (js : list jar) : bool :=
  forallb (λ j, archive_ok (j_entries j) (j_comment j)) js &&
  bool_decide (NoDup (all_files js)) && forallb (λ r, negb (bool_decide (r ∈ all_dirs js))) (all_files js).

(** The program of one job. *)
Definition unzip_job `{Inflator} (alloc : Z → bool) (j : jar) : prog (read Z) := zip_extract alloc None (j_file j) ".".

(** A jar lies outside the directory, and the way to it has no links. *)
Definition jar_there (sys : system_env) (f : tree) (j : jar) : Prop :=
  ∃ l m, j_file j = "/" +:+ join_path l ∧ l ≠ [] ∧ Forall (λ c, plain c) l ∧
    (∀ l1 l2, l = l1 ++ l2 → l1 ≠ [] → l2 ≠ [] → is_dir (f !! l1)) ∧
    f !! l = Some (File (j_bytes j) m) ∧ outside sys l.

(** The work directory is empty and the jars are there. *)
Record ready (sys : system_env) (js : list jar) (f : tree) : Prop := {
  rd_wd : is_dir (f !! cwd sys);
  rd_empty : ∀ r, r ≠ [] → f !! (cwd sys ++ r) = None;
  rd_jars : ∀ j, j ∈ js → jar_there sys f j
}.

(** The tree with everything unpacked. *)
Record unpacked (sys : system_env) (js : list jar) (f f' : tree) : Prop := {
  up_outside : ∀ k, outside sys k → f' !! k = f !! k;
  up_files : ∀ j e, j ∈ js → e ∈ j_entries j → z_isdir e = false →
    f' !! (cwd sys ++ z_path e) = Some (File (z_data e) (file_mode e));
  up_dirs : ∀ r, r ∈ all_dirs js → is_dir (f' !! (cwd sys ++ r));
  up_only : ∀ r, r ≠ [] → r ∉ all_files js → r ∉ all_dirs js → f' !! (cwd sys ++ r) = None
}.

(** ** What an archive leaves *)

Lemma file_paths_elem es r : r ∈ file_paths es ↔ ∃ e, e ∈ es ∧ z_isdir e = false ∧ r = z_path e.
Proof.
  unfold file_paths. rewrite list_elem_of_fmap. split.
  - intros (e & -> & [Hd He]%list_elem_of_filter). by exists e.
  - intros (e & He & Hd & ->). exists e. split; [done|]. by apply list_elem_of_filter.
Qed.

Lemma unpack_other es s r : r ∉ file_paths es → foldl unpack s es !! r = s !! r.
Proof.
  revert s. induction es as [|e es IH]; intros s Hr; [done|]. cbn [foldl]. unfold file_paths in *. rewrite filter_cons in Hr.
  unfold unpack at 2. destruct (z_isdir e) eqn:Ed; [by apply IH|]. cbn in Hr. apply not_elem_of_cons in Hr as [Hne Hr].
  rewrite IH by done. by apply lookup_insert_ne.
Qed.

Lemma unpack_file es s e :
  NoDup (file_paths es) → e ∈ es → z_isdir e = false →
  foldl unpack s es !! z_path e = Some (File (z_data e) (file_mode e)).
Proof.
  revert s. induction es as [|e' es IH]; intros s Hnd He Hd; [by apply elem_of_nil in He|]. cbn [foldl].
  assert (Hp : file_paths (e' :: es) = if z_isdir e' then file_paths es else z_path e' :: file_paths es).
  { unfold file_paths. rewrite filter_cons. by destruct (z_isdir e'). }
  rewrite Hp in Hnd. apply elem_of_cons in He as [->|He].
  - unfold unpack at 2. rewrite Hd in Hnd |- *. apply NoDup_cons in Hnd as [Hn _].
    rewrite unpack_other by done. apply lookup_insert_eq.
  - apply IH; [|done..]. destruct (z_isdir e'); [done|]. by apply NoDup_cons in Hnd as [_ Hnd].
Qed.

Lemma elem_of_concat {A} (ls : list (list A)) x : x ∈ concat ls ↔ ∃ l, l ∈ ls ∧ x ∈ l.
Proof.
  rewrite list_elem_of_In, in_concat. split; intros (l & H1 & H2); exists l; rewrite ?list_elem_of_In in *; done.
Qed.

Lemma concat_NoDup_index {A} (ls : list (list A)) i j a b x :
  NoDup (concat ls) → ls !! i = Some a → ls !! j = Some b → x ∈ a → x ∈ b → i = j.
Proof.
  revert i j. induction ls as [|l ls IH]; intros [|i] [|j] Hnd Hi Hj Ha Hb; try done; cbn in Hnd, Hi, Hj;
    apply NoDup_app in Hnd as (_ & Hx & Hnd).
  - injection Hi as <-. destruct (Hx x Ha). apply elem_of_concat. exists b. split; [by eapply list_elem_of_lookup_2|done].
  - injection Hj as <-. destruct (Hx x Hb). apply elem_of_concat. exists a. split; [by eapply list_elem_of_lookup_2|done].
  - f_equal. by apply (IH i j).
Qed.

Lemma NoDup_concat_elem {A} (ls : list (list A)) l : NoDup (concat ls) → l ∈ ls → NoDup l.
Proof.
  induction ls as [|x ls IH]; [by intros _ ?%elem_of_nil|]. cbn. intros (H1 & _ & H2)%NoDup_app [->|Hl]%elem_of_cons; auto.
Qed.

Lemma entry_dirs_elem e r :
  r ∈ entry_dirs e ↔ ∃ l, z_path e = r ++ l ∧ r ≠ [] ∧ (l ≠ [] ∨ z_isdir e = true).
Proof.
  unfold entry_dirs. rewrite list_elem_of_fmap. split.
  - intros (k & -> & Hk%elem_of_seq). exists (drop k (z_path e)). rewrite take_drop. split_and!; [done| |].
    + intros E%(f_equal length). rewrite length_take in E. cbn in E. destruct (z_isdir e); lia.
    + destruct (z_isdir e) eqn:Ed; [by right|left]. intros E%(f_equal length). rewrite length_drop in E. cbn in E. lia.
  - intros (l & E & Hr & Hl). exists (length r). rewrite E, take_app_length. split; [done|]. apply elem_of_seq.
    rewrite length_app. destruct r; [done|]. cbn [length]. destruct (z_isdir e) eqn:Ed; [lia|].
    destruct Hl as [Hl|]; [|done]. destruct l; [done|]. cbn [length]. lia.
Qed.

(** ** All jobs at once *)

Section Jobs.
Context `{Inflator} {HI : InflatorLaws} (alloc : Z → bool) (sys : system_env) (js : list jar) (f0 : tree).
Hypothesis memory : ∀ n, alloc n = true.
Hypothesis grants : ∀ c, refuses sys c = false.
Hypothesis Hok : jars_ok js.
Hypothesis streams : ∀ j e, j ∈ js → e ∈ j_entries j → z_isdir e = false → z_method e = MZ_DEFLATED →
  inflates (z_stream e) (z_data e).
Hypothesis Hready : ready sys js f0.

Definition dirs (r : list string) : Prop := r ∈ all_dirs js.
Definition files (r : list string) : Prop := r ∈ all_files js.
(** The files of job [i]. *)
Definition owns (i : nat) (r : list string) : Prop := ∃ j, js !! i = Some j ∧ r ∈ file_paths (j_entries j).

Lemma jars_facts :
  (∀ j, j ∈ js → archive_facts (j_entries j) (j_comment j)) ∧ NoDup (all_files js) ∧ (∀ r, dirs r → files r → False).
Proof.
  unfold jars_ok in Hok. apply Is_true_true in Hok. rewrite !andb_true_iff in Hok. destruct Hok as [[H1 H2] H3]. split_and!.
  - intros j Hj. apply archive_ok_facts, Is_true_true. rewrite forallb_forall in H1. by apply H1, list_elem_of_In.
  - by apply bool_decide_eq_true in H2.
  - intros r Hd Hr. rewrite forallb_forall in H3. specialize (H3 r). rewrite bool_decide_true in H3 by done.
    discriminate H3. by apply list_elem_of_In.
Qed.

Lemma owns_files i r : owns i r → files r.
Proof.
  intros (j & Hj & Hr). unfold files, all_files. apply list_elem_of_In, in_concat. exists (file_paths (j_entries j)).
  split; apply list_elem_of_In; [|done]. apply list_elem_of_fmap. exists j. split; [done|]. by eapply list_elem_of_lookup_2.
Qed.

(** Different jobs have different files. *)
Lemma owns_apart i i' r : owns i r → owns i' r → i = i'.
Proof.
  intros (j & Hj & Hr) (j' & Hj' & Hr'). destruct jars_facts as (_ & Hnd & _). unfold all_files in Hnd.
  eapply (concat_NoDup_index _ i i' _ _ r Hnd); [by rewrite list_lookup_fmap, Hj|by rewrite list_lookup_fmap, Hj'|done..].
Qed.

Lemma files_elem r : files r ↔ ∃ j e, j ∈ js ∧ e ∈ j_entries j ∧ z_isdir e = false ∧ r = z_path e.
Proof.
  unfold files, all_files. rewrite elem_of_concat. split.
  - intros (l & (j & -> & Hj)%list_elem_of_fmap & (e & He & Hd & ->)%file_paths_elem). by exists j, e.
  - intros (j & e & Hj & He & Hd & ->). exists (file_paths (j_entries j)). split; [by apply (list_elem_of_fmap_2 (λ j, file_paths (j_entries j)))|].
    apply file_paths_elem. by exists e.
Qed.

Lemma dirs_elem r : dirs r ↔ ∃ j e l, j ∈ js ∧ e ∈ j_entries j ∧ z_path e = r ++ l ∧ r ≠ [] ∧ (l ≠ [] ∨ z_isdir e = true).
Proof.
  unfold dirs, all_dirs. rewrite elem_of_concat. split.
  - intros (x & (j & -> & Hj)%list_elem_of_fmap & Hr). apply elem_of_concat in Hr as (y & (e & -> & He)%list_elem_of_fmap & Hr).
    apply entry_dirs_elem in Hr as (l & H1 & H2 & H3). by exists j, e, l.
  - intros (j & e & l & Hj & He & H1 & H2 & H3). exists (concat (entry_dirs <$> j_entries j)).
    split; [by apply (list_elem_of_fmap_2 (λ j, concat (entry_dirs <$> j_entries j)))|].
    apply elem_of_concat. exists (entry_dirs e). split; [by apply list_elem_of_fmap_2|]. apply entry_dirs_elem. by exists l.
Qed.

Lemma files_below r : files r → r ≠ [].
Proof.
  intros (j & e & Hj & He & _ & ->)%files_elem. destruct jars_facts as (Hf & _). specialize (Hf j Hj) as [Hes _ _ _ _].
  rewrite Forall_forall in Hes. apply (zf_path e (Hes e He)).
Qed.

Lemma dirs_below r : dirs r → r ≠ [].
Proof. by intros (_ & _ & _ & _ & _ & _ & ? & _)%dirs_elem. Qed.

Lemma entry_needs j e : j ∈ js → e ∈ j_entries j → needs dirs (z_path e) (z_tail e).
Proof.
  intros Hj He. split.
  - intros l1 l2 E H1 H2. apply dirs_elem. exists j, e, l2. split_and!; auto.
  - unfold z_tail. destruct (z_isdir e) eqn:Ed; [|done]. intros _. destruct jars_facts as (Hf & _).
    specialize (Hf j Hj) as [Hes _ _ _ _]. rewrite Forall_forall in Hes. pose proof (zf_path e (Hes e He)).
    apply dirs_elem. exists j, e, []. rewrite app_nil_r. split_and!; auto.
Qed.

Notation R i := (rely sys dirs files (owns i)).
Notation G i := (guar sys dirs files (owns i)).

(** The jar can be opened whatever the others do. *)
Lemma open_jar j f f' :
  jar_there sys f j → (∀ k, outside sys k → f' !! k = f !! k) →
  exec sys f' (C_open_rb (j_file j)) = (f', A_bytes (j_bytes j)).
Proof.
  intros (l & m & -> & Hne & Hl & Hd & Hfile & Hout) Hsame. unfold exec. rewrite grants.
  assert (Hpre : ∀ l1 l2, l = l1 ++ l2 → f' !! l1 = f !! l1).
  { intros l1 l2 E. apply Hsame. intros r Hr E'. apply (Hout (r ++ l2)); [by destruct r|]. by rewrite E, E', <-app_assoc. }
  assert (resolve f' (cwd sys) true ("/" +:+ join_path l) = Some l) as ->.
  { unfold resolve. change (String.eqb ("/" +:+ join_path l) "") with false. cbv iota.
    change (split_path ("/" +:+ join_path l)) with (split_go "" (join_path l)).
    rewrite <-(string_app_nil_r (join_path l)), split_path_join by (done || by left).
    change (is_absolute _) with true. cbv iota. apply (walk_plain _ _ _ [] l); [done| |].
    - intros l1 l2 E H1 H2. cbn [app]. rewrite (Hpre l1 l2 E). by apply (Hd l1 l2).
    - intros t. cbn [app]. rewrite (Hpre l []) by by rewrite app_nil_r. by rewrite Hfile. }
  rewrite (Hpre l []) by by rewrite app_nil_r. rewrite Hfile. f_equal.
  pose proof (below_no_slash l Hne Hl) as Hs. unfold below in Hs. rewrite string_app_nil_r in Hs.
  change ("./" +:+ join_path l) with (String "." ("/" +:+ join_path l)) in Hs. cbn [ends_slash] in Hs.
  destruct ("/" +:+ join_path l) eqn:E; [done|]. by rewrite Hs.
Qed.

Lemma start_shape : shape sys dirs files f0.
Proof.
  destruct Hready. split; [done|]. intros r n Hr E. by rewrite rd_empty0 in E.
Qed.

(** Every job keeps its promise. *)
Lemma job_holds i j :
  js !! i = Some j →
  holds sys (R i) (G i) (unzip_job alloc j)
    (λ x f', x = Got 0 ∧ ∃ D, state sys dirs files (owns i) (foldl unpack ∅ (j_entries j)) D f' ∧
       ∀ e, e ∈ j_entries j → way D (z_path e) (z_tail e)) f0.
Proof.
  intros Hj. assert (Hin : j ∈ js) by by eapply list_elem_of_lookup_2.
  destruct jars_facts as (Hf & Hnd & Hap). destruct Hready.
  apply (hold_zip_extract sys dirs files (owns i)) with (HI := HI) (comment := j_comment j); try done.
  - apply owns_files.
  - apply dirs_below.
  - apply files_below.
  - by apply Hf.
  - intros e He. by apply (streams j).
  - intros e He. by apply (entry_needs j).
  - intros e He Hd. exists j. split; [done|]. apply file_paths_elem. by exists e.
  - intros f' Hr. apply (open_jar j f0); [auto|]. apply Hr.
  - unfold all_files in Hnd. apply (NoDup_concat_elem _ _ Hnd). by apply (list_elem_of_fmap_2 (λ j, file_paths (j_entries j))).
  - split_and!; [apply start_shape| |intros d Hd; by apply elem_of_nil in Hd].
    intros r Hr. rewrite lookup_empty. apply rd_empty0, files_below. by eapply owns_files.
Qed.

Definition job_post (i : nat) (x : read Z) (f : tree) : Prop :=
  ∀ j, js !! i = Some j → x = Got 0 ∧
    ∃ D, state sys dirs files (owns i) (foldl unpack ∅ (j_entries j)) D f ∧
      ∀ e, e ∈ j_entries j → way D (z_path e) (z_tail e).

Definition jobs_start : crew (read Z) := (unzip_job alloc <$> js, f0).

Lemma jobs_hold : crew_holds sys (λ i, R i) (λ i, G i) job_post jobs_start.
Proof.
  intros i p Hp. cbn in Hp. rewrite list_lookup_fmap in Hp. destruct (js !! i) as [j|] eqn:Hj; [|done].
  injection Hp as <-. eapply holds_mono; [by apply job_holds|]. intros x f' Hx j' Hj'. rewrite Hj in Hj'. by injection Hj' as <-.
Qed.

Lemma jobs_compatible i i' f f' : i ≠ i' → G i f f' → R i' f f'.
Proof.
  intros Hne []. constructor; [done| |done|done]. intros r Hr. apply gu_others; [by eapply owns_files|].
  intros Hr'. apply Hne. by eapply owns_apart.
Qed.

Lemma crew_length {A} (w w' : crew A) : rtc (crew_step sys) w w' → length w'.1 = length w.1.
Proof. induction 1 as [|w w1 w' Hs _ IH]; [done|]. rewrite IH. destruct Hs. cbn. by rewrite length_insert. Qed.

(** What the whole run keeps. *)
Definition whole (f f' : tree) : Prop :=
  (∀ k, outside sys k → f' !! k = f !! k) ∧ (shape sys dirs files f → shape sys dirs files f').

#[local] Instance whole_preorder : PreOrder whole.
Proof.
  split; [done|]. intros f g h [H1 H2] [H3 H4]. split; [|auto]. intros k Hk. by rewrite H3, H1.
Qed.

(** Every schedule unpacks everything. *)
Lemma jobs_unpack w :
  rtc (crew_step sys) jobs_start w → crew_done w →
  length w.1 = length js ∧ (∀ p, p ∈ w.1 → p = Ret (Got 0)) ∧ unpacked sys js f0 w.2.
Proof.
  intros Hr Hd. pose proof (crew_length _ _ Hr) as Hlen. cbn in Hlen. rewrite length_fmap in Hlen.
  assert (HT : whole f0 w.2).
  { apply (crew_whole sys (λ i, R i) (λ i, G i) job_post jobs_compatible whole _ _ ) with (2 := Hr); [|apply jobs_hold].
    by intros i f f' []. }
  destruct HT as [Hout Hshape]. specialize (Hshape start_shape).
  assert (Hpost : ∀ i j, js !! i = Some j → w.1 !! i = Some (Ret (Got 0)) ∧
    ∃ D, state sys dirs files (owns i) (foldl unpack ∅ (j_entries j)) D w.2 ∧
      ∀ e, e ∈ j_entries j → way D (z_path e) (z_tail e)).
  { intros i j Hj. destruct (lookup_lt_is_Some_2 w.1 i) as [p Hp]; [rewrite Hlen; by eapply lookup_lt_Some|].
    destruct (Hd p) as [a ->]; [by eapply list_elem_of_lookup_2|].
    pose proof (crew_holds_reach sys (λ i, R i) (λ i, G i) job_post jobs_compatible _ _ Hr jobs_hold) as Hh.
    destruct (crew_holds_done sys (λ i, R i) (λ i, G i) job_post w i a Hh Hp j Hj) as [-> HD]. done. }
  split_and!; [done| |constructor].
  - intros p [i Hi]%list_elem_of_lookup. destruct (lookup_lt_is_Some_2 js i) as [j Hj]; [rewrite <-Hlen; by eapply lookup_lt_Some|].
    destruct (Hpost i j Hj) as [Hi' _]. congruence.
  - done.
  - intros j e [i Hj]%list_elem_of_lookup He Hdir. destruct (Hpost i j Hj) as (_ & D & (_ & Hs & _) & _).
    rewrite Hs by (exists j; split; [done|]; apply file_paths_elem; by exists e). apply unpack_file; [|done..].
    destruct jars_facts as (_ & Hnd & _). apply (NoDup_concat_elem _ _ Hnd).
    apply (list_elem_of_fmap_2 (λ j, file_paths (j_entries j))). by eapply list_elem_of_lookup_2.
  - intros r (j & e & l & [i Hj]%list_elem_of_lookup & He & E & Hr' & Hl)%dirs_elem.
    destruct (Hpost i j Hj) as (_ & D & (_ & _ & HD) & Hw). destruct (Hw e He) as [Hp Hself]. apply HD.
    destruct l as [|c l]; [|by apply (Hp r (c :: l))]. rewrite app_nil_r in E. rewrite <-E.
    destruct Hl as [|Hl]; [done|]. apply Hself. unfold z_tail. by rewrite Hl.
  - intros r Hr' Hf Hdd. destruct (w.2 !! (cwd sys ++ r)) as [n|] eqn:E; [|done].
    apply (sh_node _ _ _ _ Hshape) in E; [|done]. by destruct n.
Qed.
End Jobs.
