(* ===== verification/ZipSafe.v ===== *)
(** * Archives nobody can trust

    For arbitrary file contents the reader never leaves its buffers, and its search for the
    end record ends. *)
From stdpp Require Import strings gmap list numbers.
From Stdlib Require Import Ascii ZifyBool.
From S2P Require Import Prelude CString FileSys ZipReader ZipSort ZipCrc Unzip ZipFormat.
Local Open Scope Z_scope.

(** ** Results within bounds *)

Definition safe {A} (r : read A) (P : A → Prop) : Prop :=
  match r with Got a => P a | MZ_FALSE => True | OutOfBounds | Endless => False end.

Lemma safe_bind {A B} (r : read A) (h : A → read B) P : safe r (λ a, safe (h a) P) → safe (r ≫= h) P.
Proof. by destruct r. Qed.

Lemma safe_check b {B} (h : unit → read B) P : (b = true → safe (h tt) P) → safe (check b ≫= h) P.
Proof. destruct b; cbn; auto. Qed.

Lemma safe_mono {A} (r : read A) (P Q : A → Prop) : safe r P → (∀ a, P a → Q a) → safe r Q.
Proof. destruct r; cbn; auto. Qed.

(** ** Bytes *)

Definition bytes_ok (l : list Z) : Prop := Forall (λ b, 0 ≤ b < 256) l.

Lemma bytes_sub l ofs n : bytes_ok l → bytes_ok (sub l ofs n).
Proof. intros H. by apply Forall_take, Forall_drop. Qed.

Lemma len_sub l ofs n : 0 ≤ n → len (sub l ofs n) ≤ n.
Proof. intros Hn. unfold sub, len. rewrite length_take. lia. Qed.

Lemma safe_rd8 l ofs : bytes_ok l → 0 ≤ ofs < len l → safe (rd8 l ofs) (λ b, 0 ≤ b < 256).
Proof.
  intros Hl Ho. unfold rd8. rewrite (proj2 (Z.ltb_ge _ 0)) by lia. destruct (lookup_lt_is_Some_2 l (Z.to_nat ofs)) as [b Hb]; [unfold len in *; lia|].
  rewrite Hb. cbn. by apply (Forall_lookup_1 _ _ _ _ Hl Hb).
Qed.

Lemma lor_bound a b n : 0 ≤ a < 2 ^ n → 0 ≤ b < 256 → 0 ≤ n → 0 ≤ Z.lor a (Z.shiftl b n) < 2 ^ (n + 8).
Proof.
  intros Ha Hb Hn. rewrite lor_shiftl_add by done. rewrite Z.pow_add_r by lia. change (2 ^ 8) with 256.
  assert (0 < 2 ^ n) by lia. nia.
Qed.

Lemma safe_LE16 l ofs : bytes_ok l → 0 ≤ ofs → ofs + 2 ≤ len l → safe (MZ_READ_LE16 l ofs) (λ v, 0 ≤ v < 65536).
Proof.
  intros Hl H1 H2. unfold MZ_READ_LE16. apply safe_bind. eapply safe_mono; [apply safe_rd8; [done|lia]|]. intros a Ha.
  apply safe_bind. eapply safe_mono; [apply safe_rd8; [done|lia]|]. intros b Hb. by apply (lor_bound a b 8).
Qed.

Lemma safe_LE32 l ofs : bytes_ok l → 0 ≤ ofs → ofs + 4 ≤ len l → safe (MZ_READ_LE32 l ofs) (λ v, 0 ≤ v < 2 ^ 32).
Proof.
  intros Hl H1 H2. unfold MZ_READ_LE32. apply safe_bind. eapply safe_mono; [apply safe_rd8; [done|lia]|]. intros a Ha.
  apply safe_bind. eapply safe_mono; [apply safe_rd8; [done|lia]|]. intros b Hb.
  apply safe_bind. eapply safe_mono; [apply safe_rd8; [done|lia]|]. intros c Hc.
  apply safe_bind. eapply safe_mono; [apply safe_rd8; [done|lia]|]. intros d Hd. cbn.
  apply (lor_bound _ d 24); [|done|done]. apply (lor_bound _ c 16); [|done|done]. by apply (lor_bound a b 8).
Qed.

Lemma read_func_bytes l ofs n : bytes_ok l → bytes_ok (mz_zip_file_read_func l ofs n).
Proof. intros H. unfold mz_zip_file_read_func. destruct (_ <? _); [constructor|by apply bytes_sub]. Qed.

Ltac step := apply safe_bind; eapply safe_mono.

(** ** The end record *)

Lemma safe_find_sig l k : bytes_ok l → k = O ∨ Z.of_nat k + 3 ≤ len l → safe (find_sig l k) (λ _, True).
Proof.
  intros Hl. induction k as [|k IH]; intros Hk; [done|]. cbn [find_sig].
  step; [apply safe_LE32; [done|lia|lia]|]. intros x _. destruct (_ =? _); [done|]. apply IH. lia.
Qed.

Lemma u64_neg z : - 2 ^ 63 ≤ z < 0 → u64 z = z + 2 ^ 64 ∧ i64 (u64 z) = z.
Proof.
  intros Hz. assert (E : u64 z = z + 2 ^ 64).
  { unfold u64. symmetry. apply Z.mod_unique_pos with (-1); lia. }
  split; [done|]. rewrite E. unfold i64. rewrite (proj2 (Z.ltb_ge _ _)) by lia. lia.
Qed.

(** The rounds suffice: the distance from the end grows by 4093 a round, and an offset
    that went below zero cannot be read. *)
Lemma safe_find_eocd fuel file size cur :
  bytes_ok file → 0 ≤ size < 2 ^ 62 → - 2 ^ 62 < cur ≤ size → (0 < fuel)%nat →
  cur ≤ 0 ∨ 0xFFFF + 22 ≤ size - cur + 4093 * (Z.of_nat fuel - 1) →
  safe (find_eocd fuel file size cur) (λ _, True).
Proof.
  intros Hf Hs. revert cur. induction fuel as [|fuel IH]; intros cur Hc Hpos Hfuel; [lia|]. cbn [find_eocd].
  set (n := Z.min SCAN_BUF (u64 (size - cur))). set (pBuf := mz_zip_file_read_func file (u64 cur) n).
  apply safe_check. intros Hn. apply Z.eqb_eq in Hn.
  destruct (u64_small (size - cur)) as (Hsc & _); [lia|].
  destruct (Z.lt_ge_cases cur 0) as [Hneg|Hge].
  { exfalso. destruct (u64_neg cur) as [_ Hi]; [lia|]. unfold pBuf, mz_zip_file_read_func in Hn. rewrite Hi in Hn.
    rewrite (proj2 (Z.ltb_lt _ _)) in Hn by lia. change (len []) with 0 in Hn. unfold n, SCAN_BUF in Hn. lia. }
  step; [apply safe_find_sig; [by apply read_func_bytes|]|].
  { fold pBuf. rewrite Hn. lia. }
  intros [i|] _; [done|]. apply safe_check. rewrite Hsc. intros Hgo.
  unfold MZ_ZIP_END_OF_CENTRAL_DIR_HEADER_SIZE in Hgo. unfold SCAN_BUF.
  destruct (Z.lt_ge_cases (cur - (4096 - 3)) 0) as [Hlow|Hlow].
  - destruct (u64_neg (cur - (4096 - 3))) as [Hu Hi]; [lia|]. rewrite Z.max_l by (rewrite Hu; lia). rewrite Hi. apply IH; lia.
  - destruct (u64_small (cur - (4096 - 3))) as (Hu & Hi & _); [lia|]. rewrite Z.max_l by (rewrite Hu; lia). rewrite Hi. apply IH; lia.
Qed.

(** ** The central directory *)

(** A record and its variable parts lie within the directory. *)
Definition record_in (cdir : list Z) (p : Z) : Prop :=
  0 ≤ p ∧ ∃ a b c, 0 ≤ a ∧ 0 ≤ b ∧ 0 ≤ c ∧
    MZ_READ_LE16 cdir (p + MZ_ZIP_CDH_FILENAME_LEN_OFS) = Got a ∧
    MZ_READ_LE16 cdir (p + MZ_ZIP_CDH_EXTRA_LEN_OFS) = Got b ∧
    MZ_READ_LE16 cdir (p + MZ_ZIP_CDH_COMMENT_LEN_OFS) = Got c ∧ p + 46 + a + b + c ≤ len cdir.

Lemma safe_eq {A} (r : read A) P : safe r P → safe r (λ a, P a ∧ r = Got a).
Proof. by destruct r. Qed.

(** A field of a record. *)
Ltac unfold_ofs := unfold MZ_ZIP_CDH_VERSION_MADE_BY_OFS, MZ_ZIP_CDH_VERSION_NEEDED_OFS, MZ_ZIP_CDH_BIT_FLAG_OFS,
  MZ_ZIP_CDH_METHOD_OFS, MZ_ZIP_CDH_CRC32_OFS, MZ_ZIP_CDH_COMPRESSED_SIZE_OFS, MZ_ZIP_CDH_DECOMPRESSED_SIZE_OFS,
  MZ_ZIP_CDH_FILENAME_LEN_OFS, MZ_ZIP_CDH_EXTRA_LEN_OFS, MZ_ZIP_CDH_COMMENT_LEN_OFS, MZ_ZIP_CDH_DISK_START_OFS,
  MZ_ZIP_CDH_INTERNAL_ATTR_OFS, MZ_ZIP_CDH_EXTERNAL_ATTR_OFS, MZ_ZIP_CDH_LOCAL_HEADER_OFS,
  MZ_ZIP_CENTRAL_DIR_HEADER_SIZE in *.
Ltac fld := step; [first [apply safe_LE16|apply safe_LE32]; [done|unfold_ofs; lia|unfold_ofs; lia]|].

Lemma safe_read_header cdir size disk p n :
  bytes_ok cdir → 0 ≤ p → p + n = len cdir →
  safe (read_header cdir size disk p n) (λ h, 46 ≤ h ≤ n ∧ record_in cdir p).
Proof.
  intros Hb Hp Hn. unfold read_header. apply safe_check. intros H46%Z.leb_le.
  step; [apply safe_LE32; [done|lia|unfold_ofs; lia]|]. intros sig _. apply safe_check. intros _.
  fld. intros comp _. fld. intros decomp _. fld. intros m _. apply safe_check. intros _. fld. intros d _.
  apply safe_check. intros _. fld. intros lofs _. apply safe_check. intros _.
  step; [apply safe_eq, safe_LE16; [done|unfold_ofs; lia|unfold_ofs; lia]|]. intros a [Ha Ea].
  step; [apply safe_eq, safe_LE16; [done|unfold_ofs; lia|unfold_ofs; lia]|]. intros b [Hb' Eb].
  step; [apply safe_eq, safe_LE16; [done|unfold_ofs; lia|unfold_ofs; lia]|]. intros c [Hc Ec].
  cbv zeta. apply safe_check. intros Hle. cbn [safe]. unfold_ofs. split; [lia|]. split; [done|]. exists a, b, c.
  split_and!; try lia; done.
Qed.

Lemma safe_read_headers k cdir size disk p n :
  bytes_ok cdir → 0 ≤ p → p + n = len cdir →
  safe (read_headers k cdir size disk p n) (λ l, length l = k ∧ Forall (record_in cdir) l).
Proof.
  intros Hb. revert p n. induction k as [|k IH]; intros p n Hp Hn; [by cbn|]. cbn [read_headers].
  step; [by apply safe_read_header|]. intros h [Hh Hr]. step; [apply (IH (p + h) (n - h)); lia|].
  intros l [Hl HF]. cbn. split; [by rewrite Hl|by constructor].
Qed.

Lemma record_name cdir p : record_in cdir p → name_in cdir p.
Proof.
  intros (Hp & a & b & c & Ha & Hb & Hc & Ea & _ & _ & Hin). split; [done|]. exists a. split_and!; [done..|].
  unfold MZ_ZIP_CENTRAL_DIR_HEADER_SIZE. lia.
Qed.

(** The sort of the names. *)
Lemma safe_sort cdir l :
  Forall (record_in cdir) l →
  safe (mz_zip_reader_sort_central_dir_offsets_by_filename cdir l (record_numbers (len l)) (len l)) (λ s, s ≡ₚ record_numbers (len l)).
Proof.
  intros HF. destruct (sort_names_ok cdir l) as (s & -> & Hp); [|done]. eapply Forall_impl; [exact HF|]. apply record_name.
Qed.

(** An archive that is open. *)
Definition handle_ok (z : mz_zip_archive) : Prop :=
  ∃ st, m_pState z = Some st ∧ m_zip_mode z = MZ_ZIP_MODE_READING ∧ 0 ≤ m_total_files z ∧
    bytes_ok (m_central_dir st) ∧ bytes_ok (m_pFile st) ∧
    length (m_central_dir_offsets st) = Z.to_nat (m_total_files z) ∧
    Forall (record_in (m_central_dir st)) (m_central_dir_offsets st) ∧
    m_sorted_central_dir_offsets st ≡ₚ record_numbers (m_total_files z).

Lemma safe_init alloc file :
  bytes_ok file → len file < 2 ^ 62 → safe (mz_zip_reader_init_file alloc file) handle_ok.
Proof.
  intros Hf Hl. pose proof (len_nonneg file). unfold mz_zip_reader_init_file. apply safe_check. intros _.
  unfold mz_zip_reader_read_central_dir. apply safe_check. intros Hsz. unfold MZ_ZIP_END_OF_CENTRAL_DIR_HEADER_SIZE in *.
  step; [apply safe_find_eocd; [done|lia|unfold SCAN_BUF; lia|unfold EOCD_ROUNDS; lia|]|].
  { unfold SCAN_BUF, EOCD_ROUNDS. lia. }
  intros cur _. set (pBuf := mz_zip_file_read_func file (u64 cur) 22).
  assert (Hp : bytes_ok pBuf) by by apply read_func_bytes. apply safe_check. intros H22%Z.eqb_eq.
  unfold MZ_ZIP_ECDH_CDIR_TOTAL_ENTRIES_OFS, MZ_ZIP_ECDH_CDIR_NUM_ENTRIES_ON_DISK_OFS, MZ_ZIP_ECDH_NUM_THIS_DISK_OFS,
    MZ_ZIP_ECDH_NUM_DISK_CDIR_OFS, MZ_ZIP_ECDH_CDIR_SIZE_OFS, MZ_ZIP_ECDH_CDIR_OFS_OFS.
  fld. intros sig _. apply safe_check. intros _. fld. intros total Ht. fld. intros ondisk _. apply safe_check. intros _.
  fld. intros this _. fld. intros cdisk _. apply safe_check. intros _. fld. intros csize Hcs. apply safe_check. intros _.
  fld. intros cofs Hco. apply safe_check. intros _.
  apply safe_bind. destruct (Z.eqb_spec total 0) as [->|Hne].
  { cbn [safe]. step; [apply (safe_sort [] []); constructor|]. intros s Hsort. cbn. eexists. split_and!; try done. constructor. }
  apply safe_check. intros _. set (cdir := mz_zip_file_read_func file cofs csize).
  assert (Hcd : bytes_ok cdir) by by apply read_func_bytes.
  apply safe_check. intros Hlen%Z.eqb_eq.
  step; [apply safe_read_headers; [done|lia|lia]|]. intros l [Hll HF]. cbn [safe].
  cbn beta in Ht. assert (len l = total) as El by (unfold len; lia). rewrite <-El. step; [by apply safe_sort|]. intros s Hsort.
  cbn. eexists. split_and!; try done; cbn in Ht |- *; unfold len in *; lia.
Qed.

(** ** Entries *)

Section Handle.
Context (z : mz_zip_archive).
Hypothesis Hz : handle_ok z.

Lemma safe_cdh i : 0 ≤ i → safe (mz_zip_reader_get_cdh z i) (λ '(cdir, p), bytes_ok cdir ∧ record_in cdir p).
Proof.
  destruct Hz as (st & Hst & Hm & Ht & Hb & Hf & Hlen & HF & _). intros Hi. unfold mz_zip_reader_get_cdh. rewrite Hst.
  apply safe_check. intros Hlt%Z.ltb_lt. rewrite Hm. cbn [check mbind read_bind].
  destruct (lookup_lt_is_Some_2 (m_central_dir_offsets st) (Z.to_nat i)) as [p Hp]; [lia|]. rewrite Hp. cbn.
  split; [done|]. by apply (Forall_lookup_1 _ _ _ _ HF Hp).
Qed.

Lemma safe_copy_out l ofs n : 0 ≤ n → 0 ≤ ofs → ofs + n ≤ len l → safe (copy_out l ofs n) (λ _, True).
Proof.
  intros Hn Ho Hl. unfold copy_out. assert (len (sub l ofs n) = n) as ->; [|by rewrite Z.eqb_refl].
  unfold sub, len in *. rewrite length_take, length_drop. lia.
Qed.

Lemma safe_stat i : 0 ≤ i → safe (mz_zip_reader_file_stat z i) (λ _, True).
Proof.
  intros Hi. unfold mz_zip_reader_file_stat. step; [by apply safe_cdh|]. intros [cdir p] (Hb & Hp & a & b & c & Ha & Hb' & Hc & Ea & Eb & Ec & Hin).
  do 4 (fld; intros ? _). do 3 (fld; intros ? _). do 3 (fld; intros ? _).
  rewrite Ea. cbn [mbind read_bind]. unfold MZ_ZIP_CENTRAL_DIR_HEADER_SIZE, MZ_ZIP_MAX_ARCHIVE_FILENAME_SIZE, MZ_ZIP_MAX_ARCHIVE_FILE_COMMENT_SIZE.
  step; [apply safe_copy_out; lia|]. intros ? _. rewrite Ec. cbn [mbind read_bind]. rewrite Eb. cbn [mbind read_bind].
  cbv zeta. step; [apply safe_copy_out; lia|]. done.
Qed.

Lemma safe_isdir i : 0 ≤ i → safe (mz_zip_reader_is_file_a_directory z i) (λ _, True).
Proof.
  intros Hi. unfold mz_zip_reader_is_file_a_directory. pose proof (safe_cdh i Hi) as Hc.
  destruct (mz_zip_reader_get_cdh z i) as [[cdir p]| | |]; try done.
  destruct Hc as (Hb & Hp & a & b & c & Ha & Hb' & Hc & Ea & Eb & Ec & Hin). rewrite Ea. cbn [mbind read_bind].
  apply safe_bind. destruct (Z.eqb_spec a 0) as [->|Hne]; cbn [safe].
  - fld. done.
  - unfold MZ_ZIP_CENTRAL_DIR_HEADER_SIZE. step; [apply safe_rd8; [done|lia]|]. intros x _. cbn [safe].
    destruct (x =? 47); [done|]. fld. done.
Qed.

Lemma safe_entry_checks i : 0 ≤ i → safe (entry_checks z i) (λ _, True).
Proof.
  intros Hi. unfold entry_checks. step; [by apply safe_stat|]. intros st _. destruct (_ =? 0); [done|].
  step; [by apply safe_isdir|]. intros [] _; [done|]. apply safe_check. intros _. apply safe_check. done.
Qed.

Lemma safe_data_ofs st file size : bytes_ok file → safe (data_ofs file size st) (λ _, True).
Proof.
  intros Hf. unfold data_ofs. cbv zeta. apply safe_check. intros Hl%Z.eqb_eq. unfold MZ_ZIP_LOCAL_DIR_HEADER_SIZE in *.
  unfold MZ_ZIP_LDH_FILENAME_LEN_OFS, MZ_ZIP_LDH_EXTRA_LEN_OFS.
  step; [apply safe_LE32; [by apply read_func_bytes|lia|lia]|]. intros sig _. apply safe_check. intros _.
  step; [apply safe_LE16; [by apply read_func_bytes|lia|lia]|]. intros a _.
  step; [apply safe_LE16; [by apply read_func_bytes|lia|lia]|]. intros b _. apply safe_check. done.
Qed.
End Handle.

(** ** Programs *)

(** Whatever the file system answers, as long as files hold bytes. *)
Definition answer_ok (x : answer) : Prop :=
  match x with A_bytes l => bytes_ok l ∧ len l < 2 ^ 62 | _ => True end.

Fixpoint leaves {A} (P : A → Prop) (p : prog A) : Prop :=
  match p with Ret a => P a | Call c k => ∀ x, answer_ok x → leaves P (k x) end.

Definition in_bounds {A} (r : read A) : Prop := match r with OutOfBounds => False | _ => True end.

Lemma leaves_bind {A B} (p : prog A) (h : A → prog B) (P : A → Prop) (Q : B → Prop) :
  leaves P p → (∀ a, P a → leaves Q (h a)) → leaves Q (p ≫= h).
Proof. intros Hp Hh. induction p as [a|c k IH]; cbn in *; auto. Qed.

Lemma leaves_u {A B} (m : U A) (h : A → U B) :
  leaves in_bounds m → (∀ a, leaves in_bounds (h a)) → leaves in_bounds (u_bind m h).
Proof. intros Hm Hh. unfold u_bind. eapply leaves_bind; [exact Hm|]. intros [a| | |] Ha; auto. Qed.

Lemma leaves_lift {A} (r : read A) P : safe r P → leaves in_bounds (lift r).
Proof. by destruct r. Qed.

Lemma safe_in_bounds {A} (r : read A) P : safe r P → in_bounds r.
Proof. by destruct r. Qed.

Lemma bounds_bind {A B} (r : read A) (h : A → read B) :
  in_bounds r → (∀ a, in_bounds (h a)) → in_bounds (r ≫= h).
Proof. destruct r; cbn; auto. Qed.

Lemma bounds_check b : in_bounds (check b).
Proof. by destruct b. Qed.

Section Programs.
Context `{Inflator} (alloc : Z → bool).
(** The decompressor stays within its own arrays and buffers. *)
Hypothesis Hstays : ∀ r input buf pos room flags, in_bounds (tinfl_decompress r input buf pos room flags).

Lemma leaves_stored fuel file key buf cur rem o : leaves in_bounds (stored_loop fuel file key buf cur rem o).
Proof.
  revert cur rem o. induction fuel as [|fuel IH]; intros cur rem o; [done|]. cbn [stored_loop].
  destruct (_ =? 0); [done|]. destruct (negb _); [done|]. intros x _. destruct x; done || apply IH.
Qed.

Lemma leaves_inflate fuel file key buf n r w a cur rem o :
  leaves in_bounds (inflate_loop fuel file key buf n r w a cur rem o).
Proof.
  revert r w a cur rem o. induction fuel as [|fuel IH]; intros r w a cur rem o; [done|]. cbn [inflate_loop].
  destruct (_ && _); [done|]. apply leaves_u; [apply Hstays|]. intros [[[st r'] u] out].
  destruct (len out =? 0); [by destruct (goes_on st)|]. intros x _. destruct x; try done.
  destruct (_ <? _); [done|]. by destruct (goes_on st).
Qed.

Lemma leaves_callback z i key :
  handle_ok z → 0 ≤ i → leaves in_bounds (mz_zip_reader_extract_to_callback alloc z i key).
Proof.
  intros Hz Hi. unfold mz_zip_reader_extract_to_callback. apply leaves_u; [eapply leaves_lift, safe_entry_checks; done|].
  intros [st|]; [|done]. destruct (Hz) as (s & -> & _ & _ & _ & Hf & _).
  apply leaves_u; [eapply leaves_lift, safe_data_ofs; done|]. intros ofs. apply leaves_u; [by destruct (alloc _)|]. intros _.
  apply leaves_u; [|intros o; by destruct (_ && _)]. destruct (_ =? 0); [apply leaves_stored|].
  destruct (alloc _); [apply leaves_inflate|done].
Qed.

Lemma bounds_mem_loop fuel file buf n r p a cur rem o : in_bounds (inflate_mem_loop fuel file buf n r p a cur rem o).
Proof.
  revert r p a cur rem o. induction fuel as [|fuel IH]; intros r p a cur rem o; [done|]. cbn [inflate_mem_loop].
  destruct (_ && _); [done|]. apply bounds_bind; [apply Hstays|]. intros [[[st r'] u] out]. by destruct st.
Qed.

Lemma bounds_mem z i buf n : handle_ok z → 0 ≤ i → in_bounds (mz_zip_reader_extract_to_mem_no_alloc alloc z i buf n).
Proof.
  intros Hz Hi. unfold mz_zip_reader_extract_to_mem_no_alloc.
  apply bounds_bind; [eapply safe_in_bounds, safe_entry_checks; done|]. intros [st|]; [|done].
  destruct (Hz) as (s & -> & _ & _ & _ & Hf & _). cbv zeta. apply bounds_bind; [apply bounds_check|]. intros _.
  apply bounds_bind; [eapply safe_in_bounds, safe_data_ofs; done|]. intros ofs. destruct (_ =? 0).
  - do 2 (apply bounds_bind; [apply bounds_check|]; intros _). done.
  - apply bounds_bind; [apply bounds_check|]. intros _. apply bounds_bind; [apply bounds_mem_loop|].
    intros [[d b] o]. apply bounds_bind; [apply bounds_check|]. done.
Qed.

Lemma leaves_mkpath np n p : leaves (λ _, True) (mkpath_loop np n p).
Proof.
  revert np n. induction p as [|c p IH]; intros np n; [done|]. cbn [mkpath_loop]. destruct (negb _); [done|].
  destruct (_ && _); [|apply IH]. intros x _. destruct x; done || apply IH.
Qed.

Lemma leaves_entry cb z i prefix buf :
  handle_ok z → 0 ≤ i → leaves in_bounds (extract_entry alloc cb z i prefix buf).
Proof.
  intros Hz Hi. unfold extract_entry. apply leaves_u; [by eapply leaves_lift, safe_stat|]. intros st. cbv zeta.
  apply leaves_u. { eapply leaves_bind; [apply leaves_mkpath|]. by intros [] _. }
  intros _. apply leaves_u.
  - destruct (is_symlink st).
    + unfold extract_symlink. apply leaves_u; [by destruct (negb _)|]. intros _.
      apply leaves_u; [apply (bounds_mem z i buf MAX_PATH Hz Hi)|]. intros b. cbv zeta. intros x _. by destruct x.
    + apply leaves_u; [|done]. unfold extract_regular. apply leaves_u; [by eapply leaves_lift, safe_isdir|]. intros d.
      apply leaves_u; [|intros _; cbv zeta; destruct (_ <? _); [intros x _; by destruct x|done]]. destruct d; [done|].
      unfold mz_zip_reader_extract_to_file. apply leaves_u; [by eapply leaves_lift, safe_stat|]. intros _ x _.
      destruct x; try done. eapply leaves_bind; [by apply leaves_callback|]. intros r Hr y _. by destruct y.
  - intros b. destruct cb as [g|]; [by destruct (_ <? _)|done].
Qed.

Lemma leaves_loop cb k z i prefix buf :
  handle_ok z → 0 ≤ i → leaves in_bounds (extract_loop alloc cb k z i prefix buf).
Proof.
  intros Hz. revert i buf. induction k as [|k IH]; intros i buf Hi; [done|]. cbn [extract_loop].
  apply leaves_u; [by apply leaves_entry|]. intros b. apply IH. lia.
Qed.

(** Unpacking stays within bounds. *)
Lemma leaves_zip_extract cb zipname dir : dir ≠ ""%string → leaves in_bounds (zip_extract alloc cb zipname dir).
Proof.
  intros Hd. unfold zip_extract. destruct (_ <? _); [done|]. intros x Hx.
  assert (safe (match x with A_bytes file => mz_zip_reader_init_file alloc file | _ => MZ_FALSE end) handle_ok) as Hs.
  { destruct x; try done. by apply safe_init; destruct Hx. }
  destruct (match x with A_bytes file => _ | _ => _ end) as [z| | |]; try done.
  rewrite (proj2 (String.eqb_neq _ _) Hd). cbv zeta. eapply leaves_bind; [by apply leaves_loop|].
  intros [a| | |] Ha; done.
Qed.
End Programs.

(** ** Damaged data *)

Section Checked.
Context `{Inflator} (alloc : Z → bool) (sys : system_env).

(** The variables of a loop describe the file. *)
Definition describes (key : list string) (o : outcome) (f : tree) : Prop :=
  ∃ c m, f !! key = Some (File c m) ∧ out_buf_ofs o = len c ∧ file_crc32 o = mz_crc32 0 c.

(** A write that succeeds appends. *)
Lemma describes_write key o f f' b n :
  describes key o f → exec sys f (C_write key (out_buf_ofs o) b) = (f', A_ok) → n = len b →
  describes key (Outcome true (out_buf_ofs o + n) (mz_crc32 (file_crc32 o) b)) f'.
Proof.
  intros (c & m & Hc & Ho & Hcrc) Hx ->. unfold exec in Hx. destruct (refuses _ _); [done|]. rewrite Hc in Hx.
  injection Hx as <-. exists (c ++ b), m. cbn [out_buf_ofs file_crc32]. rewrite Ho, write_at_end, lookup_insert_eq, len_app, Hcrc, crc_app.
  done.
Qed.

Lemma stored_describes fuel file key buf cur rem o f o' f' :
  describes key o f → run sys (stored_loop fuel file key buf cur rem o) f = (Got o', f') → o_done o' = true →
  describes key o' f'.
Proof.
  revert cur rem o f. induction fuel as [|fuel IH]; intros cur rem o f Hd; [done|]. cbn [stored_loop].
  destruct (rem =? 0); [by intros [= <- <-]|]. destruct (Z.eqb_spec (len (mz_zip_file_read_func file cur (Z.min buf rem))) (Z.min buf rem)) as [E|];
    cbn [negb]; [|by intros [= <- <-]]. cbn [run]. destruct (exec sys f _) as [f1 x] eqn:Hx.
  destruct x; try (by intros [= <- <-]). apply IH. by eapply describes_write.
Qed.

Lemma inflate_describes fuel file key buf n r w a cur rem o f o' f' :
  describes key o f → run sys (inflate_loop fuel file key buf n r w a cur rem o) f = (Got o', f') → o_done o' = true →
  describes key o' f'.
Proof.
  revert r w a cur rem o f. induction fuel as [|fuel IH]; intros r w a cur rem o f Hd; [done|]. cbn [inflate_loop]. cbv zeta.
  destruct (_ && _); [by intros [= <- <-]|]. destruct (tinfl_decompress _ _ _ _ _ _) as [[[[st r'] u] out]| | |]; [|done..].
  cbn [u_bind lift mbind prog_bind]. destruct (len out =? 0).
  - destruct (goes_on st); [by apply IH|]. intros [= <- <-] _. exact Hd.
  - cbn [run]. destruct (exec sys f _) as [f1 x] eqn:Hx. destruct x; try (by intros [= <- <-]).
    pose proof (describes_write key o f f1 out _ Hd Hx eq_refl) as Hd1. destruct (_ <? _); [by intros [= <- <-]|].
    destruct (goes_on st); [by apply IH|]. intros [= <- <-] _. exact Hd1.
Qed.

Lemma run_prog_bind {A B} (p : prog A) (h : A → prog B) f :
  run sys (p ≫= h) f = let '(a, f') := run sys p f in run sys (h a) f'.
Proof. revert f. induction p as [a|c k IH]; intros f; cbn; [done|]. destruct (exec sys f c). apply IH. Qed.

Lemma run_u {A B} (m : U A) (h : A → U B) f :
  run sys (u_bind m h) f =
  match run sys m f with
  | (Got a, f') => run sys (h a) f'
  | (MZ_FALSE, f') => (MZ_FALSE, f')
  | (OutOfBounds, f') => (OutOfBounds, f')
  | (Endless, f') => (Endless, f')
  end.
Proof. unfold u_bind. rewrite run_prog_bind. by destruct (run sys m f) as [[] ?]. Qed.

(** What a successful extraction wrote has the size and the checksum of the directory. *)
Lemma callback_checked z i key f f' m :
  f !! key = Some (File [] m) →
  run sys (mz_zip_reader_extract_to_callback alloc z i key) f = (Got tt, f') →
  entry_checks z i = Got None ∧ f' = f ∨
  ∃ st c m', entry_checks z i = Got (Some st) ∧ f' !! key = Some (File c m') ∧
    len c = m_uncomp_size st ∧ mz_crc32 MZ_CRC32_INIT c = m_crc32 st.
Proof.
  intros Hf. unfold mz_zip_reader_extract_to_callback. rewrite run_u. cbn [lift run].
  destruct (entry_checks z i) as [[st|]| | |] eqn:Hst; try done.
  2: { intros [= <-]. by left. }
  intros Hr. right. exists st. destruct (m_pState z) as [s|]; [|done]. rewrite run_u in Hr. cbn [lift run] in Hr.
  destruct (data_ofs _ _ _) as [ofs| | |]; try done. cbv zeta in Hr. rewrite run_u in Hr. cbn [lift run] in Hr.
  destruct (alloc (Z.min _ _)); [|done]. cbn [check] in Hr. rewrite run_u in Hr.
  assert (Hd0 : describes key (Outcome true 0 MZ_CRC32_INIT) f) by by exists [], m.
  destruct (run sys _ f) as [[o| | |] f1] eqn:Hloop; try done. cbn [lift run] in Hr. unfold check in Hr.
  destruct (o_done o) eqn:Hdone; [|by cbn in Hr].
  assert (Hd : describes key o f1).
  { destruct (m_method st =? 0); [by eapply stored_describes|]. destruct (alloc TINFL_LZ_DICT_SIZE); [by eapply inflate_describes|].
    cbn in Hloop. injection Hloop as <- <-. done. }
  destruct Hd as (c & m' & Hc & Ho & Hcrc). cbn [andb] in Hr. rewrite Ho, Hcrc in Hr.
  destruct (Z.eqb_spec (len c) (m_uncomp_size st)) as [E1|]; [|by cbn in Hr].
  destruct (Z.eqb_spec (mz_crc32 0 c) (m_crc32 st)) as [E2|]; [|by cbn in Hr].
  cbn in Hr. injection Hr as <-. by exists c, m'.
Qed.

(** The same for a file. *)
Lemma to_file_checked z i path f f' :
  run sys (mz_zip_reader_extract_to_file alloc z i path) f = (Got tt, f') →
  ∃ key c m, resolve f (cwd sys) true path = Some key ∧ f' !! key = Some (File c m) ∧
    (entry_checks z i = Got None ∧ c = [] ∨
     ∃ st, entry_checks z i = Got (Some st) ∧ len c = m_uncomp_size st ∧ mz_crc32 MZ_CRC32_INIT c = m_crc32 st).
Proof.
  unfold mz_zip_reader_extract_to_file. destruct (mz_zip_reader_file_stat z i); try done. cbn [u_bind lift mbind prog_bind run].
  destruct (exec sys f (C_open_wb path)) as [f1 x] eqn:Hx. destruct x as [| | | |key]; try done. rewrite run_prog_bind.
  assert (Hkey : resolve f (cwd sys) true path = Some key ∧ ∃ m, f1 !! key = Some (File [] m)).
  { unfold exec in Hx. destruct (refuses _ _); [done|]. destruct (ends_slash path); [done|].
    destruct (resolve f (cwd sys) true path) as [k|]; [|done]. destruct (f !! k) as [[| |]|]; try done;
      injection Hx as <- ->; rewrite lookup_insert_eq; eauto. }
  destruct Hkey as (Hres & m & Hf1). destruct (run sys _ f1) as [r f2] eqn:Hr. cbn [run].
  destruct (exec sys f2 (C_close key)) as [f3 y] eqn:Hy.
  assert (Hclose : y = A_ok → f3 = f2) by (unfold exec in Hy; destruct (refuses _ _); intros ->; by simplify_eq).
  destruct y; try done. rewrite (Hclose eq_refl). cbn [run lift]. intros [= -> <-].
  destruct (callback_checked z i key f1 f2 m Hf1 Hr) as [[Hc ->]|(st & c & m' & Hc & H1 & H2 & H3)].
  - exists key, [], m. auto.
  - exists key, c, m'. split_and!; [done..|]. right. by exists st.
Qed.
End Checked.

(** A decompressor that is stopped where it would leave its buffers. *)
Definition guarded (I : Inflator) : Inflator :=
  {| tinfl_decompressor := @tinfl_decompressor I; tinfl_init := @tinfl_init I;
     tinfl_decompress r input buf pos room flags :=
       match tinfl_decompress r input buf pos room flags with
       | OutOfBounds => Got (TINFL_STATUS_FAILED, r, O, [])
       | x => x
       end |}.

Lemma guarded_stays I r input buf pos room flags : in_bounds (tinfl_decompress (Inflator := guarded I) r input buf pos room flags).
Proof. cbn. by case_match. Qed.
