(* ===== verification/Deflate.v ===== *)
(** * The format of compressed data

    RFC 1951 as relations between bits and bytes.  A stream of bits is a number with a
    length, the first bit lowest; Huffman codes are packed from their highest bit on. *)
From stdpp Require Import strings gmap list numbers.
From S2P Require Import Prelude CString FileSys ZipReader.
Local Open Scope Z_scope.

(** ** Bits *)

Record bits := Bits { b_val : Z; b_len : Z }.

Fixpoint le_val (l : list Z) : Z := match l with [] => 0 | b :: l' => b + 256 * le_val l' end.

Definition bits_of (l : list Z) : bits := Bits (le_val l) (8 * len l).

(** The next [n] bits as a number. *)
Definition take_bits (n : Z) (B : bits) : option (Z * bits) :=
  if (0 <=? n) && (n <=? b_len B) then Some (b_val B mod 2 ^ n, Bits (b_val B / 2 ^ n) (b_len B - n)) else None.

(** The next [n] bytes. *)
Fixpoint take_bytes (n : nat) (B : bits) : option (list Z * bits) :=
  match n with
  | O => Some ([], B)
  | S n' => '(b, B) ← take_bits 8 B; '(l, B) ← take_bytes n' B; Some (b :: l, B)
  end.

(** ** Huffman codes (3.2.2) *)

(** The symbols with codes of [n] bits. *)
Definition count (lens : list Z) (n : Z) : Z := Z.of_nat (length (filter (λ m, m = n) lens)).

(** The smallest code of [n] bits. *)
Fixpoint first_code (lens : list Z) (n : nat) : Z :=
  match n with
  | O => 0
  | S O => 0
  | S m => 2 * (first_code lens m + count lens (Z.of_nat m))
  end.

(** The code of a symbol: those of one length follow each other in the order of symbols. *)
Definition code (lens : list Z) (s : nat) : Z :=
  match lens !! s with
  | Some n => first_code lens (Z.to_nat n) + count (take s lens) n
  | None => 0
  end.

(** The [n] bits of a code in the order they come in. *)
Fixpoint rev_bits (n : nat) (c : Z) : Z := match n with O => 0 | S n' => (c mod 2) * 2 ^ Z.of_nat n' + rev_bits n' (c / 2) end.

(** Complete codes; a code may also have one symbol or none. *)
Definition codes_ok (lens : list Z) : Prop :=
  Forall (λ n, 0 <= n <= 15) lens ∧
  (first_code lens 16 = 2 ^ 16 ∨ Z.of_nat (length (filter (λ n, n ≠ 0) lens)) ≤ 1).

(** The next symbol. *)
Definition huff (lens : list Z) (B : bits) (s : Z) (B' : bits) : Prop :=
  0 ≤ s ∧ ∃ n, lens !! Z.to_nat s = Some n ∧ 0 < n ∧ take_bits n B = Some (rev_bits (Z.to_nat n) (code lens (Z.to_nat s)), B').

(** ** Lengths and distances (3.2.5): base and extra bits *)

Definition rfc_length : list (Z * Z) :=
  [(3, 0); (4, 0); (5, 0); (6, 0); (7, 0); (8, 0); (9, 0); (10, 0); (11, 1); (13, 1); (15, 1); (17, 1); (19, 2); (23, 2);
   (27, 2); (31, 2); (35, 3); (43, 3); (51, 3); (59, 3); (67, 4); (83, 4); (99, 4); (115, 4); (131, 5); (163, 5);
   (195, 5); (227, 5); (258, 0)].

Definition rfc_dist : list (Z * Z) :=
  [(1, 0); (2, 0); (3, 0); (4, 0); (5, 1); (7, 1); (9, 2); (13, 2); (17, 3); (25, 3); (33, 4); (49, 4); (65, 5); (97, 5);
   (129, 6); (193, 6); (257, 7); (385, 7); (513, 8); (769, 8); (1025, 9); (1537, 9); (2049, 10); (3073, 10);
   (4097, 11); (6145, 11); (8193, 12); (12289, 12); (16385, 13); (24577, 13)].

(** [n] bytes from [d] bytes back, byte by byte. *)
Fixpoint copy_back (n : nat) (d : Z) (done : list Z) : list Z :=
  match n with
  | O => done
  | S n' => copy_back n' d (done ++ [nth (Z.to_nat (len done - d)) done 0])
  end.

(** ** Compressed blocks *)

(** From the bits and the output so far to the end of the block. *)
Inductive codes (L D : list Z) : bits → list Z → bits → list Z → Prop :=
  | codes_end B done B' :
      huff L B 256 B' → codes L D B done B' done
  | codes_literal B done s B1 B' out :
      huff L B s B1 → s < 256 → codes L D B1 (done ++ [s]) B' out → codes L D B done B' out
  | codes_match B done s B1 base extra x B2 t B3 dbase dextra y B4 B' out :
      huff L B s B1 → 257 ≤ s → rfc_length !! Z.to_nat (s - 257) = Some (base, extra) →
      take_bits extra B1 = Some (x, B2) →
      huff D B2 t B3 → rfc_dist !! Z.to_nat t = Some (dbase, dextra) → take_bits dextra B3 = Some (y, B4) →
      dbase + y ≤ len done →
      codes L D B4 (copy_back (Z.to_nat (base + x)) (dbase + y) done) B' out →
      codes L D B done B' out.

(** The code lengths of a dynamic block, [n] of them. *)
Inductive lengths (C : list Z) (n : Z) : bits → list Z → bits → list Z → Prop :=
  | lengths_end B acc : len acc = n → lengths C n B acc B acc
  | lengths_one B acc s B1 B' out :
      len acc < n → huff C B s B1 → s < 16 → lengths C n B1 (acc ++ [s]) B' out → lengths C n B acc B' out
  | lengths_repeat B acc s B1 x B2 B' out c k :
      len acc < n → huff C B s B1 →
      (s = 16 ∧ take_bits 2 B1 = Some (x, B2) ∧ k = 3 + x ∧ last acc = Some c ∨
       s = 17 ∧ take_bits 3 B1 = Some (x, B2) ∧ k = 3 + x ∧ c = 0 ∨
       s = 18 ∧ take_bits 7 B1 = Some (x, B2) ∧ k = 11 + x ∧ c = 0) →
      lengths C n B2 (acc ++ replicate (Z.to_nat k) c) B' out → lengths C n B acc B' out.

Definition fixed_lens : list Z := replicate 144 8 ++ replicate 112 9 ++ replicate 24 7 ++ replicate 8 8.
Definition fixed_dists : list Z := replicate 32 5.

(** The order in which the lengths of the code for lengths come. *)
Definition length_order : list nat := [16; 17; 18; 0; 8; 7; 9; 6; 10; 5; 11; 4; 12; 3; 13; 2; 14; 1; 15]%nat.

(** [n] of them. *)
Fixpoint length_codes (n : nat) (order : list nat) (acc : list Z) (B : bits) : option (list Z * bits) :=
  match n, order with
  | S n', p :: order' => '(x, B) ← take_bits 3 B; length_codes n' order' (<[p := x]> acc) B
  | _, _ => Some (acc, B)
  end.

(** ** Blocks *)

Inductive block : Z → bits → list Z → bits → list Z → Prop :=
  | block_stored B done B0 n B1 m B2 l B3 :
      B0 = Bits (b_val B / 2 ^ (b_len B mod 8)) (b_len B - b_len B mod 8) →
      take_bits 16 B0 = Some (n, B1) → take_bits 16 B1 = Some (m, B2) → m = Z.lxor n 0xFFFF →
      take_bytes (Z.to_nat n) B2 = Some (l, B3) →
      block 0 B done B3 (done ++ l)
  | block_fixed B done B' out :
      codes fixed_lens fixed_dists B done B' out → block 1 B done B' out
  | block_dynamic B done hlit B1 hdist B2 hclen B3 C B4 lens B5 B' out :
      take_bits 5 B = Some (hlit, B1) → take_bits 5 B1 = Some (hdist, B2) → take_bits 4 B2 = Some (hclen, B3) →
      length_codes (Z.to_nat (hclen + 4)) length_order (replicate 19 0) B3 = Some (C, B4) → codes_ok C →
      lengths C (hlit + 257 + (hdist + 1)) B4 [] B5 lens →
      codes_ok (take (Z.to_nat (hlit + 257)) lens) → codes_ok (drop (Z.to_nat (hlit + 257)) lens) →
      codes (take (Z.to_nat (hlit + 257)) lens) (drop (Z.to_nat (hlit + 257)) lens) B5 done B' out →
      block 2 B done B' out.

(** Blocks up to the last one. *)
Inductive deflate : bits → list Z → list Z → Prop :=
  | deflate_last B done B1 t B2 B3 out :
      take_bits 1 B = Some (1, B1) → take_bits 2 B1 = Some (t, B2) → block t B2 done B3 out → deflate B done out
  | deflate_more B done B1 t B2 B3 done' out :
      take_bits 1 B = Some (0, B1) → take_bits 2 B1 = Some (t, B2) → block t B2 done B3 done' →
      deflate B3 done' out → deflate B done out.

(** The stream of bytes holds the data. *)
Definition deflated (stream data : list Z) : Prop :=
  Forall (λ b, 0 ≤ b < 256) stream ∧ deflate (bits_of stream) [] data.

(** Concrete streams: a symbol, and a literal. *)
Ltac symbol := split; [done|]; eexists; split; [vm_compute; reflexivity|split; [done|vm_compute; reflexivity]].
Ltac literal s := eapply (codes_literal _ _ _ _ s); [symbol|done|cbn [app]].

(** * Canonical Huffman codes

    These codes are in range and no code is the beginning of another; how many
    inner nodes a tree of them has below a depth. *)

(** ** Powers of two *)

Lemma pow2_pos n : 0 ≤ n → 0 < 2 ^ n.
Proof. intros. by apply Z.pow_pos_nonneg. Qed.

Lemma mod_mod_pow2 a m n : 0 ≤ m ≤ n → (a mod 2 ^ n) mod 2 ^ m = a mod 2 ^ m.
Proof.
  intros H. pose proof (pow2_pos m ltac:(lia)). pose proof (pow2_pos (n - m) ltac:(lia)).
  replace n with (m + (n - m)) by lia. rewrite Z.pow_add_r by lia. rewrite Z.rem_mul_r by lia.
  rewrite Z.mul_comm, Z.mod_add by lia. apply Z.mod_mod. lia.
Qed.

Lemma div_div_pow2 a m n : 0 ≤ m → 0 ≤ n → a / 2 ^ m / 2 ^ n = a / 2 ^ (m + n).
Proof. intros. rewrite Z.div_div, Z.pow_add_r; try lia; apply pow2_pos; lia. Qed.

(** ** Reversed bits *)

Lemma rev_range n c : 0 ≤ rev_bits n c < 2 ^ Z.of_nat n.
Proof.
  revert c. induction n as [|n IH]; intros c; cbn [rev_bits]; [done|]. specialize (IH (c / 2)).
  rewrite Nat2Z.inj_succ, Z.pow_succ_r by lia. pose proof (Z.mod_pos_bound c 2 ltac:(lia)). nia.
Qed.

Lemma rev_mod n k c : (k ≤ n)%nat → rev_bits n c mod 2 ^ Z.of_nat k = rev_bits k (c / 2 ^ Z.of_nat (n - k)).
Proof.
  revert c. induction n as [|n IH]; intros c Hk.
  { replace k with O by lia. cbn. by rewrite Z.mod_1_r. }
  destruct (decide (k = S n)) as [->|Hne].
  - rewrite Nat.sub_diag, Z.pow_0_r, Z.div_1_r. apply Z.mod_small, rev_range.
  - cbn [rev_bits]. replace (Z.of_nat n) with (Z.of_nat (n - k) + Z.of_nat k) by lia. rewrite Z.pow_add_r by lia.
    rewrite Z.mul_assoc, Z.add_comm, Z.mod_add by (pose proof (pow2_pos (Z.of_nat k)); lia).
    rewrite IH by lia. f_equal. change 2 with (2 ^ 1) at 1. rewrite div_div_pow2 by lia. do 2 f_equal. lia.
Qed.

Lemma rev_inj n c d : 0 ≤ c < 2 ^ Z.of_nat n → 0 ≤ d < 2 ^ Z.of_nat n → rev_bits n c = rev_bits n d → c = d.
Proof.
  revert c d. induction n as [|n IH]; intros c d Hc Hd; [cbn in *; lia|]. cbn [rev_bits].
  rewrite Nat2Z.inj_succ, Z.pow_succ_r in Hc, Hd by lia. intros E.
  pose proof (rev_range n (c / 2)). pose proof (rev_range n (d / 2)).
  pose proof (Z.mod_pos_bound c 2 ltac:(lia)). pose proof (Z.mod_pos_bound d 2 ltac:(lia)).
  assert (c mod 2 = d mod 2) as Em by nia. assert (rev_bits n (c / 2) = rev_bits n (d / 2)) as Er by nia.
  apply IH in Er; [|split; [apply Z.div_pos; lia|apply Z.div_lt_upper_bound; lia]..].
  pose proof (Z.div_mod c 2 ltac:(lia)). pose proof (Z.div_mod d 2 ltac:(lia)). lia.
Qed.

(** ** Counts *)

Lemma count_cons m lens n : count (m :: lens) n = (if decide (m = n) then 1 else 0) + count lens n.
Proof. unfold count. rewrite filter_cons. destruct (decide (m = n)); cbn [length]; lia. Qed.

Lemma count_app a b n : count (a ++ b) n = count a n + count b n.
Proof. unfold count. rewrite filter_app, length_app. lia. Qed.

Lemma count_nonneg lens n : 0 ≤ count lens n.
Proof. unfold count. lia. Qed.

Lemma count_take_lt lens s n : lens !! s = Some n → count (take s lens) n < count lens n.
Proof.
  intros Hs. rewrite <-(take_drop_middle _ _ _ Hs) at 2. rewrite count_app, count_cons, decide_True by done.
  pose proof (count_nonneg (drop (S s) lens) n). lia.
Qed.

Lemma count_take_S lens s n m :
  lens !! s = Some n → count (take (S s) lens) m = count (take s lens) m + (if decide (n = m) then 1 else 0).
Proof. intros Hs. rewrite (take_S_r _ _ _ Hs), count_app, count_cons. change (count [] m) with 0. lia. Qed.

Lemma count_take_mono lens s t n : (s ≤ t)%nat → count (take s lens) n ≤ count (take t lens) n.
Proof.
  intros H. replace t with (s + (t - s))%nat by lia. rewrite <-take_take_drop, count_app.
  pose proof (count_nonneg (take (t - s) (drop s lens)) n). lia.
Qed.

Lemma first_code_S lens m : (1 ≤ m)%nat → first_code lens (S m) = 2 * (first_code lens m + count lens (Z.of_nat m)).
Proof. by destruct m; [lia|]. Qed.

Lemma first_code_nonneg lens n : 0 ≤ first_code lens n.
Proof.
  induction n as [|[|n] IH]; [done..|]. rewrite first_code_S by lia. pose proof (count_nonneg lens (Z.of_nat (S n))). lia.
Qed.

Lemma first_code_later lens a b :
  (1 ≤ a < b)%nat → (first_code lens a + count lens (Z.of_nat a)) * 2 ^ Z.of_nat (b - a) ≤ first_code lens b.
Proof.
  intros H. induction b as [|b IH]; [lia|]. rewrite first_code_S by lia. destruct (decide (a = b)) as [->|Hne].
  - replace (S b - b)%nat with 1%nat by lia. change (2 ^ Z.of_nat 1) with 2. lia.
  - specialize (IH ltac:(lia)). replace (S b - a)%nat with (S (b - a)) by lia.
    rewrite Nat2Z.inj_succ, Z.pow_succ_r by lia. pose proof (count_nonneg lens (Z.of_nat b)). lia.
Qed.

(** ** Codes *)

Section Codes.
Context (lens : list Z).
Hypothesis Hok : codes_ok lens.

(** The symbol [s] has a code of [n] bits. *)
Definition has (s n : nat) : Prop := lens !! s = Some (Z.of_nat n) ∧ (0 < n)%nat.

(** Its bits in the order of the stream. *)
Definition bits_code (s n : nat) : Z := rev_bits n (code lens s).

Lemma has_range s n : has s n → (1 ≤ n ≤ 15)%nat.
Proof.
  intros [Hs Hn]. destruct Hok as [Hr _]. rewrite Forall_lookup in Hr. specialize (Hr _ _ Hs). lia.
Qed.

Lemma code_eq s n : has s n → code lens s = first_code lens n + count (take s lens) (Z.of_nat n).
Proof. intros [Hs _]. unfold code. by rewrite Hs, Nat2Z.id. Qed.

Lemma code_lower s n : has s n → first_code lens n ≤ code lens s < first_code lens n + count lens (Z.of_nat n).
Proof.
  intros H. rewrite (code_eq s n H). destruct H as [Hs _]. pose proof (count_take_lt _ _ _ Hs).
  pose proof (count_nonneg (take s lens) (Z.of_nat n)). lia.
Qed.

Lemma code_order s t n : has s n → has t n → (s < t)%nat → code lens s < code lens t.
Proof.
  intros Hs Ht Hlt. rewrite (code_eq s n Hs), (code_eq t n Ht). destruct Hs as [Hs _].
  pose proof (count_take_S lens s _ (Z.of_nat n) Hs) as E. rewrite decide_True in E by done.
  pose proof (count_take_mono lens (S s) t (Z.of_nat n) ltac:(lia)). lia.
Qed.

(** A symbol that is the only one. *)
Lemma only_one s n t m :
  Z.of_nat (length (filter (λ n, n ≠ 0) lens)) ≤ 1 → has s n → has t m → s = t.
Proof.
  intros Hone [Hs Hn] [Ht Hm]. destruct (lt_eq_lt_dec s t) as [[Hlt|?]|Hgt]; [|done|]; exfalso.
  - rewrite <-(take_drop_middle _ _ _ Hs) in Hone. rewrite filter_app, filter_cons_True, length_app in Hone by lia.
    assert (Hin : Z.of_nat m ∈ filter (λ n, n ≠ 0) (drop (S s) lens)).
    { apply list_elem_of_filter. split; [lia|]. apply list_elem_of_lookup. exists (t - S s)%nat.
      rewrite lookup_drop. by replace (S s + (t - S s))%nat with t by lia. }
    destruct (filter _ (drop (S s) lens)); [by apply elem_of_nil in Hin|]. cbn [length] in Hone. lia.
  - rewrite <-(take_drop_middle _ _ _ Ht) in Hone. rewrite filter_app, filter_cons_True, length_app in Hone by lia.
    assert (Hin : Z.of_nat n ∈ filter (λ n, n ≠ 0) (drop (S t) lens)).
    { apply list_elem_of_filter. split; [lia|]. apply list_elem_of_lookup. exists (s - S t)%nat.
      rewrite lookup_drop. by replace (S t + (s - S t))%nat with s by lia. }
    destruct (filter _ (drop (S t) lens)); [by apply elem_of_nil in Hin|]. cbn [length] in Hone. lia.
Qed.

Lemma count_pos n : 0 < count lens n → ∃ s, lens !! s = Some n.
Proof.
  unfold count. intros H. destruct (filter (λ m, m = n) lens) as [|x l] eqn:E; [cbn in H; lia|].
  assert (Hx : x ∈ filter (λ m, m = n) lens) by (rewrite E; left).
  apply list_elem_of_filter in Hx as [-> Hx]. by apply list_elem_of_lookup in Hx.
Qed.

(** With one symbol its code is 0. *)
Lemma first_code_one s n b :
  Z.of_nat (length (filter (λ n, n ≠ 0) lens)) ≤ 1 → has s n → (b ≤ n)%nat → first_code lens b = 0.
Proof.
  intros Hone Hs Hb. induction b as [|b IH]; [done|]. destruct b as [|b]; [done|].
  rewrite first_code_S, IH by lia. pose proof (count_nonneg lens (Z.of_nat (S b))).
  destruct (decide (0 < count lens (Z.of_nat (S b)))) as [Hc|]; [|lia]. apply count_pos in Hc as [t Ht].
  assert (has t (S b)) as Ht' by (split; [done|lia]). pose proof (only_one s n t (S b) Hone Hs Ht') as ->.
  destruct Hs as [Hs _]. rewrite Hs in Ht. injection Ht. lia.
Qed.

Lemma codes_fit n : first_code lens 16 = 2 ^ 16 → (1 ≤ n ≤ 15)%nat → first_code lens n + count lens (Z.of_nat n) ≤ 2 ^ Z.of_nat n.
Proof.
  intros H16 Hn. pose proof (first_code_later lens n 16 ltac:(lia)) as H. rewrite H16 in H.
  replace (2 ^ 16) with (2 ^ Z.of_nat n * 2 ^ Z.of_nat (16 - n)) in H by (rewrite <-Z.pow_add_r by lia; f_equal; lia).
  pose proof (pow2_pos (Z.of_nat (16 - n)) ltac:(lia)). nia.
Qed.

Lemma code_range s n : has s n → 0 ≤ code lens s < 2 ^ Z.of_nat n.
Proof.
  intros H. pose proof (has_range s n H) as Hn. pose proof (code_lower s n H) as Hc. pose proof (first_code_nonneg lens n).
  split; [lia|]. destruct Hok as [_ [H16|Hone]]; [pose proof (codes_fit n H16 Hn); lia|].
  rewrite (code_eq s n H), (first_code_one s n n Hone H) by lia.
  assert (count (take s lens) (Z.of_nat n) ≤ 0); [|pose proof (pow2_pos (Z.of_nat n)); lia].
  destruct (decide (0 < count (take s lens) (Z.of_nat n))) as [Hp|]; [exfalso|lia].
  unfold count in Hp. destruct (filter _ (take s lens)) as [|x l] eqn:E; [cbn in Hp; lia|].
  assert (Hx : x ∈ filter (λ m, m = Z.of_nat n) (take s lens)) by (rewrite E; left).
  apply list_elem_of_filter in Hx as [-> [t Ht]%list_elem_of_lookup]. apply lookup_take_Some in Ht as [Ht Hlt].
  assert (has t n) as Ht' by (split; [done|lia]). pose proof (only_one s n t n Hone H Ht'). lia.
Qed.

(** No code is the beginning of another. *)
Lemma prefix_free s n t m :
  has s n → has t m → (n ≤ m)%nat → bits_code t m mod 2 ^ Z.of_nat n = bits_code s n → s = t.
Proof.
  intros Hs Ht Hnm. unfold bits_code. rewrite rev_mod by done. pose proof (code_range s n Hs) as Rs. pose proof (code_range t m Ht) as Rt.
  pose proof (pow2_pos (Z.of_nat (m - n)) ltac:(lia)) as Hpos.
  intros E%rev_inj; [|split; [apply Z.div_pos; lia|apply Z.div_lt_upper_bound; [lia|]]|done].
  2: { rewrite <-Z.pow_add_r by lia. replace (Z.of_nat (m - n) + Z.of_nat n) with (Z.of_nat m) by lia. lia. }
  destruct (decide (n = m)) as [->|Hne].
  - rewrite Nat.sub_diag, Z.pow_0_r, Z.div_1_r in E. destruct (lt_eq_lt_dec s t) as [[Hlt|?]|Hgt]; [|done|].
    + pose proof (code_order s t m Hs Ht Hlt). lia.
    + pose proof (code_order t s m Ht Hs Hgt). lia.
  - exfalso. pose proof (has_range s n Hs). pose proof (first_code_later lens n m ltac:(lia)) as Hl.
    pose proof (code_lower s n Hs). pose proof (code_lower t m Ht).
    assert (first_code lens n + count lens (Z.of_nat n) ≤ code lens t / 2 ^ Z.of_nat (m - n)); [|lia].
    apply Z.div_le_lower_bound; lia.
Qed.

(** ** Inner nodes *)

(** The [d] bits [x] are the beginning of a longer code. *)
Definition inner (dx : nat * Z) : Prop :=
  ∃ s n, has s n ∧ (dx.1 < n)%nat ∧ bits_code s n mod 2 ^ Z.of_nat dx.1 = dx.2.

(** Those of a depth: what the codes of that length leave. *)
Definition spare (d : nat) : Z := 2 ^ Z.of_nat d - (first_code lens d + count lens (Z.of_nat d)).

Definition inners (d : nat) : list (nat * Z) :=
  (λ v, (d, rev_bits d (first_code lens d + count lens (Z.of_nat d) + Z.of_nat v))) <$> seq 0 (Z.to_nat (spare d)).

Lemma inner_elem d x : (1 ≤ d)%nat → inner (d, x) → (d, x) ∈ inners d.
Proof.
  intros Hd (s & n & Hs & Hlt & E). cbn in Hlt, E. unfold bits_code in E. rewrite rev_mod in E by lia.
  pose proof (code_range s n Hs) as Hr. pose proof (pow2_pos (Z.of_nat (n - d)) ltac:(lia)) as Hp.
  pose proof (first_code_later lens d n ltac:(lia)) as Hl. pose proof (code_lower s n Hs) as Hc.
  set (v := code lens s / 2 ^ Z.of_nat (n - d)) in *.
  assert (first_code lens d + count lens (Z.of_nat d) ≤ v) by (apply Z.div_le_lower_bound; lia).
  assert (v < 2 ^ Z.of_nat d).
  { apply Z.div_lt_upper_bound; [lia|]. rewrite <-Z.pow_add_r by lia. replace (Z.of_nat (n - d) + Z.of_nat d) with (Z.of_nat n) by lia. lia. }
  unfold inners. apply list_elem_of_fmap. exists (Z.to_nat (v - (first_code lens d + count lens (Z.of_nat d)))).
  rewrite elem_of_seq. unfold spare. split; [|lia]. f_equal. rewrite <-E. f_equal. lia.
Qed.

Lemma spare_rec d : (1 ≤ d)%nat → 2 * spare d = spare (S d) + count lens (Z.of_nat (S d)).
Proof. intros Hd. unfold spare. rewrite first_code_S by done. rewrite Nat2Z.inj_succ, Z.pow_succ_r by lia. lia. Qed.

Lemma counts_length (l : list Z) : count l 11 + count l 12 + count l 13 + count l 14 + count l 15 ≤ Z.of_nat (length l).
Proof.
  induction l as [|m l IH]; [done|]. rewrite !count_cons. cbn [length].
  repeat destruct (decide _); lia.
Qed.

Lemma spare_15 : first_code lens 16 = 2 ^ 16 → spare 15 = 0.
Proof. intros H16. unfold spare. rewrite first_code_S in H16 by lia. change (2 ^ 16) with (2 * 2 ^ Z.of_nat 15) in H16. lia. Qed.

Lemma spare_nonneg d : first_code lens 16 = 2 ^ 16 → (1 ≤ d ≤ 15)%nat → 0 ≤ spare d.
Proof. intros H16 Hd. pose proof (codes_fit d H16 ltac:(lia)). unfold spare. lia. Qed.

Definition all_inners : list (nat * Z) := inners 10 ++ inners 11 ++ inners 12 ++ inners 13 ++ inners 14.

Lemma all_inners_elem d x : (10 ≤ d ≤ 14)%nat → inner (d, x) → (d, x) ∈ all_inners.
Proof.
  intros Hd Hi. apply inner_elem in Hi; [|lia]. unfold all_inners. rewrite !elem_of_app.
  destruct (decide (d = 10%nat)) as [->|]; [auto|]. destruct (decide (d = 11%nat)) as [->|]; [auto|].
  destruct (decide (d = 12%nat)) as [->|]; [auto|]. destruct (decide (d = 13%nat)) as [->|]; [auto|].
  replace d with 14%nat in * by lia. auto 6.
Qed.

Lemma all_inners_length : first_code lens 16 = 2 ^ 16 → (length all_inners ≤ length lens)%nat.
Proof.
  intros H16. unfold all_inners, inners. rewrite !length_app, !length_fmap, !length_seq.
  pose proof (spare_rec 10 ltac:(lia)) as R10. pose proof (spare_rec 11 ltac:(lia)) as R11. pose proof (spare_rec 12 ltac:(lia)) as R12.
  pose proof (spare_rec 13 ltac:(lia)) as R13. pose proof (spare_rec 14 ltac:(lia)) as R14. rewrite (spare_15 H16) in R14.
  pose proof (counts_length lens) as Hcl.
  pose proof (spare_nonneg 10 H16 ltac:(lia)). pose proof (spare_nonneg 11 H16 ltac:(lia)). pose proof (spare_nonneg 12 H16 ltac:(lia)).
  pose proof (spare_nonneg 13 H16 ltac:(lia)). pose proof (spare_nonneg 14 H16 ltac:(lia)).
  rewrite (eq_refl : Z.of_nat 11 = 11) in R10. rewrite (eq_refl : Z.of_nat 12 = 12) in R11.
  rewrite (eq_refl : Z.of_nat 13 = 13) in R12. rewrite (eq_refl : Z.of_nat 14 = 14) in R13. rewrite (eq_refl : Z.of_nat 15 = 15) in R14.
  clear H16. generalize dependent (spare 10). generalize dependent (spare 11). generalize dependent (spare 12).
  generalize dependent (spare 13). generalize dependent (spare 14). intros. lia.
Qed.

(** There are no more of them than nodes in the array. *)
Lemma inner_bound (own : list (nat * Z)) :
  NoDup own → (∀ dx, dx ∈ own → (10 ≤ dx.1)%nat ∧ inner dx) → (length lens ≤ 288)%nat → (length own ≤ 288)%nat.
Proof.
  intros Hnd Hin H5. assert (Hd : ∀ d x, (d, x) ∈ own → (10 ≤ d ≤ 14)%nat).
  { intros d x H. destruct (Hin _ H) as (Hd & s & n & Hs & Hlt & _). pose proof (has_range s n Hs). cbn in *. lia. }
  destruct Hok as [_ [H16|Hone]].
  - etrans; [|exact H5]. etrans; [|by apply all_inners_length]. apply submseteq_length, NoDup_submseteq; [done|].
    intros [d x] H. destruct (Hin _ H) as [_ Hi]. apply all_inners_elem; [by eapply Hd|done].
  - destruct own as [|[d0 x0] own']; [cbn; lia|]. destruct (Hin (d0, x0) ltac:(left)) as (_ & s & n & Hs & _).
    set (one d := (d, bits_code s n mod 2 ^ Z.of_nat d)).
    assert (length ((d0, x0) :: own') ≤ length (one <$> seq 10 5))%nat as Hle; [|rewrite length_fmap, length_seq in Hle; lia].
    apply submseteq_length, NoDup_submseteq; [done|]. intros [d x] H. specialize (Hd d x H).
    destruct (Hin _ H) as (_ & t & m & Ht & Hlt & E). cbn in Hlt, E.
    pose proof (only_one s n t m Hone Hs Ht) as <-. destruct Hs as [Hs ?], Ht as [Ht ?]. rewrite Hs in Ht. injection Ht as Ht.
    assert (n = m) as <- by lia. apply list_elem_of_fmap. exists d. split; [unfold one; by rewrite E|]. apply elem_of_seq. lia.
Qed.
End Codes.
