(* ===== verification/Inflate.v ===== *)
(** * exjld/miniz.h: the decompressor

    [tinfl_decompress], a coroutine that is called again with more input or more room for
    output.  The C code is a [switch] into nested loops; here every place where it can be
    left or joined is a [label], and [tinfl_step] runs from one to the next.  The variables
    the function keeps in the structure between calls are the fields of the record all the
    time.  Accesses outside of arrays and buffers are [Crash].  The flags for zlib headers and
    Adler-32 are left out: no caller in the repository passes them. *)
From stdpp Require Import strings gmap list numbers.
From S2P Require Import Prelude CString FileSys ZipReader.
Local Open Scope Z_scope.

(** ** Constants and tables *)

Definition TINFL_FAST_LOOKUP_BITS : Z := 10.
Definition TINFL_FAST_LOOKUP_SIZE : Z := 1024.

Definition s_length_base : list Z :=
  [3; 4; 5; 6; 7; 8; 9; 10; 11; 13; 15; 17; 19; 23; 27; 31;
   35; 43; 51; 59; 67; 83; 99; 115; 131; 163; 195; 227; 258; 0; 0].
Definition s_length_extra : list Z :=
  [0; 0; 0; 0; 0; 0; 0; 0; 1; 1; 1; 1; 2; 2; 2; 2; 3; 3; 3; 3; 4; 4; 4; 4; 5; 5; 5; 5; 0; 0; 0].
Definition s_dist_base : list Z :=
  [1; 2; 3; 4; 5; 7; 9; 13; 17; 25; 33; 49; 65; 97; 129; 193; 257; 385; 513; 769; 1025; 1537;
   2049; 3073; 4097; 6145; 8193; 12289; 16385; 24577; 0; 0].
Definition s_dist_extra : list Z :=
  [0; 0; 0; 0; 1; 1; 2; 2; 3; 3; 4; 4; 5; 5; 6; 6; 7; 7; 8; 8; 9; 9; 10; 10; 11; 11; 12; 12; 13; 13; 0; 0].
Definition s_length_dezigzag : list Z := [16; 17; 18; 0; 8; 7; 9; 6; 10; 5; 11; 4; 12; 3; 13; 2; 14; 1; 15].
Definition s_min_table_sizes : list Z := [257; 1; 4].
(** The string literals that serve as tables. *)
Definition table_size_bits : list Z := [5; 5; 4].
Definition repeat_extra : list Z := [2; 3; 7].
Definition repeat_base : list Z := [3; 3; 11].

(** ** State *)

(** [tinfl_huff_table] *)
Record tinfl_huff_table := HuffTable { m_code_size : list Z; m_look_up : list Z; m_tree : list Z }.

(** Where the coroutine is; the numbers are the state indices of the source, and [Failed]
    and [Done] those it never leaves.  [again] says that a Huffman code was begun and the
    input ran out. *)
Inductive label :=
  | L0
  | L3
  | L7
  | L51
  | L52
  | L9
  | L38
  | L_block_end
  | L11
  | L14
  | L_tables
  | L16 (again : bool)
  | L18
  | L23 (again : bool)
  | L24
  | L_length
  | L25
  | L26 (again : bool)
  | L27
  | L_copy
  | L53
  | Failed (index : Z)
  | Done.

(** The bit buffer and the rest of the input. *)
Record src := Src { bit_buf : Z; num_bits : Z; pIn : list Z }.

Record regs := Regs {
  dist : Z;
  counter : Z;
  num_extra : Z;
  dist_from_out_buf_start : Z;
  m_final : Z;
  m_type : Z;
  m_raw_header : list Z;
  m_table_sizes : list Z;
  m_tables : list tinfl_huff_table;
  m_len_codes : list Z
}.

(** A call in progress; [m_out] is what it has written. *)
Record machine := Machine { m_state : label; m_src : src; m_regs : regs; m_out : list Z }.

(** [tinfl_decompressor] *)
Record decompressor := Decompressor { d_state : label; d_bit_buf : Z; d_num_bits : Z; d_regs : regs }.

Definition set_dist x (r : regs) := Regs x (counter r) (num_extra r) (dist_from_out_buf_start r) (m_final r) (m_type r) (m_raw_header r) (m_table_sizes r) (m_tables r) (m_len_codes r).
Definition set_counter x (r : regs) := Regs (dist r) x (num_extra r) (dist_from_out_buf_start r) (m_final r) (m_type r) (m_raw_header r) (m_table_sizes r) (m_tables r) (m_len_codes r).
Definition set_num_extra x (r : regs) := Regs (dist r) (counter r) x (dist_from_out_buf_start r) (m_final r) (m_type r) (m_raw_header r) (m_table_sizes r) (m_tables r) (m_len_codes r).
Definition set_dist_from x (r : regs) := Regs (dist r) (counter r) (num_extra r) x (m_final r) (m_type r) (m_raw_header r) (m_table_sizes r) (m_tables r) (m_len_codes r).
Definition set_final x (r : regs) := Regs (dist r) (counter r) (num_extra r) (dist_from_out_buf_start r) x (m_type r) (m_raw_header r) (m_table_sizes r) (m_tables r) (m_len_codes r).
Definition set_type x (r : regs) := Regs (dist r) (counter r) (num_extra r) (dist_from_out_buf_start r) (m_final r) x (m_raw_header r) (m_table_sizes r) (m_tables r) (m_len_codes r).
Definition set_raw_header x (r : regs) := Regs (dist r) (counter r) (num_extra r) (dist_from_out_buf_start r) (m_final r) (m_type r) x (m_table_sizes r) (m_tables r) (m_len_codes r).
Definition set_table_sizes x (r : regs) := Regs (dist r) (counter r) (num_extra r) (dist_from_out_buf_start r) (m_final r) (m_type r) (m_raw_header r) x (m_tables r) (m_len_codes r).
Definition set_tables x (r : regs) := Regs (dist r) (counter r) (num_extra r) (dist_from_out_buf_start r) (m_final r) (m_type r) (m_raw_header r) (m_table_sizes r) x (m_len_codes r).
Definition set_len_codes x (r : regs) := Regs (dist r) (counter r) (num_extra r) (dist_from_out_buf_start r) (m_final r) (m_type r) (m_raw_header r) (m_table_sizes r) (m_tables r) x.

(** Reading and writing an array. *)
Definition at_ {A} (l : list A) (i : Z) : option A := if i <? 0 then None else l !! Z.to_nat i.
Definition put_at {A} (i : Z) (x : A) (l : list A) : option (list A) :=
  if (0 <=? i) && (i <? Z.of_nat (length l)) then Some (<[Z.to_nat i := x]> l) else None.

(** ** Tables *)

(** The counts of the code sizes; the array has 16 elements. *)
Fixpoint count_sizes (sizes : list Z) (total_syms : list Z) : option (list Z) :=
  match sizes with
  | [] => Some total_syms
  | s :: sizes' => n ← at_ total_syms s; ts ← put_at s (n + 1) total_syms; count_sizes sizes' ts
  end.

(** The loop from [i] to 15: [next_code[i + 1]] and on, [used_syms] and [total]. *)
Fixpoint first_codes (counts : list Z) (used total : Z) : list Z * Z * Z :=
  match counts with
  | [] => ([], used, total)
  | c :: counts' =>
      let total' := Z.shiftl (total + c) 1 in
      let '(l, u, t) := first_codes counts' (used + c) total' in (total' :: l, u, t)
  end.

(** The lowest [l] bits of [cur_code] in reverse, behind [rev_code]. *)
Fixpoint reverse_bits (l : nat) (rev_code cur_code : Z) : Z :=
  match l with
  | O => rev_code
  | S l' => reverse_bits l' (Z.lor (Z.shiftl rev_code 1) (Z.land cur_code 1)) (Z.shiftr cur_code 1)
  end.

(** [while (rev_code < TINFL_FAST_LOOKUP_SIZE)] *)
Fixpoint fill_look_up (fuel : nat) (rev_code step k : Z) (look_up : list Z) : option (list Z) :=
  match fuel with
  | O => Some look_up
  | S fuel' =>
      if rev_code <? TINFL_FAST_LOOKUP_SIZE then
        l ← put_at rev_code k look_up; fill_look_up fuel' (rev_code + step) step k l
      else Some look_up
  end.

(** The nodes of a long code below the look-up table, [j - 11] of them, and the leaf. *)
Fixpoint grow_tree (n : nat) (tree_cur tree_next rev_code sym : Z) (tree : list Z) : option (list Z * Z) :=
  let rev_code := Z.shiftr rev_code 1 in
  let tree_cur := tree_cur - Z.land rev_code 1 in
  match n with
  | O => t ← put_at (- tree_cur - 1) sym tree; Some (t, tree_next)
  | S n' =>
      x ← at_ tree (- tree_cur - 1);
      if x =? 0 then
        t ← put_at (- tree_cur - 1) tree_next tree;
        grow_tree n' tree_next (tree_next - 2) rev_code sym t
      else grow_tree n' x tree_next rev_code sym tree
  end.

(** What the loop over the symbols changes. *)
Record filling := Filling { f_next_code : list Z; f_look_up : list Z; f_tree : list Z; f_tree_next : Z }.

(** One symbol. *)
Definition add_symbol (sym code_size : Z) (f : filling) : option filling :=
  if code_size =? 0 then Some f else
  cur_code ← at_ (f_next_code f) code_size;
  nc ← put_at code_size (cur_code + 1) (f_next_code f);
  let rev_code := reverse_bits (Z.to_nat code_size) 0 cur_code in
  if code_size <=? TINFL_FAST_LOOKUP_BITS then
    let k := Z.lor (Z.shiftl code_size 9) sym in
    l ← fill_look_up (Z.to_nat TINFL_FAST_LOOKUP_SIZE) rev_code (Z.shiftl 1 code_size) k (f_look_up f);
    Some (Filling nc l (f_tree f) (f_tree_next f))
  else
    let i := Z.land rev_code (TINFL_FAST_LOOKUP_SIZE - 1) in
    x ← at_ (f_look_up f) i;
    '(l, tree_cur, tree_next) ←
      (if x =? 0 then l ← put_at i (f_tree_next f) (f_look_up f); Some (l, f_tree_next f, f_tree_next f - 2)
       else Some (f_look_up f, x, f_tree_next f));
    '(t, tn) ← grow_tree (Z.to_nat (code_size - (TINFL_FAST_LOOKUP_BITS + 1))) tree_cur tree_next
                 (Z.shiftr rev_code (TINFL_FAST_LOOKUP_BITS - 1)) sym (f_tree f);
    Some (Filling nc l t tn).

Fixpoint add_symbols (sym : Z) (sizes : list Z) (f : filling) : option filling :=
  match sizes with
  | [] => Some f
  | s :: sizes' => f' ← add_symbol sym s f; add_symbols (sym + 1) sizes' f'
  end.

(** A table from the first [n] code sizes.  [Some None]: the sizes fit no code. *)
Definition build_table (n : Z) (t : tinfl_huff_table) : option (option tinfl_huff_table) :=
  let sizes := take (Z.to_nat n) (m_code_size t) in
  total_syms ← count_sizes sizes (replicate 16 0);
  let '(next, used_syms, total) := first_codes (drop 1 total_syms) 0 0 in
  if negb (total =? 65536) && (1 <? used_syms) then Some None else
  f ← add_symbols 0 sizes (Filling (0 :: 0 :: next) (replicate 1024 0) (replicate 576 0) (-1));
  Some (Some (HuffTable (m_code_size t) (f_look_up f) (f_tree f))).

(** ** Input *)

(** [Wait]: the coroutine returns for more input. *)
Inductive got (A : Type) := Have (a : A) (s : src) | Wait (s : src) | Hole.
#[global] Arguments Have {A} a s.
#[global] Arguments Wait {A} s.
#[global] Arguments Hole {A}.

Section Call.
(** [TINFL_FLAG_HAS_MORE_INPUT]; the output buffer at the time of the call, the place in it
    and its room; [out_buf_size_mask], and whether the buffer does not wrap around. *)
Context (more : bool) (buf : list Z) (pos room : Z) (mask : Z) (flat : bool).

Definition TINFL_GET_BYTE (s : src) : got Z :=
  match pIn s with
  | c :: l => Have c (Src (bit_buf s) (num_bits s) l)
  | [] => if more then Wait s else Have 0 s
  end.

Definition push_byte (c : Z) (s : src) : src :=
  Src (Z.lor (bit_buf s) (u64 (Z.shiftl c (num_bits s)))) (num_bits s + 8) (pIn s).

(** Three bytes are more than any field needs. *)
Fixpoint TINFL_NEED_BITS (rounds : nat) (n : Z) (s : src) : got unit :=
  if n <=? num_bits s then Have tt s else
  match rounds with
  | O => Hole
  | S rounds' =>
      match TINFL_GET_BYTE s with
      | Have c s' => TINFL_NEED_BITS rounds' n (push_byte c s')
      | Wait s' => Wait s'
      | Hole => Hole
      end
  end.

Definition drop_bits (n : Z) (s : src) : src := Src (Z.shiftr (bit_buf s) n) (num_bits s - n) (pIn s).

Definition TINFL_GET_BITS (n : Z) (s : src) : got Z :=
  match TINFL_NEED_BITS 3 n s with
  | Have _ s' => Have (Z.land (bit_buf s') (Z.shiftl 1 n - 1)) (drop_bits n s')
  | Wait s' => Wait s'
  | Hole => Hole
  end.

(** [do ... while (temp < 0)] from [code_len] on; [limit]: also while there are bits. *)
Fixpoint walk_tree (fuel : nat) (tree : list Z) (bits temp code_len : Z) (limit : option Z) : option (Z * Z) :=
  match fuel with
  | O => None
  | S fuel' =>
      x ← at_ tree (- temp - 1 + Z.land (Z.shiftr bits code_len) 1);
      let code_len := code_len + 1 in
      if (x <? 0) && match limit with Some n => code_len + 1 <=? n | None => true end
      then walk_tree fuel' tree bits x code_len limit
      else Some (x, code_len)
  end.

Definition WALK : nat := 64.

(** Whether the bits there are hold a whole code. *)
Definition whole_code (t : tinfl_huff_table) (s : src) : option bool :=
  temp ← at_ (m_look_up t) (Z.land (bit_buf s) (TINFL_FAST_LOOKUP_SIZE - 1));
  if 0 <=? temp then
    let code_len := Z.shiftr temp 9 in Some (negb (code_len =? 0) && (code_len <=? num_bits s))
  else if TINFL_FAST_LOOKUP_BITS <? num_bits s then
    '(temp, _) ← walk_tree WALK (m_tree t) (bit_buf s) temp TINFL_FAST_LOOKUP_BITS (Some (num_bits s));
    Some (0 <=? temp)
  else Some false.

(** Two bytes bring the buffer to 15 bits. *)
Fixpoint TINFL_HUFF_BITBUF_FILL (rounds : nat) (t : tinfl_huff_table) (s : src) : got unit :=
  match whole_code t s with
  | None => Hole
  | Some true => Have tt s
  | Some false =>
      match rounds with
      | O => Hole
      | S rounds' =>
          match TINFL_GET_BYTE s with
          | Have c s' =>
              let s' := push_byte c s' in
              if num_bits s' <? 15 then TINFL_HUFF_BITBUF_FILL rounds' t s' else Have tt s'
          | Wait s' => Wait s'
          | Hole => Hole
          end
      end
  end.

(** Symbol, with the length above it if it comes from the look-up table, and length. *)
Definition look_up_code (t : tinfl_huff_table) (bits : Z) : option (Z * Z) :=
  temp ← at_ (m_look_up t) (Z.land bits (TINFL_FAST_LOOKUP_SIZE - 1));
  if 0 <=? temp then Some (temp, Z.shiftr temp 9)
  else walk_tree WALK (m_tree t) bits temp TINFL_FAST_LOOKUP_BITS None.

Definition TINFL_HUFF_DECODE (again : bool) (t : tinfl_huff_table) (s : src) : got Z :=
  let filled :=
    if num_bits s <? 15 then
      match again, pIn s with
      | false, c0 :: c1 :: l =>
          Have tt (Src (Z.lor (bit_buf s) (Z.lor (u64 (Z.shiftl c0 (num_bits s))) (u64 (Z.shiftl c1 (num_bits s + 8)))))
                       (num_bits s + 16) l)
      | _, _ => TINFL_HUFF_BITBUF_FILL 2 t s
      end
    else Have tt s in
  match filled with
  | Have _ s' =>
      match temp ← at_ (m_look_up t) (Z.land (bit_buf s') (TINFL_FAST_LOOKUP_SIZE - 1));
            if 0 <=? temp then Some (Z.land temp 511, Z.shiftr temp 9)
            else walk_tree WALK (m_tree t) (bit_buf s') temp TINFL_FAST_LOOKUP_BITS None with
      | Some (sym, code_len) => Have sym (drop_bits code_len s')
      | None => Hole
      end
  | Wait s' => Wait s'
  | Hole => Hole
  end.

(** ** Output *)

(** A byte of the output buffer; the bytes written by this call lie behind [pos]. *)
Definition peek (out : list Z) (i : Z) : option Z :=
  if (pos <=? i) && (i <? pos + len out) then at_ out (i - pos) else at_ buf i.

Fixpoint peeks (out : list Z) (i : Z) (n : nat) : option (list Z) :=
  match n with
  | O => Some []
  | S n' => x ← peek out i; l ← peeks out (i + 1) n'; Some (x :: l)
  end.

(** Bytes stored at the end of what was written. *)
Definition store (l out : list Z) : option (list Z) :=
  if len out + len l <=? room then Some (out ++ l) else None.

(** [pOut_buf_cur[i] = pSrc[i]], one after the other. *)
Fixpoint copy_bytes (n : nat) (pSrc : Z) (out : list Z) : option (list Z) :=
  match n with
  | O => Some out
  | S n' => x ← peek out pSrc; out ← store [x] out; copy_bytes n' (pSrc + 1) out
  end.

(** Eight bytes as two words, [k] times. *)
Fixpoint copy_words (k : nat) (pSrc : Z) (out : list Z) : option (list Z) :=
  match k with
  | O => Some out
  | S k' =>
      w0 ← peeks out pSrc 4; out ← store w0 out;
      w1 ← peeks out (pSrc + 4) 4; out ← store w1 out;
      copy_words k' (pSrc + 8) out
  end.

(** [do ... while ((int)(counter -= 3) > 2)] and the rest. *)
Fixpoint copy_triples (fuel : nat) (counter pSrc : Z) (out : list Z) : option (list Z) :=
  match fuel with
  | O => None
  | S fuel' =>
      out ← copy_bytes 3 pSrc out;
      let pSrc := pSrc + 3 in
      let counter := counter - 3 in
      if 2 <? counter then copy_triples fuel' counter pSrc out
      else if 0 <? counter then copy_bytes (Z.to_nat counter) pSrc out
      else Some out
  end.

(** A match that neither reads nor writes over the end of the buffer. *)
Definition copy_match (counter dist pSrc : Z) (out : list Z) : option (list Z) :=
  if (9 <=? counter) && (counter <=? dist) then
    let k := Z.to_nat (counter / 8) in
    out ← copy_words k pSrc out;
    let pSrc := pSrc + 8 * Z.of_nat k in
    let counter := Z.land counter 7 in
    if counter <? 3 then copy_bytes (Z.to_nat counter) pSrc out
    else copy_triples (Z.to_nat counter) counter pSrc out
  else copy_triples (S (Z.to_nat counter)) counter pSrc out.

(** ** Steps *)

Inductive next :=
  | Go (m : machine)
  | Stop (status : tinfl_status) (m : machine)
  | Crash.

(** Input for the state [l]. *)
Definition with_input {A} (g : got A) (l : label) (m : machine) (k : A → src → next) : next :=
  match g with
  | Have a s => k a s
  | Wait s => Stop TINFL_STATUS_NEEDS_MORE_INPUT (Machine l s (m_regs m) (m_out m))
  | Hole => Crash
  end.

Definition with_array {A} (o : option A) (k : A → next) : next := match o with Some a => k a | None => Crash end.

Definition fail (i : Z) (m : machine) : next := Stop TINFL_STATUS_FAILED (Machine (Failed i) (m_src m) (m_regs m) (m_out m)).

(** One byte of output, or the return for more room. *)
Definition with_room (b : Z) (m : machine) (k : list Z → next) : next :=
  if room <=? len (m_out m) then Stop TINFL_STATUS_HAS_MORE_OUTPUT m else with_array (store [b] (m_out m)) k.

Definition fixed_sizes : list Z := replicate 144 8 ++ replicate 112 9 ++ replicate 24 7 ++ replicate 8 8.

(** [memcpy] over the beginning of an array. *)
Definition put_front (l a : list Z) : option (list Z) :=
  if (length l <=? length a)%nat then Some (l ++ drop (length l) a) else None.

Definition set_sizes (l : list Z) (t : tinfl_huff_table) : tinfl_huff_table := HuffTable l (m_look_up t) (m_tree t).

(** The head of a block. *)
Definition step_block (m : machine) : next :=
  with_input (TINFL_GET_BITS 3 (m_src m)) L3 m (λ b s,
    let r := set_type (Z.shiftr b 1) (set_final b (m_regs m)) in
    if m_type r =? 0 then Go (Machine L7 (drop_bits (Z.land (num_bits s) 7) s) (set_counter 0 r) (m_out m))
    else if m_type r =? 3 then fail 10 (Machine L3 s r (m_out m))
    else if m_type r =? 1 then
      with_array (t0 ← at_ (m_tables r) 0; t1 ← at_ (m_tables r) 1; t2 ← at_ (m_tables r) 2;
                  c1 ← put_front (replicate 32 5) (m_code_size t1);
                  Some [set_sizes fixed_sizes t0; set_sizes c1 t1; t2]) (λ ts,
      with_array (x ← at_ (m_table_sizes r) 2; Some [288; 32; x]) (λ sz,
        Go (Machine L_tables s (set_tables ts (set_table_sizes sz r)) (m_out m))))
    else Go (Machine L11 s (set_counter 0 r) (m_out m))).

(** [while (!(r->m_final & 1))] *)
Definition step_block_end (m : machine) : next :=
  Go (Machine (if Z.land (m_final (m_regs m)) 1 =? 0 then L3 else Done) (m_src m) (m_regs m) (m_out m)).

(** A block without compression: its header, the bytes left in the bit buffer, the rest. *)
Definition step_header (m : machine) : next :=
  let r := m_regs m in
  if counter r <? 4 then
    with_input (if num_bits (m_src m) =? 0 then TINFL_GET_BYTE (m_src m) else TINFL_GET_BITS 8 (m_src m)) L7 m (λ b s,
      with_array (put_at (counter r) b (m_raw_header r)) (λ h,
        Go (Machine L7 s (set_counter (counter r + 1) (set_raw_header h r)) (m_out m))))
  else
    match m_raw_header r with
    | [h0; h1; h2; h3] =>
        let r := set_counter (Z.lor h0 (Z.shiftl h1 8)) r in
        if negb (counter r =? Z.lxor 0xFFFF (Z.lor h2 (Z.shiftl h3 8))) then fail 39 (Machine L7 (m_src m) r (m_out m))
        else Go (Machine L51 (m_src m) r (m_out m))
    | _ => Crash
    end.

Definition step_stored (m : machine) : next :=
  let r := m_regs m in
  match m_state m with
  | L51 =>
      if negb (counter r =? 0) && negb (num_bits (m_src m) =? 0) then
        with_input (TINFL_GET_BITS 8 (m_src m)) L51 m (λ b s, Go (Machine L52 s (set_dist b r) (m_out m)))
      else Go (Machine L9 (m_src m) r (m_out m))
  | L52 =>
      with_room (Z.land (dist r) 255) m (λ out, Go (Machine L51 (m_src m) (set_counter (counter r - 1) r) out))
  | L9 =>
      if counter r =? 0 then Go (Machine L_block_end (m_src m) r (m_out m))
      else if room <=? len (m_out m) then Stop TINFL_STATUS_HAS_MORE_OUTPUT m
      else Go (Machine L38 (m_src m) r (m_out m))
  | _ =>
      match pIn (m_src m) with
      | [] => if more then Stop TINFL_STATUS_NEEDS_MORE_INPUT m else fail 40 m
      | l =>
          let n := Z.min (Z.min (room - len (m_out m)) (len l)) (counter r) in
          with_array (store (take (Z.to_nat n) l) (m_out m)) (λ out,
            Go (Machine L9 (Src (bit_buf (m_src m)) (num_bits (m_src m)) (drop (Z.to_nat n) l))
                  (set_counter (counter r - n) r) out))
      end
  end.

(** The sizes of the tables and of the codes for code sizes. *)
Definition step_sizes (m : machine) : next :=
  let r := m_regs m in
  match m_state m with
  | L11 =>
      if counter r <? 3 then
        with_array (at_ table_size_bits (counter r)) (λ n,
        with_input (TINFL_GET_BITS n (m_src m)) L11 m (λ b s,
        with_array (x ← at_ s_min_table_sizes (counter r); put_at (counter r) (b + x) (m_table_sizes r)) (λ sz,
          Go (Machine L11 s (set_counter (counter r + 1) (set_table_sizes sz r)) (m_out m)))))
      else
        with_array (t ← at_ (m_tables r) 2; put_at 2 (set_sizes (replicate 288 0) t) (m_tables r)) (λ ts,
          Go (Machine L14 (m_src m) (set_counter 0 (set_tables ts r)) (m_out m)))
  | _ =>
      with_array (at_ (m_table_sizes r) 2) (λ n,
      if counter r <? n then
        with_input (TINFL_GET_BITS 3 (m_src m)) L14 m (λ b s,
        with_array (t ← at_ (m_tables r) 2; z ← at_ s_length_dezigzag (counter r);
                    c ← put_at z b (m_code_size t); put_at 2 (set_sizes c t) (m_tables r)) (λ ts,
          Go (Machine L14 s (set_counter (counter r + 1) (set_tables ts r)) (m_out m))))
      else
        with_array (put_at 2 19 (m_table_sizes r)) (λ sz,
          Go (Machine L_tables (m_src m) (set_table_sizes sz r) (m_out m))))
  end.

(** One round of the loop over [m_type]. *)
Definition step_tables (m : machine) : next :=
  let r := m_regs m in
  if m_type r <? 0 then Go (Machine (L23 false) (m_src m) r (m_out m)) else
  with_array (t ← at_ (m_tables r) (m_type r); n ← at_ (m_table_sizes r) (m_type r); build_table n t) (λ o,
  match o with
  | None => fail 35 m
  | Some t =>
      with_array (put_at (m_type r) t (m_tables r)) (λ ts,
        let r := set_tables ts r in
        if m_type r =? 2 then Go (Machine (L16 false) (m_src m) (set_counter 0 r) (m_out m))
        else Go (Machine L_tables (m_src m) (set_type (m_type r - 1) r) (m_out m)))
  end).

(** The code sizes of both tables. *)
Definition step_lengths (again : bool) (m : machine) : next :=
  let r := m_regs m in
  with_array (n0 ← at_ (m_table_sizes r) 0; n1 ← at_ (m_table_sizes r) 1; Some (n0, n1)) (λ '(n0, n1),
  if counter r <? n0 + n1 then
    with_array (at_ (m_tables r) 2) (λ t,
    with_input (TINFL_HUFF_DECODE again t (m_src m)) (L16 true) m (λ d s,
      let r := set_dist d r in
      if d <? 16 then
        with_array (put_at (counter r) d (m_len_codes r)) (λ lc,
          Go (Machine (L16 false) s (set_counter (counter r + 1) (set_len_codes lc r)) (m_out m)))
      else if (d =? 16) && (counter r =? 0) then fail 17 (Machine (L16 false) s r (m_out m))
      else
        with_array (at_ repeat_extra (d - 16)) (λ e,
          Go (Machine L18 s (set_num_extra e r) (m_out m)))))
  else if negb (n0 + n1 =? counter r) then fail 21 m
  else
    with_array (t0 ← at_ (m_tables r) 0; t1 ← at_ (m_tables r) 1; t2 ← at_ (m_tables r) 2;
                c0 ← put_front (take (Z.to_nat n0) (m_len_codes r)) (m_code_size t0);
                c1 ← put_front (take (Z.to_nat n1) (drop (Z.to_nat n0) (m_len_codes r))) (m_code_size t1);
                Some [set_sizes c0 t0; set_sizes c1 t1; t2]) (λ ts,
      Go (Machine L_tables (m_src m) (set_type (m_type r - 1) (set_tables ts r)) (m_out m)))).

(** [memset] in an array. *)
Definition fill_at (i : Z) (x : Z) (n : Z) (l : list Z) : option (list Z) :=
  if (0 <=? i) && (i + n <=? len l) then
    Some (take (Z.to_nat i) l ++ replicate (Z.to_nat n) x ++ drop (Z.to_nat (i + n)) l)
  else None.

Definition step_repeat (m : machine) : next :=
  let r := m_regs m in
  with_input (TINFL_GET_BITS (num_extra r) (m_src m)) L18 m (λ b s,
  with_array (x ← at_ repeat_base (dist r - 16); Some (b + x)) (λ n,
  with_array (if dist r =? 16 then at_ (m_len_codes r) (counter r - 1) else Some 0) (λ c,
  with_array (fill_at (counter r) c n (m_len_codes r)) (λ lc,
    Go (Machine (L16 false) s (set_counter (counter r + n) (set_len_codes lc r)) (m_out m)))))).

(** A literal, or the way to a length: one symbol at a time near the ends of the buffers,
    else up to two. *)
Definition step_symbol (again : bool) (m : machine) : next :=
  let r := m_regs m in
  with_array (at_ (m_tables r) 0) (λ t,
  if again || (len (pIn (m_src m)) <? 4) || (room - len (m_out m) <? 2) then
    with_input (TINFL_HUFF_DECODE again t (m_src m)) (L23 true) m (λ c s,
      Go (Machine (if 256 <=? c then L_length else L24) s (set_counter c r) (m_out m)))
  else
    let s := m_src m in
    with_array
      (if num_bits s <? 30 then
         match pIn s with
         | c0 :: c1 :: c2 :: c3 :: l =>
             Some (Src (Z.lor (bit_buf s) (u64 (Z.shiftl (Z.lor (Z.lor (Z.lor c0 (Z.shiftl c1 8)) (Z.shiftl c2 16)) (Z.shiftl c3 24)) (num_bits s))))
                       (num_bits s + 32) l)
         | _ => None
         end
       else Some s) (λ s,
    with_array (look_up_code t (bit_buf s)) (λ '(sym, code_len),
      let s := drop_bits code_len s in
      let r := set_counter sym r in
      if negb (Z.land sym 256 =? 0) then Go (Machine L_length s r (m_out m)) else
      with_array (look_up_code t (bit_buf s)) (λ '(sym2, code_len),
        let s := drop_bits code_len s in
        with_array (store [Z.land sym 255] (m_out m)) (λ out,
        if negb (Z.land sym2 256 =? 0) then Go (Machine L_length s (set_counter sym2 r) out)
        else with_array (store [Z.land sym2 255] out) (λ out, Go (Machine (L23 false) s r out))))))).

(** A literal for which there may be no room. *)
Definition step_literal (m : machine) : next :=
  with_room (Z.land (counter (m_regs m)) 255) m (λ out, Go (Machine (L23 false) (m_src m) (m_regs m) out)).

(** The length and distance of a match. *)
Definition step_match (m : machine) : next :=
  let r := m_regs m in
  match m_state m with
  | L_length =>
      let c := Z.land (counter r) 511 in
      if c =? 256 then Go (Machine L_block_end (m_src m) (set_counter c r) (m_out m)) else
      with_array (e ← at_ s_length_extra (c - 257); b ← at_ s_length_base (c - 257); Some (e, b)) (λ '(e, b),
        Go (Machine (if e =? 0 then L26 false else L25) (m_src m) (set_counter b (set_num_extra e r)) (m_out m)))
  | L25 =>
      with_input (TINFL_GET_BITS (num_extra r) (m_src m)) L25 m (λ b s,
        Go (Machine (L26 false) s (set_counter (counter r + b) r) (m_out m)))
  | L26 again =>
      with_array (at_ (m_tables r) 1) (λ t,
      with_input (TINFL_HUFF_DECODE again t (m_src m)) (L26 true) m (λ d s,
      with_array (e ← at_ s_dist_extra d; b ← at_ s_dist_base d; Some (e, b)) (λ '(e, b),
        Go (Machine (if e =? 0 then L_copy else L27) s (set_dist b (set_num_extra e r)) (m_out m)))))
  | _ =>
      with_input (TINFL_GET_BITS (num_extra r) (m_src m)) L27 m (λ b s,
        Go (Machine L_copy s (set_dist (dist r + b) r) (m_out m)))
  end.

(** [(x - dist) & out_buf_size_mask] *)
Definition masked (x : Z) : Z := if flat then x else Z.land x mask.

(** The match itself; near the end of the buffer byte by byte. *)
Definition step_copy (m : machine) : next :=
  let r := set_dist_from (pos + len (m_out m)) (m_regs m) in
  if (dist_from_out_buf_start r <? dist r) && flat then fail 37 (Machine L_copy (m_src m) r (m_out m)) else
  let pSrc := masked (dist_from_out_buf_start r - dist r) in
  if pos + room <? Z.max (pos + len (m_out m)) pSrc + counter r then
    if counter r =? 0 then Go (Machine (L23 false) (m_src m) r (m_out m))
    else Go (Machine L53 (m_src m) (set_counter (counter r - 1) r) (m_out m))
  else
    with_array (copy_match (counter r) (dist r) pSrc (m_out m)) (λ out,
      Go (Machine (L23 false) (m_src m) r out)).

Definition step_slow_copy (m : machine) : next :=
  let r := m_regs m in
  if room <=? len (m_out m) then Stop TINFL_STATUS_HAS_MORE_OUTPUT m else
  with_array (x ← peek (m_out m) (masked (dist_from_out_buf_start r - dist r)); store [x] (m_out m)) (λ out,
    let r := set_dist_from (dist_from_out_buf_start r + 1) r in
    if counter r =? 0 then Go (Machine (L23 false) (m_src m) r out)
    else Go (Machine L53 (m_src m) (set_counter (counter r - 1) r) out)).

Definition clear_locals (m : machine) : machine :=
  Machine L3 (Src 0 0 (pIn (m_src m))) (set_dist 0 (set_counter 0 (set_num_extra 0 (m_regs m)))) (m_out m).

Definition tinfl_step (m : machine) : next :=
  match m_state m with
  | L0 => Go (clear_locals m)
  | L3 => step_block m
  | L7 => step_header m
  | L51 | L52 | L9 | L38 => step_stored m
  | L_block_end => step_block_end m
  | L11 | L14 => step_sizes m
  | L_tables => step_tables m
  | L16 again => step_lengths again m
  | L18 => step_repeat m
  | L23 again => step_symbol again m
  | L24 => step_literal m
  | L_length | L25 | L26 _ | L27 => step_match m
  | L_copy => step_copy m
  | L53 => step_slow_copy m
  | Failed _ => Stop TINFL_STATUS_FAILED m
  | Done => Stop TINFL_STATUS_DONE m
  end.

(** Steps until the coroutine returns. *)
Fixpoint tinfl_run (fuel : nat) (m : machine) : read (tinfl_status * machine) :=
  match fuel with
  | O => Endless
  | S fuel' =>
      match tinfl_step m with
      | Go m' => tinfl_run fuel' m'
      | Stop s m' => Got (s, m')
      | Crash => OutOfBounds
      end
  end.
End Call.

(** Steps a call can take: those of a block's header are less than 2048, and each few of the
    others use up input or write. *)
Definition tinfl_fuel (num_bits : Z) (input : list Z) (room : Z) : nat :=
  Z.to_nat (32 * (num_bits + 8 * len input + room + 64)).

Definition inflate_call (d : decompressor) (input buf : list Z) (pos room flags : Z)
    : read (tinfl_status * decompressor * nat * list Z) :=
  let flat := negb (Z.land flags TINFL_FLAG_USING_NON_WRAPPING_OUTPUT_BUF =? 0) in
  let more := negb (Z.land flags TINFL_FLAG_HAS_MORE_INPUT =? 0) in
  let mask := pos + room - 1 in
  if negb flat && negb (Z.land (mask + 1) mask =? 0) then Got (TINFL_STATUS_BAD_PARAM, d, O, []) else
  '(s, m) ← tinfl_run more buf pos room mask flat (tinfl_fuel (d_num_bits d) input room)
              (Machine (d_state d) (Src (d_bit_buf d) (d_num_bits d) input) (d_regs d) []);
  Got (s, Decompressor (m_state m) (bit_buf (m_src m)) (num_bits (m_src m)) (m_regs m),
       (length input - length (pIn (m_src m)))%nat, m_out m).

(** [tinfl_init] sets the state only. *)
Definition new_table : tinfl_huff_table := HuffTable (replicate 288 0) (replicate 1024 0) (replicate 576 0).
Definition new_decompressor : decompressor :=
  Decompressor L0 0 0 (Regs 0 0 0 0 0 0 (replicate 4 0) (replicate 3 0) (replicate 3 new_table) (replicate 457 0)).

(** [tinfl_decompress_mem_to_callback] without flags; [put] says whether the callback takes
    a piece.  Back come the result, how much of the input was used up, and what the callback
    was given. *)
Fixpoint callback_loop (fuel : nat) (put : list Z → bool) (d : decompressor) (input pDict : list Z) (dict_ofs : Z)
    : read (Z * nat * list Z) :=
  match fuel with
  | O => Endless
  | S fuel' =>
      '(status, d, used, out) ← inflate_call d input pDict dict_ofs (TINFL_LZ_DICT_SIZE - dict_ofs) 0;
      if negb (len out =? 0) && negb (put out) then Got (0, used, out) else
      match status with
      | TINFL_STATUS_HAS_MORE_OUTPUT =>
          '(result, u, o) ← callback_loop fuel' put d (drop used input) (write_at dict_ofs out pDict)
                              (Z.land (dict_ofs + len out) (TINFL_LZ_DICT_SIZE - 1));
          Got (result, (used + u)%nat, out ++ o)
      | TINFL_STATUS_DONE => Got (1, used, out)
      | _ => Got (0, used, out)
      end
  end.

Definition tinfl_decompress_mem_to_callback (fuel : nat) (alloc : Z → bool) (put : list Z → bool) (input : list Z)
    : read (Z * nat * list Z) :=
  if alloc TINFL_LZ_DICT_SIZE then callback_loop fuel put new_decompressor input [] 0
  else Got (-1, length input, []).
