(* ===== verification/HuffTable.v ===== *)
(** * The tables of the decompressor

    [build_table] makes, for the lengths of a code, a table that finds every symbol: the
    entry of the first ten bits, or the way through the tree of the bits after them. *)
From stdpp Require Import strings gmap list numbers.
From S2P Require Import Prelude CString FileSys ZipReader ZipCrc Unzip ZipFormat Deflate Inflate.
Local Open Scope Z_scope.

(** ** Arrays *)

Lemma put_at_some {A} (l : list A) i x : 0 ≤ i < Z.of_nat (length l) → ∃ l', put_at i x l = Some l'.
Proof.
  intros H. unfold put_at. rewrite (proj2 (Z.leb_le _ _)), (proj2 (Z.ltb_lt _ _)) by lia. by eexists.
Qed.

Lemma put_at_length {A} (l l' : list A) i x : put_at i x l = Some l' → length l' = length l.
Proof. unfold put_at. case_match; [|done]. intros [= <-]. apply length_insert. Qed.

Lemma at_put {A} (l l' : list A) i x j : put_at i x l = Some l' → at_ l' j = if decide (j = i) then Some x else at_ l j.
Proof.
  unfold put_at, at_. destruct (0 <=? i) eqn:E1, (i <? Z.of_nat (length l)) eqn:E2; try done. intros [= <-].
  apply Z.leb_le in E1. apply Z.ltb_lt in E2. destruct (decide (j = i)) as [->|Hne].
  - rewrite (proj2 (Z.ltb_ge _ _)) by lia. apply list_lookup_insert_eq. lia.
  - destruct (Z.ltb_spec j 0); [done|]. apply list_lookup_insert_ne. lia.
Qed.

Lemma at_some {A} (l : list A) i : 0 ≤ i < Z.of_nat (length l) → is_Some (at_ l i).
Proof. intros H. unfold at_. rewrite (proj2 (Z.ltb_ge _ _)) by lia. apply lookup_lt_is_Some. lia. Qed.

Lemma at_range {A} (l : list A) i x : at_ l i = Some x → 0 ≤ i < Z.of_nat (length l).
Proof. unfold at_. destruct (Z.ltb_spec i 0); [done|]. intros Hl%lookup_lt_Some. lia. Qed.

Lemma at_replicate {A} n (x : A) i : 0 ≤ i < Z.of_nat n → at_ (replicate n x) i = Some x.
Proof. intros H. unfold at_. rewrite (proj2 (Z.ltb_ge _ _)) by lia. apply lookup_replicate_2. lia. Qed.

(** ** Bits *)

Definition bit (V : Z) (d : nat) : Z := (V / 2 ^ Z.of_nat d) mod 2.

Lemma bit_range V d : 0 ≤ bit V d ≤ 1.
Proof. unfold bit. pose proof (Z.mod_pos_bound (V / 2 ^ Z.of_nat d) 2 ltac:(lia)). lia. Qed.

Lemma mod_pow2_S V d : V mod 2 ^ Z.of_nat (S d) = V mod 2 ^ Z.of_nat d + bit V d * 2 ^ Z.of_nat d.
Proof.
  pose proof (pow2_pos (Z.of_nat d) ltac:(lia)). rewrite Nat2Z.inj_succ, <-Z.add_1_r, Z.pow_add_r by lia.
  rewrite Z.rem_mul_r by lia. unfold bit. change (2 ^ 1) with 2. lia.
Qed.

Lemma bit_mod V W d n : V mod 2 ^ Z.of_nat n = W mod 2 ^ Z.of_nat n → (d < n)%nat → bit V d = bit W d.
Proof.
  intros E Hd. pose proof (mod_pow2_S V d) as H1. pose proof (mod_pow2_S W d) as H2.
  rewrite <-(mod_mod_pow2 V (Z.of_nat (S d)) (Z.of_nat n)), E, mod_mod_pow2 in H1 by lia.
  rewrite <-(mod_mod_pow2 V (Z.of_nat d) (Z.of_nat n)), E, mod_mod_pow2 in H1 by lia.
  pose proof (pow2_pos (Z.of_nat d) ltac:(lia)). nia.
Qed.

Lemma mod_pow2_le V W n m : V mod 2 ^ Z.of_nat n = W mod 2 ^ Z.of_nat n → (m ≤ n)%nat → V mod 2 ^ Z.of_nat m = W mod 2 ^ Z.of_nat m.
Proof. intros E H. rewrite <-(mod_mod_pow2 V _ (Z.of_nat n)), E, mod_mod_pow2 by lia. done. Qed.

Lemma land_bit V n : 0 ≤ n → Z.land (Z.shiftr V n) 1 = bit V (Z.to_nat n).
Proof. intros H. unfold bit. rewrite Z2Nat.id, Z.shiftr_div_pow2 by done. change 1 with (Z.ones 1). by rewrite Z.land_ones. Qed.

Lemma reverse_bits_rev l r c : 0 ≤ r → reverse_bits l r c = r * 2 ^ Z.of_nat l + rev_bits l c.
Proof.
  revert r c. induction l as [|l IH]; intros r c Hr; cbn [reverse_bits rev_bits]; [cbn; lia|].
  assert (Z.lor (Z.shiftl r 1) (Z.land c 1) = 2 * r + c mod 2) as ->.
  { change 1 with (Z.ones 1) at 2. rewrite Z.land_ones, Z.lor_comm, lor_shiftl_add by (try apply Z.mod_pos_bound; lia).
    change (2 ^ 1) with 2. lia. }
  rewrite IH by (pose proof (Z.mod_pos_bound c 2 ltac:(lia)); lia).
  change (Z.shiftr c 1) with (Z.div2 c). rewrite Z.div2_div, Nat2Z.inj_succ, Z.pow_succ_r by lia. lia.
Qed.

(** ** The way through the tree *)

(** From the node [x] at depth [d] the bits of [V] lead to the leaf [s] at depth [n]. *)
Inductive leads (tree : list Z) (V : Z) : nat → Z → nat → Z → Prop :=
  | leads_leaf d x s :
      x < 0 → at_ tree (- x - 1 + bit V d) = Some s → 0 ≤ s → leads tree V d x (S d) s
  | leads_node d x y n s :
      x < 0 → at_ tree (- x - 1 + bit V d) = Some y → y < 0 → leads tree V (S d) y n s → leads tree V d x n s.

Lemma leads_lt tree V d x n s : leads tree V d x n s → (d < n)%nat.
Proof. induction 1; lia. Qed.

Lemma leads_neg tree V d x n s : leads tree V d x n s → x < 0.
Proof. by destruct 1. Qed.

Lemma leads_mod tree V W d x n s :
  leads tree V d x n s → V mod 2 ^ Z.of_nat n = W mod 2 ^ Z.of_nat n → leads tree W d x n s.
Proof.
  induction 1 as [d x s Hx Ha Hs|d x y n s Hx Ha Hy Hl IH]; intros E.
  - apply leads_leaf; [done| |done]. by rewrite <-(bit_mod V W d (S d)) by (done || lia).
  - eapply leads_node; [done| |done|by apply IH]. rewrite <-(bit_mod V W d n); [done|done|]. apply leads_lt in Hl. lia.
Qed.

(** ** Filling a table *)

Section Table.
Context (lens : list Z).
Hypothesis Hok : codes_ok lens.
Hypothesis Hlen : (length lens ≤ 288)%nat.
Notation has := (has lens).
Notation bc := (bits_code lens).
Notation node j := (- (2 * Z.of_nat j + 1)).

(** Made for a symbol before [k], or for [k] down to the depth [lim]. *)
Definition made (k lim s d : nat) : Prop := (s < k)%nat ∨ s = k ∧ (d ≤ lim)%nat.

(** After [k] symbols, and [k] itself down to the depth [lim]; [own] are the depths and bits
    of the nodes, in the order they were made. *)
Record tree_inv (k lim : nat) (lu tree : list Z) (own : list (nat * Z)) : Prop := {
  ti_lu : length lu = 1024%nat;
  ti_tree : length tree = 576%nat;
  ti_nodup : NoDup own;
  ti_own : ∀ d x, (d, x) ∈ own → (10 ≤ d)%nat ∧
    ∃ s n, made k lim s d ∧ has s n ∧ (d < n)%nat ∧ bc s n mod 2 ^ Z.of_nat d = x;
  ti_root : ∀ i x, at_ lu i = Some x → x < 0 → ∃ j, x = node j ∧ own !! j = Some (10%nat, i);
  ti_node : ∀ j d x b y, own !! j = Some (d, x) → 0 ≤ b ≤ 1 → at_ tree (2 * Z.of_nat j + b) = Some y → y < 0 →
    ∃ j', y = node j' ∧ own !! j' = Some (S d, x + b * 2 ^ Z.of_nat d);
  ti_leaf : ∀ j d x b y, own !! j = Some (d, x) → 0 ≤ b ≤ 1 → at_ tree (2 * Z.of_nat j + b) = Some y → 0 < y →
    ∃ s, made k lim s (S d) ∧ has s (S d) ∧ bc s (S d) = x + b * 2 ^ Z.of_nat d;
  ti_free : ∀ i, 2 * Z.of_nat (length own) ≤ i < 576 → at_ tree i = Some 0;
  ti_pos : ∀ i x, at_ lu i = Some x → 0 < x → ∃ s n, (s < k)%nat ∧ has s n ∧ (n ≤ 10)%nat ∧
    x = Z.of_nat n * 512 + Z.of_nat s ∧ i mod 2 ^ Z.of_nat n = bc s n;
  ti_fast : ∀ s n i, (s < k)%nat → has s n → (n ≤ 10)%nat → 0 ≤ i < 1024 → i mod 2 ^ Z.of_nat n = bc s n →
    at_ lu i = Some (Z.of_nat n * 512 + Z.of_nat s);
  ti_slow : ∀ s n, (s < k)%nat → has s n → (10 < n)%nat →
    ∃ x, at_ lu (bc s n mod 1024) = Some x ∧ leads tree (bc s n) 10 x n (Z.of_nat s)
}.

Lemma has_fun s n m : has s n → has s m → n = m.
Proof. clear Hok Hlen. intros [H1 _] [H2 _]. rewrite H1 in H2. injection H2. lia. Qed.

Lemma bc_range s n : 0 ≤ bc s n < 2 ^ Z.of_nat n.
Proof. apply rev_range. Qed.

Lemma own_bound k lim lu tree own : tree_inv k lim lu tree own → (length own ≤ 288)%nat.
Proof.
  intros []. apply (inner_bound lens Hok); [done| |done]. intros [d x] H. destruct (ti_own0 d x H) as (Hd & s & n & _ & Hs & Hlt & E).
  split; [done|]. by exists s, n.
Qed.

(** The slots of two nodes are different. *)
Lemma slot_inj j b j' b' : 0 ≤ b ≤ 1 → 0 ≤ b' ≤ 1 → 2 * Z.of_nat j + b = 2 * Z.of_nat j' + b' → j = j' ∧ b = b'.
Proof. lia. Qed.

(** The node at a depth of the way. *)
Lemma leads_at k lim lu tree own V d0 j0 n s d :
  tree_inv k lim lu tree own → leads tree V d0 (node j0) n s → own !! j0 = Some (d0, V mod 2 ^ Z.of_nat d0) →
  (d0 ≤ d < n)%nat →
  ∃ j y, own !! j = Some (d, V mod 2 ^ Z.of_nat d) ∧ at_ tree (2 * Z.of_nat j + bit V d) = Some y ∧
    (y < 0 ∧ (S d < n)%nat ∨ y = s ∧ S d = n).
Proof.
  intros Hi Hl. remember (node j0) as x eqn:Ex. revert j0 Ex.
  induction Hl as [d0 x s Hx Ha Hs|d0 x y n s Hx Ha Hy Hl IH]; intros j0 -> Hj Hd.
  - assert (d = d0) as -> by lia. exists j0, s. split_and!; [done| |by right]. rewrite <-Ha. f_equal. lia.
  - replace (- node j0 - 1 + bit V d0) with (2 * Z.of_nat j0 + bit V d0) in Ha by lia.
    destruct (decide (d = d0)) as [->|Hne].
    + exists j0, y. split_and!; [done|done|]. left. split; [done|]. by apply leads_lt in Hl.
    + destruct (ti_node _ _ _ _ _ Hi j0 d0 _ _ y Hj (bit_range V d0) Ha Hy) as (j' & Ey & Hj').
      rewrite <-mod_pow2_S in Hj'. apply (IH j'); [done|done|lia].
Qed.

(** A slot that is not on the way may change. *)
Lemma leads_keep k lim lu tree own V d0 j0 n s j d p b y tree' :
  tree_inv k lim lu tree own → leads tree V d0 (node j0) n s → own !! j0 = Some (d0, V mod 2 ^ Z.of_nat d0) →
  own !! j = Some (d, p) → 0 ≤ b ≤ 1 → ((d < n)%nat → V mod 2 ^ Z.of_nat (S d) ≠ p + b * 2 ^ Z.of_nat d) →
  put_at (2 * Z.of_nat j + b) y tree = Some tree' → leads tree' V d0 (node j0) n s.
Proof.
  intros Hi Hl Hj0 Hj Hb Hne Hput. remember (node j0) as x eqn:Ex. revert j0 Ex Hj0.
  assert (Hslot : ∀ d0 j0, own !! j0 = Some (d0, V mod 2 ^ Z.of_nat d0) → (d0 < n)%nat →
    at_ tree' (2 * Z.of_nat j0 + bit V d0) = at_ tree (2 * Z.of_nat j0 + bit V d0)).
  { intros d1 j1 H1 Hlt. rewrite (at_put _ _ _ _ _ Hput). destruct (decide _) as [E|]; [|done]. exfalso.
    apply slot_inj in E as [-> Eb]; [|apply bit_range|done]. rewrite Hj in H1. injection H1 as -> ->.
    apply (Hne Hlt). by rewrite mod_pow2_S, Eb. }
  clear Hput. induction Hl as [d0 x s Hx Ha Hs|d0 x y' n s Hx Ha Hy Hl IH]; intros j0 -> Hj0.
  - apply leads_leaf; [done| |done]. replace (- node j0 - 1 + bit V d0) with (2 * Z.of_nat j0 + bit V d0) in * by lia.
    by rewrite Hslot by (done || lia).
  - pose proof (leads_lt _ _ _ _ _ _ Hl) as Hlt.
    replace (- node j0 - 1 + bit V d0) with (2 * Z.of_nat j0 + bit V d0) in * by lia.
    destruct (ti_node _ _ _ _ _ Hi j0 d0 _ _ y' Hj0 (bit_range V d0) Ha Hy) as (j' & Ey & Hj').
    rewrite <-mod_pow2_S in Hj'. eapply leads_node; [done| |done|by apply (IH ltac:(done) ltac:(done) j')].
    replace (- node j0 - 1 + bit V d0) with (2 * Z.of_nat j0 + bit V d0) by lia. by rewrite Hslot by (done || lia).
Qed.

Lemma own_unique k lim lu tree own j j' dx :
  tree_inv k lim lu tree own → own !! j = Some dx → own !! j' = Some dx → j = j'.
Proof. intros Hi. apply NoDup_lookup. by destruct Hi. Qed.

Lemma slow_path k lim lu tree own s n :
  tree_inv k lim lu tree own → (s < k)%nat → has s n → (10 < n)%nat →
  ∃ j0, at_ lu (bc s n mod 1024) = Some (node j0) ∧ own !! j0 = Some (10%nat, bc s n mod 2 ^ Z.of_nat 10) ∧
    leads tree (bc s n) 10 (node j0) n (Z.of_nat s).
Proof.
  intros Hi Hs Hn Hlt. destruct (ti_slow _ _ _ _ _ Hi s n Hs Hn Hlt) as (x & Hx & Hl).
  destruct (ti_root _ _ _ _ _ Hi _ x Hx (leads_neg _ _ _ _ _ _ Hl)) as (j & -> & Hj). by exists j.
Qed.

(** Deeper for the same symbol. *)
Lemma tree_inv_deeper k lim lim' lu tree own : (lim ≤ lim')%nat → tree_inv k lim lu tree own → tree_inv k lim' lu tree own.
Proof.
  intros Hle []. split; try done.
  - intros d x H. destruct (ti_own0 d x H) as (? & s & n & Hm & ?). split; [done|]. exists s, n. split; [|done].
    destruct Hm; [by left|right; lia].
  - intros j d x b y H1 H2 H3 H4. destruct (ti_leaf0 j d x b y H1 H2 H3 H4) as (s & Hm & ?). exists s. split; [|done].
    destruct Hm; [by left|right; lia].
Qed.

Section Grow.
Context (k n : nat) (lu : list Z).
Hypothesis Hk : has k n.
Notation R := (bc k n).

(** The slot below a node on the way of [k]. *)
Notation slot j d := (2 * Z.of_nat j + bit R d).

(** No other symbol's way goes through an empty slot on the way of [k], nor through the one
    of its leaf. *)
Lemma others_elsewhere tree own d j s m :
  tree_inv k d lu tree own → own !! j = Some (d, R mod 2 ^ Z.of_nat d) → (10 ≤ d)%nat →
  at_ tree (slot j d) = Some 0 ∧ (S d < n)%nat ∨ S d = n →
  (s < k)%nat → has s m → (10 < m)%nat → (d < m)%nat → bc s m mod 2 ^ Z.of_nat (S d) ≠ R mod 2 ^ Z.of_nat (S d).
Proof.
  intros Hi Hj Hd Hcase Hs Hm Hlong Hdm E.
  assert (Hconf : ∀ a na b nb, has a na → has b nb → (na ≤ nb)%nat → bc b nb mod 2 ^ Z.of_nat na = bc a na → a = b).
  { intros. by eapply (prefix_free lens Hok a na b nb). }
  destruct Hcase as [[H0 Hlt]|Hn].
  - destruct (slow_path _ _ _ _ _ s m Hi Hs Hm Hlong) as (j0 & _ & Hj0 & Hl).
    destruct (leads_at _ _ _ _ _ _ _ _ _ _ d Hi Hl Hj0 ltac:(lia)) as (j' & y & Hj' & Hy & Hcase).
    rewrite (mod_pow2_le _ _ _ d E) in Hj' by lia. pose proof (own_unique _ _ _ _ _ _ _ _ Hi Hj Hj') as <-.
    rewrite (bit_mod _ R d (S d)) in Hy by (done || lia). rewrite H0 in Hy. injection Hy as <-.
    destruct Hcase as [[? _]|[_ <-]]; [lia|]. assert (s = k); [|lia]. apply (Hconf s (S d) k n); [done..|lia|].
    rewrite <-E. apply Z.mod_small, bc_range.
  - assert (k = s); [|lia]. apply (Hconf k n s m); [done..|lia|]. rewrite <-Hn, E, Hn. apply Z.mod_small, bc_range.
Qed.

(** What a slot on the way of [k] can hold. *)
Lemma slot_cases tree own d j y :
  tree_inv k d lu tree own → own !! j = Some (d, R mod 2 ^ Z.of_nat d) → (S d < n)%nat →
  at_ tree (slot j d) = Some y → y ≠ 0 →
  ∃ j', y = node j' ∧ own !! j' = Some (S d, R mod 2 ^ Z.of_nat (S d)).
Proof.
  intros Hi Hj Hlt Hy H0. destruct (Z.lt_ge_cases y 0) as [Hneg|Hpos].
  - destruct (ti_node _ _ _ _ _ Hi j d _ _ y Hj (bit_range R d) Hy Hneg) as (j' & -> & Hj'). exists j'.
    by rewrite mod_pow2_S.
  - destruct (ti_leaf _ _ _ _ _ Hi j d _ _ y Hj (bit_range R d) Hy ltac:(lia)) as (s & _ & Hs & E).
    rewrite <-mod_pow2_S in E. assert (s = k) as ->.
    { by apply (prefix_free lens Hok s (S d) k n Hs Hk ltac:(lia)). }
    pose proof (has_fun k n (S d) Hk Hs). lia.
Qed.

(** One slot on the way of [k] is written. *)
Lemma slow_kept tree own d j y tree' :
  tree_inv k d lu tree own → own !! j = Some (d, R mod 2 ^ Z.of_nat d) → (10 ≤ d)%nat →
  at_ tree (slot j d) = Some 0 ∧ (S d < n)%nat ∨ S d = n → put_at (slot j d) y tree = Some tree' →
  ∀ s m, (s < k)%nat → has s m → (10 < m)%nat →
    ∃ x, at_ lu (bc s m mod 1024) = Some x ∧ leads tree' (bc s m) 10 x m (Z.of_nat s).
Proof.
  intros Hi Hj Hd Hcase Hput s m Hs Hm Hlong. destruct (slow_path _ _ _ _ _ s m Hi Hs Hm Hlong) as (j0 & Hlu & Hj0 & Hl).
  exists (node j0). split; [done|]. eapply (leads_keep _ _ _ _ _ _ _ _ _ _ _ _ _ _ _ _ Hi Hl Hj0 Hj (bit_range R d)); [|exact Hput].
  intros Hdm. rewrite <-mod_pow2_S. by eapply others_elsewhere.
Qed.

Lemma write_node tree own d j tree' :
  tree_inv k d lu tree own → own !! j = Some (d, R mod 2 ^ Z.of_nat d) → (10 ≤ d)%nat → (S d < n)%nat →
  at_ tree (slot j d) = Some 0 → put_at (slot j d) (node (length own)) tree = Some tree' →
  tree_inv k (S d) lu tree' (own ++ [(S d, R mod 2 ^ Z.of_nat (S d))]).
Proof.
  intros Hi Hj Hd Hlt H0 Hput. pose proof (slow_kept _ _ _ _ _ _ Hi Hj Hd ltac:(by left) Hput) as Hslow.
  pose proof (λ s m, others_elsewhere _ _ _ _ s m Hi Hj Hd ltac:(by left)) as Hothers.
  assert (Hnew : (S d, R mod 2 ^ Z.of_nat (S d)) ∉ own).
  { intros Hin. destruct (ti_own _ _ _ _ _ Hi _ _ Hin) as (_ & s & m & [Hs|[-> Hle]] & Hm & Hdm & E); [|lia].
    by apply (Hothers s m Hs Hm); [lia..|]. }
  assert (Hat : ∀ i, at_ tree' i = if decide (i = slot j d) then Some (node (length own)) else at_ tree i)
    by (intros i; by apply at_put).
  assert (Hjlt : (j < length own)%nat) by by eapply lookup_lt_Some.
  pose proof (bit_range R d) as Hb. destruct (tree_inv_deeper k d (S d) lu tree own ltac:(lia) Hi). split; try done.
  - by rewrite (put_at_length _ _ _ _ Hput).
  - apply NoDup_app. split_and!; [done| |apply NoDup_singleton]. intros dx Hin ->%list_elem_of_singleton. done.
  - intros d' x [Hin|Hin%list_elem_of_singleton]%elem_of_app; [by apply ti_own0|]. injection Hin as -> ->. split; [lia|].
    exists k, n. split_and!; [right; lia|done|done|done].
  - intros i x Hx Hneg. destruct (ti_root0 i x Hx Hneg) as (j' & -> & Hj'). exists j'. split; [done|]. by apply lookup_app_l_Some.
  - intros j' d' x b y Hj' Hbb. rewrite Hat. destruct (decide _) as [E|Hne].
    + apply slot_inj in E as [-> ->]; [|done|done]. rewrite lookup_app_l, Hj in Hj' by done. injection Hj' as <- <-.
      intros [= <-] _. exists (length own). split; [done|]. rewrite lookup_app_r, Nat.sub_diag by lia. cbn. by rewrite mod_pow2_S.
    + intros Hy Hneg. apply lookup_app_Some in Hj' as [Hj'|[Hge Hj']].
      * destruct (ti_node0 j' d' x b y Hj' Hbb Hy Hneg) as (j2 & -> & Hj2). exists j2. split; [done|]. by apply lookup_app_l_Some.
      * exfalso. pose proof (at_range _ _ _ Hy). rewrite ti_free0 in Hy by lia. injection Hy. lia.
  - intros j' d' x b y Hj' Hbb. rewrite Hat. destruct (decide _) as [E|Hne]; [intros [= <-]; lia|].
    intros Hy Hpos. apply lookup_app_Some in Hj' as [Hj'|[Hge Hj']]; [by apply (ti_leaf0 j' d' x b y)|].
    exfalso. pose proof (at_range _ _ _ Hy). rewrite ti_free0 in Hy by lia. injection Hy. lia.
  - intros i. rewrite length_app. cbn [length]. intros Hi'. rewrite Hat. destruct (decide _); [lia|]. apply ti_free0. lia.
Qed.

Lemma write_leaf tree own d j tree' :
  tree_inv k d lu tree own → own !! j = Some (d, R mod 2 ^ Z.of_nat d) → (10 ≤ d)%nat → S d = n →
  put_at (slot j d) (Z.of_nat k) tree = Some tree' → tree_inv k n lu tree' own.
Proof.
  intros Hi Hj Hd Hn Hput. pose proof (slow_kept _ _ _ _ _ _ Hi Hj Hd ltac:(by right) Hput) as Hslow.
  assert (Hat : ∀ i, at_ tree' i = if decide (i = slot j d) then Some (Z.of_nat k) else at_ tree i)
    by (intros i; by apply at_put).
  assert (Hjlt : (j < length own)%nat) by by eapply lookup_lt_Some.
  pose proof (bit_range R d) as Hb. destruct (tree_inv_deeper k d n lu tree own ltac:(lia) Hi). split; try done.
  - by rewrite (put_at_length _ _ _ _ Hput).
  - intros j' d' x b y Hj' Hbb. rewrite Hat. destruct (decide _) as [E|Hne]; [intros [= <-]; lia|]. by apply ti_node0.
  - intros j' d' x b y Hj' Hbb. rewrite Hat. destruct (decide _) as [E|Hne]; [|by apply ti_leaf0].
    apply slot_inj in E as [-> ->]; [|done|done]. rewrite Hj in Hj'. injection Hj' as <- <-. intros [= <-] _.
    exists k. rewrite Hn. split_and!; [right; lia|done|]. rewrite <-mod_pow2_S, Hn. symmetry. apply Z.mod_small, bc_range.
  - intros i Hi'. rewrite Hat. destruct (decide _); [lia|]. by apply ti_free0.
Qed.

(** From a node of the way down to the leaf. *)
Lemma grow_tree_ok g tree own d j :
  tree_inv k d lu tree own → own !! j = Some (d, R mod 2 ^ Z.of_nat d) → (10 ≤ d)%nat → S (d + g) = n →
  ∃ tree' own', grow_tree g (node j) (node (length own)) (Z.shiftr R (Z.of_nat d - 1)) (Z.of_nat k) tree = Some (tree', node (length own')) ∧
    tree_inv k n lu tree' own' ∧ leads tree' R d (node j) n (Z.of_nat k) ∧ own `prefix_of` own' ∧
    ∀ j0 d0 p b0, own !! j0 = Some (d0, p) → (d0 < d)%nat → 0 ≤ b0 ≤ 1 →
      at_ tree' (2 * Z.of_nat j0 + b0) = at_ tree (2 * Z.of_nat j0 + b0).
Proof.
  revert tree own d j. induction g as [|g IH]; intros tree own d j Hi Hj Hd Hn; cbn [grow_tree]; rewrite Z.shiftr_shiftr by lia;
    replace (Z.of_nat d - 1 + 1) with (Z.of_nat d) by lia; rewrite land_bit, Nat2Z.id by lia;
    replace (- (node j - bit R d) - 1) with (slot j d) by lia; pose proof (bit_range R d) as Hb;
    pose proof (own_bound _ _ _ _ _ Hi) as Hob; pose proof (lookup_lt_Some _ _ _ Hj) as Hjl; pose proof (ti_tree _ _ _ _ _ Hi) as Htl.
  - destruct (put_at_some tree (slot j d) (Z.of_nat k)) as [tree' Hput]; [lia|]. rewrite Hput. cbn [mbind option_bind].
    exists tree', own. split_and!; [done|by eapply write_leaf; eauto; lia| |done|].
    + assert (HL : leads tree' R d (node j) (S d) (Z.of_nat k)); [|by replace (S d) with n in HL by lia].
      apply leads_leaf; [lia| |lia]. replace (- node j - 1 + bit R d) with (slot j d) by lia.
      by rewrite (at_put _ _ _ _ _ Hput), decide_True.
    + intros j0 d0 p b0 Hj0 Hlt Hb0. rewrite (at_put _ _ _ _ _ Hput). destruct (decide _) as [E|]; [|done]. exfalso.
      apply slot_inj in E as [-> _]; [|done|done]. rewrite Hj in Hj0. injection Hj0. lia.
  - destruct (at_some tree (slot j d)) as [x Hx]; [lia|]. rewrite Hx. cbn [mbind option_bind].
    destruct (Z.eqb_spec x 0) as [->|Hne].
    + destruct (put_at_some tree (slot j d) (node (length own))) as [tree1 Hput]; [lia|]. rewrite Hput. cbn [mbind option_bind].
      set (own1 := own ++ [(S d, R mod 2 ^ Z.of_nat (S d))]).
      assert (Hi1 : tree_inv k (S d) lu tree1 own1) by (eapply write_node; eauto; lia).
      assert (Hj1 : own1 !! length own = Some (S d, R mod 2 ^ Z.of_nat (S d))) by (unfold own1; rewrite lookup_app_r, Nat.sub_diag by lia; done).
      destruct (IH tree1 own1 (S d) (length own) Hi1 Hj1 ltac:(lia) ltac:(lia)) as (tree' & own' & Hg & Hi' & Hl & Hpre & Hkeep).
      replace (node (length own) - 2) with (node (length own1)) by (unfold own1; rewrite length_app; cbn [length]; lia).
      replace (Z.shiftr R (Z.of_nat d)) with (Z.shiftr R (Z.of_nat (S d) - 1)) by (f_equal; lia).
      exists tree', own'. split_and!; [exact Hg|exact Hi'| | |].
      * eapply leads_node; [lia| | |exact Hl]; [|lia]. replace (- node j - 1 + bit R d) with (slot j d) by lia.
        rewrite (Hkeep j d (R mod 2 ^ Z.of_nat d)); [|by apply lookup_app_l_Some|lia|done].
        by rewrite (at_put _ _ _ _ _ Hput), decide_True.
      * etrans; [|exact Hpre]. by eexists.
      * intros j0 d0 p b0 Hj0 Hlt Hb0. rewrite (Hkeep j0 d0 p b0); [|by apply lookup_app_l_Some|lia|done].
        rewrite (at_put _ _ _ _ _ Hput). destruct (decide _) as [E|]; [|done]. exfalso.
        apply slot_inj in E as [-> _]; [|done|done]. rewrite Hj in Hj0. injection Hj0. lia.
    + destruct (slot_cases tree own d j x Hi Hj ltac:(lia) Hx Hne) as (j' & -> & Hj').
      destruct (IH tree own (S d) j' ltac:(apply (tree_inv_deeper k d); [lia|done]) Hj' ltac:(lia) ltac:(lia))
        as (tree' & own' & Hg & Hi' & Hl & Hpre & Hkeep).
      replace (Z.shiftr R (Z.of_nat d)) with (Z.shiftr R (Z.of_nat (S d) - 1)) by (f_equal; lia).
      exists tree', own'. split_and!; [exact Hg|exact Hi'| |exact Hpre|].
      * eapply leads_node; [lia| | |exact Hl]; [|lia]. replace (- node j - 1 + bit R d) with (slot j d) by lia.
        rewrite (Hkeep j d (R mod 2 ^ Z.of_nat d)); [done|done|lia|done].
      * intros j0 d0 p b0 Hj0 Hlt Hb0. apply (Hkeep j0 d0 p); [done|lia|done].
Qed.
End Grow.

(** A symbol is finished. *)
Lemma tree_inv_next k lim lu tree own :
  tree_inv k lim lu tree own →
  (∀ n, has k n → (10 < n)%nat ∧ ∃ x, at_ lu (bc k n mod 1024) = Some x ∧ leads tree (bc k n) 10 x n (Z.of_nat k)) →
  tree_inv (S k) 0 lu tree own.
Proof.
  intros [] Hk. split; try done.
  - intros d x H. destruct (ti_own0 d x H) as (? & s & n & Hm & ?). split; [done|]. exists s, n. split; [|done]. left. destruct Hm; lia.
  - intros j d x b y H1 H2 H3 H4. destruct (ti_leaf0 j d x b y H1 H2 H3 H4) as (s & Hm & ?). exists s. split; [|done]. left. destruct Hm; lia.
  - intros i x H1 H2. destruct (ti_pos0 i x H1 H2) as (s & n & Hs & ?). exists s, n. split; [lia|done].
  - intros s n i Hs Hn Hle. destruct (decide (s = k)) as [->|]; [destruct (Hk n Hn); lia|]. apply ti_fast0; [lia|done|done].
  - intros s n Hs Hn Hlt. destruct (decide (s = k)) as [->|]; [by destruct (Hk n Hn)|]. apply ti_slow0; [lia|done|done].
Qed.

Lemma fill_look_up_ok fuel r st v lu :
  0 ≤ r → 0 < st → 1024 ≤ r + Z.of_nat fuel * st → length lu = 1024%nat →
  ∃ lu', fill_look_up fuel r st v lu = Some lu' ∧ length lu' = 1024%nat ∧
    ∀ i, at_ lu' i = if decide (r ≤ i < 1024 ∧ (i - r) mod st = 0) then Some v else at_ lu i.
Proof.
  revert r lu. induction fuel as [|fuel IH]; intros r lu Hr Hst Hf Hl; cbn [fill_look_up].
  { exists lu. split_and!; [done..|]. intros i. rewrite decide_False by lia. done. }
  unfold TINFL_FAST_LOOKUP_SIZE. destruct (Z.ltb_spec r 1024) as [Hlt|Hge].
  2: { exists lu. split_and!; [done..|]. intros i. rewrite decide_False by lia. done. }
  destruct (put_at_some lu r v) as [l1 H1]; [lia|]. rewrite H1. cbn [mbind option_bind].
  destruct (IH (r + st) l1) as (lu' & Hfill & Hlen' & Hat); [lia|done|lia|by rewrite (put_at_length _ _ _ _ H1)|].
  exists lu'. split_and!; [done..|]. intros i. rewrite Hat, (at_put _ _ _ _ _ H1).
  assert (Hm : (i - (r + st)) mod st = (i - r) mod st).
  { replace (i - r) with (i - (r + st) + 1 * st) by lia. by rewrite Z.mod_add by lia. }
  rewrite Hm. destruct (decide (i = r)) as [->|Hne].
  - rewrite (decide_False (P := r + st ≤ r < 1024 ∧ _)) by lia. rewrite decide_True; [done|]. by rewrite Z.sub_diag, Z.mod_0_l by lia.
  - destruct (decide (r + st ≤ i < 1024 ∧ (i - r) mod st = 0)) as [?|Hn]; [by rewrite decide_True by lia|].
    rewrite decide_False; [done|]. intros [Hi Hz]. apply Hn. split; [|done]. apply Z.mod_divide in Hz as [q Hq]; [|lia].
    assert (1 ≤ q) by nia. nia.
Qed.

(** The entries of a short code. *)
Lemma tree_inv_fast k n lu tree own lu' :
  tree_inv k 0 lu tree own → has k n → (n ≤ 10)%nat → length lu' = 1024%nat →
  (∀ i, at_ lu' i = if decide (0 ≤ i < 1024 ∧ i mod 2 ^ Z.of_nat n = bc k n) then Some (Z.of_nat n * 512 + Z.of_nat k) else at_ lu i) →
  tree_inv (S k) 0 lu' tree own.
Proof.
  intros Hi Hk Hn Hl Hat. pose proof (λ a na b nb, prefix_free lens Hok a na b nb) as Hconf. pose proof Hi as [].
  assert (Hpos : 0 < Z.of_nat n * 512 + Z.of_nat k) by (destruct Hk; lia).
  assert (Hlow : ∀ d x, (d, x) ∈ own → x mod 2 ^ Z.of_nat n ≠ bc k n).
  { intros d x Hin E. destruct (ti_own0 d x Hin) as (Hd & s & m & Hm & Hs & Hlt & Ex). rewrite <-Ex, mod_mod_pow2 in E by lia.
    pose proof (Hconf k n s m Hk Hs ltac:(lia) E) as <-. destruct Hm; lia. }
  split; try done.
  - intros d x H. destruct (ti_own0 d x H) as (? & s & m & Hm & ?). split; [done|]. exists s, m. split; [|done]. left. destruct Hm; lia.
  - intros i x. rewrite Hat. destruct (decide _); [intros [= <-]; lia|]. apply ti_root0.
  - intros j d x b y H1 H2 H3 H4. destruct (ti_leaf0 j d x b y H1 H2 H3 H4) as (s & Hm & ?). exists s. split; [|done]. left. destruct Hm; lia.
  - intros i x. rewrite Hat. destruct (decide _) as [[Hr E]|_].
    + intros [= <-] _. exists k, n. split_and!; [lia|done|done|done|done].
    + intros H1 H2. destruct (ti_pos0 i x H1 H2) as (s & m & Hs & ?). exists s, m. split; [lia|done].
  - intros s m i Hs Hm Hle Hr E. rewrite Hat. destruct (decide (s = k)) as [->|Hne].
    { pose proof (has_fun k n m Hk Hm) as <-. by rewrite decide_True. }
    rewrite decide_False; [apply ti_fast0; (done || lia)|]. intros [_ E']. apply Hne. destruct (decide (n ≤ m)%nat).
    + symmetry. apply (Hconf k n s m); [done..|]. rewrite <-E, mod_mod_pow2 by lia. done.
    + apply (Hconf s m k n); [done|done|lia|]. rewrite <-E', mod_mod_pow2 by lia. done.
  - intros s m Hs Hm Hlt. destruct (decide (s = k)) as [->|Hne]; [pose proof (has_fun k n m Hk Hm); lia|].
    destruct (slow_path _ _ _ _ _ s m Hi ltac:(lia) Hm Hlt) as (j0 & Hlu & Hj0 & Hlead). exists (node j0). split; [|done].
    rewrite Hat, decide_False; [done|]. intros [_ E]. apply (Hlow 10%nat (bc s m mod 1024)); [|done].
    by apply list_elem_of_lookup_2 in Hj0.
Qed.

(** The first node of a long code. *)
Lemma write_root k n lu tree own lu' :
  tree_inv k 0 lu tree own → has k n → (10 < n)%nat → at_ lu (bc k n mod 1024) = Some 0 →
  put_at (bc k n mod 1024) (node (length own)) lu = Some lu' →
  tree_inv k 10 lu' tree (own ++ [(10%nat, bc k n mod 1024)]).
Proof.
  intros Hi Hk Hn H0 Hput. pose proof Hi as [].
  assert (Hat : ∀ i, at_ lu' i = if decide (i = bc k n mod 1024) then Some (node (length own)) else at_ lu i)
    by (intros i; by apply at_put).
  assert (Hothers : ∀ s m, (s < k)%nat → has s m → (10 < m)%nat → bc s m mod 1024 ≠ bc k n mod 1024).
  { intros s m Hs Hm Hlt E. destruct (slow_path _ _ _ _ _ s m Hi Hs Hm Hlt) as (j0 & Hlu & _). rewrite E, H0 in Hlu. injection Hlu. lia. }
  split; try done.
  - by rewrite (put_at_length _ _ _ _ Hput).
  - apply NoDup_app. split_and!; [done| |apply NoDup_singleton]. intros dx Hin ->%list_elem_of_singleton.
    destruct (ti_own0 _ _ Hin) as (_ & s & m & Hm & Hs & Hlt & E). apply (Hothers s m); [destruct Hm; lia|done|done|done].
  - intros d x [Hin|Hin%list_elem_of_singleton]%elem_of_app.
    + destruct (ti_own0 d x Hin) as (? & s & m & Hm & ?). split; [done|]. exists s, m. split; [|done]. left. destruct Hm; lia.
    + injection Hin as -> ->. split; [lia|]. exists k, n. split_and!; [right; lia|done|done|done].
  - intros i x. rewrite Hat. destruct (decide _) as [->|].
    + intros [= <-] _. exists (length own). split; [done|]. by rewrite lookup_app_r, Nat.sub_diag by lia.
    + intros Hx Hneg. destruct (ti_root0 i x Hx Hneg) as (j & -> & Hj). exists j. split; [done|]. by apply lookup_app_l_Some.
  - intros j d x b y Hj Hb Hy Hneg. apply lookup_app_Some in Hj as [Hj|[Hge Hj]].
    + destruct (ti_node0 j d x b y Hj Hb Hy Hneg) as (j2 & -> & Hj2). exists j2. split; [done|]. by apply lookup_app_l_Some.
    + exfalso. pose proof (at_range _ _ _ Hy). rewrite ti_free0 in Hy by lia. injection Hy. lia.
  - intros j d x b y Hj Hb Hy Hpos. apply lookup_app_Some in Hj as [Hj|[Hge Hj]].
    + destruct (ti_leaf0 j d x b y Hj Hb Hy Hpos) as (s & Hm & ?). exists s. split; [|done]. left. destruct Hm; lia.
    + exfalso. pose proof (at_range _ _ _ Hy). rewrite ti_free0 in Hy by lia. injection Hy. lia.
  - intros i. rewrite length_app. cbn [length]. intros ?. apply ti_free0. lia.
  - intros i x. rewrite Hat. destruct (decide _); [intros [= <-]; lia|]. apply ti_pos0.
  - intros s m i Hs Hm Hle Hr E. rewrite Hat. destruct (decide _) as [->|]; [|by apply ti_fast0].
    exfalso. rewrite (ti_fast0 s m _ Hs Hm Hle Hr E) in H0. injection H0. destruct Hm. lia.
  - intros s m Hs Hm Hlt. destruct (ti_slow0 s m Hs Hm Hlt) as (x & Hx & Hlead). exists x. split; [|done].
    rewrite Hat, decide_False; [done|]. by apply Hothers.
Qed.

(** ** The loop over the symbols *)

Record fill_inv (k : nat) (f : filling) (own : list (nat * Z)) : Prop := {
  fv_length : length (f_next_code f) = 17%nat;
  fv_next : ∀ n, (1 ≤ n ≤ 15)%nat →
    at_ (f_next_code f) (Z.of_nat n) = Some (first_code lens n + count (take k lens) (Z.of_nat n));
  fv_tree : tree_inv k 0 (f_look_up f) (f_tree f) own;
  fv_tree_next : f_tree_next f = node (length own)
}.

Lemma shiftl_9 n s : 0 ≤ s < 512 → Z.lor (Z.shiftl n 9) s = n * 512 + s.
Proof. intros H. rewrite Z.lor_comm, lor_shiftl_add by (change (2 ^ 9) with 512; lia). change (2 ^ 9) with 512. lia. Qed.

Lemma land_1023 z : Z.land z (TINFL_FAST_LOOKUP_SIZE - 1) = z mod 1024.
Proof. change (TINFL_FAST_LOOKUP_SIZE - 1) with (Z.ones 10). by rewrite Z.land_ones. Qed.

(** A long code: its first node and the way to its leaf. *)
Lemma long_code_ok k n lu tree own :
  tree_inv k 0 lu tree own → has k n → (10 < n)%nat →
  ∃ lu' tree' own' x tn, at_ lu (bc k n mod 1024) = Some x ∧
    (if x =? 0 then l ← put_at (bc k n mod 1024) (node (length own)) lu; Some (l, node (length own), node (length own) - 2)
     else Some (lu, x, node (length own))) = Some (lu', (if x =? 0 then node (length own) else x), tn) ∧
    grow_tree (n - 11) (if x =? 0 then node (length own) else x) tn (Z.shiftr (bc k n) 9) (Z.of_nat k) tree = Some (tree', node (length own')) ∧
    tree_inv (S k) 0 lu' tree' own'.
Proof.
  intros Hi Hk Hn. pose proof (ti_lu _ _ _ _ _ Hi) as Hlu. pose proof (Z.mod_pos_bound (bc k n) 1024 ltac:(lia)) as Hr.
  destruct (at_some lu (bc k n mod 1024)) as [x Hx]; [lia|].
  assert (Hgrown : ∀ lu1 own1 j, tree_inv k 10 lu1 tree own1 → own1 !! j = Some (10%nat, bc k n mod 1024) →
    at_ lu1 (bc k n mod 1024) = Some (node j) →
    ∃ tree' own', grow_tree (n - 11) (node j) (node (length own1)) (Z.shiftr (bc k n) 9) (Z.of_nat k) tree = Some (tree', node (length own')) ∧
      tree_inv (S k) 0 lu1 tree' own').
  { intros lu1 own1 j Hi1 Hj Hroot.
    destruct (grow_tree_ok k n lu1 Hk (n - 11) tree own1 10 j Hi1 Hj ltac:(lia) ltac:(lia)) as (tree' & own' & Hg & Hi' & Hl & _).
    exists tree', own'. split; [exact Hg|]. apply (tree_inv_next k n); [done|]. intros m Hm. pose proof (has_fun k n m Hk Hm) as <-.
    split; [done|]. by exists (node j). }
  destruct (Z.eqb_spec x 0) as [->|Hne].
  - destruct (put_at_some lu (bc k n mod 1024) (node (length own))) as [lu1 Hput]; [lia|].
    pose proof (write_root k n lu tree own lu1 Hi Hk Hn Hx Hput) as Hi1.
    destruct (Hgrown lu1 _ (length own) Hi1) as (tree' & own' & Hg & Hi').
    { by rewrite lookup_app_r, Nat.sub_diag by lia. }
    { by rewrite (at_put _ _ _ _ _ Hput), decide_True. }
    exists lu1, tree', own', 0, (node (length own) - 2). rewrite Z.eqb_refl, Hput. split_and!; [done|done| |done].
    rewrite length_app in Hg. cbn [length] in Hg. by replace (node (length own) - 2) with (node (length own + 1)) by lia.
  - assert (x < 0) as Hneg.
    { destruct (Z.lt_ge_cases x 0) as [|Hge]; [done|]. destruct (ti_pos _ _ _ _ _ Hi _ x Hx ltac:(lia)) as (s & m & Hs & Hm & Hle & _ & E).
      change 1024 with (2 ^ 10) in E. rewrite mod_mod_pow2 in E by lia.
      pose proof (prefix_free lens Hok s m k n Hm Hk ltac:(lia) E). lia. }
    destruct (ti_root _ _ _ _ _ Hi _ x Hx Hneg) as (j & -> & Hj).
    destruct (Hgrown lu own j) as (tree' & own' & Hg & Hi'); [by apply (tree_inv_deeper k 0); [lia|]|done|done|].
    exists lu, tree', own', (node j), (node (length own)). rewrite (proj2 (Z.eqb_neq _ _) Hne). done.
Qed.

Lemma add_symbol_ok k c f own :
  fill_inv k f own → lens !! k = Some c → ∃ f' own', add_symbol (Z.of_nat k) c f = Some f' ∧ fill_inv (S k) f' own'.
Proof.
  intros [Hl Hnext Htree Htn] Hc. destruct Hok as [Hr _]. rewrite Forall_lookup in Hr. specialize (Hr _ _ Hc).
  unfold add_symbol. destruct (Z.eqb_spec c 0) as [->|Hne].
  { exists f, own. split; [done|]. split; [done| | |done].
    - intros n Hn. rewrite (count_take_S _ _ _ _ Hc), decide_False by lia. rewrite Z.add_0_r. by apply Hnext.
    - apply (tree_inv_next k 0); [done|]. intros n [Hn ?]. rewrite Hc in Hn. injection Hn. lia. }
  assert (∃ n, c = Z.of_nat n) as [n ->] by (exists (Z.to_nat c); lia). assert (has k n) as Hk by (split; [done|lia]).
  rewrite Hnext by lia. cbn [mbind option_bind].
  rewrite <-(code_eq lens k n Hk). destruct (put_at_some (f_next_code f) (Z.of_nat n) (code lens k + 1)) as [nc Hnc]; [lia|].
  rewrite Hnc. cbn [mbind option_bind]. rewrite reverse_bits_rev, Nat2Z.id, Z.mul_0_l, Z.add_0_l by lia.
  fold (bc k n). pose proof (lookup_lt_Some _ _ _ Hc) as Hkl.
  assert (Hfill : ∀ lu' tree' own', tree_inv (S k) 0 lu' tree' own' → fill_inv (S k) (Filling nc lu' tree' (node (length own'))) own').
  { intros lu' tree' own' H'. split; [cbn [f_next_code]; by rewrite (put_at_length _ _ _ _ Hnc)| |done|done]. intros m Hm. cbn [f_next_code].
    rewrite (at_put _ _ _ _ _ Hnc), (count_take_S _ _ _ _ Hc). destruct (decide (Z.of_nat m = Z.of_nat n)) as [E|].
    - rewrite (decide_True (P := Z.of_nat n = Z.of_nat m)) by done. rewrite (code_eq lens k n Hk), E. f_equal.
      replace m with n by lia. lia.
    - rewrite (decide_False (P := Z.of_nat n = Z.of_nat m)) by lia. rewrite Z.add_0_r. by apply Hnext. }
  unfold TINFL_FAST_LOOKUP_BITS. destruct (Z.leb_spec (Z.of_nat n) 10) as [Hle|Hgt].
  - pose proof (bc_range k n) as Hbc. pose proof (pow2_pos (Z.of_nat n) ltac:(lia)) as Hp.
    destruct (fill_look_up_ok 1024 (bc k n) (2 ^ Z.of_nat n) (Z.of_nat n * 512 + Z.of_nat k) (f_look_up f))
      as (lu' & Hf & Hl' & Hat); [lia|done|lia|apply (ti_lu _ _ _ _ _ Htree)|].
    rewrite shiftl_9, Z.shiftl_mul_pow2, Z.mul_1_l by lia. change (Z.to_nat TINFL_FAST_LOOKUP_SIZE) with 1024%nat.
    rewrite Hf. cbn [mbind option_bind]. rewrite Htn. exists (Filling nc lu' (f_tree f) (node (length own))), own. split; [done|].
    apply Hfill. apply (tree_inv_fast k n (f_look_up f)); [done|done|lia|done|]. intros i. rewrite Hat.
    destruct (decide (bc k n ≤ i < 1024 ∧ (i - bc k n) mod 2 ^ Z.of_nat n = 0)) as [[Hi Hz]|Hn1].
    + rewrite decide_True; [done|]. split; [lia|]. apply Z.mod_divide in Hz as [q Hq]; [|lia].
      replace i with (bc k n + q * 2 ^ Z.of_nat n) by lia. rewrite Z.mod_add by lia. by apply Z.mod_small.
    + rewrite decide_False; [done|]. intros [Hi Hz]. apply Hn1. pose proof (Z.div_mod i (2 ^ Z.of_nat n) ltac:(lia)) as Hdm.
      pose proof (Z.div_pos i (2 ^ Z.of_nat n) ltac:(lia) ltac:(lia)). split; [nia|].
      replace (i - bc k n) with ((i / 2 ^ Z.of_nat n) * 2 ^ Z.of_nat n) by lia. apply Z.mod_mul. lia.
  - destruct (long_code_ok k n _ _ own Htree Hk ltac:(lia)) as (lu' & tree' & own' & x & tn & Hx & Hroot & Hgrow & Hinv).
    rewrite land_1023, Hx, Htn. cbn [mbind option_bind]. change (10 - 1) with 9. rewrite Hroot.
    replace (Z.to_nat (Z.of_nat n - (10 + 1))) with (n - 11)%nat by lia. cbn [mbind option_bind]. rewrite Hgrow. cbn [mbind option_bind].
    exists (Filling nc lu' tree' (node (length own'))), own'. split; [done|]. by apply Hfill.
Qed.

Lemma add_symbols_ok l k f own :
  fill_inv k f own → (k ≤ length lens)%nat → drop k lens = l → ∃ f' own', add_symbols (Z.of_nat k) l f = Some f' ∧ fill_inv (length lens) f' own'.
Proof.
  revert k f own. induction l as [|c l IH]; intros k f own Hf Hk Hd; cbn [add_symbols].
  - exists f, own. split; [done|]. apply (f_equal length) in Hd. rewrite length_drop in Hd. cbn in Hd.
    by replace (length lens) with k by lia.
  - assert (Hc : lens !! k = Some c) by (rewrite <-(Nat.add_0_r k), <-lookup_drop, Hd; done).
    destruct (add_symbol_ok k c f own Hf Hc) as (f1 & own1 & Ha & Hf1). rewrite Ha. cbn [mbind option_bind].
    replace (Z.of_nat k + 1) with (Z.of_nat (S k)) by lia. apply (IH (S k) f1 own1 Hf1).
    + by apply lookup_lt_Some in Hc.
    + rewrite <-Nat.add_1_r, <-drop_drop, Hd. done.
Qed.

(** ** Counts and first codes *)

Lemma count_sizes_ok l ts :
  Forall (λ n, 0 <= n <= 15) l → length ts = 16%nat →
  ∃ ts', count_sizes l ts = Some ts' ∧ length ts' = 16%nat ∧ ∀ i x, at_ ts i = Some x → at_ ts' i = Some (x + count l i).
Proof.
  intros Hl. revert ts. induction Hl as [|n l Hn _ IH]; intros ts Ht; cbn [count_sizes].
  { exists ts. split_and!; [done..|]. intros i x Hx. rewrite Hx. change (count [] i) with 0. f_equal. lia. }
  destruct (at_some ts n) as [y Hy]; [lia|]. rewrite Hy. cbn [mbind option_bind].
  destruct (put_at_some ts n (y + 1)) as [ts1 H1]; [lia|]. rewrite H1. cbn [mbind option_bind].
  destruct (IH ts1) as (ts' & Hc & Hl' & Hat); [by rewrite (put_at_length _ _ _ _ H1)|]. exists ts'. split_and!; [done..|].
  intros i x Hx. rewrite count_cons. rewrite (Hat i (if decide (n = i) then x + 1 else x)); [f_equal; destruct (decide (n = i)); lia|].
  rewrite (at_put _ _ _ _ _ H1). destruct (decide (n = i)) as [->|]; [|by rewrite decide_False by congruence].
  rewrite decide_True by done. f_equal. rewrite Hx in Hy. injection Hy. lia.
Qed.

Notation cnt i := (count lens (Z.of_nat i)).

Lemma first_codes_ok a g used :
  (1 ≤ a)%nat → first_codes ((λ i, cnt i) <$> seq a g) used (first_code lens a) =
  (first_code lens <$> seq (S a) g, used + foldr Z.add 0 ((λ i, cnt i) <$> seq a g), first_code lens (a + g)).
Proof.
  revert a used. induction g as [|g IH]; intros a used Ha; cbn [seq fmap list_fmap first_codes foldr].
  { by rewrite Z.add_0_r, Nat.add_0_r. }
  rewrite Z.shiftl_mul_pow2 by lia. replace ((first_code lens a + cnt a) * 2 ^ 1) with (first_code lens (S a)) by (rewrite first_code_S by done; lia).
  specialize (IH (S a) (used + cnt a) ltac:(lia)). cbn [seq fmap list_fmap] in IH. rewrite IH. f_equal; [f_equal; lia|].
  f_equal. lia.
Qed.

Lemma used_syms_ok :
  foldr Z.add 0 ((λ i, cnt i) <$> seq 1 15) = Z.of_nat (length (filter (λ n, n ≠ 0) lens)).
Proof.
  destruct Hok as [Hr _]. clear Hok Hlen. induction Hr as [|n l Hn _ IH]; [done|]. rewrite filter_cons.
  assert (E : foldr Z.add 0 ((λ i, count (n :: l) (Z.of_nat i)) <$> seq 1 15) =
    (if decide (n ≠ 0) then 1 else 0) + foldr Z.add 0 ((λ i, count l (Z.of_nat i)) <$> seq 1 15)).
  { cbn [seq fmap list_fmap foldr]. rewrite !count_cons.
    assert (n = 0 ∨ n = 1 ∨ n = 2 ∨ n = 3 ∨ n = 4 ∨ n = 5 ∨ n = 6 ∨ n = 7 ∨ n = 8 ∨ n = 9 ∨ n = 10 ∨ n = 11 ∨ n = 12 ∨ n = 13 ∨ n = 14 ∨ n = 15)
      as Hc by lia.
    repeat destruct Hc as [->|Hc]; [..|subst n]; cbn [decide decide_rel]; repeat (case_decide; [try lia|try lia]); lia. }
  rewrite E, IH. destruct (decide (n ≠ 0)); cbn [length]; lia.
Qed.

(** ** Whole tables *)

(** The table finds every symbol of the code, and has no other entries. *)
Record table_ok (t : tinfl_huff_table) : Prop := {
  tk_size : length (m_look_up t) = 1024%nat;
  tk_pos : ∀ i x, at_ (m_look_up t) i = Some x → 0 < x → ∃ s n, has s n ∧ (n ≤ 10)%nat ∧
    x = Z.of_nat n * 512 + Z.of_nat s ∧ i mod 2 ^ Z.of_nat n = bc s n;
  tk_fast : ∀ s n i, has s n → (n ≤ 10)%nat → 0 ≤ i < 1024 → i mod 2 ^ Z.of_nat n = bc s n →
    at_ (m_look_up t) i = Some (Z.of_nat n * 512 + Z.of_nat s);
  tk_slow : ∀ s n, has s n → (10 < n)%nat →
    ∃ x, at_ (m_look_up t) (bc s n mod 1024) = Some x ∧ leads (m_tree t) (bc s n) 10 x n (Z.of_nat s)
}.

Lemma empty_tables :
  fill_inv 0 (Filling (0 :: 0 :: (first_code lens <$> seq 2 15)) (replicate 1024 0) (replicate 576 0) (-1)) [].
Proof.
  split; [done| | |done].
  - intros n Hn. cbn [f_next_code]. rewrite take_0. change (count [] (Z.of_nat n)) with 0. rewrite Z.add_0_r.
    unfold at_. rewrite (proj2 (Z.ltb_ge _ _)), Nat2Z.id by lia. destruct n as [|[|n]]; [lia|done|].
    change (((first_code lens <$> seq 2 15) !! n) = Some (first_code lens (2 + n))).
    by rewrite list_lookup_fmap, lookup_seq_lt by lia.
  - assert (Hz : ∀ n i x, at_ (replicate n 0) i = Some x → x = 0).
    { intros n i x. unfold at_. destruct (i <? 0); [done|]. by intros [-> _]%lookup_replicate. }
    cbn [f_look_up f_tree]. split; try done; try lia.
    + constructor.
    + intros d x H. by apply elem_of_nil in H.
    + intros i x Hx%Hz. lia.
    + intros i Hi. apply at_replicate. cbn in Hi. lia.
    + intros i x Hx%Hz. lia.
Qed.

(** The table of the first lengths of an array. *)
Lemma build_table_ok n t :
  take (Z.to_nat n) (m_code_size t) = lens →
  ∃ t', build_table n t = Some (Some t') ∧ table_ok t' ∧ m_code_size t' = m_code_size t.
Proof.
  intros Ht. unfold build_table. rewrite Ht. pose proof Hok as [Hr Hcomp].
  destruct (count_sizes_ok lens (replicate 16 0) Hr eq_refl) as (ts & Hts & Hl & Hat). rewrite Hts. cbn [mbind option_bind].
  assert (drop 1 ts = (λ i, cnt i) <$> seq 1 15) as ->.
  { apply list_eq. intros i. rewrite lookup_drop, list_lookup_fmap. destruct (decide (i < 15)%nat) as [Hi|Hi].
    - rewrite lookup_seq_lt by done. cbn [fmap option_fmap option_map]. specialize (Hat (Z.of_nat (1 + i)) 0). unfold at_ in Hat.
      rewrite (proj2 (Z.ltb_ge _ _)), Nat2Z.id in Hat by lia. rewrite Hat; [done|]. apply lookup_replicate_2. lia.
    - rewrite !lookup_ge_None_2; [done|rewrite length_seq; lia|rewrite Hl; lia]. }
  change 0 with (first_code lens 1) at 2. rewrite first_codes_ok by lia. change (1 + 15)%nat with 16%nat. rewrite used_syms_ok.
  assert (negb (first_code lens 16 =? 65536) && (1 <? 0 + Z.of_nat (length (filter (λ n, n ≠ 0) lens))) = false) as ->.
  { destruct Hcomp as [->|Hone]; [done|]. rewrite (proj2 (Z.ltb_ge _ _)) by lia. apply andb_false_r. }
  destruct (add_symbols_ok lens 0 _ [] empty_tables ltac:(lia) eq_refl) as (f' & own' & Ha & Hf).
  change (Z.of_nat 0) with 0 in Ha. rewrite Ha. cbn [mbind option_bind]. eexists. split; [reflexivity|]. split; [|done].
  destruct Hf as [_ _ [] _]. split; cbn [m_look_up m_tree]; try done.
  - intros i x H1 H2. destruct (ti_pos0 i x H1 H2) as (s & m & _ & ?). by exists s, m.
  - intros s m i Hs. apply ti_fast0; [|done]. destruct Hs as [Hs _]. by apply lookup_lt_Some in Hs.
  - intros s m Hs. apply ti_slow0; [|done]. destruct Hs as [Hs _]. by apply lookup_lt_Some in Hs.
Qed.
End Table.
