(* ===== verification/InflateInput.v ===== *)
(** * The decompressor's input

    The bits in the buffer and the bytes behind it are one stream ([bits_at]).  Fields and
    Huffman symbols come out of it as [Deflate] says, or the input is used up and the stream
    is as before. *)
From stdpp Require Import strings gmap list numbers.
From S2P Require Import Prelude CString FileSys ZipReader ZipCrc Unzip ZipFormat Deflate Inflate HuffTable.
Local Open Scope Z_scope.

(** ** The stream *)

Definition B_of (v n : Z) (rest : list Z) : bits := Bits (v + 2 ^ n * le_val rest) (n + 8 * len rest).

Definition bits_at (s : src) (later : list Z) : bits := B_of (bit_buf s) (num_bits s) (pIn s ++ later).

Definition is_byte (b : Z) : Prop := 0 <= b < 256.

Record buf_ok (v n : Z) : Prop := {
  bo_val : 0 ≤ v < 2 ^ n;
  bo_num : 0 ≤ n ≤ 61
}.

Definition src_ok (s : src) (later : list Z) : Prop := buf_ok (bit_buf s) (num_bits s) ∧ Forall is_byte (pIn s ++ later).

(** What is left of this call's input. *)
Definition left_bits (s : src) : Z := num_bits s + 8 * len (pIn s).

Lemma len_cons b l : len (b :: l) = 1 + len l.
Proof. unfold len. cbn [length]. lia. Qed.

Lemma B_of_low v n rest k : 0 ≤ v → 0 ≤ k ≤ n → b_val (B_of v n rest) mod 2 ^ k = v mod 2 ^ k.
Proof.
  intros Hv Hk. cbn. replace n with (k + (n - k)) by lia. rewrite Z.pow_add_r by lia.
  rewrite <-Z.mul_assoc, Z.mul_comm, Z.mod_add; [done|]. pose proof (pow2_pos k). lia.
Qed.

Lemma B_of_drop v n rest k :
  0 ≤ k ≤ n → B_of (v / 2 ^ k) (n - k) rest = Bits (b_val (B_of v n rest) / 2 ^ k) (b_len (B_of v n rest) - k).
Proof.
  intros Hk. unfold B_of. cbn [b_val b_len]. f_equal; [|lia].
  replace (2 ^ n) with (2 ^ (n - k) * 2 ^ k) by (rewrite <-Z.pow_add_r by lia; f_equal; lia).
  replace (2 ^ (n - k) * 2 ^ k * le_val rest) with (2 ^ (n - k) * le_val rest * 2 ^ k) by lia.
  rewrite Z.div_add; [done|]. pose proof (pow2_pos k). lia.
Qed.

Lemma B_of_push v n c rest : 0 ≤ n → B_of (v + c * 2 ^ n) (n + 8) rest = B_of v n (c :: rest).
Proof.
  intros Hn. unfold B_of. cbn [le_val]. rewrite len_cons, Z.pow_add_r by lia. change (2 ^ 8) with 256. f_equal; lia.
Qed.

(** [|=] with a shifted value that fits. *)
Lemma or_in v n c k :
  buf_ok v n → 0 ≤ c < 2 ^ k → 0 ≤ k → n + k ≤ 64 →
  Z.lor v (u64 (Z.shiftl c n)) = v + c * 2 ^ n ∧ 0 ≤ v + c * 2 ^ n < 2 ^ (n + k).
Proof.
  intros [Hv Hn] Hc Hk H64. pose proof (pow2_pos n ltac:(lia)).
  assert (0 ≤ v + c * 2 ^ n < 2 ^ (n + k)) as Hb by (rewrite Z.pow_add_r by lia; nia).
  split; [|done]. assert (u64 (Z.shiftl c n) = Z.shiftl c n) as ->.
  { unfold u64. rewrite Z.shiftl_mul_pow2 by lia. apply Z.mod_small. split; [nia|].
    apply Z.lt_le_trans with (2 ^ (n + k)); [lia|]. apply Z.pow_le_mono_r; lia. }
  apply lor_shiftl_add; lia.
Qed.

Lemma push_ok s c l later :
  src_ok s later → pIn s = c :: l → num_bits s ≤ 53 →
  let s' := push_byte c (Src (bit_buf s) (num_bits s) l) in
  src_ok s' later ∧ bits_at s' later = bits_at s later ∧ num_bits s' = num_bits s + 8 ∧ pIn s' = l.
Proof.
  intros [Hb Hf] Ep Hn. rewrite Ep in Hf. cbn in Hf. apply Forall_cons in Hf as [Hc Hf].
  destruct (or_in (bit_buf s) (num_bits s) c 8 Hb Hc ltac:(lia) ltac:(lia)) as [E Hr]. cbn -[Z.add].
  split_and!; [| |done|done].
  - split; [|done]. cbn [push_byte bit_buf num_bits]. rewrite E. destruct Hb. by split; [|cbn; lia].
  - unfold bits_at. cbn [push_byte bit_buf num_bits pIn]. rewrite E, Ep. cbn [app]. apply B_of_push. destruct Hb. lia.
Qed.

(** Taking bits that are in the buffer. *)
Lemma take_at s later n x B' :
  src_ok s later → 0 ≤ n ≤ num_bits s → take_bits n (bits_at s later) = Some (x, B') →
  x = bit_buf s mod 2 ^ n ∧ src_ok (drop_bits n s) later ∧ bits_at (drop_bits n s) later = B' ∧
  left_bits (drop_bits n s) = left_bits s - n.
Proof.
  intros [[Hv Hn] Hf] Hk. unfold take_bits. case_match; [|done]. intros [= <- <-]. pose proof (pow2_pos n ltac:(lia)).
  split_and!.
  - apply B_of_low; lia.
  - split; [|done]. cbn. rewrite Z.shiftr_div_pow2 by lia. split; [|lia]. split; [apply Z.div_pos; lia|].
    apply Z.div_lt_upper_bound; [done|]. rewrite <-Z.pow_add_r by lia. replace (n + (num_bits s - n)) with (num_bits s) by lia. lia.
  - unfold bits_at, drop_bits. cbn [bit_buf num_bits pIn]. rewrite Z.shiftr_div_pow2 by lia. by rewrite B_of_drop.
  - unfold left_bits. cbn. lia.
Qed.

Lemma take_bits_len n B x B' : take_bits n B = Some (x, B') → 0 ≤ n ≤ b_len B ∧ 0 ≤ x < 2 ^ n.
Proof.
  unfold take_bits. destruct (0 <=? n) eqn:E1, (n <=? b_len B) eqn:E2; try done. intros [= <- _].
  apply Z.leb_le in E1, E2. split; [done|]. apply Z.mod_pos_bound, pow2_pos. done.
Qed.

(** A symbol of the stream: its length and the bits it has. *)
Lemma huff_code lens B sym B' :
  codes_ok lens → huff lens B sym B' → ∃ n, 0 ≤ sym ∧ has lens (Z.to_nat sym) n ∧ b_val B mod 2 ^ Z.of_nat n = bits_code lens (Z.to_nat sym) n ∧
    take_bits (Z.of_nat n) B = Some (bits_code lens (Z.to_nat sym) n, B') ∧ (1 ≤ n ≤ 15)%nat.
Proof.
  intros Hok (H0 & n & Hn & Hpos & Htake). assert (∃ k, n = Z.of_nat k) as [k ->] by (exists (Z.to_nat n); lia).
  assert (has lens (Z.to_nat sym) k) as Hh by (split; [done|lia]). exists k. rewrite Nat2Z.id in Htake.
  split_and!; try done; [|apply (has_range lens Hok _ _ Hh)|apply (has_range lens Hok _ _ Hh)].
  unfold take_bits in Htake. case_match; [|done]. by injection Htake.
Qed.

Lemma symbol_range lens s n : (length lens ≤ 288)%nat → has lens s n → (s < 288)%nat.
Proof. intros Hlen [Hs _]. apply lookup_lt_Some in Hs. lia. Qed.

Section Call.
Context (more : bool) (later : list Z).
Hypothesis Hmore : more = false → later = [].

(** What a piece of the machine that reads does: it succeeds, or waits. *)
Definition reads {A} (g : got A) (s : src) (P : A → src → Prop) : Prop :=
  match g with
  | Have a s' => src_ok s' later ∧ P a s'
  | Wait s' => more = true ∧ pIn s' = [] ∧ src_ok s' later ∧ bits_at s' later = bits_at s later ∧ left_bits s' = left_bits s ∧
      num_bits s ≤ num_bits s' ∧ num_bits s' mod 8 = num_bits s mod 8
  | Hole => False
  end.

(** There is a byte as long as the stream needs one. *)
Lemma get_byte s n :
  n ≤ b_len (bits_at s later) → num_bits s < n →
  (∃ c l, pIn s = c :: l ∧ TINFL_GET_BYTE more s = Have c (Src (bit_buf s) (num_bits s) l)) ∨
  (pIn s = [] ∧ more = true ∧ TINFL_GET_BYTE more s = Wait s).
Proof.
  intros Hn Hlt. unfold TINFL_GET_BYTE. destruct (pIn s) as [|c l] eqn:E; [|left; by exists c, l]. right.
  destruct more; [done|]. exfalso. rewrite (Hmore eq_refl) in Hn. unfold bits_at in Hn. rewrite E in Hn. cbn in Hn. unfold len in Hn. cbn in Hn. lia.
Qed.

Lemma left_push s c l : pIn s = c :: l → left_bits (push_byte c (Src (bit_buf s) (num_bits s) l)) = left_bits s.
Proof. intros E. unfold left_bits. rewrite E, len_cons. cbn. lia. Qed.

Lemma wait_same s : src_ok s later → pIn s = [] → more = true → reads (A := unit) (Wait s) s (λ _ _, False).
Proof. intros. cbn. done. Qed.

(** After a byte has been moved. *)
Lemma reads_push {A} (g : got A) s c l (P : A → src → Prop) :
  src_ok s later → pIn s = c :: l → num_bits s ≤ 53 →
  reads g (push_byte c (Src (bit_buf s) (num_bits s) l)) P → reads g s P.
Proof.
  intros Hs E Hn. destruct (push_ok s c l later Hs E Hn) as (_ & Hb & Hnum & _).
  destruct g as [a s'|s'|]; cbn [reads]; [done| |done]. rewrite Hb, (left_push s c l E), Hnum.
  intros (? & ? & ? & ? & ? & ? & Hmod). split_and!; try done; [lia|]. rewrite Hmod.
  replace (num_bits s + 8) with (num_bits s + 1 * 8) by lia. by apply Z.mod_add.
Qed.

Lemma need_bits rounds n s :
  src_ok s later → n ≤ b_len (bits_at s later) → 0 ≤ n ≤ 24 → n ≤ num_bits s + 8 * Z.of_nat rounds →
  reads (TINFL_NEED_BITS more rounds n s) s (λ _ s', bits_at s' later = bits_at s later ∧ n ≤ num_bits s' ∧
    left_bits s' = left_bits s ∧ num_bits s' mod 8 = num_bits s mod 8).
Proof.
  revert s. induction rounds as [|rounds IH]; intros s Hs Hn Hr Hle; cbn [TINFL_NEED_BITS];
    destruct (Z.leb_spec n (num_bits s)) as [H|H]; try (cbn; done); [lia|].
  destruct (get_byte s n Hn H) as [(c & l & E & ->)|(E & Em & ->)]; [|cbn; done].
  destruct (push_ok s c l later Hs E ltac:(lia)) as (Hs' & Hb & Hnum & Hp).
  apply (reads_push _ s c l); [done|done|lia|]. specialize (IH _ Hs' ltac:(by rewrite Hb) Hr ltac:(lia)).
  destruct (TINFL_NEED_BITS _ _ _ _) as [a s'|s'|]; cbn [reads] in *; [|done|done].
  destruct IH as (? & Hb' & ? & Hl & Hmod). rewrite Hb', Hb, Hl, (left_push s c l E), Hmod, Hnum.
  split_and!; try done. replace (num_bits s + 8) with (num_bits s + 1 * 8) by lia. by apply Z.mod_add.
Qed.

(** A field. *)
Lemma get_bits n s x B' :
  src_ok s later → take_bits n (bits_at s later) = Some (x, B') → n ≤ 16 →
  reads (TINFL_GET_BITS more n s) s (λ y s', y = x ∧ bits_at s' later = B' ∧ left_bits s' = left_bits s - n ∧
    num_bits s' mod 8 = (num_bits s - n) mod 8).
Proof.
  intros Hs Ht Hn. destruct (take_bits_len _ _ _ _ Ht) as [Hl Hx]. unfold TINFL_GET_BITS.
  pose proof (need_bits 3 n s Hs ltac:(lia) ltac:(lia)) as H.
  destruct Hs as [[? ?] ?]. specialize (H ltac:(lia)).
  destruct (TINFL_NEED_BITS _ _ _ _) as [a s'|s'|]; cbn [reads] in *; [|done|done].
  destruct H as (Hs' & Hb & Hn' & Hl' & Hmod). rewrite <-Hb in Ht.
  destruct (take_at s' later n x B' Hs' ltac:(lia) Ht) as (-> & Hd & HB & Hlb). split; [done|].
  split_and!; [|done|lia|].
  - rewrite Z.shiftl_1_l. replace (2 ^ n - 1) with (Z.ones n) by (rewrite Z.ones_equiv; lia). by rewrite Z.land_ones by lia.
  - cbn [drop_bits num_bits]. rewrite Zminus_mod, Hmod, <-Zminus_mod. done.
Qed.

(** A byte at a byte boundary. *)
Lemma get_byte_bits s x B' :
  src_ok s later → num_bits s = 0 → take_bits 8 (bits_at s later) = Some (x, B') →
  reads (TINFL_GET_BYTE more s) s (λ y s', y = x ∧ bits_at s' later = B' ∧ left_bits s' = left_bits s - 8 ∧
    num_bits s' mod 8 = 0).
Proof.
  intros Hs H0 Ht. destruct (take_bits_len _ _ _ _ Ht) as [Hl _].
  destruct (get_byte s 8 ltac:(lia) ltac:(lia)) as [(c & l & E & ->)|(E & Em & ->)]; [|cbn; done].
  destruct (push_ok s c l later Hs E ltac:(lia)) as (Hs' & Hb & Hnum & Hp). rewrite <-Hb in Ht.
  destruct (take_at _ later 8 x B' Hs' ltac:(lia) Ht) as (-> & Hd & <- & Hlb).
  destruct Hs as [[Hv _] Hf]. rewrite H0 in Hv. rewrite E in Hf. cbn in Hf. apply Forall_cons in Hf as [Hc Hf].
  assert (bit_buf s = 0) as Hz by (cbn in Hv; lia). unfold is_byte in Hc.
  assert (bit_buf (push_byte c (Src (bit_buf s) (num_bits s) l)) = c) as Ec.
  { cbn [push_byte bit_buf num_bits]. rewrite Hz, H0, Z.shiftl_0_r, Z.lor_0_l. unfold u64. apply Z.mod_small. lia. }
  revert Hnum Hp Ec. generalize (push_byte c (Src (bit_buf s) (num_bits s) l)). intros s1 Hnum Hp Ec.
  cbn [reads]. split_and!; try done.
  - split; [cbn [bit_buf num_bits]; rewrite Hz, H0; done|done].
  - rewrite Ec. symmetry. by apply Z.mod_small.
  - unfold bits_at. cbn [drop_bits bit_buf num_bits pIn]. rewrite Hnum, H0, Hz, Ec, Hp. change (0 + 8 - 8) with 0. f_equal.
    rewrite Z.shiftr_div_pow2 by lia. symmetry. by apply Z.div_small.
  - unfold left_bits. rewrite E, len_cons. cbn. lia.
  - cbn. by rewrite H0.
Qed.

(** ** Huffman symbols *)

Lemma walk_leads tree V bits d x n s fuel :
  leads tree V d x n s → V mod 2 ^ Z.of_nat n = bits mod 2 ^ Z.of_nat n → (n - d ≤ fuel)%nat →
  walk_tree fuel tree bits x (Z.of_nat d) None = Some (s, Z.of_nat n).
Proof.
  intros Hl E. pose proof (leads_mod _ _ bits _ _ _ _ Hl E) as H. clear Hl E. revert fuel.
  induction H as [d x s Hx Ha Hs|d x y n s Hx Ha Hy Hl IH]; intros [|fuel] Hf; try lia; cbn [walk_tree].
  - rewrite land_bit, Nat2Z.id, Ha by lia. cbn [mbind option_bind]. rewrite (proj2 (Z.ltb_ge _ _)) by lia. cbn. do 2 f_equal. lia.
  - pose proof (leads_lt _ _ _ _ _ _ Hl). lia.
  - pose proof (leads_lt _ _ _ _ _ _ Hl). rewrite land_bit, Nat2Z.id, Ha by lia. cbn [mbind option_bind].
    rewrite (proj2 (Z.ltb_lt _ _)) by lia. cbn [andb]. replace (Z.of_nat d + 1) with (Z.of_nat (S d)) by lia. apply IH. lia.
Qed.

(** With a limit: found if it is within. *)
Lemma walk_limit tree V bits d x n s fuel m :
  leads tree V d x n s → V mod 2 ^ Z.of_nat (Nat.min n m) = bits mod 2 ^ Z.of_nat (Nat.min n m) → (n - d ≤ fuel)%nat → (d < m)%nat → 
  ∃ y k, walk_tree fuel tree bits x (Z.of_nat d) (Some (Z.of_nat m)) = Some (y, k) ∧ (0 <=? y) = (n <=? m)%nat.
Proof.
  intros H E. revert fuel.
  induction H as [d x s Hx Ha Hs|d x y n s Hx Ha Hy Hl IH]; intros [|fuel] Hf Hm; try lia; cbn [walk_tree].
  - rewrite land_bit, Nat2Z.id by lia. rewrite <-(bit_mod V bits d _ E), Ha by lia. cbn [mbind option_bind].
    rewrite (proj2 (Z.ltb_ge _ _)) by lia. cbn [andb]. eexists _, _. split; [done|].
    rewrite (proj2 (Z.leb_le _ _)) by lia. symmetry. apply Nat.leb_le. lia.
  - pose proof (leads_lt _ _ _ _ _ _ Hl). lia.
  - pose proof (leads_lt _ _ _ _ _ _ Hl). rewrite land_bit, Nat2Z.id by lia. rewrite <-(bit_mod V bits d _ E), Ha by lia.
    cbn [mbind option_bind]. rewrite (proj2 (Z.ltb_lt y 0)) by lia. cbn [andb]. destruct (Z.leb_spec (Z.of_nat d + 1 + 1) (Z.of_nat m)).
    + replace (Z.of_nat d + 1) with (Z.of_nat (S d)) by lia. apply IH; [done|lia|lia].
    + eexists _, _. split; [done|]. rewrite (proj2 (Z.leb_gt _ _)) by lia. symmetry. apply Nat.leb_gt. lia.
Qed.

Section Decode.
Context (lens : list Z) (t : tinfl_huff_table).
Hypothesis Hok : codes_ok lens.
Hypothesis Hlen : (length lens ≤ 288)%nat.
Hypothesis Ht : table_ok lens t.

(** The entry of ten bits that begin with the code, and where it leads. *)
Lemma find_symbol bits s n :
  has lens s n → 0 ≤ bits → bits mod 2 ^ Z.of_nat n = bits_code lens s n →
  ∃ x, at_ (m_look_up t) (Z.land bits (TINFL_FAST_LOOKUP_SIZE - 1)) = Some x ∧
    (0 ≤ x ∧ Z.land x 511 = Z.of_nat s ∧ Z.shiftr x 9 = Z.of_nat n ∨
     x < 0 ∧ walk_tree WALK (m_tree t) bits x TINFL_FAST_LOOKUP_BITS None = Some (Z.of_nat s, Z.of_nat n)).
Proof.
  intros Hs Hb E. pose proof (has_range lens Hok _ _ Hs) as Hr. rewrite land_1023.
  pose proof (Z.mod_pos_bound bits 1024 ltac:(lia)) as Hm.
  assert (Hsym : (s < 288)%nat) by (destruct Hs as [Hs _]; apply lookup_lt_Some in Hs; lia).
  destruct (Nat.le_gt_cases n 10) as [Hle|Hgt].
  - exists (Z.of_nat n * 512 + Z.of_nat s). split.
    + apply (tk_fast _ _ Ht); [done|done|lia|]. change 1024 with (2 ^ 10). by rewrite mod_mod_pow2 by lia.
    + left. rewrite Z.shiftr_div_pow2 by lia. change 511 with (Z.ones 9). rewrite Z.land_ones by lia. change (2 ^ 9) with 512.
      rewrite Z.div_add_l, Z.div_small, Z.add_comm, Z.mod_add, Z.mod_small; lia.
  - destruct (tk_slow _ _ Ht s n Hs Hgt) as (x & Hx & Hl). change 1024 with (2 ^ 10) in *.
    rewrite <-E, mod_mod_pow2 in Hx by lia. exists x. split; [done|]. right. split; [by eapply leads_neg|].
    change TINFL_FAST_LOOKUP_BITS with (Z.of_nat 10). apply (walk_leads _ (bits_code lens s n)); [done| |unfold WALK; lia].
    rewrite E. apply Z.mod_small, rev_range.
Qed.

(** The buffer holds the whole code if it holds that many bits. *)
Lemma whole_code_ok s sym n B' :
  src_ok s later → huff lens (bits_at s later) sym B' → has lens (Z.to_nat sym) n →
  whole_code t s = Some (Z.of_nat n <=? num_bits s).
Proof.
  intros [[Hv Hnum] _] Hh Hn. destruct (huff_code lens _ _ _ Hok Hh) as (n' & Hsym & Hn' & E & _ & Hr).
  pose proof (has_fun lens _ _ _ Hn Hn') as <-. clear Hn'. set (i := Z.to_nat sym) in *.
  assert (Hlow : ∀ k, (Z.of_nat k ≤ num_bits s) → b_val (bits_at s later) mod 2 ^ Z.of_nat k = bit_buf s mod 2 ^ Z.of_nat k).
  { intros k Hk. apply B_of_low; lia. }
  unfold whole_code. rewrite land_1023. pose proof (Z.mod_pos_bound (bit_buf s) 1024 ltac:(lia)) as Hm.
  destruct (at_some (m_look_up t) (bit_buf s mod 1024)) as [x Hx]; [rewrite (tk_size _ _ Ht); lia|]. rewrite Hx. cbn [mbind option_bind].
  change 1024 with (2 ^ Z.of_nat 10) in Hx, Hm.
  destruct (Z.leb_spec 0 x) as [Hpos|Hneg].
  - destruct (decide (x = 0)) as [->|Hne].
    + cbn. f_equal. symmetry. apply Z.leb_gt. destruct (Z.lt_ge_cases (num_bits s) (Z.of_nat n)) as [|Hle]; [done|exfalso].
      rewrite (Hlow n Hle) in E. destruct (Nat.le_gt_cases n 10) as [Hs|Hs].
      * rewrite (tk_fast _ _ Ht i n) in Hx; [injection Hx; lia|done|done|done|]. rewrite mod_mod_pow2 by lia. done.
      * destruct (tk_slow _ _ Ht i n Hn Hs) as (y & Hy & Hl). rewrite <-E in Hy. change 1024 with (2 ^ Z.of_nat 10) in Hy.
        rewrite mod_mod_pow2 in Hy by lia. rewrite Hx in Hy. injection Hy as <-. apply leads_neg in Hl. lia.
    + destruct (tk_pos _ _ Ht _ x Hx ltac:(lia)) as (i' & n' & Hi' & Hle' & -> & E'). rewrite mod_mod_pow2 in E' by lia.
      pose proof (has_range lens Hok _ _ Hi') as Hr'.
      assert (Hi2 : (i' < 288)%nat) by (destruct Hi' as [Hs _]; apply lookup_lt_Some in Hs; lia).
      assert (Z.shiftr (Z.of_nat n' * 512 + Z.of_nat i') 9 = Z.of_nat n') as ->.
      { rewrite Z.shiftr_div_pow2 by lia. change (2 ^ 9) with 512. rewrite Z.div_add_l, Z.div_small by lia. lia. }
      rewrite (proj2 (Z.eqb_neq _ _)) by lia. cbn [negb andb]. f_equal.
      destruct (Z.le_gt_cases (Z.of_nat n) (num_bits s)) as [Hle|Hgt].
      * rewrite (Hlow n Hle) in E. assert (n' = n) as ->; [|done].
        destruct (Nat.le_ge_cases n n') as [H|H].
        -- rewrite <-(mod_mod_pow2 _ _ (Z.of_nat n')), E' in E by lia.
           pose proof (prefix_free lens Hok i n i' n' Hn Hi' H E) as <-. by apply (has_fun lens i).
        -- rewrite <-(mod_mod_pow2 _ _ (Z.of_nat n)), E in E' by lia.
           pose proof (prefix_free lens Hok i' n' i n Hi' Hn H E') as <-. by apply (has_fun lens i').
      * rewrite (proj2 (Z.leb_gt (Z.of_nat n) _)) by lia. apply Z.leb_gt.
        destruct (Z.lt_ge_cases (num_bits s) (Z.of_nat n')) as [|Hle]; [done|exfalso].
        rewrite <-(Hlow n' Hle), <-(mod_mod_pow2 _ _ (Z.of_nat n)), E in E' by lia.
        pose proof (prefix_free lens Hok i' n' i n Hi' Hn ltac:(lia) E') as ->. pose proof (has_fun lens _ _ _ Hn Hi'). lia.
  - assert (Hlong : Z.of_nat n ≤ num_bits s → (10 < n)%nat).
    { intros Hle. destruct (Nat.le_gt_cases n 10) as [Hs|]; [exfalso|done]. rewrite (Hlow n Hle) in E.
      rewrite (tk_fast _ _ Ht i n) in Hx; [injection Hx; lia|done|done|done|]. rewrite mod_mod_pow2 by lia. done. }
    unfold TINFL_FAST_LOOKUP_BITS. destruct (Z.ltb_spec 10 (num_bits s)) as [Hten|Hten].
    + rewrite <-(Hlow 10%nat) in Hx by lia.
      assert (Hn10 : (10 < n)%nat).
      { destruct (Nat.le_gt_cases n 10) as [Hs|]; [|done]. apply Hlong. lia. }
      destruct (tk_slow _ _ Ht i n Hn Hn10) as (y & Hy & Hl). rewrite <-E in Hy. change 1024 with (2 ^ Z.of_nat 10) in Hy.
      rewrite mod_mod_pow2, Hx in Hy by lia. injection Hy as <-.
      destruct (walk_limit (m_tree t) _ (bit_buf s) 10 x n (Z.of_nat i) WALK (Z.to_nat (num_bits s)) Hl) as (y & k & Hw & Hy).
      { rewrite <-E, mod_mod_pow2 by lia. apply Hlow. lia. }
      { unfold WALK. lia. }
      { lia. }
      rewrite Z2Nat.id in Hw by lia. change (Z.of_nat 10) with 10 in Hw. rewrite Hw. cbn [mbind option_bind]. rewrite Hy. f_equal.
      destruct (Nat.leb_spec n (Z.to_nat (num_bits s))), (Z.leb_spec (Z.of_nat n) (num_bits s)); done || lia.
    + f_equal. symmetry. apply Z.leb_gt. destruct (Z.lt_ge_cases (num_bits s) (Z.of_nat n)) as [|Hle]; [done|]. specialize (Hlong Hle). lia.
Qed.

(** What decoding leaves: the symbol is taken off the stream. *)
Definition decoded (s : src) (sym : Z) (B' : bits) (y : Z) (s' : src) : Prop :=
  y = sym ∧ bits_at s' later = B' ∧ left_bits s' < left_bits s.

Lemma huff_fill rounds s sym n B' :
  src_ok s later → huff lens (bits_at s later) sym B' → has lens (Z.to_nat sym) n →
  num_bits s < 15 → 15 ≤ num_bits s + 8 * Z.of_nat rounds →
  reads (TINFL_HUFF_BITBUF_FILL more rounds t s) s (λ _ s', bits_at s' later = bits_at s later ∧ Z.of_nat n ≤ num_bits s' ∧
    left_bits s' = left_bits s).
Proof.
  intros Hs Hh Hn. destruct (huff_code lens _ _ _ Hok Hh) as (n' & Hsym & Hn' & _ & Htake & Hr).
  pose proof (has_fun lens _ _ _ Hn Hn') as <-. apply take_bits_len in Htake as [Hl _].
  revert s Hs Hh Hl. induction rounds as [|rounds IH]; intros s Hs Hh Hl H15 Hle; [lia|].
  cbn [TINFL_HUFF_BITBUF_FILL]. rewrite (whole_code_ok s sym n B' Hs Hh Hn).
  destruct (Z.leb_spec (Z.of_nat n) (num_bits s)) as [Hw|Hw]; [cbn; done|].
  destruct (get_byte s (Z.of_nat n) ltac:(lia) Hw) as [(c & l & E & ->)|(E & Em & ->)]; [|cbn; done].
  destruct (push_ok s c l later Hs E ltac:(lia)) as (Hs' & Hb & Hnum & Hp).
  apply (reads_push _ s c l); [done|done|lia|]. pose proof (left_push s c l E) as Hlp.
  revert Hs' Hb Hnum Hp Hlp. generalize (push_byte c (Src (bit_buf s) (num_bits s) l)). intros s1 Hs' Hb Hnum Hp Hlp.
  destruct (Z.ltb_spec (num_bits s1) 15) as [Hlt|Hge].
  - rewrite <-Hb in Hh, Hl. specialize (IH s1 Hs' Hh Hl Hlt ltac:(lia)).
    destruct (TINFL_HUFF_BITBUF_FILL _ _ _ _) as [a s'|s'|]; cbn [reads] in *; [|done|done].
    destruct IH as (? & -> & ? & ->). by rewrite Hb, Hlp.
  - cbn. split_and!; try done. lia.
Qed.

(** Two bytes at once. *)
Lemma push_two s c0 c1 l :
  src_ok s later → pIn s = c0 :: c1 :: l → num_bits s < 15 →
  let s' := Src (Z.lor (bit_buf s) (Z.lor (u64 (Z.shiftl c0 (num_bits s))) (u64 (Z.shiftl c1 (num_bits s + 8))))) (num_bits s + 16) l in
  src_ok s' later ∧ bits_at s' later = bits_at s later ∧ left_bits s' = left_bits s.
Proof.
  intros Hs E H15. destruct (push_ok s c0 (c1 :: l) later Hs E ltac:(lia)) as (Hs1 & Hb1 & Hn1 & Hp1).
  destruct (push_ok _ c1 l later Hs1 Hp1 ltac:(lia)) as (Hs2 & Hb2 & Hn2 & Hp2).
  pose proof (left_push s c0 _ E) as Hl1. pose proof (left_push _ c1 _ Hp1) as Hl2. cbn zeta.
  replace (Src _ (num_bits s + 16) l) with
    (push_byte c1 (Src (bit_buf (push_byte c0 (Src (bit_buf s) (num_bits s) (c1 :: l))))
                       (num_bits (push_byte c0 (Src (bit_buf s) (num_bits s) (c1 :: l)))) l)).
  - by rewrite Hb2, Hb1, Hl2, Hl1.
  - unfold push_byte. cbn [bit_buf num_bits pIn]. rewrite Z.lor_assoc. f_equal. lia.
Qed.

Lemma drop_symbol s sym n B' :
  src_ok s later → huff lens (bits_at s later) sym B' → has lens (Z.to_nat sym) n → Z.of_nat n ≤ num_bits s →
  0 ≤ bit_buf s ∧ bit_buf s mod 2 ^ Z.of_nat n = bits_code lens (Z.to_nat sym) n ∧
  src_ok (drop_bits (Z.of_nat n) s) later ∧ bits_at (drop_bits (Z.of_nat n) s) later = B' ∧
  left_bits (drop_bits (Z.of_nat n) s) < left_bits s.
Proof.
  intros Hs Hh Hn Hle. destruct (huff_code lens _ _ _ Hok Hh) as (n' & Hsym & Hn' & _ & Htake & Hr).
  pose proof (has_fun lens _ _ _ Hn Hn') as <-.
  destruct (take_at s later (Z.of_nat n) _ B' Hs ltac:(lia) Htake) as (E & ? & ? & Hl). rewrite Hl.
  destruct Hs as [[? _] _]. split_and!; try done; lia.
Qed.

(** A symbol that is in the buffer. *)
Lemma look_up_at s sym B' :
  src_ok s later → huff lens (bits_at s later) sym B' → 15 ≤ num_bits s →
  ∃ x n, look_up_code t (bit_buf s) = Some (x, n) ∧ Z.land x 511 = sym ∧ 0 ≤ n ≤ 15 ∧
    src_ok (drop_bits n s) later ∧ bits_at (drop_bits n s) later = B' ∧ left_bits (drop_bits n s) < left_bits s.
Proof.
  intros Hs Hh H15. destruct (huff_code lens _ _ _ Hok Hh) as (n & Hsym & Hn & _ & _ & Hr). pose proof (symbol_range lens _ _ Hlen Hn) as Hi.
  destruct (drop_symbol s sym n B' Hs Hh Hn ltac:(lia)) as (H0 & E & ? & ? & ?). unfold look_up_code.
  destruct (find_symbol _ _ _ Hn H0 E) as (x & -> & [(Hx & Hsy & Hle)|[Hx Hw]]); cbn [mbind option_bind].
  - rewrite (proj2 (Z.leb_le _ _)), Hle by done. exists x, (Z.of_nat n). split_and!; try done; lia.
  - rewrite (proj2 (Z.leb_gt _ _)) by done. eexists _, _. split; [exact Hw|]. split_and!; try done; try lia.
    change 511 with (Z.ones 9). rewrite Z.land_ones by lia. change (2 ^ 9) with 512. rewrite Z.mod_small; lia.
Qed.

Lemma huff_decode again s sym B' :
  src_ok s later → huff lens (bits_at s later) sym B' →
  reads (TINFL_HUFF_DECODE more again t s) s (decoded s sym B').
Proof.
  intros Hs Hh. destruct (huff_code lens _ _ _ Hok Hh) as (n & Hsym & Hn & _ & _ & Hr). unfold TINFL_HUFF_DECODE.
  set (filled := if num_bits s <? 15 then _ else _).
  assert (reads filled s (λ _ s', bits_at s' later = bits_at s later ∧ Z.of_nat n ≤ num_bits s' ∧ left_bits s' = left_bits s)) as Hf.
  { unfold filled. pose proof (bo_num _ _ (proj1 Hs)). destruct (Z.ltb_spec (num_bits s) 15) as [H15|H15]; [|cbn; split_and!; done || lia].
    pose proof (huff_fill 2 s sym n B' Hs Hh Hn H15 ltac:(lia)) as Hfill.
    destruct again; [done|]. destruct (pIn s) as [|c0 [|c1 l]] eqn:E; [done..|].
    destruct (push_two s c0 c1 l Hs E H15) as (? & ? & ?). cbn [reads]. split_and!; try done. cbn [num_bits]. lia. }
  destruct filled as [u s1|s1|]; cbn [reads] in Hf; [|done|done]. clear Hs. destruct Hf as (Hs & Hb & Hle & Hlb). rewrite <-Hb in Hh.
  destruct (drop_symbol s1 sym n B' Hs Hh Hn Hle) as (H0 & E & Hd & HB & Hlt). pose proof (symbol_range lens _ _ Hlen Hn) as Hi.
  destruct (find_symbol _ _ _ Hn H0 E) as (x & -> & [(Hx & Hs9 & Hn9)|[Hx Hw]]); cbn [mbind option_bind].
  - rewrite (proj2 (Z.leb_le _ _)), Hs9, Hn9 by done. cbn [reads]. unfold decoded. split_and!; try done; lia.
  - rewrite (proj2 (Z.leb_gt _ _)) by done. rewrite Hw. cbn [reads]. unfold decoded. split_and!; try done; lia.
Qed.
End Decode.
End Call.

(** * The decompressor's output

    The ring buffer holds the last 32768 bytes.  The three ways in which matches are copied
    (bytes, words of four, groups of three) are the byte by byte copy of the format. *)

(** ** Copies of the format *)

Definition back (d : Z) (l : list Z) : Z := nth (Z.to_nat (len l - d)) l 0.

Lemma copy_back_S n d old : copy_back (S n) d old = copy_back n d (old ++ [back d old]).
Proof. done. Qed.

Lemma copy_back_add a b d old : copy_back (a + b) d old = copy_back b d (copy_back a d old).
Proof. revert old. induction a as [|a IH]; intros old; [done|]. cbn [Nat.add]. rewrite !copy_back_S. apply IH. Qed.

Lemma copy_back_extends n d old : ∃ l, copy_back n d old = old ++ l ∧ length l = n.
Proof.
  revert old. induction n as [|n IH]; intros old; [exists []; by rewrite app_nil_r|]. rewrite copy_back_S.
  destruct (IH (old ++ [back d old])) as (l & -> & Hl). exists (back d old :: l). rewrite <-app_assoc. split; [done|]. cbn. lia.
Qed.

Lemma back_lookup d old : 1 ≤ d ≤ len old → old !! Z.to_nat (len old - d) = Some (back d old).
Proof.
  intros H. unfold back. destruct (lookup_lt_is_Some_2 old (Z.to_nat (len old - d))) as [x Hx]; [unfold len in *; lia|].
  rewrite Hx. f_equal. symmetry. by apply nth_lookup_Some.
Qed.

Section Out.
Context (buf done0 : list Z) (pos room : Z).
Hypothesis Hwin : window buf done0.
Hypothesis Hpos : pos = len done0 mod TINFL_LZ_DICT_SIZE.
Hypothesis Hroom : room = TINFL_LZ_DICT_SIZE - pos.

Notation D := TINFL_LZ_DICT_SIZE.

Lemma pos_range : 0 ≤ pos < D.
Proof. rewrite Hpos. by apply Z.mod_pos_bound. Qed.

(** The byte [d] back. *)
Lemma peek_back out d :
  len out ≤ room → 1 ≤ d ≤ D → d ≤ len (done0 ++ out) →
  peek buf pos out ((pos + len out - d) mod D) = Some (back d (done0 ++ out)).
Proof.
  intros Ho Hd Hle. rewrite <-back_lookup by lia. pose proof pos_range as Hp. pose proof (len_nonneg out). pose proof (len_nonneg done0).
  rewrite len_app in *. set (q := len done0 / D). assert (len done0 = D * q + pos) as Eq by (rewrite Hpos; apply Z.div_mod; done).
  assert (0 ≤ q) by (apply Z.div_pos; done). unfold D in *.
  set (j := len done0 + len out - d). unfold peek.
  destruct (Z.le_gt_cases (len done0) j) as [Hin|Hout].
  - assert ((pos + len out - d) mod 32768 = pos + len out - d) as -> by (apply Z.mod_small; lia).
    rewrite (proj2 (Z.leb_le _ _)), (proj2 (Z.ltb_lt _ _)) by lia. cbn [andb]. unfold at_. rewrite (proj2 (Z.ltb_ge _ _)) by lia.
    rewrite lookup_app_r by (unfold len in *; lia). f_equal. unfold len in *. lia.
  - assert ((pos + len out - d) mod 32768 = j mod 32768) as E.
    { unfold j. rewrite Eq. replace (32768 * q + pos + len out - d) with (pos + len out - d + q * 32768) by lia. by rewrite Z.mod_add. }
    rewrite E. assert (Hj : j mod 32768 = j - 32768 * q ∧ j mod 32768 < pos ∨ j mod 32768 = j - 32768 * (q - 1) ∧ pos + len out ≤ j mod 32768).
    { destruct (Z.le_gt_cases (32768 * q) j).
      - left. assert (j mod 32768 = j - 32768 * q) as ->; [|lia]. symmetry. apply (Z.mod_unique_pos j 32768 q); lia.
      - right. assert (j mod 32768 = j - 32768 * (q - 1)) as ->; [|lia]. symmetry. apply (Z.mod_unique_pos j 32768 (q - 1)); lia. }
    assert ((pos <=? j mod 32768) && (j mod 32768 <? pos + len out) = false) as ->.
    { apply andb_false_iff. rewrite Z.leb_gt, Z.ltb_ge. lia. }
    unfold at_. rewrite (proj2 (Z.ltb_ge _ _)) by (pose proof (Z.mod_pos_bound j 32768); lia).
    rewrite lookup_app_l by (unfold len in *; lia). apply Hwin; unfold D; lia.
Qed.

(** The same further on, as long as the end of the buffer is not reached. *)
Lemma peek_from out d pSrc i :
  pSrc = (pos + len out - d) mod D → 0 ≤ i → pSrc + i < D → len out ≤ room → 1 ≤ d - i → d ≤ D → d - i ≤ len (done0 ++ out) →
  peek buf pos out (pSrc + i) = Some (back (d - i) (done0 ++ out)).
Proof.
  intros -> Hi Hlt Ho Hd HD Hle. rewrite <-peek_back by lia. f_equal.
  pose proof (Z.mod_pos_bound (pos + len out - d) D ltac:(done)) as Hm.
  symmetry. replace (pos + len out - (d - i)) with (pos + len out - d + i) by lia.
  rewrite Zplus_mod, (Z.mod_small i) by (unfold D in *; lia). apply Z.mod_small. lia.
Qed.

Lemma store_ok l out : len out + len l ≤ room → store room l out = Some (out ++ l).
Proof. intros H. unfold store. by rewrite (proj2 (Z.leb_le _ _)). Qed.

(** A copy of [n] bytes from [d] back, out of [pSrc]. *)
Definition copied (n : nat) (d : Z) (out : list Z) (r : option (list Z)) : Prop :=
  ∃ out', r = Some out' ∧ done0 ++ out' = copy_back n d (done0 ++ out) ∧ len out' = len out + Z.of_nat n.

Record source (n : nat) (d pSrc : Z) (out : list Z) : Prop := {
  so_at : pSrc = (pos + len out - d) mod D;
  so_dist : 1 ≤ d ≤ D;
  so_back : d ≤ len (done0 ++ out);
  so_src : pSrc + Z.of_nat n ≤ D;
  so_room : len out + Z.of_nat n ≤ room
}.

Lemma source_next a b d pSrc out out' :
  source (a + b) d pSrc out → (0 < b)%nat → done0 ++ out' = copy_back a d (done0 ++ out) → len out' = len out + Z.of_nat a →
  source b d (pSrc + Z.of_nat a) out'.
Proof.
  intros [] Hb Hc Hl. split; try lia.
  - rewrite Hl. replace (pos + (len out + Z.of_nat a) - d) with (pos + len out - d + Z.of_nat a) by lia.
    pose proof (Z.mod_pos_bound (pos + len out - d) D ltac:(done)).
    rewrite Zplus_mod, (Z.mod_small (Z.of_nat a)) by lia. rewrite <-so_at0. symmetry. apply Z.mod_small. lia.
  - rewrite len_app in *. lia.
Qed.

Lemma copied_trans a b d out out' r :
  done0 ++ out' = copy_back a d (done0 ++ out) → len out' = len out + Z.of_nat a → copied b d out' r → copied (a + b) d out r.
Proof. intros H1 H2 (o & -> & H3 & H4). exists o. rewrite copy_back_add, <-H1. split_and!; [done|done|lia]. Qed.

Lemma copied_none d out : copied 0 d out (Some out).
Proof. exists out. split_and!; [done|done|lia]. Qed.

Lemma copy_bytes_ok n d pSrc out : source n d pSrc out → copied n d out (copy_bytes buf pos room n pSrc out).
Proof.
  revert pSrc out. induction n as [|n IH]; intros pSrc out Hs; [apply copied_none|]. cbn [copy_bytes].
  pose proof (peek_from out d pSrc 0 (so_at _ _ _ _ Hs)) as Hp. rewrite Z.add_0_r, Z.sub_0_r in Hp. pose proof Hs as [].
  rewrite Hp by lia. cbn [mbind option_bind].
  rewrite store_ok by (unfold len in *; cbn; lia). cbn [mbind option_bind].
  assert (E : done0 ++ out ++ [back d (done0 ++ out)] = copy_back 1 d (done0 ++ out)) by (by rewrite copy_back_S, app_assoc).
  assert (El : len (out ++ [back d (done0 ++ out)]) = len out + Z.of_nat 1) by (rewrite len_app; done).
  apply (copied_trans 1 n d out _ _ E El). destruct n as [|n]; [apply copied_none|]. apply IH.
  by apply (source_next 1 (S n) d pSrc out); [|lia| |].
Qed.

(** Bytes read before they are written, [l0] being those before them. *)
Lemma peeks_ok k d pSrc out l0 :
  source (length l0 + k) d pSrc out → len l0 + Z.of_nat k ≤ d → done0 ++ out ++ l0 = copy_back (length l0) d (done0 ++ out) →
  ∃ l, peeks buf pos out (pSrc + len l0) k = Some l ∧ length l = k ∧
    done0 ++ out ++ l0 ++ l = copy_back (length l0 + k) d (done0 ++ out).
Proof.
  revert l0. induction k as [|k IH]; intros l0 Hs Hd E.
  { exists []. by rewrite app_nil_r, Nat.add_0_r. }
  pose proof Hs as []. pose proof (len_nonneg l0). cbn [peeks]. rewrite (peek_from out d) by (unfold len in *; (done || lia)).
  cbn [mbind option_bind]. set (x := back (d - len l0) (done0 ++ out)).
  assert (back d (done0 ++ out ++ l0) = x) as Ex.
  { unfold x, back. rewrite app_assoc, app_nth1.
    - f_equal. rewrite (len_app _ l0). lia.
    - rewrite (len_app _ l0). unfold len in *. rewrite length_app in *. lia. }
  assert (Hl : length (l0 ++ [x]) = S (length l0)) by (rewrite length_app; cbn; lia).
  destruct (IH (l0 ++ [x])) as (l & Hp & Hk & Hc).
  - rewrite Hl. by replace (S (length l0) + k)%nat with (length l0 + S k)%nat by lia.
  - unfold len in *. rewrite Hl. lia.
  - rewrite Hl, <-Nat.add_1_r, copy_back_add, <-E. rewrite copy_back_S, Ex. cbn. by rewrite <-!app_assoc.
  - exists (x :: l). unfold len in *. rewrite Hl in Hp. replace (pSrc + Z.of_nat (length l0) + 1) with (pSrc + Z.of_nat (S (length l0))) by lia.
    rewrite Hp. cbn [mbind option_bind]. split_and!; [done|cbn; lia|]. rewrite Hl in Hc.
    rewrite <-(app_assoc l0) in Hc. cbn [app] in Hc. rewrite Hc. f_equal. lia.
Qed.

Lemma word_ok k d pSrc out :
  source k d pSrc out → Z.of_nat k ≤ d → copied k d out (w ← peeks buf pos out pSrc k; store room w out).
Proof.
  intros Hs Hk. destruct (peeks_ok k d pSrc out []) as (l & Hp & Hl & Hc); [done|done|by rewrite app_nil_r|].
  change (len []) with 0 in Hp. rewrite Z.add_0_r in Hp. rewrite Hp. cbn [mbind option_bind]. pose proof Hs as [].
  rewrite store_ok by (unfold len in *; lia). exists (out ++ l). split_and!; [done|done|]. rewrite len_app. unfold len. lia.
Qed.

Lemma copied_bind a b d out r k :
  copied a d out r → (∀ out', done0 ++ out' = copy_back a d (done0 ++ out) → len out' = len out + Z.of_nat a → copied b d out' (k out')) →
  copied (a + b) d out (o ← r; k o).
Proof. intros (o & -> & H1 & H2) H. cbn [mbind option_bind]. by apply (copied_trans a b d out o); [..|apply H]. Qed.

Lemma source_less a b d pSrc out : source (a + b) d pSrc out → source a d pSrc out.
Proof. intros []. split; lia || done. Qed.

Lemma copy_words_ok k d pSrc out :
  source (8 * k) d pSrc out → Z.of_nat (8 * k) ≤ d → copied (8 * k) d out (copy_words buf pos room k pSrc out).
Proof.
  revert pSrc out. induction k as [|k IH]; intros pSrc out Hs Hd; [apply copied_none|]. cbn [copy_words].
  replace (8 * S k)%nat with (4 + (4 + 8 * k))%nat in * by lia.
  assert (Hassoc : ∀ A B (m : option A) (f : A → option B) (g : B → option (list Z)), (x ← m; y ← f x; g y) = (y ← (x ← m; f x); g y))
    by (by intros ? ? []).
  rewrite Hassoc. apply copied_bind; [apply word_ok; [by eapply source_less|lia]|]. intros o1 E1 L1.
  pose proof (source_next 4 (4 + 8 * k) d pSrc out o1 Hs ltac:(lia) E1 L1) as Hs1.
  rewrite Hassoc. apply copied_bind; [apply word_ok; [by eapply source_less|lia]|]. intros o2 E2 L2.
  destruct k as [|k]; [apply copied_none|].
  pose proof (source_next 4 (8 * S k) d _ o1 o2 Hs1 ltac:(lia) E2 L2) as Hs2.
  replace (pSrc + 8) with (pSrc + Z.of_nat 4 + Z.of_nat 4) by lia. apply IH; [done|lia].
Qed.

Lemma copy_triples_ok fuel c d pSrc out :
  source (Z.to_nat c) d pSrc out → 3 ≤ c → c ≤ Z.of_nat fuel → copied (Z.to_nat c) d out (copy_triples buf pos room fuel c pSrc out).
Proof.
  revert c pSrc out. induction fuel as [|fuel IH]; intros c pSrc out Hs Hc Hf; [lia|]. cbn [copy_triples].
  replace (Z.to_nat c) with (3 + Z.to_nat (c - 3))%nat in * by lia.
  apply copied_bind; [apply copy_bytes_ok; by eapply source_less|]. intros o E L.
  destruct (decide (c = 3)) as [->|Hne]; [apply copied_none|].
  pose proof (source_next 3 (Z.to_nat (c - 3)) d pSrc out o Hs ltac:(lia) E L) as Hs'. change (Z.of_nat 3) with 3 in Hs'.
  destruct (Z.ltb_spec 2 (c - 3)); [apply IH; done || lia|]. rewrite (proj2 (Z.ltb_lt _ _)) by lia. by apply copy_bytes_ok.
Qed.

(** All of a match. *)
Lemma copy_match_ok c d pSrc out :
  source (Z.to_nat c) d pSrc out → 3 ≤ c → copied (Z.to_nat c) d out (copy_match buf pos room c d pSrc out).
Proof.
  intros Hs Hc. unfold copy_match. destruct ((9 <=? c) && (c <=? d)) eqn:E; [|apply copy_triples_ok; done || lia].
  apply andb_true_iff in E as [E1%Z.leb_le E2%Z.leb_le]. pose proof (Z.div_mod c 8 ltac:(lia)) as Hdm.
  pose proof (Z.mod_pos_bound c 8 ltac:(lia)) as Hm. pose proof (Z.div_pos c 8 ltac:(lia) ltac:(lia)).
  assert (Z.land c 7 = c mod 8) as -> by (change 7 with (Z.ones 3); by rewrite Z.land_ones).
  set (k := Z.to_nat (c / 8)). replace (Z.to_nat c) with (8 * k + Z.to_nat (c mod 8))%nat in * by lia.
  apply copied_bind; [apply copy_words_ok; [by eapply source_less|lia]|]. intros o E L.
  destruct (decide (c mod 8 = 0)) as [->|Hne]; [apply copied_none|].
  pose proof (source_next (8 * k) (Z.to_nat (c mod 8)) d pSrc out o Hs ltac:(lia) E L) as Hs'.
  replace (Z.of_nat (8 * k)) with (8 * Z.of_nat k) in Hs' by lia.
  destruct (Z.ltb_spec (c mod 8) 3); [by apply copy_bytes_ok|]. apply copy_triples_ok; done || lia.
Qed.
End Out.
