(* ===== verification/InflateInv.v ===== *)
(** * What the decompressor still has to do

    For every label of the coroutine what the stream must still hold and what the registers
    stand for ([at_label]), in terms of the format of [Deflate]. *)
From stdpp Require Import strings gmap list numbers.
From S2P Require Import Prelude CString FileSys ZipReader ZipCrc Unzip ZipFormat Deflate Inflate HuffTable InflateInput.
Local Open Scope Z_scope.

(** ** The rest of a block *)

Section Rest.
(** What comes after the block. *)
Context (K : bits → list Z → Prop).

Section Codes.
Context (L D : list Z).

Definition coded (B : bits) (old : list Z) : Prop := ∃ B' out, codes L D B old B' out ∧ K B' out.

(** After the length of a match. *)
Definition after_length (n : Z) (B : bits) (old : list Z) : Prop :=
  ∃ t B3 dbase dextra y B4, huff D B t B3 ∧ rfc_dist !! Z.to_nat t = Some (dbase, dextra) ∧
    take_bits dextra B3 = Some (y, B4) ∧ dbase + y ≤ len old ∧ coded B4 (copy_back (Z.to_nat n) (dbase + y) old).

(** After a symbol that is no literal. *)
Definition after_symbol (s : Z) (B : bits) (old : list Z) : Prop :=
  s = 256 ∧ K B old ∨
  257 ≤ s ∧ ∃ base extra x B2, rfc_length !! Z.to_nat (s - 257) = Some (base, extra) ∧
    take_bits extra B = Some (x, B2) ∧ after_length (base + x) B2 old.

Lemma coded_symbol B old :
  coded B old → ∃ s B1, huff L B s B1 ∧ (s < 256 ∧ coded B1 (old ++ [s]) ∨ 256 ≤ s ∧ after_symbol s B1 old).
Proof.
  intros (B' & out & Hc & HK). destruct Hc as [B old B' Hh|B old s B1 B' out Hh Hs Hc|].
  - exists 256, B'. split; [done|]. right. split; [done|]. by left.
  - exists s, B1. split; [done|]. left. split; [done|]. by exists B', out.
  - eexists _, _. split; [done|]. right. split; [lia|]. right. split; [done|]. eexists _, _, _, _. split_and!; [done..|].
    eexists _, _, _, _, _, _. split_and!; [done..|]. by eexists _, _.
Qed.
End Codes.

(** The code lengths after those in [acc], and the codes. *)
Definition with_lengths (n0 n1 : Z) (C : list Z) (B : bits) (acc old : list Z) : Prop :=
  ∃ B5 lens, lengths C (n0 + n1) B acc B5 lens ∧ codes_ok (take (Z.to_nat n0) lens) ∧ codes_ok (drop (Z.to_nat n0) lens) ∧
    coded (take (Z.to_nat n0) lens) (drop (Z.to_nat n0) lens) B5 old.

(** Bytes of a stored block. *)
Definition stored (n : Z) (B : bits) (old : list Z) : Prop :=
  ∃ l B3, take_bytes (Z.to_nat n) B = Some (l, B3) ∧ K B3 (old ++ l).
End Rest.

(** ** Registers *)

Record shape (r : regs) : Prop := {
  sh_raw : length (m_raw_header r) = 4%nat;
  sh_sizes : length (m_table_sizes r) = 3%nat;
  sh_tables : length (m_tables r) = 3%nat;
  sh_codes : Forall (λ t, length (m_code_size t) = 288%nat) (m_tables r);
  sh_len_codes : length (m_len_codes r) = 457%nat
}.

(** A table for a code. *)
Record serves (t : tinfl_huff_table) (lens : list Z) : Prop := {
  sv_codes : codes_ok lens;
  sv_length : (length lens ≤ 288)%nat;
  sv_table : table_ok lens t
}.

Definition code_tables (r : regs) (L D : list Z) : Prop :=
  ∃ t0 t1 t2, m_tables r = [t0; t1; t2] ∧ serves t0 L ∧ serves t1 D.

(** The sizes of the two codes in a dynamic block. *)
Definition sizes_ok (n0 n1 : Z) : Prop := 257 ≤ n0 ≤ 288 ∧ 1 ≤ n1 ≤ 32.

(** The fields at the head of a dynamic block: bits and what is added. *)
Definition size_fields : list (Z * Z) := [(5, 257); (5, 1); (4, 4)].

Fixpoint take_fields (fs : list (Z * Z)) (B : bits) : option (list Z * bits) :=
  match fs with
  | [] => Some ([], B)
  | (n, b) :: fs' => '(x, B) ← take_bits n B; '(l, B) ← take_fields fs' B; Some (x + b :: l, B)
  end.

(** The header of a stored block. *)
Definition stored_header (h : list Z) (n : Z) : Prop :=
  ∃ h0 h1 h2 h3, h = [h0; h1; h2; h3] ∧ n = Z.lor h0 (Z.shiftl h1 8) ∧ n = Z.lxor 0xFFFF (Z.lor h2 (Z.shiftl h3 8)).

Section Label.
(** The data in the end. *)
Context (all : list Z).

Definition after (final : Z) (B : bits) (old : list Z) : Prop :=
  if Z.land final 1 =? 0 then deflate B old all else old = all.

(** The codes for lengths from the [c]-th on. *)
Definition length_codes_from (K : bits → list Z → Prop) (n0 n1 n2 c : Z) (t : tinfl_huff_table) (B : bits) (old : list Z) : Prop :=
  ∃ C B4, length_codes (Z.to_nat (n2 - c)) (drop (Z.to_nat c) length_order) (take 19 (m_code_size t)) B = Some (C, B4) ∧
    codes_ok C ∧ with_lengths K n0 n1 C B4 [] old.

(** In the loop over the code lengths. *)
Definition in_lengths (r : regs) (P : Z → Z → list Z → Prop) : Prop :=
  ∃ n0 n1 C t0 t1 t2, m_type r = 2 ∧ m_table_sizes r = [n0; n1; 19] ∧ sizes_ok n0 n1 ∧ m_tables r = [t0; t1; t2] ∧
    serves t2 C ∧ 0 ≤ counter r ≤ n0 + n1 ∧ P n0 n1 C.

Definition at_label (l : label) (r : regs) (n : Z) (B : bits) (old : list Z) : Prop :=
  let K := after (m_final r) in
  match l with
  | L0 => n = 0 ∧ deflate B old all
  | L3 => deflate B old all
  | L7 => n mod 8 = 0 ∧ 0 ≤ counter r ≤ 4 ∧
      ∃ hs B2 k, take_bytes (Z.to_nat (4 - counter r)) B = Some (hs, B2) ∧
        stored_header (take (Z.to_nat (counter r)) (m_raw_header r) ++ hs) k ∧ 0 ≤ k ∧ stored K k B2 old
  | L51 => n mod 8 = 0 ∧ 0 ≤ counter r ∧ stored K (counter r) B old
  | L52 => n mod 8 = 0 ∧ 1 ≤ counter r ∧ is_byte (dist r) ∧ stored K (counter r - 1) B (old ++ [dist r])
  | L9 => 0 ≤ counter r ∧ (counter r = 0 ∨ n = 0) ∧ stored K (counter r) B old
  | L38 => 0 < counter r ∧ n = 0 ∧ stored K (counter r) B old
  | L_block_end => K B old
  | L11 => 0 ≤ counter r ≤ 3 ∧ m_type r = 2 ∧
      ∃ vals B3 n0 n1 n2, take_fields (drop (Z.to_nat (counter r)) size_fields) B = Some (vals, B3) ∧
        take (Z.to_nat (counter r)) (m_table_sizes r) ++ vals = [n0; n1; n2] ∧ sizes_ok n0 n1 ∧ 4 ≤ n2 ≤ 19 ∧
        length_codes_from K n0 n1 n2 0 (HuffTable (replicate 288 0) [] []) B3 old
  | L14 => ∃ n0 n1 n2 t0 t1 t2, m_table_sizes r = [n0; n1; n2] ∧ sizes_ok n0 n1 ∧ n2 ≤ 19 ∧ 0 ≤ counter r ≤ n2 ∧
      m_tables r = [t0; t1; t2] ∧ m_type r = 2 ∧ length_codes_from K n0 n1 n2 (counter r) t2 B old
  | L_tables =>
      ∃ n0 n1 n2 t0 t1 t2, m_table_sizes r = [n0; n1; n2] ∧ sizes_ok n0 n1 ∧ m_tables r = [t0; t1; t2] ∧
      (m_type r = 2 ∧ n2 = 19 ∧ codes_ok (take 19 (m_code_size t2)) ∧ with_lengths K n0 n1 (take 19 (m_code_size t2)) B [] old ∨
       -1 ≤ m_type r ≤ 1 ∧
       let L := take (Z.to_nat n0) (m_code_size t0) in let D := take (Z.to_nat n1) (m_code_size t1) in
       codes_ok L ∧ codes_ok D ∧ (m_type r < 1 → table_ok D t1) ∧ (m_type r < 0 → table_ok L t0) ∧ coded K L D B old)
  | L16 _ => in_lengths r (λ n0 n1 C, with_lengths K n0 n1 C B (take (Z.to_nat (counter r)) (m_len_codes r)) old)
  | L18 => in_lengths r (λ n0 n1 C, ∃ x B2 base c,
      repeat_extra !! Z.to_nat (dist r - 16) = Some (num_extra r) ∧ repeat_base !! Z.to_nat (dist r - 16) = Some base ∧ 16 ≤ dist r ∧
      take_bits (num_extra r) B = Some (x, B2) ∧
      c = (if dist r =? 16 then nth (Z.to_nat (counter r - 1)) (m_len_codes r) 0 else 0) ∧ (dist r = 16 → 1 ≤ counter r) ∧
      with_lengths K n0 n1 C B2 (take (Z.to_nat (counter r)) (m_len_codes r) ++ replicate (Z.to_nat (x + base)) c) old)
  | L23 _ => ∃ L D, code_tables r L D ∧ coded K L D B old
  | L24 => ∃ L D, code_tables r L D ∧ is_byte (counter r) ∧ coded K L D B (old ++ [counter r])
  | L_length => ∃ L D, code_tables r L D ∧ after_symbol K L D (Z.land (counter r) 511) B old
  | L25 => ∃ L D x B2, code_tables r L D ∧ 0 < num_extra r ≤ 5 ∧ 3 ≤ counter r ∧ take_bits (num_extra r) B = Some (x, B2) ∧
      after_length K L D (counter r + x) B2 old
  | L26 _ => ∃ L D, code_tables r L D ∧ 3 ≤ counter r ∧ after_length K L D (counter r) B old
  | L27 => ∃ L D y B4, code_tables r L D ∧ 3 ≤ counter r ∧ 0 < num_extra r ≤ 13 ∧ take_bits (num_extra r) B = Some (y, B4) ∧
      1 ≤ dist r + y ≤ TINFL_LZ_DICT_SIZE ∧ dist r + y ≤ len old ∧ coded K L D B4 (copy_back (Z.to_nat (counter r)) (dist r + y) old)
  | L_copy => ∃ L D, code_tables r L D ∧ 3 ≤ counter r ∧ 1 ≤ dist r ≤ TINFL_LZ_DICT_SIZE ∧ dist r ≤ len old ∧
      coded K L D B (copy_back (Z.to_nat (counter r)) (dist r) old)
  | L53 => ∃ L D, code_tables r L D ∧ 0 ≤ counter r ∧ 1 ≤ dist r ≤ TINFL_LZ_DICT_SIZE ∧ dist r ≤ len old ∧
      dist_from_out_buf_start r mod TINFL_LZ_DICT_SIZE = len old mod TINFL_LZ_DICT_SIZE ∧
      coded K L D B (copy_back (Z.to_nat (counter r + 1)) (dist r) old)
  | Failed _ => False
  | Done => old = all
  end.
End Label.

(** ** Output only grows *)

Lemma codes_extends L D B old B' out : codes L D B old B' out → old `prefix_of` out.
Proof.
  induction 1 as [|B old s B1 B' out Hh Hs Hc IH|B old s B1 base extra x B2 t B3 dbase dextra y B4 B' out]; [done| |].
  - by apply prefix_app_l in IH.
  - destruct (copy_back_extends (Z.to_nat (base + x)) (dbase + y) old) as (l & E & _).
    match goal with IH : copy_back _ _ _ `prefix_of` _ |- _ => rewrite E in IH; by apply prefix_app_l in IH end.
Qed.

Lemma block_extends t B old B' out : block t B old B' out → old `prefix_of` out.
Proof. destruct 1; [by apply prefix_app_r|by eapply codes_extends..]. Qed.

Lemma deflate_extends B old out : deflate B old out → old `prefix_of` out.
Proof.
  induction 1 as [B old B1 t B2 B3 out _ _ Hb|B old B1 t B2 B3 old' out _ _ Hb _ IH]; [by eapply block_extends|].
  etrans; [by eapply block_extends|done].
Qed.

Section Extends.
Context (all : list Z).
Notation after := (after all).

Lemma after_extends f B old : after f B old → old `prefix_of` all.
Proof. unfold after. destruct (_ =? 0); [apply deflate_extends|by intros ->]. Qed.

Lemma coded_extends f L D B old : coded (after f) L D B old → old `prefix_of` all.
Proof. intros (B' & out & Hc%codes_extends & Ha%after_extends). by etrans. Qed.

Lemma stored_extends f n B old : stored (after f) n B old → old `prefix_of` all.
Proof. intros (l & B3 & _ & Ha%after_extends). by apply prefix_app_l in Ha. Qed.

Lemma lengths_extends f n0 n1 C B acc old : with_lengths (after f) n0 n1 C B acc old → old `prefix_of` all.
Proof. intros (B5 & lens & _ & _ & _ & Hc). by eapply coded_extends. Qed.

Lemma copy_extends f L D n d B old : coded (after f) L D B (copy_back n d old) → old `prefix_of` all.
Proof.
  intros Hc%coded_extends. destruct (copy_back_extends n d old) as (l & E & _). rewrite E in Hc. by apply prefix_app_l in Hc.
Qed.

Lemma length_extends f L D n B old : after_length (after f) L D n B old → old `prefix_of` all.
Proof. intros (t & B3 & ? & ? & y & B4 & _ & _ & _ & _ & Hc). by eapply copy_extends. Qed.

Lemma symbol_extends f L D s B old : after_symbol (after f) L D s B old → old `prefix_of` all.
Proof. intros [[_ H]|(_ & ? & ? & ? & ? & _ & _ & H)]; [by eapply after_extends|by eapply length_extends]. Qed.

(** What has been written is the beginning of the data. *)
Lemma at_label_extends l r n B old : at_label all l r n B old → old `prefix_of` all.
Proof.
  destruct l; cbn [at_label]; try (by intros []); try (intros ->; done);
    [by intros [_ H%deflate_extends]|by apply deflate_extends|..].
  - intros (_ & _ & ? & ? & k & _ & _ & _ & H). by eapply stored_extends.
  - intros (_ & _ & H). by eapply stored_extends.
  - intros (_ & _ & _ & H%stored_extends). by apply prefix_app_l in H.
  - intros (_ & _ & H). by eapply stored_extends.
  - intros (_ & _ & H). by eapply stored_extends.
  - apply after_extends.
  - intros (_ & _ & ? & ? & ? & ? & ? & _ & _ & _ & _ & ? & ? & _ & _ & H). by eapply lengths_extends.
  - intros (? & ? & ? & ? & ? & ? & _ & _ & _ & _ & _ & _ & ? & ? & _ & _ & H). by eapply lengths_extends.
  - intros (? & ? & ? & ? & ? & ? & _ & _ & _ & [(_ & _ & _ & H)|(_ & _ & _ & _ & _ & H)]);
      [by eapply lengths_extends|by eapply coded_extends].
  - intros (? & ? & ? & ? & ? & ? & _ & _ & _ & _ & _ & _ & H). by eapply lengths_extends.
  - intros (? & ? & ? & ? & ? & ? & _ & _ & _ & _ & _ & _ & ? & ? & ? & ? & _ & _ & _ & _ & _ & _ & H). by eapply lengths_extends.
  - intros (? & ? & _ & H). by eapply coded_extends.
  - intros (? & ? & _ & _ & H%coded_extends). by apply prefix_app_l in H.
  - intros (? & ? & _ & H). by eapply symbol_extends.
  - intros (? & ? & ? & ? & _ & _ & _ & _ & H). by eapply length_extends.
  - intros (? & ? & _ & _ & H). by eapply length_extends.
  - intros (? & ? & ? & ? & _ & _ & _ & _ & _ & _ & H). by eapply copy_extends.
  - intros (? & ? & _ & _ & _ & _ & H). by eapply copy_extends.
  - intros (? & ? & _ & _ & _ & _ & _ & H). by eapply copy_extends.
Qed.
End Extends.
