(* ===== verification/InflateSteps.v ===== *)
(** * The decompressor step by step

    Every step of a call leads to the next label with less left to do ([measure]), or the
    call returns as the header of the library promises. *)
From stdpp Require Import strings gmap list numbers.
From S2P Require Import Prelude CString FileSys ZipReader ZipCrc Unzip ZipFormat Deflate Inflate HuffTable InflateInput InflateInv.
Local Open Scope Z_scope.

(** ** Lists and bits *)

Lemma three {A} (l : list A) : length l = 3%nat → ∃ a b c, l = [a; b; c].
Proof. destruct l as [|a [|b [|c [|? ?]]]]; try done. intros _. by exists a, b, c. Qed.

Lemma at3_0 {A} (a b c : A) : at_ [a; b; c] 0 = Some a.
Proof. done. Qed.

Lemma at3_1 {A} (a b c : A) : at_ [a; b; c] 1 = Some b.
Proof. done. Qed.

Lemma at3_2 {A} (a b c : A) : at_ [a; b; c] 2 = Some c.
Proof. done. Qed.

Lemma take_bits_join a b B x B1 y B2 :
  take_bits a B = Some (x, B1) → take_bits b B1 = Some (y, B2) → take_bits (a + b) B = Some (x + 2 ^ a * y, B2).
Proof.
  unfold take_bits. destruct (0 <=? a) eqn:E1, (a <=? b_len B) eqn:E2; try done. intros [= <- <-]. cbn [b_len b_val].
  destruct (0 <=? b) eqn:E3, (b <=? b_len B - a) eqn:E4; try done. intros [= <- <-]. apply Z.leb_le in E1, E2, E3, E4.
  rewrite (proj2 (Z.leb_le _ _)), (proj2 (Z.leb_le _ _)) by lia. cbn [andb]. pose proof (pow2_pos a E1). pose proof (pow2_pos b E3).
  do 2 f_equal; [|f_equal; [by rewrite div_div_pow2 by lia|lia]].
  rewrite Z.pow_add_r, Z.rem_mul_r by lia. done.
Qed.

Lemma take_bits_split a b B z B2 :
  0 ≤ a → 0 ≤ b → take_bits (a + b) B = Some (z, B2) →
  ∃ x B1 y, take_bits a B = Some (x, B1) ∧ take_bits b B1 = Some (y, B2) ∧ z = x + 2 ^ a * y.
Proof.
  intros Ha Hb. unfold take_bits. destruct (0 <=? a + b) eqn:E1, (a + b <=? b_len B) eqn:E2; try done. intros [= <- <-].
  apply Z.leb_le in E1, E2. pose proof (pow2_pos a Ha). pose proof (pow2_pos b Hb).
  rewrite (proj2 (Z.leb_le 0 a)), (proj2 (Z.leb_le a _)) by lia. cbn [andb]. eexists _, _, _. split; [done|]. cbn [b_len b_val].
  rewrite (proj2 (Z.leb_le 0 b)), (proj2 (Z.leb_le b _)) by lia. cbn [andb]. split.
  - do 2 f_equal. f_equal; [by rewrite div_div_pow2 by lia|lia].
  - rewrite Z.pow_add_r, Z.rem_mul_r by lia. done.
Qed.

Lemma take_bytes_app a b B l1 B1 l2 B2 :
  take_bytes a B = Some (l1, B1) → take_bytes b B1 = Some (l2, B2) → take_bytes (a + b) B = Some (l1 ++ l2, B2).
Proof.
  revert B l1. induction a as [|a IH]; intros B l1; cbn [take_bytes Nat.add]; [by intros [= <- <-]|].
  destruct (take_bits 8 B) as [[x B']|]; [|done]. cbn [mbind option_bind].
  destruct (take_bytes a B') as [[l B'']|] eqn:E; [|done]. cbn [mbind option_bind]. intros [= <- <-] H. by rewrite (IH _ _ E H).
Qed.

(** Sixteen bits as two bytes. *)
Lemma take_two B n B1 :
  take_bits 16 B = Some (n, B1) → ∃ a b, take_bytes 2 B = Some ([a; b], B1) ∧ n = Z.lor a (Z.shiftl b 8) ∧ is_byte a ∧ is_byte b.
Proof.
  intros H. apply (take_bits_split 8 8) in H as (a & B' & b & Ha & Hb & ->); [|lia..]. exists a, b. cbn [take_bytes].
  rewrite Ha. cbn [mbind option_bind]. rewrite Hb. cbn [mbind option_bind]. apply take_bits_len in Ha as [_ Ha], Hb as [_ Hb].
  split_and!; [done| |done|done]. rewrite lor_shiftl_add by (done || lia). lia.
Qed.

(** The fields of a dynamic block. *)
Lemma dynamic_fields B hlit B1 hdist B2 hclen B3 :
  take_bits 5 B = Some (hlit, B1) → take_bits 5 B1 = Some (hdist, B2) → take_bits 4 B2 = Some (hclen, B3) →
  take_fields size_fields B = Some ([hlit + 257; hdist + 1; hclen + 4], B3) ∧
  sizes_ok (hlit + 257) (hdist + 1) ∧ 4 ≤ hclen + 4 ≤ 19.
Proof.
  intros H1 H2 H3. cbn [take_fields size_fields]. rewrite H1. cbn [mbind option_bind]. rewrite H2. cbn [mbind option_bind]. rewrite H3.
  split; [done|]. apply take_bits_len in H1 as [_ H1], H2 as [_ H2], H3 as [_ H3]. unfold sizes_ok. cbn in *. lia.
Qed.

Lemma fixed_codes_ok : codes_ok fixed_lens ∧ codes_ok fixed_dists.
Proof.
  assert (∀ l, forallb (λ n, (0 <=? n) && (n <=? 15)) l = true → Forall (λ n, 0 <= n <= 15) l) as H.
  { intros l Hl. rewrite forallb_forall in Hl. apply Forall_forall. intros x Hx%list_elem_of_In%Hl. lia. }
  split; (split; [by apply H|left; by vm_compute]).
Qed.

Lemma take_bytes_S k B l B' :
  take_bytes (S k) B = Some (l, B') → ∃ b B1 l', take_bits 8 B = Some (b, B1) ∧ take_bytes k B1 = Some (l', B') ∧ l = b :: l'.
Proof.
  cbn [take_bytes]. destruct (take_bits 8 B) as [[b B1]|]; [|done]. cbn [mbind option_bind].
  destruct (take_bytes k B1) as [[l' B'']|] eqn:E; [|done]. intros [= <- <-]. by exists b, B1, l'.
Qed.

Lemma put_at_next {A} (l l' : list A) i x :
  0 ≤ i → put_at i x l = Some l' → take (Z.to_nat (i + 1)) l' = take (Z.to_nat i) l ++ [x].
Proof.
  intros Hi. unfold put_at. destruct (0 <=? i) eqn:E1, (i <? Z.of_nat (length l)) eqn:E2; try done. intros [= <-].
  apply Z.ltb_lt in E2. replace (Z.to_nat (i + 1)) with (S (Z.to_nat i)) by lia.
  rewrite (take_S_r _ _ x), take_insert_ge; [done|lia|]. apply list_lookup_insert_eq. lia.
Qed.

Lemma put_at_eq {A} (l : list A) i x : 0 ≤ i < Z.of_nat (length l) → put_at i x l = Some (<[Z.to_nat i := x]> l).
Proof. intros H. unfold put_at. by rewrite (proj2 (Z.leb_le _ _)), (proj2 (Z.ltb_lt _ _)) by lia. Qed.

Lemma take_8_of b l : is_byte b → take_bits 8 (bits_of (b :: l)) = Some (b, bits_of l).
Proof.
  intros Hb. unfold take_bits, bits_of. cbn [b_val b_len]. pose proof (len_nonneg l). rewrite len_cons.
  rewrite (proj2 (Z.leb_le _ _)), (proj2 (Z.leb_le _ _)) by lia. cbn [andb le_val]. change (2 ^ 8) with 256. unfold is_byte in Hb.
  rewrite (Z.mul_comm 256), Z.mod_add, Z.div_add, Z.mod_small, Z.div_small by lia. do 2 f_equal. f_equal; lia.
Qed.

(** Whole bytes of input. *)
Lemma take_bytes_of l1 l2 k l B :
  Forall is_byte l1 → take_bytes (length l1 + k) (bits_of (l1 ++ l2)) = Some (l, B) →
  ∃ l', l = l1 ++ l' ∧ take_bytes k (bits_of l2) = Some (l', B).
Proof.
  intros Hf. revert l. induction Hf as [|b l1 Hb Hf IH]; intros l; [by exists l|]. cbn [length Nat.add app].
  intros (x & B1 & l' & H1 & H2 & ->)%take_bytes_S. rewrite take_8_of in H1 by done. injection H1 as <- <-.
  destruct (IH _ H2) as (l'' & -> & H). by exists l''.
Qed.

Lemma land_255 b : is_byte b → Z.land b 255 = b.
Proof. intros Hb. change 255 with (Z.ones 8). rewrite Z.land_ones by lia. by apply Z.mod_small. Qed.

Lemma len_snoc l (b : Z) : len (l ++ [b]) = len l + 1.
Proof. unfold len. rewrite length_app. cbn. lia. Qed.

Lemma size_field c :
  0 ≤ c < 3 → ∃ n b, at_ table_size_bits c = Some n ∧ at_ s_min_table_sizes c = Some b ∧ n ≤ 16 ∧ 4 ≤ n ∧
    drop (Z.to_nat c) size_fields = (n, b) :: drop (Z.to_nat (c + 1)) size_fields.
Proof.
  intros H. assert (c = 0 ∨ c = 1 ∨ c = 2) as [->|[->| ->]] by lia; eexists _, _; split_and!; try done; lia.
Qed.

Lemma take_fields_cons n b fs B vals B3 :
  take_fields ((n, b) :: fs) B = Some (vals, B3) →
  ∃ x B1 l, take_bits n B = Some (x, B1) ∧ take_fields fs B1 = Some (l, B3) ∧ vals = x + b :: l.
Proof.
  cbn [take_fields]. destruct (take_bits n B) as [[x B1]|] eqn:E1; [|done]. cbn [mbind option_bind].
  destruct (take_fields fs B1) as [[l B']|] eqn:E2; [|done]. intros [= <- <-]. by exists x, B1, l.
Qed.

Lemma length_order_at c :
  0 ≤ c < 19 → ∃ p, length_order !! Z.to_nat c = Some p ∧ at_ s_length_dezigzag c = Some (Z.of_nat p) ∧ (p < 19)%nat.
Proof.
  intros H. unfold at_. rewrite (proj2 (Z.ltb_ge _ _)) by lia. assert (Z.to_nat c < 19)%nat as Hc by lia. revert Hc. generalize (Z.to_nat c).
  intros n Hn. do 19 (destruct n as [|n]; [eexists; split_and!; [reflexivity|reflexivity|lia]|]). lia.
Qed.

Lemma length_codes_S k p order acc B r :
  length_codes (S k) (p :: order) acc B = Some r → ∃ x B1, take_bits 3 B = Some (x, B1) ∧ length_codes k order (<[p := x]> acc) B1 = Some r.
Proof. cbn [length_codes]. destruct (take_bits 3 B) as [[x B1]|]; [|done]. cbn [mbind option_bind]. intros H. by exists x, B1. Qed.

Section Steps.
Context (all : list Z) (more : bool) (later buf done0 : list Z) (pos room : Z).
Hypothesis Hmore : more = false → later = [].
Hypothesis Hwin : window buf done0.
Hypothesis Hpos : pos = len done0 mod TINFL_LZ_DICT_SIZE.
Hypothesis Hroom : room = TINFL_LZ_DICT_SIZE - pos.

Notation at_label := (at_label all).
Notation after := (after all).
Notation reads := (reads more later).
Notation src_ok s := (src_ok s later).
Notation bits_at s := (bits_at s later).

Definition label_ok (l : label) (s : src) (r : regs) (out : list Z) : Prop :=
  src_ok s ∧ shape r ∧ at_label l r (num_bits s) (bits_at s) (done0 ++ out) ∧ len out ≤ room.

Definition resumes (m : machine) : Prop := label_ok (m_state m) (m_src m) (m_regs m) (m_out m).

(** Within a call there is room at the copy of stored bytes. *)
Definition good (m : machine) : Prop := resumes m ∧ (m_state m = L38 → len (m_out m) < room).

(** The order of labels that lead to each other without input or output. *)
Definition rank (l : label) (r : regs) : Z :=
  match l with
  | L0 => 31
  | L11 => 20
  | L14 => 19
  | L_tables => if m_type r =? 2 then 18 else 13 + m_type r
  | L16 _ => 15
  | L7 => 12
  | L23 _ | L51 => 11
  | L_length => 10
  | L9 => 9
  | L38 => 8
  | L_block_end => 7
  | L_copy => 5
  | L53 => 4
  | L3 => 3
  | Done | Failed _ => 0
  | _ => 1
  end.

Definition measure (m : machine) : Z := 32 * (left_bits (m_src m) + (room - len (m_out m))) + rank (m_state m) (m_regs m).

(** How a call may return. *)
Definition stopped (st : tinfl_status) (m : machine) : Prop :=
  len (m_out m) ≤ room ∧
  match st with
  | TINFL_STATUS_DONE => done0 ++ m_out m = all
  | TINFL_STATUS_NEEDS_MORE_INPUT => more = true ∧ pIn (m_src m) = [] ∧ resumes m
  | TINFL_STATUS_HAS_MORE_OUTPUT => len (m_out m) = room ∧ resumes m
  | _ => False
  end.

Definition fine (m : machine) (nx : next) : Prop :=
  match nx with
  | Go m' => good m' ∧ measure m' < measure m
  | Stop st m' => stopped st m'
  | Crash => False
  end.

Lemma fine_input {A} (g : got A) l m k (P : A → src → Prop) :
  reads g (m_src m) P → shape (m_regs m) → len (m_out m) ≤ room →
  (∀ n, num_bits (m_src m) ≤ n → n mod 8 = num_bits (m_src m) mod 8 →
     at_label l (m_regs m) n (bits_at (m_src m)) (done0 ++ m_out m)) →
  (∀ a s', src_ok s' → P a s' → fine m (k a s')) → fine m (with_input g l m k).
Proof.
  intros Hg Hsh Ho Hl Hk. destruct g as [a s'|s'|]; cbn [reads with_input] in *; [by apply Hk; destruct Hg| |done].
  destruct Hg as (Hm & Hp & Hs & Hb & _ & Hle & Hmod). cbn [fine stopped m_out m_src]. split_and!; try done.
  unfold resumes, label_ok. cbn [m_state m_src m_regs m_out]. split_and!; try done. rewrite Hb. by apply Hl.
Qed.

Lemma fine_go l s r out m :
  src_ok s → shape r → at_label l r (num_bits s) (bits_at s) (done0 ++ out) → len out ≤ room → (l = L38 → len out < room) →
  measure (Machine l s r out) < measure m → fine m (Go (Machine l s r out)).
Proof. intros. cbn. done. Qed.

Lemma fine_full m : resumes m → room ≤ len (m_out m) → fine m (Stop TINFL_STATUS_HAS_MORE_OUTPUT m).
Proof. intros Hr Hf. pose proof Hr as (_ & _ & _ & ?). cbn. split_and!; try done. lia. Qed.

(** ** Blocks *)

(** The head of a block: three bits. *)
Lemma deflate_block B old :
  deflate B old all → ∃ h B2, take_bits 3 B = Some (h, B2) ∧ 0 ≤ h < 8 ∧ ∃ B3 out, block (h / 2) B2 old B3 out ∧ after h B3 out.
Proof.
  assert (Hjoin : ∀ f B1 t B2, take_bits 1 B = Some (f, B1) → take_bits 2 B1 = Some (t, B2) →
    take_bits 3 B = Some (f + 2 * t, B2) ∧ 0 ≤ f < 2 ∧ 0 ≤ t < 4).
  { intros f B1 t B2 H1 H2. split; [apply (take_bits_join 1 2 _ _ _ _ _ H1 H2)|]. apply take_bits_len in H1, H2. cbn in *. lia. }
  intros H. destruct H as [B old B1 t B2 B3 out H1 H2 Hb|B old B1 t B2 B3 old' out H1 H2 Hb Hd].
  - destruct (Hjoin _ _ _ _ H1 H2) as (H3 & ? & ?). exists (1 + 2 * t), B2. split_and!; [done|lia|lia|]. exists B3, out.
    replace ((1 + 2 * t) / 2) with t by (rewrite Z.mul_comm, Z.div_add by lia; done). split; [done|].
    unfold InflateInv.after. change 1 with (Z.ones 1) at 2. rewrite Z.land_ones by lia. change (2 ^ 1) with 2.
    rewrite Z.mul_comm, Z.mod_add by lia. done.
  - destruct (Hjoin _ _ _ _ H1 H2) as (H3 & ? & ?). exists (0 + 2 * t), B2. split_and!; [done|lia|lia|]. exists B3, old'.
    replace ((0 + 2 * t) / 2) with t by (rewrite Z.mul_comm, Z.div_add by lia; done). split; [done|].
    unfold InflateInv.after. change 1 with (Z.ones 1). rewrite Z.land_ones by lia. change (2 ^ 1) with 2.
    rewrite Z.mul_comm, Z.mod_add by lia. done.
Qed.

Ltac lower := unfold measure; cbn [m_state m_src m_regs m_out rank m_type set_type set_counter set_final set_dist set_num_extra
  set_dist_from set_raw_header set_table_sizes set_tables set_len_codes]; try lia.

(** To the byte boundary. *)
Lemma skip_bits s :
  src_ok s →
  let n := Z.land (num_bits s) 7 in
  let B := bits_at s in
  src_ok (drop_bits n s) ∧ bits_at (drop_bits n s) = Bits (b_val B / 2 ^ (b_len B mod 8)) (b_len B - b_len B mod 8) ∧
  left_bits (drop_bits n s) ≤ left_bits s ∧ num_bits (drop_bits n s) mod 8 = 0.
Proof.
  intros Hs. pose proof (bo_num _ _ (proj1 Hs)) as Hn. cbn zeta. set (B := bits_at s).
  assert (Z.land (num_bits s) 7 = num_bits s mod 8) as -> by (change 7 with (Z.ones 3); by rewrite Z.land_ones).
  assert (b_len B mod 8 = num_bits s mod 8) as ->.
  { unfold B. cbn. rewrite Z.mul_comm. by apply Z.mod_add. }
  pose proof (Z.mod_pos_bound (num_bits s) 8 ltac:(lia)). pose proof (Z.mod_le (num_bits s) 8 ltac:(lia) ltac:(lia)).
  pose proof (len_nonneg (pIn s ++ later)).
  destruct (take_at s later (num_bits s mod 8) (b_val B mod 2 ^ (num_bits s mod 8)) (Bits (b_val B / 2 ^ (num_bits s mod 8)) (b_len B - num_bits s mod 8)) Hs)
    as (_ & Hs' & HB & Hlb); [lia| |].
  - unfold take_bits. rewrite (proj2 (Z.leb_le _ _)), (proj2 (Z.leb_le _ _)); [done| |lia]. unfold B. cbn. lia.
  - split_and!; [done|done|lia|]. cbn [drop_bits num_bits]. rewrite Zminus_mod, Z.mod_mod, Z.sub_diag by lia. done.
Qed.

Lemma stored_go s r m :
  src_ok s → shape r → len (m_out m) ≤ room → left_bits s < left_bits (m_src m) → rank (m_state m) (m_regs m) = 3 →
  (∃ B3 out, block 0 (bits_at s) (done0 ++ m_out m) B3 out ∧ after (m_final r) B3 out) →
  fine m (Go (Machine L7 (drop_bits (Z.land (num_bits s) 7) s) (set_counter 0 r) (m_out m))).
Proof.
  intros Hs Hsh Ho Hlt Hrank (B3 & out & Hb & Ha). destruct (skip_bits s Hs) as (Hs' & HB & Hle & Hmod).
  inversion Hb as [B old B0 n B1 k B2 l B3' E0 H1 H2 Hk H3| |]; subst. rewrite <-HB in H1.
  destruct (take_two _ _ _ H1) as (h0 & h1 & T1 & En & _). destruct (take_two _ _ _ H2) as (h2 & h3 & T2 & Ek & _).
  apply fine_go; [done|by destruct Hsh|cbn|done|done|lower].
  split_and!; [done|lia|lia|]. exists [h0; h1; h2; h3], B2, n. split_and!.
  - apply (take_bytes_app 2 2 _ _ _ _ _ T1 T2).
  - exists h0, h1, h2, h3. split_and!; [done|done|]. rewrite <-Ek. rewrite (Z.lxor_comm n), <-Z.lxor_assoc, Z.lxor_nilpotent. done.
  - by apply take_bits_len in H1 as [_ [? _]].
  - by exists l, B3.
Qed.

Lemma fixed_go s r m t0 t1 t2 x :
  src_ok s → shape r → len (m_out m) ≤ room → left_bits s + 1 ≤ left_bits (m_src m) → rank (m_state m) (m_regs m) = 3 →
  m_type r = 1 → m_tables r = [t0; t1; t2] →
  (∃ B3 out, block 1 (bits_at s) (done0 ++ m_out m) B3 out ∧ after (m_final r) B3 out) →
  fine m (Go (Machine L_tables s (set_tables [set_sizes fixed_sizes t0; set_sizes (replicate 32 5 ++ drop 32 (m_code_size t1)) t1; t2]
                (set_table_sizes [288; 32; x] r)) (m_out m))).
Proof.
  intros Hs Hsh Ho Hlt Hrank Hty Ht (B3 & out & Hb & Ha). pose proof (sh_codes _ Hsh) as Hf. rewrite Ht in Hf.
  apply Forall_cons in Hf as [F0 [F1 [F2 _]%Forall_cons]%Forall_cons].
  inversion Hb as [|B old B' out' Hc|]; subst. destruct fixed_codes_ok as [HL HD].
  apply fine_go; [done| |cbn [InflateInv.at_label]|done|done|].
  - destruct Hsh. split; try done. repeat constructor; [|done]. cbn. rewrite length_drop. lia.
  - eexists _, _, _, _, _, _. split_and!; [done|unfold sizes_ok; lia|done|]. right. cbn [m_type set_tables set_table_sizes set_sizes m_code_size]. rewrite Hty. split; [lia|]. cbn zeta.
    assert (take (Z.to_nat 288) fixed_sizes = fixed_lens) as -> by done.
    assert (take (Z.to_nat 32) (replicate 32 5 ++ drop 32 (m_code_size t1)) = fixed_dists) as ->.
    { change (Z.to_nat 32) with (length (replicate 32 5)). by rewrite take_app_length. }
    split_and!; try done; [lia..|]. by eexists _, _.
  - lower. rewrite Hty. cbn. lia.
Qed.

Lemma dynamic_go s r m :
  src_ok s → shape r → m_type r = 2 → len (m_out m) ≤ room → left_bits s + 1 ≤ left_bits (m_src m) → rank (m_state m) (m_regs m) = 3 →
  (∃ B3 out, block 2 (bits_at s) (done0 ++ m_out m) B3 out ∧ after (m_final r) B3 out) →
  fine m (Go (Machine L11 s (set_counter 0 r) (m_out m))).
Proof.
  intros Hs Hsh Hty Ho Hlt Hrank (B' & out & Hb & Ha).
  inversion Hb as [| |B old hlit B1 hdist B2 hclen B3 C B4 lens B5 B'' out' H1 H2 H3 H4 HC H5 HL HD Hc]; subst.
  destruct (dynamic_fields _ _ _ _ _ _ _ H1 H2 H3) as (Hf & Hsz & Hn2).
  apply fine_go; [done|by destruct Hsh|cbn|done|done|lower]. split; [lia|]. split; [done|].
  eexists _, B3, _, _, _. split_and!; [exact Hf|done|apply Hsz..|lia|lia|]. exists C, B4. rewrite Z.sub_0_r. split_and!; [done|done|].
  exists B5, lens. split_and!; try done. by eexists _, _.
Qed.

Lemma step_block_ok m : m_state m = L3 → good m → fine m (step_block more m).
Proof.
  intros El [(Hs & Hsh & Hl & Ho) _]. rewrite El in Hl. cbn in Hl.
  destruct (deflate_block _ _ Hl) as (h & B2 & Ht & Hh & B3 & out & Hb & Ha). unfold step_block.
  eapply fine_input; [by apply (get_bits more later Hmore 3 _ h B2 Hs Ht); lia|done|done|by intros; cbn|].
  intros h' s Hs' (-> & <- & Hlb & _). cbn zeta. rewrite Z.shiftr_div_pow2 by lia. change (2 ^ 1) with 2.
  set (r := set_type (h / 2) (set_final h (m_regs m))). change (m_type r) with (h / 2).
  assert (shape r) as Hr by (by destruct Hsh). assert (rank (m_state m) (m_regs m) = 3) as Hrank by (by rewrite El).
  assert (h / 2 = 0 ∨ h / 2 = 1 ∨ h / 2 = 2) as Hty by (inversion Hb; lia).
  assert (Hrest : ∃ B3 out, block (h / 2) (bits_at s) (done0 ++ m_out m) B3 out ∧ after (m_final r) B3 out) by (by exists B3, out).
  destruct Hty as [Hty|[Hty|Hty]]; rewrite Hty in Hrest |- *; cbn [Z.eqb Pos.eqb].
  - apply stored_go; done || lia.
  - destruct (three _ (sh_tables _ Hr)) as (t0 & t1 & t2 & Et). destruct (three _ (sh_sizes _ Hr)) as (a & b & x & Ez). rewrite Et, Ez.
    rewrite at3_0, at3_1, !at3_2. cbn [mbind option_bind].
    pose proof (sh_codes _ Hr) as Hf. rewrite Et in Hf. apply Forall_cons in Hf as [F0 [F1 [F2 _]%Forall_cons]%Forall_cons].
    unfold put_front. rewrite F1. cbn [length replicate Nat.leb with_array]. cbn [mbind option_bind with_array].
    apply fixed_go; try done. lia.
  - apply dynamic_go; done || lia.
Qed.

(** ** Stored blocks *)

(** A byte in the header of a stored block. *)
Lemma header_byte s b B1 :
  src_ok s → num_bits s mod 8 = 0 → take_bits 8 (bits_at s) = Some (b, B1) →
  reads (if num_bits s =? 0 then TINFL_GET_BYTE more s else TINFL_GET_BITS more 8 s) s
    (λ y s', y = b ∧ bits_at s' = B1 ∧ left_bits s' = left_bits s - 8 ∧ num_bits s' mod 8 = 0).
Proof.
  intros Hs Hm Ht. destruct (Z.eqb_spec (num_bits s) 0) as [E|E]; [by apply get_byte_bits|].
  pose proof (get_bits more later Hmore 8 s b B1 Hs Ht ltac:(lia)) as H.
  replace ((num_bits s - 8) mod 8) with 0 in H; [done|]. rewrite Zminus_mod, Hm. done.
Qed.

Lemma step_header_ok m : m_state m = L7 → good m → fine m (step_header more m).
Proof.
  intros El [(Hs & Hsh & Hl & Ho) _]. rewrite El in Hl. cbn [InflateInv.at_label] in Hl.
  pose proof Hl as (Hm & Hc & hs & B2 & k & Ht & Hh & Hk & Hst). unfold step_header. destruct (Z.ltb_spec (counter (m_regs m)) 4) as [Hlt|Hge].
  - replace (Z.to_nat (4 - counter (m_regs m))) with (S (Z.to_nat (4 - (counter (m_regs m) + 1)))) in Ht by lia.
    destruct (take_bytes_S _ _ _ _ Ht) as (b & B1 & l & Hb & Hl' & ->).
    eapply fine_input; [by apply header_byte|done|done|intros n Hn Hn8; cbn [InflateInv.at_label]; by rewrite Hn8|].
    intros y s Hs' (-> & <- & Hlb & Hn0).
    destruct (put_at_some (m_raw_header (m_regs m)) (counter (m_regs m)) b) as [h Hput]; [rewrite (sh_raw _ Hsh); lia|].
    rewrite Hput. cbn [with_array]. apply fine_go; [done| |cbn [InflateInv.at_label]|done|done|lower; rewrite El; cbn; lia].
    + destruct Hsh. split; try done. cbn. by rewrite (put_at_length _ _ _ _ Hput).
    + cbn [counter m_raw_header set_counter set_raw_header m_final]. split_and!; [done|lia|lia|]. exists l, B2, k. split_and!; [done| |done|done].
      rewrite (put_at_next _ _ _ _ (proj1 Hc) Hput), <-app_assoc. done.
  - assert (counter (m_regs m) = 4) as E4 by lia. rewrite E4 in *. injection Ht as <- <-.
    rewrite app_nil_r, take_ge in Hh by (rewrite (sh_raw _ Hsh); done). destruct Hh as (h0 & h1 & h2 & h3 & -> & E1 & E2). cbn zeta.
    cbn [counter set_counter]. rewrite <-E1, <-E2, Z.eqb_refl. cbn [negb].
    apply fine_go; [done|by destruct Hsh| |done|done|lower; rewrite El; cbn; lia]. by cbn.
Qed.

Lemma empty_buf s : src_ok s → num_bits s = 0 → bits_at s = bits_of (pIn s ++ later).
Proof.
  intros [[Hv _] _] H0. rewrite H0 in Hv. unfold InflateInput.bits_at. rewrite H0. replace (bit_buf s) with 0 by (cbn in Hv; lia).
  unfold B_of, bits_of. f_equal. lia.
Qed.

Lemma step_51_ok m : m_state m = L51 → good m → fine m (step_stored more room m).
Proof.
  intros El [(Hs & Hsh & Hl & Ho) _]. rewrite El in Hl. cbn [InflateInv.at_label] in Hl. pose proof Hl as (Hm & Hc & l & B3 & Ht & HK).
  unfold step_stored. rewrite El. destruct (negb _ && negb _) eqn:Ec.
  - apply andb_true_iff in Ec as [E1 _]. rewrite negb_true_iff, Z.eqb_neq in E1.
    replace (Z.to_nat (counter (m_regs m))) with (S (Z.to_nat (counter (m_regs m) - 1))) in Ht by lia.
    destruct (take_bytes_S _ _ _ _ Ht) as (b & B1 & l' & Hb & Ht' & ->).
    eapply fine_input; [by apply (get_bits more later Hmore 8 _ b B1 Hs Hb); lia|done|done|intros n _ Hn8; cbn [InflateInv.at_label]; by rewrite Hn8|].
    intros y s Hs' (-> & <- & Hlb & Hn0). apply fine_go; [done|by destruct Hsh| |done|done|lower; rewrite El; cbn; lia].
    cbn [InflateInv.at_label counter dist m_final set_dist]. split_and!; [|lia| |].
    + rewrite Hn0, Zminus_mod, Hm. done.
    + by apply take_bits_len in Hb as [_ ?].
    + exists l', B3. split; [done|]. by rewrite <-app_assoc.
  - apply andb_false_iff in Ec. rewrite !negb_false_iff, !Z.eqb_eq in Ec.
    apply fine_go; [done|done| |done|done|lower; rewrite El; cbn; lia]. cbn [InflateInv.at_label]. split_and!; [done|done|]. by exists l, B3.
Qed.

(** One byte written. *)
Lemma fine_room b m k :
  good m → (len (m_out m) < room → fine m (k (m_out m ++ [b]))) → fine m (with_room room b m k).
Proof.
  intros [Hr _] Hk. unfold with_room. destruct (Z.leb_spec room (len (m_out m))) as [Hf|Hf]; [by apply fine_full|].
  rewrite store_ok; [by apply Hk|]. unfold len in *. cbn. lia.
Qed.

Lemma step_52_ok m : m_state m = L52 → good m → fine m (step_stored more room m).
Proof.
  intros El Hg. pose proof Hg as [(Hs & Hsh & Hl & Ho) _]. rewrite El in Hl. cbn [InflateInv.at_label] in Hl. pose proof Hl as (Hm & Hc & Hb & l & B3 & Ht & HK).
  unfold step_stored. rewrite El. apply fine_room; [done|]. intros Hlt. rewrite land_255 by done.
  apply fine_go; [done|by destruct Hsh| |rewrite len_snoc; lia|done|lower; rewrite El, len_snoc; cbn; lia].
  cbn [InflateInv.at_label counter m_final set_counter]. split_and!; [done|lia|]. exists l, B3. split; [done|]. by rewrite app_assoc.
Qed.

Lemma step_9_ok m : m_state m = L9 → good m → fine m (step_stored more room m).
Proof.
  intros El Hg. pose proof Hg as [Hr _]. pose proof Hr as (Hs & Hsh & Hl & Ho). rewrite El in Hl. cbn [InflateInv.at_label] in Hl. pose proof Hl as (Hc & Hn & l & B3 & Ht & HK).
  unfold step_stored. rewrite El. destruct (Z.eqb_spec (counter (m_regs m)) 0) as [E0|E0].
  - apply fine_go; [done|done| |done|done|lower; rewrite El; cbn; lia]. cbn [InflateInv.at_label]. rewrite E0 in Ht. injection Ht as <- <-.
    by rewrite app_nil_r in HK.
  - destruct (Z.leb_spec room (len (m_out m))) as [Hf|Hf]; [by apply fine_full|].
    apply fine_go; [done|done| |done|done|lower; rewrite El; cbn; lia]. cbn [InflateInv.at_label]. destruct Hn as [?|Hn]; [lia|].
    split_and!; [lia|done|]. by exists l, B3.
Qed.

Lemma step_38_ok m : m_state m = L38 → good m → fine m (step_stored more room m).
Proof.
  intros El Hg. pose proof Hg as [Hr H38]. specialize (H38 El). pose proof Hr as (Hs & Hsh & Hl & Ho). rewrite El in Hl. cbn [InflateInv.at_label] in Hl. pose proof Hl as (Hc & Hn & l & B3 & Ht & HK).
  unfold step_stored. rewrite El. rewrite empty_buf in Ht by done. destruct (pIn (m_src m)) as [|b0 p] eqn:Ep.
  - destruct more eqn:Em; [cbn; split_and!; done|]. rewrite (Hmore eq_refl) in Ht. exfalso.
    replace (Z.to_nat (counter (m_regs m))) with (S (Z.to_nat (counter (m_regs m) - 1))) in Ht by lia. cbn [take_bytes] in Ht. done.
  - rewrite <-Ep in *. assert (0 < len (pIn (m_src m))) by (rewrite Ep, len_cons; pose proof (len_nonneg p); lia).
    set (in_ := pIn (m_src m)) in *. set (n := Z.min _ _). assert (1 ≤ n ≤ len in_ ∧ n ≤ counter (m_regs m) ∧ n ≤ room - len (m_out m)) as Hn1 by lia.
    assert (length (take (Z.to_nat n) in_) = Z.to_nat n) as Hlt by (rewrite length_take; unfold len in *; lia).
    rewrite store_ok by (unfold len in *; lia). cbn [with_array].
    replace (Z.to_nat (counter (m_regs m))) with (length (take (Z.to_nat n) in_) + Z.to_nat (counter (m_regs m) - n))%nat in Ht by lia.
    replace (in_ ++ later) with (take (Z.to_nat n) in_ ++ drop (Z.to_nat n) in_ ++ later) in Ht by (by rewrite app_assoc, take_drop).
    pose proof (proj2 Hs) as Hf.
    destruct (take_bytes_of _ _ _ _ _ (Forall_take _ _ _ (proj1 (proj1 (Forall_app _ _ _) Hf))) Ht) as (l' & -> & Ht').
    set (s' := Src _ _ _). assert (src_ok s') as Hs'.
    { split; [apply Hs|]. apply Forall_app in Hf as [F1 F2]. apply Forall_app. split; [by apply Forall_drop|done]. }
    apply fine_go; [done|by destruct Hsh| | |done|].
    + cbn [InflateInv.at_label counter m_final set_counter]. split_and!; [lia|by right|]. exists l', B3. rewrite empty_buf by done. split; [done|].
      rewrite <-!app_assoc in HK. by rewrite <-!app_assoc.
    + rewrite len_app. unfold len in *. lia.
    + lower. rewrite El, len_app. cbn [rank]. unfold left_bits. cbn [num_bits pIn s']. unfold len in *. rewrite length_drop. fold in_. lia.
Qed.

Lemma step_block_end_ok m : m_state m = L_block_end → good m → fine m (step_block_end m).
Proof.
  intros El [(Hs & Hsh & Hl & Ho) _]. rewrite El in Hl. cbn [InflateInv.at_label] in Hl. unfold step_block_end.
  unfold InflateInv.after in Hl. destruct (Z.land _ 1 =? 0); apply fine_go; try done; lower; rewrite El; cbn; lia.
Qed.

(** ** Dynamic blocks: sizes *)

Lemma step_11_ok m : m_state m = L11 → good m → fine m (step_sizes more m).
Proof.
  intros El [(Hs & Hsh & Hl & Ho) _]. rewrite El in Hl. cbn [InflateInv.at_label] in Hl.
  pose proof Hl as (Hc & Hty & vals & B3 & n0 & n1 & n2 & Hf & Hv & Hsz & Hn2 & Hrest). unfold step_sizes. rewrite El.
  destruct (Z.ltb_spec (counter (m_regs m)) 3) as [Hlt|Hge].
  - destruct (size_field (counter (m_regs m)) ltac:(lia)) as (n & b & -> & Hb & Hn & Hn4 & Hd). rewrite Hd in Hf.
    destruct (take_fields_cons _ _ _ _ _ _ Hf) as (x & B1 & l & Hx & Hf' & ->). cbn [with_array].
    eapply fine_input; [by apply (get_bits more later Hmore n _ x B1 Hs Hx); lia|done|done|by intros; cbn [InflateInv.at_label]|].
    intros y s Hs' (-> & <- & Hlb & _). rewrite Hb. cbn [mbind option_bind].
    destruct (put_at_some (m_table_sizes (m_regs m)) (counter (m_regs m)) (x + b)) as [sz Hput]; [rewrite (sh_sizes _ Hsh); lia|].
    rewrite Hput. cbn [with_array]. apply fine_go; [done| | |done|done|lower; rewrite El; cbn; lia].
    + destruct Hsh. split; try done. cbn. by rewrite (put_at_length _ _ _ _ Hput).
    + cbn [InflateInv.at_label counter m_table_sizes set_counter set_table_sizes m_final m_type]. split_and!; [lia|lia|done|].
      exists l, B3, n0, n1, n2. split_and!; try done; try lia; try apply Hsz. rewrite (put_at_next _ _ _ _ (proj1 Hc) Hput), <-app_assoc. done.
  - assert (counter (m_regs m) = 3) as E by lia. rewrite E in *. injection Hf as <- <-. rewrite app_nil_r in Hv.
    destruct (three _ (sh_tables _ Hsh)) as (t0 & t1 & t2 & Et). rewrite Et, at3_2. cbn [mbind option_bind].
    change (put_at 2 (set_sizes (replicate 288 0) t2) [t0; t1; t2]) with (Some [t0; t1; set_sizes (replicate 288 0) t2]). cbn [with_array].
    pose proof (sh_codes _ Hsh) as Hfc. rewrite Et in Hfc. apply Forall_cons in Hfc as [F0 [F1 _]%Forall_cons].
    apply fine_go; [done| | |done|done|lower; rewrite El; cbn; lia].
    + destruct Hsh. split; try done. cbn. by repeat constructor.
    + cbn [InflateInv.at_label counter m_table_sizes set_counter set_tables m_final m_type m_tables].
      rewrite take_ge in Hv by (rewrite (sh_sizes _ Hsh); done).
      exists n0, n1, n2, t0, t1, (set_sizes (replicate 288 0) t2). split_and!; done || lia || apply Hsz.
Qed.

Lemma step_14_ok m : m_state m = L14 → good m → fine m (step_sizes more m).
Proof.
  intros El [(Hs & Hsh & Hl & Ho) _]. rewrite El in Hl. cbn [InflateInv.at_label] in Hl.
  pose proof Hl as (n0 & n1 & n2 & t0 & t1 & t2 & Ez & Hsz & Hn2 & Hc & Et & Hty & C & B4 & Hlc & HC & HW). unfold step_sizes. rewrite El, Ez, at3_2.
  pose proof (sh_codes _ Hsh) as Hfc. rewrite Et in Hfc. apply Forall_cons in Hfc as [F0 [F1 [F2 _]%Forall_cons]%Forall_cons].
  cbn [with_array]. destruct (Z.ltb_spec (counter (m_regs m)) n2) as [Hlt|Hge].
  - destruct (length_order_at (counter (m_regs m)) ltac:(lia)) as (p & Hp & Hz & Hp19).
    replace (Z.to_nat (n2 - counter (m_regs m))) with (S (Z.to_nat (n2 - (counter (m_regs m) + 1)))) in Hlc by lia.
    rewrite (drop_S _ _ _ Hp) in Hlc. destruct (length_codes_S _ _ _ _ _ _ Hlc) as (x & B1 & Hx & Hlc').
    eapply fine_input; [by apply (get_bits more later Hmore 3 _ x B1 Hs Hx); lia|done|done|by intros; cbn [InflateInv.at_label]|].
    intros y s Hs' (-> & <- & Hlb & _). rewrite Et, at3_2, Hz. cbn [mbind option_bind].
    rewrite (put_at_eq (m_code_size t2)), Nat2Z.id by lia. cbn [mbind option_bind].
    change (put_at 2 (set_sizes (<[p := x]> (m_code_size t2)) t2) [t0; t1; t2]) with (Some [t0; t1; set_sizes (<[p := x]> (m_code_size t2)) t2]).
    cbn [with_array]. apply fine_go; [done| | |done|done|lower; rewrite El; cbn; lia].
    + destruct Hsh. split; try done. cbn. repeat constructor; [done|done|]. cbn. by rewrite length_insert.
    + cbn [InflateInv.at_label counter m_table_sizes set_counter set_tables m_final m_type m_tables].
      eexists n0, n1, n2, t0, t1, _. split_and!; try done; try lia; try apply Hsz. exists C, B4. split_and!; try done.
      cbn [m_code_size set_sizes]. replace (Z.to_nat (counter (m_regs m) + 1)) with (S (Z.to_nat (counter (m_regs m)))) by lia.
      by rewrite take_insert_lt.
  - assert (counter (m_regs m) = n2) as E by lia. rewrite E, Z.sub_diag in Hlc. injection Hlc as <- <-.
    change (put_at 2 19 [n0; n1; n2]) with (Some [n0; n1; 19]). cbn [with_array].
    apply fine_go; [done|by destruct Hsh| |done|done|lower; rewrite El, Hty; cbn; lia].
    cbn [InflateInv.at_label m_table_sizes set_table_sizes m_tables m_type m_final]. exists n0, n1, 19, t0, t1, t2. split_and!; try done; try apply Hsz. by left.
Qed.
End Steps.

(** * The decompressor step by step: dynamic blocks

    The tables are built from the code lengths, and the code lengths read. *)

Ltac lower := unfold measure; cbn [m_state m_src m_regs m_out rank m_type set_type set_counter set_final set_dist set_num_extra
  set_dist_from set_raw_header set_table_sizes set_tables set_len_codes].

Ltac ranked := repeat match goal with |- context [?a =? ?b] => destruct (Z.eqb_spec a b) end; lia.

Section Steps.
Context (all : list Z) (more : bool) (later done0 : list Z) (room : Z).
Hypothesis Hmore : more = false → later = [].

Notation at_label := (at_label all).
Notation after := (after all).
Notation fine := (fine all more later done0 room).
Notation good := (good all later done0 room).
Notation src_ok s := (src_ok s later).
Notation bits_at s := (bits_at s later).

(** A table in the place of another. *)
Lemma shape_tables r ts :
  shape r → length ts = 3%nat → Forall (λ t, length (m_code_size t) = 288%nat) ts → shape (set_tables ts r).
Proof. intros []. by split. Qed.

Lemma step_tables_2 m n0 n1 t0 t1 t2 :
  m_state m = L_tables → src_ok (m_src m) → shape (m_regs m) → len (m_out m) ≤ room →
  m_table_sizes (m_regs m) = [n0; n1; 19] → sizes_ok n0 n1 → m_tables (m_regs m) = [t0; t1; t2] → m_type (m_regs m) = 2 →
  codes_ok (take 19 (m_code_size t2)) →
  with_lengths (after (m_final (m_regs m))) n0 n1 (take 19 (m_code_size t2)) (bits_at (m_src m)) [] (done0 ++ m_out m) →
  fine m (step_tables m).
Proof.
  intros El Hs Hsh Ho Ez Hsz Et Hty HC HW. unfold step_tables. rewrite Hty, Et, Ez. cbn [Z.ltb Z.compare]. rewrite !at3_2. cbn [mbind option_bind].
  pose proof (sh_codes _ Hsh) as Hf. rewrite Et in Hf. apply Forall_cons in Hf as [F0 [F1 [F2 _]%Forall_cons]%Forall_cons].
  destruct (build_table_ok (take 19 (m_code_size t2)) HC) with (n := 19) (t := t2) as (t' & -> & Ht' & Hcs); [rewrite length_take; lia|done|].
  cbn [with_array]. change (put_at 2 t' [t0; t1; t2]) with (Some [t0; t1; t']). cbn [with_array]. cbn [m_type set_tables]. rewrite Hty. cbn [Z.eqb Pos.eqb].
  apply fine_go; [done| | |done|done|lower; rewrite El; cbn [rank]; rewrite Hty; ranked].
  - apply (shape_tables _ [t0; t1; t']) in Hsh; [by destruct Hsh|done|]. repeat constructor; try done. by rewrite Hcs.
  - cbn [InflateInv.at_label]. exists n0, n1, (take 19 (m_code_size t2)), t0, t1, t'.
    cbn [m_type m_table_sizes m_tables counter m_len_codes m_final set_counter set_tables]. unfold sizes_ok in Hsz.
    split_and!; try done; try lia. split; [done|rewrite length_take; lia|done].
Qed.

Lemma step_tables_1 m n0 n1 n2 t0 t1 t2 :
  let L := take (Z.to_nat n0) (m_code_size t0) in let D := take (Z.to_nat n1) (m_code_size t1) in
  m_state m = L_tables → src_ok (m_src m) → shape (m_regs m) → len (m_out m) ≤ room →
  m_table_sizes (m_regs m) = [n0; n1; n2] → sizes_ok n0 n1 → m_tables (m_regs m) = [t0; t1; t2] → -1 ≤ m_type (m_regs m) ≤ 1 →
  codes_ok L → codes_ok D → (m_type (m_regs m) < 1 → table_ok D t1) → (m_type (m_regs m) < 0 → table_ok L t0) →
  coded (after (m_final (m_regs m))) L D (bits_at (m_src m)) (done0 ++ m_out m) →
  fine m (step_tables m).
Proof.
  intros L D El Hs Hsh Ho Ez Hsz Et Hty HL HD HtD HtL HW. unfold step_tables. rewrite Et, Ez.
  pose proof (sh_codes _ Hsh) as Hf. rewrite Et in Hf. apply Forall_cons in Hf as [F0 [F1 [F2 _]%Forall_cons]%Forall_cons].
  assert (length L ≤ 288)%nat as LL by (unfold L; rewrite length_take; lia). assert (length D ≤ 288)%nat as LD by (unfold D; rewrite length_take; lia).
  assert (m_type (m_regs m) = -1 ∨ m_type (m_regs m) = 0 ∨ m_type (m_regs m) = 1) as [E|[E|E]] by lia; rewrite E in *.
  - cbn [Z.ltb Z.compare]. apply fine_go; [done..| |done|done|lower; rewrite El; cbn [rank]; rewrite E; ranked].
    cbn [InflateInv.at_label]. exists L, D. split; [|done]. exists t0, t1, t2. split_and!; [done|split; [done..|apply HtL; lia]|split; [done..|apply HtD; lia]].
  - cbn [Z.ltb Z.compare]. rewrite !at3_0. cbn [mbind option_bind].
    destruct (build_table_ok L HL LL n0 t0 eq_refl) as (t' & -> & Ht' & Hcs). cbn [with_array].
    change (put_at 0 t' [t0; t1; t2]) with (Some [t'; t1; t2]). cbn [with_array m_type set_tables]. rewrite E. cbn [Z.eqb Pos.eqb].
    apply fine_go; [done| | |done|done|lower; rewrite El; cbn [rank]; rewrite E; ranked].
    + apply (shape_tables _ [t'; t1; t2]) in Hsh; [by destruct Hsh|done|]. repeat constructor; try done. by rewrite Hcs.
    + cbn [InflateInv.at_label m_type m_table_sizes m_tables m_final set_type set_tables]. exists n0, n1, n2, t', t1, t2. unfold sizes_ok in *.
      split_and!; try done; try lia. right. cbn zeta. rewrite Hcs. fold L D. split_and!; try done; try lia.
  - cbn [Z.ltb Z.compare]. rewrite !at3_1. cbn [mbind option_bind].
    destruct (build_table_ok D HD LD n1 t1 eq_refl) as (t' & -> & Ht' & Hcs). cbn [with_array].
    change (put_at 1 t' [t0; t1; t2]) with (Some [t0; t'; t2]). cbn [with_array m_type set_tables]. rewrite E. cbn [Z.eqb Pos.eqb].
    apply fine_go; [done| | |done|done|lower; rewrite El; cbn [rank]; rewrite E; ranked].
    + apply (shape_tables _ [t0; t'; t2]) in Hsh; [by destruct Hsh|done|]. repeat constructor; try done. by rewrite Hcs.
    + cbn [InflateInv.at_label m_type m_table_sizes m_tables m_final set_type set_tables]. exists n0, n1, n2, t0, t', t2. unfold sizes_ok in *.
      split_and!; try done; try lia. right. cbn zeta. rewrite Hcs. fold L D. split_and!; try done; try lia.
Qed.

Lemma step_tables_ok m : m_state m = L_tables → good m → fine m (step_tables m).
Proof.
  intros El [(Hs & Hsh & Hl & Ho) _]. rewrite El in Hl. cbn [InflateInv.at_label] in Hl.
  destruct Hl as (n0 & n1 & n2 & t0 & t1 & t2 & Ez & Hsz & Et & [(Hty & -> & HC & HW)|(Hty & HL & HD & HtD & HtL & HW)]).
  - by apply (step_tables_2 m n0 n1 t0 t1 t2).
  - by apply (step_tables_1 m n0 n1 n2 t0 t1 t2).
Qed.

(** ** Code lengths *)

Lemma lengths_bound C n B acc B' out : lengths C n B acc B' out → len acc ≤ n.
Proof. destruct 1; lia. Qed.

Lemma shape_len r lc : shape r → length lc = 457%nat → shape (set_len_codes lc r).
Proof. intros []. by split. Qed.

(** One more step of [lengths]. *)
Lemma lengths_step C n B acc B' out :
  lengths C n B acc B' out → len acc < n →
  ∃ s B1, huff C B s B1 ∧
    (s < 16 ∧ lengths C n B1 (acc ++ [s]) B' out ∨
     ∃ e b x B2, 16 ≤ s ∧ repeat_extra !! Z.to_nat (s - 16) = Some e ∧ repeat_base !! Z.to_nat (s - 16) = Some b ∧
       take_bits e B1 = Some (x, B2) ∧ (s = 16 → acc ≠ []) ∧
       lengths C n B2 (acc ++ replicate (Z.to_nat (x + b)) (if s =? 16 then default 0 (last acc) else 0)) B' out).
Proof.
  intros H. destruct H as [B acc He|B acc s B1 B' out Hlt Hh Hs H|B acc s B1 x B2 B' out c k Hlt Hh Hcase H]; intros Hn; [lia|..].
  - exists s, B1. split; [done|]. by left.
  - exists s, B1. split; [done|]. right. destruct Hcase as [(-> & Hx & -> & Hc)|[(-> & Hx & -> & ->)|(-> & Hx & -> & ->)]].
    + exists 2, 3, x, B2. cbn [Z.eqb Pos.eqb]. rewrite Hc. cbn [default]. rewrite (Z.add_comm x). split_and!; try done. by intros _ ->.
    + exists 3, 3, x, B2. rewrite (Z.add_comm x). by split_and!.
    + exists 7, 11, x, B2. rewrite (Z.add_comm x). by split_and!.
Qed.

Lemma extra_small i e : repeat_extra !! i = Some e → 2 ≤ e ≤ 16.
Proof. destruct i as [|[|[|i]]]; cbn; intros [= <-]; lia. Qed.

Lemma at_Z {A} (l : list A) i x : 0 ≤ i → l !! Z.to_nat i = Some x → at_ l i = Some x.
Proof. intros Hi Hl. unfold at_. by rewrite (proj2 (Z.ltb_ge _ _)). Qed.

Lemma last_take (l : list Z) i : (0 < i ≤ length l)%nat → default 0 (last (take i l)) = nth (i - 1) l 0.
Proof.
  intros Hi. rewrite last_lookup, length_take, Nat.min_l by lia. rewrite lookup_take_lt by lia.
  replace (pred i) with (i - 1)%nat by lia. destruct (lookup_lt_is_Some_2 l (i - 1)) as [x Hx]; [lia|]. rewrite Hx. symmetry. by apply nth_lookup_Some.
Qed.

Section Lengths.
Context (m : machine) (n0 n1 : Z) (C : list Z) (t0 t1 t2 : tinfl_huff_table).
Hypothesis Hsh : shape (m_regs m).
Hypothesis Ho : len (m_out m) ≤ room.
Hypothesis Hty : m_type (m_regs m) = 2.
Hypothesis Ez : m_table_sizes (m_regs m) = [n0; n1; 19].
Hypothesis Hsz : sizes_ok n0 n1.
Hypothesis Et : m_tables (m_regs m) = [t0; t1; t2].
Hypothesis Hsv : serves t2 C.
Hypothesis Hc : 0 ≤ counter (m_regs m) ≤ n0 + n1.
Notation c := (counter (m_regs m)).
Notation lc := (m_len_codes (m_regs m)).
Notation K := (after (m_final (m_regs m))).

Lemma acc_len : len (take (Z.to_nat c) lc) = c.
Proof. unfold len. rewrite length_take, (sh_len_codes _ Hsh). unfold sizes_ok in Hsz. lia. Qed.

(** The end of the loop. *)
Lemma lengths_done again :
  m_state m = L16 again → src_ok (m_src m) → c = n0 + n1 →
  with_lengths K n0 n1 C (bits_at (m_src m)) (take (Z.to_nat c) lc) (done0 ++ m_out m) → fine m (step_lengths more again m).
Proof.
  intros El Hs Ec (B5 & lens & Hlen & HL & HD & HW). unfold step_lengths. rewrite Ez, at3_0, at3_1, Et. cbn [mbind option_bind with_array].
  rewrite (proj2 (Z.ltb_ge _ _)) by lia. rewrite (proj2 (Z.eqb_eq _ _)) by lia. cbn [negb]. rewrite at3_0, at3_1, at3_2. cbn [mbind option_bind].
  assert (take (Z.to_nat c) lc = lens ∧ bits_at (m_src m) = B5) as [El2 EB].
  { pose proof acc_len. inversion Hlen; subst; [done|lia|lia]. } subst B5. clear Hlen.
  pose proof (sh_codes _ Hsh) as Hf. rewrite Et in Hf. apply Forall_cons in Hf as [F0 [F1 [F2 _]%Forall_cons]%Forall_cons].
  pose proof (sh_len_codes _ Hsh) as Hlc. unfold sizes_ok in Hsz.
  assert (EL : take (Z.to_nat n0) lens = take (Z.to_nat n0) lc) by (rewrite <-El2, take_take; f_equal; lia).
  assert (ED : drop (Z.to_nat n0) lens = take (Z.to_nat n1) (drop (Z.to_nat n0) lc)).
  { rewrite <-El2. rewrite take_drop_commute. f_equal. f_equal. lia. }
  rewrite EL, ED in *. set (L := take (Z.to_nat n0) lc) in *. set (D := take (Z.to_nat n1) (drop (Z.to_nat n0) lc)) in *.
  assert (length L = Z.to_nat n0) as LL by (unfold L; rewrite length_take; lia).
  assert (length D = Z.to_nat n1) as LD by (unfold D; rewrite length_take, length_drop; lia).
  unfold put_front. rewrite F0, F1, LL, LD. rewrite (proj2 (Nat.leb_le _ _)), (proj2 (Nat.leb_le _ _)) by lia. cbn [mbind option_bind with_array].
  apply fine_go; [done| | |done|done|lower; rewrite El; cbn [rank]; rewrite Hty; ranked].
  - apply (shape_tables _ [set_sizes (L ++ drop (Z.to_nat n0) (m_code_size t0)) t0; set_sizes (D ++ drop (Z.to_nat n1) (m_code_size t1)) t1; t2]) in Hsh;
      [by destruct Hsh|done|]. repeat constructor; [..|done]; cbn; rewrite length_app, length_drop; lia.
  - cbn [InflateInv.at_label m_type m_table_sizes m_tables m_final set_type set_tables]. eexists n0, n1, 19, _, _, _. split_and!; try done; try lia.
    right. rewrite Hty. split; [lia|]. cbn [m_code_size set_sizes]. cbn zeta. rewrite (take_app_length' L), (take_app_length' D) by done.
    split_and!; try done; intros; lia.
Qed.

(** One length. *)
Lemma length_one s d :
  src_ok s → left_bits s < left_bits (m_src m) → (∃ again, m_state m = L16 again) → c < n0 + n1 →
  with_lengths K n0 n1 C (bits_at s) (take (Z.to_nat c) lc ++ [d]) (done0 ++ m_out m) →
  fine m (with_array (put_at c d lc) (λ lc', Go (Machine (L16 false) s (set_counter (c + 1) (set_len_codes lc' (set_dist d (m_regs m)))) (m_out m)))).
Proof.
  intros Hs Hlt [again El] Hcn HW. destruct (put_at_some lc c d) as [lc' Hput]; [rewrite (sh_len_codes _ Hsh); unfold sizes_ok in Hsz; lia|].
  rewrite Hput. cbn [with_array]. apply fine_go; [done| | |done|done|lower; rewrite El; cbn [rank]; lia].
  - apply (shape_len _ lc') in Hsh; [by destruct Hsh|]. by rewrite (put_at_length _ _ _ _ Hput), (sh_len_codes _ Hsh).
  - cbn [InflateInv.at_label]. exists n0, n1, C, t0, t1, t2.
    cbn [m_type m_table_sizes m_tables counter m_len_codes m_final set_counter set_len_codes set_dist]. unfold sizes_ok in Hsz.
    split_and!; try done; try lia. by rewrite (put_at_next _ _ _ _ (proj1 Hc) Hput).
Qed.

Lemma step_lengths_go again :
  m_state m = L16 again → src_ok (m_src m) → c < n0 + n1 →
  with_lengths K n0 n1 C (bits_at (m_src m)) (take (Z.to_nat c) lc) (done0 ++ m_out m) → fine m (step_lengths more again m).
Proof.
  intros El Hs Hcn HW. pose proof HW as (B5 & lens & Hlen & HL & HD & Hcod). unfold step_lengths. rewrite Ez, at3_0, at3_1, Et. cbn [mbind option_bind with_array].
  rewrite (proj2 (Z.ltb_lt _ _)), at3_2 by lia. cbn [with_array]. pose proof acc_len as Hacc.
  destruct (lengths_step _ _ _ _ _ _ Hlen ltac:(lia)) as (d & B1 & Hh & Hcase). pose proof Hsv as [HC HC288 Ht2].
  eapply fine_input; [by apply (huff_decode more later Hmore C t2 HC HC288 Ht2 again _ d B1 Hs Hh)|done|done| |].
  { intros n _ _. cbn [InflateInv.at_label]. exists n0, n1, C, t0, t1, t2. unfold sizes_ok in Hsz. split_and!; try done; lia. }
  intros y s Hs' (-> & <- & Hlb). cbn zeta. cbn [counter set_dist m_len_codes].
  destruct Hcase as [[H16 Hl]|(e & b & x & B2 & H16 & He & Hb & Hx & Hne & Hl)].
  - rewrite (proj2 (Z.ltb_lt _ _)) by lia. apply length_one; try done; [by eexists|]. by exists B5, lens.
  - rewrite (proj2 (Z.ltb_ge _ _)) by lia.
    assert (Hpos : d = 16 → 1 ≤ c).
    { intros E. specialize (Hne E). destruct (take (Z.to_nat c) lc) as [|? l] eqn:Eq; [done|]. rewrite len_cons in Hacc. pose proof (len_nonneg l). lia. }
    assert ((d =? 16) && (c =? 0) = false) as ->.
    { apply andb_false_iff. destruct (Z.eqb_spec d 16); [right; apply Z.eqb_neq; lia|by left]. }
    rewrite (at_Z repeat_extra (d - 16) e ltac:(lia) He). cbn [with_array].
    apply fine_go; [done|by destruct Hsh| |done|done|lower; rewrite El; cbn [rank]; lia].
    cbn [InflateInv.at_label]. exists n0, n1, C, t0, t1, t2. cbn [m_type m_table_sizes m_tables counter m_len_codes m_final set_num_extra set_dist num_extra dist].
    unfold sizes_ok in Hsz. split_and!; try done; try lia. eexists x, B2, b, _. split_and!; try done.
    exists B5, lens. split_and!; try done. destruct (Z.eqb_spec d 16) as [->|]; [|done].
    rewrite last_take in Hl by (rewrite (sh_len_codes _ Hsh); lia). replace (Z.to_nat (c - 1)) with (Z.to_nat c - 1)%nat by lia. done.
Qed.

(** A run of lengths. *)
Lemma step_repeat_go x B2 base d' :
  m_state m = L18 → src_ok (m_src m) → repeat_extra !! Z.to_nat (dist (m_regs m) - 16) = Some (num_extra (m_regs m)) →
  repeat_base !! Z.to_nat (dist (m_regs m) - 16) = Some base → 16 ≤ dist (m_regs m) →
  take_bits (num_extra (m_regs m)) (bits_at (m_src m)) = Some (x, B2) →
  d' = (if dist (m_regs m) =? 16 then nth (Z.to_nat (c - 1)) lc 0 else 0) → (dist (m_regs m) = 16 → 1 ≤ c) →
  with_lengths K n0 n1 C B2 (take (Z.to_nat c) lc ++ replicate (Z.to_nat (x + base)) d') (done0 ++ m_out m) →
  fine m (step_repeat more m).
Proof.
  intros El Hs He Hb H16 Hx Ed Hpos HW. unfold step_repeat. pose proof (extra_small _ _ He) as Hes. pose proof acc_len as Hacc.
  eapply fine_input; [by apply (get_bits more later Hmore _ _ x B2 Hs Hx); lia|done|done| |].
  { intros n _ _. cbn [InflateInv.at_label]. exists n0, n1, C, t0, t1, t2. unfold sizes_ok in Hsz. split_and!; try done; try lia.
    exists x, B2, base, d'. by split_and!. }
  intros y s Hs' (-> & <- & Hlb & _). rewrite (at_Z repeat_base (dist (m_regs m) - 16) base ltac:(lia) Hb). cbn [mbind option_bind with_array].
  assert ((if dist (m_regs m) =? 16 then at_ lc (c - 1) else Some 0) = Some d') as ->.
  { rewrite Ed. destruct (Z.eqb_spec (dist (m_regs m)) 16) as [E|]; [|done]. specialize (Hpos E).
    destruct (lookup_lt_is_Some_2 lc (Z.to_nat (c - 1))) as [v Hv]; [rewrite (sh_len_codes _ Hsh); unfold sizes_ok in Hsz; lia|].
    rewrite (at_Z lc (c - 1) v ltac:(lia) Hv). f_equal. symmetry. by apply nth_lookup_Some. }
  cbn [with_array]. pose proof HW as (B5 & lens & Hlen & _). apply lengths_bound in Hlen. rewrite len_app, Hacc in Hlen.
  assert (0 ≤ x + base) as Hxb.
  { apply take_bits_len in Hx as [_ [? _]]. revert Hb. destruct (Z.to_nat _) as [|[|[|i]]]; cbn; intros [= <-]; lia. }
  unfold len at 1 in Hlen. rewrite length_replicate, Z2Nat.id in Hlen by lia. unfold fill_at. pose proof (sh_len_codes _ Hsh) as Hlc. unfold sizes_ok in Hsz.
  rewrite (proj2 (Z.leb_le 0 _)), (proj2 (Z.leb_le _ _)) by (unfold len; lia). cbn [andb with_array].
  set (lc' := take _ _ ++ _). assert (length lc' = 457%nat) as Hlc'.
  { unfold lc'. rewrite !length_app, length_take, length_replicate, length_drop. lia. }
  apply fine_go; [done| | |done|done|lower; rewrite El; cbn [rank]; lia].
  - apply (shape_len _ lc') in Hsh; [by destruct Hsh|done].
  - cbn [InflateInv.at_label]. exists n0, n1, C, t0, t1, t2. cbn [m_type m_table_sizes m_tables counter m_len_codes m_final set_counter set_len_codes].
    split_and!; try done; try lia. assert (take (Z.to_nat (c + (x + base))) lc' = take (Z.to_nat c) lc ++ replicate (Z.to_nat (x + base)) d') as ->; [|done].
    unfold lc'. rewrite app_assoc. apply take_app_length'. rewrite length_app, length_take, length_replicate. lia.
Qed.
End Lengths.

Lemma step_lengths_ok again m : m_state m = L16 again → good m → fine m (step_lengths more again m).
Proof.
  intros El [(Hs & Hsh & Hl & Ho) _]. rewrite El in Hl. cbn [InflateInv.at_label] in Hl.
  destruct Hl as (n0 & n1 & C & t0 & t1 & t2 & Hty & Ez & Hsz & Et & Hsv & Hc & HW).
  destruct (decide (counter (m_regs m) < n0 + n1)); [by apply (step_lengths_go m n0 n1 C t0 t1 t2)|].
  apply (lengths_done m n0 n1 C t0 t1 t2); try done. lia.
Qed.

Lemma step_repeat_ok m : m_state m = L18 → good m → fine m (step_repeat more m).
Proof.
  intros El [(Hs & Hsh & Hl & Ho) _]. rewrite El in Hl. cbn [InflateInv.at_label] in Hl.
  destruct Hl as (n0 & n1 & C & t0 & t1 & t2 & Hty & Ez & Hsz & Et & Hsv & Hc & x & B2 & base & d & ? & ? & ? & ? & ? & ? & HW).
  by apply (step_repeat_go m n0 n1 C t0 t1 t2 Hsh Ho Hty Ez Hsz Et Hsv Hc x B2 base d).
Qed.
End Steps.

(** * The decompressor step by step: literals and matches *)

(** ** Tables of the format *)

Lemma rfc_length_at i b e :
  0 ≤ i → rfc_length !! Z.to_nat i = Some (b, e) →
  at_ s_length_base i = Some b ∧ at_ s_length_extra i = Some e ∧ 3 ≤ b ∧ 0 ≤ e ≤ 5.
Proof.
  intros Hi. unfold at_. rewrite (proj2 (Z.ltb_ge _ _)) by lia. generalize (Z.to_nat i). intros n.
  do 29 (destruct n as [|n]; [intros [= <- <-]; split_and!; done || lia|]). done.
Qed.

Lemma rfc_dist_at i b e :
  0 ≤ i → rfc_dist !! Z.to_nat i = Some (b, e) →
  at_ s_dist_base i = Some b ∧ at_ s_dist_extra i = Some e ∧ 1 ≤ b ∧ 0 ≤ e ≤ 13 ∧ b + 2 ^ e ≤ TINFL_LZ_DICT_SIZE + 1.
Proof.
  intros Hi. unfold at_. rewrite (proj2 (Z.ltb_ge _ _)) by lia. generalize (Z.to_nat i). intros n.
  do 30 (destruct n as [|n]; [intros [= <- <-]; split_and!; done || lia|]). done.
Qed.

Lemma take_bits_0 B x B' : take_bits 0 B = Some (x, B') → x = 0 ∧ B' = B.
Proof.
  unfold take_bits. case_match; [|done]. intros [= <- <-]. rewrite Z.pow_0_r, Z.mod_1_r, Z.div_1_r, Z.sub_0_r. by destruct B.
Qed.

(** ** Symbols *)

(** A length above the symbol does not matter. *)
Lemma low_symbol x s : Z.land x 511 = s → Z.land x 255 = Z.land s 255 ∧ Z.land x 256 = Z.land s 256.
Proof. intros <-. by rewrite <-!Z.land_assoc. Qed.

Lemma literal_bit s : 0 ≤ s < 512 → (Z.land s 256 =? 0) = (s <? 256).
Proof.
  intros Hs. assert (H : forallb (λ n, Bool.eqb (Z.land (Z.of_nat n) 256 =? 0) (Z.of_nat n <? 256)) (seq 0 512) = true) by by vm_compute.
  rewrite forallb_forall in H. specialize (H (Z.to_nat s)). rewrite Z2Nat.id in H by lia.
  apply Bool.eqb_prop, H. apply list_elem_of_In, elem_of_seq. lia.
Qed.

Lemma land_511 s : 0 ≤ s < 512 → Z.land s 511 = s.
Proof. intros Hs. change 511 with (Z.ones 9). rewrite Z.land_ones by lia. by apply Z.mod_small. Qed.

Lemma huff_range t lens B s B' : serves t lens → huff lens B s B' → 0 ≤ s < 288.
Proof.
  intros [Hok Hl _] Hh. destruct (huff_code lens _ _ _ Hok Hh) as (n & H0 & Hn & _). pose proof (symbol_range lens _ _ Hl Hn). lia.
Qed.

Section Steps.
Context (all : list Z) (more : bool) (later buf done0 : list Z) (pos room : Z).
Hypothesis Hmore : more = false → later = [].
Hypothesis Hwin : window buf done0.
Hypothesis Hpos : pos = len done0 mod TINFL_LZ_DICT_SIZE.
Hypothesis Hroom : room = TINFL_LZ_DICT_SIZE - pos.

Notation at_label := (at_label all).
Notation after := (after all).
Notation fine := (fine all more later done0 room).
Notation good := (good all later done0 room).
Notation src_ok s := (src_ok s later).
Notation bits_at s := (bits_at s later).

(** Four bytes at once. *)
Lemma push_four s c0 c1 c2 c3 l :
  src_ok s → pIn s = c0 :: c1 :: c2 :: c3 :: l → num_bits s < 30 →
  let s' := Src (Z.lor (bit_buf s) (u64 (Z.shiftl (Z.lor (Z.lor (Z.lor c0 (Z.shiftl c1 8)) (Z.shiftl c2 16)) (Z.shiftl c3 24)) (num_bits s))))
              (num_bits s + 32) l in
  src_ok s' ∧ bits_at s' = bits_at s ∧ left_bits s' = left_bits s.
Proof.
  intros [Hb Hf] E H30. rewrite E in Hf. cbn [app] in Hf. apply Forall_cons in Hf as [H0 [H1 [H2 [H3 Hf]%Forall_cons]%Forall_cons]%Forall_cons].
  unfold is_byte in *. assert (Z.lor (Z.lor (Z.lor c0 (Z.shiftl c1 8)) (Z.shiftl c2 16)) (Z.shiftl c3 24) = c0 + c1 * 2 ^ 8 + c2 * 2 ^ 16 + c3 * 2 ^ 24) as ->.
  { rewrite (lor_shiftl_add c0), (lor_shiftl_add _ c2), (lor_shiftl_add _ c3); cbn; lia. }
  destruct (or_in (bit_buf s) (num_bits s) (c0 + c1 * 2 ^ 8 + c2 * 2 ^ 16 + c3 * 2 ^ 24) 32 Hb) as [Eo Hr]; [cbn; lia..|].
  cbn zeta. rewrite Eo. split_and!.
  - split; [split; [done|destruct Hb; cbn; lia]|done].
  - unfold InflateInput.bits_at, B_of. rewrite E. cbn [bit_buf num_bits pIn app le_val]. rewrite !len_cons, Z.pow_add_r by (destruct Hb; lia).
    f_equal; lia.
  - unfold left_bits. rewrite E. cbn [num_bits pIn]. rewrite !len_cons. lia.
Qed.

Lemma step_symbol_slow L D again m t0 t1 t2 :
  m_state m = L23 again → good m → m_tables (m_regs m) = [t0; t1; t2] → serves t0 L → serves t1 D →
  coded (after (m_final (m_regs m))) L D (bits_at (m_src m)) (done0 ++ m_out m) →
  fine m (with_input (TINFL_HUFF_DECODE more again t0 (m_src m)) (L23 true) m (λ c s,
    Go (Machine (if 256 <=? c then L_length else L24) s (set_counter c (m_regs m)) (m_out m)))).
Proof.
  intros El [(Hs & Hsh & _ & Ho) _] Et H0 H1 Hc. destruct (coded_symbol _ _ _ _ _ Hc) as (c & B1 & Hh & Hcase).
  assert (code_tables (m_regs m) L D) as Hct by (by exists t0, t1, t2). pose proof (huff_range _ _ _ _ _ H0 Hh) as Hrange.
  pose proof H0 as [HL HL288 Ht0].
  eapply fine_input; [by apply (huff_decode more later Hmore L t0 HL HL288 Ht0 again _ c B1 Hs Hh)|done|done|by intros; exists L, D|].
  intros y s Hs' (-> & <- & Hlb). destruct Hcase as [[Hlt Hcod]|[Hge Hafter]].
  - rewrite (proj2 (Z.leb_gt _ _)) by lia. apply fine_go; [done|by destruct Hsh| |done|done|lower; rewrite El; cbn [rank]; lia].
    exists L, D. split_and!; try done; unfold is_byte; cbn; lia.
  - rewrite (proj2 (Z.leb_le _ _)) by lia. apply fine_go; [done|by destruct Hsh| |done|done|lower; rewrite El; cbn [rank]; lia].
    exists L, D. split; [done|]. cbn [counter set_counter]. by rewrite land_511 by lia.
Qed.

(** Up to two symbols from the refilled buffer. *)
Lemma step_symbol_fast L D m t0 t1 t2 s :
  m_state m = L23 false → shape (m_regs m) → len (m_out m) + 2 ≤ room → m_tables (m_regs m) = [t0; t1; t2] → serves t0 L → serves t1 D →
  src_ok s → 30 ≤ num_bits s → left_bits s = left_bits (m_src m) →
  coded (after (m_final (m_regs m))) L D (bits_at s) (done0 ++ m_out m) →
  fine m (with_array (look_up_code t0 (bit_buf s)) (λ '(sym, code_len),
      let s := drop_bits code_len s in
      let r := set_counter sym (m_regs m) in
      if negb (Z.land sym 256 =? 0) then Go (Machine L_length s r (m_out m)) else
      with_array (look_up_code t0 (bit_buf s)) (λ '(sym2, code_len),
        let s := drop_bits code_len s in
        with_array (store room [Z.land sym 255] (m_out m)) (λ out,
        if negb (Z.land sym2 256 =? 0) then Go (Machine L_length s (set_counter sym2 r) out)
        else with_array (store room [Z.land sym2 255] out) (λ out, Go (Machine (L23 false) s r out)))))).
Proof.
  intros El Hsh Ho Et H0 H1 Hs Hn Hlb Hc. destruct (coded_symbol _ _ _ _ _ Hc) as (c & B1 & Hh & Hcase).
  assert (∀ x, code_tables (set_counter x (m_regs m)) L D) as Hct by (intros x; by exists t0, t1, t2).
  assert (∀ x, shape (set_counter x (m_regs m))) as Hshc by (intros x; by destruct Hsh).
  pose proof H0 as [HL HL288 Ht0]. pose proof (huff_range _ _ _ _ _ H0 Hh) as Hrange.
  destruct (look_up_at more later Hmore L t0 HL HL288 Ht0 s c B1 Hs Hh ltac:(lia)) as (x & n & -> & Hx & Hn15 & Hs1 & HB1 & Hl1).
  cbn [with_array]. cbn zeta. destruct (low_symbol _ _ Hx) as [E255 E256]. rewrite E256, literal_bit, E255 by lia.
  destruct Hcase as [[Hlt Hcod]|[Hge Hafter]].
  2: { rewrite (proj2 (Z.ltb_ge _ _)) by lia. cbn [negb]. apply fine_go; [done|done| |lia|done|lower; rewrite El; cbn [rank]; lia].
       exists L, D. split; [done|]. cbn [counter set_counter]. by rewrite Hx, HB1. }
  rewrite (proj2 (Z.ltb_lt _ _)), land_255 by (done || unfold is_byte; lia). cbn [negb].
  rewrite <-HB1 in Hcod. destruct (coded_symbol _ _ _ _ _ Hcod) as (c2 & B2 & Hh2 & Hcase2). pose proof (huff_range _ _ _ _ _ H0 Hh2) as Hrange2.
  destruct (look_up_at more later Hmore L t0 HL HL288 Ht0 _ c2 B2 Hs1 Hh2) as (x2 & n2 & -> & Hx2 & Hn2 & Hs2 & HB2 & Hl2); [cbn; lia|].
  cbn [with_array]. rewrite store_ok by (unfold len in *; cbn; lia). cbn [with_array].
  destruct (low_symbol _ _ Hx2) as [F255 F256]. rewrite F256, literal_bit, F255 by lia. destruct Hcase2 as [[Hlt2 Hcod2]|[Hge2 Hafter2]].
  - rewrite (proj2 (Z.ltb_lt _ _)), land_255 by (done || unfold is_byte; lia). cbn [negb]. rewrite store_ok by (rewrite len_snoc; unfold len in *; cbn; lia).
    cbn [with_array]. apply fine_go; [done|done| |rewrite !len_snoc; lia|done|lower; rewrite El, !len_snoc; cbn [rank]; lia].
    exists L, D. split; [done|]. rewrite HB2. rewrite <-!app_assoc in Hcod2. by rewrite <-!app_assoc.
  - rewrite (proj2 (Z.ltb_ge _ _)) by lia. cbn [negb]. apply fine_go; [done|by destruct Hsh| |rewrite len_snoc; lia|done|lower; rewrite El, len_snoc; cbn [rank]; lia].
    exists L, D. split; [by exists t0, t1, t2|]. cbn [counter set_counter]. rewrite Hx2, HB2. by rewrite <-app_assoc in Hafter2.
Qed.

Lemma step_symbol_ok again m : m_state m = L23 again → good m → fine m (step_symbol more room again m).
Proof.
  intros El Hg. pose proof Hg as [(Hs & Hsh & Hl & Ho) _]. rewrite El in Hl. cbn [InflateInv.at_label] in Hl.
  destruct Hl as (L & D & (t0 & t1 & t2 & Et & H0 & H1) & Hc). unfold step_symbol. rewrite Et, at3_0. cbn [with_array].
  destruct (again || (len (pIn (m_src m)) <? 4) || (room - len (m_out m) <? 2)) eqn:Ec.
  - by apply (step_symbol_slow L D again m t0 t1 t2).
  - apply orb_false_iff in Ec as [[-> E4%Z.ltb_ge]%orb_false_iff E2%Z.ltb_ge].
    destruct (Z.ltb_spec (num_bits (m_src m)) 30) as [H30|H30].
    + destruct (pIn (m_src m)) as [|c0 [|c1 [|c2 [|c3 l]]]] eqn:Ep; try (unfold len in E4; cbn in E4; lia).
      destruct (push_four _ _ _ _ _ _ Hs Ep H30) as (Hs' & Hb' & Hl'). cbn [with_array].
      apply (step_symbol_fast L D m t0 t1 t2); try done; [lia| |by rewrite Hb']. cbn [num_bits]. pose proof (bo_num _ _ (proj1 Hs)). lia.
    + cbn [with_array]. apply (step_symbol_fast L D m t0 t1 t2); done || lia.
Qed.

Lemma step_literal_ok m : m_state m = L24 → good m → fine m (step_literal room m).
Proof.
  intros El Hg. pose proof Hg as [(Hs & Hsh & Hl & Ho) _]. rewrite El in Hl. destruct Hl as (L & D & Hct & Hb & Hc). unfold step_literal.
  eapply fine_room; [done..|]. intros Hlt. rewrite land_255 by done.
  apply fine_go; [done|done| |rewrite len_snoc; lia|done|lower; rewrite El, len_snoc; cbn [rank]; lia].
  exists L, D. split; [done|]. by rewrite app_assoc.
Qed.

(** ** Matches *)

Lemma step_length_ok m : m_state m = L_length → good m → fine m (step_match more m).
Proof.
  intros El [(Hs & Hsh & Hl & Ho) _]. rewrite El in Hl. destruct Hl as (L & D & Hct & Hafter). unfold step_match. rewrite El. cbn zeta.
  destruct Hafter as [[E HK]|(Hge & base & extra & x & B2 & Hr & Hx & Hlen)].
  - rewrite E. cbn [Z.eqb Pos.eqb]. by apply fine_go; [done|by destruct Hsh| |done|done|lower; rewrite El; cbn [rank]; lia].
  - rewrite (proj2 (Z.eqb_neq _ _)) by lia. destruct (rfc_length_at (Z.land (counter (m_regs m)) 511 - 257) base extra ltac:(lia) Hr) as (-> & -> & Hb & He). cbn [mbind option_bind with_array].
    destruct (Z.eqb_spec extra 0) as [->|Hne].
    + apply take_bits_0 in Hx as [-> ->]. apply fine_go; [done|by destruct Hsh| |done|done|lower; rewrite El; cbn [rank]; lia].
      exists L, D. cbn [counter set_counter]. rewrite Z.add_0_r in Hlen. by split_and!.
    + apply fine_go; [done|by destruct Hsh| |done|done|lower; rewrite El; cbn [rank]; lia].
      exists L, D, x, B2. cbn [counter num_extra set_counter set_num_extra]. split_and!; done || lia.
Qed.

Lemma step_25_ok m : m_state m = L25 → good m → fine m (step_match more m).
Proof.
  intros El [(Hs & Hsh & Hl & Ho) _]. rewrite El in Hl. pose proof Hl as (L & D & x & B2 & Hct & He & Hc & Hx & Hlen). unfold step_match. rewrite El.
  eapply fine_input; [by apply (get_bits more later Hmore _ _ x B2 Hs Hx); lia|done|done|by intros|].
  intros y s Hs' (-> & <- & Hlb & _). apply fine_go; [done|by destruct Hsh| |done|done|lower; rewrite El; cbn [rank]; lia].
  exists L, D. cbn [counter set_counter]. split_and!; try done. apply take_bits_len in Hx. lia.
Qed.

Lemma step_26_ok again m : m_state m = L26 again → good m → fine m (step_match more m).
Proof.
  intros El [(Hs & Hsh & Hl & Ho) _]. rewrite El in Hl. pose proof Hl as (L & D & Hct & Hc & t & B3 & dbase & dextra & y & B4 & Hh & Hr & Hy & Hd & Hcod).
  pose proof Hct as (t0 & t1 & t2 & Et & H0 & H1). unfold step_match. rewrite El, Et, at3_1. cbn [with_array]. pose proof H1 as [HD HD288 Ht1].
  pose proof (huff_range _ _ _ _ _ H1 Hh) as Hrange.
  eapply fine_input; [by apply (huff_decode more later Hmore D t1 HD HD288 Ht1 again _ t B3 Hs Hh)|done|done|by intros|].
  intros z s Hs' (-> & <- & Hlb). destruct (rfc_dist_at t dbase dextra ltac:(lia) Hr) as (-> & -> & Hb & He & Hbe). cbn [mbind option_bind with_array].
  apply take_bits_len in Hy as Hyr. destruct Hyr as [_ Hyr]. destruct (Z.eqb_spec dextra 0) as [->|Hne].
  - apply take_bits_0 in Hy as [-> ->]. rewrite Z.add_0_r in *. change (2 ^ 0) with 1 in *.
    apply fine_go; [done|by destruct Hsh| |done|done|lower; rewrite El; cbn [rank]; lia].
    exists L, D. cbn [counter dist set_dist set_num_extra]. split_and!; done || lia.
  - apply fine_go; [done|by destruct Hsh| |done|done|lower; rewrite El; cbn [rank]; lia].
    exists L, D, y, B4. cbn [counter dist num_extra set_dist set_num_extra]. split_and!; done || lia.
Qed.

Lemma step_27_ok m : m_state m = L27 → good m → fine m (step_match more m).
Proof.
  intros El [(Hs & Hsh & Hl & Ho) _]. rewrite El in Hl. pose proof Hl as (L & D & y & B4 & Hct & Hc & He & Hy & Hd & Hd' & Hcod). unfold step_match. rewrite El.
  eapply fine_input; [by apply (get_bits more later Hmore _ _ y B4 Hs Hy); lia|done|done|by intros|].
  intros z s Hs' (-> & <- & Hlb & _). apply fine_go; [done|by destruct Hsh| |done|done|lower; rewrite El; cbn [rank]; lia].
  exists L, D. cbn [counter dist set_dist]. split_and!; done || lia.
Qed.

(** ** Copies *)

Lemma masked_mod x : masked 32767 false x = x mod TINFL_LZ_DICT_SIZE.
Proof. unfold masked. change 32767 with (Z.ones 15). by rewrite Z.land_ones. Qed.

(** The place in the buffer and the length of the output agree. *)
Lemma place out : (pos + len out) mod TINFL_LZ_DICT_SIZE = len (done0 ++ out) mod TINFL_LZ_DICT_SIZE.
Proof. rewrite len_app, Hpos. by rewrite Zplus_mod_idemp_l. Qed.

Lemma step_copy_ok m : m_state m = L_copy → good m → fine m (step_copy buf pos room 32767 false m).
Proof.
  intros El [(Hs & Hsh & Hl & Ho) _]. rewrite El in Hl. destruct Hl as (L & D & Hct & Hc & Hd & Hd' & Hcod).
  unfold step_copy. rewrite andb_false_r, masked_mod. cbn [dist dist_from_out_buf_start counter set_dist_from].
  set (pSrc := (pos + len (m_out m) - dist (m_regs m)) mod TINFL_LZ_DICT_SIZE).
  destruct (Z.ltb_spec (pos + room) (Z.max (pos + len (m_out m)) pSrc + counter (m_regs m))) as [Hfar|Hnear].
  - rewrite (proj2 (Z.eqb_neq _ _)) by lia. apply fine_go; [done|by destruct Hsh| |done|done|lower; rewrite El; cbn [rank]; lia].
    exists L, D. cbn [counter dist dist_from_out_buf_start set_counter set_dist_from]. rewrite place, Z.sub_add. split_and!; done || lia.
  - destruct (copy_match_ok buf done0 pos room Hwin Hpos Hroom (counter (m_regs m)) (dist (m_regs m)) pSrc (m_out m)) as (out' & -> & E & El'); [|lia|].
    { split; try done; lia. }
    cbn [with_array]. apply fine_go; [done|by destruct Hsh| |lia|done|lower; rewrite El; cbn [rank]; lia]. exists L, D. split; [done|]. by rewrite E.
Qed.

Lemma step_slow_copy_ok m : m_state m = L53 → good m → fine m (step_slow_copy buf pos room 32767 false m).
Proof.
  intros El Hg. pose proof Hg as [Hr _]. pose proof Hr as (Hs & Hsh & Hl & Ho). rewrite El in Hl. destruct Hl as (L & D & Hct & Hc & Hd & Hd' & Hfrom & Hcod).
  unfold step_slow_copy. destruct (Z.leb_spec room (len (m_out m))) as [Hf|Hf]; [by apply fine_full|].
  rewrite masked_mod. rewrite Zminus_mod, Hfrom, <-place, <-Zminus_mod. rewrite (peek_back buf done0 pos room) by done. cbn [mbind option_bind].
  set (b := back _ _). rewrite store_ok by (unfold len in *; cbn; lia). cbn [with_array].
  replace (Z.to_nat (counter (m_regs m) + 1)) with (S (Z.to_nat (counter (m_regs m)))) in Hcod by lia. rewrite copy_back_S in Hcod. fold b in Hcod.
  rewrite <-app_assoc in Hcod. cbn [counter set_dist_from]. destruct (Z.eqb_spec (counter (m_regs m)) 0) as [E0|E0].
  - rewrite E0 in Hcod. apply fine_go; [done|by destruct Hsh| |rewrite len_snoc; lia|done|lower; rewrite El, len_snoc; cbn [rank]; lia]. by exists L, D.
  - apply fine_go; [done|by destruct Hsh| |rewrite len_snoc; lia|done|lower; rewrite El, len_snoc; cbn [rank]; lia].
    exists L, D. cbn [counter dist dist_from_out_buf_start set_counter set_dist_from]. rewrite Z.sub_add. split_and!; try done; try lia.
    + rewrite len_app in *. rewrite len_snoc. lia.
    + rewrite app_assoc, len_snoc. rewrite <-(Zplus_mod_idemp_l (dist_from_out_buf_start _)), Hfrom. by rewrite Zplus_mod_idemp_l.
Qed.
End Steps.
