(* ===== verification/InflateProofs.v ===== *)
(** * The decompressor, proved

    A call of [tinfl_decompress] on the ring buffer goes on with the stream where the last
    one stopped; so the calls on the pieces of a stream in the format of [Deflate], cut
    anywhere, give the data.  This is the promise [InflatorLaws] to the reader of archives. *)
From stdpp Require Import strings gmap list numbers.
From S2P Require Import Prelude CString FileSys ZipReader ZipCrc Unzip ZipFormat Deflate Inflate HuffTable InflateInput InflateInv InflateSteps.
Local Open Scope Z_scope.

(** ** Input is used up from the front *)

Section Suffix.
Context (more : bool) (buf : list Z) (pos room mask : Z) (flat : bool).

Definition got_rest {A} (g : got A) (l : list Z) : Prop :=
  match g with Have _ s | Wait s => pIn s `suffix_of` l | Hole => True end.

Definition next_rest (nx : next) (l : list Z) : Prop :=
  match nx with Go m | Stop _ m => pIn (m_src m) `suffix_of` l | Crash => True end.

Lemma get_byte_rest s l : pIn s `suffix_of` l → got_rest (TINFL_GET_BYTE more s) l.
Proof.
  intros H. unfold TINFL_GET_BYTE. destruct (pIn s) as [|c k] eqn:E; [destruct more; cbn; by rewrite E|]. cbn.
  by apply suffix_cons_l in H.
Qed.

Lemma need_bits_rest k n s l : pIn s `suffix_of` l → got_rest (TINFL_NEED_BITS more k n s) l.
Proof.
  revert s. induction k as [|k IH]; intros s H; cbn [TINFL_NEED_BITS]; destruct (n <=? num_bits s); try done.
  pose proof (get_byte_rest s l H) as Hb. destruct (TINFL_GET_BYTE more s); try done. by apply IH.
Qed.

Lemma get_bits_rest n s l : pIn s `suffix_of` l → got_rest (TINFL_GET_BITS more n s) l.
Proof.
  intros H. unfold TINFL_GET_BITS. pose proof (need_bits_rest 3 n s l H) as Hb. by destruct (TINFL_NEED_BITS more 3 n s).
Qed.

Lemma fill_rest k t s l : pIn s `suffix_of` l → got_rest (TINFL_HUFF_BITBUF_FILL more k t s) l.
Proof.
  revert s. induction k as [|k IH]; intros s H; cbn [TINFL_HUFF_BITBUF_FILL]; destruct (whole_code t s) as [[]|]; try done.
  pose proof (get_byte_rest s l H) as Hb. destruct (TINFL_GET_BYTE more s); try done. cbv zeta. destruct (_ <? 15); [by apply IH|done].
Qed.

Lemma decode_rest again t s l : pIn s `suffix_of` l → got_rest (TINFL_HUFF_DECODE more again t s) l.
Proof.
  intros H. unfold TINFL_HUFF_DECODE. cbv zeta.
  assert (got_rest (if num_bits s <? 15 then match again, pIn s with
      | false, c0 :: c1 :: l => Have tt (Src (Z.lor (bit_buf s) (Z.lor (u64 (Z.shiftl c0 (num_bits s))) (u64 (Z.shiftl c1 (num_bits s + 8)))))
                       (num_bits s + 16) l)
      | _, _ => TINFL_HUFF_BITBUF_FILL more 2 t s end else Have tt s) l) as Hf.
  { destruct (_ <? 15); [|done]. destruct again; [by apply fill_rest|].
    destruct (pIn s) as [|c0 [|c1 k]] eqn:E; [apply fill_rest; by rewrite E..|]. cbn. by do 2 apply suffix_cons_l in H. }
  destruct (if num_bits s <? 15 then _ else _) as [[] s'|s'|]; try done. by destruct (mbind _ _) as [[sym n]|].
Qed.

Lemma with_input_rest {A} (g : got A) lb m k l :
  got_rest g l → (∀ a s, pIn s `suffix_of` l → next_rest (k a s) l) → next_rest (with_input g lb m k) l.
Proof. destruct g; cbn; auto. Qed.

Lemma with_array_rest {A} (o : option A) k l : (∀ a, next_rest (k a) l) → next_rest (with_array o k) l.
Proof. destruct o; cbn; auto. Qed.

Lemma with_room_rest b m k l :
  pIn (m_src m) `suffix_of` l → (∀ out, next_rest (k out) l) → next_rest (with_room room b m k) l.
Proof. intros H Hk. unfold with_room. destruct (_ <=? _); [done|]. by apply with_array_rest. Qed.

Ltac rest :=
  repeat first
    [ done
    | progress cbv zeta
    | progress cbn [m_src pIn next_rest drop_bits fail step_block_end clear_locals]
    | apply with_array_rest; intros
    | apply with_room_rest; [done|]; intros
    | apply with_input_rest; [first [by apply get_bits_rest|by apply decode_rest|by apply get_byte_rest]|]; intros
    | case_match ].

Lemma stored_rest m : next_rest (step_stored more room m) (pIn (m_src m)).
Proof.
  unfold step_stored. destruct (m_state m); try (by rest);
    (destruct (pIn (m_src m)) as [|c l] eqn:E; [destruct more; cbn; by rewrite E|]; rest; apply suffix_drop).
Qed.

(** The four bytes the fast loop takes at once. *)
Lemma refill_rest (s s' : src) (f : Z → Z → Z → Z → Z) :
  (if num_bits s <? 30 then
     match pIn s with c0 :: c1 :: c2 :: c3 :: l => Some (Src (f c0 c1 c2 c3) (num_bits s + 32) l) | _ => None end
   else Some s) = Some s' → pIn s' `suffix_of` pIn s.
Proof.
  destruct (_ <? 30); [|by intros [= <-]]. destruct (pIn s) as [|c0 [|c1 [|c2 [|c3 l]]]]; try done. intros [= <-].
  by exists [c0; c1; c2; c3].
Qed.

Lemma symbol_rest again m : next_rest (step_symbol more room again m) (pIn (m_src m)).
Proof.
  unfold step_symbol. apply with_array_rest. intros t. destruct (_ || _); [by rest|]. cbv zeta.
  destruct (if num_bits (m_src m) <? 30 then _ else _) as [s|] eqn:E; [|done].
  apply (refill_rest _ _ (λ c0 c1 c2 c3, Z.lor (bit_buf (m_src m)) (u64 (Z.shiftl (Z.lor (Z.lor (Z.lor c0 (Z.shiftl c1 8)) (Z.shiftl c2 16)) (Z.shiftl c3 24)) (num_bits (m_src m)))))) in E.
  cbn [with_array]. rest.
Qed.

Lemma step_rest m : next_rest (tinfl_step more buf pos room mask flat m) (pIn (m_src m)).
Proof.
  unfold tinfl_step. destruct (m_state m) eqn:El; try apply stored_rest; try apply symbol_rest;
    unfold step_block, step_header, step_sizes, step_tables, step_lengths, step_repeat,
      step_literal, step_match, step_copy, step_slow_copy; rewrite ?El; rest.
Qed.

Lemma run_rest fuel m st m' :
  tinfl_run more buf pos room mask flat fuel m = Got (st, m') → pIn (m_src m') `suffix_of` pIn (m_src m).
Proof.
  revert m. induction fuel as [|fuel IH]; intros m; cbn [tinfl_run]; [done|]. pose proof (step_rest m) as Hs.
  destruct (tinfl_step _ _ _ _ _ _ m) as [m1|st1 m1|]; [|by intros [= <- <-]|done]. intros H%IH. by etrans.
Qed.
End Suffix.

(** ** A call *)

Section Call.
Context (all : list Z) (more : bool) (later buf done0 : list Z) (pos room : Z).
Hypothesis Hmore : more = false → later = [].
Hypothesis Hwin : window buf done0.
Hypothesis Hpos : pos = len done0 mod TINFL_LZ_DICT_SIZE.
Hypothesis Hroom : room = TINFL_LZ_DICT_SIZE - pos.

Notation fine := (fine all more later done0 room).
Notation good := (good all later done0 room).
Notation stopped := (stopped all more later done0 room).

Lemma step_0_ok m : m_state m = L0 → good m → fine m (Go (clear_locals m)).
Proof.
  intros El [(Hs & Hsh & Hl & Ho) _]. rewrite El in Hl. destruct Hl as [Hn Hd]. unfold clear_locals.
  assert (bits_at (Src 0 0 (pIn (m_src m))) later = bits_at (m_src m) later) as Eb.
  { pose proof (bo_val _ _ (proj1 Hs)) as Hv. rewrite Hn in Hv. unfold bits_at. cbn [bit_buf num_bits pIn]. rewrite Hn.
    by replace (bit_buf (m_src m)) with 0 by (cbn in Hv; lia). }
  apply fine_go; [|by destruct Hsh| |done|done|].
  - split; [by split|apply Hs].
  - cbn [InflateInv.at_label]. by rewrite Eb.
  - lower. rewrite El. cbn [rank]. unfold left_bits. cbn [num_bits pIn]. rewrite Hn. lia.
Qed.

(** Every step. *)
Lemma step_ok m : good m → fine m (tinfl_step more buf pos room 32767 false m).
Proof.
  intros Hg. unfold tinfl_step. destruct (m_state m) as [| | | | | | | | | | |again| |again| | | |again| | | |i|] eqn:El.
  - by eapply step_0_ok.
  - by eapply step_block_ok.
  - by eapply step_header_ok.
  - by eapply step_51_ok.
  - by eapply step_52_ok.
  - by eapply step_9_ok.
  - by eapply step_38_ok.
  - by eapply step_block_end_ok.
  - by eapply step_11_ok.
  - by eapply step_14_ok.
  - by eapply step_tables_ok.
  - by eapply step_lengths_ok.
  - by eapply step_repeat_ok.
  - by eapply step_symbol_ok.
  - by eapply step_literal_ok.
  - by eapply step_length_ok.
  - by eapply step_25_ok.
  - by eapply step_26_ok.
  - by eapply step_27_ok.
  - by eapply step_copy_ok.
  - by eapply step_slow_copy_ok.
  - destruct Hg as [(_ & _ & Hl & _) _]. by rewrite El in Hl.
  - destruct Hg as [(_ & _ & Hl & Ho) _]. rewrite El in Hl. cbn. by split.
Qed.

Lemma measure_nonneg m : good m → 0 ≤ measure room m.
Proof.
  intros [(Hs & _ & Hl & Ho) _]. pose proof (bo_num _ _ (proj1 Hs)). pose proof (len_nonneg (pIn (m_src m))).
  assert (0 ≤ rank (m_state m) (m_regs m)).
  { destruct (m_state m); cbn [rank]; try lia. destruct (Z.eqb_spec (m_type (m_regs m)) 2); [lia|].
    destruct Hl as (? & ? & ? & ? & ? & ? & _ & _ & _ & [(? & _)|(? & _)]); lia. }
  unfold measure, left_bits. lia.
Qed.

Lemma run_ok fuel m :
  good m → measure room m < Z.of_nat fuel → ∃ st m', tinfl_run more buf pos room 32767 false fuel m = Got (st, m') ∧ stopped st m'.
Proof.
  revert m. induction fuel as [|fuel IH]; intros m Hg Hf; [pose proof (measure_nonneg m Hg); lia|]. cbn [tinfl_run].
  pose proof (step_ok m Hg) as Hs. destruct (tinfl_step _ _ _ _ _ _ _) as [m'|st m'|]; cbn [InflateSteps.fine] in Hs; [|by exists st, m'|done].
  destruct Hs as [Hg' Hlt]. apply IH; [done|lia].
Qed.
End Call.

(** ** The promise to the reader *)

(** The state of the decompressor between calls. *)
Definition decodes (d : decompressor) (rest done todo : list Z) : Prop :=
  buf_ok (d_bit_buf d) (d_num_bits d) ∧ Forall is_byte rest ∧ shape (d_regs d) ∧
  at_label (done ++ todo) (d_state d) (d_regs d) (d_num_bits d) (B_of (d_bit_buf d) (d_num_bits d) rest) done.

Lemma rank_small l r : (∀ t, l = L_tables → m_type r = t → t ≤ 2) → rank l r ≤ 31.
Proof.
  intros Ht. destruct l; cbn [rank]; try lia. specialize (Ht _ eq_refl eq_refl). destruct (_ =? _); lia.
Qed.

Lemma suffix_rest (l rest : list Z) : rest `suffix_of` l → drop (length l - length rest) l = rest.
Proof. intros [k ->]. rewrite length_app. replace (length k + length rest - length rest)%nat with (length k) by lia. apply drop_app_length. Qed.

(** The state a call leaves is one to go on from. *)
Lemma resumes_decodes all m done0 room later :
  resumes all later done0 room m →
  ∃ todo', all = (done0 ++ m_out m) ++ todo' ∧
    decodes (Decompressor (m_state m) (bit_buf (m_src m)) (num_bits (m_src m)) (m_regs m)) (pIn (m_src m) ++ later) (done0 ++ m_out m) todo'.
Proof.
  intros (Hs & Hsh & Hl & _). destruct (at_label_extends _ _ _ _ _ _ Hl) as [todo' E]. exists todo'. split; [done|].
  rewrite E in Hl. split_and!; try done; apply Hs.
Qed.

Lemma call_ok d chunk later done todo buf (pos := len done mod TINFL_LZ_DICT_SIZE) :
  decodes d (chunk ++ later) done todo → window buf done →
  ∃ s d' used out todo',
    inflate_call d chunk buf pos (TINFL_LZ_DICT_SIZE - pos) (if len later =? 0 then 0 else TINFL_FLAG_HAS_MORE_INPUT) =
      Got (s, d', used, out) ∧
    todo = out ++ todo' ∧ (used ≤ length chunk)%nat ∧ len out ≤ TINFL_LZ_DICT_SIZE - pos ∧
    match s with
    | TINFL_STATUS_DONE => todo' = []
    | TINFL_STATUS_NEEDS_MORE_INPUT => later ≠ [] ∧ used = length chunk ∧ decodes d' later (done ++ out) todo'
    | TINFL_STATUS_HAS_MORE_OUTPUT => len out = TINFL_LZ_DICT_SIZE - pos ∧ decodes d' (drop used chunk ++ later) (done ++ out) todo'
    | _ => False
    end.
Proof.
  intros (Hb & Hbytes & Hsh & Hl) Hwin. assert (Hp : 0 ≤ pos < TINFL_LZ_DICT_SIZE) by by apply Z.mod_pos_bound.
  unfold TINFL_LZ_DICT_SIZE in *. set (more := negb (len later =? 0)). set (m0 := Machine (d_state d) (Src (d_bit_buf d) (d_num_bits d) chunk) (d_regs d) []).
  assert (Hgood : good (done ++ todo) later done (32768 - pos) m0).
  { split; [|intros _; unfold len; cbn; lia]. unfold resumes, label_ok. cbn [m0 m_state m_src m_regs m_out]. rewrite app_nil_r. unfold len; cbn. split_and!; try done. lia. }
  assert (Hmore : more = false → later = []) by (unfold more, len; destruct later; cbn; [done|lia]).
  destruct (run_ok (done ++ todo) more later buf done pos (32768 - pos) Hmore Hwin eq_refl eq_refl
    (tinfl_fuel (d_num_bits d) chunk (32768 - pos)) m0 Hgood) as (st & m' & Hrun & Hlen & Hstop).
  { unfold measure, left_bits, tinfl_fuel. cbn [m0 m_src m_out m_state m_regs num_bits pIn]. pose proof (bo_num _ _ Hb).
    pose proof (len_nonneg chunk). change (len []) with 0.
    assert (rank (d_state d) (d_regs d) ≤ 31); [|lia]. apply rank_small. intros t El Et. rewrite El in Hl.
    destruct Hl as (? & ? & ? & ? & ? & ? & _ & _ & _ & [(? & _)|(? & _)]); lia. }
  pose proof (run_rest _ _ _ _ _ _ _ _ _ _ Hrun) as Hrest. cbn [m0 m_src pIn] in Hrest.
  exists st, (Decompressor (m_state m') (bit_buf (m_src m')) (num_bits (m_src m')) (m_regs m')), (length chunk - length (pIn (m_src m')))%nat, (m_out m').
  unfold inflate_call.
  assert (negb (Z.land (if len later =? 0 then 0 else TINFL_FLAG_HAS_MORE_INPUT) TINFL_FLAG_USING_NON_WRAPPING_OUTPUT_BUF =? 0) = false) as -> by by destruct (_ =? 0).
  assert (negb (Z.land (if len later =? 0 then 0 else TINFL_FLAG_HAS_MORE_INPUT) TINFL_FLAG_HAS_MORE_INPUT =? 0) = more) as -> by (unfold more; by destruct (_ =? 0)).
  replace (pos + (32768 - pos) - 1) with 32767 by lia. cbn [negb andb]. change (Z.land (32767 + 1) 32767 =? 0) with true. cbn [negb]. fold m0.
  rewrite Hrun. cbn [mbind read_bind]. rewrite (suffix_rest _ _ Hrest).
  destruct st; try done.
  - exists []. apply app_inv_head in Hstop. split_and!; try done; [by rewrite app_nil_r|lia].
  - destruct Hstop as (Hm & Hnil & Hres). destruct (resumes_decodes _ _ _ _ _ Hres) as (todo' & E & Hd). exists todo'.
    rewrite <-app_assoc in E. apply app_inv_head in E. rewrite Hnil in *. split_and!; try done; [lia| |cbn; lia].
    unfold more in Hm. by intros ->.
  - destruct Hstop as (Hfull & Hres). destruct (resumes_decodes _ _ _ _ _ Hres) as (todo' & E & Hd). exists todo'.
    rewrite <-app_assoc in E. apply app_inv_head in E. split_and!; try done; lia.
Qed.

(** The decompressor of the library. *)
#[export] Instance tinfl : Inflator := {| tinfl_decompressor := decompressor; tinfl_init := new_decompressor; tinfl_decompress := inflate_call |}.

#[export] Instance tinfl_laws : InflatorLaws (H := tinfl).
Proof.
  refine {| decoding := decodes |}. intros r chunk later done todo buf Hd _ Hw. by apply call_ok.
Defined.

Lemma deflated_inflates stream data : deflated stream data → inflates (H := tinfl) stream data.
Proof.
  intros [Hb Hd]. unfold inflates. cbn [decoding tinfl_laws tinfl_init tinfl]. split; [done|]. split; [done|].
  split; [split; try done; by repeat constructor|]. cbn [at_label d_state new_decompressor d_num_bits d_bit_buf d_regs]. split; [done|].
  replace (B_of 0 0 stream) with (bits_of stream); [done|]. unfold B_of, bits_of. f_equal; lia.
Qed.
