(* ===== verification/Resources.v ===== *)
(** * exjld/resources.c: the linker's resource hash

    Worker threads of the linker add one element per class file or embedded
    resource to a shared hash ([exljd_res_add_th]).  The model keeps the shared
    memory explicit: elements are heap cells, a hash is the application-order
    list of its element pointers, [free] removes the cell.  A dereference of a
    removed cell is undefined behaviour ([None]).  The two critical sections of
    the worker are atomic segments, so that a pool of workers is a step relation
    over all interleavings. *)
From stdpp Require Import sorting strings gmap list numbers.
From S2P Require Import Prelude CString.

(** [struct exjld_resource] (exjld.h). *)
Record exjld_resource_t := Resource {
  resname : string;
  id : Z;
  respath : string;
  embpath : string
}.

#[export] Instance exjld_resource_eq_dec : EqDecision exjld_resource_t.
Proof. solve_decision. Defined.

(** The two hash heads a job may point to ([exjld_resource_t **head]). *)
Inductive hash_head := ndrx_G_classes_hash | ndrx_G_emb_res_hash.

#[export] Instance hash_head_eq_dec : EqDecision hash_head.
Proof. solve_decision. Defined.

(** [resgen_thread_data_t] (exjld.h). *)
Record resgen_thread_data_t := ResgenData {
  head : hash_head;
  d_resname : string;
  d_id : Z;
  d_respath : string;
  emb_pfx : string
}.

(** The Enduro/X hash macros ([exhash.h], not part of this repository). *)
Class ExHash := {
  EXHASH_FIND_STR : list (string * nat) → string → option nat;
  EXHASH_SORT : (exjld_resource_t → exjld_resource_t → Z) →
                list exjld_resource_t → list exjld_resource_t
}.

(** Their documented behaviour: a find returns an element stored under the key,
    and some element whenever the key is stored; a sort orders the elements by
    the comparison function, when that is a total preorder of them, and neither
    adds nor loses any. *)
Class ExHashLaws `{ExHash} : Prop := {
  find_some l k p : EXHASH_FIND_STR l k = Some p → (k, p) ∈ l;
  find_none l k p : EXHASH_FIND_STR l k = None → (k, p) ∉ l;
  sort_perm cmp l : EXHASH_SORT cmp l ≡ₚ l;
  sort_sorted cmp l :
    (∀ a b, a ∈ l → b ∈ l → (cmp a b ≤ 0 ∨ cmp b a ≤ 0)%Z) →
    (∀ a b c, a ∈ l → b ∈ l → c ∈ l → (cmp a b ≤ 0 → cmp b c ≤ 0 → cmp a c ≤ 0)%Z) →
    Sorted (λ a b, cmp a b ≤ 0)%Z (EXHASH_SORT cmp l)
}.

(** The file generator of the Enduro/X base library and the allocator. *)
Record os := Os {
  ndrx_file_gen_embed : string → string → bool;
  malloc_ok : nat → bool
}.

(** Globals of the linker the workers share. *)
Record gstate := GState {
  classes_hash : list nat;
  emb_res_hash : list nat;
  mem : gmap nat exjld_resource_t;
  brk : nat;
  thpool_error : Z
}.

Definition ginit : gstate := GState [] [] ∅ 0 EXSUCCEED.

Definition head_list (h : hash_head) (g : gstate) : list nat :=
  match h with
  | ndrx_G_classes_hash => classes_hash g
  | ndrx_G_emb_res_hash => emb_res_hash g
  end.

Definition set_head (h : hash_head) (l : list nat) (g : gstate) : gstate :=
  match h with
  | ndrx_G_classes_hash => GState l (emb_res_hash g) (mem g) (brk g) (thpool_error g)
  | ndrx_G_emb_res_hash => GState (classes_hash g) l (mem g) (brk g) (thpool_error g)
  end.

(** [exjld_thread_error_set]: one store under [ndrx_G_thpool_error_lock]. *)
Definition exjld_thread_error_set (ret : Z) (g : gstate) : gstate :=
  GState (classes_hash g) (emb_res_hash g) (mem g) (brk g) ret.

Definition set_mem (m : gmap nat exjld_resource_t) (b : nat) (g : gstate) : gstate :=
  GState (classes_hash g) (emb_res_hash g) m b (thpool_error g).

Definition ndrx_free (p : nat) (g : gstate) : gstate := set_mem (delete p (mem g)) (brk g) g.

(** Keys of a hash, read through the element pointers. *)
Definition read_keys (g : gstate) (ps : list nat) : option (list (string * nat)) :=
  mapM (λ p, r ← mem g !! p; Some (resname r, p)) ps.

(** The elements of a hash in application order. *)
Definition hash_elems (g : gstate) (h : hash_head) : option (list exjld_resource_t) :=
  mapM (λ p, mem g !! p) (head_list h g).

(** Where a worker stands between its critical sections.  The pointer of
    [TDone] is a ghost: the element the worker linked, if any. *)
Inductive tpc :=
  | TStart
  | TNotFound
  | TBuilt (elm : nat)
  | TDone (linked : option nat).

(** The element [exljd_res_add_th] fills in: bounded copies and
    ["%s_%d"] of the prefix and id. *)
Definition elm_of (d : resgen_thread_data_t) : exjld_resource_t :=
  Resource (strcpy_safe (PATH_MAX + 1) (d_resname d)) (d_id d)
           (strcpy_safe (PATH_MAX + 1) (d_respath d))
           (strcpy_safe (PATH_MAX + 1) (emb_pfx d +:+ "_" +:+ print_int (d_id d))).

Section Worker.
Context `{ExHash} (o : os).

Definition exljd_res_find (g : gstate) (h : hash_head) (name : string) : option (option nat) :=
  ks ← read_keys g (head_list h g); Some (EXHASH_FIND_STR ks name).

(** Duplicate check.  On a hit [elm] is the element that is already in the
    hash, and the clean-up at [out:] frees it. *)
Definition seg_find (d : resgen_thread_data_t) (g : gstate) : option (tpc * gstate) :=
  r ← exljd_res_find g (head d) (d_resname d);
  Some (match r with
        | Some elm => (TDone None, exjld_thread_error_set EXFAIL (ndrx_free elm g))
        | None => (TNotFound, g)
        end).

(** Allocation, the bounded copies and the call of the file generator. *)
Definition seg_build (d : resgen_thread_data_t) (g : gstate) : tpc * gstate :=
  let elm := brk g in
  if malloc_ok o elm then
    let g' := set_mem (<[elm := elm_of d]> (mem g)) (S elm) g in
    if ndrx_file_gen_embed o (respath (elm_of d)) (embpath (elm_of d)) then (TBuilt elm, g')
    else (TDone None, exjld_thread_error_set EXFAIL (ndrx_free elm g'))
  else (TDone None, exjld_thread_error_set EXFAIL g).

(** [EXHASH_ADD_STR] under the hash lock. *)
Definition seg_link (d : resgen_thread_data_t) (elm : nat) (g : gstate) : option (tpc * gstate) :=
  _ ← mem g !! elm;
  Some (TDone (Some elm), set_head (head d) (head_list (head d) g ++ [elm]) g).

Definition run_seg (d : resgen_thread_data_t) (pc : tpc) (g : gstate) : option (tpc * gstate) :=
  match pc with
  | TStart => seg_find d g
  | TNotFound => Some (seg_build d g)
  | TBuilt elm => seg_link d elm g
  | TDone _ => None
  end.

(** The worker run alone, segment after segment. *)
Definition exljd_res_add_th (d : resgen_thread_data_t) (g : gstate) : option gstate :=
  '(pc1, g1) ← seg_find d g;
  match pc1 with
  | TNotFound =>
      match seg_build d g1 with
      | (TBuilt elm, g2) => snd <$> seg_link d elm g2
      | (_, g2) => Some g2
      end
  | _ => Some g1
  end.

(** ** The thread pool: every interleaving of the queued jobs *)
Record pool := Pool { threads : list (resgen_thread_data_t * tpc); shared : gstate }.

Inductive step : pool → pool → Prop :=
  | step_thread ts g i d pc pc' g' :
      ts !! i = Some (d, pc) → run_seg d pc g = Some (pc', g') →
      step (Pool ts g) (Pool (<[i := (d, pc')]> ts) g').

Definition pool_start (jobs : list resgen_thread_data_t) (g : gstate) : pool :=
  Pool ((λ d, (d, TStart)) <$> jobs) g.

Definition is_done (pc : tpc) : bool := match pc with TDone _ => true | _ => false end.

(** [ndrx_thpool_wait] returned: every job ran to its end. *)
Definition all_done (p : pool) : bool := forallb (λ x, is_done x.2) (threads p).

(** A worker that can neither stop nor go on touched freed memory. *)
Definition crashed (p : pool) : Prop :=
  ∃ i d pc, threads p !! i = Some (d, pc) ∧ ¬ is_done pc ∧ run_seg d pc (shared p) = None.
End Worker.

(** [resname_sort] *)
Definition resname_sort (a b : exjld_resource_t) : Z := strcmp (resname a) (resname b).

(** [exljd_res_sort_by_resname], on the elements of a hash. *)
Definition exljd_res_sort_by_resname `{ExHash} (l : list exjld_resource_t) : list exjld_resource_t :=
  EXHASH_SORT resname_sort l.

(** [exljd_res_free]: unlink and free every element. *)
Definition exljd_res_free (h : hash_head) (g : gstate) : gstate :=
  set_head h [] (foldr ndrx_free g (head_list h g)).
