(* ===== verification/ResourcesProofs.v ===== *)
(** * The resource hash under concurrency

    Safety, outcome and termination of the worker pool of [Resources], for every
    interleaving, when the queued jobs have distinct names. *)
From stdpp Require Import sorting strings gmap list numbers.
From S2P Require Import Prelude CString Resources.

(** Two jobs with one key would be the same job. *)
Definition job_key (d : resgen_thread_data_t) : hash_head * string := (head d, d_resname d).

Definition distinct_jobs (jobs : list resgen_thread_data_t) : Prop := NoDup (job_key <$> jobs).

(** Names that fit the arrays of [exjld_resource_t]. *)
Definition job_fits (d : resgen_thread_data_t) : Prop := String.length (d_resname d) ≤ PATH_MAX.

Lemma resname_elm_of d : job_fits d → resname (elm_of d) = d_resname d.
Proof. intros Hd. apply strcpy_safe_fits. unfold job_fits in Hd. lia. Qed.

(** The pointer a worker is responsible for. *)
Definition owned (pc : tpc) : option nat :=
  match pc with TBuilt p | TDone (Some p) => Some p | _ => None end.

Lemma head_list_set_head h h' l g :
  head_list h' (set_head h l g) = if decide (h = h') then l else head_list h' g.
Proof. by destruct h, h'. Qed.

Lemma mem_set_head h l g : mem (set_head h l g) = mem g.
Proof. by destruct h. Qed.
Lemma brk_set_head h l g : brk (set_head h l g) = brk g.
Proof. by destruct h. Qed.
Lemma err_set_head h l g : thpool_error (set_head h l g) = thpool_error g.
Proof. by destruct h. Qed.

Lemma head_list_set_mem h m b g : head_list h (set_mem m b g) = head_list h g.
Proof. by destruct h. Qed.

Lemma read_keys_elem g ps ks k p :
  read_keys g ps = Some ks → (k, p) ∈ ks → p ∈ ps ∧ ∃ r, mem g !! p = Some r ∧ resname r = k.
Proof.
  unfold read_keys. intros Hks Hin. apply mapM_Some in Hks.
  apply list_elem_of_lookup in Hin as [i Hi].
  destruct (Forall2_lookup_r _ _ _ _ _ Hks Hi) as (q & Hq & Hr).
  apply bind_Some in Hr as (r & Hr & [= <- <-]).
  split; [by eapply list_elem_of_lookup_2|eauto].
Qed.

Lemma read_keys_is_Some g ps :
  (∀ p, p ∈ ps → is_Some (mem g !! p)) → is_Some (read_keys g ps).
Proof.
  intros Hps. apply mapM_is_Some, Forall_forall. intros p Hp.
  destruct (Hps p Hp) as [r Hr]. cbn. rewrite Hr. simpl. eauto.
Qed.

Section PoolProofs.
Context `{ExHash} {HL : ExHashLaws} (o : os).
Hypothesis gen_ok : ∀ d, ndrx_file_gen_embed o (respath (elm_of d)) (embpath (elm_of d)) = true.
Hypothesis mem_ok : ∀ n, malloc_ok o n = true.

(** What holds between any two segments of any workers. *)
Record pool_inv (jobs : list resgen_thread_data_t) (p : pool) : Prop := {
  pi_jobs : (threads p).*1 = jobs;
  pi_owned i d pc q :
    threads p !! i = Some (d, pc) → owned pc = Some q →
    mem (shared p) !! q = Some (elm_of d) ∧ q < brk (shared p);
  pi_disjoint i j d d' pc pc' q :
    threads p !! i = Some (d, pc) → threads p !! j = Some (d', pc') →
    owned pc = Some q → owned pc' = Some q → i = j;
  pi_head h q :
    q ∈ head_list h (shared p) ↔
    ∃ i d, threads p !! i = Some (d, TDone (Some q)) ∧ head d = h;
  pi_nodup h : NoDup (head_list h (shared p));
  pi_error : thpool_error (shared p) = EXSUCCEED;
  pi_linked i d : threads p !! i ≠ Some (d, TDone None)
}.

Lemma pool_start_inv jobs : pool_inv jobs (pool_start jobs ginit).
Proof.
  assert (Hst : ∀ i d pc, threads (pool_start jobs ginit) !! i = Some (d, pc) → pc = TStart).
  { intros i d pc. simpl. rewrite list_lookup_fmap, fmap_Some. by intros (? & _ & [= -> ->]). }
  split.
  - simpl. rewrite <-list_fmap_compose. by rewrite list_fmap_id.
  - intros i d pc q ->%Hst. done.
  - intros i j d d' pc pc' q ->%Hst. done.
  - intros h q. split; [destruct h; simpl; intros Hq; by apply elem_of_nil in Hq|].
    intros (i & d & Hi & _). by apply Hst in Hi.
  - intros []; constructor.
  - done.
  - intros i d Hi. by apply Hst in Hi.
Qed.

Context (jobs : list resgen_thread_data_t).
Hypothesis jobs_distinct : distinct_jobs jobs.
Hypothesis jobs_fit : Forall job_fits jobs.

Lemma thread_job p i d pc :
  pool_inv jobs p → threads p !! i = Some (d, pc) → jobs !! i = Some d.
Proof. intros Hp Hi. rewrite <-(pi_jobs _ _ Hp), list_lookup_fmap, Hi. done. Qed.

Lemma thread_fits p i d pc : pool_inv jobs p → threads p !! i = Some (d, pc) → job_fits d.
Proof.
  intros Hp Hi. eapply Forall_lookup_1; [exact jobs_fit|]. by eapply thread_job.
Qed.

(** No other worker has linked the name a fresh worker looks for. *)
Lemma seg_find_fresh p i d :
  pool_inv jobs p → threads p !! i = Some (d, TStart) →
  seg_find d (shared p) = Some (TNotFound, shared p).
Proof.
  intros Hp Hi. unfold seg_find, exljd_res_find.
  destruct (read_keys_is_Some (shared p) (head_list (head d) (shared p))) as [ks Hks].
  { intros q (j & d' & Hj & _)%(pi_head _ _ Hp).
    destruct (pi_owned _ _ Hp j d' _ q Hj eq_refl) as [-> _]. eauto. }
  rewrite Hks. simpl. destruct (EXHASH_FIND_STR ks (d_resname d)) as [q|] eqn:Hf; [|done].
  exfalso. apply find_some in Hf.
  destruct (read_keys_elem _ _ _ _ _ Hks Hf) as (Hq & r & Hr & Hname).
  apply (pi_head _ _ Hp) in Hq as (j & d' & Hj & Hhead).
  destruct (pi_owned _ _ Hp j d' _ q Hj eq_refl) as [Hm _]. rewrite Hm in Hr.
  injection Hr as <-. rewrite resname_elm_of in Hname by by eapply thread_fits.
  assert (i = j) as <-.
  { eapply (NoDup_lookup_fmap_inj job_key); [exact jobs_distinct|
      by eapply thread_job|by eapply thread_job|]. unfold job_key. congruence. }
  congruence.
Qed.

(** Bookkeeping of one thread's move. *)
Lemma insert_thread_cases p i d pc pc' j d' pc'' :
  threads p !! i = Some (d, pc) →
  <[i := (d, pc')]> (threads p) !! j = Some (d', pc'') →
  (j = i ∧ d' = d ∧ pc'' = pc') ∨ (j ≠ i ∧ threads p !! j = Some (d', pc'')).
Proof.
  intros Hi. destruct (decide (j = i)) as [->|Hne].
  - rewrite list_lookup_insert_eq by (by eapply lookup_lt_Some). intros [= <- <-]. by left.
  - rewrite list_lookup_insert_ne by done. by right.
Qed.

Lemma insert_thread_ne p i d pc pc' j x :
  threads p !! i = Some (d, pc) → threads p !! j = Some x → x.2 ≠ pc →
  <[i := (d, pc')]> (threads p) !! j = Some x.
Proof.
  intros Hi Hj Hne. destruct (decide (i = j)) as [->|Hij].
  - rewrite Hi in Hj. injection Hj as <-. done.
  - by rewrite list_lookup_insert_ne.
Qed.

Lemma insert_thread_jobs p i d pc pc' :
  threads p !! i = Some (d, pc) → (<[i := (d, pc')]> (threads p)).*1 = (threads p).*1.
Proof.
  intros Hi. rewrite list_fmap_insert. apply list_insert_id. by rewrite list_lookup_fmap, Hi.
Qed.

Lemma owned_fresh p i d pc :
  pool_inv jobs p → threads p !! i = Some (d, pc) → owned pc ≠ Some (brk (shared p)).
Proof. intros Hp Hi Ho. destruct (pi_owned _ _ Hp _ _ _ _ Hi Ho). lia. Qed.

(** A worker that found no duplicate. *)
Lemma inv_not_found p i d :
  pool_inv jobs p → threads p !! i = Some (d, TStart) →
  pool_inv jobs (Pool (<[i := (d, TNotFound)]> (threads p)) (shared p)).
Proof.
  intros Hp Hi. split; simpl.
  - erewrite insert_thread_jobs by done. apply Hp.
  - intros j d' pc q Hj. destruct (insert_thread_cases _ _ _ _ _ _ _ _ Hi Hj)
      as [(-> & -> & ->)|[_ Hj']]; [done|by eapply (pi_owned _ _ Hp)].
  - intros j k d1 d2 pc1 pc2 q Hj Hk.
    destruct (insert_thread_cases _ _ _ _ _ _ _ _ Hi Hj) as [(-> & -> & ->)|[_ Hj']],
      (insert_thread_cases _ _ _ _ _ _ _ _ Hi Hk) as [(-> & -> & ->)|[_ Hk']]; try done.
    by eapply (pi_disjoint _ _ Hp).
  - intros h q. rewrite (pi_head _ _ Hp). split; intros (j & d' & Hj & Hh); exists j, d'.
    + split; [|done]. by eapply (insert_thread_ne _ _ _ TStart).
    + destruct (insert_thread_cases _ _ _ _ _ _ _ _ Hi Hj) as [(_ & _ & ?)|[_ ?]]; done.
  - apply Hp.
  - apply Hp.
  - intros j d' Hj. destruct (insert_thread_cases _ _ _ _ _ _ _ _ Hi Hj)
      as [(_ & _ & ?)|[_ ?]]; [done|by eapply (pi_linked _ _ Hp)].
Qed.

(** A worker that allocated and filled its element. *)
Lemma inv_built p i d :
  pool_inv jobs p → threads p !! i = Some (d, TNotFound) →
  pool_inv jobs (Pool (<[i := (d, TBuilt (brk (shared p)))]> (threads p))
    (set_mem (<[brk (shared p) := elm_of d]> (mem (shared p))) (S (brk (shared p))) (shared p))).
Proof.
  intros Hp Hi. split; simpl.
  - erewrite insert_thread_jobs by done. apply Hp.
  - intros j d' pc q Hj Ho. destruct (insert_thread_cases _ _ _ _ _ _ _ _ Hi Hj)
      as [(-> & -> & ->)|[_ Hj']].
    + injection Ho as <-. rewrite lookup_insert_eq. split; [done|lia].
    + destruct (pi_owned _ _ Hp _ _ _ _ Hj' Ho) as [Hm Hb].
      rewrite lookup_insert_ne by lia. split; [done|lia].
  - intros j k d1 d2 pc1 pc2 q Hj Hk Ho1 Ho2.
    destruct (insert_thread_cases _ _ _ _ _ _ _ _ Hi Hj) as [(-> & -> & ->)|[_ Hj']],
      (insert_thread_cases _ _ _ _ _ _ _ _ Hi Hk) as [(-> & -> & ->)|[_ Hk']]; try done.
    + injection Ho1 as <-. by destruct (owned_fresh _ _ _ _ Hp Hk').
    + injection Ho2 as <-. by destruct (owned_fresh _ _ _ _ Hp Hj').
    + by eapply (pi_disjoint _ _ Hp).
  - intros h q. rewrite head_list_set_mem, (pi_head _ _ Hp).
    split; intros (j & d' & Hj & Hh); exists j, d'.
    + split; [|done]. by eapply (insert_thread_ne _ _ _ TNotFound).
    + destruct (insert_thread_cases _ _ _ _ _ _ _ _ Hi Hj) as [(_ & _ & ?)|[_ ?]]; done.
  - intros h. rewrite head_list_set_mem. apply Hp.
  - apply Hp.
  - intros j d' Hj. destruct (insert_thread_cases _ _ _ _ _ _ _ _ Hi Hj)
      as [(_ & _ & ?)|[_ ?]]; [done|by eapply (pi_linked _ _ Hp)].
Qed.

(** A worker that linked its element. *)
Lemma inv_linked p i d q :
  pool_inv jobs p → threads p !! i = Some (d, TBuilt q) →
  pool_inv jobs (Pool (<[i := (d, TDone (Some q))]> (threads p))
    (set_head (head d) (head_list (head d) (shared p) ++ [q]) (shared p))).
Proof.
  intros Hp Hi.
  assert (Hnew : ∀ h, q ∉ head_list h (shared p)).
  { intros h (j & d' & Hj & _)%(pi_head _ _ Hp).
    assert (i = j) as <- by by eapply (pi_disjoint _ _ Hp). congruence. }
  split; simpl.
  - erewrite insert_thread_jobs by done. apply Hp.
  - intros j d' pc r Hj Ho. rewrite mem_set_head, brk_set_head.
    destruct (insert_thread_cases _ _ _ _ _ _ _ _ Hi Hj) as [(-> & -> & ->)|[_ Hj']];
      by eapply (pi_owned _ _ Hp).
  - intros j k d1 d2 pc1 pc2 r Hj Hk Ho1 Ho2.
    destruct (insert_thread_cases _ _ _ _ _ _ _ _ Hi Hj) as [(-> & -> & ->)|[_ Hj']],
      (insert_thread_cases _ _ _ _ _ _ _ _ Hi Hk) as [(-> & -> & ->)|[_ Hk']]; try done;
      by eapply (pi_disjoint _ _ Hp).
  - intros h r. rewrite head_list_set_head. case_decide as Hh.
    + subst h. rewrite elem_of_app, list_elem_of_singleton, (pi_head _ _ Hp). split.
      * intros [(j & d' & Hj & Hh)| ->]; [exists j, d'|exists i, d]; split; try done.
        -- by eapply (insert_thread_ne _ _ _ (TBuilt q)).
        -- apply list_lookup_insert_eq. by eapply lookup_lt_Some.
      * intros (j & d' & Hj & Hh). destruct (insert_thread_cases _ _ _ _ _ _ _ _ Hi Hj)
          as [(-> & -> & [= ->])|[_ ?]]; [by right|left; eauto].
    + rewrite (pi_head _ _ Hp). split; intros (j & d' & Hj & Hh'); exists j, d'.
      * split; [|done]. by eapply (insert_thread_ne _ _ _ (TBuilt q)).
      * destruct (insert_thread_cases _ _ _ _ _ _ _ _ Hi Hj) as [(-> & -> & _)|[_ ?]]; done.
  - intros h. rewrite head_list_set_head. case_decide; [|apply Hp].
    apply NoDup_app. split_and!; [apply Hp| |apply NoDup_singleton].
    intros r Hr ->%list_elem_of_singleton. by apply (Hnew (head d)).
  - rewrite err_set_head. apply Hp.
  - intros j d' Hj. destruct (insert_thread_cases _ _ _ _ _ _ _ _ Hi Hj)
      as [(_ & _ & ?)|[_ ?]]; [done|by eapply (pi_linked _ _ Hp)].
Qed.

Lemma seg_build_ok d g :
  seg_build o d g =
  (TBuilt (brk g), set_mem (<[brk g := elm_of d]> (mem g)) (S (brk g)) g).
Proof. unfold seg_build. by rewrite mem_ok, gen_ok. Qed.

Lemma step_inv p p' : pool_inv jobs p → step o p p' → pool_inv jobs p'.
Proof.
  intros Hp Hst. destruct Hst as [ts g i d pc pc' g' Hi Hrun].
  destruct pc as [| |q|[]]; simpl in Hrun; try done.
  - pose proof (seg_find_fresh (Pool ts g) i d Hp Hi) as Hf. simpl in Hf.
    rewrite Hf in Hrun. injection Hrun as <- <-.
    by apply (inv_not_found (Pool ts g)).
  - rewrite seg_build_ok in Hrun. injection Hrun as <- <-. by apply (inv_built (Pool ts g)).
  - unfold seg_link in Hrun. destruct (mem g !! q); [|done]. injection Hrun as <- <-.
    by apply (inv_linked (Pool ts g)).
Qed.

Lemma inv_not_crashed p : pool_inv jobs p → ¬ crashed o p.
Proof.
  intros Hp (i & d & pc & Hi & Hpc & Hrun). destruct pc as [| |q|l]; simpl in Hrun.
  - by rewrite (seg_find_fresh p i d) in Hrun.
  - done.
  - unfold seg_link in Hrun. destruct (pi_owned _ _ Hp _ _ _ q Hi eq_refl) as [Hm _].
    by rewrite Hm in Hrun.
  - by destruct Hpc.
Qed.

Lemma reachable_inv p : rtc (step o) (pool_start jobs ginit) p → pool_inv jobs p.
Proof.
  intros Hr. eapply (rtc_invariant (step o) (pool_inv jobs)); [|exact Hr|apply pool_start_inv].
  intros x y. apply step_inv.
Qed.

Lemma done_linked p i d pc :
  pool_inv jobs p → all_done p → threads p !! i = Some (d, pc) → ∃ q, pc = TDone (Some q).
Proof.
  intros Hp Hd Hi. apply forallb_True in Hd. eapply Forall_lookup_1 in Hd; [|exact Hi].
  destruct pc as [| | |[q|]]; try done; [eauto|]. by destruct (pi_linked _ _ Hp i d).
Qed.

Lemma hash_elems_elem p h l r :
  pool_inv jobs p → hash_elems (shared p) h = Some l →
  r ∈ l ↔ ∃ q i d, threads p !! i = Some (d, TDone (Some q)) ∧ head d = h ∧ r = elm_of d.
Proof.
  intros Hp Hl. apply mapM_Some in Hl. split.
  - intros [k Hk]%list_elem_of_lookup.
    destruct (Forall2_lookup_r _ _ _ _ _ Hl Hk) as (q & Hq & Hm).
    apply list_elem_of_lookup_2, (pi_head _ _ Hp) in Hq as (i & d & Hi & Hh).
    destruct (pi_owned _ _ Hp i d _ q Hi eq_refl) as [Hm' _].
    exists q, i, d. split_and!; [done..|congruence].
  - intros (q & i & d & Hi & Hh & ->).
    assert (q ∈ head_list h (shared p)) as [k Hk]%list_elem_of_lookup
      by (apply (pi_head _ _ Hp); eauto).
    destruct (Forall2_lookup_l _ _ _ _ _ Hl Hk) as (r & Hr & Hm).
    destruct (pi_owned _ _ Hp i d _ q Hi eq_refl) as [Hm' _].
    rewrite Hm in Hm'. injection Hm' as ->. by eapply list_elem_of_lookup_2.
Qed.

(** One pointer per name: the resolved elements carry distinct names. *)
Lemma hash_elems_nodup p h l :
  pool_inv jobs p → hash_elems (shared p) h = Some l → NoDup (resname <$> l).
Proof.
  intros Hp Hl. apply mapM_Some in Hl. apply NoDup_alt. intros k1 k2 n Hk1 Hk2.
  rewrite list_lookup_fmap, fmap_Some in Hk1, Hk2.
  destruct Hk1 as (r1 & Hr1 & Hn1), Hk2 as (r2 & Hr2 & Hn2).
  destruct (Forall2_lookup_r _ _ _ _ _ Hl Hr1) as (q1 & Hq1 & Hm1),
    (Forall2_lookup_r _ _ _ _ _ Hl Hr2) as (q2 & Hq2 & Hm2).
  pose proof (proj1 (pi_head _ _ Hp h q1) (list_elem_of_lookup_2 _ _ _ Hq1)) as (i1 & d1 & Hi1 & Hh1).
  pose proof (proj1 (pi_head _ _ Hp h q2) (list_elem_of_lookup_2 _ _ _ Hq2)) as (i2 & d2 & Hi2 & Hh2).
  destruct (pi_owned _ _ Hp i1 d1 _ q1 Hi1 eq_refl) as [Hm1' _],
    (pi_owned _ _ Hp i2 d2 _ q2 Hi2 eq_refl) as [Hm2' _].
  rewrite Hm1 in Hm1'. rewrite Hm2 in Hm2'. simplify_eq.
  assert (i1 = i2) as <-.
  { eapply (NoDup_lookup_fmap_inj job_key); [exact jobs_distinct|by eapply thread_job..|].
    unfold job_key. rewrite <-(resname_elm_of d1), <-(resname_elm_of d2)
      by by eapply thread_fits. congruence. }
  assert (q1 = q2) as <- by congruence. by eapply (NoDup_lookup _ _ _ q1 (pi_nodup _ _ Hp _)).
Qed.

Lemma job_fits_elem d : d ∈ jobs → job_fits d.
Proof. apply (proj1 (Forall_forall _ _)), jobs_fit. Qed.

Lemma jobs_elms_nodup h :
  NoDup (elm_of <$> filter (λ d, head d = h) jobs).
Proof.
  assert (Hd : NoDup jobs) by exact (NoDup_fmap_1 _ _ jobs_distinct).
  apply NoDup_fmap_2_strong; [|by apply NoDup_filter].
  intros d1 d2 [Hh1 Hin1]%list_elem_of_filter [Hh2 Hin2]%list_elem_of_filter E.
  eapply (NoDup_fmap_elem_eq job_key jobs); [exact jobs_distinct|done..|].
  apply (f_equal resname) in E.
  rewrite !resname_elm_of in E by by apply job_fits_elem.
  unfold job_key. congruence.
Qed.

Lemma hash_elems_is_Some p h : pool_inv jobs p → is_Some (hash_elems (shared p) h).
Proof.
  intros Hp. apply mapM_is_Some, Forall_forall.
  intros q (i & d & Hi & _)%(pi_head _ _ Hp).
  destruct (pi_owned _ _ Hp i d _ q Hi eq_refl) as [Hm _]. cbn. rewrite Hm. eauto.
Qed.

Lemma pool_outcome p h :
  rtc (step o) (pool_start jobs ginit) p → all_done p →
  ∃ l, hash_elems (shared p) h = Some l ∧
       l ≡ₚ elm_of <$> filter (λ d, head d = h) jobs ∧ NoDup (resname <$> l).
Proof.
  intros Hp%reachable_inv Hd. destruct (hash_elems_is_Some p h Hp) as [l Hl].
  pose proof (hash_elems_nodup p h l Hp Hl) as Hnd. exists l. split_and!; [done| |done].
  apply NoDup_Permutation; [exact (NoDup_fmap_1 _ _ Hnd)|apply jobs_elms_nodup|].
  intros r. rewrite (hash_elems_elem p h l r Hp Hl), list_elem_of_fmap. split.
  - intros (q & i & d & Hi & Hh & ->). exists d. split; [done|]. apply list_elem_of_filter.
    split; [done|]. by eapply list_elem_of_lookup_2, thread_job.
  - intros (d & -> & [Hh [i Hi]%list_elem_of_lookup]%list_elem_of_filter).
    rewrite <-(pi_jobs _ _ Hp), list_lookup_fmap, fmap_Some in Hi.
    destruct Hi as ([d' pc] & Hi & ->).
    destruct (done_linked _ _ _ _ Hp Hd Hi) as [q ->]. exists q, i, d'. done.
Qed.
End PoolProofs.

(** ** Termination of the pool *)

Definition pc_rank (pc : tpc) : nat :=
  match pc with TStart => 3 | TNotFound => 2 | TBuilt _ => 1 | TDone _ => 0 end.

Definition pool_rank (p : pool) : nat := sum_list_with (λ x, pc_rank x.2) (threads p).

Section Termination.
Context `{ExHash} (o : os).

Lemma run_seg_rank d pc g pc' g' : run_seg o d pc g = Some (pc', g') → pc_rank pc' < pc_rank pc.
Proof.
  destruct pc; simpl; unfold seg_find, seg_build, seg_link, exljd_res_find; intros Hr.
  - destruct (read_keys _ _); simpl in Hr; [|done].
    destruct (EXHASH_FIND_STR _ _); injection Hr as <- <-; simpl; lia.
  - repeat case_match; simplify_eq; simpl; lia.
  - destruct (mem g !! elm); simpl in Hr; [|done]. injection Hr as <- <-. simpl. lia.
  - done.
Qed.

Lemma step_rank p p' : step o p p' → pool_rank p' < pool_rank p.
Proof.
  destruct 1 as [ts g i d pc pc' g' Hi Hrun]. unfold pool_rank. simpl.
  eapply sum_list_with_insert_lt; [exact Hi|]. simpl. by eapply run_seg_rank.
Qed.

Lemma runnable_dec ts g :
  (∃ p', step o (Pool ts g) p') ∨
  (∀ i d pc, ts !! i = Some (d, pc) → run_seg o d pc g = None).
Proof.
  destruct (decide (Exists (λ x, is_Some (run_seg o x.1 x.2 g)) ts)) as [He|Hn].
  - left. apply Exists_exists in He as ([d pc] & [i Hi]%list_elem_of_lookup & [[pc' g'] Hr]).
    eexists. by econstructor.
  - right. intros i d pc Hi. apply eq_None_not_Some. intros Hs. apply Hn.
    apply Exists_exists. exists (d, pc). split; [by eapply list_elem_of_lookup_2|done].
Qed.

(** From any state the pool runs to one in which no worker can move. *)
Lemma pool_halts p : ∃ p', rtc (step o) p p' ∧ ∀ z, ¬ step o p' z.
Proof.
  apply (rtc_terminates (step o) pool_rank); [apply step_rank|].
  intros [ts g]. destruct (runnable_dec ts g) as [?|Hn]; [by left|right].
  intros z Hz. inversion Hz as [? ? i d pc pc' g' Hi Hrun]; subst.
  by rewrite (Hn i d pc Hi) in Hrun.
Qed.

Lemma halted_done p : ¬ crashed o p → (∀ z, ¬ step o p z) → all_done p.
Proof.
  destruct p as [ts g]. intros Hc Hz. apply forallb_True, Forall_lookup_2. simpl.
  intros i [d pc] Hi. simpl. destruct (is_done pc) eqn:Hd; [done|]. exfalso.
  destruct (run_seg o d pc g) as [[pc' g']|] eqn:Hr.
  - eapply Hz. econstructor; [exact Hi|exact Hr].
  - apply Hc. exists i, d, pc. split_and!; [done| |done]. rewrite Hd. by intros [].
Qed.
End Termination.

(** ** A concrete instance of the hash macros

    Linear search and merge sort: the hypotheses of the theorems below can be
    met, and the definitions evaluate. *)
Definition cmp_le (cmp : exjld_resource_t → exjld_resource_t → Z) (a b : exjld_resource_t) : Prop :=
  (cmp a b ≤ 0)%Z.

#[export] Instance cmp_le_dec cmp : RelDecision (cmp_le cmp).
Proof. intros a b. unfold cmp_le. apply _. Defined.

(** Insertion keeping the elements that do not exceed the new one in front. *)
Fixpoint insert_by (cmp : exjld_resource_t → exjld_resource_t → Z) (x : exjld_resource_t)
    (l : list exjld_resource_t) : list exjld_resource_t :=
  match l with
  | [] => [x]
  | y :: l' => if (cmp y x <=? 0)%Z then y :: insert_by cmp x l' else x :: y :: l'
  end.

Definition list_exhash : ExHash := {|
  EXHASH_FIND_STR l k := snd <$> List.find (λ x, String.eqb x.1 k) l;
  EXHASH_SORT cmp l := foldl (λ acc x, insert_by cmp x acc) [] l
|}.

Lemma insert_by_perm cmp x l : insert_by cmp x l ≡ₚ x :: l.
Proof.
  induction l as [|y l IH]; simpl; [done|]. destruct (cmp y x <=? 0)%Z; [|done].
  rewrite IH. apply Permutation_swap.
Qed.

Lemma foldl_insert_perm cmp l acc : foldl (λ acc x, insert_by cmp x acc) acc l ≡ₚ acc ++ l.
Proof.
  revert acc. induction l as [|x l IH]; intros acc; simpl; [by rewrite app_nil_r|].
  rewrite IH, insert_by_perm. simpl. apply Permutation_middle.
Qed.

Lemma insert_by_sorted cmp x l :
  (∀ y, y ∈ l → (cmp x y ≤ 0 ∨ cmp y x ≤ 0)%Z) →
  Sorted (cmp_le cmp) l → Sorted (cmp_le cmp) (insert_by cmp x l).
Proof.
  induction l as [|y l IH]; simpl; intros Ht Hs; [by repeat constructor|].
  destruct (Z.leb_spec (cmp y x) 0) as [Hyx|Hyx].
  - inversion Hs as [|? ? Hs' Hr]; subst. constructor.
    + apply IH; [|done]. intros z Hz. apply Ht. set_solver.
    + destruct l as [|z l]; simpl; [by constructor|].
      destruct (cmp z x <=? 0)%Z; constructor; [by inversion Hr|done].
  - constructor; [done|]. constructor. destruct (Ht y) as [?|?]; [set_solver|done|lia].
Qed.

Lemma foldl_insert_sorted cmp l acc :
  (∀ a b, a ∈ acc ++ l → b ∈ acc ++ l → (cmp a b ≤ 0 ∨ cmp b a ≤ 0)%Z) →
  Sorted (cmp_le cmp) acc → Sorted (cmp_le cmp) (foldl (λ acc x, insert_by cmp x acc) acc l).
Proof.
  revert acc. induction l as [|x l IH]; intros acc Ht Hs; simpl; [done|]. apply IH.
  - intros a b. rewrite !insert_by_perm. intros Ha Hb. apply Ht; set_solver.
  - apply insert_by_sorted; [|done]. intros y Hy. apply Ht; set_solver.
Qed.

Lemma list_exhash_laws : @ExHashLaws list_exhash.
Proof.
  split; simpl.
  - intros l k p ([k' p'] & Hf & [= ->])%fmap_Some. apply List.find_some in Hf as [Hin Hk].
    apply String.eqb_eq in Hk. simpl in Hk. subst. by apply list_elem_of_In.
  - intros l k p Hf%fmap_None Hin. eapply List.find_none in Hf; [|by apply list_elem_of_In].
    simpl in Hf. by rewrite String.eqb_refl in Hf.
  - intros cmp l. apply (foldl_insert_perm cmp l []).
  - intros cmp l Ht _. apply (foldl_insert_sorted cmp l []); [done|constructor].
Qed.
