(* ===== verification/FindClasses.v ===== *)
(** * exjld/findclasses.c: from files on disk to linker jobs

    [process_entry] is the [nftw] callback: it turns the path of an extracted
    file into a class or resource name, numbers it and queues a job.
    [exjld_class_build_hash] walks the work directory with it and waits for the
    worker pool of [Resources]. *)
From stdpp Require Import sorting strings gmap list numbers.
From Stdlib Require Import Ascii.
From S2P Require Import Prelude CString Resources ResourcesProofs.

(** The [typeflag] of an [nftw] entry. *)
Inductive typeflag := FTW_F | FTW_D | FTW_OTHER.

#[export] Instance typeflag_eq_dec : EqDecision typeflag.
Proof. solve_decision. Defined.

Definition is_lead (c : ascii) : bool := Ascii.eqb c "."%char || Ascii.eqb c "/"%char.

(** The pointer loop over leading dots and slashes: characters skipped, rest. *)
Fixpoint skip_lead (s : string) : nat * string :=
  match s with
  | String c s' => if is_lead c then let '(k, r) := skip_lead s' in (S k, r) else (0, s)
  | EmptyString => (0, EmptyString)
  end.

(** The in-place replacement of the directory separators. *)
Fixpoint slash_to_dot (s : string) : string :=
  match s with
  | EmptyString => EmptyString
  | String c s' => String (if Ascii.eqb c "/"%char then "."%char else c) (slash_to_dot s')
  end.

(** [len > 6 && 0==strcmp(filepath + (len - 6), ".class")] *)
Definition is_class_file (filepath : string) : bool :=
  let len := String.length filepath in
  (6 <? len) && String.eqb (drop_str (len - 6) filepath) ".class".

(** The name part of [process_entry], from the copy into [tmp] to the final [p].
    [None]: for a class path longer than [tmp] the loop leaves the array. *)
Definition entry_name (filepath : string) : option (bool * string) :=
  let is_class := is_class_file filepath in
  let '(k, p) := skip_lead (strcpy_safe PATH_MAX filepath) in
  let len := String.length filepath - k in
  if is_class then
    if PATH_MAX <? String.length filepath then None
    else
      let p' := slash_to_dot p in
      Some (true, if 6 <=? len then take_str (len - 6) p' else p')
  else Some (false, p).

(** Static counters of [process_entry], [M_was_file] and the queued jobs. *)
Record scan_state := ScanState {
  id_class : Z;
  id_res : Z;
  M_was_file : bool;
  queued : list resgen_thread_data_t
}.

Definition scan_init : scan_state := ScanState 0 0 false [].

(** [alloc] tells whether the allocations of this call succeed. *)
Definition process_entry (alloc : bool) (filepath : string) (tf : typeflag) (s : scan_state)
    : option (Z * scan_state) :=
  match tf with
  | FTW_F =>
      '(is_class, p) ← entry_name filepath;
      let idc := if is_class : bool then (id_class s + 1)%Z else id_class s in
      let idr := if is_class : bool then id_res s else (id_res s + 1)%Z in
      if alloc then
        let data :=
          if is_class : bool then ResgenData ndrx_G_classes_hash p idc filepath "class"
          else ResgenData ndrx_G_emb_res_hash p idr filepath "emb" in
        Some (EXSUCCEED, ScanState idc idr true (queued s ++ [data]))
      else Some (EXFAIL, ScanState idc idr (M_was_file s) (queued s))
  | _ => Some (EXSUCCEED, s)
  end.

#[global] Arguments process_entry : simpl never.

(** [nftw("./", process_entry, 20, FTW_PHYS)]: the callback on each entry until
    one returns non-zero. *)
Fixpoint nftw (alloc : nat → bool) (n : nat) (entries : list (string * typeflag)) (s : scan_state)
    : option (Z * scan_state) :=
  match entries with
  | [] => Some (EXSUCCEED, s)
  | (path, tf) :: rest =>
      '(r, s') ← process_entry (alloc n) path tf s;
      if decide (r = EXSUCCEED) then nftw alloc (S n) rest s' else Some (r, s')
  end.

(** [exjld_class_build_hash], for one schedule of the pool: [EXFAIL] when the
    scan stopped or some worker reported an error.  [entries] is what the walk met in this
    run.  The workers it starts write include files into the directory it walks, and [nftw]
    does not say whether it meets those; so the list may have any of them, in any place
    ([nftw_meets] of LinkChain). *)
Inductive exjld_class_build_hash `{ExHash} (o : os) (alloc : nat → bool)
    (entries : list (string * typeflag)) : gstate → Z → Prop :=
  | build_scan_failed r s p :
      nftw alloc 0 entries scan_init = Some (r, s) → r ≠ EXSUCCEED →
      rtc (step o) (pool_start (queued s) ginit) p →
      exjld_class_build_hash o alloc entries (shared p) EXFAIL
  | build_no_file s :
      nftw alloc 0 entries scan_init = Some (EXSUCCEED, s) → M_was_file s = false →
      exjld_class_build_hash o alloc entries ginit EXSUCCEED
  | build_waited s p :
      nftw alloc 0 entries scan_init = Some (EXSUCCEED, s) → M_was_file s = true →
      rtc (step o) (pool_start (queued s) ginit) p → all_done p →
      exjld_class_build_hash o alloc entries (shared p)
        (if decide (thpool_error (shared p) = EXSUCCEED) then EXSUCCEED else EXFAIL).

(** ** Names *)

(** A path as the scan sees it: ["./"] and a relative name that starts with
    neither a dot nor a slash. *)
Definition rel_ok (rel : string) : bool :=
  match rel with String c _ => negb (is_lead c) | EmptyString => false end.

Lemma skip_lead_rel rel : rel_ok rel → skip_lead (String "." (String "/" rel)) = (2, rel).
Proof. destruct rel as [|c rel]; simpl; [done|]. intros Hc. by destruct (is_lead c). Qed.

Lemma drop_str_app a b : drop_str (String.length a) (a +:+ b) = b.
Proof. unfold String.app. induction a as [|c a IH]; simpl; [by destruct b|done]. Qed.

Lemma take_str_app a b : take_str (String.length a) (a +:+ b) = a.
Proof.
  unfold String.app. induction a as [|c a IH]; simpl; [by destruct b|by rewrite IH].
Qed.

Lemma slash_to_dot_app a b : slash_to_dot (a +:+ b) = slash_to_dot a +:+ slash_to_dot b.
Proof. unfold String.app. induction a as [|c a IH]; simpl; [done|by rewrite IH]. Qed.

Lemma slash_to_dot_length a : String.length (slash_to_dot a) = String.length a.
Proof. induction a as [|c a IH]; simpl; [done|by rewrite IH]. Qed.

Lemma is_class_file_app a : 0 < String.length a → is_class_file (a +:+ ".class") = true.
Proof.
  intros Ha. unfold is_class_file. rewrite string_length_app.
  replace (String.length ".class") with 6 by done.
  replace (String.length a + 6 - 6) with (String.length a) by lia.
  rewrite drop_str_app. simpl. rewrite andb_true_r. apply Nat.ltb_lt. lia.
Qed.

Definition dot_slash (rel : string) : string := String "." (String "/" rel).

Lemma app_dot_slash a b : dot_slash a +:+ b = dot_slash (a +:+ b).
Proof. done. Qed.

Lemma entry_name_class stem :
  rel_ok stem → String.length stem + 8 < PATH_MAX →
  entry_name (dot_slash (stem +:+ ".class")) = Some (true, slash_to_dot stem).
Proof.
  intros Hr Hl. unfold entry_name.
  assert (Hlen : String.length (dot_slash (stem +:+ ".class")) = String.length stem + 8).
  { simpl. rewrite string_length_app. simpl. lia. }
  rewrite strcpy_safe_fits by lia.
  assert (is_class_file (dot_slash (stem +:+ ".class")) = true) as ->.
  { rewrite <-app_dot_slash. apply is_class_file_app. simpl. lia. }
  unfold dot_slash at 1. rewrite skip_lead_rel by by destruct stem.
  rewrite Hlen. rewrite (proj2 (Nat.ltb_ge _ _)) by lia.
  rewrite (proj2 (Nat.leb_le _ _)) by lia.
  replace (String.length stem + 8 - 2 - 6) with (String.length (slash_to_dot stem))
    by (rewrite slash_to_dot_length; lia).
  rewrite slash_to_dot_app, take_str_app. done.
Qed.

Lemma entry_name_resource rel :
  rel_ok rel → is_class_file (dot_slash rel) = false → String.length rel + 2 < PATH_MAX →
  entry_name (dot_slash rel) = Some (false, rel).
Proof.
  intros Hr Hc Hl. unfold entry_name. rewrite Hc, strcpy_safe_fits by (simpl; lia).
  unfold dot_slash. by rewrite skip_lead_rel.
Qed.

(** Dot-free stems keep their identity under the replacement. *)
Lemma slash_to_dot_inj a b :
  no_char "." a → no_char "." b → slash_to_dot a = slash_to_dot b → a = b.
Proof.
  revert b. induction a as [|c a IH]; intros [|d b]; simpl; try done.
  intros [Hc Ha]%andb_prop_elim [Hd Hb]%andb_prop_elim [= E1 E2].
  f_equal; [|by apply IH].
  destruct (Ascii.eqb_spec c "/"), (Ascii.eqb_spec d "/"); subst; try done.
Qed.

(** The path, the hash it goes to and the name it gets, for the layout a jar of
    compiled classes extracts to. *)
Inductive wf_path : string → hash_head → string → Prop :=
  | wf_class stem :
      rel_ok stem → no_char "." stem → String.length stem + 8 < PATH_MAX →
      wf_path (dot_slash (stem +:+ ".class")) ndrx_G_classes_hash (slash_to_dot stem)
  | wf_resource rel :
      rel_ok rel → is_class_file (dot_slash rel) = false → String.length rel + 2 < PATH_MAX →
      wf_path (dot_slash rel) ndrx_G_emb_res_hash rel.

Lemma wf_path_name path h n :
  wf_path path h n →
  entry_name path = Some (bool_decide (h = ndrx_G_classes_hash), n).
Proof. by destruct 1; [apply entry_name_class|apply entry_name_resource]. Qed.

(** Different files never get one name in one hash. *)
Lemma wf_path_inj p1 p2 h n : wf_path p1 h n → wf_path p2 h n → p1 = p2.
Proof.
  destruct 1 as [s1 H1 D1 _|r1 H1 _ _]; inversion 1; subst; [|done].
  do 2 f_equal. by apply slash_to_dot_inj.
Qed.

Lemma wf_path_fits p h n : wf_path p h n → String.length n ≤ PATH_MAX.
Proof. destruct 1; rewrite ?slash_to_dot_length; lia. Qed.

(** What the callback queues for such a path. *)
Lemma process_entry_wf path h n s :
  wf_path path h n →
  ∃ s' d, process_entry true path FTW_F s = Some (EXSUCCEED, s') ∧
    M_was_file s' = true ∧ queued s' = queued s ++ [d] ∧
    head d = h ∧ d_resname d = n ∧ d_respath d = path.
Proof.
  intros Hwf. unfold process_entry. rewrite (wf_path_name path h n Hwf). simpl.
  eexists _, _. split; [reflexivity|]. simpl. split_and!; [done..| | |].
  all: by destruct h.
Qed.

(** The jobs of a whole scan, entry by entry. *)
Definition entry_files (entries : list (string * typeflag)) : list string :=
  fst <$> filter (λ e, e.2 = FTW_F) entries.

Definition wf_entries (entries : list (string * typeflag)) : Prop :=
  NoDup (entry_files entries) ∧
  ∀ path, path ∈ entry_files entries → ∃ h n, wf_path path h n.

(** A queued job stands for its file. *)
Definition job_for (path : string) (d : resgen_thread_data_t) : Prop :=
  d_respath d = path ∧ wf_path path (head d) (d_resname d).

Lemma nftw_wf_go entries k s :
  (∀ path, path ∈ entry_files entries → ∃ h n, wf_path path h n) →
  ∃ s' ds, nftw (λ _, true) k entries s = Some (EXSUCCEED, s') ∧
    queued s' = queued s ++ ds ∧ Forall2 job_for (entry_files entries) ds ∧
    M_was_file s' = (M_was_file s || bool_decide (ds ≠ [])).
Proof.
  revert k s. induction entries as [|[path tf] entries IH]; intros k s Hwf.
  { exists s, []. simpl. rewrite app_nil_r, orb_false_r. by repeat constructor. }
  destruct (decide (tf = FTW_F)) as [->|Hne].
  - unfold entry_files in *. rewrite filter_cons_True in * by done. simpl in *.
    destruct (Hwf path) as (h & n & Hp); [by left|].
    destruct (process_entry_wf path h n s Hp) as (s1 & d & E & Hw & Hq & Hh & Hn & Hr).
    rewrite E. simpl.
    destruct (IH (S k) s1) as (s' & ds & E' & Hq' & Hf & Hw'); [intros; apply Hwf; by right|].
    exists s', (d :: ds). split_and!; [done| | |].
    + rewrite Hq', Hq. by rewrite <-app_assoc.
    + constructor; [split; [done|by rewrite Hh, Hn]|done].
    + rewrite Hw', Hw. simpl. by rewrite orb_true_r.
  - unfold entry_files in *. rewrite filter_cons_False in * by done.
    destruct (IH (S k) s Hwf) as (s' & ds & E' & H'). exists s', ds.
    by destruct tf.
Qed.

Lemma Forall2_job_lookup files ds i d :
  Forall2 job_for files ds → ds !! i = Some d → files !! i = Some (d_respath d).
Proof.
  intros Hf Hd. destruct (Forall2_lookup_r _ _ _ _ _ Hf Hd) as (p & Hp & <- & _). done.
Qed.

Lemma scan_jobs_distinct files ds :
  NoDup files → Forall2 job_for files ds → distinct_jobs ds ∧ Forall job_fits ds.
Proof.
  intros Hnd Hf. split.
  - apply NoDup_alt. intros i j k Hi Hj. rewrite list_lookup_fmap, fmap_Some in Hi, Hj.
    destruct Hi as (d1 & Hd1 & ->), Hj as (d2 & Hd2 & E). injection E as Eh En.
    destruct (Forall2_lookup_r _ _ _ _ _ Hf Hd1) as (p1 & Hp1 & <- & Hw1),
      (Forall2_lookup_r _ _ _ _ _ Hf Hd2) as (p2 & Hp2 & <- & Hw2).
    rewrite Eh, En in Hw1. pose proof (wf_path_inj _ _ _ _ Hw1 Hw2) as Ep.
    rewrite Ep in Hp1. by eapply NoDup_lookup.
  - apply Forall_lookup_2. intros i d Hd.
    destruct (Forall2_lookup_r _ _ _ _ _ Hf Hd) as (p & Hp & _ & Hw). by eapply wf_path_fits.
Qed.

(** ** Numbering *)

Definition counter (h : hash_head) (s : scan_state) : Z :=
  match h with ndrx_G_classes_hash => id_class s | ndrx_G_emb_res_hash => id_res s end.

Definition pfx_of (h : hash_head) : string :=
  match h with ndrx_G_classes_hash => "class" | ndrx_G_emb_res_hash => "emb" end.

Definition numbered (d : resgen_thread_data_t) : hash_head * Z := (head d, d_id d).

(** Every queued job has its own number within its hash, from 1 up to the
    counter, and the prefix that goes with the hash. *)
Definition scan_inv (s : scan_state) : Prop :=
  NoDup (numbered <$> queued s) ∧
  (∀ d, d ∈ queued s → (1 ≤ d_id d ≤ counter (head d) s)%Z ∧ emb_pfx d = pfx_of (head d)) ∧
  (0 ≤ id_class s)%Z ∧ (0 ≤ id_res s)%Z.

Lemma scan_init_inv : scan_inv scan_init.
Proof. split_and!; simpl; [constructor|intros d Hd; by apply elem_of_nil in Hd|lia..]. Qed.

Lemma scan_inv_push s s' d :
  scan_inv s → queued s' = queued s ++ [d] →
  (∀ h, counter h s' = counter h s + (if decide (h = head d) then 1 else 0))%Z →
  d_id d = counter (head d) s' → emb_pfx d = pfx_of (head d) → scan_inv s'.
Proof.
  intros (Hnd & Hd & Hc & Hr) Hq Hcnt Hid Hp.
  pose proof (Hcnt ndrx_G_classes_hash) as Hc1. pose proof (Hcnt ndrx_G_emb_res_hash) as Hc2.
  assert (Hpos : ∀ h, (0 ≤ counter h s)%Z) by by intros [].
  split_and!.
  - rewrite Hq, fmap_app. apply NoDup_app. split_and!; [done| |apply NoDup_singleton].
    intros k (d' & -> & Hd')%list_elem_of_fmap Hk%list_elem_of_singleton.
    injection Hk as Eh Ei. destruct (Hd d' Hd') as [Hb _]. rewrite Eh in Hb.
    specialize (Hcnt (head d)). rewrite decide_True in Hcnt by done. lia.
  - intros d' Hd'. rewrite Hq in Hd'. rewrite Hcnt.
    apply elem_of_app in Hd' as [Hd'| ->%list_elem_of_singleton].
    + destruct (Hd d' Hd') as [Hb He]. split; [|done].
      destruct (decide (head d' = head d)); lia.
    + split; [|done]. rewrite Hid, <-Hcnt. specialize (Hpos (head d)). specialize (Hcnt (head d)).
      rewrite decide_True in Hcnt by done. lia.
  - simpl in Hc1. destruct (decide (ndrx_G_classes_hash = head d)); lia.
  - simpl in Hc2. destruct (decide (ndrx_G_emb_res_hash = head d)); lia.
Qed.

Lemma scan_inv_grow s s' :
  scan_inv s → queued s' = queued s → (∀ h, counter h s ≤ counter h s')%Z → scan_inv s'.
Proof.
  intros (Hnd & Hd & Hc & Hr) Hq Hcnt. split_and!.
  - by rewrite Hq.
  - intros d Hin. rewrite Hq in Hin. destruct (Hd d Hin) as [Hb He]. split; [|done].
    specialize (Hcnt (head d)). lia.
  - specialize (Hcnt ndrx_G_classes_hash). simpl in Hcnt. lia.
  - specialize (Hcnt ndrx_G_emb_res_hash). simpl in Hcnt. lia.
Qed.

Lemma process_entry_inv alloc path tf s r s' :
  process_entry alloc path tf s = Some (r, s') → scan_inv s → scan_inv s'.
Proof.
  unfold process_entry. intros Hp Hs. destruct tf; [|by simplify_eq..].
  destruct (entry_name path) as [[[] p]|]; simpl in Hp; [| |done]; destruct alloc; simplify_eq.
  - eapply scan_inv_push; [exact Hs|reflexivity|..]; try done. intros []; simpl; lia.
  - apply (scan_inv_grow s); [done..|]. intros []; simpl; lia.
  - eapply scan_inv_push; [exact Hs|reflexivity|..]; try done. intros []; simpl; lia.
  - apply (scan_inv_grow s); [done..|]. intros []; simpl; lia.
Qed.

Lemma nftw_inv alloc k entries s r s' :
  nftw alloc k entries s = Some (r, s') → scan_inv s → scan_inv s'.
Proof.
  revert k s. induction entries as [|[path tf] entries IH]; intros k s; simpl; [by intros; simplify_eq|].
  destruct (process_entry _ _ _ _) as [[r1 s1]|] eqn:E; simpl; [|done].
  intros Hn Hs. apply process_entry_inv in E; [|done].
  case_decide; [by eapply IH|by simplify_eq].
Qed.

Lemma pfx_no_clash h1 h2 (a b : string) :
  pfx_of h1 +:+ "_" +:+ a = pfx_of h2 +:+ "_" +:+ b → h1 = h2 ∧ a = b.
Proof. destruct h1, h2; simpl; intros E; by inversion E. Qed.

Lemma elm_of_embpath d :
  String.length (emb_pfx d +:+ "_" +:+ print_int (d_id d)) ≤ PATH_MAX →
  embpath (elm_of d) = emb_pfx d +:+ "_" +:+ print_int (d_id d).
Proof. intros Hl. cbn [elm_of embpath]. apply strcpy_safe_fits. lia. Qed.
