(* ===== verification/Codegen.v ===== *)
(** * exjld/codegen.c: the generated program and the build command

    [ndrxj_codegen] prints [jmain.c], a C file with the sorted class and resource
    tables and a [main] that hands them to [ndrxj_run_main], then runs the build
    command.  The generated text is modelled byte for byte; a reader of the
    tables (what a C compiler takes from the initialisers) gives the round trip. *)
From stdpp Require Import sorting strings gmap list numbers.
From Stdlib Require Import Ascii.
From S2P Require Import Prelude CString Resources.

(** Linker globals used by the generator (exjld.c). *)
Record link_cfg := LinkCfg {
  ndrx_G_build_cmd : string;
  ndrx_G_main_class : string;
  ndrx_G_out_bin : string;
  ndrx_G_owd : string;
  ndrx_G_libs : list string;
  ndrx_G_incpath : list string;
  ndrx_G_libpath : list string
}.

(** One [fprintf] that ends with a newline. *)
Definition line (s : string) : string := s +:+ NL.

Definition concat_str (l : list string) : string := foldr String.append EmptyString l.

Definition quoted (s : string) : string := DQ +:+ s +:+ DQ.

Definition include_line (r : exjld_resource_t) : string :=
  line ("#include " +:+ quoted (embpath r +:+ ".cinclude")).

(** One table entry; [sym] is ["class"] or ["emb"]. *)
Definition gen_row (sym : string) (r : exjld_resource_t) : string :=
  line (TAB +:+ "{") +:+
  line (TAB +:+ TAB +:+ quoted (resname r) +:+ ",") +:+
  line (TAB +:+ TAB +:+ "ndrx_G_resource_" +:+ sym +:+ "_" +:+ print_int (id r) +:+ ",") +:+
  line (TAB +:+ TAB +:+ "ndrx_G_resource_" +:+ sym +:+ "_" +:+ print_int (id r) +:+ "_len_def") +:+
  line (TAB +:+ "}").

(** The loop over a hash with its [first] flag. *)
Fixpoint gen_rows (sym : string) (first : bool) (l : list exjld_resource_t) : string :=
  match l with
  | [] => EmptyString
  | r :: l' =>
      (if first then EmptyString else line (TAB +:+ ",")) +:+ gen_row sym r +:+ gen_rows sym false l'
  end.

Definition table_open (name : string) : string :=
  line ("ndrxj_class_index_t " +:+ name +:+ " [] = ") +:+ line "{".

Definition table_close : string := line "};" +:+ NL.

Definition CLASS_INDEX : string := "ndrxj_G_class_index".
Definition EMB_INDEX : string := "ndrxj_G_emb_index".

(** The resource table is printed only when it has an entry. *)
Definition emb_table (embs : list exjld_resource_t) : string :=
  match embs with
  | [] => EmptyString
  | _ => table_open EMB_INDEX +:+ gen_rows "emb" true embs +:+ table_close
  end.

Definition gen_main (main_class : string) (num_class num_emb : nat) (test_mode : Z) : string :=
  line "int main(int argc, char **argv)" +:+
  line "{" +:+
  line "        " +:+
  line (TAB +:+ "return ndrxj_run_main(argc, argv, " +:+ quoted main_class +:+ ",") +:+
  line (TAB +:+ TAB +:+ CLASS_INDEX +:+ ", " +:+ print_int (Z.of_nat num_class) +:+ ", " +:+
        (if 0 <? num_emb then EMB_INDEX else "NULL") +:+ ", " +:+ print_int (Z.of_nat num_emb) +:+ ",") +:+
  line ("                " +:+ print_int test_mode +:+ ");") +:+
  line "}".

(** The whole of [jmain.c]. *)
Definition jmain_c (cfg : link_cfg) (classes embs : list exjld_resource_t) (test_mode : Z) : string :=
  line "#include <exjlds.h>" +:+
  line "#include <stdio.h>" +:+
  concat_str (include_line <$> classes) +:+
  concat_str (include_line <$> embs) +:+
  table_open CLASS_INDEX +:+ gen_rows "class" true classes +:+ table_close +:+
  emb_table embs +:+
  gen_main (ndrx_G_main_class cfg) (length classes) (length embs) test_mode.

(** ** The build command *)

(** [NDRX_STRCAT_S(dst, sizeof(dst), src)] *)
Definition strcat_s (sz : nat) (dst src : string) : string := take_str (sz - 1) (dst +:+ src).

Definition BUFSZ : nat := PATH_MAX + 1.

(** [libs]: [-l] of every library, separated by blanks. *)
Fixpoint libs_arg (first : bool) (acc : string) (l : list string) : string :=
  match l with
  | [] => acc
  | x :: l' =>
      let acc1 := if first then acc else strcat_s BUFSZ acc " " in
      libs_arg false (strcat_s BUFSZ (strcat_s BUFSZ acc1 "-l") x) l'
  end.

(** A path as given when absolute, under the original directory otherwise. *)
Definition abs_path (owd q : string) : string :=
  strcpy_safe BUFSZ (match q with String "/" _ => q | _ => owd +:+ "/" +:+ q end).

(** [include_path] and [libpath_path]. *)
Fixpoint path_args (opt owd : string) (first : bool) (acc : string) (l : list string) : string :=
  match l with
  | [] => acc
  | q :: l' =>
      let acc1 := if first then acc else strcat_s BUFSZ acc " " in
      path_args opt owd false (strcat_s BUFSZ (strcat_s BUFSZ acc1 opt) (abs_path owd q)) l'
  end.

Definition FILENAME : string := "jmain.c".

Definition build_cmd (cfg : link_cfg) : string :=
  let libs := libs_arg true EmptyString (ndrx_G_libs cfg) in
  let include_path := path_args "-I" (ndrx_G_owd cfg) true EmptyString (ndrx_G_incpath cfg) in
  let libpath_path := path_args "-L" (ndrx_G_owd cfg) true EmptyString (ndrx_G_libpath cfg) in
  let base := ndrx_G_build_cmd cfg +:+ " -n -o '" +:+ ndrx_G_out_bin cfg +:+ "' -f '" +:+
              FILENAME +:+ " " +:+ libs +:+ "'" in
  strcpy_safe BUFSZ
    (if String.eqb include_path EmptyString && String.eqb libpath_path EmptyString then base
     else base +:+ " -a " +:+ quoted (include_path +:+ " " +:+ libpath_path)).

(** Effects of one call: the file it wrote (if it could be opened) and the
    commands it handed to [system], in order. *)
Record codegen_out := CodegenOut { co_ret : Z; co_file : option string; co_cmds : list string }.

(** [ndrxj_codegen].  [fopen_ok]: can [jmain.c] be opened for writing;
    [system n cmd]: exit status of the n-th command. *)
Definition ndrxj_codegen (cfg : link_cfg) (fopen_ok : bool) (system : nat → string → Z)
    (classes embs : list exjld_resource_t) (test_mode : bool) : codegen_out :=
  if fopen_ok then
    let file := jmain_c cfg classes embs (if test_mode then 1 else 0) in
    let cmd := build_cmd cfg in
    if decide (system 0 cmd = EXSUCCEED) then
      if test_mode then
        CodegenOut (if decide (system 1 cmd = EXSUCCEED) then EXSUCCEED else EXFAIL)
                   (Some file) [cmd; cmd]
      else CodegenOut EXSUCCEED (Some file) [cmd]
    else CodegenOut EXFAIL (Some file) [cmd]
  else CodegenOut EXFAIL None [].
