(* ===== verification/CodegenProofs.v ===== *)
(** * What the generated C file says

    A reader for [jmain.c] (the include lines, the two tables and the call in
    [main]) and the proof that it recovers exactly what the generator was given. *)
From stdpp Require Import sorting strings gmap list numbers.
From Stdlib Require Import Ascii.
From S2P Require Import Prelude CString Resources Codegen.

Definition DQc : ascii := ascii_of_nat 34.
Definition NLc : ascii := ascii_of_nat 10.

(** A table row: string literal, data symbol, length symbol. *)
Record row := Row { row_name : string; row_sym : string; row_len : string }.

Definition read_row (s : string) : option (row * string) :=
  s ← expect (TAB +:+ "{" +:+ NL +:+ TAB +:+ TAB +:+ DQ) s;
  '(name, s) ← until DQc s;
  s ← expect ("," +:+ NL +:+ TAB +:+ TAB) s;
  '(sym, s) ← until "," s;
  s ← expect (NL +:+ TAB +:+ TAB) s;
  '(len, s) ← until NLc s;
  s ← expect (TAB +:+ "}" +:+ NL) s;
  Some (Row name sym len, s).

(** Rows separated by comma lines. *)
Fixpoint read_rows (fuel : nat) (s : string) : option (list row * string) :=
  match fuel with
  | 0 => None
  | S f =>
      '(r, s) ← read_row s;
      match expect (TAB +:+ "," +:+ NL) s with
      | Some s => '(rs, s) ← read_rows f s; Some (r :: rs, s)
      | None => Some ([r], s)
      end
  end.

Definition read_table (fuel : nat) (name s : string) : option (list row * string) :=
  s ← expect (table_open name) s;
  match expect table_close s with
  | Some s => Some ([], s)
  | None => '(rs, s) ← read_rows fuel s; s ← expect table_close s; Some (rs, s)
  end.

Fixpoint skip_includes (fuel : nat) (s : string) : option string :=
  match fuel with
  | 0 => None
  | S f =>
      match expect "#include " s with
      | Some s => '(_, s) ← until NLc s; skip_includes f s
      | None => Some s
      end
  end.

(** The file: includes, class table, optional resource table, and the
    remaining text of [main]. *)
Definition read_jmain (fuel : nat) (s : string) : option (list row * list row * string) :=
  s ← skip_includes fuel s;
  '(cs, s) ← read_table fuel CLASS_INDEX s;
  match read_table fuel EMB_INDEX s with
  | Some (es, s) => Some (cs, es, s)
  | None => Some (cs, [], s)
  end.

(** The row the linker means for an element. *)
Definition row_of (sym : string) (r : exjld_resource_t) : row :=
  let s := "ndrx_G_resource_" +:+ sym +:+ "_" +:+ print_int (id r) in
  Row (resname r) s (s +:+ "_len_def").

(** Names that are their own C string literal. *)
Definition literal_ok (r : exjld_resource_t) : bool :=
  no_char DQc (resname r) && no_char NLc (resname r) && no_char "\" (resname r).

Definition embpath_ok (r : exjld_resource_t) : bool := no_char NLc (embpath r).

Ltac read_step :=
  rewrite ?expect_split, ?string_app_assoc, ?expect_self; cbn [mbind option_bind].

Lemma read_row_gen sym r s :
  literal_ok r → no_char "," sym → no_char NLc sym →
  read_row (gen_row sym r +:+ s) = Some (row_of sym r, s).
Proof.
  intros [[Hq _]%andb_prop_elim _]%andb_prop_elim Hc Hn.
  unfold read_row, gen_row, line, quoted. repeat read_step.
  rewrite (until_app DQc) by done. repeat read_step.
  pose proof (print_int_no_char "," (id r) eq_refl) as P1.
  pose proof (print_int_no_char NLc (id r) eq_refl) as P2.
  erewrite (until_eq "," (row_sym (row_of sym r)));
    [|by repeat apply no_char_app_2|simpl; by rewrite !string_app_assoc].
  repeat read_step.
  erewrite (until_eq NLc (row_len (row_of sym r)));
    [|by repeat apply no_char_app_2|simpl; by rewrite !string_app_assoc].
  repeat read_step. done.
Qed.

(** After a row of the class table comes either a comma line or [};]. *)
Lemma expect_comma_close s : expect (TAB +:+ "," +:+ NL) (table_close +:+ s) = None.
Proof. done. Qed.

Lemma read_rows_gen sym r l s fuel :
  forallb literal_ok (r :: l) → no_char "," sym → no_char NLc sym → length l < fuel →
  read_rows fuel (gen_rows sym true (r :: l) +:+ table_close +:+ s) =
  Some (row_of sym <$> (r :: l), table_close +:+ s).
Proof.
  intros Hl Hc Hn. revert r Hl fuel. induction l as [|r' l IH]; intros r Hl [|f] Hf;
    simpl in Hf; try lia; apply andb_prop_elim in Hl as [Hr Hl]; cbn [read_rows gen_rows].
  - rewrite !string_app_assoc, !string_app_nil_l, read_row_gen by done. cbn [mbind option_bind].
    by rewrite expect_comma_close.
  - rewrite !string_app_assoc, !string_app_nil_l, read_row_gen by done. cbn [mbind option_bind].
    unfold line at 1. repeat read_step. cbn [gen_rows] in IH.
    specialize (IH r' Hl f ltac:(lia)). rewrite !string_app_assoc in IH.
    rewrite string_app_nil_l in IH. rewrite IH. done.
Qed.

Lemma read_table_gen sym name l s fuel :
  forallb literal_ok l → no_char "," sym → no_char NLc sym → length l < fuel →
  read_table fuel name (table_open name +:+ gen_rows sym true l +:+ table_close +:+ s) =
  Some (row_of sym <$> l, s).
Proof.
  intros Hl Hc Hn Hf. unfold read_table. rewrite expect_self. cbn [mbind option_bind].
  destruct l as [|r l]; [by cbn [gen_rows]; rewrite string_app_nil_l, expect_self|].
  rewrite read_rows_gen by (done || (simpl in Hf; lia)).
  replace (expect table_close _) with (@None string) by done.
  cbn [mbind option_bind]. by rewrite expect_self.
Qed.

(** A line the reader skips. *)
Definition is_include (x : string) : Prop :=
  ∃ body, x = "#include " +:+ body +:+ NL ∧ no_char NLc body.

Lemma skip_includes_gen ls s fuel :
  Forall is_include ls → expect "#include " s = None → length ls < fuel →
  skip_includes fuel (concat_str ls +:+ s) = Some s.
Proof.
  intros Hls Hs. revert fuel. induction Hls as [|x ls (body & -> & Hb) _ IH]; intros [|f] Hf;
    simpl in Hf; try lia; cbn [skip_includes concat_str foldr].
  - by rewrite string_app_nil_l, Hs.
  - change (String.append ?a ?b) with (a +:+ b). rewrite !string_app_assoc, expect_self.
    erewrite (until_eq NLc body) by done. cbn [mbind option_bind]. apply IH. lia.
Qed.

Lemma include_line_ok r : embpath_ok r → is_include (include_line r).
Proof.
  intros Hr. exists (quoted (embpath r +:+ ".cinclude")). split; [done|].
  unfold quoted. by repeat apply no_char_app_2.
Qed.

Lemma include_lines_ok l : forallb embpath_ok l → Forall is_include (include_line <$> l).
Proof.
  intros Hl%forallb_True. apply Forall_fmap. eapply Forall_impl; [exact Hl|].
  apply include_line_ok.
Qed.

Lemma concat_str_app a b : concat_str (a ++ b) = concat_str a +:+ concat_str b.
Proof.
  induction a as [|x a IH]; simpl; [done|]. rewrite IH. symmetry. apply string_app_assoc.
Qed.

(** The include block of the generated file. *)
Definition include_block (classes embs : list exjld_resource_t) : list string :=
  [line "#include <exjlds.h>"; line "#include <stdio.h>"] ++
  (include_line <$> classes) ++ (include_line <$> embs).

Lemma include_block_ok classes embs :
  forallb embpath_ok classes → forallb embpath_ok embs →
  Forall is_include (include_block classes embs).
Proof.
  intros Hc He. repeat apply Forall_app_2; [|by apply include_lines_ok..].
  repeat constructor; [exists "<exjlds.h>"|exists "<stdio.h>"]; done.
Qed.

Lemma jmain_c_split cfg classes embs t :
  jmain_c cfg classes embs t =
  concat_str (include_block classes embs) +:+
  table_open CLASS_INDEX +:+ gen_rows "class" true classes +:+ table_close +:+
  emb_table embs +:+ gen_main (ndrx_G_main_class cfg) (length classes) (length embs) t.
Proof.
  unfold include_block. rewrite !concat_str_app. unfold jmain_c.
  cbn [concat_str foldr]. change (String.append ?a ?b) with (a +:+ b).
  by rewrite !string_app_assoc.
Qed.

Lemma read_jmain_gen cfg classes embs t :
  forallb literal_ok classes → forallb literal_ok embs →
  forallb embpath_ok classes → forallb embpath_ok embs →
  read_jmain (3 + length classes + length embs) (jmain_c cfg classes embs t) =
  Some (row_of "class" <$> classes, row_of "emb" <$> embs,
        gen_main (ndrx_G_main_class cfg) (length classes) (length embs) t).
Proof.
  intros Hc He Hc' He'. rewrite jmain_c_split. unfold read_jmain.
  rewrite skip_includes_gen; [|by apply include_block_ok|done|].
  2:{ unfold include_block. rewrite !length_app, !length_fmap. simpl. lia. }
  cbn [mbind option_bind].
  rewrite (read_table_gen "class") by (done || lia). cbn [mbind option_bind].
  destruct embs as [|e embs]; [done|]. unfold emb_table. rewrite !string_app_assoc.
  rewrite (read_table_gen "emb") by (done || (simpl; lia)). done.
Qed.

(** ** The build command, without bounds *)

(** Options separated by blanks. *)
Definition opts (opt : string) (l : list string) : string := String.concat " " ((λ x, opt +:+ x) <$> l).

Definition full_path (owd q : string) : string :=
  match q with String "/" _ => q | _ => owd +:+ "/" +:+ q end.

Definition full_cmd (cfg : link_cfg) : string :=
  let incs := opts "-I" (full_path (ndrx_G_owd cfg) <$> ndrx_G_incpath cfg) in
  let dirs := opts "-L" (full_path (ndrx_G_owd cfg) <$> ndrx_G_libpath cfg) in
  ndrx_G_build_cmd cfg +:+ " -n -o '" +:+ ndrx_G_out_bin cfg +:+ "' -f '" +:+
  FILENAME +:+ " " +:+ opts "-l" (ndrx_G_libs cfg) +:+ "'" +:+
  (if bool_decide (ndrx_G_incpath cfg = [] ∧ ndrx_G_libpath cfg = []) then EmptyString
   else " -a " +:+ quoted (incs +:+ " " +:+ dirs)).

(** The options still to come in the loop with its [first] flag. *)
Fixpoint opts_from (opt : string) (first : bool) (l : list string) : string :=
  match l with
  | [] => EmptyString
  | x :: l' => (if first then EmptyString else " "%string) +:+ opt +:+ x +:+ opts_from opt false l'
  end.

Lemma opts_cons opt x l : opts opt (x :: l) = opt +:+ x +:+ opts_from opt false l.
Proof.
  revert x. induction l as [|y l IH]; intros x; simpl.
  - by rewrite string_app_nil_r.
  - specialize (IH y). unfold opts in *. cbn [fmap list_fmap String.concat] in *.
    change (String.append ?a ?b) with (a +:+ b) in *. rewrite IH. by rewrite !string_app_assoc.
Qed.

Lemma opts_from_true opt l : opts_from opt true l = opts opt l.
Proof. destruct l; [done|]. by rewrite opts_cons. Qed.

Lemma strcat_fits a b : String.length (a +:+ b) ≤ PATH_MAX → strcat_s BUFSZ a b = a +:+ b.
Proof. intros. unfold strcat_s, BUFSZ. apply take_str_all. lia. Qed.

(** One round of the loops: three bounded concatenations. *)
Lemma strcat_round (first : bool) acc opt x rest :
  String.length (acc +:+ (if first then EmptyString else " "%string) +:+ opt +:+ x +:+ rest) ≤ PATH_MAX →
  strcat_s BUFSZ (strcat_s BUFSZ (if first then acc else strcat_s BUFSZ acc " ") opt) x =
  acc +:+ (if first then EmptyString else " "%string) +:+ opt +:+ x.
Proof.
  rewrite !string_length_app. intros Hl.
  destruct first; simpl in Hl.
  - rewrite (strcat_fits acc opt), (strcat_fits _ x) by (rewrite !string_length_app; lia).
    by rewrite string_app_assoc.
  - rewrite (strcat_fits acc " "), (strcat_fits _ opt), (strcat_fits _ x)
      by (rewrite !string_length_app; simpl; lia).
    by rewrite !string_app_assoc.
Qed.

Lemma libs_arg_full l first acc :
  String.length (acc +:+ opts_from "-l" first l) ≤ PATH_MAX →
  libs_arg first acc l = acc +:+ opts_from "-l" first l.
Proof.
  revert first acc. induction l as [|x l IH]; intros first acc Hl; simpl.
  - by rewrite string_app_nil_r.
  - cbn [opts_from] in Hl. rewrite (strcat_round _ _ _ _ _ Hl). rewrite IH; by rewrite !string_app_assoc.
Qed.

Lemma path_args_full opt owd l first acc :
  String.length (acc +:+ opts_from opt first (full_path owd <$> l)) ≤ PATH_MAX →
  path_args opt owd first acc l = acc +:+ opts_from opt first (full_path owd <$> l).
Proof.
  revert first acc. induction l as [|x l IH]; intros first acc Hl; simpl.
  - by rewrite string_app_nil_r.
  - cbn [fmap list_fmap opts_from] in Hl.
    assert (Hp : abs_path owd x = full_path owd x).
    { unfold abs_path. apply strcpy_safe_fits. unfold BUFSZ. fold (full_path owd x).
      rewrite !string_length_app in Hl. lia. }
    rewrite Hp, (strcat_round _ _ _ _ _ Hl). rewrite IH; by rewrite !string_app_assoc.
Qed.

Lemma opts_empty opt l : String.eqb opt EmptyString = false →
  String.eqb (opts opt l) EmptyString = bool_decide (l = []).
Proof. destruct l as [|x l]; [done|]. rewrite opts_cons. by destruct opt. Qed.

(** A command that fits its array is complete. *)
Lemma build_cmd_full cfg :
  String.length (full_cmd cfg) ≤ PATH_MAX → build_cmd cfg = full_cmd cfg.
Proof.
  intros Hl. unfold build_cmd, full_cmd in *.
  set (owd := ndrx_G_owd cfg) in *.
  set (incs := full_path owd <$> ndrx_G_incpath cfg) in *.
  set (dirs := full_path owd <$> ndrx_G_libpath cfg) in *.
  assert (Hincs : ndrx_G_incpath cfg = [] ↔ incs = []) by (unfold incs; by destruct (ndrx_G_incpath cfg)).
  assert (Hdirs : ndrx_G_libpath cfg = [] ↔ dirs = []) by (unfold dirs; by destruct (ndrx_G_libpath cfg)).
  assert (Hfit : String.length (opts "-l" (ndrx_G_libs cfg)) ≤ PATH_MAX ∧
                 String.length (opts "-I" incs) ≤ PATH_MAX ∧ String.length (opts "-L" dirs) ≤ PATH_MAX).
  { rewrite !string_length_app in Hl. case_bool_decide as Hb.
    - destruct Hb as [->%Hincs ->%Hdirs]. simpl in *. lia.
    - rewrite !string_length_app in Hl. unfold quoted in Hl. rewrite !string_length_app in Hl. lia. }
  destruct Hfit as (H1 & H2 & H3).
  rewrite libs_arg_full, !path_args_full by (by rewrite opts_from_true). rewrite !opts_from_true.
  fold incs dirs. rewrite !string_app_nil_l, !opts_empty by done.
  rewrite (bool_decide_ext _ _ (iff_sym Hincs)), (bool_decide_ext _ _ (iff_sym Hdirs)), <- bool_decide_and.
  destruct (bool_decide _); rewrite ?string_app_nil_r in *; rewrite ?string_app_assoc;
    apply strcpy_safe_fits; unfold BUFSZ; lia.
Qed.

Lemma build_cmd_bounded cfg : String.length (build_cmd cfg) ≤ PATH_MAX.
Proof. unfold build_cmd, strcpy_safe. etrans; [apply take_str_length|]. unfold BUFSZ. lia. Qed.
