(* ===== verification/Jni.v ===== *)
(** * The Java Native Interface, as the C code uses it

    A state of one thread: the Java objects the native code can reach, the pending
    exception, the string and array elements acquired with [Get...] and not yet
    released, the live weak global references, the library's cache of exception
    classes, the thread variable [M_cb_ubf] of TypedUbf_Bbool.c, and the state of the
    Enduro/X library (a parameter).  Native code is
    a state passing program over it; a use the JNI specification leaves undefined
    (a NULL object, a wrong type, a release without acquire) and a call of [abort]
    end in [Crash].  What the virtual machine decides by itself (does an allocation
    succeed, does [Get...] return a copy) is an oracle, read once per call. *)
From stdpp Require Import sorting strings gmap list numbers.
From S2P Require Import Prelude CString.

Definition loc := positive.
(** A reference; [None] is NULL. *)
Abbreviation jobject := (option loc).

(** The fields of [org.endurox.TypedBuffer]. *)
Record typed_buffer := TypedBuffer {
  tb_class : string;
  tb_ctx : jobject;
  tb_doFinalize : bool;
  tb_cPtr : Z;
  tb_len : Z
}.

Inductive jarg := AObj (o : jobject) | ALong (z : Z) | AStr (s : string).

Inductive jval :=
  | JString (s : string)
  | JBytes (b : list Z)
  | JLongs (l : list Z)
  | JTypedBuffer (t : typed_buffer)
  | JAtmiCtx (ctx : Z) (svr : jobject)
  | JThrowable (cls msg : string) (data qctl : jobject)
  | JOther (cls : string) (args : list jarg)
  | JInts (l : list Z)
  | JObject (cls : string) (fields : gmap string jarg)
  | JArray (els : list jobject).

Record jvm := Jvm {
  jvm_alloc_ok : nat → bool;
  jvm_copies : nat → bool;
  jvm_class_exists : string → bool
}.

Record world (X : Type) := World {
  w_heap : gmap loc jval;
  w_next : loc;
  w_exc : jobject;
  w_pins : list loc;
  w_weak : list loc;
  w_cache : list string;
  w_tick : nat;
  w_ubf : jobject;
  w_x : X
}.
Arguments World {X}.
Arguments w_heap {X}.
Arguments w_next {X}.
Arguments w_exc {X}.
Arguments w_pins {X}.
Arguments w_weak {X}.
Arguments w_cache {X}.
Arguments w_tick {X}.
Arguments w_ubf {X}.
Arguments w_x {X}.

Inductive res (X A : Type) := Ok (a : A) (w : world X) | Crash (why : string).
Arguments Ok {X A}.
Arguments Crash {X A}.

Definition M (X A : Type) : Type := world X → res X A.

#[export] Instance M_ret X : MRet (M X) := λ A a w, Ok a w.
#[export] Instance M_bind X : MBind (M X) := λ A B k m w,
  match m w with Ok a w' => k a w' | Crash s => Crash s end.

Definition crash {X A} (why : string) : M X A := λ _, Crash why.

Section World.
Context {X : Type}.
Implicit Types (w : world X).

Definition with_heap (h : gmap loc jval) (n : loc) w : world X :=
  World h n (w_exc w) (w_pins w) (w_weak w) (w_cache w) (w_tick w) (w_ubf w) (w_x w).
Definition with_exc (e : jobject) w : world X :=
  World (w_heap w) (w_next w) e (w_pins w) (w_weak w) (w_cache w) (w_tick w) (w_ubf w) (w_x w).
Definition with_pins (p : list loc) w : world X :=
  World (w_heap w) (w_next w) (w_exc w) p (w_weak w) (w_cache w) (w_tick w) (w_ubf w) (w_x w).
Definition with_weak (p : list loc) w : world X :=
  World (w_heap w) (w_next w) (w_exc w) (w_pins w) p (w_cache w) (w_tick w) (w_ubf w) (w_x w).
Definition with_cache (c : list string) w : world X :=
  World (w_heap w) (w_next w) (w_exc w) (w_pins w) (w_weak w) c (w_tick w) (w_ubf w) (w_x w).
Definition with_x (x : X) w : world X :=
  World (w_heap w) (w_next w) (w_exc w) (w_pins w) (w_weak w) (w_cache w) (w_tick w) (w_ubf w) x.
Definition with_ubf (o : jobject) w : world X :=
  World (w_heap w) (w_next w) (w_exc w) (w_pins w) (w_weak w) (w_cache w) (w_tick w) o (w_x w).
Definition ticked w : world X :=
  World (w_heap w) (w_next w) (w_exc w) (w_pins w) (w_weak w) (w_cache w) (S (w_tick w)) (w_ubf w) (w_x w).

Definition set_obj (l : loc) (v : jval) w : world X := with_heap (<[l := v]> (w_heap w)) (w_next w) w.

(** Store a new object at the next location. *)
Definition new_obj (v : jval) w : loc * world X :=
  (w_next w, with_heap (<[w_next w := v]> (w_heap w)) (Pos.succ (w_next w)) w).

Definition mget : M X (world X) := λ w, Ok w w.
Definition mmod (f : world X → world X) : M X unit := λ w, Ok tt (f w).

Definition store_new (v : jval) : M X jobject := λ w,
  let '(l, w') := new_obj v w in Ok (Some l) w'.

(** Read the oracle [f] at this call. *)
Definition ask (f : nat → bool) : M X bool := λ w, Ok (f (w_tick w)) (ticked w).

(** Make [cls] the pending exception. *)
Definition throw_vm (cls : string) : M X unit := λ w,
  let '(l, w') := new_obj (JThrowable cls EmptyString None None) w in Ok tt (with_exc (Some l) w').
End World.

Section Env.
Context {X : Type} (vm : jvm).

(** [NewObject], [NewStringUTF], [NewByteArray] on success; NULL and a pending
    [OutOfMemoryError] otherwise. *)
Definition jni_new (v : jval) : M X jobject :=
  ok ← ask (jvm_alloc_ok vm);
  if (ok : bool) then store_new v
  else throw_vm "java/lang/OutOfMemoryError";; mret None.

Definition NewStringUTF (s : string) : M X jobject := jni_new (JString s).

(** A [size_t] or [long] converted to [jsize]. *)
Definition to_jsize (z : Z) : Z := ((z + 2147483648) `mod` 4294967296 - 2147483648)%Z.

Definition NewByteArray (n : Z) : M X jobject :=
  if (n <? 0)%Z then throw_vm "java/lang/NegativeArraySizeException";; mret None
  else jni_new (JBytes (replicate (Z.to_nat n) 0%Z)).

Definition deref (o : jobject) : M X jval := λ w,
  match o with
  | Some l => match w_heap w !! l with Some v => Ok v w | None => Crash "stale reference" end
  | None => Crash "NULL reference"
  end.

(** [SetByteArrayRegion(arr, 0, n, buf)] *)
Definition SetByteArrayRegion (arr : jobject) (n : Z) (buf : list Z) : M X unit :=
  v ← deref arr;
  match v, arr with
  | JBytes b, Some l =>
      if (length buf <? Z.to_nat n)%nat then crash "read beyond the C buffer"
      else if ((n <? 0) || (Z.of_nat (length b) <? n))%Z then
        throw_vm "java/lang/ArrayIndexOutOfBoundsException"
      else mmod (set_obj l (JBytes (take (Z.to_nat n) buf ++ drop (Z.to_nat n) b)))
  | _, _ => crash "not a byte array"
  end.

Definition pin (l : loc) : M X unit := mmod (λ w, with_pins (l :: w_pins w) w).

(** [GetStringUTFChars]: the characters and the [isCopy] flag; NULL when the
    machine runs out of memory. *)
Definition GetStringUTFChars (o : jobject) : M X (option string * bool) :=
  v ← deref o;
  match v, o with
  | JString s, Some l =>
      ok ← ask (jvm_alloc_ok vm);
      if (ok : bool) then
        c ← ask (jvm_copies vm); pin l;; mret (Some s, c)
      else throw_vm "java/lang/OutOfMemoryError";; mret (None, false)
  | _, _ => crash "not a string"
  end.

Definition unpin (l : loc) : M X unit := λ w,
  match remove1 l (w_pins w) with
  | Some p => Ok tt (with_pins p w)
  | None => Crash "release without acquire"
  end.

(** [ReleaseStringUTFChars], [ReleaseByteArrayElements] with [JNI_ABORT]. *)
Definition Release (o : jobject) : M X unit :=
  match o with Some l => unpin l | None => crash "NULL reference" end.

Definition GetByteArrayElements (o : jobject) : M X (option (list Z) * bool) :=
  v ← deref o;
  match v, o with
  | JBytes b, Some l =>
      ok ← ask (jvm_alloc_ok vm);
      if (ok : bool) then
        c ← ask (jvm_copies vm); pin l;; mret (Some b, c)
      else throw_vm "java/lang/OutOfMemoryError";; mret (None, false)
  | _, _ => crash "not a byte array"
  end.

Definition GetIntArrayElements (o : jobject) : M X (option (list Z) * bool) :=
  v ← deref o;
  match v, o with
  | JInts b, Some l =>
      ok ← ask (jvm_alloc_ok vm);
      if (ok : bool) then
        c ← ask (jvm_copies vm); pin l;; mret (Some b, c)
      else throw_vm "java/lang/OutOfMemoryError";; mret (None, false)
  | _, _ => crash "not an int array"
  end.

Definition GetArrayLength (o : jobject) : M X Z :=
  v ← deref o;
  match v with
  | JBytes b | JInts b => mret (Z.of_nat (length b))
  | JArray els => mret (Z.of_nat (length els))
  | _ => crash "not an array"
  end.

Definition ExceptionCheck : M X bool := w ← mget; mret (bool_decide (w_exc w ≠ None)).
Definition ExceptionClear : M X unit := mmod (with_exc None).

Definition NewWeakGlobalRef (o : jobject) : M X jobject :=
  ok ← ask (jvm_alloc_ok vm);
  match o with
  | Some l => if (ok : bool) then mmod (λ w, with_weak (l :: w_weak w) w);; mret (Some l)
              else throw_vm "java/lang/OutOfMemoryError";; mret None
  | None => mret None
  end.

Definition DeleteWeakGlobalRef (o : jobject) : M X unit := λ w,
  match o with
  | Some l => match remove1 l (w_weak w) with
              | Some p => Ok tt (with_weak p w)
              | None => Crash "deleted reference"
              end
  | None => Ok tt w
  end.

(** [FindClass] and a constructor or field lookup in that class: NULL and a
    pending error when the class is not there. *)
Definition FindClass (name : string) : M X bool :=
  if jvm_class_exists vm name then mret true
  else throw_vm "java/lang/NoClassDefFoundError";; mret false.

(** Fields of an ordinary object, by name.  A field the class does not declare, or
    of another type, has no field id to ask for. *)
Definition get_fields (o : jobject) : M X (loc * string * gmap string jarg) :=
  v ← deref o;
  match v, o with
  | JObject c fs, Some l => mret (l, c, fs)
  | _, _ => crash "not an object of the class"
  end.

Definition GetLongField (o : jobject) (field : string) : M X Z :=
  '(_, _, fs) ← get_fields o;
  match fs !! field with Some (ALong z) => mret z | _ => crash "not a long field" end.

Definition GetObjectField (o : jobject) (field : string) : M X jobject :=
  '(_, _, fs) ← get_fields o;
  match fs !! field with Some (AObj r) => mret r | _ => crash "not an object field" end.

Definition SetField (o : jobject) (field : string) (v : jarg) : M X unit :=
  '(l, c, fs) ← get_fields o; mmod (set_obj l (JObject c (<[field := v]> fs))).

Definition SetLongField (o : jobject) (field : string) (z : Z) : M X unit := SetField o field (ALong z).
Definition SetObjectField (o : jobject) (field : string) (r : jobject) : M X unit :=
  SetField o field (AObj r).

(** [NewObjectArray] with NULL elements, and its access functions. *)
Definition NewObjectArray (n : nat) : M X jobject := jni_new (JArray (replicate n None)).

Definition SetObjectArrayElement (arr : jobject) (i : nat) (r : jobject) : M X unit :=
  v ← deref arr;
  match v, arr with
  | JArray els, Some l =>
      if decide (i < length els)%nat then mmod (set_obj l (JArray (<[i := r]> els)))
      else throw_vm "java/lang/ArrayIndexOutOfBoundsException"
  | _, _ => crash "not an object array"
  end.

Definition GetObjectArrayElement (arr : jobject) (i : nat) : M X jobject :=
  v ← deref arr;
  match v with
  | JArray els =>
      match els !! i with
      | Some o => mret o
      | None => throw_vm "java/lang/ArrayIndexOutOfBoundsException";; mret None
      end
  | _ => crash "not an object array"
  end.

(** The [Throw] function of the environment. *)
Definition Throw (o : jobject) : M X unit :=
  match o with Some _ => mmod (with_exc o) | None => crash "NULL reference" end.
End Env.

Lemma to_jsize_id z : (0 ≤ z ≤ INT_MAX)%Z → to_jsize z = z.
Proof. unfold to_jsize, INT_MAX. intros. rewrite Z.mod_small; lia. Qed.

(** ** Running the operations *)

(** The machine never runs out of memory; it hands out copies. *)
Definition vm_has_memory (vm : jvm) : Prop := ∀ n, jvm_alloc_ok vm n = true.
Definition vm_hands_copies (vm : jvm) : Prop := ∀ n, jvm_copies vm n = true.

Definition good_vm : jvm := Jvm (λ _, true) (λ _, true) (λ _, true).

Section Run.
Context {X : Type} (vm : jvm).
Implicit Types (w : world X).

Lemma run_bind {A B} (m : M X A) (k : A → M X B) w :
  (m ≫= k) w = match m w with Ok a w' => k a w' | Crash s => Crash s end.
Proof. done. Qed.

Lemma run_ret {A} (a : A) w : (mret a : M X A) w = Ok a w.
Proof. done. Qed.

Lemma run_deref l v w : w_heap w !! l = Some v → deref (Some l) w = Ok v w.
Proof. intros Hl. unfold deref. by rewrite Hl. Qed.

Lemma run_GetStringUTFChars l s w :
  vm_has_memory vm → w_heap w !! l = Some (JString s) →
  GetStringUTFChars vm (Some l) w =
  Ok (Some s, jvm_copies vm (S (w_tick w)))
     (with_pins (l :: w_pins w) (ticked (ticked w))).
Proof.
  intros Hm Hl. unfold GetStringUTFChars. rewrite run_bind, (run_deref _ _ _ Hl).
  rewrite run_bind. unfold ask at 1. by rewrite Hm.
Qed.

Lemma run_GetByteArrayElements l b w :
  vm_has_memory vm → w_heap w !! l = Some (JBytes b) →
  GetByteArrayElements vm (Some l) w =
  Ok (Some b, jvm_copies vm (S (w_tick w)))
     (with_pins (l :: w_pins w) (ticked (ticked w))).
Proof.
  intros Hm Hl. unfold GetByteArrayElements. rewrite run_bind, (run_deref _ _ _ Hl).
  rewrite run_bind. unfold ask at 1. by rewrite Hm.
Qed.

Lemma run_GetArrayLength l b w :
  w_heap w !! l = Some (JBytes b) → GetArrayLength (Some l) w = Ok (Z.of_nat (length b)) w.
Proof. intros Hl. unfold GetArrayLength. by rewrite run_bind, (run_deref _ _ _ Hl). Qed.

Lemma run_ExceptionCheck w : ExceptionCheck w = Ok (bool_decide (w_exc w ≠ None)) w.
Proof. done. Qed.

Lemma run_mmod (f : world X → world X) w : mmod f w = Ok tt (f w).
Proof. done. Qed.

Lemma run_Release_head l p w :
  w_pins w = l :: p → Release (Some l) w = Ok tt (with_pins p w).
Proof. intros Hp. unfold Release, unpin. by rewrite Hp, remove1_head. Qed.

Lemma run_Release l p w :
  remove1 l (w_pins w) = Some p → Release (Some l) w = Ok tt (with_pins p w).
Proof. intros Hp. unfold Release, unpin. by rewrite Hp. Qed.

Lemma run_Release_none l w :
  l ∉ w_pins w → Release (Some l) w = Crash "release without acquire".
Proof. intros Hp. unfold Release, unpin. by rewrite remove1_none. Qed.

Lemma run_jni_new v w :
  vm_has_memory vm →
  jni_new vm v w =
  Ok (Some (w_next w)) (with_heap (<[w_next w := v]> (w_heap w)) (Pos.succ (w_next w)) (ticked w)).
Proof. intros Hm. unfold jni_new. rewrite run_bind. unfold ask. by rewrite Hm. Qed.
End Run.
