(* ===== verification/ClassIndex.v ===== *)
(** * libexjlds/exj.c: the embedded class and resource index

    [getIndexBytes] answers the class loader's native methods
    [getClassBytes]/[getResourceBytes] from the tables the linker generated, with a
    binary search over [strcmp].  The search keeps C's [int] arithmetic: a sum
    outside [int] and an access outside the table are outcomes of their own. *)
From stdpp Require Import sorting strings gmap list numbers.
From S2P Require Import Prelude CString Jni.

(** [struct ndrxj_class_index] (include/exjlds.h). *)
Record ndrxj_class_index_t := ClassIndex { cls : string; data : list Z; len : Z }.

Inductive search :=
  | SFound (middle : Z)
  | SNotFound
  | SOverflow
  | SOutOfBounds
  | SOutOfFuel.

(** [index[i]] *)
Definition index_at (index : list ndrxj_class_index_t) (i : Z) : option ndrxj_class_index_t :=
  if (i <? 0)%Z then None else index !! Z.to_nat i.

(** [(first + last)/2] *)
Definition mid (first last : Z) : option Z :=
  if int_ok (first + last) then Some (Z.quot (first + last) 2) else None.

(** The [while (first <= last)] loop. *)
Fixpoint search_loop (fuel : nat) (index : list ndrxj_class_index_t) (utf : string)
    (first last middle : Z) : search :=
  match fuel with
  | 0 => SOutOfFuel
  | S f =>
      if (first <=? last)%Z then
        match index_at index middle with
        | None => SOutOfBounds
        | Some e =>
            let res := strcmp (cls e) utf in
            if (res =? 0)%Z then SFound middle
            else
              let first' := if (res <? 0)%Z then (middle + 1)%Z else first in
              let last' := if (res <? 0)%Z then last else (middle - 1)%Z in
              match mid first' last' with
              | None => SOverflow
              | Some m => search_loop f index utf first' last' m
              end
        end
      else SNotFound
  end.

Definition bsearch (index : list ndrxj_class_index_t) (index_len : Z) (utf : string) : search :=
  match mid 0 (index_len - 1) with
  | None => SOverflow
  | Some m => search_loop (S (length index)) index utf 0 (index_len - 1) m
  end.

Section GetIndexBytes.
Context {X : Type} (vm : jvm).

(** [EXJLD_LOG_EXCEPTION]: the back trace reads the pending exception, which is
    then cleared; without one the back trace calls a method on NULL.  The macro makes the
    back trace by calling methods of the exception while it is pending; the virtual machine is
    taken to put up with that, as common ones do, and the texts it makes ([BackTrace]) are not
    kept as objects. *)
Definition EXJLD_LOG_EXCEPTION : M X unit :=
  e ← ExceptionCheck;
  if (e : bool) then ExceptionClear else crash "back trace of a NULL exception".

(** From the found entry to the returned array. *)
Definition load_entry (e : ndrxj_class_index_t) : M X jobject :=
  ret ← NewByteArray vm (to_jsize (len e));
  match ret with
  | None => EXJLD_LOG_EXCEPTION;; mret None
  | Some _ =>
      SetByteArrayRegion ret (to_jsize (len e)) (data e);;
      ex ← ExceptionCheck;
      if (ex : bool) then EXJLD_LOG_EXCEPTION;; mret None else mret ret
  end.

(** [getIndexBytes] *)
Definition getIndexBytes (class_name : jobject) (index : list ndrxj_class_index_t) (index_len : Z)
    : M X jobject :=
  '(utf, isCopy) ← GetStringUTFChars vm class_name;
  ret ← match utf with
        | None => crash "strcmp with NULL"
        | Some name =>
            match bsearch index index_len name with
            | SFound middle =>
                match index_at index middle with
                | Some e => load_entry e
                | None => crash "table access out of bounds"
                end
            | SNotFound => mret None
            | SOverflow => crash "signed overflow"
            | SOutOfBounds => crash "table access out of bounds"
            | SOutOfFuel => crash "search does not end"
            end
        end;
  (if (isCopy : bool) then Release class_name else mret tt);;
  mret ret.
End GetIndexBytes.

(** The module's globals, set by [ndrxj_ldr_getvm]. *)
Record loader_globals := LoaderGlobals {
  M_class_index : list ndrxj_class_index_t;
  M_class_index_len : Z;
  M_res_index : list ndrxj_class_index_t;
  M_res_index_len : Z
}.

(** [ndrxj_getResourceBytes], [ndrxj_getClassBytes] *)
Definition ndrxj_getResourceBytes {X} (vm : jvm) (g : loader_globals) (name : jobject) : M X jobject :=
  getIndexBytes vm name (M_res_index g) (M_res_index_len g).

Definition ndrxj_getClassBytes {X} (vm : jvm) (g : loader_globals) (name : jobject) : M X jobject :=
  getIndexBytes vm name (M_class_index g) (M_class_index_len g).

(** ** The search *)

(** Strictly increasing in [strcmp] order, over C strings. *)
Definition sorted_index (index : list ndrxj_class_index_t) : Prop :=
  Forall (λ e, nul_free (cls e)) index ∧
  ∀ i j a b, index !! i = Some a → index !! j = Some b → i < j → (strcmp (cls a) (cls b) < 0)%Z.

Lemma index_at_lookup index i e :
  index_at index i = Some e ↔ (0 ≤ i)%Z ∧ index !! Z.to_nat i = Some e.
Proof. unfold index_at. destruct (Z.ltb_spec i 0); split; intros; try done; [lia|by destruct_and!]. Qed.

Lemma index_at_is_Some index i :
  (0 ≤ i < Z.of_nat (length index))%Z → is_Some (index_at index i).
Proof.
  intros Hi. unfold index_at. rewrite (proj2 (Z.ltb_ge _ _)) by lia.
  apply lookup_lt_is_Some. lia.
Qed.

Lemma mid_ok first last :
  (0 ≤ first ≤ last + 1)%Z → (last < 2 ^ 30)%Z → is_Some (mid first last).
Proof.
  intros H1 H2. unfold mid, int_ok.
  rewrite bool_decide_true by (unfold INT_MIN, INT_MAX; lia). eauto.
Qed.

Lemma mid_half first last m :
  mid first last = Some m → (0 ≤ first ≤ last)%Z → (first + last - 1 ≤ 2 * m ≤ first + last)%Z.
Proof.
  unfold mid. intros Hm Hle. case_match; simplify_eq.
  rewrite Z.quot_div_nonneg by lia.
  pose proof (Z.div_mod (first + last) 2 ltac:(lia)).
  pose proof (Z.mod_pos_bound (first + last) 2 ltac:(lia)). lia.
Qed.

Section Search.
Context (index : list ndrxj_class_index_t) (utf : string).
Hypothesis Hsorted : sorted_index index.
Hypothesis Hutf : nul_free utf.
Hypothesis Hlen : (Z.of_nat (length index) ≤ 2 ^ 30)%Z.

(** Entries left of [first] are smaller than the key, entries right of [last]
    are larger. *)
Definition narrowed (first last : Z) : Prop :=
  (0 ≤ first ≤ last + 1)%Z ∧ (last < Z.of_nat (length index))%Z ∧
  (∀ i e, index_at index i = Some e → (i < first)%Z → (strcmp (cls e) utf < 0)%Z) ∧
  (∀ i e, index_at index i = Some e → (last < i)%Z → (0 < strcmp (cls e) utf)%Z).

Lemma cls_nul_free i e : index_at index i = Some e → nul_free (cls e).
Proof.
  intros [_ Hi]%index_at_lookup. destruct Hsorted as [Hf _].
  by eapply (Forall_lookup_1 _ _ _ _ Hf).
Qed.

Lemma sorted_at i j a b :
  index_at index i = Some a → index_at index j = Some b → (i < j)%Z →
  (strcmp (cls a) (cls b) < 0)%Z.
Proof.
  intros [Hi0 Hi]%index_at_lookup [Hj0 Hj]%index_at_lookup Hij.
  destruct Hsorted as [_ Hs]. eapply Hs; [exact Hi|exact Hj|lia].
Qed.

Lemma narrowed_init : narrowed 0 (Z.of_nat (length index) - 1).
Proof.
  split_and!; [lia..| |]; intros i e [Hi0 Hi]%index_at_lookup Hlt; [lia|].
  apply lookup_lt_Some in Hi. lia.
Qed.

Lemma narrowed_empty first last :
  narrowed first last → (last < first)%Z → ∀ i e, index_at index i = Some e → cls e ≠ utf.
Proof.
  intros (_ & _ & Hlo & Hhi) Hgt i e Hi He. pose proof (strcmp_refl utf) as Hz.
  destruct (decide (i < first)%Z) as [Hlt|].
  - specialize (Hlo i e Hi Hlt). rewrite He in Hlo. lia.
  - specialize (Hhi i e Hi ltac:(lia)). rewrite He in Hhi. lia.
Qed.

Lemma narrow_right first last m e :
  narrowed first last → index_at index m = Some e → (first ≤ m ≤ last)%Z →
  (strcmp (cls e) utf < 0)%Z → narrowed (m + 1) last.
Proof.
  intros (Hb & Hl & Hlo & Hhi) Hm Hin Hlt. split_and!; [lia..| |done].
  intros i e' Hi Hlt'. destruct (decide (i = m)) as [->|]; [by simplify_eq|].
  eapply strcmp_trans; [by eapply cls_nul_free|by eapply (cls_nul_free m)|done| |exact Hlt].
  eapply sorted_at; [done..|lia].
Qed.

Lemma narrow_left first last m e :
  narrowed first last → index_at index m = Some e → (first ≤ m ≤ last)%Z →
  (0 < strcmp (cls e) utf)%Z → narrowed first (m - 1).
Proof.
  intros (Hb & Hl & Hlo & Hhi) Hm Hin Hgt. split_and!; [lia..|done|].
  intros i e' Hi Hlt'. destruct (decide (i = m)) as [->|]; [by simplify_eq|].
  assert (strcmp utf (cls e') < 0)%Z; [|rewrite strcmp_opp; lia].
  eapply strcmp_trans; [done|by eapply (cls_nul_free m)|by eapply cls_nul_free| |].
  - rewrite strcmp_opp. lia.
  - eapply sorted_at; [done..|lia].
Qed.

(** [fuel + 1] rounds suffice for a window of less than [2 ^ fuel] entries. *)
Lemma search_loop_spec fuel first last m :
  narrowed first last → mid first last = Some m →
  (last - first + 1 < 2 ^ Z.of_nat fuel)%Z →
  match search_loop (S fuel) index utf first last m with
  | SFound k => ∃ e, index_at index k = Some e ∧ cls e = utf
  | SNotFound => ∀ i e, index_at index i = Some e → cls e ≠ utf
  | _ => False
  end.
Proof.
  revert first last m. induction fuel as [|f IH]; intros first last m Hn Hm Hf;
    pose proof Hn as (Hb & Hl & Hlo & Hhi); cbn [search_loop];
    destruct (Z.leb_spec first last) as [Hle|Hgt].
  - change (2 ^ Z.of_nat 0)%Z with 1%Z in Hf. lia.
  - by apply (narrowed_empty first last).
  - rewrite Nat2Z.inj_succ, Z.pow_succ_r in Hf by lia.
    pose proof (mid_half first last m Hm ltac:(lia)) as Hmid.
    destruct (index_at_is_Some index m) as [e He]; [lia|]. rewrite He.
    destruct (Z.eqb_spec (strcmp (cls e) utf) 0) as [Hz|Hz].
    { exists e. split; [done|]. apply strcmp_eq; [by eapply cls_nul_free|done..]. }
    destruct (Z.ltb_spec (strcmp (cls e) utf) 0) as [Hlt|Hge].
    + destruct (mid_ok (m + 1) last) as [m' Hm']; [lia..|]. rewrite Hm'.
      apply IH; [eapply narrow_right; [done..|lia|done]|done|lia].
    + destruct (mid_ok first (m - 1)) as [m' Hm']; [lia..|]. rewrite Hm'.
      apply IH; [eapply narrow_left; [done..|lia|lia]|done|lia].
  - by apply (narrowed_empty first last).
Qed.

Lemma bsearch_spec :
  match bsearch index (Z.of_nat (length index)) utf with
  | SFound k => ∃ e, index_at index k = Some e ∧ cls e = utf
  | SNotFound => ∀ i e, index_at index i = Some e → cls e ≠ utf
  | _ => False
  end.
Proof.
  unfold bsearch. destruct (mid_ok 0 (Z.of_nat (length index) - 1)) as [m Hm]; [lia..|]. rewrite Hm.
  apply search_loop_spec; [apply narrowed_init|done|].
  pose proof (Z.pow_gt_lin_r 2 (Z.of_nat (length index))). lia.
Qed.

(** Logarithmic number of comparisons: the loop also ends with the answer when
    it may run [log2 + 2] times only. *)
Lemma search_loop_log m :
  mid 0 (Z.of_nat (length index) - 1) = Some m →
  match search_loop (S (S (Z.to_nat (Z.log2 (Z.of_nat (length index))))))
          index utf 0 (Z.of_nat (length index) - 1) m with
  | SFound k => ∃ e, index_at index k = Some e ∧ cls e = utf
  | SNotFound => ∀ i e, index_at index i = Some e → cls e ≠ utf
  | _ => False
  end.
Proof.
  intros Hm. apply search_loop_spec; [apply narrowed_init|done|].
  rewrite Nat2Z.inj_succ, Z2Nat.id by apply Z.log2_nonneg.
  destruct (decide (length index = 0)) as [->|]; [done|].
  pose proof (Z.log2_spec (Z.of_nat (length index)) ltac:(lia)). lia.
Qed.
End Search.

(** ** The native method *)

(** An entry as the generated tables have it: the length is that of the data. *)
Definition entry_ok (e : ndrxj_class_index_t) : Prop :=
  len e = Z.of_nat (length (data e)) ∧ (len e ≤ INT_MAX)%Z.

Section NativeMethod.
Context {X : Type} (vm : jvm).
Hypothesis vm_mem : vm_has_memory vm.

Lemma run_load_entry e (w : world X) :
  entry_ok e → w_exc w = None →
  load_entry vm e w =
  Ok (Some (w_next w))
     (with_heap (<[w_next w := JBytes (data e)]> (w_heap w)) (Pos.succ (w_next w)) (ticked w)).
Proof.
  intros [Hlen Hmax] Hex. unfold load_entry. rewrite to_jsize_id by lia.
  rewrite run_bind. unfold NewByteArray. rewrite (proj2 (Z.ltb_ge _ _)) by lia.
  rewrite run_jni_new by done. rewrite run_bind. unfold SetByteArrayRegion.
  rewrite run_bind. erewrite run_deref by apply lookup_insert_eq. cbn beta iota.
  rewrite Hlen, Nat2Z.id, length_replicate.
  rewrite (proj2 (Nat.ltb_ge _ _)), !(proj2 (Z.ltb_ge _ _)) by lia. cbn [orb].
  rewrite run_mmod, run_bind, run_ExceptionCheck, bool_decide_false by (cbn; rewrite Hex; auto).
  rewrite run_ret. unfold set_obj. cbn [w_heap w_next with_heap].
  rewrite firstn_all, drop_ge, app_nil_r, insert_insert_eq by (rewrite length_replicate; lia). done.
Qed.

Definition found (index : list ndrxj_class_index_t) (utf : string) : option ndrxj_class_index_t :=
  List.find (λ e, String.eqb (cls e) utf) index.

Lemma sorted_index_unique index i j a b :
  sorted_index index → index !! i = Some a → index !! j = Some b → cls a = cls b → i = j.
Proof.
  intros [_ Hs] Hi Hj E. destruct (lt_eq_lt_dec i j) as [[Hlt|?]|Hgt]; [|done|].
  - specialize (Hs i j a b Hi Hj Hlt). rewrite E, strcmp_refl in Hs. lia.
  - specialize (Hs j i b a Hj Hi Hgt). rewrite E, strcmp_refl in Hs. lia.
Qed.

(** The binary search agrees with a linear one. *)
Lemma bsearch_found index utf :
  sorted_index index → nul_free utf → (Z.of_nat (length index) ≤ 2 ^ 30)%Z →
  match found index utf with
  | Some e => ∃ k, bsearch index (Z.of_nat (length index)) utf = SFound k ∧ index_at index k = Some e
  | None => bsearch index (Z.of_nat (length index)) utf = SNotFound
  end.
Proof.
  intros Hs Hu Hl. pose proof (bsearch_spec index utf Hs Hu Hl) as Hb.
  destruct (found index utf) as [e|] eqn:Hf.
  - apply List.find_some in Hf as [[i Hi]%list_elem_of_In%list_elem_of_lookup He%String.eqb_eq].
    assert (Hat : index_at index (Z.of_nat i) = Some e)
      by (apply index_at_lookup; rewrite Nat2Z.id; split; [lia|done]).
    destruct (bsearch _ _ _) as [k| | | |]; try done; [|by destruct (Hb (Z.of_nat i) e)].
    destruct Hb as (e' & Hk & He'). exists k. split; [done|].
    apply index_at_lookup in Hk as [Hk0 Hk].
    assert (i = Z.to_nat k) as -> by (eapply sorted_index_unique; [done..|congruence]).
    apply index_at_lookup. split; [done|congruence].
  - destruct (bsearch _ _ _) as [k| | | |]; try done.
    destruct Hb as (e' & [_ Hk]%index_at_lookup & He').
    eapply List.find_none in Hf; [|by eapply list_elem_of_In, list_elem_of_lookup_2].
    by rewrite (proj2 (String.eqb_eq _ _) He') in Hf.
Qed.

Lemma run_getIndexBytes index l utf (w : world X) :
  vm_hands_copies vm →
  sorted_index index → Forall entry_ok index → (Z.of_nat (length index) ≤ 2 ^ 30)%Z →
  w_heap w !! l = Some (JString utf) → nul_free utf → w_exc w = None →
  ∃ w', getIndexBytes vm (Some l) index (Z.of_nat (length index)) w =
        Ok (match found index utf with Some _ => Some (w_next w) | None => None end) w' ∧
    w_pins w' = w_pins w ∧ w_exc w' = None ∧ w_x w' = w_x w ∧
    w_next w' = match found index utf with Some _ => Pos.succ (w_next w) | None => w_next w end ∧
    w_heap w' = match found index utf with
                | Some e => <[w_next w := JBytes (data e)]> (w_heap w)
                | None => w_heap w
                end.
Proof.
  intros Hcopy Hs Hok Hl Hh Hu Hex. unfold getIndexBytes.
  rewrite run_bind, (run_GetStringUTFChars vm _ utf) by done. rewrite Hcopy. cbn beta iota.
  rewrite run_bind. pose proof (bsearch_found index utf Hs Hu Hl) as Hb.
  destruct (found index utf) as [e|].
  - destruct Hb as (k & -> & Hk). rewrite Hk. rewrite run_load_entry; [|..|done].
    + rewrite run_bind. erewrite run_Release_head by reflexivity. eexists. split; [reflexivity|done].
    + apply index_at_lookup in Hk as [_ Hk]. by eapply (Forall_lookup_1 _ _ _ _ Hok).
  - rewrite Hb, run_ret, run_bind. erewrite run_Release_head by reflexivity.
    eexists. split; [reflexivity|done].
Qed.
End NativeMethod.
