(* ===== verification/ClassPath.v ===== *)
(** * libexjlds/cp.c: the class path of the virtual machine

    [ndrxj_cp_proc] reads a line of virtual machine options and, for [-cp] and
    [-classpath], adds the entries to the loader's list; [ndrxj_build_classpath_urls]
    turns the list into an array of [java.net.URL]. *)
From stdpp Require Import sorting strings gmap list numbers.
From Stdlib Require Import Ascii.
From S2P Require Import Prelude CString Jni.

Definition MAX_TAGLEN : nat := 10.

Definition is_blank (c : ascii) : bool := Ascii.eqb c " "%char || Ascii.eqb c (ascii_of_nat 9).

(** The loop over leading blanks. *)
Fixpoint skip_blanks (s : string) : string :=
  match s with
  | String c s' => if is_blank c then skip_blanks s' else s
  | EmptyString => EmptyString
  end.

(** The loop that copies the tag; at most [n] characters. *)
Fixpoint read_tag (n : nat) (s : string) : string :=
  match n, s with
  | S n', String c s' => if is_blank c then EmptyString else String c (read_tag n' s')
  | _, _ => EmptyString
  end.

(** [config_line[i]] is a blank. *)
Definition blank_at (i : nat) (s : string) : bool :=
  match String.get i s with Some c => is_blank c | None => false end.

(** [ndrxj_cp_proc].  [splitadd] is [ndrx_string_list_splitadd] of the Enduro/X base
    library, [None] on failure; the result is the return code and the list. *)
Definition ndrxj_cp_proc (splitadd : list string → string → string → option (list string))
    (l : list string) (config_line : string) : Z * list string :=
  let buf := read_tag (S MAX_TAGLEN) (skip_blanks config_line) in
  let taglen := String.length buf in
  if blank_at taglen config_line && (String.eqb buf "-cp" || String.eqb buf "-classpath") then
    match splitadd l (drop_str taglen config_line) ":" with
    | Some l' => (EXSUCCEED, l')
    | None => (EXFAIL, l)
    end
  else (EXSUCCEED, l).

Definition URL_CLASS : string := "java/net/URL".
Definition URL_ARRAY : string := "[Ljava/net/URL;".

Section Urls.
Context {X : Type} (vm : jvm).

(** [SetObjectArrayElement] *)
Definition SetObjectArrayElement (arr : jobject) (i : nat) (o : jobject) : M X unit :=
  v ← deref arr;
  match v, arr with
  | JOther c args, Some l => mmod (set_obj l (JOther c (<[i := AObj o]> args)))
  | _, _ => crash "not an object array"
  end.

Definition resource_of (qname : string) : string := strcpy_safe PATH_MAX ("file://" +:+ qname).

(** The loop over the list: false when an object could not be made. *)
Fixpoint fill_urls (arr : jobject) (i : nat) (l : list string) : M X bool :=
  match l with
  | [] => mret true
  | qname :: l' =>
      jstr ← NewStringUTF vm (resource_of qname);
      match jstr with
      | None => mret false
      | Some _ =>
          obj ← jni_new vm (JOther URL_CLASS [AStr (resource_of qname)]);
          match obj with
          | None => mret false
          | Some _ => SetObjectArrayElement arr i obj;; fill_urls arr (S i) l'
          end
      end
  end.

(** [ndrxj_build_classpath_urls] *)
Definition ndrxj_build_classpath_urls (l : list string) : M X jobject :=
  ok ← FindClass vm URL_CLASS;
  if (ok : bool) then
    retArr ← jni_new vm (JOther URL_ARRAY (replicate (length l) (AObj None)));
    match retArr with
    | None => mret None
    | Some _ => filled ← fill_urls retArr 0 l; mret (if (filled : bool) then retArr else None)
    end
  else mret None.
End Urls.

(** ** Proofs *)

(** No blank in the string. *)
Fixpoint solid (s : string) : bool :=
  match s with String c s' => negb (is_blank c) && solid s' | EmptyString => true end.

Lemma read_tag_solid n tag c rest :
  solid tag → is_blank c = true → String.length tag ≤ n →
  read_tag n (tag +:+ String c rest) = tag.
Proof.
  unfold String.app. revert n. induction tag as [|a tag IH]; intros n Hs Hc Hn.
  - destruct n; simpl; [done|]. by rewrite Hc.
  - simpl in Hs. apply andb_prop_elim in Hs as [Ha Hs]. destruct n as [|n]; simpl in *; [lia|].
    apply negb_prop_elim in Ha. destruct (is_blank a); [done|]. by rewrite IH by (done || lia).
Qed.

Lemma skip_blanks_solid tag rest :
  solid tag → tag ≠ EmptyString → skip_blanks (tag +:+ rest) = tag +:+ rest.
Proof.
  destruct tag as [|a tag]; [done|]. simpl. intros [Ha _]%andb_prop_elim _.
  apply negb_prop_elim in Ha. by destruct (is_blank a).
Qed.

Lemma get_app tag c rest : String.get (String.length tag) (tag +:+ String c rest) = Some c.
Proof. unfold String.app. induction tag as [|a tag IH]; [done|]. exact IH. Qed.

Lemma drop_str_tag tag rest : drop_str (String.length tag) (tag +:+ rest) = rest.
Proof. unfold String.app. induction tag as [|a tag IH]; simpl; [by destruct rest|done]. Qed.

(** A line that starts with its option. *)
Lemma cp_proc_option splitadd l tag c rest :
  solid tag → tag ≠ EmptyString → String.length tag ≤ S MAX_TAGLEN → is_blank c = true →
  ndrxj_cp_proc splitadd l (tag +:+ String c rest) =
  if String.eqb tag "-cp" || String.eqb tag "-classpath" then
    match splitadd l (String c rest) ":"%string with Some l' => (EXSUCCEED, l') | None => (EXFAIL, l) end
  else (EXSUCCEED, l).
Proof.
  intros Hs Hne Hlen Hc. unfold ndrxj_cp_proc. rewrite skip_blanks_solid by done.
  rewrite read_tag_solid by done. unfold blank_at. rewrite get_app, Hc. cbn [andb].
  by rewrite drop_str_tag.
Qed.

(** A line without a blank carries no entries. *)
Lemma read_tag_prefix n s : solid s → read_tag n s = take_str n s.
Proof.
  revert n. induction s as [|a s IH]; intros [|n]; try done. simpl.
  intros [Ha Hs]%andb_prop_elim. apply negb_prop_elim in Ha. destruct (is_blank a); [done|].
  by rewrite IH.
Qed.

Lemma solid_get s i c : solid s → String.get i s = Some c → is_blank c = false.
Proof.
  revert i. induction s as [|a s IH]; intros [|i]; simpl; try done; intros [Ha Hs]%andb_prop_elim.
  - intros [= <-]. apply negb_prop_elim in Ha. by destruct (is_blank a).
  - by apply IH.
Qed.

Lemma cp_proc_no_blank splitadd l s : solid s → ndrxj_cp_proc splitadd l s = (EXSUCCEED, l).
Proof.
  intros Hs. unfold ndrxj_cp_proc, blank_at.
  destruct (String.get _ s) as [c|] eqn:E; [|done].
  by rewrite (solid_get s _ c Hs E).
Qed.

Section UrlProofs.
Context {X : Type} (vm : jvm).
Hypothesis vm_mem : vm_has_memory vm.

(** The elements of the array from [i] on, made one by one. *)
Lemma run_fill_urls (l : list string) (arr : loc) i args (w : world X) :
  w_heap w !! arr = Some (JOther URL_ARRAY args) → (arr < w_next w)%positive →
  i + length l ≤ length args →
  ∃ w' args', fill_urls vm (Some arr) i l w = Ok true w' ∧
    w_heap w' !! arr = Some (JOther URL_ARRAY args') ∧ (w_next w ≤ w_next w')%positive ∧
    (∀ k, k < i → args' !! k = args !! k) ∧
    (∀ k q, l !! k = Some q → ∃ u, args' !! (i + k) = Some (AObj (Some u)) ∧
       (w_next w ≤ u < w_next w')%positive ∧ w_heap w' !! u = Some (JOther URL_CLASS [AStr (resource_of q)])) ∧
    (∀ k : loc, (k < w_next w)%positive → k ≠ arr → w_heap w' !! k = w_heap w !! k) ∧
    length args' = length args ∧ w_exc w' = w_exc w ∧ w_pins w' = w_pins w ∧ w_x w' = w_x w.
Proof.
  revert i args w. induction l as [|q l IH]; intros i args w Ha Hlt Hlen.
  { exists w, args. by split_and!. }
  cbn [fill_urls]. unfold NewStringUTF. rewrite run_bind, run_jni_new by done.
  set (w1 := with_heap _ _ _). set (u := Pos.succ (w_next w) : loc).
  rewrite run_bind, run_jni_new by done. change (w_next w1) with u. set (w2 := with_heap _ _ _).
  assert (Hu : u = Pos.succ (w_next w)) by done. rewrite run_bind. unfold SetObjectArrayElement.
  assert (Ha2 : w_heap w2 !! arr = Some (JOther URL_ARRAY args)).
  { simpl. rewrite !lookup_insert_ne by (unfold loc in *; lia). done. }
  rewrite run_bind, (run_deref _ _ _ Ha2), run_mmod. simpl in Hlen.
  set (w3 := set_obj arr _ w2).
  destruct (IH (S i) (<[i := AObj (Some u)]> args) w3) as (w' & args' & -> & Ha' & Hn & Hpre & Hel & Hold & Hargs & Hkeep).
  - apply lookup_insert_eq.
  - simpl. unfold loc in *. lia.
  - rewrite length_insert. lia.
  - exists w', args'. assert (Hn3 : w_next w3 = Pos.succ u) by done. rewrite Hn3 in *.
    rewrite length_insert in Hargs. split_and!; [done|done|lia| | | |done|by destruct Hkeep as (? & ? & ?)..].
    + intros k Hk. rewrite Hpre by lia. by rewrite list_lookup_insert_ne by lia.
    + intros [|k] q' Hq; simpl in Hq.
      * injection Hq as ->. exists u. rewrite Nat.add_0_r, Hpre, list_lookup_insert_eq by lia.
        split_and!; [done|lia|lia|]. rewrite Hold by (unfold loc in *; lia). simpl.
        rewrite lookup_insert_ne by (unfold loc in *; lia). apply lookup_insert_eq.
      * destruct (Hel k q' Hq) as (v & Hv & [Hle Hlt'] & Hobj). exists v.
        replace (i + S k) with (S i + k) by lia. split_and!; [done|lia|done|done].
    + intros k Hk Hne. rewrite Hold by (unfold loc in *; lia). simpl.
      rewrite !lookup_insert_ne by (unfold loc in *; lia). done.
Qed.

(** The class path becomes an array of URLs.  On a machine with memory and the URL class,
    entry by entry and in order, element k is a new URL object for the k-th path; existing
    objects are unchanged. *)
Lemma classpath_urls (paths : list string) (w : world X) :
  jvm_class_exists vm URL_CLASS = true →
  ∃ arr w' elems, ndrxj_build_classpath_urls vm paths w = Ok (Some arr) w' ∧
    w_heap w' !! arr = Some (JOther URL_ARRAY elems) ∧ (w_next w ≤ arr < w_next w')%positive ∧
    Forall2 (λ e q, ∃ u, e = AObj (Some u) ∧ (w_next w ≤ u < w_next w')%positive ∧
       w_heap w' !! u = Some (JOther URL_CLASS [AStr (resource_of q)])) elems paths ∧
    (∀ k : loc, (k < w_next w)%positive → w_heap w' !! k = w_heap w !! k) ∧
    w_exc w' = w_exc w ∧ w_pins w' = w_pins w ∧ w_x w' = w_x w.
Proof.
  intros Hc. unfold ndrxj_build_classpath_urls. rewrite run_bind. unfold FindClass.
  rewrite Hc, run_ret, run_bind, run_jni_new by done. rewrite run_bind.
  set (w1 := with_heap _ _ _).
  destruct (run_fill_urls paths (w_next w) 0 (replicate (length paths) (AObj None)) w1)
    as (w' & args' & -> & Ha & Hn & _ & Hel & Hold & Hargs & Hkeep).
  - apply lookup_insert_eq.
  - simpl. unfold loc. lia.
  - rewrite length_replicate. lia.
  - rewrite length_replicate in Hargs. simpl in Hn.
    exists (w_next w), w', args'. split_and!; [done|done|unfold loc in *; lia|unfold loc in *; lia| | |by destruct Hkeep as (? & ? & ?)..].
    + apply Forall2_same_length_lookup. split; [done|]. intros k e q He Hq.
      destruct (Hel k q Hq) as (u & Hu & [Hle Hlt] & Hobj). simpl in Hu. rewrite Hu in He. simplify_eq.
      exists u. simpl in Hle. split_and!; [done|unfold loc in *; lia|done|done].
    + intros k Hk. rewrite Hold by (simpl; unfold loc in *; lia). simpl.
      rewrite lookup_insert_ne by (unfold loc in *; lia). done.
Qed.
End UrlProofs.
