(* ===== verification/LinkLoad.v ===== *)
(** * From jar contents to loaded classes

    The linker (scan, worker pool, sort, generated tables) composed with the run
    time lookup of the binary it builds: the class loader's native method returns,
    for every name, exactly the bytes of the file the name was derived from. *)
From stdpp Require Import sorting strings gmap list numbers.
From S2P Require Import Prelude CString Resources ResourcesProofs FindClasses Codegen CodegenProofs.
From S2P Require Import Jni ClassIndex.

(** The initialiser of a table row: the literal, the embedded bytes of the file
    and their number (what the generated include files define). *)
Definition table_entry (bytes : string → list Z) (r : exjld_resource_t) : ndrxj_class_index_t :=
  ClassIndex (resname r) (bytes (respath r)) (Z.of_nat (length (bytes (respath r)))).

Definition class_table (bytes : string → list Z) (l : list exjld_resource_t) : list ndrxj_class_index_t :=
  table_entry bytes <$> l.

(** The tables of the binary built from the linker's final hashes. *)
Definition linked_globals `{ExHash} (bytes : string → list Z) (g : gstate) : option loader_globals :=
  cs ← hash_elems g ndrx_G_classes_hash;
  es ← hash_elems g ndrx_G_emb_res_hash;
  let ct := class_table bytes (exljd_res_sort_by_resname cs) in
  let et := class_table bytes (exljd_res_sort_by_resname es) in
  Some (LoaderGlobals ct (Z.of_nat (length ct)) et (Z.of_nat (length et))).

(** Abstract specification of the linked binary: the bytes stored for a name. *)
Definition spec_lookup (bytes : string → list Z) (entries : list (string * typeflag)) (h : hash_head)
    (name : string) (result : option (list Z)) : Prop :=
  match result with
  | Some b => ∃ path, path ∈ entry_files entries ∧ wf_path path h name ∧ b = bytes path
  | None => ∀ path, path ∈ entry_files entries → ¬ wf_path path h name
  end.

Section Sorting.
Context `{ExHash} {HL : ExHashLaws}.

Lemma resname_sort_total a b : (resname_sort a b ≤ 0 ∨ resname_sort b a ≤ 0)%Z.
Proof. unfold resname_sort. rewrite (strcmp_opp (resname a) (resname b)). lia. Qed.

Lemma sort_elem l r : r ∈ exljd_res_sort_by_resname l ↔ r ∈ l.
Proof. unfold exljd_res_sort_by_resname. by rewrite sort_perm. Qed.

Lemma res_sorted l :
  Forall (λ r, nul_free (resname r)) l → Sorted (λ a b, resname_sort a b ≤ 0)%Z (exljd_res_sort_by_resname l).
Proof.
  intros Hf. rewrite Forall_forall in Hf. apply sort_sorted.
  - intros. apply resname_sort_total.
  - intros a b c Ha Hb Hc. apply strcmp_trans_le; auto.
Qed.

(** Sorting elements with distinct names gives the strict order the search
    needs. *)
Lemma sorted_table bytes l :
  Forall (λ r, nul_free (resname r)) l → NoDup (resname <$> l) →
  sorted_index (class_table bytes (exljd_res_sort_by_resname l)).
Proof.
  intros Hf Hnd. pose proof (sort_perm resname_sort l) as Hp.
  assert (Hf' : Forall (λ r, nul_free (resname r)) (EXHASH_SORT resname_sort l)) by by rewrite Hp.
  assert (Hnd' : NoDup (resname <$> EXHASH_SORT resname_sort l)) by by rewrite Hp.
  pose proof (res_sorted l Hf) as Hs. unfold exljd_res_sort_by_resname in Hs.
  unfold exljd_res_sort_by_resname, class_table. split; [apply Forall_fmap; exact Hf'|].
  intros i j a b Hi Hj Hij. rewrite list_lookup_fmap, fmap_Some in Hi, Hj.
  destruct Hi as (r1 & Hr1 & ->), Hj as (r2 & Hr2 & ->). simpl.
  assert (Hle : (resname_sort r1 r2 ≤ 0)%Z).
  { eapply (Sorted_lookup_lt (λ a b, resname_sort a b ≤ 0)%Z (λ r, nul_free (resname r)));
      [|done..]. intros x y z Hx Hy Hz. by apply strcmp_trans_le. }
  unfold resname_sort in Hle. destruct (decide (strcmp (resname r1) (resname r2) = 0%Z)) as [E|]; [|lia].
  apply strcmp_eq in E; [|by eapply (Forall_lookup_1 _ _ _ _ Hf')..].
  assert (i = j); [|lia]. by eapply (NoDup_lookup_fmap_inj resname).
Qed.

Lemma found_table bytes l name :
  NoDup (resname <$> l) →
  match found (class_table bytes (exljd_res_sort_by_resname l)) name with
  | Some e => ∃ r, r ∈ l ∧ resname r = name ∧ data e = bytes (respath r)
  | None => ∀ r, r ∈ l → resname r ≠ name
  end.
Proof.
  intros Hnd. unfold found. case_match eqn:Hf.
  - apply List.find_some in Hf as [Hin%list_elem_of_In He%String.eqb_eq].
    apply list_elem_of_fmap in Hin as (r & -> & Hr). exists r. rewrite sort_elem in Hr. done.
  - intros r Hr Hn. eapply List.find_none in Hf;
      [|apply list_elem_of_In, list_elem_of_fmap; exists r; rewrite sort_elem; eauto].
    simpl in Hf. by rewrite Hn, String.eqb_refl in Hf.
Qed.
End Sorting.

(** The job of a file becomes the element with its name and path. *)
Lemma wf_path_length path h n : wf_path path h n → String.length path < PATH_MAX.
Proof.
  destruct 1; cbn [dot_slash String.length]; rewrite ?string_length_app; simpl; lia.
Qed.

Lemma slash_to_dot_nul_free s : nul_free s → nul_free (slash_to_dot s).
Proof.
  induction s as [|c s IH]; [done|]. cbn [slash_to_dot nul_free].
  rewrite !andb_True. intros [Hc Hs]. split; [|auto]. by destruct (Ascii.eqb _ _).
Qed.

Lemma wf_path_nul_free path h n : wf_path path h n → nul_free path → nul_free n.
Proof.
  destruct 1 as [stem|rel]; cbn [dot_slash nul_free]; intros [_ Hp]%andb_prop_elim;
    apply andb_prop_elim in Hp as [_ Hp]; [|done].
  rewrite nul_free_app in Hp. apply andb_prop_elim in Hp as [Hp _].
  by apply slash_to_dot_nul_free.
Qed.

(** A path determines its hash and name. *)
Lemma wf_path_fun path h h' n n' : wf_path path h n → wf_path path h' n' → h = h' ∧ n = n'.
Proof.
  intros E1%wf_path_name E2%wf_path_name. rewrite E1 in E2. injection E2 as E2 ->.
  split; [|done]. by destruct h, h'.
Qed.

Lemma job_for_elm path d :
  job_for path d → resname (elm_of d) = d_resname d ∧ respath (elm_of d) = path.
Proof.
  intros [Hr Hw]. split.
  - apply resname_elm_of. by eapply wf_path_fits.
  - cbn [elm_of respath]. rewrite Hr. apply strcpy_safe_fits.
    apply wf_path_length in Hw. lia.
Qed.

Section EndToEnd.
Context `{ExHash} {HL : ExHashLaws} (o : os).
Hypothesis gen_ok : ∀ d, ndrx_file_gen_embed o (respath (elm_of d)) (embpath (elm_of d)) = true.
Hypothesis mem_ok : ∀ n, malloc_ok o n = true.
Context (bytes : string → list Z) (entries : list (string * typeflag)).
Hypothesis Hwf : wf_entries entries.

(** The hash a successful build leaves behind, element by element. *)
Lemma build_elems g r h :
  exjld_class_build_hash o (λ _, true) entries g r →
  r = EXSUCCEED ∧ ∃ l, hash_elems g h = Some l ∧ NoDup (resname <$> l) ∧
    (∀ e, e ∈ l → respath e ∈ entry_files entries ∧ wf_path (respath e) h (resname e)) ∧
    (∀ path name, path ∈ entry_files entries → wf_path path h name →
       ∃ e, e ∈ l ∧ resname e = name ∧ respath e = path).
Proof.
  destruct Hwf as [Hnd Hp]. intros Hb.
  destruct (nftw_wf_go entries 0 scan_init Hp) as (s & ds & Hn & Hq & Hf & Hw).
  simpl in Hq. destruct (scan_jobs_distinct _ _ Hnd Hf) as [Hdist Hfit].
  assert (Hmain : ∀ p, rtc (step o) (pool_start ds ginit) p → all_done p →
    thpool_error (shared p) = EXSUCCEED ∧ ∃ l, hash_elems (shared p) h = Some l ∧
    l ≡ₚ elm_of <$> filter (λ d, head d = h) ds ∧ NoDup (resname <$> l)).
  { intros p Hr Hd. split; [|by apply (pool_outcome o gen_ok mem_ok ds Hdist Hfit)].
    eapply pi_error, (reachable_inv o gen_ok mem_ok ds Hdist Hfit p Hr). }
  assert (∃ l, r = EXSUCCEED ∧ hash_elems g h = Some l ∧
    l ≡ₚ elm_of <$> filter (λ d, head d = h) ds ∧ NoDup (resname <$> l))
    as (l & -> & Hl & Hperm & Hnames).
  { destruct Hb as [r s' p Hn' Hr|s' Hn' Hw'|s' p Hn' Hw' Hr Hd]; rewrite Hn in Hn'.
    - by injection Hn' as <- _.
    - injection Hn' as <-. rewrite Hw' in Hw. simpl in Hw. destruct ds; [|done].
      exists []. destruct h; split_and!; done || constructor.
    - injection Hn' as <-. rewrite Hq in Hr. destruct (Hmain p Hr Hd) as [He (l & Hl)].
      exists l. by rewrite decide_True. }
  split; [done|]. exists l. split_and!; [done..| |].
  - intros e. rewrite Hperm, list_elem_of_fmap.
    intros (d & -> & [Hh [i Hi]%list_elem_of_lookup]%list_elem_of_filter).
    destruct (Forall2_lookup_r _ _ _ _ _ Hf Hi) as (path & Hpath & Hjob).
    destruct (job_for_elm path d Hjob) as [-> ->]. rewrite <-Hh.
    split; [by eapply list_elem_of_lookup_2|by destruct Hjob].
  - intros path name [i Hi]%list_elem_of_lookup Hw1.
    destruct (Forall2_lookup_l _ _ _ _ _ Hf Hi) as (d & Hd & Hjob).
    destruct (job_for_elm path d Hjob) as [E1 E2]. destruct Hjob as [_ Hw2].
    destruct (wf_path_fun _ _ _ _ _ Hw1 Hw2) as [-> ->].
    exists (elm_of d). split_and!; [|done..]. rewrite Hperm. apply list_elem_of_fmap_2,
      list_elem_of_filter. split; [done|by eapply list_elem_of_lookup_2].
Qed.

(** Some schedule of the pool builds the hash. *)
Lemma build_exists : ∃ g r, exjld_class_build_hash o (λ _, true) entries g r.
Proof.
  destruct Hwf as [Hnd Hp]. destruct (nftw_wf_go entries 0 scan_init Hp) as (s & ds & Hn & Hq & Hf & Hw).
  cbn in Hq. destruct (scan_jobs_distinct _ _ Hnd Hf) as [Hdist Hfit].
  destruct (pool_halts o (pool_start (queued s) ginit)) as (p & Hr & Hz).
  destruct (M_was_file s) eqn:Ew; [|do 2 eexists; by eapply build_no_file].
  do 2 eexists. eapply build_waited; [done..|]. rewrite Hq in Hr. eapply halted_done; [|exact Hz].
  apply (inv_not_crashed o ds Hdist Hfit). by apply (reachable_inv o).
Qed.

Hypothesis Hnul : ∀ path, path ∈ entry_files entries → nul_free path.
Hypothesis Hsize : ∀ path, path ∈ entry_files entries → (Z.of_nat (length (bytes path)) ≤ INT_MAX)%Z.
Hypothesis Hcount : (Z.of_nat (length (entry_files entries)) ≤ 2 ^ 30)%Z.

(** The table of one hash and what its lookup finds. *)
Lemma table_ok g r h :
  exjld_class_build_hash o (λ _, true) entries g r →
  ∃ l, hash_elems g h = Some l ∧
    let t := class_table bytes (exljd_res_sort_by_resname l) in
    sorted_index t ∧ Forall entry_ok t ∧ (Z.of_nat (length t) ≤ 2 ^ 30)%Z ∧
    ∀ name, spec_lookup bytes entries h name (data <$> found t name).
Proof.
  intros Hb. destruct (build_elems g r h Hb) as (_ & l & Hl & Hnd & Hin & Hout).
  exists l. split; [done|]. cbn zeta. split_and!.
  - apply sorted_table; [|done]. apply Forall_forall. intros e [Hp Hw]%Hin.
    eapply wf_path_nul_free; [exact Hw|auto].
  - apply Forall_fmap, Forall_forall. intros e He. split; simpl; [done|].
    apply Hsize, Hin. by apply sort_elem.
  - unfold class_table, exljd_res_sort_by_resname. rewrite length_fmap, sort_perm.
    assert (length l ≤ length (entry_files entries)); [|lia].
    rewrite <-(length_fmap respath l). apply submseteq_length, NoDup_submseteq.
    + apply NoDup_fmap_2_strong; [|by eapply NoDup_fmap_1]. intros e1 e2 H1 H2 E.
      eapply (NoDup_fmap_elem_eq resname l); [done..|].
      apply Hin in H1 as [_ H1], H2 as [_ H2]. rewrite E in H1.
      by destruct (wf_path_fun _ _ _ _ _ H1 H2).
    + intros path (e & -> & He)%list_elem_of_fmap. by apply Hin.
  - intros name. pose proof (found_table bytes l name Hnd) as Hf. unfold spec_lookup.
    destruct (found _ _) as [e|]; simpl.
    + destruct Hf as (r' & Hr & Hn & Hd). destruct (Hin r' Hr) as [Hp Hw].
      exists (respath r'). by rewrite <-Hn.
    + intros path Hp Hw. destruct (Hout path name Hp Hw) as (e & He & Hn & _).
      by apply (Hf e).
Qed.
End EndToEnd.
