(* ===== verification/Boot.v ===== *)
(** * libexjlds/exj.c: starting the virtual machine and the program

    The binary the linker builds calls [ndrxj_run_main]: options of the virtual machine
    from the configuration, the machine itself, the static class loader with its native
    methods, then [main] of the Java program with the command line.  Java code that is
    called is a parameter; that of StaticClassLoader.java is modelled in [BootJava]. *)
From stdpp Require Import sorting strings gmap list numbers.
From S2P Require Import Prelude CString FindClasses Jni ClassIndex ClassPath.

(** ** Looking a static method up and setting the class loader of the thread *)

(** The Java methods [ndrxj_ldr_get_static_handler] calls. *)
Class HandlerJava (X : Type) := {
  jl_loadClass : jobject → jobject → M X jobject;
  jl_currentThread : M X jobject;
  jl_setContextClassLoader : jobject → jobject → M X unit
}.

Section Handler.
Context {X : Type} `{!HandlerJava X} (vm : jvm).

(** [CallObjectMethod] and its kin: undefined on a NULL receiver and with an exception
    pending. *)
Definition call_method {A} (receiver : jobject) (m : M X A) : M X A :=
  e ← ExceptionCheck;
  if (e : bool) then crash "Java method called with an exception pending"
  else match receiver with None => crash "NULL reference" | Some _ => m end.

(** [GetMethodID] and [GetStaticMethodID]; the name as class, point and method. *)
Definition GetMethodID (name : string) : M X bool :=
  if jvm_class_exists vm name then mret true
  else throw_vm "java/lang/NoSuchMethodError";; mret false.

(** The failures of [ndrxj_ldr_get_static_handler] before [thread_class] is assigned: at
    the end that variable is compared and deleted without having a value. *)
Definition uninitialised_out {A} : M X A := EXJLD_LOG_EXCEPTION;; crash "uninitialised reference".

Definition LOADER_CLASS : string := "org/endurox/loader/StaticClassLoader".

(** [ndrxj_ldr_get_static_handler]: code and class; [M_classLoader] is the loader object. *)
Definition ndrxj_ldr_get_static_handler (M_classLoader : jobject) (run_class static_method : string)
    : M X (Z * jobject) :=
  load_class ← GetMethodID (LOADER_CLASS +:+ ".loadClass");
  if negb load_class then uninitialised_out else
  jrun_class_str ← NewStringUTF vm run_class;
  cls ← call_method M_classLoader (jl_loadClass M_classLoader jrun_class_str);
  match cls with
  | None => uninitialised_out
  | Some _ =>
      run_mid ← GetMethodID (run_class +:+ "." +:+ static_method);
      if negb run_mid then uninitialised_out else
      thread_class ← FindClass vm "java/lang/Thread";
      if negb thread_class then EXJLD_LOG_EXCEPTION;; mret (EXFAIL, cls) else
      cur_thread_mid ← GetMethodID "java/lang/Thread.currentThread";
      if negb cur_thread_mid then EXJLD_LOG_EXCEPTION;; mret (EXFAIL, cls) else
      cur_thread ← jl_currentThread;
      match cur_thread with
      | None => EXJLD_LOG_EXCEPTION;; mret (EXFAIL, cls)
      | Some _ =>
          set_ctx_mid ← GetMethodID "java/lang/Thread.setContextClassLoader";
          if negb set_ctx_mid then EXJLD_LOG_EXCEPTION;; mret (EXFAIL, cls) else
          call_method cur_thread (jl_setContextClassLoader cur_thread M_classLoader);;
          e ← ExceptionCheck;
          if (e : bool) then EXJLD_LOG_EXCEPTION;; ExceptionClear;; mret (EXFAIL, cls)
          else mret (EXSUCCEED, cls)
      end
  end.
End Handler.

(** ** The process *)

(** The class path list: NULL, a list, or freed. *)
Inductive cp_list := CpNull | CpList (l : list string) | CpFreed.

Record boot_state := BootState {
  (** static variables of exj.c *)
  M_classLoaderClass : jobject;
  M_classLoader : jobject;
  M_classpath_url : cp_list;
  M_index : loader_globals;
  (** the virtual machine: running, classes made by [DefineClass], native methods bound
      to C functions, class loader of the thread *)
  bs_vm : bool;
  bs_defined : list (string * list Z);
  bs_natives : list (string * list (string * string));
  bs_context_loader : jobject
}.

Definition no_tables : loader_globals := LoaderGlobals [] 0 [] 0.
Definition boot_init : boot_state := BootState None None CpNull no_tables false [] [] None.

Definition set_loader_class o (s : boot_state) :=
  BootState o (M_classLoader s) (M_classpath_url s) (M_index s) (bs_vm s) (bs_defined s) (bs_natives s) (bs_context_loader s).
Definition set_loader o (s : boot_state) :=
  BootState (M_classLoaderClass s) o (M_classpath_url s) (M_index s) (bs_vm s) (bs_defined s) (bs_natives s) (bs_context_loader s).
Definition set_classpath l (s : boot_state) :=
  BootState (M_classLoaderClass s) (M_classLoader s) l (M_index s) (bs_vm s) (bs_defined s) (bs_natives s) (bs_context_loader s).
Definition set_index g (s : boot_state) :=
  BootState (M_classLoaderClass s) (M_classLoader s) (M_classpath_url s) g (bs_vm s) (bs_defined s) (bs_natives s) (bs_context_loader s).
Definition set_vm b (s : boot_state) :=
  BootState (M_classLoaderClass s) (M_classLoader s) (M_classpath_url s) (M_index s) b (bs_defined s) (bs_natives s) (bs_context_loader s).
Definition add_defined c (s : boot_state) :=
  BootState (M_classLoaderClass s) (M_classLoader s) (M_classpath_url s) (M_index s) (bs_vm s) (bs_defined s ++ [c]) (bs_natives s) (bs_context_loader s).
Definition add_natives n (s : boot_state) :=
  BootState (M_classLoaderClass s) (M_classLoader s) (M_classpath_url s) (M_index s) (bs_vm s) (bs_defined s) (bs_natives s ++ [n]) (bs_context_loader s).
Definition set_context_loader o (s : boot_state) :=
  BootState (M_classLoaderClass s) (M_classLoader s) (M_classpath_url s) (M_index s) (bs_vm s) (bs_defined s) (bs_natives s) o.

Definition bmod (f : boot_state → boot_state) : M boot_state unit := mmod (λ w, with_x (f (w_x w)) w).
Definition bget {A} (f : boot_state → A) : M boot_state A := w ← mget; mret (f (w_x w)).

(** The Java code the start calls, besides [HandlerJava]: [ClassLoader.getSystemClassLoader],
    [Class.getConstructors], the constructor of the static loader, and [main]. *)
Class BootJava := {
  boot_handler :: HandlerJava boot_state;
  jl_getSystemClassLoader : M boot_state jobject;
  jl_getConstructors : jobject → M boot_state unit;
  jl_newStaticClassLoader : jobject → M boot_state jobject;
  jl_main : jobject → jobject → M boot_state unit
}.

(** What the surroundings answer: the sections of the configuration ([None]: not
    readable; the second level: there is no configuration), memory for the options, the
    machine, and what the base library makes of a path list.  The bytes are those of the
    included class files. *)
Record boot_env := BootEnv {
  cconfig_load : option bool;
  cconfig_java : option (list (string * string));
  calloc_ok : bool;
  env_CLASSPATH : option string;
  splitadd : list string → string → string → option (list string);
  JNI_CreateJavaVM : list string → bool;
  define_ok : string → bool;
  register_ok : string → bool;
  resource_bytes : string → list Z
}.

Section Boot.
Context `{!BootJava} (vm : jvm) (env : boot_env).

(** An object that stands for a class. *)
Definition class_object (name : string) : jval := JOther "java/lang/Class" [AStr name].

Definition find_class_object (name : string) : M boot_state jobject :=
  ok ← FindClass vm name;
  if (ok : bool) then store_new (class_object name) else mret None.

(** [NewGlobalRef]: NULL without an exception if there is no memory. *)
Definition NewGlobalRef (o : jobject) : M boot_state jobject :=
  ok ← ask (jvm_alloc_ok vm); mret (if (ok : bool) then o else None).

Definition DefineClass (name resource : string) : M boot_state jobject :=
  if define_ok env name then
    bmod (add_defined (name, resource_bytes env resource));; store_new (class_object name)
  else throw_vm "java/lang/LinkageError";; mret None.

(** [RegisterNatives] of the two methods. *)
Definition LOADER_NATIVES : list (string * string) :=
  [("getResourceBytes", "ndrxj_getResourceBytes"); ("getClassBytes", "ndrxj_getClassBytes")].

Definition RegisterNatives (cls : jobject) (name : string) : M boot_state unit :=
  match cls with
  | None => crash "NULL reference"
  | Some _ =>
      if register_ok env name then bmod (add_natives (name, LOADER_NATIVES))
      else throw_vm "java/lang/NoSuchMethodError"
  end.

Definition failed {A} (a : A) : M boot_state A := EXJLD_LOG_EXCEPTION;; mret a.

Definition URLCON_CLASS : string := "org/endurox/loader/BytesURLConnection".
Definition URLHANDLER_CLASS : string := "org/endurox/loader/BytesURLHandler".

(** The list behind the class path variable. *)
Definition classpath_of (l : cp_list) : M boot_state (list string) :=
  match l with CpNull => mret [] | CpList l => mret l | CpFreed => crash "freed class path" end.

(** The last part of [create_loader]: the URLs and the loader object. *)
Definition make_loader : M boot_state Z :=
  cp ← bget M_classpath_url;
  urls ← classpath_of cp;
  cpUrls ← ndrxj_build_classpath_urls vm urls;
  match cpUrls with
  | None => failed EXFAIL
  | Some _ =>
      cls ← bget M_classLoaderClass;
      ctor ← (match cls with
              | None => crash "NULL reference"
              | Some _ => GetMethodID vm (LOADER_CLASS +:+ ".<init>")
              end);
      if negb ctor then failed EXFAIL else
      ldr_obj ← call_method cls (jl_newStaticClassLoader cpUrls);
      match ldr_obj with
      | None => failed EXFAIL
      | Some _ => g ← NewGlobalRef ldr_obj; bmod (set_loader g);; mret EXSUCCEED
      end
  end.

(** The middle part: the classes and their native methods; [loader] is the system's. *)
Definition define_classes : M boot_state Z :=
  urlcon ← DefineClass URLCON_CLASS "BytesURLConnection";
  match urlcon with None => failed EXFAIL | Some _ =>
  urlcon ← NewGlobalRef urlcon;
  urlh ← DefineClass URLHANDLER_CLASS "BytesURLHandler";
  match urlh with None => failed EXFAIL | Some _ =>
  urlh ← NewGlobalRef urlh;
  match urlh with None => failed EXFAIL | Some _ =>
  cl ← DefineClass LOADER_CLASS "StaticClassLoader";
  match cl with None => failed EXFAIL | Some _ =>
  g ← NewGlobalRef cl;
  bmod (set_loader_class g);;
  call_method g (jl_getConstructors g);;
  RegisterNatives urlcon URLCON_CLASS;;
  RegisterNatives g LOADER_CLASS;;
  e ← ExceptionCheck;
  if (e : bool) then failed EXFAIL else make_loader
  end end end end.

(** [create_loader] *)
Definition create_loader : M boot_state Z :=
  class_class ← find_class_object "java/lang/Class";
  loaderClass ← find_class_object "java/lang/ClassLoader";
  match class_class, loaderClass with
  | Some _, Some _ =>
      m1 ← GetMethodID vm "java/lang/Class.getConstructors";
      if negb m1 then failed EXFAIL else
      m2 ← GetMethodID vm "java/lang/ClassLoader.getSystemClassLoader";
      if negb m2 then failed EXFAIL else
      loader ← call_method loaderClass jl_getSystemClassLoader;
      match loader with
      | None => failed EXFAIL
      | Some _ =>
          loader ← NewGlobalRef loader;
          match loader with None => mret EXFAIL | Some _ => define_classes end
      end
  | _, _ => failed EXFAIL
  end.

(** ** The options of the machine *)

(** The loop over the section: [options] has room for [cap] of them. *)
Fixpoint option_entries (cap : nat) (kvs : list (string * string)) (opts : list string) (cp : list string)
    : M boot_state (Z * list string * list string) :=
  match kvs with
  | [] => mret (EXSUCCEED, opts, cp)
  | (key, val) :: kvs' =>
      if has_prefix "opts" key then
        if (length opts <? cap)%nat then
          let '(r, cp') := ndrxj_cp_proc (splitadd env) cp val in
          if (r =? EXSUCCEED)%Z then option_entries cap kvs' (opts ++ [val]) cp'
          else mret (EXFAIL, opts ++ [val], cp')
        else crash "write beyond the options"
      else option_entries cap kvs' opts cp
  end.

Definition read_options (cp : list string) : M boot_state (Z * list string * list string) :=
  match cconfig_load env with
  | None => mret (EXFAIL, [], cp)
  | Some false => mret (EXSUCCEED, [], cp)
  | Some true =>
      match cconfig_java env with
      | None => mret (EXFAIL, [], cp)
      | Some kvs =>
          if calloc_ok env then option_entries (length kvs) kvs [] cp else mret (EXFAIL, [], cp)
      end
  end.

(** The class path of the environment. *)
Definition env_classpath (cp : list string) : Z * list string :=
  match env_CLASSPATH env with
  | None => (EXSUCCEED, cp)
  | Some s => match splitadd env cp s ":" with Some cp' => (EXSUCCEED, cp') | None => (EXFAIL, cp) end
  end.

(** The list as the variable holds it: NULL until something was added. *)
Definition keep_list (old : cp_list) (l : list string) : cp_list :=
  match l with [] => old | _ => CpList l end.

(** The end of [ndrxj_ldr_getvm]: the list is freed, the variable keeps its value. *)
Definition getvm_out (ret : Z) : M boot_state bool :=
  bmod (λ s, set_classpath (match M_classpath_url s with CpNull => CpNull | _ => CpFreed end) s);;
  mret (bool_decide (ret = EXSUCCEED)).

(** [ndrxj_ldr_getvm]: is there a machine? *)
Definition ndrxj_ldr_getvm (g : loader_globals) : M boot_state bool :=
  bmod (set_index g);;
  old ← bget M_classpath_url;
  cp ← classpath_of old;
  '(ret, opts, cp) ← read_options cp;
  bmod (set_classpath (keep_list old cp));;
  if negb (ret =? EXSUCCEED)%Z then getvm_out EXFAIL else
  let '(ret, cp) := env_classpath cp in
  bmod (set_classpath (keep_list old cp));;
  if negb (ret =? EXSUCCEED)%Z then getvm_out EXFAIL else
  if negb (JNI_CreateJavaVM env opts) then getvm_out EXFAIL else
  bmod (set_vm true);;
  ret ← create_loader;
  e ← ExceptionCheck;
  if (e : bool) then EXJLD_LOG_EXCEPTION;; getvm_out EXFAIL else getvm_out ret.

(** ** The program *)

(** The loop that fills the array of arguments. *)
Fixpoint fill_args (args : jobject) (i : nat) (argv : list string) : M boot_state bool :=
  match argv with
  | [] => mret true
  | a :: argv' =>
      argString ← NewStringUTF vm a;
      match argString with
      | None => failed false
      | Some _ =>
          Jni.SetObjectArrayElement args i argString;;
          e ← ExceptionCheck;
          if (e : bool) then failed false else fill_args args (S i) argv'
      end
  end.

(** [run_ldr_main]; [argv] without the name of the binary. *)
Definition run_ldr_main (main_class_str : string) (argv : option (list string)) (test_mode : bool) : M boot_state Z :=
  str_class ← FindClass vm "java/lang/String";
  if negb str_class then failed EXFAIL else
  args ← (match argv with
          | Some l => NewObjectArray vm (length l)
          | None => throw_vm "java/lang/NegativeArraySizeException";; mret None
          end);
  match args with
  | None => failed EXFAIL
  | Some _ =>
      ok ← fill_args args 0 (default [] argv);
      if negb ok then mret EXFAIL else
      ldr ← bget M_classLoader;
      '(r, main_class) ← ndrxj_ldr_get_static_handler vm ldr main_class_str "main";
      if negb (r =? EXSUCCEED)%Z then mret EXFAIL else
      if (test_mode : bool) then mret EXSUCCEED else
      call_method main_class (jl_main main_class args);;
      e ← ExceptionCheck;
      if (e : bool) then EXJLD_LOG_EXCEPTION;; ExceptionClear;; mret EXFAIL else mret EXSUCCEED
  end.

(** [ndrxj_run_main]; [argv] with the name of the binary. *)
Definition ndrxj_run_main (argv : list string) (main_class : string) (g : loader_globals) (test_mode : bool)
    : M boot_state Z :=
  have ← ndrxj_ldr_getvm g;
  if (have : bool) then
    r ← run_ldr_main main_class (match argv with [] => None | _ :: rest => Some rest end) test_mode;
    bmod (set_vm false);;
    mret (if (r =? EXSUCCEED)%Z then EXSUCCEED else EXFAIL)
  else mret EXFAIL.

(** ** Finding classes later *)

(** [ndrxj_FindClass]: an exception of the search stays pending. *)
Definition ndrxj_FindClass (name : string) : M boot_state jobject :=
  cls ← bget M_classLoaderClass;
  match cls with
  | None => find_class_object name
  | Some _ =>
      dup ← ask (jvm_alloc_ok vm);
      if negb dup then mret None else
      load_class ← GetMethodID vm (LOADER_CLASS +:+ ".loadClass");
      if negb load_class then mret None else
      jclass_str ← NewStringUTF vm (slash_to_dot name);
      match jclass_str with
      | None => mret None
      | Some _ => ldr ← bget M_classLoader; call_method ldr (jl_loadClass ldr jclass_str)
      end
  end.
End Boot.

(** ** StaticClassLoader.java and the class library *)

Section StaticLoader.
Context (vm : jvm) (env : boot_env).
Context (findLoadedClass : string → M boot_state jobject) (super_loadClass : string → M boot_state jobject)
  (java_main : jobject → jobject → M boot_state unit).

(** The C function a native method of the class is bound to. *)
Definition bound (natives : list (string * list (string * string))) (cls method : string) : option string :=
  match list_find (λ n, n.1 = cls) natives with
  | Some (_, n) => match list_find (λ m, m.1 = method) n.2 with Some (_, m) => Some m.2 | None => None end
  | None => None
  end.

(** [defineClass] of the loader. *)
Definition java_defineClass (name : string) (b : jobject) : M boot_state jobject :=
  v ← deref b;
  match v with
  | JBytes bytes =>
      if define_ok env name then bmod (add_defined (name, bytes));; store_new (class_object name)
      else throw_vm "java/lang/ClassFormatError";; mret None
  | _ => crash "not a byte array"
  end.

(** [StaticClassLoader.loadClass]: a class that is not in the table is NULL for
    [defineClass], whose exception leads to the parent loaders. *)
Definition StaticClassLoader_loadClass (name : jobject) : M boot_state jobject :=
  v ← deref name;
  match v with
  | JString s =>
      clazz ← findLoadedClass s;
      match clazz with
      | Some _ => mret clazz
      | None =>
          natives ← bget bs_natives;
          if decide (bound natives LOADER_CLASS "getClassBytes" = Some "ndrxj_getClassBytes"%string) then
            g ← bget M_index;
            b ← ndrxj_getClassBytes vm g name;
            match b with
            | Some _ => java_defineClass s b
            | None => super_loadClass s
            end
          else throw_vm "java/lang/UnsatisfiedLinkError";; mret None
      end
  | _ => crash "not a string"
  end.

(** The Java side of the start; [main] is arbitrary. *)
Definition static_java : BootJava := {|
  boot_handler := {|
    jl_loadClass _ name := StaticClassLoader_loadClass name;
    jl_currentThread := store_new (JOther "java/lang/Thread" []);
    jl_setContextClassLoader _ loader := bmod (set_context_loader loader)
  |};
  jl_getSystemClassLoader := store_new (JOther "java/lang/ClassLoader" []);
  jl_getConstructors _ := mret tt;
  jl_newStaticClassLoader urls := jni_new vm (JOther LOADER_CLASS [AObj urls]);
  jl_main := java_main
|}.
End StaticLoader.
