(* ===== verification/BootProofs.v ===== *)
(** * The start of a linked program: what each step leaves behind

    Every step of the start only adds objects, so that what an earlier step made is
    still there when [main] is called; [main_ready] says what [main] finds. *)
From stdpp Require Import sorting strings gmap list numbers.
From S2P Require Import Prelude CString FindClasses Jni ClassIndex ClassPath Boot.

(** ** States that only grow *)

(** The objects of [w] are unchanged in [w'], the exception and the acquired elements are
    the same, and the process is in state [x]. *)
Record grows {X} (w : world X) (x : X) (w' : world X) : Prop := Grows {
  gr_next : (w_next w ≤ w_next w')%positive;
  gr_heap l : (l < w_next w)%positive → w_heap w' !! l = w_heap w !! l;
  gr_exc : w_exc w' = w_exc w;
  gr_pins : w_pins w' = w_pins w;
  gr_x : w_x w' = x
}.

Section Grows.
Context {X : Type}.
Implicit Types (w : world X).

Lemma grows_refl w : grows w (w_x w) w.
Proof. split; done || lia. Qed.

Lemma grows_trans w1 x w2 y w3 : grows w1 x w2 → grows w2 y w3 → grows w1 y w3.
Proof.
  intros [] []. split; [lia| |congruence..]. intros l Hl.
  match goal with H : ∀ l, (l < w_next w2)%positive → _ |- _ => rewrite H by lia end. auto.
Qed.

Lemma grows_lookup w x w' l v :
  grows w x w' → (l < w_next w)%positive → w_heap w !! l = Some v → w_heap w' !! l = Some v.
Proof. intros Hg Hl Hv. by rewrite (gr_heap _ _ _ Hg l Hl). Qed.

Lemma grows_ticked w : grows w (w_x w) (ticked w).
Proof. split; done || (simpl; lia). Qed.

Lemma grows_new v w : grows w (w_x w) (new_obj v w).2.
Proof.
  split; try done; simpl; [lia|]. intros l Hl. apply lookup_insert_ne. unfold loc in *. lia.
Qed.

(** A program that returns [a], leaves the process in [x] and adds the object [v] the
    reference it returns points to. *)
Definition makes (m : M X jobject) w (x : X) (v : jval) : Prop :=
  ∃ l w', m w = Ok (Some l) w' ∧ grows w x w' ∧ w_heap w' !! l = Some v ∧
    (w_next w ≤ l < w_next w')%positive.

Lemma makes_store v w : makes (store_new v) w (w_x w) v.
Proof.
  exists (w_next w), (new_obj v w).2. split; [done|]. split; [apply grows_new|].
  split; [apply lookup_insert_eq|simpl; lia].
Qed.

Lemma makes_mono w0 y w m x v :
  grows w0 y w → makes m w x v →
  ∃ l w', m w = Ok (Some l) w' ∧ grows w0 x w' ∧ w_heap w' !! l = Some v ∧
    (w_next w ≤ l < w_next w')%positive.
Proof. intros Hg (l & w' & ? & ? & ? & ?). exists l, w'. eauto using grows_trans. Qed.

Lemma makes_new vm v w : vm_has_memory vm → makes (jni_new vm v) w (w_x w) v.
Proof.
  intros Hm. unfold makes, jni_new. rewrite run_bind. unfold ask. rewrite Hm.
  destruct (makes_store v (ticked w)) as (l & w' & E & Hg & Hv & Hl).
  exists l, w'. split; [exact E|]. split; [|done]. eapply grows_trans; [apply grows_ticked|exact Hg].
Qed.
End Grows.

Lemma grows_bmod (f : boot_state → boot_state) (w : world boot_state) : grows w (f (w_x w)) (with_x (f (w_x w)) w).
Proof. split; done || (simpl; lia). Qed.

Section Steps.
Context (vm : jvm) (env : boot_env).
Hypothesis vm_mem : vm_has_memory vm.

Lemma makes_find_class name w :
  jvm_class_exists vm name = true → makes (find_class_object vm name) w (w_x w) (class_object name).
Proof.
  intros H. unfold makes, find_class_object, FindClass. rewrite H, run_bind, run_ret.
  apply makes_store.
Qed.

Lemma makes_define_class name res w :
  define_ok env name = true →
  makes (DefineClass env name res) w (add_defined (name, resource_bytes env res) (w_x w)) (class_object name).
Proof.
  intros H. unfold makes, DefineClass. rewrite H.
  destruct (makes_mono w _ _ _ _ _ (grows_bmod (add_defined (name, resource_bytes env res)) w)
    (makes_store (class_object name) _)) as (l & w' & E & Hg & Hv & Hl). exists l, w'. done.
Qed.

Lemma run_global_ref o w : NewGlobalRef vm o w = Ok o (ticked w).
Proof. unfold NewGlobalRef. rewrite run_bind. unfold ask. by rewrite vm_mem. Qed.

Lemma run_method_id {X} name (w : world X) :
  jvm_class_exists vm name = true → GetMethodID vm name w = Ok true w.
Proof. intros H. unfold GetMethodID. by rewrite H. Qed.

Lemma run_FindClass {X} name (w : world X) :
  jvm_class_exists vm name = true → FindClass vm name w = Ok true w.
Proof. intros H. unfold FindClass. by rewrite H. Qed.

Lemma run_call_method {X A} l (m : M X A) w : w_exc w = None → call_method (Some l) m w = m w.
Proof. intros H. unfold call_method. by rewrite run_bind, run_ExceptionCheck, H. Qed.

Lemma run_no_exception {X A} (w : world X) (k : bool → M X A) :
  w_exc w = None → (ExceptionCheck ≫= k) w = k false w.
Proof. intros H. by rewrite run_bind, run_ExceptionCheck, H. Qed.

Lemma run_register l name w :
  register_ok env name = true →
  RegisterNatives env (Some l) name w = Ok tt (with_x (add_natives (name, LOADER_NATIVES) (w_x w)) w).
Proof. intros H. unfold RegisterNatives. by rewrite H. Qed.

Lemma run_bmod f w : bmod f w = Ok tt (with_x (f (w_x w)) w).
Proof. done. Qed.

Lemma run_bget {A} (f : boot_state → A) w : bget f w = Ok (f (w_x w)) w.
Proof. done. Qed.
End Steps.

(** ** The options of the machine and the class path *)

Section Options.
Context (env : boot_env).

(** The values of the settings whose key starts with [opts]. *)
Definition opt_values (kvs : list (string * string)) : list string :=
  (filter (λ kv, has_prefix "opts" kv.1) kvs).*2.

(** The entries of the options, then those of the environment. *)
Fixpoint options_classpath (vals : list string) (cp : list string) : option (list string) :=
  match vals with
  | [] => Some cp
  | v :: vals' =>
      let '(r, cp') := ndrxj_cp_proc (splitadd env) cp v in
      if (r =? EXSUCCEED)%Z then options_classpath vals' cp' else None
  end.

(** The array always has room, whatever the section holds. *)
Lemma run_option_entries cap kvs opts cp w :
  length opts + length kvs ≤ cap →
  ∃ r opts' cp', option_entries env cap kvs opts cp w = Ok (r, opts', cp') w ∧
    match options_classpath (opt_values kvs) cp with
    | Some cp'' => r = EXSUCCEED ∧ opts' = opts ++ opt_values kvs ∧ cp' = cp''
    | None => r = EXFAIL
    end.
Proof.
  unfold opt_values. revert opts cp. induction kvs as [|[key val] kvs IH]; intros opts cp Hlen; simpl in *.
  { exists EXSUCCEED, opts, cp. by rewrite app_nil_r. }
  destruct (has_prefix "opts" key) eqn:Hk.
  - rewrite filter_cons_True by (cbn [fst]; by rewrite Hk). cbn [fmap list_fmap snd options_classpath].
    rewrite (proj2 (Nat.ltb_lt _ _)) by lia.
    destruct (ndrxj_cp_proc (splitadd env) cp val) as [r cp']. destruct (Z.eqb r EXSUCCEED).
    + destruct (IH (opts ++ [val]) cp') as (r' & opts' & cp'' & -> & H).
      { rewrite length_app. simpl. lia. }
      eexists _, _, _. split; [done|]. destruct (options_classpath _ _); [|done].
      destruct H as (? & -> & ?). split_and!; [done| |done]. by rewrite <-app_assoc.
    + by eexists _, _, _.
  - rewrite filter_cons_False by (cbn [fst]; rewrite Hk; auto). apply IH. lia.
Qed.

(** The configuration as the start sees it: the options and the list of the class path. *)
Definition boot_configured (opts cp : list string) : Prop :=
  match cconfig_load env, cconfig_java env with
  | Some false, _ => opts = [] ∧ env_classpath env [] = (EXSUCCEED, cp)
  | Some true, Some kvs =>
      calloc_ok env = true ∧ opts = opt_values kvs ∧
      ∃ cp0, options_classpath opts [] = Some cp0 ∧ env_classpath env cp0 = (EXSUCCEED, cp)
  | _, _ => False
  end.

Lemma run_read_options opts cp w :
  boot_configured opts cp →
  ∃ cp0, read_options env [] w = Ok (EXSUCCEED, opts, cp0) w ∧ env_classpath env cp0 = (EXSUCCEED, cp).
Proof.
  unfold boot_configured, read_options. destruct (cconfig_load env) as [[]|]; [|intros [-> ?]; eauto|done].
  destruct (cconfig_java env) as [kvs|]; [|done]. intros (-> & -> & cp0 & Hcp & He).
  destruct (run_option_entries (length kvs) kvs [] [] w ltac:(simpl; lia)) as (r & opts' & cp' & -> & H).
  rewrite Hcp in H. destruct H as (-> & -> & ->). eauto.
Qed.

(** In any case the settings are read without a crash, and success means a configuration. *)
Lemma read_options_cases w :
  ∃ ret opts cp0, read_options env [] w = Ok (ret, opts, cp0) w ∧
    (ret = EXSUCCEED → ∀ cp, env_classpath env cp0 = (EXSUCCEED, cp) → boot_configured opts cp).
Proof.
  unfold boot_configured, read_options. destruct (cconfig_load env) as [[]|]; [|by eexists _, _, _..].
  destruct (cconfig_java env) as [kvs|]; [|by eexists _, _, _].
  destruct (calloc_ok env); [|by eexists _, _, _].
  destruct (run_option_entries (length kvs) kvs [] [] w ltac:(simpl; lia)) as (r & opts' & cp' & -> & H).
  eexists _, _, _. split; [done|]. intros -> cp Hcp.
  destruct (options_classpath _ _) as [cp''|] eqn:E; [|done]. destruct H as (_ & -> & ->). eauto.
Qed.
End Options.

(** ** The class loader *)

(** Names the machine must know: classes and methods of the class library, and those of
    the loader's class once it is defined. *)
Definition BOOT_CLASSES : list string :=
  ["java/lang/Class"; "java/lang/ClassLoader"; "java/lang/Class.getConstructors";
   "java/lang/ClassLoader.getSystemClassLoader"; URL_CLASS; LOADER_CLASS +:+ ".<init>";
   LOADER_CLASS +:+ ".loadClass"; "java/lang/String"; "java/lang/Thread";
   "java/lang/Thread.currentThread"; "java/lang/Thread.setContextClassLoader"]%string.

(** The class files the loader is made of. *)
Definition loader_classes (env : boot_env) : list (string * list Z) :=
  [(URLCON_CLASS, resource_bytes env "BytesURLConnection"); (URLHANDLER_CLASS, resource_bytes env "BytesURLHandler");
   (LOADER_CLASS, resource_bytes env "StaticClassLoader")].

Definition loader_natives : list (string * list (string * string)) :=
  [(URLCON_CLASS, LOADER_NATIVES); (LOADER_CLASS, LOADER_NATIVES)].

Record boot_possible (vm : jvm) (env : boot_env) : Prop := {
  bp_memory : vm_has_memory vm;
  bp_classes : Forall (λ c, jvm_class_exists vm c = true) BOOT_CLASSES;
  bp_define : Forall (λ c, define_ok env c.1 = true) (loader_classes env);
  bp_register : Forall (λ c, register_ok env c.1 = true) loader_natives
}.

(** An array of URLs for the paths. *)
Definition url_array (w : world boot_state) (ua : loc) (paths : list string) : Prop :=
  ∃ elems, w_heap w !! ua = Some (JOther URL_ARRAY elems) ∧
    Forall2 (λ e q, ∃ u, e = AObj (Some u) ∧ (u < w_next w)%positive ∧
      w_heap w !! u = Some (JOther URL_CLASS [AStr (resource_of q)])) elems paths.

Lemma url_array_grows w x w' ua paths :
  grows w x w' → (ua < w_next w)%positive → url_array w ua paths → url_array w' ua paths.
Proof.
  intros Hg Hl (elems & Ha & Hf). exists elems. split; [by eapply grows_lookup|].
  eapply Forall2_impl; [exact Hf|]. intros e q (u & -> & Hu & Ho). exists u.
  pose proof (gr_next _ _ _ Hg). split_and!; [done|lia|by eapply grows_lookup].
Qed.

(** The loader object, made with the paths. *)
Definition loader_made (w : world boot_state) (paths : list string) : Prop :=
  ∃ ll ua, M_classLoader (w_x w) = Some ll ∧ (ll < w_next w)%positive ∧ (ua < w_next w)%positive ∧
    w_heap w !! ll = Some (JOther LOADER_CLASS [AObj (Some ua)]) ∧ url_array w ua paths.

Lemma loader_made_grows w x w' paths :
  grows w x w' → M_classLoader x = M_classLoader (w_x w) → loader_made w paths → loader_made w' paths.
Proof.
  intros Hg Hx (ll & ua & Hll & H1 & H2 & Ho & Hu). pose proof (gr_next _ _ _ Hg).
  exists ll, ua. rewrite (gr_x _ _ _ Hg), Hx. split_and!; [done|lia|lia|by eapply grows_lookup|by eapply url_array_grows].
Qed.

(** What [main] finds: its class, made from [bytes] by the loader whose native methods are
    bound to the C functions; the arguments in order; the loader set for the thread. *)
Record main_ready (env : boot_env) (main_class : string) (bytes : list Z) (argv cp : list string)
    (w : world boot_state) (lc la : loc) : Prop := {
  mr_exc : w_exc w = None;
  mr_vm : bs_vm (w_x w) = true;
  mr_class : w_heap w !! lc = Some (class_object main_class);
  mr_defined : bs_defined (w_x w) = loader_classes env ++ [(main_class, bytes)];
  mr_args : ∃ els, w_heap w !! la = Some (JArray els) ∧
    Forall2 (λ o a, ∃ l, o = Some l ∧ w_heap w !! l = Some (JString a)) els argv;
  mr_loader : loader_made w cp;
  mr_context : bs_context_loader (w_x w) = M_classLoader (w_x w);
  mr_natives c : c ∈ [URLCON_CLASS; LOADER_CLASS] →
    bound (bs_natives (w_x w)) c "getClassBytes" = Some "ndrxj_getClassBytes"%string ∧
    bound (bs_natives (w_x w)) c "getResourceBytes" = Some "ndrxj_getResourceBytes"%string
}.

(** The end of a run whose [main] ended in [r]. *)
Definition after_main (r : res boot_state unit) : res boot_state Z :=
  match r with
  | Ok _ w =>
      let w' := with_x (set_vm false (w_x w)) w in
      if bool_decide (w_exc w ≠ None) then Ok EXFAIL (with_exc None w') else Ok EXSUCCEED w'
  | Crash s => Crash s
  end.

Section Loader.
Context (vm : jvm) (env : boot_env).
Context (findLoadedClass super_loadClass : string → M boot_state jobject)
  (java_main : jobject → jobject → M boot_state unit).
Hypothesis possible : boot_possible vm env.

#[local] Instance J : BootJava := static_java vm env findLoadedClass super_loadClass java_main.

Lemma boot_class c : c ∈ BOOT_CLASSES → jvm_class_exists vm c = true.
Proof. destruct possible as [_ H _ _]. rewrite Forall_forall in H. apply H. Qed.

Lemma run_make_loader w paths :
  w_exc w = None → is_Some (M_classLoaderClass (w_x w)) →
  classpath_of (M_classpath_url (w_x w)) w = Ok paths w →
  ∃ ll w', make_loader vm w = Ok EXSUCCEED w' ∧ grows w (set_loader (Some ll) (w_x w)) w' ∧ loader_made w' paths.
Proof.
  intros Hex [lc Hlc] Hcp. pose proof (bp_memory _ _ possible) as Hm.
  unfold make_loader. rewrite run_bind, run_bget, run_bind, Hcp, run_bind.
  destruct (classpath_urls vm Hm paths w) as (ua & w1 & els & -> & Ha & Hua & Hf & Hold & E1 & E2 & E3);
    [apply boot_class; set_solver|].
  assert (Hg1 : grows w (w_x w) w1) by (split; [lia|auto..]).
  rewrite run_bind, run_bget, E3, Hlc, run_bind, run_method_id by (apply boot_class; set_solver).
  cbn [negb]. rewrite run_bind, run_call_method by congruence.
  destruct (makes_new vm (JOther LOADER_CLASS [AObj (Some ua)]) w1 Hm) as (ll & w2 & Hr & Hg2 & Hv & Hll).
  simpl. rewrite Hr. rewrite run_bind, (run_global_ref vm Hm), run_bind, run_bmod, run_ret.
  pose proof (grows_trans _ _ _ _ _ Hg2 (grows_ticked w2)) as Hg3.
  pose proof (grows_trans _ _ _ _ _ Hg3 (grows_bmod (set_loader (Some ll)) _)) as Hg4.
  simpl in Hg4. rewrite (gr_x _ _ _ Hg2), E3 in Hg4.
  eexists ll, _. simpl. rewrite (gr_x _ _ _ Hg2), E3. split; [reflexivity|].
  split; [by eapply grows_trans|]. exists ll, ua. split_and!; simpl; [done|lia|lia|done|].
  eapply (url_array_grows w1); [exact Hg4|lia|]. exists els. split; [done|].
  eapply Forall2_impl; [exact Hf|]. intros e q (u & -> & Hu & Ho). exists u. split_and!; [done|lia|done].
Qed.

(** The state the loader's classes and native methods leave. *)
Definition with_classes (lc ll : loc) (x : boot_state) : boot_state :=
  BootState (Some lc) (Some ll) (M_classpath_url x) (M_index x) (bs_vm x)
    (bs_defined x ++ loader_classes env) (bs_natives x ++ loader_natives) (bs_context_loader x).

Lemma run_define_classes w paths :
  w_exc w = None → classpath_of (M_classpath_url (w_x w)) w = Ok paths w →
  ∃ lc ll w', define_classes vm env w = Ok EXSUCCEED w' ∧ grows w (with_classes lc ll (w_x w)) w' ∧
    loader_made w' paths.
Proof.
  intros Hex Hcp. pose proof (bp_memory _ _ possible) as Hm. pose proof (bp_register _ _ possible) as Hr.
  pose proof (bp_define _ _ possible) as [D1 [D2 [D3 _]%Forall_cons]%Forall_cons]%Forall_cons. simpl in D1, D2, D3.
  unfold define_classes. rewrite run_bind.
  destruct (makes_define_class env URLCON_CLASS "BytesURLConnection" w) as (l1 & w1 & -> & G1 & _); [done|].
  rewrite run_bind, run_global_ref, run_bind by done.
  destruct (makes_mono _ _ _ _ _ _ (grows_trans _ _ _ _ _ G1 (grows_ticked w1))
    (makes_define_class env URLHANDLER_CLASS "BytesURLHandler" _ D2))
    as (l2 & w2 & -> & G2 & _).
  rewrite run_bind, run_global_ref, run_bind by done.
  destruct (makes_mono _ _ _ _ _ _ (grows_trans _ _ _ _ _ G2 (grows_ticked w2))
    (makes_define_class env LOADER_CLASS "StaticClassLoader" _ D3))
    as (l3 & w3 & -> & G3 & _).
  rewrite run_bind, run_global_ref, run_bind, run_bmod by done.
  rewrite run_bind, run_call_method by (simpl; by rewrite (gr_exc _ _ _ G3)). simpl (jl_getConstructors _).
  apply Forall_cons in Hr as [Hr1 [Hr2 _]%Forall_cons].
  rewrite run_ret, run_bind, run_register by done. rewrite run_bind, run_register by done.
  rewrite run_no_exception by (simpl; by rewrite (gr_exc _ _ _ G3)).
  set (w4 := with_x _ _).
  assert (G4 : grows w (w_x w4) w4).
  { eapply grows_trans; [exact G3|]. split; done || (simpl; lia). }
  assert (E4 : w_x w4 = set_loader (M_classLoader (w_x w)) (with_classes l3 l3 (w_x w))).
  { simpl. rewrite (gr_x _ _ _ G3). simpl. rewrite (gr_x _ _ _ G2). simpl. rewrite (gr_x _ _ _ G1).
    unfold with_classes, set_loader, add_natives, set_loader_class, add_defined. simpl.
    by rewrite <-!app_assoc. }
  destruct (run_make_loader w4 paths) as (ll & w5 & -> & G5 & Hmade).
  - by rewrite (gr_exc _ _ _ G4).
  - rewrite E4. simpl. eauto.
  - rewrite E4. simpl. revert Hcp. unfold classpath_of. destruct (M_classpath_url (w_x w)); try done;
      by intros [= <-].
  - rewrite E4 in G5. exists l3, ll, w5. split; [done|]. split; [by eapply grows_trans|done].
Qed.

Lemma run_create_loader w paths :
  w_exc w = None → classpath_of (M_classpath_url (w_x w)) w = Ok paths w →
  ∃ lc ll w', create_loader vm env w = Ok EXSUCCEED w' ∧ grows w (with_classes lc ll (w_x w)) w' ∧
    loader_made w' paths.
Proof.
  intros Hex Hcp. pose proof (bp_memory _ _ possible) as Hm. unfold create_loader. rewrite run_bind.
  destruct (makes_find_class vm "java/lang/Class" w) as (l1 & w1 & -> & G1 & _);
    [apply boot_class; set_solver|]. rewrite run_bind.
  destruct (makes_mono _ _ _ _ _ _ G1 (makes_find_class vm "java/lang/ClassLoader" w1
    (boot_class "java/lang/ClassLoader" ltac:(set_solver)))) as (l2 & w2 & -> & G2 & _).
  rewrite run_bind, run_method_id by (apply boot_class; set_solver). cbn [negb].
  rewrite run_bind, run_method_id by (apply boot_class; set_solver). cbn [negb].
  rewrite run_bind, run_call_method by (by rewrite (gr_exc _ _ _ G2)). simpl (jl_getSystemClassLoader).
  destruct (makes_mono _ _ _ _ _ _ G2 (makes_store (JOther "java/lang/ClassLoader" []) w2))
    as (l3 & w3 & -> & G3 & _).
  rewrite run_bind, run_global_ref by done.
  pose proof (grows_trans _ _ _ _ _ G3 (grows_ticked w3)) as G4.
  assert (E4 : w_x (ticked w3) = w_x w).
  { simpl. by rewrite (gr_x _ _ _ G3), (gr_x _ _ _ G2), (gr_x _ _ _ G1). }
  destruct (run_define_classes (ticked w3) paths) as (lc & ll & w5 & -> & G5 & Hmade).
  - by rewrite (gr_exc _ _ _ G4).
  - rewrite E4. revert Hcp. unfold classpath_of. destruct (M_classpath_url (w_x w)); try done;
      by intros [= <-].
  - rewrite E4 in G5. exists lc, ll, w5. split; [done|]. split; [by eapply grows_trans|done].
Qed.

(** The machine is there. *)
Definition started (g : loader_globals) (lc ll : loc) (cp : list string) : boot_state :=
  BootState (Some lc) (Some ll) (match cp with [] => CpNull | _ => CpFreed end) g true
    (loader_classes env) loader_natives None.

Lemma run_getvm g opts cp w :
  w_x w = boot_init → w_exc w = None → boot_configured env opts cp → JNI_CreateJavaVM env opts = true →
  ∃ lc ll w', ndrxj_ldr_getvm vm env g w = Ok true w' ∧ grows w (started g lc ll cp) w' ∧ loader_made w' cp.
Proof.
  intros Hx Hex Hconf Hjvm. unfold ndrxj_ldr_getvm. rewrite run_bind, run_bmod, Hx.
  set (w1 := with_x _ w). assert (G1 : grows w (w_x w1) w1) by (split; done || (simpl; lia)).
  rewrite run_bind, run_bget, run_bind. simpl (classpath_of _).
  rewrite run_ret, run_bind. destruct (run_read_options env opts cp w1 Hconf) as (cp0 & -> & Hcp).
  rewrite run_bind, run_bmod, Z.eqb_refl, Hcp. cbn [negb]. rewrite run_bind, run_bmod, Z.eqb_refl. cbn [negb].
  rewrite Hjvm. cbn [negb]. rewrite run_bind, run_bmod.
  set (w2 := with_x _ _). assert (G2 : grows w (w_x w2) w2) by (split; done || (simpl; lia)).
  rewrite run_bind.
  destruct (run_create_loader w2 cp) as (lc & ll & w3 & -> & G3 & (l & ua & Hll & Hl & Hu & Ho & Hurl)).
  { by rewrite (gr_exc _ _ _ G2). }
  { simpl. by destruct cp. }
  rewrite run_no_exception by (by rewrite (gr_exc _ _ _ G3), (gr_exc _ _ _ G2)).
  unfold getvm_out. rewrite run_bind, run_bmod, run_ret. rewrite (gr_x _ _ _ G3) in Hll |- *.
  exists lc, ll. eexists. split; [reflexivity|]. split.
  - eapply grows_trans; [exact G2|]. eapply grows_trans; [exact G3|].
    split; try done; simpl; try lia. by destruct cp.
  - exists l, ua. split_and!; done.
Qed.

(** The array of arguments, filled up to [done]. *)
Record args_filled (w0 w : world boot_state) (la : loc) (n : nat) (done : list string) : Prop := {
  af_grows : grows w0 (w_x w0) w;
  af_new : (w_next w0 ≤ la < w_next w)%positive;
  af_array : ∃ els, w_heap w !! la = Some (JArray els) ∧ length els = n ∧
    ∀ k s, done !! k = Some s → ∃ u, els !! k = Some (Some u) ∧ u ≠ la ∧ (u < w_next w)%positive ∧
      w_heap w !! u = Some (JString s)
}.

Lemma run_fill_args w0 la n argv done w :
  w_exc w0 = None → args_filled w0 w la n done → length done + length argv = n →
  ∃ w', fill_args vm (Some la) (length done) argv w = Ok true w' ∧ args_filled w0 w' la n (done ++ argv).
Proof.
  intros Hex. revert done w. induction argv as [|a argv IH]; intros done w Hf Hn; cbn [fill_args].
  { exists w. by rewrite app_nil_r. }
  simpl in Hn. destruct Hf as [Hg Hla (els & Ha & Hlen & Hel)].
  destruct (makes_new vm (JString a) w (bp_memory _ _ possible)) as (u & w1 & Hr & G1 & Hu & Hlu).
  unfold NewStringUTF. rewrite run_bind, Hr, run_bind. unfold Jni.SetObjectArrayElement.
  assert (Ha1 : w_heap w1 !! la = Some (JArray els)) by (eapply grows_lookup; [done|lia|done]).
  rewrite run_bind, (run_deref _ _ _ Ha1), decide_True by lia. rewrite run_mmod.
  rewrite run_no_exception by (simpl; by rewrite (gr_exc _ _ _ G1), (gr_exc _ _ _ Hg)).
  set (w2 := set_obj _ _ _). pose proof (gr_next _ _ _ G1) as Hnext.
  replace (S (length done)) with (length (done ++ [a])) by (rewrite length_app; simpl; lia).
  destruct (IH (done ++ [a]) w2) as (w' & Hrun & H').
  - split; [|simpl; lia|].
    + split; simpl.
      * pose proof (gr_next _ _ _ Hg). lia.
      * intros l Hl. rewrite lookup_insert_ne by (unfold loc in *; lia).
        rewrite (gr_heap _ _ _ G1) by (pose proof (gr_next _ _ _ Hg); lia). by apply (gr_heap _ _ _ Hg).
      * by rewrite (gr_exc _ _ _ G1), (gr_exc _ _ _ Hg).
      * by rewrite (gr_pins _ _ _ G1), (gr_pins _ _ _ Hg).
      * by rewrite (gr_x _ _ _ G1), (gr_x _ _ _ Hg).
    + eexists. split; [apply lookup_insert_eq|]. split; [by rewrite length_insert|]. simpl.
      intros k s [Hk|[Hk Hs]]%lookup_app_Some.
      * destruct (Hel k s Hk) as (v & Hv & Hne & Hlv & Hsv). apply lookup_lt_Some in Hk.
        exists v. rewrite list_lookup_insert_ne, lookup_insert_ne by (done || lia).
        split_and!; [done|done|lia|by eapply grows_lookup].
      * destruct (k - length done) as [|j] eqn:E; [|by destruct j]. simplify_eq/=.
        assert (k = length done) as -> by lia. exists u. rewrite list_lookup_insert_eq by lia.
        rewrite lookup_insert_ne by (unfold loc in *; lia). split_and!; [done|unfold loc in *; lia|lia|done].
  - rewrite length_app. simpl. lia.
  - exists w'. split; [done|]. by rewrite <-app_assoc in H'.
Qed.

(** ** The main class *)

(** A table as the linker writes it. *)
Definition loader_table (g : loader_globals) : Prop :=
  sorted_index (M_class_index g) ∧ Forall entry_ok (M_class_index g) ∧
  M_class_index_len g = Z.of_nat (length (M_class_index g)) ∧ (M_class_index_len g ≤ 2 ^ 30)%Z.

Section MainClass.
Context (main_class : string) (e : ndrxj_class_index_t).
Hypothesis copies : vm_hands_copies vm.
Hypothesis Hnul : nul_free main_class.
Hypothesis Hload : ∀ w, findLoadedClass main_class w = Ok None w.
Hypothesis Hdef : define_ok env main_class = true.
Hypothesis Hmain : jvm_class_exists vm (main_class +:+ ".main") = true.

(** The Java loader asks the native method and defines the class from its bytes. *)
Lemma run_loadClass l w :
  w_exc w = None → w_heap w !! l = Some (JString main_class) →
  bs_natives (w_x w) = loader_natives → loader_table (M_index (w_x w)) →
  found (M_class_index (M_index (w_x w))) main_class = Some e →
  makes (StaticClassLoader_loadClass vm env findLoadedClass super_loadClass (Some l)) w
    (add_defined (main_class, data e) (w_x w)) (class_object main_class).
Proof.
  intros Hex Hl Hnat (Hs & He & Hlen & Hmax) Hf. unfold makes, StaticClassLoader_loadClass.
  rewrite run_bind, (run_deref _ _ _ Hl), run_bind, Hload, run_bind, run_bget, Hnat.
  rewrite decide_True by done. rewrite run_bind, run_bget, run_bind. unfold ndrxj_getClassBytes.
  rewrite Hlen in Hmax |- *.
  destruct (run_getIndexBytes vm (bp_memory _ _ possible) _ l main_class w copies Hs He Hmax Hl Hnul Hex)
    as (w1 & -> & Hp & Hex1 & Hx1 & Hn1 & Hh1). rewrite Hf in Hn1, Hh1 |- *.
  assert (G1 : grows w (w_x w) w1).
  { split; [lia| |congruence..]. intros k Hk. rewrite Hh1. apply lookup_insert_ne. unfold loc in *. lia. }
  unfold java_defineClass. rewrite run_bind. erewrite run_deref by (rewrite Hh1; apply lookup_insert_eq).
  rewrite Hdef, run_bind, run_bmod.
  pose proof (grows_trans _ _ _ _ _ G1 (grows_bmod (add_defined (main_class, data e)) w1)) as G2.
  destruct (makes_mono _ _ _ _ _ _ G2 (makes_store (class_object main_class) _)) as (lc & w3 & -> & G3 & Hv & Hlc).
  exists lc, w3. pose proof (gr_next _ _ _ G2). split_and!; [done| |done|lia|lia].
  simpl in G3. by rewrite Hx1 in G3.
Qed.

Lemma run_handler ll w :
  w_exc w = None → M_classLoader (w_x w) = Some ll →
  bs_natives (w_x w) = loader_natives → loader_table (M_index (w_x w)) →
  found (M_class_index (M_index (w_x w))) main_class = Some e →
  ∃ lc w', ndrxj_ldr_get_static_handler vm (Some ll) main_class "main" w = Ok (EXSUCCEED, Some lc) w' ∧
    grows w (set_context_loader (Some ll) (add_defined (main_class, data e) (w_x w))) w' ∧
    w_heap w' !! lc = Some (class_object main_class) ∧ (w_next w ≤ lc < w_next w')%positive.
Proof.
  intros Hex Hll Hnat Ht Hf. unfold ndrxj_ldr_get_static_handler.
  rewrite run_bind, run_method_id by (apply boot_class; set_solver). cbn [negb].
  rewrite run_bind. unfold NewStringUTF.
  destruct (makes_new vm (JString main_class) w (bp_memory _ _ possible)) as (l1 & w1 & -> & G1 & H1 & Hl1).
  rewrite run_bind, run_call_method by (by rewrite (gr_exc _ _ _ G1)). simpl (jl_loadClass _ _).
  pose proof (gr_x _ _ _ G1) as E1.
  destruct (makes_mono _ _ _ _ _ _ G1 (run_loadClass l1 w1 ltac:(by rewrite (gr_exc _ _ _ G1)) H1
    ltac:(by rewrite E1) ltac:(by rewrite E1) ltac:(by rewrite E1))) as (lc & w2 & -> & G2 & H2 & Hl2).
  rewrite E1 in G2. rewrite run_bind, run_method_id by done. cbn [negb].
  rewrite run_bind, run_FindClass by (apply boot_class; set_solver). cbn [negb].
  rewrite run_bind, run_method_id by (apply boot_class; set_solver). cbn [negb]. rewrite run_bind.
  simpl jl_currentThread.
  destruct (makes_store (JOther "java/lang/Thread" []) w2) as (lt & w3 & -> & G3 & _).
  rewrite run_bind, run_method_id by (apply boot_class; set_solver). cbn [negb].
  rewrite run_bind, run_call_method by (by rewrite (gr_exc _ _ _ G3), (gr_exc _ _ _ G2)).
  simpl (jl_setContextClassLoader _ _). rewrite run_bmod.
  rewrite run_no_exception by (simpl; by rewrite (gr_exc _ _ _ G3), (gr_exc _ _ _ G2)).
  pose proof (grows_trans _ _ _ _ _ G3 (grows_bmod (set_context_loader (Some ll)) w3)) as G4.
  rewrite (gr_x _ _ _ G3), (gr_x _ _ _ G2) in G4. exists lc. eexists. split; [reflexivity|].
  rewrite (gr_x _ _ _ G3), (gr_x _ _ _ G2). split; [by eapply grows_trans|].
  pose proof (gr_next _ _ _ G1). pose proof (gr_next _ _ _ G4).
  split_and!; [|lia|lia]. by eapply grows_lookup; [exact G4|lia|].
Qed.

(** From the entry of the process to the call of [main]. *)
Lemma run_to_main prog argv g opts cp test_mode w :
  w_x w = boot_init → w_exc w = None →
  boot_configured env opts cp → JNI_CreateJavaVM env opts = true →
  loader_table g → found (M_class_index g) main_class = Some e →
  ∃ w1 lc la, main_ready env main_class (data e) argv cp w1 lc la ∧ M_index (w_x w1) = g ∧
    ndrxj_run_main vm env (prog :: argv) main_class g test_mode w =
    if (test_mode : bool) then Ok EXSUCCEED (with_x (set_vm false (w_x w1)) w1)
    else after_main (java_main (Some lc) (Some la) w1).
Proof.
  intros Hx Hex Hconf Hjvm Ht Hf. unfold ndrxj_run_main. pose proof (bp_memory _ _ possible) as Hm.
  destruct (run_getvm g opts cp w Hx Hex Hconf Hjvm) as (lcl & ll & w1 & Hvm & G1 & Hmade).
  rewrite run_bind, Hvm, run_bind. unfold run_ldr_main.
  rewrite run_bind, run_FindClass by (apply boot_class; set_solver). cbn [negb default].
  rewrite run_bind. unfold NewObjectArray.
  destruct (makes_new vm (JArray (replicate (length argv) None)) w1 Hm) as (la & w2 & -> & G2 & Ha & Hla).
  destruct (run_fill_args w1 la (length argv) argv [] w2) as (w3 & Hrun & [G3 Hla3 (els & Hels & Hlen & Hel)]).
  { by rewrite (gr_exc _ _ _ G1). }
  { split; [done|lia|]. eexists. split; [exact Ha|]. rewrite length_replicate. by split. }
  { done. }
  simpl in Hrun, Hel. rewrite run_bind. cbn [id]. rewrite Hrun. cbn [negb].
  rewrite run_bind, run_bget, run_bind.
  pose proof (gr_x _ _ _ G1) as E1. pose proof (gr_x _ _ _ G3) as E3.
  rewrite E3, E1. cbn [M_classLoader started].
  destruct (run_handler ll w3) as (lc & w4 & -> & G4 & Hc & Hlc).
  { by rewrite (gr_exc _ _ _ G3), (gr_exc _ _ _ G1). }
  1-4: by rewrite E3, E1.
  pose proof (gr_x _ _ _ G4) as E4. rewrite E3, E1 in E4. rewrite Z.eqb_refl. cbn [negb].
  exists w4, lc, la. split; [|split; [by rewrite E4|]].
  - split; try by rewrite E4.
    + by rewrite (gr_exc _ _ _ G4), (gr_exc _ _ _ G3), (gr_exc _ _ _ G1).
    + done.
    + exists els. split; [eapply grows_lookup; [exact G4|lia|done]|].
      apply Forall2_same_length_lookup. split; [done|]. intros k o a Ho Hk.
      destruct (Hel k a Hk) as (u & Hu & _ & Hlu & Hv). simplify_eq.
      exists u. split; [done|]. by eapply grows_lookup.
    + eapply loader_made_grows; [exact (grows_trans _ _ _ _ _ G3 G4)| |done]. by rewrite E3.
    + intros c Hc'. rewrite E4. by repeat (apply elem_of_cons in Hc' as [->|Hc']; [done|]); apply elem_of_nil in Hc'.
  - assert (Hex4 : w_exc w4 = None) by (by rewrite (gr_exc _ _ _ G4), (gr_exc _ _ _ G3), (gr_exc _ _ _ G1)).
    destruct test_mode; [done|]. rewrite run_bind, run_call_method by done. simpl jl_main.
    destruct (java_main (Some lc) (Some la) w4) as [[] w5|]; [|done].
    rewrite run_bind, run_ExceptionCheck. unfold after_main. destruct (w_exc w5) as [x|] eqn:E5; [|done].
    rewrite bool_decide_true by done. cbn match. unfold EXJLD_LOG_EXCEPTION. rewrite !run_bind, run_ExceptionCheck, E5. done.
Qed.
End MainClass.
End Loader.
