(* ===== verification/BackTrace.v ===== *)
(** * Back traces (libexjlds/except.c, libsrc/c/exceptions.c)

    Both libraries turn an exception and its causes into a text: the message, a line per
    stack frame, then the cause in the same way.  The loader's copy looks its methods up and
    does not test for NULL everywhere; the binding's uses cached methods and does
    ([guarded]).  The calls are made while the exception is pending, which the interface
    does not allow: [pending_ok] tells whether the machine puts up with it. *)
From stdpp Require Import sorting strings gmap list numbers.
From S2P Require Import Prelude CString Jni ClassIndex Boot BootProofs.

Definition NEWLINE : string := String (Ascii.ascii_of_nat 10) EmptyString.

(** The methods of [java.lang.Throwable] and [java.lang.StackTraceElement]. *)
Class ThrowableJava (X : Type) := {
  th_getStackTrace : loc → M X jobject;
  th_toString : loc → M X jobject;
  th_getCause : loc → M X jobject;
  fr_toString : loc → M X jobject
}.

Section BackTrace.
Context {X : Type} `{!ThrowableJava X} (vm : jvm) (pending_ok : bool).

(** [CallObjectMethod] *)
Definition call_here {A} (receiver : jobject) (m : loc → M X A) : M X A :=
  e ← ExceptionCheck;
  if ((e : bool) && negb pending_ok)%bool then crash "Java method called with an exception pending"
  else match receiver with None => crash "NULL reference" | Some l => m l end.

(** Add the characters of a string and a line end. *)
Definition add_line (guarded : bool) (msg_obj : jobject) (s : string) : M X string :=
  match msg_obj, guarded with
  | None, true => mret s
  | _, _ =>
      '(msg_str, copy) ← GetStringUTFChars vm msg_obj;
      match msg_str with
      | None => crash "strcat of NULL"
      | Some m => (if (copy : bool) then Release msg_obj else mret tt);; mret (s +:+ m +:+ NEWLINE)
      end
  end.

(** The loop over the frames, from [i] on. *)
Fixpoint frame_loop (guarded : bool) (frames : jobject) (i n : nat) (s : string) : M X string :=
  match n with
  | 0 => mret s
  | S n' =>
      frame ← GetObjectArrayElement frames i;
      s' ← (match frame, guarded with
            | None, true => mret s
            | _, _ => msg_obj ← call_here frame fr_toString; add_line guarded msg_obj s
            end);
      frame_loop guarded frames (S i) n' s'
  end.

(** [backtrace_recursive]; each level of causes takes one unit of [fuel]. *)
Fixpoint backtrace_recursive (fuel : nat) (guarded : bool) (exc : jobject) (s : string) : M X string :=
  match fuel with
  | 0 => crash "stack overflow"
  | S fuel' =>
      frames ← call_here exc th_getStackTrace;
      match frames, guarded with
      | None, true => mret s
      | _, _ =>
          frames_length ← GetArrayLength frames;
          msg_obj ← call_here exc th_toString;
          s ← add_line guarded msg_obj s;
          s ← frame_loop guarded frames 0 (Z.to_nat frames_length) s;
          cause ← call_here exc th_getCause;
          match cause with
          | None => mret s
          | Some _ => backtrace_recursive fuel' guarded cause s
          end
      end
  end.

(** [ExceptionOccurred] *)
Definition ExceptionOccurred : M X jobject := w ← mget; mret (w_exc w).

Definition strdup (s : string) : M X (option string) :=
  ok ← ask (jvm_alloc_ok vm); mret (if (ok : bool) then Some s else None).

(** [ndrxj_exception_backtrace] (exceptions.c) *)
Definition ndrxj_exception_backtrace (fuel : nat) (exc_in : jobject) : M X (option string) :=
  exc ← (match exc_in with Some _ => mret exc_in | None => ExceptionOccurred end);
  ctrace ← backtrace_recursive fuel true exc EmptyString;
  strdup ctrace.

(** [backtrace_recursive] of except.c: without the tests. *)
Definition ldr_backtrace_recursive (fuel : nat) (exc : jobject) (s : string) : M X string :=
  backtrace_recursive fuel false exc s.

(** [ndrxj_ldr_exception_backtrace] (except.c): a method that is not found leads to
    [exstring_free] of a NULL string. *)
Definition LDR_METHODS : list string :=
  ["java/lang/Throwable.getCause"; "java/lang/Throwable.getStackTrace"; "java/lang/Throwable.toString"]%string.

Fixpoint get_mids (names : list string) : M X bool :=
  match names with
  | [] => mret true
  | n :: names' => ok ← GetMethodID vm n; if (ok : bool) then get_mids names' else mret false
  end.

Definition ndrxj_ldr_exception_backtrace (fuel : nat) (exc_in : jobject) : M X (option string) :=
  e ← ExceptionCheck;
  if ((e : bool) && negb pending_ok)%bool then crash "class looked up with an exception pending" else
  throwable_class ← FindClass vm "java/lang/Throwable";
  if negb throwable_class then crash "free of a NULL string" else
  mids ← get_mids LDR_METHODS;
  if negb mids then crash "free of a NULL string" else
  frame_class ← FindClass vm "java/lang/StackTraceElement";
  if negb frame_class then crash "free of a NULL string" else
  mid ← GetMethodID vm "java/lang/StackTraceElement.toString";
  if negb mid then crash "free of a NULL string" else
  exc ← (match exc_in with Some _ => mret exc_in | None => ExceptionOccurred end);
  ctrace ← ldr_backtrace_recursive fuel exc EmptyString;
  strdup ctrace.
End BackTrace.

(** ** Exceptions of the class library *)

(** What an exception says: its text, its frames, its cause. *)
Record throwable := Throwable { t_text : string; t_frames : list string; t_cause : option loc }.

Section Throwables.
Context {X : Type} (vm : jvm) (tbl : gmap loc throwable).

Definition of_throwable {A} (l : loc) (f : throwable → M X A) : M X A :=
  match tbl !! l with Some t => f t | None => crash "not a throwable" end.

Definition frame_object (text : string) : jval := JOther "java/lang/StackTraceElement" [AStr text].

(** New frame objects, in order. *)
Fixpoint new_frames (l : list string) : M X (list jobject) :=
  match l with
  | [] => mret []
  | f :: l' => o ← store_new (frame_object f); os ← new_frames l'; mret (o :: os)
  end.

#[export] Instance java_throwables : ThrowableJava X := {|
  th_getStackTrace l := of_throwable l (λ t, os ← new_frames (t_frames t); store_new (JArray os));
  th_toString l := of_throwable l (λ t, store_new (JString (t_text t)));
  th_getCause l := of_throwable l (λ t, mret (t_cause t));
  fr_toString l := v ← deref (Some l);
    match v with JOther _ [AStr f] => store_new (JString f) | _ => crash "not a frame" end
|}.

(** The exception, its cause, the cause of that, ... *)
Inductive causes : loc → list throwable → Prop :=
  | causes_last l t : tbl !! l = Some t → t_cause t = None → causes l [t]
  | causes_more l t l' ts : tbl !! l = Some t → t_cause t = Some l' → causes l' ts → causes l (t :: ts).

Definition lines (l : list string) : string := foldr (λ a acc, a +:+ NEWLINE +:+ acc) EmptyString l.

(** The text of a chain. *)
Definition trace_text (ts : list throwable) : string := lines (ts ≫= λ t, t_text t :: t_frames t).
End Throwables.

(** ** Proofs *)

Section Proofs.
Context {X : Type} (vm : jvm) (pending_ok : bool) (tbl : gmap loc throwable).
Hypothesis vm_mem : vm_has_memory vm.
Hypothesis vm_copy : vm_hands_copies vm.
Implicit Types (w : world X).

#[local] Instance J : ThrowableJava X := java_throwables tbl.

(** The calls are allowed. *)
Definition may_call w : Prop := pending_ok = true ∨ w_exc w = None.

Lemma may_call_grows w x w' : grows w x w' → may_call w → may_call w'.
Proof. intros Hg [?|?]; [by left|right]. by rewrite (gr_exc _ _ _ Hg). Qed.

Lemma run_call_here {A} l (m : loc → M X A) w : may_call w → call_here pending_ok (Some l) m w = m l w.
Proof.
  intros H. unfold call_here. rewrite run_bind, run_ExceptionCheck.
  destruct H as [E|E]; rewrite E; [by rewrite andb_false_r|done].
Qed.

Lemma run_add_line guarded l m s w :
  w_heap w !! l = Some (JString m) →
  ∃ w', add_line vm guarded (Some l) s w = Ok (s +:+ m +:+ NEWLINE) w' ∧ grows w (w_x w) w'.
Proof.
  intros Hl. exists (ticked (ticked w)). split; [|split; done || (simpl; lia)].
  assert (add_line vm guarded (Some l) s w = ('(msg_str, copy) ← GetStringUTFChars vm (Some l);
    match msg_str with
    | None => crash "strcat of NULL"
    | Some m => (if (copy : bool) then Release (Some l) else mret tt);; mret (s +:+ m +:+ NEWLINE)
    end) w) as -> by by destruct guarded.
  rewrite run_bind, (run_GetStringUTFChars vm l m) by done. rewrite vm_copy, run_bind.
  erewrite run_Release_head by reflexivity. rewrite run_ret. by destruct w.
Qed.

(** Frame objects for texts, below the next location. *)
Definition frames_at w (os : list jobject) (fs : list string) : Prop :=
  Forall2 (λ o f, ∃ k : loc, o = Some k ∧ (k < w_next w)%positive ∧ w_heap w !! k = Some (frame_object f)) os fs.

Lemma frames_at_grows w x w' os fs : grows w x w' → frames_at w os fs → frames_at w' os fs.
Proof.
  intros Hg Hf. eapply Forall2_impl; [exact Hf|]. intros o f (k & -> & Hk & Hv). exists k.
  pose proof (gr_next _ _ _ Hg). split_and!; [done|lia|by eapply grows_lookup].
Qed.

Lemma run_new_frames fs w :
  ∃ os w', new_frames fs w = Ok os w' ∧ grows w (w_x w) w' ∧ frames_at w' os fs.
Proof.
  revert w. induction fs as [|f fs IH]; intros w; cbn [new_frames].
  { exists [], w. split; [done|]. split; [apply grows_refl|constructor]. }
  rewrite run_bind. destruct (makes_store (frame_object f) w) as (k & w1 & -> & G1 & Hk & Hlk).
  rewrite run_bind. destruct (IH w1) as (os & w2 & -> & G2 & Hf). rewrite run_ret.
  rewrite (gr_x _ _ _ G1) in G2. exists (Some k :: os), w2. split; [done|].
  split; [by eapply grows_trans|]. constructor; [|done]. exists k. pose proof (gr_next _ _ _ G2).
  split_and!; [done|lia|eapply grows_lookup; [exact G2|lia|done]].
Qed.

Lemma run_frame_loop guarded (la : loc) fs0 fs os s w :
  may_call w → (la < w_next w)%positive → w_heap w !! la = Some (JArray os) → frames_at w os (fs0 ++ fs) →
  ∃ w', frame_loop vm pending_ok guarded (Some la) (length fs0) (length fs) s w = Ok (s +:+ lines fs) w' ∧
    grows w (w_x w) w'.
Proof.
  revert fs0 s w. induction fs as [|f fs IH]; intros fs0 s w Hc Hla Ha Hf; cbn [frame_loop length].
  { exists w. rewrite run_ret. cbn [lines foldr]. rewrite string_app_nil_r. split; [done|apply grows_refl]. }
  destruct (Forall2_lookup_r _ _ _ (length fs0) f Hf) as (o & Ho & k & -> & Hk & Hv).
  { by rewrite list_lookup_middle. }
  rewrite run_bind. unfold GetObjectArrayElement. rewrite run_bind, (run_deref _ _ _ Ha), Ho, run_ret, run_bind.
  rewrite run_bind, run_call_here by done. cbn [fr_toString java_throwables J].
  rewrite run_bind, (run_deref _ _ _ Hv). cbn [frame_object].
  destruct (makes_store (JString f) w) as (m & w1 & -> & G1 & Hm & _).
  destruct (run_add_line guarded m f s w1 Hm) as (w2 & -> & G2). rewrite (gr_x _ _ _ G1) in G2.
  pose proof (grows_trans _ _ _ _ _ G1 G2) as G3.
  replace (S (length fs0)) with (length (fs0 ++ [f])) by (rewrite length_app; simpl; lia).
  destruct (IH (fs0 ++ [f]) (s +:+ f +:+ NEWLINE) w2) as (w3 & -> & G4).
  - by eapply may_call_grows.
  - pose proof (gr_next _ _ _ G3). lia.
  - by eapply grows_lookup.
  - rewrite <-app_assoc. by eapply frames_at_grows.
  - rewrite (gr_x _ _ _ G2) in G4. exists w3. split; [|by eapply grows_trans].
    cbn [lines foldr]. by rewrite <-!string_app_assoc.
Qed.

Lemma lines_app a b : lines (a ++ b) = lines a +:+ lines b.
Proof. induction a as [|x a IH]; [done|]. cbn [lines foldr app]. unfold lines in IH. by rewrite IH, !string_app_assoc. Qed.

(** One exception: message and frames. *)
Lemma run_one guarded t l s w :
  may_call w → tbl !! l = Some t →
  ∃ la os w1 w', call_here pending_ok (Some l) th_getStackTrace w = Ok (Some la) w1 ∧
    (frames_length ← GetArrayLength (Some la);
     msg_obj ← call_here pending_ok (Some l) th_toString;
     s ← add_line vm guarded msg_obj s;
     frame_loop vm pending_ok guarded (Some la) 0 (Z.to_nat frames_length) s) w1 =
      Ok (s +:+ lines (t_text t :: t_frames t)) w' ∧ grows w (w_x w) w' ∧ w_heap w1 !! la = Some (JArray os).
Proof.
  intros Hc Ht. rewrite run_call_here by done. cbn [th_getStackTrace java_throwables J]. unfold of_throwable.
  rewrite Ht, run_bind. destruct (run_new_frames (t_frames t) w) as (os & w0 & -> & G0 & Hf).
  destruct (makes_store (JArray os) w0) as (la & w1 & -> & G01 & Ha & Hla).
  pose proof (grows_trans _ _ _ _ _ G0 G01) as G1. rewrite (gr_x _ _ _ G0) in G1. exists la, os, w1.
  rewrite run_bind. unfold GetArrayLength. rewrite run_bind, (run_deref _ _ _ Ha), run_ret, Nat2Z.id.
  rewrite run_bind, run_call_here by (by eapply may_call_grows). cbn [th_toString java_throwables J]. unfold of_throwable.
  rewrite Ht. destruct (makes_store (JString (t_text t)) w1) as (m & w2 & -> & G2 & Hm & _). rewrite run_bind.
  destruct (run_add_line guarded m (t_text t) s w2 Hm) as (w3 & -> & G3).
  pose proof (grows_trans _ _ _ _ _ G2 G3) as G23. pose proof (grows_trans _ _ _ _ _ G1 G23) as G13.
  rewrite (Forall2_length _ _ _ Hf).
  destruct (run_frame_loop guarded la [] (t_frames t) os (s +:+ t_text t +:+ NEWLINE) w3) as (w4 & Hr & G4).
  - by eapply may_call_grows.
  - pose proof (gr_next _ _ _ G23). lia.
  - eapply grows_lookup; [exact G23|lia|done].
  - eapply frames_at_grows; [exact G23|]. eapply frames_at_grows; [exact G01|exact Hf].
  - cbn [length] in Hr. rewrite Hr. exists w4. split_and!; [done| | |done].
    + cbn [lines foldr]. by rewrite <-!string_app_assoc.
    + pose proof (grows_trans _ _ _ _ _ G13 G4) as G.
      by rewrite (gr_x _ _ _ G3), (gr_x _ _ _ G2), (gr_x _ _ _ G1) in G.
Qed.

(** One level of the recursion. *)
Lemma run_level guarded fuel l t s w :
  tbl !! l = Some t → may_call w →
  ∃ w', grows w (w_x w) w' ∧
    backtrace_recursive vm pending_ok (S fuel) guarded (Some l) s w =
    match t_cause t with
    | None => Ok (s +:+ lines (t_text t :: t_frames t)) w'
    | Some l' => backtrace_recursive vm pending_ok fuel guarded (Some l') (s +:+ lines (t_text t :: t_frames t)) w'
    end.
Proof.
  intros Ht Hm. cbn [backtrace_recursive]. rewrite run_bind.
  destruct (run_one guarded t l s w Hm Ht) as (la & os & w1 & w2 & -> & Hrun & G2 & _). exists w2. split; [done|].
  rewrite run_bind in Hrun |- *. destruct (GetArrayLength (Some la) w1) as [n w3|]; [|done].
  rewrite run_bind in Hrun |- *. destruct (call_here pending_ok (Some l) th_toString w3) as [o w4|]; [|done].
  rewrite run_bind in Hrun |- *. destruct (add_line vm guarded o s w4) as [s' w5|]; [|done].
  rewrite run_bind, Hrun, run_bind, run_call_here by (by eapply may_call_grows).
  cbn [th_getCause java_throwables J]. unfold of_throwable. rewrite Ht, run_ret. by destruct (t_cause t).
Qed.

(** The text of an exception with its causes, in order. *)
Lemma run_backtrace guarded fuel l ts s w :
  causes tbl l ts → length ts ≤ fuel → may_call w →
  ∃ w', backtrace_recursive vm pending_ok fuel guarded (Some l) s w = Ok (s +:+ trace_text ts) w' ∧ grows w (w_x w) w'.
Proof.
  intros Hc. revert fuel s w. unfold trace_text.
  induction Hc as [l t Ht Hn|l t l' ts Ht Hn Hc IH]; intros fuel s w Hle Hm;
    (destruct fuel as [|fuel]; [cbn in Hle; lia|]);
    destruct (run_level guarded fuel l t s w Ht Hm) as (w2 & G2 & ->); rewrite Hn; cbn [mbind list_bind].
  - exists w2. by rewrite app_nil_r.
  - destruct (IH fuel (s +:+ lines (t_text t :: t_frames t)) w2) as (w6 & -> & G6).
    + cbn in Hle. lia.
    + by eapply may_call_grows.
    + exists w6. rewrite lines_app, string_app_assoc. split; [done|].
      rewrite (gr_x _ _ _ G2) in G6. by eapply grows_trans.
Qed.

(** Exceptions that cause each other: the recursion never ends. *)
Lemma run_cyclic guarded fuel l1 l2 t1 t2 s w :
  tbl !! l1 = Some t1 → tbl !! l2 = Some t2 → t_cause t1 = Some l2 → t_cause t2 = Some l1 → may_call w →
  backtrace_recursive vm pending_ok fuel guarded (Some l1) s w = Crash "stack overflow".
Proof.
  revert l1 l2 t1 t2 s w. induction fuel as [|fuel IH]; intros l1 l2 t1 t2 s w H1 H2 C1 C2 Hm; [done|].
  destruct (run_level guarded fuel l1 t1 s w H1 Hm) as (w2 & G2 & ->). rewrite C1.
  eapply IH; [exact H2|exact H1|done|done|]. by eapply may_call_grows.
Qed.

Lemma run_strdup s w : strdup vm s w = Ok (Some s) (ticked w).
Proof. unfold strdup. rewrite run_bind. unfold ask. by rewrite vm_mem. Qed.

(** The exception the trace is of: the argument, or the pending one. *)
Definition traced (exc_in : jobject) w : jobject := match exc_in with Some _ => exc_in | None => w_exc w end.

Lemma run_traced exc_in w l :
  traced exc_in w = Some l →
  (match exc_in with Some _ => mret exc_in | None => ExceptionOccurred end) w = Ok (Some l) w.
Proof. unfold traced. intros Ht. destruct exc_in; [by rewrite Ht|]. unfold ExceptionOccurred. by rewrite run_bind, <-Ht. Qed.

Lemma run_exception_backtrace fuel exc_in l ts w :
  traced exc_in w = Some l → causes tbl l ts → length ts ≤ fuel → may_call w →
  ∃ w', ndrxj_exception_backtrace vm pending_ok fuel exc_in w = Ok (Some (trace_text ts)) w' ∧ grows w (w_x w) w'.
Proof.
  intros Ht Hc Hle Hm. unfold ndrxj_exception_backtrace.
  rewrite run_bind, (run_traced _ _ _ Ht), run_bind. destruct (run_backtrace true fuel l ts EmptyString w Hc Hle Hm) as (w1 & -> & G1).
  rewrite run_strdup, string_app_nil_l. eexists. split; [reflexivity|].
  pose proof (grows_trans _ _ _ _ _ G1 (grows_ticked w1)) as G. by rewrite (gr_x _ _ _ G1) in G.
Qed.

Lemma run_ldr_backtrace fuel exc_in l ts w :
  Forall (λ c, jvm_class_exists vm c = true)
    (["java/lang/Throwable"; "java/lang/StackTraceElement"; "java/lang/StackTraceElement.toString"]%string ++ LDR_METHODS) →
  traced exc_in w = Some l → causes tbl l ts → length ts ≤ fuel → may_call w →
  ∃ w', ndrxj_ldr_exception_backtrace vm pending_ok fuel exc_in w = Ok (Some (trace_text ts)) w' ∧ grows w (w_x w) w'.
Proof.
  intros Hcls Ht Hc Hle Hm. unfold ndrxj_ldr_exception_backtrace.
  unfold LDR_METHODS in *. cbn [app] in Hcls. rewrite !Forall_cons in Hcls. destruct Hcls as (C1 & C2 & C3 & C4 & C5 & C6 & _).
  rewrite run_bind, run_ExceptionCheck.
  assert ((bool_decide (w_exc w ≠ None) && negb pending_ok)%bool = false) as ->.
  { destruct Hm as [E|E]; rewrite E; [by rewrite andb_false_r|done]. }
  rewrite run_bind, run_FindClass by done. cbn [negb get_mids].
  rewrite run_bind, run_bind, run_method_id, run_bind, run_method_id, run_bind, run_method_id, run_ret by done. cbn [negb].
  rewrite run_bind, run_FindClass by done. cbn [negb]. rewrite run_bind, run_method_id by done. cbn [negb].
  rewrite run_bind, (run_traced _ _ _ Ht), run_bind. unfold ldr_backtrace_recursive.
  destruct (run_backtrace false fuel l ts EmptyString w Hc Hle Hm) as (w1 & -> & G1).
  rewrite run_strdup, string_app_nil_l. eexists. split; [reflexivity|].
  pose proof (grows_trans _ _ _ _ _ G1 (grows_ticked w1)) as G. by rewrite (gr_x _ _ _ G1) in G.
Qed.
End Proofs.

