(* ===== verification/Xatmi.v ===== *)
(** * The Enduro/X library as the Java binding calls it

    The XATMI functions are code of another project: each is a field of the class
    [Xatmi], a state transformer of that library's own state.  [XatmiLaws] names the
    documented facts the binding relies on.  A toy instance shows they can hold. *)
From stdpp Require Import sorting strings gmap list numbers.
From S2P Require Import Prelude CString Jni.

(** Private data of a C context (the [integptr] fields of [ndrx_ctx_priv_t], named
    by the macros of libsrc.h). *)
Record ctx_priv := CtxPriv {
  NDRXJ_JATMICTX : jobject;
  NDRXJ_CCTX : Z;
  NDRXJ_CTXFLAGS : Z
}.
Definition NDRXJ_CTXFLAGS_SRV : Z := 1.

Definition TPNULLCONTEXT : Z := 0.

(** XATMI error codes the binding tests for. *)
Definition TPEINVAL : Z := 4.
Definition TPESVCFAIL : Z := 11.
Definition TPESYSTEM : Z := 12.
Definition TPEEVENT : Z := 22.
Definition TPEDIAGNOSTIC : Z := 24.

(** Library calls that report success or failure by their result. *)
Inductive xop :=
  | Op_tpinit
  | Op_tpopen
  | Op_tpclose
  | Op_tpbegin (timeout flags : Z)
  | Op_tpcommit (flags : Z)
  | Op_tpabort (flags : Z)
  | Op_tptoutset (tout : Z)
  | Op_tpsrvsetctxdata (dataptr flags : Z)
  | Op_tpsrvgetctxdata
  | Op_tptoutget
  | Op_tpgetlev
  | Op_tpurcode
  | Op_tplogqinfo (lev flags : Z)
  | Op_Bfldid (fldnm : option string)
  | Op_tplogsetreqfile (buf : Z) (filename filesvc : option string)
  | Op_tplogdelbufreqfile (buf : Z)
  | Op_tplogconfig (logger lev : Z) (debug_string module new_file : option string).

(** Library calls without a result. *)
Inductive xrun :=
  | Run_tpterm
  | Run_tpcancel (cd : Z)
  | Run_tpcontinue
  | Run_tpsrvfreectxdata (dataptr : Z)
  | Run_tpreturn (rval rcode buf len flags : Z)
  | Run_tpforward (svc : option string) (buf len flags : Z)
  | Run_userlog (msg : option string)
  | Run_tplog (lev : Z) (msg : option string)
  | Run_tplogex (lev : Z) (file : option string) (line : Z) (msg : option string)
  | Run_Otplog (ctx lev : Z) (msg : option string)
  | Run_Otplogex (ctx lev : Z) (file : option string) (line : Z) (msg : option string)
  | Run_tplogdump (lev : Z) (msg : option string) (b : list Z) (len : Z)
  | Run_tplogdumpdiff (lev : Z) (msg : option string) (b1 b2 : list Z) (len : Z)
  | Run_log_exception (facility lev : Z) (msg : option string) (exc : jobject)
  | Run_tplogsetreqfile_direct (filename : option string)
  | Run_tplogclosereqfile.

(** Look-ups of a text; NULL on error: field types and names, and request log files. *)
Inductive xname :=
  | Name_Btype (bfldid : Z)
  | Name_Bfname (bfldid : Z)
  | Name_tploggetbufreqfile (buf : Z)
  | Name_tploggetreqfile.

Class Xatmi := {
  xst : Type;
  MAX_ERROR_LEN : nat;
  x_op : xop → xst → Z * xst;
  x_run : xrun → xst → xst;
  x_name : xname → xst → option string * xst;
  Nerror : xst → Z;
  Nstrerror : Z → string;
  ndrx_Necodestr : Z → string;
  Berror : xst → Z;
  Bstrerror : Z → string;
  Becodestr : Z → string;
  (** [ndrx_buffer_list]: the addresses of the allocated buffers, or failure *)
  ndrx_buffer_list : xst → option (list Z) * xst;
  (** the context of the calling thread *)
  x_ctx : xst → Z;
  tpsetctxt : Z → xst → xst;
  tpnewctxt : xst → Z * xst;
  tpfreectxt : Z → xst → xst;
  ndrx_ctx_priv_get : xst → ctx_priv;
  ndrx_ctx_priv_put : ctx_priv → xst → xst;
  tperrno : xst → Z;
  tpstrerror : Z → string;
  tpecodestr : Z → string;
  (** size or -1, type, subtype *)
  tptypes : Z → xst → (Z * string * string) * xst;
  tpalloc : string → option string → Z → xst → Z * xst;
  tprealloc : Z → Z → xst → Z * xst;
  tpfree : Z → xst → xst;
  (** service, buffer, length, flags; result, output buffer and length *)
  tpcall : option string → Z → Z → Z → xst → (Z * Z * Z) * xst;
  tpacall : option string → Z → Z → Z → xst → Z * xst;
  (** descriptor, buffer, length, flags; result, descriptor, buffer, length *)
  tpgetrply : Z → Z → Z → Z → xst → (Z * Z * Z * Z) * xst;
  tpconnect : option string → Z → Z → Z → xst → Z * xst;
  (** result, buffer, length, event *)
  tprecv : Z → Z → Z → Z → xst → (Z * Z * Z * Z) * xst;
  (** result, event *)
  tpsend : Z → Z → Z → Z → xst → (Z * Z) * xst;
  tpdiscon : Z → xst → Z * xst
}.

(** Documented behaviour: [tpsetctxt] makes its argument the thread's context, and
    only the context functions change it. *)
Class XatmiLaws `{Xatmi} : Prop := {
  keep_ctx_op o x : x_ctx (x_op o x).2 = x_ctx x;
  keep_ctx_run o x : x_ctx (x_run o x) = x_ctx x;
  keep_ctx_name o x : x_ctx (x_name o x).2 = x_ctx x;
  keep_ctx_list x : x_ctx (ndrx_buffer_list x).2 = x_ctx x;
  keep_ctx_new x : (tpnewctxt x).1 = 0%Z → x_ctx (tpnewctxt x).2 = x_ctx x;
  keep_ctx_free c x : x_ctx x = TPNULLCONTEXT → x_ctx (tpfreectxt c x) = TPNULLCONTEXT;
  keep_ctx_set c x : x_ctx (tpsetctxt c x) = c;
  keep_ctx_priv p x : x_ctx (ndrx_ctx_priv_put p x) = x_ctx x;
  keep_ctx_types b x : x_ctx (tptypes b x).2 = x_ctx x;
  keep_ctx_alloc t s n x : x_ctx (tpalloc t s n x).2 = x_ctx x;
  keep_ctx_realloc b n x : x_ctx (tprealloc b n x).2 = x_ctx x;
  keep_ctx_call s b n f x : x_ctx (tpcall s b n f x).2 = x_ctx x;
  keep_ctx_acall s b n f x : x_ctx (tpacall s b n f x).2 = x_ctx x;
  keep_ctx_getrply c b n f x : x_ctx (tpgetrply c b n f x).2 = x_ctx x;
  keep_ctx_connect s b n f x : x_ctx (tpconnect s b n f x).2 = x_ctx x;
  keep_ctx_recv c b n f x : x_ctx (tprecv c b n f x).2 = x_ctx x;
  keep_ctx_send c b n f x : x_ctx (tpsend c b n f x).2 = x_ctx x;
  keep_ctx_discon c x : x_ctx (tpdiscon c x).2 = x_ctx x
}.

Section Calls.
Context `{Xatmi}.

(** Run a library function on the library's part of the state. *)
Definition xcall {A} (f : xst → A * xst) : M xst A := λ w,
  let '(a, x) := f (w_x w) in Ok a (with_x x w).
Definition xmod (f : xst → xst) : M xst unit := λ w, Ok tt (with_x (f (w_x w)) w).
Definition xget {A} (f : xst → A) : M xst A := λ w, Ok (f (w_x w)) w.

(** [tpsetctxt(TPNULLCONTEXT, 0L)] *)
Definition unset_ctx : M xst unit := xmod (tpsetctxt TPNULLCONTEXT).
End Calls.
