(* ===== verification/Exceptions.v ===== *)
(** * libsrc/c/exceptions.c and the class cache of MetaCache.c

    How native code raises a Java exception for an XATMI error: the class is named
    after the error code, looked up in the dynamic cache or in the virtual machine,
    instantiated, given its data and made pending. *)
From stdpp Require Import sorting strings gmap list numbers.
From S2P Require Import Prelude CString Jni Xatmi.

Definition ERROR_MAX : nat := 1024.

Section Exceptions.
Context `{Xatmi} (vm : jvm).

(** [NDRXJ_LOG_EXCEPTION] (libsrc.h): logs the back trace of the pending
    exception, which stays pending.  The macro makes the back trace by calling methods of
    the exception while it is pending; the virtual machine is taken to put up with that, as
    common ones do, and the texts it makes ([BackTrace]) are not kept as objects.  Without
    an exception, [ndrxj_exception_backtrace] hands NULL to [CallObjectMethod]. *)
Definition NDRXJ_LOG_EXCEPTION : M xst unit :=
  e ← ExceptionCheck;
  if (e : bool) then mret tt else crash "back trace of a NULL exception".

(** [ndrxj_caches_get]: is the class cached? *)
Definition ndrxj_caches_get (class_name : string) : M xst bool :=
  w ← mget; mret (bool_decide (class_name ∈ w_cache w)).

(** [ndrxj_caches_add]: false when the cell or its weak reference cannot be
    allocated. *)
Definition ndrxj_caches_add (class_name : string) : M xst bool :=
  cell ← ask (jvm_alloc_ok vm);
  if (cell : bool) then
    ref ← ask (jvm_alloc_ok vm);
    if (ref : bool) then
      mmod (λ w, with_cache (w_cache w ++ [strcpy_safe 256 class_name]) w);; mret true
    else throw_vm "java/lang/OutOfMemoryError";; mret false
  else mret false.

(** [ndrxj_caches_single]: is there a usable class? *)
Definition ndrxj_caches_single (class_name : string) : M xst bool :=
  cached ← ndrxj_caches_get class_name;
  if (cached : bool) then mret true
  else
    ok ← FindClass vm class_name;
    if (ok : bool) then ndrxj_caches_add class_name else mret false.

Definition atmi_exception_class (err : Z) : string :=
  strcpy_safe 256 ("org/endurox/exceptions/Atmi" +:+ tpecodestr err +:+ "Exception").

(** Store into the [data] and [qctl] fields of the exception object. *)
Definition set_throwable (exc : loc) (f : jobject → jobject → jobject * jobject) : M xst unit :=
  v ← deref (Some exc);
  match v with
  | JThrowable c m d q => let '(d', q') := f d q in mmod (set_obj exc (JThrowable c m d' q'))
  | _ => crash "not a throwable"
  end.

(** [GetMethodID] and [GetFieldID] in a class: NULL and a pending error when the member is
    not there. *)
Definition get_member (error cls member : string) : M xst bool :=
  if jvm_class_exists vm (cls +:+ "." +:+ member) then mret true
  else throw_vm error;; mret false.

(** The class of the exception with its constructor and fields; [false]: the function
    returns, with the error of the look-up pending. *)
Definition exception_class (cls : string) (err : Z) : M xst bool :=
  cached ← ndrxj_caches_get cls;
  if (cached : bool) then mret true
  else
    ok ← FindClass vm cls;
    if (ok : bool) then
      mid1 ← get_member "java/lang/NoSuchMethodError" cls "<init>";
      if (mid1 : bool) then
        (if bool_decide (err = TPEDIAGNOSTIC) then
           fid1 ← get_member "java/lang/NoSuchFieldError" cls "qctl";
           if (fid1 : bool) then mret tt else NDRXJ_LOG_EXCEPTION
         else mret tt);;
        fid2 ← get_member "java/lang/NoSuchFieldError" cls "data";
        if (fid2 : bool) then
          added ← ndrxj_caches_add cls;
          if (added : bool) then mret true else NDRXJ_LOG_EXCEPTION;; crash "abort"
        else NDRXJ_LOG_EXCEPTION;; mret false
      else NDRXJ_LOG_EXCEPTION;; mret false
    else crash "abort".

(** [ndrxj_atmi_throw]; the field [qctl] of a cached class has an id if its look-up found
    one. *)
Definition ndrxj_atmi_throw (data addarg1 : jobject) (err : Z) (msg : string) : M xst unit :=
  let error := strcpy_safe ERROR_MAX msg in
  jerror ← NewStringUTF vm error;
  let cls := atmi_exception_class err in
  ready ← exception_class cls err;
  if negb ready then mret tt else
  exception ← jni_new vm (JThrowable cls (match jerror with Some _ => error | None => EmptyString end)
                                     None None);
  match exception with
  | None => NDRXJ_LOG_EXCEPTION
  | Some exc =>
      (match data with
       | Some _ => set_throwable exc (λ _ q, (data, q))
       | None => mret tt
       end);;
      (if bool_decide (addarg1 ≠ None ∧ err = TPEDIAGNOSTIC)
       then if jvm_class_exists vm (cls +:+ ".qctl") then set_throwable exc (λ d _, (d, addarg1))
            else crash "NULL field id"
       else mret tt);;
      Throw (Some exc)
  end.

(** [ndrxj_nullptr_throw] *)
Definition ndrxj_nullptr_throw (msg : string) : M xst unit :=
  let error := strcpy_safe ERROR_MAX msg in
  jerror ← NewStringUTF vm error;
  exception ← jni_new vm (JThrowable "java/lang/NullPointerException"
                 (match jerror with Some _ => error | None => EmptyString end) None None);
  match exception with
  | None => NDRXJ_LOG_EXCEPTION
  | Some _ => Throw exception
  end.

(** [ThrowNew] of the environment. *)
Definition ThrowNew (cls error : string) : M xst unit :=
  exception ← jni_new vm (JThrowable cls error None None);
  match exception with Some _ => Throw exception | None => mret tt end.

(** [ndrxj_nstd_throw] and [ndrxj_ubf_throw], [codestr] being the name the
    respective library gives the error code. *)
Definition ndrxj_nstd_throw (codestr msg : string) : M xst unit :=
  let cls := strcpy_safe 256 ("org/endurox/exceptions/Nstd" +:+ codestr +:+ "Exception") in
  cached ← ndrxj_caches_single cls;
  if (cached : bool) then ThrowNew cls (strcpy_safe ERROR_MAX msg) else crash "abort".

Definition ndrxj_ubf_throw (codestr msg : string) : M xst unit :=
  let cls := strcpy_safe 256 ("org/endurox/exceptions/Ubf" +:+ codestr +:+ "Exception") in
  cached ← ndrxj_caches_single cls;
  if (cached : bool) then ThrowNew cls (strcpy_safe ERROR_MAX msg) else crash "abort".
End Exceptions.
