(* ===== verification/TypedBuffer.v ===== *)
(** * libsrc/c/TypedBuffer.c: Java objects that stand for XATMI buffers

    A [TypedBuffer] object holds a C pointer, a length and the flag
    [doFinalize]: the object whose flag is set frees the buffer when Java collects
    it.  Here: switching the thread to the object's context ([ndrxj_get_ctx] of
    AtmiCtx.c), creating, reading and updating the objects, and [result_prep], which
    decides after a call whether the caller's object is reused or replaced. *)
From stdpp Require Import sorting strings gmap list numbers.
From S2P Require Import Prelude CString Jni Xatmi Exceptions.

Section TypedBuffer.
Context `{Xatmi} (vm : jvm).

(** ** Field access *)

Definition get_tb (o : jobject) : M xst (loc * typed_buffer) :=
  v ← deref o;
  match v, o with
  | JTypedBuffer t, Some l => mret (l, t)
  | _, _ => crash "not a TypedBuffer"
  end.

Definition upd_tb (o : jobject) (f : typed_buffer → typed_buffer) : M xst unit :=
  '(l, t) ← get_tb o; mmod (set_obj l (JTypedBuffer (f t))).

Definition set_cPtr (p : Z) (t : typed_buffer) : typed_buffer :=
  TypedBuffer (tb_class t) (tb_ctx t) (tb_doFinalize t) p (tb_len t).
Definition set_len (n : Z) (t : typed_buffer) : typed_buffer :=
  TypedBuffer (tb_class t) (tb_ctx t) (tb_doFinalize t) (tb_cPtr t) n.
Definition set_doFinalize (b : bool) (t : typed_buffer) : typed_buffer :=
  TypedBuffer (tb_class t) (tb_ctx t) b (tb_cPtr t) (tb_len t).

Definition set_ctx (o : jobject) (t : typed_buffer) : typed_buffer :=
  TypedBuffer (tb_class t) o (tb_doFinalize t) (tb_cPtr t) (tb_len t).

(** ** AtmiCtx.c: [ndrxj_get_ctx] *)

(** The private data of the context just set: the weak reference to the Java
    context object is renewed when it denotes another object. *)
Definition refresh_priv (atmiCtxObj : jobject) (ctx : Z) : M xst unit :=
  p ← xget ndrx_ctx_priv_get;
  if bool_decide (Z.land (NDRXJ_CTXFLAGS p) NDRXJ_CTXFLAGS_SRV ≠ 0%Z) then mret tt
  else
    ref ← (if bool_decide (NDRXJ_JATMICTX p ≠ None ∧ NDRXJ_JATMICTX p ≠ atmiCtxObj) then
             DeleteWeakGlobalRef (NDRXJ_JATMICTX p);; NewWeakGlobalRef vm atmiCtxObj
           else mret (NDRXJ_JATMICTX p));
    ref' ← (if bool_decide (ref = None) then NewWeakGlobalRef vm atmiCtxObj else mret ref);
    xmod (ndrx_ctx_priv_put (CtxPriv ref' ctx (NDRXJ_CTXFLAGS p))).

(** The context pointer of the object, 0 with a pending exception if it has none. *)
Definition ndrxj_get_ctx (atmiCtxObj : jobject) (do_set : bool) : M xst Z :=
  v ← deref atmiCtxObj;
  match v with
  | JAtmiCtx ctx _ =>
      if bool_decide (ctx = 0%Z) then
        ndrxj_atmi_throw vm None None TPEINVAL "NULL C context for ATMI Context OP!";; mret 0%Z
      else if do_set then
        xmod (tpsetctxt ctx);; refresh_priv atmiCtxObj ctx;; mret ctx
      else mret ctx
  | _ => crash "not an AtmiCtx"
  end.

(** ** TypedBuffer.c *)

Definition ndrxj_TypedBuffer_finalize_transfer (to_data from_data : jobject) (from_invalidate : bool)
    : M xst Z :=
  '(_, t) ← get_tb from_data;
  upd_tb to_data (set_doFinalize (tb_doFinalize t));;
  upd_tb from_data (set_doFinalize false);;
  (if from_invalidate then upd_tb from_data (set_cPtr 0) else mret tt);;
  ex ← ExceptionCheck;
  if (ex : bool) then NDRXJ_LOG_EXCEPTION;; mret EXFAIL else mret EXSUCCEED.

Definition ndrxj_TypedBuffer_get_ctx (atmiBufObj : jobject) (do_set : bool) : M xst Z :=
  '(_, t) ← get_tb atmiBufObj;
  match tb_ctx t with
  | None => NDRXJ_LOG_EXCEPTION;; mret 0%Z
  | Some _ => ndrxj_get_ctx (tb_ctx t) do_set
  end.

(** [TypedBuffer.tpfree], run by finalizers: in a context of its own. *)
Definition Java_TypedBuffer_tpfree (cPtr : Z) : M xst unit :=
  ctx ← xcall tpnewctxt;
  xmod (tpfree cPtr);;
  unset_ctx;;
  xmod (tpfreectxt ctx).

(** [TypedBuffer.cleanup] (TypedBuffer.java), called by hand or by the finalizer. *)
Definition Java_TypedBuffer_cleanup (data : jobject) : M xst unit :=
  upd_tb data (set_ctx None);;
  '(_, t) ← get_tb data;
  if tb_doFinalize t && negb (tb_cPtr t =? 0)%Z then
    Java_TypedBuffer_tpfree (tb_cPtr t);; upd_tb data (set_cPtr 0)
  else mret tt.

(** The Java class for an XATMI buffer type; [None]: not supported. *)
Definition buffer_class (p_type : string) : option string :=
  if has_prefix "UBF" p_type || has_prefix "FML" p_type then Some "org/endurox/TypedUbf"
  else if String.eqb p_type "CARRAY" then Some "org/endurox/TypedCarray"
  else if String.eqb p_type "STRING" then Some "org/endurox/TypedString"
  else if String.eqb p_type "VIEW" then Some "org/endurox/TypedView"
  else if String.eqb p_type "JSON" then Some "org/endurox/TypedJson"
  else if String.eqb p_type "TPINIT" then Some "org/endurox/TypedTpInit"
  else None.

(** The part of [translate] after the type is known. *)
Definition translate_typed (ctx_obj : jobject) (data len : Z) (p_type : string) (finalize : bool)
    : M xst jobject :=
  if String.eqb p_type "NULL" then mret None
  else
    match buffer_class p_type with
    | Some clazz => jni_new vm (JTypedBuffer (TypedBuffer clazz ctx_obj finalize data len))
    | None =>
        ndrxj_atmi_throw vm None None TPEINVAL ("buffer type [" +:+ p_type +:+ "] not supported");;
        mret None
    end.

(** [ndrxj_atmi_TypedBuffer_translate]; [type] is [None] when the caller passes
    NULL and the library is asked for it. *)
Definition ndrxj_atmi_TypedBuffer_translate (ctx_obj : jobject) (is_ctxset : bool) (data len : Z)
    (type : option string) (finalize : bool) : M xst jobject :=
  set ← (if is_ctxset then mret true
         else c ← ndrxj_get_ctx ctx_obj true; mret (negb (c =? 0)%Z));
  if (set : bool) then
    ret ← (match type with
           | Some t => translate_typed ctx_obj data len t finalize
           | None =>
               if (data =? 0)%Z then translate_typed ctx_obj data len "NULL" finalize
               else
                 '(r, t, _) ← xcall (tptypes data);
                 if (r =? EXFAIL)%Z then
                   e ← xget tperrno;
                   ndrxj_atmi_throw vm None None e (tpstrerror e);; mret None
                 else translate_typed ctx_obj data len t finalize
           end);
    (if is_ctxset then mret tt else unset_ctx);;
    mret ret
  else mret None.

(** [ndrxj_atmi_TypedBuffer_get_buffer]: return code, pointer, length and flag.
    For a NULL object only the pointer is stored; the callers' length is [len0]. *)
Definition ndrxj_atmi_TypedBuffer_get_buffer (data : jobject) (len0 : Z)
    (unsetDoFinalize unsetPtr : bool) : M xst (Z * Z * Z * bool) :=
  match data with
  | None => mret (EXSUCCEED, 0%Z, len0, false)
  | Some _ =>
      '(_, t) ← get_tb data;
      (if unsetPtr then upd_tb data (set_cPtr 0) else mret tt);;
      (if unsetDoFinalize then upd_tb data (set_doFinalize false) else mret tt);;
      ex ← ExceptionCheck;
      if (ex : bool) then NDRXJ_LOG_EXCEPTION;; mret (EXFAIL, tb_cPtr t, tb_len t, tb_doFinalize t)
      else mret (EXSUCCEED, tb_cPtr t, tb_len t, tb_doFinalize t)
  end.

Definition ndrxj_atmi_TypedBuffer_set_buffer (data : jobject) (buf len : Z) : M xst Z :=
  upd_tb data (set_cPtr buf);; upd_tb data (set_len len);; mret EXSUCCEED.

(** [TypedBuffer.tprealloc] *)
Definition Java_TypedBuffer_tprealloc (data : jobject) (size : Z) : M xst unit :=
  c ← ndrxj_TypedBuffer_get_ctx data true;
  if (c =? 0)%Z then mret tt
  else
    '(r, buf, len, _) ← ndrxj_atmi_TypedBuffer_get_buffer data 0 false false;
    (if (r =? EXSUCCEED)%Z then
       buf' ← xcall (tprealloc buf size);
       if (buf' =? 0)%Z then
         e ← xget tperrno; ndrxj_atmi_throw vm None None e (tpstrerror e)
       else ndrxj_atmi_TypedBuffer_set_buffer data buf' len;; mret tt
     else mret tt);;
    unset_ctx.

(** The branch of [result_prep] for an unchanged type. *)
Definition reuse_object (data : jobject) (idata ilen odata olen : Z) : M xst jobject :=
  (if (ilen =? olen)%Z then mret tt else upd_tb data (set_len olen));;
  (if bool_decide (idata ≠ odata ∧ data ≠ None) then upd_tb data (set_cPtr odata) else mret tt);;
  mret data.

(** The branch for a changed type: the old object gives up the buffer. *)
Definition replace_object (ctx_obj data : jobject) (odata olen : Z) (otype : string) : M xst jobject :=
  finalizeOrg ← (match data with
                 | Some _ => '(_, t) ← get_tb data;
                             upd_tb data (set_doFinalize false);; mret (tb_doFinalize t)
                 | None => mret true
                 end);
  if (odata =? 0)%Z then mret None
  else ndrxj_atmi_TypedBuffer_translate ctx_obj true odata olen (Some otype) finalizeOrg.

(** [ndrxj_atmi_TypedBuffer_result_prep] *)
Definition ndrxj_atmi_TypedBuffer_result_prep (ctx_obj data : jobject)
    (idata ilen odata olen : Z) (itype : string) : M xst jobject :=
  t ← (if (odata =? 0)%Z then mret (Some "NULL"%string)
       else
         '(r, t, _) ← xcall (tptypes odata);
         if (r =? EXFAIL)%Z then
           e ← xget tperrno;
           ndrxj_atmi_throw vm None None e ("Failed to get odata type infos: " +:+ tpstrerror e);;
           mret None
         else mret (Some t));
  match t with
  | None => mret None
  | Some otype =>
      if String.eqb otype itype then
        if bool_decide (idata = odata ∧ ilen = olen) then mret data
        else reuse_object data idata ilen odata olen
      else replace_object ctx_obj data odata olen otype
  end.

(** [ndrxj_TpTypesResult_new] and [TypedBuffer.tptypes] *)
Definition ndrxj_TpTypesResult_new (btype stype : string) (size : Z) : M xst jobject :=
  jtype ← NewStringUTF vm btype;
  jsub_type ← NewStringUTF vm stype;
  jni_new vm (JOther "org/endurox/TpTypesResult" [AObj jtype; AObj jsub_type; ALong size]).

Definition Java_TypedBuffer_tptypes (data : jobject) : M xst jobject :=
  c ← ndrxj_TypedBuffer_get_ctx data true;
  if (c =? 0)%Z then mret None
  else
    '(r, cdata, _, _) ← ndrxj_atmi_TypedBuffer_get_buffer data 0 false false;
    ret ← (if (r =? EXSUCCEED)%Z then
             '(size, btype, stype) ← xcall (tptypes cdata);
             if (size =? EXFAIL)%Z then
               e ← xget tperrno; ndrxj_atmi_throw vm data None e (tpstrerror e);; mret None
             else if (String.length btype <? 16) && (String.length stype <? 16) then
               ndrxj_TpTypesResult_new btype stype size
             else crash "char [16] overrun"
           else mret None);
    unset_ctx;; mret ret.
End TypedBuffer.
