(* ===== verification/Calls.v ===== *)
(** * libsrc/c/tpcallj.c and conversations.c: service calls

    The native methods behind [AtmiCtx.tpcall], [tpacall], [tpgetrply] and the
    conversational [tpconnect], [tprecv], [tpsend], [tpdiscon].  Each method is the
    whole C function: switch to the object's context, take the buffer out of the
    Java object, call the library, bring the result or the error back, release what
    was acquired and leave the context.  The [goto out] exits are the branches that
    skip to the release. *)
From stdpp Require Import sorting strings gmap list numbers.
From S2P Require Import Prelude CString Jni Xatmi Exceptions TypedBuffer.

Section Calls.
Context `{Xatmi} (vm : jvm).

(** [char errbuf[MAX_ERROR_LEN+1]] *)
Definition errbuf (err : Z) : string := strcpy_safe (MAX_ERROR_LEN + 1) (tpstrerror err).

(** [if (n_svc_copy) ReleaseStringUTFChars(env, svc, n_svc)] *)
Definition release_if (copy : bool) (o : jobject) : M xst unit :=
  if copy then Release o else mret tt.

(** The input buffer of a call: [None] when an exception was raised. *)
Definition input_buffer (idata : jobject) : M xst (option (Z * Z)) :=
  match idata with
  | None => mret (Some (0, 0)%Z)
  | Some _ =>
      '(r, ibuf, ilen, _) ← ndrxj_atmi_TypedBuffer_get_buffer idata 0 false false;
      if (r =? EXSUCCEED)%Z then mret (Some (ibuf, ilen)) else mret None
  end.

(** The same with the buffer type; [itype0] is the initialiser of [itype]. *)
Definition input_typed (idata : jobject) (itype0 : string) : M xst (option (Z * Z * string)) :=
  b ← input_buffer idata;
  match b, idata with
  | None, _ => mret None
  | Some (ibuf, ilen), None => mret (Some (ibuf, ilen, itype0))
  | Some (ibuf, ilen), Some _ =>
      '(r, itype, _) ← xcall (tptypes ibuf);
      if (r =? EXFAIL)%Z then
        e ← xget tperrno;
        ndrxj_atmi_throw vm None None e ("Failed to get odata type infos: " +:+ tpstrerror e);;
        mret None
      else mret (Some (ibuf, ilen, itype))
  end.

(** The error branch of [tpcall]/[tpgetrply]: a failed service returns its
    buffer with the exception. *)
Definition throw_call_error (ctx_obj idata : jobject) (ibuf ilen obuf olen : Z) (itype : string) (err : Z)
    : M xst unit :=
  errdatabuf ← (if (err =? TPESVCFAIL)%Z then
                  ndrxj_atmi_TypedBuffer_result_prep vm ctx_obj idata ibuf ilen obuf olen itype
                else mret idata);
  ndrxj_atmi_throw vm errdatabuf None err (errbuf err).

(** [AtmiCtx.tpcall] *)
Definition Java_AtmiCtx_tpcall (atmiCtxObj svc idata : jobject) (flags : Z) : M xst jobject :=
  ctx ← ndrxj_get_ctx vm atmiCtxObj true;
  ret ← (if (ctx =? 0)%Z then mret None
         else
           inp ← input_typed idata "NULL";
           match inp with
           | None => mret None
           | Some (ibuf, ilen, itype) =>
               '(n_svc, n_svc_copy) ← GetStringUTFChars vm svc;
               '(r, obuf, olen) ← xcall (tpcall n_svc ibuf ilen flags);
               ret ← (if (r =? EXSUCCEED)%Z then
                        ndrxj_atmi_TypedBuffer_result_prep vm atmiCtxObj idata ibuf ilen obuf olen itype
                      else
                        err ← xget tperrno;
                        throw_call_error atmiCtxObj idata ibuf ilen obuf olen itype err;; mret None);
               release_if n_svc_copy svc;;
               mret ret
           end);
  unset_ctx;; mret ret.

(** The common shape of [tpacall] and [tpconnect]: a descriptor, or the error
    value when [failed] holds of it. *)
Definition call_for_cd (call : option string → Z → Z → Z → xst → Z * xst) (failed : Z → bool)
    (atmiCtxObj svc idata : jobject) (flags : Z) : M xst Z :=
  ctx ← ndrxj_get_ctx vm atmiCtxObj true;
  ret ← (if (ctx =? 0)%Z then mret EXFAIL
         else
           inp ← input_buffer idata;
           match inp with
           | None => mret EXFAIL
           | Some (ibuf, ilen) =>
               '(n_svc, n_svc_copy) ← GetStringUTFChars vm svc;
               ret ← xcall (call n_svc ibuf ilen flags);
               (if failed ret then
                  err ← xget tperrno; ndrxj_atmi_throw vm idata None err (errbuf err)
                else mret tt);;
               release_if n_svc_copy svc;;
               mret ret
           end);
  unset_ctx;; mret ret.

(** [AtmiCtx.tpacall] *)
Definition Java_AtmiCtx_tpacall (atmiCtxObj svc idata : jobject) (flags : Z) : M xst Z :=
  call_for_cd tpacall (λ r, (r =? EXFAIL)%Z) atmiCtxObj svc idata flags.

(** [AtmiCtx.tpconnect] *)
Definition Java_AtmiCtx_tpconnect (atmiCtxObj svc idata : jobject) (flags : Z) : M xst Z :=
  call_for_cd tpconnect (λ r, (r <? 0)%Z) atmiCtxObj svc idata flags.

Definition ndrxj_TpgetrplyResult_new (cd : Z) (odata : jobject) : M xst jobject :=
  jni_new vm (JOther "org/endurox/TpgetrplyResult" [ALong cd; AObj odata]).

Definition ndrxj_TprecvResult_new (cd : Z) (odata : jobject) (revent : Z) : M xst jobject :=
  jni_new vm (JOther "org/endurox/TprecvResult" [ALong cd; AObj odata; ALong revent]).

(** [AtmiCtx.tpgetrply] *)
Definition Java_AtmiCtx_tpgetrply (atmiCtxObj : jobject) (cd : Z) (idata : jobject) (flags : Z)
    : M xst jobject :=
  ctx ← ndrxj_get_ctx vm atmiCtxObj true;
  ret ← (if (ctx =? 0)%Z then mret None
         else
           inp ← input_typed idata EmptyString;
           match inp with
           | None => mret None
           | Some (ibuf, ilen, itype) =>
               '(r, ocd, obuf, olen) ← xcall (tpgetrply cd ibuf ilen flags);
               if (r =? EXSUCCEED)%Z then
                 odata ← (if (ocd =? 0)%Z then mret idata
                          else ndrxj_atmi_TypedBuffer_result_prep vm atmiCtxObj idata ibuf ilen
                                 obuf olen itype);
                 ndrxj_TpgetrplyResult_new ocd odata
               else
                 err ← xget tperrno;
                 throw_call_error atmiCtxObj idata ibuf ilen obuf olen itype err;; mret None
           end);
  unset_ctx;; mret ret.

(** [AtmiCtx.tprecv] *)
Definition Java_AtmiCtx_tprecv (atmiCtxObj : jobject) (cd : Z) (idata : jobject) (flags : Z)
    : M xst jobject :=
  ctx ← ndrxj_get_ctx vm atmiCtxObj true;
  ret ← (if (ctx =? 0)%Z then mret None
         else
           inp ← input_typed idata EmptyString;
           match inp with
           | None => mret None
           | Some (ibuf, ilen, itype) =>
               '(r, obuf, olen, revent) ← xcall (tprecv cd ibuf ilen flags);
               err ← xget tperrno;
               if bool_decide (r ≠ EXSUCCEED ∧ err ≠ TPEEVENT) then
                 ndrxj_atmi_throw vm idata None err (errbuf err);; mret None
               else
                 odata ← ndrxj_atmi_TypedBuffer_result_prep vm atmiCtxObj idata ibuf ilen
                           obuf olen itype;
                 ndrxj_TprecvResult_new cd odata revent
           end);
  unset_ctx;; mret ret.

(** [AtmiCtx.tpsend]: the conversation event. *)
Definition Java_AtmiCtx_tpsend (atmiCtxObj : jobject) (cd : Z) (idata : jobject) (flags : Z)
    : M xst Z :=
  ctx ← ndrxj_get_ctx vm atmiCtxObj true;
  ret ← (if (ctx =? 0)%Z then mret 0%Z
         else
           inp ← input_buffer idata;
           match inp with
           | None => mret 0%Z
           | Some (ibuf, ilen) =>
               '(r, revent) ← xcall (tpsend cd ibuf ilen flags);
               err ← xget tperrno;
               (if bool_decide (r ≠ EXSUCCEED ∧ err ≠ TPEEVENT) then
                  ndrxj_atmi_throw vm idata None err (errbuf err)
                else mret tt);;
               mret revent
           end);
  unset_ctx;; mret ret.

(** [AtmiCtx.tpdiscon].  The C function reads its local [err] without ever
    storing [tperrno] in it: [err0] is that indeterminate value. *)
Definition Java_AtmiCtx_tpdiscon (err0 : Z) (atmiCtxObj : jobject) (cd : Z) : M xst unit :=
  ctx ← ndrxj_get_ctx vm atmiCtxObj true;
  (if (ctx =? 0)%Z then mret tt
   else
     r ← xcall (tpdiscon cd);
     if (r =? EXSUCCEED)%Z then mret tt
     else ndrxj_atmi_throw vm None None err0 (errbuf err0));;
  unset_ctx.
End Calls.
