(* ===== verification/AtmiCtxOps.v ===== *)
(** * libsrc/c/AtmiCtx.c and AtmiCtx_Util.c: the context's native methods

    Context life cycle, buffer allocation, transactions, server replies, logging and
    queries.  Most methods share one frame: enter the object's context, call the
    library, raise the library's error as an exception, leave the context. *)
From stdpp Require Import sorting strings gmap list numbers.
From S2P Require Import Prelude CString Jni Xatmi Exceptions TypedBuffer Calls.

Section AtmiCtx.
Context `{Xatmi} (vm : jvm).

(** [ndrxj_atmi_throw(env, NULL, NULL, tperrno, "%s", tpstrerror(tperrno))] *)
Definition throw_tperrno : M xst unit :=
  e ← xget tperrno; ndrxj_atmi_throw vm None None e (tpstrerror e).

(** Enter the context and leave it after [body]; when the object has none the
    method returns [dflt] with the exception of [ndrxj_get_ctx] pending. *)
Definition in_ctx {A} (atmiCtxObj : jobject) (dflt : A) (body : M xst A) : M xst A :=
  ctx ← ndrxj_get_ctx vm atmiCtxObj true;
  if (ctx =? 0)%Z then mret dflt
  else r ← body; unset_ctx;; mret r.

(** The same for the methods whose exit goes through [out:] in both cases. *)
Definition in_ctx_out {A} (atmiCtxObj : jobject) (dflt : A) (body : M xst A) : M xst A :=
  ctx ← ndrxj_get_ctx vm atmiCtxObj true;
  r ← (if (ctx =? 0)%Z then mret dflt else body);
  unset_ctx;; mret r.

(** A library call whose failure becomes an exception. *)
Definition checked (o : xop) : M xst unit :=
  r ← xcall (x_op o); if (r =? EXSUCCEED)%Z then mret tt else throw_tperrno.

(** ** Context life cycle *)

Definition Java_AtmiCtx_tpnewctxt : M xst Z :=
  ctx ← xcall tpnewctxt;
  (if (ctx =? 0)%Z then
     ndrxj_atmi_throw vm None None TPESYSTEM "Failed to allocate new ATMI context!"
   else unset_ctx);;
  mret ctx.

Definition Java_AtmiCtx_tpfreectxt (cPtr : Z) : M xst unit := xmod (tpfreectxt cPtr).

(** [finalizeC]: the weak reference kept in the context goes with it. *)
Definition Java_AtmiCtx_finalizeC (cPtr : Z) : M xst unit :=
  xmod (tpsetctxt cPtr);;
  p ← xget ndrx_ctx_priv_get;
  xmod (tpfreectxt cPtr);;
  DeleteWeakGlobalRef (NDRXJ_JATMICTX p).

Definition Java_AtmiCtx_tpinit (o : jobject) : M xst unit := in_ctx o tt (checked Op_tpinit).
Definition Java_AtmiCtx_tpterm (o : jobject) : M xst unit := in_ctx o tt (xmod (x_run Run_tpterm)).

(** ** Buffers *)

(** [AtmiCtx.tpalloc] *)
Definition Java_AtmiCtx_tpalloc (o btype bsubtype : jobject) (size : Z) : M xst jobject :=
  '(n_bsubtype, n_bsubtype_copy) ←
    (match bsubtype with
     | Some _ => GetStringUTFChars vm bsubtype
     | None => mret (None, false)
     end);
  ret ← (match btype with
         | None =>
             ndrxj_atmi_throw vm None None TPEINVAL
               "`type' is mandatory for tpAlloc, but got NULL!";;
             unset_ctx;; mret None
         | Some _ =>
             '(n_btype, n_btype_copy) ← GetStringUTFChars vm btype;
             ret ← (match n_btype with
                    | None => crash "strcmp with NULL"
                    | Some t =>
                        if String.eqb t "NULL" then mret None
                        else
                          ctx ← ndrxj_get_ctx vm o true;
                          if (ctx =? 0)%Z then mret None
                          else
                            data ← xcall (tpalloc t n_bsubtype size);
                            if (data =? 0)%Z then throw_tperrno;; mret None
                            else ndrxj_atmi_TypedBuffer_translate vm o true data size (Some t) true
                    end);
             unset_ctx;;
             release_if n_btype_copy btype;;
             mret ret
         end);
  release_if n_bsubtype_copy bsubtype;;
  mret ret.

(** Take the buffer out of the object for good: the C side owns it now. *)
Definition give_up_buffer (data : jobject) : M xst (option (Z * Z)) :=
  match data with
  | None => mret (Some (0, 0)%Z)
  | Some _ =>
      '(r, buf, len, _) ← ndrxj_atmi_TypedBuffer_get_buffer data 0 true true;
      if (r =? EXSUCCEED)%Z then mret (Some (buf, len)) else mret None
  end.

(** [AtmiCtx.tpreturn] *)
Definition Java_AtmiCtx_tpreturn (o : jobject) (rval rcode : Z) (data : jobject) (flags : Z) : M xst unit :=
  in_ctx o tt
    (b ← give_up_buffer data;
     match b with
     | Some (buf, len) => xmod (x_run (Run_tpreturn rval rcode buf len flags))
     | None => mret tt
     end).

(** [AtmiCtx.tpforward]: the early [return] skips the release of the name. *)
Definition Java_AtmiCtx_tpforward (o svcname data : jobject) (flags : Z) : M xst unit :=
  '(n_svcname, n_svcname_copy) ← GetStringUTFChars vm svcname;
  ctx ← ndrxj_get_ctx vm o true;
  if (ctx =? 0)%Z then mret tt
  else
    b ← give_up_buffer data;
    (match b with
     | Some (buf, len) => xmod (x_run (Run_tpforward n_svcname buf len flags))
     | None => mret tt
     end);;
    release_if n_svcname_copy svcname;;
    unset_ctx.

(** [AtmiCtx.getBuffers] *)
Definition Java_AtmiCtx_getBuffers (o : jobject) : M xst jobject :=
  in_ctx_out o None
    (l ← xcall ndrx_buffer_list;
     match l with
     | None => ndrxj_atmi_throw vm None None TPESYSTEM "Failed to get buffers list!";; mret None
     | Some ps =>
         ret ← jni_new vm (JLongs (replicate (length ps) 0%Z));
         match ret with
         | None => ndrxj_atmi_throw vm None None TPESYSTEM "Failed to alloc java array!";; mret None
         | Some arr =>
             if decide (ps = []) then mret ret
             else
               tmp ← ask (jvm_alloc_ok vm);
               if (tmp : bool) then mmod (set_obj arr (JLongs ps));; mret ret
               else ndrxj_atmi_throw vm None None TPESYSTEM "Failed to alloc temp list - OOM?!";;
                    mret ret
         end
     end).

(** ** Transactions and server state *)

Definition Java_AtmiCtx_tpopen (o : jobject) : M xst unit := in_ctx o tt (checked Op_tpopen).
Definition Java_AtmiCtx_tpclose (o : jobject) : M xst unit := in_ctx o tt (checked Op_tpclose).
(** The timeout is cast to [unsigned long]. *)
Definition Java_AtmiCtx_tpbegin (o : jobject) (timeout flags : Z) : M xst unit :=
  in_ctx o tt (checked (Op_tpbegin (timeout `mod` 2 ^ 64) flags)).
Definition Java_AtmiCtx_tpcommit (o : jobject) (flags : Z) : M xst unit :=
  in_ctx o tt (checked (Op_tpcommit flags)).
Definition Java_AtmiCtx_tpabort (o : jobject) (flags : Z) : M xst unit :=
  in_ctx o tt (checked (Op_tpabort flags)).
Definition Java_AtmiCtx_tpgetlev (o : jobject) : M xst Z :=
  in_ctx o EXFAIL (xcall (x_op Op_tpgetlev)).
Definition Java_AtmiCtx_tpsrvgetctxdata (o : jobject) : M xst Z :=
  in_ctx o EXFAIL
    (ret ← xcall (x_op Op_tpsrvgetctxdata);
     (if (ret =? 0)%Z then throw_tperrno else mret tt);; mret ret).
Definition Java_AtmiCtx_tpsrvsetctxdata (o : jobject) (dataptr flags : Z) : M xst unit :=
  in_ctx o tt (checked (Op_tpsrvsetctxdata dataptr flags)).
Definition Java_AtmiCtx_tpsrvfreectxdata (o : jobject) (dataptr : Z) : M xst unit :=
  in_ctx o tt (xmod (x_run (Run_tpsrvfreectxdata dataptr))).
Definition Java_AtmiCtx_tpcontinue (o : jobject) : M xst unit :=
  in_ctx o tt (xmod (x_run Run_tpcontinue)).
Definition Java_AtmiCtx_tptoutget (o : jobject) : M xst Z :=
  in_ctx_out o EXFAIL (xcall (x_op Op_tptoutget)).
Definition Java_AtmiCtx_tptoutset (o : jobject) (tout : Z) : M xst unit :=
  in_ctx_out o tt (checked (Op_tptoutset tout)).
Definition Java_AtmiCtx_tpurcode (o : jobject) : M xst Z :=
  in_ctx_out o 0%Z (xcall (x_op Op_tpurcode)).
Definition Java_AtmiCtx_tpcancel (o : jobject) (cd : Z) : M xst unit :=
  in_ctx_out o tt (xmod (x_run (Run_tpcancel cd))).

(** ** Field names *)

Definition throw_Berror : M xst unit :=
  e ← xget Berror; ndrxj_ubf_throw vm (Becodestr e) (Bstrerror e).

Definition name_of (n : xname) : M xst jobject :=
  cret ← xcall (x_name n);
  match cret with
  | None => throw_Berror;; mret None
  | Some s => NewStringUTF vm s
  end.

Definition Java_AtmiCtx_Btype (o : jobject) (bfldid : Z) : M xst jobject :=
  in_ctx_out o None (name_of (Name_Btype bfldid)).
Definition Java_AtmiCtx_Bfname (o : jobject) (bfldid : Z) : M xst jobject :=
  in_ctx_out o None (name_of (Name_Bfname bfldid)).

Definition BBADFLDID : Z := 0.
Definition BEINVAL : Z := 14.

Definition Java_AtmiCtx_Bfldid (o fldnm : jobject) : M xst Z :=
  ret ← (match fldnm with
         | None =>
             ndrxj_ubf_throw vm (Becodestr BEINVAL)
               "ndrxj_Java_org_endurox_AtmiCtx_Bfldid: fldnm cannot be null";;
             mret BBADFLDID
         | Some _ =>
             '(n_fldnm, n_fldnm_copy) ← GetStringUTFChars vm fldnm;
             ctx ← ndrxj_get_ctx vm o true;
             ret ← (if (ctx =? 0)%Z then mret BBADFLDID
                    else xcall (x_op (Op_Bfldid n_fldnm)));
             release_if n_fldnm_copy fldnm;;
             mret ret
         end);
  unset_ctx;; mret ret.

(** ** Logging *)

Definition Java_AtmiCtx_tplogqinfo (o : jobject) (lev flags : Z) : M xst Z :=
  in_ctx_out o 0%Z
    (ret ← xcall (x_op (Op_tplogqinfo lev flags));
     (if (ret <? 0)%Z then
        e ← xget Nerror; ndrxj_nstd_throw vm (ndrx_Necodestr e) (Nstrerror e)
      else mret tt);;
     mret ret).

(** [AtmiCtx.tplogC]; a NULL file name is logged as ["?.java"].  The early
    [return] on a NULL context skips the releases. *)
Definition Java_AtmiCtx_tplogC (o : jobject) (lev : Z) (file : jobject) (line : Z) (msg : jobject)
    : M xst unit :=
  '(n_msg, n_msg_copy) ← GetStringUTFChars vm msg;
  '(n_file, n_file_copy) ← (match file with
                            | Some _ => GetStringUTFChars vm file
                            | None => mret (Some "?.java"%string, false)
                            end);
  ctx ← ndrxj_get_ctx vm o true;
  if (ctx =? 0)%Z then mret tt
  else
    xmod (x_run (if (line =? EXFAIL)%Z then Run_tplog lev n_msg
                 else Run_tplogex lev n_file line n_msg));;
    unset_ctx;;
    release_if n_file_copy file;;
    release_if n_msg_copy msg.

(** [AtmiCtx.tplogndrxC] *)
Definition Java_AtmiCtx_tplogndrxC (o : jobject) (lev : Z) (file : jobject) (line : Z) (msg : jobject)
    : M xst unit :=
  '(n_file, n_file_copy) ← GetStringUTFChars vm file;
  '(n_msg, n_msg_copy) ← GetStringUTFChars vm msg;
  ctx ← ndrxj_get_ctx vm o false;
  if (ctx =? 0)%Z then mret tt
  else
    xmod (x_run (if (line =? EXFAIL)%Z then Run_Otplog ctx lev n_msg
                 else Run_Otplogex ctx lev n_file line n_msg));;
    unset_ctx;;
    release_if n_file_copy file;;
    release_if n_msg_copy msg.

(** [AtmiCtx.userlogC] *)
Definition Java_AtmiCtx_userlogC (o msg : jobject) : M xst unit :=
  in_ctx o tt
    ('(n_msg, n_msg_copy) ← GetStringUTFChars vm msg;
     xmod (x_run (Run_userlog n_msg));;
     release_if n_msg_copy msg).

(** [AtmiCtx.tplogDump] *)
Definition Java_AtmiCtx_tplogDump (o : jobject) (lev : Z) (msg data : jobject) : M xst unit :=
  '(n_msg, n_msg_copy) ← GetStringUTFChars vm msg;
  '(n_carray, n_carray_copy) ← GetByteArrayElements vm data;
  ctx ← ndrxj_get_ctx vm o true;
  if (ctx =? 0)%Z then mret tt
  else
    len ← GetArrayLength data;
    xmod (x_run (Run_tplogdump lev n_msg (default [] n_carray) len));;
    unset_ctx;;
    release_if n_msg_copy msg;;
    release_if n_carray_copy data.

(** [AtmiCtx.tplogDumpDiff]: both lengths are read from [data1], and the copy of
    [data2] is released through [data1], as written. *)
Definition Java_AtmiCtx_tplogDumpDiff (o : jobject) (lev : Z) (msg data1 data2 : jobject) : M xst unit :=
  '(n_msg, n_msg_copy) ← GetStringUTFChars vm msg;
  '(n_carray1, n_carray_copy1) ← GetByteArrayElements vm data1;
  '(n_carray2, n_carray_copy2) ← GetByteArrayElements vm data2;
  ctx ← ndrxj_get_ctx vm o true;
  if (ctx =? 0)%Z then mret tt
  else
    len1 ← GetArrayLength data1;
    len2 ← GetArrayLength data1;
    let n := Z.min len1 len2 in
    (if (length (default [] n_carray2) <? Z.to_nat n)%nat then crash "read beyond the array"
     else xmod (x_run (Run_tplogdumpdiff lev n_msg (default [] n_carray1) (default [] n_carray2) n)));;
    unset_ctx;;
    release_if n_msg_copy msg;;
    release_if n_carray_copy1 data1;;
    release_if n_carray_copy2 data1.
End AtmiCtx.
