(* ===== verification/Convert.v ===== *)
(** * libsrc/c/util.c, TPQCTL.c, TPTRANID.c, ClientId.c: values that cross the border

    C structures and Java objects are copied into each other field by field, driven
    by a table of Java field names, Java types and C member sizes.  A C structure is
    a map from member names to values; the sizes of its [char] members are those of
    the Enduro/X headers and come from the class [QueueTypes]. *)
From stdpp Require Import sorting strings gmap list numbers.
From S2P Require Import Prelude CString Jni Xatmi Exceptions TypedBuffer Calls.

(** A C member: a [long], a NUL terminated [char] array, a block of bytes. *)
Inductive cval := CLong (z : Z) | CStr (s : string) | CMem (b : list Z).
Abbreviation cstruct := (gmap string cval).

(** Java types of the table: "J", "Ljava/lang/String;" and "[B". *)
Inductive jftype := F_long | F_string | F_bytes.

(** [struct exjobjmap]: the field, its type and the size of the C member of the
    same name. *)
Record exjobjmap := Exjobjmap { field : string; ftype : jftype; csz : nat }.

(** Sizes declared by the Enduro/X headers ([OFSZ], [sizeof]). *)
Class QueueTypes := {
  sz_diagmsg : nat;
  sz_msgid : nat;
  sz_corrid : nat;
  sz_replyqueue : nat;
  sz_failurequeue : nat;
  sz_clientdata : nat;
  sz_tranid : nat;
  MAXTIDENT : nat;
  TMQNAMELEN : nat
}.

Definition sizeof_long : nat := 8.

Section Convert.
Context `{Xatmi} (vm : jvm).

(** A format string with more conversions than arguments: undefined. *)
Definition vsnprintf_missing_arguments : M xst string := crash "printf: missing argument".

(** One entry of [ndrxj_cvt_to_c]: the new structure, or the failure. *)
Definition cvt_field_to_c (tab : exjobjmap) (jobj : jobject) (cobj : cstruct) : M xst (option cstruct) :=
  match ftype tab with
  | F_long =>
      z ← GetLongField jobj (field tab);
      mret (Some (<[field tab := CLong z]> cobj))
  | F_string =>
      jstr ← GetObjectField jobj (field tab);
      '(n_str, n_str_copy) ← (match jstr with
                              | Some _ => GetStringUTFChars vm jstr
                              | None => mret (Some EmptyString, false)
                              end);
      match n_str with
      | None => NDRXJ_LOG_EXCEPTION;; mret None
      | Some s =>
          release_if n_str_copy jstr;;
          mret (Some (<[field tab := CStr (strcpy_safe (csz tab) s)]> cobj))
      end
  | F_bytes =>
      jb ← GetObjectField jobj (field tab);
      match jb with
      | None => mret (Some (<[field tab := CMem (replicate (csz tab) 0%Z)]> cobj))
      | Some _ =>
          '(n_carray, n_carray_copy) ← GetByteArrayElements vm jb;
          match n_carray with
          | None => NDRXJ_LOG_EXCEPTION;; mret None
          | Some b =>
              len ← GetArrayLength jb;
              if (len =? Z.of_nat (csz tab))%Z then
                release_if n_carray_copy jb;;
                mret (Some (<[field tab := CMem b]> cobj))
              else
                msg ← vsnprintf_missing_arguments;
                ndrxj_atmi_throw vm None None TPEINVAL msg;;
                release_if n_carray_copy jb;;
                mret None
          end
      end
  end.

(** [ndrxj_cvt_to_c]: the return code and the C structure, members converted before
    a failure included. *)
Fixpoint ndrxj_cvt_to_c (tab : list exjobjmap) (jobj : jobject) (cobj : cstruct) : M xst (Z * cstruct) :=
  match tab with
  | [] => mret (EXSUCCEED, cobj)
  | t :: tab' =>
      r ← cvt_field_to_c t jobj cobj;
      match r with
      | None => mret (EXFAIL, cobj)
      | Some cobj' => ndrxj_cvt_to_c tab' jobj cobj'
      end
  end.

(** One entry of [ndrxj_cvt_to_java].  The log call of the failing branch passes the
    size for [%s]: undefined. *)
Definition cvt_field_to_java (tab : exjobjmap) (cobj : cstruct) (jobj : jobject) : M xst unit :=
  match ftype tab, cobj !! field tab with
  | F_long, Some (CLong z) => SetLongField jobj (field tab) z
  | F_string, Some (CStr s) =>
      str ← NewStringUTF vm s; SetObjectField jobj (field tab) str
  | F_bytes, Some (CMem b) =>
      jb ← NewByteArray vm (Z.of_nat (csz tab));
      match jb with
      | None => _ ← vsnprintf_missing_arguments; mret tt
      | Some _ =>
          SetByteArrayRegion jb (Z.of_nat (csz tab)) b;;
          SetObjectField jobj (field tab) jb
      end
  | _, _ => crash "no such C member"
  end.

Fixpoint ndrxj_cvt_to_java (tab : list exjobjmap) (cobj : cstruct) (jobj : jobject) : M xst Z :=
  match tab with
  | [] => mret EXSUCCEED
  | t :: tab' => cvt_field_to_java t cobj jobj;; ndrxj_cvt_to_java tab' cobj jobj
  end.

(** [ndrxj_cvt_jstr_to_c] into a [char] array of [outstrsz] bytes. *)
Definition ndrxj_cvt_jstr_to_c (jstr : jobject) (outstrsz : nat) : M xst (option string) :=
  '(n_str, n_str_copy) ← GetStringUTFChars vm jstr;
  match n_str with
  | None => NDRXJ_LOG_EXCEPTION;; mret None
  | Some s => release_if n_str_copy jstr;; mret (Some (strcpy_safe outstrsz s))
  end.

(** The loop of [ndrxj_cvt_arr_c_to_java] from element [i] on. *)
Fixpoint set_strings (arr : jobject) (i : nat) (list : list string) : M xst unit :=
  match list with
  | [] => mret tt
  | el :: next =>
      str ← NewStringUTF vm el;
      SetObjectArrayElement arr i str;;
      set_strings arr (S i) next
  end.

Definition ndrxj_cvt_arr_c_to_java (list : list string) (nrel : nat) : M xst jobject :=
  ret ← NewObjectArray vm nrel;
  set_strings ret 0 list;;
  mret ret.
End Convert.

(** ** ClientId.c *)
Section ClientId.
Context `{Xatmi} `{QueueTypes} (vm : jvm).

(** [ndrxj_atmi_ClientId_translate_toc]: the [clientdata] member. *)
Definition ndrxj_atmi_ClientId_translate_toc (in_jcltid : jobject) : M xst string :=
  clientData ← GetObjectField in_jcltid "clientData";
  '(n_clientData, n_clientData_copy) ← GetStringUTFChars vm clientData;
  match n_clientData with
  | None => crash "copy from NULL"
  | Some s => release_if n_clientData_copy clientData;; mret (strcpy_safe sz_clientdata s)
  end.

Definition ndrxj_atmi_ClientId_translate (ctx_obj : jobject) (is_ctxset : bool) (clientdata : string)
    : M xst jobject :=
  set ← (if is_ctxset then mret true
         else c ← ndrxj_get_ctx vm ctx_obj true; mret (negb (c =? 0)%Z));
  if (set : bool) then
    jclientdata ← NewStringUTF vm clientdata;
    ret ← jni_new vm (JObject "org/endurox/ClientId" {["clientData" := AObj jclientdata]});
    (if is_ctxset then mret tt else unset_ctx);;
    mret ret
  else mret None.
End ClientId.

(** ** TPQCTL.c *)
Section TPQCTL.
Context `{Xatmi} `{QueueTypes} (vm : jvm).

(** [M_fieldmap] of TPQCTL.c: every member but [cltid], which is converted by hand.
    There is no row for [deq_time]. *)
Definition TPQCTL_fieldmap : list exjobjmap :=
  [Exjobjmap "flags" F_long sizeof_long;
   Exjobjmap "priority" F_long sizeof_long;
   Exjobjmap "diagnostic" F_long sizeof_long;
   Exjobjmap "diagmsg" F_string sz_diagmsg;
   Exjobjmap "msgid" F_bytes sz_msgid;
   Exjobjmap "corrid" F_bytes sz_corrid;
   Exjobjmap "replyqueue" F_string sz_replyqueue;
   Exjobjmap "failurequeue" F_string sz_failurequeue;
   Exjobjmap "urcode" F_long sizeof_long;
   Exjobjmap "appkey" F_long sizeof_long;
   Exjobjmap "delivery_qos" F_long sizeof_long;
   Exjobjmap "reply_qos" F_long sizeof_long;
   Exjobjmap "exp_time" F_long sizeof_long].

(** [new TPQCTL()]: the field initialisers of TPQCTL.java. *)
Definition new_TPQCTL : M xst jobject :=
  msgid ← jni_new vm (JBytes (replicate sz_msgid 0%Z));
  corrid ← jni_new vm (JBytes (replicate sz_corrid 0%Z));
  if bool_decide (msgid = None ∨ corrid = None) then mret None
  else
    jni_new vm (JObject "org/endurox/TPQCTL"
      (list_to_map
         [("flags", ALong 0); ("deq_time", ALong 0); ("priority", ALong 0); ("diagnostic", ALong 0);
          ("diagmsg", AObj None); ("msgid", AObj msgid); ("corrid", AObj corrid);
          ("replyqueue", AObj None); ("failurequeue", AObj None); ("cltid", AObj None);
          ("urcode", ALong 0); ("appkey", ALong 0); ("delivery_qos", ALong 0);
          ("reply_qos", ALong 0); ("exp_time", ALong 0)]%Z)).

(** The exit of the translations: a failure without an exception gets one. *)
Definition throw_if_silent (ret : Z) (msg : string) : M xst unit :=
  if (ret =? EXSUCCEED)%Z then mret tt
  else e ← ExceptionCheck; if (e : bool) then mret tt else ndrxj_atmi_throw vm None None TPEINVAL msg.

Definition ndrxj_atmi_TPQCTL_translate2c (ctl_Java : jobject) (ctl_c : cstruct) : M xst (Z * cstruct) :=
  '(r, c) ← ndrxj_cvt_to_c vm TPQCTL_fieldmap ctl_Java ctl_c;
  '(ret, c') ← (if (r =? EXSUCCEED)%Z then
                  jcltid ← GetObjectField ctl_Java "cltid";
                  match jcltid with
                  | None => mret (EXSUCCEED, <["cltid" := CStr EmptyString]> c)
                  | Some _ =>
                      s ← ndrxj_atmi_ClientId_translate_toc vm jcltid;
                      mret (EXSUCCEED, <["cltid" := CStr s]> c)
                  end
                else mret (EXFAIL, c));
  throw_if_silent ret "Failed to convert TPQCTL to C from java - see logs!";;
  mret (ret, c').

Definition ndrxj_atmi_TPQCTL_translate2java (ctx_obj ctl_Java : jobject) (ctl_c : cstruct) : M xst jobject :=
  retObj ← (match ctl_Java with None => new_TPQCTL | Some _ => mret ctl_Java end);
  r ← ndrxj_cvt_to_java vm TPQCTL_fieldmap ctl_c retObj;
  ret ← (if (r =? EXSUCCEED)%Z then
           match ctl_c !! "cltid" with
           | Some (CStr cltid) =>
               jcltid ← ndrxj_atmi_ClientId_translate vm ctx_obj true cltid;
               match jcltid with
               | None => mret EXFAIL
               | Some _ => SetObjectField retObj "cltid" jcltid;; mret EXSUCCEED
               end
           | _ => crash "no such C member"
           end
         else mret EXFAIL);
  throw_if_silent ret "Failed to convert C TPQCTL to java - see logs!";;
  mret retObj.
End TPQCTL.

(** ** TPTRANID.c *)
Section TPTRANID.
Context `{Xatmi} `{QueueTypes} (vm : jvm).

Definition TPTRANID_fieldmap : list exjobjmap := [Exjobjmap "data" F_bytes sz_tranid].

Definition ndrxj_atmi_TPTRANID_translate2c (tid_Java : jobject) (tid_c : cstruct) : M xst (Z * cstruct) :=
  '(ret, c) ← ndrxj_cvt_to_c vm TPTRANID_fieldmap tid_Java tid_c;
  throw_if_silent vm ret "Failed to convert TPTRANID to C from java - see logs!";;
  mret (ret, c).

Definition ndrxj_atmi_TPTRANID_translate2java (tid_Java : jobject) (tid_c : cstruct) : M xst jobject :=
  retObj ← (match tid_Java with
            | None => jni_new vm (JObject "org/endurox/TPTRANID" {["data" := AObj None]})
            | Some _ => mret tid_Java
            end);
  ret ← ndrxj_cvt_to_java vm TPTRANID_fieldmap tid_c retObj;
  throw_if_silent vm ret "Failed to convert C TPTRANID to java - see logs!";;
  mret retObj.
End TPTRANID.

(** * What is copied to Java is copied back

    Converting a C structure to a Java object and the object back to C gives the
    members of the table their values again, and touches no other member. *)

(** The value can be stored in the C member and in the Java field. *)
Definition fits (t : exjobjmap) (v : cval) : Prop :=
  match ftype t, v with
  | F_long, CLong _ => True
  | F_string, CStr s => String.length s < csz t
  | F_bytes, CMem b => length b = csz t
  | _, _ => False
  end.

Definition struct_fits (tab : list exjobjmap) (c : cstruct) : Prop :=
  ∀ t, t ∈ tab → ∃ v, c !! field t = Some v ∧ fits t v.

Section Fields.
Context {X : Type}.
Implicit Types (w : world X).

(** The Java field [a] holds the C value [v]. *)
Definition holds_value w (a : jarg) (v : cval) : Prop :=
  match v, a with
  | CLong z, ALong z' => z' = z
  | CStr s, AObj (Some l) => (l < w_next w)%positive ∧ w_heap w !! l = Some (JString s)
  | CMem b, AObj (Some l) => (l < w_next w)%positive ∧ w_heap w !! l = Some (JBytes b)
  | _, _ => False
  end.

(** From [w] to [w'] only the object [o] was changed, others were only added. *)
Definition changes_only (o : loc) w w' : Prop :=
  (w_next w ≤ w_next w')%positive ∧
  (∀ k : loc, (k < w_next w)%positive → k ≠ o → w_heap w' !! k = w_heap w !! k) ∧
  w_pins w' = w_pins w ∧ w_exc w' = w_exc w ∧ w_x w' = w_x w.

#[global] Instance changes_only_preorder o : PreOrder (changes_only o).
Proof.
  split; [by intros w; split_and!|].
  intros w1 w2 w3 (Hn & Hh & Hp & He & Hx) (Hn' & Hh' & Hp' & He' & Hx').
  split_and!; [lia| |congruence..]. intros k Hk Hne. rewrite Hh' by (done || lia). by apply Hh.
Qed.

(** The object [o] of class [c] with fields [fs]. *)
Definition object_at (o : loc) (c : string) (fs : gmap string jarg) w : Prop :=
  (o < w_next w)%positive ∧ w_heap w !! o = Some (JObject c fs).

Lemma holds_value_later o c fs w w' a v :
  object_at o c fs w → changes_only o w w' → holds_value w a v → holds_value w' a v.
Proof.
  intros [_ Ho] (Hn & Hh & _). destruct v, a as [[l|]| |]; simpl; try done; intros [Hl Hv];
    (split; [lia|]); rewrite Hh; try done; intros ->; congruence.
Qed.

Lemma run_get_fields o c fs w : object_at o c fs w → get_fields (Some o) w = Ok (o, c, fs) w.
Proof. intros [_ Ho]. unfold get_fields. by rewrite run_bind, (run_deref _ _ _ Ho). Qed.

Lemma run_SetField o c fs f a w :
  object_at o c fs w → SetField (Some o) f a w = Ok tt (set_obj o (JObject c (<[f := a]> fs)) w).
Proof. intros Ho. unfold SetField. by rewrite run_bind, (run_get_fields _ _ _ _ Ho). Qed.

Lemma object_at_set o c fs f a w :
  object_at o c fs w → object_at o c (<[f := a]> fs) (set_obj o (JObject c (<[f := a]> fs)) w).
Proof. intros [Hl _]. split; [done|]. simpl. apply lookup_insert_eq. Qed.

Lemma changes_only_set o v w : changes_only o w (set_obj o v w).
Proof. split_and!; try done. intros k _ Hk. simpl. by rewrite lookup_insert_ne. Qed.

(** A new object is not the object under construction. *)
Lemma changes_only_new o v w :
  changes_only o w (with_heap (<[w_next w := v]> (w_heap w)) (Pos.succ (w_next w)) (ticked w)).
Proof.
  split_and!; try done; [simpl; lia|]. intros k Hk _. simpl. rewrite lookup_insert_ne; [done|lia].
Qed.

Lemma object_at_new o c fs v w :
  object_at o c fs w →
  object_at o c fs (with_heap (<[w_next w := v]> (w_heap w)) (Pos.succ (w_next w)) (ticked w)).
Proof.
  intros [Hl Ho]. split; [simpl; lia|]. simpl. rewrite lookup_insert_ne; [done|lia].
Qed.
End Fields.

Section ToJava.
Context `{Xatmi} (vm : jvm).
Hypothesis memory : vm_has_memory vm.

Lemma run_NewByteArray n (w : world xst) :
  NewByteArray vm (Z.of_nat n) w =
  Ok (Some (w_next w)) (with_heap (<[w_next w := JBytes (replicate n 0%Z)]> (w_heap w))
                          (Pos.succ (w_next w)) (ticked w)).
Proof.
  unfold NewByteArray. rewrite (proj2 (Z.ltb_ge _ _)) by lia.
  by rewrite run_jni_new, Nat2Z.id.
Qed.

Lemma run_SetByteArrayRegion (l : loc) n b (w : world xst) :
  w_heap w !! l = Some (JBytes (replicate n 0%Z)) → length b = n →
  SetByteArrayRegion (Some l) (Z.of_nat n) b w = Ok tt (set_obj l (JBytes b) w).
Proof.
  intros Hl Hb. unfold SetByteArrayRegion. rewrite run_bind, (run_deref _ _ _ Hl).
  rewrite Nat2Z.id, length_replicate, (proj2 (Nat.ltb_ge _ _)), (proj2 (Z.ltb_ge _ _)),
    (proj2 (Z.ltb_ge _ _)) by lia. cbn [orb]. rewrite run_mmod. do 3 f_equal.
  by rewrite take_ge, drop_ge, app_nil_r by (rewrite ?length_replicate; lia).
Qed.

(** Storing one member. *)
Lemma run_cvt_field_to_java t c v (o : loc) cls fs w :
  object_at o cls fs w → c !! field t = Some v → fits t v →
  ∃ a w', cvt_field_to_java vm t c (Some o) w = Ok tt w' ∧
    object_at o cls (<[field t := a]> fs) w' ∧ holds_value w' a v ∧ changes_only o w w'.
Proof.
  intros Ho Hv Hf. unfold cvt_field_to_java. rewrite Hv. unfold fits in Hf.
  destruct (ftype t), v as [z|s|b]; try done.
  - exists (ALong z). eexists. unfold SetLongField. rewrite (run_SetField _ _ _ _ _ _ Ho).
    split_and!; [done|by apply object_at_set|done|apply changes_only_set].
  - exists (AObj (Some (w_next w))). unfold NewStringUTF. rewrite run_bind, run_jni_new by done.
    unfold SetObjectField. rewrite (run_SetField o cls fs) by by apply object_at_new.
    eexists. split_and!; [done|by apply object_at_set, object_at_new| |].
    + destruct Ho as [Hlt _]. split; [simpl; lia|]. simpl. rewrite lookup_insert_ne by lia.
      apply lookup_insert_eq.
    + etrans; [apply changes_only_new|apply changes_only_set].
  - exists (AObj (Some (w_next w))). rewrite run_bind, run_NewByteArray, run_bind.
    rewrite run_SetByteArrayRegion by (done || apply lookup_insert_eq).
    unfold SetObjectField. destruct Ho as [Hlt Ho].
    rewrite (run_SetField o cls fs).
    2:{ split; [simpl; lia|]. simpl. by rewrite !lookup_insert_ne by lia. }
    eexists. split_and!; [done| | |].
    + apply object_at_set. split; [simpl; lia|]. simpl. by rewrite !lookup_insert_ne by lia.
    + split; [simpl; lia|]. simpl. rewrite lookup_insert_ne by lia. apply lookup_insert_eq.
    + split_and!; try done; [simpl; lia|]. intros k Hk Hne. simpl.
      by rewrite !lookup_insert_ne by lia.
Qed.

(** Storing the members of a table: each field then holds its member. *)
Lemma run_cvt_to_java tab c (o : loc) cls fs w :
  NoDup (field <$> tab) → object_at o cls fs w → struct_fits tab c →
  ∃ fs' w', ndrxj_cvt_to_java vm tab c (Some o) w = Ok EXSUCCEED w' ∧
    object_at o cls fs' w' ∧ changes_only o w w' ∧
    (∀ t, t ∈ tab → ∃ a v, fs' !! field t = Some a ∧ c !! field t = Some v ∧ holds_value w' a v) ∧
    (∀ f, f ∉ field <$> tab → fs' !! f = fs !! f).
Proof.
  revert fs w. induction tab as [|t tab IH]; intros fs w Hnd Ho Hc.
  { exists fs, w. split_and!; [done..| |done]. by intros t Ht%elem_of_nil. }
  cbn [fmap list_fmap] in *. apply NoDup_cons in Hnd as [Ht Hnd].
  destruct (Hc t) as (v & Hv & Hf); [apply elem_of_cons; by left|].
  destruct (run_cvt_field_to_java t c v o cls fs w Ho Hv Hf) as (a & w1 & Hr1 & Ho1 & Ha1 & Hw1).
  destruct (IH (<[field t := a]> fs) w1 Hnd Ho1) as (fs' & w2 & Hr2 & Ho2 & Hw2 & Hall & Hout).
  { intros t' Ht'. apply Hc, elem_of_cons. by right. }
  exists fs', w2. cbn [ndrxj_cvt_to_java]. rewrite run_bind, Hr1, Hr2. split; [done|].
  split; [done|]. split; [by etrans|]. split.
  - intros t' [->|Ht']%elem_of_cons; [|by apply Hall].
    exists a, v. split_and!; [|done|by apply (holds_value_later o _ _ _ _ _ _ Ho1)].
    rewrite Hout by done. apply lookup_insert_eq.
  - intros f Hf'. rewrite not_elem_of_cons in Hf'. destruct Hf' as [Hne Hf'].
    rewrite Hout by done. by apply lookup_insert_ne.
Qed.
End ToJava.

Section ToC.
Context `{Xatmi} (vm : jvm).
Hypothesis memory : vm_has_memory vm.
Hypothesis copies : vm_hands_copies vm.

(** Only the oracle has advanced. *)
Definition same_but_tick (w w' : world xst) : Prop := ∃ n, w' = Nat.iter n ticked w.

Lemma same_but_tick_refl w : same_but_tick w w.
Proof. by exists 0. Qed.

Lemma same_but_tick_trans w1 w2 w3 : same_but_tick w1 w2 → same_but_tick w2 w3 → same_but_tick w1 w3.
Proof. intros [n ->] [m ->]. exists (m + n). by rewrite Nat.iter_add. Qed.

Lemma iter_ticked n (w : world xst) :
  let w' := Nat.iter n ticked w in
  w_heap w' = w_heap w ∧ w_next w' = w_next w ∧ w_exc w' = w_exc w ∧ w_pins w' = w_pins w ∧
  w_weak w' = w_weak w ∧ w_cache w' = w_cache w ∧ w_x w' = w_x w.
Proof. induction n as [|n IH]; [done|]. cbn [Nat.iter nat_rect] in *. tauto. Qed.

Lemma run_string_copied (l : loc) s (w : world xst) :
  w_heap w !! l = Some (JString s) →
  ∃ w1, GetStringUTFChars vm (Some l) w = Ok (Some s, true) w1 ∧
    release_if true (Some l) w1 = Ok tt (ticked (ticked w)).
Proof.
  intros Hl. eexists. rewrite (run_GetStringUTFChars vm l s) by done. rewrite copies. split; [done|].
  unfold release_if. by rewrite (run_Release_head l (w_pins w)); destruct w.
Qed.

Lemma run_bytes_copied (l : loc) b (w : world xst) :
  w_heap w !! l = Some (JBytes b) →
  ∃ w1, GetByteArrayElements vm (Some l) w = Ok (Some b, true) w1 ∧ w_heap w1 !! l = Some (JBytes b) ∧
    release_if true (Some l) w1 = Ok tt (ticked (ticked w)).
Proof.
  intros Hl. eexists. rewrite (run_GetByteArrayElements vm l b) by done. rewrite copies. split_and!; [done..|].
  unfold release_if. by rewrite (run_Release_head l (w_pins w)); destruct w.
Qed.

Lemma run_GetField (o : loc) cls fs f (w : world xst) :
  object_at o cls fs w →
  (∀ z, fs !! f = Some (ALong z) → GetLongField (Some o) f w = Ok z w) ∧
  (∀ r, fs !! f = Some (AObj r) → GetObjectField (Some o) f w = Ok r w).
Proof.
  intros Ho. unfold GetLongField, GetObjectField. rewrite !run_bind, !(run_get_fields _ _ _ _ Ho).
  split; by intros ? ->.
Qed.

(** Reading one field back. *)
Lemma run_cvt_field_to_c t a v (o : loc) cls fs c0 w :
  object_at o cls fs w → fs !! field t = Some a → holds_value w a v → fits t v →
  ∃ w', cvt_field_to_c vm t (Some o) c0 w = Ok (Some (<[field t := v]> c0)) w' ∧ same_but_tick w w'.
Proof.
  intros Ho Ha Hv Hf. destruct (run_GetField _ _ _ (field t) _ Ho) as [Hlong Hobj].
  unfold cvt_field_to_c, fits in *. unfold holds_value in Hv. destruct (ftype t), v as [z|s|b]; try done.
  - destruct a; [done| |done]. subst. rewrite run_bind, (Hlong _ Ha). exists w.
    split; [done|apply same_but_tick_refl].
  - destruct a as [[l|]| |]; [|done..]. destruct Hv as [_ Hl]. rewrite run_bind, (Hobj _ Ha).
    destruct (run_string_copied l s w Hl) as (w1 & Hg & Hr). rewrite run_bind, Hg, run_bind, Hr.
    exists (ticked (ticked w)). split; [|by exists 2]. rewrite run_ret. unfold strcpy_safe.
    by rewrite take_str_all by lia.
  - destruct a as [[l|]| |]; [|done..]. destruct Hv as [_ Hl]. rewrite run_bind, (Hobj _ Ha).
    destruct (run_bytes_copied l b w Hl) as (w1 & Hg & Hl1 & Hr).
    rewrite run_bind, Hg, run_bind, (run_GetArrayLength _ _ _ Hl1), Hf, Z.eqb_refl, run_bind, Hr.
    exists (ticked (ticked w)). split; [done|by exists 2].
Qed.

(** Reading a table back: its members get their values, others keep theirs. *)
Lemma run_cvt_to_c tab (c : cstruct) (o : loc) cls fs c0 w :
  object_at o cls fs w → NoDup (field <$> tab) →
  (∀ t, t ∈ tab → ∃ a v, fs !! field t = Some a ∧ c !! field t = Some v ∧ holds_value w a v ∧ fits t v) →
  ∃ c' w', ndrxj_cvt_to_c vm tab (Some o) c0 w = Ok (EXSUCCEED, c') w' ∧ same_but_tick w w' ∧
    ∀ f, c' !! f = if decide (f ∈ field <$> tab) then c !! f else c0 !! f.
Proof.
  revert c0 w. induction tab as [|t tab IH]; intros c0 w Ho Hnd Hall.
  { exists c0, w. split_and!; [done|apply same_but_tick_refl|]. intros f.
    by rewrite decide_False by by intros ?%elem_of_nil. }
  cbn [fmap list_fmap] in *. apply NoDup_cons in Hnd as [Ht Hnd].
  destruct (Hall t) as (a & v & Ha & Hv & Hh & Hf); [apply elem_of_cons; by left|].
  destruct (run_cvt_field_to_c t a v o cls fs c0 w Ho Ha Hh Hf) as (w1 & Hr1 & [n ->]).
  destruct (iter_ticked n w) as (Eh & En & _).
  assert (∀ a v, holds_value w a v → holds_value (Nat.iter n ticked w) a v) as Hlater.
  { intros a' v'. unfold holds_value. by rewrite Eh, En. }
  destruct (IH (<[field t := v]> c0) (Nat.iter n ticked w)) as (c' & w2 & Hr2 & Hw2 & Hc'); [|done| |].
  { unfold object_at in *. by rewrite Eh, En. }
  { intros t' Ht'. destruct (Hall t') as (a' & v' & ? & ? & ? & ?); [apply elem_of_cons; by right|].
    exists a', v'. split_and!; auto. }
  exists c', w2. cbn [ndrxj_cvt_to_c]. rewrite run_bind, Hr1, Hr2. split_and!; [done| |].
  - eapply same_but_tick_trans; [by exists n|done].
  - intros f. rewrite Hc'. destruct (decide (f = field t)) as [->|Hne].
    + rewrite decide_False by done. rewrite (decide_True (P := _ ∈ _ :: _)) by (apply elem_of_cons; by left).
      by rewrite lookup_insert_eq.
    + destruct (decide (f ∈ field <$> tab)) as [Hin|Hin].
      * rewrite decide_True; [done|]. apply elem_of_cons. by right.
      * rewrite decide_False; [by rewrite lookup_insert_ne|]. by rewrite not_elem_of_cons.
Qed.
End ToC.

(** ** TPQCTL *)
Section Qctl.
Context `{Xatmi} `{QueueTypes} (vm : jvm).
Hypothesis memory : vm_has_memory vm.
Hypothesis copies : vm_hands_copies vm.

(** A queue control structure whose strings are terminated inside their members. *)
Definition qctl_ok (q : cstruct) : Prop :=
  struct_fits TPQCTL_fieldmap q ∧
  ∃ s, q !! "cltid" = Some (CStr s) ∧ String.length s < sz_clientdata.

(** The members that are converted. *)
Definition qctl_members : list string := "cltid"%string :: (field <$> TPQCTL_fieldmap).

(** The control object a caller may pass: none, or a [TPQCTL] object. *)
Definition qctl_object (o : jobject) (w : world xst) : Prop :=
  match o with
  | None => True
  | Some l => ∃ fs, object_at l "org/endurox/TPQCTL" fs w
  end.

Lemma qctl_fields_distinct : NoDup (field <$> TPQCTL_fieldmap).
Proof. simpl. repeat constructor; rewrite ?elem_of_cons, ?elem_of_nil; naive_solver. Qed.

Lemma cltid_not_in_table : "cltid"%string ∉ field <$> TPQCTL_fieldmap.
Proof. simpl. rewrite !not_elem_of_cons, elem_of_nil. naive_solver. Qed.

Lemma run_new_TPQCTL w :
  ∃ l fs w', new_TPQCTL vm w = Ok (Some l) w' ∧ object_at l "org/endurox/TPQCTL" fs w' ∧
    (∀ o, (o < w_next w)%positive → o ≠ l) ∧ changes_only l w w'.
Proof.
  unfold new_TPQCTL. rewrite run_bind, run_jni_new by done. rewrite run_bind, run_jni_new by done.
  rewrite bool_decide_eq_false_2 by naive_solver. rewrite run_jni_new by done.
  do 3 eexists. split; [done|]. split; [split; [simpl; lia|apply lookup_insert_eq]|].
  split; [simpl; lia|]. etrans; [|etrans; [|apply changes_only_new]]; apply changes_only_new.
Qed.

(** The object holds the members of [q]. *)
Definition holds_qctl (l : loc) (q : cstruct) (w : world xst) : Prop :=
  ∃ fs, object_at l "org/endurox/TPQCTL" fs w ∧
    (∀ t, t ∈ TPQCTL_fieldmap →
       ∃ a v, fs !! field t = Some a ∧ q !! field t = Some v ∧ holds_value w a v ∧ fits t v) ∧
    ∃ lc ls s, fs !! "cltid" = Some (AObj (Some lc)) ∧
      w_heap w !! lc = Some (JObject "org/endurox/ClientId" {["clientData" := AObj (Some ls)]}) ∧
      w_heap w !! ls = Some (JString s) ∧ q !! "cltid" = Some (CStr s) ∧
      String.length s < sz_clientdata ∧ (lc < w_next w)%positive.

Lemma run_ClientId_translate ctx_obj s w :
  ndrxj_atmi_ClientId_translate vm ctx_obj true s w =
  Ok (Some (Pos.succ (w_next w)))
     (with_heap (<[Pos.succ (w_next w) :=
                    JObject "org/endurox/ClientId" {["clientData" := AObj (Some (w_next w))]}]>
                 (<[w_next w := JString s]> (w_heap w)))
        (Pos.succ (Pos.succ (w_next w))) (ticked (ticked w))).
Proof.
  unfold ndrxj_atmi_ClientId_translate. rewrite run_bind, run_ret. cbv beta iota.
  unfold NewStringUTF. rewrite run_bind, run_jni_new by done. by rewrite run_bind, run_jni_new.
Qed.

(** From C to Java, into a given object or a new one. *)
Lemma run_qctl_to_java ctx_obj ctl q w :
  qctl_ok q → qctl_object ctl w →
  ∃ l w', ndrxj_atmi_TPQCTL_translate2java vm ctx_obj ctl q w = Ok (Some l) w' ∧
    holds_qctl l q w' ∧ (∀ o, ctl = Some o → l = o) ∧ changes_only l w w'.
Proof.
  intros [Hq (s & Hs & Hlen)] Hctl. unfold ndrxj_atmi_TPQCTL_translate2java. rewrite run_bind.
  assert (∃ l fs w1, (match ctl with None => new_TPQCTL vm | Some _ => mret ctl end) w = Ok (Some l) w1 ∧
    object_at l "org/endurox/TPQCTL" fs w1 ∧ (∀ o, ctl = Some o → l = o) ∧ changes_only l w w1)
    as (l & fs & w1 & -> & Ho & Hl & Hw1).
  { destruct ctl as [o|].
    - destruct Hctl as [fs Ho]. exists o, fs, w. split; [done|]. split; [done|].
      split; [by intros ? [= ->]|done].
    - destruct (run_new_TPQCTL w) as (l & fs & w1 & ? & ? & _ & ?). by exists l, fs, w1. }
  destruct (run_cvt_to_java vm memory _ q l _ fs w1 qctl_fields_distinct Ho Hq)
    as (fs' & w2 & Hr & Ho2 & Hw2 & Hall & _).
  rewrite run_bind, Hr, run_bind. cbn [Z.eqb EXSUCCEED]. rewrite Hs, run_bind, run_ClientId_translate.
  rewrite run_bind. unfold SetObjectField. destruct Ho2 as [Hl2 Ho2].
  set (w3 := with_heap _ _ _).
  assert (object_at l "org/endurox/TPQCTL" fs' w3) as Ho3.
  { split; [simpl; lia|]. simpl. by rewrite !lookup_insert_ne by lia. }
  assert (changes_only l w2 w3) as Hw3.
  { split_and!; try done; [simpl; lia|]. intros k Hk _. simpl. by rewrite !lookup_insert_ne by lia. }
  rewrite (run_SetField l _ fs') by done. set (w4 := set_obj _ _ _).
  exists l, w4. split; [done|]. split; [|split; [done|]].
  2:{ etrans; [done|]. etrans; [done|]. etrans; [done|apply changes_only_set]. }
  exists (<["cltid" := AObj (Some (Pos.succ (w_next w2)))]> fs'). split; [by apply object_at_set|]. split.
  - intros t Ht. destruct (Hall t Ht) as (a & v & Ha & Hv & Hh). exists a, v.
    assert (field t ≠ "cltid"%string) as Hne.
    { intros E. apply cltid_not_in_table. rewrite <- E. apply list_elem_of_fmap. eauto. }
    rewrite lookup_insert_ne by done. split; [done|]. split; [done|]. split.
    + eapply (holds_value_later l _ fs' w3); [done|apply changes_only_set|].
      by eapply (holds_value_later l _ fs' w2).
    + destruct (Hq t Ht) as (v' & Hv' & Hf). congruence.
  - exists (Pos.succ (w_next w2)), (w_next w2), s. rewrite lookup_insert_eq. subst w4 w3. simpl.
    split_and!; try done; [..|simpl; lia].
    + by rewrite lookup_insert_ne, lookup_insert_eq by lia.
    + by rewrite !lookup_insert_ne, lookup_insert_eq by lia.
Qed.

(** From Java back to C. *)
Lemma run_qctl_to_c l q q0 w :
  holds_qctl l q w →
  ∃ q' w', ndrxj_atmi_TPQCTL_translate2c vm (Some l) q0 w = Ok (EXSUCCEED, q') w' ∧
    same_but_tick w w' ∧
    ∀ f, q' !! f = if decide (f ∈ qctl_members) then q !! f else q0 !! f.
Proof.
  intros (fs & Ho & Hall & lc & ls & s & Hcl & Hlc & Hls & Hs & Hlen & Hlt).
  destruct (run_cvt_to_c vm memory copies _ q l _ fs q0 w Ho qctl_fields_distinct Hall)
    as (q1 & w1 & Hr & [n ->] & Hq1).
  destruct (iter_ticked n w) as (Eh & En & _).
  set (w1 := Nat.iter n ticked w) in *. unfold ndrxj_atmi_TPQCTL_translate2c.
  rewrite run_bind, Hr. cbn [Z.eqb EXSUCCEED]. rewrite run_bind.
  assert (object_at l "org/endurox/TPQCTL" fs w1) as Ho1 by (unfold object_at; by rewrite Eh, En).
  assert (object_at lc "org/endurox/ClientId" {["clientData" := AObj (Some ls)]} w1) as Hc1
    by (unfold object_at; by rewrite Eh, En).
  rewrite run_bind, (proj2 (run_GetField _ _ _ "cltid" _ Ho1) _ Hcl).
  unfold ndrxj_atmi_ClientId_translate_toc. rewrite !run_bind.
  rewrite (proj2 (run_GetField _ _ _ "clientData" _ Hc1) (Some ls)) by apply lookup_insert_eq.
  destruct (run_string_copied vm memory copies ls s w1) as (w2 & Hg & Hrel); [by rewrite Eh|].
  rewrite run_bind, Hg, run_bind, Hrel.
  exists (<["cltid" := CStr (strcpy_safe sz_clientdata s)]> q1), (ticked (ticked w1)).
  split; [done|]. split; [by exists (S (S n))|]. intros f. unfold qctl_members, strcpy_safe.
  rewrite take_str_all by lia. destruct (decide (f = "cltid"%string)) as [->|Hne].
  - rewrite lookup_insert_eq, decide_True; [done|]. apply elem_of_cons. by left.
  - rewrite lookup_insert_ne, Hq1 by done. destruct (decide (f ∈ field <$> TPQCTL_fieldmap)) as [Hin|Hin].
    + rewrite decide_True; [done|]. apply elem_of_cons. by right.
    + rewrite decide_False; [done|]. by rewrite not_elem_of_cons.
Qed.
End Qctl.
