(* ===== verification/Queues.v ===== *)
(** * libsrc/c/tpenqueue.c, tpdequeue.c and the methods that pass C structures

    [AtmiCtx.tpenqueue], [tpdequeue] and their extended versions, which copy the
    queue control object to C, call the library and copy it back, [tpsuspend] and
    [tpresume] with their transaction ids, and [tpnotify] and [tpbroadcast] with
    their client filters. *)
From stdpp Require Import sorting strings gmap list numbers.
From S2P Require Import Prelude CString Jni Xatmi Exceptions TypedBuffer Calls AtmiCtxOps Convert.

(** The library's queue, transaction and notification functions. *)
Class Queues `{Xatmi} `{QueueTypes} := {
  (** queue space, queue, control, buffer, length, flags; result and control *)
  tpenqueue : string → string → cstruct → Z → Z → Z → xst → (Z * cstruct) * xst;
  (** node, server, queue *)
  tpenqueueex : Z → Z → string → cstruct → Z → Z → Z → xst → (Z * cstruct) * xst;
  (** result, control, buffer, length *)
  tpdequeue : string → string → cstruct → Z → Z → Z → xst → (Z * cstruct * Z * Z) * xst;
  tpdequeueex : Z → Z → string → cstruct → Z → Z → Z → xst → (Z * cstruct * Z * Z) * xst;
  (** result and transaction id *)
  tpsuspend : Z → xst → (Z * list Z) * xst;
  tpresume : list Z → Z → xst → Z * xst;
  tpnotify : string → Z → Z → Z → xst → Z * xst;
  tpbroadcast : option string → option string → option string → Z → Z → Z → xst → Z * xst
}.

Section Queues.
Context `{Queues} (vm : jvm).

(** The checks and name conversions both methods start with: queue space and queue,
    or [None] with an exception pending. *)
Definition queue_names (idata jqspace : jobject) (nodeid srvid : Z) (jqname jqctl : jobject)
    : M xst (option (string * string)) :=
  if bool_decide (nodeid = EXFAIL ∧ srvid = EXFAIL ∧ jqspace = None) then
    ndrxj_atmi_throw vm idata None TPEINVAL "Null argument: jqspace";; mret None
  else if bool_decide (jqname = None) then
    ndrxj_atmi_throw vm idata None TPEINVAL "Null argument: jqname";; mret None
  else if bool_decide (jqctl = None) then
    ndrxj_atmi_throw vm idata None TPEINVAL "Null argument: jqctl";; mret None
  else
    qspace ← (match jqspace with
              | Some _ => ndrxj_cvt_jstr_to_c vm jqspace (MAXTIDENT + 1)
              | None => mret (Some EmptyString)
              end);
    match qspace with
    | None => mret None
    | Some s =>
        qname ← ndrxj_cvt_jstr_to_c vm jqname (TMQNAMELEN + 1);
        mret (match qname with None => None | Some n => Some (s, n) end)
    end.

(** [tpenqueue_int]; [q0] is the uninitialised [TPQCTL q]. *)
Definition tpenqueue_int (q0 : cstruct) (atmiCtxObj jqspace : jobject) (nodeid srvid : Z)
    (jqname jqctl idata : jobject) (flags : Z) : M xst unit :=
  in_ctx_out vm atmiCtxObj tt
    (names ← queue_names idata jqspace nodeid srvid jqname jqctl;
     match names with
     | None => mret tt
     | Some (qspace, qname) =>
         '(r, ibuf, ilen, _) ← ndrxj_atmi_TypedBuffer_get_buffer idata 0 false false;
         if (r =? EXSUCCEED)%Z then
           '(rq, q) ← ndrxj_atmi_TPQCTL_translate2c vm jqctl q0;
           if (rq =? EXSUCCEED)%Z then
             '(ret, q') ← xcall (match jqspace with
                                 | Some _ => tpenqueue qspace qname q ibuf ilen flags
                                 | None => tpenqueueex nodeid srvid qname q ibuf ilen flags
                                 end);
             (if (ret =? EXSUCCEED)%Z then mret tt
              else err ← xget tperrno; ndrxj_atmi_throw vm idata jqctl err (errbuf err));;
             _ ← ndrxj_atmi_TPQCTL_translate2java vm atmiCtxObj jqctl q';
             mret tt
           else mret tt
         else mret tt
     end).

(** [tpdequeue_int] *)
Definition tpdequeue_int (q0 : cstruct) (atmiCtxObj jqspace : jobject) (nodeid srvid : Z)
    (jqname jqctl idata : jobject) (flags : Z) : M xst jobject :=
  in_ctx_out vm atmiCtxObj None
    (names ← queue_names idata jqspace nodeid srvid jqname jqctl;
     match names with
     | None => mret None
     | Some (qspace, qname) =>
         '(rq, q) ← ndrxj_atmi_TPQCTL_translate2c vm jqctl q0;
         if (rq =? EXSUCCEED)%Z then
           inp ← input_typed vm idata "NULL";
           match inp with
           | None => mret None
           | Some (ibuf, ilen, itype) =>
               '(ret, q', obuf, olen) ← xcall (match jqspace with
                                               | Some _ => tpdequeue qspace qname q ibuf ilen flags
                                               | None => tpdequeueex nodeid srvid qname q ibuf ilen flags
                                               end);
               if (ret =? EXSUCCEED)%Z then
                 retObj ← ndrxj_atmi_TypedBuffer_result_prep vm atmiCtxObj idata ibuf ilen
                            obuf olen itype;
                 _ ← ndrxj_atmi_TPQCTL_translate2java vm atmiCtxObj jqctl q';
                 mret retObj
               else
                 err ← xget tperrno;
                 _ ← ndrxj_atmi_TPQCTL_translate2java vm atmiCtxObj jqctl q';
                 ndrxj_atmi_throw vm idata jqctl err (errbuf err);;
                 mret None
           end
         else mret None
     end).

Definition Java_AtmiCtx_tpenqueue (q0 : cstruct) (o jqspace jqname jqctl idata : jobject) (flags : Z) :=
  tpenqueue_int q0 o jqspace EXFAIL EXFAIL jqname jqctl idata flags.
Definition Java_AtmiCtx_tpenqueueex (q0 : cstruct) (o : jobject) (nodeid srvid : Z)
    (jqname jqctl idata : jobject) (flags : Z) :=
  tpenqueue_int q0 o None nodeid srvid jqname jqctl idata flags.
Definition Java_AtmiCtx_tpdequeue (q0 : cstruct) (o jqspace jqname jqctl idata : jobject) (flags : Z) :=
  tpdequeue_int q0 o jqspace EXFAIL EXFAIL jqname jqctl idata flags.
Definition Java_AtmiCtx_tpdequeueex (q0 : cstruct) (o : jobject) (nodeid srvid : Z)
    (jqname jqctl idata : jobject) (flags : Z) :=
  tpdequeue_int q0 o None nodeid srvid jqname jqctl idata flags.

(** ** Suspended transactions *)

Definition Java_AtmiCtx_tpsuspend (o : jobject) (flags : Z) : M xst jobject :=
  in_ctx vm o None
    ('(r, tid) ← xcall (tpsuspend flags);
     if (r =? EXSUCCEED)%Z then
       ndrxj_atmi_TPTRANID_translate2java vm None {["data" := CMem tid]}
     else throw_tperrno vm;; mret None).

(** [tid0] is the uninitialised [TPTRANID_conv tid]. *)
Definition Java_AtmiCtx_tpresume (tid0 : list Z) (o jtid : jobject) (flags : Z) : M xst unit :=
  in_ctx vm o tt
    ('(r, c) ← ndrxj_atmi_TPTRANID_translate2c vm jtid {["data" := CMem tid0]};
     if (r =? EXSUCCEED)%Z then
       match c !! "data" with
       | Some (CMem tid) =>
           r' ← xcall (tpresume tid flags);
           if (r' =? EXSUCCEED)%Z then mret tt else throw_tperrno vm
       | _ => crash "no such C member"
       end
     else mret tt).

(** ** Notifications *)

(** [AtmiCtx.tpnotify]: a NULL client id raises an exception, and the method goes on
    to read it. *)
Definition Java_AtmiCtx_tpnotify (o jclientid idata : jobject) (flags : Z) : M xst unit :=
  in_ctx vm o tt
    ((match jclientid with
      | None => ndrxj_atmi_throw vm idata None TPEINVAL "jclientid is NULL"
      | Some _ => mret tt
      end);;
     cltid ← ndrxj_atmi_ClientId_translate_toc vm jclientid;
     inp ← input_buffer idata;
     match inp with
     | None => mret tt
     | Some (ibuf, ilen) =>
         r ← xcall (tpnotify cltid ibuf ilen flags);
         if (r =? EXSUCCEED)%Z then mret tt
         else err ← xget tperrno; ndrxj_atmi_throw vm idata None err (tpstrerror err)
     end).

Definition optional_string (o : jobject) : M xst (option string * bool) :=
  match o with Some _ => GetStringUTFChars vm o | None => mret (None, false) end.

(** [AtmiCtx.tpbroadcast] *)
Definition Java_AtmiCtx_tpbroadcast (o lmid usrname cltname idata : jobject) (flags : Z) : M xst unit :=
  in_ctx vm o tt
    (inp ← input_buffer idata;
     match inp with
     | None => mret tt
     | Some (ibuf, ilen) =>
         '(n_lmid, n_lmid_copy) ← optional_string lmid;
         '(n_usrname, n_usrname_copy) ← optional_string usrname;
         '(n_cltname, n_cltname_copy) ← optional_string cltname;
         r ← xcall (tpbroadcast n_lmid n_usrname n_cltname ibuf ilen flags);
         (if (r =? EXSUCCEED)%Z then mret tt
          else err ← xget tperrno; ndrxj_atmi_throw vm idata None err (tpstrerror err));;
         release_if n_lmid_copy lmid;;
         release_if n_usrname_copy usrname;;
         release_if n_cltname_copy cltname
     end).

(** ** [getAtmiError] *)

(** The error code and its text, in an [ErrorTuple]. *)
Definition Java_AtmiCtx_getAtmiError (o : jobject) : M xst jobject :=
  in_ctx vm o None
    (err ← xget tperrno;
     errObj ← jni_new vm (JObject "org/endurox/ErrorTuple" (list_to_map [("err", ALong 0); ("msg", AObj None)]));
     SetLongField errObj "err" err;;
     jstr ← NewStringUTF vm (tpstrerror err);
     SetObjectField errObj "msg" jstr;;
     mret errObj).
End Queues.
