(* ===== verification/Logging.v ===== *)
(** * libsrc/c/logging.c: exceptions in the logs, and request log files

    The methods that write an exception's back trace to a log, and those that direct the
    log of a request.  The texts are written by the library. *)
From stdpp Require Import sorting strings gmap list numbers.
From S2P Require Import Prelude CString Jni Xatmi Exceptions TypedBuffer Calls AtmiCtxOps Convert Queues.

(** The facilities of libsrc.h and [log_error]. *)
Definition NDRXJ_LOGEX_NDRX : Z := 1.
Definition NDRXJ_LOGEX_ULOG : Z := 2.
Definition NDRXJ_LOGEX_UBF : Z := 4.
Definition NDRXJ_LOGEX_TP : Z := 8.
Definition log_error : Z := 2.

Section Logging.
Context `{Xatmi} (vm : jvm).

(** [NDRXJ_LOG_EXCEPTION_E]: the back trace of [exc], or of the pending exception. *)
Definition NDRXJ_LOG_EXCEPTION_E (exc : jobject) (lev facility : Z) (msg : option string) : M xst unit :=
  (match exc with Some _ => mret tt | None => NDRXJ_LOG_EXCEPTION end);;
  xmod (x_run (Run_log_exception facility lev msg exc)).

(** The common body of the four methods that log an exception. *)
Definition log_exception (o msg exc : jobject) (lev facility : Z) : M xst unit :=
  '(n_msg, n_msg_copy) ← GetStringUTFChars vm msg;
  ctx ← ndrxj_get_ctx vm o true;
  (if (ctx =? 0)%Z then mret tt else NDRXJ_LOG_EXCEPTION_E exc lev facility n_msg);;
  unset_ctx;;
  release_if n_msg_copy msg.

Definition Java_AtmiCtx_tplogubfex (o : jobject) (lev : Z) (msg exc : jobject) : M xst unit :=
  log_exception o msg exc lev NDRXJ_LOGEX_UBF.
Definition Java_AtmiCtx_tplogndrxex (o : jobject) (lev : Z) (msg exc : jobject) : M xst unit :=
  log_exception o msg exc lev NDRXJ_LOGEX_NDRX.
Definition Java_AtmiCtx_tplogex (o : jobject) (lev : Z) (msg exc : jobject) : M xst unit :=
  log_exception o msg exc lev NDRXJ_LOGEX_TP.
Definition Java_AtmiCtx_userlogex (o msg exc : jobject) : M xst unit :=
  log_exception o msg exc log_error NDRXJ_LOGEX_ULOG.

(** The buffer of [data]; [None] if it cannot be read. *)
Definition data_buffer (data : jobject) : M xst (option Z) :=
  '(r, buf, _, _) ← ndrxj_atmi_TypedBuffer_get_buffer data 0 false false;
  mret (if (r =? EXSUCCEED)%Z then Some buf else None).

(** [ndrxj_atmi_throw(env, data, NULL, tperrno, ...)] *)
Definition throw_with (data : jobject) : M xst unit :=
  err ← xget tperrno; ndrxj_atmi_throw vm data None err (tpstrerror err).

(** [tplogsetreqfile]: the library gets the address of a local copy of the buffer
    pointer; if it moves the buffer, the object is not told. *)
Definition Java_AtmiCtx_tplogsetreqfile (o data filename filesvc : jobject) : M xst unit :=
  in_ctx_out vm o tt
    (buf ← (match data with None => mret (Some 0%Z) | Some _ => data_buffer data end);
     match buf with
     | None => mret tt
     | Some b =>
         '(n_filename, n_filename_copy) ← optional_string vm filename;
         '(n_filesvc, n_filesvc_copy) ← optional_string vm filesvc;
         r ← xcall (x_op (Op_tplogsetreqfile b n_filename n_filesvc));
         (if (r =? EXSUCCEED)%Z then mret tt else throw_with data);;
         release_if n_filename_copy filename;;
         release_if n_filesvc_copy filesvc
     end).

Definition Java_AtmiCtx_tploggetbufreqfile (o data : jobject) : M xst jobject :=
  in_ctx_out vm o None
    (match data with
     | None => ndrxj_nullptr_throw vm "`data' cannot be NULL";; mret None
     | Some _ =>
         buf ← data_buffer data;
         match buf with
         | None => mret None
         | Some b =>
             f ← xcall (x_name (Name_tploggetbufreqfile b));
             match f with
             | None => throw_with data;; mret None
             | Some filename => NewStringUTF vm filename
             end
         end
     end).

Definition Java_AtmiCtx_tplogdelbufreqfile (o data : jobject) : M xst unit :=
  in_ctx_out vm o tt
    (match data with
     | None => ndrxj_nullptr_throw vm "`data' cannot be NULL"
     | Some _ =>
         buf ← data_buffer data;
         match buf with
         | None => mret tt
         | Some b =>
             r ← xcall (x_op (Op_tplogdelbufreqfile b));
             if (r =? EXSUCCEED)%Z then mret tt else throw_with data
         end
     end).

Definition Java_AtmiCtx_tploggetreqfile (o : jobject) : M xst jobject :=
  in_ctx_out vm o None
    (f ← xcall (x_name Name_tploggetreqfile);
     match f with None => mret None | Some filename => NewStringUTF vm filename end).

Definition Java_AtmiCtx_tplogsetreqfile_direct (o filename : jobject) : M xst unit :=
  in_ctx_out vm o tt
    (match filename with
     | None => ndrxj_nullptr_throw vm "`filename' cannot be NULL"
     | Some _ =>
         '(n_filename, n_filename_copy) ← GetStringUTFChars vm filename;
         xmod (x_run (Run_tplogsetreqfile_direct n_filename));;
         release_if n_filename_copy filename
     end).

Definition Java_AtmiCtx_tplogclosereqfile (o : jobject) : M xst unit :=
  in_ctx_out vm o tt (xmod (x_run Run_tplogclosereqfile)).

Definition Java_AtmiCtx_tplogconfig (o : jobject) (logger lev : Z) (debug_string module new_file : jobject)
    : M xst unit :=
  in_ctx_out vm o tt
    ('(n_debug_string, n_debug_string_copy) ← optional_string vm debug_string;
     '(n_module, n_module_copy) ← optional_string vm module;
     '(n_new_file, n_new_file_copy) ← optional_string vm new_file;
     r ← xcall (x_op (Op_tplogconfig logger lev n_debug_string n_module n_new_file));
     (if (r =? EXSUCCEED)%Z then mret tt else throw_with None);;
     release_if n_debug_string_copy debug_string;;
     release_if n_module_copy module;;
     release_if n_new_file_copy new_file).
End Logging.
