(* ===== verification/Callback.v ===== *)
(** * Library code that calls back, and Java code that is called

    A library function with callbacks is a tree: its own steps on the library's state,
    the callbacks it makes, and what it does with their answers.  [run_script] runs it
    with the binding's handlers.  The Java methods the handlers call are programs the
    binding does not know: [JavaCode].  The private data of a context is read through
    the pointer obtained while the thread was in it. *)
From stdpp Require Import sorting strings gmap list numbers.
From S2P Require Import Prelude CString Jni Xatmi Exceptions.

(** [cb]: the callbacks and their arguments; [ans]: their answers. *)
Inductive script (X cb ans A : Type) :=
  | S_ret (r : A)
  | S_lib (f : X → X) (k : X → script X cb ans A)
  | S_call (c : cb) (k : ans → script X cb ans A).
Arguments S_ret {X cb ans A}.
Arguments S_lib {X cb ans A}.
Arguments S_call {X cb ans A}.

Section Script.
Context {X cb ans A : Type}.

(** The result, with the callbacks made. *)
Fixpoint run_script (handle : cb → M X ans) (s : script X cb ans A) : M X (list cb * A) :=
  match s with
  | S_ret r => mret ([], r)
  | S_lib f k =>
      mmod (λ w, with_x (f (w_x w)) w);;
      w ← mget;
      run_script handle (k (w_x w))
  | S_call c k =>
      a ← handle c;
      '(l, r) ← run_script handle (k a);
      mret (c :: l, r)
  end.

(** The same for handlers with a control structure of their own ([dataptr1]). *)
Fixpoint run_script_ctl {S} (handle : S → cb → M X (ans * S)) (st : S) (s : script X cb ans A)
    : M X (S * A) :=
  match s with
  | S_ret r => mret (st, r)
  | S_lib f k =>
      mmod (λ w, with_x (f (w_x w)) w);;
      w ← mget;
      run_script_ctl handle st (k (w_x w))
  | S_call c k =>
      '(a, st') ← handle st c;
      run_script_ctl handle st' (k a)
  end.
End Script.

(** The methods called from C, with their receivers and arguments. *)
Inductive java_method :=
  | J_tpSvrInit (svr ctx argv : jobject)
  | J_tpSvrDone (svr ctx : jobject)
  | J_tpCallDispatch (ctx svcinfo : jobject)
  | J_unsolDispatch (ctx data : jobject) (flags : Z)
  | J_boolcbfDispatch (ubf funcname : jobject)
  | J_readLine (reader : jobject)
  | J_write (outstream bytes : jobject)
  | J_xa_init (ctx clazz sets : jobject)
  | J_xa_info (func : string) (ctx : jobject) (flags : Z)
  | J_xa_xid (func : string) (ctx xid : jobject) (flags : Z)
  | J_xa_recover (ctx : jobject) (flags : Z)
  | J_getFormatId (xid : jobject)
  | J_getGlobalTransactionId (xid : jobject)
  | J_getBranchQualifier (xid : jobject)
  | J_loadClass (loader name : jobject)
  | J_setContextClassLoader (thread loader : jobject).

Definition receiver (m : java_method) : jobject :=
  match m with
  | J_tpSvrInit o _ _ | J_tpSvrDone o _ | J_tpCallDispatch o _ | J_unsolDispatch o _ _
  | J_boolcbfDispatch o _ | J_readLine o | J_write o _ | J_xa_init o _ _ | J_xa_info _ o _
  | J_xa_xid _ o _ _ | J_xa_recover o _ | J_getFormatId o | J_getGlobalTransactionId o
  | J_getBranchQualifier o | J_loadClass o _ | J_setContextClassLoader o _ => o
  end.

(** What a method returns: a number, or an object. *)
Inductive java_value := V_num (z : Z) | V_obj (o : jobject).

Class JavaCode `{Xatmi} := { java_run : java_method → M xst java_value }.

(** [tpgetctxt]: the context of the thread, which is left in none. *)
Class ContextLib `{Xatmi} := { tpgetctxt : xst → Z * xst }.

Section Java.
Context `{JavaCode}.

(** [CallVoidMethod] and its kin: undefined on a NULL receiver and with an exception
    pending. *)
Definition call_java (m : java_method) : M xst java_value :=
  e ← ExceptionCheck;
  if (e : bool) then crash "Java method called with an exception pending"
  else match receiver m with
       | None => crash "NULL reference"
       | Some _ => java_run m
       end.

Definition call_int (m : java_method) : M xst Z :=
  v ← call_java m;
  match v with V_num z => mret z | V_obj _ => crash "not a number" end.

Definition call_object (m : java_method) : M xst jobject :=
  v ← call_java m;
  match v with V_obj o => mret o | V_num _ => crash "not an object" end.

Definition call_void (m : java_method) : M xst unit := _ ← call_java m; mret tt.

(** The private data of context [c], through a pointer taken earlier. *)
Definition priv_of (c : Z) : M xst ctx_priv := xget (λ x, ndrx_ctx_priv_get (tpsetctxt c x)).

(** Run Java code outside of context [c] and come back to the context its private
    data name then. *)
Definition outside (c : Z) (m : ctx_priv → java_method) : M xst java_value :=
  unset_ctx;;
  p ← priv_of c;
  v ← call_java (m p);
  p' ← priv_of c;
  xmod (tpsetctxt (NDRXJ_CCTX p'));;
  mret v.

(** An exception of the Java code is logged and dropped. *)
Definition drop_exception : M xst bool :=
  e ← ExceptionCheck;
  (if (e : bool) then
     NDRXJ_LOG_EXCEPTION;; ExceptionClear
   else mret tt);;
  mret e.
End Java.
