(* ===== verification/Server.v ===== *)
(** * Servers and unsolicited messages (libsrc/c/AtmiCtx.c, TpSvcInfo.c, AtmiCtx_unsol.c)

    [tpRunC] marks the context as a server's and runs the library's main loop, which
    calls back [ndrxj_tpsvrinit], [dispatch_call] for every request and
    [ndrxj_tpsvrdone]; these leave the context, call Java and come back.
    [ndrx_unsol_dispatcher] does the same for unsolicited messages. *)
From stdpp Require Import sorting strings gmap list numbers.
From S2P Require Import Prelude CString Jni Xatmi Exceptions TypedBuffer Calls AtmiCtxOps Convert Callback.

(** [TPSVCINFO] *)
Record tpsvcinfo := TpSvcInfo {
  svc_name : string;
  svc_fname : string;
  svc_data : Z;
  svc_len : Z;
  svc_flags : Z;
  svc_cd : Z;
  svc_appkey : Z;
  svc_cltid : string
}.

(** The callbacks of [ndrx_main_integra] and of [tpchkunsol]. *)
Inductive server_cb := CB_tpsvrinit | CB_dispatch (svcinfo : tpsvcinfo) | CB_tpsvrdone.
Record unsol_msg := UnsolMsg { um_data : Z; um_len : Z; um_flags : Z }.

Class ServerLib `{Xatmi} := {
  (** program name of [argv[0]] *)
  EX_PROGNAME : string;
  ndrx_main_integra : list string → script xst server_cb Z Z;
  tpadvertise_full : option string → option string → xst → Z * xst;
  (** true: a dispatcher is registered; false: removed.  The result is false for
      [TPUNSOLERR]. *)
  tpsetunsol : bool → xst → bool * xst;
  tpchkunsol : script xst unsol_msg unit Z
}.

Section Server.
Context `{ServerLib} `{!ContextLib} `{!JavaCode} `{QueueTypes} (vm : jvm).

(** ** TpSvcInfo.c *)

Definition TpSvcInfo_object (i : tpsvcinfo) (jname jdata jcltid jfname : jobject) : jval :=
  JObject "org/endurox/TpSvcInfo"
    (list_to_map [("name", AObj jname); ("data", AObj jdata); ("flags", ALong (svc_flags i));
                  ("cd", ALong (svc_cd i)); ("appkey", ALong (svc_appkey i));
                  ("cltId", AObj jcltid); ("fname", AObj jfname)]).

(** [ndrxj_atmi_TpSvcInfo_translate]: a buffer that cannot be translated becomes
    NULL data, and the translation goes on. *)
Definition ndrxj_atmi_TpSvcInfo_translate (ctx_obj : jobject) (is_ctxset : bool) (svcinfo : tpsvcinfo)
    : M xst jobject :=
  set ← (if is_ctxset then mret true
         else c ← ndrxj_get_ctx vm ctx_obj true; mret (negb (c =? 0)%Z));
  if (set : bool) then
    jdata ← ndrxj_atmi_TypedBuffer_translate vm ctx_obj true (svc_data svcinfo) (svc_len svcinfo) None false;
    jcltid ← ndrxj_atmi_ClientId_translate vm ctx_obj true (svc_cltid svcinfo);
    ret ← (match jcltid with
           | None => mret None
           | Some _ =>
               jname ← NewStringUTF vm (svc_name svcinfo);
               jfname ← NewStringUTF vm (svc_fname svcinfo);
               jni_new vm (TpSvcInfo_object svcinfo jname jdata jcltid jfname)
           end);
    (if is_ctxset then mret tt else unset_ctx);;
    mret ret
  else mret None.

(** ** Callbacks of the server *)

(** The [svr] field of the context object. *)
Definition get_svr (ctx_obj : jobject) : M xst jobject :=
  v ← deref ctx_obj;
  match v with JAtmiCtx _ svr => mret svr | _ => crash "not an AtmiCtx" end.

(** [ndrxj_tpsvrinit]; [jargv] is the global [M_jargv]. *)
Definition ndrxj_tpsvrinit (jargv : jobject) : M xst Z :=
  c ← xget x_ctx;
  ctxpriv ← xget ndrx_ctx_priv_get;
  svrObj ← get_svr (NDRXJ_JATMICTX ctxpriv);
  match svrObj with
  | None => mret EXFAIL
  | Some _ =>
      v ← outside c (λ p, J_tpSvrInit svrObj (NDRXJ_JATMICTX p) jargv);
      e ← drop_exception;
      if (e : bool) then mret EXFAIL
      else match v with V_num z => mret z | V_obj _ => crash "not a number" end
  end.

(** [dispatch_call] *)
Definition dispatch_call (svcinfo : tpsvcinfo) : M xst unit :=
  c ← xget x_ctx;
  ctxpriv ← xget ndrx_ctx_priv_get;
  jsvcinfo ← ndrxj_atmi_TpSvcInfo_translate (NDRXJ_JATMICTX ctxpriv) true svcinfo;
  match jsvcinfo with
  | None => mret tt
  | Some _ =>
      _ ← outside c (λ p, J_tpCallDispatch (NDRXJ_JATMICTX p) jsvcinfo);
      _ ← drop_exception;
      mret tt
  end.

(** [ndrxj_tpsvrdone]: an exception stays pending. *)
Definition ndrxj_tpsvrdone : M xst unit :=
  c ← xget x_ctx;
  ctxpriv ← xget ndrx_ctx_priv_get;
  svrObj ← get_svr (NDRXJ_JATMICTX ctxpriv);
  match svrObj with
  | None => mret tt
  | Some _ => _ ← outside c (λ p, J_tpSvrDone svrObj (NDRXJ_JATMICTX p)); mret tt
  end.

Definition server_handle (jargv : jobject) (cb : server_cb) : M xst Z :=
  match cb with
  | CB_tpsvrinit => ndrxj_tpsvrinit jargv
  | CB_dispatch i => dispatch_call i;; mret 0%Z
  | CB_tpsvrdone => ndrxj_tpsvrdone;; mret 0%Z
  end.

(** [AtmiCtx.tpadvertiseC].  On a NULL context the [goto] jumps over the initialisers
    of the copy flags: [junk1] and [junk2] are their indeterminate values, and the
    pointers they would release are indeterminate too. *)
Definition Java_AtmiCtx_tpadvertiseC (junk1 junk2 : bool) (obj svcname funcname : jobject) : M xst unit :=
  ctx ← ndrxj_get_ctx vm obj true;
  (if (ctx =? 0)%Z then
     if junk1 || junk2 then crash "release of an indeterminate pointer" else mret tt
   else
     '(n_svcname, n_svcname_copy) ← GetStringUTFChars vm svcname;
     '(n_funcname, n_funcname_copy) ← GetStringUTFChars vm funcname;
     r ← xcall (tpadvertise_full n_svcname n_funcname);
     (if (r =? EXSUCCEED)%Z then mret tt else throw_tperrno vm);;
     release_if n_svcname_copy svcname;;
     release_if n_funcname_copy funcname);;
  unset_ctx.

(** ** [tpRunC] *)

Definition array_elements (o : jobject) : M xst (list jobject) :=
  v ← deref o;
  match v with JArray els => mret els | _ => crash "not an object array" end.

(** The argument loop: the copied strings, or [None] on a failure. *)
Fixpoint copy_args (els : list jobject) : M xst (option (list string)) :=
  match els with
  | [] => mret (Some [])
  | jstr :: els' =>
      match jstr with
      | None => mret None
      | Some _ =>
          '(n_elm, n_elm_copy) ← GetStringUTFChars vm jstr;
          match n_elm with
          | None => crash "strdup of NULL"
          | Some s =>
              dup ← ask (jvm_alloc_ok vm);
              (if (dup : bool) then mret tt
               else ndrxj_atmi_throw vm None None TPESYSTEM "Failed to strdup bytes: out of memory");;
              release_if n_elm_copy jstr;;
              if (dup : bool) then
                rest ← copy_args els';
                mret (match rest with None => None | Some l => Some (s :: l) end)
              else mret None
          end
      end
  end.

(** The context becomes a server's: its private data hold a global reference to
    [obj], and the weak reference they held is lost with its handle. *)
Definition mark_server (obj : jobject) (ctx : Z) : M xst jobject :=
  ok ← ask (jvm_alloc_ok vm);
  let ref := if (ok : bool) then obj else None in
  p ← xget ndrx_ctx_priv_get;
  mmod (λ w, match NDRXJ_JATMICTX p with
             | Some l => match remove1 l (w_weak w) with Some q => with_weak q w | None => w end
             | None => w
             end);;
  xmod (ndrx_ctx_priv_put (CtxPriv ref ctx (Z.lor (NDRXJ_CTXFLAGS p) NDRXJ_CTXFLAGS_SRV)));;
  mret ref.

(** The part that runs in the context. *)
Definition run_server (jargv : jobject) (nocheck : bool) : M xst Z :=
  els ← (match jargv with Some _ => array_elements jargv | None => mret [] end);
  if negb nocheck && (length els <? 4) then
    ndrxj_atmi_throw vm None None TPEINVAL
      ("Invalid argument count for server, expected at least 4, got " +:+ print_int (Z.of_nat (length els)));;
    mret EXFAIL
  else
    argv ← ask (jvm_alloc_ok vm);
    if (argv : bool) then
      prog ← ask (jvm_alloc_ok vm);
      args ← copy_args els;
      match args with
      | None => mret EXFAIL
      | Some l =>
          if (prog : bool) then
            '(_, ret) ← run_script (server_handle jargv) (ndrx_main_integra (EX_PROGNAME :: l));
            (if (ret =? EXSUCCEED)%Z then mret tt
             else e ← xget tperrno;
                  if (e =? 0)%Z then mret tt else ndrxj_atmi_throw vm None None e (tpstrerror e));;
            mret ret
          else crash "print of a NULL argument"
      end
    else
      msg ← vsnprintf_missing_arguments;
      ndrxj_atmi_throw vm None None TPESYSTEM msg;;
      mret EXFAIL.

(** [AtmiCtx.tpRunC]: without a context the [out:] block deletes the local reference
    [obj] as a global one. *)
Definition Java_AtmiCtx_tpRunC (obj jargv : jobject) (nocheck : bool) : M xst Z :=
  ctx ← ndrxj_get_ctx vm obj true;
  if (ctx =? 0)%Z then
    unset_ctx;; crash "DeleteGlobalRef of a local reference"
  else
    (match jargv with Some _ => _ ← GetArrayLength jargv; mret tt | None => mret tt end);;
    _ ← mark_server obj ctx;
    ret ← run_server jargv nocheck;
    unset_ctx;;
    mret ret.

(** ** Unsolicited messages *)

(** [ndrx_unsol_dispatcher] *)
Definition ndrx_unsol_dispatcher (m : unsol_msg) : M xst unit :=
  c ← xget x_ctx;
  ctxpriv ← xget ndrx_ctx_priv_get;
  jdata ← ndrxj_atmi_TypedBuffer_translate vm (NDRXJ_JATMICTX ctxpriv) true (um_data m) (um_len m) None false;
  e ← ExceptionCheck;
  (if (e : bool) then mret tt
   else
     ctx ← xcall tpgetctxt;
     p ← priv_of c;
     _ ← call_java (J_unsolDispatch (NDRXJ_JATMICTX p) jdata (um_flags m));
     xmod (tpsetctxt ctx));;
  _ ← drop_exception;
  mret tt.

Definition Java_AtmiCtx_tpsetunsolC (o jcb : jobject) : M xst unit :=
  in_ctx vm o tt
    (ok ← xcall (tpsetunsol (bool_decide (jcb ≠ None)));
     if (ok : bool) then mret tt else throw_tperrno vm).

Definition Java_AtmiCtx_tpchkunsol (o : jobject) : M xst Z :=
  in_ctx vm o EXFAIL
    ('(_, ret) ← run_script ndrx_unsol_dispatcher tpchkunsol;
     (if (ret =? EXFAIL)%Z then throw_tperrno vm else mret tt);;
     mret ret).
End Server.
