(* ===== verification/XaConfig.v ===== *)
(** * libsrc/c/xaconfig.c: the XA open string

    [ndrxj_xa_cfgparse] turns the JSON of NDRX_XA_OPEN_STR into the class of the data
    source and one string per setting, name and values separated by the byte 0x1C;
    [AtmiCtx.ndrxj_xa_init] splits these strings again.  The JSON parser is Enduro/X's:
    the function is modelled on its tree.  Settings that fit come back as they were
    configured. *)
From stdpp Require Import sorting strings list numbers.
From Stdlib Require Import Ascii.
From S2P Require Import Prelude CString.

(** A parsed value: the types [ndrxj_xa_cfgparse] distinguishes. *)
Inductive exjson :=
  | EXJSONString (s : string)
  | EXJSONObject (members : list (string * exjson))
  | EXJSONOther (typ : Z).

Definition NDRXJ_FS : ascii := ascii_of_nat 28.
Definition FS : string := String NDRXJ_FS EmptyString.

(** [char tmpbuf[2048]] *)
Definition TMPBUF : nat := 2048.

(** [exjson_object_get_string], [exjson_object_get_object]: the first member of the
    name, NULL if it has another type. *)
Definition get_member (obj : list (string * exjson)) (name : string) : option exjson :=
  match list_find (λ m, m.1 = name) obj with Some (_, m) => Some m.2 | None => None end.
Definition object_get_string (obj : list (string * exjson)) (name : string) : option string :=
  match get_member obj name with Some (EXJSONString s) => Some s | _ => None end.
Definition object_get_object (obj : list (string * exjson)) (name : string) : list (string * exjson) :=
  match get_member obj name with Some (EXJSONObject l) => l | _ => [] end.

(** [snprintf(tmpbuf+len, sizeof(tmpbuf)-len, ...)] with [len = strlen(tmpbuf)]. *)
Definition append_tmp (tmpbuf s : string) : string :=
  tmpbuf +:+ take_str (TMPBUF - 1 - String.length tmpbuf) s.

(** [%s] of a NULL string. *)
Definition show_str (s : option string) : string := default "(null)"%string s.

(** The inner loop over the properties of one setting; [first]: [n == 0]. *)
Fixpoint add_props (obj members : list (string * exjson)) (first : bool) (tmpbuf : string) : option string :=
  match members with
  | [] => Some tmpbuf
  | (sub_name2, v) :: rest =>
      match v with
      | EXJSONString _ =>
          let item := sub_name2 +:+ FS +:+ show_str (object_get_string obj sub_name2) in
          add_props obj rest false (append_tmp tmpbuf (if first then item else FS +:+ item))
      | _ => None
      end
  end.

(** One member of [set]: its string, or a failure. *)
Definition set_string (obj : list (string * exjson)) (member : string * exjson) : option string :=
  let '(sub_name, v) := member in
  match v with
  | EXJSONString _ =>
      Some (take_str (TMPBUF - 1) (sub_name +:+ FS +:+ show_str (object_get_string obj sub_name)))
  | EXJSONObject _ =>
      let obj2 := object_get_object obj sub_name in
      add_props obj2 obj2 true (append_tmp (strcpy_safe TMPBUF sub_name) FS)
  | EXJSONOther _ => None
  end.

(** The loop over [set]: return code and the strings so far.  [room k]: can the list
    take its [k]-th string? *)
Fixpoint add_sets (room : nat → bool) (obj members : list (string * exjson)) (sets : list string)
    : Z * list string :=
  match members with
  | [] => (EXSUCCEED, sets)
  | m :: rest =>
      match set_string obj m with
      | None => (EXFAIL, sets)
      | Some s =>
          if room (length sets) then add_sets room obj rest (sets ++ [s]) else (EXFAIL, sets)
      end
  end.

(** The loop over the members of the root object. *)
Fixpoint parse_members (room : nat → bool) (clazz_bufsz : nat) (root members : list (string * exjson))
    (sets : list string) (clazz : string) : Z * list string * string :=
  match members with
  | [] => (EXSUCCEED, sets, clazz)
  | (name, v) :: rest =>
      if String.eqb name "class" then
        match v with
        | EXJSONString _ =>
            parse_members room clazz_bufsz root rest sets
              (strcpy_safe clazz_bufsz (show_str (object_get_string root name)))
        | _ => (EXFAIL, sets, clazz)
        end
      else if String.eqb name "set" then
        match v with
        | EXJSONObject _ =>
            let sub_obj := object_get_object root name in
            let '(r, sets') := add_sets room sub_obj sub_obj sets in
            if (r =? EXSUCCEED)%Z then parse_members room clazz_bufsz root rest sets' clazz
            else (EXFAIL, sets', clazz)
        | _ => (EXFAIL, sets, clazz)
        end
      else parse_members room clazz_bufsz root rest sets clazz
  end.

(** [ndrxj_xa_cfgparse] on the parser's result: return code, settings and class, the
    latter two as far as they were stored. *)
Definition ndrxj_xa_cfgparse (room : nat → bool) (root_value : option exjson) (clazz_bufsz : nat)
    : Z * list string * string :=
  match root_value with
  | Some (EXJSONObject root) => parse_members room clazz_bufsz root root [] EmptyString
  | _ => (EXFAIL, [], EmptyString)
  end.

(** ** AtmiCtx.java: [ndrxj_xa_init] *)

(** Split at the separator. *)
Fixpoint split_fs (acc s : string) : list string :=
  match s with
  | EmptyString => [acc]
  | String c s' => if Ascii.eqb c NDRXJ_FS then acc :: split_fs EmptyString s'
                   else split_fs (acc +:+ String c EmptyString) s'
  end.

(** [String.split] drops empty strings at the end. *)
Fixpoint drop_trailing (l : list string) : list string :=
  match l with
  | [] => []
  | x :: l' => match drop_trailing l' with
               | [] => if String.eqb x EmptyString then [] else [x]
               | r => x :: r
               end
  end.

Inductive setting := Plain (value : string) | Props (props : list (string * string)).

Fixpoint pairs_of (l : list string) : option (list (string * string)) :=
  match l with
  | [] => Some []
  | [_] => None
  | k :: v :: l' => match pairs_of l' with Some r => Some ((k, v) :: r) | None => None end
  end.

(** The name and value of one setting string; [None]: the array index is out of
    bounds. *)
Definition read_setting (s : string) : option (string * setting) :=
  match drop_trailing (split_fs EmptyString s) with
  | [] | [_] => None
  | [name; value] => Some (name, Plain value)
  | name :: props => match pairs_of props with Some p => Some (name, Props p) | None => None end
  end.

(** ** What is configured and what is read *)

(** Keys and values in turn. *)
Fixpoint flat (ps : list (string * string)) : list string :=
  match ps with [] => [] | (k, v) :: rest => k :: v :: flat rest end.

(** The members of a setting's string. *)
Definition parts_of (e : string * setting) : list string :=
  e.1 :: match e.2 with Plain v => [v] | Props ps => flat ps end.

Fixpoint join_fs (l : list string) : string :=
  match l with
  | [] => EmptyString
  | [x] => x
  | x :: l' => x +:+ FS +:+ join_fs l'
  end.

Definition json_of (s : setting) : exjson :=
  match s with
  | Plain v => EXJSONString v
  | Props ps => EXJSONObject ((λ kv, (kv.1, EXJSONString kv.2)) <$> ps)
  end.

(** A setting that survives: no separator inside, no empty string at the end, keys
    distinct, and room in [tmpbuf]. *)
Definition setting_ok (e : string * setting) : Prop :=
  Forall (λ x, no_char NDRXJ_FS x) (parts_of e) ∧
  (∃ x, last (parts_of e) = Some x ∧ x ≠ EmptyString) ∧
  match e.2 with Plain _ => True | Props ps => ps ≠ [] ∧ NoDup ps.*1 end ∧
  String.length (join_fs (parts_of e)) < TMPBUF.

Lemma get_member_unique obj name v :
  NoDup obj.*1 → (name, v) ∈ obj → get_member obj name = Some v.
Proof.
  unfold get_member. induction obj as [|[k u] obj IH]; [by intros _ ?%elem_of_nil|].
  cbn [fmap list_fmap fst]. intros [Hk Hn]%NoDup_cons [[= -> ->]|Hin]%elem_of_cons; cbn.
  - by rewrite decide_True.
  - rewrite decide_False.
    + specialize (IH Hn Hin). by destruct (list_find _ obj) as [[]|].
    + simpl. intros ->. apply Hk. apply list_elem_of_fmap. by exists (name, v).
Qed.

Lemma append_fits t s : String.length t + String.length s < TMPBUF → append_tmp t s = t +:+ s.
Proof. intros Hl. unfold append_tmp. rewrite take_str_all; [done|]. lia. Qed.

Lemma join_fs_cons x l : l ≠ [] → join_fs (x :: l) = x +:+ FS +:+ join_fs l.
Proof. by destruct l. Qed.

(** The text the property loop adds. *)
Fixpoint props_text (first : bool) (ps : list (string * string)) : string :=
  match ps with
  | [] => EmptyString
  | (k, v) :: rest => (if first then EmptyString else FS) +:+ (k +:+ FS +:+ v) +:+ props_text false rest
  end.

Lemma props_text_join ps :
  ps ≠ [] → props_text true ps = join_fs (flat ps) ∧
  props_text false ps = FS +:+ join_fs (flat ps).
Proof.
  induction ps as [|[k v] ps IH]; [done|]. intros _. destruct ps as [|kv ps].
  - cbn [props_text flat join_fs]. by rewrite string_app_nil_l, !string_app_nil_r.
  - destruct IH as [_ Hf]; [done|]. destruct kv as [k' v']. cbn [props_text flat] in *. rewrite Hf.
    rewrite !(join_fs_cons k), !(join_fs_cons v) by done. by rewrite string_app_nil_l, !string_app_assoc.
Qed.

Lemma add_props_ok obj ps first tmp :
  NoDup obj.*1 → (∀ kv, kv ∈ ps → (kv.1, EXJSONString kv.2) ∈ obj) →
  String.length tmp + String.length (props_text first ps) < TMPBUF →
  add_props obj ((λ kv, (kv.1, EXJSONString kv.2)) <$> ps) first tmp = Some (tmp +:+ props_text first ps).
Proof.
  intros Hn. revert first tmp. induction ps as [|[k v] ps IH]; intros first tmp Hin Hl.
  { simpl. by rewrite string_app_nil_r. }
  cbn [fmap list_fmap add_props fst snd props_text] in *.
  unfold object_get_string. rewrite (get_member_unique obj k (EXJSONString v)).
  2: done. 2: { apply (Hin (k, v)). apply elem_of_cons. by left. }
  change (show_str (Some v)) with v. cbv zeta. rewrite !string_length_app in Hl.
  assert ((if first then k +:+ FS +:+ v else FS +:+ k +:+ FS +:+ v) =
          (if first then EmptyString else FS) +:+ (k +:+ FS +:+ v)) as -> by by destruct first.
  rewrite append_fits by (rewrite !string_length_app; lia).
  rewrite IH; [by rewrite !string_app_assoc| |rewrite !string_length_app; lia].
  intros kv Hkv. apply Hin, elem_of_cons. by right.
Qed.

(** The string of a setting. *)
Lemma set_string_ok obj e :
  NoDup obj.*1 → (e.1, json_of e.2) ∈ obj → setting_ok e →
  set_string obj (e.1, json_of e.2) = Some (join_fs (parts_of e)).
Proof.
  intros Hn Hin (Hfs & _ & Hps & Hl). destruct e as [name [v|ps]]; cbn [json_of fst snd set_string parts_of] in *.
  - unfold object_get_string. rewrite (get_member_unique obj name _ Hn Hin). change (show_str (Some v)) with v. cbn [join_fs] in *.
    change (join_fs (parts_of (name, Plain v))) with (name +:+ FS +:+ v) in *.
    by rewrite take_str_all by (unfold TMPBUF in *; lia).
  - unfold object_get_object. rewrite (get_member_unique obj name _ Hn Hin). destruct Hps as [Hne Hnd].
    assert (flat ps ≠ []) as Hne' by by destruct ps as [|[]].
    change (parts_of (name, Props ps)) with (name :: flat ps) in *. rewrite join_fs_cons in * by done. rewrite !string_length_app in Hl.
    destruct (props_text_join ps Hne) as [Ht _].
    rewrite strcpy_safe_fits by (unfold TMPBUF in *; lia). rewrite append_fits by lia.
    rewrite add_props_ok.
    + by rewrite Ht, string_app_assoc.
    + by rewrite <- list_fmap_compose.
    + intros kv Hkv. apply list_elem_of_fmap. by exists kv.
    + rewrite Ht, string_length_app. lia.
Qed.

(** *** Splitting *)

Lemma split_fs_free acc s rest :
  no_char NDRXJ_FS s → split_fs acc (s +:+ FS +:+ rest) = (acc +:+ s) :: split_fs EmptyString rest.
Proof.
  revert acc. induction s as [|c s IH]; intros acc Hs.
  - change (split_fs acc (String NDRXJ_FS rest) = (acc +:+ EmptyString) :: split_fs EmptyString rest).
    cbn [split_fs]. rewrite Ascii.eqb_refl. by rewrite string_app_nil_r.
  - cbn [no_char] in Hs. apply andb_prop_elim in Hs as [Hc Hs]. change (String c s +:+ FS +:+ rest) with (String c (s +:+ FS +:+ rest)).
    cbn [split_fs]. destruct (Ascii.eqb c NDRXJ_FS); [done|]. rewrite IH by done. by rewrite string_app_assoc.
Qed.

Lemma split_fs_last acc s : no_char NDRXJ_FS s → split_fs acc s = [acc +:+ s].
Proof.
  revert acc. induction s as [|c s IH]; intros acc Hs; [cbn [split_fs]; by rewrite string_app_nil_r|].
  cbn [no_char] in Hs. apply andb_prop_elim in Hs as [Hc Hs]. cbn [split_fs].
  destruct (Ascii.eqb c NDRXJ_FS); [done|]. rewrite IH by done. by rewrite string_app_assoc.
Qed.

Lemma split_join l : l ≠ [] → Forall (λ x, no_char NDRXJ_FS x) l → split_fs EmptyString (join_fs l) = l.
Proof.
  intros Hne Hf. induction l as [|x l IH]; [done|]. apply Forall_cons in Hf as [Hx Hf].
  destruct l as [|y l]; [by apply split_fs_last|]. rewrite join_fs_cons, split_fs_free by done.
  f_equal. by apply IH.
Qed.

Lemma drop_trailing_id l x : last l = Some x → x ≠ EmptyString → drop_trailing l = l.
Proof.
  intros Hl Hx. induction l as [|y l IH]; [done|]. cbn [drop_trailing].
  destruct l as [|z l]; cbn [last] in Hl.
  - injection Hl as ->. cbn. by rewrite (proj2 (String.eqb_neq _ _) Hx).
  - rewrite (IH Hl). done.
Qed.

Lemma pairs_of_flat ps : pairs_of (flat ps) = Some ps.
Proof. induction ps as [|[k v] ps IH]; [done|]. cbn [flat pairs_of]. by rewrite IH. Qed.

Lemma read_setting_ok e : setting_ok e → read_setting (join_fs (parts_of e)) = Some e.
Proof.
  intros (Hfs & (x & Hx & Hne) & Hps & _). unfold read_setting.
  rewrite split_join, (drop_trailing_id _ x) by done. destruct e as [name [v|ps]]; [done|].
  destruct Hps as [Hnil _]. change (parts_of (name, Props ps)) with (name :: flat ps).
  pose proof (pairs_of_flat ps) as Hp. destruct ps as [|[k v] ps]; [done|]. cbn [flat] in *. by rewrite Hp.
Qed.

(** *** The whole configuration *)

Definition json_set (es : list (string * setting)) : list (string * exjson) :=
  (λ e, (e.1, json_of e.2)) <$> es.

Lemma add_sets_ok obj es sets :
  NoDup obj.*1 → (∀ e, e ∈ es → (e.1, json_of e.2) ∈ obj) → Forall setting_ok es →
  add_sets (λ _, true) obj (json_set es) sets = (EXSUCCEED, sets ++ (join_fs ∘ parts_of <$> es)).
Proof.
  intros Hn. revert sets. induction es as [|e es IH]; intros sets Hin Hok.
  { cbn. by rewrite app_nil_r. }
  apply Forall_cons in Hok as [He Hok]. cbn [json_set fmap list_fmap add_sets].
  rewrite (set_string_ok obj e Hn) by (done || apply Hin, elem_of_cons; by left).
  change (list_fmap _ _ (λ e, (e.1, json_of e.2)) es) with (json_set es).
  rewrite IH; [by rewrite <- app_assoc| |done]. intros e' He'. apply Hin, elem_of_cons. by right.
Qed.

(** A root object with its class and settings and members of other names between. *)
Definition other_member (m : string * exjson) : Prop := m.1 ≠ "class"%string ∧ m.1 ≠ "set"%string.

Lemma parse_members_others room bufsz root pre rest sets clazz :
  Forall other_member pre →
  parse_members room bufsz root (pre ++ rest) sets clazz = parse_members room bufsz root rest sets clazz.
Proof.
  induction 1 as [|[name v] pre [Hc Hs] _ IH]; [done|]. cbn [app parse_members]. simpl in Hc, Hs.
  by rewrite (proj2 (String.eqb_neq _ _) Hc), (proj2 (String.eqb_neq _ _) Hs).
Qed.

Definition config_of (pre : list (string * exjson)) (cls : string) (mid : list (string * exjson))
    (es : list (string * setting)) (post : list (string * exjson)) : list (string * exjson) :=
  pre ++ ("class"%string, EXJSONString cls) :: mid ++ ("set"%string, EXJSONObject (json_set es)) :: post.

Lemma cfgparse_config bufsz pre cls mid es post :
  NoDup (config_of pre cls mid es post).*1 →
  Forall other_member (pre ++ mid ++ post) → NoDup es.*1 → Forall setting_ok es →
  String.length cls < bufsz →
  ndrxj_xa_cfgparse (λ _, true) (Some (EXJSONObject (config_of pre cls mid es post))) bufsz =
  (EXSUCCEED, join_fs ∘ parts_of <$> es, cls).
Proof.
  intros Hn Ho He Hok Hl. apply Forall_app in Ho as [Hp Ho]. apply Forall_app in Ho as [Hm Hq].
  set (root := config_of pre cls mid es post) in *. cbn [ndrxj_xa_cfgparse].
  unfold root at 2, config_of. rewrite parse_members_others by done. cbn [parse_members].
  rewrite String.eqb_refl. unfold object_get_string. rewrite (get_member_unique root "class" (EXJSONString cls)).
  2: done. 2: { unfold root, config_of. rewrite !elem_of_app, !elem_of_cons, ?elem_of_app, ?elem_of_cons. tauto. }
  cbn [show_str default]. rewrite strcpy_safe_fits by done. rewrite parse_members_others by done. cbn [parse_members].
  change (String.eqb "set" "class") with false. rewrite String.eqb_refl. cbv iota.
  unfold object_get_object. rewrite (get_member_unique root "set" (EXJSONObject (json_set es))).
  2: done. 2: { unfold root, config_of. rewrite !elem_of_app, !elem_of_cons, ?elem_of_app, ?elem_of_cons. tauto. }
  cbv zeta. rewrite add_sets_ok; [|..].
  - cbv iota beta. change (EXSUCCEED =? EXSUCCEED)%Z with true. cbv iota.
    rewrite <- (app_nil_r post), parse_members_others by done. done.
  - unfold json_set. by rewrite <- list_fmap_compose.
  - intros e Hin. unfold json_set. apply list_elem_of_fmap. by exists e.
  - done.
Qed.
