(* ===== verification/TermSig.v ===== *)
(** * libsrc/c/TermSigHandler.c: the termination handler

    [installTermSigHandler] starts a thread that waits for termination signals and
    calls a Java [Runnable]; later calls exchange the runnable.  Java threads that
    install and the monitor threads share the globals under one mutex.  The threads are
    program counters, the steps between two accesses to the globals are atomic, and the
    answers of the environment (is the machine found, is a reference or a thread made,
    does the runnable raise) are arbitrary. *)
From stdpp Require Import sorting list numbers relations.
From S2P Require Import Prelude.

(** A thread: the [i]-th that installs, or the [j]-th monitor. *)
Inductive actor := Installer (i : nat) | Monitor (j : nat).

(** The globals; [grefs] are the global references that exist. *)
Record sig := Sig {
  M_is_set_lock : option actor;
  M_is_set : bool;
  M_runner : option nat;
  grefs : list nat;
  next_ref : nat
}.

Definition set_lock (a : option actor) (s : sig) : sig :=
  Sig a (M_is_set s) (M_runner s) (grefs s) (next_ref s).
Definition DeleteGlobalRef (g : nat) (s : sig) : sig :=
  Sig (M_is_set_lock s) (M_is_set s) (M_runner s) (filter (λ x, x ≠ g) (grefs s)) (next_ref s).
Definition store_runner (r : option nat) (s : sig) : sig :=
  Sig (M_is_set_lock s) (M_is_set s) r (grefs s) (next_ref s).
(** [NewGlobalRef] into the variable; NULL if there is no memory. *)
Definition store_new_runner (ok : bool) (s : sig) : sig :=
  if ok then Sig (M_is_set_lock s) (M_is_set s) (Some (next_ref s)) (next_ref s :: grefs s) (S (next_ref s))
  else store_runner None s.

(** [installTermSigHandler], after the context was entered.  [runner]: is the argument
    not NULL?  [have_lock] is the local variable. *)
Inductive inst_pc :=
  | I_test (runner : bool)
  | I_lock (runner : bool)
  | I_retest (runner : bool)
  | I_create (runner : bool)
  | I_lock_late (runner : bool)
  | I_delete (have_lock runner : bool)
  | I_store (have_lock runner : bool)
  | I_out (have_lock : bool)
  | I_done.

(** One step of the [i]-th installer: the globals, where it is then, and whether a
    monitor was started; [None] while it waits for the mutex or is done. *)
Definition installTermSigHandler (i : nat) (ans : bool) (s : sig) (pc : inst_pc) : option (sig * inst_pc * bool) :=
  match pc with
  | I_test r => Some (s, if M_is_set s then I_lock_late r else I_lock r, false)
  | I_lock r =>
      match M_is_set_lock s with
      | Some _ => None
      | None => Some (set_lock (Some (Installer i)) s, I_retest r, false)
      end
  | I_retest r =>
      Some (s, if M_is_set s then I_delete true r else if ans then I_create r else I_out true, false)
  | I_create r => Some (s, I_delete true r, ans)
  | I_lock_late r =>
      match M_is_set_lock s with
      | Some _ => None
      | None => Some (set_lock (Some (Installer i)) s, I_delete false r, false)
      end
  | I_delete h r =>
      Some (match M_runner s with Some g => DeleteGlobalRef g s | None => s end, I_store h r, false)
  | I_store h r => Some (if r then store_new_runner ans s else store_runner None s, I_out h, false)
  | I_out h => Some (if h then set_lock None s else s, I_done, false)
  | I_done => None
  end.

(** [sig_thread]; [exc]: is an exception of the runnable pending?  [M_exited]: the
    thread could not be attached and has ended the process. *)
Inductive mon_pc :=
  | M_attach
  | M_exited
  | M_wait (exc : bool)
  | M_lock (exc : bool)
  | M_call (exc : bool)
  | M_unlock (exc : bool)
  | M_fault (why : option nat).

(** One step of the [j]-th monitor.  A fault is a call through a deleted reference, or
    with an exception pending. *)
Definition sig_thread (j : nat) (ans : bool) (s : sig) (pc : mon_pc) : option (sig * mon_pc) :=
  match pc with
  | M_attach => Some (s, if ans then M_wait false else M_exited)
  | M_exited | M_fault _ => None
  | M_wait e => Some (s, M_lock e)
  | M_lock e =>
      match M_is_set_lock s with
      | Some _ => None
      | None => Some (set_lock (Some (Monitor j)) s, M_call e)
      end
  | M_call e =>
      match M_runner s with
      | None => Some (s, M_unlock e)
      | Some g =>
          if decide (g ∉ grefs s) then Some (s, M_fault (Some g))
          else if e then Some (s, M_fault None)
          else Some (s, M_unlock (negb ans))
      end
  | M_unlock e => Some (set_lock None s, M_wait e)
  end.

Record process := Process { p_sig : sig; p_inst : list inst_pc; p_mon : list mon_pc }.

Inductive sig_step : process → process → Prop :=
  | sig_inst s l m i pc ans s' pc' new :
      l !! i = Some pc → installTermSigHandler i ans s pc = Some (s', pc', new) →
      sig_step (Process s l m) (Process s' (<[i := pc']> l) (if new : bool then m ++ [M_attach] else m))
  | sig_mon s l m j pc ans s' pc' :
      m !! j = Some pc → sig_thread j ans s pc = Some (s', pc') →
      sig_step (Process s l m) (Process s' l (<[j := pc']> m)).

(** Calls with these arguments, in a process without handler. *)
Definition sig_start (runners : list bool) : process :=
  Process (Sig None false None [] 0) (I_test <$> runners) [].

(** ** The invariant *)

Definition inst_holds (pc : inst_pc) : bool :=
  match pc with I_retest _ | I_create _ | I_delete _ _ | I_store _ _ | I_out _ => true | _ => false end.
Definition mon_holds (pc : mon_pc) : bool :=
  match pc with M_call _ | M_unlock _ | M_fault _ => true | _ => false end.

(** The path of a handler already set up is not taken. *)
Definition early (pc : inst_pc) : bool :=
  match pc with I_lock_late _ | I_delete false _ | I_store false _ | I_out false => false | _ => true end.

Definition storing (pc : inst_pc) : bool := match pc with I_store _ _ => true | _ => false end.

Record sig_inv (p : process) : Prop := {
  si_unset : M_is_set (p_sig p) = false;
  si_inst i pc : p_inst p !! i = Some pc →
    early pc = true ∧ (inst_holds pc = true ↔ M_is_set_lock (p_sig p) = Some (Installer i));
  si_mon j pc : p_mon p !! j = Some pc →
    (mon_holds pc = true ↔ M_is_set_lock (p_sig p) = Some (Monitor j)) ∧ (∀ g, pc ≠ M_fault (Some g));
  si_range j : M_is_set_lock (p_sig p) = Some (Monitor j) → is_Some (p_mon p !! j);
  si_storing i pc : p_inst p !! i = Some pc → storing pc = true → grefs (p_sig p) = [];
  si_refs : (∀ i pc, p_inst p !! i = Some pc → storing pc = false) →
    grefs (p_sig p) = option_list (M_runner (p_sig p))
}.

Lemma sig_start_inv runners : sig_inv (sig_start runners).
Proof.
  constructor; try done;
    (intros i pc Hi; cbn in Hi; rewrite list_lookup_fmap in Hi; destruct (runners !! i); [|done];
     by injection Hi as <-).
Qed.

Lemma filter_self (g : nat) : filter (λ x, x ≠ g) [g] = [].
Proof. rewrite filter_cons_False; [done|]. naive_solver. Qed.

Lemma storing_holds pc : storing pc = true → inst_holds pc = true.
Proof. by destruct pc. Qed.

(** A step of an installer: the mutex as the others see it, and the references, if
    no other one is storing. *)
Lemma inst_step_lock i ans s pc s' pc' new :
  installTermSigHandler i ans s pc = Some (s', pc', new) → M_is_set s = false → early pc = true →
  (inst_holds pc = true ↔ M_is_set_lock s = Some (Installer i)) →
  M_is_set s' = false ∧ early pc' = true ∧
  (inst_holds pc' = true ↔ M_is_set_lock s' = Some (Installer i)) ∧
  (∀ a, a ≠ Installer i → M_is_set_lock s' = Some a ↔ M_is_set_lock s = Some a) ∧
  (inst_holds pc = false → grefs s' = grefs s ∧ M_runner s' = M_runner s ∧ storing pc' = false).
Proof.
  intros Hs Hset He Hh. destruct pc as [r|r|r|r|r|h r|h r|h|]; cbn [installTermSigHandler] in Hs; try done.
  - rewrite Hset in Hs. injection Hs as <- <- <-. naive_solver.
  - destruct (M_is_set_lock s) eqn:E; [done|]. injection Hs as <- <- <-. cbn. naive_solver.
  - rewrite Hset in Hs. injection Hs as <- <- <-. destruct ans; naive_solver.
  - injection Hs as <- <- <-. naive_solver.
  - destruct h; [|done]. injection Hs as <- <- <-. destruct (M_runner s); naive_solver.
  - destruct h; [|done]. injection Hs as <- <- <-. destruct r, ans; naive_solver.
  - destruct h; [|done]. injection Hs as <- <- <-. naive_solver.
Qed.

Lemma inst_step_refs i ans s pc s' pc' new :
  installTermSigHandler i ans s pc = Some (s', pc', new) →
  grefs s = (if storing pc then [] else option_list (M_runner s)) →
  grefs s' = (if storing pc' then [] else option_list (M_runner s')).
Proof.
  intros Hs Hr. destruct pc as [r|r|r|r|r|h r|h r|h|]; cbn [installTermSigHandler storing] in *; try done.
  1: injection Hs as <- <- <-; by destruct (M_is_set s).
  1, 4: destruct (M_is_set_lock s); [done|]; by injection Hs as <- <- <-.
  1: injection Hs as <- <- <-; by destruct (M_is_set s), ans.
  1: by injection Hs as <- <- <-.
  - injection Hs as <- <- <-. cbn [storing]. destruct (M_runner s) as [g|] eqn:Eg; [|done].
    cbn [DeleteGlobalRef grefs]. rewrite Hr. apply filter_self.
  - injection Hs as <- <- <-. destruct r, ans; cbn; by rewrite ?Hr.
  - injection Hs as <- <- <-. by destruct h.
Qed.

Lemma inst_step_inv s l m i pc ans s' pc' new :
  l !! i = Some pc → installTermSigHandler i ans s pc = Some (s', pc', new) →
  sig_inv (Process s l m) →
  sig_inv (Process s' (<[i := pc']> l) (if new : bool then m ++ [M_attach] else m)).
Proof.
  intros Hl Hs [Hset Hi Hm Hrng Hst Hrefs]. cbn [p_sig p_inst p_mon] in *. destruct (Hi i pc Hl) as [He Hh].
  destruct (inst_step_lock i ans s pc s' pc' new Hs Hset He Hh) as (Hset' & He' & Hh' & Hoth & Hfree).
  assert (∀ k pck, k ≠ i → l !! k = Some pck → storing pck = true → inst_holds pc = false) as Hone.
  { intros k pck Hne Hk Hsk. destruct (inst_holds pc); [|done]. apply storing_holds, (Hi k pck Hk) in Hsk.
    rewrite (proj1 Hh eq_refl) in Hsk. congruence. }
  assert ((∀ k pck, k ≠ i → l !! k = Some pck → storing pck = false) →
    grefs s' = (if storing pc' then [] else option_list (M_runner s'))) as Hr'.
  { intros Hno. apply (inst_step_refs i ans s pc s' pc' new Hs). destruct (storing pc) eqn:Es; [by eapply Hst|].
    apply Hrefs. intros k pck Hk. destruct (decide (k = i)) as [->|]; [congruence|by eapply Hno]. }
  constructor; cbn [p_sig p_inst p_mon]; [done|..].
  - intros k pck [(<- & -> & _)|[Hne Hk]]%list_lookup_insert_Some; [done|].
    destruct (Hi k pck Hk) as [Hek Hhk]. split; [done|]. rewrite Hhk. symmetry. apply Hoth. congruence.
  - intros k pck Hk. assert (m !! k = Some pck ∨ m !! k = None ∧ pck = M_attach) as [Hk'|[Hk' ->]].
    { destruct new; [|by left]. apply lookup_app_Some in Hk as [Hk|[Hk1 Hk]]; [by left|]. right.
      split; [by apply lookup_ge_None|]. destruct (k - length m); [|done]. by injection Hk as <-. }
    + destruct (Hm k pck Hk') as [Hhk Hfk]. split; [|done]. rewrite Hhk. symmetry. by apply Hoth.
    + split; [|done]. split; [done|]. intros Hk2%Hoth; [|done]. destruct (Hrng k Hk2). congruence.
  - intros k Hk%Hoth; [|done]. destruct (Hrng k Hk) as [pck Hk']. exists pck.
    destruct new; [by apply lookup_app_l_Some|done].
  - intros k pck [(<- & -> & _)|[Hne Hk]]%list_lookup_insert_Some Hsk.
    + rewrite Hr', Hsk; [done|]. intros k' pck' Hne Hk. destruct (storing pck') eqn:Ek; [|done].
      rewrite (Hone k' pck') in Hfree by done. destruct (Hfree eq_refl) as (_ & _ & ?). congruence.
    + destruct (Hfree (Hone k pck (not_eq_sym Hne) Hk Hsk)) as [-> _]. by eapply Hst.
  - intros Hno. rewrite Hr'.
    + rewrite (Hno i pc'); [done|]. apply list_lookup_insert_eq. by eapply lookup_lt_Some.
    + intros k pck Hne Hk. apply (Hno k). by rewrite list_lookup_insert_ne.
Qed.

Lemma mon_step_lock j ans s pc s' pc' :
  sig_thread j ans s pc = Some (s', pc') →
  (mon_holds pc = true ↔ M_is_set_lock s = Some (Monitor j)) →
  (mon_holds pc = true → grefs s = option_list (M_runner s)) → (∀ g, pc ≠ M_fault (Some g)) →
  (mon_holds pc' = true ↔ M_is_set_lock s' = Some (Monitor j)) ∧ (∀ g, pc' ≠ M_fault (Some g)) ∧
  M_is_set s' = M_is_set s ∧ grefs s' = grefs s ∧ M_runner s' = M_runner s ∧
  (∀ a, a ≠ Monitor j → M_is_set_lock s' = Some a ↔ M_is_set_lock s = Some a).
Proof.
  intros Hs Hh Hr Hf. destruct pc as [| |e|e|e|e|why]; cbn [sig_thread] in Hs; try done.
  - injection Hs as <- <-. destruct ans; naive_solver.
  - injection Hs as <- <-. naive_solver.
  - destruct (M_is_set_lock s) eqn:E; [done|]. injection Hs as <- <-. cbn. naive_solver.
  - destruct (M_runner s) as [g|] eqn:Eg; [|injection Hs as <- <-; naive_solver].
    cbn [mon_holds] in *. rewrite Hr, decide_False in Hs by (done || (cbn; rewrite elem_of_cons; naive_solver)).
    destruct e; injection Hs as <- <-; naive_solver.
  - injection Hs as <- <-. cbn in *. naive_solver.
Qed.

Lemma mon_step_inv s l m j pc ans s' pc' :
  m !! j = Some pc → sig_thread j ans s pc = Some (s', pc') →
  sig_inv (Process s l m) → sig_inv (Process s' l (<[j := pc']> m)).
Proof.
  intros Hj Hs [Hset Hi Hm Hrng Hst Hrefs]. cbn [p_sig p_inst p_mon] in *. destruct (Hm j pc Hj) as [Hh Hf].
  destruct (mon_step_lock j ans s pc s' pc' Hs Hh) as (Hh' & Hf' & Hs' & Hg & Hr & Hoth); [|done|].
  { intros Hp%Hh. apply Hrefs. intros i pci Hi'. destruct (storing pci) eqn:E; [|done].
    apply storing_holds, (Hi i pci Hi') in E. congruence. }
  constructor; cbn [p_sig p_inst p_mon]; rewrite ?Hs', ?Hg, ?Hr; [done|..|done|done].
  - intros i pci Hi'. destruct (Hi i pci Hi') as [He Hhi]. split; [done|]. rewrite Hhi. symmetry. by apply Hoth.
  - intros k pck [(<- & -> & _)|[Hne Hk]]%list_lookup_insert_Some; [done|].
    destruct (Hm k pck Hk) as [Hhk Hfk]. split; [|done]. rewrite Hhk. symmetry. apply Hoth. congruence.
  - intros k Hk. destruct (decide (k = j)) as [->|Hne].
    + rewrite list_lookup_insert_eq; [done|by eapply lookup_lt_Some].
    + rewrite list_lookup_insert_ne by done. apply Hrng. apply Hoth; [congruence|done].
Qed.

Lemma sig_step_inv p p' : sig_step p p' → sig_inv p → sig_inv p'.
Proof. intros [] Hp; [by eapply inst_step_inv|by eapply mon_step_inv]. Qed.

Lemma sig_reach_inv runners p : rtc sig_step (sig_start runners) p → sig_inv p.
Proof.
  intros Hs. pose proof (sig_start_inv runners) as Hi. induction Hs as [p|p1 p2 p3 Hs _ IH]; [done|].
  apply IH. by eapply sig_step_inv.
Qed.

(** ** Schedules *)

Definition act (p : process) (a : actor) (ans : bool) : option process :=
  match a with
  | Installer i =>
      pc ← p_inst p !! i;
      '(s', pc', new) ← installTermSigHandler i ans (p_sig p) pc;
      Some (Process s' (<[i := pc']> (p_inst p)) (if new : bool then p_mon p ++ [M_attach] else p_mon p))
  | Monitor j =>
      pc ← p_mon p !! j;
      '(s', pc') ← sig_thread j ans (p_sig p) pc;
      Some (Process s' (p_inst p) (<[j := pc']> (p_mon p)))
  end.

Fixpoint run_schedule (l : list (actor * bool)) (p : process) : option process :=
  match l with
  | [] => Some p
  | (a, ans) :: l' => p' ← act p a ans; run_schedule l' p'
  end.

Lemma act_step p a ans p' : act p a ans = Some p' → sig_step p p'.
Proof.
  destruct p as [s l m], a as [i|j]; cbn [act p_inst p_mon p_sig].
  - destruct (l !! i) as [pc|] eqn:Hl; [|done]. cbn. destruct (installTermSigHandler i ans s pc) as [[[s' pc'] new]|] eqn:E; [|done].
    intros [= <-]. by eapply sig_inst.
  - destruct (m !! j) as [pc|] eqn:Hl; [|done]. cbn. destruct (sig_thread j ans s pc) as [[s' pc']|] eqn:E; [|done].
    intros [= <-]. by eapply sig_mon.
Qed.

Lemma schedule_reaches l p p' : run_schedule l p = Some p' → rtc sig_step p p'.
Proof.
  revert p. induction l as [|[a ans] l IH]; intros p; cbn [run_schedule]; [by intros [= ->]|].
  destruct (act p a ans) as [p1|] eqn:E; [|done]. cbn. intros Hr. eapply rtc_l; [by eapply act_step|by apply IH].
Qed.
