(* ===== verification/Xa.v ===== *)
(** * Transactions run in Java (libsrc/c/xaj.c, xatmsrv.c, the XID conversions of util.c)

    The transaction manager calls the switch [ndrxjsw]; its entries hand the call over
    to the Java context object and bring the answer back.  Identifiers go to Java as
    [ExXid] objects and come back from any implementation of [javax.transaction.xa.Xid].
    The context object is made on the first call of a thread. *)
From stdpp Require Import sorting strings gmap list numbers.
From S2P Require Import Prelude CString Jni Boot Xatmi Exceptions Convert Callback XaConfig.

(** [XID] (xa.h) *)
Record xid := Xid {
  formatID : Z;
  gtrid_length : Z;
  bqual_length : Z;
  xid_data : list Z
}.

(** Return codes of the XA interface. *)
Definition XA_OK : Z := 0.
Definition XAER_RMERR : Z := -3.
Definition XAER_RMFAIL : Z := -7.

Class XaLib `{Xatmi} := {
  (** size of the data field *)
  XIDDATASIZE : nat;
  ndrx_ctx_auto : bool → xst → xst;
  (** the static Java methods [AtmiCtx.createAtmiCtx] and [Thread.currentThread] *)
  java_createAtmiCtx : Z → M xst jobject;
  java_currentThread : M xst jobject;
  (** what [CallLongMethod] returns for a method that returns the int: the upper half
      is not specified *)
  long_of_int : Z → Z;
  (** does the machine put up with a release through a deleted local reference? *)
  stale_release : bool
}.

Section Xa.
Context `{XA : XaLib} {CL : ContextLib} {JC : JavaCode} (vm : jvm).

(** ** Identifiers *)

(** [new byte[n]] and [System.arraycopy(data, off, ..., n)]. *)
Definition new_slice (data : list Z) (off n : Z) : M xst jobject :=
  if (n <? 0)%Z then throw_vm "java/lang/NegativeArraySizeException";; mret None
  else
    ok ← ask (jvm_alloc_ok vm);
    if negb ok then throw_vm "java/lang/OutOfMemoryError";; mret None
    else if (Z.of_nat (length data) <? off + n)%Z then
      throw_vm "java/lang/ArrayIndexOutOfBoundsException";; mret None
    else store_new (JBytes (take (Z.to_nat n) (drop (Z.to_nat off) data))).

Definition ExXid_object (f g b : Z) (jdata jtrxid jbqual : jobject) : jval :=
  JObject "org/endurox/ExXid"
    (list_to_map [("formatID", ALong f); ("gtrid_length", ALong g); ("bqual_length", ALong b);
                  ("data", AObj jdata); ("trxid", AObj jtrxid); ("bqual", AObj jbqual)]).

(** [NewObject] with the constructor of ExXid.java. *)
Definition ExXid_new (f g b : Z) (jb : jobject) : M xst jobject :=
  v ← deref jb;
  match v with
  | JBytes data =>
      jdata ← new_slice data 0 (Z.of_nat (length data));
      match jdata with None => mret None | Some _ =>
      jtrxid ← new_slice data 0 (to_jsize g);
      match jtrxid with None => mret None | Some _ =>
      jbqual ← new_slice data (to_jsize g) (to_jsize b);
      match jbqual with None => mret None | Some _ =>
      jni_new vm (ExXid_object f g b jdata jtrxid jbqual)
      end end end
  | _ => crash "not a byte array"
  end.

(** The getters of ExXid.java. *)
Definition ExXid_getFormatId (o : jobject) : M xst java_value :=
  f ← GetLongField o "formatID"; mret (V_num (to_jsize f)).
Definition ExXid_getGlobalTransactionId (o : jobject) : M xst java_value :=
  a ← GetObjectField o "trxid"; mret (V_obj a).
Definition ExXid_getBranchQualifier (o : jobject) : M xst java_value :=
  a ← GetObjectField o "bqual"; mret (V_obj a).

Definition ndrxj_cvt_xid_to_java (x : option xid) : M xst jobject :=
  jb ← NewByteArray vm (Z.of_nat XIDDATASIZE);
  match jb with
  | None => NDRXJ_LOG_EXCEPTION;; mret None
  | Some _ =>
      match x with
      | None => crash "NULL xid"
      | Some x =>
          SetByteArrayRegion jb (Z.of_nat XIDDATASIZE) (xid_data x);;
          ret ← ExXid_new (formatID x) (gtrid_length x) (bqual_length x) jb;
          match ret with
          | None => NDRXJ_LOG_EXCEPTION;; mret None
          | Some _ => mret ret
          end
      end
  end.

(** [ReleaseByteArrayElements] after [DeleteLocalRef] of the array. *)
Definition release_deleted (o : jobject) : M xst unit :=
  if stale_release then Release o else crash "deleted reference".

Definition ndrxj_cvt_xid_to_c (j_xid : jobject) : M xst (Z * xid) :=
  f ← call_int (J_getFormatId j_xid);
  jbqa ← call_object (J_getBranchQualifier j_xid);
  jbqa_len ← GetArrayLength jbqa;
  jgtid ← call_object (J_getGlobalTransactionId j_xid);
  jgtid_len ← GetArrayLength jgtid;
  '(n_gtid, n_gtid_copy) ← GetByteArrayElements vm jgtid;
  match n_gtid with
  | None => crash "memcpy from NULL"
  | Some g =>
      if (Z.of_nat XIDDATASIZE <? jgtid_len)%Z then crash "memcpy past the end of the data" else
      '(n_bqa, n_bqa_copy) ← GetByteArrayElements vm jbqa;
      match n_bqa with
      | None => crash "memcpy from NULL"
      | Some b =>
          if (Z.of_nat XIDDATASIZE <? jgtid_len + jbqa_len)%Z then crash "memcpy past the end of the data" else
          (if (n_gtid_copy : bool) then release_deleted jgtid else mret tt);;
          (if (n_bqa_copy : bool) then release_deleted jbqa else mret tt);;
          mret (EXSUCCEED,
            Xid (long_of_int f) jgtid_len jbqa_len
                (take (Z.to_nat jgtid_len) g ++ take (Z.to_nat jbqa_len) b ++
                 replicate (XIDDATASIZE - Z.to_nat jgtid_len - Z.to_nat jbqa_len) 0%Z))
      end
  end.

(** ** The context object of the thread *)

(** The methods [ndrxj_ldr_get_static_handler] calls. *)
#[export] Instance xa_handler : HandlerJava xst := {|
  jl_loadClass loader name := call_object (J_loadClass loader name);
  jl_currentThread := java_currentThread;
  jl_setContextClassLoader thread loader := call_void (J_setContextClassLoader thread loader)
|}.

(** Store into the private data of context [c], through a pointer taken earlier. *)
Definition put_priv_of (c : Z) (p : ctx_priv) : M xst unit :=
  xmod (λ x, tpsetctxt (x_ctx x) (ndrx_ctx_priv_put p (tpsetctxt c x))).

Context (M_jvm : bool) (M_classLoader : jobject).

(** [ndrxj_alloc_context], [c] being the context of [ctxpriv]; [M_jvm]: was the machine
    started from C?  (The pointer is NULL otherwise.) *)
Definition ndrxj_alloc_context (c : Z) : M xst Z :=
  xmod (ndrx_ctx_auto false);;
  if negb M_jvm then crash "NULL virtual machine" else
  attached ← ask (jvm_alloc_ok vm);
  if negb attached then mret EXFAIL else
  '(ret, _) ← ndrxj_ldr_get_static_handler vm M_classLoader "org.endurox.AtmiCtx" "createAtmiCtx";
  if negb (ret =? EXSUCCEED)%Z then mret EXFAIL else
  ctx ← xcall tpgetctxt;
  xmod (tpsetctxt ctx);;
  p ← priv_of c;
  put_priv_of c (CtxPriv (NDRXJ_JATMICTX p) ctx (NDRXJ_CTXFLAGS p));;
  jctx ← java_createAtmiCtx ctx;
  e ← ExceptionCheck;
  if (e : bool) then NDRXJ_LOG_EXCEPTION;; ExceptionClear;; mret EXFAIL else
  match jctx with
  | None => mret EXFAIL
  | Some _ =>
      ok ← ask (jvm_alloc_ok vm);
      p ← priv_of c;
      put_priv_of c (CtxPriv (if (ok : bool) then jctx else None) (NDRXJ_CCTX p)
                       (Z.lor (NDRXJ_CTXFLAGS p) NDRXJ_CTXFLAGS_SRV));;
      mret EXSUCCEED
  end.

(** [NULL==NDRXJ_JATMICTX(ctxpriv) && EXSUCCEED!=ndrxj_alloc_context(ctxpriv)] *)
Definition no_context (c : Z) : M xst bool :=
  p ← priv_of c;
  match NDRXJ_JATMICTX p with
  | Some _ => mret false
  | None => r ← ndrxj_alloc_context c; mret (negb (r =? EXSUCCEED)%Z)
  end.

(** ** Initialisation *)

(** [ndrxj_xa_init]; [root_value]: the open string as parsed, [room]: see [XaConfig].
    An exception is logged and stays. *)
Definition ndrxj_xa_init (room : nat → bool) (root_value : option exjson) : M xst Z :=
  c ← xget x_ctx;
  failed ← no_context c;
  ret ← (if (failed : bool) then mret EXFAIL else
    let '(r, sets, clazz) := ndrxj_xa_cfgparse room root_value PATH_MAX in
    if negb (r =? EXSUCCEED)%Z then mret TPEINVAL
    else if String.eqb clazz EmptyString then mret TPEINVAL
    else
      jsets ← ndrxj_cvt_arr_c_to_java vm sets (length sets);
      match jsets with None => mret TPESYSTEM | Some _ =>
      jclazz ← NewStringUTF vm clazz;
      match jclazz with None => mret TPESYSTEM | Some _ =>
      p ← priv_of c;
      match NDRXJ_JATMICTX p with None => crash "NULL reference" | Some _ =>
      mid ← GetMethodID vm "org/endurox/AtmiCtx.ndrxj_xa_init";
      if negb mid then mret TPESYSTEM else
      ctx ← xcall tpgetctxt;
      p ← priv_of c;
      r ← call_int (J_xa_init (NDRXJ_JATMICTX p) jclazz jsets);
      xmod (tpsetctxt ctx);;
      mret (if (r =? EXSUCCEED)%Z then EXSUCCEED else TPESYSTEM)
      end end end);
  e ← ExceptionCheck;
  (if (e : bool) then NDRXJ_LOG_EXCEPTION else mret tt);;
  mret ret.

(** ** The entries of the switch *)

(** The common end: an exception is logged and cleared, and makes success a failure. *)
Definition xa_out (ret : Z) : M xst Z :=
  e ← drop_exception;
  mret (if (e && (ret =? XA_OK)%Z)%bool then XAER_RMERR else ret).

Definition xa_info_entry (func : string) (flags : Z) : M xst Z :=
  c ← xget x_ctx;
  failed ← no_context c;
  if (failed : bool) then xa_out XAER_RMFAIL else
  v ← outside c (λ p, J_xa_info func (NDRXJ_JATMICTX p) flags);
  match v with V_num z => xa_out z | V_obj _ => crash "not a number" end.

Definition xa_open_entry (flags : Z) : M xst Z := xa_info_entry "xa_open_entry" flags.
Definition xa_close_entry (flags : Z) : M xst Z := xa_info_entry "xa_close_entry" flags.

(** [xa_xid_entry]: after the conversion the code tests [xid], not the object. *)
Definition xa_xid_entry (func : string) (x : option xid) (flags : Z) : M xst Z :=
  c ← xget x_ctx;
  failed ← no_context c;
  if (failed : bool) then xa_out XAER_RMFAIL else
  jxid ← ndrxj_cvt_xid_to_java x;
  match x with
  | None => xa_out XAER_RMERR
  | Some _ =>
      v ← outside c (λ p, J_xa_xid func (NDRXJ_JATMICTX p) jxid flags);
      match v with V_num z => xa_out z | V_obj _ => crash "not a number" end
  end.

Definition xa_start_entry (x : option xid) (flags : Z) : M xst Z := xa_xid_entry "xa_start_entry" x flags.
Definition xa_end_entry (x : option xid) (flags : Z) : M xst Z := xa_xid_entry "xa_end_entry" x flags.
Definition xa_rollback_entry (x : option xid) (flags : Z) : M xst Z := xa_xid_entry "xa_rollback_entry" x flags.
Definition xa_prepare_entry (x : option xid) (flags : Z) : M xst Z := xa_xid_entry "xa_prepare_entry" x flags.
Definition xa_commit_entry (x : option xid) (flags : Z) : M xst Z := xa_xid_entry "xa_commit_entry" x flags.
Definition xa_forget_entry (x : option xid) (flags : Z) : M xst Z := xa_xid_entry "xa_forget_entry" x flags.

(** The loop of [xa_recover_entry], [n] elements from [i] on. *)
Fixpoint recover_loop (xarr : jobject) (i n : nat) (ret : Z) (xids : list xid) : M xst (Z * list xid) :=
  match n with
  | O => mret (ret, xids)
  | S n' =>
      jxid ← GetObjectArrayElement xarr i;
      '(r, x) ← ndrxj_cvt_xid_to_c jxid;
      if negb (r =? EXSUCCEED)%Z then mret (XAER_RMERR, xids)
      else if decide (i < length xids) then recover_loop xarr (S i) n' (ret + 1)%Z (<[i := x]> xids)
      else crash "write beyond the identifiers"
  end.

(** [xa_recover_entry]: the code and the array of identifiers [xid] points to. *)
Definition xa_recover_entry (xids : option (list xid)) (count flags : Z) : M xst (Z * option (list xid)) :=
  c ← xget x_ctx;
  failed ← no_context c;
  if (failed : bool) then r ← xa_out XAER_RMFAIL; mret (r, xids) else
  match xids with
  | None => r ← xa_out XAER_RMERR; mret (r, xids)
  | Some l =>
      v ← outside c (λ p, J_xa_recover (NDRXJ_JATMICTX p) flags);
      match v with
      | V_num _ => crash "not an object"
      | V_obj retObj =>
          ret ← GetLongField retObj "ret";
          if negb (ret =? XA_OK)%Z then r ← xa_out ret; mret (r, xids) else
          xarr ← GetObjectField retObj "list";
          '(ret, l) ← (match xarr with
                       | None => mret (ret, l)
                       | Some _ =>
                           jcount ← GetArrayLength xarr;
                           recover_loop xarr 0 (Z.to_nat (to_jsize (Z.min count jcount))) ret l
                       end);
          r ← xa_out ret; mret (r, Some l)
      end
  end.

(** Not supported. *)
Definition xa_complete_entry (flags : Z) : M xst Z := mret XAER_RMERR.

(** The switch [ndrxjsw] with its static entries. *)
Record xa_switch_t := XaSwitch {
  sw_name : string;
  sw_flags : Z;
  sw_version : Z;
  sw_open : Z → M xst Z;
  sw_close : Z → M xst Z;
  sw_start : option xid → Z → M xst Z;
  sw_end : option xid → Z → M xst Z;
  sw_rollback : option xid → Z → M xst Z;
  sw_prepare : option xid → Z → M xst Z;
  sw_commit : option xid → Z → M xst Z;
  sw_recover : option (list xid) → Z → Z → M xst (Z * option (list xid));
  sw_forget : option xid → Z → M xst Z;
  sw_complete : Z → M xst Z
}.

Definition ndrxjsw : xa_switch_t :=
  XaSwitch "ndrxjsw" 0 0 xa_open_entry xa_close_entry xa_start_entry xa_end_entry xa_rollback_entry
    xa_prepare_entry xa_commit_entry xa_recover_entry xa_forget_entry xa_complete_entry.
End Xa.
