(* ===== verification/Ubf.v ===== *)
(** * libsrc/c/TypedUbf_*.c: field operations on UBF buffers

    The native methods of [TypedUbf] for adding, changing, reading, deleting and
    querying fields and for combining two buffers.  The UBF library is the class
    [Ubf]: each function is a transformer of the library state.  The texts of the
    exceptions leave out the address of a temporary array and the text of [strerror]. *)
From stdpp Require Import sorting strings gmap list numbers.
From S2P Require Import Prelude CString Jni Xatmi Exceptions TypedBuffer Calls AtmiCtxOps.

(** The C types of a field ([BFLD_SHORT] to [BFLD_CARRAY]) with the value; floating
    point values by their bit pattern. *)
Inductive ubf_value :=
  | BFLD_SHORT (z : Z)
  | BFLD_LONG (z : Z)
  | BFLD_CHAR (z : Z)
  | BFLD_FLOAT (bits : Z)
  | BFLD_DOUBLE (bits : Z)
  | BFLD_STRING (s : option string)
  | BFLD_CARRAY (b : option (list Z)) (len : Z).

(** The type a caller of [CBfind] asks for. *)
Inductive ubf_type := AsShort | AsLong | AsChar | AsFloat | AsDouble | AsString | AsCarray.

(** Functions of the library on one or two buffers that return an [int] or [long]. *)
Inductive uop :=
  | U_CBadd (b bfldid : Z) (v : ubf_value)
  | U_CBchg (b bfldid occ : Z) (v : ubf_value)
  | U_Bdel (b bfldid occ : Z)
  | U_Bdelall (b bfldid : Z)
  | U_Bdelete (b : Z) (flds : list Z)
  | U_Bproj (b : Z) (flds : list Z)
  | U_Bprojcpy (dst src : Z) (flds : list Z)
  | U_Bpres (b bfldid occ : Z)
  | U_Bisubf (b : Z)
  | U_Blen (b bfldid occ : Z)
  | U_Boccur (b bfldid : Z)
  | U_Bsizeof (b : Z)
  | U_Bunused (b : Z)
  | U_Bused (b : Z)
  | U_Bnum (b : Z)
  | U_Binit (b len : Z)
  | U_Bconcat (dst src : Z)
  | U_Bcpy (dst src : Z)
  | U_Bupdate (dst src : Z)
  | U_Bjoin (dst src : Z)
  | U_Bojoin (dst src : Z)
  | U_Bcmp (dst src : Z)
  | U_Bsubset (dst src : Z)
  | U_tpjsontoubf (b : Z) (json : option string)
  | U_tplogprintubf (lev b : Z) (title : option string).

Class Ubf `{Xatmi} := {
  u_op : uop → xst → Z * xst;
  (** [CBfind]: buffer, field, occurrence, type; NULL on error *)
  CBfind : Z → Z → Z → ubf_type → xst → option ubf_value * xst;
  (** [Bnext]: buffer and start field; result, field, occurrence, length *)
  Bnext : Z → Z → xst → (Z * Z * Z * Z) * xst;
  (** [tpubftojson] into a buffer of the given size *)
  tpubftojson : Z → Z → xst → option string * xst;
  (** how [printf] shows a pointer, the address of a temporary array and the
      text of [errno] *)
  fmt_p : Z → string;
  fmt_tmp : string;
  strerror_errno : string;
  (** are error messages of the UBF log on, and are the arguments of a call
      evaluated from left to right: both open to the C code *)
  ubf_log_on : bool;
  args_left_first : bool
}.

Definition BEUNIX : Z := 8.
Definition BFIRSTFLDID : Z := 0.

Definition show_name (n : option string) : string := default "(null)"%string n.

Section Ubf.
Context `{Ubf} (vm : jvm).

Definition throw_ubf (e : Z) (msg : string) : M xst unit := ndrxj_ubf_throw vm (Becodestr e) msg.

Definition Bfname_of (bfldid : Z) : M xst string :=
  n ← xcall (x_name (Name_Bfname bfldid)); mret (show_name n).

(** [UBF_LOG(log_error, ..., Bfname(bfldid), ...)]: the name is looked up only when
    the message is written. *)
Definition log_field (bfldid : Z) : M xst unit :=
  if ubf_log_on then Bfname_of bfldid;; mret tt else mret tt.

(** The frame of the methods: the object's context, its buffer, [body] on it. *)
Definition on_buffer {A} (data : jobject) (dflt : A) (body : Z → M xst A) : M xst A :=
  c ← ndrxj_TypedBuffer_get_ctx vm data true;
  if (c =? 0)%Z then mret dflt
  else
    '(r, cdata, _, _) ← ndrxj_atmi_TypedBuffer_get_buffer data 0 false false;
    ret ← (if (r =? EXSUCCEED)%Z then body cdata else mret dflt);
    unset_ctx;; mret ret.

(** ** TypedUbf_Badd.c *)

(** [ndrxj_ubf_CBadd]: [Berror] is read after the message was logged, and in one
    argument list with another call of [Bfname]. *)
Definition ndrxj_ubf_CBadd (data : jobject) (bfldid : Z) (v : ubf_value) : M xst unit :=
  on_buffer data tt (λ cdata,
    r ← xcall (u_op (U_CBadd cdata bfldid v));
    if (r =? EXSUCCEED)%Z then mret tt
    else
      log_field bfldid;;
      if args_left_first then
        e ← xget Berror; n ← Bfname_of bfldid; e' ← xget Berror;
        throw_ubf e ("ndrxj_ubf_CBadd: Failed to add " +:+ print_int bfldid +:+ " (" +:+ n +:+ "): " +:+
                     Bstrerror e')
      else
        e' ← xget Berror; n ← Bfname_of bfldid; e ← xget Berror;
        throw_ubf e ("ndrxj_ubf_CBadd: Failed to add " +:+ print_int bfldid +:+ " (" +:+ n +:+ "): " +:+
                     Bstrerror e')).

Definition Java_TypedUbf_Badd_IS (data : jobject) (bfldid js : Z) : M xst unit :=
  ndrxj_ubf_CBadd data bfldid (BFLD_SHORT js).
Definition Java_TypedUbf_Badd_IJ (data : jobject) (bfldid jl : Z) : M xst unit :=
  ndrxj_ubf_CBadd data bfldid (BFLD_LONG jl).
Definition Java_TypedUbf_Badd_IB (data : jobject) (bfldid jb : Z) : M xst unit :=
  ndrxj_ubf_CBadd data bfldid (BFLD_CHAR jb).
Definition Java_TypedUbf_Badd_IF (data : jobject) (bfldid jf : Z) : M xst unit :=
  ndrxj_ubf_CBadd data bfldid (BFLD_FLOAT jf).
Definition Java_TypedUbf_Badd_ID (data : jobject) (bfldid jd : Z) : M xst unit :=
  ndrxj_ubf_CBadd data bfldid (BFLD_DOUBLE jd).

(** A string or array argument for the time of [use]. *)
Definition with_string {A} (js : jobject) (use : option string → M xst A) : M xst A :=
  '(n_str, n_str_copy) ← GetStringUTFChars vm js;
  r ← use n_str; release_if n_str_copy js;; mret r.
Definition with_bytes {A} (jb : jobject) (use : option (list Z) → Z → M xst A) : M xst A :=
  '(n_carray, n_carray_copy) ← GetByteArrayElements vm jb;
  len ← GetArrayLength jb;
  r ← use n_carray len; release_if n_carray_copy jb;; mret r.

Definition null_value (fn : string) (bfldid : Z) : M xst unit :=
  n ← Bfname_of bfldid;
  throw_ubf BEINVAL (fn +:+ ": Failed to add " +:+ print_int bfldid +:+ " (" +:+ n +:+ ") - null value field").

Definition Java_TypedUbf_Badd_String (data : jobject) (bfldid : Z) (js : jobject) : M xst unit :=
  match js with
  | Some _ => with_string js (λ s, ndrxj_ubf_CBadd data bfldid (BFLD_STRING s))
  | None => null_value "ndrxj_Java_org_endurox_TypedUbf_Badd__ILjava_lang_String_2" bfldid
  end.
Definition Java_TypedUbf_Badd_Bytes (data : jobject) (bfldid : Z) (jb : jobject) : M xst unit :=
  with_bytes jb (λ b len, ndrxj_ubf_CBadd data bfldid (BFLD_CARRAY b len)).

(** ** TypedUbf_Bchg.c *)

(** [ndrxj_ubf_CBchg]: here the error code is saved first. *)
Definition ndrxj_ubf_CBchg (data : jobject) (bfldid occ : Z) (v : ubf_value) : M xst unit :=
  on_buffer data tt (λ cdata,
    r ← xcall (u_op (U_CBchg cdata bfldid occ v));
    if (r =? EXSUCCEED)%Z then mret tt
    else
      err ← xget Berror;
      log_field bfldid;;
      n ← Bfname_of bfldid;
      throw_ubf err ("ndrxj_ubf_CBchg: CBchg failed to change field " +:+ print_int bfldid +:+ " (" +:+ n +:+
                     "): " +:+ Bstrerror err)).

Definition Java_TypedUbf_Bchg_IIS (data : jobject) (bfldid occ js : Z) : M xst unit :=
  ndrxj_ubf_CBchg data bfldid occ (BFLD_SHORT js).
Definition Java_TypedUbf_Bchg_IIJ (data : jobject) (bfldid occ jl : Z) : M xst unit :=
  ndrxj_ubf_CBchg data bfldid occ (BFLD_LONG jl).
Definition Java_TypedUbf_Bchg_IIB (data : jobject) (bfldid occ jb : Z) : M xst unit :=
  ndrxj_ubf_CBchg data bfldid occ (BFLD_CHAR jb).
Definition Java_TypedUbf_Bchg_IIF (data : jobject) (bfldid occ jf : Z) : M xst unit :=
  ndrxj_ubf_CBchg data bfldid occ (BFLD_FLOAT jf).
Definition Java_TypedUbf_Bchg_IID (data : jobject) (bfldid occ jd : Z) : M xst unit :=
  ndrxj_ubf_CBchg data bfldid occ (BFLD_DOUBLE jd).
Definition Java_TypedUbf_Bchg_String (data : jobject) (bfldid occ : Z) (js : jobject) : M xst unit :=
  match js with
  | Some _ => with_string js (λ s, ndrxj_ubf_CBchg data bfldid occ (BFLD_STRING s))
  | None => null_value "ndrxj_Java_org_endurox_TypedUbf_Bchg__IILjava_lang_String_2" bfldid
  end.
Definition Java_TypedUbf_Bchg_Bytes (data : jobject) (bfldid occ : Z) (jb : jobject) : M xst unit :=
  with_bytes jb (λ b len, ndrxj_ubf_CBchg data bfldid occ (BFLD_CARRAY b len)).

(** ** TypedUbf_Bget.c *)

(** [ndrxj_ubf_CBfind]: the value, or [None] with an exception; the context is left
    on every path. *)
Definition ndrxj_ubf_CBfind (data : jobject) (bfldid occ : Z) (usrtype : ubf_type) : M xst (option ubf_value) :=
  c ← ndrxj_TypedBuffer_get_ctx vm data true;
  ret ← (if (c =? 0)%Z then mret None
         else
           '(r, cdata, _, _) ← ndrxj_atmi_TypedBuffer_get_buffer data 0 false false;
           if (r =? EXSUCCEED)%Z then
             v ← xcall (CBfind cdata bfldid occ usrtype);
             match v with
             | Some _ => mret v
             | None =>
                 err ← xget Berror;
                 log_field bfldid;;
                 n ← Bfname_of bfldid;
                 throw_ubf err ("ndrxj_ubf_CBfind: Failed to find " +:+ print_int bfldid +:+ " (" +:+ n +:+
                   ") occ " +:+ print_int occ +:+ ": " +:+ Bstrerror err);;
                 mret None
             end
           else mret None);
  unset_ctx;; mret ret.

(** The scalar getters: EXFAIL with an exception when there is no value. *)
Definition get_scalar (data : jobject) (bfldid occ : Z) (usrtype : ubf_type) : M xst Z :=
  v ← ndrxj_ubf_CBfind data bfldid occ usrtype;
  match v with
  | None => mret EXFAIL
  | Some (BFLD_SHORT z | BFLD_LONG z | BFLD_CHAR z | BFLD_FLOAT z | BFLD_DOUBLE z) => mret z
  | Some _ => crash "value of another type"
  end.
Definition Java_TypedUbf_BgetShort (data : jobject) (bfldid occ : Z) : M xst Z := get_scalar data bfldid occ AsShort.
Definition Java_TypedUbf_BgetLong (data : jobject) (bfldid occ : Z) : M xst Z := get_scalar data bfldid occ AsLong.
Definition Java_TypedUbf_BgetByte (data : jobject) (bfldid occ : Z) : M xst Z := get_scalar data bfldid occ AsChar.
Definition Java_TypedUbf_BgetFloat (data : jobject) (bfldid occ : Z) : M xst Z := get_scalar data bfldid occ AsFloat.
Definition Java_TypedUbf_BgetDouble (data : jobject) (bfldid occ : Z) : M xst Z := get_scalar data bfldid occ AsDouble.

Definition Java_TypedUbf_BgetString (data : jobject) (bfldid occ : Z) : M xst jobject :=
  v ← ndrxj_ubf_CBfind data bfldid occ AsString;
  match v with
  | None => mret None
  | Some (BFLD_STRING (Some s)) => NewStringUTF vm s
  | Some _ => crash "value of another type"
  end.

Definition Java_TypedUbf_BgetByteArr (data : jobject) (bfldid occ : Z) : M xst jobject :=
  v ← ndrxj_ubf_CBfind data bfldid occ AsCarray;
  match v with
  | None => mret None
  | Some (BFLD_CARRAY (Some b) len) =>
      ret ← NewByteArray vm (to_jsize len);
      match ret with
      | None => NDRXJ_LOG_EXCEPTION;; mret None
      | Some _ =>
          SetByteArrayRegion ret (to_jsize len) b;;
          ex ← ExceptionCheck;
          if (ex : bool) then NDRXJ_LOG_EXCEPTION;; mret ret else mret ret
      end
  | Some _ => crash "value of another type"
  end.

(** ** TypedUbf_Del.c *)

Definition Java_TypedUbf_Bdel (data : jobject) (bfldid occ : Z) : M xst unit :=
  on_buffer data tt (λ cdata,
    r ← xcall (u_op (U_Bdel cdata bfldid occ));
    if (r =? EXSUCCEED)%Z then mret tt
    else
      err ← xget Berror;
      log_field bfldid;;
      n ← Bfname_of bfldid;
      throw_ubf err ("ndrxj_Java_org_endurox_TypedUbf_Bdel: Bdel failed " +:+ print_int bfldid +:+ " (" +:+ n +:+
                     "): " +:+ Bstrerror err)).

(** A call whose failure becomes an exception with the text [msg]. *)
Definition u_checked (o : uop) (msg : Z → string) : M xst unit :=
  r ← xcall (u_op o);
  if (r =? EXSUCCEED)%Z then mret tt else e ← xget Berror; throw_ubf e (msg e).

Definition Java_TypedUbf_Bdelall (data : jobject) (bfldid : Z) : M xst unit :=
  on_buffer data tt (λ cdata, u_checked (U_Bdelall cdata bfldid) (λ e,
    "ndrxj_Java_org_endurox_TypedUbf_Bdelall: Bdelall failed " +:+ print_int bfldid +:+ ": " +:+ Bstrerror e)).

(** The field list of [Bdelete], [Bproj] and [Bprojcpy] for the time of [use]: a C
    array with a terminating BBADFLDID; [None] when it cannot be allocated. *)
Definition with_fields (fn : string) (bfldida : jobject) (use : list Z → M xst unit) : M xst unit :=
  len ← GetArrayLength bfldida;
  barra ← ask (jvm_alloc_ok vm);
  if (barra : bool) then
    '(jarr, jarr_copy) ← GetIntArrayElements vm bfldida;
    match jarr with
    | None => crash "read of a NULL array"
    | Some a => use (a ++ [BBADFLDID]);; release_if jarr_copy bfldida
    end
  else throw_ubf BEUNIX (fn +:+ ": Failed to malloc " +:+ print_int (4 * (len + 1)) +:+ " bytes: " +:+ strerror_errno).

(** The methods that read the list before the buffer. *)
Definition fields_then_buffer (fn name : string) (data bfldida : jobject) (op : Z → list Z → uop) : M xst unit :=
  c ← ndrxj_TypedBuffer_get_ctx vm data true;
  if (c =? 0)%Z then mret tt
  else
    with_fields fn bfldida (λ barra,
      '(r, cdata, _, _) ← ndrxj_atmi_TypedBuffer_get_buffer data 0 false false;
      if (r =? EXSUCCEED)%Z then
        u_checked (op cdata barra) (λ e, fn +:+ ": " +:+ name +:+ " " +:+ fmt_tmp +:+ ": " +:+ Bstrerror e)
      else mret tt);;
    unset_ctx.

Definition Java_TypedUbf_Bdelete (data bfldida : jobject) : M xst unit :=
  fields_then_buffer "ndrxj_Java_org_endurox_TypedUbf_Bdelete" "Bdelete" data bfldida U_Bdelete.
Definition Java_TypedUbf_Bproj (data bfldida : jobject) : M xst unit :=
  fields_then_buffer "ndrxj_Java_org_endurox_TypedUbf_Bproj" "Bproj" data bfldida U_Bproj.

(** ** TypedUbf_Util.c *)

Definition Java_TypedUbf_Bpres (data : jobject) (bfldid occ : Z) : M xst Z :=
  on_buffer data 0%Z (λ cdata, xcall (u_op (U_Bpres cdata bfldid occ))).
Definition Java_TypedUbf_Bisubf (data : jobject) : M xst Z :=
  on_buffer data 0%Z (λ cdata, xcall (u_op (U_Bisubf cdata))).
Definition Java_TypedUbf_Blen (data : jobject) (bfldid occ : Z) : M xst Z :=
  on_buffer data EXFAIL (λ cdata,
    ret ← xcall (u_op (U_Blen cdata bfldid occ));
    (if (ret =? EXFAIL)%Z then
       e ← xget Berror;
       throw_ubf e ("ndrxj_Java_org_endurox_TypedUbf_Blen: Blen failed on " +:+ fmt_p cdata +:+ " buffer: " +:+
                    Bstrerror e)
     else mret tt);;
    mret ret).
Definition ndrxj_BNextResult_new (bfldid occ len : Z) : M xst jobject :=
  jni_new vm (JOther "org/endurox/BNextResult" [ALong bfldid; ALong occ; ALong len]).
Definition Java_TypedUbf_Bnext (data : jobject) (first : bool) : M xst jobject :=
  on_buffer data None (λ cdata,
    '(r, bfldid, occ, len) ← xcall (Bnext cdata (if first then BFIRSTFLDID else BFIRSTFLDID + 1)%Z);
    if (r =? EXFAIL)%Z then
      e ← xget Berror;
      throw_ubf e ("ndrxj_Java_org_endurox_TypedUbf_Bnext: failed to Bnext " +:+ fmt_p cdata +:+ " buffer: " +:+
                   Bstrerror e);;
      mret None
    else if (r =? 0)%Z then mret None
    else ndrxj_BNextResult_new bfldid occ len).
Definition Java_TypedUbf_Boccur (data : jobject) (bfldid : Z) : M xst Z :=
  on_buffer data EXFAIL (λ cdata, xcall (u_op (U_Boccur cdata bfldid))).
Definition Java_TypedUbf_Bsizeof (data : jobject) : M xst Z :=
  on_buffer data EXFAIL (λ cdata, xcall (u_op (U_Bsizeof cdata))).
Definition Java_TypedUbf_Bunused (data : jobject) : M xst Z :=
  on_buffer data EXFAIL (λ cdata, xcall (u_op (U_Bunused cdata))).
Definition Java_TypedUbf_Bused (data : jobject) : M xst Z :=
  on_buffer data EXFAIL (λ cdata, xcall (u_op (U_Bused cdata))).
Definition Java_TypedUbf_Bnum (data : jobject) : M xst Z :=
  on_buffer data EXFAIL (λ cdata, xcall (u_op (U_Bnum cdata))).
Definition Java_TypedUbf_Binit (data : jobject) : M xst Z :=
  on_buffer data EXFAIL (λ cdata,
    ret ← xcall (u_op (U_Bsizeof cdata));
    if (ret =? EXFAIL)%Z then
      e ← xget Berror;
      throw_ubf e ("ndrxj_Java_org_endurox_TypedUbf_Binit: Failed to get " +:+ fmt_p cdata +:+ " buffer size: " +:+
                   Bstrerror e);;
      mret ret
    else
      u_checked (U_Binit cdata (to_jsize ret)) (λ e,
        "ndrxj_Java_org_endurox_TypedUbf_Binit: Failed to init " +:+ fmt_p cdata +:+ " buffer to size " +:+
        print_int (to_jsize ret) +:+ ": " +:+ Bstrerror e);;
      mret ret).
Definition Java_TypedUbf_tpjsontoubf (data json : jobject) : M xst unit :=
  '(n_str, n_str_copy) ← GetStringUTFChars vm json;
  c ← ndrxj_TypedBuffer_get_ctx vm data true;
  (if (c =? 0)%Z then mret tt
   else
     '(r, cdata, _, _) ← ndrxj_atmi_TypedBuffer_get_buffer data 0 false false;
     if (r =? EXSUCCEED)%Z then
       r ← xcall (u_op (U_tpjsontoubf cdata n_str));
       if (r =? EXSUCCEED)%Z then mret tt
       else e ← xget tperrno; ndrxj_atmi_throw vm data None e (tpstrerror e)
     else mret tt);;
  release_if n_str_copy json;;
  unset_ctx.
(** [malloc] of the temporary buffer may fail; the message then shows the NULL pointer
    in the place of the size. *)
Definition Java_TypedUbf_tpubftojson (data : jobject) : M xst jobject :=
  c ← ndrxj_TypedBuffer_get_ctx vm data true;
  ret ← (if (c =? 0)%Z then mret None
         else
           '(r, cdata, _, _) ← ndrxj_atmi_TypedBuffer_get_buffer data 0 false false;
           if (r =? EXSUCCEED)%Z then
             sz ← xcall (u_op (U_Bsizeof cdata));
             tmp ← ask (jvm_alloc_ok vm);
             if (tmp : bool) then
               j ← xcall (tpubftojson cdata (to_jsize (sz * 10)));
               match j with
               | Some s => mret (Some s)
               | None => e ← xget tperrno; ndrxj_atmi_throw vm data None e (tpstrerror e);; mret None
               end
             else
               throw_ubf BEUNIX ("Failed to malloc JSON temp buffer of " +:+ print_int 0 +:+
                 " (UBF size of multiplied by 10) bytes: " +:+ strerror_errno);;
               mret None
           else mret None);
  unset_ctx;;
  match ret with Some s => NewStringUTF vm s | None => mret None end.
Definition Java_TypedUbf_tplogprintubf (data : jobject) (lev : Z) (title : jobject) : M xst unit :=
  c ← ndrxj_TypedBuffer_get_ctx vm data true;
  (if (c =? 0)%Z then mret tt
   else
     '(r, cdata, _, _) ← ndrxj_atmi_TypedBuffer_get_buffer data 0 false false;
     if (r =? EXSUCCEED)%Z then
       '(n_title, n_title_copy) ← GetStringUTFChars vm title;
       xcall (u_op (U_tplogprintubf lev cdata n_title));;
       release_if n_title_copy title
     else mret tt);;
  unset_ctx.

(** ** TypedUbf_Proj.c: two buffers *)

(** [body] on the buffers of both objects, in the context of the first. *)
Definition on_two (data src : jobject) (no_ctx fail : Z) (body : Z → Z → M xst Z) : M xst Z :=
  c ← ndrxj_TypedBuffer_get_ctx vm data true;
  if (c =? 0)%Z then mret no_ctx
  else
    '(r, cdata_dst, _, _) ← ndrxj_atmi_TypedBuffer_get_buffer data 0 false false;
    ret ← (if (r =? EXSUCCEED)%Z then
             '(r, cdata_src, _, _) ← ndrxj_atmi_TypedBuffer_get_buffer src 0 false false;
             if (r =? EXSUCCEED)%Z then body cdata_dst cdata_src else mret fail
           else mret fail);
    unset_ctx;; mret ret.

(** [Bconcat], [Bcpy], [Bupdate], [Bjoin] and [Bojoin] differ in the call and its name. *)
Definition combine (name : string) (op : Z → Z → uop) (data src : jobject) : M xst unit :=
  on_two data src 0 0 (λ d s,
    u_checked (op d s) (λ e, "ndrxj_Java_org_endurox_TypedUbf_" +:+ name +:+ ": " +:+ name +:+ " failed on " +:+
      fmt_p d +:+ " buffer: " +:+ Bstrerror e);; mret 0%Z);;
  mret tt.
Definition Java_TypedUbf_Bconcat (data src : jobject) : M xst unit := combine "Bconcat" U_Bconcat data src.
Definition Java_TypedUbf_Bcpy (data src : jobject) : M xst unit := combine "Bcpy" U_Bcpy data src.
Definition Java_TypedUbf_Bupdate (data src : jobject) : M xst unit := combine "Bupdate" U_Bupdate data src.
Definition Java_TypedUbf_Bjoin (data src : jobject) : M xst unit := combine "Bjoin" U_Bjoin data src.
Definition Java_TypedUbf_Bojoin (data src : jobject) : M xst unit := combine "Bojoin" U_Bojoin data src.

(** [Bcmp]: an error shows in [Berror], not in the result. *)
Definition Java_TypedUbf_Bcmp (data src : jobject) : M xst Z :=
  on_two data src EXSUCCEED EXFAIL (λ d s,
    ret ← xcall (u_op (U_Bcmp d s));
    e ← xget Berror;
    if (e =? EXSUCCEED)%Z then mret ret
    else throw_ubf e ("ndrxj_Java_org_endurox_TypedUbf_Bcmp: Bcmp failed on " +:+ fmt_p d +:+ " vs " +:+ fmt_p s +:+
                      ": " +:+ Bstrerror e);; mret EXFAIL).
(** The result is cast to [jboolean]: eight unsigned bits. *)
Definition Java_TypedUbf_Bsubset (data src : jobject) : M xst Z :=
  ret ← on_two data src EXSUCCEED EXFAIL (λ d s,
    ret ← xcall (u_op (U_Bsubset d s));
    if (ret =? EXFAIL)%Z then
      e ← xget Berror;
      throw_ubf e ("ndrxj_Java_org_endurox_TypedUbf_Bsubset: Bsubset failed on haystack " +:+ fmt_p d +:+
                   " needle " +:+ fmt_p s +:+ ": " +:+ Bstrerror e);; mret EXFAIL
    else mret ret);
  mret (ret `mod` 256)%Z.

Definition Java_TypedUbf_Bprojcpy (data src bfldida : jobject) : M xst unit :=
  on_two data src 0 0 (λ d s,
    with_fields "ndrxj_Java_org_endurox_TypedUbf_Bprojcpy" bfldida (λ barra,
      u_checked (U_Bprojcpy d s barra) (λ e,
        "ndrxj_Java_org_endurox_TypedUbf_Bprojcpy: Bprojcpy " +:+ fmt_tmp +:+ ": " +:+ Bstrerror e));;
    mret 0%Z);;
  mret tt.
End Ubf.
