(* ===== verification/UbfEval.v ===== *)
(** * libsrc/c/TypedUbf_Bbool.c, BExprTree.c, TypedUbf_Baddfast.c, BFldLocInfo.c

    Compiled boolean expressions: compile, evaluate, print, free, and the functions an
    expression may call, which are Java methods of the buffer in evaluation
    ([M_cb_ubf], a variable of the thread).  Then the fast add with its position
    object. *)
From stdpp Require Import sorting strings gmap list numbers.
From S2P Require Import Prelude CString Jni Xatmi Exceptions TypedBuffer Calls AtmiCtxOps Convert Callback Ubf.

(** The library's evaluator and printers.  The callbacks of an evaluation get a
    function name, those of a printer a block of bytes. *)
Class UbfEval `{Ubf} := {
  Bboolco : option string → xst → Z * xst;
  Btreefree : Z → xst → xst;
  Bboolev : Z → Z → script xst string Z Z;
  Bfloatev : Z → Z → script xst string Z Z;
  Bboolprcb : Z → script xst (list Z) Z Z;
  Bboolsetcbf : option string → xst → Z * xst;
  (** the type of a field id; short, long, ... as [BFLD_SHORT] to [BFLD_CARRAY] *)
  Bfldtype : Z → Z;
  (** buffer, field, value, position; result and new position *)
  Baddfast : Z → Z → ubf_value → Z * Z → xst → (Z * (Z * Z)) * xst
}.

Definition BMINVAL : Z := 0.
Definition EXTRUE : Z := 1.

(** [usrtype] of the value passed. *)
Definition usrtype_of (v : ubf_value) : Z :=
  match v with
  | BFLD_SHORT _ => 0
  | BFLD_LONG _ => 1
  | BFLD_CHAR _ => 2
  | BFLD_FLOAT _ => 3
  | BFLD_DOUBLE _ => 4
  | BFLD_STRING _ => 5
  | BFLD_CARRAY _ _ => 6
  end%Z.

Section Eval.
Context `{UbfEval} `{!ContextLib} `{!JavaCode} (vm : jvm).

(** ** BExprTree.c *)

Definition ndrxj_BExprTree_ptr_get (ptrO : jobject) : M xst Z := GetLongField ptrO "cPtr".
Definition ndrxj_BExprTree_ptr_set (ptrO : jobject) (new_ptr : Z) : M xst unit :=
  SetLongField ptrO "cPtr" new_ptr.
Definition ndrxj_BExprTree_new (ptr : Z) : M xst jobject :=
  jni_new vm (JObject "org/endurox/BExprTree" {["cPtr" := ALong ptr]}).

Definition Java_BExprTree_Btreefree (cPtr : Z) : M xst unit :=
  ctx ← xcall tpnewctxt;
  xmod (Btreefree cPtr);;
  unset_ctx;;
  xmod (tpfreectxt ctx).

(** ** Functions of an expression *)

(** [Bbool_callback_function]: the buffer is the one in [M_cb_ubf] now. *)
Definition Bbool_callback_function (funcname : string) : M xst Z :=
  context ← xcall tpgetctxt;
  jfuncname ← NewStringUTF vm funcname;
  e ← ExceptionCheck;
  ret ← (if (e : bool) then mret EXFAIL
         else w ← mget; call_int (J_boolcbfDispatch (w_ubf w) jfuncname));
  xmod (tpsetctxt context);;
  mret ret.

(** ** Evaluation *)

(** The common start of [Bboolev] and [Bfloatev]: the tree and the buffer. *)
Definition with_expression {A} (data jexpr : jobject) (dflt : A) (use : Z → Z → M xst A) : M xst A :=
  ret ← (match jexpr with
         | None =>
             msg ← vsnprintf_missing_arguments;
             e ← xget Berror; throw_ubf vm e msg;; mret dflt
         | Some _ =>
             mmod (with_ubf data);;
             c ← ndrxj_TypedBuffer_get_ctx vm data true;
             if (c =? 0)%Z then mret dflt
             else
               tree ← ndrxj_BExprTree_ptr_get jexpr;
               if (tree =? 0)%Z then mret dflt
               else
                 '(r, cdata, _, _) ← ndrxj_atmi_TypedBuffer_get_buffer data 0 false false;
                 if (r =? EXSUCCEED)%Z then use cdata tree else mret dflt
         end);
  unset_ctx;; mret ret.

(** The evaluation itself, and its error. *)
Definition evaluate (cdata tree : Z) : M xst bool :=
  '(_, ret) ← run_script Bbool_callback_function (Bboolev cdata tree);
  if (ret =? EXFAIL)%Z then
    e ← xget Berror;
    throw_ubf vm e ("Failed to execute Bboolev(): " +:+ Bstrerror e);; mret false
  else mret (ret =? EXTRUE)%Z.

Definition Java_TypedUbf_Bboolev (data jexpr : jobject) : M xst bool :=
  with_expression data jexpr false evaluate.

(** [Bfloatev]: the value is a bit pattern; [EXFAIL] is the double -1. *)
Definition Java_TypedUbf_Bfloatev (minus_one : Z) (data jexpr : jobject) : M xst Z :=
  with_expression data jexpr minus_one (λ cdata tree,
    '(_, jret) ← run_script Bbool_callback_function (Bfloatev cdata tree);
    e ← xget Berror;
    (if (e =? BMINVAL)%Z then mret tt
     else throw_ubf vm e ("Failed to execute Bfloatev(): " +:+ Bstrerror e));;
    mret jret).

(** [Bqboolev]: compile, evaluate and free. *)
Definition Java_TypedUbf_Bqboolev (data jexprstr : jobject) : M xst bool :=
  ret ← (match jexprstr with
         | None =>
             msg ← vsnprintf_missing_arguments;
             e ← xget Berror; throw_ubf vm e msg;; mret false
         | Some _ =>
             '(n_jexprstr, n_jexprstr_copy) ← GetStringUTFChars vm jexprstr;
             mmod (with_ubf data);;
             c ← ndrxj_TypedBuffer_get_ctx vm data true;
             ret ← (if (c =? 0)%Z then mret false
                    else
                      '(r, cdata, _, _) ← ndrxj_atmi_TypedBuffer_get_buffer data 0 false false;
                      if (r =? EXSUCCEED)%Z then
                        tree ← xcall (Bboolco n_jexprstr);
                        if (tree =? 0)%Z then
                          e ← xget Berror;
                          throw_ubf vm e ("Failed to compile: " +:+ Bstrerror e);; mret false
                        else
                          ret ← evaluate cdata tree;
                          xmod (Btreefree tree);;
                          mret ret
                      else mret false);
             release_if n_jexprstr_copy jexprstr;;
             mret ret
         end);
  unset_ctx;; mret ret.

(** ** AtmiCtx.c: compile, print, register *)

Definition Java_AtmiCtx_Bboolco (o jexpr : jobject) : M xst jobject :=
  in_ctx vm o None
    ('(n_expr, n_expr_copy) ← GetStringUTFChars vm jexpr;
     tree ← xcall (Bboolco n_expr);
     ret ← (if (tree =? 0)%Z then
              e ← xget Berror;
              throw_ubf vm e ("Failed to compile: " +:+ Bstrerror e);; mret None
            else
              ret ← ndrxj_BExprTree_new tree;
              (match ret with None => xmod (Btreefree tree) | Some _ => mret tt end);;
              mret ret);
     release_if n_expr_copy jexpr;;
     mret ret).

(** [bboolprcb_callback]: a token to the output stream. *)
Definition bboolprcb_callback (outstream : jobject) (buffer : list Z) : M xst Z :=
  ba ← NewByteArray vm (to_jsize (Z.of_nat (length buffer)));
  match ba with
  | None => NDRXJ_LOG_EXCEPTION;; mret EXFAIL
  | Some _ =>
      SetByteArrayRegion ba (to_jsize (Z.of_nat (length buffer))) buffer;;
      e ← ExceptionCheck;
      if (e : bool) then NDRXJ_LOG_EXCEPTION;; mret EXFAIL
      else
        context ← xcall tpgetctxt;
        call_void (J_write outstream ba);;
        xmod (tpsetctxt context);;
        mret EXSUCCEED
  end.

Definition Java_AtmiCtx_Bboolpr (o compexpr outstream : jobject) : M xst unit :=
  in_ctx vm o tt
    (tree ← ndrxj_BExprTree_ptr_get compexpr;
     if (tree =? 0)%Z then mret tt
     else _ ← run_script (bboolprcb_callback outstream) (Bboolprcb tree); mret tt).

(** [BboolsetcbfC]: the early [return] skips the release of the name. *)
Definition Java_AtmiCtx_BboolsetcbfC (o funcname : jobject) : M xst unit :=
  '(n_funcname, n_funcname_copy) ← GetStringUTFChars vm funcname;
  ctx ← ndrxj_get_ctx vm o true;
  if (ctx =? 0)%Z then mret tt
  else
    r ← xcall (Bboolsetcbf n_funcname);
    (if (r =? EXSUCCEED)%Z then mret tt
     else e ← xget Berror; throw_ubf vm e ("Failed to call Bboolsetcbf(): " +:+ Bstrerror e));;
    release_if n_funcname_copy funcname;;
    unset_ctx.

(** ** BFldLocInfo.c *)

(** The class is looked up anew; the object's class is not checked against it. *)
Definition ndrxj_BFldLocInfo_ptr_get (jloc : jobject) : M xst (Z * Z) :=
  found ← FindClass vm "org/endurox/BFldLocInfo";
  if (found : bool) then
    joffset ← GetLongField jloc "cPtr_last_checked";
    last_Baddfast ← GetLongField jloc "last_Baddfast";
    mret (joffset, last_Baddfast)
  else NDRXJ_LOG_EXCEPTION;; mret (0, 0)%Z.

Definition ndrxj_BFldLocInfo_ptr_set (jloc : jobject) (new_ptr last_Baddfast : Z) : M xst unit :=
  SetLongField jloc "cPtr_last_checked" new_ptr;;
  SetLongField jloc "last_Baddfast" last_Baddfast.

(** ** TypedUbf_Baddfast.c *)

(** [ndrxj_ubf_Baddfast]: the message of the type check prints the wanted type where
    the field and its type should be. *)
Definition ndrxj_ubf_Baddfast (data : jobject) (bfldid : Z) (value : ubf_value) (jfldloc : jobject)
    : M xst unit :=
  let usrtype := usrtype_of value in
  c ← ndrxj_TypedBuffer_get_ctx vm data true;
  if (c =? 0)%Z then mret tt
  else
    (if (Bfldtype bfldid =? usrtype)%Z then
       '(ptr, last_Baddfast) ← ndrxj_BFldLocInfo_ptr_get jfldloc;
       e ← ExceptionCheck;
       if (e : bool) then mret tt
       else
         '(r, cdata, _, _) ← ndrxj_atmi_TypedBuffer_get_buffer data 0 false false;
         if (r =? EXSUCCEED)%Z then
           '(ret, (ptr', last')) ← xcall (Baddfast cdata bfldid value (ptr, last_Baddfast));
           if (ret =? EXSUCCEED)%Z then ndrxj_BFldLocInfo_ptr_set jfldloc ptr' last'
           else
             e ← xget Berror;
             throw_ubf vm e ("ndrxj_ubf_Baddfast: Failed to add " +:+ print_int bfldid +:+ ": " +:+ Bstrerror e)
         else mret tt
     else
       throw_ubf vm BEINVAL
         ("ndrxj_ubf_Baddfast: Invalid field type passed, for type " +:+ print_int usrtype +:+
          " func got type " +:+ print_int (Bfldtype usrtype) +:+ " field (" +:+ print_int usrtype +:+
          ") must be the same"));;
    unset_ctx.

Definition Java_TypedUbf_Baddfast_String (data : jobject) (bfldid : Z) (js fldloc : jobject) : M xst unit :=
  with_string vm js (λ s, ndrxj_ubf_Baddfast data bfldid (BFLD_STRING s) fldloc).
Definition Java_TypedUbf_Baddfast_Bytes (data : jobject) (bfldid : Z) (jb fldloc : jobject) : M xst unit :=
  with_bytes vm jb (λ b len, ndrxj_ubf_Baddfast data bfldid (BFLD_CARRAY b len) fldloc).
Definition Java_TypedUbf_Baddfast_IS (data : jobject) (bfldid js : Z) (fldloc : jobject) : M xst unit :=
  ndrxj_ubf_Baddfast data bfldid (BFLD_SHORT js) fldloc.
Definition Java_TypedUbf_Baddfast_IJ (data : jobject) (bfldid jl : Z) (fldloc : jobject) : M xst unit :=
  ndrxj_ubf_Baddfast data bfldid (BFLD_LONG jl) fldloc.
Definition Java_TypedUbf_Baddfast_IB (data : jobject) (bfldid jb : Z) (fldloc : jobject) : M xst unit :=
  ndrxj_ubf_Baddfast data bfldid (BFLD_CHAR jb) fldloc.
Definition Java_TypedUbf_Baddfast_IF (data : jobject) (bfldid jf : Z) (fldloc : jobject) : M xst unit :=
  ndrxj_ubf_Baddfast data bfldid (BFLD_FLOAT jf) fldloc.
Definition Java_TypedUbf_Baddfast_ID (data : jobject) (bfldid jd : Z) (fldloc : jobject) : M xst unit :=
  ndrxj_ubf_Baddfast data bfldid (BFLD_DOUBLE jd) fldloc.
End Eval.
