(* ===== verification/UbfIO.v ===== *)
(** * libsrc/c/TypedUbf_Bprint.c: buffers to and from text and bytes

    [Bprint], [Bextread] from a Java reader, and [Bwrite] and [Bread] to and from Java
    byte arrays.  The library reads and writes through callbacks; those of the byte
    arrays keep their position in a [rw_data] structure. *)
From stdpp Require Import sorting strings gmap list numbers.
From S2P Require Import Prelude CString Jni Xatmi Exceptions TypedBuffer Calls AtmiCtxOps Convert Callback Ubf.

Class UbfIO `{Ubf} := {
  Bprint : Z → xst → Z * xst;
  (** callbacks: size of the line buffer; result and line *)
  Bextreadcb : Z → script xst Z (Z * string) Z;
  (** callbacks: bytes wanted; the bytes, [None] for a failure *)
  Breadcb : Z → script xst Z (option (list Z)) Z;
  (** callbacks: bytes to write; their number or a failure *)
  Bwritecb : Z → script xst (list Z) Z Z
}.

(** [rw_data_t] *)
Record rw_data := RwData { rw_offset : nat; rw_buf : option (list Z); rw_size : Z }.

Section IO.
Context `{UbfIO} `{!ContextLib} `{!JavaCode} (vm : jvm).

Definition Java_TypedUbf_Bprint (data : jobject) : M xst unit :=
  on_buffer vm data tt (λ cdata,
    r ← xcall (Bprint cdata);
    if (r =? EXSUCCEED)%Z then mret tt
    else
      e ← xget Berror;
      throw_ubf vm e ("ndrxj_Java_org_endurox_TypedUbf_Bprint: failed to Bprint " +:+ fmt_p cdata +:+
                      " buffer: " +:+ Bstrerror e)).

(** ** Reading text *)

(** [Bextread_readf]: a line into a buffer of [bufsz] bytes; 0 at the end. *)
Definition Bextread_readf (reader : jobject) (bufsz : Z) : M xst (Z * string) :=
  context ← xcall tpgetctxt;
  str ← call_object (J_readLine reader);
  xmod (tpsetctxt context);;
  match str with
  | None =>
      e ← ExceptionCheck;
      if (e : bool) then NDRXJ_LOG_EXCEPTION;; mret (EXFAIL, EmptyString)
      else mret (0%Z, EmptyString)
  | Some _ =>
      '(n_str, n_str_copy) ← GetStringUTFChars vm str;
      match n_str with
      | None => crash "copy from NULL"
      | Some s =>
          let buffer := strcpy_safe (Z.to_nat bufsz) s in
          release_if n_str_copy str;;
          mret (Z.of_nat (S (String.length buffer)), buffer)
      end
  end.

Definition Java_TypedUbf_Bextread (data reader : jobject) : M xst unit :=
  on_buffer vm data tt (λ cdata,
    '(_, r) ← run_script (Bextread_readf reader) (Bextreadcb cdata);
    if (r =? EXSUCCEED)%Z then mret tt
    else
      e ← xget Berror; throw_ubf vm e ("Failed to call Bextreadcb(): " +:+ Bstrerror e)).

(** ** Reading bytes *)

(** [Bread_readf]: the first call must be served in full; the second copies what is
    left, into a buffer of [bufsz] bytes. *)
Definition Bread_readf (ctl : rw_data) (bufsz : Z) : M xst (option (list Z) * rw_data) :=
  if (rw_offset ctl =? 0)%nat then
    if (rw_size ctl <? bufsz)%Z then
      throw_ubf vm BEINVAL ("ERROR ! Requested " +:+ print_int bufsz +:+ " bytes, but our array has only " +:+
                            print_int (rw_size ctl));;
      mret (None, ctl)
    else
      match rw_buf ctl with
      | None => crash "copy from NULL"
      | Some b =>
          mret (Some (take (Z.to_nat bufsz) b),
                RwData (rw_offset ctl + Z.to_nat bufsz) (rw_buf ctl) (rw_size ctl))
      end
  else
    match rw_buf ctl with
    | None => crash "copy from NULL"
    | Some b =>
        let rest := drop (rw_offset ctl) b in
        if (bufsz <? Z.of_nat (length rest))%Z then crash "write beyond the library's buffer"
        else mret (Some rest, ctl)
    end.

(** [Bread]: the early [return] skips the release of the array. *)
Definition Java_TypedUbf_Bread (data jb : jobject) : M xst unit :=
  '(n_array, n_array_copy) ← GetByteArrayElements vm jb;
  c ← ndrxj_TypedBuffer_get_ctx vm data true;
  if (c =? 0)%Z then mret tt
  else
    '(r, cdata, _, _) ← ndrxj_atmi_TypedBuffer_get_buffer data 0 false false;
    (if (r =? EXSUCCEED)%Z then
       len ← GetArrayLength jb;
       '(_, rr) ← run_script_ctl Bread_readf (RwData 0 n_array len) (Breadcb cdata);
       if (rr =? EXSUCCEED)%Z then mret tt
       else e ← xget Berror; throw_ubf vm e ("Failed to call Breadcb(): " +:+ Bstrerror e)
     else mret tt);;
    release_if n_array_copy jb;;
    unset_ctx.

(** ** Writing bytes *)

(** [Bwrite_writef]: the block grows by the bytes written.  The messages of the
    failing branches lack their first argument. *)
Definition Bwrite_writef (ctl : rw_data) (buffer : list Z) : M xst (Z * rw_data) :=
  ok ← ask (jvm_alloc_ok vm);
  if (ok : bool) then
    mret (Z.of_nat (length buffer),
          RwData (rw_offset ctl + length buffer)
                 (Some (take (rw_offset ctl) (default [] (rw_buf ctl)) ++ buffer)) (rw_size ctl))
  else
    msg ← vsnprintf_missing_arguments;
    throw_ubf vm BEUNIX msg;;
    mret (EXFAIL, RwData (rw_offset ctl) None (rw_size ctl)).

Definition Java_TypedUbf_Bwrite (data : jobject) : M xst jobject :=
  on_buffer vm data None (λ cdata,
    '(ctl, r) ← run_script_ctl Bwrite_writef (RwData 0 None 0) (Bwritecb cdata);
    if (r =? EXSUCCEED)%Z then
      ret ← NewByteArray vm (to_jsize (Z.of_nat (rw_offset ctl)));
      match ret with
      | None => _ ← vsnprintf_missing_arguments; mret None
      | Some _ =>
          SetByteArrayRegion ret (to_jsize (Z.of_nat (rw_offset ctl))) (default [] (rw_buf ctl));;
          e ← ExceptionCheck;
          (if (e : bool) then NDRXJ_LOG_EXCEPTION else mret tt);;
          mret ret
      end
    else
      e ← xget Berror; throw_ubf vm e ("Failed to call Bwritecb(): " +:+ Bstrerror e);; mret None).
End IO.
