(* ===== verification/Frame.v ===== *)
(** * What native methods leave behind

    A small program logic over the JNI monad: [triple P m Q] says that from a state
    in [P], [m] ends in [Q] unless it crashes.  The rules below, collected in the
    hint database [frame], derive for every native method that the elements it
    acquires are released and that the thread is back in the NULL context. *)
From stdpp Require Import sorting strings gmap list numbers.
From S2P Require Import Prelude CString Jni Xatmi Exceptions TypedBuffer Calls AtmiCtxOps.

Definition triple {X A} (P : world X → Prop) (m : M X A) (Q : A → world X → Prop) : Prop :=
  ∀ w, P w → match m w with Ok a w' => Q a w' | Crash _ => True end.

(** A property only of what the frame of [keeps] looks at. *)
Definition keeps {X A} (P : world X → Prop) (m : M X A) : Prop := triple P m (λ _, P).

Create HintDb frame.

Section Rules.
Context {X : Type}.
Implicit Types (P : world X → Prop).

Lemma triple_ret {A} (a : A) P (Q : A → world X → Prop) :
  (∀ w, P w → Q a w) → triple P (mret a) Q.
Proof. intros HQ w Hw. simpl. by apply HQ. Qed.

Lemma triple_bind {A B} P (m : M X A) R (k : A → M X B) Q :
  triple P m R → (∀ a, triple (R a) (k a) Q) → triple P (m ≫= k) Q.
Proof.
  intros Hm Hk w Hw. rewrite run_bind. specialize (Hm w Hw). destruct (m w) as [a w'|]; [|done].
  by apply Hk.
Qed.

Lemma triple_crash {A} P s (Q : A → world X → Prop) : triple P (crash s) Q.
Proof. by intros w Hw. Qed.

Lemma triple_pre {A} P P' (m : M X A) Q :
  (∀ w, P w → P' w) → triple P' m Q → triple P m Q.
Proof. intros HP Hm w Hw. by apply Hm, HP. Qed.

Lemma triple_pure {A} P (φ : Prop) (m : M X A) Q :
  (φ → triple P m Q) → triple (λ w, P w ∧ φ) m Q.
Proof. intros Hm w [Hw Hφ]. by apply Hm. Qed.

Lemma triple_exist {A B} (P : B → world X → Prop) (m : M X A) Q :
  (∀ b, triple (P b) m Q) → triple (λ w, ∃ b, P b w) m Q.
Proof. intros Hm w [b Hw]. by eapply Hm. Qed.

Lemma triple_post {A} P (m : M X A) Q Q' :
  triple P m Q' → (∀ a w, Q' a w → Q a w) → triple P m Q.
Proof. intros Hm HQ w Hw. specialize (Hm w Hw). destruct (m w); auto. Qed.

Lemma keeps_ret {A} (a : A) P : keeps P (mret a).
Proof. by intros w. Qed.

Lemma keeps_bind {A B} P (m : M X A) (k : A → M X B) :
  keeps P m → (∀ a, keeps P (k a)) → keeps P (m ≫= k).
Proof. intros. by eapply triple_bind. Qed.

Lemma keeps_crash {A} P s : keeps P (crash s : M X A).
Proof. by intros w. Qed.

Lemma keeps_mget P : keeps P mget.
Proof. by intros w. Qed.

Lemma keeps_mmod P f : (∀ w, P w → P (f w)) → keeps P (mmod f).
Proof. intros Hf w. apply Hf. Qed.

Lemma keeps_ask P f : (∀ w, P w → P (ticked w)) → keeps P (ask f).
Proof. intros Hf w. apply Hf. Qed.
End Rules.

#[export] Hint Resolve keeps_ret keeps_crash keeps_mget : frame.

(** Decompose a [keeps] goal along binds and branches. *)
Ltac keeps_step :=
  match goal with
  | |- keeps _ (_ ≫= _) => apply keeps_bind; [|intros ?]
  | |- keeps _ (match ?x with _ => _ end) => destruct x
  | |- triple _ (match ?x with _ => _ end) _ => destruct x
  | |- ∀ _, _ => intros ?
  end.
Ltac keeps_tac := repeat (solve [eauto with frame] || keeps_step); eauto with frame.

(** ** The acquired elements *)

Section Pins.
Context `{Xatmi} (vm : jvm) (p : list loc).
Notation pins := (λ w : world xst, w_pins w = p).

Lemma pins_mmod f : (∀ w, w_pins (f w) = w_pins w) → keeps pins (mmod f).
Proof. intros Hf. apply keeps_mmod. intros w Hw. by rewrite Hf. Qed.
Lemma pins_ask f : keeps pins (ask f).
Proof. by apply keeps_ask. Qed.
Lemma pins_throw_vm c : keeps pins (throw_vm c).
Proof. by intros w. Qed.
Lemma pins_store_new v : keeps pins (store_new v).
Proof. by intros w. Qed.
Lemma pins_deref o : keeps pins (deref o).
Proof. intros w Hw. unfold deref. destruct o as [l|]; [|done]. by destruct (w_heap w !! l). Qed.
Lemma pins_xcall {A} (f : xst → A * xst) : keeps pins (xcall f).
Proof. intros w Hw. unfold xcall. by destruct (f (w_x w)). Qed.
Lemma pins_xmod f : keeps pins (xmod f).
Proof. by intros w. Qed.
Lemma pins_xget {A} (f : xst → A) : keeps pins (xget f).
Proof. by intros w. Qed.
Lemma pins_DeleteWeak o : keeps pins (DeleteWeakGlobalRef o).
Proof. intros w Hw. unfold DeleteWeakGlobalRef. destruct o as [l|]; [|done].
  by destruct (remove1 l (w_weak w)). Qed.
End Pins.

#[export] Hint Resolve pins_ask pins_throw_vm pins_store_new pins_deref pins_xcall pins_xmod
  pins_xget pins_DeleteWeak : frame.
#[export] Hint Extern 1 (keeps _ (mmod _)) => apply pins_mmod; reflexivity : frame.

Section PinsOps.
Context `{Xatmi} (vm : jvm) (p : list loc).
Notation pins := (λ w : world xst, w_pins w = p).

Lemma pins_jni_new v : keeps pins (jni_new vm v).
Proof. unfold jni_new. keeps_tac. Qed.
Lemma pins_ExceptionCheck : keeps pins ExceptionCheck.
Proof. unfold ExceptionCheck. keeps_tac. Qed.
Lemma pins_Throw o : keeps pins (Throw o).
Proof. unfold Throw. keeps_tac. Qed.
Lemma pins_FindClass c : keeps pins (FindClass vm c).
Proof. unfold FindClass. keeps_tac. Qed.
Lemma pins_NewWeak o : keeps pins (NewWeakGlobalRef vm o).
Proof. unfold NewWeakGlobalRef. keeps_tac. Qed.
Lemma pins_GetArrayLength o : keeps pins (GetArrayLength o).
Proof. unfold GetArrayLength. keeps_tac. Qed.
End PinsOps.
#[export] Hint Resolve pins_jni_new pins_ExceptionCheck pins_Throw pins_FindClass pins_NewWeak
  pins_GetArrayLength : frame.

(** Acquire and release.  [pinned c o p]: the elements held after acquiring [o] as
    a copy. *)
Definition pinned (c : bool) (o : jobject) (p : list loc) : list loc :=
  if c then match o with Some l => l :: p | None => p end else p.

Section AcquireRelease.
Context `{Xatmi} (vm : jvm).
Hypothesis copies : vm_hands_copies vm.

Lemma triple_GetStringUTFChars o p :
  triple (λ w : world xst, w_pins w = p) (GetStringUTFChars vm o)
         (λ uc w, w_pins w = pinned uc.2 o p).
Proof.
  intros w Hw. unfold GetStringUTFChars. rewrite run_bind.
  destruct o as [l|]; [|done]. cbn. destruct (w_heap w !! l) as [[]|]; try done.
  rewrite run_bind. cbn. destruct (jvm_alloc_ok vm (w_tick w)); [|done].
  rewrite run_bind. cbn. rewrite copies. simpl. by rewrite Hw.
Qed.

(** A string argument that may be NULL. *)
Lemma triple_get_optional d o p :
  triple (λ w : world xst, w_pins w = p)
         (match o with Some _ => GetStringUTFChars vm o | None => mret (d, false) end)
         (λ uc w, w_pins w = pinned uc.2 o p).
Proof. destruct o; [apply triple_GetStringUTFChars|by intros w]. Qed.

Lemma triple_GetByteArrayElements o p :
  triple (λ w : world xst, w_pins w = p) (GetByteArrayElements vm o)
         (λ uc w, w_pins w = pinned uc.2 o p).
Proof.
  intros w Hw. unfold GetByteArrayElements. rewrite run_bind.
  destruct o as [l|]; [|done]. cbn. destruct (w_heap w !! l) as [[]|]; try done.
  rewrite run_bind. cbn. destruct (jvm_alloc_ok vm (w_tick w)); [|done].
  rewrite run_bind. cbn. rewrite copies. simpl. by rewrite Hw.
Qed.
End AcquireRelease.

Lemma triple_release_if `{Xatmi} c o p :
  triple (λ w : world xst, w_pins w = pinned c o p) (release_if c o) (λ _ w, w_pins w = p).
Proof.
  intros w Hw. unfold release_if. destruct c; [|done]. destruct o as [l|]; [|done].
  by rewrite (run_Release_head l p).
Qed.

(** Run through a native method that acquires and releases. *)
Ltac pins_step :=
  match goal with
  | |- keeps _ _ => unfold keeps
  | |- triple _ (GetStringUTFChars _ _ ≫= _) _ =>
      eapply triple_bind; [by apply triple_GetStringUTFChars|intros [? ?]; cbn [snd]]
  | |- triple _ (match ?o with Some _ => GetStringUTFChars _ ?o | None => _ end ≫= _) _ =>
      eapply triple_bind; [by apply triple_get_optional|intros [? ?]; cbn [snd]]
  | |- triple _ (GetByteArrayElements _ _ ≫= _) _ =>
      eapply triple_bind; [by apply triple_GetByteArrayElements|intros [? ?]; cbn [snd]]
  | |- triple _ (release_if _ _ ≫= _) _ => eapply triple_bind; [apply triple_release_if|intros ?; cbv beta]
  | |- triple _ (release_if _ _) _ => eapply triple_release_if
  | |- triple ?P (mbind _ _) _ => apply (triple_bind P _ (λ _, P)); [|intros ?]
  | |- triple _ (mret _) _ => apply triple_ret; by intros
  | |- triple _ (crash _) _ => apply triple_crash
  | |- triple _ (match ?x with _ => _ end) _ => destruct x
  end.
(** A step that leaves the acquired elements alone. *)
Ltac pins_frame :=
  match goal with
  | |- triple ?P ?m _ => solve [change (keeps P m); eauto with frame]
  end.
Ltac pins_tac := repeat (pins_frame || solve [eauto with frame] || pins_step).

Section PinsMethods.
Context `{Xatmi} (vm : jvm) (p : list loc).
Notation pins := (λ w : world xst, w_pins w = p).

Lemma pins_LOG_EXCEPTION : keeps pins NDRXJ_LOG_EXCEPTION.
Proof. unfold NDRXJ_LOG_EXCEPTION. keeps_tac. Qed.
Lemma pins_caches_add c : keeps pins (ndrxj_caches_add vm c).
Proof. unfold ndrxj_caches_add. keeps_tac. Qed.
Lemma pins_caches_get c : keeps pins (ndrxj_caches_get c).
Proof. unfold ndrxj_caches_get. keeps_tac. Qed.
Lemma pins_set_throwable l f : keeps pins (set_throwable l f).
Proof.
  unfold set_throwable. apply keeps_bind; [eauto with frame|]. intros []; eauto with frame.
  destruct (f data qctl). eauto with frame.
Qed.
#[local] Hint Resolve pins_LOG_EXCEPTION pins_caches_add pins_caches_get pins_set_throwable : frame.

Lemma pins_atmi_throw d a e m : keeps pins (ndrxj_atmi_throw vm d a e m).
Proof. unfold ndrxj_atmi_throw, exception_class, get_member, NewStringUTF. keeps_tac. Qed.
Lemma pins_ubf_throw c m : keeps pins (ndrxj_ubf_throw vm c m).
Proof. unfold ndrxj_ubf_throw, ndrxj_caches_single, ThrowNew. keeps_tac. Qed.
Lemma pins_nstd_throw c m : keeps pins (ndrxj_nstd_throw vm c m).
Proof. unfold ndrxj_nstd_throw, ndrxj_caches_single, ThrowNew. keeps_tac. Qed.
#[local] Hint Resolve pins_atmi_throw : frame.

Lemma pins_get_tb o : keeps pins (get_tb o).
Proof. unfold get_tb. keeps_tac. Qed.
#[local] Hint Resolve pins_get_tb : frame.
Lemma pins_upd_tb o f : keeps pins (upd_tb o f).
Proof. unfold upd_tb. keeps_tac. Qed.
#[local] Hint Resolve pins_upd_tb : frame.
Lemma pins_get_ctx o b : keeps pins (ndrxj_get_ctx vm o b).
Proof. unfold ndrxj_get_ctx, refresh_priv. keeps_tac. Qed.
#[local] Hint Resolve pins_get_ctx : frame.
Lemma pins_TypedBuffer_get_ctx o b : keeps pins (ndrxj_TypedBuffer_get_ctx vm o b).
Proof. unfold ndrxj_TypedBuffer_get_ctx. keeps_tac. Qed.
Lemma pins_translate_typed c d n t f : keeps pins (translate_typed vm c d n t f).
Proof. unfold translate_typed. keeps_tac. Qed.
#[local] Hint Resolve pins_translate_typed : frame.
Lemma pins_translate c b d n t f : keeps pins (ndrxj_atmi_TypedBuffer_translate vm c b d n t f).
Proof. unfold ndrxj_atmi_TypedBuffer_translate, unset_ctx. keeps_tac. Qed.
#[local] Hint Resolve pins_translate : frame.
Lemma pins_get_buffer d n u v : keeps pins (ndrxj_atmi_TypedBuffer_get_buffer d n u v).
Proof. unfold ndrxj_atmi_TypedBuffer_get_buffer. keeps_tac. Qed.
#[local] Hint Resolve pins_get_buffer : frame.
Lemma pins_result_prep c d a b e f t :
  keeps pins (ndrxj_atmi_TypedBuffer_result_prep vm c d a b e f t).
Proof. unfold ndrxj_atmi_TypedBuffer_result_prep, reuse_object, replace_object. keeps_tac. Qed.
#[local] Hint Resolve pins_result_prep : frame.
Lemma pins_input_buffer d : keeps pins (input_buffer d).
Proof. unfold input_buffer. keeps_tac. Qed.
#[local] Hint Resolve pins_input_buffer : frame.
Lemma pins_input_typed d t : keeps pins (input_typed vm d t).
Proof. unfold input_typed. keeps_tac. Qed.
Lemma pins_throw_call_error c d a b e f t r :
  keeps pins (throw_call_error vm c d a b e f t r).
Proof. unfold throw_call_error. keeps_tac. Qed.
Lemma pins_give_up d : keeps pins (give_up_buffer d).
Proof. unfold give_up_buffer. keeps_tac. Qed.
Lemma pins_throw_tperrno : keeps pins (throw_tperrno vm).
Proof. unfold throw_tperrno. keeps_tac. Qed.
#[local] Hint Resolve pins_throw_tperrno : frame.
Lemma pins_checked o : keeps pins (checked vm o).
Proof. unfold checked. keeps_tac. Qed.
Lemma pins_unset : keeps pins unset_ctx.
Proof. apply pins_xmod. Qed.
End PinsMethods.
#[export] Hint Resolve pins_LOG_EXCEPTION pins_atmi_throw pins_ubf_throw pins_nstd_throw pins_get_tb
  pins_upd_tb pins_get_ctx pins_TypedBuffer_get_ctx pins_translate pins_get_buffer pins_result_prep
  pins_input_buffer pins_input_typed pins_throw_call_error pins_give_up pins_throw_tperrno
  pins_checked pins_unset : frame.

(** ** The context of the thread *)

Definition null_ctx `{Xatmi} (w : world xst) : Prop := x_ctx (w_x w) = TPNULLCONTEXT.

Create HintDb ctx.

Section Ctx.
Context `{XatmiLaws} (vm : jvm).

Lemma triple_any {A} (P : world xst → Prop) (m : M xst A) : triple P m (λ _ _, True).
Proof. intros w _. by destruct (m w). Qed.

(** What does not run the library leaves the context alone. *)
Definition same_x {A} (m : M xst A) : Prop :=
  ∀ w, match m w with Ok _ w' => w_x w' = w_x w | Crash _ => True end.

Lemma same_x_ret {A} (a : A) : same_x (mret a).
Proof. done. Qed.
Lemma same_x_crash {A} s : same_x (crash s : M xst A).
Proof. done. Qed.
Lemma same_x_mget : same_x mget.
Proof. done. Qed.
Lemma same_x_ask f : same_x (ask f).
Proof. done. Qed.
Lemma same_x_xget {A} (f : xst → A) : same_x (xget f).
Proof. done. Qed.
Lemma same_x_throw_vm c : same_x (throw_vm c).
Proof. done. Qed.
Lemma same_x_store_new v : same_x (store_new v).
Proof. done. Qed.
Lemma same_x_mmod f : (∀ w, w_x (f w) = w_x w) → same_x (mmod f).
Proof. intros Hf w. apply Hf. Qed.
Lemma same_x_deref o : same_x (deref o).
Proof. intros w. unfold deref. destruct o as [l|]; [|done]. by destruct (w_heap w !! l). Qed.
Lemma same_x_unpin l : same_x (unpin l).
Proof. intros w. unfold unpin. by destruct (remove1 l (w_pins w)). Qed.
Lemma same_x_bind {A B} (m : M xst A) (k : A → M xst B) :
  same_x m → (∀ a, same_x (k a)) → same_x (m ≫= k).
Proof.
  intros Hm Hk w. rewrite run_bind. specialize (Hm w). destruct (m w) as [a w'|]; [|done].
  specialize (Hk a w'). destruct (k a w') as [b w''|]; [|done]. congruence.
Qed.
Lemma same_x_keeps {A} (m : M xst A) : same_x m → triple null_ctx m (λ _, null_ctx).
Proof.
  intros Hm w Hw. specialize (Hm w). destruct (m w); [|done]. unfold null_ctx in *. congruence.
Qed.
End Ctx.

#[export] Hint Resolve same_x_ret same_x_crash same_x_mget same_x_ask same_x_xget same_x_throw_vm
  same_x_store_new same_x_deref same_x_unpin : ctx.
#[export] Hint Extern 1 (same_x (mmod _)) => apply same_x_mmod; reflexivity : ctx.

(** Decompose a [same_x] goal along binds and branches. *)
Ltac same_x_tac :=
  repeat (solve [eauto with ctx] ||
          match goal with
          | |- same_x (_ ≫= _) => apply same_x_bind; [|intros ?]
          | |- same_x (match ?x with _ => _ end) => destruct x
          end).

Section CtxMethods.
Context `{XatmiLaws} (vm : jvm).

Lemma same_x_GetStringUTFChars o : same_x (GetStringUTFChars vm o).
Proof. unfold GetStringUTFChars, pin. same_x_tac. Qed.
Lemma same_x_release_if c o : same_x (release_if c o).
Proof. unfold release_if, Release. same_x_tac. Qed.
Lemma same_x_LOG_EXCEPTION : same_x NDRXJ_LOG_EXCEPTION.
Proof. unfold NDRXJ_LOG_EXCEPTION, ExceptionCheck. same_x_tac. Qed.
Lemma same_x_caches_add c : same_x (ndrxj_caches_add vm c).
Proof. unfold ndrxj_caches_add. same_x_tac. Qed.
#[local] Hint Resolve same_x_LOG_EXCEPTION same_x_caches_add : ctx.
Lemma same_x_set_throwable l f : same_x (set_throwable l f).
Proof. unfold set_throwable. same_x_tac. Qed.
#[local] Hint Resolve same_x_set_throwable : ctx.
Lemma same_x_atmi_throw d a e m : same_x (ndrxj_atmi_throw vm d a e m).
Proof.
  unfold ndrxj_atmi_throw, exception_class, get_member, NewStringUTF, jni_new, ndrxj_caches_get, FindClass, Throw. same_x_tac.
Qed.
Lemma same_x_ubf_throw c m : same_x (ndrxj_ubf_throw vm c m).
Proof.
  unfold ndrxj_ubf_throw, ndrxj_caches_single, ThrowNew, jni_new, ndrxj_caches_get, FindClass, Throw.
  same_x_tac.
Qed.
Lemma same_x_get_tb o : same_x (get_tb o).
Proof. unfold get_tb. same_x_tac. Qed.
#[local] Hint Resolve same_x_get_tb : ctx.

(** A failing [get_ctx] leaves the context alone. *)
Lemma triple_get_ctx o b :
  triple null_ctx (ndrxj_get_ctx vm o b) (λ c w, c = 0%Z → null_ctx w).
Proof.
  unfold ndrxj_get_ctx. eapply triple_bind; [apply same_x_keeps, same_x_deref|]. intros []; try apply triple_crash.
  case_bool_decide as Hc.
  - eapply triple_bind; [apply same_x_keeps, same_x_atmi_throw|]. intros ?. by apply triple_ret.
  - destruct b; [|by apply triple_ret].
    eapply triple_bind; [apply triple_any|]. intros ?.
    eapply triple_bind; [apply triple_any|]. intros ?. by apply triple_ret.
Qed.

Lemma triple_TypedBuffer_get_ctx o b :
  triple null_ctx (ndrxj_TypedBuffer_get_ctx vm o b) (λ c w, c = 0%Z → null_ctx w).
Proof.
  unfold ndrxj_TypedBuffer_get_ctx. eapply triple_bind; [apply same_x_keeps, same_x_get_tb|].
  intros [l t]. destruct (tb_ctx t); [apply triple_get_ctx|].
  eapply triple_bind; [apply same_x_keeps, same_x_LOG_EXCEPTION|]. intros ?. by apply triple_ret.
Qed.

Lemma triple_unset P : triple P unset_ctx (λ _, null_ctx).
Proof. intros w _. unfold unset_ctx, xmod, null_ctx. simpl. apply keep_ctx_set. Qed.

(** Every exit of a method that ends by leaving the context. *)
Lemma triple_out {A B} P (m : M xst A) (r : A → B) :
  triple P (x ← m; unset_ctx;; mret (r x)) (λ _, null_ctx).
Proof.
  eapply triple_bind; [apply triple_any|]. intros a.
  eapply triple_bind; [apply triple_unset|]. intros ?. by apply triple_ret.
Qed.
End CtxMethods.
#[export] Hint Resolve same_x_GetStringUTFChars same_x_release_if same_x_atmi_throw same_x_ubf_throw : ctx.

(** Run through a native method that enters and leaves a context. *)
Ltac ctx_step :=
  match goal with
  | |- triple null_ctx ?m (λ _, null_ctx) => solve [apply same_x_keeps; eauto with ctx]
  | |- triple _ unset_ctx _ => apply triple_unset
  | |- triple _ (unset_ctx ≫= _) _ => eapply triple_bind; [apply triple_unset|intros ?; cbv beta]
  | |- triple null_ctx (ndrxj_get_ctx _ _ _ ≫= _) _ =>
      eapply triple_bind; [apply triple_get_ctx|intros ?; cbv beta]
  | |- triple null_ctx (ndrxj_TypedBuffer_get_ctx _ _ _ ≫= _) _ =>
      eapply triple_bind; [apply triple_TypedBuffer_get_ctx|intros ?; cbv beta]
  | |- triple (λ w, ?c = 0%Z → _) (if (?c =? 0)%Z then _ else _) _ =>
      destruct (Z.eqb_spec c 0);
      [apply (triple_pre _ null_ctx); [by eauto|]|apply (triple_pre _ (λ _, True)); [done|]]
  | |- triple (λ _, True) (_ ≫= _) _ => eapply triple_bind; [apply triple_any|intros ?; cbv beta]
  | |- triple null_ctx (_ ≫= _) _ =>
      eapply (triple_bind _ _ (λ _, null_ctx)); [solve [apply same_x_keeps; eauto with ctx]|intros ?; cbv beta]
  | |- triple (λ _ , _ → _) (_ ≫= _) _ =>
      eapply triple_bind; [apply triple_any|intros ?; cbv beta]
  | |- triple null_ctx (mret _) _ => by apply triple_ret
  | |- triple _ (match ?x with _ => _ end) _ => destruct x
  end.
Ltac ctx_tac := repeat ctx_step.
