(* ===== verification/UbfNatives.v ===== *)
(** * The UBF methods as calls, and what they leave behind

    The methods of [Ubf] as values, and the two invariants for each of them: what was
    acquired is released, and the thread is left in the NULL context. *)
From stdpp Require Import sorting strings gmap list numbers.
From S2P Require Import Prelude CString Jni Xatmi Exceptions TypedBuffer Calls AtmiCtxOps Ubf Frame.

Inductive ubf_native :=
  | UN_Badd (data : jobject) (bfldid : Z) (v : ubf_value)
  | UN_Badd_String (data : jobject) (bfldid : Z) (js : jobject)
  | UN_Badd_Bytes (data : jobject) (bfldid : Z) (jb : jobject)
  | UN_Bchg (data : jobject) (bfldid occ : Z) (v : ubf_value)
  | UN_Bchg_String (data : jobject) (bfldid occ : Z) (js : jobject)
  | UN_Bchg_Bytes (data : jobject) (bfldid occ : Z) (jb : jobject)
  | UN_Bget (data : jobject) (bfldid occ : Z) (t : ubf_type)
  | UN_Bdel (data : jobject) (bfldid occ : Z)
  | UN_Bdelall (data : jobject) (bfldid : Z)
  | UN_Bdelete (data bfldida : jobject)
  | UN_Bproj (data bfldida : jobject)
  | UN_Bpres (data : jobject) (bfldid occ : Z)
  | UN_Bisubf (data : jobject)
  | UN_Blen (data : jobject) (bfldid occ : Z)
  | UN_Bnext (data : jobject) (first : bool)
  | UN_Boccur (data : jobject) (bfldid : Z)
  | UN_Bsizeof (data : jobject)
  | UN_Bunused (data : jobject)
  | UN_Bused (data : jobject)
  | UN_Bnum (data : jobject)
  | UN_Binit (data : jobject)
  | UN_tpjsontoubf (data json : jobject)
  | UN_tpubftojson (data : jobject)
  | UN_tplogprintubf (data : jobject) (lev : Z) (title : jobject)
  | UN_Bconcat (data src : jobject)
  | UN_Bcpy (data src : jobject)
  | UN_Bupdate (data src : jobject)
  | UN_Bjoin (data src : jobject)
  | UN_Bojoin (data src : jobject)
  | UN_Bcmp (data src : jobject)
  | UN_Bsubset (data src : jobject)
  | UN_Bprojcpy (data src bfldida : jobject).

(** A call without its result. *)
Definition ignore `{Xatmi} {A} (m : M xst A) : M xst unit := _ ← m; mret tt.

Section UbfNatives.
Context `{Ubf} (vm : jvm).

(** The getter for a type. *)
Definition run_get (data : jobject) (bfldid occ : Z) (t : ubf_type) : M xst unit :=
  match t with
  | AsShort => ignore (Java_TypedUbf_BgetShort vm data bfldid occ)
  | AsLong => ignore (Java_TypedUbf_BgetLong vm data bfldid occ)
  | AsChar => ignore (Java_TypedUbf_BgetByte vm data bfldid occ)
  | AsFloat => ignore (Java_TypedUbf_BgetFloat vm data bfldid occ)
  | AsDouble => ignore (Java_TypedUbf_BgetDouble vm data bfldid occ)
  | AsString => ignore (Java_TypedUbf_BgetString vm data bfldid occ)
  | AsCarray => ignore (Java_TypedUbf_BgetByteArr vm data bfldid occ)
  end.

Definition run_ubf (n : ubf_native) : M xst unit :=
  match n with
  | UN_Badd d f v => ndrxj_ubf_CBadd vm d f v
  | UN_Badd_String d f s => Java_TypedUbf_Badd_String vm d f s
  | UN_Badd_Bytes d f b => Java_TypedUbf_Badd_Bytes vm d f b
  | UN_Bchg d f o v => ndrxj_ubf_CBchg vm d f o v
  | UN_Bchg_String d f o s => Java_TypedUbf_Bchg_String vm d f o s
  | UN_Bchg_Bytes d f o b => Java_TypedUbf_Bchg_Bytes vm d f o b
  | UN_Bget d f o t => run_get d f o t
  | UN_Bdel d f o => Java_TypedUbf_Bdel vm d f o
  | UN_Bdelall d f => Java_TypedUbf_Bdelall vm d f
  | UN_Bdelete d a => Java_TypedUbf_Bdelete vm d a
  | UN_Bproj d a => Java_TypedUbf_Bproj vm d a
  | UN_Bpres d f o => ignore (Java_TypedUbf_Bpres vm d f o)
  | UN_Bisubf d => ignore (Java_TypedUbf_Bisubf vm d)
  | UN_Blen d f o => ignore (Java_TypedUbf_Blen vm d f o)
  | UN_Bnext d first => ignore (Java_TypedUbf_Bnext vm d first)
  | UN_Boccur d f => ignore (Java_TypedUbf_Boccur vm d f)
  | UN_Bsizeof d => ignore (Java_TypedUbf_Bsizeof vm d)
  | UN_Bunused d => ignore (Java_TypedUbf_Bunused vm d)
  | UN_Bused d => ignore (Java_TypedUbf_Bused vm d)
  | UN_Bnum d => ignore (Java_TypedUbf_Bnum vm d)
  | UN_Binit d => ignore (Java_TypedUbf_Binit vm d)
  | UN_tpjsontoubf d j => Java_TypedUbf_tpjsontoubf vm d j
  | UN_tpubftojson d => ignore (Java_TypedUbf_tpubftojson vm d)
  | UN_tplogprintubf d lev t => Java_TypedUbf_tplogprintubf vm d lev t
  | UN_Bconcat d s => Java_TypedUbf_Bconcat vm d s
  | UN_Bcpy d s => Java_TypedUbf_Bcpy vm d s
  | UN_Bupdate d s => Java_TypedUbf_Bupdate vm d s
  | UN_Bjoin d s => Java_TypedUbf_Bjoin vm d s
  | UN_Bojoin d s => Java_TypedUbf_Bojoin vm d s
  | UN_Bcmp d s => ignore (Java_TypedUbf_Bcmp vm d s)
  | UN_Bsubset d s => ignore (Java_TypedUbf_Bsubset vm d s)
  | UN_Bprojcpy d s a => Java_TypedUbf_Bprojcpy vm d s a
  end.
End UbfNatives.

(** ** Nothing stays acquired *)

Section UbfPins.
Context `{Ubf} (vm : jvm).
Hypothesis copies : vm_hands_copies vm.
Implicit Types (p : list loc).

Lemma triple_GetIntArrayElements o p :
  triple (λ w : world xst, w_pins w = p) (GetIntArrayElements vm o)
         (λ uc w, w_pins w = pinned uc.2 o p).
Proof.
  intros w Hw. unfold GetIntArrayElements. rewrite run_bind.
  destruct o as [l|]; [|done]. cbn. destruct (w_heap w !! l) as [[]|]; try done.
  rewrite run_bind. cbn. destruct (jvm_alloc_ok vm (w_tick w)); [|done].
  rewrite run_bind. cbn. rewrite copies. simpl. by rewrite Hw.
Qed.

Lemma pins_throw_ubf p e m : keeps (λ w, w_pins w = p) (throw_ubf vm e m).
Proof. apply pins_ubf_throw. Qed.
Lemma pins_Bfname p f : keeps (λ w, w_pins w = p) (Bfname_of f).
Proof. unfold Bfname_of. pins_tac. Qed.
#[local] Hint Resolve pins_throw_ubf pins_Bfname : frame.
Lemma pins_log_field p f : keeps (λ w, w_pins w = p) (log_field f).
Proof. unfold log_field. pins_tac. Qed.
#[local] Hint Resolve pins_log_field : frame.
Lemma pins_null_value p fn f : keeps (λ w, w_pins w = p) (null_value vm fn f).
Proof. unfold null_value. pins_tac. Qed.
Lemma pins_u_checked p o m : keeps (λ w, w_pins w = p) (u_checked vm o m).
Proof. unfold u_checked. pins_tac. Qed.
#[local] Hint Resolve pins_null_value pins_u_checked : frame.

Lemma pins_on_buffer {A} p d (a : A) body :
  (∀ b, keeps (λ w, w_pins w = p) (body b)) → keeps (λ w, w_pins w = p) (on_buffer vm d a body).
Proof. intros Hb. unfold on_buffer. pins_tac. Qed.

Lemma pins_on_two p d s a b body :
  (∀ x y, keeps (λ w, w_pins w = p) (body x y)) → keeps (λ w, w_pins w = p) (on_two vm d s a b body).
Proof. intros Hb. unfold on_two. pins_tac. Qed.

Lemma pins_CBadd p d f v : keeps (λ w, w_pins w = p) (ndrxj_ubf_CBadd vm d f v).
Proof. unfold ndrxj_ubf_CBadd. apply pins_on_buffer. intros b. pins_tac. Qed.
Lemma pins_CBchg p d f o v : keeps (λ w, w_pins w = p) (ndrxj_ubf_CBchg vm d f o v).
Proof. unfold ndrxj_ubf_CBchg. apply pins_on_buffer. intros b. pins_tac. Qed.
Lemma pins_CBfind p d f o t : keeps (λ w, w_pins w = p) (ndrxj_ubf_CBfind vm d f o t).
Proof. unfold ndrxj_ubf_CBfind. pins_tac. Qed.
#[local] Hint Resolve pins_CBadd pins_CBchg pins_CBfind : frame.

Lemma pins_with_string {A} p js (use : option string → M xst A) :
  (∀ q s, keeps (λ w, w_pins w = q) (use s)) → keeps (λ w, w_pins w = p) (with_string vm js use).
Proof. intros Hu. unfold with_string. pins_tac. Qed.
Lemma pins_with_bytes {A} p jb (use : option (list Z) → Z → M xst A) :
  (∀ q b n, keeps (λ w, w_pins w = q) (use b n)) → keeps (λ w, w_pins w = p) (with_bytes vm jb use).
Proof. intros Hu. unfold with_bytes. pins_tac. Qed.
Lemma pins_with_fields p fn a use :
  (∀ q l, keeps (λ w, w_pins w = q) (use l)) → keeps (λ w, w_pins w = p) (with_fields vm fn a use).
Proof.
  intros Hu. unfold with_fields. do 2 (apply keeps_bind; [eauto with frame|intros ?]).
  destruct a1; [|eauto with frame]. unfold keeps.
  eapply triple_bind; [by apply triple_GetIntArrayElements|]. intros [[l|] c]; cbn [snd]; [|done].
  pins_tac.
Qed.

Lemma pins_SetRegion p o n b : keeps (λ w, w_pins w = p) (SetByteArrayRegion o n b : M xst unit).
Proof. unfold SetByteArrayRegion. pins_tac. Qed.
Lemma pins_NewByteArray p n : keeps (λ w, w_pins w = p) (NewByteArray vm n : M xst _).
Proof. unfold NewByteArray. pins_tac. Qed.
#[local] Hint Resolve pins_SetRegion pins_NewByteArray : frame.

Lemma pins_run_get p d f o t : keeps (λ w, w_pins w = p) (run_get vm d f o t).
Proof.
  destruct t; cbn [run_get]; unfold ignore, Java_TypedUbf_BgetShort, Java_TypedUbf_BgetLong,
    Java_TypedUbf_BgetByte, Java_TypedUbf_BgetFloat, Java_TypedUbf_BgetDouble, get_scalar,
    Java_TypedUbf_BgetString, Java_TypedUbf_BgetByteArr, NewStringUTF; pins_tac.
Qed.
Lemma pins_tpjsontoubf p d j : keeps (λ w, w_pins w = p) (Java_TypedUbf_tpjsontoubf vm d j).
Proof. unfold Java_TypedUbf_tpjsontoubf. pins_tac. Qed.
Lemma pins_tplogprintubf p d l t : keeps (λ w, w_pins w = p) (Java_TypedUbf_tplogprintubf vm d l t).
Proof. unfold Java_TypedUbf_tplogprintubf. pins_tac. Qed.

Lemma ubf_pins n p : keeps (λ w, w_pins w = p) (run_ubf vm n).
Proof.
  destruct n; cbn [run_ubf]; unfold ignore;
    try apply pins_run_get; try apply pins_tpjsontoubf; try apply pins_tplogprintubf;
    try solve [pins_tac];
    unfold Java_TypedUbf_Badd_String, Java_TypedUbf_Badd_Bytes, Java_TypedUbf_Bchg_String,
      Java_TypedUbf_Bchg_Bytes, Java_TypedUbf_Bdel, Java_TypedUbf_Bdelall, Java_TypedUbf_Bpres,
      Java_TypedUbf_Bisubf, Java_TypedUbf_Blen, Java_TypedUbf_Bnext, Java_TypedUbf_Boccur,
      Java_TypedUbf_Bsizeof, Java_TypedUbf_Bunused, Java_TypedUbf_Bused, Java_TypedUbf_Bnum,
      Java_TypedUbf_Binit, Java_TypedUbf_tpubftojson, Java_TypedUbf_Bconcat, Java_TypedUbf_Bcpy, Java_TypedUbf_Bupdate,
      Java_TypedUbf_Bjoin, Java_TypedUbf_Bojoin, combine, Java_TypedUbf_Bcmp, Java_TypedUbf_Bsubset,
      Java_TypedUbf_Bprojcpy, Java_TypedUbf_Bdelete, Java_TypedUbf_Bproj, fields_then_buffer,
      NewStringUTF, ndrxj_BNextResult_new;
    repeat (match goal with
            | |- keeps _ (on_buffer _ _ _ _) => apply pins_on_buffer; intros ?
            | |- keeps _ (on_two _ _ _ _ _ _) => apply pins_on_two; intros ? ?
            | |- keeps _ (with_string _ _ _) => apply pins_with_string; intros ? ?
            | |- keeps _ (with_bytes _ _ _) => apply pins_with_bytes; intros ? ? ?
            | |- keeps _ (with_fields _ _ _ _) => apply pins_with_fields; intros ? ?
            | |- keeps _ (mbind _ _) => apply keeps_bind; [|intros ?]
            | |- keeps _ (match ?x with _ => _ end) => destruct x
            end || solve [pins_tac]).
Qed.
End UbfPins.

(** ** Between calls no context is set *)

Section UbfCtx.
Context `{Ubf} {XL : XatmiLaws} (vm : jvm).

Lemma ctx_on_buffer {A} d (a : A) body : triple null_ctx (on_buffer vm d a body) (λ _, null_ctx).
Proof. unfold on_buffer. ctx_tac. Qed.
Lemma ctx_on_two d s a b body : triple null_ctx (on_two vm d s a b body) (λ _, null_ctx).
Proof. unfold on_two. ctx_tac. Qed.
Lemma ctx_CBfind d f o t : triple null_ctx (ndrxj_ubf_CBfind vm d f o t) (λ _, null_ctx).
Proof.
  unfold ndrxj_ubf_CBfind. eapply triple_bind; [apply triple_TypedBuffer_get_ctx|]. intros c.
  apply triple_out.
Qed.

(** Followed by steps that do not run the library. *)
Lemma ctx_then {A B} (m : M xst A) (k : A → M xst B) :
  triple null_ctx m (λ _, null_ctx) → (∀ a, same_x (k a)) → triple null_ctx (m ≫= k) (λ _, null_ctx).
Proof. intros Hm Hk. eapply triple_bind; [exact Hm|]. intros a. by apply same_x_keeps. Qed.

Lemma ctx_null_value fn f : triple null_ctx (null_value vm fn f) (λ _, null_ctx).
Proof.
  unfold null_value, throw_ubf. eapply (triple_bind _ _ (λ _, null_ctx)).
  - unfold Bfname_of. eapply (triple_bind _ _ (λ _, null_ctx)); [|intros ?; by apply triple_ret].
    intros w Hw. unfold xcall. pose proof (keep_ctx_name (Name_Bfname f) (w_x w)) as Hk.
    destruct (x_name (Name_Bfname f) (w_x w)). unfold null_ctx in *. simpl in *. congruence.
  - intros n. apply same_x_keeps, same_x_ubf_throw.
Qed.

Lemma same_x_GetBytes o : same_x (GetByteArrayElements vm o : M xst _).
Proof. unfold GetByteArrayElements, pin. same_x_tac. Qed.
Lemma same_x_ArrayLength o : same_x (GetArrayLength o : M xst _).
Proof. unfold GetArrayLength. same_x_tac. Qed.
#[local] Hint Resolve same_x_GetBytes same_x_ArrayLength : ctx.

Lemma ctx_with_string {A} js (use : option string → M xst A) :
  (∀ s, triple null_ctx (use s) (λ _, null_ctx)) → triple null_ctx (with_string vm js use) (λ _, null_ctx).
Proof.
  intros Hu. unfold with_string. eapply triple_bind; [apply same_x_keeps; eauto with ctx|].
  intros [s c]. apply ctx_then; [apply Hu|]. intros a. same_x_tac.
Qed.
Lemma ctx_with_bytes {A} jb (use : option (list Z) → Z → M xst A) :
  (∀ b n, triple null_ctx (use b n) (λ _, null_ctx)) → triple null_ctx (with_bytes vm jb use) (λ _, null_ctx).
Proof.
  intros Hu. unfold with_bytes. eapply triple_bind; [apply same_x_keeps; eauto with ctx|].
  intros [s c]. eapply triple_bind; [apply same_x_keeps; eauto with ctx|]. intros n.
  apply ctx_then; [apply Hu|]. intros a. same_x_tac.
Qed.

Lemma ctx_fields fn name d a op : triple null_ctx (fields_then_buffer vm fn name d a op) (λ _, null_ctx).
Proof. unfold fields_then_buffer. ctx_tac. Qed.

Lemma ctx_run_get d f o t : triple null_ctx (run_get vm d f o t) (λ _, null_ctx).
Proof.
  destruct t; cbn [run_get]; unfold ignore; (apply ctx_then; [|intros ?; same_x_tac]);
    unfold Java_TypedUbf_BgetShort, Java_TypedUbf_BgetLong,
      Java_TypedUbf_BgetByte, Java_TypedUbf_BgetFloat, Java_TypedUbf_BgetDouble, get_scalar,
      Java_TypedUbf_BgetString, Java_TypedUbf_BgetByteArr;
    (apply ctx_then; [apply ctx_CBfind|]); intros v;
    unfold NewStringUTF, jni_new, NewByteArray, jni_new, SetByteArrayRegion, NDRXJ_LOG_EXCEPTION,
      ExceptionCheck; same_x_tac.
Qed.

Lemma ctx_ignore {A} (m : M xst A) :
  triple null_ctx m (λ _, null_ctx) → triple null_ctx (ignore m) (λ _, null_ctx).
Proof. intros Hm. apply ctx_then; [exact Hm|]. intros a. same_x_tac. Qed.

Lemma ctx_combine name op d s : triple null_ctx (combine vm name op d s) (λ _, null_ctx).
Proof. apply ctx_then; [apply ctx_on_two|]. intros a. same_x_tac. Qed.

Lemma ctx_Badd_String d f js : triple null_ctx (Java_TypedUbf_Badd_String vm d f js) (λ _, null_ctx).
Proof.
  unfold Java_TypedUbf_Badd_String. destruct js; [|apply ctx_null_value].
  apply ctx_with_string. intros s. apply ctx_on_buffer.
Qed.
Lemma ctx_Bchg_String d f o js : triple null_ctx (Java_TypedUbf_Bchg_String vm d f o js) (λ _, null_ctx).
Proof.
  unfold Java_TypedUbf_Bchg_String. destruct js; [|apply ctx_null_value].
  apply ctx_with_string. intros s. apply ctx_on_buffer.
Qed.

Lemma ctx_tpjsontoubf d j : triple null_ctx (Java_TypedUbf_tpjsontoubf vm d j) (λ _, null_ctx).
Proof.
  unfold Java_TypedUbf_tpjsontoubf. eapply triple_bind; [apply triple_any|]. intros [s c].
  do 3 (eapply triple_bind; [apply triple_any|intros ?]). apply triple_unset.
Qed.
Lemma ctx_tplogprintubf d l t : triple null_ctx (Java_TypedUbf_tplogprintubf vm d l t) (λ _, null_ctx).
Proof.
  unfold Java_TypedUbf_tplogprintubf. do 2 (eapply triple_bind; [apply triple_any|intros ?]).
  apply triple_unset.
Qed.
Lemma ctx_tpubftojson d : triple null_ctx (Java_TypedUbf_tpubftojson vm d) (λ _, null_ctx).
Proof.
  unfold Java_TypedUbf_tpubftojson. do 2 (eapply triple_bind; [apply triple_any|intros ?]).
  eapply triple_bind; [apply triple_unset|]. intros ?. apply same_x_keeps.
  unfold NewStringUTF, jni_new. same_x_tac.
Qed.
Lemma ctx_Bsubset d s : triple null_ctx (Java_TypedUbf_Bsubset vm d s) (λ _, null_ctx).
Proof. apply ctx_then; [apply ctx_on_two|]. intros a. same_x_tac. Qed.
Lemma ctx_Bprojcpy d s a : triple null_ctx (Java_TypedUbf_Bprojcpy vm d s a) (λ _, null_ctx).
Proof. apply ctx_then; [apply ctx_on_two|]. intros ?. same_x_tac. Qed.

Lemma ubf_ctx n : triple null_ctx (run_ubf vm n) (λ _, null_ctx).
Proof.
  destruct n; cbn [run_ubf]; try apply ctx_ignore;
    first [ apply ctx_on_buffer | apply ctx_on_two | apply ctx_fields | apply ctx_run_get
          | apply ctx_combine | apply ctx_Badd_String | apply ctx_Bchg_String | apply ctx_Bsubset
          | apply ctx_tpjsontoubf | apply ctx_tplogprintubf | apply ctx_tpubftojson
          | apply ctx_Bprojcpy | apply ctx_with_bytes; intros ? ?; apply ctx_on_buffer ].
Qed.
End UbfCtx.
