(* ===== verification/QueueNatives.v ===== *)
(** * The queue, notification and logging methods as calls, and what they leave behind

    As for the UBF methods: what was acquired is released, and the thread is left in
    the NULL context. *)
From stdpp Require Import sorting strings gmap list numbers.
From S2P Require Import Prelude CString Jni Xatmi Exceptions TypedBuffer Calls AtmiCtxOps Convert Queues.
From S2P Require Import Ubf Frame UbfNatives.
From S2P Require Import Logging.

Inductive queue_native :=
  | QN_tpenqueue (q0 : cstruct) (o jqspace jqname jqctl idata : jobject) (flags : Z)
  | QN_tpenqueueex (q0 : cstruct) (o : jobject) (nodeid srvid : Z) (jqname jqctl idata : jobject) (flags : Z)
  | QN_tpdequeue (q0 : cstruct) (o jqspace jqname jqctl idata : jobject) (flags : Z)
  | QN_tpdequeueex (q0 : cstruct) (o : jobject) (nodeid srvid : Z) (jqname jqctl idata : jobject) (flags : Z)
  | QN_tpsuspend (o : jobject) (flags : Z)
  | QN_tpresume (tid0 : list Z) (o jtid : jobject) (flags : Z)
  | QN_tpnotify (o jclientid idata : jobject) (flags : Z)
  | QN_tpbroadcast (o lmid usrname cltname idata : jobject) (flags : Z)
  | QN_getAtmiError (o : jobject).

Section QueueNatives.
Context `{Queues} (vm : jvm).

Definition run_queue (n : queue_native) : M xst unit :=
  match n with
  | QN_tpenqueue q0 o s n c d f => Java_AtmiCtx_tpenqueue vm q0 o s n c d f
  | QN_tpenqueueex q0 o i j n c d f => Java_AtmiCtx_tpenqueueex vm q0 o i j n c d f
  | QN_tpdequeue q0 o s n c d f => ignore (Java_AtmiCtx_tpdequeue vm q0 o s n c d f)
  | QN_tpdequeueex q0 o i j n c d f => ignore (Java_AtmiCtx_tpdequeueex vm q0 o i j n c d f)
  | QN_tpsuspend o f => ignore (Java_AtmiCtx_tpsuspend vm o f)
  | QN_tpresume t o j f => Java_AtmiCtx_tpresume vm t o j f
  | QN_tpnotify o c d f => Java_AtmiCtx_tpnotify vm o c d f
  | QN_tpbroadcast o l u c d f => Java_AtmiCtx_tpbroadcast vm o l u c d f
  | QN_getAtmiError o => ignore (Java_AtmiCtx_getAtmiError vm o)
  end.
End QueueNatives.

(** ** Nothing stays acquired *)

Section FieldPins.
Context `{Xatmi} (vm : jvm) (p : list loc).
Notation pins := (λ w : world xst, w_pins w = p).

Lemma pins_get_fields o : keeps pins (get_fields o).
Proof. unfold get_fields. keeps_tac. Qed.
#[local] Hint Resolve pins_get_fields : frame.
Lemma pins_GetLongField o f : keeps pins (GetLongField o f).
Proof. unfold GetLongField. keeps_tac. Qed.
Lemma pins_GetObjectField o f : keeps pins (GetObjectField o f).
Proof. unfold GetObjectField. keeps_tac. Qed.
Lemma pins_SetField o f a : keeps pins (SetField o f a).
Proof. unfold SetField. keeps_tac. Qed.
Lemma pins_new_bytes n : keeps pins (NewByteArray vm n).
Proof. unfold NewByteArray. keeps_tac. Qed.
Lemma pins_SetByteArrayRegion o n b : keeps pins (SetByteArrayRegion o n b).
Proof. unfold SetByteArrayRegion. keeps_tac. Qed.
Lemma pins_throw_if_silent r m : keeps pins (throw_if_silent vm r m).
Proof. unfold throw_if_silent. keeps_tac. Qed.
End FieldPins.
#[export] Hint Resolve pins_GetLongField pins_GetObjectField pins_SetField pins_new_bytes
  pins_SetByteArrayRegion pins_throw_if_silent : frame.

Section QueuePins.
Context `{Queues} (vm : jvm).
Hypothesis copies : vm_hands_copies vm.
Implicit Types (p : list loc).

(** The elements held after an acquisition that can fail. *)
Definition held {A} (uc : option A * bool) (o : jobject) p : list loc :=
  match uc.1 with Some _ => pinned uc.2 o p | None => p end.

Lemma triple_string_held o p :
  triple (λ w : world xst, w_pins w = p) (GetStringUTFChars vm o) (λ uc w, w_pins w = held uc o p).
Proof.
  intros w Hw. unfold GetStringUTFChars. rewrite run_bind.
  destruct o as [l|]; [|done]. cbn. destruct (w_heap w !! l) as [[]|]; try done.
  rewrite run_bind. cbn. destruct (jvm_alloc_ok vm (w_tick w)); [|done].
  rewrite run_bind. cbn. rewrite copies. simpl. by rewrite Hw.
Qed.

Lemma triple_optional_held s o p :
  triple (λ w : world xst, w_pins w = p)
    (match o with Some _ => GetStringUTFChars vm o | None => mret (Some s, false) end)
    (λ uc w, w_pins w = held uc o p).
Proof. destruct o; [apply triple_string_held|by intros w]. Qed.

Lemma triple_bytes_held o p :
  triple (λ w : world xst, w_pins w = p) (GetByteArrayElements vm o) (λ uc w, w_pins w = held uc o p).
Proof.
  intros w Hw. unfold GetByteArrayElements. rewrite run_bind.
  destruct o as [l|]; [|done]. cbn. destruct (w_heap w !! l) as [[]|]; try done.
  rewrite run_bind. cbn. destruct (jvm_alloc_ok vm (w_tick w)); [|done].
  rewrite run_bind. cbn. rewrite copies. simpl. by rewrite Hw.
Qed.

(** Acquire, fail or go on. *)
Ltac held_tac lem := eapply triple_bind; [apply lem|intros [[?|] ?]; cbv [held]; cbn [fst snd]; pins_tac].

Lemma pins_cvt_field_to_c p t o c : keeps (λ w, w_pins w = p) (cvt_field_to_c vm t o c).
Proof.
  unfold cvt_field_to_c, vsnprintf_missing_arguments. destruct (ftype t); [pins_tac|..].
  - apply keeps_bind; [eauto with frame|]. intros js. held_tac triple_optional_held.
  - apply keeps_bind; [eauto with frame|]. intros [l|]; [|pins_tac]. held_tac triple_bytes_held.
Qed.
#[local] Hint Resolve pins_cvt_field_to_c : frame.

Lemma pins_cvt_to_c p tab o c : keeps (λ w, w_pins w = p) (ndrxj_cvt_to_c vm tab o c).
Proof. revert c. induction tab; intros c; cbn [ndrxj_cvt_to_c]; pins_tac. Qed.
Lemma pins_cvt_field_to_java p t c o : keeps (λ w, w_pins w = p) (cvt_field_to_java vm t c o).
Proof.
  unfold cvt_field_to_java, SetLongField, SetObjectField, NewStringUTF, vsnprintf_missing_arguments. pins_tac.
Qed.
#[local] Hint Resolve pins_cvt_to_c pins_cvt_field_to_java : frame.
Lemma pins_cvt_to_java p tab c o : keeps (λ w, w_pins w = p) (ndrxj_cvt_to_java vm tab c o).
Proof. induction tab; cbn [ndrxj_cvt_to_java]; pins_tac. Qed.
#[local] Hint Resolve pins_cvt_to_java : frame.
Lemma pins_cvt_jstr p s n : keeps (λ w, w_pins w = p) (ndrxj_cvt_jstr_to_c vm s n).
Proof. unfold ndrxj_cvt_jstr_to_c. held_tac triple_string_held. Qed.
Lemma pins_ClientId_toc p o : keeps (λ w, w_pins w = p) (ndrxj_atmi_ClientId_translate_toc vm o).
Proof.
  unfold ndrxj_atmi_ClientId_translate_toc. apply keeps_bind; [eauto with frame|]. intros s.
  held_tac triple_string_held.
Qed.
Lemma pins_ClientId_translate p c b s : keeps (λ w, w_pins w = p) (ndrxj_atmi_ClientId_translate vm c b s).
Proof. unfold ndrxj_atmi_ClientId_translate, NewStringUTF. pins_tac. Qed.
#[local] Hint Resolve pins_cvt_jstr pins_ClientId_toc pins_ClientId_translate : frame.
Lemma pins_qctl_to_c p o q : keeps (λ w, w_pins w = p) (ndrxj_atmi_TPQCTL_translate2c vm o q).
Proof. unfold ndrxj_atmi_TPQCTL_translate2c. pins_tac. Qed.
Lemma pins_qctl_to_java p c o q : keeps (λ w, w_pins w = p) (ndrxj_atmi_TPQCTL_translate2java vm c o q).
Proof. unfold ndrxj_atmi_TPQCTL_translate2java, new_TPQCTL, SetObjectField. pins_tac. Qed.
Lemma pins_queue_names p d s i j n c : keeps (λ w, w_pins w = p) (queue_names vm d s i j n c).
Proof. unfold queue_names. pins_tac. Qed.
#[local] Hint Resolve pins_qctl_to_c pins_qctl_to_java pins_queue_names : frame.
Lemma pins_enqueue p q0 o s i j n c d f : keeps (λ w, w_pins w = p) (tpenqueue_int vm q0 o s i j n c d f).
Proof. unfold tpenqueue_int, in_ctx_out. pins_tac. Qed.
Lemma pins_dequeue p q0 o s i j n c d f : keeps (λ w, w_pins w = p) (tpdequeue_int vm q0 o s i j n c d f).
Proof. unfold tpdequeue_int, in_ctx_out. pins_tac. Qed.

(** Elements acquired on top of [p], in some order. *)
Definition held_over (a : list loc) p (w : world xst) : Prop := ∃ b, b ≡ₚ a ∧ w_pins w = b ++ p.

Lemma remove1_app (l : loc) b p :
  l ∈ b → ∃ q, remove1 l (b ++ p) = Some (q ++ p) ∧ b ≡ₚ l :: q.
Proof.
  induction b as [|x b IH]; [by rewrite elem_of_nil|]. rewrite elem_of_cons. intros Hl. simpl.
  destruct (decide (l = x)) as [->|Hne]; [by exists b|]. destruct Hl as [?|Hl]; [done|].
  destruct (IH Hl) as (q & -> & Hq). exists (x :: q). split; [done|]. rewrite Hq. apply Permutation_swap.
Qed.

Lemma triple_release_any c o a p :
  triple (held_over (pinned c o a) p) (release_if c o) (λ _, held_over a p).
Proof.
  intros w (b & Hb & Hw). unfold release_if. destruct c; [|by exists b].
  destruct o as [l|]; [|done]. cbn [pinned] in Hb.
  destruct (remove1_app l b p) as (q & Hq & Hbq); [rewrite Hb; apply elem_of_cons; by left|].
  rewrite (run_Release l (q ++ p)) by by rewrite Hw. exists q. split; [|done].
  apply (Permutation_cons_inv (a := l)). by rewrite <- Hbq.
Qed.

Lemma pins_broadcast p o l u c d f : keeps (λ w, w_pins w = p) (Java_AtmiCtx_tpbroadcast vm o l u c d f).
Proof.
  unfold Java_AtmiCtx_tpbroadcast, in_ctx, optional_string. apply keeps_bind; [eauto with frame|].
  intros ctx. destruct (ctx =? 0)%Z; [pins_tac|]. apply keeps_bind; [|intros ?; pins_tac].
  apply keeps_bind; [eauto with frame|]. intros [[ibuf ilen]|]; [|pins_tac].
  unfold keeps. do 3 pins_step. pins_step; [pins_frame|]. cbv beta. pins_step; [pins_tac|].
  apply (triple_pre _ (held_over (pinned b l (pinned b0 u (pinned b1 c []))) p)).
  { intros w Hw. exists (pinned b1 c (pinned b0 u (pinned b l []))). rewrite Hw.
    split; [|by destruct b, b0, b1, l, u, c]. destruct b, b0, b1, l, u, c; simpl; solve_Permutation. }
  do 2 (eapply triple_bind; [apply triple_release_any|intros ?; cbv beta]).
  eapply triple_post; [apply triple_release_any|]. intros _ w (q & ->%Permutation_nil_r & ->). done.
Qed.

Lemma queue_pins n p : keeps (λ w, w_pins w = p) (run_queue vm n).
Proof.
  destruct n; cbn [run_queue]; unfold ignore, Java_AtmiCtx_tpenqueue, Java_AtmiCtx_tpenqueueex,
    Java_AtmiCtx_tpdequeue, Java_AtmiCtx_tpdequeueex;
    eauto using pins_enqueue, pins_broadcast.
  1-2: apply keeps_bind; [apply pins_dequeue|eauto with frame].
  all: unfold Java_AtmiCtx_tpsuspend, Java_AtmiCtx_tpresume, Java_AtmiCtx_tpnotify,
    Java_AtmiCtx_getAtmiError, ndrxj_atmi_TPTRANID_translate2java, ndrxj_atmi_TPTRANID_translate2c,
    in_ctx, NewStringUTF, SetLongField, SetObjectField; pins_tac.
Qed.
End QueuePins.

(** ** Between calls no context is set *)

Section QueueCtx.
Context `{Queues} `{!XatmiLaws} (vm : jvm).

Lemma queue_ctx n : triple null_ctx (run_queue vm n) (λ _, null_ctx).
Proof.
  destruct n; cbn [run_queue]; unfold ignore;
    try (eapply (triple_bind _ _ (λ _, null_ctx)); [|by intros ? w]);
    unfold Java_AtmiCtx_tpenqueue, Java_AtmiCtx_tpenqueueex, Java_AtmiCtx_tpdequeue,
      Java_AtmiCtx_tpdequeueex, tpenqueue_int, tpdequeue_int, Java_AtmiCtx_tpsuspend,
      Java_AtmiCtx_tpresume, Java_AtmiCtx_tpnotify, Java_AtmiCtx_tpbroadcast,
      Java_AtmiCtx_getAtmiError, in_ctx, in_ctx_out; ctx_tac.
Qed.
End QueueCtx.

(** * The logging methods as calls, and what they leave behind *)

Inductive log_native :=
  | LN_log_exception (o msg exc : jobject) (lev facility : Z)
  | LN_tplogsetreqfile (o data filename filesvc : jobject)
  | LN_tploggetbufreqfile (o data : jobject)
  | LN_tplogdelbufreqfile (o data : jobject)
  | LN_tploggetreqfile (o : jobject)
  | LN_tplogsetreqfile_direct (o filename : jobject)
  | LN_tplogclosereqfile (o : jobject)
  | LN_tplogconfig (o : jobject) (logger lev : Z) (debug_string module new_file : jobject).

Section LogNatives.
Context `{Xatmi} (vm : jvm).

Definition run_log (n : log_native) : M xst unit :=
  match n with
  | LN_log_exception o m e l f => log_exception vm o m e l f
  | LN_tplogsetreqfile o d f s => Java_AtmiCtx_tplogsetreqfile vm o d f s
  | LN_tploggetbufreqfile o d => ignore (Java_AtmiCtx_tploggetbufreqfile vm o d)
  | LN_tplogdelbufreqfile o d => Java_AtmiCtx_tplogdelbufreqfile vm o d
  | LN_tploggetreqfile o => ignore (Java_AtmiCtx_tploggetreqfile vm o)
  | LN_tplogsetreqfile_direct o f => Java_AtmiCtx_tplogsetreqfile_direct vm o f
  | LN_tplogclosereqfile o => Java_AtmiCtx_tplogclosereqfile vm o
  | LN_tplogconfig o g l d m f => Java_AtmiCtx_tplogconfig vm o g l d m f
  end.

Section Pins.
Hypothesis copies : vm_hands_copies vm.
Implicit Types (p : list loc).

Lemma pins_nullptr_throw p m : keeps (λ w, w_pins w = p) (ndrxj_nullptr_throw vm m).
Proof. unfold ndrxj_nullptr_throw, NewStringUTF. keeps_tac. Qed.
Lemma pins_throw_with p d : keeps (λ w, w_pins w = p) (throw_with vm d).
Proof. unfold throw_with. keeps_tac. Qed.
Lemma pins_data_buffer p d : keeps (λ w, w_pins w = p) (data_buffer d).
Proof. unfold data_buffer. keeps_tac. Qed.
#[local] Hint Resolve pins_nullptr_throw pins_throw_with pins_data_buffer : frame.

Lemma pins_log_exception p o m e l f : keeps (λ w, w_pins w = p) (log_exception vm o m e l f).
Proof. unfold log_exception, NDRXJ_LOG_EXCEPTION_E. pins_tac. Qed.

Lemma pins_setreqfile p o d f s : keeps (λ w, w_pins w = p) (Java_AtmiCtx_tplogsetreqfile vm o d f s).
Proof.
  unfold Java_AtmiCtx_tplogsetreqfile, in_ctx_out, optional_string. apply keeps_bind; [eauto with frame|].
  intros ctx. apply keeps_bind; [|intros ?; keeps_tac]. destruct (ctx =? 0)%Z; [keeps_tac|].
  apply keeps_bind; [keeps_tac|]. intros [b|]; [|keeps_tac]. unfold keeps. do 2 pins_step.
  pins_step; [pins_frame|]. cbv beta. pins_step; [pins_tac|].
  apply (triple_pre _ (held_over (pinned b0 f (pinned b1 s [])) p)).
  { intros w Hw. exists (pinned b1 s (pinned b0 f [])). rewrite Hw.
    split; [|by destruct b0, b1, f, s]. destruct b0, b1, f, s; simpl; solve_Permutation. }
  eapply triple_bind; [apply triple_release_any|intros ?; cbv beta].
  eapply triple_post; [apply triple_release_any|]. intros _ w (q & ->%Permutation_nil_r & ->). done.
Qed.

Lemma pins_logconfig p o g l d m f : keeps (λ w, w_pins w = p) (Java_AtmiCtx_tplogconfig vm o g l d m f).
Proof.
  unfold Java_AtmiCtx_tplogconfig, in_ctx_out, optional_string. apply keeps_bind; [eauto with frame|].
  intros ctx. apply keeps_bind; [|intros ?; keeps_tac]. destruct (ctx =? 0)%Z; [keeps_tac|].
  unfold keeps. do 3 pins_step. pins_step; [pins_frame|]. cbv beta. pins_step; [pins_tac|].
  apply (triple_pre _ (held_over (pinned b d (pinned b0 m (pinned b1 f []))) p)).
  { intros w Hw. exists (pinned b1 f (pinned b0 m (pinned b d []))). rewrite Hw.
    split; [|by destruct b, b0, b1, d, m, f]. destruct b, b0, b1, d, m, f; simpl; solve_Permutation. }
  do 2 (eapply triple_bind; [apply triple_release_any|intros ?; cbv beta]).
  eapply triple_post; [apply triple_release_any|]. intros _ w (q & ->%Permutation_nil_r & ->). done.
Qed.

Lemma log_pins n p : keeps (λ w, w_pins w = p) (run_log n).
Proof.
  destruct n; cbn [run_log]; eauto using pins_log_exception, pins_setreqfile, pins_logconfig;
    unfold ignore, Java_AtmiCtx_tploggetbufreqfile, Java_AtmiCtx_tplogdelbufreqfile,
      Java_AtmiCtx_tploggetreqfile, Java_AtmiCtx_tplogsetreqfile_direct, Java_AtmiCtx_tplogclosereqfile,
      in_ctx_out, NewStringUTF; pins_tac.
Qed.
End Pins.

Lemma log_ctx `{!XatmiLaws} n : triple null_ctx (run_log n) (λ _, null_ctx).
Proof.
  destruct n; cbn [run_log]; unfold ignore;
    try (eapply (triple_bind _ _ (λ _, null_ctx)); [|by intros ? w]);
    unfold log_exception, Java_AtmiCtx_tplogsetreqfile, Java_AtmiCtx_tploggetbufreqfile,
      Java_AtmiCtx_tplogdelbufreqfile, Java_AtmiCtx_tploggetreqfile, Java_AtmiCtx_tplogsetreqfile_direct,
      Java_AtmiCtx_tplogclosereqfile, Java_AtmiCtx_tplogconfig, in_ctx_out; ctx_tac.
Qed.
End LogNatives.
