(* ===== verification/Natives.v ===== *)
(** * The native methods as one interface

    The entry points of the XATMI and UBF methods that Java can call, as values;
    [run_native] runs one.  Not among them are [tplogC] and its kin and [tpforward],
    which do not keep the first invariant, the contents of
    STRING, CARRAY and JSON buffers (file [Payload]) and the end of a context.
    A session is a sequence of such calls on one thread.  The invariants: nothing
    acquired stays acquired, and between two calls the thread is in the NULL
    context. *)
From stdpp Require Import sorting strings gmap list numbers.
From S2P Require Import Prelude CString Jni Xatmi Exceptions TypedBuffer Calls AtmiCtxOps Convert Queues.
From S2P Require Import Logging Ubf Frame UbfNatives QueueNatives.

Inductive native :=
  | N_tpcall (o svc idata : jobject) (flags : Z)
  | N_tpacall (o svc idata : jobject) (flags : Z)
  | N_tpgetrply (o : jobject) (cd : Z) (idata : jobject) (flags : Z)
  | N_tpconnect (o svc idata : jobject) (flags : Z)
  | N_tprecv (o : jobject) (cd : Z) (idata : jobject) (flags : Z)
  | N_tpsend (o : jobject) (cd : Z) (idata : jobject) (flags : Z)
  | N_tpdiscon (err0 : Z) (o : jobject) (cd : Z)
  | N_tpalloc (o btype bsubtype : jobject) (size : Z)
  | N_tpreturn (o : jobject) (rval rcode : Z) (data : jobject) (flags : Z)
  | N_tprealloc (data : jobject) (size : Z)
  | N_tptypes (data : jobject)
  | N_tpfree (cPtr : Z)
  | N_tpnewctxt
  | N_tpinit (o : jobject)
  | N_tpterm (o : jobject)
  | N_tpopen (o : jobject)
  | N_tpclose (o : jobject)
  | N_tpbegin (o : jobject) (timeout flags : Z)
  | N_tpcommit (o : jobject) (flags : Z)
  | N_tpabort (o : jobject) (flags : Z)
  | N_tpgetlev (o : jobject)
  | N_tpsrvgetctxdata (o : jobject)
  | N_tpsrvsetctxdata (o : jobject) (dataptr flags : Z)
  | N_tpsrvfreectxdata (o : jobject) (dataptr : Z)
  | N_tpcontinue (o : jobject)
  | N_tptoutget (o : jobject)
  | N_tptoutset (o : jobject) (tout : Z)
  | N_tpurcode (o : jobject)
  | N_tpcancel (o : jobject) (cd : Z)
  | N_getBuffers (o : jobject)
  | N_Btype (o : jobject) (bfldid : Z)
  | N_Bfname (o : jobject) (bfldid : Z)
  | N_Bfldid (o fldnm : jobject)
  | N_tplogqinfo (o : jobject) (lev flags : Z)
  | N_userlogC (o msg : jobject)
  | N_ubf (u : ubf_native)
  | N_queue (q : queue_native)
  | N_log (l : log_native).

Section Natives.
Context `{Ubf} `{QueueTypes} `{!Queues} (vm : jvm).

Definition run_native (n : native) : M xst unit :=
  match n with
  | N_tpcall o svc idata flags => ignore (Java_AtmiCtx_tpcall vm o svc idata flags)
  | N_tpacall o svc idata flags => ignore (Java_AtmiCtx_tpacall vm o svc idata flags)
  | N_tpgetrply o cd idata flags => ignore (Java_AtmiCtx_tpgetrply vm o cd idata flags)
  | N_tpconnect o svc idata flags => ignore (Java_AtmiCtx_tpconnect vm o svc idata flags)
  | N_tprecv o cd idata flags => ignore (Java_AtmiCtx_tprecv vm o cd idata flags)
  | N_tpsend o cd idata flags => ignore (Java_AtmiCtx_tpsend vm o cd idata flags)
  | N_tpdiscon err0 o cd => ignore (Java_AtmiCtx_tpdiscon vm err0 o cd)
  | N_tpalloc o btype bsubtype size => ignore (Java_AtmiCtx_tpalloc vm o btype bsubtype size)
  | N_tpreturn o rval rcode data flags => ignore (Java_AtmiCtx_tpreturn vm o rval rcode data flags)
  | N_tprealloc data size => ignore (Java_TypedBuffer_tprealloc vm data size)
  | N_tptypes data => ignore (Java_TypedBuffer_tptypes vm data)
  | N_tpfree cPtr => ignore (Java_TypedBuffer_tpfree cPtr)
  | N_tpnewctxt => ignore (Java_AtmiCtx_tpnewctxt vm)
  | N_tpinit o => ignore (Java_AtmiCtx_tpinit vm o)
  | N_tpterm o => ignore (Java_AtmiCtx_tpterm vm o)
  | N_tpopen o => ignore (Java_AtmiCtx_tpopen vm o)
  | N_tpclose o => ignore (Java_AtmiCtx_tpclose vm o)
  | N_tpbegin o timeout flags => ignore (Java_AtmiCtx_tpbegin vm o timeout flags)
  | N_tpcommit o flags => ignore (Java_AtmiCtx_tpcommit vm o flags)
  | N_tpabort o flags => ignore (Java_AtmiCtx_tpabort vm o flags)
  | N_tpgetlev o => ignore (Java_AtmiCtx_tpgetlev vm o)
  | N_tpsrvgetctxdata o => ignore (Java_AtmiCtx_tpsrvgetctxdata vm o)
  | N_tpsrvsetctxdata o dataptr flags => ignore (Java_AtmiCtx_tpsrvsetctxdata vm o dataptr flags)
  | N_tpsrvfreectxdata o dataptr => ignore (Java_AtmiCtx_tpsrvfreectxdata vm o dataptr)
  | N_tpcontinue o => ignore (Java_AtmiCtx_tpcontinue vm o)
  | N_tptoutget o => ignore (Java_AtmiCtx_tptoutget vm o)
  | N_tptoutset o tout => ignore (Java_AtmiCtx_tptoutset vm o tout)
  | N_tpurcode o => ignore (Java_AtmiCtx_tpurcode vm o)
  | N_tpcancel o cd => ignore (Java_AtmiCtx_tpcancel vm o cd)
  | N_getBuffers o => ignore (Java_AtmiCtx_getBuffers vm o)
  | N_Btype o bfldid => ignore (Java_AtmiCtx_Btype vm o bfldid)
  | N_Bfname o bfldid => ignore (Java_AtmiCtx_Bfname vm o bfldid)
  | N_Bfldid o fldnm => ignore (Java_AtmiCtx_Bfldid vm o fldnm)
  | N_tplogqinfo o lev flags => ignore (Java_AtmiCtx_tplogqinfo vm o lev flags)
  | N_userlogC o msg => ignore (Java_AtmiCtx_userlogC vm o msg)
  | N_ubf u => run_ubf vm u
  | N_queue q => run_queue vm q
  | N_log l => run_log vm l
  end.

(** Calls one after the other; Java may clear the exception in between. *)
Inductive session : world xst → world xst → Prop :=
  | session_nil w : session w w
  | session_call w n w1 w2 : run_native n w = Ok tt w1 → session w1 w2 → session w w2
  | session_handled w w2 : session (with_exc None w) w2 → session w w2.

(** ** Nothing stays acquired *)

Hypothesis copies : vm_hands_copies vm.

Lemma pins_ignore {A} p (m : M xst A) :
  keeps (λ w, w_pins w = p) m → keeps (λ w, w_pins w = p) (ignore m).
Proof. intros Hm. unfold ignore. pins_tac. Qed.

Lemma native_pins n p : keeps (λ w, w_pins w = p) (run_native n).
Proof.
  destruct n; cbn [run_native]; try (by apply ubf_pins); try (by apply queue_pins); try (by apply log_pins); apply pins_ignore;
    unfold Java_AtmiCtx_tpcall, Java_AtmiCtx_tpacall, Java_AtmiCtx_tpgetrply, Java_AtmiCtx_tpconnect,
      call_for_cd, Java_AtmiCtx_tprecv, Java_AtmiCtx_tpsend, Java_AtmiCtx_tpdiscon,
      Java_AtmiCtx_tpalloc, Java_AtmiCtx_tpreturn, Java_TypedBuffer_tprealloc, Java_TypedBuffer_tptypes,
      Java_TypedBuffer_tpfree, Java_AtmiCtx_tpnewctxt, Java_AtmiCtx_getBuffers,
      Java_AtmiCtx_Btype, Java_AtmiCtx_Bfname, Java_AtmiCtx_Bfldid, Java_AtmiCtx_tplogqinfo,
      Java_AtmiCtx_userlogC, ndrxj_TpgetrplyResult_new, ndrxj_TprecvResult_new,
      ndrxj_TpTypesResult_new, NewStringUTF, ndrxj_atmi_TypedBuffer_set_buffer,
      name_of, throw_Berror, in_ctx_out;
    try (unfold Java_AtmiCtx_tpinit, Java_AtmiCtx_tpterm, Java_AtmiCtx_tpopen, Java_AtmiCtx_tpclose,
      Java_AtmiCtx_tpbegin, Java_AtmiCtx_tpcommit, Java_AtmiCtx_tpabort, Java_AtmiCtx_tpgetlev,
      Java_AtmiCtx_tpsrvgetctxdata, Java_AtmiCtx_tpsrvsetctxdata, Java_AtmiCtx_tpsrvfreectxdata,
      Java_AtmiCtx_tpcontinue, Java_AtmiCtx_tptoutget, Java_AtmiCtx_tptoutset, Java_AtmiCtx_tpurcode,
      Java_AtmiCtx_tpcancel, in_ctx, in_ctx_out);
    pins_tac.
Qed.

(** ** Between calls no context is set *)

Context `{!XatmiLaws}.

Lemma ctx_tpalloc o t u n : triple null_ctx (Java_AtmiCtx_tpalloc vm o t u n) (λ _, null_ctx).
Proof.
  unfold Java_AtmiCtx_tpalloc. eapply (triple_bind _ _ (λ _, null_ctx)).
  { destruct u; ctx_tac. }
  intros [nu cu]. eapply (triple_bind _ _ (λ _, null_ctx)); [|intros ?; ctx_tac].
  destruct t; [|ctx_tac]. eapply (triple_bind _ _ (λ _, null_ctx)); [ctx_tac|].
  intros [nt ct]. eapply triple_bind; [apply triple_any|intros ?; ctx_tac].
Qed.

Lemma ctx_tpfree c : triple null_ctx (Java_TypedBuffer_tpfree c) (λ _, null_ctx).
Proof.
  unfold Java_TypedBuffer_tpfree. do 2 (eapply triple_bind; [apply triple_any|intros ?]).
  eapply triple_bind; [apply triple_unset|]. intros ? w Hw. by apply keep_ctx_free.
Qed.

Lemma ctx_tpnewctxt : triple null_ctx (Java_AtmiCtx_tpnewctxt vm) (λ _, null_ctx).
Proof.
  unfold Java_AtmiCtx_tpnewctxt.
  eapply (triple_bind _ _ (λ c w, c = 0%Z → null_ctx w)).
  { intros w Hw. unfold xcall. destruct (tpnewctxt (w_x w)) as [c x'] eqn:E. simpl. intros ->.
    pose proof (keep_ctx_new (w_x w)) as Hk. rewrite E in Hk. unfold null_ctx. simpl in *.
    by rewrite Hk. }
  intros c. eapply (triple_bind _ _ (λ _, null_ctx)); [ctx_tac|intros ?; ctx_tac].
Qed.

Lemma ctx_Bfldid o f : triple null_ctx (Java_AtmiCtx_Bfldid vm o f) (λ _, null_ctx).
Proof. apply triple_out. Qed.

Lemma native_ctx n : triple null_ctx (run_native n) (λ _, null_ctx).
Proof.
  destruct n; cbn [run_native]; try (by apply ubf_ctx); try (by apply queue_ctx); try (by apply log_ctx); unfold ignore;
    eapply (triple_bind _ _ (λ _, null_ctx)); try (intros ?; by apply triple_ret);
    unfold Java_AtmiCtx_tpcall, Java_AtmiCtx_tpacall, Java_AtmiCtx_tpgetrply, Java_AtmiCtx_tpconnect,
      call_for_cd, Java_AtmiCtx_tprecv, Java_AtmiCtx_tpsend, Java_AtmiCtx_tpdiscon,
      Java_AtmiCtx_tpreturn, Java_TypedBuffer_tprealloc, Java_TypedBuffer_tptypes,
      Java_AtmiCtx_getBuffers, Java_AtmiCtx_Btype, Java_AtmiCtx_Bfname,
      Java_AtmiCtx_tplogqinfo, Java_AtmiCtx_userlogC, Java_AtmiCtx_tpinit, Java_AtmiCtx_tpterm,
      Java_AtmiCtx_tpopen, Java_AtmiCtx_tpclose,
      Java_AtmiCtx_tpbegin, Java_AtmiCtx_tpcommit, Java_AtmiCtx_tpabort, Java_AtmiCtx_tpgetlev,
      Java_AtmiCtx_tpsrvgetctxdata, Java_AtmiCtx_tpsrvsetctxdata, Java_AtmiCtx_tpsrvfreectxdata,
      Java_AtmiCtx_tpcontinue, Java_AtmiCtx_tptoutget, Java_AtmiCtx_tptoutset, Java_AtmiCtx_tpurcode,
      Java_AtmiCtx_tpcancel, in_ctx, in_ctx_out;
    eauto using ctx_tpalloc, ctx_tpfree, ctx_tpnewctxt, ctx_Bfldid; ctx_tac.
Qed.

(** A session keeps both. *)
Lemma session_keeps w w' :
  null_ctx w → session w w' → w_pins w' = w_pins w ∧ null_ctx w'.
Proof.
  intros Hn Hs. induction Hs as [w|w n w1 w2 Hr Hs IH|w w2 Hs IH]; [done| |].
  - pose proof (native_pins n (w_pins w) w eq_refl) as Hp.
    pose proof (native_ctx n w Hn) as Hx. rewrite Hr in Hp, Hx.
    destruct (IH Hx) as [-> ?]. done.
  - apply IH. done.
Qed.

Lemma session_pins w w' : session w w' → w_pins w' = w_pins w.
Proof.
  intros Hs. induction Hs as [w|w n w1 w2 Hr Hs IH|w w2 Hs IH]; [done| |by rewrite IH].
  pose proof (native_pins n (w_pins w) w eq_refl) as Hp. rewrite Hr in Hp. congruence.
Qed.
End Natives.
