(* ===== verification/Owners.v ===== *)
(** * Who frees an XATMI buffer

    A buffer is freed by the finalizer of the object whose [doFinalize] is set.  The
    invariant: every buffer such an object points to is allocated, and no two of them
    share a buffer, so no finalizer frees memory twice.  [XatmiBuffers] names what
    the library documents about the buffers its functions return. *)
From stdpp Require Import sorting strings gmap list numbers.
From S2P Require Import Prelude CString Jni Xatmi Exceptions TypedBuffer Calls AtmiCtxOps Frame.
From S2P Require Import Convert Queues.

(** The allocated buffers and how the calls change them: a call given an allocated
    buffer or NULL may free or move that buffer, never another one; the buffer it returns is allocated and is
    nobody else's; a call that brings no data back leaves its argument in place. *)
Definition call_moves (L L' : gset Z) (b b' : Z) : Prop :=
  b ∈ L ∨ b = 0%Z → L ∖ {[b]} ⊆ L' ∧ b' ∉ L ∖ {[b]} ∧ (b' ∈ L' ∨ b' = 0%Z).

Class XatmiBuffers `{Xatmi} := {
  live : xst → gset Z;
  live_set c x : live (tpsetctxt c x) = live x;
  live_priv p x : live (ndrx_ctx_priv_put p x) = live x;
  live_types b x : live (tptypes b x).2 = live x;
  types_live b x : b ∈ live x → (tptypes b x).1.1.1 ≠ EXFAIL;
  live_alloc t s n x b x' :
    tpalloc t s n x = (b, x') → live x ⊆ live x' ∧ (b ≠ 0%Z → b ∉ live x ∧ b ∈ live x');
  live_realloc b n x b' x' :
    tprealloc b n x = (b', x') →
    if decide (b' = 0%Z) then live x' = live x
    else call_moves (live x) (live x') b b';
  live_call s b n f x r b' n' x' :
    tpcall s b n f x = ((r, b', n'), x') →
    call_moves (live x) (live x') b b' ∧ (r ≠ EXSUCCEED → tperrno x' ≠ TPESVCFAIL → b' = b);
  live_getrply c b n f x r c' b' n' x' :
    tpgetrply c b n f x = ((r, c', b', n'), x') →
    call_moves (live x) (live x') b b' ∧ (r ≠ EXSUCCEED → tperrno x' ≠ TPESVCFAIL → b' = b) ∧
    (r = EXSUCCEED → c' = 0%Z → b' = b);
  live_recv c b n f x r b' n' e x' :
    tprecv c b n f x = ((r, b', n', e), x') →
    call_moves (live x) (live x') b b' ∧ (r ≠ EXSUCCEED → tperrno x' ≠ TPEEVENT → b' = b);
  live_newctxt x : live (tpnewctxt x).2 = live x;
  live_freectxt c x : live (tpfreectxt c x) = live x;
  live_free b x : live (tpfree b x) = live x ∖ {[b]};
  live_return rv rc b n f x : live x ∖ {[b]} ⊆ live (x_run (Run_tpreturn rv rc b n f) x);
  live_forward s b n f x : live x ∖ {[b]} ⊆ live (x_run (Run_tpforward s b n f) x)
}.

(** ** The buffers of the Java heap *)

Definition as_tb (v : jval) : option typed_buffer :=
  match v with JTypedBuffer t => Some t | _ => None end.

Definition tbs {X} (w : world X) : gmap loc typed_buffer := omap as_tb (w_heap w).

(** Nothing is stored at or above the next location. *)
Definition heap_fresh {X} (w : world X) : Prop := ∀ l : loc, (w_next w ≤ l)%positive → w_heap w !! l = None.

Definition owner (t : typed_buffer) : Prop := tb_doFinalize t = true ∧ tb_cPtr t ≠ 0%Z.

Definition single_owner (m : gmap loc typed_buffer) (L : gset Z) : Prop :=
  ∀ l t, m !! l = Some t → owner t →
    tb_cPtr t ∈ L ∧
    ∀ l' t', m !! l' = Some t' → owner t' → tb_cPtr t' = tb_cPtr t → l' = l.

Definition buffers_ok `{XatmiBuffers} (w : world xst) : Prop :=
  heap_fresh w ∧ single_owner (tbs w) (live (w_x w)).

(** All objects but [o]. *)
Definition others (o : jobject) (m : gmap loc typed_buffer) : gmap loc typed_buffer :=
  match o with Some l => delete l m | None => m end.

Section SingleOwner.
Implicit Types (m : gmap loc typed_buffer) (L : gset Z).

Lemma single_owner_mono m L L' : L ⊆ L' → single_owner m L → single_owner m L'.
Proof. intros HL Hm l t Hl Ht. destruct (Hm l t Hl Ht). split; [set_solver|done]. Qed.

Lemma single_owner_delete m L l : single_owner m L → single_owner (delete l m) L.
Proof.
  intros Hm l1 t Hl Ht. apply lookup_delete_Some in Hl as [Hne Hl].
  destruct (Hm l1 t Hl Ht) as [HL Hu]. split; [done|].
  intros l' t' Hl'. apply lookup_delete_Some in Hl' as [? Hl']. by apply Hu.
Qed.

(** The buffer of an owner is nobody else's. *)
Lemma single_owner_except m L l t :
  single_owner m L → m !! l = Some t → owner t → single_owner (delete l m) (L ∖ {[tb_cPtr t]}).
Proof.
  intros Hm Hl Ht l1 t1 H1 Ho1. apply lookup_delete_Some in H1 as [Hne H1].
  destruct (Hm l1 t1 H1 Ho1) as [HL Hu]. split.
  - apply elem_of_difference. split; [done|]. rewrite elem_of_singleton. intros Heq.
    apply Hne. apply (Hu l t); auto.
  - intros l' t' Hl'. apply lookup_delete_Some in Hl' as [? Hl']. by apply Hu.
Qed.

Lemma single_owner_drop m L l t :
  single_owner (delete l m) L → ¬ owner t → single_owner (<[l := t]> m) L.
Proof.
  intros Hm Ht l1 t1 H1 Ho1.
  apply lookup_insert_Some in H1 as [[<- <-]|[Hne H1]]; [done|].
  destruct (Hm l1 t1) as [HL Hu]; [by rewrite lookup_delete_ne|done|]. split; [done|].
  intros l' t' Hl' Ho' Heq. apply lookup_insert_Some in Hl' as [[<- <-]|[Hne' Hl']]; [done|].
  apply (Hu l' t'); [by rewrite lookup_delete_ne|done|done].
Qed.

(** Give a buffer nobody owns to one object. *)
Lemma single_owner_insert m L L' l t :
  single_owner (delete l m) L' → L' ⊆ L → (tb_cPtr t ≠ 0%Z → tb_cPtr t ∈ L ∧ tb_cPtr t ∉ L') →
  single_owner (<[l := t]> m) L.
Proof.
  intros Hm HL Ht.
  destruct (decide (tb_doFinalize t = true ∧ tb_cPtr t ≠ 0%Z)) as [Ho|Ho].
  2: { apply single_owner_drop; [by eapply single_owner_mono|done]. }
  destruct (Ht (proj2 Ho)) as [HtL HtL']. intros l1 t1 H1 Ho1.
  apply lookup_insert_Some in H1 as [[<- <-]|[Hne H1]].
  - split; [done|]. intros l' t' Hl' Ho' Heq.
    apply lookup_insert_Some in Hl' as [[<- <-]|[Hne' Hl']]; [done|].
    destruct (Hm l' t') as [HL' _]; [by rewrite lookup_delete_ne|done|]. by rewrite Heq in HL'.
  - destruct (Hm l1 t1) as [HL1 Hu]; [by rewrite lookup_delete_ne|done|]. split; [set_solver|].
    intros l' t' Hl' Ho' Heq. apply lookup_insert_Some in Hl' as [[<- <-]|[Hne' Hl']].
    + by rewrite <- Heq in HL1.
    + apply (Hu l' t'); [by rewrite lookup_delete_ne|done|done].
Qed.
End SingleOwner.

(** ** Steps that touch no buffer object and not the library *)

Definition quiet {X A} (m : M X A) : Prop :=
  ∀ w, heap_fresh w →
    match m w with
    | Ok _ w' => heap_fresh w' ∧ tbs w' = tbs w ∧ w_x w' = w_x w
    | Crash _ => True
    end.

Lemma tbs_new {X} (w : world X) v :
  heap_fresh w → as_tb v = None → omap as_tb (<[w_next w := v]> (w_heap w)) = tbs w.
Proof.
  intros Hf Hv. unfold tbs. rewrite omap_insert_None by done. apply delete_id.
  rewrite lookup_omap. by rewrite (Hf _ (Pos.le_refl _)).
Qed.

Lemma fresh_new {X} (w : world X) v (l : loc) :
  heap_fresh w → (Pos.succ (w_next w) ≤ l)%positive → <[w_next w := v]> (w_heap w) !! l = None.
Proof. intros Hf Hl. rewrite lookup_insert_ne by lia. apply Hf. lia. Qed.

Section Quiet.
Context {X : Type}.
Implicit Types (w : world X).

Lemma quiet_ret {A} (a : A) : quiet (mret a : M X A).
Proof. done. Qed.
Lemma quiet_crash {A} s : quiet (crash s : M X A).
Proof. done. Qed.
Lemma quiet_mget : quiet (mget : M X _).
Proof. done. Qed.
Lemma quiet_ask f : quiet (ask f : M X _).
Proof. done. Qed.
Lemma quiet_mmod (f : world X → world X) :
  (∀ w, w_heap (f w) = w_heap w ∧ w_next (f w) = w_next w ∧ w_x (f w) = w_x w) → quiet (mmod f).
Proof.
  intros Hf w Hw. destruct (Hf w) as (Hh & Hn & Hx). simpl. unfold heap_fresh, tbs.
  by rewrite Hh, Hn, Hx.
Qed.
Lemma quiet_store_new v : as_tb v = None → quiet (store_new v : M X _).
Proof.
  intros Hv w Hw. split; [intros l; by apply fresh_new|]. split; [by apply tbs_new|done].
Qed.
Lemma quiet_throw_vm c : quiet (throw_vm c : M X _).
Proof.
  intros w Hw. split; [intros l; by apply fresh_new|]. split; [by apply tbs_new|done].
Qed.
Lemma quiet_deref o : quiet (deref o : M X _).
Proof. intros w. unfold deref. destruct o as [l|]; [|done]. by destruct (w_heap w !! l). Qed.
Lemma quiet_unpin l : quiet (unpin l : M X _).
Proof. intros w. unfold unpin. by destruct (remove1 l (w_pins w)). Qed.
Lemma quiet_DeleteWeak o : quiet (DeleteWeakGlobalRef o : M X _).
Proof. intros w. unfold DeleteWeakGlobalRef. destruct o as [l|]; [|done].
  by destruct (remove1 l (w_weak w)). Qed.
Lemma quiet_bind {A B} (m : M X A) (k : A → M X B) :
  quiet m → (∀ a, quiet (k a)) → quiet (m ≫= k).
Proof.
  intros Hm Hk w Hw. rewrite run_bind. specialize (Hm w Hw). destruct (m w) as [a w'|]; [|done].
  destruct Hm as (Hf & Ht & Hx). specialize (Hk a w' Hf). destruct (k a w'); [|done].
  destruct Hk as (? & -> & ->). auto.
Qed.
End Quiet.

Create HintDb quiet.
#[export] Hint Resolve quiet_ret quiet_crash quiet_mget quiet_ask quiet_throw_vm quiet_deref
  quiet_unpin quiet_DeleteWeak : quiet.
#[export] Hint Extern 1 (quiet (mmod _)) => apply quiet_mmod; by intros : quiet.
#[export] Hint Extern 1 (quiet (store_new _)) => apply quiet_store_new; reflexivity : quiet.
Ltac quiet_tac :=
  repeat (solve [eauto with quiet] ||
          match goal with
          | |- quiet (_ ≫= _) => apply quiet_bind; [|intros ?]
          | |- quiet (match ?x with _ => _ end) => destruct x
          end).

Section QuietMethods.
Context `{Xatmi} (vm : jvm).

Lemma quiet_xget {A} (f : xst → A) : quiet (xget f).
Proof. done. Qed.
#[local] Hint Resolve quiet_xget : quiet.
Lemma quiet_GetStringUTFChars o : quiet (GetStringUTFChars vm o : M xst _).
Proof. unfold GetStringUTFChars, pin. quiet_tac. Qed.
Lemma quiet_release_if c o : quiet (release_if c o).
Proof. unfold release_if, Release. quiet_tac. Qed.
Lemma quiet_ExceptionCheck : quiet (ExceptionCheck : M xst _).
Proof. unfold ExceptionCheck. quiet_tac. Qed.
#[local] Hint Resolve quiet_ExceptionCheck : quiet.
Lemma quiet_LOG_EXCEPTION : quiet NDRXJ_LOG_EXCEPTION.
Proof. unfold NDRXJ_LOG_EXCEPTION. quiet_tac. Qed.
Lemma quiet_caches_add c : quiet (ndrxj_caches_add vm c).
Proof. unfold ndrxj_caches_add. quiet_tac. Qed.
Lemma quiet_set_throwable l f : quiet (set_throwable l f).
Proof.
  intros w Hw. unfold set_throwable. rewrite run_bind. unfold deref.
  destruct (w_heap w !! l) as [[]|] eqn:E; try done. destruct (f data qctl) as [d q]. simpl.
  unfold heap_fresh, tbs, set_obj. simpl. split_and!; [..|done].
  - intros l' Hl. rewrite lookup_insert_ne; [by apply Hw|]. intros ->.
    by rewrite (Hw _ Hl) in E.
  - rewrite omap_insert_None by done. apply delete_id. by rewrite lookup_omap, E.
Qed.
#[local] Hint Resolve quiet_LOG_EXCEPTION quiet_caches_add quiet_set_throwable : quiet.
Lemma quiet_atmi_throw d a e m : quiet (ndrxj_atmi_throw vm d a e m).
Proof.
  unfold ndrxj_atmi_throw, exception_class, get_member, NewStringUTF, jni_new, ndrxj_caches_get, FindClass, Throw. quiet_tac.
Qed.
Lemma quiet_get_tb o : quiet (get_tb o).
Proof. unfold get_tb. quiet_tac. Qed.
#[local] Hint Resolve quiet_get_tb : quiet.
Lemma quiet_get_buffer o n : quiet (ndrxj_atmi_TypedBuffer_get_buffer o n false false).
Proof. unfold ndrxj_atmi_TypedBuffer_get_buffer. quiet_tac. Qed.
Lemma quiet_new_weak o : quiet (NewWeakGlobalRef vm o : M xst _).
Proof. unfold NewWeakGlobalRef. quiet_tac. Qed.
End QuietMethods.
#[export] Hint Resolve quiet_xget quiet_GetStringUTFChars quiet_release_if quiet_LOG_EXCEPTION
  quiet_atmi_throw quiet_get_tb quiet_get_buffer quiet_new_weak quiet_ExceptionCheck : quiet.

(** ** The buffer objects through the methods *)

Section Buffers.
Context `{XatmiBuffers} (vm : jvm).
Implicit Types (m : gmap loc typed_buffer) (L : gset Z).

Definition buffers_at m L (w : world xst) : Prop :=
  heap_fresh w ∧ tbs w = m ∧ live (w_x w) = L.

(** [o] is NULL or an object that points to [b]. *)
Definition points_to (o : jobject) (b : Z) m : Prop :=
  match o with Some l => ∃ t, m !! l = Some t ∧ tb_cPtr t = b | None => b = 0%Z end.

(** No other object owns the buffer of [o]. *)
Definition unshared (o : jobject) m : Prop :=
  ∀ l t l' t', o = Some l → m !! l = Some t → m !! l' = Some t' → l' ≠ l → owner t' →
    tb_cPtr t' ≠ tb_cPtr t.

(** [o] may be passed to a call: its buffer is allocated and not another owner's. *)
Definition usable (o : jobject) m L : Prop :=
  unshared o m ∧ ∀ b, points_to o b m → b ∈ L ∨ b = 0%Z.

Lemma tbs_lookup (w : world xst) l t : tbs w !! l = Some t ↔ w_heap w !! l = Some (JTypedBuffer t).
Proof.
  unfold tbs. rewrite lookup_omap. destruct (w_heap w !! l) as [[]|]; simpl; naive_solver.
Qed.

Lemma buffers_at_ok m L w : single_owner m L → buffers_at m L w → buffers_ok w.
Proof. intros Hm (Hf & <- & <-). by split. Qed.

Lemma quiet_at {A} (c : M xst A) m L : quiet c → keeps (buffers_at m L) c.
Proof.
  intros Hc w (Hf & Ht & Hx). specialize (Hc w Hf). destruct (c w); [|done].
  destruct Hc as (? & ? & ?). unfold buffers_at. split_and!; [done|congruence..].
Qed.

Lemma at_xmod f m L : (∀ x, live (f x) = live x) → keeps (buffers_at m L) (xmod f).
Proof. intros Hf w (? & ? & ?). split_and!; [done..|]. simpl. congruence. Qed.

Lemma at_unset m L : keeps (buffers_at m L) unset_ctx.
Proof. apply at_xmod, live_set. Qed.

Lemma at_get_ctx o b m L : keeps (buffers_at m L) (ndrxj_get_ctx vm o b).
Proof.
  unfold ndrxj_get_ctx, refresh_priv.
  repeat (solve [apply quiet_at; quiet_tac] || solve [apply at_xmod, live_set] ||
          solve [apply at_xmod, live_priv] || keeps_step).
Qed.

Lemma at_types b m L :
  triple (buffers_at m L) (xcall (tptypes b)) (λ r w, buffers_at m L w ∧ (b ∈ L → r.1.1 ≠ EXFAIL)).
Proof.
  intros w (? & ? & <-). unfold xcall. pose proof (live_types b (w_x w)) as Hl.
  pose proof (types_live b (w_x w)) as Hr. destruct (tptypes b (w_x w)) as [r x']. simpl in *.
  by repeat split.
Qed.

Lemma at_upd_tb l f m L t :
  m !! l = Some t →
  triple (buffers_at m L) (upd_tb (Some l) f) (λ _, buffers_at (<[l := f t]> m) L).
Proof.
  intros Hl w (Hf & <- & Hx). apply tbs_lookup in Hl as Hl'.
  unfold upd_tb, get_tb. rewrite !run_bind, (run_deref _ _ _ Hl'). cbn.
  unfold buffers_at, heap_fresh, tbs, set_obj. simpl. split_and!; [..|done].
  - intros l' Hle. rewrite lookup_insert_ne; [by apply Hf|]. intros ->. by rewrite (Hf _ Hle) in Hl'.
  - by rewrite (omap_insert_Some _ _ _ _ (f t)).
Qed.

(** Any state the objects may be in, as long as owners are single. *)
Lemma ok_quiet {A} (c : M xst A) : quiet c → keeps buffers_ok c.
Proof.
  intros Hc w (Hf & Hs). specialize (Hc w Hf). destruct (c w); [|done].
  destruct Hc as (? & Ht & Hx). unfold buffers_ok. by rewrite Ht, Hx.
Qed.

Lemma ok_new_tb t L' m L :
  single_owner m L' → L' ⊆ L → (tb_cPtr t ≠ 0%Z → tb_cPtr t ∈ L ∧ tb_cPtr t ∉ L') →
  triple (buffers_at m L) (jni_new vm (JTypedBuffer t)) (λ _, buffers_ok).
Proof.
  intros Hm HL Ht. unfold jni_new. eapply triple_bind; [apply quiet_at, quiet_ask|]. intros [].
  - intros w (Hf & <- & <-). unfold store_new, new_obj. unfold buffers_ok, tbs. simpl. split.
    + intros l. by apply fresh_new.
    + rewrite (omap_insert_Some _ _ _ _ t) by done. eapply single_owner_insert; eauto.
      by apply single_owner_delete.
  - apply (triple_pre _ buffers_ok); [intros w; apply buffers_at_ok; by eapply single_owner_mono|].
    apply ok_quiet. quiet_tac.
Qed.
End Buffers.

Section Methods.
Context `{XatmiBuffers} (vm : jvm).
Implicit Types (m : gmap loc typed_buffer) (L : gset Z).

(** Only [o] may point to [b], which is allocated; the rest owns within [L']. *)
Record received (o : jobject) (b : Z) m L L' : Prop := {
  rcv_others : single_owner (others o m) L';
  rcv_sub : L' ⊆ L;
  rcv_live : b ≠ 0%Z → b ∈ L ∧ b ∉ L'
}.

Lemma single_owner_nonzero m L : single_owner m L → single_owner m (L ∖ {[0%Z]}).
Proof.
  intros Hm l t Hl Ht. destruct (Hm l t Hl Ht) as [HL Hu]. split; [|done].
  destruct Ht. set_solver.
Qed.

Lemma single_owner_unshared o b m L :
  single_owner m L → points_to o b m → unshared o m → single_owner (others o m) (L ∖ {[b]}).
Proof.
  intros Hm Hp Hu. destruct o as [l|]; simpl in *; [|subst; by apply single_owner_nonzero].
  destruct Hp as (t & Hl & <-). intros l1 t1 H1 Ho1.
  apply lookup_delete_Some in H1 as [Hne H1]. destruct (Hm l1 t1 H1 Ho1) as [HL Hs]. split.
  - apply elem_of_difference. split; [done|]. rewrite elem_of_singleton.
    eapply Hu; eauto.
  - intros l' t' Hl'. apply lookup_delete_Some in Hl' as [? Hl']. by apply Hs.
Qed.

Lemma call_received o b b' m L L2 :
  single_owner m L → points_to o b m → usable o m L → call_moves L L2 b b' →
  received o b' m L2 (L ∖ {[b]}).
Proof.
  intros Hm Hp [Hu Hv] Hmv. destruct (Hmv (Hv b Hp)) as (Hsub & Hnew & Hlive). constructor; [by apply single_owner_unshared|done|].
  intros Hb. destruct Hlive; [done|congruence].
Qed.

(** The object ends up with the buffer received. *)
Lemma received_insert l t b m L L' :
  received (Some l) b m L L' → tb_cPtr t = b → single_owner (<[l := t]> m) L.
Proof. intros [Ho Hs Hl] <-. by eapply single_owner_insert. Qed.

Lemma received_same o b m L L' : points_to o b m → received o b m L L' → single_owner m L.
Proof.
  intros Hp Hr. destruct o as [l|].
  - destruct Hp as (t & Hl & Ht). rewrite <- (insert_id m l t) by done.
    by eapply received_insert.
  - destruct Hr. by eapply single_owner_mono.
Qed.

Lemma ok_reuse data ib il b ol m L L' :
  points_to data ib m → received data b m L L' →
  triple (buffers_at m L) (reuse_object data ib il b ol) (λ _, buffers_ok).
Proof.
  intros Hp Hr. unfold reuse_object. destruct data as [l|].
  - destruct Hp as (t & Hl & Ht).
    eapply (triple_bind _ _ (λ _ w, ∃ t', tb_cPtr t' = ib ∧ buffers_at (<[l := t']> m) L w)).
    { destruct (il =? ol)%Z.
      - intros w Hw. exists t. by rewrite (insert_id m l t).
      - intros w Hw. pose proof (at_upd_tb l (set_len ol) m L t Hl w Hw) as Hu.
        destruct (upd_tb (Some l) (set_len ol) w); [|done]. by exists (set_len ol t). }
    intros ? w (t' & Ht' & Hw). revert w Hw.
    change (triple (buffers_at (<[l := t']> m) L) ((if bool_decide (ib ≠ b ∧ Some l ≠ None)
      then upd_tb (Some l) (set_cPtr b) else mret tt) ≫= (λ _, mret (Some l))) (λ _, buffers_ok)).
    case_bool_decide as Hb.
    + eapply triple_bind; [eapply at_upd_tb, lookup_insert_eq|].
      intros ?. apply triple_ret. intros w. rewrite insert_insert_eq. apply buffers_at_ok.
      by eapply received_insert.
    + eapply (triple_bind _ _ (λ _, buffers_at (<[l := t']> m) L)); [by apply triple_ret|].
      intros ?. apply triple_ret. intros w. apply buffers_at_ok. eapply received_insert; [done|].
      rewrite Ht'. apply dec_stable. intros ?. by apply Hb.
  - simpl in Hp. subst. destruct (il =? ol)%Z.
    + rewrite bool_decide_eq_false_2 by naive_solver.
      intros w. apply buffers_at_ok. destruct Hr. by eapply single_owner_mono.
    + intros w Hw. done.
Qed.

Lemma ok_translate_typed c b n t fin m L L' :
  single_owner m L' → L' ⊆ L → (b ≠ 0%Z → b ∈ L ∧ b ∉ L') →
  triple (buffers_at m L) (translate_typed vm c b n t fin) (λ _, buffers_ok).
Proof.
  intros Hm HL Hb. unfold translate_typed.
  assert (∀ w, buffers_at m L w → buffers_ok w) as Hok.
  { intros w. apply buffers_at_ok. by eapply single_owner_mono. }
  destruct (t =? "NULL")%string; [by apply triple_ret|].
  destruct (buffer_class t); [by eapply ok_new_tb|].
  eapply triple_pre; [exact Hok|]. apply ok_quiet. quiet_tac.
Qed.

Lemma ok_replace c data b ol t m L L' :
  (∃ ib, points_to data ib m) → received data b m L L' →
  triple (buffers_at m L) (replace_object vm c data b ol t) (λ _, buffers_ok).
Proof.
  intros [ib Hp] [Ho Hs Hl]. unfold replace_object.
  eapply (triple_bind _ _ (λ _ w, ∃ m', buffers_at m' L w ∧ single_owner m' L')).
  - destruct data as [l|]; [|intros w Hw; by exists m].
    destruct Hp as (t0 & Hl0 & Ht0). eapply (triple_bind _ _ (λ _, buffers_at m L)).
    { apply quiet_at, quiet_get_tb. }
    intros [l' t']. eapply triple_bind; [by apply at_upd_tb|]. intros ?. apply triple_ret.
    intros w Hw. eexists. split; [exact Hw|]. apply single_owner_drop; [done|]. by intros [? ?].
  - intros fin w (m' & Hw & Hm'). revert w Hw.
    change (triple (buffers_at m' L) (if (b =? 0)%Z then mret None
      else ndrxj_atmi_TypedBuffer_translate vm c true b ol (Some t) fin) (λ _, buffers_ok)).
    destruct (b =? 0)%Z.
    + apply triple_ret. intros w. apply buffers_at_ok. by eapply single_owner_mono.
    + unfold ndrxj_atmi_TypedBuffer_translate. intros w Hw.
      pose proof (ok_translate_typed c b ol t fin m' L L' Hm' Hs Hl w Hw) as Ht.
      rewrite run_bind, run_ret, run_bind. by destruct (translate_typed vm c b ol t fin w).
Qed.

Lemma ok_result_prep c data ib il b ol t m L L' :
  points_to data ib m → received data b m L L' →
  triple (buffers_at m L) (ndrxj_atmi_TypedBuffer_result_prep vm c data ib il b ol t)
         (λ _, buffers_ok).
Proof.
  intros Hp Hr. unfold ndrxj_atmi_TypedBuffer_result_prep.
  eapply (triple_bind _ _ (λ o w, buffers_at m L w ∧ o ≠ None)).
  - destruct (Z.eqb_spec b 0); [by apply triple_ret|].
    eapply triple_bind; [apply at_types|]. intros [[r ty] st]. simpl.
    destruct (Z.eqb_spec r EXFAIL) as [->|].
    + intros w [_ Hb]. exfalso. apply Hb; [|done]. by apply (rcv_live _ _ _ _ _ Hr).
    + apply triple_ret. by intros w [? ?].
  - intros [ot|]; [|by intros w [_ ?]]. apply (triple_pre _ (buffers_at m L)); [by intros w [? _]|].
    destruct (ot =? t)%string; [|by eapply ok_replace; eauto].
    case_bool_decide as Hb; [|by eapply ok_reuse].
    destruct Hb as [-> ->]. apply triple_ret. intros w. apply buffers_at_ok.
    by eapply received_same.
Qed.

(** ** The calls *)

Lemma at_get_tb o m L :
  triple (buffers_at m L) (get_tb o)
    (λ lt w, buffers_at m L w ∧ ∃ l, o = Some l ∧ lt.1 = l ∧ m !! l = Some lt.2).
Proof.
  unfold get_tb. intros w Hw. rewrite run_bind. destruct o as [l|]; [|done]. unfold deref.
  destruct (w_heap w !! l) as [v|] eqn:El; [|done]. destruct v; try done. cbn. split; [done|].
  exists l. destruct Hw as (_ & <- & _). by rewrite tbs_lookup.
Qed.

Lemma at_get_buffer o n m L :
  triple (buffers_at m L) (ndrxj_atmi_TypedBuffer_get_buffer o n false false)
    (λ r w, buffers_at m L w ∧ points_to o r.1.1.2 m).
Proof.
  unfold ndrxj_atmi_TypedBuffer_get_buffer. destruct o as [l|]; [|by apply triple_ret].
  eapply triple_bind; [apply at_get_tb|]. intros [l' t]. apply triple_pure.
  intros (l1 & [= <-] & Hl & Ht). simpl in *.
  assert (points_to (Some l) (tb_cPtr t) m) as Hp by (simpl; eauto).
  repeat (eapply triple_bind; [solve [apply quiet_at; quiet_tac]|intros ?]).
  destruct a1; [eapply triple_bind; [solve [apply quiet_at; quiet_tac]|intros ?]|];
    by apply triple_ret.
Qed.

Lemma at_input_typed o t0 m L :
  triple (buffers_at m L) (input_typed vm o t0)
    (λ i w, buffers_at m L w ∧
            match i with Some (ib, _, _) => points_to o ib m | None => True end).
Proof.
  unfold input_typed, input_buffer. destruct o as [l|].
  2: { intros w Hw. done. }
  eapply (triple_bind _ _ (λ b w, buffers_at m L w ∧
    match b with Some (ib, _) => points_to (Some l) ib m | None => True end)).
  - eapply triple_bind; [apply at_get_buffer|]. intros [[[r ib] il] fin].
    destruct (r =? EXSUCCEED)%Z; apply triple_ret; [done|]. by intros w [? _].
  - intros [[ib il]|]; [|by apply triple_ret]. apply triple_pure. intros Hp.
    eapply triple_bind; [apply at_types|]. intros [[r ty] st]. apply triple_pure. intros _.
    destruct (r =? EXFAIL)%Z; [|by apply triple_ret].
    repeat (eapply triple_bind; [solve [apply quiet_at; quiet_tac]|intros ?]).
    by apply triple_ret.
Qed.

(** Methods that run in the object's context: it is enough to look at the body. *)
Lemma ok_in_out {A} o (dflt : A) (body : M xst A) m L :
  single_owner m L → triple (buffers_at m L) body (λ _, buffers_ok) →
  triple (buffers_at m L) (ctx ← ndrxj_get_ctx vm o true;
    ret ← (if (ctx =? 0)%Z then mret dflt else body); unset_ctx;; mret ret) (λ _, buffers_ok).
Proof.
  intros Hm Hb. eapply triple_bind; [apply at_get_ctx|]. intros c.
  eapply (triple_bind _ _ (λ _, buffers_ok)).
  - destruct (c =? 0)%Z; [|done]. apply triple_ret. intros w. by apply buffers_at_ok.
  - intros r. eapply (triple_bind _ _ (λ _, buffers_ok)); [|intros ?; by apply triple_ret].
    intros w Hw. unfold unset_ctx, xmod, buffers_ok in *. simpl. by rewrite live_set.
Qed.

Lemma ok_throw_call_error c o ib il b ol t e m L L' :
  points_to o ib m → received o b m L L' → (e ≠ TPESVCFAIL → b = ib) →
  triple (buffers_at m L) (throw_call_error vm c o ib il b ol t e) (λ _, buffers_ok).
Proof.
  intros Hp Hr He. unfold throw_call_error.
  eapply (triple_bind _ _ (λ _, buffers_ok)).
  - destruct (Z.eqb_spec e TPESVCFAIL); [by eapply ok_result_prep|].
    apply triple_ret. intros w. apply buffers_at_ok. rewrite He in Hr by done.
    by eapply received_same.
  - intros d. apply ok_quiet. quiet_tac.
Qed.

(** From a good state, whatever its objects and buffers are. *)
Lemma triple_start {A} o (c : M xst A) Q :
  (∀ m L, single_owner m L → usable o m L → triple (buffers_at m L) c Q) →
  triple (λ w, buffers_ok w ∧ usable o (tbs w) (live (w_x w))) c Q.
Proof. intros Hc w [[Hf Hs] Hu]. by apply (Hc _ _ Hs Hu). Qed.

(** A library call, with the state it ends in. *)
Definition buffers_x m (x : xst) (w : world xst) : Prop := heap_fresh w ∧ tbs w = m ∧ w_x w = x.

Lemma at_xcall {A} (f : xst → A * xst) m L :
  triple (buffers_at m L) (xcall f)
         (λ r w, ∃ xx, buffers_x m xx.2 w ∧ live xx.1 = L ∧ f xx.1 = (r, xx.2)).
Proof.
  intros w (Hf & Ht & Hl). unfold xcall. destruct (f (w_x w)) as [r x'] eqn:E.
  exists (w_x w, x'). by repeat split.
Qed.

Lemma buffers_x_at m x w : buffers_x m x w → buffers_at m (live x) w.
Proof. intros (? & ? & <-). by repeat split. Qed.

Lemma x_tperrno m x :
  triple (buffers_x m x) (xget tperrno) (λ e w, buffers_at m (live x) w ∧ e = tperrno x).
Proof. intros w (? & ? & <-). by repeat split. Qed.

Lemma ok_tpcall o svc idata fl :
  triple (λ w, buffers_ok w ∧ usable idata (tbs w) (live (w_x w))) (Java_AtmiCtx_tpcall vm o svc idata fl)
         (λ _, buffers_ok).
Proof.
  apply triple_start. intros m L Hs Hu. apply ok_in_out; [done|].
  eapply triple_bind; [apply at_input_typed|]. intros i. apply triple_pure. intros Hp.
  destruct i as [[[ib il] it]|]; [|apply triple_ret; intros w; by apply buffers_at_ok].
  eapply (triple_bind _ _ (λ _, buffers_at m L)); [apply quiet_at; quiet_tac|]. intros [sv cp].
  eapply triple_bind; [apply at_xcall|]. intros [[r b] ol]. apply triple_exist. intros [x x'].
  apply triple_pure. simpl. intros [<- Hc]. apply live_call in Hc as [Hmv Herr].
  pose proof (call_received idata ib b m _ _ Hs Hp Hu Hmv) as Hr.
  eapply (triple_bind _ _ (λ _, buffers_ok)).
  - destruct (Z.eqb_spec r EXSUCCEED).
    + eapply triple_pre; [apply buffers_x_at|]. by eapply ok_result_prep.
    + eapply triple_bind; [apply x_tperrno|]. intros e. apply triple_pure. intros ->.
      eapply (triple_bind _ _ (λ _, buffers_ok)); [|intros ?; by apply triple_ret].
      eapply ok_throw_call_error; eauto.
  - intros ret. apply ok_quiet. quiet_tac.
Qed.

Lemma ok_tpgetrply o cd idata fl :
  triple (λ w, buffers_ok w ∧ usable idata (tbs w) (live (w_x w))) (Java_AtmiCtx_tpgetrply vm o cd idata fl)
         (λ _, buffers_ok).
Proof.
  apply triple_start. intros m L Hs Hu. apply ok_in_out; [done|].
  eapply triple_bind; [apply at_input_typed|]. intros i. apply triple_pure. intros Hp.
  destruct i as [[[ib il] it]|]; [|apply triple_ret; intros w; by apply buffers_at_ok].
  eapply triple_bind; [apply at_xcall|]. intros [[[r c] b] ol]. apply triple_exist. intros [x x'].
  apply triple_pure. simpl. intros [<- Hc]. apply live_getrply in Hc as (Hmv & Herr & Hno).
  pose proof (call_received idata ib b m _ _ Hs Hp Hu Hmv) as Hr.
  destruct (Z.eqb_spec r EXSUCCEED).
  - eapply (triple_bind _ _ (λ _, buffers_ok)).
    + eapply triple_pre; [apply buffers_x_at|]. destruct (Z.eqb_spec c 0); [|by eapply ok_result_prep].
      apply triple_ret. intros w. apply buffers_at_ok. rewrite Hno in Hr by done.
      by eapply received_same.
    + intros d. apply ok_quiet. unfold ndrxj_TpgetrplyResult_new, jni_new. quiet_tac.
  - eapply triple_bind; [apply x_tperrno|]. intros e. apply triple_pure. intros ->.
    eapply (triple_bind _ _ (λ _, buffers_ok)); [|intros ?; by apply triple_ret].
    eapply ok_throw_call_error; eauto.
Qed.

Lemma ok_tprecv o cd idata fl :
  triple (λ w, buffers_ok w ∧ usable idata (tbs w) (live (w_x w))) (Java_AtmiCtx_tprecv vm o cd idata fl)
         (λ _, buffers_ok).
Proof.
  apply triple_start. intros m L Hs Hu. apply ok_in_out; [done|].
  eapply triple_bind; [apply at_input_typed|]. intros i. apply triple_pure. intros Hp.
  destruct i as [[[ib il] it]|]; [|apply triple_ret; intros w; by apply buffers_at_ok].
  eapply triple_bind; [apply at_xcall|]. intros [[[r b] ol] ev]. apply triple_exist. intros [x x'].
  apply triple_pure. simpl. intros [<- Hc]. apply live_recv in Hc as (Hmv & Herr).
  pose proof (call_received idata ib b m _ _ Hs Hp Hu Hmv) as Hr.
  eapply triple_bind; [apply x_tperrno|]. intros e. apply triple_pure. intros ->.
  case_bool_decide as Hb.
  - rewrite Herr in Hr by naive_solver.
    apply (triple_pre _ buffers_ok).
    { intros w. apply buffers_at_ok. by eapply received_same. }
    apply ok_quiet. quiet_tac.
  - eapply (triple_bind _ _ (λ _, buffers_ok)); [by eapply ok_result_prep|].
    intros d. apply ok_quiet. unfold ndrxj_TprecvResult_new, jni_new. quiet_tac.
Qed.

Lemma ok_unset : keeps buffers_ok unset_ctx.
Proof. intros w Hw. unfold unset_ctx, xmod, buffers_ok in *. simpl. by rewrite live_set. Qed.

Lemma ok_get_ctx o b : keeps buffers_ok (ndrxj_get_ctx vm o b).
Proof.
  intros w [Hf Hs]. pose proof (at_get_ctx vm o b (tbs w) (live (w_x w)) w) as Hc.
  destruct (ndrxj_get_ctx vm o b w); [|done].
  destruct Hc as (? & ? & Hl); [done|]. by eapply buffers_at_ok.
Qed.

Lemma ok_tprealloc o n :
  triple (λ w, buffers_ok w ∧ usable o (tbs w) (live (w_x w))) (Java_TypedBuffer_tprealloc vm o n)
         (λ _, buffers_ok).
Proof.
  apply triple_start. intros m L Hs Hu. unfold Java_TypedBuffer_tprealloc.
  eapply (triple_bind _ _ (λ _, buffers_at m L)).
  { unfold ndrxj_TypedBuffer_get_ctx. eapply keeps_bind; [apply quiet_at; quiet_tac|].
    intros [l t]. destruct (tb_ctx t); [apply at_get_ctx|]. apply quiet_at. quiet_tac. }
  intros c. assert (∀ w, buffers_at m L w → buffers_ok w) as Hok.
  { intros w. by apply buffers_at_ok. }
  destruct (c =? 0)%Z; [by apply triple_ret|].
  eapply triple_bind; [apply at_get_buffer|]. intros [[[r b] len] fin]. apply triple_pure.
  simpl. intros Hp. eapply (triple_bind _ _ (λ _, buffers_ok)); [|intros ?; apply ok_unset].
  destruct (r =? EXSUCCEED)%Z; [|by apply triple_ret].
  eapply triple_bind; [apply at_xcall|]. intros b'. apply triple_exist. intros [x x'].
  apply triple_pure. simpl. intros [<- Hc]. apply live_realloc in Hc.
  eapply triple_pre; [apply buffers_x_at|].
  destruct (Z.eqb_spec b' 0) as [->|Hb].
  - rewrite decide_True in Hc by done. rewrite Hc.
    eapply triple_pre; [exact Hok|]. apply ok_quiet. quiet_tac.
  - rewrite decide_False in Hc by done.
    pose proof (call_received o b b' m _ _ Hs Hp Hu Hc) as Hr.
    unfold ndrxj_atmi_TypedBuffer_set_buffer. destruct o as [l|]; [|intros w _; done].
    destruct Hp as (t & Hl & _).
    eapply triple_bind; [|intros ?; apply triple_ret; intros w Hw; exact Hw].
    eapply triple_bind; [by apply at_upd_tb|]. intros ?.
    eapply triple_bind; [apply at_upd_tb, lookup_insert_eq|]. intros ?. apply triple_ret.
    intros w. rewrite insert_insert_eq. apply buffers_at_ok. by eapply received_insert.
Qed.

(** The part of [tpalloc] that runs the library. *)
Lemma ok_tpalloc o t u n : keeps buffers_ok (Java_AtmiCtx_tpalloc vm o t u n).
Proof.
  unfold Java_AtmiCtx_tpalloc. eapply keeps_bind.
  { apply ok_quiet. destruct u; quiet_tac. }
  intros [nu cu]. eapply keeps_bind; [|intros ?; apply ok_quiet; quiet_tac].
  destruct t as [lt|].
  2: { eapply keeps_bind; [apply ok_quiet; quiet_tac|]. intros ?.
       eapply keeps_bind; [apply ok_unset|]. intros ?. apply keeps_ret. }
  eapply keeps_bind; [apply ok_quiet; quiet_tac|]. intros [[t|] ct].
  2: { by intros w. }
  eapply keeps_bind; [|intros ?; eapply keeps_bind; [apply ok_unset|intros ?; apply ok_quiet; quiet_tac]].
  destruct (t =? "NULL")%string; [apply keeps_ret|].
  eapply keeps_bind; [apply ok_get_ctx|]. intros c. destruct (c =? 0)%Z; [apply keeps_ret|].
  intros w [Hf Hs]. revert w Hf Hs. enough (∀ m L, single_owner m L → triple (buffers_at m L)
    (data ← xcall (tpalloc t nu n); if (data =? 0)%Z then throw_tperrno vm;; mret None
     else ndrxj_atmi_TypedBuffer_translate vm o true data n (Some t) true) (λ _, buffers_ok)) as He.
  { intros w Hf Hs. by apply (He (tbs w) (live (w_x w))). }
  intros m L Hs. eapply triple_bind; [apply at_xcall|]. intros b. apply triple_exist.
  intros [x x']. apply triple_pure. simpl. intros [<- Hc]. apply live_alloc in Hc as [Hsub Hb].
  eapply triple_pre; [apply buffers_x_at|]. destruct (b =? 0)%Z.
  - apply (triple_pre _ buffers_ok).
    { intros w. apply buffers_at_ok. by eapply single_owner_mono. }
    apply ok_quiet. unfold throw_tperrno. quiet_tac.
  - intros w Hw. unfold ndrxj_atmi_TypedBuffer_translate. rewrite run_bind, run_ret, run_bind.
    pose proof (ok_translate_typed o b n t true m (live x') (live x) Hs Hsub) as Ht.
    specialize (Ht ltac:(intros; destruct Hb; auto) w Hw).
    by destruct (translate_typed vm o b n t true w).
Qed.
End Methods.

(** * Who frees a dequeued buffer

    Converting control objects touches no buffer object, so [tpdequeue] hands out
    buffers under the same invariant as the service calls. *)

(** What the queue functions document about the buffer: a message may move it, a
    failure leaves it in place. *)
Class QueueBuffers `{XatmiBuffers} `{QT : QueueTypes} `{!Queues} : Prop := {
  live_dequeue s n q b l f x r q' b' l' x' :
    tpdequeue s n q b l f x = ((r, q', b', l'), x') →
    call_moves (live x) (live x') b b' ∧ (r ≠ EXSUCCEED → b' = b);
  live_dequeueex i j n q b l f x r q' b' l' x' :
    tpdequeueex i j n q b l f x = ((r, q', b', l'), x') →
    call_moves (live x) (live x') b b' ∧ (r ≠ EXSUCCEED → b' = b)
}.

(** Replacing an object that is no buffer by one that is none. *)
Lemma quiet_set_obj {X} (w : world X) (l : loc) v v' :
  heap_fresh w → w_heap w !! l = Some v → as_tb v = None → as_tb v' = None →
  heap_fresh (set_obj l v' w) ∧ tbs (set_obj l v' w) = tbs w ∧ w_x (set_obj l v' w) = w_x w.
Proof.
  intros Hf Hl Hv Hv'. unfold heap_fresh, tbs, set_obj. simpl. split_and!; [..|done].
  - intros k Hk. rewrite lookup_insert_ne; [by apply Hf|]. intros ->. by rewrite (Hf _ Hk) in Hl.
  - rewrite omap_insert_None by done. apply delete_id. by rewrite lookup_omap, Hl.
Qed.

Section QuietFields.
Context {X : Type} (vm : jvm).

Lemma quiet_get_fields o : quiet (get_fields o : M X _).
Proof. unfold get_fields. quiet_tac. Qed.
#[local] Hint Resolve quiet_get_fields : quiet.
Lemma quiet_GetLongField o f : quiet (GetLongField o f : M X _).
Proof. unfold GetLongField. quiet_tac. Qed.
Lemma quiet_GetObjectField o f : quiet (GetObjectField o f : M X _).
Proof. unfold GetObjectField. quiet_tac. Qed.
Lemma quiet_SetField o f a : quiet (SetField o f a : M X _).
Proof.
  intros w Hw. unfold SetField, get_fields. rewrite !run_bind. unfold deref.
  destruct o as [l|]; [|done]. destruct (w_heap w !! l) as [v|] eqn:E; [|done]. destruct v; try done.
  by eapply quiet_set_obj.
Qed.
Lemma quiet_GetByteArrayElements o : quiet (GetByteArrayElements vm o : M X _).
Proof. unfold GetByteArrayElements, pin. quiet_tac. Qed.
Lemma quiet_GetArrayLength o : quiet (GetArrayLength o : M X _).
Proof. unfold GetArrayLength. quiet_tac. Qed.
Lemma quiet_jni_new v : as_tb v = None → quiet (jni_new vm v : M X _).
Proof. intros Hv. unfold jni_new. apply quiet_bind; [apply quiet_ask|]. intros []; [by apply quiet_store_new|quiet_tac]. Qed.
Lemma quiet_NewByteArray n : quiet (NewByteArray vm n : M X _).
Proof. unfold NewByteArray. destruct (n <? 0)%Z; [quiet_tac|by apply quiet_jni_new]. Qed.
Lemma quiet_SetByteArrayRegion o n b : quiet (SetByteArrayRegion o n b : M X _).
Proof.
  intros w Hw. unfold SetByteArrayRegion. rewrite !run_bind. unfold deref.
  destruct o as [l|]; [|done]. destruct (w_heap w !! l) as [v|] eqn:E; [|done]. destruct v as [|c| | | | | | | |]; try done.
  destruct (length b <? Z.to_nat n)%nat; [done|]. destruct ((n <? 0)%Z || _); [by apply quiet_throw_vm|].
  by eapply quiet_set_obj.
Qed.
End QuietFields.
#[export] Hint Resolve quiet_GetLongField quiet_GetObjectField quiet_SetField
  quiet_GetByteArrayElements quiet_GetArrayLength quiet_NewByteArray quiet_SetByteArrayRegion : quiet.
#[export] Hint Extern 1 (quiet (jni_new _ _)) => apply quiet_jni_new; reflexivity : quiet.

Section QuietQueue.
Context `{Queues} (vm : jvm).

Lemma quiet_cvt_field_to_c t o c : quiet (cvt_field_to_c vm t o c).
Proof. unfold cvt_field_to_c, vsnprintf_missing_arguments. quiet_tac. Qed.
#[local] Hint Resolve quiet_cvt_field_to_c : quiet.
Lemma quiet_cvt_to_c tab o c : quiet (ndrxj_cvt_to_c vm tab o c).
Proof. revert c. induction tab; intros c; cbn [ndrxj_cvt_to_c]; quiet_tac. Qed.
Lemma quiet_cvt_field_to_java t c o : quiet (cvt_field_to_java vm t c o).
Proof.
  unfold cvt_field_to_java, SetLongField, SetObjectField, NewStringUTF, vsnprintf_missing_arguments. quiet_tac.
Qed.
#[local] Hint Resolve quiet_cvt_to_c quiet_cvt_field_to_java : quiet.
Lemma quiet_cvt_to_java tab c o : quiet (ndrxj_cvt_to_java vm tab c o).
Proof. induction tab; cbn [ndrxj_cvt_to_java]; quiet_tac. Qed.
#[local] Hint Resolve quiet_cvt_to_java : quiet.
Lemma quiet_throw_if_silent r m : quiet (throw_if_silent vm r m).
Proof. unfold throw_if_silent. quiet_tac. Qed.
#[local] Hint Resolve quiet_throw_if_silent : quiet.
Lemma quiet_qctl_to_c o q : quiet (ndrxj_atmi_TPQCTL_translate2c vm o q).
Proof. unfold ndrxj_atmi_TPQCTL_translate2c, ndrxj_atmi_ClientId_translate_toc. quiet_tac. Qed.
Lemma quiet_qctl_to_java c o q : quiet (ndrxj_atmi_TPQCTL_translate2java vm c o q).
Proof.
  unfold ndrxj_atmi_TPQCTL_translate2java, ndrxj_atmi_ClientId_translate, new_TPQCTL, NewStringUTF,
    SetObjectField. quiet_tac.
Qed.
Lemma quiet_queue_names d s i j n c : quiet (queue_names vm d s i j n c).
Proof. unfold queue_names, ndrxj_cvt_jstr_to_c. quiet_tac. Qed.
End QuietQueue.
#[export] Hint Resolve quiet_qctl_to_c quiet_qctl_to_java quiet_queue_names : quiet.

Section QueueBuffers.
Context `{QueueBuffers} (vm : jvm).

Lemma ok_tpdequeue q0 o s i j n c d f :
  triple (λ w, buffers_ok w ∧ usable d (tbs w) (live (w_x w))) (tpdequeue_int vm q0 o s i j n c d f)
         (λ _, buffers_ok).
Proof.
  apply triple_start. intros m L Hs Hu. apply ok_in_out; [done|].
  assert (∀ w, buffers_at m L w → buffers_ok w) as Hok by (intros w; by apply buffers_at_ok).
  eapply (triple_bind _ _ (λ _, buffers_at m L)); [apply quiet_at; quiet_tac|].
  intros [[qs qn]|]; [|by apply triple_ret].
  eapply (triple_bind _ _ (λ _, buffers_at m L)); [apply quiet_at; quiet_tac|]. intros [rq q].
  destruct (rq =? EXSUCCEED)%Z; [|by apply triple_ret].
  eapply triple_bind; [apply at_input_typed|]. intros inp. apply triple_pure. intros Hp.
  destruct inp as [[[ib il] it]|]; [|by apply triple_ret].
  eapply triple_bind; [apply at_xcall|]. intros [[[r q'] b] ol]. apply triple_exist. intros [x x'].
  apply triple_pure. simpl. intros [<- Hc].
  assert (call_moves (live x) (live x') ib b ∧ (r ≠ EXSUCCEED → b = ib)) as [Hmv Herr].
  { destruct s; [by eapply live_dequeue|by eapply live_dequeueex]. }
  pose proof (call_received d ib b m _ _ Hs Hp Hu Hmv) as Hr.
  destruct (Z.eqb_spec r EXSUCCEED).
  - eapply (triple_bind _ _ (λ _, buffers_ok)).
    + eapply triple_pre; [apply buffers_x_at|]. by eapply ok_result_prep.
    + intros ro. apply ok_quiet. quiet_tac.
  - apply (triple_pre _ buffers_ok).
    + intros w Hw. apply (buffers_at_ok m (live x')); [|by apply buffers_x_at].
      rewrite Herr in Hr by done. by eapply received_same.
    + apply ok_quiet. quiet_tac.
Qed.
End QueueBuffers.
