(* ===== verification/CallSpec.v ===== *)
(** * What a service call returns to Java

    Functional behaviour, branch by branch, of raising an XATMI error, of bringing a
    reply buffer back into a Java object and of [AtmiCtx.tpcall] as a whole, on a
    virtual machine that has memory and the exception classes. *)
From stdpp Require Import sorting strings gmap list numbers.
From S2P Require Import Prelude CString Jni Xatmi Exceptions TypedBuffer Calls AtmiCtxOps.

(** The machine can allocate and has the class, with its constructor and fields. *)
Definition vm_throws `{Xatmi} (vm : jvm) (err : Z) : Prop :=
  vm_has_memory vm ∧ jvm_class_exists vm (atmi_exception_class err) = true ∧
  jvm_class_exists vm (atmi_exception_class err +:+ ".<init>") = true ∧
  jvm_class_exists vm (atmi_exception_class err +:+ ".data") = true ∧
  (err = TPEDIAGNOSTIC → jvm_class_exists vm (atmi_exception_class err +:+ ".qctl") = true).

(** [w'] has the objects of [w], and more. *)
Definition extends {X} (w w' : world X) : Prop :=
  ∀ l : loc, (l < w_next w)%positive → w_heap w' !! l = w_heap w !! l.

Section Throw.
Context `{Xatmi} (vm : jvm).

Definition the_exception (data addarg1 : jobject) (err : Z) (msg : string) : jval :=
  JThrowable (atmi_exception_class err) (strcpy_safe ERROR_MAX msg) data
    (if bool_decide (err = TPEDIAGNOSTIC) then addarg1 else None).

Lemma run_caches_add c w :
  vm_has_memory vm →
  ndrxj_caches_add vm c w =
  Ok true (with_cache (w_cache w ++ [strcpy_safe 256 c]) (ticked (ticked w))).
Proof.
  intros Hm. unfold ndrxj_caches_add. rewrite run_bind. unfold ask at 1. rewrite Hm.
  rewrite run_bind. unfold ask. by rewrite Hm.
Qed.

Lemma run_set_throwable l c m d q f w :
  w_heap w !! l = Some (JThrowable c m d q) →
  set_throwable l f w = Ok tt (set_obj l (JThrowable c m (f d q).1 (f d q).2) w).
Proof.
  intros Hl. unfold set_throwable. rewrite run_bind, (run_deref _ _ _ Hl). by destruct (f d q).
Qed.

(** The last part of [ndrxj_atmi_throw], on the new exception object. *)
Lemma run_fill_throw l c m (d a : jobject) (e : Z) (has_qctl : bool) w :
  w_heap w !! l = Some (JThrowable c m None None) → (e = TPEDIAGNOSTIC → has_qctl = true) →
  ((match d with Some _ => set_throwable l (λ _ q, (d, q)) | None => mret tt end);;
   (if bool_decide (a ≠ None ∧ e = TPEDIAGNOSTIC)
    then if has_qctl then set_throwable l (λ d' _, (d', a)) else crash "NULL field id" else mret tt);;
   Throw (Some l)) w =
  Ok tt (with_exc (Some l)
    (with_heap (<[l := JThrowable c m d (if bool_decide (e = TPEDIAGNOSTIC) then a else None)]>
                  (w_heap w)) (w_next w) w)).
Proof.
  intros Hl Hq. rewrite run_bind.
  assert ((match d with Some _ => set_throwable l (λ _ q, (d, q)) | None => mret tt end) w =
          Ok tt (set_obj l (JThrowable c m d None) w)) as ->.
  { destruct d as [ld|]; [by rewrite (run_set_throwable _ c m None None)|].
    unfold set_obj. rewrite run_ret, insert_id by done. by destruct w. }
  rewrite run_bind. case_bool_decide as Ha.
  - destruct Ha as [_ ->]. rewrite bool_decide_eq_true_2, Hq by done.
    erewrite run_set_throwable; [|apply lookup_insert_eq]. unfold set_obj. simpl.
    by rewrite insert_insert_eq.
  - rewrite run_ret. cbn. repeat f_equal. case_bool_decide; [|done]. destruct a; [|done].
    exfalso. by apply Ha.
Qed.

Lemma run_get_member error cls m w :
  jvm_class_exists vm (cls +:+ "." +:+ m) = true → get_member vm error cls m w = Ok true w.
Proof. intros E. unfold get_member. by rewrite E. Qed.

(** The class is found, and cached if it was not. *)
Lemma run_exception_class e w :
  vm_throws vm e →
  ∃ c t, exception_class vm (atmi_exception_class e) e w =
    Ok true (World (w_heap w) (w_next w) (w_exc w) (w_pins w) (w_weak w) c t (w_ubf w) (w_x w)).
Proof.
  intros (Hm & Hc & Hi & Hd & Hq). unfold exception_class. rewrite run_bind. cbv [ndrxj_caches_get]. rewrite run_bind.
  cbn [mget]. rewrite run_ret. case_bool_decide; [exists (w_cache w), (w_tick w); by destruct w|].
  rewrite run_bind. unfold FindClass. rewrite Hc, run_ret, run_bind, run_get_member, run_bind by done.
  assert ((if bool_decide (e = TPEDIAGNOSTIC) then
      fid1 ← get_member vm "java/lang/NoSuchFieldError" (atmi_exception_class e) "qctl";
      if (fid1 : bool) then mret tt else NDRXJ_LOG_EXCEPTION else mret tt) w = Ok tt w) as ->.
  { case_bool_decide as E; [|by rewrite run_ret]. by rewrite run_bind, run_get_member, run_ret by by apply Hq. }
  rewrite run_bind, run_get_member, run_bind, run_caches_add by done. eauto.
Qed.

(** Raising an XATMI error: an exception object of the class of the code, with the
    message, the data and, for TPEDIAGNOSTIC, the queue control block, pending. *)
Lemma run_atmi_throw d a e msg w :
  vm_throws vm e →
  ∃ l w', ndrxj_atmi_throw vm d a e msg w = Ok tt w' ∧
          w_exc w' = Some l ∧ w_heap w' !! l = Some (the_exception d a e msg) ∧
          (w_next w ≤ l)%positive ∧ extends w w' ∧ w_pins w' = w_pins w ∧ w_x w' = w_x w.
Proof.
  intros Ht. pose proof Ht as (Hm & _ & _ & _ & Hq). unfold ndrxj_atmi_throw, NewStringUTF.
  rewrite run_bind, run_jni_new by done. set (w1 := with_heap _ _ _). rewrite run_bind.
  destruct (run_exception_class e w1 Ht) as (c & t & ->). cbn [negb].
  rewrite run_bind, run_jni_new by done.
  rewrite (run_fill_throw (w_next w1) (atmi_exception_class e) (strcpy_safe ERROR_MAX msg));
    [|apply lookup_insert_eq|done].
  exists (w_next w1). eexists. split; [done|]. cbn. split_and!; try done; try lia.
  - by rewrite lookup_insert_eq.
  - intros l Hl. cbn. rewrite !lookup_insert_ne by lia. done.
Qed.
End Throw.

Section Reply.
Context `{Xatmi} (vm : jvm).
Implicit Types (w : world xst).

Lemma run_get_tb l t w : w_heap w !! l = Some (JTypedBuffer t) → get_tb (Some l) w = Ok (l, t) w.
Proof. intros Hl. unfold get_tb. by rewrite run_bind, (run_deref _ _ _ Hl). Qed.

Lemma run_upd_tb l t f w :
  w_heap w !! l = Some (JTypedBuffer t) →
  upd_tb (Some l) f w = Ok tt (set_obj l (JTypedBuffer (f t)) w).
Proof. intros Hl. unfold upd_tb. by rewrite run_bind, (run_get_tb _ _ _ Hl). Qed.

(** The object with the buffer and length of the reply. *)
Definition with_reply (b n : Z) (t : typed_buffer) : typed_buffer :=
  TypedBuffer (tb_class t) (tb_ctx t) (tb_doFinalize t) b n.

(** Same type: the caller's object now stands for the reply. *)
Lemma run_reuse l t b n w :
  w_heap w !! l = Some (JTypedBuffer t) →
  reuse_object (Some l) (tb_cPtr t) (tb_len t) b n w =
  Ok (Some l) (set_obj l (JTypedBuffer (with_reply b n t)) w).
Proof.
  intros Hl. unfold reuse_object. rewrite run_bind.
  assert ((if (tb_len t =? n)%Z then mret tt else upd_tb (Some l) (set_len n)) w =
          Ok tt (set_obj l (JTypedBuffer (set_len n t)) w)) as ->.
  { destruct (Z.eqb_spec (tb_len t) n) as [<-|]; [|by apply run_upd_tb].
    replace (set_len (tb_len t) t) with t by by destruct t.
    unfold set_obj. rewrite run_ret, insert_id by done. by destruct w. }
  rewrite run_bind. case_bool_decide as Hb.
  - rewrite (run_upd_tb _ (set_len n t)) by apply lookup_insert_eq. unfold set_obj. cbn.
    by rewrite insert_insert_eq.
  - assert (tb_cPtr t = b) as <- by (apply dec_stable; intros ?; by apply Hb). done.
Qed.

(** Another type: a new object owns the reply if the old one did, which no longer does. *)
Lemma run_replace c l t b n ty cls w :
  vm_has_memory vm → w_heap w !! l = Some (JTypedBuffer t) → b ≠ 0%Z → (ty =? "NULL")%string = false →
  buffer_class ty = Some cls →
  replace_object vm c (Some l) b n ty w =
  Ok (Some (w_next w))
     (with_heap (<[w_next w := JTypedBuffer (TypedBuffer cls c (tb_doFinalize t) b n)]>
                  (<[l := JTypedBuffer (set_doFinalize false t)]> (w_heap w)))
                (Pos.succ (w_next w)) (ticked w)).
Proof.
  intros Hm Hl Hb Hty Hcls. unfold replace_object.
  rewrite !run_bind, (run_get_tb _ _ _ Hl), run_bind, (run_upd_tb _ _ _ _ Hl), run_ret.
  rewrite (proj2 (Z.eqb_neq b 0) Hb). unfold ndrxj_atmi_TypedBuffer_translate.
  rewrite run_bind, run_ret, run_bind. unfold translate_typed. rewrite Hty, Hcls.
  by rewrite run_jni_new.
Qed.

(** The reply as Java sees it: the object [l'] points to buffer [b] of [n] bytes and
    frees it exactly if the caller's object did; an object that was replaced does
    not free anything any more. *)
Record delivered (w w' : world xst) (l l' : loc) (t : typed_buffer) (b n : Z) : Prop := {
  dlv_obj : ∃ t', w_heap w' !! l' = Some (JTypedBuffer t') ∧ tb_cPtr t' = b ∧ tb_len t' = n ∧
                  tb_doFinalize t' = tb_doFinalize t;
  dlv_old : l' = l ∨ w_heap w' !! l = Some (JTypedBuffer (set_doFinalize false t));
  dlv_rest : ∀ k : loc, (k < w_next w)%positive → k ≠ l → w_heap w' !! k = w_heap w !! k;
  dlv_new : (l' < w_next w')%positive;
  dlv_exc : w_exc w' = w_exc w;
  dlv_pins : w_pins w' = w_pins w
}.

Lemma run_result_prep c (l : loc) t b n ty w r oty ost x' :
  vm_has_memory vm → w_heap w !! l = Some (JTypedBuffer t) → (l < w_next w)%positive → b ≠ 0%Z →
  tptypes b (w_x w) = ((r, oty, ost), x') → r ≠ EXFAIL →
  (oty =? "NULL")%string = false → buffer_class oty ≠ None →
  ∃ l' w', ndrxj_atmi_TypedBuffer_result_prep vm c (Some l) (tb_cPtr t) (tb_len t) b n ty w =
             Ok (Some l') w' ∧
           delivered w w' l l' t b n ∧ w_x w' = x' ∧
           (l' = l ↔ (oty =? ty)%string = true).
Proof.
  intros Hm Hl Hlt Hb Hty Hr Hnull Hcls. unfold ndrxj_atmi_TypedBuffer_result_prep.
  rewrite run_bind, (proj2 (Z.eqb_neq b 0) Hb), run_bind. unfold xcall. rewrite Hty.
  rewrite (proj2 (Z.eqb_neq r EXFAIL) Hr), run_ret.
  assert (w_heap (with_x x' w) !! l = Some (JTypedBuffer t)) as Hl' by done.
  destruct (oty =? ty)%string.
  - case_bool_decide as Hs.
    + destruct Hs as [<- <-]. exists l, (with_x x' w). split_and!; [done| |done|done].
      constructor; try done; [by exists t|by left].
    + rewrite (run_reuse _ _ _ _ _ Hl'). exists l. eexists. split_and!; [done| |done|done].
      constructor; try done; [|by left|].
      * eexists. split; [apply lookup_insert_eq|done].
      * intros k Hk Hne. cbn. by rewrite lookup_insert_ne.
  - destruct (buffer_class oty) as [cls|] eqn:Ec; [|done].
          rewrite (run_replace c l t b n oty cls _ Hm Hl' Hb Hnull Ec).
    exists (w_next w). eexists. split_and!; [done| |done|].
    + constructor; try done.
      * eexists. split; [apply lookup_insert_eq|done].
      * right. cbn. rewrite lookup_insert_ne by lia. apply lookup_insert_eq.
      * intros k Hk Hne. cbn. rewrite !lookup_insert_ne by (done || lia). done.
      * cbn. lia.
    + split; [lia|done].
Qed.
End Reply.

(** ** A whole call *)

Section Tpcall.
Context `{Xatmi} (vm : jvm).
Implicit Types (w : world xst).

(** The situation of a call: the context object leads to a context, the data object
    [l] holds [t], no exception is pending, the service name is [s]; [x1] is the
    library after it told the type [ty] of the data. *)
Record call_ready (o svc l : loc) (t : typed_buffer) (s ty : string) (w w1 : world xst) (x1 : xst)
    : Prop := {
  rdy_ctx : ∃ ctx, ctx ≠ 0%Z ∧ ndrxj_get_ctx vm (Some o) true w = Ok ctx w1;
  rdy_tb : w_heap w1 !! l = Some (JTypedBuffer t);
  rdy_old : (l < w_next w1)%positive;
  rdy_exc : w_exc w1 = None;
  rdy_svc : w_heap w1 !! svc = Some (JString s);
  rdy_type : ∃ r st, r ≠ EXFAIL ∧ tptypes (tb_cPtr t) (w_x w1) = ((r, ty, st), x1);
  rdy_mem : vm_has_memory vm;
  rdy_copies : vm_hands_copies vm
}.

Lemma run_get_buffer l t n w :
  w_heap w !! l = Some (JTypedBuffer t) → w_exc w = None →
  ndrxj_atmi_TypedBuffer_get_buffer (Some l) n false false w =
  Ok (EXSUCCEED, tb_cPtr t, tb_len t, tb_doFinalize t) w.
Proof.
  intros Hl He. unfold ndrxj_atmi_TypedBuffer_get_buffer. rewrite run_bind, (run_get_tb _ _ _ Hl).
  cbv [mbind M_bind mret M_ret ExceptionCheck mget]. by rewrite He.
Qed.

Lemma run_input_typed l t ty0 ty r st w x1 :
  w_heap w !! l = Some (JTypedBuffer t) → w_exc w = None →
  r ≠ EXFAIL → tptypes (tb_cPtr t) (w_x w) = ((r, ty, st), x1) →
  input_typed vm (Some l) ty0 w = Ok (Some (tb_cPtr t, tb_len t, ty)) (with_x x1 w).
Proof.
  intros Hl He Hr Hty. unfold input_typed, input_buffer.
  rewrite !run_bind, (run_get_buffer _ _ _ _ Hl He). cbn -[xcall ndrxj_atmi_throw].
  rewrite run_bind. unfold xcall. rewrite Hty.
  by rewrite (proj2 (Z.eqb_neq _ _) Hr).
Qed.

(** The call up to the library: what is left is to handle its answer, to release the
    service name and to leave the context. *)
Lemma run_tpcall o svc l t s ty w w1 x1 flags r b n x2 :
  call_ready o svc l t s ty w w1 x1 →
  tpcall (Some s) (tb_cPtr t) (tb_len t) flags x1 = ((r, b, n), x2) →
  let w2 := with_x x2 (with_pins (svc :: w_pins w1) (ticked (ticked w1))) in
  Java_AtmiCtx_tpcall vm (Some o) (Some svc) (Some l) flags w =
  (ret ← (if (r =? EXSUCCEED)%Z then
            ndrxj_atmi_TypedBuffer_result_prep vm (Some o) (Some l) (tb_cPtr t) (tb_len t) b n ty
          else err ← xget tperrno;
               throw_call_error vm (Some o) (Some l) (tb_cPtr t) (tb_len t) b n ty err;; mret None);
   Release (Some svc);; unset_ctx;; mret ret) w2.
Proof.
  intros Hr Hc w2. destruct Hr as [(ctx & Hne & Hctx) Htb _ Hex Hsvc (ri & st & Hri & Hty) Hm Hcp].
  unfold Java_AtmiCtx_tpcall. rewrite run_bind, Hctx, run_bind.
  rewrite (proj2 (Z.eqb_neq _ _) Hne), run_bind, (run_input_typed _ _ _ _ _ _ _ _ Htb Hex Hri Hty).
  rewrite run_bind, (run_GetStringUTFChars vm svc s) by done. rewrite run_bind. unfold xcall.
  cbn [w_x with_x with_pins ticked]. rewrite Hc, Hcp. cbn [release_if].
  rewrite !run_bind. change (with_x x2 (with_pins _ _)) with w2.
  match goal with |- context [match ?A w2 with _ => _ end] => destruct (A w2) end; [|done].
  rewrite !run_bind. by destruct (Release (Some svc) w0).
Qed.

(** The end of a method that holds [svc]. *)
Lemma run_exit {A} (ret : A) (svc : loc) p w :
  w_pins w = svc :: p →
  (Release (Some svc);; unset_ctx;; mret ret) w =
  Ok ret (with_x (tpsetctxt TPNULLCONTEXT (w_x w)) (with_pins p w)).
Proof. intros Hp. rewrite run_bind, (run_Release_head svc p) by done. done. Qed.

(** Success: the returned object stands for the buffer the library returned. *)
Lemma tpcall_success o svc l t s ty w w1 x1 flags b n x2 r oty ost x3 :
  call_ready o svc l t s ty w w1 x1 →
  tpcall (Some s) (tb_cPtr t) (tb_len t) flags x1 = ((EXSUCCEED, b, n), x2) →
  b ≠ 0%Z → tptypes b x2 = ((r, oty, ost), x3) → r ≠ EXFAIL →
  (oty =? "NULL")%string = false → buffer_class oty ≠ None →
  ∃ l' w', Java_AtmiCtx_tpcall vm (Some o) (Some svc) (Some l) flags w = Ok (Some l') w' ∧
           delivered w1 w' l l' t b n ∧ w_x w' = tpsetctxt TPNULLCONTEXT x3 ∧
           (l' = l ↔ (oty =? ty)%string = true).
Proof.
  intros Hr Hc Hb Hty Hne Hnull Hcls. pose proof (run_tpcall _ _ _ _ _ _ _ _ _ _ _ _ _ _ Hr Hc) as Hrun.
  cbv zeta in Hrun. rewrite Hrun. clear Hrun. destruct Hr.
  set (w2 := with_x x2 _). rewrite run_bind, Z.eqb_refl.
  destruct (run_result_prep vm (Some o) l t b n ty w2 r oty ost x3) as (l' & w' & -> & Hd & Hx & Hi);
    try done.
  rewrite (run_exit _ svc (w_pins w1)).
  2: { by rewrite (dlv_pins _ _ _ _ _ _ _ Hd). }
  exists l'. eexists. split; [done|]. split_and!; [|by rewrite <- Hx|done].
  destruct Hd. by constructor.
Qed.

(** Failure: NULL, the exception of the error pending, the name released. *)
Lemma tpcall_failure o svc l t s ty w w1 x1 flags r b n x2 :
  call_ready o svc l t s ty w w1 x1 →
  tpcall (Some s) (tb_cPtr t) (tb_len t) flags x1 = ((r, b, n), x2) →
  r ≠ EXSUCCEED → tperrno x2 ≠ TPESVCFAIL → vm_throws vm (tperrno x2) →
  ∃ le w', Java_AtmiCtx_tpcall vm (Some o) (Some svc) (Some l) flags w = Ok None w' ∧
    w_exc w' = Some le ∧
    w_heap w' !! le = Some (the_exception (Some l) None (tperrno x2) (errbuf (tperrno x2))) ∧
    extends w1 w' ∧ w_pins w' = w_pins w1 ∧ w_x w' = tpsetctxt TPNULLCONTEXT x2.
Proof.
  intros Hr Hc Hne He Hth. pose proof (run_tpcall _ _ _ _ _ _ _ _ _ _ _ _ _ _ Hr Hc) as Hrun.
  cbv zeta in Hrun. rewrite Hrun. clear Hrun. set (w2 := with_x x2 _).
  rewrite run_bind, (proj2 (Z.eqb_neq _ _) Hne), run_bind. cbn [xget]. change (w_x w2) with x2.
  unfold xget, throw_call_error. rewrite !run_bind, (proj2 (Z.eqb_neq _ _) He), run_ret.
  destruct (run_atmi_throw vm (Some l) None (tperrno x2) (errbuf (tperrno x2)) w2 Hth)
    as (le & w' & Hth' & Hex & Hl & Hle & Hext & Hp & Hx).
  change (w_x w2) with x2. rewrite Hth', run_ret, (run_exit _ svc (w_pins w1)) by (by rewrite Hp).
  exists le. eexists. split; [done|]. cbn. split_and!; try done. by rewrite Hx.
Qed.

(** A failed service: its reply goes with the exception. *)
Lemma tpcall_svcfail o svc l t s ty w w1 x1 flags r b n x2 ri oty ost x3 :
  call_ready o svc l t s ty w w1 x1 →
  tpcall (Some s) (tb_cPtr t) (tb_len t) flags x1 = ((r, b, n), x2) →
  r ≠ EXSUCCEED → tperrno x2 = TPESVCFAIL → vm_throws vm TPESVCFAIL →
  b ≠ 0%Z → tptypes b x2 = ((ri, oty, ost), x3) → ri ≠ EXFAIL →
  (oty =? "NULL")%string = false → buffer_class oty ≠ None →
  ∃ le l' t' w', Java_AtmiCtx_tpcall vm (Some o) (Some svc) (Some l) flags w = Ok None w' ∧
    w_exc w' = Some le ∧
    w_heap w' !! le = Some (the_exception (Some l') None TPESVCFAIL (errbuf TPESVCFAIL)) ∧
    w_heap w' !! l' = Some (JTypedBuffer t') ∧ tb_cPtr t' = b ∧ tb_len t' = n ∧
    tb_doFinalize t' = tb_doFinalize t ∧
    w_pins w' = w_pins w1 ∧ w_x w' = tpsetctxt TPNULLCONTEXT x3.
Proof.
  intros Hr Hc Hne He Hth Hb Hty Hri Hnull Hcls.
  pose proof (run_tpcall _ _ _ _ _ _ _ _ _ _ _ _ _ _ Hr Hc) as Hrun.
  cbv zeta in Hrun. rewrite Hrun. clear Hrun. destruct Hr. set (w2 := with_x x2 _).
  rewrite run_bind, (proj2 (Z.eqb_neq _ _) Hne), run_bind. cbn [xget]. change (w_x w2) with x2.
  unfold xget, throw_call_error. change (w_x w2) with x2. rewrite !run_bind, He, Z.eqb_refl.
  destruct (run_result_prep vm (Some o) l t b n ty w2 ri oty ost x3) as (l' & w0 & -> & Hd & Hx & Hi);
    try done.
  destruct (run_atmi_throw vm (Some l') None TPESVCFAIL (errbuf TPESVCFAIL) w0 Hth)
    as (le & w' & Hth' & Hex & Hl & Hle & Hext & Hp & Hx').
  rewrite Hth', run_ret, (run_exit _ svc (w_pins w1)).
  2: { by rewrite Hp, (dlv_pins _ _ _ _ _ _ _ Hd). }
  destruct (dlv_obj _ _ _ _ _ _ _ Hd) as (t' & Hl' & Hptr & Hlen & Hfin).
  exists le, l', t'. eexists. split; [done|]. cbn. split_and!; try done.
  - by rewrite (Hext _ (dlv_new _ _ _ _ _ _ _ Hd)).
  - by rewrite Hx', Hx.
Qed.
End Tpcall.

(** ** Entering a context *)

Section Enter.
Context `{Xatmi} (vm : jvm).

(** The context private data after [ndrxj_get_ctx], for a context that is not a
    server's. *)
Definition entered (o : loc) (ctx : Z) (x : xst) : xst :=
  ndrx_ctx_priv_put (CtxPriv (Some o) ctx (NDRXJ_CTXFLAGS (ndrx_ctx_priv_get (tpsetctxt ctx x))))
    (tpsetctxt ctx x).

(** An object with a context; the reference the context keeps is live. *)
Record enterable (o : loc) (ctx : Z) (w : world xst) : Prop := {
  ent_obj : ∃ svr, w_heap w !! o = Some (JAtmiCtx ctx svr);
  ent_ctx : ctx ≠ 0%Z;
  ent_srv : Z.land (NDRXJ_CTXFLAGS (ndrx_ctx_priv_get (tpsetctxt ctx (w_x w)))) NDRXJ_CTXFLAGS_SRV = 0%Z;
  ent_ref : ∀ l, NDRXJ_JATMICTX (ndrx_ctx_priv_get (tpsetctxt ctx (w_x w))) = Some l → l ∈ w_weak w
}.

(** The whole effect: the context is set, its private data name the object, and the
    weak reference it kept before is exchanged for the new one. *)
Lemma run_get_ctx o ctx w :
  vm_has_memory vm → enterable o ctx w →
  ∃ wk tk, ndrxj_get_ctx vm (Some o) true w =
      Ok ctx (World (w_heap w) (w_next w) (w_exc w) (w_pins w) wk (w_cache w) tk (w_ubf w)
                    (entered o ctx (w_x w))) ∧
    match NDRXJ_JATMICTX (ndrx_ctx_priv_get (tpsetctxt ctx (w_x w))) with
    | Some l => l :: wk ≡ₚ o :: w_weak w
    | None => wk = o :: w_weak w
    end.
Proof.
  intros Hm [[svr Ho] Hc Hs Hr]. unfold ndrxj_get_ctx.
  rewrite run_bind, (run_deref _ _ _ Ho), bool_decide_eq_false_2 by done.
  rewrite run_bind. unfold xmod at 1. rewrite run_bind. unfold refresh_priv.
  rewrite run_bind. unfold xget. cbn [w_x with_x].
  unfold entered. set (p := ndrx_ctx_priv_get (tpsetctxt ctx (w_x w))) in *.
  rewrite bool_decide_eq_false_2 by (intros Hne; by apply Hne). rewrite run_bind.
  destruct (NDRXJ_JATMICTX p) as [l|] eqn:Hl.
  - destruct (decide (l = o)) as [->|Hne].
    + rewrite bool_decide_eq_false_2 by naive_solver. rewrite run_ret, run_bind.
      rewrite bool_decide_eq_false_2 by done. rewrite run_ret. unfold xmod. eexists _, _. by split.
    + rewrite bool_decide_eq_true_2 by naive_solver. rewrite run_bind.
      destruct (remove1_elem l (w_weak w)) as (q & Hq & Hpq); [by apply Hr|].
      unfold DeleteWeakGlobalRef. cbn [w_weak with_x]. rewrite Hq.
      unfold NewWeakGlobalRef. rewrite run_bind. unfold ask. rewrite Hm, run_bind, run_mmod, run_ret, run_bind.
      rewrite bool_decide_eq_false_2 by done. rewrite run_ret. unfold xmod.
      eexists _, _. split; [reflexivity|]. rewrite Hpq. apply Permutation_swap.
  - rewrite bool_decide_eq_false_2 by naive_solver. rewrite run_ret, run_bind.
    rewrite bool_decide_eq_true_2 by done. unfold NewWeakGlobalRef. rewrite run_bind. unfold ask.
    rewrite Hm, run_bind, run_mmod, run_ret. unfold xmod. eexists _, _. by split.
Qed.
End Enter.
