(* ===== verification/GiveBack.v ===== *)
(** * Giving buffers back

    The ends of a buffer's life on the Java side: [cleanup] of an object, which frees the
    buffer it owns, and the replies of a server, which pass it to the library. *)
From stdpp Require Import sorting strings gmap list numbers.
From S2P Require Import Prelude CString Jni Xatmi Exceptions TypedBuffer Calls AtmiCtxOps Frame Owners CallSpec.

Section GiveBack.
Context `{XatmiBuffers} (vm : jvm).
Implicit Types (m : gmap loc typed_buffer) (L : gset Z).

(** An owner's buffer is its own and allocated: it may be passed to any call. *)
Lemma owner_usable l t m L :
  single_owner m L → m !! l = Some t → owner t → usable (Some l) m L.
Proof.
  intros Hs Hl Ht. destruct (Hs l t Hl Ht) as [HL Hu]. split.
  - intros l1 t1 l' t' [= <-] H1 Hl' Hne Ho Heq. simplify_eq. apply Hne. by eapply Hu.
  - intros b (t1 & H1 & <-). simplify_eq. by left.
Qed.

Lemma null_usable m L : usable None m L.
Proof. split; [by intros l t l' t'|]. intros b ->. by right. Qed.

(** ** [cleanup] *)

Lemma run_tpfree b (w : world xst) : ∃ x, Java_TypedBuffer_tpfree b w = Ok tt (with_x x w).
Proof.
  unfold Java_TypedBuffer_tpfree. rewrite run_bind. unfold xcall. destruct (tpnewctxt (w_x w)) as [c x].
  by eexists.
Qed.

Lemma at_tpfree b m L : triple (buffers_at m L) (Java_TypedBuffer_tpfree b) (λ _, buffers_at m (L ∖ {[b]})).
Proof.
  unfold Java_TypedBuffer_tpfree. eapply (triple_bind _ _ (λ _, buffers_at m L)).
  { intros w (Hf & Ht & Hx). unfold xcall. pose proof (live_newctxt (w_x w)) as Hl.
    destruct (tpnewctxt (w_x w)) as [c x]. simpl in *. unfold buffers_at. simpl. by rewrite Hl. }
  intros c. eapply (triple_bind _ _ (λ _, buffers_at m (L ∖ {[b]}))).
  { intros w (Hf & Ht & <-). unfold xmod, buffers_at. simpl. by rewrite live_free. }
  intros ?. eapply keeps_bind; [apply at_unset|]. intros ?. apply at_xmod, live_freectxt.
Qed.

Lemma at_cleanup l t m L :
  m !! l = Some t →
  triple (buffers_at m L) (Java_TypedBuffer_cleanup (Some l))
    (λ _, if decide (owner t) then buffers_at (<[l := set_cPtr 0 (set_ctx None t)]> m) (L ∖ {[tb_cPtr t]})
          else buffers_at (<[l := set_ctx None t]> m) L).
Proof.
  intros Hl. unfold Java_TypedBuffer_cleanup.
  eapply triple_bind; [by apply at_upd_tb|]. intros ?.
  eapply triple_bind; [apply at_get_tb|]. intros [l' t']. apply triple_pure.
  intros (l1 & [= <-] & _ & Ht'). rewrite lookup_insert_eq in Ht'. injection Ht' as <-. simpl.
  destruct (decide (owner t)) as [[Ef Ez]|Ho].
  - rewrite Ef, (proj2 (Z.eqb_neq _ _) Ez). simpl. eapply triple_bind; [apply at_tpfree|]. intros ?.
    eapply triple_post; [apply at_upd_tb, lookup_insert_eq|]. intros ? w. by rewrite insert_insert_eq.
  - destruct (tb_doFinalize t && negb (tb_cPtr t =? 0)%Z) eqn:E; [|by apply triple_ret].
    destruct Ho. apply andb_prop in E as [? E]. split; [done|]. by destruct (Z.eqb_spec (tb_cPtr t) 0).
Qed.

Lemma cleanup_single_owner l t m L :
  single_owner m L → m !! l = Some t →
  if decide (owner t) then single_owner (<[l := set_cPtr 0 (set_ctx None t)]> m) (L ∖ {[tb_cPtr t]})
  else single_owner (<[l := set_ctx None t]> m) L.
Proof.
  intros Hs Hl. case_decide as Ho.
  - apply single_owner_drop; [by apply single_owner_except|]. by intros [_ ?].
  - apply single_owner_drop; [by apply single_owner_delete|done].
Qed.

Lemma cleanup_runs l t (w : world xst) :
  tbs w !! l = Some t → ∃ w', Java_TypedBuffer_cleanup (Some l) w = Ok tt w'.
Proof.
  intros Hl%tbs_lookup. unfold Java_TypedBuffer_cleanup. rewrite run_bind, (run_upd_tb _ _ _ _ Hl), run_bind.
  rewrite (run_get_tb l (set_ctx None t)) by apply lookup_insert_eq.
  destruct (_ && _); [|by eexists].
  destruct (run_tpfree (tb_cPtr (set_ctx None t)) (set_obj l (JTypedBuffer (set_ctx None t)) w)) as [x Hx].
  rewrite run_bind, Hx, (run_upd_tb l (set_ctx None t)) by apply lookup_insert_eq. by eexists.
Qed.

Lemma ok_cleanup o : keeps buffers_ok (Java_TypedBuffer_cleanup o).
Proof.
  intros w [Hf Hs]. destruct o as [l|]; [|done].
  destruct (tbs w !! l) as [t|] eqn:Hl.
  - pose proof (at_cleanup l t (tbs w) (live (w_x w)) Hl w ltac:(by repeat split)) as Hc.
    pose proof (cleanup_single_owner l t _ _ Hs Hl) as Ho.
    destruct (Java_TypedBuffer_cleanup _ w); [|done].
    destruct (decide (owner t)); by eapply buffers_at_ok.
  - unfold Java_TypedBuffer_cleanup, upd_tb. rewrite !run_bind.
    pose proof (at_get_tb (Some l) (tbs w) (live (w_x w)) w ltac:(by repeat split)) as Hg.
    destruct (get_tb (Some l) w) as [[l' t] w'|]; [|done].
    destruct Hg as (_ & l1 & [= <-] & _ & ?). simplify_eq.
Qed.

(** An owner is cleaned up: the run, and the second one. *)
Lemma cleanup_owner l t (w : world xst) :
  buffers_ok w → tbs w !! l = Some t → owner t →
  tb_cPtr t ∈ live (w_x w) ∧
  ∃ w1, Java_TypedBuffer_cleanup (Some l) w = Ok tt w1 ∧ buffers_ok w1 ∧
    live (w_x w1) = live (w_x w) ∖ {[tb_cPtr t]} ∧
    tbs w1 = <[l := set_cPtr 0 (set_ctx None t)]> (tbs w) ∧
    ∃ w2, Java_TypedBuffer_cleanup (Some l) w1 = Ok tt w2 ∧ w_x w2 = w_x w1.
Proof.
  intros [Hf Hs] Hl Ht. split; [by apply (Hs l t)|].
  pose proof (at_cleanup l t (tbs w) (live (w_x w)) Hl w ltac:(by repeat split)) as Hc.
  pose proof (cleanup_single_owner l t _ _ Hs Hl) as Ho.
  destruct (cleanup_runs l t w) as [w1 Hr]; [done|]. rewrite Hr in Hc.
  destruct (decide (owner t)) as [_|?]; [|done]. exists w1.
  split_and!; [done|by eapply buffers_at_ok|by destruct Hc as (_ & _ & ->)|by destruct Hc as (_ & -> & _)|].
  destruct Hc as (Hf1 & Hm1 & _).
  assert (Hl1 : w_heap w1 !! l = Some (JTypedBuffer (set_cPtr 0 (set_ctx None t)))).
  { apply tbs_lookup. rewrite Hm1. apply lookup_insert_eq. }
  unfold Java_TypedBuffer_cleanup. rewrite run_bind, (run_upd_tb _ _ _ _ Hl1), run_bind.
  rewrite (run_get_tb l (set_ctx None (set_cPtr 0 (set_ctx None t)))) by apply lookup_insert_eq.
  cbn. rewrite andb_false_r. by eexists.
Qed.

(** ** Replies *)

(** The object gives the buffer up; the caller passes it on. *)
Lemma at_give_up o m L :
  single_owner m L → usable o m L →
  triple (buffers_at m L) (give_up_buffer o)
    (λ r w, match r with
            | Some (b, _) => ∃ m', buffers_at m' L w ∧ single_owner m' (L ∖ {[b]})
            | None => buffers_ok w
            end).
Proof.
  intros Hs [Hu _]. unfold give_up_buffer. destruct o as [l|].
  2: { apply triple_ret. intros w Hw. exists m. split; [done|]. by apply single_owner_nonzero. }
  unfold ndrxj_atmi_TypedBuffer_get_buffer.
  eapply (triple_bind _ _ (λ r w, ∃ m', buffers_at m' L w ∧ single_owner m' (L ∖ {[r.1.1.2]}))).
  - eapply triple_bind; [apply at_get_tb|]. intros [l' t]. apply triple_pure.
    intros (l1 & [= <-] & _ & Hl). simpl in Hl.
    eapply triple_bind; [by apply at_upd_tb|]. intros ?.
    eapply triple_bind; [apply at_upd_tb, lookup_insert_eq|]. intros ?. rewrite insert_insert_eq.
    set (m' := <[l := _]> m).
    assert (Hm' : single_owner m' (L ∖ {[tb_cPtr t]})).
    { apply single_owner_drop; [|by intros [? _]].
      apply (single_owner_unshared (Some l)); [done|by exists t|done]. }
    eapply triple_bind; [apply quiet_at; quiet_tac|]. intros [].
    + eapply triple_bind; [apply quiet_at; quiet_tac|]. intros ?. apply triple_ret. intros w Hw. by exists m'.
    + apply triple_ret. intros w Hw. by exists m'.
  - intros [[[r b] n] f]. destruct (r =? EXSUCCEED)%Z; apply triple_ret; [done|].
    intros w (m' & Hw & Hm'). eapply buffers_at_ok; [|exact Hw]. eapply single_owner_mono; [|exact Hm'].
    set_solver.
Qed.

(** The library call that takes the buffer. *)
Lemma ok_passed_on f b m L :
  (∀ x, live x ∖ {[b]} ⊆ live (f x)) → single_owner m (L ∖ {[b]}) →
  triple (buffers_at m L) (xmod f) (λ _, buffers_ok).
Proof.
  intros Hf Hs w (Hh & <- & <-). unfold xmod. split; [done|]. simpl.
  eapply single_owner_mono; [apply Hf|exact Hs].
Qed.

Lemma ok_tpreturn o rv rc d f :
  triple (λ w, buffers_ok w ∧ usable d (tbs w) (live (w_x w))) (Java_AtmiCtx_tpreturn vm o rv rc d f)
         (λ _, buffers_ok).
Proof.
  apply triple_start. intros m L Hs Hu. unfold Java_AtmiCtx_tpreturn, in_ctx.
  eapply triple_bind; [apply at_get_ctx|]. intros c.
  destruct (c =? 0)%Z; [apply triple_ret; intros w; by apply buffers_at_ok|].
  eapply (triple_bind _ _ (λ _, buffers_ok)).
  2: { intros ?. eapply triple_bind; [apply ok_unset|]. intros ?. apply keeps_ret. }
  eapply triple_bind; [by apply at_give_up|]. intros [[b n]|]; [|by apply triple_ret].
  apply triple_exist. intros m'. apply triple_pure. intros Hm'.
  eapply ok_passed_on; [|exact Hm']. intros x. apply live_return.
Qed.

Lemma ok_tpforward o svc d f :
  triple (λ w, buffers_ok w ∧ usable d (tbs w) (live (w_x w))) (Java_AtmiCtx_tpforward vm o svc d f)
         (λ _, buffers_ok).
Proof.
  apply triple_start. intros m L Hs Hu. unfold Java_AtmiCtx_tpforward.
  eapply triple_bind; [apply quiet_at; quiet_tac|]. intros [n cp].
  eapply triple_bind; [apply at_get_ctx|]. intros c.
  destruct (c =? 0)%Z; [apply triple_ret; intros w; by apply buffers_at_ok|].
  eapply triple_bind; [by apply at_give_up|]. intros r.
  eapply (triple_bind _ _ (λ _, buffers_ok)).
  - destruct r as [[b len]|]; [|by apply triple_ret].
    apply triple_exist. intros m'. apply triple_pure. intros Hm'.
    eapply ok_passed_on; [|exact Hm']. intros x. apply live_forward.
  - intros ?. eapply keeps_bind; [apply ok_quiet; quiet_tac|]. intros ?. apply ok_unset.
Qed.
End GiveBack.
