(* ===== verification/Serving.v ===== *)
(** * Every request is served

    A server program: Java code that returns from each callback, and a library whose
    own steps stay in the server's context.  Then the main loop returns, and every request
    it took in was handed to Java once and in order.  Exceptions of services make no
    difference to this, although a comment in [dispatch_call] says they end the process. *)
From stdpp Require Import sorting strings gmap list numbers.
From S2P Require Import Prelude CString Jni Xatmi Exceptions TypedBuffer Calls AtmiCtxOps Convert.
From S2P Require Import Callback Server Frame CallSpec.

Section Serving.
Context `{ServerLib} `{!JavaCode} `{QueueTypes} `{!XatmiLaws} (vm : jvm).
Hypothesis memory : vm_has_memory vm.

(** The server's context and its object. *)
Context (c : Z) (o : loc).

(** The context object is in place. *)
Definition ctx_at (w : world xst) : Prop :=
  (o < w_next w)%positive ∧ ∃ svr, w_heap w !! o = Some (JAtmiCtx c (Some svr)).

(** The request's buffer is of a type Java knows, or the request has none, and no
    length. *)
Definition supported (i : tpsvcinfo) (x : xst) : Prop :=
  if (svc_data i =? 0)%Z then svc_len i = 0%Z
  else
  let '(r, t, _) := (tptypes (svc_data i) x).1 in
  r ≠ EXFAIL ∧ t ≠ "NULL"%string ∧ buffer_class t ≠ None.

(** The Java object [jd] for the request's buffer: NULL, or one that does not free. *)
Definition request_data (i : tpsvcinfo) (jd : jobject) (w : world xst) : Prop :=
  if (svc_data i =? 0)%Z then jd = None ∧ svc_len i = 0%Z
  else ∃ ld cls, jd = Some ld ∧
    w_heap w !! ld = Some (JTypedBuffer (TypedBuffer cls (Some o) false (svc_data i) (svc_len i))).

(** The object [l] is the request [i]. *)
Definition svcinfo_at (l : loc) (i : tpsvcinfo) (w : world xst) : Prop :=
  ∃ jname jfname jcltid jcd jdata,
    w_heap w !! l = Some (TpSvcInfo_object i (Some jname) jdata (Some jcltid) (Some jfname)) ∧
    w_heap w !! jname = Some (JString (svc_name i)) ∧
    w_heap w !! jfname = Some (JString (svc_fname i)) ∧
    w_heap w !! jcltid = Some (JObject "org/endurox/ClientId" {["clientData" := AObj (Some jcd)]}) ∧
    w_heap w !! jcd = Some (JString (svc_cltid i)) ∧
    request_data i jdata w.

(** A library invariant [inv], and what Java has been given so far, as far as the
    state outside of the virtual machine shows it. *)
Context (inv : xst → Prop) (served : xst → list tpsvcinfo).

(** The state Java code is called in. *)
Definition java_ready (w : world xst) : Prop :=
  inv (w_x w) ∧ null_ctx w ∧ w_exc w = None ∧ ctx_at w.

Record server_program : Prop := {
  sp_priv x : inv x → NDRXJ_JATMICTX (ndrx_ctx_priv_get (tpsetctxt c x)) = Some o ∧
                      NDRXJ_CCTX (ndrx_ctx_priv_get (tpsetctxt c x)) = c;
  sp_priv_here x : inv x → x_ctx x = c → NDRXJ_JATMICTX (ndrx_ctx_priv_get x) = Some o;
  sp_set k x : inv x → inv (tpsetctxt k x);
  sp_set_served k x : served (tpsetctxt k x) = served x;
  sp_put_served p x : served (ndrx_ctx_priv_put p x) = served x;
  sp_types b x : inv x → inv (tptypes b x).2 ∧ served (tptypes b x).2 = served x;
  sp_dispatch l i w :
    java_ready w → svcinfo_at l i w →
    ∃ v w', java_run (J_tpCallDispatch (Some o) (Some l)) w = Ok v w' ∧
      inv (w_x w') ∧ ctx_at w' ∧ served (w_x w') = served (w_x w) ++ [i];
  sp_init svr a w :
    java_ready w →
    ∃ z w', java_run (J_tpSvrInit (Some svr) (Some o) a) w = Ok (V_num z) w' ∧
      inv (w_x w') ∧ ctx_at w' ∧ served (w_x w') = served (w_x w);
  sp_done svr w :
    java_ready w →
    ∃ v w', java_run (J_tpSvrDone (Some svr) (Some o)) w = Ok v w' ∧
      inv (w_x w') ∧ ctx_at w' ∧ served (w_x w') = served (w_x w) ∧ w_exc w' = None
}.

(** Services that raise no exception. *)
Record quiet_program : Prop := {
  qp_program : server_program;
  qp_quiet l i w v w' :
    java_ready w → svcinfo_at l i w → java_run (J_tpCallDispatch (Some o) (Some l)) w = Ok v w' → w_exc w' = None
}.

(** The state in the library's main loop. *)
Definition serving (w : world xst) : Prop :=
  inv (w_x w) ∧ x_ctx (w_x w) = c ∧ w_exc w = None ∧ ctx_at w.

(** The library's own steps keep the context and take in supported requests. *)
Fixpoint script_ok (s : script xst server_cb Z Z) : Prop :=
  match s with
  | S_ret _ => True
  | S_lib f k =>
      (∀ x, inv x → x_ctx x = c → inv (f x) ∧ x_ctx (f x) = c ∧ served (f x) = served x) ∧
      ∀ x, script_ok (k x)
  | S_call cb k =>
      (match cb with CB_dispatch i => ∀ x, inv x → supported i x | _ => True end) ∧
      ∀ r, script_ok (k r)
  end.

(** The requests among the callbacks made. *)
Definition requests (log : list server_cb) : list tpsvcinfo :=
  omap (λ cb, match cb with CB_dispatch i => Some i | _ => None end) log.

Hypothesis prog : server_program.

(** *** Translating a request *)

(** [w'] has the objects of [w] and new ones; what Java was given is the same. *)
Definition grown (w w' : world xst) : Prop :=
  (w_next w ≤ w_next w')%positive ∧ extends w w' ∧ w_exc w' = w_exc w ∧
  x_ctx (w_x w') = x_ctx (w_x w) ∧ (inv (w_x w) → inv (w_x w') ∧ served (w_x w') = served (w_x w)).

Lemma grown_refl w : grown w w.
Proof. by repeat split. Qed.

Lemma grown_trans w1 w2 w3 : grown w1 w2 → grown w2 w3 → grown w1 w3.
Proof.
  intros (Hn & Hh & He & Hc & Hi) (Hn' & Hh' & He' & Hc' & Hi').
  split; [lia|]. split; [intros l Hl; rewrite Hh', Hh by lia; done|].
  split; [congruence|]. split; [congruence|].
  intros Hx. destruct (Hi Hx) as [Hx1 Hs1]. destruct (Hi' Hx1). split; [done|congruence].
Qed.

Lemma grown_new v w :
  grown w (with_heap (<[w_next w := v]> (w_heap w)) (Pos.succ (w_next w)) (ticked w)).
Proof.
  split; [simpl; lia|]. split; [|done]. intros l Hl. simpl. rewrite lookup_insert_ne; [done|lia].
Qed.

Lemma grown_ctx_at w w' : grown w w' → ctx_at w → ctx_at w'.
Proof. intros (Hn & Hh & _) [Hl [svr Ho]]. split; [lia|]. exists svr. by rewrite Hh. Qed.

Lemma grown_lookup w w' (l : loc) v : grown w w' → (l < w_next w)%positive → w_heap w !! l = Some v →
  w_heap w' !! l = Some v.
Proof. intros (_ & Hh & _) Hl Hv. by rewrite Hh. Qed.

Lemma run_translate_request i w :
  inv (w_x w) → supported i (w_x w) →
  ∃ jd w', ndrxj_atmi_TypedBuffer_translate vm (Some o) true (svc_data i) (svc_len i) None false w = Ok jd w' ∧
    grown w w' ∧ request_data i jd w' ∧ (∀ ld, jd = Some ld → (ld < w_next w')%positive).
Proof.
  intros Hi Hs. unfold ndrxj_atmi_TypedBuffer_translate, request_data, supported in *. rewrite run_bind, run_ret, run_bind.
  destruct (Z.eqb_spec (svc_data i) 0) as [Hz|Hz].
  { exists None, w. split; [done|]. split; [apply grown_refl|]. split; [|done]. done. }
  rewrite run_bind. unfold xcall.
  pose proof (keep_ctx_types (svc_data i) (w_x w)) as Hk.
  pose proof (sp_types prog (svc_data i) (w_x w)) as Hy.
  destruct (tptypes (svc_data i) (w_x w)) as [[[r t] st] x'] eqn:E. simpl in *.
  destruct Hs as (Hr & Ht & Hb). rewrite (proj2 (Z.eqb_neq _ _) Hr). unfold translate_typed.
  rewrite (proj2 (String.eqb_neq _ _) Ht). destruct (buffer_class t) as [cls|]; [|done].
  rewrite run_jni_new by done. eexists _, _. split; [done|]. split.
  { eapply (grown_trans _ (with_x x' w)); [|apply grown_new]. split; [simpl; lia|]. by split_and!. }
  split; [|intros ld [= <-]; simpl; lia]. eexists _, _. split; [done|]. apply lookup_insert_eq.
Qed.

Lemma run_translate i w :
  inv (w_x w) → supported i (w_x w) →
  ∃ l w', ndrxj_atmi_TpSvcInfo_translate vm (Some o) true i w = Ok (Some l) w' ∧
    grown w w' ∧ svcinfo_at l i w'.
Proof.
  intros Hi Hs. unfold ndrxj_atmi_TpSvcInfo_translate. rewrite run_bind, run_ret. cbv beta iota.
  destruct (run_translate_request i w Hi Hs) as (jd & w1 & Hr & Hg & Hd & Hlt).
  rewrite run_bind, Hr, run_bind. unfold ndrxj_atmi_ClientId_translate, NewStringUTF.
  rewrite run_bind, run_ret. cbv beta iota. rewrite run_bind, run_jni_new by done.
  rewrite run_bind, run_jni_new, run_bind, run_ret, run_ret by done.
  cbv beta iota. rewrite run_bind, run_bind, run_jni_new, run_bind, run_jni_new, run_jni_new by done.
  rewrite run_bind, run_ret, run_ret.
  set (w5 := with_heap (<[_ := TpSvcInfo_object _ _ _ _ _]> _) _ _).
  assert (grown w1 w5) as Hg5.
  { subst w5. repeat first [apply grown_refl | eapply grown_trans; [|apply grown_new]]. }
  exists (Pos.succ (Pos.succ (Pos.succ (Pos.succ (w_next w1))))), w5.
  split; [done|]. split; [by eapply grown_trans|].
  exists (Pos.succ (Pos.succ (w_next w1))), (Pos.succ (Pos.succ (Pos.succ (w_next w1)))),
    (Pos.succ (w_next w1)), (w_next w1), jd.
  subst w5. cbn [w_heap with_heap ticked w_next] in *.
  split; [apply lookup_insert_eq|].
  split; [by rewrite !lookup_insert_ne, lookup_insert_eq by lia|].
  split; [by rewrite !lookup_insert_ne, lookup_insert_eq by lia|].
  split; [by rewrite !lookup_insert_ne, lookup_insert_eq by lia|].
  split; [by rewrite !lookup_insert_ne, lookup_insert_eq by lia|].
  unfold request_data in *. destruct (svc_data i =? 0)%Z; [done|]. destruct Hd as (ld & cls & -> & Hd).
  exists ld, cls. split; [done|]. eapply grown_lookup; [exact Hg5|by apply Hlt|done].
Qed.

(** *** Calling Java *)

Lemma leave_ready w :
  serving w → java_ready (with_x (tpsetctxt TPNULLCONTEXT (w_x w)) w).
Proof.
  intros (Hi & Hc & He & Ho). split; [by apply (sp_set prog)|]. split; [apply keep_ctx_set|]. by split.
Qed.

Lemma run_outside (m : jobject → java_method) w v w2 :
  serving w → receiver (m (Some o)) ≠ None →
  java_run (m (Some o)) (with_x (tpsetctxt TPNULLCONTEXT (w_x w)) w) = Ok v w2 → inv (w_x w2) →
  outside c (λ p, m (NDRXJ_JATMICTX p)) w = Ok v (with_x (tpsetctxt c (w_x w2)) w2).
Proof.
  intros Hw Hm Hr Hi. destruct (leave_ready w Hw) as (Hi1 & _ & He1 & _). unfold outside, priv_of.
  rewrite run_bind. unfold unset_ctx, xmod at 1. rewrite run_bind. unfold xget at 1.
  rewrite (proj1 (sp_priv prog _ Hi1)), run_bind. unfold call_java.
  rewrite run_bind, run_ExceptionCheck, bool_decide_eq_false_2 by (rewrite He1; naive_solver).
  destruct (receiver (m (Some o))); [|done]. rewrite Hr, run_bind. unfold xget.
  rewrite (proj2 (sp_priv prog _ Hi)), run_bind. done.
Qed.

Lemma run_drop_exception w : drop_exception w = Ok (bool_decide (w_exc w ≠ None)) (with_exc None w).
Proof.
  unfold drop_exception. rewrite run_bind, run_ExceptionCheck, run_bind. case_bool_decide as He.
  - rewrite run_bind. unfold NDRXJ_LOG_EXCEPTION. by rewrite run_bind, run_ExceptionCheck, bool_decide_eq_true_2.
  - rewrite run_ret, run_ret. destruct w. simpl in *. destruct w_exc; [|done]. by destruct He.
Qed.

(** Back from Java, without an exception. *)
Lemma back_serving w :
  inv (w_x w) → ctx_at w → serving (with_exc None (with_x (tpsetctxt c (w_x w)) w)) ∧
  served (tpsetctxt c (w_x w)) = served (w_x w).
Proof.
  intros Hi Ho. pose proof (sp_set prog c _ Hi) as Hi'. split; [|apply (sp_set_served prog)].
  split; [done|]. split; [apply keep_ctx_set|]. by split.
Qed.

(** One request. *)
Lemma run_dispatch_call i w :
  serving w → supported i (w_x w) →
  ∃ w', dispatch_call vm i w = Ok tt w' ∧ serving w' ∧ served (w_x w') = served (w_x w) ++ [i].
Proof.
  intros Hw Hs. destruct Hw as (Hi & Hc & He & Ho). unfold dispatch_call.
  rewrite run_bind. unfold xget at 1. rewrite Hc, run_bind. unfold xget at 1.
  rewrite (sp_priv_here prog _ Hi Hc), run_bind.
  destruct (run_translate i w Hi Hs) as (l & w1 & -> & Hg & Hl). pose proof Hg as (_ & _ & He1 & Hc1 & Hi1).
  destruct (Hi1 Hi) as [Hx1 Hs1].
  assert (serving w1) as Hw1.
  { split; [done|]. split; [congruence|]. split; [congruence|]. by eapply grown_ctx_at. }
  destruct (sp_dispatch prog l i _ (leave_ready _ Hw1) Hl) as (v & w2 & Hr & Hi2 & Ho2 & Hs2).
  rewrite run_bind.
  rewrite (run_outside (λ o', J_tpCallDispatch o' (Some l)) w1 v w2 Hw1) by done.
  rewrite run_bind, run_drop_exception, run_ret. destruct (back_serving w2 Hi2 Ho2) as [Hw2 Hs3].
  eexists. split; [done|]. split; [exact Hw2|]. simpl. rewrite Hs3, Hs2. simpl.
  by rewrite (sp_set_served prog), Hs1.
Qed.

(** The server object of the context. *)
Lemma run_get_svr w : ctx_at w → ∃ svr, get_svr (Some o) w = Ok (Some svr) w.
Proof.
  intros [_ [svr Ho]]. exists svr. unfold get_svr. by rewrite run_bind, (run_deref _ _ _ Ho).
Qed.

Lemma run_tpsvrinit a w :
  serving w → ∃ r w', ndrxj_tpsvrinit a w = Ok r w' ∧ serving w' ∧ served (w_x w') = served (w_x w).
Proof.
  intros Hw. pose proof Hw as (Hi & Hc & He & Ho). destruct (run_get_svr w Ho) as [svr Hg].
  unfold ndrxj_tpsvrinit. rewrite run_bind. unfold xget at 1. rewrite Hc, run_bind. unfold xget at 1.
  rewrite (sp_priv_here prog _ Hi Hc), run_bind, Hg.
  destruct (sp_init prog svr a _ (leave_ready _ Hw)) as (z & w2 & Hr & Hi2 & Ho2 & Hs2). rewrite run_bind.
  rewrite (run_outside (λ o', J_tpSvrInit (Some svr) o' a) w (V_num z) w2 Hw) by done.
  rewrite run_bind, run_drop_exception. destruct (back_serving w2 Hi2 Ho2) as [Hw2 Hs3].
  assert (served (tpsetctxt c (w_x w2)) = served (w_x w)) as Hs4.
  { rewrite Hs3, Hs2. simpl. apply (sp_set_served prog). }
  case_bool_decide; by eauto.
Qed.

Lemma run_tpsvrdone w :
  serving w → ∃ w', ndrxj_tpsvrdone w = Ok tt w' ∧ serving w' ∧ served (w_x w') = served (w_x w).
Proof.
  intros Hw. pose proof Hw as (Hi & Hc & He & Ho). destruct (run_get_svr w Ho) as [svr Hg].
  unfold ndrxj_tpsvrdone. rewrite run_bind. unfold xget at 1. rewrite Hc, run_bind. unfold xget at 1.
  rewrite (sp_priv_here prog _ Hi Hc), run_bind, Hg.
  destruct (sp_done prog svr _ (leave_ready _ Hw)) as (v & w2 & Hr & Hi2 & Ho2 & Hs2 & He2). rewrite run_bind.
  rewrite (run_outside (λ o', J_tpSvrDone (Some svr) o') w v w2 Hw) by done. rewrite run_ret.
  destruct (back_serving w2 Hi2 Ho2) as [Hw2 Hs3]. eexists. split; [done|].
  split; [|simpl; rewrite Hs3, Hs2; simpl; apply (sp_set_served prog)].
  destruct Hw2 as (? & ? & _ & ?). split; [done|]. by split.
Qed.

(** The main loop: every request it took in was handed over, in order. *)
Lemma run_main_loop a s w :
  script_ok s → serving w →
  ∃ log r w', run_script (server_handle vm a) s w = Ok (log, r) w' ∧ serving w' ∧
    served (w_x w') = served (w_x w) ++ requests log.
Proof.
  revert w. induction s as [r|f k IH|cb k IH]; intros w Hs Hw; cbn [run_script].
  - exists [], r, w. split; [done|]. split; [done|]. by rewrite app_nil_r.
  - destruct Hs as [Hf Hk]. pose proof Hw as (Hi & Hc & He & Ho). rewrite run_bind, run_mmod, run_bind.
    destruct (Hf _ Hi Hc) as (Hi' & Hc' & Hs').
    destruct (IH (f (w_x w)) (with_x (f (w_x w)) w) (Hk _)) as (log & r & w' & Hr & Hw' & Hsv);
      [split; [done|by split]|]. exists log, r, w'. split; [exact Hr|]. split; [done|]. rewrite Hsv. simpl. by rewrite Hs'.
  - destruct Hs as [Hcb Hk]. rewrite run_bind.
    assert (∃ z w1, server_handle vm a cb w = Ok z w1 ∧ serving w1 ∧
              served (w_x w1) = served (w_x w) ++ requests [cb]) as (z & w1 & -> & Hw1 & Hs1).
    { destruct cb as [|i|]; cbn [server_handle requests omap list_omap].
      - destruct (run_tpsvrinit a w Hw) as (r & w' & ? & ? & ?). exists r, w'. by rewrite app_nil_r.
      - destruct (run_dispatch_call i w Hw) as (w' & Hr & ? & ?); [by apply Hcb, Hw|].
        exists 0%Z, w'. by rewrite run_bind, Hr.
      - destruct (run_tpsvrdone w Hw) as (w' & Hr & ? & ?). exists 0%Z, w'.
        by rewrite run_bind, Hr, app_nil_r. }
    destruct (IH z w1 (Hk z) Hw1) as (log & r & w' & Hr & Hw' & Hs'). rewrite run_bind, Hr, run_ret.
    exists (cb :: log), r, w'. split; [done|]. split; [done|]. rewrite Hs', Hs1, <- app_assoc. f_equal.
    by destruct cb.
Qed.

(** *** [tpRunC] *)

Lemma run_copy_args els strs w :
  vm_hands_copies vm → Forall2 (λ e s, ∃ l, e = Some l ∧ w_heap w !! l = Some (JString s)) els strs →
  ∃ w', copy_args vm els w = Ok (Some strs) w' ∧ same_but_tick w w'.
Proof.
  intros Hcp. revert strs w. induction els as [|e els IH]; intros strs w Hf;
    apply Forall2_cons_inv_l in Hf || apply Forall2_nil_inv_l in Hf.
  { subst. exists w. split; [done|apply same_but_tick_refl]. }
  destruct Hf as (s & strs' & (l & -> & Hl) & Hf & ->). cbn [copy_args].
  rewrite run_bind, (run_GetStringUTFChars vm l s) by done. rewrite Hcp.
  rewrite run_bind. unfold ask. rewrite memory, run_bind, run_ret, run_bind. unfold release_if.
  rewrite (run_Release_head l (w_pins w)) by done. rewrite run_bind.
  assert (with_pins (w_pins w) (ticked (with_pins (l :: w_pins w) (ticked (ticked w)))) =
          Nat.iter 3 ticked w) as -> by by destruct w.
  destruct (IH strs' (Nat.iter 3 ticked w)) as (w' & -> & Hw'); [by destruct (iter_ticked 3 w) as [-> _]|].
  exists w'. split; [done|]. eapply same_but_tick_trans; [by exists 3|done].
Qed.

(** The library's state when the main loop starts. *)
Definition server_state (x : xst) : xst :=
  let x1 := entered o c x in
  ndrx_ctx_priv_put (CtxPriv (Some o) c (Z.lor (NDRXJ_CTXFLAGS (ndrx_ctx_priv_get x1)) NDRXJ_CTXFLAGS_SRV)) x1.

Lemma same_but_tick_serving w w' : same_but_tick w w' → serving w → serving w'.
Proof.
  intros [n ->]. destruct (iter_ticked n w) as (Hh & Hn & He & _ & _ & _ & Hx).
  unfold serving, ctx_at. by rewrite Hh, Hn, He, Hx.
Qed.

Lemma run_mark_server w :
  ∃ w', mark_server vm (Some o) c w = Ok (Some o) w' ∧ w_heap w' = w_heap w ∧ w_next w' = w_next w ∧
    w_exc w' = w_exc w ∧ w_pins w' = w_pins w ∧
    w_x w' = ndrx_ctx_priv_put (CtxPriv (Some o) c
               (Z.lor (NDRXJ_CTXFLAGS (ndrx_ctx_priv_get (w_x w))) NDRXJ_CTXFLAGS_SRV)) (w_x w).
Proof.
  unfold mark_server. rewrite run_bind. unfold ask. rewrite memory, run_bind. unfold xget. cbn [w_x ticked].
  rewrite run_bind, run_mmod, run_bind. unfold xmod. rewrite run_ret. eexists. split; [done|].
  destruct (NDRXJ_JATMICTX (ndrx_ctx_priv_get (w_x w))) as [l|]; [|done].
  cbn [w_weak ticked]. by destruct (remove1 l (w_weak w)).
Qed.

(** A whole run of a server. *)
Lemma run_tpRunC la els strs nocheck w :
  vm_hands_copies vm → (∀ e, vm_throws vm e) →
  enterable o c w → ctx_at w → w_exc w = None → inv (server_state (w_x w)) →
  w_heap w !! la = Some (JArray els) →
  Forall2 (λ e s, ∃ l, e = Some l ∧ w_heap w !! l = Some (JString s)) els strs →
  (nocheck = false → 4 ≤ length els) →
  script_ok (ndrx_main_integra (EX_PROGNAME :: strs)) →
  ∃ log r w1 w2 w', Java_AtmiCtx_tpRunC vm (Some o) (Some la) nocheck w = Ok r w' ∧
    w_x w1 = server_state (w_x w) ∧ w_heap w1 = w_heap w ∧ w_exc w1 = None ∧
    run_script (server_handle vm (Some la)) (ndrx_main_integra (EX_PROGNAME :: strs)) w1 = Ok (log, r) w2 ∧
    w_x w' = tpsetctxt TPNULLCONTEXT (w_x w2) ∧
    served (w_x w') = served (w_x w) ++ requests log ∧ null_ctx w'.
Proof.
  intros Hcp Hth He Ho Hex Hi Hla Hargs Hn Hs. unfold Java_AtmiCtx_tpRunC.
  destruct (run_get_ctx vm o c w memory He) as (wk & tk & Hg & _). rewrite run_bind, Hg.
  rewrite (proj2 (Z.eqb_neq _ _) (ent_ctx _ _ _ He)). set (wa := World _ _ _ _ _ _ _ _ _).
  rewrite run_bind, run_bind. unfold GetArrayLength. rewrite run_bind, (run_deref la (JArray els)) by done.
  rewrite run_ret, run_ret, run_bind.
  destruct (run_mark_server wa) as (wb & -> & Hhb & Hnb & Heb & Hpb & Hxb). rewrite run_bind.
  assert (serving wb) as Hwb.
  { unfold serving, ctx_at. rewrite Hhb, Hnb, Heb, Hxb. split; [exact Hi|]. split; [|by split].
    simpl. rewrite keep_ctx_priv. unfold entered. by rewrite keep_ctx_priv, keep_ctx_set. }
  unfold run_server, array_elements. rewrite run_bind, run_bind, (run_deref la (JArray els)) by (by rewrite Hhb).
  rewrite run_ret.
  assert (negb nocheck && (length els <? 4) = false) as ->.
  { destruct nocheck; [done|]. by apply Nat.ltb_ge, Hn. }
  rewrite run_bind. unfold ask at 1. rewrite memory, run_bind. unfold ask at 1. rewrite memory, run_bind.
  destruct (run_copy_args els strs (ticked (ticked wb))) as (wc & Hr & Hwc); [done|cbn [w_heap ticked]; by rewrite Hhb|].
  rewrite Hr, run_bind.
  destruct (run_main_loop (Some la) _ wc Hs) as (log & r & wd & Hrun & Hwd & Hsv).
  { eapply same_but_tick_serving; [exact Hwc|]. by eapply (same_but_tick_serving wb); [by exists 2|]. }
  assert (w_x wc = server_state (w_x w) ∧ w_heap wc = w_heap w ∧ w_exc wc = None) as (Hxc & Hhc & Hec).
  { destruct Hwc as [n ->]. destruct (iter_ticked n (ticked (ticked wb))) as (-> & _ & -> & _ & _ & _ & ->).
    simpl. by rewrite Hxb, Hhb, Heb. }
  assert (served (w_x wc) = served (w_x w)) as Hsc.
  { rewrite Hxc. unfold server_state. rewrite (sp_put_served prog). unfold entered. by rewrite (sp_put_served prog), (sp_set_served prog). }
  rewrite Hrun, run_bind. exists log, r, wc, wd. rewrite <- Hsc.
  assert (∃ we, (if (r =? EXSUCCEED)%Z then mret tt else e ← xget tperrno;
      if (e =? 0)%Z then mret tt else ndrxj_atmi_throw vm None None e (tpstrerror e)) wd = Ok tt we ∧
      w_x we = w_x wd) as (we & -> & Hxe).
  { destruct (r =? EXSUCCEED)%Z; [by exists wd|]. rewrite run_bind. unfold xget.
    destruct (tperrno (w_x wd) =? 0)%Z; [by exists wd|].
    destruct (run_atmi_throw vm None None (tperrno (w_x wd)) (tpstrerror (tperrno (w_x wd))) wd (Hth _))
      as (l & w' & -> & _ & _ & _ & _ & _ & Hx). by exists w'. }
  rewrite run_ret, run_bind. unfold unset_ctx, xmod. rewrite run_ret. eexists. split; [done|].
  split_and!; [done..| | |]; simpl; rewrite Hxe; [done|by rewrite (sp_set_served prog)|]. apply keep_ctx_set.
Qed.
End Serving.
