(* ===== verification/XaProofs.v ===== *)
(** * Identifiers, switch entries and initialisation of the XA driver

    An [XID] becomes an object that holds its parts and comes back as it was; the entries
    of the switch report what Java returned; the settings of the open string arrive in
    Java. *)
From stdpp Require Import sorting strings gmap list numbers.
From S2P Require Import Prelude CString Jni Boot Xatmi Exceptions TypedBuffer Calls AtmiCtxOps Convert.
From S2P Require Import Callback Server XaConfig Xa Frame CallSpec Serving.

(** Private data belong to the context, in which the thread need not be. *)
Class PrivLaws `{Xatmi} : Prop := {
  priv_here x : ndrx_ctx_priv_get (tpsetctxt (x_ctx x) x) = ndrx_ctx_priv_get x;
  priv_outside x :
    ndrx_ctx_priv_get (tpsetctxt (x_ctx x) (tpsetctxt TPNULLCONTEXT x)) = ndrx_ctx_priv_get x
}.

Section XaProofs.
Context `{XA : XaLib} {CL : ContextLib} {JC : JavaCode} (vm : jvm).
Hypothesis memory : vm_has_memory vm.
Implicit Types (w : world xst).

(** New objects only. *)
Definition only_new w w' : Prop :=
  (w_next w ≤ w_next w')%positive ∧ extends w w' ∧ w_exc w' = w_exc w ∧ w_pins w' = w_pins w ∧
  w_x w' = w_x w.

Lemma only_new_trans w1 w2 w3 : only_new w1 w2 → only_new w2 w3 → only_new w1 w3.
Proof.
  intros (Hn & Hh & He & Hp & Hx) (Hn' & Hh' & He' & Hp' & Hx'). split; [lia|].
  split; [intros l Hl; rewrite Hh', Hh by lia; done|]. split_and!; congruence.
Qed.

Lemma only_new_one v w :
  only_new w (with_heap (<[w_next w := v]> (w_heap w)) (Pos.succ (w_next w)) (ticked w)).
Proof.
  split; [simpl; lia|]. split; [|done]. intros l Hl. simpl. rewrite lookup_insert_ne; [done|lia].
Qed.

(** ** Identifiers *)

Definition xid_ok (x : xid) : Prop :=
  length (xid_data x) = XIDDATASIZE ∧ (0 ≤ gtrid_length x)%Z ∧ (0 ≤ bqual_length x)%Z ∧
  (gtrid_length x + bqual_length x ≤ Z.of_nat XIDDATASIZE)%Z ∧ (Z.of_nat XIDDATASIZE < 2147483648)%Z.

Definition gtrid (x : xid) : list Z := take (Z.to_nat (gtrid_length x)) (xid_data x).
Definition bqual (x : xid) : list Z :=
  take (Z.to_nat (bqual_length x)) (drop (Z.to_nat (gtrid_length x)) (xid_data x)).

(** The object [l] is an [ExXid] for [x]. *)
Definition exxid_at (l : loc) (x : xid) w : Prop :=
  ∃ jd jt jb : loc,
    w_heap w !! l = Some (ExXid_object (formatID x) (gtrid_length x) (bqual_length x)
                            (Some jd) (Some jt) (Some jb)) ∧
    w_heap w !! jt = Some (JBytes (gtrid x)) ∧ w_heap w !! jb = Some (JBytes (bqual x)).

Lemma run_new_slice data off n w :
  (0 ≤ off)%Z → (0 ≤ n)%Z → (off + n ≤ Z.of_nat (length data))%Z →
  new_slice vm data off n w =
  Ok (Some (w_next w))
     (with_heap (<[w_next w := JBytes (take (Z.to_nat n) (drop (Z.to_nat off) data))]> (w_heap w))
        (Pos.succ (w_next w)) (ticked w)).
Proof.
  intros Ho Hn Hl. unfold new_slice. rewrite (proj2 (Z.ltb_ge _ _)) by lia. rewrite run_bind. unfold ask.
  rewrite memory. cbn [negb]. by rewrite (proj2 (Z.ltb_ge _ _)) by lia.
Qed.

Lemma run_ExXid_new x (jb : loc) w :
  xid_ok x → (jb < w_next w)%positive → w_heap w !! jb = Some (JBytes (xid_data x)) →
  ∃ l w', ExXid_new vm (formatID x) (gtrid_length x) (bqual_length x) (Some jb) w = Ok (Some l) w' ∧
    (l < w_next w')%positive ∧ exxid_at l x w' ∧ only_new w w'.
Proof.
  intros (Hd & Hg & Hb & Hs & Hz) Hlt Hjb. unfold ExXid_new. rewrite run_bind, (run_deref _ _ _ Hjb).
  rewrite run_bind, run_new_slice, run_bind by lia.
  rewrite !to_jsize_id, run_new_slice, run_bind, run_new_slice, run_jni_new by (done || (unfold INT_MAX; lia)).
  cbn [w_next w_heap with_heap ticked]. eexists _, _. split; [reflexivity|]. split; [simpl; lia|]. split.
  - eexists _, _, _. cbn [w_heap with_heap ticked]. rewrite lookup_insert_eq. split; [reflexivity|].
    rewrite !lookup_insert_ne, lookup_insert_eq by lia. rewrite lookup_insert_ne, lookup_insert_eq by lia.
    by rewrite drop_0.
  - split; [simpl; lia|]. split; [|done]. intros k Hk. simpl. rewrite !lookup_insert_ne by lia. done.
Qed.

Lemma run_xid_to_java x w :
  xid_ok x → ∃ l w', ndrxj_cvt_xid_to_java vm (Some x) w = Ok (Some l) w' ∧
    (l < w_next w')%positive ∧ exxid_at l x w' ∧ only_new w w'.
Proof.
  intros Hx. pose proof Hx as (Hd & _). unfold ndrxj_cvt_xid_to_java. rewrite run_bind, run_NewByteArray by done.
  rewrite run_bind, run_SetByteArrayRegion; [|simpl; by rewrite lookup_insert_eq|done]. rewrite run_bind.
  set (w1 := set_obj _ _ _).
  destruct (run_ExXid_new x (w_next w) w1) as (l & w' & Hr & Hl & Hxid & Hnew); [done|simpl; lia|simpl; by rewrite lookup_insert_eq|].
  rewrite Hr, run_ret. exists l, w'. split; [done|]. split; [done|]. split; [done|]. split; [|split; [|by apply Hnew]].
  - destruct Hnew as [Hn _]. simpl in Hn. lia.
  - intros k Hk. destruct Hnew as (_ & Hh & _). rewrite Hh by (simpl; lia).
    simpl. rewrite !lookup_insert_ne by lia. done.
Qed.

(** Java's [ExXid] methods are those of ExXid.java. *)
Record java_exxid : Prop := {
  je_format l x w : exxid_at l x w → java_run (J_getFormatId (Some l)) w = ExXid_getFormatId (Some l) w;
  je_gtrid l x w : exxid_at l x w →
    java_run (J_getGlobalTransactionId (Some l)) w = ExXid_getGlobalTransactionId (Some l) w;
  je_bqual l x w : exxid_at l x w →
    java_run (J_getBranchQualifier (Some l)) w = ExXid_getBranchQualifier (Some l) w
}.

(** What comes back: the format as the machine returned it, and zeros behind the parts. *)
Definition back (x : xid) : xid :=
  Xid (long_of_int (to_jsize (formatID x))) (gtrid_length x) (bqual_length x)
      (gtrid x ++ bqual x ++
       replicate (XIDDATASIZE - Z.to_nat (gtrid_length x) - Z.to_nat (bqual_length x)) 0%Z).

Lemma run_call_java m w o :
  w_exc w = None → receiver m = Some o → call_java m w = java_run m w.
Proof. intros He Hr. unfold call_java. rewrite run_bind, run_ExceptionCheck, He. by rewrite Hr. Qed.

Section ToC.
Hypothesis java : java_exxid.

Lemma run_getters l x w :
  exxid_at l x w → w_exc w = None →
  ∃ jt jb : loc,
    call_int (J_getFormatId (Some l)) w = Ok (to_jsize (formatID x)) w ∧
    call_object (J_getBranchQualifier (Some l)) w = Ok (Some jb) w ∧
    call_object (J_getGlobalTransactionId (Some l)) w = Ok (Some jt) w ∧
    w_heap w !! jt = Some (JBytes (gtrid x)) ∧ w_heap w !! jb = Some (JBytes (bqual x)).
Proof.
  intros Hx He. pose proof Hx as (jd & jt & jb & Hl & Ht & Hb). exists jt, jb.
  unfold call_int, call_object. rewrite !run_bind.
  rewrite (run_call_java (J_getFormatId (Some l)) _ l He eq_refl),
    (run_call_java (J_getBranchQualifier (Some l)) _ l He eq_refl),
    (run_call_java (J_getGlobalTransactionId (Some l)) _ l He eq_refl).
  rewrite (je_format java _ _ _ Hx), (je_gtrid java _ _ _ Hx), (je_bqual java _ _ _ Hx).
  unfold ExXid_getFormatId, ExXid_getBranchQualifier, ExXid_getGlobalTransactionId. rewrite !run_bind.
  unfold GetLongField, GetObjectField, get_fields. rewrite !run_bind, (run_deref _ _ _ Hl). done.
Qed.

Lemma parts_length x : xid_ok x →
  length (gtrid x) = Z.to_nat (gtrid_length x) ∧ length (bqual x) = Z.to_nat (bqual_length x).
Proof. intros (Hd & Hg & Hb & Hs & _). unfold gtrid, bqual. rewrite !length_take, length_drop. lia. Qed.

(** A machine that hands out copies: they are released through deleted references. *)
Lemma run_xid_to_c l x w :
  vm_hands_copies vm → xid_ok x → exxid_at l x w → w_exc w = None →
  ndrxj_cvt_xid_to_c vm (Some l) w =
  (if stale_release then Ok (EXSUCCEED, back x) (Nat.iter 4 ticked w) else Crash "deleted reference").
Proof.
  intros Hc Hok Hx He. destruct (run_getters l x w Hx He) as (jt & jb & Hf & Hb & Ht & Hjt & Hjb).
  destruct (parts_length x Hok) as [Lt Lb]. destruct Hok as (Hd & Hg & Hq & Hs & _).
  unfold ndrxj_cvt_xid_to_c. rewrite run_bind, Hf, run_bind, Hb, run_bind, (run_GetArrayLength _ _ _ Hjb).
  rewrite run_bind, Ht, run_bind, (run_GetArrayLength _ _ _ Hjt), run_bind.
  rewrite (run_GetByteArrayElements vm jt (gtrid x)) by done.
  rewrite (proj2 (Z.ltb_ge _ _)) by lia. rewrite run_bind, (run_GetByteArrayElements vm jb (bqual x)) by done.
  rewrite (proj2 (Z.ltb_ge _ _)) by lia. rewrite !Hc, run_bind. unfold release_deleted.
  destruct stale_release; [|done].
  rewrite (run_Release jt (jb :: w_pins w)).
  2: { simpl. case_decide as E; [by rewrite E|]. by rewrite decide_True. }
  rewrite run_bind, (run_Release_head jb (w_pins w)) by done. rewrite run_ret, !Nat2Z.id.
  rewrite !take_ge by done. unfold back. rewrite Lt, Lb, !Z2Nat.id by done. by destruct w.
Qed.

(** *** Recovered identifiers *)

Hypothesis copies : vm_hands_copies vm.
Hypothesis tolerant : stale_release = true.

Lemma run_xid_to_c_ok l x w :
  xid_ok x → exxid_at l x w → w_exc w = None →
  ndrxj_cvt_xid_to_c vm (Some l) w = Ok (EXSUCCEED, back x) (Nat.iter 4 ticked w).
Proof. intros. by rewrite (run_xid_to_c l x), tolerant. Qed.

Lemma exxid_at_ticked n l x w : exxid_at l x w → exxid_at l x (Nat.iter n ticked w).
Proof. intros (jd & jt & jb & Hh). exists jd, jt, jb. by rewrite (proj1 (iter_ticked n w)). Qed.

(** The array's elements are the identifiers. *)
Definition xid_array (els : list jobject) (xs : list xid) w : Prop :=
  Forall2 (λ e x, ∃ l, e = Some l ∧ exxid_at l x w ∧ xid_ok x) els xs.

Lemma run_recover_loop (la : loc) els xs n i ret xids w :
  w_heap w !! la = Some (JArray els) → xid_array els xs w → w_exc w = None →
  i + n ≤ length xs → i + n ≤ length xids →
  recover_loop vm (Some la) i n ret xids w =
  Ok ((ret + Z.of_nat n)%Z, take i xids ++ (back <$> take n (drop i xs)) ++ drop (i + n) xids)
     (Nat.iter (4 * n) ticked w).
Proof.
  intros Hla Hxs He. revert i ret xids w Hla Hxs He. induction n as [|n IH]; intros i ret xids w Hla Hxs He Hn Hl.
  { cbn [recover_loop]. rewrite run_ret, take_0, Z.add_0_r, Nat.add_0_r. cbn. by rewrite take_drop. }
  cbn [recover_loop]. unfold GetObjectArrayElement. rewrite run_bind, run_bind, (run_deref _ _ _ Hla).
  destruct (lookup_lt_is_Some_2 xs i) as [x Hx]; [lia|].
  destruct (Forall2_lookup_r _ _ _ _ _ Hxs Hx) as (e & Hi & l & -> & Hxid & Hok). rewrite Hi, run_ret.
  rewrite run_bind, (run_xid_to_c_ok l x) by done. change (EXSUCCEED =? EXSUCCEED)%Z with true. cbn [negb].
  rewrite decide_True by lia. pose proof (iter_ticked 4 w) as (Hh & _ & He4 & _).
  rewrite IH; [|by rewrite Hh| |congruence|lia|rewrite length_insert; lia].
  2: { eapply Forall2_impl; [exact Hxs|]. intros ? y (l' & ? & ? & ?). exists l'. eauto using exxid_at_ticked. }
  f_equal.
  - f_equal; [lia|]. rewrite (drop_S xs x i Hx). rewrite firstn_cons, fmap_cons.
    rewrite (take_S_r _ _ (back x)) by (rewrite list_lookup_insert_eq; [done|lia]).
    rewrite take_insert_ge by lia. rewrite <- app_assoc. cbn [app]. f_equal. f_equal.
    rewrite drop_insert_lt by lia. by rewrite Nat.add_succ_r.
  - rewrite <- Nat.iter_add. f_equal. lia.
Qed.
End ToC.

(** ** The entries of the switch *)

(** Back in the context that the private data of [c] name. *)
Definition resumed (c : Z) (w : world xst) : world xst :=
  with_exc None (with_x (tpsetctxt (NDRXJ_CCTX (ndrx_ctx_priv_get (tpsetctxt c (w_x w)))) (w_x w)) w).

(** The code reported for Java's result [z]. *)
Definition reported (z : Z) w : Z :=
  if (bool_decide (w_exc w ≠ None) && (z =? XA_OK)%Z)%bool then XAER_RMERR else z.

Section Entries.
Context `{!PrivLaws} (M_jvm : bool) (M_classLoader : jobject).

(** The thread's context has its Java object. *)
Definition xa_ready (o : loc) w : Prop :=
  w_exc w = None ∧ NDRXJ_JATMICTX (ndrx_ctx_priv_get (w_x w)) = Some o.

Lemma run_no_context o w :
  xa_ready o w → no_context vm M_jvm M_classLoader (x_ctx (w_x w)) w = Ok false w.
Proof. intros [_ Ho]. unfold no_context, priv_of. rewrite run_bind. unfold xget. by rewrite priv_here, Ho. Qed.

(** The state Java is called in. *)
Definition left_ctx w : world xst := with_x (tpsetctxt TPNULLCONTEXT (w_x w)) w.

Lemma run_outside_ready (m : jobject → java_method) (o l : loc) w v w1 :
  xa_ready o w → receiver (m (Some o)) = Some l → java_run (m (Some o)) (left_ctx w) = Ok v w1 →
  outside (x_ctx (w_x w)) (λ p, m (NDRXJ_JATMICTX p)) w =
  Ok v (with_x (tpsetctxt (NDRXJ_CCTX (ndrx_ctx_priv_get (tpsetctxt (x_ctx (w_x w)) (w_x w1)))) (w_x w1)) w1).
Proof.
  intros [He Ho] Hm Hr. unfold left_ctx in Hr. unfold outside, priv_of, unset_ctx. rewrite run_bind. unfold xmod at 1.
  rewrite run_bind. unfold xget at 1. cbn [w_x with_x]. rewrite priv_outside, Ho, run_bind.
  rewrite (run_call_java _ _ l) by done. by rewrite Hr.
Qed.

Lemma run_xa_out z c w :
  xa_out z (with_x (tpsetctxt (NDRXJ_CCTX (ndrx_ctx_priv_get (tpsetctxt c (w_x w)))) (w_x w)) w) =
  Ok (reported z w) (resumed c w).
Proof. unfold xa_out. by rewrite run_bind, run_drop_exception. Qed.

Lemma run_xa_info_entry func flags o w z w1 :
  xa_ready o w → java_run (J_xa_info func (Some o) flags) (left_ctx w) = Ok (V_num z) w1 →
  xa_info_entry vm M_jvm M_classLoader func flags w = Ok (reported z w1) (resumed (x_ctx (w_x w)) w1).
Proof.
  intros Hw Hr. unfold xa_info_entry. rewrite run_bind. unfold xget at 1.
  rewrite run_bind, (run_no_context o) by done.
  rewrite run_bind, (run_outside_ready (λ p, J_xa_info func p flags) o o w _ _ Hw eq_refl Hr).
  apply run_xa_out.
Qed.

Lemma only_new_ready o w w' : only_new w w' → xa_ready o w → xa_ready o w'.
Proof. intros (_ & _ & He & _ & Hx) [He' Ho]. split; congruence. Qed.

Lemma run_xa_xid_entry func x flags o w :
  xa_ready o w → xid_ok x →
  ∃ l w0, only_new w w0 ∧ exxid_at l x w0 ∧
    ∀ z w1, java_run (J_xa_xid func (Some o) (Some l) flags) (left_ctx w0) = Ok (V_num z) w1 →
      xa_xid_entry vm M_jvm M_classLoader func (Some x) flags w =
      Ok (reported z w1) (resumed (x_ctx (w_x w)) w1).
Proof.
  intros Hw Hx. destruct (run_xid_to_java x w Hx) as (l & w0 & Hr & _ & Hl & Hn).
  exists l, w0. split; [done|]. split; [done|]. intros z w1 Hj. unfold xa_xid_entry. rewrite run_bind. unfold xget at 1.
  rewrite run_bind, (run_no_context o) by done. rewrite run_bind, Hr.
  assert (w_x w0 = w_x w) as Hx0 by apply Hn. rewrite run_bind, <- Hx0.
  rewrite (run_outside_ready (λ p, J_xa_xid func p (Some l) flags) o o w0 _ _ (only_new_ready o w w0 Hn Hw) eq_refl Hj).
  apply run_xa_out.
Qed.

(** Recovery, when Java returned an object [lr] with code and list. *)
Definition xid_list (lr : loc) (ret : Z) (xarr : jobject) w : Prop :=
  w_heap w !! lr = Some (JObject "org/endurox/XidList" (list_to_map [("list", AObj xarr); ("ret", ALong ret)])).

Lemma xid_list_fields lr ret xarr w :
  xid_list lr ret xarr w →
  GetLongField (Some lr) "ret" w = Ok ret w ∧ GetObjectField (Some lr) "list" w = Ok xarr w.
Proof.
  intros Hl. unfold GetLongField, GetObjectField, get_fields. by rewrite !run_bind, (run_deref _ _ _ Hl).
Qed.

Lemma run_xa_recover_entry xids count flags o w (la lr : loc) els xs w1 :
  java_exxid → vm_hands_copies vm → stale_release = true → xa_ready o w →
  (0 ≤ count ≤ Z.of_nat (length xids))%Z → (Z.of_nat (length xs) < 2147483648)%Z →
  java_run (J_xa_recover (Some o) flags) (left_ctx w) = Ok (V_obj (Some lr)) w1 → w_exc w1 = None →
  xid_list lr XA_OK (Some la) w1 → w_heap w1 !! la = Some (JArray els) → xid_array els xs w1 →
  let n := Nat.min (Z.to_nat count) (length xs) in
  ∃ w', xa_recover_entry vm M_jvm M_classLoader (Some xids) count flags w =
    Ok (Z.of_nat n, Some ((back <$> take n xs) ++ drop n xids)) w' ∧ w_exc w' = None ∧
    w_x w' = w_x (resumed (x_ctx (w_x w)) w1).
Proof.
  intros Hj Hc Hs Hw Hcount Hxs Hr He Hl Ha Hels n. unfold xa_recover_entry. rewrite run_bind. unfold xget at 1.
  rewrite run_bind, (run_no_context o) by done.
  rewrite run_bind, (run_outside_ready (λ p, J_xa_recover p flags) o o w _ _ Hw eq_refl Hr).
  set (w2 := with_x _ _). destruct (xid_list_fields lr XA_OK (Some la) w2 Hl) as [Hret Hlist].
  rewrite run_bind, Hret. change (XA_OK =? XA_OK)%Z with true. cbn [negb]. rewrite run_bind, Hlist, run_bind.
  rewrite run_bind. unfold GetArrayLength. rewrite run_bind, (run_deref la (JArray els)), run_ret by done.
  assert (Z.to_nat (to_jsize (count `min` Z.of_nat (length els))) = n) as ->.
  { pose proof (Forall2_length _ _ _ Hels) as HL. rewrite to_jsize_id by (unfold INT_MAX; lia). unfold n. lia. }
  rewrite (run_recover_loop Hj Hc Hs la els xs) by (done || (unfold n; lia)).
  eexists. rewrite take_0, drop_0. cbn [app Nat.add]. rewrite run_bind. unfold xa_out.
  rewrite run_bind, run_drop_exception.
  destruct (iter_ticked (4 * n) w2) as (_ & _ & He2 & _ & _ & _ & Hx2).
  rewrite bool_decide_eq_false_2 by (rewrite He2; simpl; congruence). cbn [andb]. rewrite run_ret.
  split; [reflexivity|]. split; [done|]. exact Hx2.
Qed.
End Entries.

(** ** Initialisation *)

(** The elements of an array are these strings. *)
Definition strings_at (els : list jobject) (strs : list string) w : Prop :=
  Forall2 (λ e s, ∃ l : loc, e = Some l ∧ (l < w_next w)%positive ∧ w_heap w !! l = Some (JString s)) els strs.

Lemma strings_at_later els strs (la : loc) l w w' :
  strings_at els strs w → changes_only la w w' → w_heap w !! la = Some (JArray l) → strings_at els strs w'.
Proof.
  intros Hs (Hn & Hh & _) Ha. eapply Forall2_impl; [exact Hs|]. intros e s (k & -> & Hk & Hv).
  exists k. split; [done|]. split; [lia|]. rewrite Hh; try done. intros ->. congruence.
Qed.

Lemma run_set_strings strs (la : loc) els dones w :
  w_heap w !! la = Some (JArray (els ++ replicate (length strs) None)) → (la < w_next w)%positive →
  strings_at els dones w →
  ∃ els' w', set_strings vm (Some la) (length els) strs w = Ok tt w' ∧
    w_heap w' !! la = Some (JArray els') ∧ strings_at els' (dones ++ strs) w' ∧ changes_only la w w'.
Proof.
  revert els dones w. induction strs as [|s strs IH]; intros els dones w Ha Hl Hd; cbn [set_strings].
  { exists els, w. rewrite app_nil_r in *. by repeat split. }
  rewrite run_bind. unfold NewStringUTF. rewrite run_jni_new, run_bind by done.
  set (w1 := with_heap _ _ _). assert (changes_only la w w1) as H01 by apply changes_only_new.
  assert (w_heap w1 !! la = Some (JArray (els ++ replicate (length (s :: strs)) None))) as Ha1.
  { simpl. rewrite lookup_insert_ne; [done|]. lia. }
  unfold SetObjectArrayElement. rewrite run_bind, (run_deref _ _ _ Ha1).
  rewrite decide_True by (rewrite length_app, length_replicate; simpl; lia). rewrite run_mmod.
  rewrite insert_app_r_alt, Nat.sub_diag by lia. cbn [length replicate]. cbn [insert list_insert].
  set (w2 := set_obj _ _ _). assert (changes_only la w1 w2) as H12 by apply changes_only_set.
  assert (w_heap w2 !! la = Some (JArray ((els ++ [Some (w_next w)]) ++ replicate (length strs) None))) as Ha2.
  { simpl. rewrite lookup_insert_eq, <- app_assoc. done. }
  assert (changes_only la w w2) as H02 by by etransitivity.
  destruct (IH (els ++ [Some (w_next w)]) (dones ++ [s]) w2) as (els' & w' & Hr & Ha' & Hs' & Hc).
  - done.
  - simpl. lia.
  - apply Forall2_app; [by eapply strings_at_later|]. constructor; [|done]. exists (w_next w).
    split; [done|]. split; [simpl; lia|]. simpl. rewrite lookup_insert_ne by lia. by rewrite lookup_insert_eq.
  - rewrite length_app, Nat.add_1_r in Hr. rewrite <- app_assoc in Hs'. exists els', w'. split; [done|].
    split; [done|]. split; [done|]. by etransitivity.
Qed.

Lemma run_arr_to_java strs w :
  ∃ (la : loc) els w', ndrxj_cvt_arr_c_to_java vm strs (length strs) w = Ok (Some la) w' ∧
    (la < w_next w')%positive ∧ w_heap w' !! la = Some (JArray els) ∧ strings_at els strs w' ∧ only_new w w'.
Proof.
  unfold ndrxj_cvt_arr_c_to_java, NewObjectArray. rewrite run_bind, run_jni_new by done. rewrite run_bind.
  set (w1 := with_heap _ _ _).
  destruct (run_set_strings strs (w_next w) [] [] w1) as (els & w' & Hr & Ha & Hs & Hc).
  - simpl. by rewrite lookup_insert_eq.
  - simpl. lia.
  - constructor.
  - cbn [length] in Hr. rewrite Hr, run_ret. exists (w_next w), els, w'. split; [done|].
    destruct Hc as (Hn & Hh & Hp & He & Hx). simpl in Hn. split; [lia|]. split; [done|]. split; [done|].
    split; [lia|]. split; [|done]. intros k Hk. rewrite Hh by (simpl; lia). simpl. rewrite lookup_insert_ne; [done|lia].
Qed.

Lemma strings_at_new els strs w w' : strings_at els strs w → only_new w w' → strings_at els strs w'.
Proof.
  intros Hs (Hn & Hh & _). eapply Forall2_impl; [exact Hs|]. intros e s (k & -> & Hk & Hv).
  exists k. split; [done|]. split; [lia|]. by rewrite Hh.
Qed.

Section Init.
Context `{!PrivLaws} (M_jvm : bool) (M_classLoader : jobject).

(** Java gets the class and the settings. *)
Definition init_args (lc la : loc) (cls : string) (strs : list string) w : Prop :=
  w_heap w !! lc = Some (JString cls) ∧ ∃ els, w_heap w !! la = Some (JArray els) ∧ strings_at els strs w.

(** The state after [tpgetctxt]. *)
Definition got_ctx w : world xst := with_x (tpgetctxt (w_x w)).2 w.

Lemma run_xa_init room root strs cls o w :
  ndrxj_xa_cfgparse room root PATH_MAX = (EXSUCCEED, strs, cls) → cls ≠ EmptyString →
  jvm_class_exists vm "org/endurox/AtmiCtx.ndrxj_xa_init" = true → xa_ready o w →
  NDRXJ_JATMICTX (ndrx_ctx_priv_get (tpsetctxt (x_ctx (w_x w)) (tpgetctxt (w_x w)).2)) = Some o →
  ∃ lc la w0, only_new w w0 ∧ init_args lc la cls strs w0 ∧
    ∀ z w1, java_run (J_xa_init (Some o) (Some lc) (Some la)) (got_ctx w0) = Ok (V_num z) w1 →
      ndrxj_xa_init vm M_jvm M_classLoader room root w =
      Ok (if (z =? EXSUCCEED)%Z then EXSUCCEED else TPESYSTEM)
         (with_x (tpsetctxt (tpgetctxt (w_x w)).1 (w_x w1)) w1).
Proof.
  intros Hp Hcls Hvm Hw Hpriv. destruct (run_arr_to_java strs w) as (la & els & w1 & Hr & Hla & Ha & Hs & Hn1).
  set (w2 := with_heap (<[w_next w1 := JString cls]> (w_heap w1)) (Pos.succ (w_next w1)) (ticked w1)).
  pose proof (only_new_one (JString cls) w1) as Hn12. pose proof (only_new_trans _ _ _ Hn1 Hn12) as Hn2.
  exists (w_next w1), la, w2. split; [done|]. split.
  { split; [simpl; by rewrite lookup_insert_eq|]. exists els. split; [|by eapply strings_at_new].
    simpl. rewrite lookup_insert_ne; [done|lia]. }
  intros z w3 Hj. destruct Hw as [He Ho]. unfold ndrxj_xa_init. rewrite run_bind. unfold xget at 1.
  rewrite run_bind, (run_no_context M_jvm M_classLoader o) by done. rewrite run_bind, Hp.
  change (EXSUCCEED =? EXSUCCEED)%Z with true. cbn [negb].
  rewrite (proj2 (String.eqb_neq _ _) Hcls), run_bind, Hr, run_bind. unfold NewStringUTF.
  rewrite run_jni_new by done. fold w2. rewrite run_bind. unfold priv_of, xget.
  assert (w_x w2 = w_x w) as Hx by apply Hn2. assert (w_exc w2 = None) as He2 by (etransitivity; [apply Hn2|done]). rewrite Hx, priv_here, Ho, run_bind. unfold GetMethodID.
  rewrite Hvm, run_ret. cbn [negb]. rewrite run_bind. unfold xcall. rewrite Hx.
  assert (got_ctx w2 = with_x (tpgetctxt (w_x w)).2 w2) as Hgot by (unfold got_ctx; by rewrite Hx).
  destruct (tpgetctxt (w_x w)) as [ctx x'] eqn:Hg. cbn [fst snd] in *. rewrite run_bind. cbn [w_x with_x].
  rewrite Hpriv, run_bind. unfold call_int. rewrite run_bind, (run_call_java _ _ o); [|exact He2|done].
  rewrite <- Hgot, Hj, run_ret, run_bind. cbn [xmod]. rewrite run_ret, run_bind, run_ExceptionCheck, run_bind.
  case_bool_decide as Hexc; [|done]. unfold NDRXJ_LOG_EXCEPTION. rewrite run_bind, run_ExceptionCheck.
  by rewrite bool_decide_eq_true_2.
Qed.
End Init.
End XaProofs.
