(* ===== verification/UbfSpec.v ===== *)
(** * The UBF methods, branch by branch

    How a field operation reaches the library and which exception its failure raises. *)
From stdpp Require Import sorting strings gmap list numbers.
From S2P Require Import Prelude CString Jni Xatmi Exceptions TypedBuffer Calls AtmiCtxOps Ubf CallSpec.

Section UbfThrow.
Context `{Xatmi} (vm : jvm).

Definition ubf_class (codestr : string) : string :=
  strcpy_safe 256 ("org/endurox/exceptions/Ubf" +:+ codestr +:+ "Exception").

(** The machine can allocate and has the class. *)
Definition vm_throws_ubf (codestr : string) : Prop :=
  vm_has_memory vm ∧ jvm_class_exists vm (ubf_class codestr) = true.

Lemma run_caches_single c w :
  vm_has_memory vm → jvm_class_exists vm c = true →
  ∃ ch tk, ndrxj_caches_single vm c w =
    Ok true (World (w_heap w) (w_next w) (w_exc w) (w_pins w) (w_weak w) ch tk (w_ubf w) (w_x w)).
Proof.
  intros Hm Hc. unfold ndrxj_caches_single, ndrxj_caches_get. rewrite run_bind.
  cbv [mbind M_bind mget mret M_ret].
  case_bool_decide; [exists (w_cache w), (w_tick w); by destruct w|].
  unfold FindClass. rewrite Hc. cbv [mret M_ret]. rewrite run_caches_add by done. by eexists _, _.
Qed.

Lemma run_ubf_throw codestr msg w :
  vm_throws_ubf codestr →
  ∃ l w', ndrxj_ubf_throw vm codestr msg w = Ok tt w' ∧ w_exc w' = Some l ∧
    w_heap w' !! l = Some (JThrowable (ubf_class codestr) (strcpy_safe ERROR_MAX msg) None None) ∧
    w_pins w' = w_pins w ∧ w_x w' = w_x w.
Proof.
  intros [Hm Hc]. unfold ndrxj_ubf_throw. fold (ubf_class codestr). rewrite run_bind.
  destruct (run_caches_single (ubf_class codestr) w Hm Hc) as (ch & tk & ->).
  unfold ThrowNew. rewrite run_bind, run_jni_new by done.
  eexists _, _. split; [reflexivity|]. cbn. by rewrite lookup_insert_eq.
Qed.
End UbfThrow.

Section Fields.
Context `{Ubf} (vm : jvm).

(** The object [l] with buffer data [t] in the context of object [o]. *)
Record field_ready (l o : loc) (ctx : Z) (t : typed_buffer) (w : world xst) : Prop := {
  fld_obj : w_heap w !! l = Some (JTypedBuffer t);
  fld_ctx : tb_ctx t = Some o;
  fld_enter : enterable o ctx w;
  fld_exc : w_exc w = None
}.

(** The body runs in the object's context on its buffer; then the context is left. *)
Lemma run_on_buffer {A} l o ctx t (dflt : A) body w :
  vm_has_memory vm → field_ready l o ctx t w →
  ∃ w1, on_buffer vm (Some l) dflt body w = (ret ← body (tb_cPtr t); unset_ctx;; mret ret) w1 ∧
    w_x w1 = entered o ctx (w_x w) ∧ w_pins w1 = w_pins w ∧ w_exc w1 = None.
Proof.
  intros Hm [Hl Ho He Hx]. unfold on_buffer, ndrxj_TypedBuffer_get_ctx. rewrite run_bind, run_bind.
  rewrite (run_get_tb _ _ _ Hl), Ho.
  destruct (run_get_ctx vm o ctx w Hm He) as (wk & tk & -> & _).
  rewrite (proj2 (Z.eqb_neq _ _) (ent_ctx _ _ _ He)), run_bind.
  rewrite (run_get_buffer l t) by done. rewrite Z.eqb_refl. eexists. split; [reflexivity|done].
Qed.

Definition exception_of (w : world xst) : option (string * string) :=
  l ← w_exc w; match w_heap w !! l with Some (JThrowable c m _ _) => Some (c, m) | _ => None end.

Lemma run_Bfname_of fld w :
  Bfname_of fld w = Ok (show_name (x_name (Name_Bfname fld) (w_x w)).1)
                       (with_x (x_name (Name_Bfname fld) (w_x w)).2 w).
Proof. unfold Bfname_of. rewrite run_bind. unfold xcall. by destruct (x_name _ _). Qed.
Lemma run_log_field fld w :
  ubf_log_on = true → log_field fld w = Ok tt (with_x (x_name (Name_Bfname fld) (w_x w)).2 w).
Proof. intros Hl. unfold log_field. by rewrite Hl, run_bind, run_Bfname_of. Qed.

(** [CBchg] fails: the exception carries the code the library had set. *)
Lemma run_CBchg_fails l o ctx t fld occ v r x2 w :
  field_ready l o ctx t w → vm_throws_ubf vm (Becodestr (Berror x2)) →
  u_op (U_CBchg (tb_cPtr t) fld occ v) (entered o ctx (w_x w)) = (r, x2) → r ≠ EXSUCCEED →
  ∃ w' msg, ndrxj_ubf_CBchg vm (Some l) fld occ v w = Ok tt w' ∧
    exception_of w' = Some (ubf_class (Becodestr (Berror x2)), msg) ∧ w_pins w' = w_pins w.
Proof.
  intros Hr Ht Hop Hne. unfold ndrxj_ubf_CBchg.
  match goal with |- context [on_buffer vm (Some l) tt ?body w] =>
    destruct (run_on_buffer l o ctx t tt body w (proj1 Ht) Hr) as (w1 & -> & Hx & Hp & _) end.
  rewrite run_bind, run_bind. unfold xcall at 1. rewrite Hx, Hop, (proj2 (Z.eqb_neq _ _) Hne).
  rewrite run_bind. unfold xget at 1. cbn [w_x with_x]. rewrite run_bind.
  assert (∀ w, ∃ x, log_field fld w = Ok tt (with_x x w)) as Hlog.
  { intros w0. destruct ubf_log_on eqn:El; [by eexists; apply run_log_field|].
    unfold log_field. rewrite El. exists (w_x w0). by destruct w0. }
  destruct (Hlog (with_x x2 w1)) as [x3 ->]. rewrite run_bind, run_Bfname_of.
  unfold throw_ubf. set (w2 := with_x _ (with_x x3 _)). set (msg := _ +:+ _).
  destruct (run_ubf_throw vm (Becodestr (Berror x2)) msg w2 Ht) as (le & w' & -> & He & Hl & Hp' & _).
  eexists _, _. split; [reflexivity|]. unfold exception_of. simpl. rewrite He. simpl. rewrite Hl.
  split; [done|]. rewrite Hp'. done.
Qed.

(** [CBadd] fails while error logging is on: by the time [Berror] is read, [Bfname] has
    run, and the exception carries the code [Bfname] left. *)
Lemma run_CBadd_fails l o ctx t fld v r x2 w :
  let x3 := (x_name (Name_Bfname fld) x2).2 in
  field_ready l o ctx t w → ubf_log_on = true →
  (∀ x, Berror (x_name (Name_Bfname fld) x).2 = Berror x3) →
  vm_throws_ubf vm (Becodestr (Berror x3)) →
  u_op (U_CBadd (tb_cPtr t) fld v) (entered o ctx (w_x w)) = (r, x2) → r ≠ EXSUCCEED →
  ∃ w' msg, ndrxj_ubf_CBadd vm (Some l) fld v w = Ok tt w' ∧
    exception_of w' = Some (ubf_class (Becodestr (Berror x3)), msg) ∧ w_pins w' = w_pins w.
Proof.
  intros x3 Hr Hlog Hb Ht Hop Hne. unfold ndrxj_ubf_CBadd.
  match goal with |- context [on_buffer vm (Some l) tt ?body w] =>
    destruct (run_on_buffer l o ctx t tt body w (proj1 Ht) Hr) as (w1 & -> & Hx & Hp & _) end.
  rewrite run_bind, run_bind. unfold xcall at 1. rewrite Hx, Hop, (proj2 (Z.eqb_neq _ _) Hne).
  rewrite run_bind, run_log_field by done. cbn [w_x with_x]. subst x3. set (x3 := (x_name _ x2).2) in *.
  set (w3 := with_x x3 _).
  assert (∀ (g : string → M xst unit), (n ← Bfname_of fld; g n) w3 =
    g (show_name (x_name (Name_Bfname fld) x3).1) (with_x (x_name (Name_Bfname fld) x3).2 w3)) as Hn
    by (intros g; by rewrite run_bind, run_Bfname_of).
  destruct args_left_first; rewrite run_bind; unfold xget at 1; rewrite Hn, run_bind; unfold xget;
    cbn [w_x with_x w3]; rewrite ?Hb; unfold throw_ubf;
    match goal with |- context [ndrxj_ubf_throw vm (Becodestr (Berror x3)) ?msg ?w2] =>
      destruct (run_ubf_throw vm (Becodestr (Berror x3)) msg w2 Ht) as (le & w' & -> & He & Hl & Hp' & _)
    end;
    eexists _, _; (split; [reflexivity|]); unfold exception_of; simpl; rewrite He; simpl;
    rewrite Hl; (split; [done|]); by rewrite Hp'.
Qed.
End Fields.
