(* ===== verification/UbfIOProofs.v ===== *)
(** * What the callback methods of UBF buffers leave behind, and their bytes

    The methods of [UbfEval] and [UbfIO] as calls with their invariants; the handlers
    resume the context they interrupt; what [Bwrite] collects is what [Bread] hands
    back. *)
From stdpp Require Import sorting strings gmap list numbers.
From S2P Require Import Prelude CString Jni Xatmi Exceptions TypedBuffer Calls AtmiCtxOps Convert.
From S2P Require Import Queues Callback Server Ubf UbfEval UbfIO Frame UbfNatives QueueNatives Natives CallSpec.
From S2P Require Import ServerProofs UbfSpec.

Inductive eval_native :=
  | EN_Bboolev (data jexpr : jobject)
  | EN_Bfloatev (minus_one : Z) (data jexpr : jobject)
  | EN_Bqboolev (data jexprstr : jobject)
  | EN_Bboolco (o jexpr : jobject)
  | EN_Bboolpr (o compexpr outstream : jobject)
  | EN_Btreefree (cPtr : Z)
  | EN_Baddfast (data : jobject) (bfldid : Z) (v : ubf_value) (fldloc : jobject)
  | EN_Baddfast_String (data : jobject) (bfldid : Z) (js fldloc : jobject)
  | EN_Baddfast_Bytes (data : jobject) (bfldid : Z) (jb fldloc : jobject)
  | EN_Bprint (data : jobject)
  | EN_Bextread (data reader : jobject)
  | EN_Bwrite (data : jobject).

Section EvalNatives.
Context `{Ubf} `{!UbfEval} `{!UbfIO} `{!ContextLib} `{!JavaCode} (vm : jvm).

Definition run_eval (n : eval_native) : M xst unit :=
  match n with
  | EN_Bboolev d e => ignore (Java_TypedUbf_Bboolev vm d e)
  | EN_Bfloatev m d e => ignore (Java_TypedUbf_Bfloatev vm m d e)
  | EN_Bqboolev d e => ignore (Java_TypedUbf_Bqboolev vm d e)
  | EN_Bboolco o e => ignore (Java_AtmiCtx_Bboolco vm o e)
  | EN_Bboolpr o t s => Java_AtmiCtx_Bboolpr vm o t s
  | EN_Btreefree p => Java_BExprTree_Btreefree p
  | EN_Baddfast d f v l => ndrxj_ubf_Baddfast vm d f v l
  | EN_Baddfast_String d f s l => Java_TypedUbf_Baddfast_String vm d f s l
  | EN_Baddfast_Bytes d f b l => Java_TypedUbf_Baddfast_Bytes vm d f b l
  | EN_Bprint d => Java_TypedUbf_Bprint vm d
  | EN_Bextread d r => Java_TypedUbf_Bextread vm d r
  | EN_Bwrite d => ignore (Java_TypedUbf_Bwrite vm d)
  end.

(** ** Nothing stays acquired *)

Section Pins.
Context `{!JavaClean}.
Hypothesis copies : vm_hands_copies vm.
Implicit Types (p : list loc).

Lemma pins_script_ctl {cb ans A S} p (handle : S → cb → M xst (ans * S)) (s : script xst cb ans A) st :
  (∀ st c, keeps (λ w, w_pins w = p) (handle st c)) → keeps (λ w, w_pins w = p) (run_script_ctl handle st s).
Proof.
  intros Hh. revert st. induction s as [r|f k IH|c k IH]; intros st; cbn [run_script_ctl]; [eauto with frame| |].
  - apply keeps_bind; [by intros w|]. intros ?. apply keeps_bind; [eauto with frame|]. intros w. apply IH.
  - apply keeps_bind; [apply Hh|]. intros [a st']. apply IH.
Qed.

Lemma pins_call p m : keeps (λ w, w_pins w = p) (call_java m).
Proof. apply pins_call_java. Qed.
Lemma pins_throw p e m : keeps (λ w, w_pins w = p) (throw_ubf vm e m).
Proof. apply pins_ubf_throw. Qed.
#[local] Hint Resolve pins_call pins_throw : frame.

Lemma pins_bool_callback p f : keeps (λ w, w_pins w = p) (Bbool_callback_function vm f).
Proof. unfold Bbool_callback_function, call_int, NewStringUTF. keeps_tac. Qed.
Lemma pins_print_callback p o b : keeps (λ w, w_pins w = p) (bboolprcb_callback vm o b).
Proof. unfold bboolprcb_callback, call_void. keeps_tac. Qed.
Lemma pins_readf p r n : keeps (λ w, w_pins w = p) (Bextread_readf vm r n).
Proof. unfold Bextread_readf, call_object. pins_tac. Qed.
Lemma pins_writef p c b : keeps (λ w, w_pins w = p) (Bwrite_writef vm c b).
Proof. unfold Bwrite_writef, vsnprintf_missing_arguments. keeps_tac. Qed.
Lemma pins_evaluate p b t : keeps (λ w, w_pins w = p) (evaluate vm b t).
Proof.
  unfold evaluate. apply keeps_bind; [by apply pins_script, pins_bool_callback|]. intros [l r]. keeps_tac.
Qed.
#[local] Hint Resolve pins_bool_callback pins_print_callback pins_readf pins_writef pins_evaluate : frame.
#[local] Hint Extern 1 (keeps _ (run_script _ _)) => apply pins_script; intros; eauto with frame : frame.
#[local] Hint Extern 1 (keeps _ (run_script_ctl _ _ _)) => apply pins_script_ctl; intros; eauto with frame : frame.

Lemma pins_Baddfast p d f v l : keeps (λ w, w_pins w = p) (ndrxj_ubf_Baddfast vm d f v l).
Proof.
  unfold ndrxj_ubf_Baddfast, ndrxj_BFldLocInfo_ptr_get, ndrxj_BFldLocInfo_ptr_set, SetLongField. keeps_tac.
Qed.
#[local] Hint Resolve pins_Baddfast : frame.
Lemma pins_with_expression {A} p d e (a : A) use :
  (∀ x y, keeps (λ w, w_pins w = p) (use x y)) → keeps (λ w, w_pins w = p) (with_expression vm d e a use).
Proof.
  intros Hu. unfold with_expression, vsnprintf_missing_arguments, ndrxj_BExprTree_ptr_get. keeps_tac.
Qed.

Lemma eval_pins n p : keeps (λ w, w_pins w = p) (run_eval n).
Proof.
  destruct n; cbn [run_eval]; unfold ignore.
  - apply keeps_bind; [|eauto with frame]. apply pins_with_expression. eauto with frame.
  - apply keeps_bind; [|eauto with frame]. apply pins_with_expression. intros. keeps_tac.
  - unfold Java_TypedUbf_Bqboolev, vsnprintf_missing_arguments. pins_tac.
  - unfold Java_AtmiCtx_Bboolco, in_ctx, ndrxj_BExprTree_new. pins_tac.
  - unfold Java_AtmiCtx_Bboolpr, in_ctx, ndrxj_BExprTree_ptr_get. keeps_tac.
  - unfold Java_BExprTree_Btreefree. keeps_tac.
  - eauto with frame.
  - unfold Java_TypedUbf_Baddfast_String, with_string. pins_tac.
  - unfold Java_TypedUbf_Baddfast_Bytes, with_bytes. pins_tac.
  - apply pins_on_buffer. intros b. keeps_tac.
  - apply pins_on_buffer. intros b. keeps_tac.
  - apply keeps_bind; [|eauto with frame]. apply pins_on_buffer. intros b.
    unfold vsnprintf_missing_arguments. keeps_tac.
Qed.
End Pins.

(** ** Between calls no context is set *)

Section Ctx.
Context `{!XatmiLaws}.

Lemma ctx_treefree p : triple null_ctx (Java_BExprTree_Btreefree p) (λ _, null_ctx).
Proof.
  unfold Java_BExprTree_Btreefree. do 2 (eapply triple_bind; [apply triple_any|intros ?]).
  eapply triple_bind; [apply triple_unset|]. intros ? w Hw. by apply keep_ctx_free.
Qed.

Lemma ctx_Baddfast d f v l : triple null_ctx (ndrxj_ubf_Baddfast vm d f v l) (λ _, null_ctx).
Proof. unfold ndrxj_ubf_Baddfast. ctx_tac. Qed.

Lemma eval_ctx n : triple null_ctx (run_eval n) (λ _, null_ctx).
Proof.
  destruct n; cbn [run_eval]; unfold ignore;
    try (eapply (triple_bind _ _ (λ _, null_ctx)); [|by intros ? w]);
    eauto using ctx_treefree, ctx_Baddfast.
  1-2: unfold Java_TypedUbf_Bboolev, Java_TypedUbf_Bfloatev, with_expression; apply triple_out.
  all: try (unfold Java_TypedUbf_Bqboolev; apply triple_out).
  all: unfold Java_AtmiCtx_Bboolco, Java_AtmiCtx_Bboolpr, Java_TypedUbf_Bprint, Java_TypedUbf_Bextread,
    Java_TypedUbf_Bwrite, on_buffer, in_ctx; try ctx_tac.
  - unfold Java_TypedUbf_Baddfast_String, with_string. eapply (triple_bind _ _ (λ _, null_ctx)); [ctx_tac|].
    intros [s c]. eapply (triple_bind _ _ (λ _, null_ctx)); [apply ctx_Baddfast|]. intros ?. ctx_tac.
  - unfold Java_TypedUbf_Baddfast_Bytes, with_bytes. eapply (triple_bind _ _ (λ _, null_ctx)).
    { apply same_x_keeps. unfold GetByteArrayElements, pin. same_x_tac. }
    intros [s c]. eapply (triple_bind _ _ (λ _, null_ctx)).
    { apply same_x_keeps. unfold GetArrayLength. same_x_tac. }
    intros n. eapply (triple_bind _ _ (λ _, null_ctx)); [apply ctx_Baddfast|]. intros ?. ctx_tac.
Qed.
End Ctx.
End EvalNatives.

(** ** Handlers resume the context they interrupt *)

(** [tpgetctxt] names the thread's context and leaves it. *)
Class ContextLaws `{ContextLib} : Prop := {
  getctxt_names x : (tpgetctxt x).1 = x_ctx x;
  getctxt_leaves x : x_ctx (tpgetctxt x).2 = TPNULLCONTEXT
}.

Definition in_context `{Xatmi} (c : Z) (w : world xst) : Prop := x_ctx (w_x w) = c.

Section Resume.
Context `{Ubf} `{!ContextLib} `{!JavaCode} `{!XatmiLaws} `{!ContextLaws} `{!JavaClean} (vm : jvm).

Lemma same_x_in {A} (m : M xst A) c : same_x m → triple (in_context c) m (λ _, in_context c).
Proof.
  intros Hm w Hw. specialize (Hm w). destruct (m w); [|done]. unfold in_context in *. congruence.
Qed.

Lemma triple_getctxt c :
  triple (in_context c) (xcall tpgetctxt) (λ r w, null_ctx w ∧ r = c).
Proof.
  intros w <-. unfold xcall, null_ctx. pose proof (getctxt_names (w_x w)). pose proof (getctxt_leaves (w_x w)).
  by destruct (tpgetctxt (w_x w)).
Qed.

Lemma triple_setctxt P c : triple P (xmod (tpsetctxt c)) (λ _, in_context c).
Proof. intros w _. unfold in_context. simpl. apply keep_ctx_set. Qed.

Lemma call_java_null m : triple null_ctx (call_java m) (λ _, null_ctx).
Proof.
  unfold call_java. eapply (triple_bind _ _ (λ _, null_ctx)).
  { apply same_x_keeps. unfold ExceptionCheck. same_x_tac. }
  intros []; [apply triple_crash|]. destruct (receiver m); [apply java_ctx|apply triple_crash].
Qed.

Lemma bool_callback_resumes c f : triple (in_context c) (Bbool_callback_function vm f) (λ _, in_context c).
Proof.
  unfold Bbool_callback_function. eapply triple_bind; [apply triple_getctxt|]. intros r.
  apply triple_pure. intros ->.
  do 3 (eapply triple_bind; [apply triple_any|intros ?]).
  eapply triple_bind; [apply triple_setctxt|]. intros ?. by apply triple_ret.
Qed.

Lemma print_callback_resumes c o b : triple (in_context c) (bboolprcb_callback vm o b) (λ _, in_context c).
Proof.
  unfold bboolprcb_callback. eapply (triple_bind _ _ (λ _, in_context c)).
  { apply same_x_in. unfold NewByteArray, jni_new. same_x_tac. }
  intros [ba|].
  2: { apply same_x_in. unfold NDRXJ_LOG_EXCEPTION, ExceptionCheck. same_x_tac. }
  eapply (triple_bind _ _ (λ _, in_context c)).
  { apply same_x_in. unfold SetByteArrayRegion. same_x_tac. }
  intros ?. eapply (triple_bind _ _ (λ _, in_context c)).
  { apply same_x_in. unfold ExceptionCheck. same_x_tac. }
  intros []; [apply same_x_in; unfold NDRXJ_LOG_EXCEPTION, ExceptionCheck; same_x_tac|].
  eapply triple_bind; [apply triple_getctxt|]. intros r. apply triple_pure. intros ->.
  eapply triple_bind; [apply triple_any|intros ?].
  eapply triple_bind; [apply triple_setctxt|]. intros ?. by apply triple_ret.
Qed.

Lemma readf_resumes c r n : triple (in_context c) (Bextread_readf vm r n) (λ _, in_context c).
Proof.
  unfold Bextread_readf. eapply triple_bind; [apply triple_getctxt|]. intros r'. apply triple_pure. intros ->.
  eapply triple_bind; [apply triple_any|intros str].
  eapply triple_bind; [apply triple_setctxt|]. intros ?. apply same_x_in.
  destruct str; [|unfold ExceptionCheck, NDRXJ_LOG_EXCEPTION, ExceptionCheck; same_x_tac].
  apply same_x_bind; [eauto with ctx|]. intros [[s|] cp]; same_x_tac.
Qed.
End Resume.

(** ** The bytes of a buffer *)

Section Bytes.
Context `{UbfIO} (vm : jvm).
Hypothesis memory : vm_has_memory vm.

(** A writer that hands over the blocks [bs] and stops with 0. *)
Fixpoint writes (bs : list (list Z)) (s : script xst (list Z) Z Z) : Prop :=
  match bs with
  | [] => s = S_ret EXSUCCEED
  | b :: bs' => ∃ k, s = S_call b k ∧ writes bs' (k (Z.of_nat (length b)))
  end.

(** Collecting blocks. *)
Lemma run_writef ctl b w :
  rw_offset ctl = length (default [] (rw_buf ctl)) →
  ∃ w', Bwrite_writef vm ctl b w =
    Ok (Z.of_nat (length b),
        RwData (rw_offset ctl + length b) (Some (default [] (rw_buf ctl) ++ b)) (rw_size ctl)) w' ∧
    w' = ticked w.
Proof.
  intros Ho. eexists. split; [|done]. unfold Bwrite_writef. rewrite run_bind. unfold ask. rewrite memory, run_ret.
  by rewrite Ho, take_ge by done.
Qed.

Lemma run_writes bs s ctl w :
  writes bs s → rw_offset ctl = length (default [] (rw_buf ctl)) →
  ∃ ctl' w', run_script_ctl (Bwrite_writef vm) ctl s w = Ok (ctl', EXSUCCEED) w' ∧
    default [] (rw_buf ctl') = default [] (rw_buf ctl) ++ concat bs ∧
    rw_offset ctl' = length (default [] (rw_buf ctl')) ∧ same_but_tick w w'.
Proof.
  revert s ctl w. induction bs as [|b bs IH]; intros s ctl w Hs Ho; cbn [writes] in Hs.
  - subst. exists ctl, w. rewrite app_nil_r. split; [done|]. split; [done|]. split; [done|].
    apply same_but_tick_refl.
  - destruct Hs as (k & -> & Hk). cbn [run_script_ctl]. rewrite run_bind.
    destruct (run_writef ctl b w Ho) as (w1 & -> & ->).
    destruct (IH _ (RwData (rw_offset ctl + length b) (Some (default [] (rw_buf ctl) ++ b)) (rw_size ctl))
      (ticked w) Hk) as (ctl' & w' & Hr & Hb & Ho' & Hw).
    { simpl. rewrite length_app. lia. }
    exists ctl', w'. split; [exact Hr|]. split; [rewrite Hb; simpl; by rewrite <- app_assoc|]. split; [done|].
    eapply same_but_tick_trans; [by exists 1|done].
Qed.

(** A reader that asks for a head of [n] bytes, and for the rest into [m] bytes. *)
Definition reads (n m : Z) (done : option (list Z) → option (list Z) → script xst Z (option (list Z)) Z)
    : script xst Z (option (list Z)) Z :=
  S_call n (λ head, S_call m (λ rest, done head rest)).

Lemma run_reads n m done b w :
  (0 < n ≤ Z.of_nat (length b))%Z → (Z.of_nat (length b) - n ≤ m)%Z →
  run_script_ctl (Bread_readf vm) (RwData 0 (Some b) (Z.of_nat (length b))) (reads n m done) w =
  run_script_ctl (Bread_readf vm) (RwData (Z.to_nat n) (Some b) (Z.of_nat (length b)))
    (done (Some (take (Z.to_nat n) b)) (Some (drop (Z.to_nat n) b))) w.
Proof.
  intros Hn Hm. unfold reads. cbn [run_script_ctl]. rewrite run_bind. unfold Bread_readf at 1.
  cbn [rw_offset rw_size rw_buf Nat.eqb]. rewrite (proj2 (Z.ltb_ge _ _)) by lia. rewrite run_ret. cbn [Nat.add].
  rewrite run_bind. unfold Bread_readf at 1. cbn [rw_offset rw_size rw_buf].
  rewrite (proj2 (Nat.eqb_neq _ _)) by lia. rewrite (proj2 (Z.ltb_ge _ _)); [done|].
  rewrite length_drop. lia.
Qed.

(** What is left over does not fit: it is written beyond the library's buffer. *)
Lemma run_reads_overflow n m done b w :
  (0 < n ≤ Z.of_nat (length b))%Z → (m < Z.of_nat (length b) - n)%Z →
  run_script_ctl (Bread_readf vm) (RwData 0 (Some b) (Z.of_nat (length b))) (reads n m done) w =
  Crash "write beyond the library's buffer".
Proof.
  intros Hn Hm. unfold reads. cbn [run_script_ctl]. rewrite run_bind. unfold Bread_readf at 1.
  cbn [rw_offset rw_size rw_buf Nat.eqb]. rewrite (proj2 (Z.ltb_ge _ _)) by lia. rewrite run_ret. cbn [Nat.add].
  rewrite run_bind. unfold Bread_readf at 1. cbn [rw_offset rw_size rw_buf].
  rewrite (proj2 (Nat.eqb_neq _ _)) by lia. rewrite (proj2 (Z.ltb_lt _ _)); [done|].
  rewrite length_drop. lia.
Qed.

(** A reader that loads the head and the rest together. *)
Definition loads (n m : Z) (load : list Z → xst → xst) : script xst Z (option (list Z)) Z :=
  reads n m (λ head rest,
    match head, rest with
    | Some h, Some r => S_lib (load (h ++ r)) (λ _, S_ret EXSUCCEED)
    | _, _ => S_ret EXFAIL
    end).

Lemma run_Bwrite `{!ContextLib} `{!JavaCode} l o ctx t bs w :
  field_ready l o ctx t w → writes bs (Bwritecb (tb_cPtr t)) →
  (Z.of_nat (length (concat bs)) < 2147483648)%Z →
  ∃ la w', Java_TypedUbf_Bwrite vm (Some l) w = Ok (Some la) w' ∧
    w_heap w' !! la = Some (JBytes (concat bs)) ∧ w_exc w' = None ∧ w_pins w' = w_pins w.
Proof.
  intros Hl Hw Hsz. unfold Java_TypedUbf_Bwrite.
  match goal with |- context [on_buffer vm (Some l) None ?body w] =>
    destruct (run_on_buffer vm l o ctx t None body w memory Hl) as (w1 & -> & Hx & Hp & He) end.
  rewrite run_bind, run_bind.
  destruct (run_writes bs _ (RwData 0 None 0) w1 Hw eq_refl) as (ctl & w2 & -> & Hb & Ho & [k ->]).
  destruct (iter_ticked k w1) as (_ & _ & He2 & Hp2 & _). set (w2 := Nat.iter k ticked w1) in *.
  simpl in Hb. rewrite Z.eqb_refl, Ho, Hb.
  assert (to_jsize (Z.of_nat (length (concat bs))) = Z.of_nat (length (concat bs))) as ->.
  { unfold to_jsize. rewrite Z.mod_small by lia. lia. }
  rewrite run_bind, (run_NewByteArray vm memory), run_bind.
  rewrite run_SetByteArrayRegion by (done || apply lookup_insert_eq).
  rewrite run_bind, run_ExceptionCheck, bool_decide_eq_false_2 by (simpl; rewrite He2, He; naive_solver).
  rewrite run_bind, run_ret, run_ret, run_bind. unfold unset_ctx, xmod. rewrite run_ret.
  eexists _, _. split; [done|]. split; [apply lookup_insert_eq|]. simpl. split; congruence.
Qed.

Lemma run_Bread `{!ContextLib} `{!JavaCode} l o ctx t la b n m load w :
  vm_hands_copies vm → field_ready l o ctx t w → w_heap w !! la = Some (JBytes b) →
  Breadcb (tb_cPtr t) = loads n m load →
  (0 < n ≤ Z.of_nat (length b))%Z → (Z.of_nat (length b) - n ≤ m)%Z →
  ∃ w', Java_TypedUbf_Bread vm (Some l) (Some la) w = Ok tt w' ∧
    w_x w' = tpsetctxt TPNULLCONTEXT (load b (entered o ctx (w_x w))) ∧
    w_exc w' = None ∧ w_pins w' = w_pins w.
Proof.
  intros Hc [Hl Ho He Hx] Hla Hr Hn Hm. unfold Java_TypedUbf_Bread.
  rewrite run_bind, (run_GetByteArrayElements vm la b) by done. rewrite Hc.
  set (w0 := with_pins _ _). assert (enterable o ctx w0) as He0 by (by destruct He).
  unfold ndrxj_TypedBuffer_get_ctx. rewrite run_bind, run_bind, (run_get_tb l t), Ho by done.
  destruct (run_get_ctx vm o ctx w0 memory He0) as (wk & tk & -> & _).
  rewrite (proj2 (Z.eqb_neq _ _) (ent_ctx _ _ _ He)), run_bind, (run_get_buffer l t) by done.
  rewrite Z.eqb_refl, run_bind, run_bind, (run_GetArrayLength la b) by done.
  rewrite Hr. unfold loads. rewrite run_bind, run_reads by done. cbn [run_script_ctl].
  rewrite run_bind, run_mmod, run_bind. unfold mget. rewrite run_ret, Z.eqb_refl, run_ret.
  rewrite run_bind. unfold release_if. rewrite (run_Release_head la (w_pins w)) by done.
  unfold unset_ctx, xmod. eexists. split; [done|]. simpl. by rewrite take_drop.
Qed.
End Bytes.
