(* ===== verification/Payload.v ===== *)
(** * libsrc/c/TypedCarray.c, TypedString.c, TypedJson.c: buffer contents

    The setters copy a Java array or string into the XATMI buffer, growing it first
    when it is too small; the getters make a Java object of the contents.  The memory
    behind the buffers is the class [BufferMemory]; a copy that would not fit is a
    crash, so the theorems show that it always fits. *)
From stdpp Require Import sorting strings gmap list numbers.
From Stdlib Require Import Ascii.
From S2P Require Import Prelude CString Jni Xatmi Exceptions TypedBuffer Calls Frame CallSpec.
From S2P Require Import ClassIndex.

(** The bytes of each allocated buffer, and what the library guarantees of them:
    [tptypes] tells the size, [tprealloc] gives at least the size asked for, context
    functions leave the memory alone. *)
Class BufferMemory `{Xatmi} := {
  buf_data : Z → xst → option (list Z);
  buf_store : Z → list Z → xst → xst;
  data_store b d c x :
    buf_data b x = Some d → length c = length d → buf_data b (buf_store b c x) = Some c;
  data_set c b x : buf_data b (tpsetctxt c x) = buf_data b x;
  data_priv p b x : buf_data b (ndrx_ctx_priv_put p x) = buf_data b x;
  data_types b b' x : buf_data b' (tptypes b x).2 = buf_data b' x;
  types_size b d x : buf_data b x = Some d → (tptypes b x).1.1.1 = Z.of_nat (length d);
  data_realloc b n x b' x' :
    tprealloc b n x = (b', x') → b' ≠ 0%Z →
    ∃ d, buf_data b' x' = Some d ∧ (n ≤ Z.of_nat (length d))%Z
}.

(** The bytes of a C string, with its terminator, and back. *)
Definition char_bytes (s : string) : list Z := (λ c, Z.of_nat (nat_of_ascii c)) <$> String.list_ascii_of_string s.
Definition cstr_bytes (s : string) : list Z := char_bytes s ++ [0%Z].

(** The string up to the first zero; [None]: there is none. *)
Fixpoint read_cstr (l : list Z) : option string :=
  match l with
  | [] => None
  | z :: l' => if (z =? 0)%Z then Some EmptyString
               else String (ascii_of_nat (Z.to_nat z)) <$> read_cstr l'
  end.

Section Payload.
Context `{BufferMemory} (vm : jvm).

(** Write [c] at the start of buffer [b]. *)
Definition memcpy (b : Z) (c : list Z) : M xst unit := λ w,
  match buf_data b (w_x w) with
  | Some d =>
      if length c <=? length d then
        Ok tt (with_x (buf_store b (c ++ drop (length c) d) (w_x w)) w)
      else Crash "write beyond the buffer"
  | None => Crash "not a buffer"
  end.

(** The common part of the setters: make room for [new_size] bytes.  The result is
    the buffer to write to, [None] when an exception was raised. *)
Definition make_room (data : jobject) (cdata new_size : Z) (update_len : bool) : M xst (option Z) :=
  '(r, _, _) ← xcall (tptypes cdata);
  let bufsz := to_jsize r in
  if (bufsz <? 1)%Z then
    e ← xget tperrno; ndrxj_atmi_throw vm data None e (tpstrerror e);; mret None
  else if (bufsz <? new_size)%Z then
    cdata' ← xcall (tprealloc cdata new_size);
    if (cdata' =? 0)%Z then
      ndrxj_atmi_TypedBuffer_set_buffer data 0 0;;
      e ← xget tperrno; ndrxj_atmi_throw vm data None e (tpstrerror e);; mret None
    else ndrxj_atmi_TypedBuffer_set_buffer data cdata' new_size;; mret (Some cdata')
  else
    (if update_len then ndrxj_atmi_TypedBuffer_set_buffer data cdata new_size;; mret tt else mret tt);;
    mret (Some cdata).

(** [TypedCarray.setBytes] *)
Definition Java_TypedCarray_setBytes (data b : jobject) : M xst unit :=
  match b with
  | None => ndrxj_atmi_throw vm data None TPEINVAL "byte array must not be NULL!"
  | Some _ =>
      ctx ← ndrxj_TypedBuffer_get_ctx vm data true;
      (if (ctx =? 0)%Z then mret tt
       else
         '(r, cdata, _, _) ← ndrxj_atmi_TypedBuffer_get_buffer data 0 false false;
         if (r =? EXSUCCEED)%Z then
           '(n_carray, n_carray_copy) ← GetByteArrayElements vm b;
           new_size ← GetArrayLength b;
           room ← make_room data cdata new_size true;
           (match room, n_carray with
            | Some cdata', Some c => memcpy cdata' c
            | Some _, None => crash "memcpy from NULL"
            | None, _ => mret tt
            end);;
           release_if n_carray_copy b
         else mret tt);;
      unset_ctx
  end.

(** [TypedCarray.getBytes] *)
Definition Java_TypedCarray_getBytes (data : jobject) : M xst jobject :=
  ctx ← ndrxj_TypedBuffer_get_ctx vm data true;
  ret ← (if (ctx =? 0)%Z then mret None
         else
           '(r, cdata, clen, _) ← ndrxj_atmi_TypedBuffer_get_buffer data 0 false false;
           if (r =? EXSUCCEED)%Z then
             ret ← NewByteArray vm (to_jsize clen);
             match ret with
             | None => NDRXJ_LOG_EXCEPTION;; mret None
             | Some _ =>
                 d ← xget (buf_data cdata);
                 SetByteArrayRegion ret (to_jsize clen) (default [] d);;
                 ex ← ExceptionCheck;
                 if (ex : bool) then NDRXJ_LOG_EXCEPTION;; mret ret else mret ret
             end
           else mret None);
  unset_ctx;; mret ret.

(** [TypedString.setString] and [TypedJson.setJSON]: two copies of one function. *)
Definition set_text (data s : jobject) : M xst unit :=
  match s with
  | None => ndrxj_atmi_throw vm data None TPEINVAL "string must not be NULL!"
  | Some _ =>
      ctx ← ndrxj_TypedBuffer_get_ctx vm data true;
      (if (ctx =? 0)%Z then mret tt
       else
         '(r, cdata, _, _) ← ndrxj_atmi_TypedBuffer_get_buffer data 0 false false;
         if (r =? EXSUCCEED)%Z then
           '(n_str, n_str_copy) ← GetStringUTFChars vm s;
           match n_str with
           | None => crash "strlen of NULL"
           | Some str =>
               let new_size := to_jsize (Z.of_nat (String.length str) + 1) in
               room ← make_room data cdata new_size false;
               (match room with
                | Some cdata' => memcpy cdata' (cstr_bytes str)
                | None => mret tt
                end);;
               release_if n_str_copy s
           end
         else mret tt);;
      unset_ctx
  end.

Definition Java_TypedString_setString (data s : jobject) : M xst unit :=
  set_text data s.
Definition Java_TypedJson_setJSON (data s : jobject) : M xst unit :=
  set_text data s.

(** [TypedString.getString] and [TypedJson.getJSON]: the buffer as a C string. *)
Definition get_text (data : jobject) : M xst jobject :=
  ctx ← ndrxj_TypedBuffer_get_ctx vm data true;
  ret ← (if (ctx =? 0)%Z then mret None
         else
           '(r, cdata, _, _) ← ndrxj_atmi_TypedBuffer_get_buffer data 0 false false;
           if (r =? EXSUCCEED)%Z then
             d ← xget (buf_data cdata);
             match d ≫= read_cstr with
             | Some s => NewStringUTF vm s
             | None => crash "string without an end"
             end
           else mret None);
  unset_ctx;; mret ret.

Definition Java_TypedString_getString (data : jobject) : M xst jobject := get_text data.
Definition Java_TypedJson_getJSON (data : jobject) : M xst jobject := get_text data.
End Payload.

(** * What is stored is what is read

    The setters never write outside a buffer, and the getters give back what the
    setters stored, whether the buffer had to grow or not. *)

(** A C string is read back from any memory it starts. *)
Lemma read_cstr_bytes s rest : nul_free s → read_cstr (cstr_bytes s ++ rest) = Some s.
Proof.
  unfold cstr_bytes, char_bytes. induction s as [|c s IH]; [done|]. cbn [nul_free].
  intros [Hc Hs]%andb_prop_elim. cbn -[nat_of_ascii ascii_of_nat].
  destruct (Z.eqb_spec (Z.of_nat (nat_of_ascii c)) 0) as [Hz|Hz].
  - exfalso. assert (nat_of_ascii c = 0%nat) as Hn by lia.
    assert (c = zero) as -> by (rewrite <- (ascii_nat_embedding c), Hn; done). done.
  - rewrite Nat2Z.id, ascii_nat_embedding. cbn -[nat_of_ascii] in IH. by rewrite IH.
Qed.

Lemma cstr_bytes_length s : length (cstr_bytes s) = S (String.length s).
Proof.
  unfold cstr_bytes, char_bytes. rewrite length_app, length_fmap. simpl.
  induction s as [|c s IH]; simpl; [done|]. lia.
Qed.

Section Rooms.
Context `{BufferMemory} (vm : jvm).

(** The object [l] in context object [o], with a buffer of bytes [d]; the machine and
    the library can allocate. *)
Record payload_ready (l o : loc) (ctx : Z) (t : typed_buffer) (d : list Z) (w : world xst) : Prop := {
  pay_obj : w_heap w !! l = Some (JTypedBuffer t);
  pay_ctx : tb_ctx t = Some o;
  pay_enter : enterable o ctx w;
  pay_exc : w_exc w = None;
  pay_buf : buf_data (tb_cPtr t) (w_x w) = Some d;
  pay_mem : vm_has_memory vm;
  pay_copies : vm_hands_copies vm
}.

(** The library has the memory to grow buffer [b], as long as it is allocated. *)
Definition can_grow (b : Z) : Prop :=
  ∀ n d x, buf_data b x = Some d → (tprealloc b n x).1 ≠ 0%Z.

(** The parts of the state the methods leave alone. *)
Definition same_env (w w' : world xst) : Prop :=
  w_next w' = w_next w ∧ w_exc w' = w_exc w ∧ w_pins w' = w_pins w.

Lemma run_buffer_ctx l o ctx t d w :
  payload_ready l o ctx t d w →
  ∃ w1, ndrxj_TypedBuffer_get_ctx vm (Some l) true w = Ok ctx w1 ∧ same_env w w1 ∧
    w_heap w1 = w_heap w ∧ buf_data (tb_cPtr t) (w_x w1) = Some d.
Proof.
  intros [Hl Ho He Hx Hb Hm _]. unfold ndrxj_TypedBuffer_get_ctx.
  rewrite run_bind, (run_get_tb _ _ _ Hl), Ho.
  destruct (run_get_ctx vm o ctx w Hm He) as (wk & tk & -> & _). eexists. split; [reflexivity|].
  split; [done|]. split; [done|]. simpl. unfold entered. by rewrite data_priv, data_set.
Qed.

Lemma run_set_buffer l t b n w :
  w_heap w !! l = Some (JTypedBuffer t) →
  ndrxj_atmi_TypedBuffer_set_buffer (Some l) b n w =
  Ok EXSUCCEED (set_obj l (JTypedBuffer (with_reply b n t)) w).
Proof.
  intros Hl. unfold ndrxj_atmi_TypedBuffer_set_buffer.
  rewrite run_bind, (run_upd_tb _ _ _ _ Hl), run_bind.
  rewrite (run_upd_tb l (set_cPtr b t)) by apply lookup_insert_eq. rewrite run_ret.
  unfold set_obj. simpl. by rewrite insert_insert_eq.
Qed.

(** After [make_room] the object points to a buffer that is large enough. *)
Lemma run_make_room l t d n upd w :
  w_heap w !! l = Some (JTypedBuffer t) → buf_data (tb_cPtr t) (w_x w) = Some d →
  (1 ≤ Z.of_nat (length d) ≤ INT_MAX)%Z →
  can_grow (tb_cPtr t) →
  ∃ t' d' w', make_room vm (Some l) (tb_cPtr t) n upd w = Ok (Some (tb_cPtr t')) w' ∧
    same_env w w' ∧ w_heap w' = <[l := JTypedBuffer t']> (w_heap w) ∧
    buf_data (tb_cPtr t') (w_x w') = Some d' ∧ (n ≤ Z.of_nat (length d'))%Z ∧
    tb_ctx t' = tb_ctx t ∧ (upd = true → tb_len t' = n).
Proof.
  intros Hl Hd Hsz Hre. unfold make_room. rewrite run_bind. unfold xcall at 1.
  pose proof (types_size _ _ _ Hd) as Hr. pose proof (data_types (tb_cPtr t) (tb_cPtr t) (w_x w)) as Hk.
  destruct (tptypes (tb_cPtr t) (w_x w)) as [[[r ty] st] x1]. simpl in Hr, Hk. subst r.
  rewrite to_jsize_id by lia. rewrite (proj2 (Z.ltb_ge _ _)) by lia.
  destruct (Z.ltb_spec (Z.of_nat (length d)) n) as [Hlt|Hge].
  - rewrite run_bind. unfold xcall. cbn [w_x with_x]. specialize (Hre n d x1 ltac:(by rewrite Hk)).
    destruct (tprealloc (tb_cPtr t) n x1) as [b' x2] eqn:Er. simpl in Hre.
    rewrite (proj2 (Z.eqb_neq _ _) Hre), run_bind.
    rewrite (run_set_buffer l t) by done. rewrite run_ret.
    destruct (data_realloc _ _ _ _ _ Er Hre) as (d' & Hd' & Hn).
    exists (with_reply b' n t), d'. eexists. by split_and!.
  - rewrite run_bind. destruct upd.
    + rewrite run_bind, (run_set_buffer l t), run_ret by done.
      exists (with_reply (tb_cPtr t) n t), d. eexists. split_and!; [reflexivity|done|done|simpl|lia|done|done].
      by rewrite Hk.
    + exists t, d. eexists. split_and!; [reflexivity|done|by rewrite insert_id|simpl|lia|done|done].
      by rewrite Hk.
Qed.

Lemma run_memcpy b c d w :
  buf_data b (w_x w) = Some d → length c ≤ length d →
  memcpy b c w = Ok tt (with_x (buf_store b (c ++ drop (length c) d) (w_x w)) w) ∧
  buf_data b (buf_store b (c ++ drop (length c) d) (w_x w)) = Some (c ++ drop (length c) d).
Proof.
  intros Hd Hl. unfold memcpy. rewrite Hd, (proj2 (Nat.leb_le _ _)) by done. split; [done|].
  apply (data_store _ d); [done|]. rewrite length_app, length_drop. lia.
Qed.
End Rooms.

Section RoundTrip.
Context `{BufferMemory} (vm : jvm).

(** The object [l] stands for exactly the bytes [c]. *)
Definition holds_bytes (l : loc) (t : typed_buffer) (c : list Z) (w : world xst) : Prop :=
  w_heap w !! l = Some (JTypedBuffer t) ∧ tb_len t = Z.of_nat (length c) ∧
  ∃ d, buf_data (tb_cPtr t) (w_x w) = Some d ∧ take (length c) d = c.

(** The buffer of [l] starts with the C string [s]. *)
Definition holds_text (l : loc) (t : typed_buffer) (s : string) (w : world xst) : Prop :=
  w_heap w !! l = Some (JTypedBuffer t) ∧
  ∃ d, buf_data (tb_cPtr t) (w_x w) = Some d ∧ read_cstr d = Some s.

Lemma set_bytes_holds l o ctx t d b c w :
  payload_ready vm l o ctx t d w → (1 ≤ Z.of_nat (length d) ≤ INT_MAX)%Z →
  w_heap w !! b = Some (JBytes c) →
  can_grow (tb_cPtr t) →
  ∃ t' w', Java_TypedCarray_setBytes vm (Some l) (Some b) w = Ok tt w' ∧
    same_env w w' ∧ holds_bytes l t' c w' ∧ tb_ctx t' = Some o.
Proof.
  intros Hr Hsz Hb Hre. destruct (run_buffer_ctx vm l o ctx t d w Hr) as (w1 & Hc & Henv & Hh & Hd).
  destruct Hr as [Hl Ho He Hx _ Hm Hcp]. destruct Henv as (Hn1 & Hx1 & Hp1).
  unfold Java_TypedCarray_setBytes. rewrite run_bind, Hc, run_bind.
  rewrite (proj2 (Z.eqb_neq _ _) (ent_ctx _ _ _ He)), run_bind.
  rewrite (run_get_buffer l t) by congruence. rewrite Z.eqb_refl, run_bind.
  rewrite (run_GetByteArrayElements vm b c) by congruence. rewrite Hcp, run_bind.
  rewrite (run_GetArrayLength b c) by (simpl; congruence). rewrite run_bind.
  set (w2 := with_pins _ _). change (buf_data (tb_cPtr t) (w_x w2) = Some d) in Hd.
  assert (Hl2 : w_heap w2 !! l = Some (JTypedBuffer t)) by (simpl; congruence).
  destruct (run_make_room vm l t d (Z.of_nat (length c)) true w2 Hl2 Hd Hsz Hre)
    as (t' & d' & w3 & -> & (Hn3 & Hx3 & Hp3) & Hh3 & Hd3 & Hle & Ht' & Hlen).
  destruct (run_memcpy (tb_cPtr t') c d' w3 Hd3 ltac:(lia)) as [Hcpy Hd4].
  rewrite run_bind, Hcpy. cbn [release_if]. rewrite (run_Release_head b (w_pins w1)) by exact Hp3.
  exists t'. eexists. split; [reflexivity|]. split_and!.
  - unfold same_env. simpl. split_and!; [by rewrite Hn3|by rewrite Hx3|done].
  - split; [simpl; rewrite Hh3; apply lookup_insert_eq|]. split; [by apply Hlen|].
    eexists. split; [simpl; rewrite data_set; exact Hd4|]. by rewrite take_app_length.
  - by rewrite Ht'.
Qed.

Lemma get_bytes_reads l o ctx t d c w :
  payload_ready vm l o ctx t d w → holds_bytes l t c w →
  (Z.of_nat (length c) ≤ INT_MAX)%Z →
  ∃ w', Java_TypedCarray_getBytes vm (Some l) w = Ok (Some (w_next w)) w' ∧
    w_heap w' !! w_next w = Some (JBytes c) ∧ w_exc w' = None ∧ w_pins w' = w_pins w.
Proof.
  intros Hr (_ & Hlen & d' & Hd' & Htk) Hmax.
  destruct (run_buffer_ctx vm l o ctx t d w Hr) as (w1 & Hc & (Hn & Hx1 & Hp) & Hh & Hd).
  destruct Hr as [Hl Ho He Hx Hd0 Hm Hcp].
  assert (d' = d) as -> by congruence.
  unfold Java_TypedCarray_getBytes. rewrite run_bind, Hc, run_bind.
  rewrite (proj2 (Z.eqb_neq _ _) (ent_ctx _ _ _ He)), run_bind.
  rewrite (run_get_buffer l t) by congruence. rewrite Z.eqb_refl, run_bind, Hlen.
  rewrite to_jsize_id by lia. unfold NewByteArray. rewrite (proj2 (Z.ltb_ge _ _)) by lia.
  rewrite run_jni_new by done. rewrite run_bind. unfold xget. simpl. rewrite Hd.
  rewrite run_bind. unfold SetByteArrayRegion. rewrite run_bind.
  erewrite run_deref by apply lookup_insert_eq. cbn beta iota.
  rewrite Nat2Z.id, length_replicate. simpl.
  assert (length c ≤ length d) by (rewrite <- Htk, length_take; lia).
  rewrite (proj2 (Nat.ltb_ge _ _)), !(proj2 (Z.ltb_ge _ _)) by lia. cbn [orb].
  rewrite run_mmod, run_bind, run_ExceptionCheck. cbn [w_exc set_obj with_heap ticked].
  rewrite bool_decide_eq_false_2 by (rewrite Hx1; naive_solver). rewrite run_ret.
  rewrite Hn, Htk, drop_ge, app_nil_r by (rewrite length_replicate; lia).
  eexists. split; [reflexivity|]. simpl. rewrite lookup_insert_eq. split_and!; congruence.
Qed.

Lemma set_text_holds l o ctx t d b s w :
  payload_ready vm l o ctx t d w → (1 ≤ Z.of_nat (length d) ≤ INT_MAX)%Z →
  w_heap w !! b = Some (JString s) → nul_free s →
  (Z.of_nat (String.length s) < INT_MAX)%Z →
  can_grow (tb_cPtr t) →
  ∃ t' w', set_text vm (Some l) (Some b) w = Ok tt w' ∧
    same_env w w' ∧ holds_text l t' s w' ∧ tb_ctx t' = Some o.
Proof.
  intros Hr Hsz Hb Hs Hmax Hre.
  destruct (run_buffer_ctx vm l o ctx t d w Hr) as (w1 & Hc & Henv & Hh & Hd).
  destruct Hr as [Hl Ho He Hx _ Hm Hcp]. destruct Henv as (Hn1 & Hx1 & Hp1).
  unfold set_text. rewrite run_bind, Hc, run_bind.
  rewrite (proj2 (Z.eqb_neq _ _) (ent_ctx _ _ _ He)), run_bind.
  rewrite (run_get_buffer l t) by congruence. rewrite Z.eqb_refl, run_bind.
  rewrite (run_GetStringUTFChars vm b s) by congruence. rewrite Hcp.
  rewrite to_jsize_id by (unfold INT_MAX in *; lia). rewrite run_bind.
  set (w2 := with_pins _ _). change (buf_data (tb_cPtr t) (w_x w2) = Some d) in Hd.
  assert (Hl2 : w_heap w2 !! l = Some (JTypedBuffer t)) by (simpl; congruence).
  destruct (run_make_room vm l t d (Z.of_nat (String.length s) + 1) false w2 Hl2 Hd Hsz Hre)
    as (t' & d' & w3 & -> & (Hn3 & Hx3 & Hp3) & Hh3 & Hd3 & Hle & Ht' & _).
  assert (Hfit : length (cstr_bytes s) ≤ length d') by (rewrite cstr_bytes_length; lia).
  destruct (run_memcpy (tb_cPtr t') (cstr_bytes s) d' w3 Hd3 Hfit) as [Hcpy Hd4].
  rewrite run_bind, Hcpy. cbn [release_if]. rewrite (run_Release_head b (w_pins w1)) by exact Hp3.
  exists t'. eexists. split; [reflexivity|]. split_and!.
  - unfold same_env. simpl. split_and!; [by rewrite Hn3|by rewrite Hx3|done].
  - split; [simpl; rewrite Hh3; apply lookup_insert_eq|].
    eexists. split; [simpl; rewrite data_set; exact Hd4|]. by apply read_cstr_bytes.
  - by rewrite Ht'.
Qed.

Lemma get_text_reads l o ctx t d s w :
  payload_ready vm l o ctx t d w → holds_text l t s w →
  ∃ w', get_text vm (Some l) w = Ok (Some (w_next w)) w' ∧
    w_heap w' !! w_next w = Some (JString s) ∧ w_exc w' = None ∧ w_pins w' = w_pins w.
Proof.
  intros Hr (_ & d' & Hd' & Hs).
  destruct (run_buffer_ctx vm l o ctx t d w Hr) as (w1 & Hc & (Hn & Hx1 & Hp) & Hh & Hd).
  destruct Hr as [Hl Ho He Hx Hd0 Hm Hcp]. assert (d' = d) as -> by congruence.
  unfold get_text. rewrite run_bind, Hc, run_bind.
  rewrite (proj2 (Z.eqb_neq _ _) (ent_ctx _ _ _ He)), run_bind.
  rewrite (run_get_buffer l t) by congruence. rewrite Z.eqb_refl, run_bind. unfold xget.
  rewrite Hd. simpl. rewrite Hs. unfold NewStringUTF. rewrite run_jni_new by done. rewrite Hn.
  eexists. split; [reflexivity|]. simpl. rewrite lookup_insert_eq. split_and!; congruence.
Qed.
End RoundTrip.
