(* ===== verification/Toy.v ===== *)
(** * A small library that behaves as documented

    A concrete [Xatmi] with buffers, contexts and four services, and the proofs that
    it satisfies [XatmiLaws] and [XatmiBuffers]: the laws are consistent, and the
    theorems about the binding can be run on it. *)
From stdpp Require Import sorting strings gmap list numbers.
From S2P Require Import Prelude CString Jni Xatmi Convert Queues Callback Server Ubf Owners Payload.

Record toy := Toy {
  toy_ctx : Z;
  toy_priv : ctx_priv;
  toy_err : Z;
  toy_berr : Z;
  toy_bufs : list (Z * (string * list Z));
  toy_log : list tpsvcinfo
}.

Definition with_err (e : Z) (x : toy) : toy := Toy (toy_ctx x) (toy_priv x) e (toy_berr x) (toy_bufs x) (toy_log x).
Definition with_bufs (m : list (Z * (string * list Z))) (x : toy) : toy := Toy (toy_ctx x) (toy_priv x) (toy_err x) (toy_berr x) m (toy_log x).
Definition with_ctx (c : Z) (x : toy) : toy := Toy c (toy_priv x) (toy_err x) (toy_berr x) (toy_bufs x) (toy_log x).
Definition with_berr (e : Z) (x : toy) : toy := Toy (toy_ctx x) (toy_priv x) (toy_err x) e (toy_bufs x) (toy_log x).

Definition TPENOENT : Z := 6.

Definition buf_without (b : Z) (l : list (Z * (string * list Z))) : list (Z * (string * list Z)) :=
  filter (λ e, e.1 ≠ b) l.
Definition buf_find (b : Z) (l : list (Z * (string * list Z))) : option (string * list Z) :=
  snd <$> find (λ e, (e.1 =? b)%Z) l.
Definition buf_update (b : Z) (c : list Z) (l : list (Z * (string * list Z))) :=
  (λ e, if (e.1 =? b)%Z then (e.1, (e.2.1, c)) else e) <$> l.
Definition zeros (n : Z) : list Z := replicate (Z.to_nat n) 0%Z.

(** An address above all that are in use. *)
Definition toy_fresh (x : toy) : Z := (1 + foldr Z.max 0 (toy_bufs x).*1)%Z.

(** Replace buffer [b] by a new one of type [t] and size [n]. *)
Definition toy_move (b : Z) (t : string) (n : Z) (x : toy) : Z * toy :=
  (toy_fresh x, with_bufs ((toy_fresh x, (t, zeros n)) :: buf_without b (toy_bufs x)) x).

(** ECHO answers with the caller's buffer, TEXT with a new STRING buffer, FAIL fails
    with a new STRING buffer; no other service exists. *)
Definition toy_call (s : option string) (b n : Z) (x : toy) : (Z * Z * Z) * toy :=
  match s with
  | Some svc =>
      if String.eqb svc "ECHO" then ((0, b, n)%Z, x)
      else if String.eqb svc "TEXT" then let '(b', x') := toy_move b "STRING" 5 x in ((0, b', 5)%Z, x')
      else if String.eqb svc "FAIL" then
        let '(b', x') := toy_move b "STRING" 5 x in ((-1, b', 5)%Z, with_err TPESVCFAIL x')
      else ((-1, b, n)%Z, with_err TPENOENT x)
  | None => ((-1, b, n)%Z, with_err TPEINVAL x)
  end.

#[export] Instance toy_xatmi : Xatmi := {
  xst := toy;
  MAX_ERROR_LEN := 1024;
  x_op _ x := (0%Z, x);
  x_run _ x := x;
  x_name _ x := (Some "T_FLD"%string, with_berr 0 x);
  Nerror _ := 0%Z;
  Nstrerror _ := "error";
  ndrx_Necodestr _ := "NEINVAL";
  Berror := toy_berr;
  Bstrerror _ := "bad field";
  Becodestr e := if (e =? 14)%Z then "BEINVAL" else "BMINVAL";
  ndrx_buffer_list x := (Some (toy_bufs x).*1, x);
  x_ctx := toy_ctx;
  tpsetctxt := with_ctx;
  tpnewctxt x := (1%Z, with_ctx 1 x);
  tpfreectxt _ x := x;
  ndrx_ctx_priv_get := toy_priv;
  ndrx_ctx_priv_put p x := Toy (toy_ctx x) p (toy_err x) (toy_berr x) (toy_bufs x) (toy_log x);
  tperrno := toy_err;
  tpstrerror e := if (e =? TPENOENT)%Z then "no such service" else "failed";
  tpecodestr e := if (e =? TPENOENT)%Z then "TPENOENT"
                  else if (e =? TPESVCFAIL)%Z then "TPESVCFAIL" else "TPEINVAL";
  tptypes b x := match buf_find b (toy_bufs x) with
                 | Some (t, d) => ((Z.of_nat (length d), t, EmptyString), x)
                 | None => (((-1)%Z, EmptyString, EmptyString), with_err TPEINVAL x)
                 end;
  tpalloc t s n x := (toy_fresh x, with_bufs ((toy_fresh x, (t, zeros n)) :: toy_bufs x) x);
  tprealloc b n x := match buf_find b (toy_bufs x) with
                     | Some (t, d) => toy_move b t n x
                     | None => (0%Z, with_err TPEINVAL x)
                     end;
  tpfree b x := with_bufs (buf_without b (toy_bufs x)) x;
  tpcall s b n f x := toy_call s b n x;
  tpacall s b n f x := (1%Z, x);
  tpgetrply c b n f x := if (c =? 0)%Z then ((0, 0, b, n)%Z, x)
                         else let '(b', x') := toy_move b "STRING" 5 x in ((0, c, b', 5)%Z, x');
  tpconnect s b n f x := (1%Z, x);
  tprecv c b n f x := let '(b', x') := toy_move b "STRING" 5 x in ((0, b', 5, 0)%Z, x');
  tpsend c b n f x := ((0, 0)%Z, x);
  tpdiscon c x := ((-1)%Z, with_err TPEINVAL x)
}.

#[export] Instance toy_laws : XatmiLaws.
Proof.
  constructor; try done; intros; simpl.
  - by destruct (buf_find b (toy_bufs x)) as [[]|].
  - by destruct (buf_find b (toy_bufs x)) as [[]|].
  - unfold toy_call, toy_move. destruct s as [svc|]; [|done]. by repeat case_match.
  - by destruct (c =? 0)%Z.
Qed.

(** ** Its buffers *)

Definition toy_live (x : toy) : gset Z := list_to_set (toy_bufs x).*1.

Lemma toy_live_elem b x : b ∈ toy_live x ↔ b ∈ (toy_bufs x).*1.
Proof. unfold toy_live. by rewrite elem_of_list_to_set. Qed.

Lemma toy_fresh_new x b : b ∈ toy_live x → (b < toy_fresh x)%Z.
Proof.
  rewrite toy_live_elem. unfold toy_fresh.
  induction (toy_bufs x).*1 as [|c l IH]; cbn [foldr]; [by rewrite elem_of_nil|].
  rewrite elem_of_cons. intros [->|Hb]; [lia|]. specialize (IH Hb). lia.
Qed.

Lemma toy_fresh_pos x : (0 < toy_fresh x)%Z.
Proof.
  unfold toy_fresh. induction (toy_bufs x).*1; cbn [foldr]; lia.
Qed.

Lemma toy_without b x : toy_live (with_bufs (buf_without b (toy_bufs x)) x) = toy_live x ∖ {[b]}.
Proof.
  apply set_eq. intros c. rewrite elem_of_difference, elem_of_singleton, !toy_live_elem. simpl.
  unfold buf_without. rewrite !list_elem_of_fmap. split.
  - intros ([c' t] & -> & He). apply list_elem_of_filter in He as [? ?]. split; [by eexists|done].
  - intros [([c' t] & -> & He) Hne]. exists (c', t). split; [done|]. by apply list_elem_of_filter.
Qed.

Lemma buf_find_live b x : b ∈ toy_live x → is_Some (buf_find b (toy_bufs x)).
Proof.
  rewrite toy_live_elem. unfold buf_find.
  induction (toy_bufs x) as [|[c t] l IH]; simpl; [by rewrite elem_of_nil|].
  rewrite elem_of_cons. intros [->|Hb]; [by rewrite Z.eqb_refl|].
  destruct (c =? b)%Z; [done|]. by apply IH.
Qed.

Lemma toy_move_ok b t n x b' x' :
  toy_move b t n x = (b', x') → call_moves (toy_live x) (toy_live x') b b'.
Proof.
  intros [= <- <-] _.
  assert (toy_live (with_bufs ((toy_fresh x, (t, zeros n)) :: buf_without b (toy_bufs x)) x)
          = {[toy_fresh x]} ∪ toy_live x ∖ {[b]}) as ->.
  { rewrite <- toy_without. done. }
  split_and!; [set_solver| |left; set_solver].
  intros [Hl _]%elem_of_difference. apply toy_fresh_new in Hl. lia.
Qed.

Lemma toy_stay_ok b x : call_moves (toy_live x) (toy_live x) b b.
Proof. intros Hb. split_and!; [set_solver|set_solver|done]. Qed.

#[export] Instance toy_buffers : XatmiBuffers.
Proof.
  refine {| live := (toy_live : @xst toy_xatmi → gset Z) |}; try done; simpl.
  - intros b x. by destruct (buf_find b (toy_bufs x)) as [[]|].
  - intros b x Hb. destruct (buf_find_live b x Hb) as [[t d] ->]. simpl. unfold EXFAIL. lia.
  - intros t s n x b x' [= <- <-]. unfold toy_live. simpl. split; [set_solver|].
    intros _. split; [|set_solver]. intros Hf. apply (toy_fresh_new x) in Hf. lia.
  - intros b n x b' x'. destruct (buf_find b (toy_bufs x)) as [[t d]|].
    + intros Hm. rewrite decide_False; [by eapply toy_move_ok|].
      injection Hm as <- _. pose proof (toy_fresh_pos x). lia.
    + intros [= <- <-]. by rewrite decide_True.
  - intros s b n f x r b' n' x'. unfold toy_call.
    assert (∀ e y, toy_live (with_err e y) = toy_live y) as He by done.
    destruct s as [svc|]; [repeat case_match|]; intros; simplify_eq; rewrite ?He;
      (split; [solve [apply toy_stay_ok | by eapply toy_move_ok]|naive_solver]).
  - intros c b n f x r c' b' n' x'. destruct (Z.eqb_spec c 0).
    + intros [= <- <- <- <- <-]. split; [apply toy_stay_ok|done].
    + intros [= <- <- <- <- <-]. split; [by eapply toy_move_ok|]. by split.
  - intros c b n f x r b' n' e x' [= <- <- <- <- <-]. split; [by eapply toy_move_ok|done].
  - intros b x. apply toy_without.
  - set_solver.
  - set_solver.
Defined.

(** ** Its fields: field 0 is rejected, every other operation succeeds *)

Definition toy_field (bfldid : Z) (x : toy) : Z * toy :=
  if (bfldid =? 0)%Z then ((-1)%Z, with_berr 14 x) else (0%Z, with_berr 0 x).

#[export] Instance toy_ubf : Ubf := {
  u_op o (x : @xst toy_xatmi) :=
    match o with
    | U_CBadd _ f _ | U_CBchg _ f _ _ | U_Bdel _ f _ | U_Bdelall _ f => toy_field f x
    | U_Bsizeof b => (1024%Z, x)
    | _ => (0%Z, x)
    end;
  CBfind b f o t (x : @xst toy_xatmi) :=
    if (f =? 0)%Z then (None, with_berr 14 x)
    else (Some match t with
               | AsShort => BFLD_SHORT 1 | AsLong => BFLD_LONG 1 | AsChar => BFLD_CHAR 1
               | AsFloat => BFLD_FLOAT 1 | AsDouble => BFLD_DOUBLE 1
               | AsString => BFLD_STRING (Some "one"%string) | AsCarray => BFLD_CARRAY (Some [1%Z]) 1
               end, x);
  Bnext b f (x : @xst toy_xatmi) := ((0, 0, 0, 0)%Z, x);
  tpubftojson b n (x : @xst toy_xatmi) := (Some "{}"%string, x);
  fmt_p := print_int;
  fmt_tmp := "0x0";
  strerror_errno := "out of memory";
  ubf_log_on := true;
  args_left_first := false
}.

(** ** Its queues: messages are accepted as they are, and a dequeue answers with text *)

#[export] Instance toy_qtypes : QueueTypes := {|
  sz_diagmsg := 256; sz_msgid := 32; sz_corrid := 32; sz_replyqueue := 16; sz_failurequeue := 16;
  sz_clientdata := 96; sz_tranid := 64; MAXTIDENT := 30; TMQNAMELEN := 15
|}.

#[export] Instance toy_queues : Queues := {
  tpenqueue _ _ q _ _ _ (x : @xst toy_xatmi) := ((0%Z, q), x);
  tpenqueueex _ _ _ q _ _ _ (x : @xst toy_xatmi) := ((0%Z, q), x);
  tpdequeue _ _ q b _ _ (x : @xst toy_xatmi) := let '(b', x') := toy_move b "STRING" 5 x in ((0%Z, q, b', 5%Z), x');
  tpdequeueex _ _ _ q b _ _ (x : @xst toy_xatmi) := let '(b', x') := toy_move b "STRING" 5 x in ((0%Z, q, b', 5%Z), x');
  tpsuspend _ (x : @xst toy_xatmi) := ((0%Z, zeros 64), x);
  tpresume _ _ (x : @xst toy_xatmi) := (0%Z, x);
  tpnotify _ _ _ _ (x : @xst toy_xatmi) := (0%Z, x);
  tpbroadcast _ _ _ _ _ _ (x : @xst toy_xatmi) := (0%Z, x)
}.

#[export] Instance toy_queue_buffers : QueueBuffers.
Proof.
  constructor; simpl; intros.
  - destruct (toy_move b "STRING" 5 x) as [b1 x1] eqn:E. simplify_eq. split; [by eapply toy_move_ok|done].
  - destruct (toy_move b "STRING" 5 x) as [b1 x1] eqn:E. simplify_eq. split; [by eapply toy_move_ok|done].
Qed.

(** ** Their contents *)

Definition toy_data (b : Z) (x : toy) : option (list Z) := snd <$> buf_find b (toy_bufs x).

Lemma find_update b c l :
  buf_find b (buf_update b c l) = (λ td, (td.1, c)) <$> buf_find b l.
Proof.
  unfold buf_find, buf_update. induction l as [|[k td] l IH]; [done|]. simpl.
  destruct (k =? b)%Z eqn:E; simpl; rewrite E; [done|]. exact IH.
Qed.

#[export] Instance toy_memory : BufferMemory.
Proof.
  refine {| buf_data := (toy_data : Z → @xst toy_xatmi → _);
            buf_store := (λ b c x, with_bufs (buf_update b c (toy_bufs x)) x) |}; try done; simpl.
  - intros b d c x. unfold toy_data. simpl. rewrite find_update.
    destruct (buf_find b (toy_bufs x)); done.
  - intros b b' x. by destruct (buf_find b (toy_bufs x)) as [[]|].
  - intros b d x. unfold toy_data. destruct (buf_find b (toy_bufs x)) as [[t d']|]; [|done].
    by intros [= <-].
  - intros b n x b' x'. destruct (buf_find b (toy_bufs x)) as [[t d]|].
    + intros [= <- <-] _. exists (zeros n). unfold toy_data, buf_find. simpl. rewrite Z.eqb_refl.
      split; [done|]. unfold zeros. rewrite length_replicate. lia.
    + intros [= <- <-]. done.
Defined.

(** ** A state to run methods in

    Context object 1, service names 2 to 5, two buffer objects 6 and 7 that own the
    buffers 100 and 200, and a context object 8 without a context.  Buffer 300, of two
    bytes, belongs to no object. *)
Definition toy_heap : gmap loc jval :=
  list_to_map [(1%positive, JAtmiCtx 77 None);
    (2%positive, JString "ECHO"); (3%positive, JString "TEXT"); (4%positive, JString "FAIL");
    (5%positive, JString "NONE");
    (6%positive, JTypedBuffer (TypedBuffer "org/endurox/TypedUbf" (Some 1%positive) true 100 1024));
    (7%positive, JTypedBuffer (TypedBuffer "org/endurox/TypedUbf" (Some 1%positive) true 200 1024));
    (8%positive, JAtmiCtx 0 None)].

Definition toy_world : world (@xst toy_xatmi) :=
  World toy_heap 9%positive None [] [] [] 0 None
    (Toy TPNULLCONTEXT (CtxPriv None 0 0) 0 0 [(100%Z, ("UBF"%string, zeros 1024)); (200%Z, ("UBF"%string, zeros 1024));
      (300%Z, ("CARRAY"%string, zeros 2))] []).
