(* ===== verification/ToyServer.v ===== *)
(** * A server on the small library

    A main loop that takes in two requests, and Java code that records the requests it
    is given and raises an exception for the first: an instance of the interfaces of
    [Callback] and [Server]. *)
From stdpp Require Import sorting strings gmap list numbers.
From S2P Require Import Prelude CString Jni Xatmi Exceptions TypedBuffer AtmiCtxOps Convert Callback Server.
From S2P Require Import Ubf UbfEval UbfIO Frame CallSpec Serving ServerProofs UbfIOProofs Toy.
From S2P Require Import Calls XaConfig Xa XaProofs.

(** The machine of the instances has everything exceptions need. *)
Lemma good_vm_throws e : vm_throws good_vm e.
Proof. by split_and!. Qed.

Definition toy_request1 : tpsvcinfo := TpSvcInfo "BAD" "BADFN" 300 2 0 0 0 "client-1".
Definition toy_request2 : tpsvcinfo := TpSvcInfo "GOOD" "GOODFN" 0 0 0 5 0 "client-2".

#[export] Instance toy_server : ServerLib := {
  EX_PROGNAME := "exjava";
  ndrx_main_integra _ :=
    S_call CB_tpsvrinit (λ r,
      if (r =? 0)%Z then
        S_call (CB_dispatch toy_request1) (λ _, S_lib (λ x : @xst toy_xatmi, x) (λ _,
          S_call (CB_dispatch toy_request2) (λ _, S_call CB_tpsvrdone (λ _, S_ret 0%Z))))
      else S_ret (-1)%Z);
  tpadvertise_full _ _ (x : @xst toy_xatmi) := (0%Z, x);
  tpsetunsol _ (x : @xst toy_xatmi) := (true, x);
  tpchkunsol := S_call (UnsolMsg 300 2 0) (λ _, S_ret 1%Z)
}.

#[export] Instance toy_context : ContextLib := {
  tpgetctxt (x : @xst toy_xatmi) := (toy_ctx x, with_ctx TPNULLCONTEXT x)
}.

(** The Java code reads the request object. *)
Definition str_at (h : gmap loc jval) (o : option jarg) : option string :=
  match o with
  | Some (AObj (Some l)) => match h !! l with Some (JString s) => Some s | _ => None end
  | _ => None
  end.
Definition long_at (o : option jarg) : option Z :=
  match o with Some (ALong z) => Some z | _ => None end.
Definition data_at (h : gmap loc jval) (o : option jarg) : option (Z * Z) :=
  match o with
  | Some (AObj None) => Some (0, 0)%Z
  | Some (AObj (Some l)) =>
      match h !! l with Some (JTypedBuffer t) => Some (tb_cPtr t, tb_len t) | _ => None end
  | _ => None
  end.
Definition client_at (h : gmap loc jval) (o : option jarg) : option string :=
  match o with
  | Some (AObj (Some l)) =>
      match h !! l with Some (JObject _ fs) => str_at h (fs !! "clientData"%string) | _ => None end
  | _ => None
  end.

Definition read_request (h : gmap loc jval) (l : loc) : option tpsvcinfo :=
  match h !! l with
  | Some (JObject _ fs) =>
      name ← str_at h (fs !! "name"%string);
      fname ← str_at h (fs !! "fname"%string);
      '(d, n) ← data_at h (fs !! "data"%string);
      flags ← long_at (fs !! "flags"%string);
      cd ← long_at (fs !! "cd"%string);
      appkey ← long_at (fs !! "appkey"%string);
      cltid ← client_at h (fs !! "cltId"%string);
      Some (TpSvcInfo name fname d n flags cd appkey cltid)
  | _ => None
  end.

Definition toy_record (i : tpsvcinfo) (x : toy) : toy :=
  Toy (toy_ctx x) (toy_priv x) (toy_err x) (toy_berr x) (toy_bufs x) (toy_log x ++ [i]).

(** Requests are recorded; the service BAD raises an exception. *)
#[export] Instance toy_java : JavaCode := {
  java_run m :=
    match m with
    | J_tpCallDispatch _ (Some l) => λ w : world (@xst toy_xatmi),
        match read_request (w_heap w) l with
        | Some i =>
            let w1 := with_x (toy_record i (w_x w)) w in
            if String.eqb (svc_name i) "BAD" then
              (throw_vm "java/lang/RuntimeException";; mret (V_num 0%Z)) w1
            else Ok (V_num 0%Z) w1
        | None => Ok (V_num 0%Z) w
        end
    | _ => mret (V_num 0%Z)
    end
}.

#[export] Instance toy_java_clean : JavaClean.
Proof.
  constructor.
  - intros m p. destruct m as [| |o [l|]| | | | | | | | | | | | |]; cbn [java_run toy_java]; try (by intros w).
    intros w Hw. destruct (read_request (w_heap w) l) as [i|]; [|done]. by destruct (_ =? "BAD")%string.
  - intros m. destruct m as [| |o [l|]| | | | | | | | | | | | |]; cbn [java_run toy_java]; try (by intros w).
    intros w Hw. destruct (read_request (w_heap w) l) as [i|]; [|done]. by destruct (_ =? "BAD")%string.
Qed.

(** The request object holds what is read from it. *)
Lemma read_svcinfo o l i w :
  svcinfo_at o l i w → read_request (w_heap w) l = Some i.
Proof.
  intros (jn & jf & jc & jcd & jd & Hl & Hn & Hf & Hc & Hcd & Hd). unfold read_request. rewrite Hl.
  unfold TpSvcInfo_object.
  set (fs := list_to_map _).
  assert (fs !! "name"%string = Some (AObj (Some jn))) as -> by reflexivity.
  assert (fs !! "fname"%string = Some (AObj (Some jf))) as -> by reflexivity.
  assert (fs !! "data"%string = Some (AObj jd)) as -> by reflexivity.
  assert (fs !! "flags"%string = Some (ALong (svc_flags i))) as -> by reflexivity.
  assert (fs !! "cd"%string = Some (ALong (svc_cd i))) as -> by reflexivity.
  assert (fs !! "appkey"%string = Some (ALong (svc_appkey i))) as -> by reflexivity.
  assert (fs !! "cltId"%string = Some (AObj (Some jc))) as -> by reflexivity.
  cbn [str_at client_at long_at]. rewrite Hn, Hf, Hc. rewrite lookup_singleton_eq. cbn [str_at]. rewrite Hcd.
  unfold request_data in Hd. destruct (Z.eqb_spec (svc_data i) 0) as [Hz|Hz].
  - destruct Hd as [-> Hlen]. destruct i. simpl in *. by rewrite Hz, Hlen.
  - destruct Hd as (ld & cls & -> & Hd). cbn [data_at]. rewrite Hd. by destruct i.
Qed.

(** The invariant of the run: context 77 of object 1, and buffer 300 in place. *)
Definition toy_inv (x : toy) : Prop :=
  toy_priv x = CtxPriv (Some 1%positive) 77 1 ∧ buf_find 300 (toy_bufs x) = Some ("CARRAY"%string, zeros 2).

(** Context object 1 with server object 9, arguments 10 to 13 in array 14. *)
Definition toy_server_world : world (@xst toy_xatmi) :=
  World (list_to_map [(1%positive, JAtmiCtx 77 (Some 9%positive));
           (9%positive, JOther "Server" []);
           (10%positive, JString "-k"); (11%positive, JString "key"); (12%positive, JString "-i");
           (13%positive, JString "1");
           (14%positive, JArray [Some 10%positive; Some 11%positive; Some 12%positive; Some 13%positive])])
    15%positive None [] [] [] 0 None
    (Toy TPNULLCONTEXT (CtxPriv None 0 0) 0 0 [(300%Z, ("CARRAY"%string, zeros 2))] []).

Lemma toy_program : server_program 77 1%positive toy_inv toy_log.
Proof.
  constructor; try done.
  - intros x [Hp _]. simpl. by rewrite Hp.
  - intros x [Hp _] _. simpl. by rewrite Hp.
  - intros b x Hx. cbn [tptypes toy_xatmi]. by destruct (buf_find b (toy_bufs x)) as [[]|].
  - intros l i w (Hi & _ & _ & Ho) Hl. cbn [java_run toy_java]. rewrite (read_svcinfo _ _ _ _ Hl).
    destruct (svc_name i =? "BAD")%string.
    + eexists _, _. split; [reflexivity|]. split; [exact Hi|]. split; [|done].
      destruct Ho as [Hlt [svr Ho]]. split; [simpl; lia|]. exists svr. simpl.
      rewrite lookup_insert_ne; [done|]. intros E. change (@w_next (@xst toy_xatmi) w = 1%positive) in E. rewrite E in Hlt. lia.
    + by eexists _, _.
  - intros svr a w (Hi & _ & _ & Ho). by eexists _, _.
  - intros svr w (Hi & _ & He & Ho). by eexists _, _.
Qed.

(** The same without the exception. *)
Definition calm_java : JavaCode := {|
  java_run m :=
    match m with
    | J_tpCallDispatch _ (Some l) => λ w : world (@xst toy_xatmi),
        match read_request (w_heap w) l with
        | Some i => Ok (V_num 0%Z) (with_x (toy_record i (w_x w)) w)
        | None => Ok (V_num 0%Z) w
        end
    | _ => mret (V_num 0%Z)
    end
|}.

Lemma calm_program : quiet_program (H1 := calm_java) 77 1%positive toy_inv toy_log.
Proof.
  constructor; [constructor; try done|].
  - intros x [Hp _]. simpl. by rewrite Hp.
  - intros x [Hp _] _. simpl. by rewrite Hp.
  - intros b x Hx. cbn [tptypes toy_xatmi]. by destruct (buf_find b (toy_bufs x)) as [[]|].
  - intros l i w (Hi & _ & _ & Ho) Hl. cbn [java_run calm_java]. rewrite (read_svcinfo _ _ _ _ Hl). by eexists _, _.
  - intros svr a w (Hi & _ & _ & Ho). by eexists _, _.
  - intros svr w (Hi & _ & He & Ho). by eexists _, _.
  - intros l i w v w' (_ & _ & He & _) Hl. cbn [java_run calm_java]. rewrite (read_svcinfo _ _ _ _ Hl). by intros [= _ <-].
Qed.

Lemma toy_main_ok args : script_ok 77 toy_inv toy_log (ndrx_main_integra args).
Proof.
  cbn [ndrx_main_integra toy_server script_ok]. split; [done|]. intros r. destruct (r =? 0)%Z; [|done].
  cbn [script_ok]. split; [|done]. intros x [_ Hx]. unfold supported. cbn. by rewrite Hx.
Qed.

(** ** Expressions and bytes on the small library *)

(** Every expression is [f() && g()]. *)
#[export] Instance toy_eval : UbfEval := {
  Bboolco _ (x : @xst toy_xatmi) := (500%Z, x);
  Btreefree _ (x : @xst toy_xatmi) := x;
  Bboolev _ _ := S_call "f"%string (λ f, S_call "g"%string (λ g, S_ret (if (f * g =? 0)%Z then 0%Z else 1%Z)));
  Bfloatev _ _ := S_call "f"%string (λ f, S_ret f);
  Bboolprcb _ := S_call [102; 40; 41]%Z (λ _, S_ret 0%Z);
  Bboolsetcbf _ (x : @xst toy_xatmi) := (0%Z, x);
  Bfldtype f := (f / 1000)%Z;
  Baddfast _ _ _ l (x : @xst toy_xatmi) := ((0%Z, l), x)
}.

(** A buffer is written in two blocks and read as a head of four bytes and a rest. *)
#[export] Instance toy_io : UbfIO := {
  Bprint _ (x : @xst toy_xatmi) := (0%Z, x);
  Bextreadcb _ := S_call 256%Z (λ _, S_ret 0%Z);
  Breadcb b := loads 4 100 (λ c (x : @xst toy_xatmi), with_bufs (buf_update b c (toy_bufs x)) x);
  Bwritecb _ := S_call [1; 2; 3; 4]%Z (λ _, S_call [5; 6]%Z (λ _, S_ret 0%Z))
}.

#[export] Instance toy_context_laws : ContextLaws.
Proof. by constructor. Qed.

(** Two buffers with compiled expressions: objects 6 and 7, expression 20. *)
Definition toy_eval_world : world (@xst toy_xatmi) :=
  World (<[20%positive := JObject "org/endurox/BExprTree" {["cPtr" := ALong 500]}]> toy_heap) 21%positive
    None [] [] [] 0 None (w_x toy_world).

(** Functions that answer 1 for buffer object 6 and 0 for any other. *)
Definition plain_java : JavaCode := {|
  java_run m :=
    match m with
    | J_boolcbfDispatch (Some l) _ => mret (V_num (if bool_decide (l = 6%positive) then 1 else 0)%Z)
    | _ => mret (V_num 0%Z)
    end
|}.

(** The same functions, evaluating another expression on buffer object 7 first. *)
Definition nesting_java : JavaCode := {|
  java_run m :=
    match m with
    | J_boolcbfDispatch (Some l) _ =>
        (if bool_decide (l = 6%positive) then
           _ ← Java_TypedUbf_Bboolev (H3 := plain_java) good_vm (Some 7%positive) (Some 20%positive); mret tt
         else mret tt);;
        mret (V_num (if bool_decide (l = 6%positive) then 1 else 0)%Z)
    | _ => mret (V_num 0%Z)
    end
|}.

(** * The XA driver on the small library

    Java code with [ExXid] identifiers that fails to commit and recovers two of them. *)

(** Identifiers of 128 bytes; the machine returns an int in the lower half of a long. *)
Definition toy_xa (tolerant : bool) : XaLib := {|
  XIDDATASIZE := 128;
  ndrx_ctx_auto _ (x : @xst toy_xatmi) := x;
  java_createAtmiCtx _ := mret None;
  java_currentThread := mret None;
  long_of_int z := (z `mod` 4294967296)%Z;
  stale_release := tolerant
|}.

Definition xa_java : JavaCode := {|
  java_run m :=
    match m with
    | J_getFormatId o => ExXid_getFormatId o
    | J_getGlobalTransactionId o => ExXid_getGlobalTransactionId o
    | J_getBranchQualifier o => ExXid_getBranchQualifier o
    | J_xa_xid func _ _ _ =>
        if String.eqb func "xa_commit_entry" then
          throw_vm "javax/transaction/xa/XAException";; mret (V_num 0%Z)
        else mret (V_num 0%Z)
    | J_xa_recover _ _ => mret (V_obj (Some 20%positive))
    | _ => mret (V_num 0%Z)
    end
|}.

Lemma toy_java_exxid : java_exxid (JC := xa_java).
Proof. by constructor. Qed.

#[export] Instance toy_priv_laws : PrivLaws.
Proof. by constructor. Qed.

Definition toy_xid (n : Z) : xid := Xid n 2 1 ([n; 7; 8]%Z ++ replicate 125 0%Z).

Lemma toy_xid_ok b n : xid_ok (XA := toy_xa b) (toy_xid n).
Proof. repeat split; simpl; lia. Qed.

(** In context 77 of object 1; array 21 of the identifiers 22 and 26. *)
Definition toy_xa_world : world (@xst toy_xatmi) :=
  World (list_to_map [(1%positive, JAtmiCtx 77 None);
           (20%positive, JObject "org/endurox/XidList"
              (list_to_map [("list"%string, AObj (Some 21%positive)); ("ret"%string, ALong 0)]));
           (21%positive, JArray [Some 22%positive; Some 26%positive]);
           (22%positive, ExXid_object 5 2 1 (Some 23%positive) (Some 24%positive) (Some 25%positive));
           (23%positive, JBytes (xid_data (toy_xid 5)));
           (24%positive, JBytes [5; 7]%Z); (25%positive, JBytes [8]%Z);
           (26%positive, ExXid_object 6 2 1 (Some 27%positive) (Some 28%positive) (Some 29%positive));
           (27%positive, JBytes (xid_data (toy_xid 6)));
           (28%positive, JBytes [6; 7]%Z); (29%positive, JBytes [8]%Z)])
    30%positive None [] [] [] 0 None
    (Toy 77 (CtxPriv (Some 1%positive) 77 1) 0 0 [] []).

Lemma toy_xa_ready : xa_ready 1%positive toy_xa_world.
Proof. done. Qed.

Lemma toy_xids_there b x :
  x = tpsetctxt TPNULLCONTEXT (w_x toy_xa_world) →
  xid_array (XA := toy_xa b) [Some 22%positive; Some 26%positive] [toy_xid 5; toy_xid 6] (with_x x toy_xa_world).
Proof.
  intros _. repeat constructor.
  - exists 22%positive. split; [done|]. split; [by exists 23%positive, 24%positive, 25%positive|apply toy_xid_ok].
  - exists 26%positive. split; [done|]. split; [by exists 27%positive, 28%positive, 29%positive|apply toy_xid_ok].
Qed.
