(* ===== verification/XaSwitch.v ===== *)
(** * Loading the switch (xadrv/exjdbc.c, ndrxj_jvm_create of libsrc/c/xatmsrv.c)

    The transaction monitor asks the driver for its switch.  The driver finds the symbol in
    the process or loads the resource manager library, starts a virtual machine if the
    thread has no Java context object, and initialises the data source.  The process is the
    Enduro/X library, the class loader of [Boot] and the dynamic linker together. *)
From stdpp Require Import sorting strings gmap list numbers.
From S2P Require Import Prelude CString Jni ClassIndex Boot Xatmi Exceptions Convert Callback XaConfig Xa.
From S2P Require Import Frame CallSpec Serving XaProofs.

(** Run a program that uses a part of the state. *)
Definition zoom {S X A} (get : S → X) (put : X → S → S) (m : M X A) : M S A := λ w,
  match m (World (w_heap w) (w_next w) (w_exc w) (w_pins w) (w_weak w) (w_cache w) (w_tick w) (w_ubf w) (get (w_x w))) with
  | Ok a w' => Ok a (World (w_heap w') (w_next w') (w_exc w') (w_pins w') (w_weak w') (w_cache w') (w_tick w') (w_ubf w')
                      (put (w_x w') (w_x w)))
  | Crash s => Crash s
  end.

Section Switch.
Context `{XA : XaLib} {CL : ContextLib} {JC : JavaCode} `{BJ : !BootJava} (vm : jvm) (env : boot_env).

(** What [dlsym] and [dlopen] answer: the address of [ndrxjsw] in the process, the handle of
    the library, the address in the library. *)
Record linker_answers := LinkerAnswers {
  dlsym_default : option Z;
  dlopen : option string → option Z;
  dlsym : Z → option Z
}.

Record driver := Driver {
  p_x : xst;
  p_boot : boot_state;
  M_jvm : bool;
  open_handles : list Z;
  noapisusp : bool
}.

Definition put_x (x : xst) (p : driver) := Driver x (p_boot p) (M_jvm p) (open_handles p) (noapisusp p).
Definition put_boot (b : boot_state) (p : driver) := Driver (p_x p) b (M_jvm p) (open_handles p) (noapisusp p).
Definition put_jvm (b : bool) (p : driver) := Driver (p_x p) (p_boot p) b (open_handles p) (noapisusp p).
Definition put_handles (l : list Z) (p : driver) := Driver (p_x p) (p_boot p) (M_jvm p) l (noapisusp p).
Definition put_noapisusp (b : bool) (p : driver) := Driver (p_x p) (p_boot p) (M_jvm p) (open_handles p) b.

Definition pmod (f : driver → driver) : M driver unit := mmod (λ w, with_x (f (w_x w)) w).
Definition pget {A} (f : driver → A) : M driver A := w ← mget; mret (f (w_x w)).
Definition in_lib {A} (m : M xst A) : M driver A := zoom p_x put_x m.
Definition in_loader {A} (m : M boot_state A) : M driver A := zoom p_boot put_boot m.

(** [ndrxj_jvm_create]: a machine without linked classes. *)
Definition ndrxj_jvm_create : M driver Z :=
  have ← in_loader (ndrxj_ldr_getvm vm env no_tables);
  pmod (put_jvm have);;
  mret (if (have : bool) then EXSUCCEED else EXFAIL).

(** The first part of [ndrx_get_xa_switch]: the symbol, and the handle if the library was
    opened for it. *)
Definition find_switch (dl : linker_answers) (rmlib : option string) : M driver (option Z * option Z) :=
  match dlsym_default dl with
  | Some sw => mret (Some sw, None)
  | None =>
      match dlopen dl rmlib with
      | None => mret (None, None)
      | Some h => pmod (λ p, put_handles (h :: open_handles p) p);; mret (dlsym dl h, Some h)
      end
  end.

(** The failure exit: a library opened here is closed. *)
Definition switch_failed (handle : option Z) : M driver (option Z) :=
  match handle with
  | Some h => pmod (λ p, put_handles (default (open_handles p) (remove1 h (open_handles p))) p);; mret None
  | None => mret None
  end.

(** The middle part, with a symbol: the machine, if the thread has no Java context object,
    and the data source.  False: failure. *)
Definition start_switch (room : nat → bool) (root : option exjson) (c : Z) : M driver bool :=
  ctxpriv ← in_lib (priv_of c);
  r ← (match NDRXJ_JATMICTX ctxpriv with None => ndrxj_jvm_create | Some _ => mret EXSUCCEED end);
  if negb (r =? EXSUCCEED)%Z then mret false else
  jvm ← pget M_jvm;
  ldr ← pget (λ p, M_classLoader (p_boot p));
  r ← in_lib (ndrxj_xa_init vm jvm ldr room root);
  mret (r =? EXSUCCEED)%Z.

(** [ndrx_get_xa_switch]; [room], [root]: see [ndrxj_xa_init]. *)
Definition ndrx_get_xa_switch (dl : linker_answers) (rmlib : option string) (room : nat → bool)
    (root : option exjson) : M driver (option Z) :=
  c ← in_lib (xget x_ctx);
  '(sw, handle) ← find_switch dl rmlib;
  match sw with
  | None => switch_failed handle
  | Some _ =>
      ok ← start_switch room root c;
      if (ok : bool) then pmod (put_noapisusp true);; mret sw else switch_failed handle
  end.

(** ** Libraries opened and closed *)

(** A program that opens or closes no library. *)
Definition keeps_handles {A} (m : M driver A) : Prop := ∀ w,
  match m w with Ok _ w' => open_handles (w_x w') = open_handles (w_x w) ∧ noapisusp (w_x w') = noapisusp (w_x w) | Crash _ => True end.

Lemma handles_ret {A} (a : A) : keeps_handles (mret a).
Proof. by intros w. Qed.

Lemma handles_bind {A B} (m : M driver A) (k : A → M driver B) :
  keeps_handles m → (∀ a, keeps_handles (k a)) → keeps_handles (m ≫= k).
Proof.
  intros Hm Hk w. rewrite run_bind. specialize (Hm w). destruct (m w) as [a w1|]; [|done].
  specialize (Hk a w1). destruct (k a w1); [|done]. destruct Hm, Hk. split; congruence.
Qed.

Lemma keeps_in_lib {A} (m : M xst A) : keeps_handles (in_lib m).
Proof. intros w. unfold in_lib, zoom. by destruct (m _). Qed.

Lemma keeps_create : keeps_handles ndrxj_jvm_create.
Proof.
  apply handles_bind; [|intros have; apply handles_bind; [by intros w|intros; apply handles_ret]].
  intros w. unfold in_loader, zoom. by destruct (ndrxj_ldr_getvm _ _ _ _).
Qed.

Lemma keeps_pget {A} (f : driver → A) : keeps_handles (pget f).
Proof. by intros w. Qed.

(** The symbol the driver returns, and the library it keeps for it. *)
Definition resolved (dl : linker_answers) (rmlib : option string) (sw : Z) (opened : list Z) : Prop :=
  (dlsym_default dl = Some sw ∧ opened = []) ∨
  (dlsym_default dl = None ∧ ∃ h, dlopen dl rmlib = Some h ∧ dlsym dl h = Some sw ∧ opened = [h]).

Lemma run_find_switch dl rmlib w :
  ∃ sw handle, find_switch dl rmlib w =
    Ok (sw, handle) (with_x (put_handles (option_list handle ++ open_handles (w_x w)) (w_x w)) w) ∧
    ∀ a l, resolved dl rmlib a l ↔ sw = Some a ∧ l = option_list handle.
Proof.
  unfold find_switch, resolved. destruct (dlsym_default dl) as [a|].
  { exists (Some a), None. rewrite run_ret. destruct w as [? ? ? ? ? ? ? ? []]. split; [done|]. naive_solver. }
  destruct (dlopen dl rmlib) as [h|].
  - exists (dlsym dl h), (Some h). split; [done|]. naive_solver.
  - exists None, None. rewrite run_ret. destruct w as [? ? ? ? ? ? ? ? []]. split; [done|]. naive_solver.
Qed.

Lemma run_switch_failed handle (l : list Z) w :
  open_handles (w_x w) = option_list handle ++ l →
  ∃ w', switch_failed handle w = Ok None w' ∧ open_handles (w_x w') = l ∧ noapisusp (w_x w') = noapisusp (w_x w) ∧
    p_x (w_x w') = p_x (w_x w) ∧ p_boot (w_x w') = p_boot (w_x w).
Proof.
  intros Hl. destruct handle as [h|]; [|by exists w]. simpl in Hl. eexists. split; [reflexivity|].
  simpl. by rewrite Hl, remove1_head.
Qed.

(** The part of the state the library sees. *)
Definition lib_world (w : world driver) : world xst :=
  World (w_heap w) (w_next w) (w_exc w) (w_pins w) (w_weak w) (w_cache w) (w_tick w) (w_ubf w) (p_x (w_x w)).

Lemma keeps_start room root c : keeps_handles (start_switch room root c).
Proof.
  apply handles_bind; [apply keeps_in_lib|]. intros p. apply handles_bind.
  { case_match; [apply handles_ret|apply keeps_create]. }
  intros r. case_match; [apply handles_ret|]. repeat (apply handles_bind; [apply keeps_pget || apply keeps_in_lib|intros ?]).
  apply handles_ret.
Qed.


Definition with_lib (v : world xst) (w : world driver) : world driver :=
  World (w_heap v) (w_next v) (w_exc v) (w_pins v) (w_weak v) (w_cache v) (w_tick v) (w_ubf v) (put_x (w_x v) (w_x w)).

Lemma run_in_lib {A} (m : M xst A) w :
  in_lib m w = match m (lib_world w) with Ok a v => Ok a (with_lib v w) | Crash s => Crash s end.
Proof. done. Qed.

Lemma with_lib_id w : with_lib (lib_world w) w = w.
Proof. by destruct w as [? ? ? ? ? ? ? ? []]. Qed.

Lemma run_pget {A} (f : driver → A) w : pget f w = Ok (f (w_x w)) w.
Proof. done. Qed.

(** With a Java context object no machine is made and the data source decides. *)
Lemma run_start_java room root c o r w1 w :
  NDRXJ_JATMICTX (ndrx_ctx_priv_get (tpsetctxt c (p_x (w_x w)))) = Some o →
  ndrxj_xa_init vm (M_jvm (w_x w)) (M_classLoader (p_boot (w_x w))) room root (lib_world w) = Ok r w1 →
  start_switch room root c w = Ok (r =? EXSUCCEED)%Z (with_lib w1 w).
Proof.
  intros Hp Hr. unfold start_switch. rewrite run_bind, run_in_lib. unfold priv_of, xget.
  rewrite with_lib_id. cbn [lib_world w_x]. rewrite Hp, run_bind, run_ret, Z.eqb_refl. cbn [negb].
  rewrite run_bind, run_pget, run_bind, run_pget, run_bind, run_in_lib, Hr. done.
Qed.

Lemma run_get_switch dl rmlib room root w :
  ∃ sw handle, (∀ a l, resolved dl rmlib a l ↔ sw = Some a ∧ l = option_list handle) ∧
    let w1 := with_x (put_handles (option_list handle ++ open_handles (w_x w)) (w_x w)) w in
    ndrx_get_xa_switch dl rmlib room root w =
    match sw with
    | None => switch_failed handle w1
    | Some _ =>
        match start_switch room root (x_ctx (p_x (w_x w))) w1 with
        | Ok true w2 => Ok sw (with_x (put_noapisusp true (w_x w2)) w2)
        | Ok false w2 => switch_failed handle w2
        | Crash s => Crash s
        end
    end.
Proof.
  destruct (run_find_switch dl rmlib w) as (sw & handle & Hf & Hres). exists sw, handle. split; [done|]. cbn zeta.
  unfold ndrx_get_xa_switch. rewrite run_bind, run_in_lib. unfold xget. rewrite with_lib_id.
  rewrite run_bind, Hf. destruct sw as [a|]; [|done]. rewrite run_bind. cbn [lib_world w_x].
  destruct (start_switch _ _ _ _) as [[] w2|]; done.
Qed.
End Switch.
