(* ===== verification/MetaCache.v ===== *)
(** * libsrc/c/MetaCache.c: classes, methods and fields looked up once

    [JNI_OnLoad] (loader.c) fills one variable per class, method and field the native
    code uses.  The tables are those of the file; what they ask for is compared with the
    declarations of the Java sources.  References are tracked by kind: a local reference
    must not be used once deleted, a class variable that is kept holds a weak reference. *)
From stdpp Require Import sorting strings gmap list numbers.
From S2P Require Import Prelude CString Jni.

Inductive var_kind := V_class | V_method | V_field.

#[export] Instance var_kind_eq_dec : EqDecision var_kind.
Proof. solve_decision. Defined.

Definition GLOB : bool := true.
Definition LOCL : bool := false.

(** [struct exj_class_cache]: the variable is named. *)
Record exj_class_cache_t := ClassCache { classStr : string; cc_calzz : string; cc_global : bool }.

(** [struct exj_mid_cache] and [struct exj_fid_cache]: class variable, id variable, name
    and descriptor of the member. *)
Record exj_mid_cache_t := IdCache { ic_calzz : string; ic_id : string; ic_name : string; ic_sign : string }.

(** ** The tables *)

(** The variables, up to [TPQCTL]. *)
Definition cache_variables_1 : list (var_kind * string) :=
  [(V_class, "ndrxj_clazz_AtmiCtx");
   (V_method, "ndrxj_clazz_AtmiCtx_mid_tpCallDispatch");
   (V_method, "ndrxj_clazz_AtmiCtx_mid_xa_open_entry");
   (V_method, "ndrxj_clazz_AtmiCtx_mid_xa_close_entry");
   (V_method, "ndrxj_clazz_AtmiCtx_mid_xa_end_entry");
   (V_method, "ndrxj_clazz_AtmiCtx_mid_xa_rollback_entry");
   (V_method, "ndrxj_clazz_AtmiCtx_mid_xa_prepare_entry");
   (V_method, "ndrxj_clazz_AtmiCtx_mid_xa_start_entry");
   (V_method, "ndrxj_clazz_AtmiCtx_mid_xa_commit_entry");
   (V_method, "ndrxj_clazz_AtmiCtx_mid_xa_recover_entry");
   (V_method, "ndrxj_clazz_AtmiCtx_mid_xa_forget_entry");
   (V_method, "ndrxj_clazz_AtmiCtx_mid_unsolDispatch");
   (V_field, "ndrxj_clazz_AtmiCtx_fid_ctx");
   (V_field, "ndrxj_clazz_AtmiCtx_fid_svr");
   (V_class, "ndrxj_clazz_Server");
   (V_method, "ndrxj_clazz_Server_mid_tpSvrDone");
   (V_method, "ndrxj_clazz_Server_mid_tpSvrInit");
   (V_class, "ndrxj_clazz_TpSvcInfo");
   (V_method, "ndrxj_clazz_TpSvcInfo_mid_INIT");
   (V_class, "ndrxj_clazz_TypedBuffer");
   (V_method, "ndrxj_clazz_TypedBuffer_mid_INIT");
   (V_field, "ndrxj_clazz_TypedBuffer_fid_doFinalize");
   (V_field, "ndrxj_clazz_TypedBuffer_fid_cPtr");
   (V_field, "ndrxj_clazz_TypedBuffer_fid_len");
   (V_field, "ndrxj_clazz_TypedBuffer_fid_ctx");
   (V_class, "ndrxj_clazz_TypedUbf");
   (V_method, "ndrxj_clazz_TypedUbf_mid_INIT");
   (V_method, "ndrxj_clazz_TypedUbf_mid_boolcbfDispatch");
   (V_class, "ndrxj_clazz_TypedCarray");
   (V_method, "ndrxj_clazz_TypedCarray_mid_INIT");
   (V_class, "ndrxj_clazz_TypedString");
   (V_method, "ndrxj_clazz_TypedString_mid_INIT");
   (V_class, "ndrxj_clazz_TypedView");
   (V_method, "ndrxj_clazz_TypedView_mid_INIT");
   (V_class, "ndrxj_clazz_TypedJson");
   (V_method, "ndrxj_clazz_TypedJson_mid_INIT");
   (V_class, "ndrxj_clazz_TypedTpInit");
   (V_method, "ndrxj_clazz_TypedTpInit_mid_INIT");
   (V_class, "ndrxj_clazz_ClientId");
   (V_method, "ndrxj_clazz_ClientId_mid_INIT");
   (V_field, "ndrxj_clazz_ClientId_fid_clientData");
   (V_class, "ndrxj_clazz_ErrorTuple");
   (V_method, "ndrxj_clazz_ErrorTuple_mid_INIT");
   (V_field, "ndrxj_clazz_ErrorTuple_fid_err");
   (V_field, "ndrxj_clazz_ErrorTuple_fid_msg");
   (V_class, "ndrxj_clazz_TPTRANID");
   (V_method, "ndrxj_clazz_TPTRANID_mid_INIT");
   (V_field, "ndrxj_clazz_TPTRANID_fid_data")].

(** The other variables. *)
Definition cache_variables_2 : list (var_kind * string) :=
  [(V_class, "ndrxj_clazz_TPQCTL");
   (V_method, "ndrxj_clazz_TPQCTL_mid_INIT");
   (V_field, "ndrxj_clazz_TPQCTL_fid_flags");
   (V_field, "ndrxj_clazz_TPQCTL_fid_priority");
   (V_field, "ndrxj_clazz_TPQCTL_fid_diagnostic");
   (V_field, "ndrxj_clazz_TPQCTL_fid_diagmsg");
   (V_field, "ndrxj_clazz_TPQCTL_fid_msgid");
   (V_field, "ndrxj_clazz_TPQCTL_fid_corrid");
   (V_field, "ndrxj_clazz_TPQCTL_fid_replyqueue");
   (V_field, "ndrxj_clazz_TPQCTL_fid_failurequeue");
   (V_field, "ndrxj_clazz_TPQCTL_fid_urcode");
   (V_field, "ndrxj_clazz_TPQCTL_fid_appkey");
   (V_field, "ndrxj_clazz_TPQCTL_fid_delivery_qos");
   (V_field, "ndrxj_clazz_TPQCTL_fid_reply_qos");
   (V_field, "ndrxj_clazz_TPQCTL_fid_exp_time");
   (V_field, "ndrxj_clazz_TPQCTL_fid_cltid");
   (V_class, "ndrxj_clazz_XidList");
   (V_field, "ndrxj_clazz_XidList_fid_ret");
   (V_field, "ndrxj_clazz_XidList_fid_list");
   (V_class, "ndrxj_clazz_Xid");
   (V_method, "ndrxj_clazz_Xid_mid_getFormatId");
   (V_method, "ndrxj_clazz_Xid_mid_getBranchQualifier");
   (V_method, "ndrxj_clazz_Xid_mid_getGlobalTransactionId");
   (V_class, "ndrxj_clazz_ExXid");
   (V_method, "ndrxj_clazz_ExXid_mid_INIT");
   (V_class, "ndrxj_clazz_String");
   (V_class, "ndrxj_clazz_OutputStream");
   (V_method, "ndrxj_clazz_OutputStream_mid_write");
   (V_class, "ndrxj_clazz_BExprTree");
   (V_method, "ndrxj_clazz_BExprTree_mid_INIT");
   (V_field, "ndrxj_clazz_BExprTree_fid_cPtr");
   (V_class, "ndrxj_clazz_BNextResult");
   (V_method, "ndrxj_clazz_BNextResult_mid_INIT");
   (V_class, "ndrxj_clazz_Runnable");
   (V_method, "ndrxj_clazz_Runnable_mid_run");
   (V_class, "ndrxj_clazz_TpgetrplyResult");
   (V_method, "ndrxj_clazz_TpgetrplyResult_mid_INIT");
   (V_class, "ndrxj_clazz_TprecvResult");
   (V_method, "ndrxj_clazz_TprecvResult_mid_INIT");
   (V_class, "ndrxj_clazz_TpTypesResult");
   (V_method, "ndrxj_clazz_TpTypesResult_mid_INIT");
   (V_class, "ndrxj_clazz_BufferedReader");
   (V_method, "ndrxj_clazz_BufferedReader_mid_readLine");
   (V_class, "ndrxj_clazz_Throwable");
   (V_method, "ndrxj_clazz_Throwable_mid_getCause");
   (V_method, "ndrxj_clazz_Throwable_mid_getStackTrace");
   (V_method, "ndrxj_clazz_Throwable_mid_toString");
   (V_class, "ndrxj_clazz_StackTraceElement");
   (V_method, "ndrxj_clazz_StackTraceElement_mid_toString");
   (V_class, "ndrxj_clazz_NullPointerException");
   (V_method, "ndrxj_clazz_NullPointerException_mid_INIT")].

(** [M_classes] *)
Definition M_classes : list exj_class_cache_t :=
  [ClassCache "org/endurox/AtmiCtx" "ndrxj_clazz_AtmiCtx" LOCL;
   ClassCache "org/endurox/Server" "ndrxj_clazz_Server" LOCL;
   ClassCache "org/endurox/TpSvcInfo" "ndrxj_clazz_TpSvcInfo" GLOB;
   ClassCache "org/endurox/TypedBuffer" "ndrxj_clazz_TypedBuffer" GLOB;
   ClassCache "org/endurox/TypedUbf" "ndrxj_clazz_TypedUbf" GLOB;
   ClassCache "org/endurox/TypedCarray" "ndrxj_clazz_TypedCarray" GLOB;
   ClassCache "org/endurox/TypedString" "ndrxj_clazz_TypedString" GLOB;
   ClassCache "org/endurox/TypedView" "ndrxj_clazz_TypedView" GLOB;
   ClassCache "org/endurox/TypedJson" "ndrxj_clazz_TypedJson" GLOB;
   ClassCache "org/endurox/TypedTpInit" "ndrxj_clazz_TypedTpInit" GLOB;
   ClassCache "org/endurox/ClientId" "ndrxj_clazz_ClientId" GLOB;
   ClassCache "org/endurox/ErrorTuple" "ndrxj_clazz_ErrorTuple" GLOB;
   ClassCache "org/endurox/TPTRANID" "ndrxj_clazz_TPTRANID" GLOB;
   ClassCache "org/endurox/TPQCTL" "ndrxj_clazz_TPQCTL" GLOB;
   ClassCache "org/endurox/XidList" "ndrxj_clazz_XidList" LOCL;
   ClassCache "javax/transaction/xa/Xid" "ndrxj_clazz_Xid" LOCL;
   ClassCache "java/lang/String" "ndrxj_clazz_String" GLOB;
   ClassCache "org/endurox/ExXid" "ndrxj_clazz_ExXid" GLOB;
   ClassCache "java/io/OutputStream" "ndrxj_clazz_OutputStream" LOCL;
   ClassCache "org/endurox/BExprTree" "ndrxj_clazz_BExprTree" GLOB;
   ClassCache "org/endurox/BNextResult" "ndrxj_clazz_BNextResult" GLOB;
   ClassCache "java/lang/Runnable" "ndrxj_clazz_Runnable" LOCL;
   ClassCache "org/endurox/TpgetrplyResult" "ndrxj_clazz_TpgetrplyResult" GLOB;
   ClassCache "org/endurox/TprecvResult" "ndrxj_clazz_TprecvResult" GLOB;
   ClassCache "org/endurox/TpTypesResult" "ndrxj_clazz_TpTypesResult" GLOB;
   ClassCache "java/io/BufferedReader" "ndrxj_clazz_BufferedReader" LOCL;
   ClassCache "java/lang/Throwable" "ndrxj_clazz_Throwable" LOCL;
   ClassCache "java/lang/StackTraceElement" "ndrxj_clazz_StackTraceElement" LOCL;
   ClassCache "java/lang/NullPointerException" "ndrxj_clazz_NullPointerException" GLOB].

(** [M_methods] *)
Definition M_methods : list exj_mid_cache_t :=
  [IdCache "ndrxj_clazz_AtmiCtx" "ndrxj_clazz_AtmiCtx_mid_tpCallDispatch" "tpCallDispatch" "(Lorg/endurox/TpSvcInfo;)V";
   IdCache "ndrxj_clazz_AtmiCtx" "ndrxj_clazz_AtmiCtx_mid_xa_open_entry" "xa_open_entry" "(J)I";
   IdCache "ndrxj_clazz_AtmiCtx" "ndrxj_clazz_AtmiCtx_mid_xa_close_entry" "xa_close_entry" "(J)I";
   IdCache "ndrxj_clazz_AtmiCtx" "ndrxj_clazz_AtmiCtx_mid_xa_end_entry" "xa_end_entry" "(Ljavax/transaction/xa/Xid;J)I";
   IdCache "ndrxj_clazz_AtmiCtx" "ndrxj_clazz_AtmiCtx_mid_xa_rollback_entry" "xa_rollback_entry" "(Ljavax/transaction/xa/Xid;J)I";
   IdCache "ndrxj_clazz_AtmiCtx" "ndrxj_clazz_AtmiCtx_mid_xa_prepare_entry" "xa_prepare_entry" "(Ljavax/transaction/xa/Xid;J)I";
   IdCache "ndrxj_clazz_AtmiCtx" "ndrxj_clazz_AtmiCtx_mid_xa_start_entry" "xa_start_entry" "(Ljavax/transaction/xa/Xid;J)I";
   IdCache "ndrxj_clazz_AtmiCtx" "ndrxj_clazz_AtmiCtx_mid_xa_commit_entry" "xa_commit_entry" "(Ljavax/transaction/xa/Xid;J)I";
   IdCache "ndrxj_clazz_AtmiCtx" "ndrxj_clazz_AtmiCtx_mid_xa_recover_entry" "xa_recover_entry" "(J)Lorg/endurox/XidList;";
   IdCache "ndrxj_clazz_AtmiCtx" "ndrxj_clazz_AtmiCtx_mid_xa_forget_entry" "xa_forget_entry" "(Ljavax/transaction/xa/Xid;J)I";
   IdCache "ndrxj_clazz_AtmiCtx" "ndrxj_clazz_AtmiCtx_mid_unsolDispatch" "unsolDispatch" "(Lorg/endurox/TypedBuffer;J)V";
   IdCache "ndrxj_clazz_Server" "ndrxj_clazz_Server_mid_tpSvrDone" "tpSvrDone" "(Lorg/endurox/AtmiCtx;)V";
   IdCache "ndrxj_clazz_Server" "ndrxj_clazz_Server_mid_tpSvrInit" "tpSvrInit" "(Lorg/endurox/AtmiCtx;[Ljava/lang/String;)I";
   IdCache "ndrxj_clazz_TpSvcInfo" "ndrxj_clazz_TpSvcInfo_mid_INIT" "<init>" "(Ljava/lang/String;Lorg/endurox/TypedBuffer;JIJLorg/endurox/ClientId;Ljava/lang/String;)V";
   IdCache "ndrxj_clazz_TypedBuffer" "ndrxj_clazz_TypedBuffer_mid_INIT" "<init>" "(Lorg/endurox/AtmiCtx;ZJJ)V";
   IdCache "ndrxj_clazz_TypedUbf" "ndrxj_clazz_TypedUbf_mid_INIT" "<init>" "(Lorg/endurox/AtmiCtx;ZJJ)V";
   IdCache "ndrxj_clazz_TypedUbf" "ndrxj_clazz_TypedUbf_mid_boolcbfDispatch" "boolcbfDispatch" "(Ljava/lang/String;)J";
   IdCache "ndrxj_clazz_TypedCarray" "ndrxj_clazz_TypedCarray_mid_INIT" "<init>" "(Lorg/endurox/AtmiCtx;ZJJ)V";
   IdCache "ndrxj_clazz_TypedString" "ndrxj_clazz_TypedString_mid_INIT" "<init>" "(Lorg/endurox/AtmiCtx;ZJJ)V";
   IdCache "ndrxj_clazz_TypedView" "ndrxj_clazz_TypedView_mid_INIT" "<init>" "(Lorg/endurox/AtmiCtx;ZJJ)V";
   IdCache "ndrxj_clazz_TypedJson" "ndrxj_clazz_TypedJson_mid_INIT" "<init>" "(Lorg/endurox/AtmiCtx;ZJJ)V";
   IdCache "ndrxj_clazz_TypedTpInit" "ndrxj_clazz_TypedTpInit_mid_INIT" "<init>" "(Lorg/endurox/AtmiCtx;ZJJ)V";
   IdCache "ndrxj_clazz_ClientId" "ndrxj_clazz_ClientId_mid_INIT" "<init>" "(Ljava/lang/String;)V";
   IdCache "ndrxj_clazz_ErrorTuple" "ndrxj_clazz_ErrorTuple_mid_INIT" "<init>" "()V";
   IdCache "ndrxj_clazz_TPTRANID" "ndrxj_clazz_TPTRANID_mid_INIT" "<init>" "()V";
   IdCache "ndrxj_clazz_TPQCTL" "ndrxj_clazz_TPQCTL_mid_INIT" "<init>" "()V";
   IdCache "ndrxj_clazz_ExXid" "ndrxj_clazz_ExXid_mid_INIT" "<init>" "(JJJ[B)V";
   IdCache "ndrxj_clazz_Xid" "ndrxj_clazz_Xid_mid_getFormatId" "getFormatId" "()I";
   IdCache "ndrxj_clazz_Xid" "ndrxj_clazz_Xid_mid_getBranchQualifier" "getBranchQualifier" "()[B";
   IdCache "ndrxj_clazz_Xid" "ndrxj_clazz_Xid_mid_getGlobalTransactionId" "getGlobalTransactionId" "()[B";
   IdCache "ndrxj_clazz_OutputStream" "ndrxj_clazz_OutputStream_mid_write" "write" "([B)V";
   IdCache "ndrxj_clazz_BExprTree" "ndrxj_clazz_BExprTree_mid_INIT" "<init>" "(J)V";
   IdCache "ndrxj_clazz_BNextResult" "ndrxj_clazz_BNextResult_mid_INIT" "<init>" "(III)V";
   IdCache "ndrxj_clazz_Runnable" "ndrxj_clazz_Runnable_mid_run" "run" "()V";
   IdCache "ndrxj_clazz_TpgetrplyResult" "ndrxj_clazz_TpgetrplyResult_mid_INIT" "<init>" "(ILorg/endurox/TypedBuffer;)V";
   IdCache "ndrxj_clazz_TprecvResult" "ndrxj_clazz_TprecvResult_mid_INIT" "<init>" "(ILorg/endurox/TypedBuffer;J)V";
   IdCache "ndrxj_clazz_TpTypesResult" "ndrxj_clazz_TpTypesResult_mid_INIT" "<init>" "(Ljava/lang/String;Ljava/lang/String;J)V";
   IdCache "ndrxj_clazz_BufferedReader" "ndrxj_clazz_BufferedReader_mid_readLine" "readLine" "()Ljava/lang/String;";
   IdCache "ndrxj_clazz_Throwable" "ndrxj_clazz_Throwable_mid_getCause" "getCause" "()Ljava/lang/Throwable;";
   IdCache "ndrxj_clazz_Throwable" "ndrxj_clazz_Throwable_mid_getStackTrace" "getStackTrace" "()[Ljava/lang/StackTraceElement;";
   IdCache "ndrxj_clazz_Throwable" "ndrxj_clazz_Throwable_mid_toString" "toString" "()Ljava/lang/String;";
   IdCache "ndrxj_clazz_StackTraceElement" "ndrxj_clazz_StackTraceElement_mid_toString" "toString" "()Ljava/lang/String;";
   IdCache "ndrxj_clazz_NullPointerException" "ndrxj_clazz_NullPointerException_mid_INIT" "<init>" "(Ljava/lang/String;)V"].

(** [M_fields] *)
Definition M_fields : list exj_mid_cache_t :=
  [IdCache "ndrxj_clazz_AtmiCtx" "ndrxj_clazz_AtmiCtx_fid_ctx" "ctx" "J";
   IdCache "ndrxj_clazz_AtmiCtx" "ndrxj_clazz_AtmiCtx_fid_svr" "svr" "Lorg/endurox/Server;";
   IdCache "ndrxj_clazz_TypedBuffer" "ndrxj_clazz_TypedBuffer_fid_doFinalize" "doFinalize" "Z";
   IdCache "ndrxj_clazz_TypedBuffer" "ndrxj_clazz_TypedBuffer_fid_cPtr" "cPtr" "J";
   IdCache "ndrxj_clazz_TypedBuffer" "ndrxj_clazz_TypedBuffer_fid_len" "len" "J";
   IdCache "ndrxj_clazz_TypedBuffer" "ndrxj_clazz_TypedBuffer_fid_ctx" "ctx" "Lorg/endurox/AtmiCtx;";
   IdCache "ndrxj_clazz_ClientId" "ndrxj_clazz_ClientId_fid_clientData" "clientData" "Ljava/lang/String;";
   IdCache "ndrxj_clazz_ErrorTuple" "ndrxj_clazz_ErrorTuple_fid_err" "err" "I";
   IdCache "ndrxj_clazz_ErrorTuple" "ndrxj_clazz_ErrorTuple_fid_msg" "msg" "Ljava/lang/String;";
   IdCache "ndrxj_clazz_TPTRANID" "ndrxj_clazz_TPTRANID_fid_data" "data" "[B";
   IdCache "ndrxj_clazz_TPQCTL" "ndrxj_clazz_TPQCTL_fid_flags" "flags" "J";
   IdCache "ndrxj_clazz_TPQCTL" "ndrxj_clazz_TPQCTL_fid_priority" "priority" "J";
   IdCache "ndrxj_clazz_TPQCTL" "ndrxj_clazz_TPQCTL_fid_diagnostic" "diagnostic" "J";
   IdCache "ndrxj_clazz_TPQCTL" "ndrxj_clazz_TPQCTL_fid_diagmsg" "diagmsg" "Ljava/lang/String;";
   IdCache "ndrxj_clazz_TPQCTL" "ndrxj_clazz_TPQCTL_fid_msgid" "msgid" "[B";
   IdCache "ndrxj_clazz_TPQCTL" "ndrxj_clazz_TPQCTL_fid_corrid" "corrid" "[B";
   IdCache "ndrxj_clazz_TPQCTL" "ndrxj_clazz_TPQCTL_fid_replyqueue" "replyqueue" "Ljava/lang/String;";
   IdCache "ndrxj_clazz_TPQCTL" "ndrxj_clazz_TPQCTL_fid_failurequeue" "failurequeue" "Ljava/lang/String;";
   IdCache "ndrxj_clazz_TPQCTL" "ndrxj_clazz_TPQCTL_fid_urcode" "urcode" "J";
   IdCache "ndrxj_clazz_TPQCTL" "ndrxj_clazz_TPQCTL_fid_appkey" "appkey" "J";
   IdCache "ndrxj_clazz_TPQCTL" "ndrxj_clazz_TPQCTL_fid_delivery_qos" "delivery_qos" "J";
   IdCache "ndrxj_clazz_TPQCTL" "ndrxj_clazz_TPQCTL_fid_reply_qos" "reply_qos" "J";
   IdCache "ndrxj_clazz_TPQCTL" "ndrxj_clazz_TPQCTL_fid_exp_time" "exp_time" "J";
   IdCache "ndrxj_clazz_TPQCTL" "ndrxj_clazz_TPQCTL_fid_cltid" "cltid" "Lorg/endurox/ClientId;";
   IdCache "ndrxj_clazz_XidList" "ndrxj_clazz_XidList_fid_ret" "ret" "I";
   IdCache "ndrxj_clazz_XidList" "ndrxj_clazz_XidList_fid_list" "list" "[Ljavax/transaction/xa/Xid;";
   IdCache "ndrxj_clazz_BExprTree" "ndrxj_clazz_BExprTree_fid_cPtr" "cPtr" "J"].

(** The constructors, methods and fields of org.endurox classes that are looked up, as the
    Java sources declare them: class, name, descriptor. *)
Definition java_members : list (string * string * string) :=
  [("org/endurox/AtmiCtx", "ctx", "J");
   ("org/endurox/AtmiCtx", "svr", "Lorg/endurox/Server;");
   ("org/endurox/AtmiCtx", "tpCallDispatch", "(Lorg/endurox/TpSvcInfo;)V");
   ("org/endurox/AtmiCtx", "unsolDispatch", "(Lorg/endurox/TypedBuffer;J)V");
   ("org/endurox/AtmiCtx", "xa_close_entry", "(J)I");
   ("org/endurox/AtmiCtx", "xa_commit_entry", "(Ljavax/transaction/xa/Xid;J)I");
   ("org/endurox/AtmiCtx", "xa_end_entry", "(Ljavax/transaction/xa/Xid;J)I");
   ("org/endurox/AtmiCtx", "xa_forget_entry", "(Ljavax/transaction/xa/Xid;J)I");
   ("org/endurox/AtmiCtx", "xa_open_entry", "(J)I");
   ("org/endurox/AtmiCtx", "xa_prepare_entry", "(Ljavax/transaction/xa/Xid;J)I");
   ("org/endurox/AtmiCtx", "xa_recover_entry", "(J)Lorg/endurox/XidList;");
   ("org/endurox/AtmiCtx", "xa_rollback_entry", "(Ljavax/transaction/xa/Xid;J)I");
   ("org/endurox/AtmiCtx", "xa_start_entry", "(Ljavax/transaction/xa/Xid;J)I");
   ("org/endurox/BExprTree", "<init>", "(J)V");
   ("org/endurox/BExprTree", "cPtr", "J");
   ("org/endurox/BNextResult", "<init>", "(III)V");
   ("org/endurox/ClientId", "<init>", "(Ljava/lang/String;)V");
   ("org/endurox/ClientId", "clientData", "Ljava/lang/String;");
   ("org/endurox/ErrorTuple", "<init>", "()V");
   ("org/endurox/ErrorTuple", "err", "I");
   ("org/endurox/ErrorTuple", "msg", "Ljava/lang/String;");
   ("org/endurox/ExXid", "<init>", "(JJJ[B)V");
   ("org/endurox/Server", "tpSvrDone", "(Lorg/endurox/AtmiCtx;)V");
   ("org/endurox/Server", "tpSvrInit", "(Lorg/endurox/AtmiCtx;[Ljava/lang/String;)I");
   ("org/endurox/TPQCTL", "<init>", "()V");
   ("org/endurox/TPQCTL", "appkey", "J");
   ("org/endurox/TPQCTL", "cltid", "Lorg/endurox/ClientId;");
   ("org/endurox/TPQCTL", "corrid", "[B");
   ("org/endurox/TPQCTL", "delivery_qos", "J");
   ("org/endurox/TPQCTL", "diagmsg", "Ljava/lang/String;");
   ("org/endurox/TPQCTL", "diagnostic", "J");
   ("org/endurox/TPQCTL", "exp_time", "J");
   ("org/endurox/TPQCTL", "failurequeue", "Ljava/lang/String;");
   ("org/endurox/TPQCTL", "flags", "J");
   ("org/endurox/TPQCTL", "msgid", "[B");
   ("org/endurox/TPQCTL", "priority", "J");
   ("org/endurox/TPQCTL", "reply_qos", "J");
   ("org/endurox/TPQCTL", "replyqueue", "Ljava/lang/String;");
   ("org/endurox/TPQCTL", "urcode", "J");
   ("org/endurox/TPTRANID", "<init>", "()V");
   ("org/endurox/TPTRANID", "data", "[B");
   ("org/endurox/TpSvcInfo", "<init>", "(Ljava/lang/String;Lorg/endurox/TypedBuffer;JIJLorg/endurox/ClientId;Ljava/lang/String;)V");
   ("org/endurox/TpTypesResult", "<init>", "(Ljava/lang/String;Ljava/lang/String;J)V");
   ("org/endurox/TpgetrplyResult", "<init>", "(ILorg/endurox/TypedBuffer;)V");
   ("org/endurox/TprecvResult", "<init>", "(ILorg/endurox/TypedBuffer;J)V");
   ("org/endurox/TypedBuffer", "<init>", "(Lorg/endurox/AtmiCtx;ZJJ)V");
   ("org/endurox/TypedBuffer", "cPtr", "J");
   ("org/endurox/TypedBuffer", "ctx", "Lorg/endurox/AtmiCtx;");
   ("org/endurox/TypedBuffer", "doFinalize", "Z");
   ("org/endurox/TypedBuffer", "len", "J");
   ("org/endurox/TypedCarray", "<init>", "(Lorg/endurox/AtmiCtx;ZJJ)V");
   ("org/endurox/TypedJson", "<init>", "(Lorg/endurox/AtmiCtx;ZJJ)V");
   ("org/endurox/TypedString", "<init>", "(Lorg/endurox/AtmiCtx;ZJJ)V");
   ("org/endurox/TypedTpInit", "<init>", "(Lorg/endurox/AtmiCtx;ZJJ)V");
   ("org/endurox/TypedUbf", "<init>", "(Lorg/endurox/AtmiCtx;ZJJ)V");
   ("org/endurox/TypedUbf", "boolcbfDispatch", "(Ljava/lang/String;)J");
   ("org/endurox/TypedView", "<init>", "(Lorg/endurox/AtmiCtx;ZJJ)V");
   ("org/endurox/XidList", "list", "[Ljavax/transaction/xa/Xid;");
   ("org/endurox/XidList", "ret", "I")].

(** Those of the Java class library. *)
Definition jdk_members : list (string * string * string) :=
  [("java/io/BufferedReader", "readLine", "()Ljava/lang/String;");
   ("java/io/OutputStream", "write", "([B)V");
   ("java/lang/NullPointerException", "<init>", "(Ljava/lang/String;)V");
   ("java/lang/Runnable", "run", "()V");
   ("java/lang/StackTraceElement", "toString", "()Ljava/lang/String;");
   ("java/lang/Throwable", "getCause", "()Ljava/lang/Throwable;");
   ("java/lang/Throwable", "getStackTrace", "()[Ljava/lang/StackTraceElement;");
   ("java/lang/Throwable", "toString", "()Ljava/lang/String;");
   ("javax/transaction/xa/Xid", "getBranchQualifier", "()[B");
   ("javax/transaction/xa/Xid", "getFormatId", "()I");
   ("javax/transaction/xa/Xid", "getGlobalTransactionId", "()[B")].

Definition cache_variables : list (var_kind * string) := cache_variables_1 ++ cache_variables_2.

(** What include/libsrc.h declares for the other files. *)
Definition header_variables : list (var_kind * string) :=
  [(V_method, "ndrxj_clazz_AtmiCtx_mid_tpCallDispatch"); (V_method, "ndrxj_clazz_AtmiCtx_mid_xa_open_entry");
   (V_method, "ndrxj_clazz_AtmiCtx_mid_xa_close_entry"); (V_method, "ndrxj_clazz_AtmiCtx_mid_xa_end_entry");
   (V_method, "ndrxj_clazz_AtmiCtx_mid_xa_rollback_entry");
   (V_method, "ndrxj_clazz_AtmiCtx_mid_xa_prepare_entry"); (V_method, "ndrxj_clazz_AtmiCtx_mid_xa_start_entry");
   (V_method, "ndrxj_clazz_AtmiCtx_mid_xa_commit_entry");
   (V_method, "ndrxj_clazz_AtmiCtx_mid_xa_recover_entry");
   (V_method, "ndrxj_clazz_AtmiCtx_mid_xa_forget_entry"); (V_method, "ndrxj_clazz_AtmiCtx_mid_unsolDispatch");
   (V_field, "ndrxj_clazz_AtmiCtx_fid_ctx"); (V_field, "ndrxj_clazz_AtmiCtx_fid_svr");
   (V_class, "ndrxj_clazz_Server"); (V_method, "ndrxj_clazz_Server_mid_tpSvrDone");
   (V_method, "ndrxj_clazz_Server_mid_tpSvrInit"); (V_class, "ndrxj_clazz_TpSvcInfo");
   (V_method, "ndrxj_clazz_TpSvcInfo_mid_INIT"); (V_class, "ndrxj_clazz_TypedBuffer");
   (V_method, "ndrxj_clazz_TypedBuffer_mid_INIT"); (V_field, "ndrxj_clazz_TypedBuffer_fid_doFinalize");
   (V_field, "ndrxj_clazz_TypedBuffer_fid_cPtr"); (V_field, "ndrxj_clazz_TypedBuffer_fid_len");
   (V_field, "ndrxj_clazz_TypedBuffer_fid_ctx"); (V_class, "ndrxj_clazz_TypedUbf");
   (V_method, "ndrxj_clazz_TypedUbf_mid_INIT"); (V_method, "ndrxj_clazz_TypedUbf_mid_boolcbfDispatch");
   (V_class, "ndrxj_clazz_TypedCarray"); (V_method, "ndrxj_clazz_TypedCarray_mid_INIT");
   (V_class, "ndrxj_clazz_TypedString"); (V_method, "ndrxj_clazz_TypedString_mid_INIT");
   (V_class, "ndrxj_clazz_TypedView"); (V_method, "ndrxj_clazz_TypedView_mid_INIT");
   (V_class, "ndrxj_clazz_TypedJson"); (V_method, "ndrxj_clazz_TypedJson_mid_INIT");
   (V_class, "ndrxj_clazz_TypedTpInit"); (V_method, "ndrxj_clazz_TypedTpInit_mid_INIT");
   (V_class, "ndrxj_clazz_ClientId"); (V_method, "ndrxj_clazz_ClientId_mid_INIT");
   (V_field, "ndrxj_clazz_ClientId_fid_clientData"); (V_class, "ndrxj_clazz_ErrorTuple");
   (V_method, "ndrxj_clazz_ErrorTuple_mid_INIT"); (V_field, "ndrxj_clazz_ErrorTuple_fid_err");
   (V_field, "ndrxj_clazz_ErrorTuple_fid_msg"); (V_class, "ndrxj_clazz_TPTRANID");
   (V_method, "ndrxj_clazz_TPTRANID_mid_INIT"); (V_field, "ndrxj_clazz_TPTRANID_fid_data");
   (V_class, "ndrxj_clazz_TPQCTL"); (V_method, "ndrxj_clazz_TPQCTL_mid_INIT");
   (V_field, "ndrxj_clazz_TPQCTL_fid_flags"); (V_field, "ndrxj_clazz_TPQCTL_fid_priority");
   (V_field, "ndrxj_clazz_TPQCTL_fid_diagnostic"); (V_field, "ndrxj_clazz_TPQCTL_fid_diagmsg");
   (V_field, "ndrxj_clazz_TPQCTL_fid_msgid"); (V_field, "ndrxj_clazz_TPQCTL_fid_corrid");
   (V_field, "ndrxj_clazz_TPQCTL_fid_replyqueue"); (V_field, "ndrxj_clazz_TPQCTL_fid_failurequeue");
   (V_field, "ndrxj_clazz_TPQCTL_fid_urcode"); (V_field, "ndrxj_clazz_TPQCTL_fid_appkey");
   (V_field, "ndrxj_clazz_TPQCTL_fid_delivery_qos"); (V_field, "ndrxj_clazz_TPQCTL_fid_reply_qos");
   (V_field, "ndrxj_clazz_TPQCTL_fid_exp_time"); (V_field, "ndrxj_clazz_TPQCTL_fid_cltid");
   (V_class, "ndrxj_clazz_XidList"); (V_field, "ndrxj_clazz_XidList_fid_ret");
   (V_field, "ndrxj_clazz_XidList_fid_list"); (V_class, "ndrxj_clazz_String"); (V_class, "ndrxj_clazz_ExXid");
   (V_method, "ndrxj_clazz_ExXid_mid_INIT"); (V_class, "ndrxj_clazz_Xid");
   (V_method, "ndrxj_clazz_Xid_mid_getFormatId"); (V_method, "ndrxj_clazz_Xid_mid_getBranchQualifier");
   (V_method, "ndrxj_clazz_Xid_mid_getGlobalTransactionId"); (V_class, "ndrxj_clazz_OutputStream");
   (V_method, "ndrxj_clazz_OutputStream_mid_write"); (V_class, "ndrxj_clazz_BExprTree");
   (V_method, "ndrxj_clazz_BExprTree_mid_INIT"); (V_field, "ndrxj_clazz_BExprTree_fid_cPtr");
   (V_class, "ndrxj_clazz_BNextResult"); (V_method, "ndrxj_clazz_BNextResult_mid_INIT");
   (V_class, "ndrxj_clazz_Runnable"); (V_method, "ndrxj_clazz_Runnable_mid_run");
   (V_class, "ndrxj_clazz_TpgetrplyResult"); (V_method, "ndrxj_clazz_TpgetrplyResult_mid_INIT");
   (V_class, "ndrxj_clazz_TprecvResult"); (V_method, "ndrxj_clazz_TprecvResult_mid_INIT");
   (V_class, "ndrxj_clazz_TpTypesResult"); (V_method, "ndrxj_clazz_TpTypesResult_mid_INIT");
   (V_class, "ndrxj_clazz_BufferedReader"); (V_method, "ndrxj_clazz_BufferedReader_mid_readLine");
   (V_class, "ndrxj_clazz_Throwable"); (V_method, "ndrxj_clazz_Throwable_mid_getCause");
   (V_method, "ndrxj_clazz_Throwable_mid_getStackTrace"); (V_method, "ndrxj_clazz_Throwable_mid_toString");
   (V_class, "ndrxj_clazz_StackTraceElement"); (V_method, "ndrxj_clazz_StackTraceElement_mid_toString");
   (V_class, "ndrxj_clazz_NullPointerException"); (V_method, "ndrxj_clazz_NullPointerException_mid_INIT")].

(** The class variables the other files pass to [NewObject] and [NewObjectArray]. *)
Definition used_later : list string :=
  ["ndrxj_clazz_BExprTree"; "ndrxj_clazz_BNextResult"; "ndrxj_clazz_ClientId"; "ndrxj_clazz_ErrorTuple";
   "ndrxj_clazz_ExXid"; "ndrxj_clazz_NullPointerException"; "ndrxj_clazz_String"; "ndrxj_clazz_TPQCTL";
   "ndrxj_clazz_TPTRANID"; "ndrxj_clazz_TpSvcInfo"; "ndrxj_clazz_TpTypesResult";
   "ndrxj_clazz_TpgetrplyResult"; "ndrxj_clazz_TprecvResult"; "ndrxj_clazz_TypedCarray";
   "ndrxj_clazz_TypedJson"; "ndrxj_clazz_TypedString"; "ndrxj_clazz_TypedTpInit"; "ndrxj_clazz_TypedUbf";
   "ndrxj_clazz_TypedView"].

(** ** References *)

Inductive jref := LocalRef (n : nat) | WeakRef (n : nat).

(** The variables and the references that exist, with their classes.  [dyn_cache] is
    the hash of classes found later. *)
Record meta_state := Meta {
  class_vars : gmap string jref;
  id_vars : gmap string (string * string * string);
  locals : gmap nat string;
  weaks : gmap nat string;
  next_ref : nat;
  dyn_cache : list (string * jref)
}.

Definition set_class (v : string) (r : jref) (s : meta_state) : meta_state :=
  Meta (<[v := r]> (class_vars s)) (id_vars s) (locals s) (weaks s) (next_ref s) (dyn_cache s).
Definition set_id (v : string) (m : string * string * string) (s : meta_state) : meta_state :=
  Meta (class_vars s) (<[v := m]> (id_vars s)) (locals s) (weaks s) (next_ref s) (dyn_cache s).
Definition new_local (c : string) (s : meta_state) : meta_state :=
  Meta (class_vars s) (id_vars s) (<[next_ref s := c]> (locals s)) (weaks s) (S (next_ref s)) (dyn_cache s).
Definition new_weak (c : string) (s : meta_state) : meta_state :=
  Meta (class_vars s) (id_vars s) (locals s) (<[next_ref s := c]> (weaks s)) (S (next_ref s)) (dyn_cache s).
Definition del_local (n : nat) (s : meta_state) : meta_state :=
  Meta (class_vars s) (id_vars s) (delete n (locals s)) (weaks s) (next_ref s) (dyn_cache s).
Definition set_dyn (d : list (string * jref)) (s : meta_state) : meta_state :=
  Meta (class_vars s) (id_vars s) (locals s) (weaks s) (next_ref s) d.

(** The class behind a live reference. *)
Definition ref_class (s : meta_state) (r : jref) : option string :=
  match r with LocalRef n => locals s !! n | WeakRef n => weaks s !! n end.

Section MetaCache.
Context (vm : jvm) (member : string → string → string → bool).

Definition mx (f : meta_state → meta_state) : M meta_state unit := mmod (λ w, with_x (f (w_x w)) w).

(** [FindClass] *)
Definition find_class (name : string) : M meta_state (option jref) :=
  ok ← FindClass vm name;
  if (ok : bool) then
    w ← mget; mx (new_local name);; mret (Some (LocalRef (next_ref (w_x w))))
  else mret None.

Definition class_of (r : jref) : M meta_state string :=
  w ← mget;
  match ref_class (w_x w) r with Some c => mret c | None => crash "deleted reference" end.

Definition new_weak_global_ref (r : jref) : M meta_state (option jref) :=
  c ← class_of r;
  ok ← ask (jvm_alloc_ok vm);
  if (ok : bool) then w ← mget; mx (new_weak c);; mret (Some (WeakRef (next_ref (w_x w))))
  else throw_vm "java/lang/OutOfMemoryError";; mret None.

Definition delete_local_ref (r : jref) : M meta_state unit :=
  match r with
  | LocalRef n => _ ← class_of r; mx (del_local n)
  | WeakRef _ => crash "not a local reference"
  end.

(** [DeleteGlobalRef] is for references of [NewGlobalRef]. *)
Definition delete_global_ref (r : jref) : M meta_state unit := crash "not a global reference".

Definition class_var (v : string) : M meta_state jref :=
  w ← mget; match class_vars (w_x w) !! v with Some r => mret r | None => crash "NULL class" end.

(** The first loop of [ndrxj_caches_load]. *)
Definition load_class (row : exj_class_cache_t) : M meta_state bool :=
  r ← find_class (classStr row);
  match r with
  | None => mret false
  | Some tmp =>
      if cc_global row then
        g ← new_weak_global_ref tmp;
        delete_local_ref tmp;;
        match g with
        | Some g => mx (set_class (cc_calzz row) g);; mret true
        | None => mret false
        end
      else mx (set_class (cc_calzz row) tmp);; mret true
  end.

(** The loops over methods and fields. *)
Definition load_id (error : string) (row : exj_mid_cache_t) : M meta_state bool :=
  r ← class_var (ic_calzz row);
  c ← class_of r;
  if member c (ic_name row) (ic_sign row) then
    mx (set_id (ic_id row) (c, ic_name row, ic_sign row));; mret true
  else throw_vm error;; mret false.

(** A loop that stops at the first failure. *)
Fixpoint each {A} (f : A → M meta_state bool) (l : list A) : M meta_state bool :=
  match l with
  | [] => mret true
  | x :: l' => ok ← f x; if (ok : bool) then each f l' else mret false
  end.

(** The last loop. *)
Definition drop_class (row : exj_class_cache_t) : M meta_state bool :=
  (if cc_global row then mret tt else r ← class_var (cc_calzz row); delete_local_ref r);;
  mret true.

Definition load_tables (classes : list exj_class_cache_t) (methods fields : list exj_mid_cache_t)
    : M meta_state Z :=
  ok ← each load_class classes;
  if negb ok then mret EXFAIL else
  ok ← each (load_id "java/lang/NoSuchMethodError") methods;
  if negb ok then mret EXFAIL else
  ok ← each (load_id "java/lang/NoSuchFieldError") fields;
  if negb ok then mret EXFAIL else
  _ ← each drop_class classes;
  mret EXSUCCEED.

Definition ndrxj_caches_load : M meta_state Z := load_tables M_classes M_methods M_fields.

Fixpoint unload_dyn (l : list (string * jref)) : M meta_state unit :=
  match l with
  | [] => mret tt
  | (_, r) :: l' => delete_global_ref r;; mx (set_dyn l');; unload_dyn l'
  end.

Definition ndrxj_caches_unload : M meta_state unit :=
  _ ← each (λ row, (if cc_global row then r ← class_var (cc_calzz row); delete_global_ref r else mret tt);;
                   mret true) M_classes;
  w ← mget; unload_dyn (dyn_cache (w_x w)).

(** loader.c: [JNI_OnLoad] after [GetEnv] and [ndrxj_lib_init] answered. *)
Definition JNI_VERSION_1_2 : Z := 65538.
Definition JNI_ERR : Z := -1.

Definition JNI_OnLoad (env_ok lib_ok : bool) : M meta_state Z :=
  if env_ok && lib_ok then
    r ← ndrxj_caches_load;
    mret (if (r =? EXSUCCEED)%Z then JNI_VERSION_1_2 else JNI_ERR)
  else mret JNI_ERR.

Definition JNI_OnUnload (env_ok : bool) : M meta_state unit :=
  if env_ok then ndrxj_caches_unload else mret tt.
End MetaCache.
