(* ===== verification/MetaCacheProofs.v ===== *)
(** * Loading the caches

    On a machine that has the classes and members the tables ask for, every variable is
    set to what its row names, kept classes stay referenced and no local reference is
    left over.  Proved for any tables without repeated variables. *)
From stdpp Require Import sorting strings gmap list numbers.
From S2P Require Import Prelude CString Jni MetaCache.

Section Load.
Context (vm : jvm) (member : string → string → string → bool).
Hypothesis vm_mem : vm_has_memory vm.

Abbreviation world := (Jni.world meta_state).
Implicit Types (w : world) (s : meta_state).

(** Reference numbers from [next_ref] on are unused. *)
Definition fresh_refs s : Prop :=
  (∀ n c, locals s !! n = Some c → n < next_ref s) ∧ (∀ n c, weaks s !! n = Some c → n < next_ref s).

(** What one class row leaves: the reference its variable holds. *)
Definition class_loaded s (row : exj_class_cache_t) (n : nat) : Prop :=
  class_vars s !! cc_calzz row = Some (if cc_global row then WeakRef n else LocalRef n) ∧
  ref_class s (if cc_global row then WeakRef n else LocalRef n) = Some (classStr row).

(** The state after a class row. *)
Definition after_class (row : exj_class_cache_t) s : meta_state :=
  if cc_global row then
    set_class (cc_calzz row) (WeakRef (S (next_ref s)))
      (del_local (next_ref s) (new_weak (classStr row) (new_local (classStr row) s)))
  else set_class (cc_calzz row) (LocalRef (next_ref s)) (new_local (classStr row) s).

Definition ref_of (row : exj_class_cache_t) s : nat :=
  if cc_global row then S (next_ref s) else next_ref s.

Lemma run_mx f w : mx f w = Ok tt (with_x (f (w_x w)) w).
Proof. done. Qed.

Lemma run_class_of r c w : ref_class (w_x w) r = Some c → class_of r w = Ok c w.
Proof. intros Hr. unfold class_of. rewrite run_bind. cbn. by rewrite Hr. Qed.

Lemma run_class_var v r w : class_vars (w_x w) !! v = Some r → class_var v w = Ok r w.
Proof. intros Hr. unfold class_var. rewrite run_bind. cbn. by rewrite Hr. Qed.

(** One row; the tick of the allocation is the only other change. *)
Lemma run_load_class row w :
  jvm_class_exists vm (classStr row) = true →
  ∃ w', load_class vm row w = Ok true w' ∧ w_x w' = after_class row (w_x w) ∧ w_exc w' = w_exc w.
Proof.
  intros Hc. unfold load_class, find_class, FindClass. rewrite run_bind, run_bind, Hc, run_ret, run_bind.
  cbn [mget]. rewrite run_bind, run_mx, run_ret. unfold after_class. destruct (cc_global row).
  - rewrite run_bind. unfold new_weak_global_ref. rewrite run_bind.
    rewrite (run_class_of _ (classStr row)) by (cbn; by rewrite lookup_insert_eq).
    rewrite run_bind. unfold ask at 1. rewrite vm_mem. cbn beta iota. rewrite run_bind. cbn [mget].
    rewrite run_bind, run_mx, run_ret, run_bind. cbn [delete_local_ref]. rewrite run_bind.
    rewrite (run_class_of _ (classStr row)) by (cbn; by rewrite lookup_insert_eq).
    rewrite run_mx, run_bind, run_mx, run_ret. by eexists.
  - rewrite run_bind, run_mx, run_ret. by eexists.
Qed.

(** Rows leave variables and references of others alone. *)
Lemma after_class_spec row s :
  fresh_refs s →
  let s' := after_class row s in
  class_loaded s' row (ref_of row s) ∧ fresh_refs s' ∧
  next_ref s ≤ ref_of row s < next_ref s' ∧
  (∀ v, v ≠ cc_calzz row → class_vars s' !! v = class_vars s !! v) ∧
  (∀ r c, ref_class s r = Some c → ref_class s' r = Some c) ∧
  (∀ n c, locals s' !! n = Some c →
     locals s !! n = Some c ∨ (cc_global row = false ∧ n = ref_of row s)) ∧
  id_vars s' = id_vars s ∧ dyn_cache s' = dyn_cache s.
Proof.
  intros [Hl Hw]. unfold after_class, ref_of, class_loaded, fresh_refs. destruct (cc_global row) eqn:E; cbn.
  - rewrite !lookup_insert_eq. split_and!; try done; try lia.
    + intros n c. rewrite lookup_delete_Some. intros [Hne [[? <-]|[_ Hn]]%lookup_insert_Some]; [lia|].
      apply Hl in Hn. lia.
    + intros n c [[? <-]|[_ Hn]]%lookup_insert_Some; [lia|]. apply Hw in Hn. lia.
    + intros v Hv. by rewrite lookup_insert_ne.
    + intros [n|n] c Hr; cbn in *.
      * pose proof (Hl n c Hr). rewrite lookup_delete_ne, lookup_insert_ne by lia. done.
      * pose proof (Hw n c Hr). by rewrite lookup_insert_ne by lia.
    + intros n c. rewrite lookup_delete_Some. intros [Hne [[? <-]|[_ Hn]]%lookup_insert_Some]; [lia|by left].
  - rewrite !lookup_insert_eq. split_and!; try done; try lia.
    + intros n c [[? <-]|[_ Hn]]%lookup_insert_Some; [lia|]. apply Hl in Hn. lia.
    + intros n c Hn. apply Hw in Hn. lia.
    + intros v Hv. by rewrite lookup_insert_ne.
    + intros [n|n] c Hr; cbn in *; [|done]. pose proof (Hl n c Hr). by rewrite lookup_insert_ne by lia.
    + intros n c [[? <-]|[_ Hn]]%lookup_insert_Some; auto.
Qed.

(** The class loop: one reference per row, all different and new. *)
Lemma run_load_classes rows w :
  (∀ row, row ∈ rows → jvm_class_exists vm (classStr row) = true) →
  NoDup (cc_calzz <$> rows) → fresh_refs (w_x w) →
  ∃ w' ns, each (load_class vm) rows w = Ok true w' ∧ w_exc w' = w_exc w ∧
    Forall2 (class_loaded (w_x w')) rows ns ∧ NoDup ns ∧ Forall (λ n, next_ref (w_x w) ≤ n) ns ∧
    fresh_refs (w_x w') ∧ next_ref (w_x w) ≤ next_ref (w_x w') ∧
    (∀ v, v ∉ (cc_calzz <$> rows) → class_vars (w_x w') !! v = class_vars (w_x w) !! v) ∧
    (∀ r c, ref_class (w_x w) r = Some c → ref_class (w_x w') r = Some c) ∧
    (∀ n c, locals (w_x w') !! n = Some c → locals (w_x w) !! n = Some c ∨
       ∃ i row, rows !! i = Some row ∧ cc_global row = false ∧ ns !! i = Some n) ∧
    id_vars (w_x w') = id_vars (w_x w) ∧ dyn_cache (w_x w') = dyn_cache (w_x w).
Proof.
  revert w. induction rows as [|row rows IH]; intros w Hc Hnd Hf.
  { exists w, []. split_and!; try done; try constructor. auto. }
  cbn [fmap list_fmap] in Hnd. apply NoDup_cons in Hnd as [Hrow Hnd].
  destruct (run_load_class row w) as (w1 & Hrun & Hx & He); [apply Hc; left|].
  destruct (after_class_spec row (w_x w) Hf) as (Hld & Hf1 & Hn & Hv & Hr & Hl & Hid & Hdy).
  rewrite <- Hx in *.
  destruct (IH w1) as (w' & ns & Hrun' & He' & Hall & Hns & Hge & Hf' & Hle & Hv' & Hr' & Hl' & Hid' & Hdy');
    [intros r Hin; apply Hc; by right|done|done|].
  exists w', (ref_of row (w_x w) :: ns). cbn [each]. rewrite run_bind, Hrun. split_and!; try done.
  - congruence.
  - constructor; [|done]. destruct Hld as [H1 H2]. split; [by rewrite Hv'|by apply Hr'].
  - apply NoDup_cons. split; [|done]. intros Hin. rewrite Forall_forall in Hge. specialize (Hge _ Hin). lia.
  - constructor; [lia|]. eapply Forall_impl; [exact Hge|]. cbn. lia.
  - lia.
  - intros v [Hv1 Hv2]%not_elem_of_cons. by rewrite Hv', Hv.
  - intros r c Hrc. by apply Hr', Hr.
  - intros n c [Hn1|(i & r & Hi & Hg & Hni)]%Hl'.
    + apply Hl in Hn1 as [?|[Hg ->]]; [by left|]. right. by exists 0, row.
    + right. by exists (S i), r.
  - congruence.
  - congruence.
Qed.

(** The id loops. *)
Definition id_loaded (classes : list exj_class_cache_t) s (row : exj_mid_cache_t) : Prop :=
  ∃ cr, cr ∈ classes ∧ cc_calzz cr = ic_calzz row ∧
    id_vars s !! ic_id row = Some (classStr cr, ic_name row, ic_sign row).

(** Same variables and references, other ids. *)
Definition ids_only s s' : Prop :=
  class_vars s' = class_vars s ∧ locals s' = locals s ∧ weaks s' = weaks s ∧
  next_ref s' = next_ref s ∧ dyn_cache s' = dyn_cache s.

Lemma ids_only_loaded s s' row n : ids_only s s' → class_loaded s row n → class_loaded s' row n.
Proof.
  intros (Hc & Hl & Hw & _). unfold class_loaded, ref_class. rewrite Hc. by destruct (cc_global row); rewrite ?Hl, ?Hw.
Qed.

Lemma run_load_ids err classes ns rows w :
  Forall2 (class_loaded (w_x w)) classes ns →
  (∀ row, row ∈ rows → ∃ cr, cr ∈ classes ∧ cc_calzz cr = ic_calzz row ∧
     member (classStr cr) (ic_name row) (ic_sign row) = true) →
  NoDup (ic_id <$> rows) →
  ∃ w', each (load_id member err) rows w = Ok true w' ∧ w_exc w' = w_exc w ∧
    ids_only (w_x w) (w_x w') ∧ Forall (id_loaded classes (w_x w')) rows ∧
    (∀ v, v ∉ (ic_id <$> rows) → id_vars (w_x w') !! v = id_vars (w_x w) !! v).
Proof.
  revert w. induction rows as [|row rows IH]; intros w Hcl Hm Hnd.
  { exists w. split_and!; done || constructor. }
  cbn [fmap list_fmap] in Hnd. apply NoDup_cons in Hnd as [Hrow Hnd].
  destruct (Hm row) as (cr & Hcr & Hv & Hmem); [left|].
  apply list_elem_of_lookup in Hcr as [i Hi].
  destruct (Forall2_lookup_l _ _ _ _ _ Hcl Hi) as (n & Hn & [Hvar Hcls]).
  cbn [each]. rewrite run_bind. unfold load_id at 1. rewrite run_bind.
  rewrite <- Hv, (run_class_var _ _ _ Hvar), run_bind, (run_class_of _ _ _ Hcls), Hmem, run_bind, run_mx, run_ret.
  set (w1 := with_x _ w). assert (ids_only (w_x w) (w_x w1)) as Hio by done.
  destruct (IH w1) as (w' & Hrun & He & Hids & Hall & Hoth); [|intros r Hr; apply Hm; by right|done|].
  { eapply Forall2_impl; [exact Hcl|]. intros r k Hk. by eapply ids_only_loaded. }
  exists w'. split_and!; [done|done| | |].
  - unfold ids_only in *. destruct Hids as (? & ? & ? & ? & ?), Hio as (? & ? & ? & ? & ?). split_and!; congruence.
  - constructor; [|done]. exists cr. split_and!; [by eapply list_elem_of_lookup_2|done|].
    rewrite Hoth by done. cbn. by rewrite lookup_insert_eq.
  - intros v [Hv1 Hv2]%not_elem_of_cons. rewrite Hoth by done. cbn. by rewrite lookup_insert_ne.
Qed.

(** The last loop deletes exactly the local references of its rows. *)
Definition locals_only s s' : Prop :=
  class_vars s' = class_vars s ∧ id_vars s' = id_vars s ∧ weaks s' = weaks s ∧ dyn_cache s' = dyn_cache s.

Lemma run_drop_classes rows ns w :
  Forall2 (class_loaded (w_x w)) rows ns → NoDup ns →
  ∃ w', each drop_class rows w = Ok true w' ∧ w_exc w' = w_exc w ∧ locals_only (w_x w) (w_x w') ∧
    ∀ n c, locals (w_x w') !! n = Some c ↔ locals (w_x w) !! n = Some c ∧
      ¬ ∃ i row, rows !! i = Some row ∧ cc_global row = false ∧ ns !! i = Some n.
Proof.
  intros Hall. remember (w_x w) as s eqn:Es. revert s w Es ns Hall.
  induction rows as [|row rows IH]; intros s w -> ns Hall Hnd.
  { exists w. split_and!; try done. intros n c. split; [|by intros [? _]]. intros Hn. split; [done|].
    intros (i & row & Hi & _). by rewrite lookup_nil in Hi. }
  apply Forall2_cons_inv_l in Hall as (n0 & ns' & [Hvar Hcls] & Hall & ->).
  apply NoDup_cons in Hnd as [Hn0 Hnd]. cbn [each]. rewrite run_bind. unfold drop_class at 1. rewrite run_bind.
  destruct (cc_global row) eqn:Hg.
  - rewrite run_ret, run_ret. destruct (IH (w_x w) w eq_refl ns' Hall Hnd) as (w' & Hrun & He & Hlo & Hloc).
    exists w'. split_and!; [done..|]. intros n c. rewrite Hloc. split; intros [Hl Hno]; split; try done.
    + intros ([|i] & r & Hi & Hgr & Hni); [simplify_eq/=; congruence|]. apply Hno. by exists i, r.
    + intros (i & r & Hi & Hgr & Hni). apply Hno. by exists (S i), r.
  - rewrite run_bind, (run_class_var _ _ _ Hvar). cbn [delete_local_ref]. rewrite run_bind.
    rewrite (run_class_of _ _ _ Hcls), run_mx, run_ret. set (w1 := with_x _ w).
    destruct (IH (w_x w1) w1 eq_refl ns') as (w' & Hrun & He & Hlo & Hloc); [|done|].
    { apply Forall2_same_length_lookup_2; [by eapply Forall2_length|]. intros i r n Hr Hn.
      destruct (Forall2_lookup_lr _ _ _ _ _ _ Hall Hr Hn) as [H1 H2]. split; [done|].
      destruct (cc_global r); cbn in *; [done|]. rewrite lookup_delete_ne; [done|].
      intros ->. apply Hn0. by eapply list_elem_of_lookup_2. }
    exists w'. split_and!; [done|done|by destruct Hlo as (? & ? & ? & ?)|]. intros n c. rewrite Hloc. cbn.
    rewrite lookup_delete_Some. split.
    + intros [[Hne Hl] Hno]. split; [done|]. intros ([|i] & r & Hi & Hgr & Hni); [by simplify_eq/=|].
      apply Hno. by exists i, r.
    + intros [Hl Hno]. split_and!; [|done|].
      * intros ->. apply Hno. by exists 0, row.
      * intros (i & r & Hi & Hgr & Hni). apply Hno. by exists (S i), r.
Qed.

Lemma class_loaded_kept s s' rows ns :
  class_vars s' = class_vars s → weaks s' = weaks s → Forall2 (class_loaded s) rows ns →
  ∀ row, row ∈ rows → cc_global row = true →
    ∃ n, class_vars s' !! cc_calzz row = Some (WeakRef n) ∧ weaks s' !! n = Some (classStr row).
Proof.
  intros Hc Hw Hall row [i Hi]%list_elem_of_lookup Hg.
  destruct (Forall2_lookup_l _ _ _ _ _ Hall Hi) as (n & _ & [H1 H2]). rewrite Hg in *. exists n. by rewrite Hc, Hw.
Qed.

(** The whole load, for any tables. *)
Lemma run_load_tables classes methods fields w :
  (∀ row, row ∈ classes → jvm_class_exists vm (classStr row) = true) →
  NoDup (cc_calzz <$> classes) → NoDup (ic_id <$> methods ++ fields) →
  (∀ row, row ∈ methods ++ fields → ∃ cr, cr ∈ classes ∧ cc_calzz cr = ic_calzz row ∧
     member (classStr cr) (ic_name row) (ic_sign row) = true) →
  fresh_refs (w_x w) →
  ∃ w', load_tables vm member classes methods fields w = Ok EXSUCCEED w' ∧ w_exc w' = w_exc w ∧
    (∀ row, row ∈ methods ++ fields → id_loaded classes (w_x w') row) ∧
    (∀ row, row ∈ classes → cc_global row = true →
       ∃ n, class_vars (w_x w') !! cc_calzz row = Some (WeakRef n) ∧ weaks (w_x w') !! n = Some (classStr row)) ∧
    locals (w_x w') = locals (w_x w).
Proof.
  intros Hc Hnd Hids Hm Hf. unfold load_tables.
  destruct (run_load_classes classes w Hc Hnd Hf)
    as (w1 & ns & Hr1 & He1 & Hall & Hns & Hge & Hf1 & _ & _ & Hkeep & Hloc & _).
  rewrite run_bind, Hr1. cbn [negb]. rewrite fmap_app in Hids. apply NoDup_app in Hids as (Hd1 & Hd12 & Hd2).
  destruct (run_load_ids "java/lang/NoSuchMethodError" classes ns methods w1) as (w2 & Hr2 & He2 & Hio2 & Hl2 & _);
    [done|intros; apply Hm, elem_of_app; by left|done|].
  rewrite run_bind, Hr2. cbn [negb].
  destruct (run_load_ids "java/lang/NoSuchFieldError" classes ns fields w2) as (w3 & Hr3 & He3 & Hio3 & Hl3 & Hoth);
    [eapply Forall2_impl; [exact Hall|]; intros; by eapply ids_only_loaded|intros; apply Hm, elem_of_app; by right|done|].
  rewrite run_bind, Hr3. cbn [negb].
  assert (Forall2 (class_loaded (w_x w3)) classes ns) as Hall3.
  { eapply Forall2_impl; [exact Hall|]. intros. eapply ids_only_loaded; [exact Hio3|]. by eapply ids_only_loaded. }
  destruct (run_drop_classes classes ns w3 Hall3 Hns) as (w4 & Hr4 & He4 & (Hcv & Hiv & Hwk & _) & Hl4).
  rewrite run_bind, Hr4, run_ret. exists w4. split_and!; [done|congruence| | |].
  - intros row [Hin|Hin]%elem_of_app; rewrite Forall_forall in Hl2, Hl3; unfold id_loaded in *; rewrite Hiv.
    + destruct (Hl2 _ Hin) as (cr & ? & ? & ?). exists cr. split_and!; [done..|]. rewrite Hoth; [done|].
      intros Hin2. eapply Hd12; [by apply list_elem_of_fmap_2|done].
    + by apply Hl3.
  - by eapply class_loaded_kept.
  - destruct Hio2 as (_ & Hlo2 & _), Hio3 as (_ & Hlo3 & _). apply map_eq. intros n. apply option_eq. intros c.
    rewrite Hl4, Hlo3, Hlo2. split.
    + intros [[Hl|(i & row & Hi)]%Hloc Hno]; [done|]. destruct Hno. by exists i, row.
    + intros Hl. split; [by apply (Hkeep (LocalRef n))|]. intros (i & row & Hi & Hg & Hni).
      rewrite Forall_forall in Hge. specialize (Hge n ltac:(by eapply list_elem_of_lookup_2)).
      apply (proj1 Hf) in Hl. lia.
Qed.
End Load.

(** ** The tables of the file *)

(** The variables the rows of the tables fill. *)
Definition filled_variables : list (var_kind * string) :=
  ((λ row, (V_class, cc_calzz row)) <$> M_classes) ++ ((λ row, (V_method, ic_id row)) <$> M_methods) ++
  ((λ row, (V_field, ic_id row)) <$> M_fields).

(** Every variable of the cache is filled by exactly one row. *)
Lemma tables_fill_variables : filled_variables ≡ₚ cache_variables.
Proof. apply (bool_decide_unpack _). vm_compute. exact I. Qed.

(** The header declares variables of the cache, with their kinds, and each once. *)
Lemma header_declares : header_variables ⊆ cache_variables ∧ NoDup header_variables.
Proof.
  split; [|apply (bool_decide_unpack _); vm_compute; exact I].
  intros x Hx. assert (Forall (.∈ cache_variables) header_variables) as Hf
    by (apply (bool_decide_unpack _); vm_compute; exact I).
  rewrite Forall_forall in Hf. by apply Hf.
Qed.

Lemma classes_nodup : NoDup (cc_calzz <$> M_classes).
Proof. apply (bool_decide_unpack _). vm_compute. exact I. Qed.

Lemma ids_nodup : NoDup (ic_id <$> M_methods ++ M_fields).
Proof. apply (bool_decide_unpack _). vm_compute. exact I. Qed.

(** Every row asks for a declared member of the class its variable stands for. *)
Definition asks_declared (row : exj_mid_cache_t) : Prop :=
  Exists (λ cr, cc_calzz cr = ic_calzz row ∧
                (classStr cr, ic_name row, ic_sign row) ∈ java_members ++ jdk_members) M_classes.

Lemma rows_declared : Forall asks_declared (M_methods ++ M_fields).
Proof. apply (bool_decide_unpack _). vm_compute. exact I. Qed.
