(* ===== verification/LinkMain.v ===== *)
(** * exjld/exjld.c: the linker's main program

    Options, the work directory, unpacking of the jars by the pool, the stages of the
    build and the clean-up.  A stage that fails jumps to [out:]: the monad [L] is state
    passing with that jump.  What the program does to its surroundings is recorded as a
    list of actions; what the surroundings answer is a parameter. *)
From stdpp Require Import sorting strings gmap list numbers.
From Stdlib Require Import Ascii.
From S2P Require Import Prelude CString Resources FindClasses Codegen Jni.

(** ** getopt *)

Definition OPTSTRING : string := "m:o:L:l:b:nt:ke:I:hj:".

(** What [getopt] returns: an option with its argument, one without, or ['?']. *)
Inductive opt_item :=
  | OptArg (c : ascii) (optarg : string)
  | OptFlag (c : ascii)
  | OptBad (optopt : ascii).

Inductive opt_kind := K_arg | K_flag | K_none.

(** Look an option character up. *)
Fixpoint opt_kind_of (spec : string) (c : ascii) : opt_kind :=
  match spec with
  | EmptyString => K_none
  | String d spec' =>
      if Ascii.eqb c d && negb (Ascii.eqb c ":"%char) then
        match spec' with String ":" _ => K_arg | _ => K_flag end
      else opt_kind_of spec' c
  end.

(** The characters after the dash of one argument; [next] is the following argument.
    The flag tells whether it was used up. *)
Fixpoint cluster (s : string) (next : option string) : list opt_item * bool :=
  match s with
  | EmptyString => ([], false)
  | String c s' =>
      match opt_kind_of OPTSTRING c with
      | K_arg =>
          match s', next with
          | String _ _, _ => ([OptArg c s'], false)
          | EmptyString, Some a => ([OptArg c a], true)
          | EmptyString, None => ([OptBad c], false)
          end
      | K_flag => let '(l, used) := cluster s' next in (OptFlag c :: l, used)
      | K_none => let '(l, used) := cluster s' next in (OptBad c :: l, used)
      end
  end.

(** All options in order, and the operands [argv[optind]], ... after them: the library
    moves operands to the end. *)
Fixpoint getopt (args : list string) : list opt_item * list string :=
  match args with
  | [] => ([], [])
  | a :: rest =>
      match a with
      | String "-" (String "-" EmptyString) => ([], rest)
      | String "-" (String c s) =>
          let '(items, used) := cluster (String c s) (List.hd_error rest) in
          let '(items', operands) := (if used then match rest with _ :: rest' => getopt rest' | [] => ([], []) end
                                      else getopt rest) in
          (items ++ items', operands)
      | _ => let '(items, operands) := getopt rest in (items, a :: operands)
      end
  end.

(** [atoi]: [strtol] cut to an [int]. *)
Definition is_space (c : ascii) : bool :=
  let n := N_of_ascii c in ((n =? 32) || ((9 <=? n) && (n <=? 13)))%N.
Fixpoint skip_space (s : string) : string :=
  match s with String c s' => if is_space c then skip_space s' else s | EmptyString => EmptyString end.
Fixpoint digits (a : Z) (s : string) : Z :=
  match s with
  | String c s' =>
      let n := (byte c - 48)%Z in
      if ((0 <=? n) && (n <=? 9))%Z then digits (a * 10 + n)%Z s' else a
  | EmptyString => a
  end.
Definition LONG_MAX : Z := 9223372036854775807.
Definition atoi (s : string) : Z :=
  to_jsize (match skip_space s with
            | String "-" s' => Z.max (- LONG_MAX - 1) (- digits 0 s')
            | String "+" s' => Z.min LONG_MAX (digits 0 s')
            | s' => Z.min LONG_MAX (digits 0 s')
            end).

(** ** State *)

(** The globals and locals of [main] that outlive a stage. *)
Record main_state := MainState {
  g_build_cmd : string;
  g_do_test : bool;
  g_main_class : string;
  g_out_bin : string;
  g_wd : string;
  g_owd : string;
  g_libpath : list string;
  g_incpath : list string;
  g_libs : list string;
  g_keep_temp : bool;
  g_thpool : bool;
  g_thpool_error : Z;
  tmp_outbin : string;
  jobs : Z;
  ld_library_path : option string
}.

Definition main_init (ld : option string) : main_state :=
  MainState "buildserver" true "" "" "" "" [] [] [] false false EXSUCCEED "a.out" 4 ld.

Definition TEMPDIR_MASK : string := "exjld.XXXXXX".

(** What the program does. *)
Inductive action :=
  | A_usage
  | A_pool (jobs : Z)
  | A_mkdtemp (template : string)
  | A_chdir (dir : string)
  | A_extract (file : string)
  | A_scan
  | A_codegen (test_mode : bool) (out : codegen_out)
  | A_pool_destroy
  | A_system (cmd : string).

(** What the surroundings answer.  [string_list_add] and [zip_extract] are Enduro/X's and
    the zip library's; [order] is the schedule of the pool, which runs every job it was
    given once; [built] the outcome of [exjld_class_build_hash], [class_list] and [emb_list]
    its sorted hashes. *)
Record surroundings := Surroundings {
  string_list_add : list string → string → option (list string);
  thpool_init_ok : bool;
  mkdtemp : string → option string;
  getcwd : option string;
  chdir_ok : string → bool;
  order : list string → list string;
  order_runs_all : ∀ l, order l ≡ₚ l;
  zip_extract : string → Z;
  built : Z;
  class_list : list exjld_resource_t;
  emb_list : list exjld_resource_t;
  fopen_ok : bool → bool;
  system : nat → string → Z
}.

(** A stage: its value, or a jump to [out:]. *)
Definition L (A : Type) : Type := main_state * list action → option A * (main_state * list action).

#[export] Instance L_ret : MRet L := λ A a st, (Some a, st).
#[export] Instance L_bind : MBind L := λ A B k m st,
  match m st with (Some a, st') => k a st' | (None, st') => (None, st') end.

Definition fail_out : L unit := λ st, (None, st).
Definition modify (f : main_state → main_state) : L unit := λ st, (Some tt, (f st.1, st.2)).
Definition get : L main_state := λ st, (Some st.1, st).
Definition act (a : action) : L unit := λ st, (Some tt, (st.1, st.2 ++ [a])).

Definition upd_build_cmd x (s : main_state) := MainState x (g_do_test s) (g_main_class s) (g_out_bin s) (g_wd s) (g_owd s) (g_libpath s) (g_incpath s) (g_libs s) (g_keep_temp s) (g_thpool s) (g_thpool_error s) (tmp_outbin s) (jobs s) (ld_library_path s).
Definition upd_do_test x (s : main_state) := MainState (g_build_cmd s) x (g_main_class s) (g_out_bin s) (g_wd s) (g_owd s) (g_libpath s) (g_incpath s) (g_libs s) (g_keep_temp s) (g_thpool s) (g_thpool_error s) (tmp_outbin s) (jobs s) (ld_library_path s).
Definition upd_main_class x (s : main_state) := MainState (g_build_cmd s) (g_do_test s) x (g_out_bin s) (g_wd s) (g_owd s) (g_libpath s) (g_incpath s) (g_libs s) (g_keep_temp s) (g_thpool s) (g_thpool_error s) (tmp_outbin s) (jobs s) (ld_library_path s).
Definition upd_out_bin x (s : main_state) := MainState (g_build_cmd s) (g_do_test s) (g_main_class s) x (g_wd s) (g_owd s) (g_libpath s) (g_incpath s) (g_libs s) (g_keep_temp s) (g_thpool s) (g_thpool_error s) (tmp_outbin s) (jobs s) (ld_library_path s).
Definition upd_wd x (s : main_state) := MainState (g_build_cmd s) (g_do_test s) (g_main_class s) (g_out_bin s) x (g_owd s) (g_libpath s) (g_incpath s) (g_libs s) (g_keep_temp s) (g_thpool s) (g_thpool_error s) (tmp_outbin s) (jobs s) (ld_library_path s).
Definition upd_owd x (s : main_state) := MainState (g_build_cmd s) (g_do_test s) (g_main_class s) (g_out_bin s) (g_wd s) x (g_libpath s) (g_incpath s) (g_libs s) (g_keep_temp s) (g_thpool s) (g_thpool_error s) (tmp_outbin s) (jobs s) (ld_library_path s).
Definition upd_libpath x (s : main_state) := MainState (g_build_cmd s) (g_do_test s) (g_main_class s) (g_out_bin s) (g_wd s) (g_owd s) x (g_incpath s) (g_libs s) (g_keep_temp s) (g_thpool s) (g_thpool_error s) (tmp_outbin s) (jobs s) (ld_library_path s).
Definition upd_incpath x (s : main_state) := MainState (g_build_cmd s) (g_do_test s) (g_main_class s) (g_out_bin s) (g_wd s) (g_owd s) (g_libpath s) x (g_libs s) (g_keep_temp s) (g_thpool s) (g_thpool_error s) (tmp_outbin s) (jobs s) (ld_library_path s).
Definition upd_libs x (s : main_state) := MainState (g_build_cmd s) (g_do_test s) (g_main_class s) (g_out_bin s) (g_wd s) (g_owd s) (g_libpath s) (g_incpath s) x (g_keep_temp s) (g_thpool s) (g_thpool_error s) (tmp_outbin s) (jobs s) (ld_library_path s).
Definition upd_keep_temp x (s : main_state) := MainState (g_build_cmd s) (g_do_test s) (g_main_class s) (g_out_bin s) (g_wd s) (g_owd s) (g_libpath s) (g_incpath s) (g_libs s) x (g_thpool s) (g_thpool_error s) (tmp_outbin s) (jobs s) (ld_library_path s).
Definition upd_thpool x (s : main_state) := MainState (g_build_cmd s) (g_do_test s) (g_main_class s) (g_out_bin s) (g_wd s) (g_owd s) (g_libpath s) (g_incpath s) (g_libs s) (g_keep_temp s) x (g_thpool_error s) (tmp_outbin s) (jobs s) (ld_library_path s).
Definition upd_thpool_error x (s : main_state) := MainState (g_build_cmd s) (g_do_test s) (g_main_class s) (g_out_bin s) (g_wd s) (g_owd s) (g_libpath s) (g_incpath s) (g_libs s) (g_keep_temp s) (g_thpool s) x (tmp_outbin s) (jobs s) (ld_library_path s).
Definition upd_tmp_outbin x (s : main_state) := MainState (g_build_cmd s) (g_do_test s) (g_main_class s) (g_out_bin s) (g_wd s) (g_owd s) (g_libpath s) (g_incpath s) (g_libs s) (g_keep_temp s) (g_thpool s) (g_thpool_error s) x (jobs s) (ld_library_path s).
Definition upd_jobs x (s : main_state) := MainState (g_build_cmd s) (g_do_test s) (g_main_class s) (g_out_bin s) (g_wd s) (g_owd s) (g_libpath s) (g_incpath s) (g_libs s) (g_keep_temp s) (g_thpool s) (g_thpool_error s) (tmp_outbin s) x (ld_library_path s).
Definition upd_ld x (s : main_state) := MainState (g_build_cmd s) (g_do_test s) (g_main_class s) (g_out_bin s) (g_wd s) (g_owd s) (g_libpath s) (g_incpath s) (g_libs s) (g_keep_temp s) (g_thpool s) (g_thpool_error s) (tmp_outbin s) (jobs s) x.

Section Main.
Context (sur : surroundings).

(** [ndrx_string_list_add] to one of the lists. *)
Definition list_add (field : main_state → list string) (upd : list string → main_state → main_state)
    (x : string) : L unit :=
  s ← get;
  match string_list_add sur (field s) x with
  | Some l => modify (upd l)
  | None => fail_out
  end.

(** The [switch] over one option. *)
Definition option_case (it : opt_item) : L unit :=
  match it with
  | OptArg "L" optarg =>
      s ← get;
      modify (upd_ld (Some (match ld_library_path s with
                            | Some env => strcpy_safe PATH_MAX (env +:+ ":" +:+ optarg)
                            | None => strcpy_safe PATH_MAX optarg
                            end)));;
      list_add g_libpath upd_libpath optarg
  | OptArg "I" optarg => list_add g_incpath upd_incpath optarg
  | OptArg "b" optarg => modify (upd_build_cmd (strcpy_safe BUFSZ optarg))
  | OptFlag "n" => modify (upd_do_test false)
  | OptArg "m" optarg => modify (upd_main_class (strcpy_safe BUFSZ optarg))
  | OptArg "o" optarg => modify (upd_tmp_outbin (strcpy_safe PATH_MAX optarg))
  | OptArg "l" optarg => list_add g_libs upd_libs optarg
  | OptArg "j" optarg => if (0 <? atoi optarg)%Z then modify (upd_jobs (atoi optarg)) else fail_out
  | OptFlag "k" => modify (upd_keep_temp true)
  | OptArg "t" optarg => modify (upd_wd (strcpy_safe BUFSZ (optarg +:+ "/" +:+ TEMPDIR_MASK)))
  | OptFlag "h" => act A_usage;; fail_out
  | _ => fail_out
  end.

Fixpoint option_loop (items : list opt_item) : L unit :=
  match items with
  | [] => mret tt
  | it :: items' => option_case it;; option_loop items'
  end.

Definition DEFAULT_LIBS : list string := ["exjlds"; "java"; "jvm"].

(** The loop over the default libraries. *)
Fixpoint add_libs (l : list string) : L unit :=
  match l with
  | [] => mret tt
  | x :: l' => list_add g_libs upd_libs x;; add_libs l'
  end.

(** The file a jar argument names. *)
Definition jar_file (owd path : string) : string :=
  strcpy_safe PATH_MAX (match path with String "/" _ => path | _ => owd +:+ "/" +:+ path end).

(** [extract_jar_th] *)
Definition extract_jar_th (path : string) : L unit :=
  s ← get;
  let tmp := jar_file (g_owd s) path in
  act (A_extract tmp);;
  let ret := zip_extract sur tmp in
  if (ret =? EXSUCCEED)%Z then mret tt else modify (upd_thpool_error ret).

Fixpoint run_jobs (paths : list string) : L unit :=
  match paths with
  | [] => mret tt
  | p :: paths' => extract_jar_th p;; run_jobs paths'
  end.

(** From the first check to the template of the work directory. *)
Definition prepare : L unit :=
  s ← get;
  (if String.eqb (g_main_class s) "" then act A_usage;; fail_out else mret tt);;
  (match g_libs s with [] => add_libs DEFAULT_LIBS | _ => mret tt end);;
  s ← get;
  act (A_pool (jobs s));;
  (if thpool_init_ok sur then modify (upd_thpool true) else fail_out);;
  (if String.eqb (g_wd s) "" then modify (upd_wd (strcpy_safe BUFSZ ("./" +:+ TEMPDIR_MASK))) else mret tt).

(** The output binary: the test is for an empty name. *)
Definition out_bin_of (owd outbin : string) : string :=
  if String.eqb outbin "" then strcpy_safe BUFSZ outbin else strcpy_safe BUFSZ (owd +:+ "/" +:+ outbin).

(** Into the work directory. *)
Definition enter_wd : L unit :=
  s ← get;
  act (A_mkdtemp (g_wd s));;
  (match mkdtemp sur (g_wd s) with Some d => modify (upd_wd d) | None => fail_out end);;
  (match getcwd sur with Some d => modify (upd_owd d) | None => modify (upd_owd "");; fail_out end);;
  s ← get;
  modify (upd_out_bin (out_bin_of (g_owd s) (tmp_outbin s)));;
  act (A_chdir (g_wd s));;
  (if chdir_ok sur (g_wd s) then mret tt else fail_out).

(** The configuration the generator reads. *)
Definition cfg_of (s : main_state) : link_cfg :=
  LinkCfg (g_build_cmd s) (g_main_class s) (g_out_bin s) (g_owd s) (g_libs s) (g_incpath s) (g_libpath s).

Definition codegen (test_mode : bool) : L unit :=
  s ← get;
  let out := ndrxj_codegen (cfg_of s) (fopen_ok sur test_mode) (system sur) (class_list sur) (emb_list sur) test_mode in
  act (A_codegen test_mode out);;
  if (co_ret out =? EXSUCCEED)%Z then mret tt else fail_out.

(** Unpacking, tables and code; [jars] are the operands. *)
Definition build (jars : list string) : L unit :=
  modify (upd_thpool_error EXSUCCEED);;
  run_jobs (order sur jars);;
  s ← get;
  (match jars with
   | [] => mret tt
   | _ => if (g_thpool_error s =? EXSUCCEED)%Z then mret tt else fail_out
   end);;
  act A_scan;;
  (if (built sur =? EXSUCCEED)%Z then mret tt else fail_out);;
  (match jars with [] => act A_usage;; fail_out | _ => mret tt end);;
  (if g_do_test s then codegen true else mret tt);;
  codegen false.

Definition main_body (args : list string) : L unit :=
  let '(items, operands) := getopt args in
  option_loop items;; prepare;; enter_wd;; build operands.

(** The command that removes the work directory. *)
Definition rm_cmd (wd : string) : string := strcpy_safe PATH_MAX ("rm -rf " +:+ wd).

(** The code after [out:]. *)
Definition clean_up (s : main_state) : list action :=
  (if g_thpool s then [A_pool_destroy] else []) ++
  (if String.eqb (g_owd s) "" then [] else [A_chdir (g_owd s)]) ++
  (if negb (g_keep_temp s) && negb (String.eqb (g_wd s) "") then [A_system (rm_cmd (g_wd s))] else []).

(** [main]: exit code, actions and final state. *)
Definition main (args : list string) (ld : option string) : Z * list action * main_state :=
  let '(r, (s, acts)) := main_body args (main_init ld, []) in
  (match r with Some _ => EXSUCCEED | None => EXFAIL end, acts ++ clean_up s, s).
End Main.
