(* ===== verification/LinkMainProofs.v ===== *)
(** * The linker's main program: what it leaves behind

    Success of [main] implies success of every stage; the work directory is removed and
    the original one entered again on every path; command lines read back. *)
From stdpp Require Import sorting strings gmap list numbers.
From Stdlib Require Import Ascii.
From S2P Require Import Prelude CString Resources FindClasses Codegen Jni LinkMain.

#[local] Arguments strcpy_safe : simpl never.
#[local] Arguments jar_file : simpl never.

(** ** The monad *)

Lemma runL_bind {A B} (m : L A) (k : A → L B) st :
  (m ≫= k) st = match m st with (Some a, st') => k a st' | (None, st') => (None, st') end.
Proof. done. Qed.

Lemma runL_ret {A} (a : A) st : (mret a : L A) st = (Some a, st).
Proof. done. Qed.

(** Whatever way a stage ends, the assertion holds after it. *)
Definition keepsL (I : main_state * list action → Prop) {A} (m : L A) : Prop := ∀ st, I st → I (m st).2.

Section Keeps.
Context (I : main_state * list action → Prop).

Lemma keepsL_bind {A B} (m : L A) (k : A → L B) :
  keepsL I m → (∀ a, keepsL I (k a)) → keepsL I (m ≫= k).
Proof.
  intros Hm Hk st Hst. rewrite runL_bind. specialize (Hm st Hst). destruct (m st) as [[a|] st']; [by apply Hk|done].
Qed.

Lemma keepsL_ret {A} (a : A) : keepsL I (mret a).
Proof. by intros st. Qed.

Lemma keepsL_get : keepsL I get.
Proof. by intros st. Qed.

Lemma keepsL_fail : keepsL I fail_out.
Proof. by intros st. Qed.
End Keeps.

Create HintDb linkL.
#[export] Hint Resolve keepsL_bind keepsL_ret keepsL_get keepsL_fail : linkL.

Ltac keepsL_tac :=
  repeat (match goal with
          | |- keepsL _ (_ ≫= _) => apply keepsL_bind; [|intros ?]
          | |- keepsL _ (match ?x with _ => _ end) => destruct x
          end || (progress cbv zeta)); eauto with linkL.

Section Proofs.
Context (sur : surroundings).

(** ** Before the work directory exists *)

Definition no_dir (st : main_state * list action) : Prop :=
  g_owd st.1 = "" ∧ ∀ t, A_mkdtemp t ∉ st.2.

Lemma no_dir_modify f : (∀ s, g_owd (f s) = g_owd s) → keepsL no_dir (modify f).
Proof. intros Hf [s acts] [H1 H2]. split; cbn in *; [by rewrite Hf|done]. Qed.

Lemma no_dir_act a : (∀ t, a ≠ A_mkdtemp t) → keepsL no_dir (act a).
Proof.
  intros Ha [s acts] [H1 H2]. split; cbn in *; [done|]. intros t [Hin|Hin%list_elem_of_singleton]%elem_of_app.
  - by apply (H2 t).
  - by apply (Ha t).
Qed.

Lemma no_dir_add field upd x :
  (∀ l s, g_owd (upd l s) = g_owd s) → keepsL no_dir (list_add sur field upd x).
Proof. intros Hu. unfold list_add. keepsL_tac. by apply no_dir_modify. Qed.

Lemma no_dir_option it : keepsL no_dir (option_case sur it).
Proof.
  unfold option_case. keepsL_tac; try (by apply no_dir_modify); try (by apply no_dir_add); by apply no_dir_act.
Qed.

Lemma no_dir_loop items : keepsL no_dir (option_loop sur items).
Proof. induction items as [|it items IH]; cbn; keepsL_tac. apply no_dir_option. Qed.

Lemma no_dir_libs l : keepsL no_dir (add_libs sur l).
Proof. induction l as [|x l IH]; cbn; keepsL_tac. by apply no_dir_add. Qed.

Lemma no_dir_prepare : keepsL no_dir (prepare sur).
Proof.
  unfold prepare. keepsL_tac; try (by apply no_dir_modify); try (by apply no_dir_act). apply no_dir_libs.
Qed.

(** ** Inside the work directory *)

(** Both directories are remembered. *)
Definition in_dir (st : main_state * list action) : Prop :=
  (∀ t d, A_mkdtemp t ∈ st.2 → mkdtemp sur t = Some d → g_wd st.1 = d) ∧
  (∀ t owd, A_mkdtemp t ∈ st.2 → is_Some (mkdtemp sur t) → getcwd sur = Some owd → g_owd st.1 = owd).

Lemma no_dir_in st : no_dir st → in_dir st.
Proof. intros [_ Hn]. split; intros t x Hin; by destruct (Hn t). Qed.

Lemma in_dir_modify f : (∀ s, g_wd (f s) = g_wd s ∧ g_owd (f s) = g_owd s) → keepsL in_dir (modify f).
Proof.
  intros Hf [s acts] [H1 H2]. destruct (Hf s) as [E1 E2].
  split; cbn in *; [by rewrite E1|by rewrite E2].
Qed.

Lemma in_dir_act a : (∀ t, a ≠ A_mkdtemp t) → keepsL in_dir (act a).
Proof.
  intros Ha [s acts] [H1 H2]. split; cbn in *.
  - intros t d [Hin|Hin%list_elem_of_singleton]%elem_of_app; [by apply H1|by destruct (Ha t)].
  - intros t d [Hin|Hin%list_elem_of_singleton]%elem_of_app; [by apply H2|by destruct (Ha t)].
Qed.

(** Making the directory establishes it. *)
Lemma enter_wd_in st : no_dir st → in_dir (enter_wd sur st).2.
Proof.
  destruct st as [s acts]. intros [Ho Hn]. cbn in Ho, Hn. unfold enter_wd.
  rewrite runL_bind. cbn [get fst]. rewrite runL_bind. cbn [act fst snd]. rewrite runL_bind.
  set (acts1 := acts ++ [A_mkdtemp (g_wd s)]).
  assert (∀ t, A_mkdtemp t ∈ acts1 → t = g_wd s) as Honly.
  { intros t [Hin|Hin%list_elem_of_singleton]%elem_of_app; [by destruct (Hn t)|by injection Hin]. }
  destruct (mkdtemp sur (g_wd s)) as [d|] eqn:Ed.
  2:{ split; cbn; [intros t d ->%Honly; intros; congruence|intros t d ->%Honly; rewrite Ed; by intros [? ?]]. }
  cbn [modify fst snd]. rewrite runL_bind. destruct (getcwd sur) as [owd|] eqn:Eo.
  - cbn [modify fst snd]. rewrite runL_bind. cbn [get fst snd]. rewrite runL_bind. cbn [modify fst snd].
    rewrite runL_bind. cbn [act fst snd].
    assert (in_dir (upd_out_bin (out_bin_of owd (tmp_outbin s)) (upd_owd owd (upd_wd d s)), acts1 ++ [A_chdir d])) as Hin.
    { apply (in_dir_act (A_chdir d) ltac:(done) (_, acts1)). split; cbn; [|congruence].
      intros t d' ->%Honly. intros. congruence. }
    by destruct (chdir_ok sur _).
  - rewrite runL_bind. cbn [modify fail_out fst snd]. split; cbn; [intros t d' ->%Honly; intros; congruence|intros; congruence].
Qed.

Lemma in_dir_jobs l : keepsL in_dir (run_jobs sur l).
Proof.
  induction l as [|p l IH]; cbn; [apply keepsL_ret|]. apply keepsL_bind; [|done]. unfold extract_jar_th.
  keepsL_tac; by apply in_dir_act || by apply in_dir_modify.
Qed.

Lemma in_dir_codegen b : keepsL in_dir (codegen sur b).
Proof. unfold codegen. keepsL_tac. by apply in_dir_act. Qed.

Lemma in_dir_build jars : keepsL in_dir (build sur jars).
Proof.
  unfold build. keepsL_tac; try (by apply in_dir_modify); try (by apply in_dir_act);
    apply in_dir_jobs || apply in_dir_codegen.
Qed.

(** The whole body, whatever happens. *)
Lemma main_body_in args ld : in_dir (main_body sur args (main_init ld, [])).2.
Proof.
  unfold main_body. destruct (getopt args) as [items operands].
  assert (no_dir (main_init ld, [])) as H0 by (split; [done|]; intros t; apply not_elem_of_nil).
  rewrite runL_bind. pose proof (no_dir_loop items _ H0) as H1.
  destruct (option_loop sur items _) as [[[]|] st1]; [|by apply no_dir_in].
  rewrite runL_bind. pose proof (no_dir_prepare st1 H1) as H2.
  destruct (prepare sur st1) as [[[]|] st2]; [|by apply no_dir_in].
  rewrite runL_bind. pose proof (enter_wd_in st2 H2) as H3.
  destruct (enter_wd sur st2) as [[[]|] st3]; [|done]. by apply in_dir_build.
Qed.

(** ** What success means *)

(** The error flag after jobs that ran in this order. *)
Definition job_flag (owd : string) (l : list string) (e : Z) : Z :=
  foldl (λ e p, let r := zip_extract sur (jar_file owd p) in if (r =? EXSUCCEED)%Z then e else r) e l.

Definition extracted (owd : string) (p : string) : Prop := zip_extract sur (jar_file owd p) = EXSUCCEED.

Lemma job_flag_fail owd l e : e ≠ EXSUCCEED → job_flag owd l e ≠ EXSUCCEED.
Proof.
  revert e. induction l as [|p l IH]; intros e He; [done|]. cbn. apply IH.
  cbv zeta. by case_match; [|apply Z.eqb_neq].
Qed.

Lemma job_flag_ok owd l : job_flag owd l EXSUCCEED = EXSUCCEED ↔ Forall (extracted owd) l.
Proof.
  induction l as [|p l IH]; [done|]. rewrite Forall_cons, <- IH. unfold extracted. cbn.
  destruct (Z.eqb_spec (zip_extract sur (jar_file owd p)) EXSUCCEED) as [E|E]; [tauto|].
  split; [intros H|tauto]. by apply job_flag_fail in H.
Qed.

Definition extract_actions (owd : string) (l : list string) : list action :=
  (λ p, A_extract (jar_file owd p)) <$> l.

Lemma run_jobs_exact l s acts :
  run_jobs sur l (s, acts) =
  (Some tt, (upd_thpool_error (job_flag (g_owd s) l (g_thpool_error s)) s, acts ++ extract_actions (g_owd s) l)).
Proof.
  revert s acts. induction l as [|p l IH]; intros s acts; cbn [run_jobs].
  { cbn. rewrite app_nil_r. by destruct s. }
  rewrite runL_bind. unfold extract_jar_th. rewrite runL_bind. cbn [get fst snd]. rewrite runL_bind. cbn [act fst snd].
  cbn [job_flag foldl]. cbv zeta. destruct (zip_extract sur (jar_file (g_owd s) p) =? EXSUCCEED)%Z.
  - rewrite runL_ret, IH. by rewrite <- app_assoc.
  - cbn [modify fst snd]. rewrite IH. cbn [upd_thpool_error g_owd g_thpool_error]. by rewrite <- app_assoc.
Qed.

(** The result of the generator for a state. *)
Definition codegen_result (s : main_state) (b : bool) : codegen_out :=
  ndrxj_codegen (cfg_of s) (fopen_ok sur b) (system sur) (class_list sur) (emb_list sur) b.

Lemma run_codegen b s acts :
  codegen sur b (s, acts) =
  (if (co_ret (codegen_result s b) =? EXSUCCEED)%Z then Some tt else None,
   (s, acts ++ [A_codegen b (codegen_result s b)])).
Proof.
  unfold codegen. rewrite runL_bind. cbn [get fst snd]. rewrite runL_bind. cbn [act fst snd].
  fold (codegen_result s b). by destruct (co_ret (codegen_result s b) =? EXSUCCEED)%Z.
Qed.

(** The actions of the build stage when all goes well. *)
Definition build_actions (s : main_state) (jars : list string) : list action :=
  extract_actions (g_owd s) (order sur jars) ++ [A_scan] ++
  (if g_do_test s then [A_codegen true (codegen_result s true)] else []) ++
  [A_codegen false (codegen_result s false)].

Record build_ok (s : main_state) (jars : list string) : Prop := {
  bo_jars : jars ≠ [];
  bo_extracted : Forall (extracted (g_owd s)) jars;
  bo_built : built sur = EXSUCCEED;
  bo_test : g_do_test s = true → co_ret (codegen_result s true) = EXSUCCEED;
  bo_final : co_ret (codegen_result s false) = EXSUCCEED
}.

Lemma codegen_result_flag s e b : codegen_result (upd_thpool_error e s) b = codegen_result s b.
Proof. done. Qed.

(** The build stage succeeds exactly if everything in it does. *)
Lemma run_build s acts jars :
  build_ok s jars →
  build sur jars (s, acts) = (Some tt, (upd_thpool_error EXSUCCEED s, acts ++ build_actions s jars)).
Proof.
  intros [Hj He Hb Ht Hf]. unfold build. rewrite runL_bind. cbn [modify fst snd]. rewrite runL_bind, run_jobs_exact.
  cbn [g_owd g_thpool_error upd_thpool_error fst snd]. rewrite (proj2 (job_flag_ok _ _)) by by rewrite order_runs_all.
  rewrite runL_bind. cbn [get fst snd]. rewrite runL_bind. destruct jars as [|j jars]; [done|].
  cbn [g_thpool_error g_do_test upd_thpool_error]. rewrite Z.eqb_refl. rewrite runL_ret, runL_bind. cbn [act fst snd].
  rewrite runL_bind, Hb, Z.eqb_refl. rewrite runL_ret, runL_bind. rewrite runL_ret, runL_bind.
  unfold build_actions. destruct (g_do_test s).
  - rewrite run_codegen, !codegen_result_flag, Ht, Z.eqb_refl by done. rewrite run_codegen, !codegen_result_flag, Hf.
    cbn. by rewrite <- !app_assoc.
  - rewrite runL_ret, run_codegen, !codegen_result_flag, Hf. cbn. by rewrite <- !app_assoc.
Qed.

Lemma build_success s acts jars st' :
  build sur jars (s, acts) = (Some tt, st') → build_ok s jars.
Proof.
  unfold build. rewrite runL_bind. cbn [modify fst snd]. rewrite runL_bind, run_jobs_exact.
  cbn [g_owd g_thpool_error upd_thpool_error fst snd].
  rewrite runL_bind. cbn [get fst snd]. rewrite runL_bind.
  destruct jars as [|j jars].
  { rewrite runL_ret, runL_bind. cbn [act fst snd]. rewrite runL_bind.
    by destruct (built sur =? EXSUCCEED)%Z. }
  cbn [g_thpool_error upd_thpool_error g_do_test].
  destruct (Z.eqb_spec (job_flag (g_owd s) (order sur (j :: jars)) EXSUCCEED) EXSUCCEED) as [Ef|]; [|done].
  rewrite runL_ret, runL_bind. cbn [act fst snd]. rewrite runL_bind.
  destruct (Z.eqb_spec (built sur) EXSUCCEED) as [Eb|]; [|done].
  rewrite runL_ret, runL_bind. rewrite runL_ret, runL_bind. intros H.
  apply job_flag_ok in Ef. rewrite order_runs_all in Ef.
  assert (g_do_test s = true → co_ret (codegen_result s true) = EXSUCCEED) as Ht.
  { intros E. rewrite E, run_codegen, !codegen_result_flag in H.
    by destruct (Z.eqb_spec (co_ret (codegen_result s true)) EXSUCCEED). }
  constructor; try done.
  destruct (g_do_test s); [rewrite run_codegen, !codegen_result_flag, Ht, Z.eqb_refl in H by done|rewrite runL_ret in H];
    rewrite run_codegen, !codegen_result_flag in H; by destruct (Z.eqb_spec (co_ret (codegen_result s false)) EXSUCCEED).
Qed.

(** No stage changes the main class after the check. *)
Definition main_class_is (c : string) (st : main_state * list action) : Prop := g_main_class st.1 = c.

Lemma main_class_modify c f : (∀ s, g_main_class (f s) = g_main_class s) → keepsL (main_class_is c) (modify f).
Proof. intros Hf [s acts] H. unfold main_class_is in *. cbn in *. by rewrite Hf. Qed.

Lemma main_class_act c a : keepsL (main_class_is c) (act a).
Proof. by intros [s acts]. Qed.

Lemma main_class_add c field upd x :
  (∀ l s, g_main_class (upd l s) = g_main_class s) → keepsL (main_class_is c) (list_add sur field upd x).
Proof.
  intros Hu. unfold list_add. keepsL_tac. by apply main_class_modify.
Qed.

Lemma main_class_libs c l : keepsL (main_class_is c) (add_libs sur l).
Proof. induction l as [|x l IH]; cbn; keepsL_tac. by apply main_class_add. Qed.

Lemma enter_main_class st r st' : enter_wd sur st = (r, st') → g_main_class st'.1 = g_main_class st.1.
Proof.
  intros E. assert (keepsL (main_class_is (g_main_class st.1)) (enter_wd sur)) as Hk.
  { unfold enter_wd. keepsL_tac; try (by apply main_class_modify); apply main_class_act. }
  specialize (Hk st eq_refl). by rewrite E in Hk.
Qed.

Lemma prepare_main_class st st' : prepare sur st = (Some tt, st') → g_main_class st'.1 ≠ "".
Proof.
  unfold prepare. rewrite runL_bind. cbn [get fst snd]. rewrite runL_bind. destruct st as [s acts]. cbn [fst].
  destruct (String.eqb_spec (g_main_class s) "") as [|Hne]; [done|]. rewrite runL_ret. intros E.
  match type of E with ?m _ = _ => assert (keepsL (main_class_is (g_main_class s)) m) as Hk end.
  { keepsL_tac; try (by apply main_class_modify); apply main_class_libs || apply main_class_act. }
  specialize (Hk (s, acts) eq_refl). rewrite E in Hk. unfold main_class_is in Hk. cbn in Hk. congruence.
Qed.
End Proofs.

(** ** Command lines *)

(** A command line as options and jars in any order. *)
Inductive token := TOpt (it : opt_item) | TJar (jar : string).

Definition render_opt (it : opt_item) : list string :=
  match it with
  | OptArg c a => [String "-" (String c EmptyString); a]
  | OptFlag c | OptBad c => [String "-" (String c EmptyString)]
  end.

Definition render (toks : list token) : list string :=
  concat ((λ t, match t with TOpt it => render_opt it | TJar j => [j] end) <$> toks).

Definition toks_opts (toks : list token) : list opt_item :=
  omap (λ t, match t with TOpt it => Some it | TJar _ => None end) toks.
Definition toks_jars (toks : list token) : list string :=
  omap (λ t, match t with TOpt _ => None | TJar j => Some j end) toks.

(** An operand does not look like an option. *)
Definition operand_ok (j : string) : bool :=
  match j with String "-" (String _ _) => false | _ => true end.

(** The options that configure, with a positive number of jobs. *)
Definition ARG_OPTIONS : list ascii := ["m"; "o"; "L"; "l"; "b"; "t"; "I"; "j"]%char.
Definition FLAG_OPTIONS : list ascii := ["n"; "k"]%char.

Definition accepted (it : opt_item) : bool :=
  match it with
  | OptArg c a => bool_decide (c ∈ ARG_OPTIONS) && (negb (Ascii.eqb c "j") || (0 <? atoi a)%Z)
  | OptFlag c => bool_decide (c ∈ FLAG_OPTIONS)
  | OptBad _ => false
  end.

Definition token_ok (t : token) : bool :=
  match t with TOpt it => accepted it | TJar j => operand_ok j end.

Ltac split_elem H :=
  lazymatch type of H with
  | _ ∈ _ :: _ => apply elem_of_cons in H as [H|H]; [subst|split_elem H]
  | _ ∈ [] => by apply elem_of_nil in H
  end.

(** Split an accepted option into its cases. *)
Ltac accepted_cases it H :=
  destruct it as [c a|c|c]; cbn in H; [apply andb_prop_elim in H as [H Hj]| |done];
  apply bool_decide_unpack in H; unfold ARG_OPTIONS, FLAG_OPTIONS in H; split_elem H.

Lemma getopt_option it rest :
  accepted it →
  getopt (render_opt it ++ rest) = (it :: (getopt rest).1, (getopt rest).2).
Proof. intros H. accepted_cases it H; cbn; by destruct (getopt rest). Qed.

Lemma getopt_operand j rest :
  operand_ok j → getopt (j :: rest) = ((getopt rest).1, j :: (getopt rest).2).
Proof.
  intros Hj. destruct (getopt rest) as [items ops] eqn:E. destruct j as [|c s]; cbn [getopt]; [by rewrite E|].
  destruct s as [|d s].
  - destruct c as [[] [] [] [] [] [] [] []]; by rewrite E.
  - destruct c as [[] [] [] [] [] [] [] []]; try (by rewrite E); done.
Qed.

(** The scanner returns the options and the jars, each in order. *)
Lemma getopt_render toks :
  Forall token_ok toks → getopt (render toks) = (toks_opts toks, toks_jars toks).
Proof.
  induction 1 as [|t toks Ht _ IH]; [done|]. unfold render in *. cbn [fmap list_fmap concat].
  destruct t as [it|j]; cbn [token_ok] in Ht.
  - rewrite getopt_option by done. by rewrite IH.
  - change ([j] ++ ?l) with (j :: l). cbn [app]. rewrite getopt_operand by done. by rewrite IH.
Qed.

(** *** What the options mean *)

Definition args_of (c : ascii) (items : list opt_item) : list string :=
  omap (λ it, match it with OptArg d a => if Ascii.eqb c d then Some a else None | _ => None end) items.
Definition flag_in (c : ascii) (items : list opt_item) : bool :=
  existsb (λ it, match it with OptFlag d => Ascii.eqb c d | _ => false end) items.

Definition last_or {A} (f : string → A) (x : A) (l : list string) : A :=
  match last l with Some a => f a | None => x end.

(** [LD_LIBRARY_PATH] after the [-L] options. *)
Definition ld_after (ld : option string) (l : list string) : option string :=
  foldl (λ ld a, Some (strcpy_safe PATH_MAX (match ld with Some env => env +:+ ":" +:+ a | None => a end))) ld l.

(** The configuration of a list of options. *)
Definition configured (s : main_state) (items : list opt_item) : main_state :=
  MainState
    (last_or (strcpy_safe BUFSZ) (g_build_cmd s) (args_of "b" items))
    (g_do_test s && negb (flag_in "n" items))
    (last_or (strcpy_safe BUFSZ) (g_main_class s) (args_of "m" items))
    (g_out_bin s)
    (last_or (λ a, strcpy_safe BUFSZ (a +:+ "/" +:+ TEMPDIR_MASK)) (g_wd s) (args_of "t" items))
    (g_owd s)
    (g_libpath s ++ args_of "L" items) (g_incpath s ++ args_of "I" items) (g_libs s ++ args_of "l" items)
    (g_keep_temp s || flag_in "k" items)
    (g_thpool s) (g_thpool_error s)
    (last_or (strcpy_safe PATH_MAX) (tmp_outbin s) (args_of "o" items))
    (last_or atoi (jobs s) (args_of "j" items))
    (ld_after (ld_library_path s) (args_of "L" items)).

Lemma last_or_cons {A} (f : string → A) x a l : last_or f x (a :: l) = last_or f (f a) l.
Proof. unfold last_or. destruct l as [|b l]; [done|]. cbn [last]. by destruct (last (b :: l)) eqn:E; [|apply last_None in E]. Qed.

Section Options.
Context (sur : surroundings).
Hypothesis appends : ∀ l x, string_list_add sur l x = Some (l ++ [x]).

Lemma run_list_add field upd x s acts :
  list_add sur field upd x (s, acts) = (Some tt, (upd (field s ++ [x]) s, acts)).
Proof. unfold list_add. rewrite runL_bind. cbn [get fst snd]. by rewrite appends. Qed.

(** One accepted option. *)
Lemma run_option it s acts :
  accepted it → option_case sur it (s, acts) = (Some tt, (configured s [it], acts)).
Proof.
  intros H. accepted_cases it H; cbn [option_case]; rewrite ?run_list_add;
    unfold configured; cbn; rewrite ?app_nil_r, ?andb_true_r, ?andb_false_r, ?orb_false_r, ?orb_true_r; try done.
  - rewrite runL_bind. cbn [get fst snd]. rewrite runL_bind. cbn [modify fst snd]. rewrite run_list_add.
    by destruct (ld_library_path s).
  - cbn in Hj. by destruct (0 <? atoi a)%Z.
Qed.

Lemma configured_cons s it items :
  accepted it → configured (configured s [it]) items = configured s (it :: items).
Proof.
  intros H. accepted_cases it H; unfold configured; cbn; rewrite ?last_or_cons, ?app_nil_r, <- ?app_assoc;
    try done; by rewrite ?andb_false_r, ?andb_true_r, ?orb_true_r, ?orb_false_r.
Qed.

Lemma configured_nil s : configured s [] = s.
Proof. destruct s. unfold configured. cbn. by rewrite !app_nil_r, andb_true_r, orb_false_r. Qed.

Lemma run_options items s acts :
  Forall accepted items → option_loop sur items (s, acts) = (Some tt, (configured s items, acts)).
Proof.
  intros H. revert s. induction H as [|it items Hit _ IH]; intros s; cbn [option_loop].
  { by rewrite configured_nil. }
  rewrite runL_bind, run_option, IH by done. by rewrite configured_cons.
Qed.

Lemma run_add_libs l s acts : add_libs sur l (s, acts) = (Some tt, (upd_libs (g_libs s ++ l) s, acts)).
Proof.
  revert s. induction l as [|x l IH]; intros s; cbn [add_libs]; [rewrite app_nil_r; by destruct s|].
  rewrite runL_bind, run_list_add, IH. cbn. by rewrite <- app_assoc.
Qed.

(** The template of the work directory. *)
Definition template_of (wd : string) : string :=
  if String.eqb wd "" then strcpy_safe BUFSZ ("./" +:+ TEMPDIR_MASK) else wd.

(** The state when the build begins. *)
Definition entered (s : main_state) (d owd : string) : main_state :=
  MainState (g_build_cmd s) (g_do_test s) (g_main_class s) (out_bin_of owd (tmp_outbin s)) d owd
    (g_libpath s) (g_incpath s) (match g_libs s with [] => DEFAULT_LIBS | l => l end)
    (g_keep_temp s) true (g_thpool_error s) (tmp_outbin s) (jobs s) (ld_library_path s).

Lemma run_prepare_enter s acts d owd :
  g_main_class s ≠ "" → thpool_init_ok sur = true → mkdtemp sur (template_of (g_wd s)) = Some d →
  getcwd sur = Some owd → chdir_ok sur d = true →
  (prepare sur;; enter_wd sur) (s, acts) =
  (Some tt, (entered s d owd, acts ++ [A_pool (jobs s); A_mkdtemp (template_of (g_wd s)); A_chdir d])).
Proof.
  intros Hm Hp Hd Ho Hc. rewrite runL_bind. unfold prepare. rewrite runL_bind. cbn [get fst snd]. rewrite runL_bind.
  rewrite (proj2 (String.eqb_neq _ _) Hm), runL_ret, runL_bind.
  set (s1 := upd_libs (match g_libs s with [] => DEFAULT_LIBS | l => l end) s).
  assert ((match g_libs s with [] => add_libs sur DEFAULT_LIBS | _ => mret tt end) (s, acts) = (Some tt, (s1, acts))) as ->.
  { unfold s1. destruct (g_libs s) eqn:E; [rewrite run_add_libs, E; done|]. rewrite <- E. by destruct s. }
  rewrite runL_bind. cbn [get fst snd]. rewrite runL_bind. cbn [act fst snd]. rewrite runL_bind, Hp. cbn [modify fst snd].
  unfold template_of in *. change (g_wd s1) with (g_wd s). change (jobs s1) with (jobs s).
  set (s2 := upd_wd (if String.eqb (g_wd s) "" then strcpy_safe BUFSZ ("./" +:+ TEMPDIR_MASK) else g_wd s) (upd_thpool true s1)).
  assert ((if String.eqb (g_wd s) "" then modify (upd_wd (strcpy_safe BUFSZ ("./" +:+ TEMPDIR_MASK))) else mret tt)
            (upd_thpool true s1, acts ++ [A_pool (jobs s)]) = (Some tt, (s2, acts ++ [A_pool (jobs s)]))) as ->.
  { unfold s2. by destruct (String.eqb (g_wd s) ""). }
  unfold enter_wd. rewrite runL_bind. cbn [get fst snd]. rewrite runL_bind. cbn [act fst snd]. rewrite runL_bind.
  unfold s2. cbn [g_wd upd_wd]. rewrite Hd. cbn [modify fst snd]. rewrite runL_bind, Ho. cbn [modify fst snd].
  rewrite runL_bind. cbn [get fst snd]. rewrite runL_bind. cbn [modify fst snd]. rewrite runL_bind. cbn [act fst snd].
  cbn [g_wd upd_wd upd_owd]. rewrite Hc, runL_ret, <- !app_assoc. done.
Qed.

(** A command line whose stages all succeed. *)
Lemma run_main_body toks s d owd :
  Forall token_ok toks → let s1 := configured s (toks_opts toks) in
  g_main_class s1 ≠ "" → thpool_init_ok sur = true → mkdtemp sur (template_of (g_wd s1)) = Some d →
  getcwd sur = Some owd → chdir_ok sur d = true → build_ok sur (entered s1 d owd) (toks_jars toks) →
  main_body sur (render toks) (s, []) =
  (Some tt, (upd_thpool_error EXSUCCEED (entered s1 d owd),
   [A_pool (jobs s1); A_mkdtemp (template_of (g_wd s1)); A_chdir d] ++ build_actions sur (entered s1 d owd) (toks_jars toks))).
Proof.
  cbv zeta. intros Htok Hm Hp Hd Ho Hc Hb. unfold main_body. rewrite getopt_render by done.
  assert (Hacc : Forall accepted (toks_opts toks)).
  { clear -Htok. induction Htok as [|[it|j] toks Ht _ IH]; cbn; [done|by constructor|done]. }
  rewrite runL_bind, run_options by done.
  pose proof (run_prepare_enter _ [] d owd Hm Hp Hd Ho Hc) as Hpe. rewrite runL_bind in Hpe.
  rewrite runL_bind. destruct (prepare sur _) as [[[]|] st]; [|done]. by rewrite runL_bind, Hpe, run_build.
Qed.
End Options.
