(* ===== verification/LinkChain.v ===== *)
(** * From jars to the running program

    The parts of the linker one after the other: the jars unpacked by the pool
    ([Unpacked]), the scan of what they left ([FindClasses]), the tables ([LinkLoad]), the
    main program that drives it ([LinkMain]), and the start of the binary ([Boot]). *)
From stdpp Require Import sorting strings gmap list numbers.
From Stdlib Require Import Ascii.
From S2P Require Import Prelude CString Resources ResourcesProofs FindClasses Codegen CodegenProofs.
From S2P Require Import Jni ClassIndex LinkLoad LinkMain LinkMainProofs.
From S2P Require Import FileSys ZipReader ZipCrc Unzip ZipFormat UnzipProofs Unpacked.
Local Open Scope Z_scope.

(** ** The scan of a tree *)

(** What [nftw] with FTW_PHYS says of a node, and the path it gives. *)
Definition typeflag_of (n : node) : typeflag :=
  match n with File _ _ => FTW_F | Dir _ => FTW_D | Link _ => FTW_OTHER end.

Definition ftw_path (r : list string) : string :=
  match r with [] => "." | _ => dot_slash (join_path r) end.

(** The include files the workers write into the same directory while the walk goes on. *)
Definition generated (path : string) : Prop :=
  ∃ h n, path = dot_slash (pfx_of h +:+ "_" +:+ print_int n +:+ ".cinclude") ∧ 0 ≤ n ≤ INT_MAX.

(** Every node from the directory down is met once, in some order; include files that
    appear meanwhile may be met too. *)
Record nftw_meets (sys : system_env) (f : tree) (entries : list (string * typeflag)) : Prop := {
  nm_once : NoDup entries.*1;
  nm_all : ∀ r n, f !! (cwd sys ++ r) = Some n → (ftw_path r, typeflag_of n) ∈ entries;
  nm_only : ∀ path tf, (path, tf) ∈ entries →
    (∃ r n, f !! (cwd sys ++ r) = Some n ∧ path = ftw_path r ∧ tf = typeflag_of n) ∨ generated path ∧ tf = FTW_F
}.

(** The bytes a path names. *)
Definition file_bytes (sys : system_env) (f : tree) (path : string) : list Z :=
  match resolve f (cwd sys) true path with
  | Some k => match f !! k with Some (File b _) => b | _ => [] end
  | None => []
  end.

(** *** Names of include files *)

Lemma dec_go_length fuel z acc : (String.length (dec_go fuel z acc) ≤ fuel + String.length acc)%nat.
Proof.
  revert z acc. induction fuel as [|fuel IH]; intros z acc; cbn [dec_go]; [lia|]. destruct (_ <? 10); [cbn; lia|].
  specialize (IH (z `div` 10) (String (digit (z `mod` 10)) acc)). cbn in IH. lia.
Qed.

Lemma print_int_length n : 0 ≤ n ≤ INT_MAX → (String.length (print_int n) ≤ 32)%nat.
Proof.
  intros Hn. unfold print_int, print_nonneg. rewrite (proj2 (Z.ltb_ge _ _)) by lia.
  pose proof (dec_go_length (S (Z.to_nat (Z.log2 n))) n "") as H. cbn [String.length] in H.
  pose proof (Z.log2_le_mono n INT_MAX ltac:(lia)) as Hl. change (Z.log2 INT_MAX) with 30 in Hl. lia.
Qed.

Lemma no_char_nul_free s : no_char (ascii_of_N 0) s → nul_free s.
Proof.
  induction s as [|c s IH]; [done|]. cbn [no_char nul_free]. rewrite !andb_True. intros [Hc Hs]. split; [|auto].
  destruct (Z.eqb_spec (byte c) 0) as [E|]; [|done]. rewrite <-(byte_ascii c), E in Hc. done.
Qed.

Lemma generated_wf path : generated path → ∃ rel, wf_path path ndrx_G_emb_res_hash rel.
Proof.
  intros (h & n & -> & Hn). exists (pfx_of h +:+ "_" +:+ print_int n +:+ ".cinclude"). constructor; [by destruct h| |].
  - unfold is_class_file. set (s := dot_slash _).
    assert (s = dot_slash (pfx_of h +:+ "_" +:+ print_int n +:+ ".ci") +:+ "nclude") as -> by (unfold s; by rewrite app_dot_slash, !string_app_assoc).
    rewrite string_length_app. cbn [String.length]. rewrite Nat.add_sub, drop_str_app. by rewrite andb_false_r.
  - rewrite !string_length_app. pose proof (print_int_length n Hn). unfold PATH_MAX. destruct h; cbn [pfx_of String.length]; lia.
Qed.

Lemma generated_nul_free path : generated path → nul_free path.
Proof.
  intros (h & n & -> & Hn). cbn [dot_slash nul_free]. rewrite !nul_free_app.
  pose proof (no_char_nul_free _ (print_int_no_char (ascii_of_N 0) n ltac:(done))) as Hp.
  destruct h; cbn; by rewrite ?andb_true_r.
Qed.

(** No class is generated. *)
Lemma generated_no_class path n : generated path → ¬ wf_path path ndrx_G_classes_hash n.
Proof.
  intros (rel & Hr)%generated_wf Hc. apply wf_path_name in Hr, Hc. rewrite Hr in Hc. done.
Qed.

(** The entry of a jar that is the file of a path. *)
Definition jar_has (js : list jar) (path : string) (e : zentry) : Prop :=
  ∃ j, j ∈ js ∧ e ∈ j_entries j ∧ z_isdir e = false ∧ path = ftw_path (z_path e).

Lemma ftw_below r : r ≠ [] → ftw_path r = below r "".
Proof. unfold below. rewrite string_app_nil_r. by destruct r. Qed.

(** *** A listing there always is *)

Fixpoint strip_prefix (p k : list string) : option (list string) :=
  match p, k with
  | [], _ => Some k
  | c :: p', d :: k' => if String.eqb c d then strip_prefix p' k' else None
  | _ :: _, [] => None
  end.

Lemma strip_prefix_some p k r : strip_prefix p k = Some r ↔ k = p ++ r.
Proof.
  revert k. induction p as [|c p IH]; intros k; cbn; [naive_solver|].
  destruct k as [|d k]; [naive_solver|]. destruct (String.eqb_spec c d) as [->|Hne]; [rewrite IH|]; naive_solver.
Qed.

Definition listed (sys : system_env) (kn : list string * node) : option (string * typeflag) :=
  r ← strip_prefix (cwd sys) kn.1; Some (ftw_path r, typeflag_of kn.2).

Definition listing (sys : system_env) (f : tree) : list (string * typeflag) := omap (listed sys) (map_to_list f).

Lemma ftw_path_split r : Forall (λ c, plain c) r → split_path (ftw_path r) = "."%string :: r.
Proof.
  intros Hr. destruct (decide (r = [])) as [->|Hne]; [done|]. rewrite ftw_below by done. apply split_below; [done|by left].
Qed.

Lemma listing_only sys f path tf :
  (path, tf) ∈ listing sys f → ∃ r n, f !! (cwd sys ++ r) = Some n ∧ path = ftw_path r ∧ tf = typeflag_of n.
Proof.
  unfold listing. rewrite list_elem_of_omap. intros ([k n] & Hin%elem_of_map_to_list & E).
  unfold listed in E. cbn [fst snd] in E. destruct (strip_prefix (cwd sys) k) as [r|] eqn:Er; [|done].
  apply strip_prefix_some in Er as ->. injection E as <- <-. by exists r, n.
Qed.

Lemma listing_meets sys f :
  (∀ r n, f !! (cwd sys ++ r) = Some n → Forall (λ c, plain c) r) → nftw_meets sys f (listing sys f).
Proof.
  intros Hplain. split.
  - unfold listing. pose proof (NoDup_fst_map_to_list f) as Hnd.
    assert (Hf : ∀ k n, (k, n) ∈ map_to_list f → f !! k = Some n) by (intros k n; apply elem_of_map_to_list).
    induction (map_to_list f) as [|[k n] l IH]; [constructor|]. apply NoDup_cons in Hnd as [Hn Hnd].
    cbn [omap list_omap]. unfold listed at 1. cbn [fst snd].
    assert (Hl : ∀ k n, (k, n) ∈ l → f !! k = Some n) by (intros k' n' ?; apply Hf; by right).
    destruct (strip_prefix (cwd sys) k) as [r|] eqn:Er; cbn; [|auto]. constructor; [|auto].
    apply strip_prefix_some in Er as ->.
    intros ([p tf] & Hp & ([k' n'] & Hin & E)%list_elem_of_omap)%list_elem_of_fmap. unfold listed in E. cbn [fst snd] in E, Hp.
    destruct (strip_prefix (cwd sys) k') as [r'|] eqn:Er'; [|done]. apply strip_prefix_some in Er' as ->. injection E as <- _.
    apply (f_equal split_path) in Hp. rewrite !ftw_path_split in Hp by (eapply Hplain, Hf; (by left) || (by right)).
    injection Hp as ->. apply Hn. by apply (list_elem_of_fmap_2 fst) in Hin.
  - intros r n Hf. unfold listing. rewrite list_elem_of_omap. exists (cwd sys ++ r, n). rewrite elem_of_map_to_list.
    split; [done|]. unfold listed. cbn [fst snd]. by rewrite (proj2 (strip_prefix_some (cwd sys) _ r) eq_refl).
  - intros path tf H%listing_only. by left.
Qed.

Lemma NoDup_entry_files (entries : list (string * typeflag)) : NoDup entries.*1 → NoDup (entry_files entries).
Proof.
  intros Hnd. unfold entry_files. induction entries as [|[p tf] l IH]; [constructor|].
  apply NoDup_cons in Hnd as [Hn Hnd]. rewrite filter_cons. case_decide; [|auto]. cbn. constructor; [|auto].
  intros ([p' tf'] & -> & [_ Hin]%list_elem_of_filter)%list_elem_of_fmap. apply Hn.
  by apply (list_elem_of_fmap_2 fst) in Hin.
Qed.

Section Scan.
Context (sys : system_env) (js : list jar) (f0 f : tree) (entries : list (string * typeflag)).
Hypothesis Hok : jars_ok js.
Hypothesis Hready : ready sys js f0.
Hypothesis Hun : unpacked sys js f0 f.
Hypothesis Hscan : nftw_meets sys f entries.

Lemma entry_plain j e : j ∈ js → e ∈ j_entries j → z_path e ≠ [] ∧ Forall (λ c, plain c) (z_path e) ∧ len (z_data e) < 0xFFFFFFFF.
Proof.
  intros Hj He. destruct (jars_facts js Hok) as (Hf & _). specialize (Hf j Hj) as [Hes _ _ _ _].
  rewrite Forall_forall in Hes. specialize (Hes e He). split_and!; apply Hes.
Qed.

Lemma scan_root : is_dir (f !! cwd sys).
Proof.
  destruct Hun, Hready. rewrite up_outside; [done|]. intros r Hr E. by apply (wd_ne sys r).
Qed.

(** The files of the jars are met, and nothing else but include files. *)
Lemma scan_jars path e : jar_has js path e → path ∈ entry_files entries.
Proof.
  intros (j & Hj & He & Hd & ->). apply list_elem_of_fmap. exists (ftw_path (z_path e), FTW_F). split; [done|].
  apply list_elem_of_filter. split; [done|]. apply (nm_all _ _ _ Hscan (z_path e) (File (z_data e) (file_mode e))). by eapply up_files.
Qed.

Lemma tree_jars r b m : f !! (cwd sys ++ r) = Some (File b m) → ∃ e, jar_has js (ftw_path r) e.
Proof.
  intros Hn. assert (Hr : r ≠ []).
  { intros ->. rewrite app_nil_r in Hn. pose proof scan_root as Hd. by rewrite Hn in Hd. }
  destruct (decide (r ∈ all_files js)) as [Hfile|Hnf].
  - apply files_elem in Hfile as (j & e & Hj & He & Hd & ->). exists e, j. done.
  - destruct (decide (r ∈ all_dirs js)) as [Hdir|Hnd].
    + pose proof (up_dirs _ _ _ _ Hun r Hdir) as Hd. by rewrite Hn in Hd.
    + by rewrite (up_only _ _ _ _ Hun r Hr Hnf Hnd) in Hn.
Qed.

Lemma scan_files path : path ∈ entry_files entries → (∃ e, jar_has js path e) ∨ generated path.
Proof.
  unfold entry_files. rewrite list_elem_of_fmap. intros ([path' tf] & -> & [Htf Hin]%list_elem_of_filter). cbn in Htf |- *. subst tf.
  apply (nm_only _ _ _ Hscan) in Hin as [(r & n & Hn & -> & Htf)|[Hg _]]; [|by right]. left. destruct n as [m|b m|t]; try done.
  by eapply tree_jars.
Qed.

Lemma scan_NoDup : NoDup (entry_files entries).
Proof. by eapply NoDup_entry_files, nm_once. Qed.

Lemma dot_slash_nul rel : nul_free rel → nul_free (dot_slash rel).
Proof. done. Qed.

Lemma scan_nul_free path : path ∈ entry_files entries → nul_free path.
Proof.
  intros [(e & j & Hj & He & Hd & ->)|Hg]%scan_files; [|by apply generated_nul_free].
  destruct (entry_plain j e Hj He) as (Hne & Hp & _). unfold ftw_path. destruct (z_path e) as [|c l]; [done|]. by apply dot_slash_nul, join_nul_free.
Qed.

(** Reading a file the scan met gives the contents of its entry. *)
Lemma scan_bytes path e : jar_has js path e → file_bytes sys f path = z_data e.
Proof.
  intros (j & Hj & He & Hd & ->). destruct (entry_plain j e Hj He) as (Hne & Hp & _).
  pose proof (up_files _ _ _ _ Hun j e Hj He Hd) as Hf. unfold file_bytes. rewrite ftw_below by done.
  rewrite (resolve_below f (cwd sys) true (z_path e) ""); [by rewrite Hf|done|by left| |by rewrite Hf].
  intros l1 l2 E H1 H2. apply (up_dirs _ _ _ _ Hun), dirs_elem. exists j, e, l2. split_and!; auto.
Qed.

(** What was unpacked has a listing. *)
Lemma unpacked_listing : nftw_meets sys f (listing sys f).
Proof.
  apply listing_meets. intros r n Hr. destruct (decide (r = [])) as [->|Hne]; [done|].
  destruct (decide (r ∈ all_files js)) as [(j & e & Hj & He & _ & ->)%files_elem|Hf]; [by eapply entry_plain|].
  destruct (decide (r ∈ all_dirs js)) as [(j & e & l & Hj & He & E & _)%dirs_elem|Hd].
  - destruct (entry_plain j e Hj He) as (_ & Hp & _). rewrite E in Hp. by apply Forall_app in Hp as [Hp _].
  - by rewrite (up_only _ _ _ _ Hun r Hne Hf Hd) in Hr.
Qed.

Lemma listing_count : (length (entry_files (listing sys f)) ≤ length (all_files js))%nat.
Proof.
  rewrite <-(length_fmap ftw_path (all_files js)). apply submseteq_length, NoDup_submseteq.
  { apply (NoDup_entry_files (listing sys f)), (nm_once _ _ _ unpacked_listing). }
  intros path ([path' tf] & -> & [Htf (r & [m|b m|t] & Hn & -> & E)%listing_only]%list_elem_of_filter)%list_elem_of_fmap;
    cbn in Htf, E |- *; try by subst.
  destruct (tree_jars r b m Hn) as (e & j & Hj & He & Hd & ->). apply list_elem_of_fmap_2, files_elem. by exists j, e.
Qed.
End Scan.

(** ** The linker's run *)

(** Names the class loader can use, none of them that of an include file, and sizes the
    tables can hold. *)
Record linkable (js : list jar) : Prop := {
  lk_name : ∀ path e, jar_has js path e → ∃ h n, wf_path path h n;
  lk_apart : ∀ path e, jar_has js path e → ¬ generated path;
  lk_size : ∀ path e, jar_has js path e → len (z_data e) ≤ INT_MAX
}.

(** What the generator finds in the files the walk met: the files of the jars as they were
    unpacked, and anything in the include files; all of a size, and not more of them, than
    the tables can hold. *)
Record linked_bytes (sys : system_env) (js : list jar) (f : tree) (entries : list (string * typeflag)) (bytes : string → list Z) : Prop := {
  lb_jars : ∀ path e, jar_has js path e → bytes path = file_bytes sys f path;
  lb_size : ∀ path, generated path → Z.of_nat (length (bytes path)) ≤ INT_MAX;
  lb_count : Z.of_nat (length (entry_files entries)) ≤ 2 ^ 30
}.

(** The surroundings of the main program answer what the parts do: the pool [w] after all
    jobs on the jars [js], and the hashes [g] and the result [r] of the scan. *)
Record plays `{ExHash} (sur : surroundings) (js : list jar) (w : crew (read Z)) (g : gstate) (r : Z) : Prop := {
  pl_zip : ∀ i j st, js !! i = Some j → w.1 !! i = Some (Ret (Got st)) → LinkMain.zip_extract sur (j_file j) = st;
  pl_built : built sur = r;
  pl_classes : ∀ l, hash_elems g ndrx_G_classes_hash = Some l → class_list sur = exljd_res_sort_by_resname l;
  pl_embs : ∀ l, hash_elems g ndrx_G_emb_res_hash = Some l → emb_list sur = exljd_res_sort_by_resname l
}.

(** Rows for the files that go into one hash: each once, sorted by name. *)
Record rows_of (files : string → Prop) (h : hash_head) (rows : list exjld_resource_t) : Prop := {
  ro_sorted : Sorted (λ a b, resname_sort a b ≤ 0) rows;
  ro_once : NoDup (resname <$> rows);
  ro_files : ∀ path n, (∃ x, x ∈ rows ∧ respath x = path ∧ resname x = n) ↔ files path ∧ wf_path path h n
}.

Definition in_jars (js : list jar) (path : string) : Prop := ∃ e, jar_has js path e.

Section Chain.
Context `{Inflator} {HI : InflatorLaws} (alloc : Z → bool) (sys : system_env) (js : list jar) (f0 : tree).
Hypothesis memory : ∀ n, alloc n = true.
Hypothesis grants : ∀ c, refuses sys c = false.
Hypothesis Hok : jars_ok js.
Hypothesis streams : ∀ j e, j ∈ js → e ∈ j_entries j → z_isdir e = false → z_method e = MZ_DEFLATED →
  inflates (z_stream e) (z_data e).
Hypothesis Hready : ready sys js f0.
Hypothesis Hlink : linkable js.
Context (w : crew (read Z)) (entries : list (string * typeflag)).
Hypothesis Hrun : rtc (crew_step sys) (jobs_start alloc js f0) w.
Hypothesis Hdone : crew_done w.
Hypothesis Hscan : nftw_meets sys w.2 entries.

Lemma chain_unpacked : unpacked sys js f0 w.2.
Proof. by eapply jobs_unpack. Qed.

Lemma chain_status i j : js !! i = Some j → w.1 !! i = Some (Ret (Got 0)).
Proof.
  intros Hj. destruct (jobs_unpack alloc sys js f0 memory grants Hok streams Hready w Hrun Hdone) as (Hlen & Hret & _).
  destruct (lookup_lt_is_Some_2 w.1 i) as [p Hp]; [rewrite Hlen; by eapply lookup_lt_Some|].
  rewrite Hp, (Hret p); [done|by eapply list_elem_of_lookup_2].
Qed.

Lemma chain_wf : wf_entries entries.
Proof.
  split; [by eapply scan_NoDup|]. intros path Hp. eapply scan_files in Hp as [[e He]|Hg]; [by eapply lk_name| |done|exact chain_unpacked|done].
  destruct (generated_wf path Hg) as [rel Hw]. by eexists _, _.
Qed.

Context (bytes : string → list Z).
Hypothesis Hbytes : linked_bytes sys js w.2 entries bytes.

Lemma chain_bytes path e : jar_has js path e → bytes path = z_data e.
Proof.
  intros He. rewrite (lb_jars _ _ _ _ _ Hbytes path e He). by apply (scan_bytes sys js f0 w.2 Hok chain_unpacked).
Qed.

Lemma chain_size path : path ∈ entry_files entries → Z.of_nat (length (bytes path)) ≤ INT_MAX.
Proof.
  intros Hp. eapply scan_files in Hp as [[e He]|Hg]; [|by apply (lb_size _ _ _ _ _ Hbytes)|done|exact chain_unpacked|done].
  rewrite (chain_bytes path e He). by eapply (lk_size _ Hlink).
Qed.

(** The sorted elements of a hash are the rows of the files met. *)
Lemma chain_rows `{ExHash} {HL : ExHashLaws} o g r h :
  (∀ d, ndrx_file_gen_embed o (respath (elm_of d)) (embpath (elm_of d)) = true) →
  (∀ n, malloc_ok o n = true) → exjld_class_build_hash o (λ _, true) entries g r →
  ∃ l, hash_elems g h = Some l ∧ rows_of (λ path, path ∈ entry_files entries) h (exljd_res_sort_by_resname l).
Proof.
  intros Hgen Hmem Hb. destruct (build_elems o Hgen Hmem entries chain_wf g r h Hb) as (_ & l & Hl & Hnd & Hin & Hout).
  exists l. split; [done|]. split.
  - apply res_sorted, Forall_forall. intros e [Hp Hw]%Hin. eapply wf_path_nul_free; [exact Hw|].
    eapply scan_nul_free; [exact Hok|exact Hready|exact chain_unpacked|exact Hscan|done].
  - unfold exljd_res_sort_by_resname. by rewrite sort_perm.
  - intros path n. split.
    + intros (x & Hx & <- & <-). rewrite sort_elem in Hx. by destruct (Hin x Hx) as [Hp Hw].
    + intros [He Hw]. destruct (Hout path n He Hw) as (x & Hx & <- & <-). exists x. by rewrite sort_elem.
Qed.

(** The classes are those of the jars; resources may also be include files. *)
Lemma rows_classes rows : rows_of (λ path, path ∈ entry_files entries) ndrx_G_classes_hash rows → rows_of (in_jars js) ndrx_G_classes_hash rows.
Proof.
  intros [Hs Ho Hf]. split; [done..|]. intros path n. rewrite Hf. split; intros [Hp Hw]; (split; [|done]).
  - eapply scan_files in Hp as [He|Hg]; [done| |done|exact chain_unpacked|done]. by destruct (generated_no_class _ _ Hg Hw).
  - destruct Hp as [e He]. eapply (scan_jars sys js f0 w.2 entries chain_unpacked Hscan); exact He.
Qed.

Lemma rows_resources rows :
  rows_of (λ path, path ∈ entry_files entries) ndrx_G_emb_res_hash rows →
  rows_of (λ path, in_jars js path ∨ generated path ∧ path ∈ entry_files entries) ndrx_G_emb_res_hash rows.
Proof.
  intros [Hs Ho Hf]. split; [done..|]. intros path n. rewrite Hf. split; intros [Hp Hw]; (split; [|done]).
  - pose proof Hp as Hp'. eapply scan_files in Hp' as [He|Hg]; [by left|by right|done|exact chain_unpacked|done].
  - destruct Hp as [[e He]|[_ Hp]]; [eapply (scan_jars sys js f0 w.2 entries chain_unpacked Hscan); exact He|done].
Qed.

(** The stages of the main program succeed if the commands it runs do. *)
Lemma chain_build_ok `{ExHash} {HL : ExHashLaws} o g r sur s jars :
  (∀ d, ndrx_file_gen_embed o (respath (elm_of d)) (embpath (elm_of d)) = true) →
  (∀ n, malloc_ok o n = true) →
  exjld_class_build_hash o (λ _, true) entries g r → plays sur js w g r →
  jars ≠ [] → j_file <$> js = jar_file (g_owd s) <$> jars →
  (∀ b, fopen_ok sur b = true) → (∀ n c, system sur n c = EXSUCCEED) →
  build_ok sur s jars.
Proof.
  intros Hgen Hmem Hb Hp Hne Hfiles Hopen Hsys.
  assert (Hcg : ∀ b, co_ret (codegen_result sur s b) = EXSUCCEED).
  { intros b. unfold codegen_result, ndrxj_codegen. rewrite Hopen, !Hsys. by destruct b. }
  constructor; [done| | |by intros _|done].
  - apply Forall_forall. intros p Hin.
    apply (list_elem_of_fmap_2 (jar_file (g_owd s))) in Hin. rewrite <-Hfiles in Hin.
    apply list_elem_of_lookup in Hin as [i Hi]. rewrite list_lookup_fmap in Hi.
    destruct (js !! i) as [j|] eqn:Hj; [|done]. injection Hi as Hi. unfold extracted. rewrite <-Hi.
    apply (pl_zip _ _ _ _ _ Hp i j 0 Hj), (chain_status i j Hj).
  - rewrite (pl_built _ _ _ _ _ Hp). eapply (build_elems o Hgen Hmem entries chain_wf g r ndrx_G_classes_hash Hb).
Qed.
End Chain.
