(* ===== verification/ToyZip.v ===== *)
(** * Two small jars

    A file tree with two jars, one of them with a compressed class, and an empty work
    directory: the concrete inputs of the instances. *)
From stdpp Require Import sorting strings gmap list numbers.
From Stdlib Require Import Ascii.
From S2P Require Import Prelude CString FindClasses LinkLoad FileSys ZipReader ZipCrc Unzip ZipFormat UnzipProofs Unpacked Deflate Inflate InflateProofs LinkChain.
Local Open Scope Z_scope.

(** ** The jars *)

Definition text (s : string) : list Z := string_bytes s.

(** A file made on Unix with mode 644, and a directory with mode 755. *)
Definition plain_entry (path : list string) (method : Z) (data : list Z) : zentry :=
  ZEntry path false data method data 0x031E 20 0 0 0 0 (Z.shiftl 33188 16) [] [] (replicate 22 0) [] [].
Definition dir_entry (path : list string) : zentry :=
  ZEntry path true [] 0 [] 0x031E 20 0 0 0 0 (Z.lor (Z.shiftl 16877 16) 0x10) [] [] (replicate 22 0) [] [].

(** A file that is compressed. *)
Definition main_data : list Z := [202; 254; 186; 190; 1].
Definition main_stream : list Z := [59; 245; 111; 215; 62; 70; 0].
Definition main_entry : zentry :=
  ZEntry ["app"; "Main.class"]%string false main_data MZ_DEFLATED main_stream 0x031E 20 0 0 0 0 (Z.shiftl 33188 16) [] [] (replicate 22 0) [] [].
Definition util_entry : zentry := plain_entry ["Util.class"]%string 0 [202; 254; 186; 190; 2].
Definition conf_entry : zentry := plain_entry ["app"; "conf.ini"]%string 0 (text "key=value").

Definition demo_jars : list jar :=
  [Jar "/home/u/a.jar" [dir_entry ["app"]%string; main_entry] (text "made by hand");
   Jar "/opt/b.jar" [util_entry; conf_entry] []].

Definition demo_sys : system_env := SystemEnv ["tmp"; "wd"]%string (λ _, false).

Definition demo_tree : tree :=
  <[ ["home"; "u"; "a.jar"]%string := File (archive [dir_entry ["app"]%string; main_entry] (text "made by hand")) 420 ]>
  (<[ ["opt"; "b.jar"]%string := File (archive [util_entry; conf_entry] []) 420 ]>
  (list_to_map ((λ k, (k, Dir 493)) <$>
     [[]; ["home"]; ["home"; "u"]; ["opt"]; ["tmp"]; ["tmp"; "wd"]]%string))).

Lemma demo_jars_ok : jars_ok demo_jars.
Proof. vm_compute. exact I. Qed.

Lemma main_deflated : deflated main_stream main_data.
Proof.
  split; [by repeat constructor|]. eapply deflate_last; [vm_compute; reflexivity|vm_compute; reflexivity|].
  apply block_fixed. literal 202. literal 254. literal 186. literal 190. literal 1. apply codes_end. symbol.
Qed.

Lemma demo_deflated j e :
  j ∈ demo_jars → e ∈ j_entries j → z_isdir e = false → z_method e = MZ_DEFLATED → deflated (z_stream e) (z_data e).
Proof.
  intros Hj He Hd Hm.
  apply elem_of_cons in Hj as [->|Hj%list_elem_of_singleton]; [|subst j]; cbn [j_entries] in He;
    apply elem_of_cons in He as [->|He%list_elem_of_singleton]; try subst e; try done. exact main_deflated.
Qed.

Lemma demo_streams j e :
  j ∈ demo_jars → e ∈ j_entries j → z_isdir e = false → z_method e = MZ_DEFLATED → inflates (H := tinfl) (z_stream e) (z_data e).
Proof. intros Hj He Hd Hm. apply deflated_inflates. by eapply demo_deflated. Qed.

(** Keys of the tree that lie below the work directory. *)
Lemma demo_ready : ready demo_sys demo_jars demo_tree.
Proof.
  split; [done| |].
  - intros [|c r] Hr; [done|]. apply eq_None_not_Some. intros [n Hn].
    assert (Hk : Forall (λ kn : list string * node, (length kn.1 ≤ 2)%nat ∨ kn.1 !! 0%nat ≠ Some "tmp"%string) (map_to_list demo_tree)).
    { apply (bool_decide_unpack _). vm_compute. exact I. }
    apply elem_of_map_to_list in Hn. rewrite Forall_forall in Hk. specialize (Hk _ Hn). cbn in Hk. destruct Hk; [lia|done].
  - assert (Hout : ∀ l, l !! 0%nat ≠ Some "tmp"%string → outside demo_sys l) by (intros l Hl r _ ->; by apply Hl).
    assert (H1 : is_dir (demo_tree !! ["home"]%string)) by done.
    assert (H2 : is_dir (demo_tree !! ["home"; "u"]%string)) by done.
    assert (H3 : is_dir (demo_tree !! ["opt"]%string)) by done.
    intros j [->|[->|Hj]%elem_of_cons]%elem_of_cons; [| |by apply elem_of_nil in Hj].
    + exists ["home"; "u"; "a.jar"]%string, 420. split_and!; [done|done|by repeat constructor| |done|by apply Hout].
      intros [|c1 [|c2 [|c3 l1]]] l2 E Hl1 Hl2; try done; injection E; intros; simplify_eq; try done.
      by destruct l1, l2.
    + exists ["opt"; "b.jar"]%string, 420. split_and!; [done|done|by repeat constructor| |done|by apply Hout].
      intros [|c1 [|c2 l1]] l2 E Hl1 Hl2; try done; injection E; intros; simplify_eq; try done.
      by destruct l1, l2.
Qed.

Lemma demo_files path e :
  jar_has demo_jars path e → path = "./app/Main.class"%string ∨ path = "./Util.class"%string ∨ path = "./app/conf.ini"%string.
Proof.
  intros (j & Hj & He & Hd & ->).
  apply elem_of_cons in Hj as [->|Hj%list_elem_of_singleton]; [|subst j]; cbn [j_entries] in He;
    apply elem_of_cons in He as [->|He%list_elem_of_singleton]; try subst e; auto; done.
Qed.

Lemma demo_linkable : linkable demo_jars.
Proof.
  split.
  - intros path e [->|[->| ->]]%demo_files; eexists _, _.
    + apply (wf_class "app/Main"); [done..|]. unfold PATH_MAX. simpl. lia.
    + apply (wf_class "Util"); [done..|]. unfold PATH_MAX. simpl. lia.
    + apply (wf_resource "app/conf.ini"); [done..|]. unfold PATH_MAX. simpl. lia.
  - intros path e [->|[->| ->]]%demo_files ([] & n & E & _); cbn in E; discriminate E.
  - assert (H : Forall (λ j, Forall (λ e, len (z_data e) ≤ INT_MAX) (j_entries j)) demo_jars).
    { by repeat constructor. }
    intros path e (j & Hj & He & _). rewrite Forall_forall in H. specialize (H j Hj). rewrite Forall_forall in H. by apply H.
Qed.
