(* ===== verification/NativeTable.v ===== *)
(** * libsrc/c/loader.c: the native entry points, as tables

    Java finds a native method by the name of a C function.  loader.c, which
    tools/genwrap.pl prints, defines all of them: each forwards its arguments through a
    pointer that [M_funcmap] ties to a symbol of libexjava (declared in
    include/exjglue.h).  Here: the pointers, the table, the entry points, the prototypes
    and the [native] declarations of the Java sources, in the order of the files; and
    the name and type the Java Native Interface gives a declaration. *)
From stdpp Require Import strings list numbers.
From Stdlib Require Import Ascii.
From S2P Require Import Prelude.

(** The C types of the entry points. *)
Inductive ctype :=
  | T_void | T_jboolean | T_jbyte | T_jshort | T_jint | T_jlong | T_jfloat | T_jdouble
  | T_jobject | T_jclass | T_jstring | T_jthrowable
  | T_jbyteArray | T_jintArray | T_jlongArray | T_jobjectArray | T_JNIEnv.

#[export] Instance ctype_eq_dec : EqDecision ctype.
Proof. solve_decision. Defined.

(** A function, or a pointer to one: name, result and parameters. *)
Record c_function := CFun { cf_name : string; cf_ret : ctype; cf_params : list ctype }.

#[export] Instance c_function_eq_dec : EqDecision c_function.
Proof. solve_decision. Defined.

(** What an entry point returns when the library cannot be initialised. *)
Inductive fail_value := Fail_void | Fail_zero (t : ctype).

#[export] Instance fail_value_eq_dec : EqDecision fail_value.
Proof. solve_decision. Defined.

(** An entry point: its own type, the pointer it calls, which of its parameters
    [v0], [v1], ... it passes, and its result on failure. *)
Record jni_entry := Entry {
  en_name : string;
  en_ret : ctype;
  en_params : list ctype;
  en_pointer : string;
  en_passes : list nat;
  en_fail : fail_value
}.

(** The types of Java declarations. *)
Inductive java_type :=
  | P_void | P_boolean | P_byte | P_short | P_int | P_long | P_float | P_double
  | Ref (cls : string)
  | Arr (t : java_type).

Record java_native := Native {
  jn_class : string;
  jn_static : bool;
  jn_ret : java_type;
  jn_name : string;
  jn_args : list java_type
}.

(** ** The tables *)

(** The pointers for the methods of [AtmiCtx]. *)
Definition pointers_AtmiCtx : list c_function :=
  [CFun "p_ndrxj_Java_org_endurox_AtmiCtx_getAtmiError" T_jobject [T_JNIEnv; T_jobject];
   CFun "p_ndrxj_Java_org_endurox_AtmiCtx_tpnewctxt" T_jlong [T_JNIEnv; T_jclass];
   CFun "p_ndrxj_Java_org_endurox_AtmiCtx_tpfreectxt" T_void [T_JNIEnv; T_jclass; T_jlong];
   CFun "p_ndrxj_Java_org_endurox_AtmiCtx_tpalloc" T_jobject [T_JNIEnv; T_jobject; T_jstring; T_jstring; T_jlong];
   CFun "p_ndrxj_Java_org_endurox_AtmiCtx_tpterm" T_void [T_JNIEnv; T_jobject];
   CFun "p_ndrxj_Java_org_endurox_AtmiCtx_finalizeC" T_void [T_JNIEnv; T_jclass; T_jlong];
   CFun "p_ndrxj_Java_org_endurox_AtmiCtx_tpreturn" T_void [T_JNIEnv; T_jobject; T_jint; T_jlong; T_jobject; T_jlong];
   CFun "p_ndrxj_Java_org_endurox_AtmiCtx_tpforward" T_void [T_JNIEnv; T_jobject; T_jstring; T_jobject; T_jlong];
   CFun "p_ndrxj_Java_org_endurox_AtmiCtx_tpRunC" T_jint [T_JNIEnv; T_jobject; T_jobjectArray; T_jboolean];
   CFun "p_ndrxj_Java_org_endurox_AtmiCtx_tplogC" T_void [T_JNIEnv; T_jobject; T_jint; T_jstring; T_jlong; T_jstring];
   CFun "p_ndrxj_Java_org_endurox_AtmiCtx_tplogndrxC" T_void [T_JNIEnv; T_jobject; T_jint; T_jstring; T_jlong; T_jstring];
   CFun "p_ndrxj_Java_org_endurox_AtmiCtx_tpadvertiseC" T_void [T_JNIEnv; T_jobject; T_jstring; T_jstring];
   CFun "p_ndrxj_Java_org_endurox_AtmiCtx_tplogdelbufreqfile" T_void [T_JNIEnv; T_jobject; T_jobject];
   CFun "p_ndrxj_Java_org_endurox_AtmiCtx_tplogqinfo" T_jint [T_JNIEnv; T_jobject; T_jint; T_jlong];
   CFun "p_ndrxj_Java_org_endurox_AtmiCtx_tplogubfex" T_void [T_JNIEnv; T_jobject; T_jint; T_jstring; T_jthrowable];
   CFun "p_ndrxj_Java_org_endurox_AtmiCtx_tplogndrxex" T_void [T_JNIEnv; T_jobject; T_jint; T_jstring; T_jthrowable];
   CFun "p_ndrxj_Java_org_endurox_AtmiCtx_tplogex" T_void [T_JNIEnv; T_jobject; T_jint; T_jstring; T_jthrowable];
   CFun "p_ndrxj_Java_org_endurox_AtmiCtx_tplogsetreqfile" T_void [T_JNIEnv; T_jobject; T_jobject; T_jstring; T_jstring];
   CFun "p_ndrxj_Java_org_endurox_AtmiCtx_tploggetbufreqfile" T_jstring [T_JNIEnv; T_jobject; T_jobject];
   CFun "p_ndrxj_Java_org_endurox_AtmiCtx_tploggetreqfile" T_jstring [T_JNIEnv; T_jobject];
   CFun "p_ndrxj_Java_org_endurox_AtmiCtx_tplogsetreqfile_1direct" T_void [T_JNIEnv; T_jobject; T_jstring];
   CFun "p_ndrxj_Java_org_endurox_AtmiCtx_tplogclosereqfile" T_void [T_JNIEnv; T_jobject];
   CFun "p_ndrxj_Java_org_endurox_AtmiCtx_tplogconfig" T_void [T_JNIEnv; T_jobject; T_jint; T_jint; T_jstring; T_jstring; T_jstring];
   CFun "p_ndrxj_Java_org_endurox_AtmiCtx_userlogex" T_void [T_JNIEnv; T_jobject; T_jstring; T_jthrowable];
   CFun "p_ndrxj_Java_org_endurox_AtmiCtx_tplogDump" T_void [T_JNIEnv; T_jobject; T_jint; T_jstring; T_jbyteArray];
   CFun "p_ndrxj_Java_org_endurox_AtmiCtx_tplogDumpDiff" T_void [T_JNIEnv; T_jobject; T_jint; T_jstring; T_jbyteArray; T_jbyteArray];
   CFun "p_ndrxj_Java_org_endurox_AtmiCtx_tpinit" T_void [T_JNIEnv; T_jobject; T_jobject];
   CFun "p_ndrxj_Java_org_endurox_AtmiCtx_userlogC" T_void [T_JNIEnv; T_jobject; T_jstring];
   CFun "p_ndrxj_Java_org_endurox_AtmiCtx_tpcall" T_jobject [T_JNIEnv; T_jobject; T_jstring; T_jobject; T_jlong];
   CFun "p_ndrxj_Java_org_endurox_AtmiCtx_tpacall" T_jint [T_JNIEnv; T_jobject; T_jstring; T_jobject; T_jlong];
   CFun "p_ndrxj_Java_org_endurox_AtmiCtx_tpgetrply" T_jobject [T_JNIEnv; T_jobject; T_jint; T_jobject; T_jlong];
   CFun "p_ndrxj_Java_org_endurox_AtmiCtx_tpconnect" T_jint [T_JNIEnv; T_jobject; T_jstring; T_jobject; T_jlong];
   CFun "p_ndrxj_Java_org_endurox_AtmiCtx_tpsend" T_jlong [T_JNIEnv; T_jobject; T_jint; T_jobject; T_jlong];
   CFun "p_ndrxj_Java_org_endurox_AtmiCtx_tprecv" T_jobject [T_JNIEnv; T_jobject; T_jint; T_jobject; T_jlong];
   CFun "p_ndrxj_Java_org_endurox_AtmiCtx_tpdiscon" T_void [T_JNIEnv; T_jobject; T_jint];
   CFun "p_ndrxj_Java_org_endurox_AtmiCtx_tpcancel" T_void [T_JNIEnv; T_jobject; T_jint];
   CFun "p_ndrxj_Java_org_endurox_AtmiCtx_Bboolco" T_jobject [T_JNIEnv; T_jobject; T_jstring];
   CFun "p_ndrxj_Java_org_endurox_AtmiCtx_Bboolpr" T_void [T_JNIEnv; T_jobject; T_jobject; T_jobject];
   CFun "p_ndrxj_Java_org_endurox_AtmiCtx_BboolsetcbfC" T_void [T_JNIEnv; T_jobject; T_jstring];
   CFun "p_ndrxj_Java_org_endurox_AtmiCtx_Btype" T_jstring [T_JNIEnv; T_jobject; T_jint];
   CFun "p_ndrxj_Java_org_endurox_AtmiCtx_Bfname" T_jstring [T_JNIEnv; T_jobject; T_jint];
   CFun "p_ndrxj_Java_org_endurox_AtmiCtx_Bfldid" T_jint [T_JNIEnv; T_jobject; T_jstring];
   CFun "p_ndrxj_Java_org_endurox_AtmiCtx_tptoutget" T_jint [T_JNIEnv; T_jobject];
   CFun "p_ndrxj_Java_org_endurox_AtmiCtx_tpurcode" T_jlong [T_JNIEnv; T_jobject];
   CFun "p_ndrxj_Java_org_endurox_AtmiCtx_tptoutset" T_void [T_JNIEnv; T_jobject; T_jint];
   CFun "p_ndrxj_Java_org_endurox_AtmiCtx_getBuffers" T_jlongArray [T_JNIEnv; T_jobject];
   CFun "p_ndrxj_Java_org_endurox_AtmiCtx_tpsetunsolC" T_void [T_JNIEnv; T_jobject; T_jobject];
   CFun "p_ndrxj_Java_org_endurox_AtmiCtx_tpnotify" T_void [T_JNIEnv; T_jobject; T_jobject; T_jobject; T_jlong];
   CFun "p_ndrxj_Java_org_endurox_AtmiCtx_tpbroadcast" T_void [T_JNIEnv; T_jobject; T_jstring; T_jstring; T_jstring; T_jobject; T_jlong];
   CFun "p_ndrxj_Java_org_endurox_AtmiCtx_tpchkunsol" T_jint [T_JNIEnv; T_jobject];
   CFun "p_ndrxj_Java_org_endurox_AtmiCtx_tpenqueue" T_void [T_JNIEnv; T_jobject; T_jstring; T_jstring; T_jobject; T_jobject; T_jlong];
   CFun "p_ndrxj_Java_org_endurox_AtmiCtx_tpenqueueex" T_void [T_JNIEnv; T_jobject; T_jshort; T_jshort; T_jstring; T_jobject; T_jobject; T_jlong];
   CFun "p_ndrxj_Java_org_endurox_AtmiCtx_tpdequeue" T_jobject [T_JNIEnv; T_jobject; T_jstring; T_jstring; T_jobject; T_jobject; T_jlong];
   CFun "p_ndrxj_Java_org_endurox_AtmiCtx_tpdequeueex" T_jobject [T_JNIEnv; T_jobject; T_jshort; T_jshort; T_jstring; T_jobject; T_jobject; T_jlong];
   CFun "p_ndrxj_Java_org_endurox_AtmiCtx_tpsrvgetctxdata" T_jlong [T_JNIEnv; T_jobject];
   CFun "p_ndrxj_Java_org_endurox_AtmiCtx_tpsrvsetctxdata" T_void [T_JNIEnv; T_jobject; T_jlong; T_jlong];
   CFun "p_ndrxj_Java_org_endurox_AtmiCtx_tpsrvfreectxdata" T_void [T_JNIEnv; T_jobject; T_jlong];
   CFun "p_ndrxj_Java_org_endurox_AtmiCtx_tpcontinue" T_void [T_JNIEnv; T_jobject];
   CFun "p_ndrxj_Java_org_endurox_AtmiCtx_tpopen" T_void [T_JNIEnv; T_jobject];
   CFun "p_ndrxj_Java_org_endurox_AtmiCtx_tpclose" T_void [T_JNIEnv; T_jobject];
   CFun "p_ndrxj_Java_org_endurox_AtmiCtx_tpbegin" T_void [T_JNIEnv; T_jobject; T_jlong; T_jlong];
   CFun "p_ndrxj_Java_org_endurox_AtmiCtx_tpcommit" T_void [T_JNIEnv; T_jobject; T_jlong];
   CFun "p_ndrxj_Java_org_endurox_AtmiCtx_tpabort" T_void [T_JNIEnv; T_jobject; T_jlong];
   CFun "p_ndrxj_Java_org_endurox_AtmiCtx_tpsuspend" T_jobject [T_JNIEnv; T_jobject; T_jlong];
   CFun "p_ndrxj_Java_org_endurox_AtmiCtx_tpresume" T_void [T_JNIEnv; T_jobject; T_jobject; T_jlong];
   CFun "p_ndrxj_Java_org_endurox_AtmiCtx_tpgetlev" T_jint [T_JNIEnv; T_jobject];
   CFun "p_ndrxj_Java_org_endurox_AtmiCtx_installTermSigHandler" T_void [T_JNIEnv; T_jobject; T_jobject]].

(** The pointers for [BExprTree], [TypedBuffer] and its subclasses. *)
Definition pointers_buffers : list c_function :=
  [CFun "p_ndrxj_Java_org_endurox_BExprTree_Btreefree" T_void [T_JNIEnv; T_jobject; T_jlong];
   CFun "p_ndrxj_Java_org_endurox_TypedBuffer_tpfree" T_void [T_JNIEnv; T_jobject; T_jlong];
   CFun "p_ndrxj_Java_org_endurox_TypedBuffer_tprealloc" T_void [T_JNIEnv; T_jobject; T_jlong];
   CFun "p_ndrxj_Java_org_endurox_TypedBuffer_tptypes" T_jobject [T_JNIEnv; T_jobject];
   CFun "p_ndrxj_Java_org_endurox_TypedCarray_setBytes" T_void [T_JNIEnv; T_jobject; T_jbyteArray];
   CFun "p_ndrxj_Java_org_endurox_TypedCarray_getBytes" T_jbyteArray [T_JNIEnv; T_jobject];
   CFun "p_ndrxj_Java_org_endurox_TypedJson_setJSON" T_void [T_JNIEnv; T_jobject; T_jstring];
   CFun "p_ndrxj_Java_org_endurox_TypedJson_getJSON" T_jstring [T_JNIEnv; T_jobject];
   CFun "p_ndrxj_Java_org_endurox_TypedString_setString" T_void [T_JNIEnv; T_jobject; T_jstring];
   CFun "p_ndrxj_Java_org_endurox_TypedString_getString" T_jstring [T_JNIEnv; T_jobject];
   CFun "p_ndrxj_Java_org_endurox_TypedUbf_Badd__IS" T_void [T_JNIEnv; T_jobject; T_jint; T_jshort];
   CFun "p_ndrxj_Java_org_endurox_TypedUbf_Badd__IJ" T_void [T_JNIEnv; T_jobject; T_jint; T_jlong];
   CFun "p_ndrxj_Java_org_endurox_TypedUbf_Badd__IB" T_void [T_JNIEnv; T_jobject; T_jint; T_jbyte];
   CFun "p_ndrxj_Java_org_endurox_TypedUbf_Badd__IF" T_void [T_JNIEnv; T_jobject; T_jint; T_jfloat];
   CFun "p_ndrxj_Java_org_endurox_TypedUbf_Badd__ID" T_void [T_JNIEnv; T_jobject; T_jint; T_jdouble];
   CFun "p_ndrxj_Java_org_endurox_TypedUbf_Badd__ILjava_lang_String_2" T_void [T_JNIEnv; T_jobject; T_jint; T_jstring];
   CFun "p_ndrxj_Java_org_endurox_TypedUbf_Badd__I_3B" T_void [T_JNIEnv; T_jobject; T_jint; T_jbyteArray];
   CFun "p_ndrxj_Java_org_endurox_TypedUbf_Bprint" T_void [T_JNIEnv; T_jobject];
   CFun "p_ndrxj_Java_org_endurox_TypedUbf_BgetShort" T_jshort [T_JNIEnv; T_jobject; T_jint; T_jint];
   CFun "p_ndrxj_Java_org_endurox_TypedUbf_BgetLong" T_jlong [T_JNIEnv; T_jobject; T_jint; T_jint];
   CFun "p_ndrxj_Java_org_endurox_TypedUbf_BgetByte" T_jbyte [T_JNIEnv; T_jobject; T_jint; T_jint];
   CFun "p_ndrxj_Java_org_endurox_TypedUbf_BgetFloat" T_jfloat [T_JNIEnv; T_jobject; T_jint; T_jint];
   CFun "p_ndrxj_Java_org_endurox_TypedUbf_BgetDouble" T_jdouble [T_JNIEnv; T_jobject; T_jint; T_jint];
   CFun "p_ndrxj_Java_org_endurox_TypedUbf_BgetString" T_jstring [T_JNIEnv; T_jobject; T_jint; T_jint];
   CFun "p_ndrxj_Java_org_endurox_TypedUbf_BgetByteArr" T_jbyteArray [T_JNIEnv; T_jobject; T_jint; T_jint];
   CFun "p_ndrxj_Java_org_endurox_TypedUbf_Baddfast__ISLorg_endurox_BFldLocInfo_2" T_void [T_JNIEnv; T_jobject; T_jint; T_jshort; T_jobject];
   CFun "p_ndrxj_Java_org_endurox_TypedUbf_Baddfast__IJLorg_endurox_BFldLocInfo_2" T_void [T_JNIEnv; T_jobject; T_jint; T_jlong; T_jobject];
   CFun "p_ndrxj_Java_org_endurox_TypedUbf_Baddfast__IBLorg_endurox_BFldLocInfo_2" T_void [T_JNIEnv; T_jobject; T_jint; T_jbyte; T_jobject];
   CFun "p_ndrxj_Java_org_endurox_TypedUbf_Baddfast__IFLorg_endurox_BFldLocInfo_2" T_void [T_JNIEnv; T_jobject; T_jint; T_jfloat; T_jobject];
   CFun "p_ndrxj_Java_org_endurox_TypedUbf_Baddfast__IDLorg_endurox_BFldLocInfo_2" T_void [T_JNIEnv; T_jobject; T_jint; T_jdouble; T_jobject];
   CFun "p_ndrxj_Java_org_endurox_TypedUbf_Baddfast__ILjava_lang_String_2Lorg_endurox_BFldLocInfo_2" T_void [T_JNIEnv; T_jobject; T_jint; T_jstring; T_jobject];
   CFun "p_ndrxj_Java_org_endurox_TypedUbf_Baddfast__I_3BLorg_endurox_BFldLocInfo_2" T_void [T_JNIEnv; T_jobject; T_jint; T_jbyteArray; T_jobject];
   CFun "p_ndrxj_Java_org_endurox_TypedUbf_Bchg__IIS" T_void [T_JNIEnv; T_jobject; T_jint; T_jint; T_jshort];
   CFun "p_ndrxj_Java_org_endurox_TypedUbf_Bchg__IIJ" T_void [T_JNIEnv; T_jobject; T_jint; T_jint; T_jlong];
   CFun "p_ndrxj_Java_org_endurox_TypedUbf_Bchg__IIB" T_void [T_JNIEnv; T_jobject; T_jint; T_jint; T_jbyte];
   CFun "p_ndrxj_Java_org_endurox_TypedUbf_Bchg__IIF" T_void [T_JNIEnv; T_jobject; T_jint; T_jint; T_jfloat];
   CFun "p_ndrxj_Java_org_endurox_TypedUbf_Bchg__IID" T_void [T_JNIEnv; T_jobject; T_jint; T_jint; T_jdouble];
   CFun "p_ndrxj_Java_org_endurox_TypedUbf_Bchg__IILjava_lang_String_2" T_void [T_JNIEnv; T_jobject; T_jint; T_jint; T_jstring];
   CFun "p_ndrxj_Java_org_endurox_TypedUbf_Bchg__II_3B" T_void [T_JNIEnv; T_jobject; T_jint; T_jint; T_jbyteArray];
   CFun "p_ndrxj_Java_org_endurox_TypedUbf_Bboolev" T_jboolean [T_JNIEnv; T_jobject; T_jobject];
   CFun "p_ndrxj_Java_org_endurox_TypedUbf_Bqboolev" T_jboolean [T_JNIEnv; T_jobject; T_jstring];
   CFun "p_ndrxj_Java_org_endurox_TypedUbf_Bfloatev" T_jdouble [T_JNIEnv; T_jobject; T_jobject];
   CFun "p_ndrxj_Java_org_endurox_TypedUbf_Bdel" T_void [T_JNIEnv; T_jobject; T_jint; T_jint];
   CFun "p_ndrxj_Java_org_endurox_TypedUbf_Bdelall" T_void [T_JNIEnv; T_jobject; T_jint];
   CFun "p_ndrxj_Java_org_endurox_TypedUbf_Bpres" T_jboolean [T_JNIEnv; T_jobject; T_jint; T_jint];
   CFun "p_ndrxj_Java_org_endurox_TypedUbf_Bextread" T_void [T_JNIEnv; T_jobject; T_jobject];
   CFun "p_ndrxj_Java_org_endurox_TypedUbf_Bisubf" T_jboolean [T_JNIEnv; T_jobject];
   CFun "p_ndrxj_Java_org_endurox_TypedUbf_Blen" T_jint [T_JNIEnv; T_jobject; T_jint; T_jint];
   CFun "p_ndrxj_Java_org_endurox_TypedUbf_Bnext" T_jobject [T_JNIEnv; T_jobject; T_jboolean];
   CFun "p_ndrxj_Java_org_endurox_TypedUbf_Boccur" T_jint [T_JNIEnv; T_jobject; T_jint];
   CFun "p_ndrxj_Java_org_endurox_TypedUbf_Bread" T_void [T_JNIEnv; T_jobject; T_jbyteArray];
   CFun "p_ndrxj_Java_org_endurox_TypedUbf_Bwrite" T_jbyteArray [T_JNIEnv; T_jobject];
   CFun "p_ndrxj_Java_org_endurox_TypedUbf_Bsizeof" T_jlong [T_JNIEnv; T_jobject];
   CFun "p_ndrxj_Java_org_endurox_TypedUbf_Bunused" T_jlong [T_JNIEnv; T_jobject];
   CFun "p_ndrxj_Java_org_endurox_TypedUbf_Bused" T_jlong [T_JNIEnv; T_jobject];
   CFun "p_ndrxj_Java_org_endurox_TypedUbf_Binit" T_jlong [T_JNIEnv; T_jobject];
   CFun "p_ndrxj_Java_org_endurox_TypedUbf_Bproj" T_void [T_JNIEnv; T_jobject; T_jintArray];
   CFun "p_ndrxj_Java_org_endurox_TypedUbf_Bdelete" T_void [T_JNIEnv; T_jobject; T_jintArray];
   CFun "p_ndrxj_Java_org_endurox_TypedUbf_Bconcat" T_void [T_JNIEnv; T_jobject; T_jobject];
   CFun "p_ndrxj_Java_org_endurox_TypedUbf_Bcpy" T_void [T_JNIEnv; T_jobject; T_jobject];
   CFun "p_ndrxj_Java_org_endurox_TypedUbf_Bprojcpy" T_void [T_JNIEnv; T_jobject; T_jobject; T_jintArray];
   CFun "p_ndrxj_Java_org_endurox_TypedUbf_Bupdate" T_void [T_JNIEnv; T_jobject; T_jobject];
   CFun "p_ndrxj_Java_org_endurox_TypedUbf_Bcmp" T_jint [T_JNIEnv; T_jobject; T_jobject];
   CFun "p_ndrxj_Java_org_endurox_TypedUbf_Bsubset" T_jboolean [T_JNIEnv; T_jobject; T_jobject];
   CFun "p_ndrxj_Java_org_endurox_TypedUbf_tpjsontoubf" T_void [T_JNIEnv; T_jobject; T_jstring];
   CFun "p_ndrxj_Java_org_endurox_TypedUbf_tpubftojson" T_jstring [T_JNIEnv; T_jobject];
   CFun "p_ndrxj_Java_org_endurox_TypedUbf_tplogprintubf" T_void [T_JNIEnv; T_jobject; T_jint; T_jstring];
   CFun "p_ndrxj_Java_org_endurox_TypedUbf_Bnum" T_jint [T_JNIEnv; T_jobject];
   CFun "p_ndrxj_Java_org_endurox_TypedUbf_Bjoin" T_void [T_JNIEnv; T_jobject; T_jobject];
   CFun "p_ndrxj_Java_org_endurox_TypedUbf_Bojoin" T_void [T_JNIEnv; T_jobject; T_jobject]].

(** [M_funcmap] up to its NULL entry: symbol and pointer. *)
Definition M_funcmap : list (string * string) :=
  [("ndrxj_Java_org_endurox_AtmiCtx_getAtmiError", "p_ndrxj_Java_org_endurox_AtmiCtx_getAtmiError");
   ("ndrxj_Java_org_endurox_AtmiCtx_tpnewctxt", "p_ndrxj_Java_org_endurox_AtmiCtx_tpnewctxt");
   ("ndrxj_Java_org_endurox_AtmiCtx_tpfreectxt", "p_ndrxj_Java_org_endurox_AtmiCtx_tpfreectxt");
   ("ndrxj_Java_org_endurox_AtmiCtx_tpalloc", "p_ndrxj_Java_org_endurox_AtmiCtx_tpalloc");
   ("ndrxj_Java_org_endurox_AtmiCtx_tpterm", "p_ndrxj_Java_org_endurox_AtmiCtx_tpterm");
   ("ndrxj_Java_org_endurox_AtmiCtx_finalizeC", "p_ndrxj_Java_org_endurox_AtmiCtx_finalizeC");
   ("ndrxj_Java_org_endurox_AtmiCtx_tpreturn", "p_ndrxj_Java_org_endurox_AtmiCtx_tpreturn");
   ("ndrxj_Java_org_endurox_AtmiCtx_tpforward", "p_ndrxj_Java_org_endurox_AtmiCtx_tpforward");
   ("ndrxj_Java_org_endurox_AtmiCtx_tpRunC", "p_ndrxj_Java_org_endurox_AtmiCtx_tpRunC");
   ("ndrxj_Java_org_endurox_AtmiCtx_tplogC", "p_ndrxj_Java_org_endurox_AtmiCtx_tplogC");
   ("ndrxj_Java_org_endurox_AtmiCtx_tplogndrxC", "p_ndrxj_Java_org_endurox_AtmiCtx_tplogndrxC");
   ("ndrxj_Java_org_endurox_AtmiCtx_tpadvertiseC", "p_ndrxj_Java_org_endurox_AtmiCtx_tpadvertiseC");
   ("ndrxj_Java_org_endurox_AtmiCtx_tplogdelbufreqfile", "p_ndrxj_Java_org_endurox_AtmiCtx_tplogdelbufreqfile");
   ("ndrxj_Java_org_endurox_AtmiCtx_tplogqinfo", "p_ndrxj_Java_org_endurox_AtmiCtx_tplogqinfo");
   ("ndrxj_Java_org_endurox_AtmiCtx_tplogubfex", "p_ndrxj_Java_org_endurox_AtmiCtx_tplogubfex");
   ("ndrxj_Java_org_endurox_AtmiCtx_tplogndrxex", "p_ndrxj_Java_org_endurox_AtmiCtx_tplogndrxex");
   ("ndrxj_Java_org_endurox_AtmiCtx_tplogex", "p_ndrxj_Java_org_endurox_AtmiCtx_tplogex");
   ("ndrxj_Java_org_endurox_AtmiCtx_tplogsetreqfile", "p_ndrxj_Java_org_endurox_AtmiCtx_tplogsetreqfile");
   ("ndrxj_Java_org_endurox_AtmiCtx_tploggetbufreqfile", "p_ndrxj_Java_org_endurox_AtmiCtx_tploggetbufreqfile");
   ("ndrxj_Java_org_endurox_AtmiCtx_tploggetreqfile", "p_ndrxj_Java_org_endurox_AtmiCtx_tploggetreqfile");
   ("ndrxj_Java_org_endurox_AtmiCtx_tplogsetreqfile_1direct", "p_ndrxj_Java_org_endurox_AtmiCtx_tplogsetreqfile_1direct");
   ("ndrxj_Java_org_endurox_AtmiCtx_tplogclosereqfile", "p_ndrxj_Java_org_endurox_AtmiCtx_tplogclosereqfile");
   ("ndrxj_Java_org_endurox_AtmiCtx_tplogconfig", "p_ndrxj_Java_org_endurox_AtmiCtx_tplogconfig");
   ("ndrxj_Java_org_endurox_AtmiCtx_userlogex", "p_ndrxj_Java_org_endurox_AtmiCtx_userlogex");
   ("ndrxj_Java_org_endurox_AtmiCtx_tplogDump", "p_ndrxj_Java_org_endurox_AtmiCtx_tplogDump");
   ("ndrxj_Java_org_endurox_AtmiCtx_tplogDumpDiff", "p_ndrxj_Java_org_endurox_AtmiCtx_tplogDumpDiff");
   ("ndrxj_Java_org_endurox_AtmiCtx_tpinit", "p_ndrxj_Java_org_endurox_AtmiCtx_tpinit");
   ("ndrxj_Java_org_endurox_AtmiCtx_userlogC", "p_ndrxj_Java_org_endurox_AtmiCtx_userlogC");
   ("ndrxj_Java_org_endurox_AtmiCtx_tpcall", "p_ndrxj_Java_org_endurox_AtmiCtx_tpcall");
   ("ndrxj_Java_org_endurox_AtmiCtx_tpacall", "p_ndrxj_Java_org_endurox_AtmiCtx_tpacall");
   ("ndrxj_Java_org_endurox_AtmiCtx_tpgetrply", "p_ndrxj_Java_org_endurox_AtmiCtx_tpgetrply");
   ("ndrxj_Java_org_endurox_AtmiCtx_tpconnect", "p_ndrxj_Java_org_endurox_AtmiCtx_tpconnect");
   ("ndrxj_Java_org_endurox_AtmiCtx_tpsend", "p_ndrxj_Java_org_endurox_AtmiCtx_tpsend");
   ("ndrxj_Java_org_endurox_AtmiCtx_tprecv", "p_ndrxj_Java_org_endurox_AtmiCtx_tprecv");
   ("ndrxj_Java_org_endurox_AtmiCtx_tpdiscon", "p_ndrxj_Java_org_endurox_AtmiCtx_tpdiscon");
   ("ndrxj_Java_org_endurox_AtmiCtx_tpcancel", "p_ndrxj_Java_org_endurox_AtmiCtx_tpcancel");
   ("ndrxj_Java_org_endurox_AtmiCtx_Bboolco", "p_ndrxj_Java_org_endurox_AtmiCtx_Bboolco");
   ("ndrxj_Java_org_endurox_AtmiCtx_Bboolpr", "p_ndrxj_Java_org_endurox_AtmiCtx_Bboolpr");
   ("ndrxj_Java_org_endurox_AtmiCtx_BboolsetcbfC", "p_ndrxj_Java_org_endurox_AtmiCtx_BboolsetcbfC");
   ("ndrxj_Java_org_endurox_AtmiCtx_Btype", "p_ndrxj_Java_org_endurox_AtmiCtx_Btype");
   ("ndrxj_Java_org_endurox_AtmiCtx_Bfname", "p_ndrxj_Java_org_endurox_AtmiCtx_Bfname");
   ("ndrxj_Java_org_endurox_AtmiCtx_Bfldid", "p_ndrxj_Java_org_endurox_AtmiCtx_Bfldid");
   ("ndrxj_Java_org_endurox_AtmiCtx_tptoutget", "p_ndrxj_Java_org_endurox_AtmiCtx_tptoutget");
   ("ndrxj_Java_org_endurox_AtmiCtx_tpurcode", "p_ndrxj_Java_org_endurox_AtmiCtx_tpurcode");
   ("ndrxj_Java_org_endurox_AtmiCtx_tptoutset", "p_ndrxj_Java_org_endurox_AtmiCtx_tptoutset");
   ("ndrxj_Java_org_endurox_AtmiCtx_getBuffers", "p_ndrxj_Java_org_endurox_AtmiCtx_getBuffers");
   ("ndrxj_Java_org_endurox_AtmiCtx_tpsetunsolC", "p_ndrxj_Java_org_endurox_AtmiCtx_tpsetunsolC");
   ("ndrxj_Java_org_endurox_AtmiCtx_tpnotify", "p_ndrxj_Java_org_endurox_AtmiCtx_tpnotify");
   ("ndrxj_Java_org_endurox_AtmiCtx_tpbroadcast", "p_ndrxj_Java_org_endurox_AtmiCtx_tpbroadcast");
   ("ndrxj_Java_org_endurox_AtmiCtx_tpchkunsol", "p_ndrxj_Java_org_endurox_AtmiCtx_tpchkunsol");
   ("ndrxj_Java_org_endurox_AtmiCtx_tpenqueue", "p_ndrxj_Java_org_endurox_AtmiCtx_tpenqueue");
   ("ndrxj_Java_org_endurox_AtmiCtx_tpenqueueex", "p_ndrxj_Java_org_endurox_AtmiCtx_tpenqueueex");
   ("ndrxj_Java_org_endurox_AtmiCtx_tpdequeue", "p_ndrxj_Java_org_endurox_AtmiCtx_tpdequeue");
   ("ndrxj_Java_org_endurox_AtmiCtx_tpdequeueex", "p_ndrxj_Java_org_endurox_AtmiCtx_tpdequeueex");
   ("ndrxj_Java_org_endurox_AtmiCtx_tpsrvgetctxdata", "p_ndrxj_Java_org_endurox_AtmiCtx_tpsrvgetctxdata");
   ("ndrxj_Java_org_endurox_AtmiCtx_tpsrvsetctxdata", "p_ndrxj_Java_org_endurox_AtmiCtx_tpsrvsetctxdata");
   ("ndrxj_Java_org_endurox_AtmiCtx_tpsrvfreectxdata", "p_ndrxj_Java_org_endurox_AtmiCtx_tpsrvfreectxdata");
   ("ndrxj_Java_org_endurox_AtmiCtx_tpcontinue", "p_ndrxj_Java_org_endurox_AtmiCtx_tpcontinue");
   ("ndrxj_Java_org_endurox_AtmiCtx_tpopen", "p_ndrxj_Java_org_endurox_AtmiCtx_tpopen");
   ("ndrxj_Java_org_endurox_AtmiCtx_tpclose", "p_ndrxj_Java_org_endurox_AtmiCtx_tpclose");
   ("ndrxj_Java_org_endurox_AtmiCtx_tpbegin", "p_ndrxj_Java_org_endurox_AtmiCtx_tpbegin");
   ("ndrxj_Java_org_endurox_AtmiCtx_tpcommit", "p_ndrxj_Java_org_endurox_AtmiCtx_tpcommit");
   ("ndrxj_Java_org_endurox_AtmiCtx_tpabort", "p_ndrxj_Java_org_endurox_AtmiCtx_tpabort");
   ("ndrxj_Java_org_endurox_AtmiCtx_tpsuspend", "p_ndrxj_Java_org_endurox_AtmiCtx_tpsuspend");
   ("ndrxj_Java_org_endurox_AtmiCtx_tpresume", "p_ndrxj_Java_org_endurox_AtmiCtx_tpresume");
   ("ndrxj_Java_org_endurox_AtmiCtx_tpgetlev", "p_ndrxj_Java_org_endurox_AtmiCtx_tpgetlev");
   ("ndrxj_Java_org_endurox_AtmiCtx_installTermSigHandler", "p_ndrxj_Java_org_endurox_AtmiCtx_installTermSigHandler");
   ("ndrxj_Java_org_endurox_BExprTree_Btreefree", "p_ndrxj_Java_org_endurox_BExprTree_Btreefree");
   ("ndrxj_Java_org_endurox_TypedBuffer_tpfree", "p_ndrxj_Java_org_endurox_TypedBuffer_tpfree");
   ("ndrxj_Java_org_endurox_TypedBuffer_tprealloc", "p_ndrxj_Java_org_endurox_TypedBuffer_tprealloc");
   ("ndrxj_Java_org_endurox_TypedBuffer_tptypes", "p_ndrxj_Java_org_endurox_TypedBuffer_tptypes");
   ("ndrxj_Java_org_endurox_TypedCarray_setBytes", "p_ndrxj_Java_org_endurox_TypedCarray_setBytes");
   ("ndrxj_Java_org_endurox_TypedCarray_getBytes", "p_ndrxj_Java_org_endurox_TypedCarray_getBytes");
   ("ndrxj_Java_org_endurox_TypedJson_setJSON", "p_ndrxj_Java_org_endurox_TypedJson_setJSON");
   ("ndrxj_Java_org_endurox_TypedJson_getJSON", "p_ndrxj_Java_org_endurox_TypedJson_getJSON");
   ("ndrxj_Java_org_endurox_TypedString_setString", "p_ndrxj_Java_org_endurox_TypedString_setString");
   ("ndrxj_Java_org_endurox_TypedString_getString", "p_ndrxj_Java_org_endurox_TypedString_getString");
   ("ndrxj_Java_org_endurox_TypedUbf_Badd__IS", "p_ndrxj_Java_org_endurox_TypedUbf_Badd__IS");
   ("ndrxj_Java_org_endurox_TypedUbf_Badd__IJ", "p_ndrxj_Java_org_endurox_TypedUbf_Badd__IJ");
   ("ndrxj_Java_org_endurox_TypedUbf_Badd__IB", "p_ndrxj_Java_org_endurox_TypedUbf_Badd__IB");
   ("ndrxj_Java_org_endurox_TypedUbf_Badd__IF", "p_ndrxj_Java_org_endurox_TypedUbf_Badd__IF");
   ("ndrxj_Java_org_endurox_TypedUbf_Badd__ID", "p_ndrxj_Java_org_endurox_TypedUbf_Badd__ID");
   ("ndrxj_Java_org_endurox_TypedUbf_Badd__ILjava_lang_String_2", "p_ndrxj_Java_org_endurox_TypedUbf_Badd__ILjava_lang_String_2");
   ("ndrxj_Java_org_endurox_TypedUbf_Badd__I_3B", "p_ndrxj_Java_org_endurox_TypedUbf_Badd__I_3B");
   ("ndrxj_Java_org_endurox_TypedUbf_Bprint", "p_ndrxj_Java_org_endurox_TypedUbf_Bprint");
   ("ndrxj_Java_org_endurox_TypedUbf_BgetShort", "p_ndrxj_Java_org_endurox_TypedUbf_BgetShort");
   ("ndrxj_Java_org_endurox_TypedUbf_BgetLong", "p_ndrxj_Java_org_endurox_TypedUbf_BgetLong");
   ("ndrxj_Java_org_endurox_TypedUbf_BgetByte", "p_ndrxj_Java_org_endurox_TypedUbf_BgetByte");
   ("ndrxj_Java_org_endurox_TypedUbf_BgetFloat", "p_ndrxj_Java_org_endurox_TypedUbf_BgetFloat");
   ("ndrxj_Java_org_endurox_TypedUbf_BgetDouble", "p_ndrxj_Java_org_endurox_TypedUbf_BgetDouble");
   ("ndrxj_Java_org_endurox_TypedUbf_BgetString", "p_ndrxj_Java_org_endurox_TypedUbf_BgetString");
   ("ndrxj_Java_org_endurox_TypedUbf_BgetByteArr", "p_ndrxj_Java_org_endurox_TypedUbf_BgetByteArr");
   ("ndrxj_Java_org_endurox_TypedUbf_Baddfast__ISLorg_endurox_BFldLocInfo_2", "p_ndrxj_Java_org_endurox_TypedUbf_Baddfast__ISLorg_endurox_BFldLocInfo_2");
   ("ndrxj_Java_org_endurox_TypedUbf_Baddfast__IJLorg_endurox_BFldLocInfo_2", "p_ndrxj_Java_org_endurox_TypedUbf_Baddfast__IJLorg_endurox_BFldLocInfo_2");
   ("ndrxj_Java_org_endurox_TypedUbf_Baddfast__IBLorg_endurox_BFldLocInfo_2", "p_ndrxj_Java_org_endurox_TypedUbf_Baddfast__IBLorg_endurox_BFldLocInfo_2");
   ("ndrxj_Java_org_endurox_TypedUbf_Baddfast__IFLorg_endurox_BFldLocInfo_2", "p_ndrxj_Java_org_endurox_TypedUbf_Baddfast__IFLorg_endurox_BFldLocInfo_2");
   ("ndrxj_Java_org_endurox_TypedUbf_Baddfast__IDLorg_endurox_BFldLocInfo_2", "p_ndrxj_Java_org_endurox_TypedUbf_Baddfast__IDLorg_endurox_BFldLocInfo_2");
   ("ndrxj_Java_org_endurox_TypedUbf_Baddfast__ILjava_lang_String_2Lorg_endurox_BFldLocInfo_2", "p_ndrxj_Java_org_endurox_TypedUbf_Baddfast__ILjava_lang_String_2Lorg_endurox_BFldLocInfo_2");
   ("ndrxj_Java_org_endurox_TypedUbf_Baddfast__I_3BLorg_endurox_BFldLocInfo_2", "p_ndrxj_Java_org_endurox_TypedUbf_Baddfast__I_3BLorg_endurox_BFldLocInfo_2");
   ("ndrxj_Java_org_endurox_TypedUbf_Bchg__IIS", "p_ndrxj_Java_org_endurox_TypedUbf_Bchg__IIS");
   ("ndrxj_Java_org_endurox_TypedUbf_Bchg__IIJ", "p_ndrxj_Java_org_endurox_TypedUbf_Bchg__IIJ");
   ("ndrxj_Java_org_endurox_TypedUbf_Bchg__IIB", "p_ndrxj_Java_org_endurox_TypedUbf_Bchg__IIB");
   ("ndrxj_Java_org_endurox_TypedUbf_Bchg__IIF", "p_ndrxj_Java_org_endurox_TypedUbf_Bchg__IIF");
   ("ndrxj_Java_org_endurox_TypedUbf_Bchg__IID", "p_ndrxj_Java_org_endurox_TypedUbf_Bchg__IID");
   ("ndrxj_Java_org_endurox_TypedUbf_Bchg__IILjava_lang_String_2", "p_ndrxj_Java_org_endurox_TypedUbf_Bchg__IILjava_lang_String_2");
   ("ndrxj_Java_org_endurox_TypedUbf_Bchg__II_3B", "p_ndrxj_Java_org_endurox_TypedUbf_Bchg__II_3B");
   ("ndrxj_Java_org_endurox_TypedUbf_Bboolev", "p_ndrxj_Java_org_endurox_TypedUbf_Bboolev");
   ("ndrxj_Java_org_endurox_TypedUbf_Bqboolev", "p_ndrxj_Java_org_endurox_TypedUbf_Bqboolev");
   ("ndrxj_Java_org_endurox_TypedUbf_Bfloatev", "p_ndrxj_Java_org_endurox_TypedUbf_Bfloatev");
   ("ndrxj_Java_org_endurox_TypedUbf_Bdel", "p_ndrxj_Java_org_endurox_TypedUbf_Bdel");
   ("ndrxj_Java_org_endurox_TypedUbf_Bdelall", "p_ndrxj_Java_org_endurox_TypedUbf_Bdelall");
   ("ndrxj_Java_org_endurox_TypedUbf_Bpres", "p_ndrxj_Java_org_endurox_TypedUbf_Bpres");
   ("ndrxj_Java_org_endurox_TypedUbf_Bextread", "p_ndrxj_Java_org_endurox_TypedUbf_Bextread");
   ("ndrxj_Java_org_endurox_TypedUbf_Bisubf", "p_ndrxj_Java_org_endurox_TypedUbf_Bisubf");
   ("ndrxj_Java_org_endurox_TypedUbf_Blen", "p_ndrxj_Java_org_endurox_TypedUbf_Blen");
   ("ndrxj_Java_org_endurox_TypedUbf_Bnext", "p_ndrxj_Java_org_endurox_TypedUbf_Bnext");
   ("ndrxj_Java_org_endurox_TypedUbf_Boccur", "p_ndrxj_Java_org_endurox_TypedUbf_Boccur");
   ("ndrxj_Java_org_endurox_TypedUbf_Bread", "p_ndrxj_Java_org_endurox_TypedUbf_Bread");
   ("ndrxj_Java_org_endurox_TypedUbf_Bwrite", "p_ndrxj_Java_org_endurox_TypedUbf_Bwrite");
   ("ndrxj_Java_org_endurox_TypedUbf_Bsizeof", "p_ndrxj_Java_org_endurox_TypedUbf_Bsizeof");
   ("ndrxj_Java_org_endurox_TypedUbf_Bunused", "p_ndrxj_Java_org_endurox_TypedUbf_Bunused");
   ("ndrxj_Java_org_endurox_TypedUbf_Bused", "p_ndrxj_Java_org_endurox_TypedUbf_Bused");
   ("ndrxj_Java_org_endurox_TypedUbf_Binit", "p_ndrxj_Java_org_endurox_TypedUbf_Binit");
   ("ndrxj_Java_org_endurox_TypedUbf_Bproj", "p_ndrxj_Java_org_endurox_TypedUbf_Bproj");
   ("ndrxj_Java_org_endurox_TypedUbf_Bdelete", "p_ndrxj_Java_org_endurox_TypedUbf_Bdelete");
   ("ndrxj_Java_org_endurox_TypedUbf_Bconcat", "p_ndrxj_Java_org_endurox_TypedUbf_Bconcat");
   ("ndrxj_Java_org_endurox_TypedUbf_Bcpy", "p_ndrxj_Java_org_endurox_TypedUbf_Bcpy");
   ("ndrxj_Java_org_endurox_TypedUbf_Bprojcpy", "p_ndrxj_Java_org_endurox_TypedUbf_Bprojcpy");
   ("ndrxj_Java_org_endurox_TypedUbf_Bupdate", "p_ndrxj_Java_org_endurox_TypedUbf_Bupdate");
   ("ndrxj_Java_org_endurox_TypedUbf_Bcmp", "p_ndrxj_Java_org_endurox_TypedUbf_Bcmp");
   ("ndrxj_Java_org_endurox_TypedUbf_Bsubset", "p_ndrxj_Java_org_endurox_TypedUbf_Bsubset");
   ("ndrxj_Java_org_endurox_TypedUbf_tpjsontoubf", "p_ndrxj_Java_org_endurox_TypedUbf_tpjsontoubf");
   ("ndrxj_Java_org_endurox_TypedUbf_tpubftojson", "p_ndrxj_Java_org_endurox_TypedUbf_tpubftojson");
   ("ndrxj_Java_org_endurox_TypedUbf_tplogprintubf", "p_ndrxj_Java_org_endurox_TypedUbf_tplogprintubf");
   ("ndrxj_Java_org_endurox_TypedUbf_Bnum", "p_ndrxj_Java_org_endurox_TypedUbf_Bnum");
   ("ndrxj_Java_org_endurox_TypedUbf_Bjoin", "p_ndrxj_Java_org_endurox_TypedUbf_Bjoin");
   ("ndrxj_Java_org_endurox_TypedUbf_Bojoin", "p_ndrxj_Java_org_endurox_TypedUbf_Bojoin")].

(** From [AtmiCtx_getAtmiError] to [AtmiCtx_tpRunC]. *)
Definition entries_1 : list jni_entry :=
  [Entry "Java_org_endurox_AtmiCtx_getAtmiError" T_jobject [T_JNIEnv; T_jobject]
      "p_ndrxj_Java_org_endurox_AtmiCtx_getAtmiError" [0; 1] (Fail_zero T_jobject);
   Entry "Java_org_endurox_AtmiCtx_tpnewctxt" T_jlong [T_JNIEnv; T_jclass]
      "p_ndrxj_Java_org_endurox_AtmiCtx_tpnewctxt" [0; 1] (Fail_zero T_jlong);
   Entry "Java_org_endurox_AtmiCtx_tpfreectxt" T_void [T_JNIEnv; T_jclass; T_jlong]
      "p_ndrxj_Java_org_endurox_AtmiCtx_tpfreectxt" [0; 1; 2] Fail_void;
   Entry "Java_org_endurox_AtmiCtx_tpalloc" T_jobject [T_JNIEnv; T_jobject; T_jstring; T_jstring; T_jlong]
      "p_ndrxj_Java_org_endurox_AtmiCtx_tpalloc" [0; 1; 2; 3; 4] (Fail_zero T_jobject);
   Entry "Java_org_endurox_AtmiCtx_tpterm" T_void [T_JNIEnv; T_jobject]
      "p_ndrxj_Java_org_endurox_AtmiCtx_tpterm" [0; 1] Fail_void;
   Entry "Java_org_endurox_AtmiCtx_finalizeC" T_void [T_JNIEnv; T_jclass; T_jlong]
      "p_ndrxj_Java_org_endurox_AtmiCtx_finalizeC" [0; 1; 2] Fail_void;
   Entry "Java_org_endurox_AtmiCtx_tpreturn" T_void [T_JNIEnv; T_jobject; T_jint; T_jlong; T_jobject; T_jlong]
      "p_ndrxj_Java_org_endurox_AtmiCtx_tpreturn" [0; 1; 2; 3; 4; 5] Fail_void;
   Entry "Java_org_endurox_AtmiCtx_tpforward" T_void [T_JNIEnv; T_jobject; T_jstring; T_jobject; T_jlong]
      "p_ndrxj_Java_org_endurox_AtmiCtx_tpforward" [0; 1; 2; 3; 4] Fail_void;
   Entry "Java_org_endurox_AtmiCtx_tpRunC" T_jint [T_JNIEnv; T_jobject; T_jobjectArray; T_jboolean]
      "p_ndrxj_Java_org_endurox_AtmiCtx_tpRunC" [0; 1; 2; 3] (Fail_zero T_jint)].

(** From [AtmiCtx_tplogC] to [AtmiCtx_tplogsetreqfile]. *)
Definition entries_2 : list jni_entry :=
  [Entry "Java_org_endurox_AtmiCtx_tplogC" T_void [T_JNIEnv; T_jobject; T_jint; T_jstring; T_jlong; T_jstring]
      "p_ndrxj_Java_org_endurox_AtmiCtx_tplogC" [0; 1; 2; 3; 4; 5] Fail_void;
   Entry "Java_org_endurox_AtmiCtx_tplogndrxC" T_void [T_JNIEnv; T_jobject; T_jint; T_jstring; T_jlong; T_jstring]
      "p_ndrxj_Java_org_endurox_AtmiCtx_tplogndrxC" [0; 1; 2; 3; 4; 5] Fail_void;
   Entry "Java_org_endurox_AtmiCtx_tpadvertiseC" T_void [T_JNIEnv; T_jobject; T_jstring; T_jstring]
      "p_ndrxj_Java_org_endurox_AtmiCtx_tpadvertiseC" [0; 1; 2; 3] Fail_void;
   Entry "Java_org_endurox_AtmiCtx_tplogdelbufreqfile" T_void [T_JNIEnv; T_jobject; T_jobject]
      "p_ndrxj_Java_org_endurox_AtmiCtx_tplogdelbufreqfile" [0; 1; 2] Fail_void;
   Entry "Java_org_endurox_AtmiCtx_tplogqinfo" T_jint [T_JNIEnv; T_jobject; T_jint; T_jlong]
      "p_ndrxj_Java_org_endurox_AtmiCtx_tplogqinfo" [0; 1; 2; 3] (Fail_zero T_jint);
   Entry "Java_org_endurox_AtmiCtx_tplogubfex" T_void [T_JNIEnv; T_jobject; T_jint; T_jstring; T_jthrowable]
      "p_ndrxj_Java_org_endurox_AtmiCtx_tplogubfex" [0; 1; 2; 3; 4] Fail_void;
   Entry "Java_org_endurox_AtmiCtx_tplogndrxex" T_void [T_JNIEnv; T_jobject; T_jint; T_jstring; T_jthrowable]
      "p_ndrxj_Java_org_endurox_AtmiCtx_tplogndrxex" [0; 1; 2; 3; 4] Fail_void;
   Entry "Java_org_endurox_AtmiCtx_tplogex" T_void [T_JNIEnv; T_jobject; T_jint; T_jstring; T_jthrowable]
      "p_ndrxj_Java_org_endurox_AtmiCtx_tplogex" [0; 1; 2; 3; 4] Fail_void;
   Entry "Java_org_endurox_AtmiCtx_tplogsetreqfile" T_void [T_JNIEnv; T_jobject; T_jobject; T_jstring; T_jstring]
      "p_ndrxj_Java_org_endurox_AtmiCtx_tplogsetreqfile" [0; 1; 2; 3; 4] Fail_void].

(** From [AtmiCtx_tploggetbufreqfile] to [AtmiCtx_tpinit]. *)
Definition entries_3 : list jni_entry :=
  [Entry "Java_org_endurox_AtmiCtx_tploggetbufreqfile" T_jstring [T_JNIEnv; T_jobject; T_jobject]
      "p_ndrxj_Java_org_endurox_AtmiCtx_tploggetbufreqfile" [0; 1; 2] (Fail_zero T_jstring);
   Entry "Java_org_endurox_AtmiCtx_tploggetreqfile" T_jstring [T_JNIEnv; T_jobject]
      "p_ndrxj_Java_org_endurox_AtmiCtx_tploggetreqfile" [0; 1] (Fail_zero T_jstring);
   Entry "Java_org_endurox_AtmiCtx_tplogsetreqfile_1direct" T_void [T_JNIEnv; T_jobject; T_jstring]
      "p_ndrxj_Java_org_endurox_AtmiCtx_tplogsetreqfile_1direct" [0; 1; 2] Fail_void;
   Entry "Java_org_endurox_AtmiCtx_tplogclosereqfile" T_void [T_JNIEnv; T_jobject]
      "p_ndrxj_Java_org_endurox_AtmiCtx_tplogclosereqfile" [0; 1] Fail_void;
   Entry "Java_org_endurox_AtmiCtx_tplogconfig" T_void [T_JNIEnv; T_jobject; T_jint; T_jint; T_jstring; T_jstring; T_jstring]
      "p_ndrxj_Java_org_endurox_AtmiCtx_tplogconfig" [0; 1; 2; 3; 4; 5; 6] Fail_void;
   Entry "Java_org_endurox_AtmiCtx_userlogex" T_void [T_JNIEnv; T_jobject; T_jstring; T_jthrowable]
      "p_ndrxj_Java_org_endurox_AtmiCtx_userlogex" [0; 1; 2; 3] Fail_void;
   Entry "Java_org_endurox_AtmiCtx_tplogDump" T_void [T_JNIEnv; T_jobject; T_jint; T_jstring; T_jbyteArray]
      "p_ndrxj_Java_org_endurox_AtmiCtx_tplogDump" [0; 1; 2; 3; 4] Fail_void;
   Entry "Java_org_endurox_AtmiCtx_tplogDumpDiff" T_void [T_JNIEnv; T_jobject; T_jint; T_jstring; T_jbyteArray; T_jbyteArray]
      "p_ndrxj_Java_org_endurox_AtmiCtx_tplogDumpDiff" [0; 1; 2; 3; 4; 5] Fail_void;
   Entry "Java_org_endurox_AtmiCtx_tpinit" T_void [T_JNIEnv; T_jobject; T_jobject]
      "p_ndrxj_Java_org_endurox_AtmiCtx_tpinit" [0; 1; 2] Fail_void].

(** From [AtmiCtx_userlogC] to [AtmiCtx_tpcancel]. *)
Definition entries_4 : list jni_entry :=
  [Entry "Java_org_endurox_AtmiCtx_userlogC" T_void [T_JNIEnv; T_jobject; T_jstring]
      "p_ndrxj_Java_org_endurox_AtmiCtx_userlogC" [0; 1; 2] Fail_void;
   Entry "Java_org_endurox_AtmiCtx_tpcall" T_jobject [T_JNIEnv; T_jobject; T_jstring; T_jobject; T_jlong]
      "p_ndrxj_Java_org_endurox_AtmiCtx_tpcall" [0; 1; 2; 3; 4] (Fail_zero T_jobject);
   Entry "Java_org_endurox_AtmiCtx_tpacall" T_jint [T_JNIEnv; T_jobject; T_jstring; T_jobject; T_jlong]
      "p_ndrxj_Java_org_endurox_AtmiCtx_tpacall" [0; 1; 2; 3; 4] (Fail_zero T_jint);
   Entry "Java_org_endurox_AtmiCtx_tpgetrply" T_jobject [T_JNIEnv; T_jobject; T_jint; T_jobject; T_jlong]
      "p_ndrxj_Java_org_endurox_AtmiCtx_tpgetrply" [0; 1; 2; 3; 4] (Fail_zero T_jobject);
   Entry "Java_org_endurox_AtmiCtx_tpconnect" T_jint [T_JNIEnv; T_jobject; T_jstring; T_jobject; T_jlong]
      "p_ndrxj_Java_org_endurox_AtmiCtx_tpconnect" [0; 1; 2; 3; 4] (Fail_zero T_jint);
   Entry "Java_org_endurox_AtmiCtx_tpsend" T_jlong [T_JNIEnv; T_jobject; T_jint; T_jobject; T_jlong]
      "p_ndrxj_Java_org_endurox_AtmiCtx_tpsend" [0; 1; 2; 3; 4] (Fail_zero T_jlong);
   Entry "Java_org_endurox_AtmiCtx_tprecv" T_jobject [T_JNIEnv; T_jobject; T_jint; T_jobject; T_jlong]
      "p_ndrxj_Java_org_endurox_AtmiCtx_tprecv" [0; 1; 2; 3; 4] (Fail_zero T_jobject);
   Entry "Java_org_endurox_AtmiCtx_tpdiscon" T_void [T_JNIEnv; T_jobject; T_jint]
      "p_ndrxj_Java_org_endurox_AtmiCtx_tpdiscon" [0; 1; 2] Fail_void;
   Entry "Java_org_endurox_AtmiCtx_tpcancel" T_void [T_JNIEnv; T_jobject; T_jint]
      "p_ndrxj_Java_org_endurox_AtmiCtx_tpcancel" [0; 1; 2] Fail_void].

(** From [AtmiCtx_Bboolco] to [AtmiCtx_tptoutset]. *)
Definition entries_5 : list jni_entry :=
  [Entry "Java_org_endurox_AtmiCtx_Bboolco" T_jobject [T_JNIEnv; T_jobject; T_jstring]
      "p_ndrxj_Java_org_endurox_AtmiCtx_Bboolco" [0; 1; 2] (Fail_zero T_jobject);
   Entry "Java_org_endurox_AtmiCtx_Bboolpr" T_void [T_JNIEnv; T_jobject; T_jobject; T_jobject]
      "p_ndrxj_Java_org_endurox_AtmiCtx_Bboolpr" [0; 1; 2; 3] Fail_void;
   Entry "Java_org_endurox_AtmiCtx_BboolsetcbfC" T_void [T_JNIEnv; T_jobject; T_jstring]
      "p_ndrxj_Java_org_endurox_AtmiCtx_BboolsetcbfC" [0; 1; 2] Fail_void;
   Entry "Java_org_endurox_AtmiCtx_Btype" T_jstring [T_JNIEnv; T_jobject; T_jint]
      "p_ndrxj_Java_org_endurox_AtmiCtx_Btype" [0; 1; 2] (Fail_zero T_jstring);
   Entry "Java_org_endurox_AtmiCtx_Bfname" T_jstring [T_JNIEnv; T_jobject; T_jint]
      "p_ndrxj_Java_org_endurox_AtmiCtx_Bfname" [0; 1; 2] (Fail_zero T_jstring);
   Entry "Java_org_endurox_AtmiCtx_Bfldid" T_jint [T_JNIEnv; T_jobject; T_jstring]
      "p_ndrxj_Java_org_endurox_AtmiCtx_Bfldid" [0; 1; 2] (Fail_zero T_jint);
   Entry "Java_org_endurox_AtmiCtx_tptoutget" T_jint [T_JNIEnv; T_jobject]
      "p_ndrxj_Java_org_endurox_AtmiCtx_tptoutget" [0; 1] (Fail_zero T_jint);
   Entry "Java_org_endurox_AtmiCtx_tpurcode" T_jlong [T_JNIEnv; T_jobject]
      "p_ndrxj_Java_org_endurox_AtmiCtx_tpurcode" [0; 1] (Fail_zero T_jlong);
   Entry "Java_org_endurox_AtmiCtx_tptoutset" T_void [T_JNIEnv; T_jobject; T_jint]
      "p_ndrxj_Java_org_endurox_AtmiCtx_tptoutset" [0; 1; 2] Fail_void].

(** From [AtmiCtx_getBuffers] to [AtmiCtx_tpdequeueex]. *)
Definition entries_6 : list jni_entry :=
  [Entry "Java_org_endurox_AtmiCtx_getBuffers" T_jlongArray [T_JNIEnv; T_jobject]
      "p_ndrxj_Java_org_endurox_AtmiCtx_getBuffers" [0; 1] (Fail_zero T_jlongArray);
   Entry "Java_org_endurox_AtmiCtx_tpsetunsolC" T_void [T_JNIEnv; T_jobject; T_jobject]
      "p_ndrxj_Java_org_endurox_AtmiCtx_tpsetunsolC" [0; 1; 2] Fail_void;
   Entry "Java_org_endurox_AtmiCtx_tpnotify" T_void [T_JNIEnv; T_jobject; T_jobject; T_jobject; T_jlong]
      "p_ndrxj_Java_org_endurox_AtmiCtx_tpnotify" [0; 1; 2; 3; 4] Fail_void;
   Entry "Java_org_endurox_AtmiCtx_tpbroadcast" T_void [T_JNIEnv; T_jobject; T_jstring; T_jstring; T_jstring; T_jobject; T_jlong]
      "p_ndrxj_Java_org_endurox_AtmiCtx_tpbroadcast" [0; 1; 2; 3; 4; 5; 6] Fail_void;
   Entry "Java_org_endurox_AtmiCtx_tpchkunsol" T_jint [T_JNIEnv; T_jobject]
      "p_ndrxj_Java_org_endurox_AtmiCtx_tpchkunsol" [0; 1] (Fail_zero T_jint);
   Entry "Java_org_endurox_AtmiCtx_tpenqueue" T_void [T_JNIEnv; T_jobject; T_jstring; T_jstring; T_jobject; T_jobject; T_jlong]
      "p_ndrxj_Java_org_endurox_AtmiCtx_tpenqueue" [0; 1; 2; 3; 4; 5; 6] Fail_void;
   Entry "Java_org_endurox_AtmiCtx_tpenqueueex" T_void [T_JNIEnv; T_jobject; T_jshort; T_jshort; T_jstring; T_jobject; T_jobject; T_jlong]
      "p_ndrxj_Java_org_endurox_AtmiCtx_tpenqueueex" [0; 1; 2; 3; 4; 5; 6; 7] Fail_void;
   Entry "Java_org_endurox_AtmiCtx_tpdequeue" T_jobject [T_JNIEnv; T_jobject; T_jstring; T_jstring; T_jobject; T_jobject; T_jlong]
      "p_ndrxj_Java_org_endurox_AtmiCtx_tpdequeue" [0; 1; 2; 3; 4; 5; 6] (Fail_zero T_jobject);
   Entry "Java_org_endurox_AtmiCtx_tpdequeueex" T_jobject [T_JNIEnv; T_jobject; T_jshort; T_jshort; T_jstring; T_jobject; T_jobject; T_jlong]
      "p_ndrxj_Java_org_endurox_AtmiCtx_tpdequeueex" [0; 1; 2; 3; 4; 5; 6; 7] (Fail_zero T_jobject)].

(** From [AtmiCtx_tpsrvgetctxdata] to [AtmiCtx_tpabort]. *)
Definition entries_7 : list jni_entry :=
  [Entry "Java_org_endurox_AtmiCtx_tpsrvgetctxdata" T_jlong [T_JNIEnv; T_jobject]
      "p_ndrxj_Java_org_endurox_AtmiCtx_tpsrvgetctxdata" [0; 1] (Fail_zero T_jlong);
   Entry "Java_org_endurox_AtmiCtx_tpsrvsetctxdata" T_void [T_JNIEnv; T_jobject; T_jlong; T_jlong]
      "p_ndrxj_Java_org_endurox_AtmiCtx_tpsrvsetctxdata" [0; 1; 2; 3] Fail_void;
   Entry "Java_org_endurox_AtmiCtx_tpsrvfreectxdata" T_void [T_JNIEnv; T_jobject; T_jlong]
      "p_ndrxj_Java_org_endurox_AtmiCtx_tpsrvfreectxdata" [0; 1; 2] Fail_void;
   Entry "Java_org_endurox_AtmiCtx_tpcontinue" T_void [T_JNIEnv; T_jobject]
      "p_ndrxj_Java_org_endurox_AtmiCtx_tpcontinue" [0; 1] Fail_void;
   Entry "Java_org_endurox_AtmiCtx_tpopen" T_void [T_JNIEnv; T_jobject]
      "p_ndrxj_Java_org_endurox_AtmiCtx_tpopen" [0; 1] Fail_void;
   Entry "Java_org_endurox_AtmiCtx_tpclose" T_void [T_JNIEnv; T_jobject]
      "p_ndrxj_Java_org_endurox_AtmiCtx_tpclose" [0; 1] Fail_void;
   Entry "Java_org_endurox_AtmiCtx_tpbegin" T_void [T_JNIEnv; T_jobject; T_jlong; T_jlong]
      "p_ndrxj_Java_org_endurox_AtmiCtx_tpbegin" [0; 1; 2; 3] Fail_void;
   Entry "Java_org_endurox_AtmiCtx_tpcommit" T_void [T_JNIEnv; T_jobject; T_jlong]
      "p_ndrxj_Java_org_endurox_AtmiCtx_tpcommit" [0; 1; 2] Fail_void;
   Entry "Java_org_endurox_AtmiCtx_tpabort" T_void [T_JNIEnv; T_jobject; T_jlong]
      "p_ndrxj_Java_org_endurox_AtmiCtx_tpabort" [0; 1; 2] Fail_void].

(** From [AtmiCtx_tpsuspend] to [TypedCarray_setBytes]. *)
Definition entries_8 : list jni_entry :=
  [Entry "Java_org_endurox_AtmiCtx_tpsuspend" T_jobject [T_JNIEnv; T_jobject; T_jlong]
      "p_ndrxj_Java_org_endurox_AtmiCtx_tpsuspend" [0; 1; 2] (Fail_zero T_jobject);
   Entry "Java_org_endurox_AtmiCtx_tpresume" T_void [T_JNIEnv; T_jobject; T_jobject; T_jlong]
      "p_ndrxj_Java_org_endurox_AtmiCtx_tpresume" [0; 1; 2; 3] Fail_void;
   Entry "Java_org_endurox_AtmiCtx_tpgetlev" T_jint [T_JNIEnv; T_jobject]
      "p_ndrxj_Java_org_endurox_AtmiCtx_tpgetlev" [0; 1] (Fail_zero T_jint);
   Entry "Java_org_endurox_AtmiCtx_installTermSigHandler" T_void [T_JNIEnv; T_jobject; T_jobject]
      "p_ndrxj_Java_org_endurox_AtmiCtx_installTermSigHandler" [0; 1; 2] Fail_void;
   Entry "Java_org_endurox_BExprTree_Btreefree" T_void [T_JNIEnv; T_jobject; T_jlong]
      "p_ndrxj_Java_org_endurox_BExprTree_Btreefree" [0; 1; 2] Fail_void;
   Entry "Java_org_endurox_TypedBuffer_tpfree" T_void [T_JNIEnv; T_jobject; T_jlong]
      "p_ndrxj_Java_org_endurox_TypedBuffer_tpfree" [0; 1; 2] Fail_void;
   Entry "Java_org_endurox_TypedBuffer_tprealloc" T_void [T_JNIEnv; T_jobject; T_jlong]
      "p_ndrxj_Java_org_endurox_TypedBuffer_tprealloc" [0; 1; 2] Fail_void;
   Entry "Java_org_endurox_TypedBuffer_tptypes" T_jobject [T_JNIEnv; T_jobject]
      "p_ndrxj_Java_org_endurox_TypedBuffer_tptypes" [0; 1] (Fail_zero T_jobject);
   Entry "Java_org_endurox_TypedCarray_setBytes" T_void [T_JNIEnv; T_jobject; T_jbyteArray]
      "p_ndrxj_Java_org_endurox_TypedCarray_setBytes" [0; 1; 2] Fail_void].

(** From [TypedCarray_getBytes] to [TypedUbf_Badd__IF]. *)
Definition entries_9 : list jni_entry :=
  [Entry "Java_org_endurox_TypedCarray_getBytes" T_jbyteArray [T_JNIEnv; T_jobject]
      "p_ndrxj_Java_org_endurox_TypedCarray_getBytes" [0; 1] (Fail_zero T_jbyteArray);
   Entry "Java_org_endurox_TypedJson_setJSON" T_void [T_JNIEnv; T_jobject; T_jstring]
      "p_ndrxj_Java_org_endurox_TypedJson_setJSON" [0; 1; 2] Fail_void;
   Entry "Java_org_endurox_TypedJson_getJSON" T_jstring [T_JNIEnv; T_jobject]
      "p_ndrxj_Java_org_endurox_TypedJson_getJSON" [0; 1] (Fail_zero T_jstring);
   Entry "Java_org_endurox_TypedString_setString" T_void [T_JNIEnv; T_jobject; T_jstring]
      "p_ndrxj_Java_org_endurox_TypedString_setString" [0; 1; 2] Fail_void;
   Entry "Java_org_endurox_TypedString_getString" T_jstring [T_JNIEnv; T_jobject]
      "p_ndrxj_Java_org_endurox_TypedString_getString" [0; 1] (Fail_zero T_jstring);
   Entry "Java_org_endurox_TypedUbf_Badd__IS" T_void [T_JNIEnv; T_jobject; T_jint; T_jshort]
      "p_ndrxj_Java_org_endurox_TypedUbf_Badd__IS" [0; 1; 2; 3] Fail_void;
   Entry "Java_org_endurox_TypedUbf_Badd__IJ" T_void [T_JNIEnv; T_jobject; T_jint; T_jlong]
      "p_ndrxj_Java_org_endurox_TypedUbf_Badd__IJ" [0; 1; 2; 3] Fail_void;
   Entry "Java_org_endurox_TypedUbf_Badd__IB" T_void [T_JNIEnv; T_jobject; T_jint; T_jbyte]
      "p_ndrxj_Java_org_endurox_TypedUbf_Badd__IB" [0; 1; 2; 3] Fail_void;
   Entry "Java_org_endurox_TypedUbf_Badd__IF" T_void [T_JNIEnv; T_jobject; T_jint; T_jfloat]
      "p_ndrxj_Java_org_endurox_TypedUbf_Badd__IF" [0; 1; 2; 3] Fail_void].

(** From [TypedUbf_Badd__ID] to [TypedUbf_BgetDouble]. *)
Definition entries_10 : list jni_entry :=
  [Entry "Java_org_endurox_TypedUbf_Badd__ID" T_void [T_JNIEnv; T_jobject; T_jint; T_jdouble]
      "p_ndrxj_Java_org_endurox_TypedUbf_Badd__ID" [0; 1; 2; 3] Fail_void;
   Entry "Java_org_endurox_TypedUbf_Badd__ILjava_lang_String_2" T_void [T_JNIEnv; T_jobject; T_jint; T_jstring]
      "p_ndrxj_Java_org_endurox_TypedUbf_Badd__ILjava_lang_String_2" [0; 1; 2; 3] Fail_void;
   Entry "Java_org_endurox_TypedUbf_Badd__I_3B" T_void [T_JNIEnv; T_jobject; T_jint; T_jbyteArray]
      "p_ndrxj_Java_org_endurox_TypedUbf_Badd__I_3B" [0; 1; 2; 3] Fail_void;
   Entry "Java_org_endurox_TypedUbf_Bprint" T_void [T_JNIEnv; T_jobject]
      "p_ndrxj_Java_org_endurox_TypedUbf_Bprint" [0; 1] Fail_void;
   Entry "Java_org_endurox_TypedUbf_BgetShort" T_jshort [T_JNIEnv; T_jobject; T_jint; T_jint]
      "p_ndrxj_Java_org_endurox_TypedUbf_BgetShort" [0; 1; 2; 3] (Fail_zero T_jshort);
   Entry "Java_org_endurox_TypedUbf_BgetLong" T_jlong [T_JNIEnv; T_jobject; T_jint; T_jint]
      "p_ndrxj_Java_org_endurox_TypedUbf_BgetLong" [0; 1; 2; 3] (Fail_zero T_jlong);
   Entry "Java_org_endurox_TypedUbf_BgetByte" T_jbyte [T_JNIEnv; T_jobject; T_jint; T_jint]
      "p_ndrxj_Java_org_endurox_TypedUbf_BgetByte" [0; 1; 2; 3] (Fail_zero T_jbyte);
   Entry "Java_org_endurox_TypedUbf_BgetFloat" T_jfloat [T_JNIEnv; T_jobject; T_jint; T_jint]
      "p_ndrxj_Java_org_endurox_TypedUbf_BgetFloat" [0; 1; 2; 3] (Fail_zero T_jfloat);
   Entry "Java_org_endurox_TypedUbf_BgetDouble" T_jdouble [T_JNIEnv; T_jobject; T_jint; T_jint]
      "p_ndrxj_Java_org_endurox_TypedUbf_BgetDouble" [0; 1; 2; 3] (Fail_zero T_jdouble)].

(** From [TypedUbf_BgetString] to [TypedUbf_Baddfast__I_3BLorg_endurox_BFldLocInfo_2]. *)
Definition entries_11 : list jni_entry :=
  [Entry "Java_org_endurox_TypedUbf_BgetString" T_jstring [T_JNIEnv; T_jobject; T_jint; T_jint]
      "p_ndrxj_Java_org_endurox_TypedUbf_BgetString" [0; 1; 2; 3] (Fail_zero T_jstring);
   Entry "Java_org_endurox_TypedUbf_BgetByteArr" T_jbyteArray [T_JNIEnv; T_jobject; T_jint; T_jint]
      "p_ndrxj_Java_org_endurox_TypedUbf_BgetByteArr" [0; 1; 2; 3] (Fail_zero T_jbyteArray);
   Entry "Java_org_endurox_TypedUbf_Baddfast__ISLorg_endurox_BFldLocInfo_2" T_void [T_JNIEnv; T_jobject; T_jint; T_jshort; T_jobject]
      "p_ndrxj_Java_org_endurox_TypedUbf_Baddfast__ISLorg_endurox_BFldLocInfo_2" [0; 1; 2; 3; 4] Fail_void;
   Entry "Java_org_endurox_TypedUbf_Baddfast__IJLorg_endurox_BFldLocInfo_2" T_void [T_JNIEnv; T_jobject; T_jint; T_jlong; T_jobject]
      "p_ndrxj_Java_org_endurox_TypedUbf_Baddfast__IJLorg_endurox_BFldLocInfo_2" [0; 1; 2; 3; 4] Fail_void;
   Entry "Java_org_endurox_TypedUbf_Baddfast__IBLorg_endurox_BFldLocInfo_2" T_void [T_JNIEnv; T_jobject; T_jint; T_jbyte; T_jobject]
      "p_ndrxj_Java_org_endurox_TypedUbf_Baddfast__IBLorg_endurox_BFldLocInfo_2" [0; 1; 2; 3; 4] Fail_void;
   Entry "Java_org_endurox_TypedUbf_Baddfast__IFLorg_endurox_BFldLocInfo_2" T_void [T_JNIEnv; T_jobject; T_jint; T_jfloat; T_jobject]
      "p_ndrxj_Java_org_endurox_TypedUbf_Baddfast__IFLorg_endurox_BFldLocInfo_2" [0; 1; 2; 3; 4] Fail_void;
   Entry "Java_org_endurox_TypedUbf_Baddfast__IDLorg_endurox_BFldLocInfo_2" T_void [T_JNIEnv; T_jobject; T_jint; T_jdouble; T_jobject]
      "p_ndrxj_Java_org_endurox_TypedUbf_Baddfast__IDLorg_endurox_BFldLocInfo_2" [0; 1; 2; 3; 4] Fail_void;
   Entry "Java_org_endurox_TypedUbf_Baddfast__ILjava_lang_String_2Lorg_endurox_BFldLocInfo_2" T_void [T_JNIEnv; T_jobject; T_jint; T_jstring; T_jobject]
      "p_ndrxj_Java_org_endurox_TypedUbf_Baddfast__ILjava_lang_String_2Lorg_endurox_BFldLocInfo_2" [0; 1; 2; 3; 4] Fail_void;
   Entry "Java_org_endurox_TypedUbf_Baddfast__I_3BLorg_endurox_BFldLocInfo_2" T_void [T_JNIEnv; T_jobject; T_jint; T_jbyteArray; T_jobject]
      "p_ndrxj_Java_org_endurox_TypedUbf_Baddfast__I_3BLorg_endurox_BFldLocInfo_2" [0; 1; 2; 3; 4] Fail_void].

(** From [TypedUbf_Bchg__IIS] to [TypedUbf_Bqboolev]. *)
Definition entries_12 : list jni_entry :=
  [Entry "Java_org_endurox_TypedUbf_Bchg__IIS" T_void [T_JNIEnv; T_jobject; T_jint; T_jint; T_jshort]
      "p_ndrxj_Java_org_endurox_TypedUbf_Bchg__IIS" [0; 1; 2; 3; 4] Fail_void;
   Entry "Java_org_endurox_TypedUbf_Bchg__IIJ" T_void [T_JNIEnv; T_jobject; T_jint; T_jint; T_jlong]
      "p_ndrxj_Java_org_endurox_TypedUbf_Bchg__IIJ" [0; 1; 2; 3; 4] Fail_void;
   Entry "Java_org_endurox_TypedUbf_Bchg__IIB" T_void [T_JNIEnv; T_jobject; T_jint; T_jint; T_jbyte]
      "p_ndrxj_Java_org_endurox_TypedUbf_Bchg__IIB" [0; 1; 2; 3; 4] Fail_void;
   Entry "Java_org_endurox_TypedUbf_Bchg__IIF" T_void [T_JNIEnv; T_jobject; T_jint; T_jint; T_jfloat]
      "p_ndrxj_Java_org_endurox_TypedUbf_Bchg__IIF" [0; 1; 2; 3; 4] Fail_void;
   Entry "Java_org_endurox_TypedUbf_Bchg__IID" T_void [T_JNIEnv; T_jobject; T_jint; T_jint; T_jdouble]
      "p_ndrxj_Java_org_endurox_TypedUbf_Bchg__IID" [0; 1; 2; 3; 4] Fail_void;
   Entry "Java_org_endurox_TypedUbf_Bchg__IILjava_lang_String_2" T_void [T_JNIEnv; T_jobject; T_jint; T_jint; T_jstring]
      "p_ndrxj_Java_org_endurox_TypedUbf_Bchg__IILjava_lang_String_2" [0; 1; 2; 3; 4] Fail_void;
   Entry "Java_org_endurox_TypedUbf_Bchg__II_3B" T_void [T_JNIEnv; T_jobject; T_jint; T_jint; T_jbyteArray]
      "p_ndrxj_Java_org_endurox_TypedUbf_Bchg__II_3B" [0; 1; 2; 3; 4] Fail_void;
   Entry "Java_org_endurox_TypedUbf_Bboolev" T_jboolean [T_JNIEnv; T_jobject; T_jobject]
      "p_ndrxj_Java_org_endurox_TypedUbf_Bboolev" [0; 1; 2] (Fail_zero T_jboolean);
   Entry "Java_org_endurox_TypedUbf_Bqboolev" T_jboolean [T_JNIEnv; T_jobject; T_jstring]
      "p_ndrxj_Java_org_endurox_TypedUbf_Bqboolev" [0; 1; 2] (Fail_zero T_jboolean)].

(** From [TypedUbf_Bfloatev] to [TypedUbf_Boccur]. *)
Definition entries_13 : list jni_entry :=
  [Entry "Java_org_endurox_TypedUbf_Bfloatev" T_jdouble [T_JNIEnv; T_jobject; T_jobject]
      "p_ndrxj_Java_org_endurox_TypedUbf_Bfloatev" [0; 1; 2] (Fail_zero T_jdouble);
   Entry "Java_org_endurox_TypedUbf_Bdel" T_void [T_JNIEnv; T_jobject; T_jint; T_jint]
      "p_ndrxj_Java_org_endurox_TypedUbf_Bdel" [0; 1; 2; 3] Fail_void;
   Entry "Java_org_endurox_TypedUbf_Bdelall" T_void [T_JNIEnv; T_jobject; T_jint]
      "p_ndrxj_Java_org_endurox_TypedUbf_Bdelall" [0; 1; 2] Fail_void;
   Entry "Java_org_endurox_TypedUbf_Bpres" T_jboolean [T_JNIEnv; T_jobject; T_jint; T_jint]
      "p_ndrxj_Java_org_endurox_TypedUbf_Bpres" [0; 1; 2; 3] (Fail_zero T_jboolean);
   Entry "Java_org_endurox_TypedUbf_Bextread" T_void [T_JNIEnv; T_jobject; T_jobject]
      "p_ndrxj_Java_org_endurox_TypedUbf_Bextread" [0; 1; 2] Fail_void;
   Entry "Java_org_endurox_TypedUbf_Bisubf" T_jboolean [T_JNIEnv; T_jobject]
      "p_ndrxj_Java_org_endurox_TypedUbf_Bisubf" [0; 1] (Fail_zero T_jboolean);
   Entry "Java_org_endurox_TypedUbf_Blen" T_jint [T_JNIEnv; T_jobject; T_jint; T_jint]
      "p_ndrxj_Java_org_endurox_TypedUbf_Blen" [0; 1; 2; 3] (Fail_zero T_jint);
   Entry "Java_org_endurox_TypedUbf_Bnext" T_jobject [T_JNIEnv; T_jobject; T_jboolean]
      "p_ndrxj_Java_org_endurox_TypedUbf_Bnext" [0; 1; 2] (Fail_zero T_jobject);
   Entry "Java_org_endurox_TypedUbf_Boccur" T_jint [T_JNIEnv; T_jobject; T_jint]
      "p_ndrxj_Java_org_endurox_TypedUbf_Boccur" [0; 1; 2] (Fail_zero T_jint)].

(** From [TypedUbf_Bread] to [TypedUbf_Bconcat]. *)
Definition entries_14 : list jni_entry :=
  [Entry "Java_org_endurox_TypedUbf_Bread" T_void [T_JNIEnv; T_jobject; T_jbyteArray]
      "p_ndrxj_Java_org_endurox_TypedUbf_Bread" [0; 1; 2] Fail_void;
   Entry "Java_org_endurox_TypedUbf_Bwrite" T_jbyteArray [T_JNIEnv; T_jobject]
      "p_ndrxj_Java_org_endurox_TypedUbf_Bwrite" [0; 1] (Fail_zero T_jbyteArray);
   Entry "Java_org_endurox_TypedUbf_Bsizeof" T_jlong [T_JNIEnv; T_jobject]
      "p_ndrxj_Java_org_endurox_TypedUbf_Bsizeof" [0; 1] (Fail_zero T_jlong);
   Entry "Java_org_endurox_TypedUbf_Bunused" T_jlong [T_JNIEnv; T_jobject]
      "p_ndrxj_Java_org_endurox_TypedUbf_Bunused" [0; 1] (Fail_zero T_jlong);
   Entry "Java_org_endurox_TypedUbf_Bused" T_jlong [T_JNIEnv; T_jobject]
      "p_ndrxj_Java_org_endurox_TypedUbf_Bused" [0; 1] (Fail_zero T_jlong);
   Entry "Java_org_endurox_TypedUbf_Binit" T_jlong [T_JNIEnv; T_jobject]
      "p_ndrxj_Java_org_endurox_TypedUbf_Binit" [0; 1] (Fail_zero T_jlong);
   Entry "Java_org_endurox_TypedUbf_Bproj" T_void [T_JNIEnv; T_jobject; T_jintArray]
      "p_ndrxj_Java_org_endurox_TypedUbf_Bproj" [0; 1; 2] Fail_void;
   Entry "Java_org_endurox_TypedUbf_Bdelete" T_void [T_JNIEnv; T_jobject; T_jintArray]
      "p_ndrxj_Java_org_endurox_TypedUbf_Bdelete" [0; 1; 2] Fail_void;
   Entry "Java_org_endurox_TypedUbf_Bconcat" T_void [T_JNIEnv; T_jobject; T_jobject]
      "p_ndrxj_Java_org_endurox_TypedUbf_Bconcat" [0; 1; 2] Fail_void].

(** From [TypedUbf_Bcpy] to [TypedUbf_Bnum]. *)
Definition entries_15 : list jni_entry :=
  [Entry "Java_org_endurox_TypedUbf_Bcpy" T_void [T_JNIEnv; T_jobject; T_jobject]
      "p_ndrxj_Java_org_endurox_TypedUbf_Bcpy" [0; 1; 2] Fail_void;
   Entry "Java_org_endurox_TypedUbf_Bprojcpy" T_void [T_JNIEnv; T_jobject; T_jobject; T_jintArray]
      "p_ndrxj_Java_org_endurox_TypedUbf_Bprojcpy" [0; 1; 2; 3] Fail_void;
   Entry "Java_org_endurox_TypedUbf_Bupdate" T_void [T_JNIEnv; T_jobject; T_jobject]
      "p_ndrxj_Java_org_endurox_TypedUbf_Bupdate" [0; 1; 2] Fail_void;
   Entry "Java_org_endurox_TypedUbf_Bcmp" T_jint [T_JNIEnv; T_jobject; T_jobject]
      "p_ndrxj_Java_org_endurox_TypedUbf_Bcmp" [0; 1; 2] (Fail_zero T_jint);
   Entry "Java_org_endurox_TypedUbf_Bsubset" T_jboolean [T_JNIEnv; T_jobject; T_jobject]
      "p_ndrxj_Java_org_endurox_TypedUbf_Bsubset" [0; 1; 2] (Fail_zero T_jboolean);
   Entry "Java_org_endurox_TypedUbf_tpjsontoubf" T_void [T_JNIEnv; T_jobject; T_jstring]
      "p_ndrxj_Java_org_endurox_TypedUbf_tpjsontoubf" [0; 1; 2] Fail_void;
   Entry "Java_org_endurox_TypedUbf_tpubftojson" T_jstring [T_JNIEnv; T_jobject]
      "p_ndrxj_Java_org_endurox_TypedUbf_tpubftojson" [0; 1] (Fail_zero T_jstring);
   Entry "Java_org_endurox_TypedUbf_tplogprintubf" T_void [T_JNIEnv; T_jobject; T_jint; T_jstring]
      "p_ndrxj_Java_org_endurox_TypedUbf_tplogprintubf" [0; 1; 2; 3] Fail_void;
   Entry "Java_org_endurox_TypedUbf_Bnum" T_jint [T_JNIEnv; T_jobject]
      "p_ndrxj_Java_org_endurox_TypedUbf_Bnum" [0; 1] (Fail_zero T_jint)].

(** From [TypedUbf_Bjoin] to [TypedUbf_Bojoin]. *)
Definition entries_16 : list jni_entry :=
  [Entry "Java_org_endurox_TypedUbf_Bjoin" T_void [T_JNIEnv; T_jobject; T_jobject]
      "p_ndrxj_Java_org_endurox_TypedUbf_Bjoin" [0; 1; 2] Fail_void;
   Entry "Java_org_endurox_TypedUbf_Bojoin" T_void [T_JNIEnv; T_jobject; T_jobject]
      "p_ndrxj_Java_org_endurox_TypedUbf_Bojoin" [0; 1; 2] Fail_void].

Definition jni_entries : list jni_entry :=
  entries_1 ++ entries_2 ++ entries_3 ++ entries_4 ++ entries_5 ++ entries_6 ++ entries_7 ++ entries_8 ++ entries_9 ++ entries_10 ++ entries_11 ++ entries_12 ++ entries_13 ++ entries_14 ++ entries_15 ++ entries_16.

(** exjglue.h: the functions of libexjava for [AtmiCtx]. *)
Definition glue_AtmiCtx : list c_function :=
  [CFun "ndrxj_Java_org_endurox_AtmiCtx_getAtmiError" T_jobject [T_JNIEnv; T_jobject];
   CFun "ndrxj_Java_org_endurox_AtmiCtx_tpnewctxt" T_jlong [T_JNIEnv; T_jclass];
   CFun "ndrxj_Java_org_endurox_AtmiCtx_tpfreectxt" T_void [T_JNIEnv; T_jclass; T_jlong];
   CFun "ndrxj_Java_org_endurox_AtmiCtx_tpalloc" T_jobject [T_JNIEnv; T_jobject; T_jstring; T_jstring; T_jlong];
   CFun "ndrxj_Java_org_endurox_AtmiCtx_tpterm" T_void [T_JNIEnv; T_jobject];
   CFun "ndrxj_Java_org_endurox_AtmiCtx_finalizeC" T_void [T_JNIEnv; T_jclass; T_jlong];
   CFun "ndrxj_Java_org_endurox_AtmiCtx_tpreturn" T_void [T_JNIEnv; T_jobject; T_jint; T_jlong; T_jobject; T_jlong];
   CFun "ndrxj_Java_org_endurox_AtmiCtx_tpforward" T_void [T_JNIEnv; T_jobject; T_jstring; T_jobject; T_jlong];
   CFun "ndrxj_Java_org_endurox_AtmiCtx_tpRunC" T_jint [T_JNIEnv; T_jobject; T_jobjectArray; T_jboolean];
   CFun "ndrxj_Java_org_endurox_AtmiCtx_tplogC" T_void [T_JNIEnv; T_jobject; T_jint; T_jstring; T_jlong; T_jstring];
   CFun "ndrxj_Java_org_endurox_AtmiCtx_tplogndrxC" T_void [T_JNIEnv; T_jobject; T_jint; T_jstring; T_jlong; T_jstring];
   CFun "ndrxj_Java_org_endurox_AtmiCtx_tpadvertiseC" T_void [T_JNIEnv; T_jobject; T_jstring; T_jstring];
   CFun "ndrxj_Java_org_endurox_AtmiCtx_tplogdelbufreqfile" T_void [T_JNIEnv; T_jobject; T_jobject];
   CFun "ndrxj_Java_org_endurox_AtmiCtx_tplogqinfo" T_jint [T_JNIEnv; T_jobject; T_jint; T_jlong];
   CFun "ndrxj_Java_org_endurox_AtmiCtx_tplogubfex" T_void [T_JNIEnv; T_jobject; T_jint; T_jstring; T_jthrowable];
   CFun "ndrxj_Java_org_endurox_AtmiCtx_tplogndrxex" T_void [T_JNIEnv; T_jobject; T_jint; T_jstring; T_jthrowable];
   CFun "ndrxj_Java_org_endurox_AtmiCtx_tplogex" T_void [T_JNIEnv; T_jobject; T_jint; T_jstring; T_jthrowable];
   CFun "ndrxj_Java_org_endurox_AtmiCtx_tplogsetreqfile" T_void [T_JNIEnv; T_jobject; T_jobject; T_jstring; T_jstring];
   CFun "ndrxj_Java_org_endurox_AtmiCtx_tploggetbufreqfile" T_jstring [T_JNIEnv; T_jobject; T_jobject];
   CFun "ndrxj_Java_org_endurox_AtmiCtx_tploggetreqfile" T_jstring [T_JNIEnv; T_jobject];
   CFun "ndrxj_Java_org_endurox_AtmiCtx_tplogsetreqfile_1direct" T_void [T_JNIEnv; T_jobject; T_jstring];
   CFun "ndrxj_Java_org_endurox_AtmiCtx_tplogclosereqfile" T_void [T_JNIEnv; T_jobject];
   CFun "ndrxj_Java_org_endurox_AtmiCtx_tplogconfig" T_void [T_JNIEnv; T_jobject; T_jint; T_jint; T_jstring; T_jstring; T_jstring];
   CFun "ndrxj_Java_org_endurox_AtmiCtx_userlogex" T_void [T_JNIEnv; T_jobject; T_jstring; T_jthrowable];
   CFun "ndrxj_Java_org_endurox_AtmiCtx_tplogDump" T_void [T_JNIEnv; T_jobject; T_jint; T_jstring; T_jbyteArray];
   CFun "ndrxj_Java_org_endurox_AtmiCtx_tplogDumpDiff" T_void [T_JNIEnv; T_jobject; T_jint; T_jstring; T_jbyteArray; T_jbyteArray];
   CFun "ndrxj_Java_org_endurox_AtmiCtx_tpinit" T_void [T_JNIEnv; T_jobject; T_jobject];
   CFun "ndrxj_Java_org_endurox_AtmiCtx_userlogC" T_void [T_JNIEnv; T_jobject; T_jstring];
   CFun "ndrxj_Java_org_endurox_AtmiCtx_tpcall" T_jobject [T_JNIEnv; T_jobject; T_jstring; T_jobject; T_jlong];
   CFun "ndrxj_Java_org_endurox_AtmiCtx_tpacall" T_jint [T_JNIEnv; T_jobject; T_jstring; T_jobject; T_jlong];
   CFun "ndrxj_Java_org_endurox_AtmiCtx_tpgetrply" T_jobject [T_JNIEnv; T_jobject; T_jint; T_jobject; T_jlong];
   CFun "ndrxj_Java_org_endurox_AtmiCtx_tpconnect" T_jint [T_JNIEnv; T_jobject; T_jstring; T_jobject; T_jlong];
   CFun "ndrxj_Java_org_endurox_AtmiCtx_tpsend" T_jlong [T_JNIEnv; T_jobject; T_jint; T_jobject; T_jlong];
   CFun "ndrxj_Java_org_endurox_AtmiCtx_tprecv" T_jobject [T_JNIEnv; T_jobject; T_jint; T_jobject; T_jlong];
   CFun "ndrxj_Java_org_endurox_AtmiCtx_tpdiscon" T_void [T_JNIEnv; T_jobject; T_jint];
   CFun "ndrxj_Java_org_endurox_AtmiCtx_tpcancel" T_void [T_JNIEnv; T_jobject; T_jint];
   CFun "ndrxj_Java_org_endurox_AtmiCtx_Bboolco" T_jobject [T_JNIEnv; T_jobject; T_jstring];
   CFun "ndrxj_Java_org_endurox_AtmiCtx_Bboolpr" T_void [T_JNIEnv; T_jobject; T_jobject; T_jobject];
   CFun "ndrxj_Java_org_endurox_AtmiCtx_BboolsetcbfC" T_void [T_JNIEnv; T_jobject; T_jstring];
   CFun "ndrxj_Java_org_endurox_AtmiCtx_Btype" T_jstring [T_JNIEnv; T_jobject; T_jint];
   CFun "ndrxj_Java_org_endurox_AtmiCtx_Bfname" T_jstring [T_JNIEnv; T_jobject; T_jint];
   CFun "ndrxj_Java_org_endurox_AtmiCtx_Bfldid" T_jint [T_JNIEnv; T_jobject; T_jstring];
   CFun "ndrxj_Java_org_endurox_AtmiCtx_tptoutget" T_jint [T_JNIEnv; T_jobject];
   CFun "ndrxj_Java_org_endurox_AtmiCtx_tpurcode" T_jlong [T_JNIEnv; T_jobject];
   CFun "ndrxj_Java_org_endurox_AtmiCtx_tptoutset" T_void [T_JNIEnv; T_jobject; T_jint];
   CFun "ndrxj_Java_org_endurox_AtmiCtx_getBuffers" T_jlongArray [T_JNIEnv; T_jobject];
   CFun "ndrxj_Java_org_endurox_AtmiCtx_tpsetunsolC" T_void [T_JNIEnv; T_jobject; T_jobject];
   CFun "ndrxj_Java_org_endurox_AtmiCtx_tpnotify" T_void [T_JNIEnv; T_jobject; T_jobject; T_jobject; T_jlong];
   CFun "ndrxj_Java_org_endurox_AtmiCtx_tpbroadcast" T_void [T_JNIEnv; T_jobject; T_jstring; T_jstring; T_jstring; T_jobject; T_jlong];
   CFun "ndrxj_Java_org_endurox_AtmiCtx_tpchkunsol" T_jint [T_JNIEnv; T_jobject];
   CFun "ndrxj_Java_org_endurox_AtmiCtx_tpenqueue" T_void [T_JNIEnv; T_jobject; T_jstring; T_jstring; T_jobject; T_jobject; T_jlong];
   CFun "ndrxj_Java_org_endurox_AtmiCtx_tpenqueueex" T_void [T_JNIEnv; T_jobject; T_jshort; T_jshort; T_jstring; T_jobject; T_jobject; T_jlong];
   CFun "ndrxj_Java_org_endurox_AtmiCtx_tpdequeue" T_jobject [T_JNIEnv; T_jobject; T_jstring; T_jstring; T_jobject; T_jobject; T_jlong];
   CFun "ndrxj_Java_org_endurox_AtmiCtx_tpdequeueex" T_jobject [T_JNIEnv; T_jobject; T_jshort; T_jshort; T_jstring; T_jobject; T_jobject; T_jlong];
   CFun "ndrxj_Java_org_endurox_AtmiCtx_tpsrvgetctxdata" T_jlong [T_JNIEnv; T_jobject];
   CFun "ndrxj_Java_org_endurox_AtmiCtx_tpsrvsetctxdata" T_void [T_JNIEnv; T_jobject; T_jlong; T_jlong];
   CFun "ndrxj_Java_org_endurox_AtmiCtx_tpsrvfreectxdata" T_void [T_JNIEnv; T_jobject; T_jlong];
   CFun "ndrxj_Java_org_endurox_AtmiCtx_tpcontinue" T_void [T_JNIEnv; T_jobject];
   CFun "ndrxj_Java_org_endurox_AtmiCtx_tpopen" T_void [T_JNIEnv; T_jobject];
   CFun "ndrxj_Java_org_endurox_AtmiCtx_tpclose" T_void [T_JNIEnv; T_jobject];
   CFun "ndrxj_Java_org_endurox_AtmiCtx_tpbegin" T_void [T_JNIEnv; T_jobject; T_jlong; T_jlong];
   CFun "ndrxj_Java_org_endurox_AtmiCtx_tpcommit" T_void [T_JNIEnv; T_jobject; T_jlong];
   CFun "ndrxj_Java_org_endurox_AtmiCtx_tpabort" T_void [T_JNIEnv; T_jobject; T_jlong];
   CFun "ndrxj_Java_org_endurox_AtmiCtx_tpsuspend" T_jobject [T_JNIEnv; T_jobject; T_jlong];
   CFun "ndrxj_Java_org_endurox_AtmiCtx_tpresume" T_void [T_JNIEnv; T_jobject; T_jobject; T_jlong];
   CFun "ndrxj_Java_org_endurox_AtmiCtx_tpgetlev" T_jint [T_JNIEnv; T_jobject];
   CFun "ndrxj_Java_org_endurox_AtmiCtx_installTermSigHandler" T_void [T_JNIEnv; T_jobject; T_jobject]].

(** exjglue.h: the functions for [BExprTree] and the buffers. *)
Definition glue_buffers : list c_function :=
  [CFun "ndrxj_Java_org_endurox_BExprTree_Btreefree" T_void [T_JNIEnv; T_jobject; T_jlong];
   CFun "ndrxj_Java_org_endurox_TypedBuffer_tpfree" T_void [T_JNIEnv; T_jobject; T_jlong];
   CFun "ndrxj_Java_org_endurox_TypedBuffer_tprealloc" T_void [T_JNIEnv; T_jobject; T_jlong];
   CFun "ndrxj_Java_org_endurox_TypedBuffer_tptypes" T_jobject [T_JNIEnv; T_jobject];
   CFun "ndrxj_Java_org_endurox_TypedCarray_setBytes" T_void [T_JNIEnv; T_jobject; T_jbyteArray];
   CFun "ndrxj_Java_org_endurox_TypedCarray_getBytes" T_jbyteArray [T_JNIEnv; T_jobject];
   CFun "ndrxj_Java_org_endurox_TypedJson_setJSON" T_void [T_JNIEnv; T_jobject; T_jstring];
   CFun "ndrxj_Java_org_endurox_TypedJson_getJSON" T_jstring [T_JNIEnv; T_jobject];
   CFun "ndrxj_Java_org_endurox_TypedString_setString" T_void [T_JNIEnv; T_jobject; T_jstring];
   CFun "ndrxj_Java_org_endurox_TypedString_getString" T_jstring [T_JNIEnv; T_jobject];
   CFun "ndrxj_Java_org_endurox_TypedUbf_Badd__IS" T_void [T_JNIEnv; T_jobject; T_jint; T_jshort];
   CFun "ndrxj_Java_org_endurox_TypedUbf_Badd__IJ" T_void [T_JNIEnv; T_jobject; T_jint; T_jlong];
   CFun "ndrxj_Java_org_endurox_TypedUbf_Badd__IB" T_void [T_JNIEnv; T_jobject; T_jint; T_jbyte];
   CFun "ndrxj_Java_org_endurox_TypedUbf_Badd__IF" T_void [T_JNIEnv; T_jobject; T_jint; T_jfloat];
   CFun "ndrxj_Java_org_endurox_TypedUbf_Badd__ID" T_void [T_JNIEnv; T_jobject; T_jint; T_jdouble];
   CFun "ndrxj_Java_org_endurox_TypedUbf_Badd__ILjava_lang_String_2" T_void [T_JNIEnv; T_jobject; T_jint; T_jstring];
   CFun "ndrxj_Java_org_endurox_TypedUbf_Badd__I_3B" T_void [T_JNIEnv; T_jobject; T_jint; T_jbyteArray];
   CFun "ndrxj_Java_org_endurox_TypedUbf_Bprint" T_void [T_JNIEnv; T_jobject];
   CFun "ndrxj_Java_org_endurox_TypedUbf_BgetShort" T_jshort [T_JNIEnv; T_jobject; T_jint; T_jint];
   CFun "ndrxj_Java_org_endurox_TypedUbf_BgetLong" T_jlong [T_JNIEnv; T_jobject; T_jint; T_jint];
   CFun "ndrxj_Java_org_endurox_TypedUbf_BgetByte" T_jbyte [T_JNIEnv; T_jobject; T_jint; T_jint];
   CFun "ndrxj_Java_org_endurox_TypedUbf_BgetFloat" T_jfloat [T_JNIEnv; T_jobject; T_jint; T_jint];
   CFun "ndrxj_Java_org_endurox_TypedUbf_BgetDouble" T_jdouble [T_JNIEnv; T_jobject; T_jint; T_jint];
   CFun "ndrxj_Java_org_endurox_TypedUbf_BgetString" T_jstring [T_JNIEnv; T_jobject; T_jint; T_jint];
   CFun "ndrxj_Java_org_endurox_TypedUbf_BgetByteArr" T_jbyteArray [T_JNIEnv; T_jobject; T_jint; T_jint];
   CFun "ndrxj_Java_org_endurox_TypedUbf_Baddfast__ISLorg_endurox_BFldLocInfo_2" T_void [T_JNIEnv; T_jobject; T_jint; T_jshort; T_jobject];
   CFun "ndrxj_Java_org_endurox_TypedUbf_Baddfast__IJLorg_endurox_BFldLocInfo_2" T_void [T_JNIEnv; T_jobject; T_jint; T_jlong; T_jobject];
   CFun "ndrxj_Java_org_endurox_TypedUbf_Baddfast__IBLorg_endurox_BFldLocInfo_2" T_void [T_JNIEnv; T_jobject; T_jint; T_jbyte; T_jobject];
   CFun "ndrxj_Java_org_endurox_TypedUbf_Baddfast__IFLorg_endurox_BFldLocInfo_2" T_void [T_JNIEnv; T_jobject; T_jint; T_jfloat; T_jobject];
   CFun "ndrxj_Java_org_endurox_TypedUbf_Baddfast__IDLorg_endurox_BFldLocInfo_2" T_void [T_JNIEnv; T_jobject; T_jint; T_jdouble; T_jobject];
   CFun "ndrxj_Java_org_endurox_TypedUbf_Baddfast__ILjava_lang_String_2Lorg_endurox_BFldLocInfo_2" T_void [T_JNIEnv; T_jobject; T_jint; T_jstring; T_jobject];
   CFun "ndrxj_Java_org_endurox_TypedUbf_Baddfast__I_3BLorg_endurox_BFldLocInfo_2" T_void [T_JNIEnv; T_jobject; T_jint; T_jbyteArray; T_jobject];
   CFun "ndrxj_Java_org_endurox_TypedUbf_Bchg__IIS" T_void [T_JNIEnv; T_jobject; T_jint; T_jint; T_jshort];
   CFun "ndrxj_Java_org_endurox_TypedUbf_Bchg__IIJ" T_void [T_JNIEnv; T_jobject; T_jint; T_jint; T_jlong];
   CFun "ndrxj_Java_org_endurox_TypedUbf_Bchg__IIB" T_void [T_JNIEnv; T_jobject; T_jint; T_jint; T_jbyte];
   CFun "ndrxj_Java_org_endurox_TypedUbf_Bchg__IIF" T_void [T_JNIEnv; T_jobject; T_jint; T_jint; T_jfloat];
   CFun "ndrxj_Java_org_endurox_TypedUbf_Bchg__IID" T_void [T_JNIEnv; T_jobject; T_jint; T_jint; T_jdouble];
   CFun "ndrxj_Java_org_endurox_TypedUbf_Bchg__IILjava_lang_String_2" T_void [T_JNIEnv; T_jobject; T_jint; T_jint; T_jstring];
   CFun "ndrxj_Java_org_endurox_TypedUbf_Bchg__II_3B" T_void [T_JNIEnv; T_jobject; T_jint; T_jint; T_jbyteArray];
   CFun "ndrxj_Java_org_endurox_TypedUbf_Bboolev" T_jboolean [T_JNIEnv; T_jobject; T_jobject];
   CFun "ndrxj_Java_org_endurox_TypedUbf_Bqboolev" T_jboolean [T_JNIEnv; T_jobject; T_jstring];
   CFun "ndrxj_Java_org_endurox_TypedUbf_Bfloatev" T_jdouble [T_JNIEnv; T_jobject; T_jobject];
   CFun "ndrxj_Java_org_endurox_TypedUbf_Bdel" T_void [T_JNIEnv; T_jobject; T_jint; T_jint];
   CFun "ndrxj_Java_org_endurox_TypedUbf_Bdelall" T_void [T_JNIEnv; T_jobject; T_jint];
   CFun "ndrxj_Java_org_endurox_TypedUbf_Bpres" T_jboolean [T_JNIEnv; T_jobject; T_jint; T_jint];
   CFun "ndrxj_Java_org_endurox_TypedUbf_Bextread" T_void [T_JNIEnv; T_jobject; T_jobject];
   CFun "ndrxj_Java_org_endurox_TypedUbf_Bisubf" T_jboolean [T_JNIEnv; T_jobject];
   CFun "ndrxj_Java_org_endurox_TypedUbf_Blen" T_jint [T_JNIEnv; T_jobject; T_jint; T_jint];
   CFun "ndrxj_Java_org_endurox_TypedUbf_Bnext" T_jobject [T_JNIEnv; T_jobject; T_jboolean];
   CFun "ndrxj_Java_org_endurox_TypedUbf_Boccur" T_jint [T_JNIEnv; T_jobject; T_jint];
   CFun "ndrxj_Java_org_endurox_TypedUbf_Bread" T_void [T_JNIEnv; T_jobject; T_jbyteArray];
   CFun "ndrxj_Java_org_endurox_TypedUbf_Bwrite" T_jbyteArray [T_JNIEnv; T_jobject];
   CFun "ndrxj_Java_org_endurox_TypedUbf_Bsizeof" T_jlong [T_JNIEnv; T_jobject];
   CFun "ndrxj_Java_org_endurox_TypedUbf_Bunused" T_jlong [T_JNIEnv; T_jobject];
   CFun "ndrxj_Java_org_endurox_TypedUbf_Bused" T_jlong [T_JNIEnv; T_jobject];
   CFun "ndrxj_Java_org_endurox_TypedUbf_Binit" T_jlong [T_JNIEnv; T_jobject];
   CFun "ndrxj_Java_org_endurox_TypedUbf_Bproj" T_void [T_JNIEnv; T_jobject; T_jintArray];
   CFun "ndrxj_Java_org_endurox_TypedUbf_Bdelete" T_void [T_JNIEnv; T_jobject; T_jintArray];
   CFun "ndrxj_Java_org_endurox_TypedUbf_Bconcat" T_void [T_JNIEnv; T_jobject; T_jobject];
   CFun "ndrxj_Java_org_endurox_TypedUbf_Bcpy" T_void [T_JNIEnv; T_jobject; T_jobject];
   CFun "ndrxj_Java_org_endurox_TypedUbf_Bprojcpy" T_void [T_JNIEnv; T_jobject; T_jobject; T_jintArray];
   CFun "ndrxj_Java_org_endurox_TypedUbf_Bupdate" T_void [T_JNIEnv; T_jobject; T_jobject];
   CFun "ndrxj_Java_org_endurox_TypedUbf_Bcmp" T_jint [T_JNIEnv; T_jobject; T_jobject];
   CFun "ndrxj_Java_org_endurox_TypedUbf_Bsubset" T_jboolean [T_JNIEnv; T_jobject; T_jobject];
   CFun "ndrxj_Java_org_endurox_TypedUbf_tpjsontoubf" T_void [T_JNIEnv; T_jobject; T_jstring];
   CFun "ndrxj_Java_org_endurox_TypedUbf_tpubftojson" T_jstring [T_JNIEnv; T_jobject];
   CFun "ndrxj_Java_org_endurox_TypedUbf_tplogprintubf" T_void [T_JNIEnv; T_jobject; T_jint; T_jstring];
   CFun "ndrxj_Java_org_endurox_TypedUbf_Bnum" T_jint [T_JNIEnv; T_jobject];
   CFun "ndrxj_Java_org_endurox_TypedUbf_Bjoin" T_void [T_JNIEnv; T_jobject; T_jobject];
   CFun "ndrxj_Java_org_endurox_TypedUbf_Bojoin" T_void [T_JNIEnv; T_jobject; T_jobject]].

(** AtmiCtx.java *)
Definition java_AtmiCtx : list java_native :=
  [Native "org/endurox/AtmiCtx" false (Ref "org/endurox/ErrorTuple") "getAtmiError" [];
   Native "org/endurox/AtmiCtx" true P_long "tpnewctxt" [];
   Native "org/endurox/AtmiCtx" true P_void "tpfreectxt" [P_long];
   Native "org/endurox/AtmiCtx" false (Ref "org/endurox/TypedBuffer") "tpalloc" [Ref "java/lang/String"; Ref "java/lang/String"; P_long];
   Native "org/endurox/AtmiCtx" false P_void "tpterm" [];
   Native "org/endurox/AtmiCtx" true P_void "finalizeC" [P_long];
   Native "org/endurox/AtmiCtx" false P_void "tpreturn" [P_int; P_long; Ref "org/endurox/TypedBuffer"; P_long];
   Native "org/endurox/AtmiCtx" false P_void "tpforward" [Ref "java/lang/String"; Ref "org/endurox/TypedBuffer"; P_long];
   Native "org/endurox/AtmiCtx" false P_int "tpRunC" [Arr (Ref "java/lang/String"); P_boolean];
   Native "org/endurox/AtmiCtx" false P_void "tplogC" [P_int; Ref "java/lang/String"; P_long; Ref "java/lang/String"];
   Native "org/endurox/AtmiCtx" false P_void "tplogndrxC" [P_int; Ref "java/lang/String"; P_long; Ref "java/lang/String"];
   Native "org/endurox/AtmiCtx" false P_void "tpadvertiseC" [Ref "java/lang/String"; Ref "java/lang/String"];
   Native "org/endurox/AtmiCtx" false P_void "tplogdelbufreqfile" [Ref "org/endurox/TypedBuffer"];
   Native "org/endurox/AtmiCtx" false P_int "tplogqinfo" [P_int; P_long];
   Native "org/endurox/AtmiCtx" false P_void "tplogubfex" [P_int; Ref "java/lang/String"; Ref "java/lang/Throwable"];
   Native "org/endurox/AtmiCtx" false P_void "tplogndrxex" [P_int; Ref "java/lang/String"; Ref "java/lang/Throwable"];
   Native "org/endurox/AtmiCtx" false P_void "tplogex" [P_int; Ref "java/lang/String"; Ref "java/lang/Throwable"];
   Native "org/endurox/AtmiCtx" false P_void "tplogsetreqfile" [Ref "org/endurox/TypedBuffer"; Ref "java/lang/String"; Ref "java/lang/String"];
   Native "org/endurox/AtmiCtx" false (Ref "java/lang/String") "tploggetbufreqfile" [Ref "org/endurox/TypedBuffer"];
   Native "org/endurox/AtmiCtx" false (Ref "java/lang/String") "tploggetreqfile" [];
   Native "org/endurox/AtmiCtx" false P_void "tplogsetreqfile_direct" [Ref "java/lang/String"];
   Native "org/endurox/AtmiCtx" false P_void "tplogclosereqfile" [];
   Native "org/endurox/AtmiCtx" false P_void "tplogconfig" [P_int; P_int; Ref "java/lang/String"; Ref "java/lang/String"; Ref "java/lang/String"];
   Native "org/endurox/AtmiCtx" false P_void "userlogex" [Ref "java/lang/String"; Ref "java/lang/Throwable"];
   Native "org/endurox/AtmiCtx" false P_void "tplogDump" [P_int; Ref "java/lang/String"; Arr P_byte];
   Native "org/endurox/AtmiCtx" false P_void "tplogDumpDiff" [P_int; Ref "java/lang/String"; Arr P_byte; Arr P_byte];
   Native "org/endurox/AtmiCtx" false P_void "tpinit" [Ref "org/endurox/TpInit"];
   Native "org/endurox/AtmiCtx" false P_void "userlogC" [Ref "java/lang/String"];
   Native "org/endurox/AtmiCtx" false (Ref "org/endurox/TypedBuffer") "tpcall" [Ref "java/lang/String"; Ref "org/endurox/TypedBuffer"; P_long];
   Native "org/endurox/AtmiCtx" false P_int "tpacall" [Ref "java/lang/String"; Ref "org/endurox/TypedBuffer"; P_long];
   Native "org/endurox/AtmiCtx" false (Ref "org/endurox/TpgetrplyResult") "tpgetrply" [P_int; Ref "org/endurox/TypedBuffer"; P_long];
   Native "org/endurox/AtmiCtx" false P_int "tpconnect" [Ref "java/lang/String"; Ref "org/endurox/TypedBuffer"; P_long];
   Native "org/endurox/AtmiCtx" false P_long "tpsend" [P_int; Ref "org/endurox/TypedBuffer"; P_long];
   Native "org/endurox/AtmiCtx" false (Ref "org/endurox/TprecvResult") "tprecv" [P_int; Ref "org/endurox/TypedBuffer"; P_long];
   Native "org/endurox/AtmiCtx" false P_void "tpdiscon" [P_int];
   Native "org/endurox/AtmiCtx" false P_void "tpcancel" [P_int];
   Native "org/endurox/AtmiCtx" false (Ref "org/endurox/BExprTree") "Bboolco" [Ref "java/lang/String"];
   Native "org/endurox/AtmiCtx" false P_void "Bboolpr" [Ref "org/endurox/BExprTree"; Ref "java/io/OutputStream"];
   Native "org/endurox/AtmiCtx" false P_void "BboolsetcbfC" [Ref "java/lang/String"];
   Native "org/endurox/AtmiCtx" false (Ref "java/lang/String") "Btype" [P_int];
   Native "org/endurox/AtmiCtx" false (Ref "java/lang/String") "Bfname" [P_int];
   Native "org/endurox/AtmiCtx" false P_int "Bfldid" [Ref "java/lang/String"];
   Native "org/endurox/AtmiCtx" false P_int "tptoutget" [];
   Native "org/endurox/AtmiCtx" false P_long "tpurcode" [];
   Native "org/endurox/AtmiCtx" false P_void "tptoutset" [P_int];
   Native "org/endurox/AtmiCtx" false (Arr P_long) "getBuffers" [];
   Native "org/endurox/AtmiCtx" false P_void "tpsetunsolC" [Ref "org/endurox/UnsolCallback"];
   Native "org/endurox/AtmiCtx" false P_void "tpnotify" [Ref "org/endurox/ClientId"; Ref "org/endurox/TypedBuffer"; P_long];
   Native "org/endurox/AtmiCtx" false P_void "tpbroadcast" [Ref "java/lang/String"; Ref "java/lang/String"; Ref "java/lang/String"; Ref "org/endurox/TypedBuffer"; P_long];
   Native "org/endurox/AtmiCtx" false P_int "tpchkunsol" [];
   Native "org/endurox/AtmiCtx" false P_void "tpenqueue" [Ref "java/lang/String"; Ref "java/lang/String"; Ref "org/endurox/TPQCTL"; Ref "org/endurox/TypedBuffer"; P_long];
   Native "org/endurox/AtmiCtx" false P_void "tpenqueueex" [P_short; P_short; Ref "java/lang/String"; Ref "org/endurox/TPQCTL"; Ref "org/endurox/TypedBuffer"; P_long];
   Native "org/endurox/AtmiCtx" false (Ref "org/endurox/TypedBuffer") "tpdequeue" [Ref "java/lang/String"; Ref "java/lang/String"; Ref "org/endurox/TPQCTL"; Ref "org/endurox/TypedBuffer"; P_long];
   Native "org/endurox/AtmiCtx" false (Ref "org/endurox/TypedBuffer") "tpdequeueex" [P_short; P_short; Ref "java/lang/String"; Ref "org/endurox/TPQCTL"; Ref "org/endurox/TypedBuffer"; P_long];
   Native "org/endurox/AtmiCtx" false P_long "tpsrvgetctxdata" [];
   Native "org/endurox/AtmiCtx" false P_void "tpsrvsetctxdata" [P_long; P_long];
   Native "org/endurox/AtmiCtx" false P_void "tpsrvfreectxdata" [P_long];
   Native "org/endurox/AtmiCtx" false P_void "tpcontinue" [];
   Native "org/endurox/AtmiCtx" false P_void "tpopen" [];
   Native "org/endurox/AtmiCtx" false P_void "tpclose" [];
   Native "org/endurox/AtmiCtx" false P_void "tpbegin" [P_long; P_long];
   Native "org/endurox/AtmiCtx" false P_void "tpcommit" [P_long];
   Native "org/endurox/AtmiCtx" false P_void "tpabort" [P_long];
   Native "org/endurox/AtmiCtx" false (Ref "org/endurox/TPTRANID") "tpsuspend" [P_long];
   Native "org/endurox/AtmiCtx" false P_void "tpresume" [Ref "org/endurox/TPTRANID"; P_long];
   Native "org/endurox/AtmiCtx" false P_int "tpgetlev" [];
   Native "org/endurox/AtmiCtx" false P_void "installTermSigHandler" [Ref "java/lang/Runnable"]].

(** BExprTree.java *)
Definition java_BExprTree : list java_native :=
  [Native "org/endurox/BExprTree" false P_void "Btreefree" [P_long]].

(** TypedBuffer.java *)
Definition java_TypedBuffer : list java_native :=
  [Native "org/endurox/TypedBuffer" false P_void "tpfree" [P_long];
   Native "org/endurox/TypedBuffer" false P_void "tprealloc" [P_long];
   Native "org/endurox/TypedBuffer" false (Ref "org/endurox/TpTypesResult") "tptypes" []].

(** TypedCarray.java *)
Definition java_TypedCarray : list java_native :=
  [Native "org/endurox/TypedCarray" false P_void "setBytes" [Arr P_byte];
   Native "org/endurox/TypedCarray" false (Arr P_byte) "getBytes" []].

(** TypedJson.java *)
Definition java_TypedJson : list java_native :=
  [Native "org/endurox/TypedJson" false P_void "setJSON" [Ref "java/lang/String"];
   Native "org/endurox/TypedJson" false (Ref "java/lang/String") "getJSON" []].

(** TypedString.java *)
Definition java_TypedString : list java_native :=
  [Native "org/endurox/TypedString" false P_void "setString" [Ref "java/lang/String"];
   Native "org/endurox/TypedString" false (Ref "java/lang/String") "getString" []].

(** TypedUbf.java *)
Definition java_TypedUbf : list java_native :=
  [Native "org/endurox/TypedUbf" false P_void "Badd" [P_int; P_short];
   Native "org/endurox/TypedUbf" false P_void "Badd" [P_int; P_long];
   Native "org/endurox/TypedUbf" false P_void "Badd" [P_int; P_byte];
   Native "org/endurox/TypedUbf" false P_void "Badd" [P_int; P_float];
   Native "org/endurox/TypedUbf" false P_void "Badd" [P_int; P_double];
   Native "org/endurox/TypedUbf" false P_void "Badd" [P_int; Ref "java/lang/String"];
   Native "org/endurox/TypedUbf" false P_void "Badd" [P_int; Arr P_byte];
   Native "org/endurox/TypedUbf" false P_void "Bprint" [];
   Native "org/endurox/TypedUbf" false P_short "BgetShort" [P_int; P_int];
   Native "org/endurox/TypedUbf" false P_long "BgetLong" [P_int; P_int];
   Native "org/endurox/TypedUbf" false P_byte "BgetByte" [P_int; P_int];
   Native "org/endurox/TypedUbf" false P_float "BgetFloat" [P_int; P_int];
   Native "org/endurox/TypedUbf" false P_double "BgetDouble" [P_int; P_int];
   Native "org/endurox/TypedUbf" false (Ref "java/lang/String") "BgetString" [P_int; P_int];
   Native "org/endurox/TypedUbf" false (Arr P_byte) "BgetByteArr" [P_int; P_int];
   Native "org/endurox/TypedUbf" false P_void "Baddfast" [P_int; P_short; Ref "org/endurox/BFldLocInfo"];
   Native "org/endurox/TypedUbf" false P_void "Baddfast" [P_int; P_long; Ref "org/endurox/BFldLocInfo"];
   Native "org/endurox/TypedUbf" false P_void "Baddfast" [P_int; P_byte; Ref "org/endurox/BFldLocInfo"];
   Native "org/endurox/TypedUbf" false P_void "Baddfast" [P_int; P_float; Ref "org/endurox/BFldLocInfo"];
   Native "org/endurox/TypedUbf" false P_void "Baddfast" [P_int; P_double; Ref "org/endurox/BFldLocInfo"];
   Native "org/endurox/TypedUbf" false P_void "Baddfast" [P_int; Ref "java/lang/String"; Ref "org/endurox/BFldLocInfo"];
   Native "org/endurox/TypedUbf" false P_void "Baddfast" [P_int; Arr P_byte; Ref "org/endurox/BFldLocInfo"];
   Native "org/endurox/TypedUbf" false P_void "Bchg" [P_int; P_int; P_short];
   Native "org/endurox/TypedUbf" false P_void "Bchg" [P_int; P_int; P_long];
   Native "org/endurox/TypedUbf" false P_void "Bchg" [P_int; P_int; P_byte];
   Native "org/endurox/TypedUbf" false P_void "Bchg" [P_int; P_int; P_float];
   Native "org/endurox/TypedUbf" false P_void "Bchg" [P_int; P_int; P_double];
   Native "org/endurox/TypedUbf" false P_void "Bchg" [P_int; P_int; Ref "java/lang/String"];
   Native "org/endurox/TypedUbf" false P_void "Bchg" [P_int; P_int; Arr P_byte];
   Native "org/endurox/TypedUbf" false P_boolean "Bboolev" [Ref "org/endurox/BExprTree"];
   Native "org/endurox/TypedUbf" false P_boolean "Bqboolev" [Ref "java/lang/String"];
   Native "org/endurox/TypedUbf" false P_double "Bfloatev" [Ref "org/endurox/BExprTree"];
   Native "org/endurox/TypedUbf" false P_void "Bdel" [P_int; P_int];
   Native "org/endurox/TypedUbf" false P_void "Bdelall" [P_int];
   Native "org/endurox/TypedUbf" false P_boolean "Bpres" [P_int; P_int];
   Native "org/endurox/TypedUbf" false P_void "Bextread" [Ref "java/io/BufferedReader"];
   Native "org/endurox/TypedUbf" false P_boolean "Bisubf" [];
   Native "org/endurox/TypedUbf" false P_int "Blen" [P_int; P_int];
   Native "org/endurox/TypedUbf" false (Ref "org/endurox/BNextResult") "Bnext" [P_boolean];
   Native "org/endurox/TypedUbf" false P_int "Boccur" [P_int];
   Native "org/endurox/TypedUbf" false P_void "Bread" [Arr P_byte];
   Native "org/endurox/TypedUbf" false (Arr P_byte) "Bwrite" [];
   Native "org/endurox/TypedUbf" false P_long "Bsizeof" [];
   Native "org/endurox/TypedUbf" false P_long "Bunused" [];
   Native "org/endurox/TypedUbf" false P_long "Bused" [];
   Native "org/endurox/TypedUbf" false P_long "Binit" [];
   Native "org/endurox/TypedUbf" false P_void "Bproj" [Arr P_int];
   Native "org/endurox/TypedUbf" false P_void "Bdelete" [Arr P_int];
   Native "org/endurox/TypedUbf" false P_void "Bconcat" [Ref "org/endurox/TypedUbf"];
   Native "org/endurox/TypedUbf" false P_void "Bcpy" [Ref "org/endurox/TypedUbf"];
   Native "org/endurox/TypedUbf" false P_void "Bprojcpy" [Ref "org/endurox/TypedUbf"; Arr P_int];
   Native "org/endurox/TypedUbf" false P_void "Bupdate" [Ref "org/endurox/TypedUbf"];
   Native "org/endurox/TypedUbf" false P_int "Bcmp" [Ref "org/endurox/TypedUbf"];
   Native "org/endurox/TypedUbf" false P_boolean "Bsubset" [Ref "org/endurox/TypedUbf"];
   Native "org/endurox/TypedUbf" false P_void "tpjsontoubf" [Ref "java/lang/String"];
   Native "org/endurox/TypedUbf" false (Ref "java/lang/String") "tpubftojson" [];
   Native "org/endurox/TypedUbf" false P_void "tplogprintubf" [P_int; Ref "java/lang/String"];
   Native "org/endurox/TypedUbf" false P_int "Bnum" [];
   Native "org/endurox/TypedUbf" false P_void "Bjoin" [Ref "org/endurox/TypedUbf"];
   Native "org/endurox/TypedUbf" false P_void "Bojoin" [Ref "org/endurox/TypedUbf"]].

Definition java_natives : list java_native :=
  java_AtmiCtx ++ java_BExprTree ++ java_TypedBuffer ++ java_TypedCarray ++ java_TypedJson ++ java_TypedString ++ java_TypedUbf.

(** ** Names and types of the Java Native Interface *)

(** The descriptor of a type. *)
Fixpoint descriptor (t : java_type) : string :=
  match t with
  | P_void => "V" | P_boolean => "Z" | P_byte => "B" | P_short => "S" | P_int => "I"
  | P_long => "J" | P_float => "F" | P_double => "D"
  | Ref c => "L" +:+ c +:+ ";"
  | Arr t => "[" +:+ descriptor t
  end.

(** The escapes of a symbol name. *)
Fixpoint mangle (s : string) : string :=
  match s with
  | EmptyString => EmptyString
  | String c s' =>
      (if Ascii.eqb c "/"%char then "_"
       else if Ascii.eqb c "_"%char then "_1"
       else if Ascii.eqb c ";"%char then "_2"
       else if Ascii.eqb c "["%char then "_3"
       else String c EmptyString) +:+ mangle s'
  end.

Definition arg_descriptors (args : list java_type) : string :=
  foldr (λ t acc, descriptor t +:+ acc) EmptyString args.

(** Is the name of the method overloaded by another native method? *)
Definition overloaded (all : list java_native) (m : java_native) : bool :=
  1 <? length (List.filter (λ m', String.eqb (jn_class m') (jn_class m) && String.eqb (jn_name m') (jn_name m)) all).

(** The symbol the virtual machine looks for. *)
Definition jni_symbol (all : list java_native) (m : java_native) : string :=
  "Java_" +:+ mangle (jn_class m) +:+ "_" +:+ mangle (jn_name m) +:+
  (if overloaded all m then "__" +:+ mangle (arg_descriptors (jn_args m)) else EmptyString).

Definition ctype_of (t : java_type) : ctype :=
  match t with
  | P_void => T_void | P_boolean => T_jboolean | P_byte => T_jbyte | P_short => T_jshort
  | P_int => T_jint | P_long => T_jlong | P_float => T_jfloat | P_double => T_jdouble
  | Ref c => if String.eqb c "java/lang/String" then T_jstring
             else if String.eqb c "java/lang/Throwable" then T_jthrowable
             else if String.eqb c "java/lang/Class" then T_jclass
             else T_jobject
  | Arr P_byte => T_jbyteArray
  | Arr P_int => T_jintArray
  | Arr P_long => T_jlongArray
  | Arr _ => T_jobjectArray
  end.

(** The parameters the virtual machine passes. *)
Definition jni_params (m : java_native) : list ctype :=
  T_JNIEnv :: (if jn_static m then T_jclass else T_jobject) :: (ctype_of <$> jn_args m).

Definition pointers : list c_function := pointers_AtmiCtx ++ pointers_buffers.
Definition glue : list c_function := glue_AtmiCtx ++ glue_buffers.

(** ** One row checked *)

(** [e] is the entry point of [m]: right name and type, all arguments passed in order
    through a pointer of the same type, bound to the function of libexjava that has the
    same name and type, and a null result on failure. *)
Definition serves (m : java_native) (e : jni_entry) : Prop :=
  en_name e = jni_symbol java_natives m ∧
  en_ret e = ctype_of (jn_ret m) ∧
  en_params e = jni_params m ∧
  en_passes e = seq 0 (length (en_params e)) ∧
  en_fail e = (if decide (en_ret e = T_void) then Fail_void else Fail_zero (en_ret e)) ∧
  CFun (en_pointer e) (en_ret e) (en_params e) ∈ pointers ∧
  ("ndrxj_" +:+ en_name e, en_pointer e) ∈ M_funcmap ∧
  CFun ("ndrxj_" +:+ en_name e) (en_ret e) (en_params e) ∈ glue.

#[export] Instance serves_dec m e : Decision (serves m e).
Proof. apply _. Defined.

(** The declarations and the entry points, row by row: both files are in the order of
    the same headers. *)
Lemma natives_serve : Forall2 serves java_natives jni_entries.
Proof. apply (bool_decide_unpack _). vm_compute. exact I. Qed.

Lemma funcmap_nodup : NoDup (M_funcmap.*1) ∧ NoDup (M_funcmap.*2).
Proof. split; apply (bool_decide_unpack _); vm_compute; exact I. Qed.

Lemma entries_nodup : NoDup (en_name <$> jni_entries).
Proof. apply (bool_decide_unpack _). vm_compute. exact I. Qed.
