(* ===== verification/NativeLoader.v ===== *)
(** * libsrc/c/loader.c: resolving the entry points at run time

    Every entry point tests [M_lib_init] without the lock, and [ndrxj_lib_init] again
    under it, before the pointers of [M_funcmap] are filled from the dynamic linker.
    Threads are program counters over the shared globals, a step is one access to them,
    all interleavings are considered, and the answers of the dynamic linker may change
    from call to call.  Accesses are taken to be sequentially consistent. *)
From stdpp Require Import strings gmap list numbers relations.
From S2P Require Import Prelude CString NativeTable.

Inductive dl_handle := RTLD_DEFAULT | LIBEXJAVA.

(** The dynamic linker at each time: the address of a symbol, whether the library can
    be opened, and its message. *)
Record dynlink (code : Type) := Dynlink {
  dlsym : nat → dl_handle → string → option code;
  dlopen : nat → bool;
  dlerror : nat → string
}.
Arguments dlsym {code}.
Arguments dlopen {code}.
Arguments dlerror {code}.

Definition LIB : string := "libexjava.so".
Definition PROBE : string := "ndrxj_Java_org_endurox_AtmiCtx_tpnewctxt".

Section Loader.
Context {code value : Type} (dl : dynlink code) (funcmap : list (string * string)).

(** The static variables; [pointers_set] has the pointers that are not NULL. *)
Record lib_globals := LibGlobals {
  M_lib_init : bool;
  M_lib_init_lock : option nat;
  M_handle : option dl_handle;
  pointers_set : gmap string code;
  clock : nat
}.

Definition lib_start : lib_globals := LibGlobals false None None ∅ 0.

Definition take_lock (o : option nat) (g : lib_globals) : lib_globals :=
  LibGlobals (M_lib_init g) o (M_handle g) (pointers_set g) (S (clock g)).
Definition set_handle (h : option dl_handle) (g : lib_globals) : lib_globals :=
  LibGlobals (M_lib_init g) (M_lib_init_lock g) h (pointers_set g) (S (clock g)).
Definition set_pointer (p : string) (c : option code) (g : lib_globals) : lib_globals :=
  LibGlobals (M_lib_init g) (M_lib_init_lock g) (M_handle g)
    (match c with Some c => <[p := c]> (pointers_set g) | None => delete p (pointers_set g) end) (S (clock g)).
Definition set_lib_init (g : lib_globals) : lib_globals :=
  LibGlobals true (M_lib_init_lock g) (M_handle g) (pointers_set g) (S (clock g)).

(** A thread calls an entry point, or [JNI_OnLoad]. *)
Inductive request := R_entry (e : jni_entry) (args : list value) | R_onload.

(** How its call ends: the library function was called, an exception with the message
    is pending and the null value returned, a NULL pointer was called; for [JNI_OnLoad],
    the library is ready or not. *)
Inductive outcome :=
  | Called (c : code) (args : list value)
  | Raised (f : fail_value) (msg : string)
  | NullPointer
  | LibReady
  | LibFailed (msg : string).

Inductive lib_pc :=
  | PC_test
  | PC_lock
  | PC_retest
  | PC_map (i : nat)
  | PC_unlock (failure : option string)
  | PC_call
  | PC_done (o : outcome).

(** [char buf[512]] *)
Definition lite_message (s : string) : string := strcpy_safe 512 s.
#[local] Arguments lite_message : simpl never.

(** [ndrxj_lib_init] for thread [i]; [None] while it waits for the mutex. *)
Definition ndrxj_lib_init (i : nat) (g : lib_globals) (pc : lib_pc) : option (lib_globals * lib_pc) :=
  match pc with
  | PC_lock =>
      match M_lib_init_lock g with
      | Some _ => None
      | None => Some (take_lock (Some i) g, PC_retest)
      end
  | PC_retest =>
      if M_lib_init g then Some (g, PC_unlock None)
      else
        match dlsym dl (clock g) RTLD_DEFAULT PROBE with
        | Some _ => Some (set_handle (Some RTLD_DEFAULT) g, PC_map 0)
        | None =>
            if dlopen dl (clock g) then Some (set_handle (Some LIBEXJAVA) g, PC_map 0)
            else Some (set_handle None g,
                   PC_unlock (Some (lite_message ("Failed to load " +:+ LIB +:+ ": " +:+ dlerror dl (clock g)))))
        end
  | PC_map k =>
      match funcmap !! k with
      | Some (symbol, funcptr) =>
          let c := h ← M_handle g; dlsym dl (clock g) h symbol in
          Some (set_pointer funcptr c g,
                match c with
                | Some _ => PC_map (S k)
                | None => PC_unlock (Some (lite_message ("Failed to resolve `" +:+ symbol +:+ "' function")))
                end)
      | None => Some (set_lib_init g, PC_unlock None)
      end
  | PC_unlock None => Some (take_lock None g, PC_call)
  | _ => None
  end.

(** The parameters an entry point passes. *)
Definition pass (e : jni_entry) (args : list value) : list value := omap (args !!.) (en_passes e).

(** One step of thread [i]. *)
Definition lib_step (i : nat) (r : request) (g : lib_globals) (pc : lib_pc) : option (lib_globals * lib_pc) :=
  match pc, r with
  | PC_test, R_entry _ _ => Some (g, if M_lib_init g then PC_call else PC_lock)
  | PC_test, R_onload => Some (g, PC_lock)
  | PC_unlock (Some msg), R_entry e _ => Some (take_lock None g, PC_done (Raised (en_fail e) msg))
  | PC_unlock (Some msg), R_onload => Some (take_lock None g, PC_done (LibFailed msg))
  | PC_call, R_entry e args =>
      Some (g, PC_done (match pointers_set g !! en_pointer e with
                        | Some c => Called c (pass e args)
                        | None => NullPointer
                        end))
  | PC_call, R_onload => Some (g, PC_done LibReady)
  | PC_done _, _ => None
  | _, _ => ndrxj_lib_init i g pc
  end.

Record lib_process := LibProcess { lp_globals : lib_globals; lp_threads : list (request * lib_pc) }.

Inductive lib_moves : lib_process → lib_process → Prop :=
  | lib_move g ts i r pc g' pc' :
      ts !! i = Some (r, pc) → lib_step i r g pc = Some (g', pc') →
      lib_moves (LibProcess g ts) (LibProcess g' (<[i := (r, pc')]> ts)).

(** Threads with these calls before the first initialisation. *)
Definition lib_begin (rs : list request) : lib_process :=
  LibProcess lib_start ((λ r, (r, PC_test)) <$> rs).

Definition ended (pc : lib_pc) : bool := match pc with PC_done _ => true | _ => false end.

(** ** Proofs *)

(** The pointer of a row holds what the linker answered for its symbol. *)
Definition row_set (g : lib_globals) (row : string * string) : Prop :=
  ∃ c n h, pointers_set g !! row.2 = Some c ∧ dlsym dl n h row.1 = Some c.

(** The linker refused at some time. *)
Definition dl_refused : Prop :=
  (∃ n, dlopen dl n = false) ∨
  ∃ n h row, row ∈ funcmap ∧ dlsym dl n h row.1 = None.

(** The thread is between lock and unlock. *)
Definition pc_holds (pc : lib_pc) : bool :=
  match pc with PC_retest | PC_map _ | PC_unlock _ => true | _ => false end.

Definition outcome_ok (r : request) (o : outcome) : Prop :=
  match r, o with
  | R_entry e args, Called c args' =>
      args' = pass e args ∧
      ∀ symbol, (symbol, en_pointer e) ∈ funcmap → ∃ n h, dlsym dl n h symbol = Some c
  | R_entry e args, Raised f msg => f = en_fail e ∧ dl_refused
  | R_entry e args, NullPointer => ∀ symbol, (symbol, en_pointer e) ∉ funcmap
  | R_onload, LibReady => True
  | R_onload, LibFailed _ => dl_refused
  | _, _ => False
  end.

Definition pc_ok (g : lib_globals) (r : request) (pc : lib_pc) : Prop :=
  match pc with
  | PC_map k => M_lib_init g = false ∧ is_Some (M_handle g) ∧ Forall (row_set g) (take k funcmap)
  | PC_unlock (Some _) => dl_refused
  | PC_unlock None | PC_call => M_lib_init g = true
  | PC_done o => outcome_ok r o
  | _ => True
  end.

Definition thread_ok (g : lib_globals) (i : nat) (t : request * lib_pc) : Prop :=
  (pc_holds t.2 = true ↔ M_lib_init_lock g = Some i) ∧ pc_ok g t.1 t.2.

Record lib_inv (p : lib_process) : Prop := {
  li_ready : M_lib_init (lp_globals p) = true → Forall (row_set (lp_globals p)) funcmap;
  li_owner : ∀ i, M_lib_init_lock (lp_globals p) = Some i → ∃ t, lp_threads p !! i = Some t;
  li_threads : ∀ i t, lp_threads p !! i = Some t → thread_ok (lp_globals p) i t
}.

Hypothesis pointers_distinct : NoDup funcmap.*2.

Lemma row_set_later g k symbol q c :
  funcmap !! k = Some (symbol, q) → Forall (row_set g) (take k funcmap) →
  Forall (row_set (set_pointer q c g)) (take k funcmap).
Proof.
  intros Hk Hf. rewrite Forall_lookup in Hf |- *. intros j row Hj.
  destruct (Hf j row Hj) as (c' & n & h & Hp & Hd). exists c', n, h. split; [|done].
  apply lookup_take_Some in Hj as [Hj Hlt].
  assert (row.2 ≠ q) as Hne.
  { intros E. assert (j = k); [|lia]. eapply (NoDup_lookup_fmap_inj snd); [exact pointers_distinct|done..]. }
  destruct c; simpl; [by rewrite lookup_insert_ne by congruence|by rewrite lookup_delete_ne by congruence].
Qed.

Lemma rows_elem g symbol q c :
  Forall (row_set g) funcmap → pointers_set g !! q = Some c → (symbol, q) ∈ funcmap →
  ∃ n h, dlsym dl n h symbol = Some c.
Proof.
  rewrite Forall_forall. intros Hf Hq Hin. destruct (Hf _ Hin) as (c' & n & h & Hp & Hd).
  simpl in *. exists n, h. congruence.
Qed.

(** [ndrxj_lib_init] is run by the holder of the lock, or takes it. *)
Lemma lib_init_globals i g pc g' pc' :
  ndrxj_lib_init i g pc = Some (g', pc') →
  (M_lib_init g = true → M_lib_init g' = true) ∧
  (pc_holds pc = false → M_lib_init_lock g = None ∧ g' = take_lock (Some i) g) ∧
  (pc_holds pc = true → M_lib_init_lock g' = M_lib_init_lock g ∨ M_lib_init_lock g' = None).
Proof.
  destruct pc as [| | |k|[msg|]| |o]; cbn; intros Hs; try done.
  - destruct (M_lib_init_lock g) eqn:Hl; simplify_eq. by cbn.
  - destruct (M_lib_init g) eqn:Hi; [|destruct (dlsym _ _ _ _); [|destruct (dlopen _ _)]]; simplify_eq; cbn;
      split_and!; done || auto.
  - destruct (funcmap !! k) as [[symbol q]|]; simplify_eq; cbn; split_and!; done || auto.
  - simplify_eq. cbn. split_and!; done || auto.
Qed.

Lemma lib_step_globals i r g pc g' pc' :
  lib_step i r g pc = Some (g', pc') →
  (M_lib_init g = true → M_lib_init g' = true) ∧
  (pc_holds pc = false → g' = g ∨ M_lib_init_lock g = None ∧ g' = take_lock (Some i) g) ∧
  (pc_holds pc = true → M_lib_init_lock g' = M_lib_init_lock g ∨ M_lib_init_lock g' = None).
Proof.
  intros Hs. assert (ndrxj_lib_init i g pc = Some (g', pc') ∨ g' = g ∨ pc_holds pc = true ∧ g' = take_lock None g)
    as [Hl|[->|[-> ->]]].
  - destruct pc as [| | |k|[msg|]| |o], r; try (by left); cbn in Hs; simplify_eq; auto.
  - apply lib_init_globals in Hl as (H1 & H2 & H3). split_and!; auto.
  - auto.
  - cbn. split_and!; done || auto.
Qed.

(** A step of one thread leaves the others as they should be. *)
Lemma step_other i r g pc g' pc' j t :
  lib_step i r g pc = Some (g', pc') → i ≠ j → thread_ok g i (r, pc) → thread_ok g j t → thread_ok g' j t.
Proof.
  intros (Hm & Hf & Hh)%lib_step_globals Hne [Hi _] [Hj Hok]. cbn [fst snd] in *.
  destruct (pc_holds pc).
  - destruct Hi as [Hi _]. specialize (Hi eq_refl). destruct t as [r' pc'']; cbn [fst snd] in *.
    assert (pc_holds pc'' = false) as Ef.
    { destruct (pc_holds pc''); [|done]. destruct Hj as [Hj _]. specialize (Hj eq_refl). congruence. }
    split; cbn [fst snd].
    + rewrite Ef. split; [done|]. intros El. destruct (Hh eq_refl) as [E|E]; congruence.
    + destruct pc''; cbn in *; try done. by apply Hm.
  - destruct (Hf eq_refl) as [->|[Hl ->]]; [done|]. split; cbn [M_lib_init_lock take_lock].
    + destruct Hj as [Hj _]. destruct (pc_holds t.2); [specialize (Hj eq_refl); congruence|].
      split; [done|]. congruence.
    + destruct t as [r' []]; cbn in *; try done.
Qed.

(** What a step of [ndrxj_lib_init] establishes. *)
Lemma lib_init_self i r g pc g' pc' :
  ndrxj_lib_init i g pc = Some (g', pc') → thread_ok g i (r, pc) →
  (M_lib_init g = true → Forall (row_set g) funcmap) →
  thread_ok g' i (r, pc') ∧ (M_lib_init g' = true → Forall (row_set g') funcmap).
Proof.
  intros Hs [Hh Hpc] Hr. cbn [fst snd] in *.
  destruct pc as [| | |k|[msg|]| |o]; cbn in Hs; try done; unfold thread_ok; cbn [pc_holds pc_ok fst snd] in *.
  - destruct (M_lib_init_lock g) eqn:Hl; simplify_eq. by cbn.
  - destruct (M_lib_init g) eqn:Hi; [simplify_eq; rewrite Hi; split_and!; auto|].
    destruct (dlsym _ _ _ _) eqn:Hd; [simplify_eq; cbn; split_and!; done || congruence|].
    destruct (dlopen _ _) eqn:Ho; simplify_eq; cbn; split_and!; try done; try congruence.
    left. by exists (clock g).
  - destruct Hpc as (Hi & [h Hhd] & Hrows). destruct (funcmap !! k) as [[symbol q]|] eqn:Hk.
    + rewrite Hhd in Hs. cbn in Hs. destruct (dlsym dl (clock g) h symbol) as [c|] eqn:Hd; simplify_eq;
        cbn [M_lib_init set_pointer M_lib_init_lock M_handle pc_holds]; split_and!; try done; try congruence.
      * split_and!; [done|by eexists|]. rewrite (take_S_r _ _ _ Hk). apply Forall_app.
        split; [by eapply row_set_later|].
        apply Forall_singleton. exists c, (clock g), h. cbn. by rewrite lookup_insert_eq.
      * right. exists (clock g), h, (symbol, q). split; [by eapply list_elem_of_lookup_2|done].
    + simplify_eq. cbn. apply lookup_ge_None in Hk. rewrite take_ge in Hrows by lia. by split_and!.
  - simplify_eq. cbn. split_and!; try done.
Qed.

Lemma step_self i r g pc g' pc' :
  lib_step i r g pc = Some (g', pc') → thread_ok g i (r, pc) →
  (M_lib_init g = true → Forall (row_set g) funcmap) →
  thread_ok g' i (r, pc') ∧ (M_lib_init g' = true → Forall (row_set g') funcmap).
Proof.
  intros Hs Ht Hr. destruct pc as [| | |k|[msg|]| |o]; try (by eapply lib_init_self; [destruct r; exact Hs|..]).
  - destruct Ht as [Hh _]. destruct r; injection Hs as <- <-; [|by split_and!].
    split; [|done]. by destruct (M_lib_init g) eqn:Hi.
  - destruct Ht as [Hh Hd]. destruct r; injection Hs as <- <-; by split_and!.
  - destruct Ht as [Hh Hi]. cbn in Hh, Hi. destruct r as [e args|]; injection Hs as <- <-; [|by split_and!].
    split; [|done]. split; [done|]. cbn. destruct (pointers_set g !! en_pointer e) as [c|] eqn:Hp; cbn.
    + split; [done|]. intros symbol Hin. by eapply rows_elem; [apply Hr|..].
    + intros symbol Hin. specialize (Hr Hi). rewrite Forall_forall in Hr.
      destruct (Hr _ Hin) as (c & n & h & Hc & _). cbn in Hc. congruence.
  - by destruct r.
Qed.

Lemma lib_begin_inv rs : lib_inv (lib_begin rs).
Proof.
  constructor; cbn; [done|done|]. intros i t. rewrite list_lookup_fmap, fmap_Some.
  intros (r & _ & ->). done.
Qed.

Lemma lib_moves_inv p p' : lib_inv p → lib_moves p p' → lib_inv p'.
Proof.
  intros [Hr Ho Ht] Hm. destruct Hm as [g ts i r pc g' pc' Hi Hs]. cbn [lp_globals lp_threads] in *.
  pose proof (Ht i _ Hi) as Hti. destruct (step_self i r g pc g' pc' Hs Hti Hr) as [Hself Hready].
  pose proof (lookup_lt_Some _ _ _ Hi) as Hlt.
  constructor; cbn [lp_globals lp_threads]; [done| |].
  - intros k Hk. destruct (decide (k = i)) as [->|Hne]; [rewrite list_lookup_insert_eq by done; eauto|].
    rewrite list_lookup_insert_ne by congruence. apply Ho.
    apply lib_step_globals in Hs as (_ & Hf & Hh). destruct (pc_holds pc) eqn:E.
    + destruct (Hh eq_refl) as [El|El]; congruence.
    + destruct (Hf eq_refl) as [->|[_ ->]]; [done|]. cbn in Hk. congruence.
  - intros k t Hk. destruct (decide (k = i)) as [->|Hne].
    + rewrite list_lookup_insert_eq in Hk by done. by simplify_eq.
    + rewrite list_lookup_insert_ne in Hk by congruence. by eapply step_other; [..|by apply Ht].
Qed.

Lemma lib_reach_inv rs p : rtc lib_moves (lib_begin rs) p → lib_inv p.
Proof. intros Hr. eapply rtc_invariant; [apply lib_moves_inv|done|apply lib_begin_inv]. Qed.

(** Threads keep their requests. *)
Lemma lib_request rs p i r pc :
  rtc lib_moves (lib_begin rs) p → lp_threads p !! i = Some (r, pc) → rs !! i = Some r.
Proof.
  intros Hr. revert i r pc. pattern p. eapply rtc_invariant; [|exact Hr|].
  - intros q q' Hq Hm i r pc Hi. destruct Hm as [g ts k r' pc' g' pc'' Hk Hs]. cbn in *.
    destruct (decide (i = k)) as [->|Hne]; [|rewrite list_lookup_insert_ne in Hi by done; by eapply Hq].
    rewrite list_lookup_insert_eq in Hi by (by eapply lookup_lt_Some). simplify_eq. by eapply Hq.
  - intros i r pc. cbn. rewrite list_lookup_fmap, fmap_Some. by intros (r' & ? & [= -> ->]).
Qed.

(** *** Every schedule ends *)

Definition pc_rank (pc : lib_pc) : nat :=
  match pc with
  | PC_test => length funcmap + 6
  | PC_lock => length funcmap + 5
  | PC_retest => length funcmap + 4
  | PC_map k => (length funcmap - k) + 3
  | PC_unlock _ => 2
  | PC_call => 1
  | PC_done _ => 0
  end.

Definition process_rank (p : lib_process) : nat := sum_list_with (λ t, pc_rank t.2) (lp_threads p).

Lemma lib_step_rank i r g pc g' pc' : lib_step i r g pc = Some (g', pc') → pc_rank pc' < pc_rank pc.
Proof.
  destruct pc as [| | |k|[msg|]| |o], r; cbn; intros Hs; simplify_eq; cbn; try lia;
    repeat case_match; simplify_eq; cbn; try lia.
  all: match goal with H : funcmap !! _ = Some _ |- _ => apply lookup_lt_Some in H; lia end.
Qed.

Lemma lib_moves_rank p p' : lib_moves p p' → process_rank p' < process_rank p.
Proof.
  destruct 1 as [g ts i r pc g' pc' Hi Hs]. unfold process_rank. cbn [lp_threads].
  eapply sum_list_with_insert_lt; [exact Hi|]. by eapply lib_step_rank.
Qed.

(** It is decidable whether somebody can move. *)
Lemma moves_or_stuck p : (∃ p', lib_moves p p') ∨ ∀ p', ¬ lib_moves p p'.
Proof.
  destruct p as [g ts].
  destruct (decide (Exists (λ it, is_Some (lib_step it.1 it.2.1 g it.2.2)) (imap (λ i t, (i, t)) ts))) as [He|Hn].
  - left. apply Exists_exists in He as ([i [r pc]] & Hin & [[g' pc'] Hs]).
    apply elem_of_lookup_imap in Hin as (j & t & Heq & Hj). simplify_eq. eexists. by econstructor.
  - right. intros p' Hm. inversion Hm as [? ? i r pc g' pc' Hi Hs]; subst. apply Hn, Exists_exists.
    exists (i, (r, pc)). split; [|cbn; rewrite Hs; by eexists]. apply elem_of_lookup_imap. by exists i, (r, pc).
Qed.

(** A state in which nobody can move is one in which all have ended. *)
Lemma lib_stuck_ended rs p :
  rtc lib_moves (lib_begin rs) p → (∀ p', ¬ lib_moves p p') →
  ∀ i t, lp_threads p !! i = Some t → ended t.2 = true.
Proof.
  intros [_ Ho Ht]%lib_reach_inv Hz i t Hi. destruct p as [g ts]. cbn [lp_globals lp_threads] in *.
  assert (∀ k r pc, ts !! k = Some (r, pc) → lib_step k r g pc = None) as Hno.
  { intros k r pc Hk. destruct (lib_step k r g pc) as [[g' pc']|] eqn:E; [|done].
    destruct (Hz (LibProcess g' (<[k := (r, pc')]> ts))). by econstructor. }
  assert (∀ k r pc, ts !! k = Some (r, pc) → pc_holds pc = false) as Hnh.
  { intros k r pc Hk. pose proof (Hno k r pc Hk) as E. destruct pc as [| | |m|[msg|]| |o], r; cbn in E; try done;
      repeat case_match; done. }
  destruct t as [r pc]. pose proof (Hno i r pc Hi) as E.
  destruct pc as [| | |k|[msg|]| |o]; try done; try (by destruct r); try (by specialize (Hnh _ _ _ Hi)).
  assert (M_lib_init_lock g = None → False) as Hlock by (intros El; destruct r; cbn in E; by rewrite El in E).
  destruct (M_lib_init_lock g) as [k|] eqn:El; [|by destruct Hlock].
  destruct (Ho k eq_refl) as [[r' pc''] Hk]. destruct (Ht k _ Hk) as [[_ Hh] _].
  rewrite El in Hh. specialize (Hh eq_refl). cbn in Hh. by rewrite (Hnh _ _ _ Hk) in Hh.
Qed.
End Loader.
