(* ===== verification/LinkClaims.v ===== *)
(** * Properties of the linker and of the binary it builds

    The main theorems about scanning, the worker pool, the generated tables and the
    run time lookup, each with an instance on concrete input. *)
From stdpp Require Import sorting strings gmap list numbers.
From Stdlib Require Import Ascii.
From S2P Require Import Prelude CString Resources ResourcesProofs FindClasses Codegen CodegenProofs.
From S2P Require Import Jni ClassIndex ClassPath LinkLoad.

(** The array behind a reference. *)
Definition bytes_at {X} (w : world X) (o : jobject) : option (list Z) :=
  l ← o; match w_heap w !! l with Some (JBytes b) => Some b | _ => None end.

(** The class loader's native method for a hash. *)
Definition index_method {X} (h : hash_head) (vm : jvm) (g : loader_globals) : jobject → M X jobject :=
  match h with
  | ndrx_G_classes_hash => ndrxj_getClassBytes vm g
  | ndrx_G_emb_res_hash => ndrxj_getResourceBytes vm g
  end.

(** A machine and file generator that never fail, an extracted jar with two classes
    and a resource, and the bytes of its files. *)
Definition good_os : os := Os (λ _ _, true) (λ _, true).
Definition a_jar : list (string * typeflag) :=
  [("./app"%string, FTW_D); ("./app/Main.class"%string, FTW_F); ("./Util.class"%string, FTW_F);
   ("./conf.ini"%string, FTW_F)].
Definition a_jar_bytes (path : string) : list Z := [Z.of_nat (String.length path); 202; 254]%Z.

Lemma a_jar_files :
  entry_files a_jar = ["./app/Main.class"; "./Util.class"; "./conf.ini"]%string.
Proof. reflexivity. Qed.

Lemma a_jar_wf : wf_entries a_jar.
Proof.
  split.
  - apply (bool_decide_unpack _). vm_compute. exact I.
  - intros path Hp. rewrite a_jar_files, !elem_of_cons, elem_of_nil in Hp.
    destruct Hp as [->|[->|[->|[]]]].
    + eexists _, _. apply (wf_class "app/Main"); [done..|]. unfold PATH_MAX. simpl. lia.
    + eexists _, _. apply (wf_class "Util"); [done..|]. unfold PATH_MAX. simpl. lia.
    + eexists _, _. apply (wf_resource "conf.ini"); [done..|]. unfold PATH_MAX. simpl. lia.
Qed.

(** The jobs of [a_jar] and a run of the pool over them. *)
Lemma a_jar_run :
  ∃ s p, nftw (λ _, true) 0 a_jar scan_init = Some (EXSUCCEED, s) ∧ M_was_file s = true ∧
    distinct_jobs (queued s) ∧ Forall job_fits (queued s) ∧
    rtc (step (H := list_exhash) good_os) (pool_start (queued s) ginit) p ∧ all_done p.
Proof.
  destruct (nftw_wf_go a_jar 0 scan_init (proj2 a_jar_wf)) as (s & ds & Hn & Hq & Hf & Hw).
  simpl in Hq. destruct (scan_jobs_distinct _ _ (proj1 a_jar_wf) Hf) as [Hd Hfit].
  destruct (pool_halts (H := list_exhash) good_os (pool_start (queued s) ginit)) as (p & Hr & Hz).
  exists s, p. rewrite Hq in *. split_and!; try done.
  - rewrite Hw. destruct ds; [|done]. rewrite a_jar_files in Hf. inversion Hf.
  - eapply halted_done; [|exact Hz].
    apply (inv_not_crashed (HL := list_exhash_laws) good_os ds Hd Hfit).
    by apply (reachable_inv (HL := list_exhash_laws) good_os).
Qed.

Section Claims.
Context `{EH : ExHash} {HL : ExHashLaws}.

(** C3: the linked binary answers as specified.  For every schedule of the worker
    pool, the tables the linker builds from the extracted files make the class
    loader's native methods return, for any name, exactly the bytes of the one file
    the name stands for, and NULL when there is none; no string stays acquired and
    no exception is raised. *)
Theorem linked_binary_lookup (o : os) (bytes : string → list Z) (entries : list (string * typeflag))
    (g : gstate) (r : Z) (X : Type) (vm : jvm) :
  (∀ d, ndrx_file_gen_embed o (respath (elm_of d)) (embpath (elm_of d)) = true) →
  (∀ n, malloc_ok o n = true) →
  wf_entries entries →
  (∀ path, path ∈ entry_files entries → nul_free path) →
  (∀ path, path ∈ entry_files entries → (Z.of_nat (length (bytes path)) ≤ INT_MAX)%Z) →
  (Z.of_nat (length (entry_files entries)) ≤ 2 ^ 30)%Z →
  exjld_class_build_hash o (λ _, true) entries g r →
  vm_has_memory vm → vm_hands_copies vm →
  r = EXSUCCEED ∧ ∃ lg, linked_globals bytes g = Some lg ∧
    ∀ h (w : world X) l name,
      w_heap w !! l = Some (JString name) → nul_free name → w_exc w = None →
      ∃ res w', index_method h vm lg (Some l) w = Ok res w' ∧
        spec_lookup bytes entries h name (bytes_at w' res) ∧
        w_pins w' = w_pins w ∧ w_exc w' = None.
Proof.
  intros Hgen Hmem Hwf Hnul Hsz Hcnt Hb Hvm Hcp.
  split; [by apply (build_elems o Hgen Hmem entries Hwf g r ndrx_G_classes_hash Hb)|].
  destruct (table_ok o Hgen Hmem bytes entries Hwf Hnul Hsz Hcnt g r ndrx_G_classes_hash Hb)
    as (lc & Hlc & Hsc & Hec & Hnc & Hfc).
  destruct (table_ok o Hgen Hmem bytes entries Hwf Hnul Hsz Hcnt g r ndrx_G_emb_res_hash Hb)
    as (le & Hle & Hse & Hee & Hne & Hfe).
  unfold linked_globals. rewrite Hlc, Hle. eexists. split; [reflexivity|].
  intros h w l name Hl Hn Hex.
  set (t := match h with ndrx_G_classes_hash => class_table bytes (exljd_res_sort_by_resname lc)
                    | ndrx_G_emb_res_hash => class_table bytes (exljd_res_sort_by_resname le) end).
  assert (Hst : sorted_index t ∧ Forall entry_ok t ∧ (Z.of_nat (length t) ≤ 2 ^ 30)%Z ∧
            spec_lookup bytes entries h name (data <$> found t name)) by (destruct h; auto).
  destruct Hst as (Hs & He & Hlen & Hf).
  destruct (run_getIndexBytes vm Hvm t l name w Hcp Hs He Hlen Hl Hn Hex) as (w' & Hrun & Hp & Hx & _ & _ & Hh).
  eexists _, w'. split; [destruct h; exact Hrun|]. split_and!; [|done..].
  destruct (found t name) as [e|]; [|exact Hf].
  unfold bytes_at. cbn. rewrite Hh, lookup_insert_eq. exact Hf.
Qed.

(** C5: workers never touch freed memory.  In every interleaving of jobs with
    distinct names, no worker is ever stuck, every linked element is live and
    carries its job's data, and the pool's error flag stays clear. *)
Theorem pool_safe (o : os) (jobs : list resgen_thread_data_t) (p : pool) :
  (∀ d, ndrx_file_gen_embed o (respath (elm_of d)) (embpath (elm_of d)) = true) →
  (∀ n, malloc_ok o n = true) → distinct_jobs jobs → Forall job_fits jobs →
  rtc (step o) (pool_start jobs ginit) p →
  ¬ crashed o p ∧ thpool_error (shared p) = EXSUCCEED ∧
  ∀ h, ∃ l, hash_elems (shared p) h = Some l ∧ NoDup (resname <$> l) ∧
            ∀ e, e ∈ l → ∃ d, d ∈ jobs ∧ head d = h ∧ e = elm_of d.
Proof.
  intros Hg Hm Hd Hf Hr. pose proof (reachable_inv o Hg Hm jobs Hd Hf p Hr) as Hi.
  split_and!; [by apply (inv_not_crashed o jobs Hd Hf)|by apply (pi_error _ _ Hi)|].
  intros h. destruct (hash_elems_is_Some jobs p h Hi) as [l Hl]. exists l.
  split_and!; [done|by eapply (hash_elems_nodup jobs)|].
  intros e He. apply (hash_elems_elem jobs p h l e Hi Hl) in He as (q & i & d & Ht & Hh & ->).
  exists d. split_and!; [|done..]. eapply list_elem_of_lookup_2, thread_job; eauto.
Qed.

(** C6: the pool ends, and with every job linked.  For jobs with pairwise different names
    that fit their arrays, a generator of include files and an allocator that never fail: no
    schedule runs forever, each step lowers a rank; a state without a step has finished all
    jobs; and when all have finished, each hash holds exactly the elements of its jobs.
    (Equal names are in [duplicate_race].) *)
Theorem pool_completes (o : os) (jobs : list resgen_thread_data_t) :
  (∀ d, ndrx_file_gen_embed o (respath (elm_of d)) (embpath (elm_of d)) = true) →
  (∀ n, malloc_ok o n = true) → distinct_jobs jobs → Forall job_fits jobs →
  (∀ p p', step o p p' → pool_rank p' < pool_rank p) ∧
  (∀ p, rtc (step o) (pool_start jobs ginit) p → (∀ z, ¬ step o p z) → all_done p) ∧
  (∀ p h, rtc (step o) (pool_start jobs ginit) p → all_done p →
     ∃ l, hash_elems (shared p) h = Some l ∧ l ≡ₚ elm_of <$> filter (λ d, head d = h) jobs).
Proof.
  intros Hg Hm Hd Hf. split_and!; [apply step_rank| |].
  - intros p Hr Hz. apply (halted_done o); [|done]. apply (inv_not_crashed o jobs Hd Hf).
    by apply (reachable_inv o Hg Hm jobs Hd Hf).
  - intros p h Hr Ha. destruct (pool_outcome o Hg Hm jobs Hd Hf p h Hr Ha) as (l & ? & ? & _). eauto.
Qed.

(** C38: a failed job is reported.  Whatever the generator and the allocator do and
    in whatever order the workers run, when some job ended without linking its
    element the error flag is set, and so the build returns EXFAIL. *)
Theorem pool_failure_reported (o : os) (jobs : list resgen_thread_data_t) (p : pool)
    (i : nat) (d : resgen_thread_data_t) :
  rtc (step o) (pool_start jobs ginit) p →
  threads p !! i = Some (d, TDone None) → thpool_error (shared p) = EXFAIL.
Proof.
  intros Hr. revert i d.
  apply (rtc_invariant (step o) (λ p, ∀ i d, threads p !! i = Some (d, TDone None) →
    thpool_error (shared p) = EXFAIL)) with (2 := Hr).
  2: { intros i d. simpl. rewrite list_lookup_fmap, fmap_Some. by intros (? & _ & ?). }
  - intros p1 p2 Hi Hs. destruct Hs as [ts g j d pc pc' g' Hj Hrun]. simpl in *.
    assert (Hg : thpool_error g' = EXFAIL ∨
                 (thpool_error g' = thpool_error g ∧ pc' ≠ TDone None)).
    { destruct pc; simpl in Hrun; unfold seg_find, seg_build, seg_link, exljd_res_find in Hrun.
      - destruct (read_keys _ _); simpl in Hrun; [|done].
        destruct (EXHASH_FIND_STR _ _); simplify_eq; [by left|by right].
      - repeat case_match; simplify_eq; by (left + right).
      - destruct (mem g !! elm); simpl in Hrun; [|done]. simplify_eq. right.
        by rewrite err_set_head.
      - done. }
    intros i d' Hi'. destruct Hg as [?|[-> Hne]]; [done|].
    apply list_lookup_insert_Some in Hi' as [(? & ? & ?)|[? ?]]; [by simplify_eq|eauto].
Qed.
End Claims.

(** The scan queues one job per file, and no two jobs clash.  For a tree of compiled
    classes and resources the walk succeeds, queues exactly one job for each regular
    file in order, and the jobs have pairwise different keys that fit their arrays. *)
Theorem scan_one_job_per_file (entries : list (string * typeflag)) :
  wf_entries entries →
  ∃ s, nftw (λ _, true) 0 entries scan_init = Some (EXSUCCEED, s) ∧
    Forall2 job_for (entry_files entries) (queued s) ∧
    distinct_jobs (queued s) ∧ Forall job_fits (queued s).
Proof.
  intros [Hnd Hp]. destruct (nftw_wf_go entries 0 scan_init Hp) as (s & ds & Hn & Hq & Hf & _).
  simpl in Hq. exists s. rewrite Hq. split_and!; [done..| |]; by apply (scan_jobs_distinct _ _ Hnd Hf).
Qed.

(** Generated symbols are unique.  Whatever the walk meets, also when it stops
    early, the names of the generated include files and symbols of the queued jobs are
    pairwise different, as long as they fit their array. *)
Theorem scan_symbols_unique (alloc : nat → bool) (entries : list (string * typeflag)) (r : Z)
    (s : scan_state) :
  nftw alloc 0 entries scan_init = Some (r, s) →
  Forall (λ d, String.length (emb_pfx d +:+ "_" +:+ print_int (d_id d)) ≤ PATH_MAX) (queued s) →
  NoDup ((λ d, embpath (elm_of d)) <$> queued s).
Proof.
  intros Hn Hfit. destruct (nftw_inv _ _ _ _ _ _ Hn scan_init_inv) as (Hnd & Hd & _).
  rewrite Forall_forall in Hfit.
  apply NoDup_fmap_2_strong.
  - intros d1 d2 H1 H2. rewrite !elm_of_embpath by auto.
    destruct (Hd d1 H1) as [I1 E1], (Hd d2 H2) as [I2 E2]. rewrite E1, E2. intros E.
    apply pfx_no_clash in E as [Eh Ei]. apply print_int_inj in Ei; [|lia..].
    eapply (NoDup_fmap_elem_eq numbered (queued s)); try done.
    unfold numbered. by rewrite Eh, Ei.
  - by eapply NoDup_fmap_1.
Qed.

(** Class files are named after their class.  A class file below the work
    directory goes to the class table under its dotted name without the extension,
    any other file to the resource table under its relative path; each gets the next
    number of its table. *)
Theorem entry_job (path : string) (h : hash_head) (name : string) (s : scan_state) :
  wf_path path h name →
  process_entry true path FTW_F s =
    Some (EXSUCCEED, match h with
          | ndrx_G_classes_hash =>
              ScanState (id_class s + 1) (id_res s) true
                (queued s ++ [ResgenData h name (id_class s + 1) path "class"])
          | ndrx_G_emb_res_hash =>
              ScanState (id_class s) (id_res s + 1) true
                (queued s ++ [ResgenData h name (id_res s + 1) path "emb"])
          end).
Proof.
  intros Hw. unfold process_entry. rewrite (wf_path_name _ _ _ Hw). by destruct h.
Qed.

(** C24: the binary search agrees with a linear search.  Over a sorted table it never
    leaves the table or overflows, and finds the entry a scan would find. *)
Theorem search_equals_scan (index : list ndrxj_class_index_t) (utf : string) :
  sorted_index index → nul_free utf → (Z.of_nat (length index) ≤ 2 ^ 30)%Z →
  match found index utf with
  | Some e => ∃ k, bsearch index (Z.of_nat (length index)) utf = SFound k ∧ index_at index k = Some e
  | None => bsearch index (Z.of_nat (length index)) utf = SNotFound
  end.
Proof. apply bsearch_found. Qed.

(** The search is logarithmic.  The loop decides within log2 of the table size
    plus two rounds. *)
Theorem search_rounds (index : list ndrxj_class_index_t) (utf : string) (m : Z) :
  sorted_index index → nul_free utf → (Z.of_nat (length index) ≤ 2 ^ 30)%Z →
  mid 0 (Z.of_nat (length index) - 1) = Some m →
  match search_loop (S (S (Z.to_nat (Z.log2 (Z.of_nat (length index))))))
          index utf 0 (Z.of_nat (length index) - 1) m with
  | SFound k => ∃ e, index_at index k = Some e ∧ cls e = utf
  | SNotFound => ∀ i e, index_at index i = Some e → cls e ≠ utf
  | _ => False
  end.
Proof. intros Hs Hu Hl Hm. by apply search_loop_log. Qed.


(** Success of the generator means the build command succeeded.  EXSUCCEED is
    returned exactly when the file could be written and every command run returned
    zero; in test mode the second command is the build command again, not the binary
    that was built. *)
Theorem codegen_commands (cfg : link_cfg) (fopen_ok : bool) (system : nat → string → Z)
    (classes embs : list exjld_resource_t) (test_mode : bool) :
  let out := ndrxj_codegen cfg fopen_ok system classes embs test_mode in
  (co_ret out = EXSUCCEED ↔
     fopen_ok = true ∧ system 0 (build_cmd cfg) = EXSUCCEED ∧
     (test_mode = true → system 1 (build_cmd cfg) = EXSUCCEED)) ∧
  (co_ret out = EXSUCCEED →
     co_cmds out = if test_mode then [build_cmd cfg; build_cmd cfg] else [build_cmd cfg]) ∧
  (fopen_ok = true → co_file out = Some (jmain_c cfg classes embs (if test_mode then 1 else 0))).
Proof.
  unfold ndrxj_codegen. destruct fopen_ok; simpl; [|naive_solver].
  case_decide; [destruct test_mode; simpl; [case_decide|]|]; simpl; naive_solver.
Qed.

(** C39: the build command is complete or cut.  Every concatenation is bounded, the
    command never exceeds its array, and whenever the command that names all libraries,
    include and library directories (relative ones below the original directory) fits,
    that is the command run. *)
Theorem build_command_complete (cfg : link_cfg) :
  String.length (build_cmd cfg) ≤ PATH_MAX ∧
  (String.length (full_cmd cfg) ≤ PATH_MAX → build_cmd cfg = full_cmd cfg).
Proof. split; [apply build_cmd_bounded|apply build_cmd_full]. Qed.

(** ** Duplicate names *)

Section Duplicates.
Context `{EH : ExHash} {HL : ExHashLaws}.

(** A detected duplicate frees the element in use.  When the name is already in
    the hash, the worker reports the error and frees the element that is still
    linked there, and the next look-up in that hash touches freed memory. *)
Theorem duplicate_frees_live (o : os) (d : resgen_thread_data_t) (g : gstate)
    (ks : list (string * nat)) (p : nat) :
  read_keys g (head_list (head d) g) = Some ks → (d_resname d, p) ∈ ks →
  ∃ q g', exljd_res_add_th o d g = Some g' ∧ thpool_error g' = EXFAIL ∧
    q ∈ head_list (head d) g' ∧ mem g' !! q = None ∧
    ∀ name, exljd_res_find g' (head d) name = None.
Proof.
  intros Hk Hp. unfold exljd_res_add_th, seg_find, exljd_res_find. rewrite Hk. simpl.
  destruct (EXHASH_FIND_STR ks (d_resname d)) as [q|] eqn:Hf;
    [|by destruct (find_none _ _ p Hf)].
  simpl. exists q. eexists. split; [reflexivity|].
  destruct (read_keys_elem _ _ _ _ _ Hk (find_some _ _ _ Hf)) as [Hq _].
  split_and!; [done|by destruct (head d)|apply lookup_delete_eq|].
  intros name. apply bind_None. left. unfold read_keys. apply mapM_None, Exists_exists.
  exists q. split; [by destruct (head d)|]. cbn. by rewrite lookup_delete_eq.
Qed.

(** A duplicate can go unnoticed.  The check and the insertion are two critical
    sections: for any two jobs with the same key there is an interleaving in which
    both insert their element and no error is reported. *)
Theorem duplicate_race (o : os) (d1 d2 : resgen_thread_data_t) :
  (∀ d, ndrx_file_gen_embed o (respath (elm_of d)) (embpath (elm_of d)) = true) →
  (∀ n, malloc_ok o n = true) → head d1 = head d2 → d_resname d1 = d_resname d2 →
  ∃ p, rtc (step o) (pool_start [d1; d2] ginit) p ∧ all_done p ∧
    thpool_error (shared p) = EXSUCCEED ∧
    hash_elems (shared p) (head d1) = Some [elm_of d1; elm_of d2] ∧
    resname (elm_of d1) = resname (elm_of d2).
Proof.
  intros Hg Hm Hh Hn.
  assert (Hfind : ∀ d, seg_find d ginit = Some (TNotFound, ginit)).
  { intros d. unfold seg_find, exljd_res_find.
    replace (head_list (head d) ginit) with (@nil nat) by by destruct (head d). simpl.
    destruct (EXHASH_FIND_STR [] (d_resname d)) as [q|] eqn:Hf; [|done].
    apply find_some in Hf. by apply elem_of_nil in Hf. }
  pose proof (seg_build_ok o Hg Hm) as Hbuild.
  eexists. split.
  - eapply rtc_l; [eapply (step_thread o) with (i := 0); [reflexivity|exact (Hfind d1)]|].
    eapply rtc_l; [eapply (step_thread o) with (i := 1); [reflexivity|exact (Hfind d2)]|].
    eapply rtc_l; [eapply (step_thread o) with (i := 0); [reflexivity|exact (f_equal Some (Hbuild d1 _))]|].
    eapply rtc_l; [eapply (step_thread o) with (i := 1); [reflexivity|exact (f_equal Some (Hbuild d2 _))]|].
    eapply rtc_l; [eapply (step_thread o) with (i := 0); reflexivity|].
    eapply rtc_l; [|apply rtc_refl]. eapply (step_thread o) with (i := 1); [reflexivity|].
    simpl. unfold seg_link. rewrite mem_set_head. reflexivity.
  - rewrite <- Hh. cbn [elm_of resname]. rewrite Hn. destruct (head d1); done.
Qed.
End Duplicates.

(** ** The class path *)

(** Class path options are recognised.  A line that starts with an option of at most
    eleven characters and a blank adds the entries after it when the option is [-cp] or
    [-classpath], failing if the split fails, and changes nothing otherwise; a line
    without a blank changes nothing. *)
Theorem cp_options (splitadd : list string → string → string → option (list string)) (l : list string)
    (tag rest : string) (c : ascii) :
  solid tag → tag ≠ EmptyString → String.length tag ≤ S MAX_TAGLEN → is_blank c = true →
  ndrxj_cp_proc splitadd l (tag +:+ String c rest) =
    (if String.eqb tag "-cp" || String.eqb tag "-classpath" then
       match splitadd l (String c rest) ":"%string with
       | Some l' => (EXSUCCEED, l')
       | None => (EXFAIL, l)
       end
     else (EXSUCCEED, l)) ∧
  ndrxj_cp_proc splitadd l tag = (EXSUCCEED, l).
Proof. intros. split; [by apply cp_proc_option|by apply cp_proc_no_blank]. Qed.

(** Leading blanks are skipped but not counted.  One blank before [-cp] makes the
    option ignored; with four, the text handed to the split still contains the option
    itself. *)
Theorem cp_leading_blanks (splitadd : list string → string → string → option (list string))
    (l : list string) (rest : string) :
  ndrxj_cp_proc splitadd l (" -cp " +:+ rest) = (EXSUCCEED, l) ∧
  ndrxj_cp_proc splitadd l ("    -cp " +:+ rest) =
    match splitadd l (" -cp " +:+ rest) ":"%string with
    | Some l' => (EXSUCCEED, l')
    | None => (EXFAIL, l)
    end.
Proof. split; reflexivity. Qed.

(** ** Instances *)

Definition job (n : string) (k : Z) : resgen_thread_data_t :=
  ResgenData ndrx_G_classes_hash n k ("./" +:+ n +:+ ".class") "class".
Definition two_jobs : list resgen_thread_data_t := [job "A" 1; job "B" 2].

Lemma two_jobs_distinct : distinct_jobs two_jobs.
Proof. apply (bool_decide_unpack _). vm_compute. exact I. Qed.
Lemma two_jobs_fit : Forall job_fits two_jobs.
Proof. repeat apply Forall_cons_2; try apply Forall_nil_2; apply Nat.leb_le; vm_compute; reflexivity. Qed.

(** One string object with the name to look up. *)
Definition name_world (name : string) : world unit :=
  World {[1%positive := JString name]} 2%positive None [] [] [] 0 None tt.

Lemma linked_binary_lookup_witness :
  ∃ g r lg, exjld_class_build_hash (H := list_exhash) good_os (λ _, true) a_jar g r ∧
    linked_globals (H := list_exhash) a_jar_bytes g = Some lg ∧
    ∃ res w', index_method ndrx_G_classes_hash good_vm lg (Some 1%positive) (name_world "app.Main") = Ok res w' ∧
      spec_lookup a_jar_bytes a_jar ndrx_G_classes_hash "app.Main" (bytes_at w' res).
Proof.
  destruct a_jar_run as (s & p & Hn & Hw & _ & _ & Hr & Hd).
  pose proof (build_waited (H := list_exhash) good_os (λ _, true) a_jar s p Hn Hw Hr Hd) as Hb.
  set (r := if decide _ then _ else _) in Hb.
  assert (Hnul : ∀ path, path ∈ entry_files a_jar → nul_free path).
  { intros path. rewrite a_jar_files, !elem_of_cons, elem_of_nil.
    intros [->|[->|[->|[]]]]; exact I. }
  destruct (linked_binary_lookup (EH := list_exhash) (HL := list_exhash_laws) good_os a_jar_bytes a_jar
    (shared p) r unit good_vm (λ _, eq_refl) (λ _, eq_refl) a_jar_wf Hnul)
    as (_ & lg & Hlg & Hall); [by intros; simpl|by rewrite a_jar_files|exact Hb|done|done|].
  destruct (Hall ndrx_G_classes_hash (name_world "app.Main") 1%positive "app.Main"%string)
      as (res & w' & Hrun & Hspec & _); [done..|].
  exists (shared p), r, lg. split_and!; [exact Hb|exact Hlg|]. by exists res, w'.
Defined.

Lemma pool_safe_witness :
  ∃ p, rtc (step (H := list_exhash) good_os) (pool_start two_jobs ginit) p ∧
       ¬ crashed (H := list_exhash) good_os p ∧ thpool_error (shared p) = EXSUCCEED.
Proof.
  destruct (pool_halts (H := list_exhash) good_os (pool_start two_jobs ginit)) as (p & Hr & _).
  exists p. split; [exact Hr|].
  destruct (pool_safe (EH := list_exhash) (HL := list_exhash_laws) good_os two_jobs p (λ _, eq_refl)
    (λ _, eq_refl) two_jobs_distinct two_jobs_fit Hr) as (Hc & He & _). by split.
Defined.

Lemma pool_completes_witness :
  ∃ p l, rtc (step (H := list_exhash) good_os) (pool_start two_jobs ginit) p ∧ all_done p ∧
    hash_elems (shared p) ndrx_G_classes_hash = Some l ∧
    l ≡ₚ elm_of <$> filter (λ d, head d = ndrx_G_classes_hash) two_jobs.
Proof.
  destruct (pool_halts (H := list_exhash) good_os (pool_start two_jobs ginit)) as (p & Hr & Hz).
  destruct (pool_completes (EH := list_exhash) (HL := list_exhash_laws) good_os two_jobs (λ _, eq_refl)
    (λ _, eq_refl) two_jobs_distinct two_jobs_fit) as (_ & Hdone & Hout).
  specialize (Hdone p Hr Hz). destruct (Hout p ndrx_G_classes_hash Hr Hdone) as (l & Hl & Hp).
  by exists p, l.
Defined.

(** The generator fails: the one job ends without an element. *)
Definition failing_os : os := Os (λ _ _, false) (λ _, true).

Lemma pool_failure_reported_witness :
  ∃ p, threads p !! 0 = Some (job "A" 1, TDone None) ∧ thpool_error (shared p) = EXFAIL.
Proof.
  set (p := Pool [(job "A" 1, TDone None)]
              (exjld_thread_error_set EXFAIL (ndrx_free 0 (set_mem (<[0 := elm_of (job "A" 1)]> ∅) 1 ginit)))).
  exists p. split; [reflexivity|].
  apply (pool_failure_reported (EH := list_exhash) failing_os [job "A" 1] p 0 (job "A" 1)); [|reflexivity].
  eapply rtc_l; [eapply (step_thread (H := list_exhash) failing_os) with (i := 0); reflexivity|].
  eapply rtc_l; [eapply (step_thread (H := list_exhash) failing_os) with (i := 0); reflexivity|].
  apply rtc_refl.
Defined.

Lemma scan_one_job_per_file_witness :
  ∃ s, nftw (λ _, true) 0 a_jar scan_init = Some (EXSUCCEED, s) ∧ distinct_jobs (queued s).
Proof.
  destruct (scan_one_job_per_file a_jar a_jar_wf) as (s & Hs & _ & Hd & _). by exists s.
Defined.

(** The state the walk over [a_jar] ends in. *)
Definition a_jar_scanned : scan_state :=
  ScanState 2 1 true
    [ResgenData ndrx_G_classes_hash "app.Main" 1 "./app/Main.class" "class";
     ResgenData ndrx_G_classes_hash "Util" 2 "./Util.class" "class";
     ResgenData ndrx_G_emb_res_hash "conf.ini" 1 "./conf.ini" "emb"].

Lemma scan_symbols_unique_witness :
  nftw (λ _, true) 0 a_jar scan_init = Some (EXSUCCEED, a_jar_scanned) ∧
  NoDup ((λ d, embpath (elm_of d)) <$> queued a_jar_scanned).
Proof.
  assert (H : nftw (λ _, true) 0 a_jar scan_init = Some (EXSUCCEED, a_jar_scanned))
    by (vm_compute; reflexivity).
  split; [exact H|]. apply (scan_symbols_unique (λ _, true) a_jar EXSUCCEED a_jar_scanned H).
  repeat apply Forall_cons_2; try apply Forall_nil_2; apply Nat.leb_le; vm_compute; reflexivity.
Defined.

Lemma entry_job_witness :
  process_entry true "./org/demo/App.class" FTW_F scan_init =
  Some (EXSUCCEED, ScanState 1 0 true
    [ResgenData ndrx_G_classes_hash "org.demo.App" 1 "./org/demo/App.class" "class"]).
Proof.
  apply (entry_job "./org/demo/App.class" ndrx_G_classes_hash "org.demo.App" scan_init).
  apply (wf_class "org/demo/App"); [done..|]. unfold PATH_MAX. simpl. lia.
Defined.

Definition small_index : list ndrxj_class_index_t :=
  [ClassIndex "A" [1]%Z 1; ClassIndex "B" [2; 3]%Z 2; ClassIndex "app.Main" [4]%Z 1].

Lemma small_index_sorted : sorted_index small_index.
Proof.
  split; [repeat constructor|].
  intros [|[|[|i]]] [|[|[|j]]] a b Hi Hj Hij; simpl in *; simplify_eq; try lia; vm_compute; done.
Qed.

Lemma search_equals_scan_witness :
  sorted_index small_index ∧
  ∃ k, bsearch small_index 3 "app.Main" = SFound k ∧
       index_at small_index k = Some (ClassIndex "app.Main" [4]%Z 1).
Proof.
  split; [exact small_index_sorted|].
  exact (search_equals_scan small_index "app.Main" small_index_sorted I ltac:(simpl; lia)).
Defined.

Lemma search_rounds_witness :
  search_loop 3 small_index "C" 0 2 1 = SNotFound ∧
  ∀ i e, index_at small_index i = Some e → cls e ≠ "C"%string.
Proof.
  split; [reflexivity|].
  exact (search_rounds small_index "C" 1 small_index_sorted I ltac:(simpl; lia) eq_refl).
Defined.



Definition libs_cfg : link_cfg :=
  LinkCfg "buildclient" "app.Main" "demo" "/tmp" ["exjlds"; "jvm"]%string ["inc"; "/opt/inc"]%string ["lib"%string].

Lemma build_command_complete_witness :
  build_cmd libs_cfg =
  ("buildclient -n -o 'demo' -f 'jmain.c -lexjlds -ljvm' -a " +:+
   quoted "-I/tmp/inc -I/opt/inc -L/tmp/lib")%string.
Proof.
  etrans; [apply (build_command_complete libs_cfg); apply Nat.leb_le; vm_compute; reflexivity|].
  vm_compute. reflexivity.
Defined.

(** A hash that holds the class [A]. *)
Definition linked_A : gstate := GState [0] [] {[0 := elm_of (job "A" 1)]} 1 EXSUCCEED.

Lemma duplicate_frees_live_witness :
  ∃ q g', exljd_res_add_th (H := list_exhash) good_os (job "A" 7) linked_A = Some g' ∧
    q ∈ classes_hash g' ∧ mem g' !! q = None.
Proof.
  destruct (duplicate_frees_live (EH := list_exhash) (HL := list_exhash_laws) good_os (job "A" 7) linked_A
    [("A"%string, 0)] 0) as (q & g' & Hg & _ & Hq & Hm & _).
  - vm_compute. reflexivity.
  - left.
  - by exists q, g'.
Defined.

Lemma duplicate_race_witness :
  ∃ p, rtc (step (H := list_exhash) good_os) (pool_start [job "A" 1; job "A" 2] ginit) p ∧
    hash_elems (shared p) ndrx_G_classes_hash = Some [elm_of (job "A" 1); elm_of (job "A" 2)].
Proof.
  destruct (duplicate_race (EH := list_exhash) (HL := list_exhash_laws) good_os (job "A" 1) (job "A" 2)
    (λ _, eq_refl) (λ _, eq_refl) eq_refl eq_refl) as (p & Hr & _ & _ & Hl & _).
  by exists p.
Defined.

(** A split that does not interpret its argument. *)
Definition keep_line (l : list string) (s sep : string) : option (list string) := Some (l ++ [s]).

Lemma cp_options_witness :
  ndrxj_cp_proc keep_line [] "-cp /lib/a.jar:/lib/b.jar" = (EXSUCCEED, [" /lib/a.jar:/lib/b.jar"%string]).
Proof.
  exact (proj1 (cp_options keep_line [] "-cp" "/lib/a.jar:/lib/b.jar" " " I ltac:(done)
    ltac:(unfold MAX_TAGLEN; simpl; lia) eq_refl)).
Defined.
