(* ===== verification/BootClaims.v ===== *)
(** * Properties of the start of a linked program

    The tables the linker builds and the start of the binary that includes them,
    composed: [main] of the main class runs, and what happens when the start fails. *)
From stdpp Require Import sorting strings gmap list numbers.
From S2P Require Import Prelude CString Resources ResourcesProofs FindClasses Codegen CodegenProofs.
From S2P Require Import Jni ClassIndex ClassPath LinkLoad Boot BootProofs LinkClaims.

Section Claims.
Context `{EH : ExHash} {HL : ExHashLaws}.
Context (findLoadedClass super_loadClass : string → M boot_state jobject)
  (java_main : jobject → jobject → M boot_state unit).

(** A linked program starts its main class.  For every schedule of the linker's worker
    pool, the binary built from the extracted files, run with a readable configuration on a
    machine with memory that accepts the classes, calls [main] of the main class made from
    exactly the bytes of that class's file, by the loader whose native methods are bound to
    the C functions; with the command line without the name of the binary, in order; with
    the class path of the options and the environment as URLs; and returns EXSUCCEED exactly
    if [main] returns without an exception, which is cleared; the machine is destroyed.  In
    test mode all of this happens but the call. *)
Theorem linked_program_starts (o : os) (bytes : string → list Z) (entries : list (string * typeflag))
    (g : gstate) (r : Z) (vm : jvm) (env : boot_env) (path main_class prog : string)
    (argv opts cp : list string) (test_mode : bool) (w : world boot_state) :
  (∀ d, ndrx_file_gen_embed o (respath (elm_of d)) (embpath (elm_of d)) = true) →
  (∀ n, malloc_ok o n = true) →
  wf_entries entries →
  (∀ path, path ∈ entry_files entries → nul_free path) →
  (∀ path, path ∈ entry_files entries → (Z.of_nat (length (bytes path)) ≤ INT_MAX)%Z) →
  (Z.of_nat (length (entry_files entries)) ≤ 2 ^ 30)%Z →
  exjld_class_build_hash o (λ _, true) entries g r →
  path ∈ entry_files entries → wf_path path ndrx_G_classes_hash main_class →
  boot_possible vm env → vm_hands_copies vm →
  (∀ w, findLoadedClass main_class w = Ok None w) → define_ok env main_class = true →
  jvm_class_exists vm (main_class +:+ ".main") = true →
  boot_configured env opts cp → JNI_CreateJavaVM env opts = true →
  w_x w = boot_init → w_exc w = None →
  ∃ lg w1 lc la, linked_globals bytes g = Some lg ∧
    main_ready env main_class (bytes path) argv cp w1 lc la ∧ M_index (w_x w1) = lg ∧
    ndrxj_run_main (H := static_java vm env findLoadedClass super_loadClass java_main)
      vm env (prog :: argv) main_class lg test_mode w =
    if (test_mode : bool) then Ok EXSUCCEED (with_x (set_vm false (w_x w1)) w1)
    else after_main (java_main (Some lc) (Some la) w1).
Proof.
  intros Hgen Hmem Hwf Hnul Hsz Hcnt Hb Hpath Hp Hposs Hcop Hload Hdef Hmain Hconf Hjvm Hx Hex.
  destruct (table_ok o Hgen Hmem bytes entries Hwf Hnul Hsz Hcnt g r ndrx_G_classes_hash Hb)
    as (lc & Hlc & Hs & He & Hlen & Hf).
  destruct (table_ok o Hgen Hmem bytes entries Hwf Hnul Hsz Hcnt g r ndrx_G_emb_res_hash Hb)
    as (le & Hle & _).
  unfold linked_globals. rewrite Hlc, Hle. cbn [mbind option_bind]. set (t := class_table _ _) in *.
  specialize (Hf main_class). destruct (found t main_class) as [e|] eqn:Hfound; cbn in Hf; [|by destruct (Hf path)].
  destruct Hf as (path' & _ & Hp' & Hd). rewrite (wf_path_inj _ _ _ _ Hp' Hp) in Hd.
  set (lg := LoaderGlobals _ _ _ _).
  destruct (run_to_main vm env findLoadedClass super_loadClass java_main Hposs main_class e Hcop
    (wf_path_nul_free _ _ _ Hp (Hnul _ Hpath)) Hload Hdef Hmain prog argv lg opts cp test_mode w
    Hx Hex Hconf Hjvm (conj Hs (conj He (conj eq_refl Hlen))) Hfound) as (w1 & l1 & l2 & Hready & Hidx & Hrun).
  rewrite Hd in Hready. by exists lg, w1, l1, l2.
Qed.
End Claims.

(** The configuration and the machine the start needs; without them it stops at once. *)
Definition machine_made (env : boot_env) : Prop :=
  ∃ opts cp, boot_configured env opts cp ∧ JNI_CreateJavaVM env opts = true.

(** A start without configuration or machine fails cleanly.  If the configuration is
    not readable, the options or the class path cannot be stored, or the machine cannot be
    made, then whatever Java code there is and whatever the section holds, the program
    returns EXFAIL, no Java object was made or changed and no machine is left. *)
Theorem start_refused `{!BootJava} (vm : jvm) (env : boot_env) (argv : list string) (main_class : string)
    (g : loader_globals) (test_mode : bool) (w : world boot_state) :
  w_x w = boot_init → ¬ machine_made env →
  ∃ w', ndrxj_run_main vm env argv main_class g test_mode w = Ok EXFAIL w' ∧
    bs_vm (w_x w') = false ∧ bs_defined (w_x w') = [] ∧ w_heap w' = w_heap w ∧ w_exc w' = w_exc w.
Proof.
  intros Hx Hno. unfold ndrxj_run_main, ndrxj_ldr_getvm.
  rewrite !run_bind, run_bmod, Hx, run_bind, run_bget, run_bind. simpl (classpath_of _). rewrite run_ret, run_bind.
  set (w1 := with_x _ w).
  destruct (read_options_cases env w1) as (ret & opts & cp0 & -> & Hcase).
  rewrite run_bind, run_bmod. destruct (Z.eqb_spec ret EXSUCCEED) as [->|_]; [|by eexists]. cbn [negb].
  destruct (env_classpath env cp0) as [ret cp] eqn:Hcp. rewrite run_bind, run_bmod.
  destruct (Z.eqb_spec ret EXSUCCEED) as [->|_]; [|by eexists]. cbn [negb].
  destruct (JNI_CreateJavaVM env opts) eqn:Hjvm; [|by eexists].
  destruct Hno. exists opts, cp. auto.
Qed.

(** ** Instances *)

(** A section with a class path, a heap option and a key that is no option; a machine that
    accepts everything. *)
Definition demo_section : list (string * string) :=
  [("opts", "-cp /lib/a.jar"); ("comment", "none"); ("opts2", "-Xmx64m")]%string.

Definition demo_env : boot_env :=
  BootEnv (Some true) (Some demo_section) true (Some "/lib/b.jar"%string) keep_line
    (λ opts, bool_decide (opts = ["-cp /lib/a.jar"; "-Xmx64m"]%string)) (λ _, true) (λ _, true) (λ _, [1; 2]%Z).

Definition demo_cp : list string := [" /lib/a.jar"; "/lib/b.jar"]%string.

Lemma demo_configured : boot_configured demo_env ["-cp /lib/a.jar"; "-Xmx64m"]%string demo_cp.
Proof. split_and!; [done|done|]. exists [" /lib/a.jar"%string]. done. Qed.

Lemma demo_possible : boot_possible good_vm demo_env.
Proof. split; [done|by repeat constructor..]. Qed.

Definition boot_world : world boot_state := World ∅ 1%positive None [] [] [] 0 None boot_init.

Lemma linked_program_starts_witness :
  ∃ lg w1 lc la,
    main_ready demo_env "app.Main" (a_jar_bytes "./app/Main.class") ["-v"; "file"]%string demo_cp w1 lc la ∧
    ndrxj_run_main (H := static_java good_vm demo_env (λ _, mret None) (λ _, mret None) (λ _ _, mret tt))
      good_vm demo_env ["prog"; "-v"; "file"]%string "app.Main" lg false boot_world =
    Ok EXSUCCEED (with_x (set_vm false (w_x w1)) w1).
Proof.
  destruct a_jar_run as (s & p & Hn & Hw & _ & _ & Hr & Hd).
  pose proof (build_waited (H := list_exhash) good_os (λ _, true) a_jar s p Hn Hw Hr Hd) as Hb.
  set (r := if decide _ then _ else _) in Hb.
  assert (Hnul : ∀ path, path ∈ entry_files a_jar → nul_free path).
  { intros path. rewrite a_jar_files, !elem_of_cons, elem_of_nil.
    intros [->|[->|[->|[]]]]; exact I. }
  assert (Hp : wf_path "./app/Main.class" ndrx_G_classes_hash "app.Main").
  { apply (wf_class "app/Main"); [done..|]. unfold PATH_MAX. simpl. lia. }
  destruct (linked_program_starts (EH := list_exhash) (HL := list_exhash_laws)
    (λ _, mret None) (λ _, mret None) (λ _ _, mret tt) good_os a_jar_bytes a_jar
    (shared p) r good_vm demo_env "./app/Main.class" "app.Main" "prog" ["-v"; "file"]%string
    ["-cp /lib/a.jar"; "-Xmx64m"]%string demo_cp false boot_world (λ _, eq_refl) (λ _, eq_refl) a_jar_wf Hnul)
    as (lg & w1 & lc & la & _ & Hready & _ & Hrun);
    [by intros; simpl|by rewrite a_jar_files|exact Hb|rewrite a_jar_files; left|exact Hp|exact demo_possible
    |done|done|done|done|exact demo_configured|done|done|done|].
  exists lg, w1, lc, la. split; [exact Hready|]. rewrite Hrun. unfold after_main.
  rewrite run_ret, (mr_exc _ _ _ _ _ _ _ _ Hready). done.
Defined.

(** A machine that refuses its options. *)
Definition refusing_env : boot_env :=
  BootEnv (Some true) (Some demo_section) true None keep_line (λ _, false) (λ _, true) (λ _, true) (λ _, []).

Lemma start_refused_witness :
  ∃ w', ndrxj_run_main (H := static_java good_vm refusing_env (λ _, mret None) (λ _, mret None) (λ _ _, mret tt))
      good_vm refusing_env ["prog"]%string "app.Main" no_tables false boot_world = Ok EXFAIL w' ∧
    bs_vm (w_x w') = false.
Proof.
  destruct (start_refused (H := static_java good_vm refusing_env (λ _, mret None) (λ _, mret None) (λ _ _, mret tt))
    good_vm refusing_env ["prog"]%string "app.Main" no_tables false boot_world eq_refl
    ltac:(intros (? & ? & _ & H); discriminate H)) as (w' & Hr & Hv & _).
  by exists w'.
Defined.

(** A machine whose class loader cannot be made is neither returned nor destroyed: the
    program ends with EXFAIL while it runs. *)
Theorem machine_left_running :
  let env := BootEnv (Some false) None true None keep_line (λ _, true) (λ _, false) (λ _, true) (λ _, []) in
  ∃ w', ndrxj_run_main (H := static_java good_vm env (λ _, mret None) (λ _, mret None) (λ _ _, mret tt))
      good_vm env ["prog"]%string "app.Main" no_tables false boot_world = Ok EXFAIL w' ∧
    bs_vm (w_x w') = true.
Proof. eexists. split; [vm_compute; reflexivity|reflexivity]. Qed.

(** The class path is freed but the variable keeps its value: a second start in the same
    process, after a first one that failed, reads it. *)
Theorem second_start_reads_freed :
  let java := static_java good_vm refusing_env (λ _, mret None) (λ _, mret None) (λ _ _, mret tt) in
  (ndrxj_ldr_getvm (H := java) good_vm refusing_env no_tables ≫= λ _,
   ndrxj_ldr_getvm (H := java) good_vm refusing_env no_tables) boot_world = Crash "freed class path".
Proof. vm_compute. reflexivity. Qed.

(** A main class no loader finds: the handler compares and deletes a variable that was
    never assigned. *)
Theorem missing_main_class :
  let java := static_java good_vm demo_env (λ _, mret None)
    (λ _, throw_vm "java/lang/ClassNotFoundException";; mret None) (λ _ _, mret tt) in
  ndrxj_run_main (H := java) good_vm demo_env ["prog"]%string "app.Main" no_tables false boot_world =
  Crash "uninitialised reference".
Proof. vm_compute. reflexivity. Qed.
