(* ===== verification/LinkMainClaims.v ===== *)
(** * Properties of the linker's main program

    What a command line does, what success means, and what is cleaned up, each with an
    instance; then the behaviours that differ from the manual page. *)
From stdpp Require Import sorting strings gmap list numbers.
From Stdlib Require Import Ascii.
From S2P Require Import Prelude CString Resources FindClasses Codegen Jni LinkMain LinkMainProofs.

(** A file name that is neither empty nor a full path. *)
Definition relative (f : string) : bool :=
  match f with EmptyString => false | String c _ => negb (Ascii.eqb c "/") end.

(** C20: the command line is carried out.  Options and jars may come in any order.  For a
    command line that names a main class, switches the test off ([-n]), gives no libraries
    ([-l]) and no output file that is empty or a full path, and given memory, a pool, a work
    directory and stages that succeed: the program makes a pool of the given number of jobs
    and the work directory, unpacks every jar once, scans, generates the code from exactly
    the configuration the options describe, with the default libraries and the output file
    below the directory it was started in, cleans up and returns EXSUCCEED. *)
Theorem main_links (sur : surroundings) (toks : list token) (ld : option string) (d owd : string) :
  (∀ l x, string_list_add sur l x = Some (l ++ [x])) → Forall token_ok toks →
  let s := configured (main_init ld) (toks_opts toks) in
  let s' := entered s d owd in
  g_main_class s ≠ "" → g_do_test s = false → g_libs s = [] → relative (tmp_outbin s) →
  thpool_init_ok sur = true → mkdtemp sur (template_of (g_wd s)) = Some d →
  getcwd sur = Some owd → chdir_ok sur d = true → build_ok sur s' (toks_jars toks) →
  g_libs s' = DEFAULT_LIBS ∧ g_out_bin s' = strcpy_safe BUFSZ (owd +:+ "/" +:+ tmp_outbin s) ∧
  ∃ schedule, schedule ≡ₚ toks_jars toks ∧
  main sur (render toks) ld =
  (EXSUCCEED,
   ([A_pool (jobs s); A_mkdtemp (template_of (g_wd s)); A_chdir d] ++
    extract_actions owd schedule ++ [A_scan; A_codegen false (codegen_result sur s' false)]) ++
   clean_up s', upd_thpool_error EXSUCCEED s').
Proof.
  cbv zeta. intros Happ Htok Hm Ht Hlib Hrel Hp Hd Ho Hc Hb. split; [unfold entered; cbn [g_libs]; by rewrite Hlib|]. split.
  { unfold entered, out_bin_of. cbn [g_out_bin]. by destruct (tmp_outbin _). }
  exists (order sur (toks_jars toks)). split; [apply order_runs_all|]. unfold main. rewrite (run_main_body sur Happ toks _ d owd) by done.
  unfold build_actions. cbn [entered g_do_test g_owd]. by rewrite Ht.
Qed.

(** C18: success means a program was built.  Whatever the command line and the surroundings,
    the program returns EXSUCCEED only if a main class was named, there is a jar, every jar
    of the command line was unpacked without an error, the tables were built, and the generator succeeded, for
    the tested variant too unless switched off. *)
Theorem main_success_means (sur : surroundings) (args : list string) (ld : option string)
    (acts : list action) (s : main_state) :
  main sur args ld = (EXSUCCEED, acts, s) → g_main_class s ≠ "" ∧ build_ok sur s (getopt args).2.
Proof.
  unfold main, main_body. destruct (getopt args) as [items operands]. cbn [snd]. intros H.
  match type of H with (let '(_, _) := ?m in _) = _ => destruct m as [[[]|] [s' acts']] eqn:Hrun; [|done] end.
  injection H as _ <-.
  rewrite runL_bind in Hrun. destruct (option_loop sur items _) as [[[]|] st1]; [|done].
  rewrite runL_bind in Hrun. destruct (prepare sur st1) as [[[]|] st2] eqn:Hp; [|done].
  apply prepare_main_class in Hp. rewrite runL_bind in Hrun.
  destruct (enter_wd sur st2) as [[[]|] [s3 acts3]] eqn:He; [|done]. apply enter_main_class in He. cbn in He.
  pose proof (build_success _ _ _ _ _ Hrun) as Hb. rewrite run_build in Hrun by done. injection Hrun as <- _.
  split; [cbn; congruence|]. by destruct Hb.
Qed.

(** C19: nothing is left behind.  Whatever the command line and on every path, failures
    included: after the work directory was made the program goes back to the directory it
    started in and, unless told to keep it, ends with the command that removes the
    directory it made. *)
Theorem main_cleans_up (sur : surroundings) (args : list string) (ld : option string)
    (r : Z) (acts : list action) (s : main_state) (t d owd : string) :
  main sur args ld = (r, acts, s) →
  A_mkdtemp t ∈ acts → mkdtemp sur t = Some d → d ≠ "" → getcwd sur = Some owd → owd ≠ "" →
  ∃ before, acts = before ++ [A_chdir owd] ++ (if g_keep_temp s then [] else [A_system (rm_cmd d)]).
Proof.
  unfold main. pose proof (main_body_in sur args ld) as Hin.
  destruct (main_body sur args _) as [r' [s' acts']]. destruct Hin as [Hwd Howd]. cbn in Hwd, Howd.
  intros [= _ <- <-] Ht Hd Hne Ho Hone.
  assert (Ht' : A_mkdtemp t ∈ acts').
  { apply elem_of_app in Ht as [Ht|Ht]; [done|]. exfalso. revert Ht. unfold clean_up.
    rewrite !elem_of_app. intros [Ht|[Ht|Ht]]; revert Ht; case_match; rewrite ?list_elem_of_singleton, ?elem_of_nil; done. }
  rewrite <-(Hwd t d Ht' Hd) in Hne |- *. rewrite <-(Howd t owd Ht' ltac:(by eexists) Ho) in Hone |- *.
  unfold clean_up. rewrite (proj2 (String.eqb_neq _ _) Hne), (proj2 (String.eqb_neq _ _) Hone), andb_true_r.
  exists (acts' ++ if g_thpool s' then [A_pool_destroy] else []). rewrite <-app_assoc. by destruct (g_keep_temp s').
Qed.

(** ** Instances *)

(** Surroundings in which everything works; the pool runs the jobs in reverse. *)
Definition demo_sur : surroundings := {|
  string_list_add l x := Some (l ++ [x]);
  thpool_init_ok := true;
  mkdtemp t := Some (if String.eqb t "./exjld.XXXXXX" then "./exjld.abc123" else "/var/tmp/exjld.abc123")%string;
  getcwd := Some "/home/u"%string;
  chdir_ok _ := true;
  order l := rev l;
  order_runs_all l := Permutation_sym (Permutation_rev l);
  zip_extract _ := EXSUCCEED;
  built := EXSUCCEED;
  class_list := [Resource "app.Main" 1 "./app/Main.class" "class_1"];
  emb_list := [];
  fopen_ok _ := true;
  system _ _ := 0%Z
|}.

(** [exjld -m app.Main a.jar -o prog -n /opt/b.jar] *)
Definition demo_tokens : list token :=
  [TOpt (OptArg "m" "app.Main"); TJar "a.jar"; TOpt (OptArg "o" "prog"); TOpt (OptFlag "n"); TJar "/opt/b.jar"].

Definition demo_state : main_state :=
  entered (configured (main_init None) (toks_opts demo_tokens)) "./exjld.abc123" "/home/u".

Lemma demo_build_ok : build_ok demo_sur demo_state (toks_jars demo_tokens).
Proof. split; [done|by repeat constructor|done|done|vm_compute; reflexivity]. Qed.

Lemma main_links_witness :
  g_libs demo_state = DEFAULT_LIBS ∧ g_out_bin demo_state = "/home/u/prog" ∧
  ∃ schedule, schedule ≡ₚ ["a.jar"; "/opt/b.jar"]%string ∧
  main demo_sur (render demo_tokens) None =
  (EXSUCCEED,
   ([A_pool 4; A_mkdtemp "./exjld.XXXXXX"; A_chdir "./exjld.abc123"] ++
    extract_actions "/home/u" schedule ++ [A_scan; A_codegen false (codegen_result demo_sur demo_state false)]) ++ clean_up demo_state,
   upd_thpool_error EXSUCCEED demo_state).
Proof.
  apply (main_links demo_sur demo_tokens None "./exjld.abc123" "/home/u");
    [done|by repeat constructor|done|done|done|done|done|vm_compute; reflexivity|done|done|exact demo_build_ok].
Defined.

Lemma main_success_means_witness :
  g_main_class (upd_thpool_error EXSUCCEED demo_state) ≠ "" ∧
  build_ok demo_sur (upd_thpool_error EXSUCCEED demo_state) ["a.jar"; "/opt/b.jar"]%string.
Proof.
  eapply (main_success_means demo_sur ["-m"; "app.Main"; "a.jar"; "-o"; "prog"; "-n"; "/opt/b.jar"]%string None).
  vm_compute. reflexivity.
Defined.

(** A run that fails after the directory was made. *)
Definition broken_jar_sur : surroundings :=
  Surroundings (λ l x, Some (l ++ [x])) true (mkdtemp demo_sur) (getcwd demo_sur) (λ _, true) (λ l, rev l)
    (λ l, Permutation_sym (Permutation_rev l)) (λ _, (-1)%Z) EXSUCCEED [] [] (λ _, true) (λ _ _, 0%Z).

Lemma main_cleans_up_witness :
  ∃ acts s before, main broken_jar_sur (render demo_tokens) None = (EXFAIL, acts, s) ∧
    acts = before ++ [A_chdir "/home/u"; A_system (rm_cmd "./exjld.abc123")].
Proof.
  set (m := main broken_jar_sur (render demo_tokens) None).
  assert (Hr : m.1.1 = EXFAIL) by (vm_compute; reflexivity).
  assert (Hin : List.nth_error m.1.2 1 = Some (A_mkdtemp "./exjld.XXXXXX")) by (vm_compute; reflexivity).
  assert (Hk : g_keep_temp m.2 = false) by (vm_compute; reflexivity).
  destruct m as [[r acts] s] eqn:E. cbn [fst snd] in Hr, Hin, Hk. subst r.
  apply List.nth_error_In, list_elem_of_In in Hin.
  destruct (main_cleans_up broken_jar_sur (render demo_tokens) None EXFAIL acts s "./exjld.XXXXXX"
    "./exjld.abc123" "/home/u" E Hin eq_refl ltac:(done) eq_refl ltac:(done)) as (before & Hb).
  exists acts, s, before. split; [reflexivity|]. rewrite Hk in Hb. exact Hb.
Defined.

(** ** Differences from the manual page *)

(** A full path after [-o] is not used as it is: it is put behind the current directory. *)
Theorem full_path_prefixed owd rest :
  out_bin_of owd (String "/" rest) = strcpy_safe BUFSZ (owd +:+ "/" +:+ String "/" rest).
Proof. done. Qed.

(** The option [-e] ends the program with a failure, whatever else is given. *)
Theorem embed_option_refused sur file rest ld :
  (main sur ("-e"%string :: file :: rest) ld).1.1 = EXFAIL.
Proof.
  unfold main, main_body. cbn [getopt List.hd_error]. cbn [cluster].
  change (opt_kind_of OPTSTRING "e") with K_arg. cbn. by destruct (getopt rest).
Qed.

(** A library given with [-l] replaces the default ones. *)
Theorem libraries_replaced sur s st st' :
  prepare sur (s, st) = (Some tt, st') → g_libs s ≠ [] → g_libs st'.1 = g_libs s.
Proof.
  unfold prepare. rewrite runL_bind. cbn [get fst snd]. rewrite runL_bind.
  destruct (String.eqb (g_main_class s) ""); [done|]. rewrite runL_ret, runL_bind.
  destruct (g_libs s) as [|x l] eqn:El; [done|]. rewrite runL_ret, runL_bind. cbn [get fst snd].
  rewrite runL_bind. cbn [act fst snd]. rewrite runL_bind. destruct (thpool_init_ok sur); [|done].
  cbn [modify fst snd]. destruct (String.eqb (g_wd s) ""); intros [= <-] _; exact El.
Qed.

(** The command that removes the work directory names it without quotes. *)
Theorem remove_not_quoted wd :
  String.length wd + 8 ≤ PATH_MAX → rm_cmd wd = "rm -rf " +:+ wd.
Proof. intros H. unfold rm_cmd. apply strcpy_safe_fits. rewrite string_length_app. simpl. lia. Qed.

(** If an option is refused after [-t], the command removes the template, which nobody
    made. *)
Theorem template_removed :
  (main demo_sur ["-t"; "/work"; "-x"]%string None).1.2 = [A_system "rm -rf /work/exjld.XXXXXX"].
Proof. vm_compute. reflexivity. Qed.
