(* ===== verification/LibraryClaims.v ===== *)
(** * Properties of the native library's entry points and caches

    The tables printed by the wrapper generator against the Java declarations, their
    resolution at run time, the caches of classes and members, and the back traces of
    exceptions. *)
From stdpp Require Import sorting strings gmap list numbers relations.
From S2P Require Import Prelude CString Jni NativeTable NativeLoader MetaCache MetaCacheProofs.
From S2P Require Import Boot BootProofs BackTrace.

(** C17: every native method has its entry point.  The entry points of loader.c are exactly
    the symbols the virtual machine derives from the [native] declarations of the Java
    sources, overloads included, one each; every one has the C type of the declaration,
    passes all parameters in order through a pointer of the same type, returns a null value
    on failure, and its pointer is tied by the table to the library function whose
    prototype has the same type.  No two rows share a symbol or a pointer. *)
Theorem native_methods_bound :
  Forall2 serves java_natives jni_entries ∧ NoDup (en_name <$> jni_entries) ∧
  NoDup M_funcmap.*1 ∧ NoDup M_funcmap.*2.
Proof.
  split; [exact natives_serve|]. split; [exact entries_nodup|exact funcmap_nodup].
Qed.

(** An entry of the file, with one argument per parameter. *)
Definition real_call {value} (r : request (value := value)) : Prop :=
  match r with
  | R_entry e args => e ∈ jni_entries ∧ length args = length (en_params e)
  | R_onload => True
  end.

Lemma omap_lookup_seq {A} (l : list A) : omap (l !!.) (seq 0 (length l)) = l.
Proof.
  assert (∀ pre, omap ((pre ++ l) !!.) (seq (length pre) (length l)) = l) as H; [|by apply (H [])].
  induction l as [|x l IH]; intros pre; [done|]. cbn [length seq omap list_omap].
  rewrite list_lookup_middle by done. f_equal.
  specialize (IH (pre ++ [x])). rewrite length_app, Nat.add_1_r, <-app_assoc in IH. exact IH.
Qed.

Lemma entry_row e :
  e ∈ jni_entries →
  ("ndrxj_" +:+ en_name e, en_pointer e) ∈ M_funcmap ∧ en_passes e = seq 0 (length (en_params e)) ∧
  en_fail e = (if decide (en_ret e = T_void) then Fail_void else Fail_zero (en_ret e)).
Proof.
  intros [i Hi]%list_elem_of_lookup. destruct (Forall2_lookup_r _ _ _ _ _ natives_serve Hi) as (m & _ & Hs).
  by destruct Hs as (_ & _ & _ & ? & ? & _ & ? & _).
Qed.

(** How a call of an entry point may end. *)
Definition call_ends {code value} (dl : dynlink code) (e : jni_entry) (args : list value) (o : outcome) : Prop :=
  match o with
  | Called c args' => args' = args ∧ ∃ n h, dlsym dl n h ("ndrxj_" +:+ en_name e) = Some c
  | Raised f _ =>
      f = (if decide (en_ret e = T_void) then Fail_void else Fail_zero (en_ret e)) ∧ dl_refused dl M_funcmap
  | _ => False
  end.

(** C13: a native method never runs through an unset pointer.  However many threads call
    entry points (or load the library) for the first time at once and however their steps
    interleave, a call that ends has either called the library function of its own name
    with all its arguments, or raised an exception and returned the null value because the
    dynamic linker refused; every step brings the process nearer to its end, and a process
    in which nobody can move has no call waiting. *)
Theorem native_calls_resolved {code value : Type} (dl : dynlink code) (rs : list (request (value := value)))
    (p : lib_process) :
  Forall real_call rs → rtc (lib_moves dl M_funcmap) (lib_begin rs) p →
  (∀ i e args o, lp_threads p !! i = Some (R_entry e args, PC_done o) → call_ends dl e args o) ∧
  (∀ p', lib_moves dl M_funcmap p p' → process_rank M_funcmap p' < process_rank M_funcmap p) ∧
  ((∀ p', ¬ lib_moves dl M_funcmap p p') → Forall (λ t, ended t.2 = true) (lp_threads p)).
Proof.
  intros Hreal Hr. pose proof (lib_reach_inv dl M_funcmap (proj2 funcmap_nodup) rs p Hr) as [_ _ Ht].
  split_and!.
  - intros i e args o Hi. destruct (Ht i _ Hi) as [_ Ho]. cbn in Ho.
    assert (real_call (R_entry e args)) as [He Hlen].
    { eapply Forall_lookup_1; [exact Hreal|]. by eapply lib_request. }
    destruct (entry_row e He) as (Hrow & Hpass & Hfail). unfold call_ends.
    destruct o as [c args'|f msg| | |msg]; try done.
    + destruct Ho as [-> Hc]. split; [|by apply Hc]. unfold pass. rewrite Hpass, <-Hlen. apply omap_lookup_seq.
    + destruct Ho as [-> Hd]. done.
    + by apply (Ho ("ndrxj_" +:+ en_name e)).
  - apply lib_moves_rank.
  - intros Hz. apply Forall_lookup. intros i t Hi. eapply lib_stuck_ended; [apply funcmap_nodup|done..].
Qed.

(** The machine has the classes of the table and the members the Java sources and the
    class library declare. *)
Record library_classes (vm : jvm) (member : string → string → string → bool) : Prop := {
  lc_memory : vm_has_memory vm;
  lc_classes : Forall (λ row, jvm_class_exists vm (classStr row) = true) M_classes;
  lc_members : Forall (λ m, member m.1.1 m.1.2 m.2 = true) (java_members ++ jdk_members)
}.

Lemma used_later_kept : Forall (λ v, Exists (λ row, cc_calzz row = v ∧ cc_global row = true) M_classes) used_later.
Proof. apply (bool_decide_unpack _). vm_compute. exact I. Qed.

(** C21: loading the library fills the caches.  [JNI_OnLoad] on a machine with the classes
    and members that are declared in the Java sources returns the version; every variable of
    the cache, and so every one the header declares for the other files, is filled by exactly
    one row; every method and field variable holds the member
    its row names, of the class its row names; every class variable the library later makes
    objects with holds a live reference to its class; and no local reference is left over.
    If the environment or the library functions are missing it fails at once. *)
Theorem caches_loaded (vm : jvm) (member : string → string → string → bool) (w : world meta_state) :
  library_classes vm member → fresh_refs (w_x w) → w_exc w = None →
  filled_variables ≡ₚ cache_variables ∧ header_variables ⊆ cache_variables ∧
  (∃ w', JNI_OnLoad vm member true true w = Ok JNI_VERSION_1_2 w' ∧ w_exc w' = None ∧
     locals (w_x w') = locals (w_x w) ∧
     (∀ row, row ∈ M_methods ++ M_fields → id_loaded M_classes (w_x w') row) ∧
     (∀ v, v ∈ used_later → ∃ row n, row ∈ M_classes ∧ cc_calzz row = v ∧
        class_vars (w_x w') !! v = Some (WeakRef n) ∧ weaks (w_x w') !! n = Some (classStr row))) ∧
  ∀ env_ok lib_ok, env_ok && lib_ok = false → JNI_OnLoad vm member env_ok lib_ok w = Ok JNI_ERR w.
Proof.
  intros [Hm Hc Hmem] Hf Hex. split; [exact tables_fill_variables|]. split; [apply header_declares|]. split.
  - destruct (run_load_tables vm member Hm M_classes M_methods M_fields w) as (w' & Hr & He & Hids & Hcls & Hloc).
    + by rewrite <-Forall_forall.
    + exact classes_nodup.
    + exact ids_nodup.
    + intros row Hrow. pose proof rows_declared as Hd. rewrite Forall_forall in Hd.
      specialize (Hd row Hrow). apply Exists_exists in Hd as (cr & Hcr & Hv & Hin).
      exists cr. split_and!; [done..|]. rewrite Forall_forall in Hmem. by apply (Hmem _ Hin).
    + done.
    + exists w'. unfold JNI_OnLoad, ndrxj_caches_load. cbn [andb]. rewrite run_bind, Hr, Z.eqb_refl, run_ret.
      split_and!; [done|congruence|done|done|]. intros v Hv. pose proof used_later_kept as Hu.
      rewrite Forall_forall in Hu. specialize (Hu v Hv). apply Exists_exists in Hu as (row & Hrow & <- & Hg).
      destruct (Hcls row Hrow Hg) as (n & ? & ?). by exists row, n.
  - intros env_ok lib_ok H. unfold JNI_OnLoad. by rewrite H.
Qed.



(** The log macros trace the exception before they clear it: on a machine that takes the
    interface at its word the first call in the trace of a pending exception fails. *)
Theorem pending_trace_refused {X : Type} `{!ThrowableJava X} (vm : jvm) (fuel : nat) (w : world X) :
  w_exc w ≠ None →
  ndrxj_exception_backtrace vm false (S fuel) None w = Crash "Java method called with an exception pending" ∧
  ndrxj_ldr_exception_backtrace vm false (S fuel) None w = Crash "class looked up with an exception pending".
Proof.
  intros He. split.
  - unfold ndrxj_exception_backtrace. rewrite run_bind. unfold ExceptionOccurred. rewrite run_bind. cbn [mget].
    rewrite run_ret, run_bind. cbn [backtrace_recursive]. rewrite run_bind. unfold call_here.
    rewrite run_bind, run_ExceptionCheck, bool_decide_eq_true_2 by done. done.
  - unfold ndrxj_ldr_exception_backtrace. rewrite run_bind, run_ExceptionCheck, bool_decide_eq_true_2 by done. done.
Qed.

(** Two exceptions that are each other's cause make the trace recurse without end, at
    whatever depth. *)
Theorem cyclic_causes_overflow {X : Type} (vm : jvm) (tbl : gmap loc throwable) (fuel : nat) (l1 l2 : loc)
    (t1 t2 : throwable) (w : world X) :
  vm_has_memory vm → vm_hands_copies vm → tbl !! l1 = Some t1 → tbl !! l2 = Some t2 →
  t_cause t1 = Some l2 → t_cause t2 = Some l1 →
  ndrxj_exception_backtrace (ThrowableJava0 := java_throwables tbl) vm true fuel (Some l1) w = Crash "stack overflow".
Proof.
  intros Hm Hc H1 H2 C1 C2. unfold ndrxj_exception_backtrace. rewrite run_bind, run_ret, run_bind.
  by rewrite (run_cyclic vm true tbl Hm Hc true fuel l1 l2 t1 t2 _ w H1 H2 C1 C2 ltac:(by left)).
Qed.

(** ** Instances *)

(** The symbols are in the library only; one thread loads it, one calls an entry point. *)
Definition all_symbols : dynlink string :=
  Dynlink string (λ _ h s, match h with LIBEXJAVA => Some s | RTLD_DEFAULT => None end) (λ _, true) (λ _, "none"%string).

Definition first_entry : jni_entry := hd (Entry "" T_void [] "" [] Fail_void) jni_entries.

Lemma native_calls_resolved_witness :
  ∃ p, rtc (lib_moves all_symbols M_funcmap) (lib_begin [R_onload; R_entry first_entry [1; 2]%Z]) p ∧
    Forall (λ t, ended t.2 = true) (lp_threads p).
Proof.
  assert (∀ n p, process_rank M_funcmap p < n →
    rtc (lib_moves all_symbols M_funcmap) (lib_begin [R_onload; R_entry first_entry [1; 2]%Z]) p →
    ∃ q, rtc (lib_moves all_symbols M_funcmap) (lib_begin [R_onload; R_entry first_entry [1; 2]%Z]) q ∧
      ∀ q', ¬ lib_moves all_symbols M_funcmap q q') as Hend.
  { induction n as [|n IH]; intros p Hn Hr; [lia|].
    destruct (moves_or_stuck all_symbols M_funcmap p) as [[p' Hm]|Hz]; [|by exists p].
    apply (IH p'); [|by eapply rtc_r]. pose proof (lib_moves_rank all_symbols M_funcmap p p' Hm). lia. }
  destruct (Hend _ _ (Nat.lt_succ_diag_r _) (rtc_refl _ _)) as (q & Hr & Hz).
  exists q. split; [done|]. eapply (native_calls_resolved all_symbols); [|done|done].
  repeat constructor.
Defined.

(** A machine that has exactly the declared members. *)
Definition declared_member (c n s : string) : bool := bool_decide ((c, n, s) ∈ java_members ++ jdk_members).

Lemma good_library : library_classes good_vm declared_member.
Proof.
  split; [done|by apply Forall_forall|]. apply Forall_forall. intros [[c n] s] Hin.
  unfold declared_member. cbn. by apply bool_decide_eq_true_2.
Qed.

Definition meta_world : world meta_state := World ∅ 1%positive None [] [] [] 0 None (Meta ∅ ∅ ∅ ∅ 0 []).

Lemma meta_world_fresh : fresh_refs (w_x meta_world).
Proof. split; intros n c; cbn; by rewrite lookup_empty. Qed.

Lemma caches_loaded_witness : ∃ w', JNI_OnLoad good_vm declared_member true true meta_world = Ok JNI_VERSION_1_2 w'.
Proof.
  destruct (caches_loaded good_vm declared_member meta_world good_library meta_world_fresh eq_refl)
    as (_ & _ & (w' & Hr & _) & _). by exists w'.
Defined.

(** Unloading deletes the kept classes with the function for strong references, although
    they are weak ones. *)
Theorem unload_wrong_delete (w : world meta_state) r :
  class_vars (w_x w) !! "ndrxj_clazz_TpSvcInfo"%string = Some r →
  ndrxj_caches_unload w = Crash "not a global reference".
Proof.
  intros Hr. unfold ndrxj_caches_unload, M_classes. cbn [each cc_global cc_calzz LOCL GLOB].
  rewrite !run_bind, !run_ret, !run_bind, !run_ret, !run_bind. by rewrite (run_class_var _ _ _ Hr).
Qed.



