(* ===== verification/BindingClaims.v ===== *)
(** * Properties of the Java binding

    The main theorems about the native methods: what a call leaves behind, what it
    returns, which exception it raises and who owns the buffers afterwards; and the
    places where a method does not do what it means to.  Each has an instance on the
    library of [Toy]. *)
From stdpp Require Import sorting strings gmap list numbers.
From S2P Require Import Prelude CString Jni Xatmi Exceptions TypedBuffer Calls AtmiCtxOps Convert Queues.
From S2P Require Import Ubf Frame UbfNatives QueueNatives Natives.
From S2P Require Import Owners GiveBack CallSpec UbfSpec Toy Payload ToyServer.

Section Sessions.
Context `{U : Ubf} `{QT : QueueTypes} {Q : Queues} {XL : XatmiLaws} (vm : jvm).

(** C9: a session leaves nothing behind.  After any sequence of the calls of [native],
    whether they return or raise, the strings and arrays acquired are exactly those
    that were acquired before, and the thread is back in the NULL context. *)
Theorem session_clean (w w' : world xst) :
  vm_hands_copies vm → null_ctx w → session vm w w' → w_pins w' = w_pins w ∧ null_ctx w'.
Proof.
  intros Hc. by apply session_keeps.
Qed.
End Sessions.

Section Calls.
Context `{X : Xatmi} (vm : jvm).

(** C14: a successful call returns the reply.  The object handed to Java points to the
    buffer and length the library returned and frees it exactly if the caller's
    object did; it is the caller's object if the type is unchanged, otherwise a new
    one, and then the caller's object no longer frees anything.  No other object, the
    pending exception and the acquired strings are unchanged. *)
Theorem tpcall_returns_reply (o svc l : loc) (t : typed_buffer) (s ty : string) (w w1 : world xst)
    (x1 : xst) (flags b n : Z) (x2 : xst) (r : Z) (oty ost : string) (x3 : xst) :
  call_ready vm o svc l t s ty w w1 x1 →
  tpcall (Some s) (tb_cPtr t) (tb_len t) flags x1 = ((EXSUCCEED, b, n), x2) →
  b ≠ 0%Z → tptypes b x2 = ((r, oty, ost), x3) → r ≠ EXFAIL →
  (oty =? "NULL")%string = false → buffer_class oty ≠ None →
  ∃ l' w', Java_AtmiCtx_tpcall vm (Some o) (Some svc) (Some l) flags w = Ok (Some l') w' ∧
           delivered w1 w' l l' t b n ∧ w_x w' = tpsetctxt TPNULLCONTEXT x3 ∧
           (l' = l ↔ (oty =? ty)%string = true).
Proof. apply tpcall_success. Qed.


(** C22: a failed service hands its reply over with the exception.  For TPESVCFAIL the
    data of the exception is an object that points to the reply buffer and owns it
    exactly if the caller's object owned the request. *)
Theorem tpcall_failed_service (o svc l : loc) (t : typed_buffer) (s ty : string) (w w1 : world xst)
    (x1 : xst) (flags r b n : Z) (x2 : xst) (ri : Z) (oty ost : string) (x3 : xst) :
  call_ready vm o svc l t s ty w w1 x1 →
  tpcall (Some s) (tb_cPtr t) (tb_len t) flags x1 = ((r, b, n), x2) →
  r ≠ EXSUCCEED → tperrno x2 = TPESVCFAIL → vm_throws vm TPESVCFAIL →
  b ≠ 0%Z → tptypes b x2 = ((ri, oty, ost), x3) → ri ≠ EXFAIL →
  (oty =? "NULL")%string = false → buffer_class oty ≠ None →
  ∃ le l' t' w', Java_AtmiCtx_tpcall vm (Some o) (Some svc) (Some l) flags w = Ok None w' ∧
    w_exc w' = Some le ∧
    w_heap w' !! le = Some (the_exception (Some l') None TPESVCFAIL (errbuf TPESVCFAIL)) ∧
    w_heap w' !! l' = Some (JTypedBuffer t') ∧ tb_cPtr t' = b ∧ tb_len t' = n ∧
    tb_doFinalize t' = tb_doFinalize t ∧
    w_pins w' = w_pins w1 ∧ w_x w' = tpsetctxt TPNULLCONTEXT x3.
Proof. apply tpcall_svcfail. Qed.

(** An XATMI error becomes one Java exception.  On a machine with memory and the
    class, the exception object has the class named after the code, the bounded
    message, the data and, only for TPEDIAGNOSTIC, the queue control block; it is
    pending, existing objects are unchanged, and it is never an abort, cached class
    or not. *)
Theorem atmi_throw_raises (data addarg1 : jobject) (err : Z) (msg : string) (w : world xst) :
  vm_throws vm err →
  ∃ l w', ndrxj_atmi_throw vm data addarg1 err msg w = Ok tt w' ∧
    w_exc w' = Some l ∧ w_heap w' !! l = Some (the_exception data addarg1 err msg) ∧
    (w_next w ≤ l)%positive ∧ extends w w' ∧ w_pins w' = w_pins w ∧ w_x w' = w_x w.
Proof. apply run_atmi_throw. Qed.
End Calls.

(** ** Buffer ownership *)

(** The calls that hand buffers out or take them back. *)
Inductive buffer_op :=
  | B_tpcall (o svc data : jobject) (flags : Z)
  | B_tpgetrply (o : jobject) (cd : Z) (data : jobject) (flags : Z)
  | B_tprecv (o : jobject) (cd : Z) (data : jobject) (flags : Z)
  | B_tpdequeue (q0 : cstruct) (o jqspace : jobject) (nodeid srvid : Z) (jqname jqctl data : jobject) (flags : Z)
  | B_tprealloc (data : jobject) (size : Z)
  | B_tpalloc (o btype bsubtype : jobject) (size : Z)
  | B_tpreturn (o : jobject) (rval rcode : Z) (data : jobject) (flags : Z)
  | B_tpforward (o svc data : jobject) (flags : Z)
  | B_cleanup (data : jobject).

(** The object whose buffer is handed to the library. *)
Definition op_data (b : buffer_op) : jobject :=
  match b with
  | B_tpcall _ _ d _ | B_tpgetrply _ _ d _ | B_tprecv _ _ d _ | B_tprealloc d _ => d
  | B_tpdequeue _ _ _ _ _ _ _ d _ => d
  | B_tpreturn _ _ _ d _ | B_tpforward _ _ d _ => d
  | B_tpalloc _ _ _ _ | B_cleanup _ => None
  end.

Definition run_op `{Queues} (vm : jvm) (b : buffer_op) : M xst unit :=
  match b with
  | B_tpcall o svc d fl => ignore (Java_AtmiCtx_tpcall vm o svc d fl)
  | B_tpgetrply o cd d fl => ignore (Java_AtmiCtx_tpgetrply vm o cd d fl)
  | B_tprecv o cd d fl => ignore (Java_AtmiCtx_tprecv vm o cd d fl)
  | B_tpdequeue q0 o s i j n c d fl => ignore (tpdequeue_int vm q0 o s i j n c d fl)
  | B_tprealloc d n => ignore (Java_TypedBuffer_tprealloc vm d n)
  | B_tpalloc o t u n => ignore (Java_AtmiCtx_tpalloc vm o t u n)
  | B_tpreturn o rv rc d fl => ignore (Java_AtmiCtx_tpreturn vm o rv rc d fl)
  | B_tpforward o svc d fl => ignore (Java_AtmiCtx_tpforward vm o svc d fl)
  | B_cleanup d => Java_TypedBuffer_cleanup d
  end.

Section Ownership.
Context `{QueueBuffers} (vm : jvm).

Lemma ok_ignore {A} P (m : M xst A) :
  triple P m (λ _, buffers_ok) → triple P (ignore m) (λ _, buffers_ok).
Proof. intros Hm. eapply triple_bind; [exact Hm|]. intros a. by apply triple_ret. Qed.

Lemma ok_run_op (b : buffer_op) :
  triple (λ w, buffers_ok w ∧ usable (op_data b) (tbs w) (live (w_x w))) (run_op vm b) (λ _, buffers_ok).
Proof.
  destruct b; simpl; try apply ok_ignore.
  - apply ok_tpcall.
  - apply ok_tpgetrply.
  - apply ok_tprecv.
  - apply ok_tpdequeue.
  - apply ok_tprealloc.
  - eapply triple_pre; [|apply ok_tpalloc]. by intros ? [? _].
  - apply ok_tpreturn.
  - apply ok_tpforward.
  - eapply triple_pre; [|apply ok_cleanup]. by intros ? [? _].
Qed.

(** C10: no buffer is ever owned twice.  Each call, on every path (success, error,
    failed service, out of memory), preserves that every buffer an object will free is
    allocated and that no two objects will free the same buffer. *)
Theorem buffers_owned_once (b : buffer_op) (w w' : world xst) :
  buffers_ok w → usable (op_data b) (tbs w) (live (w_x w)) →
  run_op vm b w = Ok tt w' → buffers_ok w'.
Proof.
  intros Hw Hu Hr. pose proof (ok_run_op b w (conj Hw Hu)) as Ht. by rewrite Hr in Ht.
Qed.

(** A Java program that passes only NULL or objects that own their buffer, and cleans
    objects up whenever it likes. *)
Inductive trace : world xst → world xst → Prop :=
  | trace_nil w : trace w w
  | trace_op b w w1 w2 :
      (∀ l, op_data b = Some l → ∃ t, tbs w !! l = Some t ∧ owner t) →
      run_op vm b w = Ok tt w1 → trace w1 w2 → trace w w2
  | trace_handled w w2 : trace (with_exc None w) w2 → trace w w2.

(** C11: programs that use their own buffers are safe.  In any sequence of calls and
    clean-ups in which objects passed to calls own their buffer, no buffer is owned
    twice and no owner dangles; so at the end, cleaning up any owner frees a buffer that
    is allocated, once: the object is no owner afterwards, no other object is affected,
    and a second clean-up does not reach the library. *)
Theorem trace_frees_once (w w' : world xst) (l : loc) (t : typed_buffer) :
  buffers_ok w → trace w w' → w_heap w' !! l = Some (JTypedBuffer t) → owner t →
  tb_cPtr t ∈ live (w_x w') ∧
  ∃ w1, Java_TypedBuffer_cleanup (Some l) w' = Ok tt w1 ∧ buffers_ok w1 ∧
    live (w_x w1) = live (w_x w') ∖ {[tb_cPtr t]} ∧
    tbs w1 = <[l := set_cPtr 0 (set_ctx None t)]> (tbs w') ∧
    ∃ w2, Java_TypedBuffer_cleanup (Some l) w1 = Ok tt w2 ∧ w_x w2 = w_x w1.
Proof.
  intros Hw Htr Hl Ht. assert (Hok : buffers_ok w').
  { clear Hl. induction Htr as [w|b w w1 w2 Hd Hr Htr IH|w w2 Htr IH]; [done| |by apply IH].
    apply IH. pose proof (ok_run_op b w) as Hb. rewrite Hr in Hb. apply Hb. split; [done|].
    destruct (op_data b) as [k|]; [|apply null_usable].
    destruct (Hd k eq_refl) as (tk & Hk & Ho). eapply owner_usable; [apply Hw|done|done]. }
  apply cleanup_owner; [done|by apply tbs_lookup|done].
Qed.
End Ownership.

(** ** Contexts and server replies *)

Section Server.
Context `{X : Xatmi} (vm : jvm).

(** Entering a context keeps one reference to the Java object.  The thread's
    context is set, the private data name the Java object, and the weak reference
    kept before is deleted when a new one is made: none is leaked, none deleted
    twice; the Java heap, exception and acquired strings are untouched. *)
Theorem enter_context (o : loc) (ctx : Z) (w : world xst) :
  vm_has_memory vm → enterable o ctx w →
  ∃ w', ndrxj_get_ctx vm (Some o) true w = Ok ctx w' ∧
    w_x w' = entered o ctx (w_x w) ∧ w_heap w' = w_heap w ∧ w_exc w' = w_exc w ∧
    w_pins w' = w_pins w ∧
    match NDRXJ_JATMICTX (ndrx_ctx_priv_get (tpsetctxt ctx (w_x w))) with
    | Some l => l :: w_weak w' ≡ₚ o :: w_weak w
    | None => w_weak w' = o :: w_weak w
    end.
Proof.
  intros Hm He. destruct (run_get_ctx vm o ctx w Hm He) as (wk & tk & -> & Hwk).
  eexists. split; [reflexivity|]. done.
Qed.

(** A reply passes its buffer to the library exactly once.  [tpreturn] gives the
    library the buffer and length of the object, and the object afterwards holds no
    pointer and frees nothing. *)
Theorem tpreturn_gives_up (o l : loc) (ctx : Z) (t : typed_buffer) (rval rcode flags : Z)
    (w : world xst) :
  vm_has_memory vm → enterable o ctx w →
  w_heap w !! l = Some (JTypedBuffer t) → w_exc w = None →
  ∃ w', Java_AtmiCtx_tpreturn vm (Some o) rval rcode (Some l) flags w = Ok tt w' ∧
    w_x w' = tpsetctxt TPNULLCONTEXT
               (x_run (Run_tpreturn rval rcode (tb_cPtr t) (tb_len t) flags) (entered o ctx (w_x w))) ∧
    w_heap w' = <[l := JTypedBuffer (set_doFinalize false (set_cPtr 0 t))]> (w_heap w).
Proof.
  intros Hm He Hl Hx. unfold Java_AtmiCtx_tpreturn, in_ctx.
  destruct (run_get_ctx vm o ctx w Hm He) as (wk & tk & Hc & _). rewrite run_bind, Hc.
  rewrite (proj2 (Z.eqb_neq _ _) (ent_ctx _ _ _ He)). set (w1 := World _ _ _ _ _ _ _ _ _).
  assert (Hl1 : w_heap w1 !! l = Some (JTypedBuffer t)) by done.
  unfold give_up_buffer, ndrxj_atmi_TypedBuffer_get_buffer. rewrite !run_bind.
  rewrite (run_get_tb _ _ _ Hl1), run_bind, (run_upd_tb _ _ _ _ Hl1), run_bind.
  rewrite (run_upd_tb l (set_cPtr 0 t)) by apply lookup_insert_eq.
  rewrite run_bind, run_ExceptionCheck. cbn [w_exc set_obj with_heap].
  replace (w_exc w1) with (@None loc) by done. rewrite bool_decide_eq_false_2 by naive_solver.
  rewrite run_ret. simpl. eexists. split; [reflexivity|]. simpl. split; [done|].
  by rewrite insert_insert_eq.
Qed.
End Server.

(** ** Buffer contents *)

Section Contents.
Context `{X : Xatmi} {BM : BufferMemory} (vm : jvm).

(** C29: bytes come back as stored.  [setBytes] never writes outside the buffer, grows
    it when needed and leaves no array acquired; a later [getBytes] on the object
    returns a new array with the same bytes. *)
Theorem carray_round_trip (l o b : loc) (ctx : Z) (t : typed_buffer) (d c : list Z) (w : world xst) :
  payload_ready vm l o ctx t d w → (1 ≤ Z.of_nat (length d) ≤ INT_MAX)%Z →
  w_heap w !! b = Some (JBytes c) → (Z.of_nat (length c) ≤ INT_MAX)%Z → can_grow (tb_cPtr t) →
  ∃ w', Java_TypedCarray_setBytes vm (Some l) (Some b) w = Ok tt w' ∧ w_pins w' = w_pins w ∧
    (enterable o ctx w' →
     ∃ r w'', Java_TypedCarray_getBytes vm (Some l) w' = Ok (Some r) w'' ∧
       w_heap w'' !! r = Some (JBytes c) ∧ w_exc w'' = None ∧ w_pins w'' = w_pins w).
Proof.
  intros Hr Hsz Hb Hmax Hre.
  destruct (set_bytes_holds vm l o ctx t d b c w Hr Hsz Hb Hre)
    as (t' & w' & Hrun & (_ & Hx & Hp) & Hh & Ht').
  pose proof Hh as (Hl & _ & d' & Hd' & _). exists w'. split_and!; [done..|]. intros He.
  destruct Hr as [_ _ _ Hx0 _ Hm Hc].
  assert (Hr' : payload_ready vm l o ctx t' d' w') by (constructor; congruence || done).
  destruct (get_bytes_reads vm l o ctx t' d' c w' Hr' Hh Hmax) as (w'' & Hget & Hbytes & Hx' & Hp').
  exists (w_next w'), w''. split_and!; [done..|]. by rewrite Hp'.
Qed.

(** C30: text comes back as stored, for STRING and JSON buffers alike: the setter
    writes the characters and the terminator within the buffer, and the getter's
    string is the one stored. *)
Theorem text_round_trip (l o b : loc) (ctx : Z) (t : typed_buffer) (d : list Z) (s : string)
    (w : world xst) :
  payload_ready vm l o ctx t d w → (1 ≤ Z.of_nat (length d) ≤ INT_MAX)%Z →
  w_heap w !! b = Some (JString s) → nul_free s → (Z.of_nat (String.length s) < INT_MAX)%Z →
  can_grow (tb_cPtr t) →
  ∃ w', Java_TypedString_setString vm (Some l) (Some b) w = Ok tt w' ∧ w_pins w' = w_pins w ∧
    (enterable o ctx w' →
     ∃ r w'', Java_TypedString_getString vm (Some l) w' = Ok (Some r) w'' ∧
       w_heap w'' !! r = Some (JString s) ∧ w_exc w'' = None ∧ w_pins w'' = w_pins w).
Proof.
  intros Hr Hsz Hb Hs Hmax Hre.
  destruct (set_text_holds vm l o ctx t d b s w Hr Hsz Hb Hs Hmax Hre)
    as (t' & w' & Hrun & (_ & Hx & Hp) & Hh & Ht').
  pose proof Hh as (Hl & d' & Hd' & _). exists w'. split_and!; [done..|]. intros He.
  destruct Hr as [_ _ _ Hx0 _ Hm Hc].
  assert (Hr' : payload_ready vm l o ctx t' d' w') by (constructor; congruence || done).
  destruct (get_text_reads vm l o ctx t' d' s w' Hr' Hh) as (w'' & Hget & Hstr & Hx' & Hp').
  exists (w_next w'), w''. split_and!; [done..|]. by rewrite Hp'.
Qed.
End Contents.

(** ** Fields *)

Section FieldErrors.
Context `{U : Ubf} (vm : jvm).

(** A rejected change raises the library's UBF error.  When [CBchg] fails, the
    pending exception has the class named after the code the library set for it,
    although the field name is looked up in between; nothing stays acquired. *)
Theorem bchg_raises_library_error (l o : loc) (ctx : Z) (t : typed_buffer) (fld occ : Z) (v : ubf_value)
    (r : Z) (x2 : xst) (w : world xst) :
  field_ready l o ctx t w → vm_throws_ubf vm (Becodestr (Berror x2)) →
  u_op (U_CBchg (tb_cPtr t) fld occ v) (entered o ctx (w_x w)) = (r, x2) → r ≠ EXSUCCEED →
  ∃ w' msg, ndrxj_ubf_CBchg vm (Some l) fld occ v w = Ok tt w' ∧
    exception_of w' = Some (ubf_class (Becodestr (Berror x2)), msg) ∧ w_pins w' = w_pins w.
Proof. apply run_CBchg_fails. Qed.

(** A rejected addition raises the error of the name look-up.  When [CBadd] fails
    and the error is logged, [Berror] is read after [Bfname] ran: the class of the
    exception is that of the code [Bfname] left, not of the failure, in either order
    of evaluation of the arguments. *)
Theorem badd_raises_stale_error (l o : loc) (ctx : Z) (t : typed_buffer) (fld : Z) (v : ubf_value)
    (r : Z) (x2 : xst) (w : world xst) :
  let x3 := (x_name (Name_Bfname fld) x2).2 in
  field_ready l o ctx t w → ubf_log_on = true →
  (∀ x, Berror (x_name (Name_Bfname fld) x).2 = Berror x3) →
  vm_throws_ubf vm (Becodestr (Berror x3)) →
  u_op (U_CBadd (tb_cPtr t) fld v) (entered o ctx (w_x w)) = (r, x2) → r ≠ EXSUCCEED →
  ∃ w' msg, ndrxj_ubf_CBadd vm (Some l) fld v w = Ok tt w' ∧
    exception_of w' = Some (ubf_class (Becodestr (Berror x3)), msg) ∧ w_pins w' = w_pins w.
Proof. apply run_CBadd_fails. Qed.
End FieldErrors.

(** ** Where a method does not do what it means to *)

Section Defects.
Context `{X : Xatmi} (vm : jvm).

(** An object without a context. *)
Lemma run_get_ctx_null o svr b w :
  w_heap w !! o = Some (JAtmiCtx 0 svr) → vm_throws vm TPEINVAL →
  ∃ w', ndrxj_get_ctx vm (Some o) b w = Ok 0%Z w' ∧ w_pins w' = w_pins w.
Proof.
  intros Ho Ht. unfold ndrxj_get_ctx. rewrite run_bind, (run_deref _ _ _ Ho).
  rewrite bool_decide_eq_true_2, run_bind by done.
  destruct (run_atmi_throw vm None None TPEINVAL "NULL C context for ATMI Context OP!" w Ht)
    as (l & w' & -> & _ & _ & _ & _ & Hp & _).
  exists w'. by rewrite run_ret.
Qed.

(** Methods that return early leak the acquired strings.  On an object without a
    context [tplogC] and [tpforward] return at once, and the message, the file name
    and the service name they acquired stay acquired. *)
Theorem early_return_leaks (o file msg : loc) (lev line flags : Z) (f m : string)
    (data svr : jobject) (w : world xst) :
  vm_hands_copies vm → vm_throws vm TPEINVAL →
  w_heap w !! o = Some (JAtmiCtx 0 svr) →
  w_heap w !! file = Some (JString f) → w_heap w !! msg = Some (JString m) →
  (∃ w', Java_AtmiCtx_tplogC vm (Some o) lev (Some file) line (Some msg) w = Ok tt w' ∧
         w_pins w' = file :: msg :: w_pins w) ∧
  (∃ w', Java_AtmiCtx_tpforward vm (Some o) (Some msg) data flags w = Ok tt w' ∧
         w_pins w' = msg :: w_pins w).
Proof.
  intros Hc Ht Ho Hf Hm. pose proof (proj1 Ht) as Hmem. split.
  - unfold Java_AtmiCtx_tplogC. rewrite run_bind, (run_GetStringUTFChars vm msg m) by done.
    rewrite run_bind, (run_GetStringUTFChars vm file f) by done. rewrite run_bind.
    set (w2 := with_pins _ _). destruct (run_get_ctx_null o svr true w2) as (w' & -> & Hp); [done..|].
    exists w'. by rewrite Hp.
  - unfold Java_AtmiCtx_tpforward. rewrite run_bind, (run_GetStringUTFChars vm msg m) by done.
    rewrite run_bind. set (w2 := with_pins _ _).
    destruct (run_get_ctx_null o svr true w2) as (w' & -> & Hp); [done..|]. exists w'. by rewrite Hp.
Qed.

(** [tplogDumpDiff] releases the wrong array.  With two different arrays the
    elements of the second are released through the first, whose elements were just
    released: a release without an acquire. *)
Theorem dump_diff_releases_twice (o msg d1 d2 : loc) (ctx lev : Z) (m : string) (b1 b2 : list Z)
    (w : world xst) :
  vm_has_memory vm → vm_hands_copies vm → enterable o ctx w →
  w_heap w !! msg = Some (JString m) →
  w_heap w !! d1 = Some (JBytes b1) → w_heap w !! d2 = Some (JBytes b2) →
  length b1 ≤ length b2 → d1 ≠ d2 → d1 ∉ w_pins w →
  Java_AtmiCtx_tplogDumpDiff vm (Some o) lev (Some msg) (Some d1) (Some d2) w =
  Crash "release without acquire".
Proof.
  intros Hmem Hc He Hm H1 H2 Hlen Hne Hp. unfold Java_AtmiCtx_tplogDumpDiff.
  rewrite run_bind, (run_GetStringUTFChars vm msg m) by done. rewrite Hc.
  rewrite run_bind, (run_GetByteArrayElements vm d1 b1) by done. rewrite Hc.
  rewrite run_bind, (run_GetByteArrayElements vm d2 b2) by done. rewrite Hc, run_bind.
  set (w3 := with_pins _ _).
  assert (He3 : enterable o ctx w3) by (destruct He; by constructor).
  destruct (run_get_ctx vm o ctx w3 Hmem He3) as (wk & tk & -> & _).
  rewrite (proj2 (Z.eqb_neq _ _) (ent_ctx _ _ _ He)). set (w4 := World _ _ _ _ _ _ _ _ _).
  rewrite run_bind, (run_GetArrayLength d1 b1) by done.
  rewrite run_bind, (run_GetArrayLength d1 b1) by done.
  rewrite Z.min_id, Nat2Z.id, run_bind, (proj2 (Nat.ltb_ge _ _)) by exact Hlen.
  assert (Hm1 : msg ≠ d1) by congruence. assert (Hm2 : msg ≠ d2) by congruence.
  cbn [release_if]. unfold xmod at 1. rewrite run_bind. unfold unset_ctx, xmod at 1.
  rewrite run_bind, (run_Release msg (d2 :: d1 :: w_pins w)).
  2: { simpl. rewrite decide_False, decide_False, decide_True by done. done. }
  rewrite run_bind, (run_Release d1 (d2 :: w_pins w)).
  2: { simpl. rewrite decide_False, decide_True by done. done. }
  apply run_Release_none. simpl. by apply not_elem_of_cons.
Qed.

(** [tpdiscon] raises an arbitrary error.  Its local error code is never set from
    the library's: whatever value [err0] it happens to hold decides class and text
    of the exception. *)
Theorem tpdiscon_error_is_stale (err0 : Z) (o : loc) (ctx cd r : Z) (x2 : xst) (w : world xst) :
  enterable o ctx w → vm_throws vm err0 →
  tpdiscon cd (entered o ctx (w_x w)) = (r, x2) → r ≠ EXSUCCEED →
  ∃ le w', Java_AtmiCtx_tpdiscon vm err0 (Some o) cd w = Ok tt w' ∧
    w_exc w' = Some le ∧ w_heap w' !! le = Some (the_exception None None err0 (errbuf err0)).
Proof.
  intros He Ht Hd Hr. unfold Java_AtmiCtx_tpdiscon.
  destruct (run_get_ctx vm o ctx w (proj1 Ht) He) as (wk & tk & Hc & _). rewrite run_bind, Hc.
  rewrite run_bind, (proj2 (Z.eqb_neq _ _) (ent_ctx _ _ _ He)), run_bind. unfold xcall.
  cbn [w_x]. rewrite Hd, (proj2 (Z.eqb_neq _ _) Hr). set (w1 := with_x _ _).
  destruct (run_atmi_throw vm None None err0 (errbuf err0) w1 Ht) as (l & w' & -> & Hx & Hl & _).
  exists l. eexists. split; [reflexivity|]. done.
Qed.
End Defects.

(** ** Instances *)

Section Instances.
Local Open Scope positive_scope.

(** The state a computation ends in. *)
Definition after {A} (m : M (@xst toy_xatmi) A) (w : world (@xst toy_xatmi)) : world (@xst toy_xatmi) :=
  match m w with Ok _ w' => w' | Crash _ => w end.

Definition buf6 : typed_buffer := TypedBuffer "org/endurox/TypedUbf" (Some 1) true 100 1024.

(** The thread in the context of object 1. *)
Definition toy_entered : world (@xst toy_xatmi) := after (ndrxj_get_ctx good_vm (Some 1) true) toy_world.

Lemma toy_call_ready (svc : loc) (s : string) :
  w_heap toy_world !! svc = Some (JString s) →
  call_ready good_vm 1 svc 6 buf6 s "UBF" toy_world toy_entered (w_x toy_entered).
Proof.
  intros Hs. constructor; [| | | |exact Hs| |done|done].
  - exists 77%Z. split; [done|]. vm_compute. reflexivity.
  - reflexivity.
  - reflexivity.
  - reflexivity.
  - exists 1024%Z, EmptyString. split; [done|]. vm_compute. reflexivity.
Qed.

Lemma toy_tbs :
  tbs toy_world = <[6 := buf6]> {[7 := TypedBuffer "org/endurox/TypedUbf" (Some 1) true 200 1024]}.
Proof. vm_compute. reflexivity. Qed.

Lemma toy_world_ok : buffers_ok toy_world.
Proof.
  split.
  - intros l Hl. apply not_elem_of_list_to_map. simpl in *.
    rewrite !not_elem_of_cons, elem_of_nil. split_and!; lia || done.
  - rewrite toy_tbs. intros l t Hl Ht.
    apply lookup_insert_Some in Hl as [[<- <-]|[Hne Hl]].
    + split; [apply (bool_decide_unpack _); vm_compute; exact I|].
      intros l' t' [[<- <-]|[_ [<- <-]%lookup_singleton_Some]]%lookup_insert_Some _; done.
    + apply lookup_singleton_Some in Hl as [<- <-].
      split; [apply (bool_decide_unpack _); vm_compute; exact I|].
      intros l' t' [[<- <-]|[_ [<- <-]%lookup_singleton_Some]]%lookup_insert_Some _; done.
Qed.

Lemma toy_6_usable : usable (Some 6) (tbs toy_world) (live (w_x toy_world)).
Proof.
  rewrite toy_tbs. split.
  - intros l t l' t' [= <-] [[_ <-]|[? _]]%lookup_insert_Some; [|done].
    intros [[? _]|[_ [_ <-]%lookup_singleton_Some]]%lookup_insert_Some Hne Ho; done.
  - intros b (t & [[_ <-]|[? _]]%lookup_insert_Some & <-); [|done]. left.
    apply (bool_decide_unpack _). vm_compute. exact I.
Qed.

Lemma toy_enterable w : w_heap w !! 1 = Some (JAtmiCtx 77 None) → toy_priv (w_x w) = CtxPriv None 0 0 →
  enterable 1 77 w.
Proof. intros Hh Hp. constructor; [by exists None|done| |]; simpl; rewrite Hp; [done|]. by intros l Hl. Qed.

Lemma session_clean_witness :
  ∃ w', session good_vm toy_world w' ∧ w_pins w' = [] ∧ null_ctx w'.
Proof.
  set (w1 := after (run_native good_vm (N_tpcall (Some 1) (Some 5) (Some 6) 0)) toy_world).
  assert (Hr : run_native good_vm (N_tpcall (Some 1) (Some 5) (Some 6) 0) toy_world = Ok tt w1)
    by (vm_compute; reflexivity).
  assert (Hs : session good_vm toy_world w1) by (eapply session_call; [exact Hr|apply session_nil]).
  exists w1. split; [exact Hs|].
  exact (session_clean (U := toy_ubf) (XL := toy_laws) good_vm toy_world w1 (λ _, eq_refl) eq_refl Hs).
Defined.

Lemma tpcall_returns_reply_witness :
  ∃ l' w', Java_AtmiCtx_tpcall good_vm (Some 1) (Some 3) (Some 6) 0 toy_world = Ok (Some l') w' ∧
    delivered toy_entered w' 6 l' buf6 301 5.
Proof.
  destruct (tpcall_returns_reply (X := toy_xatmi) good_vm 1 3 6 buf6 "TEXT" "UBF" toy_world toy_entered
    (w_x toy_entered) 0 301 5 _ 5 "STRING" EmptyString _ (toy_call_ready 3 "TEXT" eq_refl)
    eq_refl ltac:(done) eq_refl ltac:(done) eq_refl ltac:(done)) as (l' & w' & Hr & Hd & _).
  by exists l', w'.
Defined.


Lemma tpcall_failed_service_witness :
  ∃ le l' w', Java_AtmiCtx_tpcall good_vm (Some 1) (Some 4) (Some 6) 0 toy_world = Ok None w' ∧
    w_exc w' = Some le ∧
    w_heap w' !! le = Some (the_exception (Some l') None TPESVCFAIL (errbuf TPESVCFAIL)).
Proof.
  destruct (tpcall_failed_service (X := toy_xatmi) good_vm 1 4 6 buf6 "FAIL" "UBF" toy_world toy_entered
    (w_x toy_entered) 0 (-1) 301 5 _ 5 "STRING" EmptyString _ (toy_call_ready 4 "FAIL" eq_refl)
    eq_refl ltac:(done) eq_refl (good_vm_throws _) ltac:(done) eq_refl ltac:(done) eq_refl ltac:(done))
    as (le & l' & t' & w' & Hr & Hx & Hl & _).
  by exists le, l', w'.
Defined.

Lemma atmi_throw_raises_witness :
  ∃ l w', ndrxj_atmi_throw good_vm (Some 6) None TPENOENT "no entry" toy_world = Ok tt w' ∧
    w_exc w' = Some l ∧ w_heap w' !! l = Some (the_exception (Some 6) None TPENOENT "no entry").
Proof.
  destruct (atmi_throw_raises (X := toy_xatmi) good_vm (Some 6) None TPENOENT "no entry" toy_world (good_vm_throws _))
    as (l & w' & Hr & Hx & Hl & _).
  by exists l, w'.
Defined.

Lemma buffers_owned_once_witness :
  ∃ w', run_op good_vm (B_tpcall (Some 1) (Some 3) (Some 6) 0) toy_world = Ok tt w' ∧ buffers_ok w'.
Proof.
  set (w1 := after (run_op good_vm (B_tpcall (Some 1) (Some 3) (Some 6) 0)) toy_world).
  assert (Hr : run_op good_vm (B_tpcall (Some 1) (Some 3) (Some 6) 0) toy_world = Ok tt w1)
    by (vm_compute; reflexivity).
  exists w1. split; [exact Hr|].
  exact (buffers_owned_once (H0 := toy_buffers) good_vm (B_tpcall (Some 1) (Some 3) (Some 6) 0) toy_world w1
           toy_world_ok toy_6_usable Hr).
Defined.

Lemma trace_frees_once_witness :
  ∃ w' t w1, trace good_vm toy_world w' ∧ w_heap w' !! 9 = Some (JTypedBuffer t) ∧
    Java_TypedBuffer_cleanup (Some 9) w' = Ok tt w1 ∧ buffers_ok w1.
Proof.
  set (op := B_tpcall (Some 1) (Some 3) (Some 6) 0).
  set (w1 := after (run_op good_vm op) toy_world).
  assert (Hr : run_op good_vm op toy_world = Ok tt w1) by (vm_compute; reflexivity).
  assert (Htr : trace good_vm toy_world w1).
  { eapply (trace_op good_vm op); [|exact Hr|apply trace_nil]. intros l [= <-]. exists buf6.
    rewrite toy_tbs. split; [apply lookup_insert_eq|done]. }
  destruct (trace_frees_once (H0 := toy_buffers) good_vm toy_world w1 9
    (TypedBuffer "org/endurox/TypedString" (Some 1) true 301 5) toy_world_ok Htr
    ltac:(vm_compute; reflexivity) ltac:(done)) as (_ & w2 & Hc & Hok & _).
  exists w1, (TypedBuffer "org/endurox/TypedString" (Some 1) true 301 5), w2.
  split; [exact Htr|]. split; [vm_compute; reflexivity|]. by split.
Defined.

Lemma enter_context_witness :
  ∃ w', ndrxj_get_ctx good_vm (Some 1) true toy_world = Ok 77%Z w' ∧ w_weak w' = [1].
Proof.
  destruct (enter_context (X := toy_xatmi) good_vm 1 77 toy_world (λ _, eq_refl)
    (toy_enterable toy_world eq_refl eq_refl)) as (w' & Hr & _ & _ & _ & _ & Hw).
  by exists w'.
Defined.

Lemma tpreturn_gives_up_witness :
  ∃ w', Java_AtmiCtx_tpreturn good_vm (Some 1) 0 0 (Some 6) 0 toy_world = Ok tt w' ∧
    w_heap w' = <[6 := JTypedBuffer (set_doFinalize false (set_cPtr 0 buf6))]> (w_heap toy_world).
Proof.
  destruct (tpreturn_gives_up (X := toy_xatmi) good_vm 1 6 77 buf6 0 0 0 toy_world (λ _, eq_refl)
    (toy_enterable toy_world eq_refl eq_refl) eq_refl eq_refl) as (w' & Hr & _ & Hh).
  by exists w'.
Defined.

Lemma early_return_leaks_witness :
  ∃ w', Java_AtmiCtx_tplogC good_vm (Some 8) 5 (Some 2) 10 (Some 3) toy_world = Ok tt w' ∧
    w_pins w' = [2; 3].
Proof.
  destruct (early_return_leaks (X := toy_xatmi) good_vm 8 2 3 5 10 0 "ECHO" "TEXT" None None toy_world (λ _, eq_refl)
    (good_vm_throws _) eq_refl eq_refl eq_refl) as [(w' & Hr & Hp) _].
  by exists w'.
Defined.

(** The same state with two byte arrays. *)
Definition toy_arrays : world (@xst toy_xatmi) :=
  with_heap (<[9 := JBytes [1; 2]%Z]> (<[10 := JBytes [1; 3]%Z]> toy_heap)) 11 toy_world.

Lemma dump_diff_releases_twice_witness :
  Java_AtmiCtx_tplogDumpDiff good_vm (Some 1) 5 (Some 2) (Some 9) (Some 10) toy_arrays =
  Crash "release without acquire".
Proof.
  apply (dump_diff_releases_twice (X := toy_xatmi) good_vm 1 2 9 10 77 5 "ECHO" [1; 2]%Z [1; 3]%Z toy_arrays);
    [done|done|by apply toy_enterable|reflexivity..|simpl; lia|done|apply not_elem_of_nil].
Defined.

Lemma tpdiscon_error_is_stale_witness :
  ∃ le w', Java_AtmiCtx_tpdiscon good_vm TPENOENT (Some 1) 3 toy_world = Ok tt w' ∧
    w_exc w' = Some le ∧
    w_heap w' !! le = Some (the_exception None None TPENOENT (errbuf TPENOENT)).
Proof.
  destruct (tpdiscon_error_is_stale (X := toy_xatmi) good_vm TPENOENT 1 77 3 (-1) _ toy_world
    (toy_enterable toy_world eq_refl eq_refl) (good_vm_throws _) eq_refl ltac:(done))
    as (le & w' & Hr & Hx & Hl).
  by exists le, w'.
Defined.

Lemma toy_field_ready : field_ready 6 1 77 buf6 toy_world.
Proof. by constructor; [reflexivity..|apply toy_enterable|reflexivity]. Qed.

Lemma bchg_raises_library_error_witness :
  ∃ w' msg, ndrxj_ubf_CBchg good_vm (Some 6) 0 0 (BFLD_LONG 5) toy_world = Ok tt w' ∧
    exception_of w' = Some ("org/endurox/exceptions/UbfBEINVALException"%string, msg).
Proof.
  destruct (bchg_raises_library_error (U := toy_ubf) good_vm 6 1 77 buf6 0 0 (BFLD_LONG 5) (-1) _ toy_world
    toy_field_ready ltac:(by split) eq_refl ltac:(done)) as (w' & msg & Hr & He & _).
  by exists w', msg.
Defined.

Lemma badd_raises_stale_error_witness :
  ∃ w' msg, ndrxj_ubf_CBadd good_vm (Some 6) 0 (BFLD_LONG 5) toy_world = Ok tt w' ∧
    exception_of w' = Some ("org/endurox/exceptions/UbfBMINVALException"%string, msg).
Proof.
  destruct (badd_raises_stale_error (U := toy_ubf) good_vm 6 1 77 buf6 0 (BFLD_LONG 5) (-1)
    (with_berr 14 (entered (H := toy_xatmi) 1 77 (w_x toy_world))) toy_world
    toy_field_ready eq_refl ltac:(done) ltac:(by split) eq_refl ltac:(done)) as (w' & msg & Hr & He & _).
  by exists w', msg.
Defined.

(** The same state with a TypedCarray object 9 on buffer 300, an array 10 of five
    bytes and a string 11. *)
Definition buf9 : typed_buffer := TypedBuffer "org/endurox/TypedCarray" (Some 1) true 300 2.
Definition toy_payload : world (@xst toy_xatmi) :=
  with_heap (<[9 := JTypedBuffer buf9]> (<[10 := JBytes [1; 2; 3; 4; 5]%Z]>
              (<[11 := JString "hello"]> toy_heap))) 12 toy_world.

Lemma toy_payload_ready : payload_ready good_vm 9 1 77 buf9 [0; 0]%Z toy_payload.
Proof.
  by constructor; [reflexivity|reflexivity|apply toy_enterable|reflexivity|reflexivity|..].
Qed.

Lemma toy_can_grow b : can_grow b.
Proof.
  intros n d x Hd. simpl in *. unfold toy_data in Hd.
  destruct (buf_find b (toy_bufs x)) as [[t d']|]; [|done].
  simpl. pose proof (toy_fresh_pos x). lia.
Qed.

Lemma after_eq {A} (m : M (@xst toy_xatmi) A) w a w' : m w = Ok a w' → w' = after m w.
Proof. unfold after. by intros ->. Qed.

Lemma toy_reenterable w :
  w_heap w !! 1 = Some (JAtmiCtx 77 None) → toy_priv (w_x w) = CtxPriv (Some 1) 77 0 → w_weak w = [1] →
  enterable 1 77 w.
Proof.
  intros Hh Hp Hw. constructor; [by exists None|done| |]; simpl; rewrite Hp; [done|].
  intros l [= <-]. rewrite Hw. by left.
Qed.

Lemma carray_round_trip_witness :
  ∃ w' r w'', Java_TypedCarray_setBytes good_vm (Some 9) (Some 10) toy_payload = Ok tt w' ∧
    Java_TypedCarray_getBytes good_vm (Some 9) w' = Ok (Some r) w'' ∧
    w_heap w'' !! r = Some (JBytes [1; 2; 3; 4; 5]%Z).
Proof.
  destruct (carray_round_trip (BM := toy_memory) good_vm 9 1 10 77 buf9 [0; 0]%Z [1; 2; 3; 4; 5]%Z
    toy_payload toy_payload_ready ltac:(unfold INT_MAX; simpl; lia) eq_refl
    ltac:(unfold INT_MAX; simpl; lia) (toy_can_grow _)) as (w' & Hr & _ & Hget).
  pose proof (after_eq _ _ _ _ Hr) as Hw. destruct Hget as (r & w'' & Hg & Hb & _).
  { apply toy_reenterable; rewrite Hw; vm_compute; reflexivity. }
  by exists w', r, w''.
Defined.

Lemma text_round_trip_witness :
  ∃ w' r w'', Java_TypedString_setString good_vm (Some 9) (Some 11) toy_payload = Ok tt w' ∧
    Java_TypedString_getString good_vm (Some 9) w' = Ok (Some r) w'' ∧
    w_heap w'' !! r = Some (JString "hello").
Proof.
  destruct (text_round_trip (BM := toy_memory) good_vm 9 1 11 77 buf9 [0; 0]%Z "hello"
    toy_payload toy_payload_ready ltac:(unfold INT_MAX; simpl; lia) eq_refl I
    ltac:(unfold INT_MAX; simpl; lia) (toy_can_grow _)) as (w' & Hr & _ & Hget).
  pose proof (after_eq _ _ _ _ Hr) as Hw. destruct Hget as (r & w'' & Hg & Hb & _).
  { apply toy_reenterable; rewrite Hw; vm_compute; reflexivity. }
  by exists w', r, w''.
Defined.
End Instances.
