(* ===== verification/ServerClaims.v ===== *)
(** * Properties of servers, callbacks and conversions

    The main theorems about the code that crosses the border in both directions, each
    with an instance on the library of [Toy] and [ToyServer]. *)
From stdpp Require Import sorting strings gmap list numbers.
From S2P Require Import Prelude CString Jni Xatmi Exceptions TypedBuffer Calls AtmiCtxOps Convert.
From S2P Require Import Queues Callback Server Ubf UbfEval UbfIO Frame CallSpec UbfSpec ServerProofs Serving UbfIOProofs.
From S2P Require Import Toy ToyServer.

Section Qctl.
Context `{X : Xatmi} {QT : QueueTypes} (vm : jvm).

(** C27: queue control structures survive the way to Java and back.  A structure whose
    strings are terminated is stored into the caller's [TPQCTL] object or a new one;
    converting that object back gives every member of the table and the client id its
    value again; acquired strings, the exception and the library's state are unchanged.
    (The delivery time has no row: [deq_time_not_passed].) *)
Theorem qctl_round_trip (ctx_obj ctl : jobject) (q q0 : cstruct) (w : world xst) :
  vm_has_memory vm → vm_hands_copies vm → qctl_ok q → qctl_object ctl w →
  ∃ l w1 q' w2, ndrxj_atmi_TPQCTL_translate2java vm ctx_obj ctl q w = Ok (Some l) w1 ∧
    (∀ o, ctl = Some o → l = o) ∧
    ndrxj_atmi_TPQCTL_translate2c vm (Some l) q0 w1 = Ok (EXSUCCEED, q') w2 ∧
    (∀ f, f ∈ qctl_members → q' !! f = q !! f) ∧
    w_pins w2 = w_pins w ∧ w_exc w2 = w_exc w ∧ w_x w2 = w_x w.
Proof.
  intros Hm Hc Hq Hctl.
  destruct (run_qctl_to_java vm Hm ctx_obj ctl q w Hq Hctl) as (l & w1 & Hr1 & Hh & Hl & _ & _ & Hp & He & Hx).
  destruct (run_qctl_to_c vm Hm Hc l q q0 w1 Hh) as (q' & w2 & Hr2 & [n ->] & Hq').
  destruct (iter_ticked n w1) as (_ & _ & He' & Hp' & _ & _ & Hx').
  exists l, w1, q'. eexists. split_and!; [done..| | | |]; try congruence.
  intros f Hf. by rewrite Hq', decide_True.
Qed.

(** The delivery time of a control object does not reach the queue: whatever
    [deq_time] the object holds, the member keeps the value of the uninitialised C
    variable. *)
Theorem deq_time_not_passed (l : loc) (q q0 : cstruct) (w : world xst) :
  vm_has_memory vm → vm_hands_copies vm → holds_qctl l q w →
  ∃ q' w', ndrxj_atmi_TPQCTL_translate2c vm (Some l) q0 w = Ok (EXSUCCEED, q') w' ∧
    q' !! "deq_time" = q0 !! "deq_time".
Proof.
  intros Hm Hc Hh. destruct (run_qctl_to_c vm Hm Hc l q q0 w Hh) as (q' & w' & Hr & _ & Hq').
  exists q', w'. split; [done|]. rewrite Hq', decide_False; [done|].
  unfold qctl_members. simpl. rewrite !not_elem_of_cons, elem_of_nil. naive_solver.
Qed.
End Qctl.

(** The methods that call back, or work for those that do. *)
Inductive callback_native := CN_server (n : server_native) | CN_eval (n : eval_native).

Section Callbacks.
Context `{U : Ubf} {UE : UbfEval} {UI : UbfIO} {SL : ServerLib} {CL : ContextLib} {JC : JavaCode}
  {QT : QueueTypes} {XL : XatmiLaws} {JCl : JavaClean} (vm : jvm).

Definition run_callback_native (n : callback_native) : M xst unit :=
  match n with CN_server s => run_server_native vm s | CN_eval e => run_eval vm e end.

(** C15: methods that call back leave nothing behind.  Advertising a service, running a
    server, polling unsolicited messages, compiling, evaluating and printing
    expressions, fast adds, reading text and writing bytes end, if the Java code they
    call is clean, with nothing newly acquired and the thread in the NULL context,
    whatever Java or the library raised. *)
Theorem callbacks_clean (n : callback_native) (w w' : world xst) :
  vm_hands_copies vm → null_ctx w → run_callback_native n w = Ok tt w' →
  w_pins w' = w_pins w ∧ null_ctx w'.
Proof.
  intros Hc Hn Hr. destruct n as [n|n]; cbn [run_callback_native] in Hr.
  - pose proof (server_native_pins vm Hc n (w_pins w) w eq_refl) as Hp.
    pose proof (server_native_ctx vm n w Hn) as Hx. rewrite Hr in Hp, Hx. done.
  - pose proof (eval_pins vm Hc n (w_pins w) w eq_refl) as Hp.
    pose proof (eval_ctx vm n w Hn) as Hx. rewrite Hr in Hp, Hx. done.
Qed.

(** C37: handlers resume the context they interrupt.  The functions of an expression,
    the printer of expressions and the line reader are called in some context, leave
    it for the Java code, and return in the same context. *)
Theorem handlers_resume {CLw : ContextLaws} (c : Z) :
  (∀ f, triple (in_context c) (Bbool_callback_function vm f) (λ _, in_context c)) ∧
  (∀ o b, triple (in_context c) (bboolprcb_callback vm o b) (λ _, in_context c)) ∧
  (∀ r n, triple (in_context c) (Bextread_readf vm r n) (λ _, in_context c)).
Proof.
  split_and!; intros; [apply bool_callback_resumes|apply print_callback_resumes|apply readf_resumes].
Qed.
End Callbacks.

Section Bytes.
Context `{U : Ubf} {UI : UbfIO} {CL : ContextLib} {JC : JavaCode} (vm : jvm).

(** C28: bytes of a buffer survive the way to Java and back.  If the library writes a
    buffer as the blocks [bs], [Bwrite] returns an array of exactly these bytes; [Bread]
    of that array, by a library that asks for a head of [n] bytes and then for the rest
    into a buffer large enough, loads exactly these bytes; array and context are
    released. *)
Theorem bwrite_bread_round_trip (l l2 o : loc) (ctx : Z) (t t2 : typed_buffer) (bs : list (list Z))
    (n m : Z) (load : list Z → xst → xst) (w : world xst) :
  vm_has_memory vm → vm_hands_copies vm → field_ready l o ctx t w →
  writes bs (Bwritecb (tb_cPtr t)) → (Z.of_nat (length (concat bs)) < 2147483648)%Z →
  Breadcb (tb_cPtr t2) = loads n m load →
  (0 < n ≤ Z.of_nat (length (concat bs)))%Z → (Z.of_nat (length (concat bs)) - n ≤ m)%Z →
  ∃ la w1, Java_TypedUbf_Bwrite vm (Some l) w = Ok (Some la) w1 ∧
    w_heap w1 !! la = Some (JBytes (concat bs)) ∧ w_pins w1 = w_pins w ∧
    (field_ready l2 o ctx t2 w1 →
     ∃ w2, Java_TypedUbf_Bread vm (Some l2) (Some la) w1 = Ok tt w2 ∧
       w_x w2 = tpsetctxt TPNULLCONTEXT (load (concat bs) (entered o ctx (w_x w1))) ∧
       w_exc w2 = None ∧ w_pins w2 = w_pins w).
Proof.
  intros Hm Hc Hl Hw Hsz Hr Hn Hrest.
  destruct (run_Bwrite vm Hm l o ctx t bs w Hl Hw Hsz) as (la & w1 & Hr1 & Hla & _ & Hp).
  exists la, w1. split_and!; [done..|]. intros Hl2.
  destruct (run_Bread vm Hm l2 o ctx t2 la (concat bs) n m load w1) as (w2 & Hr2 & Hx & He & Hp2); [done..|].
  exists w2. split_and!; [done..|congruence].
Qed.

(** [Bread] of an array that is longer than the library's buffer for the rest writes
    beyond that buffer. *)
Theorem bread_overflows (b : list Z) (n m : Z) (load : list Z → xst → xst) (w : world xst) :
  (0 < n ≤ Z.of_nat (length b))%Z → (m < Z.of_nat (length b) - n)%Z →
  run_script_ctl (Bread_readf vm) (RwData 0 (Some b) (Z.of_nat (length b))) (loads n m load) w =
  Crash "write beyond the library's buffer".
Proof. intros Hn Hm. by apply run_reads_overflow. Qed.
End Bytes.

(** An evaluation started by a function of another evaluation takes the callbacks over:
    the second function of the outer expression, [f() && g()] on buffer object 6, is
    called on buffer object 7, and the result changes. *)
Theorem nested_evaluation_redirects :
  (∃ w, Java_TypedUbf_Bboolev (H3 := plain_java) good_vm (Some 6%positive) (Some 20%positive) toy_eval_world
        = Ok true w ∧ w_ubf w = Some 6%positive) ∧
  (∃ w, Java_TypedUbf_Bboolev (H3 := nesting_java) good_vm (Some 6%positive) (Some 20%positive) toy_eval_world
        = Ok false w ∧ w_ubf w = Some 7%positive).
Proof. split; eexists; (split; [vm_compute; reflexivity|reflexivity]). Qed.

Section Serving.
Context `{SL : ServerLib} {JC : JavaCode} {QT : QueueTypes} {XL : XatmiLaws} (vm : jvm).

(** C12: every request of a server run is served.  [tpRunC] on a context with a server
    object and at least four string arguments, with services that raise no exception and a
    library that takes in requests with buffers Java knows, marks the context as the
    server's, runs the library's main loop from there with the program's name in front of
    the arguments, and returns what the loop returns, in the NULL context; each request the
    loop took in has been handed to Java exactly once, in order, as an object with the
    request's name, data, flags, descriptor, key and client id. *)
Theorem server_serves_all (c : Z) (o la : loc) (inv : xst → Prop) (served : xst → list tpsvcinfo)
    (els : list jobject) (strs : list string) (nocheck : bool) (w : world xst) :
  vm_has_memory vm → vm_hands_copies vm → (∀ e, vm_throws vm e) →
  quiet_program c o inv served →
  enterable o c w → ctx_at c o w → w_exc w = None → inv (server_state c o (w_x w)) →
  w_heap w !! la = Some (JArray els) →
  Forall2 (λ e s, ∃ l, e = Some l ∧ w_heap w !! l = Some (JString s)) els strs →
  (nocheck = false → 4 ≤ length els) →
  script_ok c inv served (ndrx_main_integra (EX_PROGNAME :: strs)) →
  ∃ log r w1 w2 w', Java_AtmiCtx_tpRunC vm (Some o) (Some la) nocheck w = Ok r w' ∧
    w_x w1 = server_state c o (w_x w) ∧ w_heap w1 = w_heap w ∧ w_exc w1 = None ∧
    run_script (server_handle vm (Some la)) (ndrx_main_integra (EX_PROGNAME :: strs)) w1 = Ok (log, r) w2 ∧
    w_x w' = tpsetctxt TPNULLCONTEXT (w_x w2) ∧
    served (w_x w') = served (w_x w) ++ requests log ∧ null_ctx w'.
Proof. intros Hm Hc Ht Hp. apply run_tpRunC; try done. by destruct Hp. Qed.

(** A comment in [dispatch_call] says that the process ends if a service raises an exception;
    the exception is cleared, and the requests after it are served too. *)
Theorem exceptions_ignored (c : Z) (o la : loc) (inv : xst → Prop) (served : xst → list tpsvcinfo)
    (els : list jobject) (strs : list string) (nocheck : bool) (w : world xst) :
  vm_has_memory vm → vm_hands_copies vm → (∀ e, vm_throws vm e) →
  server_program c o inv served →
  enterable o c w → ctx_at c o w → w_exc w = None → inv (server_state c o (w_x w)) →
  w_heap w !! la = Some (JArray els) →
  Forall2 (λ e s, ∃ l, e = Some l ∧ w_heap w !! l = Some (JString s)) els strs →
  (nocheck = false → 4 ≤ length els) →
  script_ok c inv served (ndrx_main_integra (EX_PROGNAME :: strs)) →
  ∃ log r w1 w2 w', Java_AtmiCtx_tpRunC vm (Some o) (Some la) nocheck w = Ok r w' ∧
    w_x w1 = server_state c o (w_x w) ∧ w_heap w1 = w_heap w ∧ w_exc w1 = None ∧
    run_script (server_handle vm (Some la)) (ndrx_main_integra (EX_PROGNAME :: strs)) w1 = Ok (log, r) w2 ∧
    w_x w' = tpsetctxt TPNULLCONTEXT (w_x w2) ∧
    served (w_x w') = served (w_x w) ++ requests log ∧ null_ctx w'.
Proof. intros Hm Hc Ht Hp. by apply run_tpRunC. Qed.

(** A request whose buffer has a type Java does not know: the error of the translation
    is still pending when the Java dispatcher is called. *)
Theorem unknown_buffer_request (c : Z) (o : loc) (i : tpsvcinfo) (r : Z) (t st : string) (x' : xst)
    (w : world xst) :
  vm_throws vm TPEINVAL → x_ctx (w_x w) = c →
  NDRXJ_JATMICTX (ndrx_ctx_priv_get (w_x w)) = Some o →
  svc_data i ≠ 0%Z → tptypes (svc_data i) (w_x w) = ((r, t, st), x') → r ≠ EXFAIL →
  t ≠ "NULL"%string → buffer_class t = None →
  dispatch_call vm i w = Crash "Java method called with an exception pending".
Proof.
  intros Hth Hc Hp Hd Ht Hr Hn Hb. pose proof (proj1 Hth) as Hm. unfold dispatch_call.
  rewrite run_bind. unfold xget at 1. rewrite run_bind. unfold xget at 1. rewrite Hp, run_bind.
  unfold ndrxj_atmi_TpSvcInfo_translate. rewrite run_bind, run_ret. cbv beta iota.
  rewrite run_bind. unfold ndrxj_atmi_TypedBuffer_translate. rewrite run_bind, run_ret, run_bind.
  rewrite (proj2 (Z.eqb_neq _ _) Hd), run_bind. unfold xcall. rewrite Ht.
  rewrite (proj2 (Z.eqb_neq _ _) Hr). unfold translate_typed. rewrite (proj2 (String.eqb_neq _ _) Hn), Hb.
  rewrite run_bind. destruct (run_atmi_throw vm None None TPEINVAL
    ("buffer type [" +:+ t +:+ "] not supported") (with_x x' w) Hth) as (l & w1 & -> & He & _).
  rewrite run_ret, run_bind, run_ret. unfold ndrxj_atmi_ClientId_translate, NewStringUTF.
  cbv beta iota. rewrite run_ret, run_bind, run_bind, run_ret. cbv beta iota.
  rewrite run_bind, run_jni_new, run_bind, run_jni_new, run_bind, run_ret, run_ret by done. cbv beta iota.
  rewrite run_bind, run_bind, run_jni_new, run_bind, run_jni_new, run_jni_new by done.
  rewrite run_bind, run_ret, run_ret, run_bind. unfold outside. rewrite run_bind. unfold unset_ctx, xmod at 1.
  rewrite run_bind. unfold priv_of, xget. rewrite run_bind. unfold call_java.
  rewrite run_bind, run_ExceptionCheck, bool_decide_eq_true_2; [done|]. simpl. by rewrite He.
Qed.
End Serving.

(** ** Instances *)

Definition toy_qctl : cstruct :=
  list_to_map [("flags", CLong 1); ("deq_time", CLong 30); ("priority", CLong 50); ("diagnostic", CLong 0);
    ("diagmsg", CStr "ok"); ("msgid", CMem (replicate 32 7%Z)); ("corrid", CMem (replicate 32 9%Z));
    ("replyqueue", CStr "REPLYQ"); ("failurequeue", CStr EmptyString); ("urcode", CLong 3);
    ("appkey", CLong 4); ("delivery_qos", CLong 5); ("reply_qos", CLong 6); ("exp_time", CLong 7);
    ("cltid", CStr "client-1")]%Z.

Lemma toy_qctl_ok : qctl_ok toy_qctl.
Proof.
  split.
  - intros t Ht. unfold TPQCTL_fieldmap in Ht. rewrite !elem_of_cons, elem_of_nil in Ht.
    repeat destruct Ht as [->|Ht]; try done; eexists; (split; [reflexivity|]); cbn; try done; lia.
  - eexists. split; [reflexivity|]. cbn. lia.
Qed.

Lemma qctl_round_trip_witness :
  ∃ l w1 q' w2,
    ndrxj_atmi_TPQCTL_translate2java good_vm (Some 1%positive) None toy_qctl toy_world = Ok (Some l) w1 ∧
    ndrxj_atmi_TPQCTL_translate2c good_vm (Some l) ∅ w1 = Ok (EXSUCCEED, q') w2 ∧
    q' !! "replyqueue" = Some (CStr "REPLYQ") ∧ q' !! "exp_time" = Some (CLong 7).
Proof.
  destruct (qctl_round_trip (X := toy_xatmi) good_vm (Some 1%positive) None toy_qctl ∅ toy_world
    (λ _, eq_refl) (λ _, eq_refl) toy_qctl_ok I) as (l & w1 & q' & w2 & H1 & _ & H2 & Hq & _).
  exists l, w1, q', w2. split; [exact H1|]. split; [exact H2|].
  split; (rewrite Hq; [vm_compute; reflexivity|apply (bool_decide_unpack _); vm_compute; exact I]).
Defined.

Lemma deq_time_not_passed_witness :
  ∃ l w1 q' w2,
    ndrxj_atmi_TPQCTL_translate2java good_vm (Some 1%positive) None toy_qctl toy_world = Ok (Some l) w1 ∧
    ndrxj_atmi_TPQCTL_translate2c good_vm (Some l) {["deq_time" := CLong 999]} w1 = Ok (EXSUCCEED, q') w2 ∧
    q' !! "deq_time" = Some (CLong 999).
Proof.
  destruct (run_qctl_to_java (H := toy_xatmi) good_vm (λ _, eq_refl) (Some 1%positive) None toy_qctl toy_world
    toy_qctl_ok I) as (l & w1 & Hr & Hh & _).
  destruct (deq_time_not_passed (X := toy_xatmi) good_vm l toy_qctl {["deq_time" := CLong 999]} w1
    (λ _, eq_refl) (λ _, eq_refl) Hh) as (q' & w2 & Hr2 & Hq).
  exists l, w1, q', w2. split; [exact Hr|]. split; [exact Hr2|]. rewrite Hq. reflexivity.
Defined.

Lemma callbacks_clean_witness :
  ∃ w', run_callback_native good_vm (CN_server (SN_tpRunC (Some 1%positive) (Some 14%positive) false))
          toy_server_world = Ok tt w' ∧ w_pins w' = [] ∧ null_ctx w'.
Proof.
  destruct (run_callback_native good_vm (CN_server (SN_tpRunC (Some 1%positive) (Some 14%positive) false))
    toy_server_world) as [[] w'|] eqn:E; [|vm_compute in E; discriminate].
  exists w'. split; [reflexivity|].
  exact (callbacks_clean (SL := toy_server) (JCl := toy_java_clean) good_vm _ toy_server_world w'
    (λ _, eq_refl) eq_refl E).
Defined.

Lemma handlers_resume_witness :
  triple (in_context 77) (Bbool_callback_function good_vm "check") (λ _, in_context 77).
Proof.
  exact (proj1 (handlers_resume (JC := toy_java) (CLw := toy_context_laws) good_vm 77) "check"%string).
Defined.

Lemma bwrite_bread_round_trip_witness :
  ∃ la w1 w2, Java_TypedUbf_Bwrite good_vm (Some 6%positive) toy_world = Ok (Some la) w1 ∧
    Java_TypedUbf_Bread good_vm (Some 7%positive) (Some la) w1 = Ok tt w2 ∧
    buf_find 200 (toy_bufs (w_x w2)) = Some ("UBF"%string, [1; 2; 3; 4; 5; 6]%Z).
Proof.
  set (t6 := TypedBuffer "org/endurox/TypedUbf" (Some 1%positive) true 100 1024).
  set (t7 := TypedBuffer "org/endurox/TypedUbf" (Some 1%positive) true 200 1024).
  destruct (bwrite_bread_round_trip (UI := toy_io) (CL := toy_context) (JC := toy_java) good_vm
    6%positive 7%positive 1%positive 77 t6 t7 [[1; 2; 3; 4]; [5; 6]]%Z 4 100
    (λ c (x : @xst toy_xatmi), with_bufs (buf_update 200 c (toy_bufs x)) x) toy_world)
    as (la & w1 & H1 & Hla & Hp & H2); try reflexivity; try (simpl; lia); try done.
  - constructor; [reflexivity|reflexivity| |reflexivity].
    constructor; [by exists None|done|done|]. by intros l Hl.
  - do 2 (eexists; split; [reflexivity|]). reflexivity.
  - pose proof H1 as Hw1. vm_compute in Hw1. injection Hw1 as <- <-. destruct H2 as (w2 & Hr & Hx & _).
    { constructor; [reflexivity|reflexivity| |reflexivity].
      constructor; [by exists None|done|done|]. intros l [= <-]. by left. }
    eexists _, _, w2. split; [exact H1|]. split; [exact Hr|]. rewrite Hx. vm_compute. reflexivity.
Defined.

Lemma bread_overflows_witness :
  run_script_ctl (Bread_readf good_vm) (RwData 0 (Some [1; 2; 3; 4; 5; 6; 7; 8; 9; 10]%Z) 10)
    (loads 4 2 (λ _ (x : @xst toy_xatmi), x)) toy_world = Crash "write beyond the library's buffer".
Proof.
  apply (bread_overflows (H := toy_xatmi) good_vm [1; 2; 3; 4; 5; 6; 7; 8; 9; 10]%Z 4 2); simpl; lia.
Defined.

Lemma server_serves_all_witness :
  ∃ w', Java_AtmiCtx_tpRunC (H2 := calm_java) good_vm (Some 1%positive) (Some 14%positive) false toy_server_world = Ok 0%Z w' ∧
    toy_log (w_x w') = [toy_request1; toy_request2] ∧ null_ctx w'.
Proof.
  destruct (server_serves_all (SL := toy_server) (JC := calm_java) good_vm 77 1%positive 14%positive toy_inv toy_log
    [Some 10%positive; Some 11%positive; Some 12%positive; Some 13%positive] ["-k"; "key"; "-i"; "1"]%string false toy_server_world
    (λ _, eq_refl) (λ _, eq_refl) good_vm_throws calm_program)
    as (log & r & w1 & w2 & w' & Hr & _ & _ & _ & _ & _ & Hs & Hn).
  - constructor; [by exists (Some 9%positive)|done|done|done].
  - split; [simpl; lia|]. by exists 9%positive.
  - reflexivity.
  - split; reflexivity.
  - reflexivity.
  - repeat constructor; by eexists.
  - intros _. simpl. lia.
  - apply toy_main_ok.
  - exists w'. assert (r = 0%Z) as -> by (vm_compute in Hr; congruence). split; [exact Hr|].
    split; [|exact Hn]. vm_compute in Hr. injection Hr as <-. reflexivity.
Defined.

Lemma exceptions_ignored_witness :
  ∃ w', Java_AtmiCtx_tpRunC good_vm (Some 1%positive) (Some 14%positive) false toy_server_world = Ok 0%Z w' ∧
    toy_log (w_x w') = [toy_request1; toy_request2] ∧ null_ctx w'.
Proof.
  destruct (exceptions_ignored (SL := toy_server) (JC := toy_java) good_vm 77 1%positive 14%positive toy_inv toy_log
    [Some 10%positive; Some 11%positive; Some 12%positive; Some 13%positive] ["-k"; "key"; "-i"; "1"]%string false toy_server_world
    (λ _, eq_refl) (λ _, eq_refl) good_vm_throws toy_program)
    as (log & r & w1 & w2 & w' & Hr & _ & _ & _ & _ & _ & Hs & Hn).
  - constructor; [by exists (Some 9%positive)|done|done|done].
  - split; [simpl; lia|]. by exists 9%positive.
  - reflexivity.
  - split; reflexivity.
  - reflexivity.
  - repeat constructor; by eexists.
  - intros _. simpl. lia.
  - apply toy_main_ok.
  - exists w'. assert (r = 0%Z) as -> by (vm_compute in Hr; congruence). split; [exact Hr|].
    split; [|exact Hn]. vm_compute in Hr. injection Hr as <-. reflexivity.
Defined.

Lemma unknown_buffer_request_witness :
  dispatch_call good_vm (TpSvcInfo "SVC" "FN" 400 2 0 0 0 "client-1")
    (with_x (with_ctx 77 (Toy 77 (CtxPriv (Some 1%positive) 77 1) 0 0 [(400%Z, ("PTR"%string, zeros 2))] []))
       toy_server_world)
  = Crash "Java method called with an exception pending".
Proof.
  apply (unknown_buffer_request (JC := toy_java) good_vm 77 1%positive _ 2 "PTR" EmptyString
    (Toy 77 (CtxPriv (Some 1%positive) 77 1) 0 0 [(400%Z, ("PTR"%string, zeros 2))] [])); try reflexivity; try done; try apply good_vm_throws.
Defined.
