(* ===== verification/XaClaims.v ===== *)
(** * Properties of the XA driver

    The main theorems about transactions run in Java, each with an instance on the
    library of [Toy]. *)
From stdpp Require Import sorting strings gmap list numbers relations.
From S2P Require Import Prelude CString Jni Xatmi Exceptions TypedBuffer Calls AtmiCtxOps Convert.
From S2P Require Import Queues Callback Server XaConfig Xa Ubf UbfEval UbfIO Frame Owners CallSpec Serving XaProofs.
From S2P Require Import Boot XaSwitch.
From S2P Require Import Toy ToyServer.

Section Xa.
Context `{XA : XaLib} {CL : ContextLib} {JC : JavaCode} (vm : jvm).


(** An identifier from Java cannot be converted without a release through a reference
    that has been deleted: on a machine that does not tolerate it the conversion
    crashes, for every identifier. *)
Theorem xid_conversion_stale (l : loc) (x : xid) (w : world xst) :
  vm_has_memory vm → vm_hands_copies vm → stale_release = false → java_exxid →
  xid_ok x → exxid_at l x w → w_exc w = None →
  ndrxj_cvt_xid_to_c vm (Some l) w = Crash "deleted reference".
Proof. intros Hm Hc Hs Hj Hok Hx He. by rewrite (run_xid_to_c vm Hm Hj l x), Hs. Qed.

Context {PL : PrivLaws} (M_jvm : bool) (M_classLoader : jobject).

(** The entries of the switch that take an identifier, and those that do not, with the
    Java method each is for. *)
Definition xid_entries : list (string * (option xid → Z → M xst Z)) :=
  [("xa_start_entry", sw_start (ndrxjsw vm M_jvm M_classLoader));
   ("xa_end_entry", sw_end (ndrxjsw vm M_jvm M_classLoader));
   ("xa_rollback_entry", sw_rollback (ndrxjsw vm M_jvm M_classLoader));
   ("xa_prepare_entry", sw_prepare (ndrxjsw vm M_jvm M_classLoader));
   ("xa_commit_entry", sw_commit (ndrxjsw vm M_jvm M_classLoader));
   ("xa_forget_entry", sw_forget (ndrxjsw vm M_jvm M_classLoader))]%string.
Definition info_entries : list (string * (Z → M xst Z)) :=
  [("xa_open_entry", sw_open (ndrxjsw vm M_jvm M_classLoader));
   ("xa_close_entry", sw_close (ndrxjsw vm M_jvm M_classLoader))]%string.

(** C32: the switch reports what Java did.  Each entry calls the Java method of its own
    name outside of the context, with the same flags and an object for the same
    identifier; it returns Java's code, or [XAER_RMERR] if Java raised an exception and
    the code would mean success; no exception stays, and the thread is back in the
    context its private data name. *)
Theorem xa_entries_report (o : loc) (w : world xst) :
  vm_has_memory vm → xa_ready o w →
  (∀ func entry flags z w1, (func, entry) ∈ info_entries →
     java_run (J_xa_info func (Some o) flags) (left_ctx w) = Ok (V_num z) w1 →
     entry flags w = Ok (reported z w1) (resumed (x_ctx (w_x w)) w1)) ∧
  (∀ func entry x flags, (func, entry) ∈ xid_entries → xid_ok x →
     ∃ l w0, only_new w w0 ∧ exxid_at l x w0 ∧
       ∀ z w1, java_run (J_xa_xid func (Some o) (Some l) flags) (left_ctx w0) = Ok (V_num z) w1 →
         entry (Some x) flags w = Ok (reported z w1) (resumed (x_ctx (w_x w)) w1)).
Proof.
  intros Hm Hw. split.
  - intros func entry flags z w1 Hin Hr.
    pose proof (run_xa_info_entry vm M_jvm M_classLoader func flags o w z w1 Hw Hr) as Hrun.
    unfold info_entries in Hin. repeat (apply elem_of_cons in Hin as [[= -> ->]|Hin]; [exact Hrun|]).
    by apply elem_of_nil in Hin.
  - intros func entry x flags Hin Hx.
    pose proof (run_xa_xid_entry vm Hm M_jvm M_classLoader func x flags o w Hw Hx) as Hrun.
    unfold xid_entries in Hin. repeat (apply elem_of_cons in Hin as [[= -> ->]|Hin]; [exact Hrun|]).
    by apply elem_of_nil in Hin.
Qed.


(** With less room than Java has identifiers the array is filled, and the number returned is
    that of its elements, not of Java's identifiers. *)
Theorem xa_recover_cut (xids : list xid) (count flags : Z) (o la lr : loc) (els : list jobject)
    (xs : list xid) (w w1 : world xst) :
  vm_has_memory vm → vm_hands_copies vm → stale_release = true → java_exxid → xa_ready o w →
  (0 ≤ count < Z.of_nat (length xs))%Z → (count ≤ Z.of_nat (length xids))%Z → (Z.of_nat (length xs) < 2147483648)%Z →
  java_run (J_xa_recover (Some o) flags) (left_ctx w) = Ok (V_obj (Some lr)) w1 → w_exc w1 = None →
  xid_list lr XA_OK (Some la) w1 → w_heap w1 !! la = Some (JArray els) → xid_array els xs w1 →
  ∃ w', xa_recover_entry vm M_jvm M_classLoader (Some xids) count flags w =
    Ok (count, Some ((back <$> take (Z.to_nat count) xs) ++ drop (Z.to_nat count) xids)) w'.
Proof.
  intros Hm Hc Hs Hj Hw Hcount Hx Hxs Hr He Hl Ha Hels.
  destruct (run_xa_recover_entry vm Hm M_jvm M_classLoader xids count flags o w la lr els xs w1)
    as (w' & Hrun & He' & Hx'); [done|done|done|done|lia|done..|].
  exists w'. rewrite Hrun. replace (Nat.min (Z.to_nat count) (length xs)) with (Z.to_nat count) by lia.
  by replace (Z.of_nat (Z.to_nat count)) with count by lia.
Qed.


(** C35: the driver hands the switch out only when it works, and leaks no library.
    Whatever the dynamic linker answers and whatever happens in Java, a switch that is
    returned is the symbol of the process or of the library then kept open, with API
    suspension turned off; without one every library opened for it is closed again and
    nothing is turned off.  In a process that already has a Java context object no machine
    is made and the switch is returned exactly if the data source was initialised. *)
Theorem xa_switch_loaded `{BJ : !BootJava} (env : boot_env) (dl : linker_answers) (rmlib : option string)
    (room : nat → bool) (root : option exjson) (w : world driver) :
  match ndrx_get_xa_switch vm env dl rmlib room root w with
  | Ok (Some a) w' => ∃ opened, resolved dl rmlib a opened ∧
      open_handles (w_x w') = opened ++ open_handles (w_x w) ∧ noapisusp (w_x w') = true
  | Ok None w' => open_handles (w_x w') = open_handles (w_x w) ∧ noapisusp (w_x w') = noapisusp (w_x w)
  | Crash _ => True
  end ∧
  ∀ a opened o r v,
    resolved dl rmlib a opened →
    NDRXJ_JATMICTX (ndrx_ctx_priv_get (tpsetctxt (x_ctx (p_x (w_x w))) (p_x (w_x w)))) = Some o →
    ndrxj_xa_init vm (XaSwitch.M_jvm (w_x w)) (Boot.M_classLoader (p_boot (w_x w))) room root (lib_world w) = Ok r v →
    ∃ w', ndrx_get_xa_switch vm env dl rmlib room root w = Ok (if (r =? EXSUCCEED)%Z then Some a else None) w' ∧
      p_x (w_x w') = w_x v ∧ p_boot (w_x w') = p_boot (w_x w).
Proof.
  destruct (run_get_switch vm env dl rmlib room root w) as (sw & handle & Hres & ->).
  set (w1 := with_x _ w). split.
  - destruct sw as [a|].
    + pose proof (keeps_start vm env room root (x_ctx (p_x (w_x w))) w1) as Hk.
      destruct (start_switch _ _ _ _ _ w1) as [[] w2|]; [| |done].
      * exists (option_list handle). split; [by apply Hres|]. by destruct Hk.
      * destruct Hk as [Hh Hn]. destruct (run_switch_failed handle (open_handles (w_x w)) w2 Hh) as (w3 & -> & ? & Hn' & _).
        split; [done|]. rewrite Hn'. exact Hn.
    + destruct (run_switch_failed handle (open_handles (w_x w)) w1 eq_refl) as (w3 & -> & ? & ? & _). done.
  - intros a opened o r v Ha Ho Hr.
    apply Hres in Ha as [-> _].
    rewrite (run_start_java vm env room root _ o r v w1 Ho Hr). destruct (r =? EXSUCCEED)%Z; [by eexists|].
    destruct (run_switch_failed handle (open_handles (w_x w)) (with_lib v w1) eq_refl) as (w3 & -> & _ & _ & Hx & Hb).
    exists w3. by rewrite Hx, Hb.
Qed.
End Xa.

(** A setting with an empty value is lost: the string has no second part for Java, which
    fails on the missing array element. *)
Theorem xa_empty_value :
  ndrxj_xa_cfgparse (λ _, true)
    (Some (EXJSONObject [("class", EXJSONString "DS"); ("set", EXJSONObject [("SetPassword", EXJSONString EmptyString)])]%string))
    PATH_MAX = (EXSUCCEED, ["SetPassword" +:+ FS]%string, "DS"%string) ∧
  read_setting ("SetPassword" +:+ FS) = None.
Proof. split; reflexivity. Qed.

(** ** Instances *)


Lemma xid_conversion_stale_witness :
  ndrxj_cvt_xid_to_c (XA := toy_xa false) (JC := xa_java) good_vm (Some 22%positive) toy_xa_world =
  Crash "deleted reference".
Proof.
  apply (xid_conversion_stale (XA := toy_xa false) (JC := xa_java) good_vm 22%positive (toy_xid 5) toy_xa_world);
    [done|done|done|exact toy_java_exxid|exact (toy_xid_ok false 5)| |done].
  by exists 23%positive, 24%positive, 25%positive.
Defined.

Lemma xa_entries_report_witness :
  (∃ w, xa_open_entry (XA := toy_xa true) (JC := xa_java) good_vm true None 0 toy_xa_world = Ok XA_OK w) ∧
  (∃ w, xa_commit_entry (XA := toy_xa true) (JC := xa_java) good_vm true None (Some (toy_xid 5)) 0 toy_xa_world
        = Ok XAER_RMERR w ∧ w_exc w = None).
Proof.
  destruct (xa_entries_report (XA := toy_xa true) (JC := xa_java) good_vm true None 1%positive toy_xa_world)
    as [Hinfo Hxid]; [done|exact toy_xa_ready|]. split.
  - eexists. apply (Hinfo "xa_open_entry"%string _ 0%Z 0%Z (left_ctx toy_xa_world)); [|reflexivity].
    apply elem_of_cons. by left.
  - destruct (Hxid "xa_commit_entry"%string (xa_commit_entry (XA := toy_xa true) (JC := xa_java) good_vm true None)
      (toy_xid 5) 0%Z) as (l & w0 & _ & _ & Hrun); [|exact (toy_xid_ok true 5)|].
    + unfold xid_entries. rewrite !elem_of_cons. tauto.
    + eexists. split; [rewrite (Hrun 0%Z _ eq_refl); reflexivity|reflexivity].
Defined.

(** The driver library as the only source of the symbol, in a process of Java. *)
Definition toy_linker : linker_answers := LinkerAnswers None (λ _, Some 5%Z) (λ _, Some 900%Z).
Definition toy_process_world : world (driver (H := toy_xatmi)) :=
  World (w_heap toy_xa_world) 30%positive None [] [] [] 0 None
    (Driver (H := toy_xatmi) (w_x toy_xa_world) boot_init true [1%Z] false).
Definition toy_boot_env : boot_env :=
  BootEnv (Some false) None true None (λ _ _ _, None) (λ _, false) (λ _, true) (λ _, true) (λ _, []).
Definition toy_root : option exjson := Some (EXJSONObject (config_of [] "DS" [] [] [])).

Lemma xa_switch_loaded_witness :
  ∃ w', ndrx_get_xa_switch (XA := toy_xa true) (JC := xa_java)
      (BJ := static_java good_vm toy_boot_env (λ _, mret None) (λ _, mret None) (λ _ _, mret tt))
      good_vm toy_boot_env toy_linker (Some "libexjdbc.so"%string) (λ _, true) toy_root toy_process_world =
    Ok (Some 900%Z) w' ∧ p_boot (w_x w') = boot_init.
Proof.
  destruct (xa_switch_loaded (XA := toy_xa true) (JC := xa_java)
    (BJ := static_java good_vm toy_boot_env (λ _, mret None) (λ _, mret None) (λ _ _, mret tt))
    good_vm toy_boot_env toy_linker (Some "libexjdbc.so"%string) (λ _, true) toy_root toy_process_world) as [_ Hrun].
  edestruct (Hrun 900%Z [5%Z] 1%positive EXSUCCEED) as (w' & Hw & _ & Hb);
    [right; split; [done|by exists 5%Z]|reflexivity|vm_compute; reflexivity|].
  by exists w'.
Defined.


Lemma xa_recover_cut_witness :
  ∃ w, xa_recover_entry (XA := toy_xa true) (JC := xa_java) good_vm true None (Some [toy_xid 1]) 1 0 toy_xa_world
       = Ok (1%Z, Some [toy_xid 5]) w.
Proof.
  destruct (xa_recover_cut (XA := toy_xa true) (JC := xa_java) good_vm true None [toy_xid 1] 1 0 1%positive
    21%positive 20%positive [Some 22%positive; Some 26%positive] [toy_xid 5; toy_xid 6] toy_xa_world
    (left_ctx toy_xa_world)) as (w' & Hr);
    [done|done|done|exact toy_java_exxid|exact toy_xa_ready|simpl; lia|simpl; lia|simpl; lia|done|done|done|done| |].
  - exact (toy_xids_there true _ eq_refl).
  - exists w'. rewrite Hr. reflexivity.
Defined.


