(* ===== verification/SignalClaims.v ===== *)
(** * Properties of the termination handler *)
From stdpp Require Import sorting list numbers relations.
From S2P Require Import Prelude TermSig.

(** Is the thread inside the critical section? *)
Definition inside (p : process) (a : actor) : Prop :=
  match a with
  | Installer i => ∃ pc, p_inst p !! i = Some pc ∧ inst_holds pc = true
  | Monitor j => ∃ pc, p_mon p !! j = Some pc ∧ mon_holds pc = true
  end.

(** C36: the runnable is called only while it is referenced.  However threads install
    runnables and signals arrive: at most one thread is inside the critical section, and
    it is not blocked there unless it has faulted; no monitor calls the runnable through
    a reference that was deleted; and when nobody is inside, exactly the current
    runnable is referenced, so that none is leaked. *)
Theorem runner_referenced (runners : list bool) (p : process) :
  rtc sig_step (sig_start runners) p →
  (∀ a b, inside p a → inside p b → a = b) ∧
  (∀ a ans, inside p a → (∀ j why, a = Monitor j → p_mon p !! j ≠ Some (M_fault why)) → is_Some (act p a ans)) ∧
  (∀ j g, p_mon p !! j ≠ Some (M_fault (Some g))) ∧
  ((∀ a, ¬ inside p a) → grefs (p_sig p) = option_list (M_runner (p_sig p))).
Proof.
  intros [Hset Hi Hm Hrng Hst Hrefs]%sig_reach_inv.
  assert (∀ a, inside p a → M_is_set_lock (p_sig p) = Some a) as Hown.
  { intros [i|j] (pc & Hl & Hh); [by apply (Hi i pc)|by apply (Hm j pc)]. }
  split_and!.
  - intros a b Ha%Hown Hb%Hown. congruence.
  - intros [i|j] ans (pc & Hl & Hh) Hf; cbn [act]; rewrite Hl; cbn.
    + by destruct pc.
    + destruct pc as [| |e|e|e|e|why]; try done; [|by destruct (Hf j why)]. cbn.
      destruct (M_runner (p_sig p)); [|done]. case_decide; [done|]. by destruct e.
  - intros j g Hl. by apply (proj2 (Hm j _ Hl) g).
  - intros Hno. apply Hrefs. intros i pc Hl. destruct (storing pc) eqn:E; [|done].
    destruct (Hno (Installer i)). exists pc. split; [done|]. by apply storing_holds.
Qed.

(** [M_is_set] is never set: two calls, one after the other, start two monitors, both
    waiting for the signals. *)
Theorem monitor_per_install :
  ∃ p, rtc sig_step (sig_start [true; true]) p ∧
    p_inst p = [I_done; I_done] ∧ p_mon p = [M_wait false; M_wait false].
Proof.
  eexists. split; [|split].
  - apply (schedule_reaches
      ((λ a, (a, true)) <$> (replicate 7 (Installer 0) ++ replicate 7 (Installer 1) ++ [Monitor 0; Monitor 1]))).
    vm_compute. reflexivity.
  - reflexivity.
  - reflexivity.
Qed.

(** An exception of the runnable stays pending in the monitor: at the next signal the
    runnable is called with it. *)
Theorem second_signal_faults :
  ∃ p, rtc sig_step (sig_start [true]) p ∧ p_mon p = [M_fault None].
Proof.
  eexists. split.
  - apply (schedule_reaches
      (((λ a, (a, true)) <$> replicate 7 (Installer 0)) ++ [(Monitor 0, true)] ++
       ((λ a, (a, false)) <$> replicate 7 (Monitor 0)))).
    vm_compute. reflexivity.
  - reflexivity.
Qed.

Lemma runner_referenced_witness :
  ∃ p, rtc sig_step (sig_start [true; false]) p ∧ p_inst p = [I_done; I_done] ∧ grefs (p_sig p) = [].
Proof.
  assert (∃ p, run_schedule ((λ a, (a, true)) <$> (replicate 7 (Installer 0) ++ replicate 7 (Installer 1)))
    (sig_start [true; false]) = Some p ∧ p_inst p = [I_done; I_done] ∧ M_runner (p_sig p) = None ∧
    p_mon p = [M_attach; M_attach]) as (p & Hr & Hd & Hn & Hmon).
  { eexists. split; [vm_compute; reflexivity|]. split_and!; reflexivity. }
  apply schedule_reaches in Hr. exists p. split; [exact Hr|]. split; [exact Hd|].
  destruct (runner_referenced [true; false] p Hr) as (_ & _ & _ & Hg). rewrite Hg, Hn; [reflexivity|].
  intros [i|j] (pc & Hl & Hh).
  - rewrite Hd in Hl. destruct i as [|[|i]]; cbn in Hl; [| |discriminate]; injection Hl as <-; discriminate.
  - rewrite Hmon in Hl. destruct j as [|[|j]]; cbn in Hl; [| |discriminate]; injection Hl as <-; discriminate.
Defined.
