(* ===== verification/InflateClaims.v ===== *)
(** * The decompressor: claims

    Streams in pieces, and what the decompressor does not guard against. *)
From stdpp Require Import strings gmap list numbers.
From S2P Require Import Prelude CString FileSys ZipReader ZipCrc Unzip ZipFormat UnzipProofs Deflate Inflate InflateInput InflateInv InflateSteps InflateProofs.
Local Open Scope Z_scope.

(** A caller with a ring buffer who hands over the input in pieces: [avail] is left of the
    current one, [chunks] are to come. *)
Fixpoint feed (fuel : nat) (d : decompressor) (avail : list Z) (chunks : list (list Z)) (buf done : list Z) : read (list Z) :=
  match fuel with
  | O => Endless
  | S fuel' =>
      let pos := len done mod TINFL_LZ_DICT_SIZE in
      '(s, d, used, out) ← inflate_call d avail buf pos (TINFL_LZ_DICT_SIZE - pos)
                             (if len (concat chunks) =? 0 then 0 else TINFL_FLAG_HAS_MORE_INPUT);
      let buf := write_at pos out buf in
      match s, chunks with
      | TINFL_STATUS_DONE, _ => Got (done ++ out)
      | TINFL_STATUS_NEEDS_MORE_INPUT, c :: chunks => feed fuel' d c chunks buf (done ++ out)
      | TINFL_STATUS_HAS_MORE_OUTPUT, _ => feed fuel' d (drop used avail) chunks buf (done ++ out)
      | _, _ => MZ_FALSE
      end
  end.

(** A full buffer is not empty. *)
Lemma full_nonempty (done out : list Z) : len out = TINFL_LZ_DICT_SIZE - len done mod TINFL_LZ_DICT_SIZE → (0 < length out)%nat.
Proof. unfold TINFL_LZ_DICT_SIZE, len. pose proof (Z.mod_pos_bound (Z.of_nat (length done)) 32768). lia. Qed.

Lemma feed_ok fuel d avail chunks buf done todo :
  decodes d (avail ++ concat chunks) done todo → window buf done → (length chunks + length todo < fuel)%nat →
  feed fuel d avail chunks buf done = Got (done ++ todo).
Proof.
  revert d avail chunks buf done todo. induction fuel as [|fuel IH]; intros d avail chunks buf done todo Hd Hw Hf; [lia|].
  cbn [feed]. destruct (call_ok d avail (concat chunks) done todo buf Hd Hw) as (s & d' & used & out & todo' & -> & -> & _ & Hlen & Hs).
  cbn [mbind read_bind]. pose proof (window_write buf done out Hw Hlen) as Hw'. rewrite length_app in Hf. rewrite (app_assoc done).
  destruct s; try done.
  - by rewrite Hs, app_nil_r.
  - destruct Hs as (Hne & _ & Hd'). destruct chunks as [|c chunks]; [done|]. apply IH; [done..|]. cbn [length] in Hf. lia.
  - destruct Hs as [Hfull Hd']. apply full_nonempty in Hfull. apply IH; [done..|lia].
Qed.

Lemma callback_loop_ok fuel put d input pDict done todo :
  (∀ b, put b = true) → decodes d input done todo → window pDict done → (length todo < fuel)%nat →
  ∃ used, callback_loop fuel put d input pDict (len done mod TINFL_LZ_DICT_SIZE) = Got (1, used, todo) ∧ (used ≤ length input)%nat.
Proof.
  intros Hput. revert d input pDict done todo. induction fuel as [|fuel IH]; intros d input pDict done todo Hd Hw Hf; [lia|].
  rewrite <-(app_nil_r input) in Hd. cbn [callback_loop].
  destruct (call_ok d input [] done todo pDict Hd Hw) as (s & d' & used & out & todo' & E & -> & Hu & Hlen & Hs).
  change (if len [] =? 0 then 0 else TINFL_FLAG_HAS_MORE_INPUT) with 0 in E. rewrite E. cbn [mbind read_bind].
  rewrite Hput, andb_false_r. pose proof (window_write pDict done out Hw Hlen) as Hw'. rewrite length_app in Hf.
  destruct s; try done.
  - exists used. by rewrite Hs, app_nil_r.
  - by destruct Hs.
  - destruct Hs as [Hfull Hd']. apply full_nonempty in Hfull. rewrite app_nil_r in Hd'.
    rewrite land_mod by (pose proof (Z.mod_pos_bound (len done) TINFL_LZ_DICT_SIZE); pose proof (len_nonneg out); unfold TINFL_LZ_DICT_SIZE in *; lia).
    rewrite Zplus_mod_idemp_l, <-len_app. destruct (IH d' (drop used input) _ (done ++ out) todo' Hd' Hw') as (u & -> & Hu'); [lia|].
    eexists. split; [done|]. rewrite length_drop in Hu'. lia.
Qed.

(** C16: the decompressor understands the format.  A stream in the deflate format of RFC 1951
    (stored, fixed and dynamic blocks, any codes), handed to [tinfl_decompress] in pieces cut
    anywhere, through the ring buffer of 32 KiB, gives exactly the data it was made from; and
    so does [tinfl_decompress_mem_to_callback] on the whole stream, which returns 1. *)
Theorem inflate_correct (chunks : list (list Z)) (data : list Z) (fuel : nat) (alloc : Z → bool) (put : list Z → bool) :
  deflated (concat chunks) data → (length chunks + length data < fuel)%nat →
  feed fuel new_decompressor [] chunks [] [] = Got data ∧
  ((∀ n, alloc n = true) → (∀ b, put b = true) →
   ∃ used, tinfl_decompress_mem_to_callback fuel alloc put (concat chunks) = Got (1, used, data) ∧
     (used ≤ length (concat chunks))%nat).
Proof.
  intros Hd%deflated_inflates Hf. assert (window [] []) as Hw by (intros j Hj; unfold len in Hj; cbn in Hj; lia). split.
  - by apply (feed_ok fuel new_decompressor [] chunks [] [] data).
  - intros Hal Hput. unfold tinfl_decompress_mem_to_callback. rewrite Hal.
    apply (callback_loop_ok fuel put new_decompressor (concat chunks) [] [] data Hput Hd Hw). lia.
Qed.

(** ** Instances *)

(** A class file with zeros in it, compressed with the fixed codes. *)
Definition class_data : list Z := [202; 254; 186; 190; 0; 0; 0; 0; 0; 0; 0; 0; 52].
Definition class_stream : list Z := [59; 245; 111; 215; 62; 6; 40; 48; 1; 0].

Lemma class_deflated : deflated class_stream class_data.
Proof.
  split; [by repeat constructor|]. eapply deflate_last; [vm_compute; reflexivity|vm_compute; reflexivity|].
  apply block_fixed. literal 202. literal 254. literal 186. literal 190. literal 0.
  eapply (codes_match _ _ _ _ 261); [symbol|done|reflexivity|vm_compute; reflexivity|symbol|vm_compute; reflexivity|vm_compute; reflexivity|done|vm_compute copy_back].
  literal 52. apply codes_end. symbol.
Qed.

Lemma inflate_correct_witness :
  feed 20 new_decompressor [] [[59; 245]; []; [111; 215; 62]; [6; 40; 48; 1; 0]] [] [] = Got class_data ∧
  ∃ used, tinfl_decompress_mem_to_callback 20 (λ _, true) (λ _, true) class_stream = Got (1, used, class_data) ∧ (used ≤ 10)%nat.
Proof.
  destruct (inflate_correct [[59; 245]; []; [111; 215; 62]; [6; 40; 48; 1; 0]] class_data 20 (λ _, true) (λ _, true) class_deflated) as [H1 H2];
    [cbn; lia|]. split; [exact H1|exact (H2 (λ _, eq_refl) (λ _, eq_refl))].
Defined.

(** Dynamic codes, run. *)
Definition pangram : string :=
  "the quick brown fox jumps over the lazy dog; the quick brown dog jumps over the lazy fox 0123456789 abcdefghijklmnopqrstuvwxyz".
Definition pangram_stream : list Z :=
  [109; 140; 201; 17; 128; 32; 16; 4; 83; 217; 16; 188; 143; 50; 26; 65; 16; 188; 86; 46; 65; 163; 23; 125; 249; 240; 57; 221; 93;
   99; 5; 3; 229; 36; 157; 129; 104; 244; 27; 112; 12; 48; 185; 117; 55; 128; 7; 211; 96; 163; 94; 250; 235; 132; 1; 199; 238;
   93; 223; 56; 194; 223; 248; 57; 73; 210; 44; 47; 202; 170; 110; 90; 232; 9; 29; 24; 31; 133; 156; 230; 101; 221; 112; 87; 218;
   88; 119; 248; 112; 94; 55].

Example pangram_inflated :
  tinfl_decompress_mem_to_callback 2 (λ _, true) (λ _, true) pangram_stream = Got (1, 91%nat, string_bytes pangram).
Proof. vm_compute. reflexivity. Qed.

(** ** What the decompressor does not guard against *)

(** The reserved length symbols have base 0, but the copy loop writes three bytes before it
    looks at the length.  With room for four bytes a match of no length gives three; one byte
    before the end of a ring buffer (here of two bytes) it writes over the end. *)
Definition reserved_stream : list Z := [115; 28; 3; 0].

Theorem reserved_length_overruns :
  (∃ d, inflate_call new_decompressor reserved_stream [] 0 4 0 = Got (TINFL_STATUS_DONE, d, 4%nat, [65; 65; 65; 65])) ∧
  inflate_call new_decompressor reserved_stream [] 0 2 0 = OutOfBounds.
Proof. split; [eexists; vm_compute; reflexivity|vm_compute; reflexivity]. Qed.

(** A distance beyond the output so far is not refused with the ring buffer: bytes are
    taken from memory never written. *)
Theorem far_distance_taken :
  inflate_call new_decompressor [115; 4; 18; 0] [] 0 TINFL_LZ_DICT_SIZE 0 = OutOfBounds ∧
  ∃ d, inflate_call new_decompressor [115; 4; 18; 0] (replicate 32768 7) 0 TINFL_LZ_DICT_SIZE 0 =
    Got (TINFL_STATUS_DONE, d, 4%nat, [65; 7; 7; 7]).
Proof. split; [vm_compute; reflexivity|eexists; vm_compute; reflexivity]. Qed.
