(* ===== verification/ZipClaims.v ===== *)
(** * Properties of the unpacking of jars, and of the whole way to the running program

    What the pool leaves on disk, what a damaged or hostile archive can do, the checksum,
    and the linker's parts composed; each with an instance. *)
From stdpp Require Import sorting strings gmap list numbers.
From Stdlib Require Import Ascii.
From S2P Require Import Prelude CString Resources ResourcesProofs FindClasses Codegen CodegenProofs.
From S2P Require Import Jni ClassIndex ClassPath LinkLoad Boot BootProofs LinkMain LinkMainProofs.
From S2P Require Import FileSys ZipReader ZipSort ZipCrc Unzip ZipFormat UnzipProofs Unpacked ZipSafe Deflate Inflate InflateProofs LinkChain ToyZip.
From S2P Require Import LinkClaims BootClaims LinkMainClaims.
Local Open Scope Z_scope.

(** The entries that are compressed hold a stream for their data. *)
Definition streams_ok (js : list jar) : Prop :=
  ∀ j e, j ∈ js → e ∈ j_entries j → z_isdir e = false → z_method e = MZ_DEFLATED → deflated (z_stream e) (z_data e).

Lemma streams_inflate js :
  streams_ok js → ∀ j e, j ∈ js → e ∈ j_entries j → z_isdir e = false → z_method e = MZ_DEFLATED →
  inflates (H := tinfl) (z_stream e) (z_data e).
Proof. intros H j e Hj He Hd Hm. apply deflated_inflates. by eapply H. Qed.

(** C2: jars are unpacked whatever the schedule.  The pool runs [zip_extract] with the
    library's own decompressor on every jar at the same time, into one directory.  For jars
    that are well-formed archives with plain relative names and short names and comments
    ([jars_ok]), no file of which is in two of them, whose compressed entries are deflate
    streams of their data, with an empty directory, memory, and a file system that grants the
    calls: no schedule runs forever or gets stuck, and at the end of each every job has
    returned 0, below the directory are exactly the files of the entries, with their contents
    and modes, and the directories they need, and nothing else on disk has changed.  (Jars
    that share a file, and long names and comments, are in [common_file_mixed],
    [long_names_collide] and [long_comment_refused] below.) *)
Theorem jars_unpacked (alloc : Z → bool) (sys : system_env) (js : list jar) (f0 : tree) :
  (∀ n, alloc n = true) → (∀ c, refuses sys c = false) → jars_ok js → streams_ok js → ready sys js f0 →
  Acc (flip (crew_step sys)) (jobs_start alloc js f0) ∧
  ∀ w, rtc (crew_step sys) (jobs_start alloc js f0) w →
    (crew_done w ∨ ∃ w', crew_step sys w w') ∧
    (crew_done w → w.1 = replicate (length js) (Ret (Got 0)) ∧ unpacked sys js f0 w.2).
Proof.
  intros Hmem Hgr Hok Hdf Hrd. pose proof (streams_inflate js Hdf) as Hst. split; [apply crew_ends|]. intros w Hr. split; [apply crew_progress|]. intros Hd.
  destruct (jobs_unpack alloc sys js f0 Hmem Hgr Hok Hst Hrd w Hr Hd) as (Hlen & Hret & Hun). split; [|done].
  symmetry. apply replicate_as_Forall. split; [done|]. apply Forall_forall. intros p Hp. symmetry. auto.
Qed.

Section Claims.
Context `{EH : ExHash} {HL : ExHashLaws}.

(** C4: the linker turns jars into tables and code.  The jars are as for C2, their names are
    ones the class loader can use and none is that of a generated include file, and their
    sizes fit the tables ([linkable]); the generator of include files and the allocator never
    fail.  If the surroundings of the main program answer what its parts do (the jobs of the
    pool on the jars named on the command line, then the scan of the work directory, under
    any schedule of both), and the generated file can be written and the build command
    succeeds, the program returns EXSUCCEED, and the last thing it builds is the source with
    one row, sorted by name, for every file of the jars.  The classes are exactly those of
    the jars; among the resources there is also a row for every include file the walk met
    that a worker had written into the directory meanwhile. *)
Theorem jars_linked (alloc : Z → bool) (sys : system_env) (js : list jar) (f0 : tree) (w : crew (read Z))
    (entries : list (string * typeflag)) (o : os) (g : gstate) (r : Z)
    (sur : surroundings) (toks : list token) (ld : option string) (d owd : string) :
  (∀ n, alloc n = true) → (∀ c, refuses sys c = false) → jars_ok js → streams_ok js →
  ready sys js f0 → linkable js →
  rtc (crew_step sys) (jobs_start alloc js f0) w → crew_done w → nftw_meets sys w.2 entries →
  (∀ d, ndrx_file_gen_embed o (respath (elm_of d)) (embpath (elm_of d)) = true) →
  (∀ n, malloc_ok o n = true) →
  exjld_class_build_hash o (λ _, true) entries g r → plays sur js w g r →
  (∀ l x, string_list_add sur l x = Some (l ++ [x])) → Forall token_ok toks →
  let s := configured (main_init ld) (toks_opts toks) in
  g_main_class s ≠ ""%string → thpool_init_ok sur = true → mkdtemp sur (template_of (g_wd s)) = Some d →
  getcwd sur = Some owd → chdir_ok sur d = true →
  toks_jars toks ≠ [] → j_file <$> js = jar_file owd <$> toks_jars toks →
  (∀ b, fopen_ok sur b = true) → (∀ n c, system sur n c = EXSUCCEED) →
  ∃ acts s' cs es, main sur (render toks) ld = (EXSUCCEED, acts, s') ∧
    A_codegen false (CodegenOut EXSUCCEED (Some (jmain_c (cfg_of s') cs es 0)) [build_cmd (cfg_of s')]) ∈ acts ∧
    rows_of (in_jars js) ndrx_G_classes_hash cs ∧
    rows_of (λ path, in_jars js path ∨ generated path ∧ path ∈ entry_files entries) ndrx_G_emb_res_hash es.
Proof.
  intros Hmem Hgr Hok Hdf Hrd Hlk Hr Hd Hs Hgen Hmal Hb Hpl Hadd Htok s Hm Hpool Hmk Hcwd Hch Hne Hj Hop Hsys.
  pose proof (streams_inflate js Hdf) as Hst.
  assert (Hbuild : build_ok sur (entered s d owd) (toks_jars toks)).
  { by eapply (chain_build_ok alloc sys js f0). }
  destruct (chain_rows alloc sys js f0 Hmem Hgr Hok Hst Hrd Hlk w entries Hr Hd Hs o g r ndrx_G_classes_hash Hgen Hmal Hb) as (cs & Hcs & Rc).
  destruct (chain_rows alloc sys js f0 Hmem Hgr Hok Hst Hrd Hlk w entries Hr Hd Hs o g r ndrx_G_emb_res_hash Hgen Hmal Hb) as (es & Hes & Re).
  unfold main. rewrite (run_main_body sur Hadd toks _ d owd) by done. fold s.
  eexists _, _, _, _. split_and!; [reflexivity| |by eapply (rows_classes alloc)|by eapply (rows_resources alloc)].
  apply elem_of_app. left. apply elem_of_app. right. unfold build_actions. rewrite !elem_of_app. do 3 right.
  apply list_elem_of_singleton. unfold codegen_result, ndrxj_codegen.
  rewrite Hop, Hsys, (pl_classes _ _ _ _ _ Hpl cs Hcs), (pl_embs _ _ _ _ _ Hpl es Hes). done.
Qed.

Context (findLoadedClass super_loadClass : string → M boot_state jobject)
  (java_main : jobject → jobject → M boot_state unit).

(** C1: from a class in a jar to its [main].  The jars are as for C2 and C4, the generator of
    include files and the allocator never fail, and what goes into the tables are the bytes
    of the unpacked files, and anything where an include file was met.  For every schedule of
    the pool that unpacks the jars, every order in which the scan meets the files and every
    schedule of the pool that builds the tables: the build of the tables succeeds, and the
    binary with these tables, run with a readable configuration on a machine with memory that
    accepts the classes, calls [main] of the main class made from exactly the bytes the entry
    of the jar holds, with the command line without the name of the binary and the class path
    as URLs; if [main] returns with no exception pending, so does the program, with EXSUCCEED.
    In test mode all of this happens but the call. *)
Theorem jar_to_main (alloc : Z → bool) (sys : system_env) (js : list jar) (f0 : tree) (w : crew (read Z))
    (entries : list (string * typeflag)) (bytes : string → list Z) (o : os) (g : gstate) (r : Z)
    (vm : jvm) (env : boot_env) (path : string) (e : zentry) (main_class prog : string)
    (argv opts cp : list string) (test_mode : bool) (w0 : world boot_state) :
  (∀ n, alloc n = true) → (∀ c, refuses sys c = false) → jars_ok js → streams_ok js →
  ready sys js f0 → linkable js →
  rtc (crew_step sys) (jobs_start alloc js f0) w → crew_done w → nftw_meets sys w.2 entries →
  linked_bytes sys js w.2 entries bytes →
  (∀ d, ndrx_file_gen_embed o (respath (elm_of d)) (embpath (elm_of d)) = true) →
  (∀ n, malloc_ok o n = true) →
  exjld_class_build_hash o (λ _, true) entries g r →
  jar_has js path e → wf_path path ndrx_G_classes_hash main_class →
  boot_possible vm env → vm_hands_copies vm →
  (∀ w, findLoadedClass main_class w = Ok None w) → define_ok env main_class = true →
  jvm_class_exists vm (main_class +:+ ".main") = true →
  boot_configured env opts cp → JNI_CreateJavaVM env opts = true →
  w_x w0 = boot_init → w_exc w0 = None →
  r = EXSUCCEED ∧
  ∃ lg w1 lc la, linked_globals bytes g = Some lg ∧
    main_ready env main_class (z_data e) argv cp w1 lc la ∧ M_index (w_x w1) = lg ∧
    let run := ndrxj_run_main (H := static_java vm env findLoadedClass super_loadClass java_main)
                 vm env (prog :: argv) main_class lg test_mode w0 in
    if (test_mode : bool) then run = Ok EXSUCCEED (with_x (set_vm false (w_x w1)) w1)
    else ∀ w2, java_main (Some lc) (Some la) w1 = Ok tt w2 → w_exc w2 = None →
           run = Ok EXSUCCEED (with_x (set_vm false (w_x w2)) w2).
Proof.
  intros Hmem Hgr Hok Hdf Hrd Hlk Hr Hd Hs Hby Hgen Hmal Hb He Hp Hposs Hcop Hload Hdef Hmain Hconf Hjvm Hx Hex.
  pose proof (streams_inflate js Hdf) as Hst.
  assert (Hun : unpacked sys js f0 w.2) by by eapply (chain_unpacked alloc).
  assert (Hwf : wf_entries entries) by by eapply (chain_wf alloc sys js f0).
  split; [by apply (build_elems o Hgen Hmal entries Hwf g r ndrx_G_classes_hash Hb)|].
  rewrite <-(chain_bytes alloc sys js f0 Hmem Hgr Hok Hst Hrd w entries Hr Hd bytes Hby path e He).
  destruct (linked_program_starts findLoadedClass super_loadClass java_main o bytes entries g r
    vm env path main_class prog argv opts cp test_mode w0) as (lg & w1 & lc & la & Hlg & Hready & Hidx & Hrun); try done.
  - intros p. by apply (scan_nul_free sys js f0 w.2 entries).
  - intros p. by eapply (chain_size alloc sys js f0).
  - apply Hby.
  - by eapply (scan_jars sys js f0 w.2).
  - exists lg, w1, lc, la. split_and!; [done..|]. cbv zeta. rewrite Hrun. destruct test_mode; [done|].
    intros w2 Hj Hw2. unfold after_main. by rewrite Hj, Hw2.
Qed.
End Claims.

(** C7: no archive makes the reader leave its buffers.  Whatever bytes the file has, whatever
    the other calls answer, however much memory is granted and whatever decompressor there is:
    [zip_extract] into a named directory never reads beyond the central directory, whose
    records it sorts by name, the local header or the end record; opening the archive ends,
    its search for the end record and the sort included, and the index then holds every record
    once.  Accesses of the decompressor to its own buffers are counted apart: [guarded] takes
    one outside of them for a failed decompression (the library's makes such accesses,
    [reserved_length_overruns]), and with a decompressor that makes none nothing at all is
    read outside of a buffer. *)
Theorem hostile_archive (I : Inflator) (alloc : Z → bool) (cb : option (string → Z)) (zipname dir : string) (file : list Z) :
  dir ≠ ""%string → bytes_ok file → len file < 2 ^ 62 →
  leaves in_bounds (zip_extract (H := guarded I) alloc cb zipname dir) ∧
  ((∀ r input buf pos room flags, in_bounds (tinfl_decompress (Inflator := I) r input buf pos room flags)) →
   leaves in_bounds (zip_extract (H := I) alloc cb zipname dir)) ∧
  mz_zip_reader_init_file alloc file ≠ Endless ∧
  ∀ z, mz_zip_reader_init_file alloc file = Got z →
    ∃ st, m_pState z = Some st ∧ m_sorted_central_dir_offsets st ≡ₚ record_numbers (m_total_files z).
Proof.
  intros Hd Hf Hl. split_and!; [apply leaves_zip_extract; [exact (guarded_stays I)|done]|intros; by apply leaves_zip_extract|..];
    pose proof (safe_init alloc file Hf Hl) as Hs; destruct (mz_zip_reader_init_file alloc file) as [z| | |]; try done.
  intros z' [= <-]. destruct Hs as (st & Hz & _ & _ & _ & _ & _ & _ & Hp). by exists st.
Qed.

(** C8: damaged contents are refused.  Whatever the archive, the decompressor and the file
    system do: if an entry is reported as extracted, the file holds exactly as many bytes as
    the directory of the archive says and they have the checksum it says, or there was
    nothing to extract and the file is empty. *)
Theorem extracted_is_checked `{Inflator} (alloc : Z → bool) (sys : system_env) (z : mz_zip_archive) (i : Z)
    (path : string) (f f' : tree) :
  run sys (mz_zip_reader_extract_to_file alloc z i path) f = (Got tt, f') →
  ∃ key c m, resolve f (cwd sys) true path = Some key ∧ f' !! key = Some (File c m) ∧
    (entry_checks z i = Got None ∧ c = [] ∨
     ∃ st, entry_checks z i = Got (Some st) ∧ len c = m_uncomp_size st ∧ mz_crc32 MZ_CRC32_INIT c = m_crc32 st).
Proof. apply to_file_checked. Qed.

(** C25: the checksum is CRC-32.  The loop over half bytes with its table of sixteen entries
    computes the bitwise remainder, fits 32 bits, and may be taken over a file piece by
    piece. *)
Theorem checksum_is_crc32 (a b : list Z) :
  Forall (λ b, 0 ≤ b < 256) (a ++ b) →
  mz_crc32 (mz_crc32 MZ_CRC32_INIT a) b = crc32_spec (a ++ b) ∧ 0 ≤ crc32_spec (a ++ b) < 2 ^ 32.
Proof.
  intros H. rewrite <-crc_app, <-crc_spec by done. split; [done|]. by apply crc_word.
Qed.

(** ** Instances *)

Lemma jars_unpacked_witness :
  ∃ w, rtc (crew_step demo_sys) (jobs_start (λ _, true) demo_jars demo_tree) w ∧
    w.1 = [Ret (Got 0); Ret (Got 0)] ∧
    w.2 !! ["tmp"; "wd"; "app"; "Main.class"]%string = Some (File [202; 254; 186; 190; 1] 420) ∧
    w.2 !! ["tmp"; "wd"; "app"; "conf.ini"]%string = Some (File (text "key=value") 420).
Proof.
  destruct (jars_unpacked (λ _, true) demo_sys demo_jars demo_tree (λ _, eq_refl) (λ _, eq_refl) demo_jars_ok
    demo_deflated demo_ready) as [_ Hall].
  destruct (crew_finishes demo_sys (jobs_start (λ _, true) demo_jars demo_tree)) as (w & Hr & Hd).
  destruct (Hall w Hr) as [_ Hend]. destruct (Hend Hd) as [Hret Hun]. exists w. split_and!; [done|done| |].
  - by apply (up_files _ _ _ _ Hun (Jar "/home/u/a.jar" [dir_entry ["app"]%string; main_entry] (text "made by hand")) main_entry);
      [left|right; left|].
  - by apply (up_files _ _ _ _ Hun (Jar "/opt/b.jar" [util_entry; conf_entry] []) conf_entry); [right; left|right; left|].
Defined.

(** The contents of the files; include files are taken to be empty. *)
Definition demo_bytes (f : tree) (path : string) : list Z :=
  if decide (path ∈ ["./app/Main.class"; "./Util.class"; "./app/conf.ini"]%string) then file_bytes demo_sys f path else [].

(** A run of the linker's parts on the two jars. *)
Record demo_run (w : crew (read Z)) (entries : list (string * typeflag)) (g : gstate) (r : Z) : Prop := {
  dr_run : rtc (crew_step demo_sys) (jobs_start (λ _, true) demo_jars demo_tree) w;
  dr_done : crew_done w;
  dr_scan : nftw_meets demo_sys w.2 entries;
  dr_bytes : linked_bytes demo_sys demo_jars w.2 entries (demo_bytes w.2);
  dr_built : exjld_class_build_hash (H := list_exhash) good_os (λ _, true) entries g r
}.

Lemma demo_run_exists : ∃ w entries g r, demo_run w entries g r.
Proof.
  destruct (crew_finishes demo_sys (jobs_start (λ _, true) demo_jars demo_tree)) as (w & Hr & Hd).
  assert (Hun : unpacked demo_sys demo_jars demo_tree w.2).
  { by apply (jobs_unpack (λ _, true) demo_sys demo_jars demo_tree (λ _, eq_refl) (λ _, eq_refl) demo_jars_ok
      demo_streams demo_ready). }
  pose proof (unpacked_listing demo_sys demo_jars demo_tree w.2 demo_jars_ok Hun) as Hl.
  destruct (build_exists (H := list_exhash) (HL := list_exhash_laws) good_os (λ _, eq_refl) (λ _, eq_refl)
    (listing demo_sys w.2)) as (g & r & Hb).
  { by eapply (chain_wf (λ _, true) demo_sys demo_jars demo_tree (λ _, eq_refl) (λ _, eq_refl) demo_jars_ok
      demo_streams demo_ready demo_linkable). }
  exists w, (listing demo_sys w.2), g, r. split; [done..| |done]. split.
  - intros path e He. unfold demo_bytes. rewrite decide_True; [done|]. destruct (demo_files path e He) as [->|[->| ->]]; set_solver.
  - intros path (h & n & -> & _). unfold demo_bytes. rewrite decide_False; [done|]. destruct h; set_solver.
  - pose proof (listing_count demo_sys demo_jars demo_tree w.2 demo_jars_ok demo_ready Hun) as Hc.
    change (length (all_files demo_jars)) with 3%nat in Hc. lia.
Qed.

(** Surroundings that answer what the parts do. *)
Definition parts_sur (g : gstate) (r : Z) : surroundings :=
  Surroundings (λ l x, Some (l ++ [x])) true (mkdtemp demo_sur) (getcwd demo_sur) (λ _, true) (λ l, rev l)
    (λ l, Permutation_sym (Permutation_rev l)) (λ _, EXSUCCEED) r
    (default [] (exljd_res_sort_by_resname (H := list_exhash) <$> hash_elems g ndrx_G_classes_hash))
    (default [] (exljd_res_sort_by_resname (H := list_exhash) <$> hash_elems g ndrx_G_emb_res_hash))
    (λ _, true) (λ _ _, EXSUCCEED).

Lemma jars_linked_witness :
  ∃ w entries g r acts s', demo_run w entries g r ∧
    main (parts_sur g r) (render demo_tokens) None = (EXSUCCEED, acts, s').
Proof.
  destruct demo_run_exists as (w & entries & g & r & HR). exists w, entries, g, r.
  destruct (jars_linked (EH := list_exhash) (HL := list_exhash_laws) (λ _, true) demo_sys demo_jars demo_tree w entries
    good_os g r (parts_sur g r) demo_tokens None "./exjld.abc123" "/home/u") as (acts & s' & _ & _ & Hm & _);
    [done|done|exact demo_jars_ok|exact demo_deflated|exact demo_ready|exact demo_linkable|apply HR|apply HR|apply HR
    |done|done|apply HR| |done|by repeat constructor|done|done|done|done|done|done|done|done|done|].
  - split; [|done|by intros l E; cbn [class_list parts_sur]; rewrite E|by intros l E; cbn [emb_list parts_sur]; rewrite E].
    intros i j st Hj Hst. rewrite (chain_status (λ _, true) demo_sys demo_jars demo_tree (λ _, eq_refl) (λ _, eq_refl)
      demo_jars_ok demo_streams demo_ready w (dr_run _ _ _ _ HR) (dr_done _ _ _ _ HR) i j Hj) in Hst. by injection Hst as <-.
  - exists acts, s'. split; [exact HR|exact Hm].
Defined.

Lemma jar_to_main_witness :
  ∃ w entries g r lg w1 lc la, demo_run w entries g r ∧
    main_ready demo_env "app.Main" [202; 254; 186; 190; 1] ["-v"; "file"]%string demo_cp w1 lc la ∧
    ndrxj_run_main (H := static_java good_vm demo_env (λ _, mret None) (λ _, mret None) (λ _ _, mret tt))
      good_vm demo_env ["prog"; "-v"; "file"]%string "app.Main" lg false boot_world =
    Ok EXSUCCEED (with_x (set_vm false (w_x w1)) w1).
Proof.
  destruct demo_run_exists as (w & entries & g & r & HR). exists w, entries, g, r.
  assert (Hp : wf_path "./app/Main.class" ndrx_G_classes_hash "app.Main").
  { apply (wf_class "app/Main"); [done..|]. unfold PATH_MAX. simpl. lia. }
  assert (He : jar_has demo_jars "./app/Main.class" main_entry).
  { exists (Jar "/home/u/a.jar" [dir_entry ["app"]%string; main_entry] (text "made by hand")).
    split_and!; [by left|by right; left|done|done]. }
  destruct (jar_to_main (EH := list_exhash) (HL := list_exhash_laws) (λ _, mret None) (λ _, mret None) (λ _ _, mret tt)
    (λ _, true) demo_sys demo_jars demo_tree w entries (demo_bytes w.2) good_os g r good_vm demo_env "./app/Main.class" main_entry
    "app.Main" "prog" ["-v"; "file"]%string ["-cp /lib/a.jar"; "-Xmx64m"]%string demo_cp false boot_world)
    as (_ & lg & w1 & lc & la & _ & Hready & _ & Hrun);
    [done|done|exact demo_jars_ok|exact demo_deflated|exact demo_ready|exact demo_linkable|apply HR|apply HR|apply HR
    |apply HR|done|done|apply HR|exact He|exact Hp|exact demo_possible|done|done|done|done|exact demo_configured|done|done|done|].
  exists lg, w1, lc, la. split_and!; [exact HR|exact Hready|]. apply Hrun; [done|exact (mr_exc _ _ _ _ _ _ _ _ Hready)].
Defined.

(** The library's decompressor, on an archive with one directory and one class. *)
Lemma hostile_archive_witness :
  leaves in_bounds (zip_extract (H := guarded tinfl) (λ _, true) None "x.jar" ".") ∧
  mz_zip_reader_init_file (λ _, true) (archive [dir_entry ["app"]%string; main_entry] (text "made by hand")) ≠ Endless.
Proof.
  destruct (hostile_archive tinfl (λ _, true) None "x.jar" "." (archive [dir_entry ["app"]%string; main_entry] (text "made by hand")))
    as (H1 & _ & H2 & _); [done| |done|split; [exact H1|exact H2]].
  apply (bool_decide_unpack _). vm_compute. exact I.
Defined.

(** The first jar, opened. *)
Definition demo_zip : mz_zip_archive :=
  match mz_zip_reader_init_file (λ _, true) (archive [dir_entry ["app"]%string; main_entry] (text "made by hand")) with
  | Got z => z
  | _ => ZipArchive 0 0 0 MZ_ZIP_MODE_INVALID None
  end.

Lemma extracted_is_checked_witness :
  ∃ f' key c m, run demo_sys (mz_zip_reader_extract_to_file (λ _, true) demo_zip 1 "./Main.class") demo_tree = (Got tt, f') ∧
    f' !! key = Some (File c m) ∧
    (entry_checks demo_zip 1 = Got None ∧ c = [] ∨
     ∃ st, entry_checks demo_zip 1 = Got (Some st) ∧ len c = m_uncomp_size st ∧ mz_crc32 MZ_CRC32_INIT c = m_crc32 st).
Proof.
  destruct (run demo_sys (mz_zip_reader_extract_to_file (λ _, true) demo_zip 1 "./Main.class") demo_tree) as [x f'] eqn:E.
  assert (x = Got tt) as ->.
  { change x with ((x, f').1). rewrite <-E. vm_compute. reflexivity. }
  destruct (extracted_is_checked (λ _, true) demo_sys demo_zip 1 "./Main.class" demo_tree f' E) as (key & c & m & _ & Hc).
  exists f', key, c, m. split; [reflexivity|exact Hc].
Defined.

Lemma checksum_is_crc32_witness :
  mz_crc32 (mz_crc32 MZ_CRC32_INIT (text "12345")) (text "6789") = crc32_spec (text "123456789") ∧
  0 ≤ crc32_spec (text "123456789") < 2 ^ 32.
Proof. apply (checksum_is_crc32 (text "12345") (text "6789")). by repeat constructor. Defined.

(** ** What the library does not guard against *)

(** A tree with one jar. *)
Definition one_jar (es : list zentry) (comment : list Z) : tree :=
  <[ ["opt"; "x.jar"]%string := File (archive es comment) 420 ]> demo_tree.

Definition unzip_one (es : list zentry) : read Z * tree :=
  run demo_sys (zip_extract (λ _, true) None "/opt/x.jar" ".") (one_jar es []).

(** A name that climbs: the file is written outside of the work directory. *)
Theorem name_climbs_out :
  let '(r, f) := unzip_one [plain_entry [".."; ".."; "home"; "u"; "run.sh"]%string 0 (text "rm")] in
  r = Got 0 ∧ f !! ["home"; "u"; "run.sh"]%string = Some (File (text "rm") 420).
Proof. vm_compute. done. Qed.

(** A link of the archive is followed by the entries after it. *)
Definition link_entry (name target : string) : zentry :=
  ZEntry [name] false (text target) 0 (text target) 0x031E 20 0 0 0 0 (Z.shiftl 41471 16) [] [] (replicate 22 0) [] [].

Theorem link_climbs_out :
  let '(r, f) := unzip_one [link_entry "d" "/home/u"; plain_entry ["d"; "run.sh"]%string 0 (text "rm")] in
  r = Got 0 ∧ f !! ["home"; "u"; "run.sh"]%string = Some (File (text "rm") 420).
Proof. vm_compute. done. Qed.

(** Names are cut after 259 bytes: two classes become one file. *)
Definition long_name (c : string) : string := foldr (λ c s, String.app c s) (c +:+ ".class") (replicate 259 "p"%string).

Theorem long_names_collide :
  let '(r, f) := unzip_one [plain_entry [long_name "A"] 0 [1]; plain_entry [long_name "B"] 0 [2]] in
  r = Got 0 ∧ f !! ["tmp"; "wd"; foldr (λ c s, String.app c s) "" (replicate 259 "p"%string)]%string = Some (File [2] 420).
Proof. vm_compute. done. Qed.

(** The step back from a window is unsigned: an archive shorter than two windows whose
    comment is longer than one is refused. *)
Theorem long_comment_refused :
  mz_zip_reader_init_file (λ _, true) (archive [util_entry] (replicate 4100 32)) = MZ_FALSE.
Proof. vm_compute. reflexivity. Qed.

(** The check of the sizes of a stored entry reads the method and the time as one number:
    with a time it lets different sizes pass. *)
Theorem stored_sizes_pass :
  let bad time := ZEntry ["x"%string] false [1] 0 [1; 2] 0x031E 20 0 time 0 0 0 [] [] (replicate 22 0) [] [] in
  mz_zip_reader_init_file (λ _, true) (archive [bad 0] []) = MZ_FALSE ∧
  ∃ z, mz_zip_reader_init_file (λ _, true) (archive [bad 1] []) = Got z.
Proof. split; [vm_compute; reflexivity|eexists; vm_compute; reflexivity]. Qed.

(** Two jars with one file in common, as every jar has its manifest: both jobs report
    success, and the file is neither of the two. *)
Theorem common_file_mixed :
  let mf s := [plain_entry ["MANIFEST.MF"]%string 0 (text s)] in
  let f0 := <[ ["opt"; "y.jar"]%string := File (archive (mf "yy") []) 420 ]> (one_jar (mf "xxxxx") []) in
  let job n := zip_extract (λ _, true) None n "." in
  let w := ([job "/opt/x.jar"; job "/opt/y.jar"]%string, f0) in
  ∃ w', rtc (crew_step demo_sys) w w' ∧ w'.1 = [Ret (Got 0); Ret (Got 0)] ∧
    w'.2 !! ["tmp"; "wd"; "MANIFEST.MF"]%string = Some (File (text "yyxxx") 420).
Proof.
  cbv zeta. set (w := (_, _)). exists (crew_run demo_sys ([0; 0; 0; 1; 1; 1; 0; 1] ++ replicate 9 0 ++ replicate 9 1)%nat w).
  split; [apply crew_run_reach|]. vm_compute. done.
Qed.
